(* ===== verification/_CoqProject ===== *)
-Q . S2P
Prelude.v
Sha256.v
KVStore.v
LvTypes.v
LvCodec.v
LvDummyStwo.v
LvMerkle.v
LvBitfield.v
LvHost.v
LvPower.v
LvPairs.v
LvKeeper.v
LvAbci.v
Sdk.v
TokenFactory.v
FeeShare.v
GlobalFee.v
Json.v
SaFilter.v
SaAuth.v
SaPolicy.v
SaKeeper.v
SaAnte.v
JsonPrint.v
Proto.v
HmTypes.v
HmKeeper.v
HmVote.v
Drip.v
CwHooks.v
FfiCodec.v
FfiParticipants.v
FfiDriver.v
FfiRpc.v
LvWrap.v
LvQuery.v
SliceHelper.v
Patch520.v
Ipfs.v
FeeShareQuery.v
HmQuery.v
AnteChain.v
Queries.v
Cli.v
FfiEpoch.v
Bootstrap.v
Wire.v
WireLaws.v
Pulsar.v
WireToy.v
WireFs.v
WireHm.v
WireSa.v
WireTf.v
WireCw.v
WireDrip.v
WireGf.v
ApiFs.v
ApiHm.v
ApiSa.v
ApiTf.v
ApiDrip.v
ApiGf.v
ApiClock.v
Reflect.v
ReflHm.v
ReflFs.v
ReflSa.v
ReflTf.v
ReflDrip.v
ReflGf.v
ReflClock.v
