(* ===== verification/Prelude.v ===== *)
(** * terp-core: a verification library

    This library models the core of terp-core, a Cosmos SDK application in Go,
    and proves what makes it correct. Sources are named relative to [src/].

    ** The program

    A terp-core node is an SDK application whose validator set is not decided
    by staking: [x/leanval] keeps a roster of members (a deposit index per
    member, a bitfield of who is active, a byte of effective balance each), and
    every block the proposer injects a transaction, the LNPR, that lists the
    subjects of the period with proofs of their balances. The other nodes check
    it in ProcessProposal, the block stages it, the end of the block applies it
    to the roster, and [ValidatorUpdates] tells the consensus engine the new
    powers. Members come and go by JOIN and LEAV requests that wait in a queue
    until an LNPR carries them. Beside it, [x/tokenfactory] lets accounts
    create and administer their own denoms, [x/feeshare] pays developers a
    share of the fees of the contracts they registered, [x/globalfee] sets the
    minimum fees of the network, [x/smart-account] lets an account replace
    its signature check by authenticators it registers, and [x/hashmerchant]
    has the validators agree, through their votes, on roots of foreign chains
    and calls the contracts that pay for them; [x/cw-hooks] calls registered
    contracts on staking and governance events, and [x/drip] lets listed
    accounts pay into the fee collector. In place of the SDK's consensus engine
    a node can run a simplex engine: [x/leanval/cwffi] is the driver between it
    and the application, and serves blocks to nodes that catch up.

    ** The files

    - [Prelude]: bytes, slices, machine integers, the error and state monad in
      which Go methods are written ([result], [meth]), shared lemmas, tactics.
    - [Sha256]: the hash, executable, with published test vectors.
    - [KVStore]: [x/leanval/keeper/{store,kvstore}.go], a finite map with
      ordered prefix iteration; every module's store.
    - [LvTypes], [LvCodec]: [x/leanval/types], the store keys and the LNPR,
      JOIN, LEAV and SSLE wire formats; each decoder is characterised exactly,
      and no two store keys share bytes.
    - [LvPairs]: [types/pairs.go], the reader of store queries.
    - [LvDummyStwo], [LvMerkle], [LvHost]: the dummy prover and verifier, the
      Merkle trees, and the routing of real proofs to the prover host, which is
      native code and so a record of functions ([host]).
    - [LvBitfield]: index, bitfield, balances and roots ([bitfield.go],
      [roots.go]) on the byte store, refined to a list of rows ([roster_rel]).
    - [LvPower]: [power.go], [membership.go]: the bonded set, carry-over,
      joins and leaves, and [ValidatorUpdates] against a model of what the
      consensus engine accepts ([engine_apply]).
    - [LvKeeper]: the keeper record; genesis, the membership queue,
      [verifyLNPR] and [ApplyLNPR].
    - [LvAbci]: [abci.go], [txdecode.go], [checktx.go], [reap.go]: proposals,
      mempool, staging; a step relation of the chain ([chain_step]).
    - [Sdk]: the interface of the SDK: the functions the other modules call
      (class [Sdk]), the documented behaviour they rely on ([BankLaws],
      [AdminCodec], [AddressLaws]), and a small bank that satisfies it.
    - [TokenFactory]: [x/tokenfactory]: denoms, the seven messages, genesis.
    - [FeeShare]: [x/feeshare]: the registry, genesis, and the fee payout.
    - [GlobalFee]: [x/globalfee]: parameters, the required fee and the fee
      decorator.
    - [Json]: Go's [encoding/json] and base64 as far as configurations use
      them: a parser with Go's nesting limit, and decimal printing.
    - [SaFilter], [SaAuth], [SaPolicy]: [x/smart-account/authenticator]: the
      message filter, the authenticator types and their manager, and what
      trees of them decide.
    - [SaKeeper]: [x/smart-account/{keeper,types}] and its genesis: the
      registry of authenticators, messages, parameters, the cached flag.
    - [SaAnte]: [x/smart-account/{ante,post}]: the ante handler with its two
      gas meters and cached stores, the circuit breaker, the post handler.
    - [JsonPrint]: [json.Marshal] and base64, and that the parser reads back
      what they print.
    - [HmTypes], [HmKeeper]: [x/hashmerchant/{types,keeper}]: records, messages,
      the registries and escrows on the store, pruning, genesis.
    - [HmVote]: [keeper/{vote_ext,oracle,abci}.go]: the sidecar, vote
      extensions, the tally, callbacks, the injected commit.
    - [Proto]: the interface of the protobuf codec ([Proto], [ProtoLaws]), and
      a small instance.
    - [Drip]: [x/drip]; [CwHooks]: [x/cw-hooks]: registries, messages, every
      hook with the JSON it sends, genesis.
    - [FfiCodec]: [x/leanval/cwffi/{payload,cert}.go]: payloads, certificates,
      the two-thirds rule. [FfiParticipants]: [participants.go]: who takes part,
      read from raw store queries. [FfiDriver]: [driver.go]: each call of the
      engine as one step, over a class of applications ([EngineApp]).
    - [FfiRpc]: [cwffi/rpc.go] and the catch-up client of
      [server/commonware.go]. [FfiEpoch]: the rest of that file and
      [cwffi/ffi.go]: when the engine is started, over a class of native engines
      ([Native], [NativeLaws]), and a step relation of the node ([node_step]).
    - [LvWrap]: what the stock staking, slashing and distribution modules (class
      [StockModules]) are given under the lean validator set, and the guard of
      [x/leanval/ante].
    - [LvQuery]: [x/leanval/types/{query,query_json}.go] and
      [keeper/grpc_query.go]: the query service and its wire formats.
    - [Patch520]: [app/upgrades/v520]: the upgrade that settles broken
      delegations, over a class of the distribution and staking keepers
      ([DistrSdk], [DistrLaws]).
    - [SliceHelper]: [terputils/slice_helper.go].
    - [Ipfs]: [cmd/ipfs]: content identifiers and the upload that names its
      bytes by one, over the classes [Multiformats] and [MultiformatsLaws].
    - [FeeShareQuery]: [x/feeshare]: listings, export, the messages' stateless
      checks, the query server, the decorator and the migration.
    - [HmQuery]: the query server of [x/hashmerchant]; [Queries]: those of
      [x/tokenfactory], [x/smart-account], [x/cw-hooks], [x/drip] and
      [x/globalfee].
    - [AnteChain]: [app/abci/{ante,post}.go] and
      [x/smart-account/ante/pubkey.go]: the ante chain of the application, put
      together from [SaAnte], [LvWrap] and the SDK's decorators (class
      [AnteSdk]).
    - [Cli]: [terputils/terpcli]: messages filled from arguments and flags by
      reflection, the argument counts and usage lines.

    - [Bootstrap]: [cmd/terpd/cmd/bootstrap.go]: the command that sets a node up
      and starts it, over a class of host operations ([Host], [HostLaws]).
    - [Wire]: the helpers of the generated [.pb.go] files and the loops of
      [Marshal] and [Unmarshal], written once; [WireLaws]: what a writer and a
      reader of one field promise, and the class [WireLaws] that one message
      promises to the message it is part of. [WireHm], [WireFs], [WireSa],
      [WireTf], [WireCw], [WireDrip], [WireGf]: the codec of every message with
      fields of [x/{hashmerchant,feeshare,smart-account,tokenfactory,cw-hooks,
      drip,globalfee}/types], field by field.
    - [Pulsar]: the same for the messages under [api/], which keep the fields
      they do not know; [ApiHm], [ApiFs], [ApiSa], [ApiTf], [ApiDrip], [ApiGf],
      [ApiClock]: their codecs, and that they agree with those of the chain
      (classes [PulsarLaws], [ApiLaws]). [WireToy]: codecs of SDK types for the
      witnesses.
    - [Reflect]: the reflection methods of the messages under [api/], as tables
      of fields, with their kinds ([kind]), the list wrappers and the
      [Contract] of [protoreflect.Message]; [ReflHm], [ReflFs], [ReflSa],
      [ReflTf], [ReflDrip], [ReflGf], [ReflClock]: the tables.

    A definition keeps the Go name where it can; the state of a component is a
    record or a store, a method that can fail is a [meth], and a loop with
    early exits is a fixpoint named after the function it is part of.

    ** What is shown

    - Consensus safety of the validator set: from a valid genesis, in every
      reachable state the engine accepts the announced updates and its table
      equals the recorded powers ([chain_safe]); what each announcement
      contains ([ValidatorUpdates_spec], [ValidatorUpdates_accepted]).
    - The LNPR: what an accepted one guarantees ([VerifyLNPR_sound],
      [WrapProcessProposal_sound]), what applying it does ([ApplyLNPR_refines]),
      that a prepared block carries it where it is expected
      ([WrapPrepareProposal_placed]), that it is applied once
      ([staged_LNPR_applied_once]), and when a proposal in dummy mode is
      accepted ([dummy_proposal_accepted_iff]).
    - Data refinement: roster, deposit root and bonded set on the byte store
      implement the abstract roster; genesis and codecs round-trip.
    - Commitments: the deposit root commits to the roster up to an explicit
      SHA-256 collision ([deposit_root_commits]); an accepted fold proof
      carries the object roots ([fold_binds_object_roots]).
    - Token factory: over every message, who can change a supply, an admin,
      metadata or take coins ([tf_step_authorized]); a denom without admin is
      frozen ([renounced_frozen]); the store invariant and total, valid export
      ([tf_run_export]); genesis round trip; the exact effect of each message.
    - Fee share: the registry implements a map with exact indexes
      ([registry_refines]), who can change a record, where payouts go and how
      they are rounded.
    - Global fee: which transactions the decorator accepts
      ([AnteHandle_accepts_iff]), what the requirement is ([requirement_spec]),
      that the binary search is a linear scan, that parameters stay valid.
    - Smart accounts: what a passed transaction was authenticated by
      ([AnteHandle_authenticates]), that fees are deducted once and survive a
      failure ([AnteHandle_fees]), that confirmations run ([PostHandle_confirms]);
      the policy a tree decides ([Authenticate_policy]), isolation of failed
      branches, unique node ids, initialization ends and accepts what may be
      added; the store implements a registry ([keeper_refines]) and genesis
      round-trips; who switches the module.
    - Hash merchant: every order of the tally writes the same roots when no two
      can have a quorum ([ProcessVoteExtensions_roots]), which extensions a peer
      accepts ([VerifyVoteExtension_accepts_iff]), typed store and covered
      escrows over every history ([hm_store_typed_covered]), what an escrow buys
      and when it lapses, genesis, and that the commit injected under
      [x/leanval] is the one processed ([injected_commit_processed]).
    - Hooks and drip: the registries are sets changed only as a message says
      ([cw_registry_refines]), every event reaches every registered contract
      ([staking_events_delivered], [gov_events_delivered]); who can pay into the
      fee collector ([drip_history]).
    - The engine driver: one block per height without a gap ([driver_chain]),
      never replaced ([driver_never_forks]); a commit has signers with two thirds
      of the roster's weight ([finalize_quorum]), over participants that are the
      roster ([participants_roster]), and two such quorums share a correct signer
      ([quorum_intersection]); what is proposed is what is verified
      ([proposal_delivered]); a node that catches up gets the block the other
      keeps ([catchup_copies]); the fees go to the signers
      ([fees_follow_certificate]). That a certificate is for the block it comes
      with is not checked by the code ([remote_certificate_unbound]).
    - Epochs: an engine that runs was started for the recorded epoch, with this
      node among its participants, and epochs only advance ([epochs_advance]);
      a waiting epoch is started ([rotation_starts]).
    - The reward patch: what a settled delegation is paid and how its records
      change ([patch_settles]), that it is healthy afterwards ([patch_heals]),
      and that the upgrade loses and creates nothing ([patch_conserves]).
    - Queries: a bonded set is read back as it was served ([query_served]); the
      fee share listings give each record once and only the matching ones
      ([fs_queries_exact]), and its genesis round-trips ([fs_genesis_roundtrip]);
      likewise the answers of the other query servers ([hm_queries_exact],
      [tf_queries_exact], [sa_queries_exact], [cw_queries_exact]).
    - Commands: each argument goes to the field whose turn it is
      ([ParseFields_positions]), when all are used ([tx_args_exact]), which
      numbers read back ([numbers_roundtrip]).
    - The ante chain: what a transaction that passes was checked by, and that it
      paid ([ante_authenticated]); what a refused one leaves ([ante_refused]).
    - Content identifiers: the streaming hash names the same bytes as the one in
      memory ([CidFromReader_equiv]), when two inputs share one
      ([CidFromBytes_iff]), that its text reads back ([cid_text_roundtrip]), and
      that a file's identifier commits to its bytes ([AddBytes_commits]).

    - Bootstrap: a node started with state sync has the genesis whose hash was
      configured and trusts a block that a configured server served
      ([bootstrap_statesync]); the servers are asked in turn
      ([statesync_loop_fails]).
    - The wire: every message is written without a panic into the announced
      size and read back (instances of [WireLaws]; [hm_records_roundtrip]),
      reading any bytes ends ([hm_unmarshal_total]), and the API codec writes
      the same bytes and reads those of the chain (instances of [ApiLaws];
      [hm_api_agrees]). What the keepers assume of the codec ([ProtoLaws]) is
      so proved for values that fit into a slice ([generated_proto_roundtrip],
      [generated_proto_reads]).
    - Reflection: the methods of every API message keep the contract
      ([table_contract] and a table lemma for each; [hm_reflection_contract]).
      A reference that [Mutable] returns stands for its contents, and writing
      through it for [Set]; nil and empty slices are one value.

    ** Bounds and fuel

    Integers keep their width where it matters ([u32], [u64], [i64] wrap).
    Recursion that is not structural carries fuel: the Merkle loop has the
    number of leaves ([merkle_fuel] shows more changes nothing), the pair
    readers the length of the input (the theorems show it never runs out), the
    JSON parser the length of its text, composite authenticators the length of
    their configuration ([Initialize_terminates]), the binary search the number
    of coins, the payload reader the length of the payload ([decode_txs_fuel]).
    A varint loop has eleven rounds, one more than the shift allows, the loop
    over the fields of a message one more than the length of the input.
    Messages and inputs are shorter than [2^63] bytes, as Go slices are. Heights
    and other lengths are bounded only where a theorem says so.

    ** What is not modelled

    Events, logs, gas outside the calls that charge it, diagnostics files; the
    SDK, wasmd, the consensus engine and the native prover, which are
    parameters; command lines of the modules and registration. Of the generated
    code the descriptors, getters, gateways and gRPC stubs
    are left out; a message without fields is modelled once ([WireCw]), and the
    codecs of SDK types and the helpers of the protobuf library that the API
    calls are parameters ([WireRuntime], [Options], [Values]). Writes to the membership
    directory are assumed to succeed. Sockets and timing of the simplex engine
    are left out; the engine itself and its certificate check are parameters. Of
    the node binary only [cmd/ipfs] and the bootstrap command are modelled: the
    rest reads and writes files, starts processes and prints. *)

From Stdlib Require Export ZArith Lia List.
From Stdlib Require Export Strings.Byte Strings.String.
From stdpp Require Export base gmap list strings sorting.

#[global] Open Scope Z_scope.

(** ** Bytes

    A Go [byte] is the Standard Library's [Byte.byte], so the range of a byte
    is part of its type; a Go [[]byte] (and a Go [string] used as a map key)
    is a list of them. *)

Abbreviation byte := Byte.byte.
Abbreviation bytes := (list Byte.byte).

(** The numeric value of a byte, [int(b)]. *)
Definition byte_val (b : byte) : Z := Z.of_N (Byte.to_N b).

(** The conversion [byte(z)], which keeps the low eight bits. *)
Definition byte_of_Z (z : Z) : byte :=
  match Byte.of_N (Z.to_N (z mod 256)) with
  | Some b => b
  | None => Byte.x00
  end.

(** A string literal as bytes: [[]byte("LNPR")]. *)
Definition str (s : String.string) : bytes := String.list_byte_of_string s.

#[global] Instance byte_eq_dec : EqDecision byte := Byte.byte_eq_dec.

(** [bytes.Equal] and Go's [==] on strings. *)
Definition bytes_eqb (a b : bytes) : bool := bool_decide (a = b).

(** ** Go slices

    [p[:n]] and [p[n:]] on an index that the surrounding code has checked. *)
Definition slice_to (n : Z) (p : bytes) : bytes := take (Z.to_nat n) p.
Definition slice_from (n : Z) (p : bytes) : bytes := drop (Z.to_nat n) p.
Definition slice (lo hi : Z) (p : bytes) : bytes := slice_to (hi - lo) (slice_from lo p).
Definition blen (p : bytes) : Z := Z.of_nat (length p).
(** [p[i]] on an index that the surrounding code has checked. *)
Definition byte_at (p : bytes) (i : nat) : byte := nth i p Byte.x00.

(** [copy(dst, src)] into a fresh zero buffer of [n] bytes: pads or truncates. *)
Definition copy_into (n : nat) (src : bytes) : bytes :=
  take n src ++ replicate (n - length src)%nat Byte.x00.

(** [bytes.HasPrefix]. *)
Fixpoint has_prefix (p s : bytes) : bool :=
  match p, s with
  | [], _ => true
  | a :: p', b :: s' => bool_decide (a = b) && has_prefix p' s'
  | _ :: _, [] => false
  end.

(** [bytes.Contains]. *)
Fixpoint bytes_contains (s sub : bytes) : bool :=
  has_prefix sub s ||
  match s with
  | [] => false
  | _ :: s' => bytes_contains s' sub
  end.

(** [bytes.Compare(a, b) <= 0] and [< 0]: lexicographic order. *)
Fixpoint bytes_leb (a b : bytes) : bool :=
  match a, b with
  | [], _ => true
  | _ :: _, [] => false
  | x :: a', y :: b' =>
      if byte_val x <? byte_val y then true
      else if byte_val y <? byte_val x then false
      else bytes_leb a' b'
  end.
Definition bytes_le (a b : bytes) : Prop := bytes_leb a b = true.
#[global] Instance bytes_le_dec : RelDecision bytes_le :=
  fun a b => bool_eq_dec (bytes_leb a b) true.

(** ** Machine integers

    A [uintN] is an integer in [0, 2^N); conversions wrap. *)
Definition u8 (z : Z) : Z := z mod 2 ^ 8.
Definition u32 (z : Z) : Z := z mod 2 ^ 32.
Definition u64 (z : Z) : Z := z mod 2 ^ 64.
(** [int64(z)]: two's complement. *)
Definition i64 (z : Z) : Z := (z + 2 ^ 63) mod 2 ^ 64 - 2 ^ 63.
Definition is_u32 (z : Z) : Prop := 0 <= z < 2 ^ 32.
Definition is_u64 (z : Z) : Prop := 0 <= z < 2 ^ 64.
Definition is_i64 (z : Z) : Prop := - 2 ^ 63 <= z < 2 ^ 63.

(** Reference big-endian codec over any width. *)
Fixpoint be_put (n : nat) (v : Z) : bytes :=
  match n with
  | O => []
  | S n' => byte_of_Z (Z.shiftr v (8 * Z.of_nat n')) :: be_put n' v
  end.
Fixpoint be_acc (acc : Z) (l : bytes) : Z :=
  match l with
  | [] => acc
  | b :: l' => be_acc (acc * 256 + byte_val b) l'
  end.
Definition be_get (l : bytes) : Z := be_acc 0 l.

(** ** Results

    A fallible Go function returns a value or an error; a method that mutates
    its receiver takes the state and gives it back on both paths (an error
    does not roll the receiver back). *)
Inductive result (E A : Type) : Type :=
| Ok (a : A)
| Err (e : E).
Arguments Ok {E A} a.
Arguments Err {E A} e.

Definition rbind {E A B : Type} (r : result E A) (k : A -> result E B) : result E B :=
  match r with
  | Ok a => k a
  | Err e => Err e
  end.

Definition is_ok {E A : Type} (r : result E A) : bool :=
  match r with Ok _ => true | Err _ => false end.

(** [if cond { return err }]. *)
Definition guard {E : Type} (fail : bool) (e : E) : result E unit :=
  if fail then Err e else Ok tt.

(** A mutating fallible method. *)
Definition meth (S E A : Type) : Type := S -> S * result E A.
Definition mret {S E A : Type} (a : A) : meth S E A := fun s => (s, Ok a).
Definition mfail {S E A : Type} (e : E) : meth S E A := fun s => (s, Err e).
Definition mbind {S E A B : Type} (m : meth S E A) (k : A -> meth S E B) : meth S E B :=
  fun s => match m s with
           | (s', Ok a) => k a s'
           | (s', Err e) => (s', Err e)
           end.
Definition mget {S E A : Type} (f : S -> A) : meth S E A := fun s => (s, Ok (f s)).
Definition mput {S E : Type} (f : S -> S) : meth S E unit := fun s => (f s, Ok tt).
Definition mlift {S E A : Type} (r : result E A) : meth S E A := fun s => (s, r).

(** [for _, x := range l { ... }] whose body may return an error. *)
Fixpoint mrange {S E A : Type} (l : list A) (body : A -> meth S E unit) : meth S E unit :=
  match l with
  | [] => mret tt
  | x :: l' => mbind (body x) (fun _ => mrange l' body)
  end.

Declare Scope go_scope.
Delimit Scope go_scope with go.
Notation "'try!' x <- c ; k" := (rbind c (fun x => k))
  (at level 10, x pattern, c at level 100, k at level 200) : go_scope.
Notation "'check!' c ; k" := (rbind c (fun _ => k))
  (at level 10, c at level 100, k at level 200) : go_scope.
Notation "'run!' x <- c ; k" := (mbind c (fun x => k))
  (at level 10, x pattern, c at level 100, k at level 200) : go_scope.
Notation "'exec!' c ; k" := (mbind c (fun _ => k))
  (at level 10, c at level 100, k at level 200) : go_scope.

(** ** Automation *)

(** Splits every [match] and [if] the goal or a hypothesis is stuck on. *)
Ltac go_step :=
  match goal with
  | H : Ok _ = Ok _ |- _ => injection H as H; try subst
  | H : Err _ = Err _ |- _ => injection H as H; try subst
  | H : Ok _ = Err _ |- _ => discriminate H
  | H : Err _ = Ok _ |- _ => discriminate H
  | H : Some _ = Some _ |- _ => injection H as H; try subst
  | H : Some _ = None |- _ => discriminate H
  | H : None = Some _ |- _ => discriminate H
  | H : (_, _) = (_, _) |- _ => injection H; clear H; intros; try subst
  | H : context [match ?x with _ => _ end] |- _ => destruct x eqn:?
  | |- context [match ?x with _ => _ end] => destruct x eqn:?
  end.
Ltac go_cases := repeat (go_step; cbn in *; try congruence).

(** Turns boolean comparisons into propositions for [lia]. *)
Ltac zbool :=
  repeat match goal with
  | H : (_ <? _) = true |- _ => apply Z.ltb_lt in H
  | H : (_ <? _) = false |- _ => apply Z.ltb_ge in H
  | H : (_ <=? _) = true |- _ => apply Z.leb_le in H
  | H : (_ <=? _) = false |- _ => apply Z.leb_gt in H
  | H : (_ =? _) = true |- _ => apply Z.eqb_eq in H
  | H : (_ =? _) = false |- _ => apply Z.eqb_neq in H
  | H : _ && _ = true |- _ => apply andb_prop in H; destruct H
  | H : negb _ = true |- _ => apply negb_true_iff in H
  | H : negb _ = false |- _ => apply negb_false_iff in H
  end.

Create HintDb go.
Create HintDb bytes.

(** ** Lemmas on bytes *)

Lemma byte_val_range b : 0 <= byte_val b < 256.
Proof.
  unfold byte_val. pose proof (Byte.to_N_bounded b). lia.
Qed.
#[export] Hint Resolve byte_val_range : bytes.

Lemma byte_val_of_Z z : byte_val (byte_of_Z z) = z mod 256.
Proof.
  unfold byte_val, byte_of_Z.
  pose proof (Z.mod_pos_bound z 256 ltac:(lia)) as Hb.
  destruct (Byte.of_N (Z.to_N (z mod 256))) as [b|] eqn:E.
  - apply Byte.to_of_N in E. rewrite E. lia.
  - apply Byte.of_N_None_iff in E. lia.
Qed.

Lemma byte_val_inj a b : byte_val a = byte_val b -> a = b.
Proof.
  unfold byte_val. intros H. apply N2Z.inj in H.
  pose proof (Byte.of_to_N a) as Ha. pose proof (Byte.of_to_N b) as Hb.
  rewrite H in Ha. congruence.
Qed.

Lemma byte_of_Z_val b : byte_of_Z (byte_val b) = b.
Proof.
  apply byte_val_inj. rewrite byte_val_of_Z.
  apply Z.mod_small, byte_val_range.
Qed.

Lemma byte_of_Z_mod z z' : z mod 256 = z' mod 256 -> byte_of_Z z = byte_of_Z z'.
Proof. intros H. unfold byte_of_Z. by rewrite H. Qed.

#[global] Program Instance byte_countable : Countable byte :=
  {| encode b := encode (Byte.to_N b);
     decode p := match decode p with Some n => Byte.of_N n | None => None end |}.
Next Obligation.
  intros b. cbn. rewrite decode_encode. apply Byte.of_to_N.
Qed.

Lemma bytes_eqb_eq a b : bytes_eqb a b = true <-> a = b.
Proof. unfold bytes_eqb. by rewrite bool_decide_eq_true. Qed.
Lemma bytes_eqb_neq a b : bytes_eqb a b = false <-> a <> b.
Proof. unfold bytes_eqb. by rewrite bool_decide_eq_false. Qed.
Lemma bytes_eqb_refl a : bytes_eqb a a = true.
Proof. by apply bytes_eqb_eq. Qed.

(** ** Lemmas on prefixes *)

Lemma has_prefix_app p s : has_prefix p (p ++ s) = true.
Proof. induction p as [|a p IH]; cbn; [done|]. by rewrite bool_decide_true. Qed.

Lemma has_prefix_true p s : has_prefix p s = true <-> exists t, s = p ++ t.
Proof.
  split.
  - revert s. induction p as [|a p IH]; intros [|b s] H; cbn in H; try done; eauto.
    apply andb_prop in H as [H1 H2]. apply bool_decide_eq_true in H1. subst.
    destruct (IH _ H2) as [t ->]. by exists t.
  - intros [t ->]. apply has_prefix_app.
Qed.

Lemma has_prefix_length p s : has_prefix p s = true -> (length p <= length s)%nat.
Proof. intros [t ->]%has_prefix_true. rewrite length_app. lia. Qed.

(** A prefix of known bytes decides another prefix of the same length. *)
Lemma has_prefix_take p s :
  has_prefix p s = true <-> take (length p) s = p.
Proof.
  rewrite has_prefix_true. split.
  - intros [t ->]. by rewrite take_app_length.
  - intros H. exists (drop (length p) s). rewrite <- H at 1. by rewrite take_drop.
Qed.
#[export] Hint Resolve has_prefix_app : bytes.

(** ** The order on byte strings is a total order *)

Lemma bytes_le_refl a : bytes_le a a.
Proof.
  unfold bytes_le. induction a as [|x a IH]; cbn; [done|].
  by rewrite !Z.ltb_irrefl.
Qed.

Lemma bytes_le_trans a b c : bytes_le a b -> bytes_le b c -> bytes_le a c.
Proof.
  unfold bytes_le. revert b c.
  induction a as [|x a IH]; intros [|y b] [|z c]; cbn; try done.
  repeat case_match; zbool; try done; try lia. apply IH.
Qed.

Lemma bytes_le_total a b : bytes_le a b \/ bytes_le b a.
Proof.
  unfold bytes_le. revert b.
  induction a as [|x a IH]; intros [|y b]; cbn; auto.
  repeat case_match; zbool; auto; try lia.
Qed.

Lemma bytes_le_antisymm a b : bytes_le a b -> bytes_le b a -> a = b.
Proof.
  unfold bytes_le. revert b.
  induction a as [|x a IH]; intros [|y b]; cbn; try done.
  repeat case_match; zbool; try done; try lia. intros H3 H4.
  f_equal; [apply byte_val_inj; lia | by apply IH].
Qed.

#[global] Instance bytes_le_preorder : PreOrder bytes_le.
Proof. split; [exact bytes_le_refl | exact bytes_le_trans]. Qed.
#[global] Instance bytes_le_Total : Total bytes_le.
Proof. exact bytes_le_total. Qed.
#[global] Instance bytes_le_AntiSymm : AntiSymm (=) bytes_le.
Proof. exact bytes_le_antisymm. Qed.

(** ** Lemmas on the big-endian codec *)

Lemma be_acc_spec acc l : be_acc acc l = acc * 256 ^ Z.of_nat (length l) + be_acc 0 l.
Proof.
  revert acc. induction l as [|b l IH]; intros acc; cbn [be_acc length].
  - rewrite Z.pow_0_r. lia.
  - rewrite IH, (IH (0 * 256 + _)), Nat2Z.inj_succ, Z.pow_succ_r by lia. lia.
Qed.

Lemma be_get_cons b l :
  be_get (b :: l) = byte_val b * 256 ^ Z.of_nat (length l) + be_get l.
Proof. unfold be_get. cbn. rewrite be_acc_spec. lia. Qed.

Lemma be_get_range l : 0 <= be_get l < 256 ^ Z.of_nat (length l).
Proof.
  induction l as [|b l IH]; [done|].
  rewrite be_get_cons. cbn [length]. rewrite Nat2Z.inj_succ, Z.pow_succ_r by lia.
  pose proof (byte_val_range b). nia.
Qed.

Lemma length_be_put n v : length (be_put n v) = n.
Proof. induction n; cbn; congruence. Qed.

Lemma pow_256_pos n : 0 < 256 ^ Z.of_nat n.
Proof. apply Z.pow_pos_nonneg; lia. Qed.

Lemma shiftr_div_256 v n : Z.shiftr v (8 * Z.of_nat n) = v / 256 ^ Z.of_nat n.
Proof.
  rewrite Z.shiftr_div_pow2 by lia. f_equal.
  rewrite Z.pow_mul_r by lia. reflexivity.
Qed.

Lemma be_get_put n v : be_get (be_put n v) = v mod 256 ^ Z.of_nat n.
Proof.
  induction n as [|n IH]; cbn [be_put].
  - rewrite Z.mod_1_r. reflexivity.
  - rewrite be_get_cons, length_be_put, IH, byte_val_of_Z, shiftr_div_256.
    rewrite Nat2Z.inj_succ, Z.pow_succ_r by lia.
    pose proof (pow_256_pos n).
    rewrite (Z.mul_comm 256), Z.rem_mul_r by lia. lia.
Qed.

Lemma be_put_mod n v : be_put n (v mod 256 ^ Z.of_nat n) = be_put n v.
Proof.
  enough (H : forall m, (n <= m)%nat -> be_put n (v mod 256 ^ Z.of_nat m) = be_put n v)
    by (apply H; lia).
  intros m. induction n as [|n IH]; intros Hm; cbn [be_put]; [done|].
  f_equal; [|apply IH; lia].
  apply byte_of_Z_mod. rewrite !shiftr_div_256.
  replace (Z.of_nat m) with (Z.of_nat n + 1 + Z.of_nat (m - n - 1)) by lia.
  rewrite !Z.pow_add_r by lia.
  pose proof (pow_256_pos n). pose proof (pow_256_pos (m - n - 1)).
  rewrite <- Z.mul_assoc, Z.rem_mul_r by lia.
  rewrite Z.mul_comm, Z.div_add, Z.div_small, Z.add_0_l
    by (try apply Z.mod_pos_bound; lia).
  rewrite Z.pow_1_r, Z.rem_mul_r by lia.
  rewrite Z.mul_comm, Z.mod_add by lia. by rewrite Z.mod_mod by lia.
Qed.

Lemma be_put_get l : be_put (length l) (be_get l) = l.
Proof.
  induction l as [|b l IH]; [done|].
  cbn [length be_put]. rewrite be_get_cons. f_equal.
  - rewrite shiftr_div_256, Z.div_add_l by (pose proof (pow_256_pos (length l)); lia).
    rewrite Z.div_small by apply be_get_range.
    by rewrite Z.add_0_r, byte_of_Z_val.
  - rewrite <- (be_put_mod (length l) (_ + _)).
    rewrite Z.add_comm, Z.mod_add by (pose proof (pow_256_pos (length l)); lia).
    by rewrite Z.mod_small by apply be_get_range.
Qed.

Lemma be_put_inj n v w :
  0 <= v < 256 ^ Z.of_nat n -> 0 <= w < 256 ^ Z.of_nat n ->
  be_put n v = be_put n w -> v = w.
Proof.
  intros Hv Hw H. apply (f_equal be_get) in H. rewrite !be_get_put in H.
  by rewrite !Z.mod_small in H.
Qed.

Lemma testbit_high b p n : 0 <= b < 2 ^ p -> 0 <= p <= n -> Z.testbit b n = false.
Proof.
  intros Hb Hn. rewrite <- (Z.mod_small b (2 ^ p)) by done.
  by apply Z.mod_pow2_bits_high.
Qed.

(** [a<<8 | b] for a byte [b]. *)
Lemma lor_shiftl_8 a b : 0 <= a -> 0 <= b < 256 -> Z.lor (Z.shiftl a 8) b = a * 256 + b.
Proof.
  intros Ha Hb. rewrite Z.shiftl_mul_pow2 by lia. change (2 ^ 8) with 256.
  rewrite <- Z.lxor_lor, <- Z.add_nocarry_lxor; try reflexivity;
    apply Z.bits_inj'; intros n Hn; rewrite Z.land_spec, Z.bits_0;
    change 256 with (2 ^ 8) in *;
    (destruct (Z.lt_ge_cases n 8);
     [rewrite Z.mul_pow2_bits_low by lia; reflexivity
     |rewrite (testbit_high b 8 n) by lia; apply andb_false_r]).
Qed.

(** ** Lemmas on machine integers *)

Lemma i64_range z : is_i64 (i64 z).
Proof.
  unfold is_i64, i64. pose proof (Z.mod_pos_bound (z + 2 ^ 63) (2 ^ 64)). lia.
Qed.
Lemma i64_id z : is_i64 z -> i64 z = z.
Proof. unfold is_i64, i64. intros H. rewrite Z.mod_small; lia. Qed.
Lemma i64_u64 z : i64 (u64 z) = i64 z.
Proof. unfold i64, u64. by rewrite Zplus_mod_idemp_l. Qed.
Lemma u64_range z : is_u64 (u64 z).
Proof. unfold is_u64, u64. apply Z.mod_pos_bound. lia. Qed.
Lemma u64_id z : is_u64 z -> u64 z = z.
Proof. unfold is_u64, u64. intros H. by rewrite Z.mod_small. Qed.
Lemma u64_i64 z : u64 (i64 z) = u64 z.
Proof.
  unfold i64, u64.
  rewrite Zminus_mod_idemp_l. f_equal. lia.
Qed.
Lemma u32_id z : is_u32 z -> u32 z = z.
Proof. unfold is_u32, u32. intros H. by rewrite Z.mod_small. Qed.
Lemma u32_range z : is_u32 (u32 z).
Proof. unfold is_u32, u32. apply Z.mod_pos_bound. lia. Qed.
#[export] Hint Resolve i64_range u64_range u32_range : bytes.

(** ** Lemmas on padding *)

Lemma length_copy_into n src : length (copy_into n src) = n.
Proof. unfold copy_into. rewrite length_app, length_take, length_replicate. lia. Qed.
Lemma copy_into_id n src : length src = n -> copy_into n src = src.
Proof.
  intros <-. unfold copy_into. rewrite take_ge, Nat.sub_diag by done. apply app_nil_r.
Qed.

(** ** Lemmas on methods *)

Lemma mrange_cons {S E A} (x : A) l (body : A -> meth S E unit) s :
  mrange (x :: l) body s =
  match body x s with
  | (s', Ok _) => mrange l body s'
  | (s', Err e) => (s', Err e)
  end.
Proof. reflexivity. Qed.
Lemma mrange_app {S E A} (l1 l2 : list A) (body : A -> meth S E unit) s :
  mrange (l1 ++ l2) body s =
  match mrange l1 body s with (s', Ok _) => mrange l2 body s' | (s', Err e) => (s', Err e) end.
Proof.
  revert s. induction l1 as [|x l1 IH]; intros s; [done|]. cbn [app]. rewrite !mrange_cons.
  destruct (body x s) as [s' [u|e]]; [apply IH|done].
Qed.

(** An invariant of the body is an invariant of the loop. *)
Lemma mrange_inv {S E A} (I : S -> Prop) (l : list A) (body : A -> meth S E unit) :
  (forall x s, x ∈ l -> I s -> I (fst (body x s))) ->
  forall s, I s -> I (fst (mrange l body s)).
Proof.
  induction l as [|x l IH]; intros Hb s Hs; [done|].
  rewrite mrange_cons. pose proof (Hb x s ltac:(left) Hs) as H.
  destruct (body x s) as [s' [u|e]]; cbn in *; [|done].
  apply IH; [intros; apply Hb; [by right|done] | done].
Qed.

(** Splits a successful run of a sequence of methods into its steps. *)
Lemma mbind_ok {S E A C} (m : meth S E A) (k : A -> meth S E C) s s' c :
  mbind m k s = (s', Ok c) -> exists s1 a, m s = (s1, Ok a) /\ k a s1 = (s', Ok c).
Proof. unfold mbind. destruct (m s) as [s1 [a|e]]; [by eauto|done]. Qed.
Lemma mlift_ok {S E A} (r : result E A) (s s' : S) a :
  mlift r s = (s', Ok a) -> s' = s /\ r = Ok a.
Proof. unfold mlift. by intros [= -> ->]. Qed.
Lemma mget_ok {S E A} (f : S -> A) (s s' : S) a :
  mget (E := E) f s = (s', Ok a) -> s' = s /\ a = f s.
Proof. unfold mget. by intros [= -> ->]. Qed.
Lemma guard_false {E} b (e : E) u : guard b e = Ok u -> b = false.
Proof. unfold guard. by destruct b. Qed.
Lemma rbind_ok {E A C} (r : result E A) (k : A -> result E C) c :
  rbind r k = Ok c -> exists a, r = Ok a /\ k a = Ok c.
Proof. unfold rbind. destruct r; [by eauto|done]. Qed.

(** One step of taking a successful run apart. *)
Ltac run_ok_step :=
  match goal with
  | H : mbind _ _ _ = (_, Ok _) |- _ => apply mbind_ok in H as (? & ? & ? & H)
  | H : mlift _ _ = (_, Ok _) |- _ => apply mlift_ok in H as [-> H]
  | H : mget _ _ = (_, Ok _) |- _ => apply mget_ok in H as [-> ->]
  | H : mret _ _ = (_, Ok _) |- _ => injection H; clear H; intros; subst
  | H : mfail _ _ = (_, Ok _) |- _ => discriminate H
  | H : mput _ _ = (_, Ok _) |- _ => injection H as <-
  | H : rbind _ _ = Ok _ |- _ => apply rbind_ok in H as (? & ? & H)
  | H : guard _ _ = Ok _ |- _ => apply guard_false in H
  | H : negb _ = false |- _ => apply negb_false_iff in H
  | H : bytes_eqb _ _ = true |- _ => apply bytes_eqb_eq in H
  | H : (?s, Ok _) = (_, Ok _) |- _ => injection H; clear H; intros; subst
  | u : unit |- _ => destruct u
  end.

(** Both sides evaluate to the same value. *)
Ltac vm_refl := match goal with |- _ = ?b => vm_cast_no_check (@eq_refl _ b) end.

(** ** Strings *)

(** [strings.Split(s, sep)] for a one-byte separator, and [strings.Join]. *)
Fixpoint Split (s : bytes) (sep : byte) : list bytes :=
  match s with
  | [] => [[]]
  | b :: s' =>
      if decide (b = sep) then [] :: Split s' sep
      else match Split s' sep with
           | p :: ps => (b :: p) :: ps
           | [] => [[b]]
           end
  end.
Fixpoint Join (parts : list bytes) (sep : byte) : bytes :=
  match parts with
  | [] => []
  | [p] => p
  | p :: ps => p ++ sep :: Join ps sep
  end.

Lemma Split_not_nil s sep : Split s sep <> [].
Proof. destruct s as [|b s]; cbn; [done|]. case_decide; [done|]. by destruct (Split s sep). Qed.

Lemma Split_app a t sep : sep ∉ a -> Split (a ++ sep :: t) sep = a :: Split t sep.
Proof.
  induction a as [|b a IH]; intros Ha; cbn.
  - by rewrite decide_True.
  - apply not_elem_of_cons in Ha as [Hb Ha]. rewrite decide_False by congruence.
    by rewrite IH.
Qed.

Lemma Join_cons p ps sep : ps <> [] -> Join (p :: ps) sep = p ++ sep :: Join ps sep.
Proof. by destruct ps. Qed.

Lemma Join_Split s sep : Join (Split s sep) sep = s.
Proof.
  induction s as [|b s IH]; [done|]. cbn [Split]. case_decide as Hb.
  - subst. rewrite Join_cons by apply Split_not_nil. by rewrite IH.
  - pose proof (Split_not_nil s sep) as Hn. destruct (Split s sep) as [|p ps]; [done|].
    rewrite <- IH. by destruct ps.
Qed.

(** A separator splits in one way a string whose first part has none. *)
Lemma app_sep_inj (a a' t t' : bytes) sep :
  sep ∉ a -> sep ∉ a' -> a ++ sep :: t = a' ++ sep :: t' -> a = a' /\ t = t'.
Proof.
  revert a'. induction a as [|x a IH]; intros [|y a'] H1 H2 H; cbn in H.
  - by injection H.
  - injection H as <- _. by apply not_elem_of_cons in H2 as [? _].
  - injection H as -> _. by apply not_elem_of_cons in H1 as [? _].
  - injection H as -> H. apply not_elem_of_cons in H1 as [_ H1], H2 as [_ H2].
    by destruct (IH _ H1 H2 H) as [-> ->].
Qed.

Lemma filter_all {A} (P : A -> Prop) `{forall x, Decision (P x)} l : Forall P l -> filter P l = l.
Proof. induction 1; [done|]. rewrite filter_cons_True by done. by f_equal. Qed.
