(* ===== verification/Sha256.v ===== *)
(** * SHA-256

    The [crypto/sha256] package of Go's standard library, which
    [x/leanval/keeper] uses for every commitment (Merkle leaves and nodes,
    bitfield root, withdrawal commitments, SSLE tickets). The function is
    executable; the published test vectors are checked by computation. The
    components above reason about [sha256] through two facts only: it is a
    function, and its digests have 32 bytes. *)

From S2P Require Import Prelude.

(** ** Words of 32 bits *)

Definition w32_add (a b : Z) : Z := Z.land (a + b) 4294967295.
Definition rotr (n x : Z) : Z :=
  Z.lor (Z.shiftr x n) (Z.land (Z.shiftl x (32 - n)) 4294967295).
Definition not32 (x : Z) : Z := Z.lxor x 4294967295.

Definition choose (x y z : Z) : Z := Z.lxor (Z.land x y) (Z.land (not32 x) z).
Definition majority (x y z : Z) : Z :=
  Z.lxor (Z.lxor (Z.land x y) (Z.land x z)) (Z.land y z).
Definition big_sigma0 (x : Z) : Z := Z.lxor (Z.lxor (rotr 2 x) (rotr 13 x)) (rotr 22 x).
Definition big_sigma1 (x : Z) : Z := Z.lxor (Z.lxor (rotr 6 x) (rotr 11 x)) (rotr 25 x).
Definition small_sigma0 (x : Z) : Z := Z.lxor (Z.lxor (rotr 7 x) (rotr 18 x)) (Z.shiftr x 3).
Definition small_sigma1 (x : Z) : Z := Z.lxor (Z.lxor (rotr 17 x) (rotr 19 x)) (Z.shiftr x 10).

(** The constants are the first 32 bits of the fractional parts of the cube
    roots (round constants) and square roots (initial state) of the first
    primes. *)
Definition is_prime (n : nat) : bool :=
  (2 <=? n)%nat && forallb (fun d => negb (n mod d =? 0)%nat) (seq 2 (n - 2)).
Definition primes (count : nat) : list Z :=
  take count (map Z.of_nat (filter (fun n => is_prime n = true) (seq 2 310))).
(** The largest [r] below [2^bits] with [r^e <= x], bit by bit. *)
Fixpoint int_root (e x : Z) (bits : nat) (r : Z) : Z :=
  match bits with
  | O => r
  | S b => int_root e x b (let r' := r + 2 ^ Z.of_nat b in if r' ^ e <=? x then r' else r)
  end.
Definition root_fraction (e p : Z) : Z := int_root e (p * 2 ^ (32 * e)) 40 0 mod 2 ^ 32.

Definition round_constants : list Z := Eval vm_compute in map (root_fraction 3) (primes 64).

(** The eight chaining variables. *)
Record chain := Chain { ca : Z; cb : Z; cc : Z; cd : Z; ce : Z; cf : Z; cg : Z; ch : Z }.

Definition chain_init : chain :=
  Eval vm_compute in
  match map (root_fraction 2) (primes 8) with
  | [h0; h1; h2; h3; h4; h5; h6; h7] => Chain h0 h1 h2 h3 h4 h5 h6 h7
  | _ => Chain 0 0 0 0 0 0 0 0
  end.

(** One round with round constant [k] and schedule word [w]. *)
Definition sha_round (s : chain) (k w : Z) : chain :=
  let t1 := w32_add (w32_add (w32_add (w32_add (ch s) (big_sigma1 (ce s)))
                                      (choose (ce s) (cf s) (cg s))) k) w in
  let t2 := w32_add (big_sigma0 (ca s)) (majority (ca s) (cb s) (cc s)) in
  Chain (w32_add t1 t2) (ca s) (cb s) (cc s)
        (w32_add (cd s) t1) (ce s) (cf s) (cg s).

(** The message schedule as a sliding window of sixteen words: each round
    consumes the oldest word and appends the next one. *)
Definition next_word (win : list Z) : Z :=
  w32_add (w32_add (w32_add (small_sigma1 (nth 14 win 0)) (nth 9 win 0))
                   (small_sigma0 (nth 1 win 0)))
          (nth 0 win 0).

Fixpoint sha_rounds (ks : list Z) (win : list Z) (s : chain) : chain :=
  match ks with
  | [] => s
  | k :: ks' =>
      sha_rounds ks' (drop 1 win ++ [next_word win]) (sha_round s k (nth 0 win 0))
  end.

Definition chain_add (s t : chain) : chain :=
  Chain (w32_add (ca s) (ca t)) (w32_add (cb s) (cb t))
        (w32_add (cc s) (cc t)) (w32_add (cd s) (cd t))
        (w32_add (ce s) (ce t)) (w32_add (cf s) (cf t))
        (w32_add (cg s) (cg t)) (w32_add (ch s) (ch t)).

Definition sha_block (s : chain) (win : list Z) : chain :=
  chain_add s (sha_rounds round_constants win s).

(** Padding to a multiple of 64 bytes: 0x80, zeros, bit length (8 bytes). *)
Definition sha_pad (m : bytes) : bytes :=
  let n := Z.of_nat (length m) in
  m ++ Byte.x80 :: replicate (Z.to_nat ((55 - n) mod 64)) Byte.x00 ++ be_put 8 (8 * n).

(** The padded message as words, taken four bytes at a time. *)
Fixpoint words_of (l : bytes) : list Z :=
  match l with
  | a :: b :: c :: d :: l' => be_get [a; b; c; d] :: words_of l'
  | _ => []
  end.

Fixpoint sha_blocks (fuel : nat) (ws : list Z) (s : chain) : chain :=
  match fuel, ws with
  | S f, _ :: _ => sha_blocks f (drop 16 ws) (sha_block s (take 16 ws))
  | _, _ => s
  end.

Definition digest (s : chain) : bytes :=
  be_put 4 (ca s) ++ be_put 4 (cb s) ++ be_put 4 (cc s) ++ be_put 4 (cd s) ++
  be_put 4 (ce s) ++ be_put 4 (cf s) ++ be_put 4 (cg s) ++ be_put 4 (ch s).

(** [sha256.Sum256]. The fuel is the number of words, an upper bound of the
    number of blocks. *)
Definition sha256 (m : bytes) : bytes :=
  let ws := words_of (sha_pad m) in
  digest (sha_blocks (length ws) ws chain_init).

(** ** Facts *)

Lemma sha256_length m : length (sha256 m) = 32%nat.
Proof. unfold sha256, digest. by rewrite !length_app, !length_be_put. Qed.
#[export] Hint Resolve sha256_length : bytes.
#[export] Hint Rewrite sha256_length : bytes.

(** The published digests of the empty message, of ["abc"] and of a message
    of two blocks. *)
Example sha256_empty :
  be_get (sha256 []) = 0xe3b0c44298fc1c149afbf4c8996fb92427ae41e4649b934ca495991b7852b855.
Proof. vm_compute. reflexivity. Qed.

Example sha256_abc :
  be_get (sha256 (str "abc")) = 0xba7816bf8f01cfea414140de5dae2223b00361a396177a9cb410ff61f20015ad.
Proof. vm_compute. reflexivity. Qed.

Example sha256_two_blocks :
  be_get (sha256 (str "abcdbcdecdefdefgefghfghighijhijkijkljklmklmnlmnomnopnopq")) =
  0x248d6a61d20638b8e5c026930c3e6039a33ce45964ff2167f6ecedd419db06c1.
Proof. vm_compute. reflexivity. Qed.

#[global] Opaque sha256.
