(* ===== verification/KVStore.v ===== *)
(** * The key-value store

    [x/leanval/keeper/store.go] ([Store], [memStore]) and
    [x/leanval/keeper/kvstore.go] ([KV], the adapter over the SDK's store).
    A store is a finite map from byte strings to byte strings. [IteratePrefix]
    visits the entries under a prefix in ascending key order, which is what
    [KV] does over the SDK store; [memStore] visits a Go map, whose order is
    unspecified, so ascending order is one of its behaviours too. *)

From S2P Require Import Prelude.

Abbreviation store := (gmap bytes bytes).

(** ** Operations *)

(** [NewMemStore]. *)
Definition NewMemStore : store := ∅.

(** [Get] returns nil, of length 0, for an absent key. *)
Definition store_Get (m : store) (key : bytes) : bytes := default [] (m !! key).
Definition store_Set (key value : bytes) (m : store) : store := <[key := value]> m.
Definition store_Delete (key : bytes) (m : store) : store := delete key m.

Definition key_le (a b : bytes * bytes) : Prop := bytes_le a.1 b.1.
#[global] Instance key_le_dec : RelDecision key_le := fun a b => bytes_le_dec a.1 b.1.

(** The entries [IteratePrefix] visits, in order; a callback that asks to
    stop is a search in this list. *)
Definition IteratePrefix (m : store) (prefix : bytes) : list (bytes * bytes) :=
  filter (fun kv => has_prefix prefix kv.1 = true) (merge_sort key_le (map_to_list m)).

(** A search that stops at the first entry for which [f] answers. *)
Fixpoint find_map {A B : Type} (f : A -> option B) (l : list A) : option B :=
  match l with
  | [] => None
  | x :: l' => match f x with
               | Some y => Some y
               | None => find_map f l'
               end
  end.

(** ** Lemmas *)

Lemma elem_of_IteratePrefix m p k v :
  (k, v) ∈ IteratePrefix m p <-> m !! k = Some v /\ has_prefix p k = true.
Proof.
  unfold IteratePrefix. rewrite list_elem_of_filter. cbn.
  rewrite (merge_sort_Permutation key_le (map_to_list m)), elem_of_map_to_list.
  tauto.
Qed.

Lemma NoDup_IteratePrefix m p : NoDup (IteratePrefix m p).*1.
Proof.
  unfold IteratePrefix.
  assert (Hn : NoDup (merge_sort key_le (map_to_list m)).*1).
  { rewrite (fmap_Permutation fst _ _ (merge_sort_Permutation key_le (map_to_list m))).
    apply NoDup_fst_map_to_list. }
  revert Hn. generalize (merge_sort key_le (map_to_list m)).
  induction l as [|kv l IH]; [constructor|].
  rewrite fmap_cons. intros [Hni Hn]%NoDup_cons. rewrite filter_cons. case_decide; [|by apply IH]. rewrite fmap_cons.
  constructor; [|by apply IH].
  intros Hi. apply Hni. apply list_elem_of_fmap in Hi as [y [Hy Hin]].
  rewrite Hy. apply list_elem_of_fmap_2. apply list_elem_of_filter in Hin. tauto.
Qed.
(** What follows the prefix in the keys, each once. *)
Lemma NoDup_suffixes m pfx : NoDup (map (fun kv => drop (length pfx) kv.1) (IteratePrefix m pfx)).
Proof.
  pose proof (NoDup_IteratePrefix m pfx) as Hn.
  assert (Hp : forall kv, kv ∈ IteratePrefix m pfx -> exists a, kv.1 = pfx ++ a).
  { intros [k v] [_ Hk]%elem_of_IteratePrefix. by apply has_prefix_true. }
  revert Hn Hp. generalize (IteratePrefix m pfx) as l.
  induction l as [|kv l IH]; intros Hn Hp; cbn [map]; [constructor|]. rewrite fmap_cons in Hn.
  apply NoDup_cons in Hn as [Hk Hn]. constructor; [|apply IH; [done|]; intros; apply Hp; by right].
  intros (kv' & E & Hi)%list_elem_of_fmap. apply Hk, list_elem_of_fmap. exists kv'. split; [|done].
  destruct (Hp kv ltac:(left)) as [a Ea], (Hp kv' ltac:(by right)) as [b Eb]. rewrite Ea, Eb, !drop_app_length in *. congruence.
Qed.

#[export] Instance key_le_trans : Transitive key_le.
Proof. intros a b c. unfold key_le. apply bytes_le_trans. Qed.
#[export] Instance key_le_Total : Total key_le.
Proof. intros a b. unfold key_le. apply bytes_le_total. Qed.

Lemma store_Get_Set_eq m k v : store_Get (store_Set k v m) k = v.
Proof. unfold store_Get, store_Set. by rewrite lookup_insert_eq. Qed.
Lemma store_Get_Set_ne m k k' v : k <> k' -> store_Get (store_Set k v m) k' = store_Get m k'.
Proof. intros H. unfold store_Get, store_Set. by rewrite lookup_insert_ne. Qed.
Lemma store_Get_Delete_ne m k k' : k <> k' -> store_Get (store_Delete k m) k' = store_Get m k'.
Proof. intros H. unfold store_Get, store_Delete. by rewrite lookup_delete_ne. Qed.
Lemma store_Get_Delete_eq m k : store_Get (store_Delete k m) k = [].
Proof. unfold store_Get, store_Delete. by rewrite lookup_delete_eq. Qed.
#[export] Hint Rewrite store_Get_Set_eq store_Get_Delete_eq : go.

Lemma store_Get_nonempty m k : store_Get m k <> [] -> m !! k = Some (store_Get m k).
Proof. unfold store_Get. by destruct (m !! k). Qed.

Lemma find_map_Some {A B} (f : A -> option B) l y :
  find_map f l = Some y -> exists x, x ∈ l /\ f x = Some y.
Proof.
  induction l as [|x l IH]; cbn; [done|].
  destruct (f x) eqn:E; intros H.
  - injection H as ->. exists x. split; [left|done].
  - destruct (IH H) as (z & Hz & Hf). exists z. split; [by right|done].
Qed.

Lemma find_map_None {A B} (f : A -> option B) l :
  find_map f l = None <-> forall x, x ∈ l -> f x = None.
Proof.
  induction l as [|x l IH]; cbn; [split; [intros _ x Hx; inversion Hx|done]|].
  split.
  - destruct (f x) eqn:E; [done|]. intros H y Hy.
    apply elem_of_cons in Hy as [->|Hy]; [done|]. by apply IH.
  - intros H. rewrite (H x) by left. apply IH. intros y Hy. apply H. by right.
Qed.

(** When at most one entry answers, the search finds it wherever it is. *)
Lemma find_map_unique {A B} (f : A -> option B) l x y :
  x ∈ l -> f x = Some y ->
  (forall x' y', x' ∈ l -> f x' = Some y' -> y' = y) ->
  find_map f l = Some y.
Proof.
  intros Hx Hf Hu. destruct (find_map f l) as [y'|] eqn:E.
  - apply find_map_Some in E as (x' & Hx' & Hf'). by rewrite (Hu x' y').
  - rewrite find_map_None in E. rewrite (E x) in Hf by done. done.
Qed.

(** ** Iteration order *)

Lemma StronglySorted_filter {A} (R : A -> A -> Prop) (P : A -> Prop) `{!forall x, Decision (P x)}
    (l : list A) : StronglySorted R l -> StronglySorted R (filter P l).
Proof.
  induction 1 as [|x l Hs IH Hf]; [constructor|]. rewrite filter_cons.
  case_decide; [|done]. constructor; [done|].
  apply Forall_forall. intros y Hy. apply list_elem_of_filter in Hy as [_ Hy].
  by rewrite Forall_forall in Hf; apply Hf.
Qed.

Lemma Sorted_IteratePrefix m p : StronglySorted key_le (IteratePrefix m p).
Proof. apply StronglySorted_filter, (StronglySorted_merge_sort key_le). Qed.

Lemma bytes_le_common p a b : bytes_le (p ++ a) (p ++ b) <-> bytes_le a b.
Proof.
  induction p as [|x p IH]; [done|]. unfold bytes_le in *. cbn [app bytes_leb].
  by rewrite Z.ltb_irrefl.
Qed.
Lemma NoDup_IteratePrefix_kv m p : NoDup (IteratePrefix m p).
Proof. eapply NoDup_fmap_1, NoDup_IteratePrefix. Qed.

(** Two lists sorted by a key that is distinct across the list are equal as
    soon as they have the same elements. *)
Lemma sorted_by_key_unique {A} (f : A -> bytes) (l1 l2 : list A) :
  StronglySorted (fun a b => bytes_le (f a) (f b)) l1 ->
  StronglySorted (fun a b => bytes_le (f a) (f b)) l2 ->
  NoDup (f <$> l1) -> NoDup (f <$> l2) -> (forall x, x ∈ l1 <-> x ∈ l2) -> l1 = l2.
Proof.
  intros Hs1 Hs2 Hn1 Hn2 Hin.
  assert (Hp : l1 ≡ₚ l2) by (apply NoDup_Permutation; [by eapply NoDup_fmap_1..|done]).
  eapply StronglySorted_unique_strong; [|exact Hs1|exact Hs2|exact Hp].
  intros x y Hx Hy Hxy Hyx. pose proof (bytes_le_antisymm _ _ Hxy Hyx) as Hf.
  apply Hin in Hy. apply list_elem_of_lookup in Hx as [i Hi], Hy as [j Hj].
  assert (i = j) as ->; [|congruence].
  apply (NoDup_lookup (f <$> l1) i j (f x)); [done| |];
    rewrite list_lookup_fmap, ?Hi, ?Hj; cbn; congruence.
Qed.

(** Iteration under a prefix only sees the keys under it. *)
Lemma IteratePrefix_ext m m' p :
  (forall k, has_prefix p k = true -> m !! k = m' !! k) -> IteratePrefix m p = IteratePrefix m' p.
Proof.
  intros H. apply (sorted_by_key_unique fst);
    [apply Sorted_IteratePrefix..|apply NoDup_IteratePrefix|apply NoDup_IteratePrefix|].
  intros [k v]. rewrite !elem_of_IteratePrefix. split; intros [Hk Hp]; (split; [|done]).
  - by rewrite <- H.
  - by rewrite H.
Qed.

(** When only one entry can answer, the search is that entry's answer. *)
Lemma find_map_only {A B} (f : A -> option B) l x :
  x ∈ l -> (forall y, y ∈ l -> f y <> None -> y = x) -> find_map f l = f x.
Proof.
  intros Hx Hu. destruct (find_map f l) as [y|] eqn:E.
  - apply find_map_Some in E as (z & Hz & Hf). rewrite <- Hf.
    rewrite (Hu z Hz); [done|congruence].
  - rewrite find_map_None in E. by rewrite E.
Qed.
