(* ===== verification/LvTypes.v ===== *)
(** * x/leanval/types: store keys, fixed-width integers, wire codecs

    [keys.go] (store prefixes, keys, big-endian helpers, periods), [lnpr.go]
    (the proposer-injected LNPR blob), [membership.go] (JOIN and LEAV
    requests), [ssle.go] (the hidden-proposer blob) and the genesis record of
    [genesis.go]. A decoder that returns [(z, false)] is [None] here: no
    caller reads [z] when the flag is false. *)

From S2P Require Import Prelude.

(** ** Store prefixes *)

Definition OwnsValsetPrefix : byte := Byte.x00.
Definition BondedPrefix : byte := Byte.x01.
Definition SubjectIndexPrefix : byte := Byte.x02.
Definition LastUpdatesPrefix : byte := Byte.x03.
Definition ObjectRootsPrefix : byte := Byte.x04.
Definition PendingJoinPrefix : byte := Byte.x05.
Definition PendingLeavePrefix : byte := Byte.x06.
Definition BitfieldPrefix : byte := Byte.x10.
Definition DepositIndexPrefix : byte := Byte.x11.
Definition NextDepositIndexPrefix : byte := Byte.x12.
Definition EBPrefix : byte := Byte.x13.
Definition DailyKeyPrefix : byte := Byte.x14.
Definition WithdrawCommitPrefix : byte := Byte.x15.
Definition NoWithdrawAccPrefix : byte := Byte.x16.
Definition PeriodParamPrefix : byte := Byte.x17.

Definition ObjectRootsSize : nat := 96.
Definition PrefixHMVE : bytes := str "HMVE".
Definition PrefixLNPR : bytes := str "LNPR".
Definition PrefixSSLE : bytes := str "SSLE".
Definition PrefixJOIN : bytes := str "JOIN".
Definition PrefixLEAV : bytes := str "LEAV".
Definition BlocksPerPeriod : Z := 600.
Definition MaxProofBytes : Z := Z.shiftl 2 20.
Definition MaxRawStarksPerLNPR : Z := 8.
Definition LNPRVersion : byte := Byte.x01.
Definition MembershipVersion : byte := Byte.x01.

(** ** Integers on the wire *)

Definition putU64 (v : Z) : bytes :=
  [byte_of_Z (Z.shiftr v 56); byte_of_Z (Z.shiftr v 48);
   byte_of_Z (Z.shiftr v 40); byte_of_Z (Z.shiftr v 32);
   byte_of_Z (Z.shiftr v 24); byte_of_Z (Z.shiftr v 16);
   byte_of_Z (Z.shiftr v 8); byte_of_Z v].

Definition GetU64 (src : bytes) : Z :=
  match src with
  | b0 :: b1 :: b2 :: b3 :: b4 :: b5 :: b6 :: b7 :: _ =>
      Z.lor (Z.lor (Z.lor (Z.lor (Z.lor (Z.lor (Z.lor
        (Z.shiftl (byte_val b0) 56) (Z.shiftl (byte_val b1) 48))
        (Z.shiftl (byte_val b2) 40)) (Z.shiftl (byte_val b3) 32))
        (Z.shiftl (byte_val b4) 24)) (Z.shiftl (byte_val b5) 16))
        (Z.shiftl (byte_val b6) 8)) (byte_val b7)
  | _ => 0
  end.

Definition PutI64 (v : Z) : bytes := putU64 (u64 v).
Definition GetI64 (src : bytes) : Z := i64 (GetU64 src).

Definition PutU32 (v : Z) : bytes :=
  [byte_of_Z (Z.shiftr v 24); byte_of_Z (Z.shiftr v 16);
   byte_of_Z (Z.shiftr v 8); byte_of_Z v].

Definition GetU32 (src : bytes) : Z :=
  match src with
  | b0 :: b1 :: b2 :: b3 :: _ =>
      Z.lor (Z.lor (Z.lor
        (Z.shiftl (byte_val b0) 24) (Z.shiftl (byte_val b1) 16))
        (Z.shiftl (byte_val b2) 8)) (byte_val b3)
  | _ => 0
  end.

Definition DepositIndexBytes (index : Z) : bytes := Byte.x00 :: PutU32 index.

(** ** Keys *)

Definition TestLeanVerifierAcc : bytes := replicate 20 Byte.x00.
Definition OwnsValsetKey : bytes := [OwnsValsetPrefix].
Definition ObjectRootsKey : bytes := [ObjectRootsPrefix].
Definition PeriodParamKey : bytes := [PeriodParamPrefix].
Definition BitfieldKey : bytes := [BitfieldPrefix].
Definition NextDepositIndexKey : bytes := [NextDepositIndexPrefix].
Definition PendingJoinKey (period : Z) (subject : bytes) : bytes :=
  PendingJoinPrefix :: putU64 period ++ subject.
Definition PendingJoinPrefixForPeriod (period : Z) : bytes :=
  PendingJoinPrefix :: putU64 period.
Definition PendingLeaveKey (period : Z) (subject : bytes) : bytes :=
  PendingLeavePrefix :: putU64 period ++ subject.
Definition PendingLeavePrefixForPeriod (period : Z) : bytes :=
  PendingLeavePrefix :: putU64 period.
Definition BondedKey (period : Z) (subject : bytes) : bytes :=
  BondedPrefix :: putU64 period ++ subject.
Definition BondedPrefixForPeriod (period : Z) : bytes := BondedPrefix :: putU64 period.
Definition DepositIndexKey (subject : bytes) : bytes := DepositIndexPrefix :: subject.
Definition LastPowerKey (subject : bytes) : bytes := LastUpdatesPrefix :: subject.
Definition EBKey (index : Z) : bytes :=
  [EBPrefix; byte_of_Z (Z.shiftr index 24); byte_of_Z (Z.shiftr index 16);
   byte_of_Z (Z.shiftr index 8); byte_of_Z index].
Definition DailyKeyKey (period : Z) : bytes := DailyKeyPrefix :: putU64 period.
Definition WithdrawCommitKey (period : Z) : bytes := WithdrawCommitPrefix :: putU64 period.
Definition NoWithdrawAccKey (period : Z) : bytes := NoWithdrawAccPrefix :: putU64 period.

(** ** Periods

    [liveBlocksPerPeriod] is a process-wide atomic; it is an argument here
    and a field of the keeper state in [LvKeeper]. Go's integer division
    truncates towards zero. *)
Definition SetBlocksPerPeriod (n : Z) : Z := if n <=? 0 then BlocksPerPeriod else n.
Definition BlocksPerPeriodLive (live : Z) : Z := if live <=? 0 then BlocksPerPeriod else live.
Definition PeriodFromHeight (live height : Z) : Z :=
  if height <? 0 then 0 else u64 (Z.quot height (BlocksPerPeriodLive live)).

(** ** The LNPR blob *)

Record SubjectProof := MkSubjectProof {
  sp_Subject : bytes;
  sp_Weight : Z;
  sp_Proof : bytes
}.

Record LNPRBlob := MkLNPRBlob {
  lnpr_Period : Z;
  lnpr_Subjects : list SubjectProof
}.

(** [s[:255]] when longer. *)
Definition cut255 (s : bytes) : bytes := if 255 <? blen s then slice_to 255 s else s.

(** The body of the loop of [EncodeLNPR]. *)
Definition EncodeLNPR_subject (s : SubjectProof) : bytes :=
  let subj := cut255 (sp_Subject s) in
  let pl := blen (sp_Proof s) in
  [byte_of_Z (blen subj)] ++ subj ++ PutI64 (sp_Weight s) ++
  [byte_of_Z (Z.shiftr pl 24); byte_of_Z (Z.shiftr pl 16);
   byte_of_Z (Z.shiftr pl 8); byte_of_Z pl] ++ sp_Proof s.

Definition EncodeLNPR (b : LNPRBlob) : bytes :=
  let n := Z.of_nat (length (lnpr_Subjects b)) in
  PrefixLNPR ++ [LNPRVersion] ++ putU64 (lnpr_Period b) ++
  [byte_of_Z (Z.shiftr n 8); byte_of_Z n] ++
  concat (map EncodeLNPR_subject (lnpr_Subjects b)).

(** The body of the loop of [DecodeLNPR]: one subject and the rest. *)
Definition DecodeLNPR_subject (p : bytes) : option (SubjectProof * bytes) :=
  match p with
  | [] => None
  | a :: p =>
      let al := byte_val a in
      if blen p <? al + 8 + 4 then None
      else
        let subj := slice_to al p in
        let p := slice_from al p in
        let w := GetI64 (slice_to 8 p) in
        let p := slice_from 8 p in
        let pl := Z.lor (Z.lor (Z.lor
                    (Z.shiftl (byte_val (byte_at p 0)) 24)
                    (Z.shiftl (byte_val (byte_at p 1)) 16))
                    (Z.shiftl (byte_val (byte_at p 2)) 8))
                    (byte_val (byte_at p 3)) in
        let p := slice_from 4 p in
        if (pl <? 0) || (blen p <? pl) then None
        else Some (MkSubjectProof subj w (slice_to pl p), slice_from pl p)
  end.

Fixpoint DecodeLNPR_subjects (n : nat) (p : bytes) : option (list SubjectProof) :=
  match n with
  | O => Some []
  | S n' =>
      match DecodeLNPR_subject p with
      | Some (s, p') =>
          match DecodeLNPR_subjects n' p' with
          | Some l => Some (s :: l)
          | None => None
          end
      | None => None
      end
  end.

Definition DecodeLNPR (tx : bytes) : option LNPRBlob :=
  if negb (has_prefix PrefixLNPR tx) then None
  else
    let p := slice_from (blen PrefixLNPR) tx in
    if (blen p <? 1 + 8 + 2) || negb (bool_decide (byte_at p 0 = LNPRVersion)) then None
    else
      let p := slice_from 1 p in
      let period := GetU64 (slice_to 8 p) in
      let p := slice_from 8 p in
      let n := Z.lor (Z.shiftl (byte_val (byte_at p 0)) 8) (byte_val (byte_at p 1)) in
      let p := slice_from 2 p in
      match DecodeLNPR_subjects (Z.to_nat n) p with
      | Some l => Some (MkLNPRBlob period l)
      | None => None
      end.

(** [RejectMempoolLNPR]: true when CheckTx must refuse the bytes. *)
Definition RejectMempoolLNPR (tx : bytes) : bool := has_prefix PrefixLNPR tx.

(** ** JOIN and LEAV *)

Record JoinBlob := MkJoinBlob {
  join_Period : Z;
  join_Subject : bytes;
  join_Weight : Z;
  join_Proof : bytes
}.

Record LeaveBlob := MkLeaveBlob {
  leave_Period : Z;
  leave_Subject : bytes
}.

Definition EncodeJoin (b : JoinBlob) : bytes :=
  let subj := cut255 (join_Subject b) in
  PrefixJOIN ++ [MembershipVersion] ++ putU64 (join_Period b) ++
  [byte_of_Z (blen subj)] ++ subj ++ PutI64 (join_Weight b) ++ join_Proof b.

Definition DecodeJoin (tx : bytes) : option JoinBlob :=
  if negb (has_prefix PrefixJOIN tx) then None
  else
    let p := slice_from (blen PrefixJOIN) tx in
    if (blen p <? 1 + 8 + 1) || negb (bool_decide (byte_at p 0 = MembershipVersion)) then None
    else
      let p := slice_from 1 p in
      let period := GetU64 (slice_to 8 p) in
      let p := slice_from 8 p in
      let al := byte_val (byte_at p 0) in
      let p := slice_from 1 p in
      if blen p <? al + 8 then None
      else Some (MkJoinBlob period (slice_to al p)
                   (GetI64 (slice al (al + 8) p)) (slice_from (al + 8) p)).

Definition EncodeLeave (b : LeaveBlob) : bytes :=
  let subj := cut255 (leave_Subject b) in
  PrefixLEAV ++ [MembershipVersion] ++ putU64 (leave_Period b) ++
  [byte_of_Z (blen subj)] ++ subj.

Definition DecodeLeave (tx : bytes) : option LeaveBlob :=
  if negb (has_prefix PrefixLEAV tx) then None
  else
    let p := slice_from (blen PrefixLEAV) tx in
    if (blen p <? 1 + 8 + 1) || negb (bool_decide (byte_at p 0 = MembershipVersion)) then None
    else
      let p := slice_from 1 p in
      let period := GetU64 (slice_to 8 p) in
      let p := slice_from 8 p in
      let al := byte_val (byte_at p 0) in
      let p := slice_from 1 p in
      if blen p <? al then None
      else Some (MkLeaveBlob period (slice_to al p)).

Definition IsMembershipTx (tx : bytes) : bool :=
  has_prefix PrefixJOIN tx || has_prefix PrefixLEAV tx.

Inductive membership_error := JoinSubjectEmpty | JoinWeightNotPositive | LeaveSubjectEmpty.

Definition ValidateJoin (b : JoinBlob) : result membership_error unit :=
  if blen (join_Subject b) =? 0 then Err JoinSubjectEmpty
  else if join_Weight b <=? 0 then Err JoinWeightNotPositive
  else Ok tt.

Definition ValidateLeave (b : LeaveBlob) : result membership_error unit :=
  if blen (leave_Subject b) =? 0 then Err LeaveSubjectEmpty else Ok tt.

(** ** SSLE *)

Record SSLEBlob := MkSSLEBlob {
  ssle_Period : Z;
  ssle_Height : Z;
  ssle_Ticket : bytes;
  ssle_Proposer : bytes;
  ssle_Proof : bytes
}.

Definition EncodeSSLE (b : SSLEBlob) : bytes :=
  let proposer := cut255 (ssle_Proposer b) in
  let plen := blen proposer in
  let t := if blen (ssle_Ticket b) <? 32 then copy_into 32 (ssle_Ticket b)
           else ssle_Ticket b in
  PrefixSSLE ++ putU64 (ssle_Period b) ++ putU64 (u64 (ssle_Height b)) ++
  slice_to 32 t ++ [byte_of_Z plen] ++ slice_to plen proposer ++ ssle_Proof b.

Definition DecodeSSLE (tx : bytes) : option SSLEBlob :=
  if negb (has_prefix PrefixSSLE tx) || (blen tx <? 4 + 8 + 8 + 32 + 1) then None
  else
    let plen := byte_val (byte_at tx 52) in
    if blen tx <? 53 + plen then None
    else Some (MkSSLEBlob (GetU64 (slice 4 12 tx)) (i64 (GetU64 (slice 12 20 tx)))
                 (slice 20 52 tx) (slice 53 (53 + plen) tx) (slice_from (53 + plen) tx)).

Definition RejectMempoolSSLE (tx : bytes) : bool := has_prefix PrefixSSLE tx.

Fixpoint FindSSLE (txs : list bytes) : option (SSLEBlob * nat) :=
  match txs with
  | [] => None
  | tx :: txs' =>
      match DecodeSSLE tx with
      | Some blob => Some (blob, O)
      | None => match FindSSLE txs' with
                | Some (blob, i) => Some (blob, S i)
                | None => None
                end
      end
  end.

Definition IsSSLEProofSTWO (proof : bytes) : bool :=
  (10 <=? blen proof) && bytes_eqb (slice_to 4 proof) (str "STWO")
  && bytes_eqb (slice 6 10 proof) (str "SSLE").

(** ** Genesis *)

Record GenesisSubject := MkGenesisSubject { gs_PubKey : bytes; gs_Weight : Z }.

Record GenesisState := MkGenesisState {
  g_OwnsValset : bool;
  g_VerifierAddr : bytes;
  g_LeanCodeID : Z;
  g_GenesisSubjects : list GenesisSubject;
  g_BlocksPerPeriod : Z
}.

Definition DefaultGenesis : GenesisState := MkGenesisState false [] 0 [] 0.

(** [GenesisState.Validate]: true when it returns no error. *)
Definition GenesisState_Validate (g : GenesisState) : bool :=
  negb (g_OwnsValset g && (Z.of_nat (length (g_GenesisSubjects g)) =? 0)).

(** ** Well-formed blobs: what the wire formats can carry *)

Definition subject_wf (s : SubjectProof) : Prop :=
  blen (sp_Subject s) <= 255 /\ is_i64 (sp_Weight s) /\ blen (sp_Proof s) < 2 ^ 32.
Definition lnpr_wf (b : LNPRBlob) : Prop :=
  is_u64 (lnpr_Period b) /\ Z.of_nat (length (lnpr_Subjects b)) < 65536 /\
  Forall subject_wf (lnpr_Subjects b).
Definition join_wf (b : JoinBlob) : Prop :=
  is_u64 (join_Period b) /\ blen (join_Subject b) <= 255 /\ is_i64 (join_Weight b).
Definition leave_wf (b : LeaveBlob) : Prop :=
  is_u64 (leave_Period b) /\ blen (leave_Subject b) <= 255.
Definition ssle_wf (b : SSLEBlob) : Prop :=
  is_u64 (ssle_Period b) /\ is_i64 (ssle_Height b) /\
  blen (ssle_Ticket b) = 32 /\ blen (ssle_Proposer b) <= 255.

