(* ===== verification/LvCodec.v ===== *)
(** * Correctness of the leanval wire codecs and keys

    The integer helpers are big-endian codecs; every decoder is characterised
    exactly: it accepts a byte string iff it starts with the encoding of a
    well-formed blob, and returns that blob. *)

From S2P Require Import Prelude LvTypes.

(** ** Integers *)

Lemma putU64_be v : putU64 v = be_put 8 v.
Proof. reflexivity. Qed.
Lemma PutU32_be v : PutU32 v = be_put 4 v.
Proof. reflexivity. Qed.

Lemma lor_shiftl_step a b n :
  0 <= a -> 0 <= b < 256 -> 0 <= n ->
  Z.lor (Z.shiftl a (n + 8)) (Z.shiftl b n) = Z.shiftl (a * 256 + b) n.
Proof.
  intros Ha Hb Hn. rewrite (Z.add_comm n 8), <- Z.shiftl_shiftl by lia.
  rewrite <- Z.shiftl_lor. f_equal. by apply lor_shiftl_8.
Qed.

(** Folds a left-nested [b0<<8k | ... | bk] into its big-endian value. *)
Ltac fold_be :=
  repeat match goal with b : byte |- _ =>
    lazymatch goal with
    | _ : 0 <= byte_val b < 256 |- _ => fail
    | _ => pose proof (byte_val_range b)
    end end;
  change 56 with (48 + 8); rewrite ?lor_shiftl_step by lia;
  change 48 with (40 + 8); rewrite ?lor_shiftl_step by lia;
  change 40 with (32 + 8); rewrite ?lor_shiftl_step by lia;
  change 32 with (24 + 8); rewrite ?lor_shiftl_step by lia;
  change 24 with (16 + 8); rewrite ?lor_shiftl_step by lia;
  change 16 with (8 + 8); rewrite ?lor_shiftl_step by lia;
  rewrite ?lor_shiftl_8 by lia.

Lemma GetU64_be src : (8 <= length src)%nat -> GetU64 src = be_get (take 8 src).
Proof.
  intros H. do 8 (destruct src as [|? src]; [cbn in H; lia|]).
  unfold GetU64. fold_be. unfold be_get. rewrite ?take_0. cbn [take be_acc]. rewrite ?take_0. cbn [be_acc]. lia.
Qed.

Lemma GetU32_be src : (4 <= length src)%nat -> GetU32 src = be_get (take 4 src).
Proof.
  intros H. do 4 (destruct src as [|? src]; [cbn in H; lia|]).
  unfold GetU32. fold_be. unfold be_get. rewrite ?take_0. cbn [take be_acc]. rewrite ?take_0. cbn [be_acc]. lia.
Qed.

Lemma len32_be b0 b1 b2 b3 :
  Z.lor (Z.lor (Z.lor (Z.shiftl (byte_val b0) 24) (Z.shiftl (byte_val b1) 16))
               (Z.shiftl (byte_val b2) 8)) (byte_val b3) = be_get [b0; b1; b2; b3].
Proof. fold_be. unfold be_get. cbn [be_acc]. lia. Qed.

Lemma len16_be b0 b1 :
  Z.lor (Z.shiftl (byte_val b0) 8) (byte_val b1) = be_get [b0; b1].
Proof. fold_be. unfold be_get. cbn [be_acc]. lia. Qed.

Lemma GetU64_putU64 v tl : is_u64 v -> GetU64 (putU64 v ++ tl) = v.
Proof.
  intros Hv. rewrite GetU64_be by (rewrite length_app; cbn; lia).
  rewrite take_app_le by (cbn; lia). rewrite take_ge by (cbn; lia).
  rewrite putU64_be, be_get_put. change (256 ^ Z.of_nat 8) with (2 ^ 64).
  by apply Z.mod_small.
Qed.

Lemma GetU64_range src : is_u64 (GetU64 src).
Proof.
  destruct (Nat.lt_ge_cases (length src) 8) as [H|H].
  - do 8 (destruct src as [|? src]; [split; cbn; lia|]). cbn in H. lia.
  - rewrite GetU64_be by done. pose proof (be_get_range (take 8 src)) as Hr.
    rewrite length_take_le in Hr by done.
    change (256 ^ Z.of_nat 8) with (2 ^ 64) in Hr. exact Hr.
Qed.

Lemma GetI64_PutI64 v tl : is_i64 v -> GetI64 (PutI64 v ++ tl) = v.
Proof.
  intros Hv. unfold GetI64, PutI64. rewrite GetU64_putU64 by apply u64_range.
  rewrite i64_u64. by apply i64_id.
Qed.

Lemma GetI64_PutI64_nil v : is_i64 v -> GetI64 (PutI64 v) = v.
Proof. intros Hv. rewrite <- (app_nil_r (PutI64 v)). by apply GetI64_PutI64. Qed.

Lemma putU64_GetU64 src : length src = 8%nat -> putU64 (GetU64 src) = src.
Proof.
  intros H. rewrite putU64_be, GetU64_be, take_ge by lia.
  rewrite <- H at 1. apply be_put_get.
Qed.

Lemma PutI64_GetI64 src : length src = 8%nat -> PutI64 (GetI64 src) = src.
Proof.
  intros H. unfold PutI64, GetI64. rewrite u64_i64, u64_id by apply GetU64_range.
  by apply putU64_GetU64.
Qed.

Lemma GetU32_PutU32 v tl : is_u32 v -> GetU32 (PutU32 v ++ tl) = v.
Proof.
  intros Hv. rewrite GetU32_be by (rewrite length_app; cbn; lia).
  rewrite take_app_le by (cbn; lia). rewrite take_ge by (cbn; lia).
  rewrite PutU32_be, be_get_put. change (256 ^ Z.of_nat 4) with (2 ^ 32).
  by apply Z.mod_small.
Qed.

Lemma GetU32_range src : is_u32 (GetU32 src).
Proof.
  destruct (Nat.lt_ge_cases (length src) 4) as [H|H].
  - do 4 (destruct src as [|? src]; [split; cbn; lia|]). cbn in H. lia.
  - rewrite GetU32_be by done. pose proof (be_get_range (take 4 src)) as Hr.
    rewrite length_take_le in Hr by done.
    change (256 ^ Z.of_nat 4) with (2 ^ 32) in Hr. exact Hr.
Qed.

Lemma putU64_inj v w : is_u64 v -> is_u64 w -> putU64 v = putU64 w -> v = w.
Proof. intros Hv Hw. rewrite !putU64_be. apply be_put_inj; assumption. Qed.
Lemma PutU32_inj v w : is_u32 v -> is_u32 w -> PutU32 v = PutU32 w -> v = w.
Proof. intros Hv Hw. rewrite !PutU32_be. apply be_put_inj; assumption. Qed.
Lemma length_putU64 v : length (putU64 v) = 8%nat.
Proof. reflexivity. Qed.

(** ** Slices of concatenations *)

Lemma slice_to_app n a b : blen a = n -> slice_to n (a ++ b) = a.
Proof. unfold blen, slice_to. intros <-. rewrite Nat2Z.id. by rewrite take_app_length. Qed.
Lemma slice_from_app n a b : blen a = n -> slice_from n (a ++ b) = b.
Proof. unfold blen, slice_from. intros <-. rewrite Nat2Z.id. by rewrite drop_app_length. Qed.
Lemma slice_to_all n p : blen p = n -> slice_to n p = p.
Proof. unfold blen, slice_to. intros <-. rewrite Nat2Z.id. by apply take_ge. Qed.
Lemma blen_app a b : blen (a ++ b) = blen a + blen b.
Proof. unfold blen. rewrite length_app. lia. Qed.
Lemma blen_cons x a : blen (x :: a) = 1 + blen a.
Proof. unfold blen. cbn [length]. lia. Qed.
Lemma blen_nonneg a : 0 <= blen a.
Proof. unfold blen. lia. Qed.
Lemma slice_to_from n p : slice_to n p ++ slice_from n p = p.
Proof. apply take_drop. Qed.
Lemma blen_slice_to n p : 0 <= n <= blen p -> blen (slice_to n p) = n.
Proof. unfold blen, slice_to. intros H. rewrite length_take. lia. Qed.
Lemma blen_slice_from n p : 0 <= n <= blen p -> blen (slice_from n p) = blen p - n.
Proof. unfold blen, slice_from. intros H. rewrite length_drop. lia. Qed.
Lemma cut255_id s : blen s <= 255 -> cut255 s = s.
Proof. intros H. unfold cut255. destruct (255 <? _) eqn:E; zbool; [lia|done]. Qed.
Lemma byte_of_len_255 s : blen s <= 255 -> byte_val (byte_of_Z (blen s)) = blen s.
Proof. intros H. rewrite byte_val_of_Z. apply Z.mod_small. pose proof (blen_nonneg s). lia. Qed.
#[export] Hint Resolve blen_nonneg : bytes.

(** The first [n] bytes and the rest, as an equation. *)
Lemma split_at (n : nat) (p : bytes) :
  (n <= length p)%nat -> exists a b, p = a ++ b /\ length a = n.
Proof.
  intros H. exists (take n p), (drop n p). rewrite take_drop, length_take_le by done.
  done.
Qed.

(** ** LNPR *)

Lemma EncodeLNPR_subject_wf s :
  subject_wf s ->
  EncodeLNPR_subject s =
  [byte_of_Z (blen (sp_Subject s))] ++ sp_Subject s ++ PutI64 (sp_Weight s) ++
  be_put 4 (blen (sp_Proof s)) ++ sp_Proof s.
Proof. intros (H & _). unfold EncodeLNPR_subject. by rewrite cut255_id. Qed.

Lemma DecodeLNPR_subject_encode s tl :
  subject_wf s -> DecodeLNPR_subject (EncodeLNPR_subject s ++ tl) = Some (s, tl).
Proof.
  intros Hwf. pose proof Hwf as (Hs & Hw & Hp).
  rewrite EncodeLNPR_subject_wf by done. rewrite <- !app_assoc.
  unfold DecodeLNPR_subject. cbn [app]. rewrite byte_of_len_255 by done.
  destruct (_ <? _) eqn:E; zbool.
  { rewrite !blen_app in E. change (blen (PutI64 _)) with 8 in E.
    change (blen (be_put 4 _)) with 4 in E.
    pose proof (blen_nonneg (sp_Proof s)). pose proof (blen_nonneg tl). lia. }
  rewrite slice_to_app, slice_from_app by done.
  rewrite slice_to_app, slice_from_app by done.
  rewrite GetI64_PutI64_nil by done.
  change (be_put 4 (blen (sp_Proof s)) ++ sp_Proof s ++ tl) with
    ([byte_of_Z (Z.shiftr (blen (sp_Proof s)) 24); byte_of_Z (Z.shiftr (blen (sp_Proof s)) 16);
      byte_of_Z (Z.shiftr (blen (sp_Proof s)) 8); byte_of_Z (Z.shiftr (blen (sp_Proof s)) 0)]
      ++ sp_Proof s ++ tl).
  cbn [byte_at nth app]. rewrite len32_be.
  change (be_get _) with (be_get (be_put 4 (blen (sp_Proof s)))).
  rewrite be_get_put, Z.mod_small
    by (change (256 ^ Z.of_nat 4) with (2 ^ 32); pose proof (blen_nonneg (sp_Proof s)); lia).
  change (slice_from 4 (?a :: ?b :: ?c :: ?d :: ?t)) with t.
  destruct (_ || _) eqn:E2.
  { apply orb_prop in E2 as [E2|E2]; zbool; [pose proof (blen_nonneg (sp_Proof s)); lia|].
    rewrite blen_app in E2. pose proof (blen_nonneg tl). lia. }
  rewrite slice_to_app, slice_from_app by done. by destruct s.
Qed.

Lemma DecodeLNPR_subject_inv p s tl :
  DecodeLNPR_subject p = Some (s, tl) -> subject_wf s /\ p = EncodeLNPR_subject s ++ tl.
Proof.
  destruct p as [|a p]; [done|]. unfold DecodeLNPR_subject.
  destruct (_ <? _) eqn:E; [done|]. zbool. pose proof (byte_val_range a) as Ha.
  destruct (split_at (Z.to_nat (byte_val a)) p) as (subj & p1 & -> & Hsubj);
    [unfold blen in E; lia|].
  assert (Hbs : blen subj = byte_val a) by (unfold blen; lia).
  rewrite slice_to_app, slice_from_app by done.
  rewrite blen_app in E.
  destruct (split_at 8 p1) as (wb & p2 & -> & Hwb); [unfold blen in *; lia|].
  rewrite slice_to_app, slice_from_app by (unfold blen; lia).
  rewrite blen_app in E.
  destruct (split_at 4 p2) as (lb & p3 & -> & Hlb); [unfold blen in *; lia|].
  rewrite slice_from_app by (unfold blen; lia).
  do 4 (destruct lb as [|? lb]; [done|]). destruct lb; [|done].
  cbn [byte_at nth app]. rewrite len32_be.
  destruct (_ || _) eqn:E2; [done|]. apply orb_false_elim in E2 as [E2 E3]. zbool.
  intros [= <- <-].
  set (lb := [b; b0; b1; b2]) in *.
  assert (Hpl : blen (slice_to (be_get lb) p3) = be_get lb)
    by (apply blen_slice_to; lia).
  assert (Hwf : subject_wf (MkSubjectProof subj (GetI64 wb) (slice_to (be_get lb) p3))).
  { split; [cbn; lia|]. split; [apply i64_range|]. cbn [sp_Proof]. rewrite Hpl.
    pose proof (be_get_range lb). change (256 ^ Z.of_nat (length lb)) with (2 ^ 32) in *. lia. }
  split; [done|]. rewrite (EncodeLNPR_subject_wf _ Hwf). cbn [sp_Subject sp_Weight sp_Proof].
  rewrite Hpl, Hbs, byte_of_Z_val, PutI64_GetI64 by done.
  change 4%nat with (length lb). rewrite be_put_get.
  rewrite <- !app_assoc, slice_to_from. done.
Qed.

Lemma DecodeLNPR_subjects_encode l tl :
  Forall subject_wf l ->
  DecodeLNPR_subjects (length l) (concat (map EncodeLNPR_subject l) ++ tl) = Some l.
Proof.
  induction 1 as [|s l Hs Hl IH]; [done|].
  cbn [length concat map DecodeLNPR_subjects]. rewrite <- app_assoc.
  by rewrite DecodeLNPR_subject_encode, IH.
Qed.

Lemma DecodeLNPR_subjects_inv n p l :
  DecodeLNPR_subjects n p = Some l ->
  length l = n /\ Forall subject_wf l /\
  exists tl, p = concat (map EncodeLNPR_subject l) ++ tl.
Proof.
  revert p l. induction n as [|n IH]; intros p l H; cbn in H.
  - injection H as <-. split; [done|]. split; [constructor|]. by exists p.
  - destruct (DecodeLNPR_subject p) as [[s p']|] eqn:Es; [|done].
    destruct (DecodeLNPR_subjects n p') as [l'|] eqn:El; [|done]. injection H as <-.
    apply DecodeLNPR_subject_inv in Es as [Hwf ->].
    apply IH in El as (Hlen & Hall & tl & ->).
    split; [cbn; lia|]. split; [by constructor|].
    exists tl. cbn [map concat]. by rewrite <- app_assoc.
Qed.

Lemma slice_from_prefix p q : slice_from (blen p) (p ++ q) = q.
Proof. by apply slice_from_app. Qed.

Lemma DecodeLNPR_encode b tl : lnpr_wf b -> DecodeLNPR (EncodeLNPR b ++ tl) = Some b.
Proof.
  intros (Hper & Hn & Hall). unfold DecodeLNPR, EncodeLNPR. rewrite <- !app_assoc.
  rewrite has_prefix_app. cbn [negb]. rewrite slice_from_prefix.
  set (n := Z.of_nat (length (lnpr_Subjects b))) in *.
  change [byte_of_Z (Z.shiftr n 8); byte_of_Z n] with (be_put 2 n).
  destruct (_ || _) eqn:E.
  { apply orb_prop in E as [E|E]; [zbool|done].
    rewrite !blen_app in E. change (blen [_]) with 1 in E.
    change (blen (putU64 _)) with 8 in E. change (blen (be_put 2 _)) with 2 in E.
    pose proof (blen_nonneg (concat (map EncodeLNPR_subject (lnpr_Subjects b)))).
    pose proof (blen_nonneg tl). lia. }
  rewrite slice_from_app by done. rewrite slice_to_app, slice_from_app by done.
  rewrite <- (app_nil_r (putU64 _)), GetU64_putU64 by done.
  change (be_put 2 n ++ ?x) with (byte_of_Z (Z.shiftr n 8) :: byte_of_Z (Z.shiftr n 0) :: x).
  cbn [byte_at nth]. rewrite len16_be.
  change (be_get _) with (be_get (be_put 2 n)).
  rewrite be_get_put, Z.mod_small by (subst n; cbn; lia).
  change (slice_from 2 (?a :: ?b :: ?t)) with t.
  subst n. rewrite Nat2Z.id, DecodeLNPR_subjects_encode by done. by destruct b.
Qed.

Lemma DecodeLNPR_inv tx b :
  DecodeLNPR tx = Some b -> lnpr_wf b /\ exists tl, tx = EncodeLNPR b ++ tl.
Proof.
  unfold DecodeLNPR. destruct (has_prefix PrefixLNPR tx) eqn:Hp; [|done].
  apply has_prefix_true in Hp as [p ->]. rewrite slice_from_prefix. cbn [negb].
  destruct (_ || _) eqn:E; [done|]. apply orb_false_elim in E as [E Ev]. zbool.
  apply bool_decide_eq_true in Ev.
  destruct (split_at 1 p) as (v & p1 & -> & Hv); [unfold blen in E; lia|].
  destruct v as [|v [|]]; [done| |done]. cbn in Ev. subst v.
  rewrite slice_from_app by done. rewrite blen_app in E. change (blen [_]) with 1 in E.
  destruct (split_at 8 p1) as (per & p2 & -> & Hper); [unfold blen in E; lia|].
  rewrite slice_to_app, slice_from_app by (unfold blen; lia). rewrite blen_app in E.
  destruct (split_at 2 p2) as (nb & p3 & -> & Hnb); [unfold blen in *; lia|].
  rewrite slice_from_app by (unfold blen; lia).
  do 2 (destruct nb as [|? nb]; [done|]). destruct nb; [|done].
  cbn [byte_at nth app]. rewrite len16_be. set (nb := [b0; b1]) in *.
  destruct (DecodeLNPR_subjects _ _) as [l|] eqn:El; [|done]. intros [= <-].
  apply DecodeLNPR_subjects_inv in El as (Hlen & Hall & tl & ->).
  pose proof (be_get_range nb) as Hr. change (256 ^ Z.of_nat (length nb)) with 65536 in Hr.
  split; [split; [apply GetU64_range|split; [cbn; lia|done]]|].
  exists tl. unfold EncodeLNPR. cbn [lnpr_Period lnpr_Subjects].
  rewrite putU64_GetU64 by done.
  replace (Z.of_nat (length l)) with (be_get nb) by lia.
  change [byte_of_Z (Z.shiftr (be_get nb) 8); byte_of_Z (be_get nb)]
    with (be_put (length nb) (be_get nb)).
  rewrite be_put_get, <- !app_assoc. done.
Qed.

(** C38: the LNPR decoder accepts exactly the byte strings that start with the
    encoding of a blob the format can carry (period a uint64, fewer than 2^16
    subjects, subject keys of at most 255 bytes, int64 weights, proofs shorter
    than 2^32 bytes) and returns that blob; whatever follows is ignored. *)
Theorem DecodeLNPR_iff tx b :
  DecodeLNPR tx = Some b <-> lnpr_wf b /\ exists tl, tx = EncodeLNPR b ++ tl.
Proof.
  split; [apply DecodeLNPR_inv|]. intros (Hwf & tl & ->). by apply DecodeLNPR_encode.
Qed.

(** Two blobs with the same encoding are equal. *)
Lemma EncodeLNPR_inj b b' :
  lnpr_wf b -> lnpr_wf b' -> EncodeLNPR b = EncodeLNPR b' -> b = b'.
Proof.
  intros Hb Hb' H. apply (DecodeLNPR_encode b []) in Hb.
  apply (DecodeLNPR_encode b' []) in Hb'. rewrite H in Hb. congruence.
Qed.

(** ** JOIN, LEAV *)

(** The common header: prefix, version, period, length byte. *)
Lemma membership_header pre v per a p :
  blen per = 8 -> blen pre = 4 ->
  let tx := pre ++ [v] ++ per ++ [a] ++ p in
  slice_from (blen pre) tx = [v] ++ per ++ [a] ++ p /\
  slice_from 1 ([v] ++ per ++ [a] ++ p) = per ++ [a] ++ p /\
  slice_to 8 (per ++ [a] ++ p) = per /\ slice_from 8 (per ++ [a] ++ p) = [a] ++ p /\
  slice_from 1 ([a] ++ p) = p.
Proof.
  intros Hper Hpre tx. subst tx. rewrite slice_from_prefix.
  by rewrite !slice_from_app, slice_to_app.
Qed.

Lemma membership_header_inv p :
  1 + 8 + 1 <= blen p ->
  exists v per a q, p = [v] ++ per ++ [a] ++ q /\ length per = 8%nat.
Proof.
  intros H. destruct (split_at 1 p) as (v & p1 & -> & Hv); [unfold blen in H; lia|].
  destruct v as [|v [|]]; try done. rewrite blen_app in H. change (blen [_]) with 1 in H.
  destruct (split_at 8 p1) as (per & p2 & -> & Hper); [unfold blen in H; lia|].
  rewrite blen_app in H.
  destruct (split_at 1 p2) as (a & q & -> & Ha); [unfold blen in *; lia|].
  destruct a as [|a [|]]; try done. by exists v, per, a, q.
Qed.

Lemma DecodeJoin_encode b : join_wf b -> DecodeJoin (EncodeJoin b) = Some b.
Proof.
  intros (Hper & Hs & Hw). unfold DecodeJoin, EncodeJoin. rewrite cut255_id by done.
  rewrite has_prefix_app. cbn [negb].
  destruct (membership_header PrefixJOIN MembershipVersion (putU64 (join_Period b))
    (byte_of_Z (blen (join_Subject b)))
    (join_Subject b ++ PutI64 (join_Weight b) ++ join_Proof b) eq_refl eq_refl)
    as (-> & H1 & H2 & H3 & H4).
  rewrite H1, H2, H3, H4. clear H1 H2 H3 H4. cbn [byte_at nth app].
  rewrite byte_of_len_255 by done. rewrite !blen_cons, !blen_app.
  change (blen (PutI64 _)) with 8. change (blen (putU64 _)) with 8.
  pose proof (blen_nonneg (join_Proof b)). pose proof (blen_nonneg (join_Subject b)).
  rewrite bool_decide_true by done. cbn [negb]. rewrite orb_false_r.
  rewrite !blen_cons, !blen_app. change (blen (PutI64 _)) with 8.
  destruct (_ <? 1 + 8 + 1) eqn:E; zbool; [lia|].
  destruct (_ <? _) eqn:E2; zbool; [lia|].
  rewrite <- (app_nil_r (putU64 _)), GetU64_putU64 by done.
  rewrite slice_to_app by done. unfold slice.
  rewrite slice_from_app, slice_to_app by (try done; change (blen (PutI64 _)) with 8; lia).
  rewrite GetI64_PutI64_nil by done.
  rewrite app_assoc, slice_from_app by (rewrite blen_app; reflexivity).
  by destruct b.
Qed.

Lemma DecodeJoin_inv tx b : DecodeJoin tx = Some b -> join_wf b /\ tx = EncodeJoin b.
Proof.
  unfold DecodeJoin. destruct (has_prefix PrefixJOIN tx) eqn:Hp; [|done].
  apply has_prefix_true in Hp as [p ->]. rewrite slice_from_prefix. cbn [negb].
  destruct (_ || _) eqn:E; [done|]. apply orb_false_elim in E as [E Ev]. zbool.
  apply bool_decide_eq_true in Ev.
  destruct (membership_header_inv p E) as (v & per & a & q & -> & Hper).
  cbn in Ev. subst v.
  destruct (membership_header PrefixJOIN MembershipVersion per a q) as (_ & H1 & H2 & H3 & H4);
    [unfold blen; lia|done|]. rewrite H1, H2, H3, H4. cbn [byte_at nth app].
  destruct (_ <? _) eqn:E2; [done|]. zbool. intros [= <-].
  pose proof (byte_val_range a).
  destruct (split_at (Z.to_nat (byte_val a)) q) as (subj & p1 & -> & Hsubj);
    [unfold blen in E2; lia|].
  assert (Hbs : blen subj = byte_val a) by (unfold blen; lia). rewrite blen_app in E2.
  destruct (split_at 8 p1) as (wb & p2 & -> & Hwb); [unfold blen in *; lia|].
  unfold slice. rewrite slice_to_app, slice_from_app, slice_to_app
    by (unfold blen in *; lia).
  rewrite (app_assoc subj wb), slice_from_app by (rewrite blen_app; unfold blen in *; lia).
  split; [split; [apply GetU64_range|split; [cbn; lia|apply i64_range]]|].
  unfold EncodeJoin. cbn [join_Period join_Subject join_Weight join_Proof].
  rewrite cut255_id, Hbs, byte_of_Z_val, putU64_GetU64, PutI64_GetI64 by (done || lia).
  by rewrite <- !app_assoc.
Qed.

(** JOIN requests have exactly one encoding: the decoder accepts a byte
    string iff it is the encoding of a well-formed request, with no slack. *)
Theorem DecodeJoin_iff tx b : DecodeJoin tx = Some b <-> join_wf b /\ tx = EncodeJoin b.
Proof.
  split; [apply DecodeJoin_inv|]. intros (Hwf & ->). by apply DecodeJoin_encode.
Qed.

Lemma DecodeLeave_encode b tl : leave_wf b -> DecodeLeave (EncodeLeave b ++ tl) = Some b.
Proof.
  intros (Hper & Hs). unfold DecodeLeave, EncodeLeave. rewrite cut255_id by done.
  rewrite <- !app_assoc, has_prefix_app. cbn [negb].
  destruct (membership_header PrefixLEAV MembershipVersion (putU64 (leave_Period b))
    (byte_of_Z (blen (leave_Subject b))) (leave_Subject b ++ tl) eq_refl eq_refl)
    as (-> & H1 & H2 & H3 & H4).
  rewrite H1, H2, H3, H4. clear H1 H2 H3 H4. cbn [byte_at nth app].
  rewrite byte_of_len_255 by done. rewrite !blen_cons, !blen_app.
  change (blen (putU64 _)) with 8.
  pose proof (blen_nonneg tl). pose proof (blen_nonneg (leave_Subject b)).
  rewrite bool_decide_true by done. cbn [negb]. rewrite orb_false_r.
  rewrite !blen_cons, !blen_app.
  destruct (_ <? 1 + 8 + 1) eqn:E; zbool; [lia|].
  destruct (_ <? _) eqn:E2; zbool; [lia|].
  rewrite <- (app_nil_r (putU64 _)), GetU64_putU64 by done.
  rewrite slice_to_app by done. by destruct b.
Qed.

Lemma DecodeLeave_inv tx b :
  DecodeLeave tx = Some b -> leave_wf b /\ exists tl, tx = EncodeLeave b ++ tl.
Proof.
  unfold DecodeLeave. destruct (has_prefix PrefixLEAV tx) eqn:Hp; [|done].
  apply has_prefix_true in Hp as [p ->]. rewrite slice_from_prefix. cbn [negb].
  destruct (_ || _) eqn:E; [done|]. apply orb_false_elim in E as [E Ev]. zbool.
  apply bool_decide_eq_true in Ev.
  destruct (membership_header_inv p E) as (v & per & a & q & -> & Hper).
  cbn in Ev. subst v.
  destruct (membership_header PrefixLEAV MembershipVersion per a q) as (_ & H1 & H2 & H3 & H4);
    [unfold blen; lia|done|]. rewrite H1, H2, H3, H4. cbn [byte_at nth app].
  destruct (_ <? _) eqn:E2; [done|]. zbool. intros [= <-].
  pose proof (byte_val_range a).
  destruct (split_at (Z.to_nat (byte_val a)) q) as (subj & p1 & -> & Hsubj);
    [unfold blen in E2; lia|].
  assert (Hbs : blen subj = byte_val a) by (unfold blen; lia).
  rewrite slice_to_app by done.
  split; [split; [apply GetU64_range|cbn; lia]|]. exists p1.
  unfold EncodeLeave. cbn [leave_Period leave_Subject].
  rewrite cut255_id, Hbs, byte_of_Z_val, putU64_GetU64 by (done || lia).
  by rewrite <- !app_assoc.
Qed.

(** A JOIN is never a LEAV. *)
Lemma DecodeLeave_of_join tx : has_prefix PrefixJOIN tx = true -> DecodeLeave tx = None.
Proof.
  intros [t ->]%has_prefix_true. reflexivity.
Qed.

(** ** SSLE *)

Lemma slice_app lo hi a b c :
  blen a = lo -> blen b = hi - lo -> slice lo hi (a ++ b ++ c) = b.
Proof. intros Ha Hb. unfold slice. by rewrite slice_from_app, slice_to_app. Qed.

Lemma byte_at_app a x c (i : nat) : length a = i -> byte_at (a ++ x :: c) i = x.
Proof. intros <-. unfold byte_at. rewrite app_nth2, Nat.sub_diag by lia. done. Qed.

(** The fields of the blob by position. *)
Lemma DecodeSSLE_fields per h t x q pf :
  length per = 8%nat -> length h = 8%nat -> length t = 32%nat -> blen q = byte_val x ->
  DecodeSSLE (PrefixSSLE ++ per ++ h ++ t ++ [x] ++ q ++ pf) =
  Some (MkSSLEBlob (GetU64 per) (i64 (GetU64 h)) t q pf).
Proof.
  intros Hper Hh Ht Hq. unfold DecodeSSLE. rewrite has_prefix_app. cbn [negb orb].
  set (tx := PrefixSSLE ++ _).
  assert (Htx : blen tx = 53 + blen q + blen pf).
  { subst tx. rewrite !blen_app. change (blen PrefixSSLE) with 4.
    change (blen [x]) with 1. unfold blen. lia. }
  pose proof (blen_nonneg q). pose proof (blen_nonneg pf).
  destruct (_ <? _) eqn:E; zbool; [lia|].
  assert (Hx : byte_at tx 52 = x).
  { subst tx. rewrite !app_assoc, <- (app_assoc _ q pf), <- app_assoc.
    apply byte_at_app. rewrite !length_app. cbn. lia. }
  rewrite Hx. destruct (_ <? _) eqn:E2; zbool; [lia|].
  f_equal. f_equal; subst tx.
  - f_equal. apply slice_app; unfold blen; cbn; lia.
  - f_equal. f_equal. rewrite (app_assoc PrefixSSLE).
    apply slice_app; rewrite ?blen_app; unfold blen; cbn; lia.
  - rewrite (app_assoc PrefixSSLE), (app_assoc (_ ++ per)).
    apply slice_app; rewrite ?blen_app; unfold blen; cbn; lia.
  - rewrite (app_assoc PrefixSSLE), (app_assoc (_ ++ per)), (app_assoc (_ ++ h)),
      (app_assoc (_ ++ t)).
    apply slice_app; rewrite ?blen_app; unfold blen in *; cbn; lia.
  - rewrite (app_assoc PrefixSSLE), (app_assoc (_ ++ per)), (app_assoc (_ ++ h)),
      (app_assoc (_ ++ t)), (app_assoc (_ ++ [x])).
    apply slice_from_app; rewrite ?blen_app; unfold blen in *; cbn; lia.
Qed.

Lemma EncodeSSLE_wf b :
  ssle_wf b ->
  EncodeSSLE b = PrefixSSLE ++ putU64 (ssle_Period b) ++ putU64 (u64 (ssle_Height b)) ++
    ssle_Ticket b ++ [byte_of_Z (blen (ssle_Proposer b))] ++ ssle_Proposer b ++ ssle_Proof b.
Proof.
  intros (_ & _ & Ht & Hp). unfold EncodeSSLE. rewrite cut255_id by done.
  destruct (_ <? 32) eqn:E; zbool; [lia|].
  by rewrite !slice_to_all.
Qed.

(** An SSLE blob with a 32-byte ticket and a proposer id of at most 255
    bytes survives encoding and decoding unchanged. *)
Theorem DecodeSSLE_EncodeSSLE b : ssle_wf b -> DecodeSSLE (EncodeSSLE b) = Some b.
Proof.
  intros Hwf. rewrite EncodeSSLE_wf by done. destruct Hwf as (Hper & Hh & Ht & Hp).
  rewrite DecodeSSLE_fields; [|done|done|unfold blen in Ht; lia|by rewrite byte_of_len_255].
  rewrite <- (app_nil_r (putU64 (ssle_Period b))), GetU64_putU64 by done.
  rewrite <- (app_nil_r (putU64 (u64 _))), GetU64_putU64 by apply u64_range.
  rewrite i64_u64, i64_id by done. by destruct b.
Qed.

(** ** The key space

    The logical keys of the module; [lkey_bytes] is the key each accessor
    uses. *)
Inductive lkey :=
| KOwnsValset | KObjectRoots | KPeriodParam | KBitfield | KNextDepositIndex
| KBonded (period : Z) (subject : bytes)
| KPendingJoin (period : Z) (subject : bytes)
| KPendingLeave (period : Z) (subject : bytes)
| KDepositIndex (subject : bytes)
| KLastPower (subject : bytes)
| KEB (index : Z)
| KDailyKey (period : Z) | KWithdrawCommit (period : Z) | KNoWithdrawAcc (period : Z).

Definition lkey_bytes (k : lkey) : bytes :=
  match k with
  | KOwnsValset => OwnsValsetKey
  | KObjectRoots => ObjectRootsKey
  | KPeriodParam => PeriodParamKey
  | KBitfield => BitfieldKey
  | KNextDepositIndex => NextDepositIndexKey
  | KBonded p s => BondedKey p s
  | KPendingJoin p s => PendingJoinKey p s
  | KPendingLeave p s => PendingLeaveKey p s
  | KDepositIndex s => DepositIndexKey s
  | KLastPower s => LastPowerKey s
  | KEB i => EBKey i
  | KDailyKey p => DailyKeyKey p
  | KWithdrawCommit p => WithdrawCommitKey p
  | KNoWithdrawAcc p => NoWithdrawAccKey p
  end.

Definition lkey_wf (k : lkey) : Prop :=
  match k with
  | KBonded p _ | KPendingJoin p _ | KPendingLeave p _ => is_u64 p
  | KDailyKey p | KWithdrawCommit p | KNoWithdrawAcc p => is_u64 p
  | KEB i => is_u32 i
  | _ => True
  end.

Lemma putU64_app_inj p q s t :
  is_u64 p -> is_u64 q -> putU64 p ++ s = putU64 q ++ t -> p = q /\ s = t.
Proof.
  intros Hp Hq H. apply app_inj_1 in H as [H ->]; [|done].
  split; [by apply putU64_inj|done].
Qed.

(** No two keys of the module collide: distinct logical keys (kind,
    period, subject, index) have distinct byte keys, for uint64 periods and
    uint32 indexes. *)
Theorem lkey_bytes_inj k k' :
  lkey_wf k -> lkey_wf k' -> lkey_bytes k = lkey_bytes k' -> k = k'.
Proof.
  destruct k, k'; cbn [lkey_wf lkey_bytes]; intros Hk Hk' H;
    try (discriminate H); try reflexivity; apply (f_equal (drop 1)) in H.
  all: lazymatch goal with
  | |- ?c ?p ?s = ?c ?q ?t =>
      change (putU64 p ++ s = putU64 q ++ t) in H;
      apply putU64_app_inj in H as [-> ->]; done
  | |- KEB ?i = KEB ?j => change (PutU32 i = PutU32 j) in H; f_equal; by apply PutU32_inj
  | |- KDepositIndex ?s = KDepositIndex ?t => change (s = t) in H; by subst
  | |- KLastPower ?s = KLastPower ?t => change (s = t) in H; by subst
  | |- ?c ?p = ?c ?q => change (putU64 p = putU64 q) in H; f_equal; by apply putU64_inj
  end.
Qed.

(** ** Iteration prefixes select exactly the rows they mean *)

Lemma has_prefix_cons x p y s :
  has_prefix (x :: p) (y :: s) = bool_decide (x = y) && has_prefix p s.
Proof. reflexivity. Qed.

Lemma has_prefix_putU64 p q s :
  is_u64 p -> is_u64 q -> has_prefix (putU64 p) (putU64 q ++ s) = bool_decide (p = q).
Proof.
  intros Hp Hq. destruct (decide (p = q)) as [->|Hne].
  - by rewrite has_prefix_app, bool_decide_true.
  - rewrite bool_decide_false by done. apply not_true_iff_false. intros H.
    apply has_prefix_take in H. rewrite take_app_le in H by done.
    rewrite take_ge in H by done. apply putU64_inj in H; by subst.
Qed.

Lemma BondedPrefix_BondedKey p q s :
  is_u64 p -> is_u64 q ->
  has_prefix (BondedPrefixForPeriod p) (BondedKey q s) = bool_decide (p = q).
Proof. intros Hp Hq. unfold BondedPrefixForPeriod, BondedKey.
  rewrite has_prefix_cons, bool_decide_true by done. by apply has_prefix_putU64.
Qed.

Lemma has_prefix_BondedPrefix p k :
  has_prefix (BondedPrefixForPeriod p) k = true <-> exists s, k = BondedKey p s.
Proof. rewrite has_prefix_true. split; intros [t ->]; by exists t. Qed.
Lemma has_prefix_DepositIndex k :
  has_prefix [DepositIndexPrefix] k = true <-> exists s, k = DepositIndexKey s.
Proof. rewrite has_prefix_true. split; intros [t ->]; by exists t. Qed.
Lemma has_prefix_LastUpdates k :
  has_prefix [LastUpdatesPrefix] k = true <-> exists s, k = LastPowerKey s.
Proof. rewrite has_prefix_true. split; intros [t ->]; by exists t. Qed.
Lemma has_prefix_PendingLeave p k :
  has_prefix (PendingLeavePrefixForPeriod p) k = true <-> exists s, k = PendingLeaveKey p s.
Proof. rewrite has_prefix_true. split; intros [t ->]; by exists t. Qed.

Lemma EBKey_inj i j : is_u32 i -> is_u32 j -> EBKey i = EBKey j -> i = j.
Proof.
  intros Hi Hj H. apply (f_equal (drop 1)) in H.
  change (PutU32 i = PutU32 j) in H. by apply PutU32_inj.
Qed.

(** ** Periods *)

(** Heights map to periods monotonically, a period holds exactly
    [BlocksPerPeriodLive] consecutive heights (600 when the parameter is
    unset), and the result is a uint64. *)
Theorem PeriodFromHeight_spec live h :
  0 <= h < 2 ^ 63 ->
  let n := BlocksPerPeriodLive live in
  let p := PeriodFromHeight live h in
  0 < n /\ is_u64 p /\ n * p <= h < n * (p + 1).
Proof.
  intros Hh n p. assert (Hn : 0 < n).
  { subst n. unfold BlocksPerPeriodLive, BlocksPerPeriod. case_match; zbool; lia. }
  assert (Hp : p = h / n).
  { subst p. unfold PeriodFromHeight. destruct (h <? 0) eqn:E; zbool; [lia|].
    fold n. rewrite Z.quot_div_nonneg by lia. apply u64_id. split; [apply Z.div_pos; lia|].
    apply Z.le_lt_trans with h; [apply Z.div_le_upper_bound; nia|lia]. }
  split; [done|]. rewrite Hp. split.
  - split; [apply Z.div_pos; lia|].
    apply Z.le_lt_trans with h; [apply Z.div_le_upper_bound; nia|lia].
  - pose proof (Z.mul_div_le h n). pose proof (Z.mul_succ_div_gt h n). lia.
Qed.

Lemma PeriodFromHeight_u64 live h : is_u64 (PeriodFromHeight live h).
Proof. unfold PeriodFromHeight. case_match; [split; lia|apply u64_range]. Qed.

(** ** Witnesses *)

Definition w_blob : LNPRBlob :=
  MkLNPRBlob 7 [MkSubjectProof (str "alice") 10 (str "STWO"); MkSubjectProof [] (-1) []].
Lemma w_blob_wf : lnpr_wf w_blob.
Proof.
  split; [by split|]. split; [done|].
  constructor; [|constructor; [|constructor]]; by repeat split.
Qed.

Lemma DecodeJoin_iff_witness :
  DecodeJoin (EncodeJoin (MkJoinBlob 3 (str "bob") 5 (str "STWO"))) =
  Some (MkJoinBlob 3 (str "bob") 5 (str "STWO")).
Proof.
  apply DecodeJoin_iff. split; [|reflexivity]. by repeat split.
Defined.

Lemma DecodeSSLE_EncodeSSLE_witness :
  DecodeSSLE (EncodeSSLE (MkSSLEBlob 1 601 (replicate 32 Byte.x07) (str "prop") (str "STWO")))
  = Some (MkSSLEBlob 1 601 (replicate 32 Byte.x07) (str "prop") (str "STWO")).
Proof.
  apply DecodeSSLE_EncodeSSLE. by repeat split.
Defined.

Lemma lkey_bytes_inj_witness :
  KBonded 1 (str "a") = KBonded 1 (str "a") /\
  lkey_bytes (KBonded 1 (str "a")) <> lkey_bytes (KBonded 2 (str "a")).
Proof.
  split; [apply lkey_bytes_inj; [by split|by split|reflexivity]|].
  vm_compute. discriminate.
Defined.

Lemma PeriodFromHeight_spec_witness :
  PeriodFromHeight 0 1199 = 1 /\ 600 * PeriodFromHeight 0 1199 <= 1199.
Proof.
  split; [reflexivity|].
  destruct (PeriodFromHeight_spec 0 1199 ltac:(lia)) as (_ & _ & H & _). exact H.
Defined.
