(* ===== verification/LvDummyStwo.v ===== *)
(** * x/leanval/keeper: the dummy Stwo prover and verifier

    [dummy_stwo.go] (18-byte DSTW proofs bound to period, weight, subject and
    object roots) and the verifiers of [verifier.go]. *)

From S2P Require Import Prelude LvTypes LvCodec.

(** ** Definitions *)

Definition dummyMagic : bytes := str "DSTW".
Definition dummyProverID : byte := Byte.x02.
Definition dummyCurveID : byte := Byte.x05.
Definition dummyProofLen : Z := 18.
Definition m31P : Z := 2 ^ 31 - 1.
Definition stwoDummyGas : Z := 150000.

(** [binary.LittleEndian.PutUint32] and [Uint32]. *)
Definition le32_put (v : Z) : bytes := rev (be_put 4 v).
Definition le32_get (b : bytes) : Z := be_get (rev b).

Definition dummyM31Hash (a b : Z) : Z := u32 (u64 (3 * a + 5 * b + 7) mod m31P).

Definition DummyStwoProve (a b : Z) : bytes :=
  let c := dummyM31Hash a b in
  dummyMagic ++ [dummyProverID; dummyCurveID] ++ le32_put a ++ le32_put b ++ le32_put c.

(** [for i, x := range l { mix ^= uint32(x) << (8 * (i % 4)) }]. *)
Fixpoint xor_mix (i : Z) (l : bytes) (mix : Z) : Z :=
  match l with
  | [] => mix
  | x :: l' => xor_mix (i + 1) l' (Z.lxor mix (u32 (Z.shiftl (byte_val x) (8 * (i mod 4)))))
  end.

Definition padRoots (roots : bytes) : bytes := copy_into ObjectRootsSize roots.

Definition dummySeedsBound (period : Z) (subject : bytes) (weight : Z) (roots : bytes) : Z * Z :=
  let a := u32 (period mod m31P) in
  let mix := xor_mix 0 (PutI64 weight) 0 in
  let mix := xor_mix 0 subject mix in
  let mix := xor_mix 0 (padRoots roots) mix in
  (a, mix mod m31P).

Definition DummyStwoProveBoundRoots (period : Z) (subject : bytes) (weight : Z) (roots : bytes)
  : bytes :=
  let '(a, b) := dummySeedsBound period subject weight roots in DummyStwoProve a b.

Definition DummyStwoProveBound (period : Z) (subject : bytes) (weight : Z) : bytes :=
  DummyStwoProveBoundRoots period subject weight [].

Definition instancesForRoots (period : Z) (subject : bytes) (weight : Z) (roots : bytes) : bytes :=
  PutI64 (i64 period) ++ PutI64 weight ++ subject ++ padRoots roots.

Definition instancesFor (period : Z) (subject : bytes) (weight : Z) : bytes :=
  instancesForRoots period subject weight [].

Inductive dummy_error :=
| ProofTooLarge | TruncatedDummy | BadDummyMagic | WrongProverID | WrongCurveID
| NotInM31 | StatementFalse | InstanceBindFailed | ClosedNoVerifier.

Definition DummyStwoGo_VerifyDummy (proof instances : bytes) : result dummy_error unit :=
  if MaxProofBytes <? blen proof then Err ProofTooLarge
  else if blen proof <? dummyProofLen then Err TruncatedDummy
  else if negb (bytes_eqb (slice 0 4 proof) dummyMagic) then Err BadDummyMagic
  else if negb (bool_decide (byte_at proof 4 = dummyProverID)) then Err WrongProverID
  else if negb (bool_decide (byte_at proof 5 = dummyCurveID)) then Err WrongCurveID
  else
    let a := le32_get (slice 6 10 proof) in
    let b := le32_get (slice 10 14 proof) in
    let c := le32_get (slice 14 18 proof) in
    if (m31P <=? a) || (m31P <=? b) || (m31P <=? c) then Err NotInM31
    else if negb (dummyM31Hash a b =? c) then Err StatementFalse
    else if 16 <=? blen instances then
      let period := GetU64 (slice_to 8 instances) in
      let weight := GetI64 (slice 8 16 instances) in
      let rest := slice_from 16 instances in
      let '(subj, roots) :=
        if Z.of_nat ObjectRootsSize <=? blen rest then
          let cut := blen rest - Z.of_nat ObjectRootsSize in
          (slice_to cut rest, slice_from cut rest)
        else (rest, []) in
      let '(ea, eb) := dummySeedsBound period subj weight roots in
      if negb (a =? ea) || negb (b =? eb) then Err InstanceBindFailed else Ok tt
    else Ok tt.

(** The [Verifier] interface: [DummyStwoGo] in production and
    [ClosedVerifier], which never accepts. *)
Inductive Verifier := DummyStwoGo | ClosedVerifier.

Definition VerifyDummy (v : Verifier) (proof instances : bytes) : result dummy_error unit :=
  match v with
  | DummyStwoGo => DummyStwoGo_VerifyDummy proof instances
  | ClosedVerifier => Err ClosedNoVerifier
  end.

(** ** The Phase 1B balance AIR *)

Record BalanceAirPublic := MkBalanceAirPublic {
  air_Period : Z;
  air_Weight : Z;
  air_Subject : bytes
}.

Definition BalanceAirInstanceBytes (period weight : Z) (subject : bytes) : bytes :=
  instancesFor period subject weight.

Inductive air_error :=
| AirPeriodRequired | AirSubjectRequired | AirFineNotWeight | AirVerify (e : dummy_error).

(** [StwoBalanceAir.VerifyBalanceAir]; of the witness only [FineBalance] is
    read. *)
Definition StwoBalanceAir_VerifyBalanceAir
    (proof : bytes) (pub : BalanceAirPublic) (fineBalance : Z) : result air_error unit :=
  if air_Period pub =? 0 then Err AirPeriodRequired
  else if blen (air_Subject pub) =? 0 then Err AirSubjectRequired
  else if negb (fineBalance =? air_Weight pub) then Err AirFineNotWeight
  else
    let inst := BalanceAirInstanceBytes (air_Period pub) (air_Weight pub) (air_Subject pub) in
    let proof := if blen proof =? 0
                 then DummyStwoProveBound (air_Period pub) (air_Subject pub) (air_Weight pub)
                 else proof in
    match DummyStwoGo_VerifyDummy proof inst with
    | Ok _ => Ok tt
    | Err e => Err (AirVerify e)
    end.

(** ** Lemmas *)

Lemma le32_get_put v : is_u32 v -> le32_get (le32_put v) = v.
Proof.
  intros H. unfold le32_get, le32_put. rewrite rev_involutive, be_get_put.
  by apply Z.mod_small.
Qed.
Lemma le32_put_get b : length b = 4%nat -> le32_put (le32_get b) = b.
Proof.
  intros H. unfold le32_get, le32_put. replace 4%nat with (length (rev b))
    by (by rewrite length_rev). by rewrite be_put_get, rev_involutive.
Qed.
Lemma length_le32_put v : length (le32_put v) = 4%nat.
Proof. unfold le32_put. by rewrite length_rev, length_be_put. Qed.
Lemma blen_le32_put v : blen (le32_put v) = 4.
Proof. unfold blen. by rewrite length_le32_put. Qed.

Lemma mod_m31_range z : 0 <= z mod m31P < m31P.
Proof. apply Z.mod_pos_bound. reflexivity. Qed.

Lemma m31_u32 z : 0 <= z < m31P -> is_u32 z.
Proof. unfold is_u32, m31P. lia. Qed.

Lemma dummyM31Hash_range a b : 0 <= dummyM31Hash a b < m31P.
Proof.
  unfold dummyM31Hash. pose proof (mod_m31_range (u64 (3 * a + 5 * b + 7))).
  rewrite u32_id by (by apply m31_u32). done.
Qed.

Lemma dummySeedsBound_range period subject weight roots :
  let '(a, b) := dummySeedsBound period subject weight roots in
  0 <= a < m31P /\ 0 <= b < m31P.
Proof.
  unfold dummySeedsBound. split; [|apply mod_m31_range].
  pose proof (mod_m31_range period). rewrite u32_id by (by apply m31_u32). done.
Qed.

(** A DSTW proof by its fields. *)
Lemma DummyStwoProve_fields a b :
  let p := DummyStwoProve a b in
  blen p = 18 /\ slice 0 4 p = dummyMagic /\
  byte_at p 4 = dummyProverID /\ byte_at p 5 = dummyCurveID /\
  slice 6 10 p = le32_put a /\ slice 10 14 p = le32_put b /\
  slice 14 18 p = le32_put (dummyM31Hash a b).
Proof. repeat split; reflexivity. Qed.

(** The instance bytes give back period, weight, subject and roots. *)
Lemma instances_parse period subject weight roots :
  is_u64 period -> is_i64 weight ->
  let i := instancesForRoots period subject weight roots in
  GetU64 (slice_to 8 i) = period /\ GetI64 (slice 8 16 i) = weight /\
  slice_from 16 i = subject ++ padRoots roots.
Proof.
  intros Hp Hw i. subst i. unfold instancesForRoots.
  change (PutI64 (i64 period)) with (putU64 (u64 (i64 period))). rewrite u64_i64, u64_id by done.
  split; [|split].
  - rewrite slice_to_app by done. rewrite <- (app_nil_r (putU64 period)). by apply GetU64_putU64.
  - rewrite slice_app by done. by apply GetI64_PutI64_nil.
  - rewrite app_assoc. by apply slice_from_app.
Qed.

Lemma padRoots_idem roots : padRoots (padRoots roots) = padRoots roots.
Proof. apply copy_into_id, length_copy_into. Qed.
Lemma blen_padRoots roots : blen (padRoots roots) = 96.
Proof. unfold blen, padRoots. by rewrite length_copy_into. Qed.

Lemma dummySeedsBound_pad period subject weight roots :
  dummySeedsBound period subject weight (padRoots roots) =
  dummySeedsBound period subject weight roots.
Proof. unfold dummySeedsBound. by rewrite padRoots_idem. Qed.

Lemma instances_split period subject weight roots :
  is_u64 period -> is_i64 weight ->
  let i := instancesForRoots period subject weight roots in
  16 <=? blen i = true /\
  (let rest := slice_from 16 i in
   (if Z.of_nat ObjectRootsSize <=? blen rest
    then (slice_to (blen rest - Z.of_nat ObjectRootsSize) rest,
          slice_from (blen rest - Z.of_nat ObjectRootsSize) rest)
    else (rest, [])) = (subject, padRoots roots)).
Proof.
  intros Hp Hw i. destruct (instances_parse period subject weight roots Hp Hw) as (_ & _ & Hr).
  split.
  - subst i. unfold instancesForRoots. rewrite !blen_app.
    change (blen (PutI64 _)) with 8. apply Z.leb_le.
    pose proof (blen_nonneg subject). pose proof (blen_nonneg (padRoots roots)). lia.
  - fold i in Hr. rewrite Hr. cbv zeta. rewrite blen_app, blen_padRoots.
    change (Z.of_nat ObjectRootsSize) with 96.
    destruct (_ <=? _) eqn:E; zbool; [|pose proof (blen_nonneg subject); lia].
    rewrite slice_to_app, slice_from_app by lia. done.
Qed.

(** The layout of the 18 checked bytes. *)
Lemma slice_fields (p : bytes) :
  length p = 18%nat ->
  exists m q c fa fb fc, p = m ++ [q; c] ++ fa ++ fb ++ fc /\
    length m = 4%nat /\ length fa = 4%nat /\ length fb = 4%nat /\ length fc = 4%nat.
Proof.
  intros H. do 18 (destruct p as [|? p]; [done|]). destruct p; [|done].
  by exists [b; b0; b1; b2], b3, b4, [b5; b6; b7; b8], [b9; b10; b11; b12], [b13; b14; b15; b16].
Qed.

Lemma slices_fields m q c fa fb fc tl :
  length m = 4%nat -> length fa = 4%nat -> length fb = 4%nat -> length fc = 4%nat ->
  let p := (m ++ [q; c] ++ fa ++ fb ++ fc) ++ tl in
  slice 0 4 p = m /\ byte_at p 4 = q /\ byte_at p 5 = c /\
  slice 6 10 p = fa /\ slice 10 14 p = fb /\ slice 14 18 p = fc.
Proof.
  intros Hm Ha Hb Hc p. subst p.
  do 4 (destruct m as [|? m]; [done|]). destruct m; [|done].
  do 4 (destruct fa as [|? fa]; [done|]). destruct fa; [|done].
  do 4 (destruct fb as [|? fb]; [done|]). destruct fb; [|done].
  do 4 (destruct fc as [|? fc]; [done|]). destruct fc; [|done].
  repeat split; reflexivity.
Qed.

(** What the verifier establishes about the statement of an accepted proof. *)
Lemma VerifyDummy_seeds proof period subject weight roots :
  is_u64 period -> is_i64 weight ->
  DummyStwoGo_VerifyDummy proof (instancesForRoots period subject weight roots) = Ok tt <->
  18 <= blen proof <= MaxProofBytes /\
  slice_to 18 proof = DummyStwoProveBoundRoots period subject weight roots.
Proof.
  intros Hp Hw.
  destruct (instances_parse period subject weight roots Hp Hw) as (Hper & Hwt & _).
  destruct (instances_split period subject weight roots Hp Hw) as (H16 & Hsplit).
  cbv zeta in Hsplit. unfold DummyStwoGo_VerifyDummy, DummyStwoProveBoundRoots.
  rewrite Hper, Hwt, H16, Hsplit, dummySeedsBound_pad.
  pose proof (dummySeedsBound_range period subject weight roots) as Hrange.
  destruct (dummySeedsBound period subject weight roots) as [ea eb]. destruct Hrange as [Ha Hb].
  unfold dummyProofLen.
  destruct (MaxProofBytes <? blen proof) eqn:E1; zbool; [split; [done|lia]|].
  destruct (blen proof <? 18) eqn:E2; zbool; [split; [done|lia]|].
  destruct (split_at 18 proof) as (p & tl & -> & Hlen); [unfold blen in E2; lia|].
  rewrite (slice_to_app 18 p tl) by (unfold blen; lia).
  apply slice_fields in Hlen as (m & q & c & fa & fb & fc & -> & Hm & Hfa & Hfb & Hfc).
  destruct (slices_fields m q c fa fb fc tl Hm Hfa Hfb Hfc) as (-> & -> & -> & -> & -> & ->).
  split.
  - intros H. split; [lia|].
    destruct (bytes_eqb m dummyMagic) eqn:Em; [|done]. apply bytes_eqb_eq in Em as ->.
    destruct (bool_decide (q = _)) eqn:Eq; [|done]. apply bool_decide_eq_true in Eq as ->.
    destruct (bool_decide (c = _)) eqn:Ec; [|done]. apply bool_decide_eq_true in Ec as ->.
    cbn [negb] in H. destruct (_ || _) eqn:Er in H; [done|].
    destruct (dummyM31Hash _ _ =? _) eqn:Eh in H; [|done]. cbn [negb] in H.
    destruct (negb _ || _) eqn:Eb in H; [done|].
    apply orb_false_elim in Eb as [Eb1 Eb2]. zbool.
    rewrite <- Eb1, <- Eb2. unfold DummyStwoProve. by rewrite Eh, !le32_put_get by done.
  - intros [Hl Heq]. unfold DummyStwoProve in Heq.
    apply app_inj_1 in Heq as [-> Heq]; [|done].
    apply app_inj_1 in Heq as [Hqc Heq]; [|done]. injection Hqc as -> ->.
    apply app_inj_1 in Heq as [-> Heq]; [|by rewrite length_le32_put].
    apply app_inj_1 in Heq as [-> ->]; [|by rewrite length_le32_put].
    pose proof (dummyM31Hash_range ea eb).
    rewrite !le32_get_put by (by apply m31_u32).
    rewrite bytes_eqb_refl, !bool_decide_true by done. cbn [negb].
    rewrite !(proj2 (Z.leb_gt _ _)) by lia. by rewrite !Z.eqb_refl.
Qed.

(** The dummy verifier accepts a proof for (period, subject, weight,
    roots) exactly when its first 18 bytes are the proof the dummy prover
    computes for that statement and its size is within the cap: honest proofs
    are accepted, and a change of any of those bytes is rejected. *)
Theorem VerifyDummy_iff proof period subject weight roots :
  is_u64 period -> is_i64 weight ->
  DummyStwoGo_VerifyDummy proof (instancesForRoots period subject weight roots) = Ok tt <->
  18 <= blen proof <= MaxProofBytes /\
  slice_to 18 proof = DummyStwoProveBoundRoots period subject weight roots.
Proof. apply VerifyDummy_seeds. Qed.

Lemma VerifyDummy_iff_witness :
  DummyStwoGo_VerifyDummy (DummyStwoProveBoundRoots 3 (str "alice") 10 [])
    (instancesForRoots 3 (str "alice") 10 []) = Ok tt.
Proof. apply VerifyDummy_iff; [by split|by split|]. split; [by split|by vm_compute]. Defined.

(** The weight binding of the dummy proof folds the eight weight bytes
    into four, so it does not separate weights: the proof made for weight 1
    is accepted for weight 2^32, for every period, subject and roots. *)
Theorem dummy_weight_not_bound period subject roots :
  is_u64 period ->
  DummyStwoGo_VerifyDummy (DummyStwoProveBoundRoots period subject 1 roots)
    (instancesForRoots period subject (2 ^ 32) roots) = Ok tt.
Proof.
  intros Hp. apply VerifyDummy_seeds; [done|by split|].
  assert (H : DummyStwoProveBoundRoots period subject 1 roots =
              DummyStwoProveBoundRoots period subject (2 ^ 32) roots) by reflexivity.
  unfold DummyStwoProveBoundRoots in *.
  destruct (dummySeedsBound period subject 1 roots) as [a b].
  destruct (DummyStwoProve_fields a b) as (Hl & _). rewrite Hl, slice_to_all by done.
  split; [by split|exact H].
Qed.

Lemma dummy_weight_not_bound_witness :
  DummyStwoGo_VerifyDummy (DummyStwoProveBoundRoots 3 (str "alice") 1 [])
    (instancesForRoots 3 (str "alice") (2 ^ 32) []) = Ok tt.
Proof. apply dummy_weight_not_bound. by split. Defined.
