(* ===== verification/LvMerkle.v ===== *)
(** * x/leanval/keeper/merkle.go: the append-only Merkle trees

    Leaves are folded bottom-up; an odd layer repeats its last node. The
    loop runs with the number of leaves as fuel, and [merkle_fuel] shows that
    any larger fuel gives the same root. The commitment theorems hold up to an
    explicit SHA-256 collision. *)

From S2P Require Import Prelude Sha256 LvTypes LvCodec.

(** ** Definitions *)

Definition hashLeaf (data : bytes) : bytes := sha256 data.
Definition hashNode (left right : bytes) : bytes := sha256 (left ++ right).

(** [if len(layer)%2 == 1 { layer = append(layer, layer[len(layer)-1]) }]. *)
Definition even_out (layer : list bytes) : list bytes :=
  if Nat.odd (length layer) then layer ++ [List.last layer []] else layer.

(** [for i := 0; i < len(layer); i += 2 { next = append(next, ...) }]. *)
Fixpoint pair_up (layer : list bytes) : list bytes :=
  match layer with
  | a :: b :: rest => hashNode a b :: pair_up rest
  | _ => []
  end.

Fixpoint merkle_loop (fuel : nat) (layer : list bytes) : bytes :=
  match fuel, layer with
  | S f, _ :: _ :: _ => merkle_loop f (pair_up (even_out layer))
  | _, _ => hd [] layer
  end.

Definition merkleRoot (leaves : list bytes) : bytes :=
  match leaves with
  | [] => hashLeaf []
  | _ => merkle_loop (length leaves) leaves
  end.

Definition depositLeaf (subject : bytes) (idx : Z) : bytes := hashLeaf (subject ++ PutU32 idx).
Definition ebLeaf (eb : byte) : bytes := hashLeaf [eb].

(** Two distinct inputs with the same digest. *)
Definition collision : Prop := exists x y, x <> y /\ sha256 x = sha256 y.

(** ** Lemmas on layers *)

Lemma pair_up_length l : length (pair_up l) = Nat.div2 (length l).
Proof.
  induction l as [l IH] using (induction_ltof1 _ (@length bytes)). unfold ltof in IH.
  destruct l as [|a [|b l]]; try done. cbn. f_equal. apply IH. cbn. lia.
Qed.

Lemma even_out_length l : length (even_out l) = (length l + Nat.b2n (Nat.odd (length l)))%nat.
Proof.
  unfold even_out. destruct (Nat.odd (length l)); [rewrite length_app|]; cbn; lia.
Qed.

Lemma next_length l : length (pair_up (even_out l)) = (S (length l) / 2)%nat.
Proof.
  rewrite pair_up_length, even_out_length, Nat.div2_div.
  destruct (Nat.odd (length l)) eqn:E; cbn [Nat.b2n].
  - by rewrite Nat.add_1_r.
  - rewrite <- Nat.negb_even, negb_false_iff in E. apply Nat.even_spec in E as [k ->].
    pose proof (Nat.div_add_l k 2 0 ltac:(lia)). pose proof (Nat.div_add_l k 2 1 ltac:(lia)).
    replace (2 * k + 0)%nat with (k * 2 + 0)%nat by lia.
    replace (S (2 * k)) with (k * 2 + 1)%nat by lia. cbn in *. lia.
Qed.

Lemma next_smaller l : (2 <= length l)%nat -> (length (pair_up (even_out l)) < length l)%nat.
Proof. intros H. rewrite next_length. apply Nat.Div0.div_lt_upper_bound; lia. Qed.

Lemma next_nonempty l : (1 <= length l)%nat -> (1 <= length (pair_up (even_out l)))%nat.
Proof. intros H. rewrite next_length. apply Nat.div_le_lower_bound; lia. Qed.

(** Any fuel of at least the number of nodes reaches the root. *)
Lemma merkle_fuel f g l :
  (length l <= f)%nat -> (length l <= g)%nat -> merkle_loop f l = merkle_loop g l.
Proof.
  revert g l. induction f as [|f IH]; intros [|g] l Hf Hg;
    try (by destruct l as [|? [|? ?]]; cbn in *; try lia).
  destruct l as [|a [|b l]]; try done. cbn [merkle_loop].
  pose proof (next_smaller (a :: b :: l) ltac:(cbn; lia)). cbn [length] in *.
  apply IH; lia.
Qed.

Lemma merkleRoot_loop l : (1 <= length l)%nat -> merkleRoot l = merkle_loop (length l) l.
Proof. by destruct l; cbn; [lia|]. Qed.

(** One turn of the loop. *)
Lemma merkleRoot_step l :
  (2 <= length l)%nat -> merkleRoot l = merkleRoot (pair_up (even_out l)).
Proof.
  intros H. pose proof (next_smaller l H) as Hs. pose proof (next_nonempty l ltac:(lia)) as Hn.
  rewrite !merkleRoot_loop by lia.
  destruct l as [|a [|b l]]; cbn in H; try lia.
  cbn [length] in Hs.
  change (merkle_loop (length (a :: b :: l)) (a :: b :: l))
    with (merkle_loop (S (length l)) (pair_up (even_out (a :: b :: l)))).
  apply merkle_fuel; lia.
Qed.

Lemma merkleRoot_singleton x : merkleRoot [x] = x.
Proof. reflexivity. Qed.

(** ** Commitment *)

Definition leaf_ok (x : bytes) : Prop := length x = 32%nat.

Lemma hashNode_inj a b a' b' :
  length a = length a' -> hashNode a b = hashNode a' b' -> collision \/ (a = a' /\ b = b').
Proof.
  unfold hashNode. intros Hl H. destruct (decide (a ++ b = a' ++ b')) as [E|E].
  - right. by apply app_inj_1.
  - left. by exists (a ++ b), (a' ++ b').
Qed.

Lemma pair_up_inj n l l' :
  Forall leaf_ok l -> Forall leaf_ok l' ->
  length l = (2 * n)%nat -> length l' = (2 * n)%nat ->
  pair_up l = pair_up l' -> collision \/ l = l'.
Proof.
  revert l l'. induction n as [|n IH]; intros l l' Ha Ha' Hl Hl' H.
  - apply nil_length_inv in Hl, Hl'. subst. by right.
  - destruct l as [|a [|b l]]; cbn in Hl; try lia.
    destruct l' as [|a' [|b' l']]; cbn in Hl'; try lia.
    apply Forall_cons in Ha as [Hxa [Hxb Ha]%Forall_cons].
    apply Forall_cons in Ha' as [Hya [Hyb Ha']%Forall_cons].
    cbn [pair_up] in H. apply cons_eq_inj in H as [H1 H2].
    apply hashNode_inj in H1 as [Hcol| [-> ->]]; [by left| |unfold leaf_ok in *; congruence].
    destruct (IH l l') as [Hcol| ->]; auto; lia.
Qed.

Lemma last_in (l : list bytes) : l <> [] -> List.last l [] ∈ l.
Proof.
  intros H. rewrite list_elem_of_In.
  destruct (exists_last H) as (l' & a & ->). rewrite last_last. apply in_app_iff. right. by left.
Qed.

Lemma even_out_ok l : Forall leaf_ok l -> Forall leaf_ok (even_out l).
Proof.
  intros H. unfold even_out. destruct (Nat.odd (length l)) eqn:E; [|done].
  apply Forall_app. split; [done|]. constructor; [|constructor].
  rewrite Forall_forall in H. apply H, last_in. by intros ->.
Qed.

Lemma even_out_even l : exists n, length (even_out l) = (2 * n)%nat.
Proof.
  rewrite even_out_length. destruct (Nat.odd (length l)) eqn:E; cbn [Nat.b2n].
  - apply Nat.odd_spec in E as [k ->]. exists (k + 1)%nat. lia.
  - rewrite <- Nat.negb_even, negb_false_iff in E. apply Nat.even_spec in E as [k ->].
    exists k. lia.
Qed.

Lemma even_out_inj l l' : length l = length l' -> even_out l = even_out l' -> l = l'.
Proof.
  unfold even_out. intros Hl. rewrite Hl. destruct (Nat.odd _); [|done].
  intros H. by apply app_inj_1 in H as [-> _].
Qed.

Lemma pair_up_ok l : Forall leaf_ok (pair_up l).
Proof.
  induction l as [l IH] using (induction_ltof1 _ (@length bytes)). unfold ltof in IH.
  destruct l as [|a [|b l]]; cbn; constructor; [apply sha256_length|apply IH; cbn; lia].
Qed.

Lemma merkleRoot_binding l l' :
  Forall leaf_ok l -> Forall leaf_ok l' -> length l = length l' ->
  merkleRoot l = merkleRoot l' -> collision \/ l = l'.
Proof.
  revert l'. induction l as [l IH] using (induction_ltof1 _ (@length bytes)).
  unfold ltof in IH. intros l' Ha Ha' Hl H.
  destruct (Nat.lt_ge_cases (length l) 2) as [Hs|Hs].
  - destruct l as [|a [|b l]]; cbn in Hs; try lia.
    + symmetry in Hl. apply nil_length_inv in Hl. subst. by right.
    + destruct l' as [|a' [|]]; cbn in Hl; try lia. cbn in H. right. congruence.
  - rewrite (merkleRoot_step l), (merkleRoot_step l') in H by lia.
    apply IH in H as [Hcol|H]; [by left| |by apply next_smaller|apply pair_up_ok|apply pair_up_ok|].
    2: { rewrite !next_length. congruence. }
    destruct (even_out_even l) as [n Hn].
    apply (pair_up_inj n) in H as [Hcol|H]; [by left| | | | |].
    + right. by apply even_out_inj.
    + by apply even_out_ok.
    + by apply even_out_ok.
    + done.
    + rewrite even_out_length, <- Hl, <- even_out_length. done.
Qed.

Lemma depositLeaf_inj s i s' i' :
  is_u32 i -> is_u32 i' -> depositLeaf s i = depositLeaf s' i' ->
  collision \/ (s = s' /\ i = i').
Proof.
  intros Hi Hi' H. unfold depositLeaf, hashLeaf in H.
  destruct (decide (s ++ PutU32 i = s' ++ PutU32 i')) as [E|E].
  - apply app_inj_2 in E as [-> E]; [|done]. right. split; [done|]. by apply PutU32_inj.
  - left. by exists (s ++ PutU32 i), (s' ++ PutU32 i').
Qed.

(** The deposit leaves of an ordered roster. *)
Definition roster_leaves (subjects : list bytes) : list bytes :=
  imap (fun i s => depositLeaf s (Z.of_nat i)) subjects.

Lemma roster_leaves_ok subjects : Forall leaf_ok (roster_leaves subjects).
Proof.
  apply Forall_forall. intros x Hx. apply list_elem_of_lookup in Hx as [i Hi].
  unfold roster_leaves in Hi. rewrite list_lookup_imap in Hi.
  destruct (subjects !! i); cbn in Hi; [|done]. injection Hi as <-. apply sha256_length.
Qed.

Lemma imap_inj_or (P : Prop) (f : nat -> bytes -> bytes) l l' :
  (forall i s s', (i < length l)%nat -> f i s = f i s' -> P \/ s = s') ->
  length l = length l' -> imap f l = imap f l' -> P \/ l = l'.
Proof.
  revert f l'. induction l as [|x l IH]; intros f [|x' l'] Hf Hl H; try done; [by right|].
  rewrite !imap_cons in H. apply cons_eq_inj in H as [H1 H2].
  apply Hf in H1 as [Hp| ->]; [by left| |cbn; lia].
  destruct (IH (f ∘ S) l') as [Hp| ->]; auto.
  intros i s s' Hi. apply Hf. cbn. lia.
Qed.

(** The deposit-tree root commits to the ordered roster: two rosters of
    the same size with the same root are equal, or the two computations
    exhibit a SHA-256 collision. *)
Theorem deposit_root_commits subjects subjects' :
  length subjects = length subjects' -> Z.of_nat (length subjects) < 2 ^ 32 ->
  merkleRoot (roster_leaves subjects) = merkleRoot (roster_leaves subjects') ->
  collision \/ subjects = subjects'.
Proof.
  intros Hl Hmax H. apply merkleRoot_binding in H as [Hcol|H]; [by left| | | |];
    try apply roster_leaves_ok; [|unfold roster_leaves; by rewrite !length_imap].
  apply (imap_inj_or collision) in H; [done| |done]. intros i s s' Hi He.
  apply depositLeaf_inj in He as [Hcol|[? _]]; [by left|by right| |]; unfold is_u32; lia.
Qed.

Lemma deposit_root_commits_witness :
  collision \/ [str "a"; str "b"; str "c"] = [str "a"; str "b"; str "c"].
Proof. apply deposit_root_commits; [reflexivity|reflexivity|reflexivity]. Defined.

(** The tree does not commit to the number of leaves: an odd layer of at
    least three leaves has the same root as the same layer with its last leaf
    repeated. *)
Theorem merkleRoot_odd_duplicate l x :
  (2 <= length l)%nat -> Nat.even (length l) = true ->
  merkleRoot (l ++ [x]) = merkleRoot (l ++ [x; x]).
Proof.
  intros Hl He. rewrite (merkleRoot_step (l ++ [x])), (merkleRoot_step (l ++ [x; x]))
    by (rewrite length_app; cbn; lia).
  f_equal. f_equal. unfold even_out. rewrite !length_app. cbn [length].
  replace (length l + 2)%nat with (S (S (length l))) by lia.
  rewrite Nat.add_1_r, Nat.odd_succ, He, last_last, <- app_assoc.
  rewrite Nat.odd_succ, Nat.even_succ, <- Nat.negb_even, He. done.
Qed.

Lemma merkleRoot_odd_duplicate_witness :
  merkleRoot [ebLeaf Byte.x01; ebLeaf Byte.x02; ebLeaf Byte.x03] =
  merkleRoot [ebLeaf Byte.x01; ebLeaf Byte.x02; ebLeaf Byte.x03; ebLeaf Byte.x03].
Proof.
  apply (merkleRoot_odd_duplicate [ebLeaf Byte.x01; ebLeaf Byte.x02] (ebLeaf Byte.x03));
    [cbn; lia|reflexivity].
Defined.
