(* ===== verification/LvBitfield.v ===== *)
(** * x/leanval/keeper: bitfield, deposit index and effective balances

    [bitfield.go], [roots.go] and the store-dependent half of [merkle.go].
    These methods read and write nothing but the store returned by [live()],
    so each is a function of that store. The second half relates the store to
    an abstract roster (an ordered list of rows) and shows that the methods
    implement it. *)

From S2P Require Import Prelude Sha256 KVStore LvTypes LvCodec LvMerkle.

(** ** Definitions *)

Definition nextDepositIndex (m : store) : Z := GetU32 (store_Get m NextDepositIndexKey).
Definition setNextDepositIndex (n : Z) (m : store) : store :=
  store_Set NextDepositIndexKey (PutU32 n) m.

Definition Bitfield (m : store) : bytes :=
  let b := store_Get m BitfieldKey in
  if blen b =? 0 then [Byte.x00] else b.

Definition bitGet (bf : bytes) (idx : Z) : bool :=
  let i := idx / 8 in
  if blen bf <=? i then false
  else negb (Z.land (byte_val (byte_at bf (Z.to_nat i))) (Z.shiftl 1 (idx mod 8)) =? 0).

Definition bitSet (bf : bytes) (idx : Z) (on : bool) : bytes :=
  let i := Z.to_nat (idx / 8) in
  let need := (i + 1)%nat in
  let bf := if (length bf <? need)%nat then copy_into need bf else bf in
  let mask := byte_val (byte_of_Z (Z.shiftl 1 (idx mod 8))) in
  let old := byte_val (byte_at bf i) in
  <[i := byte_of_Z (if on then Z.lor old mask else Z.ldiff old mask)]> bf.

Definition setBitfield (b : bytes) (m : store) : store :=
  store_Set BitfieldKey (if blen b =? 0 then [Byte.x00] else b) m.

(** The first deposit-index row with index [want]. *)
Definition subjectByIndex (m : store) (want : Z) : bytes :=
  default []
    (find_map (fun kv : bytes * bytes =>
       let value := kv.2 in
       if blen value <? 5 then None
       else if GetU32 (slice_from (blen value - 4) value) =? want then Some (drop 1 kv.1)
       else None)
     (IteratePrefix m [DepositIndexPrefix])).

Definition EBOf (m : store) (idx : Z) : byte :=
  let v := store_Get m (EBKey idx) in
  if blen v =? 0 then Byte.x00 else byte_at v 0.

(** [for i := uint32(0); i < n; i++]. *)
Definition u32_range_list (n : Z) : list Z := map Z.of_nat (seq 0 (Z.to_nat n)).

Definition depositLeaves (m : store) : list bytes :=
  map (fun i => depositLeaf (subjectByIndex m i) i) (u32_range_list (nextDepositIndex m)).
Definition ebLeaves (m : store) : list bytes :=
  map (fun i => ebLeaf (EBOf m i)) (u32_range_list (nextDepositIndex m)).

Definition BitfieldRoot (m : store) : bytes := sha256 (Bitfield m).
Definition DepositTreeRoot (m : store) : bytes := merkleRoot (depositLeaves m).
Definition EBTreeRoot (m : store) : bytes := merkleRoot (ebLeaves m).

(** [roots.go]. *)
Definition LastObjectRoots (m : store) : bytes :=
  let b := store_Get m ObjectRootsKey in
  if 0 <? blen b then copy_into ObjectRootsSize b else replicate ObjectRootsSize Byte.x00.
Definition SetLastObjectRoots (roots : bytes) (m : store) : store :=
  store_Set ObjectRootsKey (copy_into ObjectRootsSize roots) m.

Definition syncObjectRoots (m : store) : store :=
  SetLastObjectRoots (BitfieldRoot m ++ DepositTreeRoot m ++ EBTreeRoot m) m.

Definition BitSet (idx : Z) (m : store) : store :=
  syncObjectRoots (setBitfield (bitSet (Bitfield m) idx true) m).
Definition BitClear (idx : Z) (m : store) : store :=
  syncObjectRoots (setBitfield (bitSet (Bitfield m) idx false) m).
Definition BitIsSet (m : store) (idx : Z) : bool := bitGet (Bitfield m) idx.

(** [out[i] |= other[i]] for every [i < len(other)], on a copy of the current
    field padded to the longer length. *)
Fixpoint or_bytes (a b : bytes) : bytes :=
  match a, b with
  | x :: a', y :: b' => byte_of_Z (Z.lor (byte_val x) (byte_val y)) :: or_bytes a' b'
  | _, [] => a
  | [], _ => []
  end.
Definition ORMergeBitfield (other : bytes) (m : store) : store :=
  let cur := Bitfield m in
  let n := if (length cur <? length other)%nat then length other else length cur in
  syncObjectRoots (setBitfield (or_bytes (copy_into n cur) other) m).

Definition depositIndexOf (m : store) (subject : bytes) : option Z :=
  let v := store_Get m (DepositIndexKey subject) in
  if blen v <? 5 then None else Some (GetU32 (slice_from (blen v - 4) v)).

Definition AllocateIndex (subject : bytes) (m : store) : store * Z :=
  match depositIndexOf m subject with
  | Some idx => (m, idx)
  | None =>
      let n := nextDepositIndex m in
      let m := store_Set (DepositIndexKey subject) (DepositIndexBytes n) m in
      let m := setNextDepositIndex (u32 (n + 1)) m in
      (syncObjectRoots m, n)
  end.

Definition ebFromWeight (w : Z) : byte :=
  if w <=? 0 then Byte.x00 else if 255 <? w then Byte.xff else byte_of_Z w.

Definition SetEB (idx : Z) (eb : byte) (m : store) : store :=
  syncObjectRoots (store_Set (EBKey idx) [eb] m).

Definition admitMember (subject : bytes) (weight : Z) (m : store) : store * Z :=
  let '(m, idx) := AllocateIndex subject m in
  if 0 <? weight then
    let m := if blen (store_Get m (EBKey idx)) =? 0
             then SetEB idx (ebFromWeight weight) m else m in
    (BitSet idx m, idx)
  else (m, idx).

(** A row of the bonded set. *)
Record SubjectPower := MkSubjectPower {
  pw_Subject : bytes;
  pw_Weight : Z;
  pw_HasProof : bool
}.

Definition DebugSubjectsFromBits (m : store) : list SubjectPower :=
  omap (fun i =>
    if negb (BitIsSet m i) then None
    else
      let subj := subjectByIndex m i in
      let subj := if blen subj =? 0 then DepositIndexBytes i else subj in
      let eb := EBOf m i in
      Some (MkSubjectPower subj (byte_val eb) (0 <? byte_val eb)))
    (u32_range_list (nextDepositIndex m)).

(** [countSetBits] of [abci.go]: the set bits below [next + 8]; the bound is
    a uint32 sum. *)
Definition countSetBits (m : store) : Z :=
  Z.of_nat (length (filter (fun i => BitIsSet m i = true)
                      (u32_range_list (u32 (nextDepositIndex m + 8))))).

(** ** The abstract roster

    Row [i] is the member with deposit index [i]: its subject, whether its
    participation bit is set, and its effective balance if one was ever
    written. *)
Record row := MkRow { row_subject : bytes; row_bit : bool; row_eb : option byte }.

(** The store represents the rows. *)
Record roster_rel (m : store) (rows : list row) : Prop := MkRosterRel {
  rr_next : nextDepositIndex m = Z.of_nat (length rows);
  rr_bound : Z.of_nat (length rows) < 2 ^ 32;
  rr_nodup : NoDup (row_subject <$> rows);
  rr_index : forall s i, depositIndexOf m s = Some i <->
               0 <= i /\ (row_subject <$> rows) !! Z.to_nat i = Some s;
  rr_bit : forall i, 0 <= i < 2 ^ 32 ->
             BitIsSet m i = match rows !! Z.to_nat i with Some r => row_bit r | None => false end;
  rr_eb : forall i, 0 <= i < 2 ^ 32 ->
             take 1 (store_Get m (EBKey i)) =
             match rows !! Z.to_nat i with
             | Some r => match row_eb r with Some b => [b] | None => [] end
             | None => []
             end
}.

(** Position of a subject. *)
Definition row_find (s : bytes) (rows : list row) : option nat :=
  fst <$> list_find (fun r => row_subject r = s) rows.

(** The operations of the abstract roster. *)
Definition row_allocate (s : bytes) (rows : list row) : list row :=
  match row_find s rows with
  | Some _ => rows
  | None => rows ++ [MkRow s false None]
  end.
Definition row_activate (w : Z) (r : row) : row :=
  MkRow (row_subject r) true
    (match row_eb r with Some b => Some b | None => Some (ebFromWeight w) end).
Definition roster_admit (s : bytes) (w : Z) (rows : list row) : list row :=
  let rows := row_allocate s rows in
  if 0 <? w then
    match row_find s rows with
    | Some i => alter (row_activate w) i rows
    | None => rows
    end
  else rows.
Definition row_retire (r : row) : row := MkRow (row_subject r) false (Some Byte.x00).
Definition roster_leave (s : bytes) (rows : list row) : list row :=
  match row_find s rows with
  | Some i => alter row_retire i rows
  | None => rows
  end.

(** The bonded set a roster shows, from row [i] on: the members whose bit is
    set, in index order. *)
Definition row_power (i : nat) (r : row) : SubjectPower :=
  let eb := default Byte.x00 (row_eb r) in
  MkSubjectPower
    (if blen (row_subject r) =? 0 then DepositIndexBytes (Z.of_nat i) else row_subject r)
    (byte_val eb) (0 <? byte_val eb).
Fixpoint roster_powers_from (i : nat) (rows : list row) : list SubjectPower :=
  match rows with
  | [] => []
  | r :: rows' =>
      (if row_bit r then [row_power i r] else []) ++ roster_powers_from (S i) rows'
  end.
Definition roster_powers (rows : list row) : list SubjectPower := roster_powers_from 0 rows.

(** ** Lemmas on bit strings *)

Lemma land_bit_zero b k : 0 <= k -> (Z.land b (Z.shiftl 1 k) =? 0) = negb (Z.testbit b k).
Proof.
  intros Hk. rewrite Z.shiftl_1_l. destruct (Z.testbit b k) eqn:E; cbn.
  - apply Z.eqb_neq. intros H. apply (f_equal (fun z => Z.testbit z k)) in H.
    by rewrite Z.land_spec, E, Z.pow2_bits_true, Z.bits_0 in H.
  - apply Z.eqb_eq, Z.bits_inj'. intros n Hn. rewrite Z.land_spec, Z.bits_0.
    destruct (decide (n = k)) as [-> |Hne]; [by rewrite E|].
    rewrite Z.pow2_bits_false by done. apply andb_false_r.
Qed.

Lemma byte_at_lookup l i : byte_at l i = default Byte.x00 (l !! i).
Proof. unfold byte_at. apply nth_lookup. Qed.

(** A missing byte reads as zero, so the length test is redundant. *)
Lemma bitGet_testbit bf idx :
  0 <= idx -> bitGet bf idx = Z.testbit (byte_val (byte_at bf (Z.to_nat (idx / 8)))) (idx mod 8).
Proof.
  intros Hi. unfold bitGet.
  rewrite land_bit_zero, negb_involutive by (apply Z.mod_pos_bound; lia).
  destruct (_ <=? _) eqn:E; [|done]. zbool.
  rewrite byte_at_lookup, lookup_ge_None_2 by (unfold blen in E; lia).
  cbn. by rewrite Z.bits_0.
Qed.

Lemma byte_at_copy_into n l i : (length l <= n)%nat -> byte_at (copy_into n l) i = byte_at l i.
Proof.
  intros H. unfold copy_into. rewrite take_ge by lia. rewrite !byte_at_lookup.
  destruct (Nat.lt_ge_cases i (length l)) as [Hi|Hi].
  - by rewrite lookup_app_l.
  - rewrite lookup_app_r, (lookup_ge_None_2 l i) by lia. cbn.
    destruct (replicate _ _ !! _) eqn:E; [|done].
    by apply lookup_replicate in E as [-> _].
Qed.

Lemma testbit_byte_of_Z z k : 0 <= k < 8 -> Z.testbit (byte_val (byte_of_Z z)) k = Z.testbit z k.
Proof.
  intros Hk. rewrite byte_val_of_Z. change 256 with (2 ^ 8).
  by rewrite Z.mod_pow2_bits_low by lia.
Qed.

Lemma div_mod_8_inj i j : i / 8 = j / 8 -> i mod 8 = j mod 8 -> i = j.
Proof.
  intros H1 H2. rewrite (Z.div_mod i 8), (Z.div_mod j 8) by lia. lia.
Qed.

Lemma bitGet_bitSet_lemma bf idx on j :
  0 <= idx -> 0 <= j -> bitGet (bitSet bf idx on) j = if j =? idx then on else bitGet bf j.
Proof.
  intros Hi Hj. rewrite !bitGet_testbit by done. unfold bitSet.
  set (i := Z.to_nat (idx / 8)).
  set (bf' := if (length bf <? i + 1)%nat then _ else bf).
  assert (Hlen : (i < length bf')%nat).
  { subst bf'. destruct (_ <? _)%nat eqn:E; [rewrite length_copy_into; lia|].
    apply Nat.ltb_ge in E. lia. }
  assert (Hat : forall k, byte_at bf' k = byte_at bf k).
  { intros k. subst bf'. destruct (_ <? _)%nat eqn:E; [|done].
    apply Nat.ltb_lt in E. apply byte_at_copy_into. lia. }
  pose proof (Z.mod_pos_bound idx 8 ltac:(lia)). pose proof (Z.mod_pos_bound j 8 ltac:(lia)).
  pose proof (Z.div_pos idx 8 ltac:(lia) ltac:(lia)).
  pose proof (Z.div_pos j 8 ltac:(lia) ltac:(lia)).
  rewrite (byte_at_lookup (<[_ := _]> _)).
  destruct (decide (i = Z.to_nat (j / 8))) as [Heq|Hne].
  - rewrite <- Heq, list_lookup_insert_eq by done. cbn [from_option id].
    rewrite Hat, testbit_byte_of_Z by done.
    rewrite byte_val_of_Z, Z.shiftl_1_l.
    rewrite (Z.mod_small (2 ^ _)) by (split; [apply Z.pow_nonneg; lia|];
      change 256 with (2 ^ 8); apply Z.pow_lt_mono_r; lia).
    assert (Hb : Z.testbit (2 ^ (idx mod 8)) (j mod 8) = (j =? idx)).
    { rewrite Z.pow2_bits_eqb by lia. apply Bool.eq_iff_eq_true. rewrite !Z.eqb_eq. split.
      - intros E. apply div_mod_8_inj; [subst i; lia|done].
      - by intros ->. }
    destruct on; [rewrite Z.lor_spec|rewrite Z.ldiff_spec]; rewrite Hb;
      destruct (j =? idx); cbn; rewrite ?orb_true_r, ?orb_false_r, ?andb_false_r, ?andb_true_r; done.
  - rewrite list_lookup_insert_ne by done. rewrite <- byte_at_lookup, Hat.
    destruct (j =? idx) eqn:E; [|done]. zbool. subst j. done.
Qed.

(** Writing one participation bit changes that bit and no other,
    whatever the length of the field (a field that is too short is extended
    with zeros). *)
Theorem bitGet_bitSet bf idx on j :
  0 <= idx -> 0 <= j -> bitGet (bitSet bf idx on) j = if j =? idx then on else bitGet bf j.
Proof. apply bitGet_bitSet_lemma. Qed.

Lemma bitGet_bitSet_witness : bitGet (bitSet [Byte.x01] 19 true) 0 = true.
Proof. exact (bitGet_bitSet [Byte.x01] 19 true 0 ltac:(lia) ltac:(lia)). Defined.

Lemma byte_at_or_bytes a b i :
  (length b <= length a)%nat ->
  byte_val (byte_at (or_bytes a b) i) = Z.lor (byte_val (byte_at a i)) (byte_val (byte_at b i)).
Proof.
  revert b i. induction a as [|x a IH]; intros [|y b] i H; cbn [length] in H; try lia.
  - cbn. destruct i; done.
  - cbn [or_bytes]. rewrite (byte_at_lookup []). cbn. by rewrite Z.lor_0_r.
  - destruct i as [|i]; cbn [or_bytes byte_at nth].
    + rewrite byte_val_of_Z. apply Z.mod_small.
      pose proof (byte_val_range x). pose proof (byte_val_range y). split.
      * apply Z.lor_nonneg. lia.
      * change 256 with (2 ^ 8). destruct (Z.eq_dec (Z.lor (byte_val x) (byte_val y)) 0) as [-> |];
          [lia|].
        apply Z.log2_lt_pow2; [pose proof (Z.lor_nonneg (byte_val x) (byte_val y)); lia|].
        rewrite Z.log2_lor by lia. apply Z.max_lub_lt;
          [destruct (Z.eq_dec (byte_val x) 0) as [-> |]; [done|apply Z.log2_lt_pow2; lia]
          |destruct (Z.eq_dec (byte_val y) 0) as [-> |]; [done|apply Z.log2_lt_pow2; lia]].
    + apply IH. lia.
Qed.

(** ** Frame: what each write leaves alone *)

(** The three kinds of keys the roster lives in. *)
Definition roster_key (k : bytes) : Prop :=
  k = NextDepositIndexKey \/ k = BitfieldKey \/ (exists s, k = DepositIndexKey s) \/
  (exists i, is_u32 i /\ k = EBKey i).

Lemma roster_rel_frame m m' rows :
  (forall k, roster_key k -> m' !! k = m !! k) -> roster_rel m rows -> roster_rel m' rows.
Proof.
  intros H [Hn Hb Hd Hi Hbit Heb]. unfold store_Get in *.
  assert (Hk : forall k, roster_key k -> store_Get m' k = store_Get m k)
    by (intros k Hk; unfold store_Get; by rewrite H).
  split; auto.
  - unfold nextDepositIndex. rewrite Hk; [done|by left].
  - intros s i. unfold depositIndexOf. rewrite Hk; [apply Hi|right; right; left; eauto].
  - intros i Hr. unfold BitIsSet, Bitfield. rewrite Hk; [by apply Hbit|right; by left].
  - intros i Hr. rewrite Hk; [by apply Heb|right; right; right; by exists i].
Qed.

Lemma roster_key_bytes k : roster_key k -> hd Byte.x00 k ∈ [Byte.x10; Byte.x11; Byte.x12; Byte.x13].
Proof.
  intros [->|[->|[[s ->]|(i & _ & ->)]]]; cbn; set_solver.
Qed.

(** A write to a key of another kind keeps the roster. *)
Lemma roster_rel_Set_other m rows k v :
  hd Byte.x00 k ∉ [Byte.x10; Byte.x11; Byte.x12; Byte.x13] ->
  roster_rel m rows -> roster_rel (store_Set k v m) rows.
Proof.
  intros Hk. apply roster_rel_frame. intros k' Hk'. apply lookup_insert_ne.
  intros ->. by apply Hk, roster_key_bytes.
Qed.
Lemma roster_rel_Delete_other m rows k :
  hd Byte.x00 k ∉ [Byte.x10; Byte.x11; Byte.x12; Byte.x13] ->
  roster_rel m rows -> roster_rel (store_Delete k m) rows.
Proof.
  intros Hk. apply roster_rel_frame. intros k' Hk'. apply lookup_delete_ne.
  intros ->. by apply Hk, roster_key_bytes.
Qed.

Lemma roster_rel_sync m rows : roster_rel m rows -> roster_rel (syncObjectRoots m) rows.
Proof. apply roster_rel_Set_other. vm_compute. set_solver. Qed.

(** ** Reading the roster *)

Lemma row_find_Some s rows i :
  NoDup (row_subject <$> rows) ->
  row_find s rows = Some i <-> (row_subject <$> rows) !! i = Some s.
Proof.
  intros Hd. unfold row_find. split.
  - intros H. apply fmap_Some in H as ([j r] & Hf & ->).
    apply list_find_Some in Hf as (Hr & <- & _). cbn [fst]. by rewrite list_lookup_fmap, Hr.
  - intros H. rewrite list_lookup_fmap in H. apply fmap_Some in H as (r & Hr & ->).
    apply fmap_Some. exists (i, r). split; [|done]. apply list_find_Some.
    split; [done|]. split; [done|]. intros j r' Hj Hlt Heq.
    assert (i = j); [|lia].
    eapply NoDup_lookup with (x := row_subject r); [done| |];
      rewrite list_lookup_fmap, ?Hr, ?Hj; cbn; congruence.
Qed.

Lemma row_find_None s rows : row_find s rows = None <-> s ∉ row_subject <$> rows.
Proof.
  unfold row_find. rewrite fmap_None, list_find_None, Forall_forall. split.
  - intros H Hin. apply list_elem_of_fmap in Hin as (r & -> & Hr). by apply (H r).
  - intros H r Hr Heq. apply H. apply list_elem_of_fmap. by exists r.
Qed.

Section ReadRoster.
Context (m : store) (rows : list row) (Hrel : roster_rel m rows).

Lemma depositIndexOf_rel s : depositIndexOf m s = Z.of_nat <$> row_find s rows.
Proof.
  destruct (depositIndexOf m s) as [i|] eqn:E; symmetry.
  - apply (rr_index _ _ Hrel) in E as [Hi E].
    apply row_find_Some in E; [|apply Hrel]. rewrite E. cbn. f_equal. lia.
  - apply fmap_None. destruct (row_find s rows) as [i|] eqn:F; [|done].
    apply row_find_Some in F; [|apply Hrel].
    assert (depositIndexOf m s = Some (Z.of_nat i)); [|congruence].
    apply (rr_index _ _ Hrel). rewrite Nat2Z.id. split; [lia|done].
Qed.

Lemma subjectByIndex_rel i :
  0 <= i -> subjectByIndex m i = default [] ((row_subject <$> rows) !! Z.to_nat i).
Proof.
  intros Hi. unfold subjectByIndex. set (f := fun kv : bytes * bytes => _).
  assert (Hf : forall k v y, (k, v) ∈ IteratePrefix m [DepositIndexPrefix] ->
    f (k, v) = Some y -> k = DepositIndexKey y /\ depositIndexOf m y = Some i).
  { intros k v y Hin Hk. apply elem_of_IteratePrefix in Hin as [Hm Hp].
    apply has_prefix_DepositIndex in Hp as [s ->].
    unfold f in Hk. cbn [fst snd] in Hk. change (drop 1 (DepositIndexKey s)) with s in Hk.
    destruct (_ <? _) eqn:E1; [done|]. destruct (_ =? _) eqn:E2; [|done].
    apply (inj Some) in Hk as <-. zbool. split; [done|].
    unfold depositIndexOf, store_Get. rewrite Hm. cbn.
    destruct (_ <? _) eqn:E3; zbool; [lia|]. by rewrite E2. }
  destruct ((row_subject <$> rows) !! Z.to_nat i) as [s|] eqn:Es; cbn [from_option].
  - assert (Hd : depositIndexOf m s = Some i) by (by apply (rr_index _ _ Hrel)).
    assert (Hfm : find_map f (IteratePrefix m [DepositIndexPrefix]) = Some s); [|by rewrite Hfm].
    unfold depositIndexOf in Hd. destruct (_ <? _) eqn:E; [done|]. zbool.
    set (v := store_Get m (DepositIndexKey s)) in *.
    apply (find_map_unique f _ (DepositIndexKey s, v)).
    + apply elem_of_IteratePrefix. split; [|done]. apply store_Get_nonempty.
      fold v. intros Hv. rewrite Hv in E. by vm_compute in E.
    + unfold f. cbn [fst snd]. injection Hd as Hd.
      destruct (_ <? _) eqn:E3; zbool; [lia|].
      by rewrite (proj2 (Z.eqb_eq _ _) Hd).
    + intros [k' v'] y Hin Hy. apply Hf in Hy as [_ Hy]; [|done].
      apply (rr_index _ _ Hrel) in Hy as [_ Hy]. congruence.
  - rewrite (proj2 (find_map_None f _)); [done|]. intros [k v] Hin.
    destruct (f (k, v)) as [y|] eqn:Ef; [|done].
    apply Hf in Ef as [_ Ef]; [|done].
    apply (rr_index _ _ Hrel) in Ef as [_ Ef]. congruence.
Qed.

Lemma EBOf_rel i :
  0 <= i < 2 ^ 32 ->
  EBOf m i = default Byte.x00 (rows !! Z.to_nat i ≫= row_eb).
Proof.
  intros Hi. pose proof (rr_eb _ _ Hrel i Hi) as H. unfold EBOf.
  destruct (store_Get m (EBKey i)) as [|b v].
  - destruct (rows !! Z.to_nat i) as [r|]; cbn; [|done]. by destruct (row_eb r).
  - change (blen (b :: v) =? 0) with false. change (take 1 (b :: v)) with [b] in H.
    destruct (rows !! Z.to_nat i) as [r|]; [|done]. destruct (row_eb r) eqn:E; [|done].
    injection H as <-. cbn. by rewrite E.
Qed.

Lemma DebugSubjectsFromBits_from (l : list row) (k : nat) :
  drop k rows = l ->
  omap (fun i =>
    if negb (BitIsSet m i) then None
    else
      let subj := subjectByIndex m i in
      let subj := if blen subj =? 0 then DepositIndexBytes i else subj in
      let eb := EBOf m i in
      Some (MkSubjectPower subj (byte_val eb) (0 <? byte_val eb)))
    (map Z.of_nat (seq k (length l))) = roster_powers_from k l.
Proof.
  revert k. induction l as [|r l IH]; intros k Hk; [done|].
  assert (Hr : rows !! k = Some r).
  { rewrite <- (Nat.add_0_r k), <- lookup_drop, Hk. done. }
  assert (Hlt : (k < length rows)%nat) by (by apply lookup_lt_Some in Hr).
  pose proof (rr_bound _ _ Hrel).
  cbn [length seq map omap list_omap roster_powers_from].
  rewrite (rr_bit _ _ Hrel), (EBOf_rel), (subjectByIndex_rel) by lia.
  rewrite Nat2Z.id, list_lookup_fmap, Hr. cbn [negb mbind option_bind fmap option_fmap option_map
    from_option id].
  rewrite IH by (rewrite <- Nat.add_1_r, <- drop_drop, Hk; done).
  by destruct (row_bit r).
Qed.

Lemma DebugSubjectsFromBits_rel : DebugSubjectsFromBits m = roster_powers rows.
Proof.
  unfold DebugSubjectsFromBits, u32_range_list. rewrite (rr_next _ _ Hrel), Nat2Z.id.
  by apply DebugSubjectsFromBits_from.
Qed.

Lemma depositLeaves_rel : depositLeaves m = roster_leaves (row_subject <$> rows).
Proof.
  unfold depositLeaves, roster_leaves, u32_range_list.
  rewrite (rr_next _ _ Hrel), Nat2Z.id. apply list_eq. intros i.
  rewrite list_lookup_imap, !list_lookup_fmap.
  destruct (rows !! i) as [r|] eqn:E.
  - assert (Hlt : (i < length rows)%nat) by (by apply lookup_lt_Some in E).
    rewrite lookup_seq_lt by done. cbn. f_equal.
    by rewrite subjectByIndex_rel, Nat2Z.id, list_lookup_fmap, E by lia.
  - apply lookup_ge_None in E. by rewrite lookup_seq_ge.
Qed.
End ReadRoster.

(** ** Writing the roster *)

Lemma DepositIndexBytes_get n :
  is_u32 n ->
  let v := DepositIndexBytes n in
  (blen v <? 5) = false /\ GetU32 (slice_from (blen v - 4) v) = n.
Proof.
  intros Hn v. split; [done|]. subst v. unfold DepositIndexBytes.
  change (slice_from _ (?x :: PutU32 n)) with (PutU32 n).
  rewrite <- (app_nil_r (PutU32 n)). by apply GetU32_PutU32.
Qed.

Lemma key_neq_hd k k' : hd Byte.x00 k <> hd Byte.x00 k' -> k <> k'.
Proof. congruence. Qed.

Ltac key_neq := apply key_neq_hd; vm_compute; discriminate.

Lemma BitIsSet_Set_other m k v i : k <> BitfieldKey -> BitIsSet (store_Set k v m) i = BitIsSet m i.
Proof. intros H. unfold BitIsSet, Bitfield. by rewrite store_Get_Set_ne. Qed.

Lemma depositIndexOf_Set_other m k v s :
  k <> DepositIndexKey s -> depositIndexOf (store_Set k v m) s = depositIndexOf m s.
Proof. intros H. unfold depositIndexOf. by rewrite store_Get_Set_ne. Qed.

(** Appending a fresh subject. *)
Lemma roster_rel_append m rows s :
  roster_rel m rows -> s ∉ row_subject <$> rows -> Z.of_nat (length rows) + 1 < 2 ^ 32 ->
  roster_rel (setNextDepositIndex (u32 (nextDepositIndex m + 1))
                (store_Set (DepositIndexKey s) (DepositIndexBytes (nextDepositIndex m)) m))
             (rows ++ [MkRow s false None]).
Proof.
  intros Hrel Hs Hmax. pose proof Hrel as [Hn Hb Hd Hi Hbit Heb].
  set (n := nextDepositIndex m) in *. set (N := length rows) in *.
  assert (Hu : u32 (n + 1) = n + 1) by (apply u32_id; unfold is_u32; lia).
  rewrite Hu. split.
  - unfold nextDepositIndex, setNextDepositIndex. rewrite store_Get_Set_eq.
    rewrite <- (app_nil_r (PutU32 _)), GetU32_PutU32 by (unfold is_u32; lia).
    rewrite length_app. cbn. lia.
  - rewrite length_app. cbn. lia.
  - rewrite fmap_app. apply NoDup_app. split; [done|]. split; [|apply NoDup_singleton].
    intros x Hx Hx'. apply list_elem_of_singleton in Hx'. cbn in Hx'. by subst.
  - intros s' i. unfold setNextDepositIndex. rewrite depositIndexOf_Set_other by key_neq.
    rewrite fmap_app. destruct (decide (s = s')) as [<- |Hne].
    + unfold depositIndexOf. rewrite store_Get_Set_eq.
      destruct (DepositIndexBytes_get n) as [-> ->]; [unfold is_u32; lia|]. split.
      * intros [= <-]. split; [lia|]. rewrite lookup_app_r by (rewrite length_fmap; lia).
        rewrite length_fmap. replace (Z.to_nat n - length rows)%nat with 0%nat by lia. done.
      * intros [H0 H]. f_equal.
        apply lookup_app_Some in H as [H|[Hl H]].
        { exfalso. apply Hs. by eapply list_elem_of_lookup_2. }
        rewrite length_fmap in Hl, H.
        destruct (Z.to_nat i - length rows)%nat eqn:E; [lia|done].
    + rewrite depositIndexOf_Set_other by (intros [= H]; done). rewrite Hi.
      split; intros [H0 H]; (split; [done|]).
      * by apply lookup_app_l_Some.
      * apply lookup_app_Some in H as [H|[Hl H]]; [done|].
        destruct (_ - _)%nat; [cbn in H; congruence|done].
  - intros i Hr. unfold setNextDepositIndex. rewrite !BitIsSet_Set_other by key_neq.
    rewrite Hbit by done. destruct (Nat.lt_ge_cases (Z.to_nat i) (length rows)) as [Hl|Hl].
    + by rewrite lookup_app_l.
    + rewrite lookup_app_r, (lookup_ge_None_2 rows) by done. by destruct (_ - _)%nat.
  - intros i Hr. unfold setNextDepositIndex. rewrite !store_Get_Set_ne by key_neq.
    rewrite Heb by done. destruct (Nat.lt_ge_cases (Z.to_nat i) (length rows)) as [Hl|Hl].
    + by rewrite lookup_app_l.
    + rewrite lookup_app_r, (lookup_ge_None_2 rows) by done. by destruct (_ - _)%nat.
Qed.

(** Room for one more member. *)
Definition has_room (rows : list row) : Prop := Z.of_nat (length rows) + 1 < 2 ^ 32.

Lemma AllocateIndex_rel m rows s :
  roster_rel m rows -> has_room rows ->
  let '(m', idx) := AllocateIndex s m in
  roster_rel m' (row_allocate s rows) /\
  row_find s (row_allocate s rows) = Some (Z.to_nat idx) /\ 0 <= idx < 2 ^ 32.
Proof.
  intros Hrel Hroom. unfold AllocateIndex, row_allocate.
  rewrite (depositIndexOf_rel m rows Hrel).
  destruct (row_find s rows) as [i|] eqn:E; cbn [fmap option_fmap option_map].
  - split; [done|]. rewrite Nat2Z.id. split; [done|].
    apply row_find_Some in E; [|apply Hrel]. apply lookup_lt_Some in E.
    rewrite length_fmap in E. pose proof (rr_bound _ _ Hrel). lia.
  - pose proof (proj1 (row_find_None _ _) E) as Hni.
    pose proof (roster_rel_append m rows s Hrel Hni Hroom) as Happ.
    split; [by apply roster_rel_sync|]. rewrite (rr_next _ _ Hrel), Nat2Z.id.
    split; [|unfold has_room in Hroom; lia].
    apply row_find_Some; [apply Happ|]. rewrite fmap_app, lookup_app_r by (by rewrite length_fmap).
    by rewrite length_fmap, Nat.sub_diag.
Qed.

Lemma lookup_alter_case (f : row -> row) (i : nat) (rows : list row) (j : nat) r :
  rows !! i = Some r ->
  alter f i rows !! j = if decide (j = i) then Some (f r) else rows !! j.
Proof.
  intros Hr. case_decide as H; [subst; by rewrite list_lookup_alter_eq, Hr|].
  by rewrite list_lookup_alter_ne.
Qed.

(** Changing one row in place, its subject kept. *)
Lemma roster_rel_alter m m' (rows : list row) i f :
  roster_rel m rows -> 0 <= i < 2 ^ 32 -> is_Some (rows !! Z.to_nat i) ->
  (forall r, row_subject (f r) = row_subject r) ->
  store_Get m' NextDepositIndexKey = store_Get m NextDepositIndexKey ->
  (forall s, store_Get m' (DepositIndexKey s) = store_Get m (DepositIndexKey s)) ->
  (forall j, 0 <= j < 2 ^ 32 -> BitIsSet m' j =
     match alter f (Z.to_nat i) rows !! Z.to_nat j with Some r => row_bit r | None => false end) ->
  (forall j, 0 <= j < 2 ^ 32 -> take 1 (store_Get m' (EBKey j)) =
     match alter f (Z.to_nat i) rows !! Z.to_nat j with
     | Some r => match row_eb r with Some b => [b] | None => [] end | None => [] end) ->
  roster_rel m' (alter f (Z.to_nat i) rows).
Proof.
  intros [Hn Hb Hd Hi Hbit Heb] Hr Hsome Hf Hnext Hdep Hbit' Heb'.
  assert (Hsub : row_subject <$> alter f (Z.to_nat i) rows = row_subject <$> rows).
  { apply list_eq. intros j. destruct Hsome as [r Hrow].
    rewrite !list_lookup_fmap, (lookup_alter_case _ _ _ _ r) by done.
    case_decide as Hj; [|done]. rewrite Hj, Hrow. cbn. by rewrite Hf. }
  split; rewrite ?length_alter, ?Hsub; try done.
  - unfold nextDepositIndex. by rewrite Hnext.
  - intros s j. unfold depositIndexOf. rewrite Hdep. apply Hi.
Qed.

Lemma BitIsSet_setBitfield m idx on j :
  0 <= idx -> 0 <= j ->
  BitIsSet (setBitfield (bitSet (Bitfield m) idx on) m) j =
  if j =? idx then on else BitIsSet m j.
Proof.
  intros Hi Hj. unfold BitIsSet. rewrite <- bitGet_bitSet_lemma by done.
  unfold Bitfield at 1, setBitfield. rewrite store_Get_Set_eq.
  set (b := bitSet (Bitfield m) idx on).
  assert (Hb : blen b =? 0 = false).
  { apply Z.eqb_neq. subst b. unfold blen, bitSet. rewrite length_insert.
    destruct (_ <? _)%nat eqn:E; [rewrite length_copy_into; lia|].
    apply Nat.ltb_ge in E. lia. }
  by rewrite Hb, Hb.
Qed.

Definition row_set_bit (on : bool) (r : row) : row := MkRow (row_subject r) on (row_eb r).
Definition row_set_eb (b : byte) (r : row) : row := MkRow (row_subject r) (row_bit r) (Some b).

Lemma setbit_rel m rows i on :
  roster_rel m rows -> 0 <= i < 2 ^ 32 -> is_Some (rows !! Z.to_nat i) ->
  roster_rel (syncObjectRoots (setBitfield (bitSet (Bitfield m) i on) m))
             (alter (row_set_bit on) (Z.to_nat i) rows).
Proof.
  intros Hrel Hi [r Hr]. apply roster_rel_sync.
  apply (roster_rel_alter m); try done.
  - unfold setBitfield. by rewrite store_Get_Set_ne by key_neq.
  - intros s. unfold setBitfield. by rewrite store_Get_Set_ne by key_neq.
  - intros j Hj. rewrite BitIsSet_setBitfield, (rr_bit _ _ Hrel) by lia.
    rewrite (lookup_alter_case _ _ _ _ r) by done.
    destruct (j =? i) eqn:E; zbool; case_decide; try lia; done.
  - intros j Hj. unfold setBitfield. rewrite store_Get_Set_ne by key_neq.
    rewrite (rr_eb _ _ Hrel), (lookup_alter_case _ _ _ _ r) by done.
    case_decide as H; [|done]. by rewrite H, Hr.
Qed.

Lemma SetEB_rel m rows i b :
  roster_rel m rows -> 0 <= i < 2 ^ 32 -> is_Some (rows !! Z.to_nat i) ->
  roster_rel (SetEB i b m) (alter (row_set_eb b) (Z.to_nat i) rows).
Proof.
  intros Hrel Hi [r Hr]. apply roster_rel_sync.
  apply (roster_rel_alter m); try done.
  - by rewrite store_Get_Set_ne by key_neq.
  - intros s. by rewrite store_Get_Set_ne by key_neq.
  - intros j Hj. rewrite BitIsSet_Set_other by key_neq. rewrite (rr_bit _ _ Hrel) by done.
    rewrite (lookup_alter_case _ _ _ _ r) by done. case_decide as H; [|done].
    by rewrite H, Hr.
  - intros j Hj. rewrite (lookup_alter_case _ _ _ _ r) by done. case_decide as H.
    + replace j with i by lia. by rewrite store_Get_Set_eq.
    + rewrite store_Get_Set_ne; [by apply (rr_eb _ _ Hrel)|].
      intros Hk. apply EBKey_inj in Hk; [lia|done|done].
Qed.

Lemma row_find_is_Some s rows i :
  NoDup (row_subject <$> rows) -> row_find s rows = Some i -> is_Some (rows !! i).
Proof.
  intros Hd H. apply row_find_Some in H; [|done].
  rewrite list_lookup_fmap in H. apply fmap_Some in H as (r & -> & _). done.
Qed.

Lemma EB_empty_rel m rows i r :
  roster_rel m rows -> 0 <= i < 2 ^ 32 -> rows !! Z.to_nat i = Some r ->
  (blen (store_Get m (EBKey i)) =? 0) = bool_decide (row_eb r = None).
Proof.
  intros Hrel Hi Hr. pose proof (rr_eb _ _ Hrel i Hi) as H. rewrite Hr in H.
  destruct (store_Get m (EBKey i)) as [|b v]; destruct (row_eb r); try done.
Qed.

Lemma admitMember_rel m rows s w :
  roster_rel m rows -> has_room rows ->
  roster_rel (admitMember s w m).1 (roster_admit s w rows) /\
  row_find s (roster_admit s w rows) = Some (Z.to_nat (admitMember s w m).2).
Proof.
  intros Hrel Hroom. unfold admitMember, roster_admit.
  pose proof (AllocateIndex_rel m rows s Hrel Hroom) as Ha.
  destruct (AllocateIndex s m) as [m1 idx]. destruct Ha as (Hrel1 & Hfind & Hidx).
  destruct (0 <? w); [|done]. rewrite Hfind. set (rows1 := row_allocate s rows) in *.
  pose proof (row_find_is_Some _ _ _ (rr_nodup _ _ Hrel1) Hfind) as Hsome.
  destruct Hsome as [r Hr]. cbn [fst snd].
  assert (Hgoal : roster_rel
    (BitSet idx (if blen (store_Get m1 (EBKey idx)) =? 0
                 then SetEB idx (ebFromWeight w) m1 else m1))
    (alter (row_activate w) (Z.to_nat idx) rows1)).
  { rewrite (EB_empty_rel m1 rows1 idx r) by done.
    destruct (row_eb r) as [b|] eqn:Eb; cbn [bool_decide].
    - rewrite bool_decide_false by done.
      rewrite (list_alter_ext _ (row_set_bit true) rows1 rows1 (Z.to_nat idx)); [|intros r' Hr'|done].
      + by apply setbit_rel.
      + assert (r' = r) as -> by congruence. unfold row_activate, row_set_bit. by rewrite Eb.
    - rewrite bool_decide_true by done.
      rewrite (list_alter_ext _ (row_set_bit true ∘ row_set_eb (ebFromWeight w)) rows1 rows1
                 (Z.to_nat idx)); [|intros r' Hr'|done].
      + rewrite <- list_alter_alter_eq. apply setbit_rel; [by apply SetEB_rel|done|].
        rewrite (lookup_alter_case _ _ _ _ r) by done. by case_decide.
      + assert (r' = r) as -> by congruence. unfold row_activate, row_set_bit, row_set_eb. cbn.
        by rewrite Eb. }
  split; [done|]. apply row_find_Some; [apply Hgoal|].
  apply row_find_Some in Hfind; [|apply Hrel1].
  rewrite list_lookup_fmap, (lookup_alter_case _ _ _ _ r) by done.
  rewrite list_lookup_fmap, Hr in Hfind. case_decide; done.
Qed.

(** The part of [ApplyLeave] that touches the roster. *)
Lemma leave_rel m rows s :
  roster_rel m rows ->
  roster_rel (match depositIndexOf m s with
              | Some idx => SetEB idx Byte.x00 (BitClear idx m)
              | None => m
              end) (roster_leave s rows).
Proof.
  intros Hrel. unfold roster_leave. rewrite (depositIndexOf_rel m rows Hrel).
  destruct (row_find s rows) as [i|] eqn:E; cbn [fmap option_fmap option_map]; [|done].
  pose proof (row_find_is_Some _ _ _ (rr_nodup _ _ Hrel) E) as [r Hr].
  pose proof (lookup_lt_Some _ _ _ Hr). pose proof (rr_bound _ _ Hrel).
  rewrite (list_alter_ext _ (row_set_eb Byte.x00 ∘ row_set_bit false) rows rows i); [|done|done].
  rewrite <- list_alter_alter_eq.
  remember (Z.of_nat i) as idx eqn:Hidx. replace i with (Z.to_nat idx) in * by lia.
  apply SetEB_rel; [|lia|].
  - apply setbit_rel; [done|lia|]. by rewrite Hr.
  - rewrite (lookup_alter_case _ _ _ _ r) by done. by case_decide.
Qed.

(** The empty store is the empty roster. *)
Lemma roster_rel_empty : roster_rel NewMemStore [].
Proof.
  split; [done|done|constructor| | |].
  - intros s i. unfold depositIndexOf, store_Get, NewMemStore. rewrite lookup_empty. cbn.
    rewrite lookup_nil. split; [done|]. intros [_ ?]. done.
  - intros i Hi. rewrite lookup_nil. unfold BitIsSet, Bitfield, store_Get, NewMemStore.
    rewrite lookup_empty. change (bitGet [Byte.x00] i = false).
    rewrite bitGet_testbit, byte_at_lookup by lia.
    destruct (Z.to_nat (i / 8)); cbn; apply Z.bits_0.
  - intros i Hi. unfold store_Get, NewMemStore. rewrite lookup_empty, lookup_nil. done.
Qed.

(** ** Theorems *)

(** Allocating a deposit index refines appending to the roster: a known
    subject keeps its index and the store is unchanged; a new subject gets the
    next index, and every other subject, bit and balance is kept. *)
Theorem AllocateIndex_refines m rows s :
  roster_rel m rows -> has_room rows ->
  roster_rel (AllocateIndex s m).1 (row_allocate s rows) /\
  (forall i, row_find s rows = Some i -> AllocateIndex s m = (m, Z.of_nat i)) /\
  (row_find s rows = None -> (AllocateIndex s m).2 = Z.of_nat (length rows)).
Proof.
  intros Hrel Hroom. pose proof (AllocateIndex_rel m rows s Hrel Hroom) as Ha.
  split; [by destruct (AllocateIndex s m) as [m1 idx]; destruct Ha|].
  unfold AllocateIndex. rewrite (depositIndexOf_rel m rows Hrel). split.
  - intros i ->. done.
  - intros ->. cbn. apply Hrel.
Qed.

(** Admitting a member refines the abstract admission: the subject gets
    a row if it has none, its bit is set, and its balance is written only if
    none was written before. *)
Theorem admitMember_refines m rows s w :
  roster_rel m rows -> has_room rows ->
  roster_rel (admitMember s w m).1 (roster_admit s w rows).
Proof. intros H1 H2. by apply admitMember_rel. Qed.

(** The bonded set rebuilt from the store is the list of active roster
    rows in index order, with their balances as weights. *)
Theorem DebugSubjectsFromBits_refines m rows :
  roster_rel m rows -> DebugSubjectsFromBits m = roster_powers rows.
Proof. apply DebugSubjectsFromBits_rel. Qed.

(** The deposit root stored for the proofs is the root of the roster's
    subjects in index order. *)
Theorem DepositTreeRoot_refines m rows :
  roster_rel m rows ->
  DepositTreeRoot m = merkleRoot (roster_leaves (row_subject <$> rows)).
Proof. intros H. unfold DepositTreeRoot. by rewrite (depositLeaves_rel m rows H). Qed.

(** Merging a bitfield sets exactly the bits set in either one. *)
Theorem ORMergeBitfield_spec m other i :
  0 <= i -> BitIsSet (ORMergeBitfield other m) i = BitIsSet m i || bitGet other i.
Proof.
  intros Hi. unfold ORMergeBitfield, syncObjectRoots, SetLastObjectRoots.
  rewrite BitIsSet_Set_other by key_neq. unfold BitIsSet.
  unfold Bitfield at 1, setBitfield. rewrite store_Get_Set_eq.
  set (cur := Bitfield m). 
  set (n := if (length cur <? length other)%nat then length other else length cur).
  assert (Hc : (1 <= length cur)%nat).
  { subst cur. unfold Bitfield. case_match; [done|]. unfold blen in *. zbool. lia. }
  assert (Hn : (length cur <= n /\ length other <= n)%nat)
    by (subst n; destruct (_ <? _)%nat eqn:E; [apply Nat.ltb_lt in E|apply Nat.ltb_ge in E]; lia).
  set (out := or_bytes (copy_into n cur) other).
  assert (Hout : blen out =? 0 = false).
  { apply Z.eqb_neq. unfold blen, out. pose proof (length_copy_into n cur).
    destruct (copy_into n cur) as [|x l]; cbn in *; [lia|]. destruct other; cbn; lia. }
  rewrite Hout, Hout, !bitGet_testbit by done. unfold out.
  rewrite byte_at_or_bytes by (rewrite length_copy_into; lia).
  rewrite byte_at_copy_into by lia. apply Z.lor_spec.
Qed.

(** ** Witnesses: two members admitted into an empty store *)

Definition w_store1 : store := (admitMember (str "alice") 10 NewMemStore).1.
Definition w_store2 : store := (admitMember (str "bob") 7 w_store1).1.
Definition w_rows1 : list row := [MkRow (str "alice") true (Some (byte_of_Z 10))].
Definition w_rows2 : list row := w_rows1 ++ [MkRow (str "bob") true (Some (byte_of_Z 7))].

Lemma w_rel1 : roster_rel w_store1 w_rows1.
Proof. apply (admitMember_rel NewMemStore [] (str "alice") 10); [apply roster_rel_empty|done]. Qed.
Lemma w_rel2 : roster_rel w_store2 w_rows2.
Proof. apply (admitMember_rel w_store1 w_rows1 (str "bob") 7); [apply w_rel1|done]. Qed.

Lemma AllocateIndex_refines_witness : (AllocateIndex (str "carol") w_store2).2 = 2.
Proof. by apply (AllocateIndex_refines w_store2 w_rows2 (str "carol") w_rel2). Defined.

Lemma admitMember_refines_witness : roster_rel w_store2 w_rows2.
Proof. apply (admitMember_refines w_store1 w_rows1 (str "bob") 7 w_rel1). done. Defined.

Lemma DebugSubjectsFromBits_refines_witness :
  DebugSubjectsFromBits w_store2 =
  [MkSubjectPower (str "alice") 10 true; MkSubjectPower (str "bob") 7 true].
Proof. exact (DebugSubjectsFromBits_refines w_store2 w_rows2 w_rel2). Defined.

Lemma DepositTreeRoot_refines_witness :
  DepositTreeRoot w_store2 = merkleRoot (roster_leaves [str "alice"; str "bob"]).
Proof. exact (DepositTreeRoot_refines w_store2 w_rows2 w_rel2). Defined.

Lemma ORMergeBitfield_spec_witness :
  BitIsSet (ORMergeBitfield [Byte.x00; Byte.x01] w_store2) 8 = true.
Proof. exact (ORMergeBitfield_spec w_store2 [Byte.x00; Byte.x01] 8 ltac:(lia)). Defined.
