(* ===== verification/LvHost.v ===== *)
(** * x/leanval/keeper: named STWO proofs and the external provers

    [fold_verify.go], [valset_stwo.go], [prove.go], [wasm_sudo.go], [ssle.go],
    [daily.go], [withdraw.go] and [privacy.go]. The Stwo host function, the
    prover binaries and the verifier contract are outside the repository's Go
    code: they are the fields of [host]. A command that is missing, or that
    exits with an error, is [None] or [false]. *)

From S2P Require Import Prelude Sha256 KVStore LvTypes LvCodec LvDummyStwo LvBitfield.

#[local] Open Scope go_scope.

Record host := MkHost {
  (** [verifyStwoInProcess(proof, instances) == nil] *)
  stwo_host : bytes -> bytes -> bool;
  (** [foldBin() != ""], then [prove] (output on exit 0) and [verify] *)
  fold_bin : bool;
  fold_prove_cmd : bytes -> bytes -> bytes -> option bytes;
  fold_verify_cmd : bytes -> bytes -> bytes -> bytes -> bool;
  (** [lean-valset-air], from PATH or through cargo: period, index, eb *)
  valset_prove_cmd : Z -> Z -> Z -> option bytes;
  valset_verify_cmd : Z -> Z -> Z -> bytes -> bool;
  ssle_bin : bool;
  ssle_prove_cmd : Z -> Z -> bytes -> option bytes;
  ssle_verify_cmd : Z -> Z -> bytes -> bytes -> bool;
  daily_bin : bool;
  daily_prove_cmd : Z -> bytes -> bytes -> option bytes;
  daily_verify_cmd : Z -> bytes -> bytes -> bytes -> bool;
  withdraw_bin : bool;
  nw_prove_cmd : Z -> bytes -> bytes -> option bytes;
  nw_verify_cmd : Z -> bytes -> bytes -> bytes -> bool;
  pw_prove_cmd : Z -> bytes -> Z -> option bytes;
  pw_verify_cmd : Z -> bytes -> bytes -> bytes -> bool;
  (** the bound verifier contract, if any: zkid, proof, instances *)
  wasm_sudo : option (Z -> bytes -> bytes -> bool);
  (** membership files enabled *)
  persist : bool
}.

(** ** Hexadecimal, as in [encoding/hex] *)

Definition hex_digit (n : Z) : byte :=
  if n <? 10 then byte_of_Z (48 + n) else byte_of_Z (87 + n).
Definition hex_encode (b : bytes) : bytes :=
  concat (map (fun x => [hex_digit (byte_val x / 16); hex_digit (byte_val x mod 16)]) b).
Definition hex_value (c : byte) : option Z :=
  let v := byte_val c in
  if (48 <=? v) && (v <=? 57) then Some (v - 48)
  else if (97 <=? v) && (v <=? 102) then Some (v - 87)
  else if (65 <=? v) && (v <=? 70) then Some (v - 55)
  else None.
Fixpoint hex_decode (s : bytes) : option bytes :=
  match s with
  | [] => Some []
  | a :: b :: s' =>
      match hex_value a, hex_value b, hex_decode s' with
      | Some x, Some y, Some r => Some (byte_of_Z (16 * x + y) :: r)
      | _, _, _ => None
      end
  | [_] => None
  end.

(** [strings.TrimPrefix(s, "0x")]. *)
Definition trim_0x (s : bytes) : bytes := if has_prefix (str "0x") s then drop 2 s else s.

Definition isHexRoot (s : bytes) : bool :=
  let s := trim_0x s in
  if negb (blen s =? 64) then false
  else match hex_decode s with Some _ => true | None => false end.

Definition parseRootHex (s : bytes) : bytes :=
  match hex_decode (trim_0x s) with
  | Some b => if blen b =? 32 then b else replicate 32 Byte.x00
  | None => replicate 32 Byte.x00
  end.

(** ** The fold proof *)

Inductive lean_error :=
| EDummyNotAggregate | ECostume | ENotSTWO | EWrongIds | EKindMissing | EPairsNotHex
| EFoldRoot (which : nat) | EBinMissing | EVerifyCmd | EProveCmd | EProveNoSTWO | EProveDummy
| EIndexTooLarge | EDummyRejected | ESTWORequired | ENoVerifier | ENoContext | ESudo
| EDummy (e : dummy_error) | EPartialIsNWDA
| EOpenMismatch | EHeight | EMissingBlock | ETicketMismatch | ETicketIsProposer
| EEmptyReplace | EDuplicateSubject | EProofTooLarge | EFoldRequired | EDummyInAggregate
| EDummyOnExtra | ETooManyRaw | EUnprovableExtra | EExtraNotSTWO
| EExtra (period idx row weight : Z) (e : lean_error)
| EMembership (e : membership_error)
| ELNPROmitted | ELNPRWrongIndex (got want : nat) | ELNPRPeriod (got want : Z)
| ESSLEPeriod (got want : Z) | ESSLEHeight (got want : Z) | EInner.

Definition isSTWO (p : bytes) : bool := bytes_eqb (slice_to 4 p) (str "STWO").
Definition containsDSTW (p : bytes) : bool := bytes_contains p (str "DSTW").

(** [pairs[i]] for a list known to be long enough. *)
Definition pair_at (pairs : list bytes) (i : nat) : bytes := nth i pairs [].

Definition VerifySameStatementFold (h : host) (proof : bytes) (pairs : list bytes)
  : result lean_error unit :=
  let npairs := length pairs in
  let root_ok i lo :=
    negb (i <? npairs)%nat || negb (isHexRoot (pair_at pairs i))
    || bytes_eqb (slice lo (lo + 32) proof) (parseRootHex (pair_at pairs i)) in
  let long := 10 + Z.of_nat ObjectRootsSize <=? blen proof in
  check! guard (containsDSTW proof) EDummyNotAggregate;
  check! guard (bytes_contains proof (str "c=3a+5b+7")) ECostume;
  check! guard ((blen proof <? 10) || negb (isSTWO proof)) ENotSTWO;
  check! guard ((blen proof <? 6) || negb (bool_decide (byte_at proof 4 = Byte.x02))
                || negb (bool_decide (byte_at proof 5 = Byte.x05))) EWrongIds;
  check! guard (negb (bytes_eqb (slice 6 10 proof) (str "FOLD"))) EKindMissing;
  check! guard ((npairs <? 1)%nat || negb (isHexRoot (pair_at pairs 0))) EPairsNotHex;
  check! guard (long && negb (bytes_eqb (slice 10 42 proof) (parseRootHex (pair_at pairs 0))))
           (EFoldRoot 0);
  check! guard (long && negb (root_ok 1%nat 42)) (EFoldRoot 1);
  check! guard (long && negb (root_ok 2%nat 74)) (EFoldRoot 2);
  let inst := if long then slice 10 (10 + Z.of_nat ObjectRootsSize) proof else [] in
  if stwo_host h proof inst then Ok tt
  else if negb (fold_bin h) then Err EBinMissing
  else
    let bf := pair_at pairs 0 in
    let dep := if (1 <? npairs)%nat then pair_at pairs 1 else str "00" in
    let eb := if (2 <? npairs)%nat then pair_at pairs 2 else str "00" in
    if fold_verify_cmd h bf dep eb proof then Ok tt else Err EVerifyCmd.

Definition zero_hex_root : bytes := hex_encode (replicate 32 Byte.x00).

Definition ProveSameStatementFold (h : host) (pairs : list bytes) : result lean_error bytes :=
  let npairs := length pairs in
  let arg i := if (i <? npairs)%nat && isHexRoot (pair_at pairs i)
               then pair_at pairs i else zero_hex_root in
  check! guard (negb (fold_bin h)) EBinMissing;
  check! guard ((npairs <? 1)%nat || negb (isHexRoot (pair_at pairs 0))) EPairsNotHex;
  match fold_prove_cmd h (pair_at pairs 0) (arg 1%nat) (arg 2%nat) with
  | None => Err EProveCmd
  | Some out =>
      check! guard (containsDSTW out) EProveDummy;
      check! guard ((blen out <? 10) || negb (isSTWO out)) EProveNoSTWO;
      Ok out
  end.

(** [foldPairStrings]: period and subjects are not used. *)
Definition foldPairStrings (roots : bytes) : list bytes :=
  let r := padRoots roots in
  [hex_encode (slice 0 32 r); hex_encode (slice 32 64 r); hex_encode (slice 64 96 r)].

Definition isFoldProof (proof : bytes) : bool :=
  (10 <=? blen proof) && isSTWO proof && bytes_eqb (slice 6 10 proof) (str "FOLD").

Definition foldProofFromLNPR (blob : LNPRBlob) : option bytes :=
  find_map (fun s => if isFoldProof (sp_Proof s) then Some (sp_Proof s) else None)
    (lnpr_Subjects blob).

(** ** The valset AIR *)

Definition proveValsetStwo (h : host) (period index eb : Z) : result lean_error bytes :=
  check! guard (2 ^ 40 <=? index) EIndexTooLarge;
  match valset_prove_cmd h period index eb with
  | None => Err EProveCmd
  | Some out =>
      if (blen out <? 4) || negb (isSTWO out) then Err EProveNoSTWO else Ok out
  end.

(** [valset_instance_bytes]: period (8 bytes), the low five bytes of the
    index, the balance byte. *)
Definition valset_instance_bytes (period index eb : Z) : bytes :=
  be_put 8 period ++ drop 3 (be_put 8 index) ++ [byte_of_Z eb].

Definition verifyValsetStwo (h : host) (proof : bytes) (period index eb : Z)
  : result lean_error unit :=
  check! guard ((blen proof <? 4) || negb (isSTWO proof)) ENotSTWO;
  check! guard (has_prefix (str "DSTW") proof || containsDSTW proof) EDummyRejected;
  let inst := valset_instance_bytes period index eb in
  if stwo_host h proof inst then Ok tt
  else
    check! guard (2 ^ 40 <=? index) EIndexTooLarge;
    if valset_verify_cmd h period index eb proof then Ok tt else Err EVerifyCmd.

(** The balance byte a weight is proved with. *)
Definition ebOfWeight (w : Z) : Z :=
  if (0 <? w) && (w <=? 255) then w else if 255 <? w then 255 else 0.

(** ** The verifier waist ([wasm_sudo.go], [prove.go])

    The verifier configuration of the keeper. *)
Record verifier_cfg := MkVerifierCfg {
  vc_Verifier : option Verifier;
  vc_verifierAcc : bytes;
  vc_leanZkID : Z;
  vc_hasCtx : bool;
  vc_AllowDummy : bool
}.

Definition DefaultLeanZkID : Z := 1.

Definition sudoProofInstanceVerify (c : verifier_cfg) (sudo : Z -> bytes -> bytes -> bool)
    (proof instances : bytes) : result lean_error unit :=
  check! guard (negb (vc_hasCtx c)) ENoContext;
  let zkid := if vc_leanZkID c =? 0 then DefaultLeanZkID else vc_leanZkID c in
  if sudo zkid proof instances then Ok tt else Err ESudo.

Definition verifyProof (h : host) (c : verifier_cfg) (proof instances : bytes)
  : result lean_error unit :=
  match wasm_sudo h, 0 <? blen (vc_verifierAcc c) with
  | Some sudo, true => sudoProofInstanceVerify c sudo proof instances
  | _, _ =>
      match vc_Verifier c with
      | None => Err ENoVerifier
      | Some v => match VerifyDummy v proof instances with
                  | Ok _ => Ok tt
                  | Err e => Err (EDummy e)
                  end
      end
  end.

Definition proveSubject (h : host) (c : verifier_cfg) (period index : Z) (subject : bytes)
    (weight : Z) (roots : bytes) : bytes :=
  let eb := if 0 <? weight then (if 255 <? weight then 255 else weight) else 0 in
  let fallback := if vc_AllowDummy c
                  then DummyStwoProveBoundRoots period subject weight roots else [] in
  match proveValsetStwo h period index eb with
  | Ok proof => if 4 <=? blen proof then proof else fallback
  | Err _ => fallback
  end.

Definition verifySubjectProof (h : host) (c : verifier_cfg) (period index : Z)
    (s : SubjectProof) (roots : bytes) : result lean_error unit :=
  if (4 <=? blen (sp_Proof s)) && isSTWO (sp_Proof s) then
    verifyValsetStwo h (sp_Proof s) period index (ebOfWeight (sp_Weight s))
  else
    check! guard (negb (vc_AllowDummy c)) ESTWORequired;
    verifyProof h c (sp_Proof s)
      (instancesForRoots period (sp_Subject s) (sp_Weight s) roots).

(** ** Named proofs: SSLE, daily keys, withdrawals *)

(** [checkNamedStwo]; [VerifySSLEProof] and [VerifyDailyKeyProof] repeat the
    same four tests inline. *)
Definition checkNamedStwo (proof kind : bytes) : result lean_error unit :=
  check! guard (containsDSTW proof) EDummyRejected;
  check! guard ((blen proof <? 10) || negb (isSTWO proof)) ENotSTWO;
  check! guard (negb (bool_decide (byte_at proof 4 = Byte.x02))
                || negb (bool_decide (byte_at proof 5 = Byte.x05))) EWrongIds;
  check! guard (negb (bytes_eqb (slice 6 10 proof) kind)) EKindMissing;
  Ok tt.

(** The instance bytes the in-process host checks the proof against are taken
    from the proof itself. *)
Definition proof_instance (hi : Z) (proof : bytes) : bytes :=
  if hi <=? blen proof then slice 10 hi proof else [].

Definition VerifySSLEProof (h : host) (proof : bytes) (period height : Z) (ticket : bytes)
  : result lean_error unit :=
  check! checkNamedStwo proof (str "SSLE");
  if stwo_host h proof (proof_instance 58 proof) then Ok tt
  else if negb (ssle_bin h) then Err EBinMissing
  else if ssle_verify_cmd h period height ticket proof then Ok tt else Err EVerifyCmd.

Definition VerifyDailyKeyProof (h : host) (proof : bytes) (period : Z) (dayKey prevRoot : bytes)
  : result lean_error unit :=
  check! checkNamedStwo proof (str "DAYK");
  let prevRoot := if blen prevRoot <? 32 then copy_into 32 prevRoot else prevRoot in
  if stwo_host h proof (proof_instance 82 proof) then Ok tt
  else if negb (daily_bin h) then Err EBinMissing
  else if daily_verify_cmd h period dayKey (slice_to 32 prevRoot) proof
  then Ok tt else Err EVerifyCmd.

Definition pad32 (b : bytes) : bytes :=
  if 32 <=? blen b then slice_to 32 b else copy_into 32 b.

Definition VerifyNoWithdrawProof (h : host) (proof : bytes) (period : Z) (acc prev : bytes)
  : result lean_error unit :=
  check! checkNamedStwo proof (str "NWDA");
  if stwo_host h proof (proof_instance 82 proof) then Ok tt
  else if negb (withdraw_bin h) then Err EBinMissing
  else if nw_verify_cmd h period (pad32 acc) (pad32 prev) proof then Ok tt else Err EVerifyCmd.

Definition VerifyPartialWithdrawProof (h : host) (proof : bytes) (period : Z) (old next : bytes)
  : result lean_error unit :=
  check! checkNamedStwo proof (str "PWDW");
  if stwo_host h proof (proof_instance 82 proof) then Ok tt
  else if negb (withdraw_bin h) then Err EBinMissing
  else if pw_verify_cmd h period old next proof then Ok tt else Err EVerifyCmd.

(** The provers print 32 bytes followed by a named proof. *)
Definition split_prover_output (out : option bytes) : result lean_error (bytes * bytes) :=
  match out with
  | None => Err EProveCmd
  | Some out =>
      check! guard ((blen out <? 32 + 10) || negb (bytes_eqb (slice 32 36 out) (str "STWO")))
               EProveNoSTWO;
      check! guard (containsDSTW out) EProveDummy;
      Ok (slice_to 32 out, slice_from 32 out)
  end.

Definition ProveSSLE (h : host) (period height : Z) (proposer : bytes)
  : result lean_error (bytes * bytes) :=
  check! guard (negb (ssle_bin h)) EBinMissing;
  split_prover_output (ssle_prove_cmd h period height proposer).

Definition ProveDailyKey (h : host) (period : Z) (identity prevRoot : bytes)
  : result lean_error (bytes * bytes) :=
  check! guard (negb (daily_bin h)) EBinMissing;
  let prevRoot := if blen prevRoot <? 32 then copy_into 32 prevRoot else prevRoot in
  split_prover_output (daily_prove_cmd h period identity (slice_to 32 prevRoot)).

Definition ProveNoWithdraw (h : host) (period : Z) (prev commit : bytes)
  : result lean_error (bytes * bytes) :=
  check! guard (negb (withdraw_bin h)) EBinMissing;
  split_prover_output (nw_prove_cmd h period (pad32 prev) commit).

Definition ProvePartialWithdraw (h : host) (period : Z) (old : bytes) (amount : Z)
  : result lean_error (bytes * bytes) :=
  check! guard (negb (withdraw_bin h)) EBinMissing;
  try! r <- split_prover_output (pw_prove_cmd h period old amount);
  check! guard (bytes_eqb (slice 6 10 r.2) (str "NWDA")) EPartialIsNWDA;
  Ok r.

(** ** Hash commitments *)

Definition hashAddrSecret (addr secret : bytes) : bytes := sha256 (addr ++ secret).
Definition HashAddrSecretWithdrawal_Commit (addr secret : bytes) : bytes :=
  hashAddrSecret addr secret.
Definition HashAddrSecretWithdrawal_Open (commit addr secret : bytes) : result lean_error unit :=
  if negb (bytes_eqb (hashAddrSecret addr secret) commit) then Err EOpenMismatch else Ok tt.

Definition DailyKey (period : Z) (identity : bytes) : bytes :=
  sha256 (str "leanval/daily/key/v1" ++ be_put 8 period ++ identity).
Definition WithdrawCommit (addr secret : bytes) : bytes :=
  sha256 (str "leanval/withdraw/commit/v1" ++ addr ++ secret).
Definition NoWithdrawAcc (period : Z) (prev commit : bytes) : bytes :=
  let prev := if blen prev <? 32 then copy_into 32 prev else prev in
  sha256 (str "leanval/withdraw/nwacc/v1" ++ be_put 8 period ++ slice_to 32 prev ++ commit).
Definition PartialNewCommit (period : Z) (old : bytes) (amount : Z) : bytes :=
  sha256 (str "leanval/withdraw/partial/v1" ++ be_put 8 period ++ old ++ be_put 8 amount).

Definition ssleTicket (period height : Z) (proposer : bytes) : bytes :=
  sha256 (str "leanval/ssle/ticket/v1" ++ be_put 8 period ++ be_put 8 (u64 height) ++ proposer).
Definition ssleReveal (period height : Z) (block : bytes) : bytes :=
  sha256 (str "leanval/ssle/reveal/v1" ++ be_put 8 period ++ be_put 8 (u64 height) ++ block).

Definition HiddenProposerID (period height : Z) : result lean_error bytes :=
  if height <? 0 then Err EHeight else Ok (ssleTicket period height []).

Definition RevealProposerAfterBlock (h : host) (period height : Z) (block : bytes)
  : result lean_error bytes :=
  check! guard (height <? 0) EHeight;
  check! guard (blen block =? 0) EMissingBlock;
  match DecodeSSLE block with
  | Some blob =>
      if 0 <? blen (ssle_Proposer blob) then
        let want := ssleTicket period height (ssle_Proposer blob) in
        check! guard (negb (bytes_eqb (ssle_Ticket blob) want)) ETicketMismatch;
        check! VerifySSLEProof h (ssle_Proof blob) period height (ssle_Ticket blob);
        check! guard (bytes_eqb (ssle_Ticket blob) (ssle_Proposer blob)) ETicketIsProposer;
        Ok (ssle_Proposer blob)
      else Ok (ssleReveal period height block)
  | None => Ok (ssleReveal period height block)
  end.

(** ** Registries: daily keys, withdraw commitments, accumulators *)

Definition PutDailyKey (period : Z) (key : bytes) (m : store) : store :=
  if blen key =? 0 then m else store_Set (DailyKeyKey period) key m.
Definition GetDailyKey (m : store) (period : Z) : bytes := store_Get m (DailyKeyKey period).
Definition PutWithdrawCommit (period : Z) (commit : bytes) (m : store) : store :=
  if blen commit =? 0 then m else store_Set (WithdrawCommitKey period) commit m.
Definition GetWithdrawCommit (m : store) (period : Z) : bytes :=
  store_Get m (WithdrawCommitKey period).
Definition PutNoWithdrawAcc (period : Z) (acc : bytes) (m : store) : store :=
  if blen acc =? 0 then m else store_Set (NoWithdrawAccKey period) acc m.
Definition GetNoWithdrawAcc (m : store) (period : Z) : bytes :=
  store_Get m (NoWithdrawAccKey period).

Definition RegisterDailyKey (h : host) (period : Z) (identity prevRoot : bytes)
  : meth store lean_error bytes :=
  run! kp <- mlift (ProveDailyKey h period identity prevRoot);
  exec! mlift (VerifyDailyKeyProof h kp.2 period kp.1 prevRoot);
  exec! mput (PutDailyKey period kp.1);
  mret kp.1.

Definition RegisterNoWithdraw (h : host) (period : Z) (prev commit : bytes)
  : meth store lean_error bytes :=
  run! ap <- mlift (ProveNoWithdraw h period prev commit);
  exec! mlift (VerifyNoWithdrawProof h ap.2 period ap.1 prev);
  exec! mput (PutWithdrawCommit period commit);
  exec! mput (PutNoWithdrawAcc period ap.1);
  mret ap.1.

(** ** Lemmas on hexadecimal *)

Lemma hex_byte x :
  hex_value (hex_digit (byte_val x / 16)) = Some (byte_val x / 16) /\
  hex_value (hex_digit (byte_val x mod 16)) = Some (byte_val x mod 16) /\
  byte_of_Z (16 * (byte_val x / 16) + byte_val x mod 16) = x /\
  hex_digit (byte_val x mod 16) <> Byte.x78.
Proof. destruct x; by vm_compute. Qed.

Lemma hex_decode_encode b : hex_decode (hex_encode b) = Some b.
Proof.
  induction b as [|x b IH]; [done|]. destruct (hex_byte x) as (H1 & H2 & H3 & _).
  change (hex_encode (x :: b)) with
    (hex_digit (byte_val x / 16) :: hex_digit (byte_val x mod 16) :: hex_encode b).
  cbn [hex_decode]. by rewrite H1, H2, IH, H3.
Qed.

Lemma trim_0x_hex b : trim_0x (hex_encode b) = hex_encode b.
Proof.
  destruct b as [|x b]; [done|]. destruct (hex_byte x) as (_ & _ & _ & H4).
  unfold trim_0x. destruct (has_prefix _ _) eqn:E; [|done]. exfalso.
  change (str "0x") with [Byte.x30; Byte.x78] in E. cbn [hex_encode map concat app has_prefix] in E.
  apply andb_prop in E as [_ E]. apply andb_prop in E as [E _].
  apply bool_decide_eq_true in E. congruence.
Qed.

Lemma length_hex_encode b : length (hex_encode b) = (2 * length b)%nat.
Proof.
  induction b as [|x b IH]; [done|].
  change (hex_encode (x :: b)) with
    (hex_digit (byte_val x / 16) :: hex_digit (byte_val x mod 16) :: hex_encode b).
  cbn [length]. lia.
Qed.

Lemma isHexRoot_hex b : length b = 32%nat -> isHexRoot (hex_encode b) = true.
Proof.
  intros H. unfold isHexRoot. rewrite trim_0x_hex, hex_decode_encode.
  unfold blen. by rewrite length_hex_encode, H.
Qed.
Lemma parseRootHex_hex b : length b = 32%nat -> parseRootHex (hex_encode b) = b.
Proof.
  intros H. unfold parseRootHex. rewrite trim_0x_hex, hex_decode_encode.
  unfold blen. by rewrite H.
Qed.

(** ** Lemmas on guards *)

Lemma guard_Ok {E} (c : bool) (e : E) u : guard c e = Ok u <-> c = false.
Proof. destruct c, u; cbn; split; congruence. Qed.

(** Peels [check! guard c e; k = Ok] into [c = false] and the rest. *)
Ltac peel H :=
  repeat match type of H with
  | rbind (guard ?c ?e) ?k = _ =>
      let E := fresh "Hg" in
      destruct c eqn:E; cbn [guard rbind] in H; [discriminate H|]
  end.

Lemma checkNamedStwo_inv proof kind :
  checkNamedStwo proof kind = Ok tt ->
  containsDSTW proof = false /\ 10 <= blen proof /\ slice_to 4 proof = str "STWO" /\
  byte_at proof 4 = Byte.x02 /\ byte_at proof 5 = Byte.x05 /\ slice 6 10 proof = kind.
Proof.
  unfold checkNamedStwo. intros H. peel H.
  apply orb_false_elim in Hg0 as [Hlen Hstwo], Hg1 as [Hp Hc].
  apply negb_false_iff in Hstwo, Hp, Hc, Hg2.
  apply bool_decide_eq_true in Hp, Hc. apply bytes_eqb_eq in Hstwo, Hg2. zbool. done.
Qed.

(** The three roots of a padded root tuple. *)
Lemma padRoots_split roots :
  let r := padRoots roots in
  length (slice 0 32 r) = 32%nat /\ length (slice 32 64 r) = 32%nat /\
  length (slice 64 96 r) = 32%nat /\ r = slice 0 32 r ++ slice 32 64 r ++ slice 64 96 r.
Proof.
  intros r. assert (Hr : length r = 96%nat) by apply length_copy_into.
  unfold slice, slice_to, slice_from. change (Z.to_nat 0) with 0%nat. rewrite drop_0.
  change (Z.to_nat (32 - 0)) with 32%nat. change (Z.to_nat (64 - 32)) with 32%nat.
  change (Z.to_nat (96 - 64)) with 32%nat. change (Z.to_nat 32) with 32%nat.
  change (Z.to_nat 64) with 64%nat.
  rewrite !length_take, !length_drop. repeat split; try lia.
  rewrite (take_ge (drop 64 r)) by (rewrite length_drop; lia).
  rewrite <- (take_drop 32 r) at 1. f_equal.
  rewrite <- (take_drop 32 (drop 32 r)) at 1. by rewrite drop_drop.
Qed.

Lemma slice_split lo mid hi (p : bytes) :
  0 <= lo <= mid -> mid <= hi -> slice lo hi p = slice lo mid p ++ slice mid hi p.
Proof.
  intros H1 H2. unfold slice, slice_to, slice_from.
  replace (Z.to_nat (hi - lo)) with (Z.to_nat (mid - lo) + Z.to_nat (hi - mid))%nat by lia.
  rewrite <- take_take_drop, drop_drop.
  replace (Z.to_nat lo + Z.to_nat (mid - lo))%nat with (Z.to_nat mid) by lia. done.
Qed.

(** ** Theorems *)

(** An accepted fold proof that carries public inputs (at least 106
    bytes) carries exactly the three object roots it is verified against, in
    the order bitfield, deposit, balances; and it is a named STWO FOLD proof
    with no dummy part. *)
Theorem fold_binds_object_roots h proof roots :
  VerifySameStatementFold h proof (foldPairStrings roots) = Ok tt -> 106 <= blen proof ->
  slice 10 106 proof = padRoots roots /\ containsDSTW proof = false /\
  slice_to 4 proof = str "STWO" /\ slice 6 10 proof = str "FOLD".
Proof.
  intros H Hlen. unfold VerifySameStatementFold in H. cbv zeta in H.
  destruct (padRoots_split roots) as (H0 & H1 & H2 & Hr).
  change (10 + Z.of_nat ObjectRootsSize) with 106 in H.
  rewrite (proj2 (Z.leb_le 106 _)) in H by done. cbn [andb] in H.
  unfold foldPairStrings in H. cbv zeta in H. cbn [length pair_at nth Nat.ltb Nat.leb negb orb] in H.
  rewrite !isHexRoot_hex, !parseRootHex_hex in H by done. cbn [negb orb] in H.
  peel H.
  apply orb_false_elim in Hg1 as [_ Hstwo].
  apply negb_false_iff in Hstwo, Hg3, Hg4, Hg5, Hg6.
  apply bytes_eqb_eq in Hstwo, Hg3, Hg4, Hg5, Hg6.
  change (42 + 32) with 74 in Hg5. change (74 + 32) with 106 in Hg6.
  split; [|done]. rewrite Hr, (slice_split 10 42 106), (slice_split 42 74 106) by lia.
  by rewrite Hg4, Hg5, Hg6.
Qed.

(** An SSLE proof that the in-process host accepts once is accepted for
    every period, height and ticket: on that path the verifier never compares
    the proof's instance bytes with its arguments. *)
Theorem ssle_in_process_ignores_statement h proof period height ticket :
  checkNamedStwo proof (str "SSLE") = Ok tt ->
  stwo_host h proof (proof_instance 58 proof) = true ->
  VerifySSLEProof h proof period height ticket = Ok tt.
Proof. intros H1 H2. unfold VerifySSLEProof. rewrite H1. cbn. by rewrite H2. Qed.

(** No named proof (SSLE, daily key, no-withdraw, partial withdraw) that
    contains the dummy magic is ever accepted, whatever the host answers, and
    an accepted proof has the header STWO, prover 2, curve 5 and its own kind:
    proofs of one kind are never accepted as another. *)
Theorem named_proofs_reject_dummy h proof kind :
  kind = str "SSLE" /\ (exists p hh t, VerifySSLEProof h proof p hh t = Ok tt) \/
  kind = str "DAYK" /\ (exists p k r, VerifyDailyKeyProof h proof p k r = Ok tt) \/
  kind = str "NWDA" /\ (exists p a r, VerifyNoWithdrawProof h proof p a r = Ok tt) \/
  kind = str "PWDW" /\ (exists p o n, VerifyPartialWithdrawProof h proof p o n = Ok tt) ->
  containsDSTW proof = false /\ slice_to 4 proof = str "STWO" /\
  byte_at proof 4 = Byte.x02 /\ byte_at proof 5 = Byte.x05 /\ slice 6 10 proof = kind.
Proof.
  intros H. assert (Hc : checkNamedStwo proof kind = Ok tt).
  { destruct H as [[-> (x & y & z & H)]|[[-> (x & y & z & H)]|[[-> (x & y & z & H)]|
      [-> (x & y & z & H)]]]];
    unfold VerifySSLEProof, VerifyDailyKeyProof, VerifyNoWithdrawProof,
      VerifyPartialWithdrawProof in H;
    destruct (checkNamedStwo proof _) as [[]|] in *; done. }
  apply checkNamedStwo_inv in Hc. tauto.
Qed.

(** Registering a daily key stores the proved key for its period and
    leaves every other key of the store alone; when proving or verifying
    fails, the store is unchanged. *)
Theorem RegisterDailyKey_spec h period identity prevRoot m :
  let '(m', r) := RegisterDailyKey h period identity prevRoot m in
  match r with
  | Ok key => length key = 32%nat /\ GetDailyKey m' period = key /\
              (forall k, k <> DailyKeyKey period -> m' !! k = m !! k)
  | Err _ => m' = m
  end.
Proof.
  unfold RegisterDailyKey, mbind, mlift, mput, mret.
  destruct (ProveDailyKey h period identity prevRoot) as [[key proof]|e] eqn:Ep; [|done].
  destruct (VerifyDailyKeyProof _ _ _ _ _); [|done]. cbn [fst snd].
  unfold ProveDailyKey in Ep. peel Ep. unfold split_prover_output in Ep.
  destruct (daily_prove_cmd _ _ _ _) as [out|]; [|done]. peel Ep. injection Ep as <- _.
  apply orb_false_elim in Hg0 as [Hl _]. zbool.
  assert (Hlen : length (slice_to 32 out) = 32%nat)
    by (unfold slice_to, blen in *; rewrite length_take; lia).
  split; [done|]. unfold PutDailyKey, blen. rewrite Hlen. cbn [Z.eqb].
  split; [apply store_Get_Set_eq|]. intros k Hk. by apply lookup_insert_ne.
Qed.

(** ** Witnesses: a host whose in-process verifier accepts everything *)

Definition w_host : host :=
  MkHost (fun _ _ => true) false (fun _ _ _ => None) (fun _ _ _ _ => false)
    (fun _ _ _ => None) (fun _ _ _ _ => false)
    false (fun _ _ _ => None) (fun _ _ _ _ => false)
    false (fun _ _ _ => None) (fun _ _ _ _ => false)
    false (fun _ _ _ => None) (fun _ _ _ _ => false) (fun _ _ _ => None) (fun _ _ _ _ => false)
    None false.
Definition w_named (kind : bytes) (body : bytes) : bytes :=
  str "STWO" ++ [Byte.x02; Byte.x05] ++ kind ++ body.
Definition w_fold : bytes := w_named (str "FOLD") (replicate 96 Byte.x01).
Definition w_ssle : bytes := w_named (str "SSLE") (replicate 48 Byte.x01).

Lemma fold_binds_object_roots_witness :
  slice 10 106 w_fold = padRoots (replicate 96 Byte.x01).
Proof. by apply (fold_binds_object_roots w_host w_fold (replicate 96 Byte.x01)); vm_compute. Defined.

Lemma ssle_in_process_ignores_statement_witness :
  VerifySSLEProof w_host w_ssle 7 4242 (str "any ticket") = Ok tt.
Proof. by apply (ssle_in_process_ignores_statement w_host w_ssle); vm_compute. Defined.

Lemma named_proofs_reject_dummy_witness : slice 6 10 w_ssle = str "SSLE".
Proof.
  apply (named_proofs_reject_dummy w_host w_ssle (str "SSLE")). left. split; [done|].
  exists 0, 0, []. by vm_compute.
Defined.
