(* ===== verification/LvPower.v ===== *)
(** * x/leanval/keeper/power.go: bonded sets and validator updates

    The methods here read and write nothing but the store returned by
    [live()], so each is a function of that store. The second half states what
    the consensus engine sees: [ValidatorUpdates] emits exactly the changes of
    an abstract power table. *)

From S2P Require Import Prelude Sha256 KVStore LvTypes LvCodec LvMerkle LvBitfield.

(** ** Bonded rows *)

Record rec := MkRec { rec_accepted : bool; rec_weight : Z }.

Definition encodeRec (accepted : bool) (weight : Z) : bytes :=
  (if accepted then Byte.x01 else Byte.x00) :: PutI64 weight.

Definition decodeRec (v : bytes) : rec :=
  if blen v <? 9 then MkRec false 0
  else MkRec (bool_decide (byte_at v 0 = Byte.x01)) (GetI64 (slice 1 9 v)).

(** The [sort.Slice] of the package: by subject. *)
Definition subject_le (a b : SubjectPower) : Prop := bytes_le (pw_Subject a) (pw_Subject b).
#[global] Instance subject_le_dec : RelDecision subject_le :=
  fun a b => bytes_le_dec (pw_Subject a) (pw_Subject b).

Definition bonded_row (pref : bytes) (kv : bytes * bytes) : SubjectPower :=
  let subj := slice_from (blen pref) kv.1 in
  let r := decodeRec kv.2 in
  if rec_accepted r then MkSubjectPower subj (rec_weight r) true
  else MkSubjectPower subj 0 false.

Definition BondedSet (m : store) (period : Z) : list SubjectPower :=
  let pref := BondedPrefixForPeriod period in
  merge_sort subject_le (map (bonded_row pref) (IteratePrefix m pref)).

Definition PutSubject (period : Z) (subject : bytes) (claimedWeight : Z) (m : store) : store :=
  store_Set (BondedKey period subject) (encodeRec false claimedWeight) m.

Definition AcceptProof (period : Z) (subject : bytes) (weight : Z) (m : store) : store :=
  let m := store_Set (BondedKey period subject) (encodeRec true weight) m in
  (admitMember subject weight m).1.

(** One row of the carry loop. *)
Definition carry_row (period : Z) (m : store) (s : SubjectPower) : store :=
  if pw_HasProof s then AcceptProof period (pw_Subject s) (pw_Weight s) m
  else PutSubject period (pw_Subject s) 0 m.

(** [for p := period; p > 0; p--]: the rows of the last earlier period that
    has any, looking at periods [n-1], [n-2], ..., [0]. *)
Fixpoint last_nonempty (m : store) (n : nat) : option (list SubjectPower) :=
  match n with
  | O => None
  | S n' =>
      match BondedSet m (Z.of_nat n') with
      | [] => last_nonempty m n'
      | prev => Some prev
      end
  end.

Definition BondedSetOrCarry (period : Z) (m : store) : store * list SubjectPower :=
  match BondedSet m period with
  | [] =>
      match last_nonempty m (Z.to_nat period) with
      | Some prev =>
          let m := fold_left (carry_row period) prev m in
          (m, BondedSet m period)
      | None => (m, [])
      end
  | set => (m, set)
  end.

Definition is_nil {A} (l : list A) : bool := match l with [] => true | _ => false end.

Definition hasBondedOrPrior (m : store) (period : Z) : bool :=
  negb (is_nil (BondedSet m period)) ||
  match last_nonempty m (Z.to_nat period) with Some _ => true | None => false end.

(** ** Validator updates *)

Record ValidatorUpdate := MkValidatorUpdate { vu_PubKey : bytes; vu_Power : Z }.
Definition valUpdate (pub : bytes) (power : Z) : ValidatorUpdate := MkValidatorUpdate pub power.

Definition lastPower (m : store) (subject : bytes) : Z :=
  GetI64 (store_Get m (LastPowerKey subject)).

(** First loop: who is in the set, and the power they already have. *)
Definition existing_step (m : store) (acc : gset bytes * Z) (s : SubjectPower) : gset bytes * Z :=
  if negb (blen (pw_Subject s) =? 32) then acc
  else
    let prev := lastPower m (pw_Subject s) in
    (acc.1 ∪ {[pw_Subject s]}, if 0 <? prev then i64 (acc.2 + prev) else acc.2).

(** Second loop: the power a member is given, if it is to be announced. *)
Definition announce (usingBits : bool) (existingTotal prev : Z) (s : SubjectPower) : option Z :=
  if negb (blen (pw_Subject s) =? 32) then None
  else if usingBits && (negb (pw_HasProof s) || (pw_Weight s =? 0)) then None
  else
    let w := pw_Weight s in
    if prev =? 0 then Some (if (0 <? existingTotal) && (1 <? w) then 1 else w)
    else if prev =? w then None
    else if prev <? w then None
    else Some w.

Definition update_step (usingBits : bool) (existingTotal : Z)
    (acc : store * list ValidatorUpdate) (s : SubjectPower) : store * list ValidatorUpdate :=
  match announce usingBits existingTotal (lastPower acc.1 (pw_Subject s)) s with
  | Some w => (store_Set (LastPowerKey (pw_Subject s)) (PutI64 w) acc.1,
               acc.2 ++ [valUpdate (pw_Subject s) w])
  | None => acc
  end.

(** Third loop: members that are gone. *)
Definition zero_step (seen : gset bytes)
    (acc : store * list ValidatorUpdate) (kv : bytes * bytes) : store * list ValidatorUpdate :=
  let subj := drop 1 kv.1 in
  if bool_decide (subj ∈ seen) then acc
  else if GetI64 kv.2 =? 0 then acc
  else (store_Set (LastPowerKey subj) (PutI64 0) acc.1,
        if blen subj =? 32 then acc.2 ++ [valUpdate subj 0] else acc.2).

Definition ValidatorUpdates (period : Z) (m : store) : store * list ValidatorUpdate :=
  let usingBits := (0 <? blen (store_Get m BitfieldKey)) || (0 <? nextDepositIndex m) in
  let '(m, set) := if usingBits then (m, DebugSubjectsFromBits m)
                   else BondedSetOrCarry period m in
  let '(seen, existingTotal) := fold_left (existing_step m) set (∅, 0) in
  let acc := fold_left (update_step usingBits existingTotal) set (m, []) in
  fold_left (zero_step seen) (IteratePrefix acc.1 [LastUpdatesPrefix]) acc.

(** ** Requests and the membership half that only touches the store *)

Definition ApplyJoin (b : JoinBlob) (m : store) : store * result membership_error unit :=
  match ValidateJoin b with
  | Err e => (m, Err e)
  | Ok _ =>
      let m := store_Set (PendingJoinKey (join_Period b) (join_Subject b))
                 (PutI64 (join_Weight b)) m in
      (AcceptProof (join_Period b) (join_Subject b) (join_Weight b) m, Ok tt)
  end.

Definition ApplyLeave (b : LeaveBlob) (m : store) : store * result membership_error unit :=
  match ValidateLeave b with
  | Err e => (m, Err e)
  | Ok _ =>
      let m := store_Set (PendingLeaveKey (leave_Period b) (leave_Subject b)) [Byte.x01] m in
      let m := store_Delete (BondedKey (leave_Period b) (leave_Subject b)) m in
      (match depositIndexOf m (leave_Subject b) with
       | Some idx => SetEB idx Byte.x00 (BitClear idx m)
       | None => m
       end, Ok tt)
  end.

Fixpoint ProcessMembershipTxs (txs : list bytes) (m : store)
  : store * result membership_error unit :=
  match txs with
  | [] => (m, Ok tt)
  | tx :: txs' =>
      match DecodeJoin tx with
      | Some j => match ApplyJoin j m with
                  | (m, Ok _) => ProcessMembershipTxs txs' m
                  | (m, Err e) => (m, Err e)
                  end
      | None =>
          match DecodeLeave tx with
          | Some l => match ApplyLeave l m with
                      | (m, Ok _) => ProcessMembershipTxs txs' m
                      | (m, Err e) => (m, Err e)
                      end
          | None => ProcessMembershipTxs txs' m
          end
      end
  end.

(** Pending joins of one period, as JOIN transactions. *)
Definition stored_joins (m : store) (per : Z) : list bytes :=
  let pref := PendingJoinPrefixForPeriod per in
  map (fun kv : bytes * bytes =>
         EncodeJoin (MkJoinBlob per (slice_from (blen pref) kv.1) (GetI64 kv.2) []))
      (IteratePrefix m pref).
Definition StoredMembershipTxs (m : store) (period : Z) : list bytes :=
  concat (map (stored_joins m) [period; 0]).

(** [dropUnlisted] of [pending.go]. *)
Definition dropUnlisted (period : Z) (listed : gset bytes) (m : store) : store :=
  let pref := BondedPrefixForPeriod period in
  let drop_key (kv : bytes * bytes) :=
    let subj := slice_from (blen pref) kv.1 in
    negb (bool_decide (subj ∈ listed))
    && negb (bool_decide (is_Some (m !! PendingJoinKey period subj))
             || bool_decide (is_Some (m !! PendingJoinKey 0 subj))) in
  fold_left (fun m (kv : bytes * bytes) => store_Delete kv.1 m)
    (filter (fun kv => drop_key kv = true) (IteratePrefix m pref)) m.

(** [QueryBondedSet] of [keeper.go]. *)
Definition QueryBondedSet (m : store) (period : Z) : list SubjectPower :=
  if (0 <? nextDepositIndex m) || (0 <? blen (store_Get m BitfieldKey)) then
    match DebugSubjectsFromBits m with
    | [] => BondedSet m period
    | bits => bits
    end
  else BondedSet m period.

(** ** Frame lemmas *)

(** The first bytes of the keys the roster operations write. *)
Definition roster_heads : list byte := [Byte.x04; Byte.x10; Byte.x11; Byte.x12; Byte.x13].

Lemma lookup_Set_head m k k' v :
  hd Byte.x00 k ∈ roster_heads -> hd Byte.x00 k' ∉ roster_heads ->
  store_Set k v m !! k' = m !! k'.
Proof. intros H1 H2. apply lookup_insert_ne. by intros ->. Qed.

Section Frame.
Context (k : bytes) (Hk : hd Byte.x00 k ∉ roster_heads).

Lemma sync_frame m : syncObjectRoots m !! k = m !! k.
Proof. apply lookup_Set_head; [|done]. vm_compute. set_solver. Qed.

Lemma bit_frame m idx on :
  syncObjectRoots (setBitfield (bitSet (Bitfield m) idx on) m) !! k = m !! k.
Proof. rewrite sync_frame. apply lookup_Set_head; [|done]. vm_compute. set_solver. Qed.

Lemma SetEB_frame m idx b : SetEB idx b m !! k = m !! k.
Proof. unfold SetEB. rewrite sync_frame. apply lookup_Set_head; [|done]. cbn. set_solver. Qed.

Lemma AllocateIndex_frame m s : (AllocateIndex s m).1 !! k = m !! k.
Proof.
  unfold AllocateIndex. destruct (depositIndexOf m s); [done|]. cbn [fst].
  rewrite sync_frame. unfold setNextDepositIndex.
  rewrite !lookup_Set_head; try done; cbn; set_solver.
Qed.

Lemma admitMember_frame m s w : (admitMember s w m).1 !! k = m !! k.
Proof.
  unfold admitMember. pose proof (AllocateIndex_frame m s) as H.
  destruct (AllocateIndex s m) as [m1 idx]. cbn [fst] in H.
  destruct (0 <? w); [|done]. cbn [fst]. unfold BitSet. rewrite bit_frame.
  destruct (_ =? 0); [rewrite SetEB_frame|]; done.
Qed.
End Frame.

Lemma Bonded_head p s : hd Byte.x00 (BondedKey p s) ∉ roster_heads.
Proof. vm_compute. set_solver. Qed.
Lemma LastPower_head s : hd Byte.x00 (LastPowerKey s) ∉ roster_heads.
Proof. vm_compute. set_solver. Qed.

(** ** Bonded sets *)

Lemma BondedKey_inj p q s t :
  is_u64 p -> is_u64 q -> BondedKey p s = BondedKey q t -> p = q /\ s = t.
Proof.
  intros Hp Hq H. apply (f_equal (drop 1)) in H.
  change (putU64 p ++ s = putU64 q ++ t) in H. by apply putU64_app_inj.
Qed.

Lemma decodeRec_encodeRec b w : is_i64 w -> decodeRec (encodeRec b w) = MkRec b w.
Proof.
  intros Hw. unfold decodeRec, encodeRec.
  change (blen (_ :: PutI64 w) <? 9) with false. cbn [byte_at nth].
  change (slice 1 9 (?x :: PutI64 w)) with (PutI64 w).
  rewrite <- (app_nil_r (PutI64 w)), GetI64_PutI64 by done. by destruct b.
Qed.

(** The row a stored value shows. *)
Definition row_of (s : bytes) (v : bytes) : SubjectPower :=
  let r := decodeRec v in
  if rec_accepted r then MkSubjectPower s (rec_weight r) true else MkSubjectPower s 0 false.

Lemma row_of_subject s v : pw_Subject (row_of s v) = s.
Proof. unfold row_of. by destruct (rec_accepted _). Qed.

Lemma bonded_row_eq p s v : bonded_row (BondedPrefixForPeriod p) (BondedKey p s, v) = row_of s v.
Proof. reflexivity. Qed.

Lemma elem_of_BondedSet m p x :
  x ∈ BondedSet m p <-> exists s v, m !! BondedKey p s = Some v /\ x = row_of s v.
Proof.
  unfold BondedSet. cbv zeta. rewrite merge_sort_Permutation, list_elem_of_fmap. split.
  - intros ([k v] & -> & Hin). apply elem_of_IteratePrefix in Hin as [Hm Hp].
    apply has_prefix_BondedPrefix in Hp as [s ->]. by exists s, v.
  - intros (s & v & Hm & ->). exists (BondedKey p s, v). split; [done|].
    apply elem_of_IteratePrefix. split; [done|]. apply has_prefix_BondedPrefix. by exists s.
Qed.

#[export] Instance subject_le_trans : Transitive subject_le.
Proof. intros a b c. unfold subject_le. apply bytes_le_trans. Qed.
#[export] Instance subject_le_Total : Total subject_le.
Proof. intros a b. unfold subject_le. apply bytes_le_total. Qed.

Lemma Sorted_BondedSet m p : StronglySorted subject_le (BondedSet m p).
Proof. apply (StronglySorted_merge_sort subject_le). Qed.

Lemma NoDup_BondedSet m p : NoDup (pw_Subject <$> BondedSet m p).
Proof.
  unfold BondedSet. cbv zeta.
  rewrite (fmap_Permutation pw_Subject _ _ (merge_sort_Permutation subject_le _)).
  apply (NoDup_fmap_1 (fun s => BondedKey p s)).
  pose proof (NoDup_IteratePrefix m (BondedPrefixForPeriod p)) as Hn.
  assert (H : (fun s => BondedKey p s) <$> (pw_Subject <$>
    map (bonded_row (BondedPrefixForPeriod p)) (IteratePrefix m (BondedPrefixForPeriod p)))
    = (IteratePrefix m (BondedPrefixForPeriod p)).*1); [|by rewrite H].
  change (map ?f ?l) with (f <$> l). rewrite <- !list_fmap_compose.
  apply list_fmap_ext. intros i [k v] Hi. apply list_elem_of_lookup_2 in Hi.
  apply elem_of_IteratePrefix in Hi as [_ Hp]. apply has_prefix_BondedPrefix in Hp as [s ->].
  cbn [compose fst]. unfold compose. rewrite bonded_row_eq. by rewrite row_of_subject.
Qed.

(** Two bonded sets with the same rows are the same list. *)
Lemma BondedSet_ext m m' p p' :
  (forall x, x ∈ BondedSet m p <-> x ∈ BondedSet m' p') -> BondedSet m p = BondedSet m' p'.
Proof.
  apply (sorted_by_key_unique pw_Subject);
    [apply Sorted_BondedSet..|apply NoDup_BondedSet|apply NoDup_BondedSet].
Qed.

Lemma BondedSet_nil m p : BondedSet m p = [] -> forall s, m !! BondedKey p s = None.
Proof.
  intros H s. destruct (m !! BondedKey p s) as [v|] eqn:E; [|done].
  assert (Hin : row_of s v ∈ BondedSet m p) by (apply elem_of_BondedSet; by exists s, v).
  rewrite H in Hin. by apply elem_of_nil in Hin.
Qed.

(** ** Carrying a bonded set into a new period *)

Lemma row_of_weight s v : is_i64 (pw_Weight (row_of s v)).
Proof.
  unfold row_of, decodeRec. destruct (blen v <? 9); cbn [rec_accepted].
  - by vm_compute.
  - destruct (bool_decide _); cbn; [apply i64_range|by vm_compute].
Qed.

(** The stored value the carry loop writes for a row. *)
Definition carry_value (x : SubjectPower) : bytes :=
  if pw_HasProof x then encodeRec true (pw_Weight x) else encodeRec false 0.

Lemma carry_row_lookup period m x k :
  hd Byte.x00 k ∉ roster_heads ->
  carry_row period m x !! k =
  if decide (k = BondedKey period (pw_Subject x)) then Some (carry_value x) else m !! k.
Proof.
  intros Hk. unfold carry_row, carry_value, AcceptProof, PutSubject.
  destruct (pw_HasProof x); rewrite ?admitMember_frame by done; case_decide as H;
    [subst k; apply lookup_insert_eq|by apply lookup_insert_ne|
     subst k; apply lookup_insert_eq|by apply lookup_insert_ne].
Qed.

(** A row read from the store is written back as itself. *)
Lemma row_of_carry_value s v : row_of s (carry_value (row_of s v)) = row_of s v.
Proof.
  pose proof (row_of_weight s v) as Hw. unfold carry_value. unfold row_of in *.
  destruct (rec_accepted (decodeRec v)) eqn:E; cbn in *; by rewrite decodeRec_encodeRec.
Qed.

Lemma carry_lookup period l m k :
  is_u64 period -> hd Byte.x00 k ∉ roster_heads -> NoDup (pw_Subject <$> l) ->
  fold_left (carry_row period) l m !! k =
  match list_find (fun x => BondedKey period (pw_Subject x) = k) l with
  | Some (_, x) => Some (carry_value x)
  | None => m !! k
  end.
Proof.
  intros Hp Hk. revert m. induction l as [|x l IH]; intros m Hn; [done|].
  rewrite fmap_cons in Hn. apply NoDup_cons in Hn as [Hx Hn].
  cbn [fold_left list_find]. rewrite IH by done.
  rewrite carry_row_lookup by done.
  destruct (decide (BondedKey period (pw_Subject x) = k)) as [<-|Hne].
  - rewrite decide_True by done.
    destruct (list_find _ l) as [[i y]|] eqn:E; [|done].
    exfalso. apply list_find_Some in E as (Hi & Heq & _).
    apply BondedKey_inj in Heq as [_ Heq]; [|done..].
    apply Hx. rewrite <- Heq. apply list_elem_of_fmap_2. by eapply list_elem_of_lookup_2.
  - destruct (list_find _ l) as [[i y]|] eqn:E; cbn; [done|].
    rewrite decide_False by done. done.
Qed.

Lemma last_nonempty_Some m n p :
  0 <= p < Z.of_nat n -> BondedSet m p <> [] ->
  (forall q, p < q < Z.of_nat n -> BondedSet m q = []) ->
  last_nonempty m n = Some (BondedSet m p).
Proof.
  induction n as [|n IH]; intros Hp Hne Hq; [lia|]. cbn [last_nonempty].
  destruct (decide (p = Z.of_nat n)) as [->|Hd].
  - destruct (BondedSet m (Z.of_nat n)) eqn:E; done.
  - rewrite (Hq (Z.of_nat n)) by lia. apply IH; [lia|done|]. intros q Hr. apply Hq. lia.
Qed.

Lemma last_nonempty_None m n :
  last_nonempty m n = None <-> forall q, 0 <= q < Z.of_nat n -> BondedSet m q = [].
Proof.
  induction n as [|n IH]; cbn [last_nonempty]; [split; [intros _ q; lia|done]|].
  destruct (BondedSet m (Z.of_nat n)) eqn:E.
  - rewrite IH. split; intros H q Hq; [|apply H; lia].
    destruct (decide (q = Z.of_nat n)) as [->|]; [done|apply H; lia].
  - split; [done|]. intros H. rewrite H in E by lia. done.
Qed.

Lemma carry_BondedSet_lemma m period p :
  is_u64 period -> 0 <= p < period -> BondedSet m period = [] ->
  BondedSet (fold_left (carry_row period) (BondedSet m p) m) period = BondedSet m p.
Proof.
  intros Hu Hp Hnil. apply BondedSet_ext. intros x. rewrite !elem_of_BondedSet.
  assert (Hlk : forall s, fold_left (carry_row period) (BondedSet m p) m !! BondedKey period s =
    match list_find (fun x => BondedKey period (pw_Subject x) = BondedKey period s)
      (BondedSet m p) with Some (_, x) => Some (carry_value x) | None => None end).
  { intros s. rewrite carry_lookup by (done || apply Bonded_head || apply NoDup_BondedSet).
    by rewrite BondedSet_nil by done. }
  split.
  - intros (s & v & Hv & ->). rewrite Hlk in Hv.
    destruct (list_find _ _) as [[i y]|] eqn:E; [|done]. injection Hv as <-.
    apply list_find_Some in E as (Hi & Heq & _). apply list_elem_of_lookup_2 in Hi.
    apply elem_of_BondedSet in Hi as (s' & v' & Hm & ->).
    rewrite row_of_subject in Heq. apply BondedKey_inj in Heq as [_ ->]; [|done..].
    exists s, v'. split; [done|]. apply row_of_carry_value.
  - intros (s & v & Hv & ->). exists s, (carry_value (row_of s v)).
    split; [|by rewrite row_of_carry_value]. rewrite Hlk.
    assert (Hin : row_of s v ∈ BondedSet m p) by (apply elem_of_BondedSet; by exists s, v).
    destruct (list_find _ _) as [[i y]|] eqn:E.
    + apply list_find_Some in E as (Hi & Heq & _). apply list_elem_of_lookup_2 in Hi.
      apply elem_of_BondedSet in Hi as (s' & v' & Hm & ->).
      rewrite row_of_subject in Heq. apply BondedKey_inj in Heq as [_ ->]; [|done..]. congruence.
    + apply list_find_None in E. rewrite Forall_forall in E. exfalso.
      apply (E _ Hin). by rewrite row_of_subject.
Qed.

Lemma BondedSet_other_period m period p q :
  is_u64 period -> is_u64 q -> q <> period -> 0 <= p ->
  BondedSet (fold_left (carry_row period) (BondedSet m p) m) q = BondedSet m q.
Proof.
  intros Hu Hq Hne Hp. apply BondedSet_ext. intros x. rewrite !elem_of_BondedSet.
  assert (Hn : forall s, fold_left (carry_row period) (BondedSet m p) m !! BondedKey q s =
                         m !! BondedKey q s).
  { intros s. rewrite carry_lookup by (done || apply Bonded_head || apply NoDup_BondedSet).
    rewrite (proj2 (list_find_None _ _)); [done|]. apply Forall_forall. intros y _ Heq.
    apply BondedKey_inj in Heq as [-> _]; done. }
  by setoid_rewrite Hn.
Qed.

(** When a period starts with no bonded rows, the set is exactly the
    bonded set of the last earlier period that had one (weights, proof flags
    and order included), it is stored for the new period, and the rows of
    every other period are unchanged. *)
Theorem BondedSetOrCarry_carries m period p q :
  is_u64 period -> 0 <= p < period -> BondedSet m period = [] -> BondedSet m p <> [] ->
  (forall r, p < r < period -> BondedSet m r = []) -> is_u64 q -> q <> period ->
  let '(m', set) := BondedSetOrCarry period m in
  set = BondedSet m p /\ BondedSet m' period = BondedSet m p /\ BondedSet m' q = BondedSet m q.
Proof.
  intros Hu Hp Hnil Hne Hlast Hq Hqp. unfold BondedSetOrCarry. rewrite Hnil.
  unfold is_u64 in Hu.
  rewrite (last_nonempty_Some m _ p) by (done || lia || (intros r Hr; apply Hlast; lia)).
  rewrite carry_BondedSet_lemma by (done || lia). split; [done|]. split; [done|].
  apply BondedSet_other_period; done || lia.
Qed.

(** ** The power table

    What the consensus engine holds for a subject is the last power announced
    for it, zero meaning "not a validator". *)

Lemma lastPower_Set_eq m s w : is_i64 w -> lastPower (store_Set (LastPowerKey s) (PutI64 w) m) s = w.
Proof.
  intros H. unfold lastPower. rewrite store_Get_Set_eq, <- (app_nil_r (PutI64 w)).
  by apply GetI64_PutI64.
Qed.
Lemma lastPower_Set_ne m s t v : s <> t -> lastPower (store_Set (LastPowerKey s) v m) t = lastPower m t.
Proof. intros H. unfold lastPower. rewrite store_Get_Set_ne; [done|]. intros [= H']. done. Qed.

(** Members are rows with a 32-byte subject. *)
Definition is_member (x : SubjectPower) : Prop := blen (pw_Subject x) = 32.
#[global] Instance is_member_dec x : Decision (is_member x) := decide (blen (pw_Subject x) = 32).

Lemma announce_non_member ub tot prev x : ~ is_member x -> announce ub tot prev x = None.
Proof.
  unfold is_member, announce. intros H. by rewrite (proj2 (Z.eqb_neq _ _) H).
Qed.

(** The announcement for a subject of a list, against a store. *)
Definition announced (ub : bool) (tot : Z) (m : store) (l : list SubjectPower) (s : bytes) : option Z :=
  find_map (fun x => if decide (pw_Subject x = s) then announce ub tot (lastPower m s) x else None) l.

Definition updates_of (ub : bool) (tot : Z) (m : store) (l : list SubjectPower)
  : list ValidatorUpdate :=
  omap (fun x => valUpdate (pw_Subject x) <$> announce ub tot (lastPower m (pw_Subject x)) x) l.

Lemma announced_notin ub tot m l s : s ∉ pw_Subject <$> l -> announced ub tot m l s = None.
Proof.
  intros H. apply find_map_None. intros x Hx. case_decide as E; [|done].
  exfalso. apply H. rewrite <- E. by apply list_elem_of_fmap_2.
Qed.

Lemma updates_of_ext ub tot m m' l :
  (forall s, s ∈ pw_Subject <$> l -> lastPower m s = lastPower m' s) ->
  updates_of ub tot m l = updates_of ub tot m' l.
Proof.
  induction l as [|x l IH]; intros H; [done|]. unfold updates_of. cbn [omap list_omap].
  rewrite (H (pw_Subject x)) by left. fold (updates_of ub tot m l) (updates_of ub tot m' l).
  rewrite IH; [done|]. intros s Hs. apply H. by right.
Qed.

Lemma announce_i64 ub tot prev x w :
  is_i64 (pw_Weight x) -> announce ub tot prev x = Some w -> is_i64 w.
Proof.
  intros Hw. unfold announce. cbv zeta. repeat case_match; intros [= <-]; try done; split; lia.
Qed.

Lemma update_fold ub tot l m ups :
  NoDup (pw_Subject <$> l) -> Forall (fun x => is_i64 (pw_Weight x)) l ->
  let '(m', ups') := fold_left (update_step ub tot) l (m, ups) in
  (forall s, lastPower m' s = default (lastPower m s) (announced ub tot m l s)) /\
  (forall k, (forall s, k <> LastPowerKey s) -> m' !! k = m !! k) /\
  ups' = ups ++ updates_of ub tot m l.
Proof.
  revert m ups. induction l as [|x l IH]; intros m ups Hn Hw.
  - cbn. split; [done|]. split; [done|]. by rewrite app_nil_r.
  - rewrite fmap_cons in Hn. apply NoDup_cons in Hn as [Hx Hn].
    inversion Hw as [|? ? Hwx Hwl]; subst. cbn [fold_left].
    unfold update_step at 2. cbn [fst snd].
    unfold updates_of, announced in *. cbn [omap list_omap find_map].
    fold (updates_of ub tot m l).
    destruct (announce ub tot (lastPower m (pw_Subject x)) x) as [w|] eqn:E; cbn [fmap option_fmap option_map].
    + specialize (IH (store_Set (LastPowerKey (pw_Subject x)) (PutI64 w) m)
                     (ups ++ [valUpdate (pw_Subject x) w]) Hn Hwl).
      destruct (fold_left _ l _) as [m' ups']. destruct IH as (IH1 & IH2 & IH3).
      pose proof (announce_i64 _ _ _ _ _ Hwx E) as Hwi.
      split; [|split].
      * intros s. rewrite IH1. case_decide as Hs.
        { subst s. rewrite E.
          fold (announced ub tot (store_Set (LastPowerKey (pw_Subject x)) (PutI64 w) m) l (pw_Subject x)).
          rewrite announced_notin by done. cbn. by apply lastPower_Set_eq. }
        by rewrite lastPower_Set_ne.
      * intros k Hk. rewrite IH2 by done. apply lookup_insert_ne. intros H. by apply (Hk (pw_Subject x)).
      * rewrite IH3, <- app_assoc. f_equal. cbn. f_equal. apply updates_of_ext.
        intros s Hs. apply lastPower_Set_ne. intros H. apply Hx. by rewrite H.
    + specialize (IH m ups Hn Hwl). destruct (fold_left _ l _) as [m' ups'].
      destruct IH as (IH1 & IH2 & IH3). split; [|done].
      intros s. rewrite IH1. case_decide as Hs; [|done]. subst s. rewrite E. done.
Qed.

Definition zero_update (seen : gset bytes) (kv : bytes * bytes) : option ValidatorUpdate :=
  let subj := drop 1 kv.1 in
  if bool_decide (subj ∈ seen) then None
  else if GetI64 kv.2 =? 0 then None
  else if blen subj =? 32 then Some (valUpdate subj 0) else None.

Lemma LastPowerKey_inj s t : LastPowerKey s = LastPowerKey t -> s = t.
Proof. by intros [= ->]. Qed.

(** The value listed for a subject. *)
Definition kv_find (s : bytes) (kvs : list (bytes * bytes)) : option bytes :=
  find_map (fun kv => if decide (kv.1 = LastPowerKey s) then Some kv.2 else None) kvs.

Lemma kv_find_Some s kvs v : kv_find s kvs = Some v -> (LastPowerKey s, v) ∈ kvs.
Proof.
  intros H. apply find_map_Some in H as ([k v'] & Hin & H). cbn [fst snd] in H.
  case_decide as E; [|done]. injection H as ->. by rewrite <- E.
Qed.
Lemma kv_find_None s kvs : LastPowerKey s ∉ kvs.*1 <-> kv_find s kvs = None.
Proof.
  unfold kv_find. rewrite find_map_None. split.
  - intros H kv Hin. case_decide as E; [|done]. exfalso. apply H. rewrite <- E.
    by apply list_elem_of_fmap_2.
  - intros H Hin. apply list_elem_of_fmap in Hin as (kv & Hk & Hin).
    specialize (H kv Hin). by rewrite decide_True in H.
Qed.

Lemma zero_fold seen kvs m ups :
  NoDup kvs.*1 -> Forall (fun kv => exists s, kv.1 = LastPowerKey s) kvs ->
  let '(m', ups') := fold_left (zero_step seen) kvs (m, ups) in
  (forall s, lastPower m' s =
     match kv_find s kvs with
     | Some v => if bool_decide (s ∈ seen) || (GetI64 v =? 0) then lastPower m s else 0
     | None => lastPower m s
     end) /\
  (forall k, (forall s, k <> LastPowerKey s) -> m' !! k = m !! k) /\
  ups' = ups ++ omap (zero_update seen) kvs.
Proof.
  revert m ups. induction kvs as [|[k v] kvs IH]; intros m ups Hn Hf.
  - cbn. split; [done|]. split; [done|]. by rewrite app_nil_r.
  - rewrite fmap_cons in Hn. apply NoDup_cons in Hn as [Hx Hn]. cbn [fst] in Hx.
    inversion Hf as [|? ? [s0 Hk] Hfl]; subst. cbn [fst] in Hk. subst k.
    apply kv_find_None in Hx. unfold kv_find. cbn [fold_left find_map].
    unfold zero_step at 2. cbn [fst snd omap list_omap].
    unfold zero_update at 1. cbn [fst snd]. change (drop 1 (LastPowerKey s0)) with s0.
    destruct (bool_decide (s0 ∈ seen) || (GetI64 v =? 0)) eqn:Es.
    + assert (Hskip : forall {A} (a b : A), (if bool_decide (s0 ∈ seen) then a
        else if GetI64 v =? 0 then a else b) = a) by (intros; by destruct (bool_decide _), (_ =? _)).
      rewrite !Hskip. specialize (IH m ups Hn Hfl). destruct (fold_left _ kvs _) as [m' ups'].
      destruct IH as (IH1 & IH2 & IH3). split; [|done]. intros s. rewrite IH1.
      destruct (decide (LastPowerKey s0 = LastPowerKey s)) as [Hs|Hs]; [|done].
      apply LastPowerKey_inj in Hs as <-. by rewrite Hx, Es.
    + apply orb_false_elim in Es as [Es Ev]. rewrite Es, Ev.
      specialize (IH (store_Set (LastPowerKey s0) (PutI64 0) m)
        (if blen s0 =? 32 then ups ++ [valUpdate s0 0] else ups) Hn Hfl).
      destruct (fold_left _ kvs _) as [m' ups']. destruct IH as (IH1 & IH2 & IH3).
      split; [|split].
      * intros s. rewrite IH1. destruct (decide (LastPowerKey s0 = LastPowerKey s)) as [Hs|Hs].
        { apply LastPowerKey_inj in Hs as <-. rewrite Hx, Es, Ev. by apply lastPower_Set_eq. }
        rewrite lastPower_Set_ne by (intros ->; done). done.
      * intros k Hk. rewrite IH2 by done. apply lookup_insert_ne. intros H. by apply (Hk s0).
      * rewrite IH3. destruct (blen s0 =? 32); [|done]. by rewrite <- app_assoc.
Qed.

Lemma IterateLast_keys m : Forall (fun kv => exists s, kv.1 = LastPowerKey s)
                             (IteratePrefix m [LastUpdatesPrefix]).
Proof.
  apply Forall_forall. intros [k v] Hin. apply elem_of_IteratePrefix in Hin as [_ Hp].
  by apply has_prefix_LastUpdates in Hp.
Qed.

(** The whole third loop: everybody not seen ends at zero. *)
Lemma zero_loop seen m ups :
  let '(m', ups') := fold_left (zero_step seen) (IteratePrefix m [LastUpdatesPrefix]) (m, ups) in
  (forall s, lastPower m' s = if bool_decide (s ∈ seen) then lastPower m s else 0) /\
  (forall k, (forall s, k <> LastPowerKey s) -> m' !! k = m !! k) /\
  ups' = ups ++ omap (zero_update seen) (IteratePrefix m [LastUpdatesPrefix]).
Proof.
  pose proof (zero_fold seen (IteratePrefix m [LastUpdatesPrefix]) m ups
    (NoDup_IteratePrefix _ _) (IterateLast_keys m)) as H.
  destruct (fold_left _ _ _) as [m' ups']. destruct H as (H1 & H2). split; [|done].
  intros s. rewrite H1. destruct (kv_find _ _) as [v|] eqn:E.
  - apply kv_find_Some, elem_of_IteratePrefix in E as [Hm _].
    destruct (bool_decide _); [done|]. cbn [orb].
    destruct (GetI64 v =? 0) eqn:Ev; [|done]. zbool. unfold lastPower, store_Get. by rewrite Hm.
  - apply kv_find_None in E. destruct (bool_decide _); [done|].
    unfold lastPower, store_Get. destruct (m !! LastPowerKey s) as [v|] eqn:Em; [|done].
    exfalso. apply E. apply list_elem_of_fmap. exists (LastPowerKey s, v). split; [done|].
    apply elem_of_IteratePrefix. split; [done|]. apply has_prefix_LastUpdates. by exists s.
Qed.

Lemma elem_of_zero_updates seen m s p :
  MkValidatorUpdate s p ∈ omap (zero_update seen) (IteratePrefix m [LastUpdatesPrefix]) <->
  s ∉ seen /\ blen s = 32 /\ p = 0 /\ lastPower m s <> 0.
Proof.
  rewrite list_elem_of_omap. unfold zero_update, valUpdate, lastPower, store_Get. split.
  - intros ([k v] & Hin & H). apply elem_of_IteratePrefix in Hin as [Hm Hp].
    apply has_prefix_LastUpdates in Hp as [t ->]. cbn [fst snd] in H.
    change (drop 1 (LastPowerKey t)) with t in H.
    destruct (bool_decide (t ∈ seen)) eqn:E1; [done|]. destruct (GetI64 v =? 0) eqn:E2; [done|].
    destruct (blen t =? 32) eqn:E3; [|done]. injection H as -> <-. zbool.
    apply bool_decide_eq_false in E1. rewrite Hm. done.
  - intros (H1 & H2 & -> & H4). destruct (m !! LastPowerKey s) as [v|] eqn:Em; [|done].
    exists (LastPowerKey s, v). split.
    + apply elem_of_IteratePrefix. split; [done|]. apply has_prefix_LastUpdates. by exists s.
    + cbn [fst snd]. change (drop 1 (LastPowerKey s)) with s.
      rewrite bool_decide_eq_false_2 by done. cbn [from_option id] in H4.
      rewrite (proj2 (Z.eqb_neq _ _) H4), H2. done.
Qed.

Lemma NoDup_zero_updates seen m :
  NoDup (vu_PubKey <$> omap (zero_update seen) (IteratePrefix m [LastUpdatesPrefix])).
Proof.
  pose proof (NoDup_IteratePrefix m [LastUpdatesPrefix]) as Hn.
  pose proof (IterateLast_keys m) as Hf. revert Hn Hf.
  generalize (IteratePrefix m [LastUpdatesPrefix]).
  induction l as [|[k v] l IH]; intros Hn Hf; [constructor|].
  rewrite fmap_cons in Hn. apply NoDup_cons in Hn as [Hx Hn].
  inversion Hf as [|? ? [s Hk] Hfl]; subst. cbn [fst] in Hk, Hx. subst k.
  cbn [omap list_omap]. destruct (zero_update seen (LastPowerKey s, v)) as [u|] eqn:E; [|by apply IH].
  rewrite fmap_cons. constructor; [|by apply IH].
  unfold zero_update in E. cbn [fst snd] in E. change (drop 1 (LastPowerKey s)) with s in E.
  repeat case_match; try done. injection E as <-. cbn [vu_PubKey valUpdate].
  intros Hin. apply list_elem_of_fmap in Hin as (u & Hu & Hin).
  apply list_elem_of_omap in Hin as ([k' v'] & Hin & Hz). unfold zero_update in Hz. cbn [fst snd] in Hz.
  rewrite Forall_forall in Hfl. destruct (Hfl _ Hin) as [t Ht]. cbn in Ht. subst k'.
  change (drop 1 (LastPowerKey t)) with t in Hz. repeat case_match; try done.
  injection Hz as <-. cbn in Hu. subst t. apply Hx.
  apply list_elem_of_fmap. by exists (LastPowerKey s, v').
Qed.

(** ** The announcements of a roster *)

(** Rows the consensus engine can see: bit set and a 32-byte subject. *)
Definition is_member_row (r : row) : Prop := row_bit r = true /\ blen (row_subject r) = 32.
#[global] Instance is_member_row_dec r : Decision (is_member_row r) :=
  decide (row_bit r = true /\ blen (row_subject r) = 32).
Definition members (rows : list row) : list row := filter is_member_row rows.
Definition eb_val (r : row) : Z := byte_val (default Byte.x00 (row_eb r)).
Definition member_of (r : row) : SubjectPower :=
  MkSubjectPower (row_subject r) (eb_val r) (0 <? eb_val r).

Lemma members_roster_powers i rows :
  filter is_member (roster_powers_from i rows) = member_of <$> members rows.
Proof.
  revert i. induction rows as [|r rows IH]; intros i; [done|].
  cbn [roster_powers_from]. unfold members in *. rewrite (filter_cons is_member_row).
  assert (Hm : row_bit r = true -> is_member (row_power i r) <-> is_member_row r).
  { unfold is_member, is_member_row, row_power. cbn [pw_Subject]. intros ->.
    destruct (blen (row_subject r) =? 0) eqn:E0; zbool; [|tauto].
    split; [done|intros [_ ?]; lia]. }
  destruct (row_bit r) eqn:Eb; cbn [app].
  - specialize (Hm eq_refl). rewrite filter_cons.
    destruct (decide (is_member_row r)) as [H|H].
    + rewrite decide_True by tauto. rewrite fmap_cons, IH. f_equal.
      unfold row_power, member_of, eb_val. destruct (blen (row_subject r) =? 0) eqn:E; [|done].
      zbool. destruct H as [_ H]. lia.
    + rewrite decide_False by tauto. apply IH.
  - rewrite decide_False by (intros [? _]; congruence). apply IH.
Qed.

Lemma members_subjects_sublist rows : row_subject <$> members rows `sublist_of` row_subject <$> rows.
Proof.
  unfold members. induction rows as [|r rows IH]; [done|]. rewrite filter_cons, fmap_cons.
  case_decide; [by constructor|by constructor].
Qed.

Lemma member_subjects rows : pw_Subject <$> (member_of <$> members rows) = row_subject <$> members rows.
Proof. by rewrite <- list_fmap_compose. Qed.

Lemma update_fold_filter ub tot l acc :
  fold_left (update_step ub tot) l acc = fold_left (update_step ub tot) (filter is_member l) acc.
Proof.
  revert acc. induction l as [|x l IH]; intros acc; [done|]. rewrite filter_cons. cbn [fold_left].
  case_decide as H; [apply IH|]. rewrite <- IH. f_equal. unfold update_step.
  by rewrite announce_non_member.
Qed.

(** Announced powers stay in the range of an effective balance. *)
Definition powers_ok (m : store) : Prop := forall s, 0 <= lastPower m s <= 255.

Definition power_sum (m : store) (rows : list row) : Z :=
  foldr (fun r a => lastPower m (row_subject r) + a) 0 (members rows).

Lemma existing_fold_filter m l acc :
  fold_left (existing_step m) l acc = fold_left (existing_step m) (filter is_member l) acc.
Proof.
  revert acc. induction l as [|x l IH]; intros acc; [done|]. rewrite filter_cons. cbn [fold_left].
  case_decide as H; [apply IH|]. rewrite <- IH. f_equal. unfold existing_step.
  unfold is_member in H. by rewrite (proj2 (Z.eqb_neq _ _) H).
Qed.

Lemma existing_fold m (l : list row) seen tot :
  powers_ok m -> Forall is_member_row l -> 0 <= tot -> tot + 255 * Z.of_nat (length l) < 2 ^ 63 ->
  fold_left (existing_step m) (member_of <$> l) (seen, tot) =
  (seen ∪ list_to_set (row_subject <$> l),
   tot + foldr (fun r a => lastPower m (row_subject r) + a) 0 l).
Proof.
  intros Hp Hl. revert seen tot. induction Hl as [|r l Hr Hl IH]; intros seen tot Ht Hb.
  - cbn. f_equal; [set_solver|lia].
  - rewrite fmap_cons. cbn [fold_left]. pose proof (Hp (row_subject r)) as Hpr.
    cbn [length] in Hb. unfold existing_step at 2. cbn [pw_Subject member_of fst snd].
    rewrite (proj2 (Z.eqb_eq _ _) (proj2 Hr)). cbn [negb].
    replace (if 0 <? lastPower m (row_subject r) then i64 (tot + lastPower m (row_subject r)) else tot)
      with (tot + lastPower m (row_subject r)).
    + rewrite IH by lia. rewrite fmap_cons. cbn [list_to_set foldr]. f_equal; [set_solver|lia].
    + destruct (0 <? _) eqn:E; zbool; [rewrite i64_id; [done|split; lia]|lia].
Qed.

(** The power a subject has after the updates: a bonded member keeps its
    power or loses some, never gains any; a newcomer gets 1 while others have
    power, and its balance otherwise; everyone else gets 0. *)
Definition next_power (rows : list row) (total prev : Z) (s : bytes) : Z :=
  match row_find s (members rows) ≫= (fun i => members rows !! i) with
  | None => 0
  | Some r =>
      let w := eb_val r in
      if w =? 0 then prev
      else if prev =? 0 then (if 0 <? total then Z.min 1 w else w)
      else Z.min prev w
  end.

Lemma row_find_members rows s r :
  NoDup (row_subject <$> rows) -> r ∈ members rows -> row_subject r = s ->
  row_find s (members rows) ≫= (fun i => members rows !! i) = Some r.
Proof.
  intros Hn Hr <-. apply list_elem_of_lookup in Hr as [i Hi].
  assert (Hd : NoDup (row_subject <$> members rows))
    by (eapply sublist_NoDup; [exact Hn|apply members_subjects_sublist]).
  rewrite (proj2 (row_find_Some (row_subject r) (members rows) i Hd)); [done|].
  by rewrite list_lookup_fmap, Hi.
Qed.

Lemma eb_val_range r : 0 <= eb_val r <= 255.
Proof. unfold eb_val. pose proof (byte_val_range (default Byte.x00 (row_eb r))). lia. Qed.

Lemma announce_member tot prev r :
  is_member_row r -> 0 <= prev ->
  default prev (announce true tot prev (member_of r)) =
  (if eb_val r =? 0 then prev
   else if prev =? 0 then (if 0 <? tot then Z.min 1 (eb_val r) else eb_val r)
   else Z.min prev (eb_val r)) /\
  (announce true tot prev (member_of r) <> Some prev).
Proof.
  intros [_ Hr] Hp. pose proof (eb_val_range r). unfold announce, member_of.
  cbn [pw_Subject pw_Weight pw_HasProof]. rewrite Hr. cbn [Z.eqb Pos.eqb negb andb].
  destruct (eb_val r =? 0) eqn:E0; [rewrite orb_true_r; done|]. zbool.
  rewrite (proj2 (Z.ltb_lt 0 (eb_val r))) by lia. cbn [negb orb].
  destruct (prev =? 0) eqn:E1; zbool.
  - subst. destruct (0 <? tot) eqn:E2; cbn [andb from_option id]; [|split; [done|intros [= ?]; lia]].
    destruct (1 <? eb_val r) eqn:E3; zbool; cbn [from_option id]; split; try (intros [= ?]); lia.
  - destruct (prev =? eb_val r) eqn:E2; zbool; [cbn; split; [lia|done]|].
    destruct (prev <? eb_val r) eqn:E3; zbool; cbn [from_option id]; split; try (intros [= ?]); lia || done.
Qed.

Lemma announced_member rows tot m r :
  NoDup (row_subject <$> rows) -> r ∈ members rows ->
  announced true tot m (member_of <$> members rows) (row_subject r) =
  announce true tot (lastPower m (row_subject r)) (member_of r).
Proof.
  intros Hn Hr. unfold announced. rewrite (find_map_only _ _ (member_of r)).
  - cbn [pw_Subject member_of]. by rewrite decide_True.
  - by apply list_elem_of_fmap_2.
  - intros y Hy Hne. apply list_elem_of_fmap in Hy as (r' & -> & Hr').
    cbn [pw_Subject member_of] in Hne. case_decide as E; [|done].
    pose proof (row_find_members rows _ r' Hn Hr' E) as H1.
    pose proof (row_find_members rows _ r Hn Hr eq_refl) as H2. congruence.
Qed.

Lemma elem_of_updates_of rows tot m s p :
  MkValidatorUpdate s p ∈ updates_of true tot m (member_of <$> members rows) <->
  exists r, r ∈ members rows /\ row_subject r = s /\
            announce true tot (lastPower m s) (member_of r) = Some p.
Proof.
  unfold updates_of. rewrite list_elem_of_omap. split.
  - intros (x & Hx & H). apply list_elem_of_fmap in Hx as (r & -> & Hr).
    apply fmap_Some in H as (w & Hw & [= -> ->]). by exists r.
  - intros (r & Hr & <- & H). exists (member_of r). split; [by apply list_elem_of_fmap_2|].
    cbn [pw_Subject member_of]. by rewrite H.
Qed.

Lemma NoDup_updates_of rows tot m :
  NoDup (row_subject <$> rows) ->
  NoDup (vu_PubKey <$> updates_of true tot m (member_of <$> members rows)).
Proof.
  intros Hn. assert (Hd : NoDup (row_subject <$> members rows))
    by (eapply sublist_NoDup; [exact Hn|apply members_subjects_sublist]).
  eapply sublist_NoDup; [exact Hd|]. unfold updates_of.
  induction (members rows) as [|r l IH]; [done|].
  rewrite !fmap_cons in *. apply NoDup_cons in Hd as [_ Hd]. cbn [omap list_omap].
  destruct (announce _ _ _ (member_of r)); cbn [fmap option_fmap option_map];
    [rewrite fmap_cons; constructor|constructor]; by apply IH.
Qed.

Lemma members_Forall rows : Forall is_member_row (members rows).
Proof. apply Forall_forall. intros r Hr. by apply list_elem_of_filter in Hr as [? _]. Qed.

(** The subjects the first loop has seen. *)
Definition seen_set (rows : list row) : gset bytes := list_to_set (row_subject <$> members rows).

Lemma elem_of_seen_set rows s : s ∈ seen_set rows <-> exists r, r ∈ members rows /\ row_subject r = s.
Proof.
  unfold seen_set. rewrite elem_of_list_to_set, list_elem_of_fmap.
  split; intros (r & H1 & H2); exists r; done.
Qed.

(** The two writing loops together: [m1] is the store after the second loop
    and [m2] the store after the third. *)
Section Loops.
Context (m m1 m2 : store) (rows : list row).
Context (Hn : NoDup (row_subject <$> rows)) (Hok : powers_ok m).
Context (U : forall s, lastPower m1 s =
  default (lastPower m s) (announced true (power_sum m rows) m (member_of <$> members rows) s)).
Context (Z : forall s, lastPower m2 s =
  if bool_decide (s ∈ seen_set rows) then lastPower m1 s else 0).

Lemma loops_member r :
  r ∈ members rows -> let s := row_subject r in
  lastPower m2 s =
    default (lastPower m s) (announce true (power_sum m rows) (lastPower m s) (member_of r)) /\
  lastPower m2 s = next_power rows (power_sum m rows) (lastPower m s) s.
Proof.
  intros Hr s. rewrite Z, bool_decide_eq_true_2 by (apply elem_of_seen_set; by exists r).
  unfold s. rewrite U, announced_member by done. split; [done|].
  unfold next_power. rewrite (row_find_members rows _ r) by done.
  pose proof (members_Forall rows) as Hm. rewrite Forall_forall in Hm.
  apply announce_member; [by apply Hm|apply Hok].
Qed.

Lemma loops_outsider s :
  s ∉ seen_set rows ->
  lastPower m2 s = 0 /\ lastPower m1 s = lastPower m s /\
  next_power rows (power_sum m rows) (lastPower m s) s = 0.
Proof.
  intros Hs. rewrite Z, bool_decide_eq_false_2 by done. split; [done|].
  assert (Hni : s ∉ row_subject <$> members rows)
    by (intros H; apply Hs; unfold seen_set; by rewrite elem_of_list_to_set).
  split; [rewrite U, announced_notin; [done|by rewrite member_subjects]|].
  unfold next_power. apply row_find_None in Hni. by rewrite Hni.
Qed.

Lemma loops_next s : lastPower m2 s = next_power rows (power_sum m rows) (lastPower m s) s.
Proof.
  destruct (decide (s ∈ seen_set rows)) as [Hs|Hs].
  - apply elem_of_seen_set in Hs as (r & Hr & <-). by apply loops_member.
  - destruct (loops_outsider s Hs) as (-> & _ & ->). done.
Qed.

Lemma loops_updates s p :
  MkValidatorUpdate s p ∈ updates_of true (power_sum m rows) m (member_of <$> members rows) ++
                          omap (zero_update (seen_set rows)) (IteratePrefix m1 [LastUpdatesPrefix])
  <-> blen s = 32 /\ p = lastPower m2 s /\ p <> lastPower m s.
Proof.
  rewrite elem_of_app, elem_of_updates_of, elem_of_zero_updates.
  destruct (decide (s ∈ seen_set rows)) as [Hs|Hs].
  - pose proof Hs as Hs'. apply elem_of_seen_set in Hs' as (r & Hr & <-).
    destruct (loops_member r Hr) as [H1 _]. cbv zeta in H1. rewrite H1.
    pose proof (members_Forall rows) as Hm. rewrite Forall_forall in Hm. specialize (Hm r Hr).
    destruct (announce_member (power_sum m rows) (lastPower m (row_subject r)) r Hm) as [_ Hneq];
      [apply Hok|]. split.
    + intros [(r' & Hr' & He & Ha)|(Hni & _)]; [|done].
      assert (r' = r) as ->.
      { pose proof (row_find_members rows _ r' Hn Hr' He) as F1.
        pose proof (row_find_members rows _ r Hn Hr eq_refl) as F2. congruence. }
      rewrite Ha in *. cbn. split; [apply Hm|]. split; [done|congruence].
    + intros (_ & -> & Hd). left. exists r. split; [done|]. split; [done|].
      destruct (announce _ _ _ _); cbn in *; done.
  - destruct (loops_outsider s Hs) as (-> & -> & _). split.
    + intros [(r & Hr & He & _)|(_ & H1 & -> & H2)]; [|done].
      exfalso. apply Hs, elem_of_seen_set. by exists r.
    + intros (H1 & -> & H2). right. done.
Qed.

Lemma loops_NoDup :
  NoDup (vu_PubKey <$> updates_of true (power_sum m rows) m (member_of <$> members rows) ++
         omap (zero_update (seen_set rows)) (IteratePrefix m1 [LastUpdatesPrefix])).
Proof.
  rewrite fmap_app. apply NoDup_app. split; [by apply NoDup_updates_of|].
  split; [|apply NoDup_zero_updates].
  intros s H1 H2. apply list_elem_of_fmap in H1 as ([s1 p1] & -> & H1), H2 as ([s2 p2] & E2 & H2).
  cbn in E2. subst s2. apply elem_of_updates_of in H1 as (r & Hr & <- & _).
  apply elem_of_zero_updates in H2 as [H2 _]. apply H2, elem_of_seen_set. by exists r.
Qed.
End Loops.

(** The facts about one call that the theorems below share. *)
Lemma ValidatorUpdates_facts m rows period :
  roster_rel m rows -> rows <> [] -> powers_ok m ->
  let '(m', ups) := ValidatorUpdates period m in
  (forall s, lastPower m' s = next_power rows (power_sum m rows) (lastPower m s) s) /\
  (forall s p, MkValidatorUpdate s p ∈ ups <->
               blen s = 32 /\ p = lastPower m' s /\ p <> lastPower m s) /\
  NoDup (vu_PubKey <$> ups) /\
  (forall k, (forall s, k <> LastPowerKey s) -> m' !! k = m !! k).
Proof.
  intros Hrel Hne Hok. unfold ValidatorUpdates.
  pose proof (rr_nodup _ _ Hrel) as Hn. pose proof (rr_bound _ _ Hrel) as Hb.
  assert (Hub : (0 <? blen (store_Get m BitfieldKey)) || (0 <? nextDepositIndex m) = true).
  { rewrite (rr_next _ _ Hrel). destruct rows; [done|]. cbn [length].
    apply orb_true_iff. right. apply Z.ltb_lt. lia. }
  rewrite Hub, (DebugSubjectsFromBits_rel m rows Hrel). unfold roster_powers.
  rewrite existing_fold_filter, members_roster_powers.
  assert (Hlen : (length (members rows) <= length rows)%nat) by apply length_filter.
  rewrite existing_fold by (apply members_Forall || done || lia).
  rewrite Z.add_0_l, union_empty_l_L. fold (power_sum m rows) (seen_set rows).
  rewrite update_fold_filter, members_roster_powers.
  pose proof (update_fold true (power_sum m rows) (member_of <$> members rows) m []) as Hup.
  destruct (fold_left (update_step true _) _ _) as [m1 ups1].
  destruct Hup as (U1 & U2 & U3).
  { rewrite member_subjects. eapply sublist_NoDup; [exact Hn|apply members_subjects_sublist]. }
  { apply Forall_forall. intros x Hx. apply list_elem_of_fmap in Hx as (r & -> & _).
    cbn [pw_Weight member_of]. pose proof (eb_val_range r). unfold is_i64. lia. }
  cbn [app] in U3. subst ups1. cbn [fst].
  pose proof (zero_loop (seen_set rows) m1
    (updates_of true (power_sum m rows) m (member_of <$> members rows))) as Hz.
  destruct (fold_left (zero_step _) _ _) as [m2 ups2]. destruct Hz as (Z1 & Z2 & ->).
  split; [|split; [|split]].
  - by apply (loops_next m m1).
  - by apply loops_updates.
  - by apply loops_NoDup.
  - intros k Hk. rewrite Z2 by done. by apply U2.
Qed.

Lemma next_power_range rows tot prev s : 0 <= prev <= 255 -> 0 <= next_power rows tot prev s <= 255.
Proof.
  intros H. unfold next_power. destruct (_ ≫= _) as [r|]; [|lia].
  pose proof (eb_val_range r). cbv zeta. repeat case_match; zbool; lia.
Qed.

Lemma ValidatorUpdates_rel m rows period :
  roster_rel m rows -> rows <> [] -> powers_ok m ->
  roster_rel (ValidatorUpdates period m).1 rows /\ powers_ok (ValidatorUpdates period m).1.
Proof.
  intros Hrel Hne Hok. pose proof (ValidatorUpdates_facts m rows period Hrel Hne Hok) as H.
  destruct (ValidatorUpdates period m) as [m' ups]. destruct H as (H1 & _ & _ & H4). cbn [fst]. split.
  - apply (roster_rel_frame m); [|done]. intros k Hk. apply H4. intros s ->.
    apply roster_key_bytes in Hk. revert Hk. vm_compute. set_solver.
  - intros s. rewrite H1. by apply next_power_range.
Qed.

(** ** What the consensus engine does with the updates

    It refuses a batch that lists a key twice, a negative power, or the
    removal of a key it does not hold. *)
Definition engine_step (t : option (gmap bytes Z)) (u : ValidatorUpdate) : option (gmap bytes Z) :=
  match t with
  | None => None
  | Some t =>
      if vu_Power u <? 0 then None
      else if vu_Power u =? 0 then
        match t !! vu_PubKey u with
        | Some _ => Some (delete (vu_PubKey u) t)
        | None => None
        end
      else Some (<[vu_PubKey u := vu_Power u]> t)
  end.
Definition engine_apply (ups : list ValidatorUpdate) (t : gmap bytes Z) : option (gmap bytes Z) :=
  if decide (NoDup (vu_PubKey <$> ups)) then fold_left engine_step ups (Some t) else None.

(** The engine holds, for every 32-byte key, the last power the store records. *)
Definition engine_agrees (t : gmap bytes Z) (m : store) : Prop :=
  forall s, t !! s = if (blen s =? 32) && negb (lastPower m s =? 0) then Some (lastPower m s) else None.

Definition power_entry (p : Z) : option Z := if p =? 0 then None else Some p.

Lemma engine_fold ups t :
  NoDup (vu_PubKey <$> ups) ->
  (forall u, u ∈ ups -> 0 <= vu_Power u /\ (vu_Power u = 0 -> is_Some (t !! vu_PubKey u))) ->
  exists t', fold_left engine_step ups (Some t) = Some t' /\
    (forall u, u ∈ ups -> t' !! vu_PubKey u = power_entry (vu_Power u)) /\
    (forall s, s ∉ vu_PubKey <$> ups -> t' !! s = t !! s).
Proof.
  revert t. induction ups as [|[k p] ups IH]; intros t Hn Hu.
  - exists t. split; [done|]. split; [intros u Hin; by apply elem_of_nil in Hin|done].
  - rewrite fmap_cons in Hn. apply NoDup_cons in Hn as [Hk Hn]. cbn [vu_PubKey] in Hk.
    destruct (Hu _ (list_elem_of_here _ _)) as [Hp H0]. cbn [vu_PubKey vu_Power] in Hp, H0.
    set (t1 := if p =? 0 then delete k t else <[k := p]> t).
    assert (Hstep : engine_step (Some t) (MkValidatorUpdate k p) = Some t1).
    { unfold engine_step, t1. cbn [vu_PubKey vu_Power].
      rewrite (proj2 (Z.ltb_ge _ _) Hp). destruct (p =? 0) eqn:E; [|done].
      zbool. by destruct (H0 E) as [q ->]. }
    assert (Hne : forall s, s <> k -> t1 !! s = t !! s).
    { intros s Hs. unfold t1. case_match; [by apply lookup_delete_ne|by apply lookup_insert_ne]. }
    destruct (IH t1 Hn) as (t' & Hf & H1 & H2).
    { intros u Hin. destruct (Hu u (list_elem_of_further _ _ _ Hin)) as [Ha Hb].
      split; [done|]. rewrite Hne; [done|]. intros Heq. apply Hk. rewrite <- Heq.
      by apply list_elem_of_fmap_2. }
    exists t'. cbn [fold_left]. rewrite Hstep. split; [done|]. split.
    + intros u Hin. apply elem_of_cons in Hin as [->|Hin]; [|by apply H1]. cbn [vu_PubKey vu_Power].
      rewrite H2 by done. unfold t1, power_entry.
      case_match; [apply lookup_delete_eq|apply lookup_insert_eq].
    + intros s Hs. rewrite fmap_cons in Hs. apply not_elem_of_cons in Hs as [Hs1 Hs2].
      rewrite H2 by done. by apply Hne.
Qed.

(** ** Theorems *)

(** C2: for every roster, the announced powers after a block are exactly
    [next_power]: a bonded member is never raised, a newcomer gets 1 while
    anybody has power, a member that is gone gets 0. The emitted list is
    exactly the set of changes for 32-byte keys, without duplicates, and the
    roster itself is untouched. *)
Theorem ValidatorUpdates_spec m rows period :
  roster_rel m rows -> rows <> [] -> powers_ok m ->
  let '(m', ups) := ValidatorUpdates period m in
  (forall s, lastPower m' s = next_power rows (power_sum m rows) (lastPower m s) s) /\
  (forall s p, MkValidatorUpdate s p ∈ ups <->
               blen s = 32 /\ p = lastPower m' s /\ p <> lastPower m s) /\
  NoDup (vu_PubKey <$> ups) /\ roster_rel m' rows /\ powers_ok m'.
Proof.
  intros Hrel Hne Hok. pose proof (ValidatorUpdates_facts m rows period Hrel Hne Hok) as H.
  pose proof (ValidatorUpdates_rel m rows period Hrel Hne Hok) as H'.
  destruct (ValidatorUpdates period m) as [m' ups]. tauto.
Qed.

Lemma ValidatorUpdates_accepted_lemma m rows period t :
  roster_rel m rows -> rows <> [] -> powers_ok m -> engine_agrees t m ->
  exists t', engine_apply (ValidatorUpdates period m).2 t = Some t' /\
             engine_agrees t' (ValidatorUpdates period m).1.
Proof.
  intros Hrel Hne Hok Ht. pose proof (ValidatorUpdates_facts m rows period Hrel Hne Hok) as H.
  pose proof (proj2 (ValidatorUpdates_rel m rows period Hrel Hne Hok)) as Hok'.
  destruct (ValidatorUpdates period m) as [m' ups]. cbn [fst snd] in *.
  destruct H as (_ & Hups & Hnd & _).
  destruct (engine_fold ups t Hnd) as (t' & Hf & H1 & H2).
  { intros [s p] Hin. apply Hups in Hin as (Hs & -> & Hneq). cbn [vu_Power vu_PubKey].
    split; [apply Hok'|]. intros H0. rewrite Ht, Hs, H0 in *. cbn [Z.eqb Pos.eqb andb].
    rewrite (proj2 (Z.eqb_neq _ _)) by done. done. }
  exists t'. unfold engine_apply. rewrite decide_True by done. split; [done|].
  intros s. destruct (decide (s ∈ vu_PubKey <$> ups)) as [Hin|Hni].
  - apply list_elem_of_fmap in Hin as ([s' p] & -> & Hin). rewrite (H1 _ Hin).
    apply Hups in Hin as (Hs & -> & _). cbn [vu_Power vu_PubKey]. rewrite Hs. unfold power_entry.
    cbn [Z.eqb Pos.eqb andb]. by destruct (_ =? 0).
  - rewrite H2, Ht by done. destruct (blen s =? 32) eqn:Hs; [|done]. cbn [andb]. zbool.
    assert (Heq : lastPower m' s = lastPower m s); [|by rewrite Heq].
    destruct (decide (lastPower m' s = lastPower m s)) as [|Hd]; [done|]. exfalso. apply Hni.
    apply list_elem_of_fmap. exists (MkValidatorUpdate s (lastPower m' s)). split; [done|].
    by apply Hups.
Qed.


(** ** Membership requests as roster operations *)

Inductive roster_op :=
| OpAdmit (s : bytes) (w : Z)
| OpLeave (s : bytes).

Definition roster_step (rows : list row) (o : roster_op) : list row :=
  match o with
  | OpAdmit s w => roster_admit s w rows
  | OpLeave s => roster_leave s rows
  end.
Definition roster_run (ops : list roster_op) (rows : list row) : list row :=
  fold_left roster_step ops rows.

Lemma length_row_allocate s rows : (length rows <= length (row_allocate s rows) <= length rows + 1)%nat.
Proof. unfold row_allocate. destruct (row_find s rows); [|rewrite length_app; cbn]; lia. Qed.

Lemma length_roster_step rows o : (length rows <= length (roster_step rows o) <= length rows + 1)%nat.
Proof.
  destruct o as [s w|s]; cbn [roster_step].
  - pose proof (length_row_allocate s rows). unfold roster_admit. cbv zeta.
    destruct (0 <? w); [|done]. destruct (row_find _ _); [rewrite length_alter|]; done.
  - unfold roster_leave. destruct (row_find _ _); [rewrite length_alter|]; lia.
Qed.

Lemma AcceptProof_rel m rows period s w :
  roster_rel m rows -> has_room rows -> roster_rel (AcceptProof period s w m) (roster_admit s w rows).
Proof.
  intros Hrel Hroom. unfold AcceptProof. apply admitMember_rel; [|done].
  apply roster_rel_Set_other; [vm_compute; set_solver|done].
Qed.

Lemma ApplyJoin_rel m rows b :
  roster_rel m rows -> has_room rows ->
  match ApplyJoin b m with
  | (m', Ok _) => ValidateJoin b = Ok tt /\
                  roster_rel m' (roster_step rows (OpAdmit (join_Subject b) (join_Weight b)))
  | (m', Err e) => ValidateJoin b = Err e /\ m' = m
  end.
Proof.
  intros Hrel Hroom. unfold ApplyJoin. destruct (ValidateJoin b) as [[]|e]; [|done].
  split; [done|]. apply AcceptProof_rel; [|done].
  apply roster_rel_Set_other; [vm_compute; set_solver|done].
Qed.

Lemma ApplyLeave_rel m rows b :
  roster_rel m rows ->
  match ApplyLeave b m with
  | (m', Ok _) => ValidateLeave b = Ok tt /\ roster_rel m' (roster_step rows (OpLeave (leave_Subject b)))
  | (m', Err e) => ValidateLeave b = Err e /\ m' = m
  end.
Proof.
  intros Hrel. unfold ApplyLeave. destruct (ValidateLeave b) as [[]|e]; [|done].
  split; [done|]. apply leave_rel.
  apply roster_rel_Delete_other; [vm_compute; set_solver|].
  apply roster_rel_Set_other; [vm_compute; set_solver|done].
Qed.

(** The operations a list of transactions asks for, up to the first request
    that does not validate; other transactions are skipped. *)
Fixpoint membership_ops (txs : list bytes) : list roster_op :=
  match txs with
  | [] => []
  | tx :: txs' =>
      match DecodeJoin tx with
      | Some j => if is_ok (ValidateJoin j)
                  then OpAdmit (join_Subject j) (join_Weight j) :: membership_ops txs' else []
      | None =>
          match DecodeLeave tx with
          | Some l => if is_ok (ValidateLeave l)
                      then OpLeave (leave_Subject l) :: membership_ops txs' else []
          | None => membership_ops txs'
          end
      end
  end.

Definition membership_valid (tx : bytes) : bool :=
  match DecodeJoin tx, DecodeLeave tx with
  | Some j, _ => is_ok (ValidateJoin j)
  | None, Some l => is_ok (ValidateLeave l)
  | None, None => true
  end.

(** Processing a list of membership transactions implements the abstract
    roster: joins admit, leaves retire, in order, stopping at the first
    request that does not validate; it reports success exactly when every
    JOIN and LEAV of the list validates. *)
Theorem ProcessMembershipTxs_refines txs m rows :
  roster_rel m rows -> Z.of_nat (length rows + length txs) < 2 ^ 32 ->
  let '(m', r) := ProcessMembershipTxs txs m in
  roster_rel m' (roster_run (membership_ops txs) rows) /\ is_ok r = forallb membership_valid txs.
Proof.
  revert m rows. induction txs as [|tx txs IH]; intros m rows Hrel Hb; [done|].
  cbn [length] in Hb. assert (Hroom : has_room rows) by (unfold has_room; lia).
  cbn [ProcessMembershipTxs membership_ops forallb]. unfold membership_valid at 1.
  destruct (DecodeJoin tx) as [j|].
  - pose proof (ApplyJoin_rel m rows j Hrel Hroom) as H.
    destruct (ApplyJoin j m) as [m1 [u|e]]; destruct H as [Hv H]; rewrite Hv; cbn [is_ok andb].
    + apply IH; [done|]. pose proof (length_roster_step rows (OpAdmit (join_Subject j) (join_Weight j))).
      lia.
    + subst m1. done.
  - destruct (DecodeLeave tx) as [l|]; [|apply IH; [done|lia]].
    pose proof (ApplyLeave_rel m rows l Hrel) as H.
    destruct (ApplyLeave l m) as [m1 [u|e]]; destruct H as [Hv H]; rewrite Hv; cbn [is_ok andb].
    + apply IH; [done|]. pose proof (length_roster_step rows (OpLeave (leave_Subject l))). lia.
    + subst m1. done.
Qed.

(** A member that left and is admitted again has its bit set but keeps
    balance 0 whatever weight it asks for: an admission never overwrites a
    balance, and leaving wrote one. *)
Theorem readmission_keeps_zero_balance m rows s w i :
  roster_rel m rows -> has_room rows -> row_find s rows = Some i -> 0 < w ->
  let m' := (admitMember s w
               (SetEB (Z.of_nat i) Byte.x00 (BitClear (Z.of_nat i) m))).1 in
  BitIsSet m' (Z.of_nat i) = true /\ EBOf m' (Z.of_nat i) = Byte.x00.
Proof.
  intros Hrel Hroom Hi Hw m'. pose proof (leave_rel m rows s Hrel) as H1.
  rewrite (depositIndexOf_rel m rows Hrel), Hi in H1. cbn [fmap option_fmap option_map] in H1.
  pose proof (row_find_is_Some _ _ _ (rr_nodup _ _ Hrel) Hi) as [r Hr].
  pose proof (lookup_lt_Some _ _ _ Hr) as Hlt. pose proof (rr_bound _ _ Hrel) as Hb.
  unfold roster_leave in H1. rewrite Hi in H1.
  assert (Hroom' : has_room (alter row_retire i rows)) by (unfold has_room; by rewrite length_alter).
  destruct (admitMember_rel _ _ s w H1 Hroom') as [H2 _]. fold m' in H2.
  assert (Hf : row_find s (alter row_retire i rows) = Some i).
  { apply row_find_Some; [apply H1|]. apply row_find_Some in Hi; [|apply Hrel].
    rewrite list_lookup_fmap, list_lookup_alter_eq, Hr. rewrite list_lookup_fmap, Hr in Hi. done. }
  unfold roster_admit, row_allocate in H2. rewrite Hf in H2.
  rewrite (proj2 (Z.ltb_lt 0 w) Hw), Hf in H2.
  rewrite (rr_bit _ _ H2), (EBOf_rel _ _ H2) by lia. rewrite Nat2Z.id.
  rewrite !list_lookup_alter_eq, Hr. done.
Qed.

(** ** Witnesses *)

Definition w_key (n : Z) : bytes := replicate 32 (byte_of_Z n).
Definition w_val1 : store := (admitMember (w_key 1) 10 NewMemStore).1.
Definition w_val2 : store := (admitMember (w_key 2) 7 w_val1).1.
Definition w_vrows : list row :=
  [MkRow (w_key 1) true (Some (byte_of_Z 10)); MkRow (w_key 2) true (Some (byte_of_Z 7))].

Lemma w_vrel : roster_rel w_val2 w_vrows.
Proof.
  apply (admitMember_rel w_val1 [MkRow (w_key 1) true (Some (byte_of_Z 10))] (w_key 2) 7);
    [|by vm_compute].
  apply (admitMember_rel NewMemStore [] (w_key 1) 10); [apply roster_rel_empty|done].
Qed.
Lemma w_no_power s : lastPower w_val2 s = 0.
Proof.
  unfold lastPower, store_Get, w_val2, w_val1. rewrite !admitMember_frame by apply LastPower_head.
  unfold NewMemStore. by rewrite lookup_empty.
Qed.
Lemma w_powers_ok : powers_ok w_val2.
Proof. intros s. rewrite w_no_power. lia. Qed.

Lemma BondedSetOrCarry_carries_witness :
  let m := PutSubject 0 (str "alice") 5 NewMemStore in
  (BondedSetOrCarry 2 m).2 = [MkSubjectPower (str "alice") 0 false] /\ BondedSet m 0 <> [].
Proof.
  intros m. assert (Hne : BondedSet m 0 <> []) by by vm_compute. split; [|done].
  pose proof (BondedSetOrCarry_carries m 2 0 0 ltac:(by split) ltac:(by split) ltac:(by vm_compute) Hne
    ltac:(intros r Hr; assert (r = 1) as -> by lia; by vm_compute) ltac:(by split) ltac:(by vm_compute))
    as H.
  destruct (BondedSetOrCarry 2 m) as [m' set]. destruct H as [-> _]. by vm_compute.
Defined.

Lemma ValidatorUpdates_spec_witness :
  lastPower (ValidatorUpdates 0 w_val2).1 (w_key 1) = 10 /\
  MkValidatorUpdate (w_key 2) 7 ∈ (ValidatorUpdates 0 w_val2).2.
Proof.
  pose proof (ValidatorUpdates_spec w_val2 w_vrows 0 w_vrel ltac:(done) w_powers_ok) as H.
  destruct (ValidatorUpdates 0 w_val2) as [m' ups]. cbn [fst snd].
  destruct H as (H1 & H2 & _).
  assert (Hs : power_sum w_val2 w_vrows = 0)
    by (unfold power_sum; induction (members w_vrows) as [|r l IH];
        [done|cbn [foldr]; rewrite w_no_power; exact IH]).
  split; [by rewrite H1, w_no_power, Hs|]. apply H2.
  rewrite H1, w_no_power, Hs. by vm_compute.
Defined.


Lemma ProcessMembershipTxs_refines_witness :
  let txs := [EncodeJoin (MkJoinBlob 0 (str "alice") 10 []); EncodeLeave (MkLeaveBlob 0 (str "alice"))] in
  roster_rel (ProcessMembershipTxs txs NewMemStore).1 [MkRow (str "alice") false (Some Byte.x00)].
Proof.
  intros txs. pose proof (ProcessMembershipTxs_refines txs NewMemStore [] roster_rel_empty
    ltac:(by vm_compute)) as H.
  destruct (ProcessMembershipTxs txs NewMemStore) as [m' r]. destruct H as [H _]. exact H.
Defined.

Lemma readmission_keeps_zero_balance_witness :
  EBOf (admitMember (str "alice") 99 (SetEB 0 Byte.x00 (BitClear 0 w_store2))).1 0 = Byte.x00.
Proof.
  exact (proj2 (readmission_keeps_zero_balance w_store2 w_rows2 (str "alice") 99 0 w_rel2
    ltac:(by vm_compute) ltac:(by vm_compute) ltac:(lia))).
Defined.
