(* ===== verification/LvPairs.v ===== *)
(** * x/leanval/types/pairs.go: the store-query wire format

    [DecodeBondedSubspace], [DecodeSubspacePairs] and the hand-written
    protobuf reader below them. Lengths are read as [uint64] and converted to
    [int], so the conversions and the sums wrap; a slice expression with bad
    bounds panics, which is the error [PairPanic] here. [EFuel] would be a
    loop that does not end; the last section shows it is never returned. *)

From S2P Require Import Prelude Sha256 KVStore LvTypes LvCodec LvMerkle LvBitfield LvPower.

#[local] Open Scope go_scope.

(** ** Definitions *)

Inductive pair_error :=
| EBadTag | EExpectedPairs (fn wt : Z) | EBadPairLen | EPairOverflow
| EBadPairTag | ENotBytes (fn : Z) | EFieldOverflow | PairPanic | EFuel.

(** The loop of [consumeVarintBytes]: a Go shift of 64 or more gives 0. *)
Fixpoint varint_loop (i s x : Z) (b : bytes) : Z * Z :=
  match b with
  | [] => (0, 0)
  | c :: b' =>
      if byte_val c <? 128 then (Z.lor x (u64 (Z.shiftl (byte_val c) s)), i + 1)
      else
        let x := Z.lor x (u64 (Z.shiftl (Z.land (byte_val c) 127) s)) in
        if 9 <? i then (0, 0) else varint_loop (i + 1) (s + 7) x b'
  end.
Definition consumeVarintBytes (b : bytes) : Z * Z := varint_loop 0 0 0 b.

Record rawKV := MkRawKV { kv_key : bytes; kv_value : bytes }.

(** [rest[0 : int(ln)]] where [rest] starts at index [i] of a slice of length
    [len], after the test [i + off + int(ln) > len] has been passed. *)
Definition sub_slice (ln : Z) (rest : bytes) : result pair_error bytes :=
  if (i64 ln <? 0) || (blen rest <? i64 ln) then Err PairPanic else Ok (slice_to (i64 ln) rest).

(** [decodePair]: [i] is the index reached, [rest] the bytes from there. *)
Fixpoint decodePair_loop (fuel : nat) (len i : Z) (rest : bytes) (p : rawKV)
  : result pair_error rawKV :=
  match fuel with
  | O => if i <? len then Err EFuel else Ok p
  | S fuel' =>
      if negb (i <? len) then Ok p
      else
        let '(tag, n) := consumeVarintBytes rest in
        check! guard (n <=? 0) EBadPairTag;
        let i := i + n in
        let rest := slice_from n rest in
        let fn := i64 (Z.shiftr tag 3) in
        let wt := Z.land tag 7 in
        check! guard (negb (wt =? 2)) (ENotBytes fn);
        let '(ln, n) := consumeVarintBytes rest in
        check! guard ((n <=? 0) || (len <? i64 (i + n + i64 ln))) EFieldOverflow;
        let i := i + n in
        let rest := slice_from n rest in
        try! val <- sub_slice ln rest;
        let p := if fn =? 1 then MkRawKV val (kv_value p)
                 else if fn =? 2 then MkRawKV (kv_key p) val else p in
        decodePair_loop fuel' len (i + i64 ln) (slice_from (i64 ln) rest) p
  end.
Definition decodePair (bz : bytes) : result pair_error rawKV :=
  decodePair_loop (length bz) (blen bz) 0 bz (MkRawKV [] []).

Fixpoint decodeKVPairs_loop (fuel : nat) (len i : Z) (rest : bytes) (out : list rawKV)
  : result pair_error (list rawKV) :=
  match fuel with
  | O => if i <? len then Err EFuel else Ok out
  | S fuel' =>
      if negb (i <? len) then Ok out
      else
        let '(tag, n) := consumeVarintBytes rest in
        check! guard (n <=? 0) EBadTag;
        let i := i + n in
        let rest := slice_from n rest in
        let fn := i64 (Z.shiftr tag 3) in
        let wt := Z.land tag 7 in
        check! guard (negb (fn =? 1) || negb (wt =? 2)) (EExpectedPairs fn wt);
        let '(ln, n) := consumeVarintBytes rest in
        check! guard (n <=? 0) EBadPairLen;
        let i := i + n in
        let rest := slice_from n rest in
        check! guard (len <? i64 (i + i64 ln)) EPairOverflow;
        try! body <- sub_slice ln rest;
        try! p <- decodePair body;
        decodeKVPairs_loop fuel' len (i + i64 ln) (slice_from (i64 ln) rest) (out ++ [p])
  end.
Definition decodeKVPairs (bz : bytes) : result pair_error (list rawKV) :=
  decodeKVPairs_loop (length bz) (blen bz) 0 bz [].

(** [DecodeSubspacePairs] copies the pairs into another struct. *)
Definition DecodeSubspacePairs (bz : bytes) : result pair_error (list rawKV) := decodeKVPairs bz.

Record BondedSetRow := MkBondedSetRow { bs_Subject : bytes; bs_Weight : Z; bs_HasProof : bool }.

Definition bonded_set_row (pref : bytes) (p : rawKV) : option BondedSetRow :=
  if blen (kv_key p) <? blen pref then None
  else
    let subj := slice_from (blen pref) (kv_key p) in
    if 9 <=? blen (kv_value p) then
      let has := bool_decide (byte_at (kv_value p) 0 = Byte.x01) in
      Some (MkBondedSetRow subj (if has then GetI64 (slice 1 9 (kv_value p)) else 0) has)
    else Some (MkBondedSetRow subj 0 false).

Definition DecodeBondedSubspace (period : Z) (bz : bytes) : result pair_error (list BondedSetRow) :=
  if blen bz =? 0 then Ok []
  else try! pairs <- decodeKVPairs bz;
       Ok (omap (bonded_set_row (BondedPrefixForPeriod period)) pairs).

(** [appendUvarint]: at most ten bytes for a uint64. *)
Fixpoint uvarint (fuel : nat) (x : Z) : bytes :=
  match fuel with
  | O => []
  | S fuel' =>
      if 128 <=? x then byte_of_Z (Z.lor (x mod 256) 128) :: uvarint fuel' (Z.shiftr x 7)
      else [byte_of_Z x]
  end.
Definition appendUvarint (b : bytes) (x : Z) : bytes := b ++ uvarint 10 x.

Definition protoBytes (fn : Z) (v : bytes) : bytes :=
  let tag := appendUvarint [] (Z.lor (Z.shiftl fn 3) 2) in
  let tag := appendUvarint tag (blen v) in
  tag ++ v.

Definition encode_pair (p : rawKV) : bytes := protoBytes 1 (kv_key p) ++ protoBytes 2 (kv_value p).
Definition encodeKVPairs (pairs : list rawKV) : bytes :=
  concat (map (fun p => protoBytes 1 (encode_pair p)) pairs).

(** [CountSetBits]: the loop [for b != 0 { n++; b &= b - 1 }] on one byte,
    which ends within eight rounds. *)
Fixpoint kernighan (fuel : nat) (b : Z) : Z :=
  match fuel with
  | O => 0
  | S fuel' => if b =? 0 then 0 else 1 + kernighan fuel' (Z.land b (b - 1))
  end.
Definition CountSetBits (bf : bytes) : Z :=
  foldr (fun b n => kernighan 8 (byte_val b) + n) 0 bf.

(** ** Varints *)

Lemma land_127 x : Z.land x 127 = x mod 128.
Proof. change 127 with (Z.ones 7). by rewrite Z.land_ones. Qed.

Lemma lor_128 b : Z.lor (byte_val b) 128 = 128 + byte_val b mod 128.
Proof. by destruct b. Qed.

Lemma uvarint_byte x : byte_val (byte_of_Z (Z.lor (x mod 256) 128)) = 128 + x mod 128.
Proof.
  rewrite <- (byte_val_of_Z x), lor_128, !byte_val_of_Z.
  replace (x mod 256 mod 128) with (x mod 128).
  - pose proof (Z.mod_pos_bound x 128 ltac:(lia)). by rewrite Z.mod_small by lia.
  - rewrite (Z.mod_eq x 256), (Z.mod_eq x 128) by lia.
    replace (x - 256 * (x / 256)) with (x + (- 2 * (x / 256)) * 128) by lia.
    rewrite Z.mod_add by lia. by rewrite Z.mod_eq by lia.
Qed.

Lemma lor_add_shift a b s : 0 <= s -> 0 <= a < 2 ^ s -> 0 <= b -> Z.lor a (Z.shiftl b s) = a + b * 2 ^ s.
Proof.
  intros Hs Ha Hb. rewrite Z.shiftl_mul_pow2 by lia.
  rewrite <- Z.lxor_lor, <- Z.add_nocarry_lxor; try reflexivity;
    apply Z.bits_inj'; intros n Hn; rewrite Z.land_spec, Z.bits_0;
    (destruct (Z.lt_ge_cases n s);
     [rewrite (Z.mul_pow2_bits_low b) by lia; apply andb_false_r
     |rewrite (testbit_high a s n) by lia; reflexivity]).
Qed.

Lemma length_uvarint_pos fuel x : (0 < fuel)%nat -> (0 < length (uvarint fuel x))%nat.
Proof. destruct fuel; [lia|]. cbn. destruct (128 <=? x); cbn; lia. Qed.

Lemma varint_loop_uvarint fuel i s acc x tl :
  0 <= x < 2 ^ (7 * Z.of_nat fuel) -> 0 <= s -> 0 <= acc < 2 ^ s -> x * 2 ^ s < 2 ^ 64 ->
  (0 < fuel)%nat -> 0 <= i -> i + Z.of_nat fuel <= 10 ->
  varint_loop i s acc (uvarint fuel x ++ tl) = (acc + x * 2 ^ s, i + blen (uvarint fuel x)).
Proof.
  revert i s acc x. induction fuel as [|fuel IH]; intros i s acc x Hx Hs Ha Hb Hf Hi Hif; [lia|].
  assert (Hp : 0 < 2 ^ s) by (apply Z.pow_pos_nonneg; lia).
  cbn [uvarint]. destruct (128 <=? x) eqn:E; zbool; cbn [app varint_loop].
  - rewrite uvarint_byte. pose proof (Z.mod_pos_bound x 128 ltac:(lia)) as Hm.
    rewrite (proj2 (Z.ltb_ge (128 + x mod 128) 128)) by lia.
    rewrite land_127. replace ((128 + x mod 128) mod 128) with (x mod 128)
      by (rewrite <- (Z.mul_1_l 128) at 2; rewrite Z.add_comm, Z.mod_add, Z.mod_mod by lia; done).
    assert (Hle : x mod 128 * 2 ^ s <= x * 2 ^ s)
      by (apply Z.mul_le_mono_nonneg_r; [lia|apply Z.mod_le; lia]).
    rewrite u64_id by (split; [apply Z.shiftl_nonneg; lia|rewrite Z.shiftl_mul_pow2 by lia; lia]).
    rewrite lor_add_shift by lia.
    destruct (9 <? i) eqn:E9; zbool; [lia|].
    destruct fuel as [|fuel]; [change (2 ^ (7 * Z.of_nat 1)) with 128 in Hx; lia|].
    assert (H7 : 2 ^ (s + 7) = 128 * 2 ^ s) by (rewrite Z.pow_add_r by lia; lia).
    rewrite Z.shiftr_div_pow2 by lia. change (2 ^ 7) with 128.
    pose proof (Z.div_mod x 128 ltac:(lia)) as Hdm.
    rewrite IH; [| | | | |lia|lia|lia].
    + f_equal; [rewrite H7; nia|rewrite blen_cons; lia].
    + split; [apply Z.div_pos; lia|]. apply Z.div_lt_upper_bound; [lia|].
      change 128 with (2 ^ 7). rewrite <- Z.pow_add_r by lia.
      replace (7 + 7 * Z.of_nat (S fuel)) with (7 * Z.of_nat (S (S fuel))) by lia. lia.
    + lia.
    + rewrite H7. nia.
    + rewrite H7. nia.
  - rewrite byte_val_of_Z, Z.mod_small by lia. rewrite (proj2 (Z.ltb_lt x 128)) by lia.
    rewrite u64_id by (split; [apply Z.shiftl_nonneg; lia|rewrite Z.shiftl_mul_pow2 by lia; lia]).
    by rewrite lor_add_shift by lia.
Qed.

Lemma consume_uvarint x tl :
  is_u64 x -> consumeVarintBytes (uvarint 10 x ++ tl) = (x, blen (uvarint 10 x)).
Proof.
  intros Hx. unfold consumeVarintBytes. rewrite varint_loop_uvarint.
  - f_equal; lia.
  - split; [apply Hx|]. apply Z.lt_trans with (2 ^ 64); [apply Hx|by vm_compute].
  - lia.
  - by vm_compute.
  - rewrite Z.mul_1_r. apply Hx.
  - lia.
  - lia.
  - by vm_compute.
Qed.

(** A varint that is read takes at least one byte and no more than there are. *)
Lemma varint_loop_bound i s x b :
  0 <= i -> let n := (varint_loop i s x b).2 in n = 0 \/ i < n <= i + blen b.
Proof.
  revert i s x. induction b as [|c b IH]; intros i s x Hi; cbn [varint_loop snd]; [by left|].
  rewrite blen_cons. pose proof (blen_nonneg b).
  destruct (_ <? 128); cbn [snd]; [right; lia|]. cbv zeta.
  destruct (9 <? i); [by left|]. destruct (IH (i + 1) (s + 7)
    (Z.lor x (u64 (Z.shiftl (Z.land (byte_val c) 127) s))) ltac:(lia)) as [H0|H0]; [by left|right; lia].
Qed.

Lemma blen_uvarint_pos x : 1 <= blen (uvarint 10 x).
Proof. pose proof (length_uvarint_pos 10 x ltac:(lia)). unfold blen. lia. Qed.

(** ** Reading back one field *)

Definition put_field (fn : Z) (v : bytes) (p : rawKV) : rawKV :=
  if fn =? 1 then MkRawKV v (kv_value p) else if fn =? 2 then MkRawKV (kv_key p) v else p.

Lemma protoBytes_split fn v tl :
  protoBytes fn v ++ tl =
  uvarint 10 (Z.lor (Z.shiftl fn 3) 2) ++ uvarint 10 (blen v) ++ v ++ tl.
Proof. unfold protoBytes, appendUvarint. cbv zeta. cbn [app]. by rewrite <- !app_assoc. Qed.
Lemma blen_protoBytes fn v :
  blen (protoBytes fn v) =
  blen (uvarint 10 (Z.lor (Z.shiftl fn 3) 2)) + blen (uvarint 10 (blen v)) + blen v.
Proof.
  rewrite <- (app_nil_r (protoBytes fn v)), protoBytes_split, app_nil_r, !blen_app. lia.
Qed.

(** Bytes small enough that no index overflows. *)
Definition short (b : bytes) : Prop := blen b < 2 ^ 62.

Lemma short_len b : short b -> is_u64 (blen b) /\ i64 (blen b) = blen b.
Proof.
  unfold short. intros H. pose proof (blen_nonneg b).
  split; [unfold is_u64; lia|apply i64_id; unfold is_i64; lia].
Qed.

Lemma sub_slice_app v tl : short v -> sub_slice (blen v) (v ++ tl) = Ok v.
Proof.
  intros Hv. unfold sub_slice. destruct (short_len v Hv) as [_ ->].
  rewrite blen_app. pose proof (blen_nonneg v). pose proof (blen_nonneg tl).
  rewrite (proj2 (Z.ltb_ge (blen v) 0)), (proj2 (Z.ltb_ge (blen v + blen tl) (blen v))) by lia.
  cbn [orb]. by rewrite slice_to_app.
Qed.

Section Field.
Context (fn : Z) (Hfn : fn = 1 \/ fn = 2).

Lemma tag_facts :
  let tag := Z.lor (Z.shiftl fn 3) 2 in
  is_u64 tag /\ i64 (Z.shiftr tag 3) = fn /\ Z.land tag 7 = 2.
Proof. destruct Hfn as [->| ->]; by vm_compute. Qed.

Lemma decodePair_field fuel len i v tl p :
  0 <= i -> i + blen (protoBytes fn v ++ tl) = len -> len < 2 ^ 62 ->
  decodePair_loop (S fuel) len i (protoBytes fn v ++ tl) p =
  decodePair_loop fuel len (i + blen (protoBytes fn v)) tl (put_field fn v p).
Proof.
  intros Hi Hlen Hmax. destruct tag_facts as (Ht & Hf & Hw).
  pose proof (blen_nonneg tl). pose proof (blen_nonneg v).
  pose proof (blen_uvarint_pos (Z.lor (Z.shiftl fn 3) 2)). pose proof (blen_uvarint_pos (blen v)).
  rewrite blen_app, blen_protoBytes in Hlen. rewrite protoBytes_split, blen_protoBytes.
  assert (Hv : short v) by (unfold short; lia). destruct (short_len v Hv) as [Hv1 Hv2].
  cbn [decodePair_loop]. rewrite (proj2 (Z.ltb_lt i len)) by lia. cbn [negb].
  rewrite consume_uvarint by done. rewrite (proj2 (Z.leb_gt _ 0)) by lia. cbn [guard rbind].
  rewrite slice_from_prefix, Hf, Hw. cbn [Z.eqb Pos.eqb negb guard rbind].
  rewrite consume_uvarint by done. rewrite (proj2 (Z.leb_gt _ 0)) by lia. cbn [orb].
  rewrite Hv2. rewrite i64_id by (unfold is_i64; lia).
  rewrite (proj2 (Z.ltb_ge len _)) by lia. cbn [guard rbind].
  rewrite slice_from_prefix, sub_slice_app by done. cbn [rbind]. rewrite slice_from_prefix.
  unfold put_field. f_equal; lia.
Qed.
End Field.

(** Enough fuel for [k] more rounds reads them. *)
Lemma decodePair_encode p :
  short (encode_pair p) -> decodePair (encode_pair p) = Ok p.
Proof.
  unfold short. intros Hs. unfold decodePair.
  assert (Hl : exists f, length (encode_pair p) = S (S f)).
  { unfold encode_pair. rewrite length_app. unfold protoBytes, appendUvarint. cbv zeta.
    rewrite !length_app. exists (length (encode_pair p) - 2)%nat.
    pose proof (length_uvarint_pos 10 (Z.lor (Z.shiftl 1 3) 2)) as H1.
    pose proof (length_uvarint_pos 10 (Z.lor (Z.shiftl 2 3) 2)) as H2.
    unfold encode_pair, protoBytes, appendUvarint. cbv zeta. rewrite !length_app. cbn [length].
    lia. }
  destruct Hl as [f ->]. unfold encode_pair in *.
  remember (blen (protoBytes 1 (kv_key p) ++ protoBytes 2 (kv_value p))) as len eqn:El.
  rewrite (decodePair_field 1 ltac:(auto)) by (done || lia).
  rewrite blen_app in El. rewrite <- (app_nil_r (protoBytes 2 (kv_value p))).
  pose proof (blen_nonneg (protoBytes 1 (kv_key p))).
  rewrite (decodePair_field 2 ltac:(auto)) by (rewrite ?app_nil_r; lia).
  destruct f; cbn [decodePair_loop]; (destruct (_ <? len) eqn:E; zbool; [lia|]); by destruct p.
Qed.

Lemma decodeKVPairs_encode pairs fuel len i out :
  0 <= i -> i + blen (encodeKVPairs pairs) = len -> len < 2 ^ 62 ->
  (length pairs <= fuel)%nat ->
  decodeKVPairs_loop fuel len i (encodeKVPairs pairs) out = Ok (out ++ pairs).
Proof.
  revert fuel i out. induction pairs as [|p pairs IH]; intros fuel i out Hi Hlen Hmax Hf.
  - change (blen (encodeKVPairs [])) with 0 in Hlen. rewrite app_nil_r.
    destruct fuel; cbn [decodeKVPairs_loop]; rewrite (proj2 (Z.ltb_ge i len)) by lia; done.
  - destruct fuel as [|fuel]; [cbn in Hf; lia|]. cbn [length] in Hf.
    change (encodeKVPairs (p :: pairs)) with (protoBytes 1 (encode_pair p) ++ encodeKVPairs pairs) in *.
    set (body := encode_pair p) in *. set (tl := encodeKVPairs pairs) in *.
    destruct (tag_facts 1 ltac:(auto)) as (Ht & Hfn & Hw).
    pose proof (blen_nonneg tl). pose proof (blen_nonneg body).
    pose proof (blen_uvarint_pos (Z.lor (Z.shiftl 1 3) 2)). pose proof (blen_uvarint_pos (blen body)).
    rewrite blen_app, blen_protoBytes in Hlen. rewrite protoBytes_split.
    assert (Hv : short body) by (unfold short; lia). destruct (short_len body Hv) as [Hv1 Hv2].
    cbn [decodeKVPairs_loop]. rewrite (proj2 (Z.ltb_lt i len)) by lia. cbn [negb].
    rewrite consume_uvarint by done. rewrite (proj2 (Z.leb_gt _ 0)) by lia. cbn [guard rbind].
    rewrite slice_from_prefix, Hfn, Hw. cbn [Z.eqb Pos.eqb negb orb guard rbind].
    rewrite consume_uvarint by done. rewrite (proj2 (Z.leb_gt _ 0)) by lia. cbn [guard rbind].
    rewrite Hv2. rewrite i64_id by (unfold is_i64; lia).
    rewrite (proj2 (Z.ltb_ge len _)) by lia. cbn [guard rbind].
    rewrite slice_from_prefix, sub_slice_app by done. cbn [rbind].
    pose proof (decodePair_encode p Hv) as Hd. fold body in Hd. rewrite Hd. cbn [rbind]. rewrite slice_from_prefix.
    unfold tl. rewrite IH by (try fold tl; lia). by rewrite <- app_assoc.
Qed.

(** The length of an encoding bounds the number of pairs. *)
Lemma length_encodeKVPairs pairs : (length pairs <= length (encodeKVPairs pairs))%nat.
Proof.
  induction pairs as [|p pairs IH]; [done|].
  change (encodeKVPairs (p :: pairs)) with (protoBytes 1 (encode_pair p) ++ encodeKVPairs pairs).
  rewrite length_app. cbn [length].
  pose proof (blen_protoBytes 1 (encode_pair p)). pose proof (blen_uvarint_pos (Z.lor (Z.shiftl 1 3) 2)).
  pose proof (blen_nonneg (uvarint 10 (blen (encode_pair p)))). pose proof (blen_nonneg (encode_pair p)).
  unfold blen in *. lia.
Qed.

(** ** The loops end *)

(** Reading a varint takes from the front of what is left. *)
Lemma consume_rest rest tag n :
  consumeVarintBytes rest = (tag, n) -> n <=? 0 = false ->
  1 <= n <= blen rest /\ blen (slice_from n rest) = blen rest - n.
Proof.
  intros H Hn. zbool. pose proof (varint_loop_bound 0 0 0 rest ltac:(lia)) as Hb.
  unfold consumeVarintBytes in H. rewrite H in Hb. cbn [snd] in Hb.
  split; [lia|]. unfold slice_from, blen in *. rewrite length_drop. lia.
Qed.
Lemma sub_slice_rest ln rest v :
  sub_slice ln rest = Ok v ->
  0 <= i64 ln <= blen rest /\ blen (slice_from (i64 ln) rest) = blen rest - i64 ln.
Proof.
  unfold sub_slice. destruct (_ || _) eqn:E; [done|]. intros _.
  apply orb_false_elim in E as [E1 E2]. zbool. split; [lia|].
  unfold slice_from, blen in *. rewrite length_drop. lia.
Qed.

Lemma decodePair_ends fuel len i rest p :
  i + blen rest = len -> blen rest <= Z.of_nat fuel ->
  decodePair_loop fuel len i rest p <> Err EFuel.
Proof.
  revert i rest p. induction fuel as [|fuel IH]; intros i rest p Hlen Hf; cbn [decodePair_loop].
  - pose proof (blen_nonneg rest). destruct (i <? len) eqn:E; zbool; [lia|done].
  - destruct (i <? len); cbn [negb]; [|done].
    destruct (consumeVarintBytes rest) as [tag n] eqn:E1.
    destruct (n <=? 0) eqn:En; cbn [guard rbind]; [done|].
    destruct (consume_rest _ _ _ E1 En) as [H1 H2].
    destruct (negb (Z.land tag 7 =? 2)); cbn [guard rbind]; [done|].
    destruct (consumeVarintBytes (slice_from n rest)) as [ln n2] eqn:E2.
    destruct (n2 <=? 0) eqn:En2; cbn [orb guard rbind]; [done|].
    destruct (consume_rest _ _ _ E2 En2) as [H3 H4].
    destruct (len <? _); cbn [guard rbind]; [done|].
    destruct (sub_slice ln (slice_from n2 (slice_from n rest))) as [val|e] eqn:E3; cbn [rbind].
    + destruct (sub_slice_rest _ _ _ E3) as [H5 H6]. apply IH; lia.
    + unfold sub_slice in E3. destruct (_ || _); [|done]. by injection E3 as <-.
Qed.

Lemma decodeKVPairs_ends fuel len i rest out :
  i + blen rest = len -> blen rest <= Z.of_nat fuel ->
  decodeKVPairs_loop fuel len i rest out <> Err EFuel.
Proof.
  revert i rest out. induction fuel as [|fuel IH]; intros i rest out Hlen Hf; cbn [decodeKVPairs_loop].
  - pose proof (blen_nonneg rest). destruct (i <? len) eqn:E; zbool; [lia|done].
  - destruct (i <? len); cbn [negb]; [|done].
    destruct (consumeVarintBytes rest) as [tag n] eqn:E1.
    destruct (n <=? 0) eqn:En; cbn [guard rbind]; [done|].
    destruct (consume_rest _ _ _ E1 En) as [H1 H2].
    destruct (negb _ || negb _); cbn [guard rbind]; [done|].
    destruct (consumeVarintBytes (slice_from n rest)) as [ln n2] eqn:E2.
    destruct (n2 <=? 0) eqn:En2; cbn [guard rbind]; [done|].
    destruct (consume_rest _ _ _ E2 En2) as [H3 H4].
    destruct (len <? _); cbn [guard rbind]; [done|].
    destruct (sub_slice ln (slice_from n2 (slice_from n rest))) as [val|e] eqn:E3; cbn [rbind].
    + destruct (sub_slice_rest _ _ _ E3) as [H5 H6].
      destruct (decodePair val) as [p|e] eqn:Ep; cbn [rbind]; [apply IH; lia|].
      intros [= ->]. revert Ep. apply decodePair_ends; [lia|]. unfold blen. lia.
    + unfold sub_slice in E3. destruct (_ || _); [|done]. by injection E3 as <-.
Qed.

(** ** Theorems *)

(** The reader returns on every input (its loops end), and it reads back
    exactly the pairs that were written, for every list of pairs whose encoding
    is shorter than 2^62 bytes. *)
Theorem decodeKVPairs_total_roundtrip bz pairs :
  decodeKVPairs bz <> Err EFuel /\
  (short (encodeKVPairs pairs) -> decodeKVPairs (encodeKVPairs pairs) = Ok pairs).
Proof.
  split; [apply decodeKVPairs_ends; [lia|unfold blen; lia]|]. intros Hs.
  unfold decodeKVPairs. apply decodeKVPairs_encode; [lia|lia|exact Hs|apply length_encodeKVPairs].
Qed.

(** A length above 2^63 passes the bounds test, because its conversion to int
    is negative, and the slice expression panics: eleven bytes are enough. *)
Definition crafted_pairs : bytes :=
  Byte.x0a :: replicate 9 Byte.xff ++ [Byte.x01].
Lemma decodeKVPairs_crafted_panic : decodeKVPairs crafted_pairs = Err PairPanic.
Proof. by vm_compute. Qed.

Definition popcount (b : Z) : Z :=
  Z.of_nat (length (filter (fun i => Z.testbit b (Z.of_nat i) = true) (seq 0 8))).

Lemma kernighan_popcount b : kernighan 8 (byte_val b) = popcount (byte_val b).
Proof. by destruct b; vm_compute. Qed.

(** The bit-clearing loop counts the set bits of the field. *)
Theorem CountSetBits_spec bf : CountSetBits bf = foldr Z.add 0 (map (fun b => popcount (byte_val b)) bf).
Proof.
  unfold CountSetBits. induction bf as [|b bf IH]; [done|]. cbn [foldr map].
  by rewrite IH, kernighan_popcount.
Qed.

(** ** The client's view and the keeper's *)

Definition view_row (x : SubjectPower) : BondedSetRow :=
  MkBondedSetRow (pw_Subject x) (pw_Weight x) (pw_HasProof x).
Definition raw_of (kv : bytes * bytes) : rawKV := MkRawKV kv.1 kv.2.

Lemma bonded_set_row_view p s v :
  bonded_set_row (BondedPrefixForPeriod p) (raw_of (BondedKey p s, v)) =
  Some (view_row (bonded_row (BondedPrefixForPeriod p) (BondedKey p s, v))).
Proof.
  rewrite bonded_row_eq. unfold bonded_set_row, row_of, decodeRec, raw_of. cbn [kv_key kv_value fst snd].
  assert (Hp : blen (BondedKey p s) <? blen (BondedPrefixForPeriod p) = false).
  { apply Z.ltb_ge. unfold BondedKey, BondedPrefixForPeriod. rewrite !blen_cons, blen_app.
    pose proof (blen_nonneg s). lia. }
  rewrite Hp. change (slice_from (blen (BondedPrefixForPeriod p)) (BondedKey p s)) with s.
  rewrite (Z.leb_antisym (blen v) 9). destruct (blen v <? 9); cbn [negb rec_accepted]; [done|].
  by destruct (bool_decide _).
Qed.

(** Rows under a period's prefix come out of the iterator in subject order. *)
Lemma BondedSet_iter m p :
  BondedSet m p = map (bonded_row (BondedPrefixForPeriod p)) (IteratePrefix m (BondedPrefixForPeriod p)).
Proof.
  unfold BondedSet. cbv zeta. set (l := map _ _).
  assert (Hn : NoDup (pw_Subject <$> merge_sort subject_le l)) by apply (NoDup_BondedSet m p).
  apply (sorted_by_key_unique pw_Subject); [apply (StronglySorted_merge_sort subject_le)| |done| |].
  - unfold l. clear Hn l. pose proof (Sorted_IteratePrefix m (BondedPrefixForPeriod p)) as Hs.
    assert (Hk : Forall (fun kv : bytes * bytes => exists s, kv.1 = BondedKey p s)
                   (IteratePrefix m (BondedPrefixForPeriod p))).
    { apply Forall_forall. intros [k v] Hin. apply elem_of_IteratePrefix in Hin as [_ Hp].
      by apply has_prefix_BondedPrefix in Hp. }
    induction Hs as [|[k v] kvs Hs IH Hf]; [constructor|].
    inversion Hk as [|? ? [s Hks] Hk']; subst. cbn [fst] in Hks. subst k. cbn [map].
    constructor; [by apply IH|]. apply Forall_forall. intros x Hx.
    apply list_elem_of_In, in_map_iff in Hx as ([k2 v2] & <- & Hin). apply list_elem_of_In in Hin.
    rewrite Forall_forall in Hf, Hk'. specialize (Hf _ Hin). destruct (Hk' _ Hin) as [s2 Hs2].
    cbn [fst] in Hs2. subst k2. rewrite !bonded_row_eq, !row_of_subject.
    unfold key_le in Hf. cbn [fst] in Hf. exact (proj1 (bytes_le_common (BondedPrefixForPeriod p) s s2) Hf).
  - rewrite <- (fmap_Permutation pw_Subject _ _ (merge_sort_Permutation subject_le l)). done.
  - intros x. by rewrite merge_sort_Permutation.
Qed.

(** The client's decoder, run on the wire form of a period's rows, gives
    exactly the bonded set the keeper computes, in the same order. *)
Theorem DecodeBondedSubspace_agrees m period :
  let wire := encodeKVPairs (map raw_of (IteratePrefix m (BondedPrefixForPeriod period))) in
  short wire -> DecodeBondedSubspace period wire = Ok (map view_row (BondedSet m period)).
Proof.
  intros wire Hs. rewrite BondedSet_iter, map_map. unfold DecodeBondedSubspace.
  assert (Hdec : decodeKVPairs wire = Ok (map raw_of (IteratePrefix m (BondedPrefixForPeriod period)))).
  { unfold decodeKVPairs, wire.
    rewrite decodeKVPairs_encode; [done|lia|lia|exact Hs|apply length_encodeKVPairs]. }
  rewrite Hdec. cbn [rbind].
  assert (Ho : omap (bonded_set_row (BondedPrefixForPeriod period))
    (map raw_of (IteratePrefix m (BondedPrefixForPeriod period))) =
    map (fun kv => view_row (bonded_row (BondedPrefixForPeriod period) kv))
      (IteratePrefix m (BondedPrefixForPeriod period))).
  { assert (Hk : Forall (fun kv : bytes * bytes => exists s, kv.1 = BondedKey period s)
                   (IteratePrefix m (BondedPrefixForPeriod period))).
    { apply Forall_forall. intros [k v] Hin. apply elem_of_IteratePrefix in Hin as [_ Hp].
      by apply has_prefix_BondedPrefix in Hp. }
    clear Hdec Hs wire. induction Hk as [|[k v] l [s Hks] Hk IH]; [done|].
    cbn [fst] in Hks. subst k. cbn [map omap list_omap]. rewrite bonded_set_row_view. by f_equal. }
  rewrite Ho. destruct (blen wire =? 0) eqn:E; [|done]. zbool.
  destruct (IteratePrefix m (BondedPrefixForPeriod period)) as [|kv l] eqn:El; [done|]. exfalso.
  pose proof (length_encodeKVPairs (map raw_of (kv :: l))) as Hl. fold wire in Hl.
  unfold blen in E. cbn [map length] in Hl. lia.
Qed.

(** ** Witnesses *)

Lemma decodeKVPairs_total_roundtrip_witness :
  decodeKVPairs (encodeKVPairs [MkRawKV (str "k") (replicate 200 Byte.x07)]) =
  Ok [MkRawKV (str "k") (replicate 200 Byte.x07)].
Proof. apply (decodeKVPairs_total_roundtrip []). by vm_compute. Defined.

Lemma DecodeBondedSubspace_agrees_witness :
  let m := PutSubject 3 (str "alice") 5 NewMemStore in
  DecodeBondedSubspace 3 (encodeKVPairs (map raw_of (IteratePrefix m (BondedPrefixForPeriod 3)))) =
  Ok [MkBondedSetRow (str "alice") 0 false].
Proof.
  intros m. pose proof (DecodeBondedSubspace_agrees m 3 ltac:(by vm_compute)) as H. rewrite H.
  by vm_compute.
Defined.
