(* ===== verification/LvKeeper.v ===== *)
(** * x/leanval/keeper: the keeper, membership queue and LNPR application

    [keeper.go], [bind.go], [genesis.go], [endblock.go], the verifying half of
    [power.go] and [membership.go]. The state is the keeper struct together
    with the process-wide variables it uses: the membership queue, the
    membership directory (file name to contents; writes to it are assumed to
    succeed) and the live period length. [k_store] is the store [live()]
    returns. Diagnostics (stderr, the [last-*] files) are not state. *)

From S2P Require Import Prelude Sha256 KVStore LvTypes LvCodec LvDummyStwo LvMerkle LvBitfield.
From S2P Require Import LvHost LvPower.

#[local] Open Scope go_scope.

(** ** State *)

Record Keeper := MkKeeper {
  k_store : store;
  k_Verifier : option Verifier;
  k_RequireLNPR : bool;
  k_AllowDummy : bool;
  k_ownsValset : bool;
  k_pending : list ValidatorUpdate;
  k_endPeriod : Z;
  k_hasKey : bool;
  k_gas : option Z;
  k_verifierAcc : bytes;
  k_leanZkID : Z;
  k_hasCtx : bool;
  k_pendingLNPR : option LNPRBlob;
  q_txs : list bytes;
  q_files : store;
  live_blocks : Z
}.

Definition with_store (m : store) (k : Keeper) : Keeper :=
  MkKeeper m (k_Verifier k) (k_RequireLNPR k) (k_AllowDummy k) (k_ownsValset k) (k_pending k)
    (k_endPeriod k) (k_hasKey k) (k_gas k) (k_verifierAcc k) (k_leanZkID k) (k_hasCtx k)
    (k_pendingLNPR k) (q_txs k) (q_files k) (live_blocks k).
Definition upd_store (f : store -> store) (k : Keeper) : Keeper := with_store (f (k_store k)) k.
Definition with_queue (txs : list bytes) (files : store) (k : Keeper) : Keeper :=
  MkKeeper (k_store k) (k_Verifier k) (k_RequireLNPR k) (k_AllowDummy k) (k_ownsValset k)
    (k_pending k) (k_endPeriod k) (k_hasKey k) (k_gas k) (k_verifierAcc k) (k_leanZkID k)
    (k_hasCtx k) (k_pendingLNPR k) txs files (live_blocks k).
Definition with_pending (u : list ValidatorUpdate) (k : Keeper) : Keeper :=
  MkKeeper (k_store k) (k_Verifier k) (k_RequireLNPR k) (k_AllowDummy k) (k_ownsValset k)
    u (k_endPeriod k) (k_hasKey k) (k_gas k) (k_verifierAcc k) (k_leanZkID k)
    (k_hasCtx k) (k_pendingLNPR k) (q_txs k) (q_files k) (live_blocks k).
Definition with_pendingLNPR (b : option LNPRBlob) (k : Keeper) : Keeper :=
  MkKeeper (k_store k) (k_Verifier k) (k_RequireLNPR k) (k_AllowDummy k) (k_ownsValset k)
    (k_pending k) (k_endPeriod k) (k_hasKey k) (k_gas k) (k_verifierAcc k) (k_leanZkID k)
    (k_hasCtx k) b (q_txs k) (q_files k) (live_blocks k).
Definition with_owns (b : bool) (k : Keeper) : Keeper :=
  MkKeeper (k_store k) (k_Verifier k) (k_RequireLNPR k) (k_AllowDummy k) b
    (k_pending k) (k_endPeriod k) (k_hasKey k) (k_gas k) (k_verifierAcc k) (k_leanZkID k)
    (k_hasCtx k) (k_pendingLNPR k) (q_txs k) (q_files k) (live_blocks k).
Definition with_gas (g : option Z) (k : Keeper) : Keeper :=
  MkKeeper (k_store k) (k_Verifier k) (k_RequireLNPR k) (k_AllowDummy k) (k_ownsValset k)
    (k_pending k) (k_endPeriod k) (k_hasKey k) g (k_verifierAcc k) (k_leanZkID k)
    (k_hasCtx k) (k_pendingLNPR k) (q_txs k) (q_files k) (live_blocks k).
Definition with_live (n : Z) (k : Keeper) : Keeper :=
  MkKeeper (k_store k) (k_Verifier k) (k_RequireLNPR k) (k_AllowDummy k) (k_ownsValset k)
    (k_pending k) (k_endPeriod k) (k_hasKey k) (k_gas k) (k_verifierAcc k) (k_leanZkID k)
    (k_hasCtx k) (k_pendingLNPR k) (q_txs k) (q_files k) n.

(** [SetModuleVerifier] of [wasm_sudo.go]. *)
Definition SetModuleVerifier (addr : bytes) (zkid : Z) (k : Keeper) : Keeper :=
  MkKeeper (k_store k) (k_Verifier k) (k_RequireLNPR k) (k_AllowDummy k) (k_ownsValset k)
    (k_pending k) (k_endPeriod k) (k_hasKey k) (k_gas k) addr
    (if zkid =? 0 then DefaultLeanZkID else zkid)
    (k_hasCtx k) (k_pendingLNPR k) (q_txs k) (q_files k) (live_blocks k).

Definition SetEndPeriod (p : Z) (k : Keeper) : Keeper :=
  MkKeeper (k_store k) (k_Verifier k) (k_RequireLNPR k) (k_AllowDummy k) (k_ownsValset k)
    (k_pending k) p (k_hasKey k) (k_gas k) (k_verifierAcc k) (k_leanZkID k)
    (k_hasCtx k) (k_pendingLNPR k) (q_txs k) (q_files k) (live_blocks k).
Definition SetStoreKey (k : Keeper) : Keeper :=
  MkKeeper (k_store k) (k_Verifier k) (k_RequireLNPR k) (k_AllowDummy k) (k_ownsValset k)
    (k_pending k) (k_endPeriod k) true (k_gas k) (k_verifierAcc k) (k_leanZkID k)
    (k_hasCtx k) (k_pendingLNPR k) (q_txs k) (q_files k) (live_blocks k).

(** [NewKeeper(store, v)]: [closed] says that LEAN_CONSENSUS names the
    Commonware engine. It empties the in-memory queue and keeps the files and
    the live period length of the process. *)
Definition NewKeeper (m : store) (v : option Verifier) (closed : bool) (files : store) (live : Z)
  : Keeper :=
  MkKeeper m (Some (default DummyStwoGo v)) true (negb closed) false [] 0 false None [] 0 false
    None [] files live.

Definition SetOwnsValset (v : bool) (k : Keeper) : Keeper :=
  upd_store (store_Set OwnsValsetKey [if v then Byte.x01 else Byte.x00]) (with_owns v k).

Definition OwnsValset (k : Keeper) : bool :=
  match store_Get (k_store k) OwnsValsetKey with
  | b :: _ => negb (bool_decide (b = Byte.x00))
  | [] => k_ownsValset k
  end.

Definition SetPendingUpdates (u : list ValidatorUpdate) (k : Keeper) : Keeper := with_pending u k.
Definition SetGasMeter (g : option Z) (k : Keeper) : Keeper := with_gas g k.

(** [BindContext]: with a store key the live store becomes the context's; the
    period length follows the stored parameter. *)
Definition BindContext (ctx_store : store) (k : Keeper) : Keeper :=
  let m := if k_hasKey k then ctx_store else k_store k in
  let v := store_Get m PeriodParamKey in
  let k := MkKeeper m (k_Verifier k) (k_RequireLNPR k) (k_AllowDummy k) (k_ownsValset k)
             (k_pending k) (k_endPeriod k) (k_hasKey k) (k_gas k) (k_verifierAcc k)
             (k_leanZkID k) true (k_pendingLNPR k) (q_txs k) (q_files k) (live_blocks k) in
  if 8 <=? blen v then with_live (SetBlocksPerPeriod (GetI64 v)) k else k.

(** ** Genesis and end of block *)

Definition genesis_subject (m : store) (s : GenesisSubject) : store :=
  if blen (gs_PubKey s) =? 0 then m
  else if 0 <? gs_Weight s then AcceptProof 0 (gs_PubKey s) (gs_Weight s) m
  else PutSubject 0 (gs_PubKey s) 0 m.

(** [None] is the panic on an invalid genesis. *)
Definition InitGenesis (gs : GenesisState) (k : Keeper) : option Keeper :=
  if negb (GenesisState_Validate gs) then None
  else
    let n := if g_BlocksPerPeriod gs <=? 0 then BlocksPerPeriod else g_BlocksPerPeriod gs in
    let k := upd_store (store_Set PeriodParamKey (PutI64 n)) k in
    let k := with_live (SetBlocksPerPeriod n) k in
    let k := SetOwnsValset (g_OwnsValset gs) k in
    let k := if 0 <? blen (g_VerifierAddr gs)
             then SetModuleVerifier (g_VerifierAddr gs) (g_LeanCodeID gs) k else k in
    let k := upd_store (fun m => fold_left genesis_subject (g_GenesisSubjects gs) m) k in
    Some (upd_store syncObjectRoots k).

Definition ExportGenesis (k : Keeper) : GenesisState :=
  MkGenesisState (OwnsValset k) [] 0
    (map (fun s => MkGenesisSubject (pw_Subject s) (pw_Weight s))
         (DebugSubjectsFromBits (k_store k)))
    (BlocksPerPeriodLive (live_blocks k)).

Definition EndBlock (k : Keeper) : Keeper * list ValidatorUpdate :=
  if negb (OwnsValset k) then (k, [])
  else match k_pending k with
       | [] => (k, [])
       | out => (with_pending [] k, out)
       end.

(** ** The membership queue *)

Definition membership_file_name (tx : bytes) : bytes := hex_encode (sha256 tx) ++ str ".tx".

Definition persistMembershipFile (h : host) (tx : bytes) (files : store) : store :=
  if negb (persist h) then files else store_Set (membership_file_name tx) tx files.

Definition diagnostic_names : list bytes :=
  [str "last-prepare"; str "last-process"; str "last-apply"].

(** [os.ReadDir] lists by file name. *)
Definition loadMembershipFiles (h : host) (files : store) : list bytes :=
  if negb (persist h) then []
  else map snd (filter (fun kv => bool_decide (kv.1 ∉ diagnostic_names) && IsMembershipTx kv.2 = true)
                  (IteratePrefix files [])).

Definition NoteMembershipBytes (h : host) (tx : bytes) (k : Keeper) : Keeper :=
  if negb (IsMembershipTx tx) then k
  else
    let files := persistMembershipFile h tx (q_files k) in
    if bool_decide (tx ∈ q_txs k) then with_queue (q_txs k) files k
    else with_queue (q_txs k ++ [tx]) files k.

Definition NoteMembershipTx (h : host) (tx : bytes) (k : Keeper) : Keeper :=
  match DecodeJoin tx with
  | Some j => match depositIndexOf (k_store k) (join_Subject j) with
              | Some _ => k
              | None => NoteMembershipBytes h tx k
              end
  | None => NoteMembershipBytes h tx k
  end.

Definition PendingMembershipTxs (h : host) (k : Keeper) : list bytes :=
  q_txs k ++ filter (fun tx => tx ∉ q_txs k) (loadMembershipFiles h (q_files k)).

Definition ClearPendingMembership (h : host) (k : Keeper) : Keeper :=
  with_queue [] (if persist h then ∅ else q_files k) k.

(** A queued transaction that a spent subject makes obsolete. *)
Definition spent_tx (subject : bytes) (dropJoin dropLeave : bool) (tx : bytes) : bool :=
  dropJoin && match DecodeJoin tx with
              | Some j => bytes_eqb (join_Subject j) subject
              | None => false
              end
  || dropLeave && match DecodeLeave tx with
                  | Some l => bytes_eqb (leave_Subject l) subject
                  | None => false
                  end.

Definition forgetMembership (h : host) (subject : bytes) (dropJoin dropLeave : bool) (k : Keeper)
  : Keeper :=
  if blen subject =? 0 then k
  else
    with_queue (filter (fun tx => spent_tx subject dropJoin dropLeave tx = false) (q_txs k))
      (if persist h
       then filter (fun kv => spent_tx subject dropJoin dropLeave kv.2 = false) (q_files k)
       else q_files k) k.

(** The subjects asking to leave: stored requests of the period, then queued
    ones. *)
Definition pending_leaves (h : host) (k : Keeper) (period : Z) : gset bytes :=
  let pref := PendingLeavePrefixForPeriod period in
  list_to_set (map (fun kv : bytes * bytes => slice_from (blen pref) kv.1)
                 (IteratePrefix (k_store k) pref))
  ∪ list_to_set (omap (fun tx =>
      match DecodeLeave tx with
      | Some l => if is_ok (ValidateLeave l) then Some (leave_Subject l) else None
      | None => None
      end) (PendingMembershipTxs h k)).

Definition pending_joins (h : host) (k : Keeper) : list SubjectPower :=
  omap (fun tx =>
    match DecodeLeave tx with
    | Some _ => None
    | None =>
        match DecodeJoin tx with
        | Some j =>
            if is_ok (ValidateJoin j) then
              match depositIndexOf (k_store k) (join_Subject j) with
              | Some _ => None
              | None => Some (MkSubjectPower (join_Subject j) (join_Weight j) true)
              end
            else None
        | None => None
        end
    end) (PendingMembershipTxs h k).

(** [for _, j := range joins]: the joins that are not leaving and not yet
    listed. *)
Fixpoint fresh_joins (leave seen : gset bytes) (joins : list SubjectPower) : list SubjectPower :=
  match joins with
  | [] => []
  | j :: joins' =>
      if bool_decide (pw_Subject j ∈ leave) then fresh_joins leave seen joins'
      else if bool_decide (pw_Subject j ∈ seen) then fresh_joins leave seen joins'
      else j :: fresh_joins leave ({[pw_Subject j]} ∪ seen) joins'
  end.

Definition mark_leave (leave : gset bytes) (s : SubjectPower) : SubjectPower :=
  if bool_decide (pw_Subject s ∈ leave) then MkSubjectPower (pw_Subject s) 0 true else s.

Definition applyQueuedMembership (h : host) (k : Keeper) (period : Z) (set : list SubjectPower)
  : list SubjectPower :=
  let leave := pending_leaves h k period in
  let inSet : gset bytes := list_to_set (pw_Subject <$> set) in
  let kept := map (mark_leave leave) set in
  let joins := fresh_joins leave inSet (pending_joins h k) in
  let seen : gset bytes := inSet ∪ list_to_set (pw_Subject <$> joins) in
  (* leavers not yet listed, only while their bit is still set *)
  let left := filter (fun s => s ∉ seen /\ s ∈ inSet) (elements leave) in
  merge_sort subject_le (kept ++ joins ++ map (fun s => MkSubjectPower s 0 true) left).

(** ** Verifying an LNPR *)

Definition vcfg (k : Keeper) : verifier_cfg :=
  MkVerifierCfg (k_Verifier k) (k_verifierAcc k) (k_leanZkID k) (k_hasCtx k) (k_AllowDummy k).

Definition rejectEmptyReplace (m : store) (blob : LNPRBlob) : result lean_error unit :=
  if negb (is_nil (lnpr_Subjects blob)) then Ok tt
  else guard (hasBondedOrPrior m (lnpr_Period blob)) EEmptyReplace.

(** The loop of [CheckLNPRUniqueness]. *)
Fixpoint check_unique (seen : gset bytes) (l : list SubjectProof) : result lean_error unit :=
  match l with
  | [] => Ok tt
  | s :: l' =>
      if bool_decide (sp_Subject s ∈ seen) then Err EDuplicateSubject
      else check_unique ({[sp_Subject s]} ∪ seen) l'
  end.

Definition CheckLNPRUniqueness (m : store) (blob : LNPRBlob) : result lean_error unit :=
  check! rejectEmptyReplace m blob;
  check_unique ∅ (lnpr_Subjects blob).

Definition knownSubjectSet (period : Z) (m : store) : store * gset bytes :=
  let '(m, set) := match DebugSubjectsFromBits m with
                   | [] => BondedSetOrCarry period m
                   | set => (m, set)
                   end in
  (m, list_to_set (pw_Subject <$> set)).

(** A subject that is new to a non-empty roster. *)
Definition is_extra (known : gset bytes) (s : SubjectProof) : bool :=
  negb (bool_decide (sp_Subject s ∈ known)) && (0 <? sp_Weight s) && negb (bool_decide (known = ∅)).

(** The loop of [verifyLNPR]: [i], [raw] and [extraIdx] are its counters. *)
Fixpoint verify_rows (h : host) (c : verifier_cfg) (hasFold : bool) (known : gset bytes)
    (roots : bytes) (period i raw extraIdx : Z) (l : list SubjectProof)
  : result lean_error unit :=
  match l with
  | [] => Ok tt
  | s :: l' =>
      let proof := sp_Proof s in
      let dstw := containsDSTW proof in
      let extra := is_extra known s in
      check! guard (dstw && hasFold) EDummyInAggregate;
      check! guard (dstw && extra) EDummyOnExtra;
      let counted := (0 <? blen proof) && negb (isFoldProof proof) in
      let raw := if counted then raw + 1 else raw in
      check! guard (counted && (MaxRawStarksPerLNPR <? raw)) ETooManyRaw;
      if extra then
        check! guard ((blen proof =? 0) || isFoldProof proof) EUnprovableExtra;
        check! guard dstw EDummyOnExtra;
        check! guard ((blen proof <? 4) || negb (isSTWO proof)) EExtraNotSTWO;
        check! guard (MaxProofBytes <? blen proof) EProofTooLarge;
        match verifySubjectProof h c period extraIdx s roots with
        | Ok _ => verify_rows h c hasFold known roots period (i + 1) raw (u64 (extraIdx + 1)) l'
        | Err e => Err (EExtra period extraIdx i (sp_Weight s) e)
        end
      else if hasFold then verify_rows h c hasFold known roots period (i + 1) raw extraIdx l'
      else
        check! guard (MaxProofBytes <? blen proof) EProofTooLarge;
        check! verifySubjectProof h c period i s roots;
        verify_rows h c hasFold known roots period (i + 1) raw extraIdx l'
  end.

Definition consume_gas (k : Keeper) : Keeper :=
  with_gas (match k_gas k with Some g => Some (u64 (g + stwoDummyGas)) | None => None end) k.

(** The fold part of [verifyLNPR]. *)
Definition verify_fold (h : host) (k : Keeper) (roots : bytes) (fold : option bytes)
  : result lean_error unit :=
  match fold with
  | Some p =>
      check! guard (MaxProofBytes <? blen p) EProofTooLarge;
      VerifySameStatementFold h p (foldPairStrings roots)
  | None => guard (negb (k_AllowDummy k)) EFoldRequired
  end.

Definition verifyLNPR (h : host) (blob : LNPRBlob) (skipCrypto : bool) : meth Keeper lean_error unit :=
  fun k =>
  match CheckLNPRUniqueness (k_store k) blob with
  | Err e => (k, Err e)
  | Ok _ =>
      if skipCrypto then (k, Ok tt)
      else
        let k := consume_gas k in
        if is_nil (lnpr_Subjects blob) then (k, Ok tt)
        else
          let roots := LastObjectRoots (k_store k) in
          let fold := foldProofFromLNPR blob in
          match verify_fold h k roots fold with
          | Err e => (k, Err e)
          | Ok _ =>
              let hasFold := match fold with Some _ => true | None => false end in
              let '(m, known) := knownSubjectSet (lnpr_Period blob) (k_store k) in
              let k := with_store m k in
              (k, verify_rows h (vcfg k) hasFold known roots (lnpr_Period blob)
                    0 (if hasFold then 1 else 0) (nextDepositIndex m) (lnpr_Subjects blob))
          end
  end.

Definition VerifyLNPR (h : host) (blob : LNPRBlob) : meth Keeper lean_error unit :=
  verifyLNPR h blob false.
Definition VerifyLNPRRecheck (h : host) (blob : LNPRBlob) : meth Keeper lean_error unit :=
  verifyLNPR h blob true.

(** ** Applying an LNPR *)

Definition apply_subject (h : host) (period : Z) (k : Keeper) (s : SubjectProof) : Keeper :=
  let subj := sp_Subject s in
  if sp_Weight s <=? 0 then
    let k := match depositIndexOf (k_store k) subj with
             | Some _ => upd_store (fun m => (ApplyLeave (MkLeaveBlob period subj) m).1) k
             | None => k
             end in
    forgetMembership h subj true true k
  else
    let k := match depositIndexOf (k_store k) subj with
             | Some _ => upd_store (fun m => (admitMember subj (sp_Weight s) m).1) k
             | None => if 0 <? blen subj
                       then upd_store (AcceptProof period subj (sp_Weight s)) k else k
             end in
    let k := upd_store (store_Delete (PendingJoinKey period subj)) k in
    let k := upd_store (store_Delete (PendingJoinKey 0 subj)) k in
    forgetMembership h subj true false k.

Definition ApplyLNPR (h : host) (blob : LNPRBlob) : meth Keeper lean_error unit :=
  fun k =>
  match VerifyLNPR h blob k with
  | (k, Err e) => (k, Err e)
  | (k, Ok _) =>
      let k := fold_left (apply_subject h (lnpr_Period blob)) (lnpr_Subjects blob) k in
      (upd_store syncObjectRoots k, Ok tt)
  end.

(** ** Lemmas on the state updates *)

Lemma k_store_upd f k : k_store (upd_store f k) = f (k_store k).
Proof. reflexivity. Qed.
Lemma k_store_forget h s dj dl k : k_store (forgetMembership h s dj dl k) = k_store k.
Proof. unfold forgetMembership. by destruct (_ =? 0). Qed.
Lemma k_store_gas k : k_store (consume_gas k) = k_store k.
Proof. reflexivity. Qed.
#[export] Hint Rewrite k_store_upd k_store_forget k_store_gas : go.

(** ** Uniqueness *)

Lemma check_unique_spec seen l :
  check_unique seen l = Ok tt <->
  NoDup (sp_Subject <$> l) /\ (forall s, s ∈ sp_Subject <$> l -> s ∉ seen).
Proof.
  revert seen. induction l as [|s l IH]; intros seen; cbn [check_unique].
  - split; [intros _; split; [constructor|intros s Hs; by apply elem_of_nil in Hs]|done].
  - rewrite fmap_cons, NoDup_cons. destruct (bool_decide_reflect (sp_Subject s ∈ seen)) as [Hs|Hs].
    + split; [done|]. intros [_ H]. exfalso. apply (H (sp_Subject s)); [left|done].
    + rewrite IH. split.
      * intros [Hn Ho]. repeat split; [|done|].
        { intros Hin. apply (Ho _ Hin). set_solver. }
        intros t Ht. apply elem_of_cons in Ht as [->|Ht]; [done|]. specialize (Ho t Ht). set_solver.
      * intros [[Hni Hn] Ho]. split; [done|]. intros t Ht Hin.
        apply elem_of_union in Hin as [Hin|Hin].
        { apply elem_of_singleton in Hin. by subst. }
        by apply (Ho t); [right|].
Qed.

Lemma CheckLNPRUniqueness_spec m blob :
  CheckLNPRUniqueness m blob = Ok tt <->
  NoDup (sp_Subject <$> lnpr_Subjects blob) /\
  (lnpr_Subjects blob = [] -> hasBondedOrPrior m (lnpr_Period blob) = false).
Proof.
  unfold CheckLNPRUniqueness, rejectEmptyReplace.
  destruct (lnpr_Subjects blob) as [|s l] eqn:E; cbn [is_nil negb].
  - destruct (hasBondedOrPrior _ _); cbn.
    + split; [done|]. intros [_ H]. by specialize (H eq_refl).
    + split; [|done]. intros _. by split; [constructor|].
  - cbn [rbind]. rewrite check_unique_spec. split.
    + intros [H _]. by split.
    + intros [H _]. split; [done|]. intros t _. set_solver.
Qed.

(** ** What an accepted LNPR guarantees *)

Lemma guard_ok {E} (c : bool) (e : E) {A} (k : result E A) r :
  rbind (guard c e) (fun _ => k) = Ok r -> c = false /\ k = Ok r.
Proof. by destruct c. Qed.

(** Number of raw (non-fold) proofs. *)
Definition raw_proofs (l : list SubjectProof) : Z :=
  Z.of_nat (length (filter (fun s => (0 <? blen (sp_Proof s)) && negb (isFoldProof (sp_Proof s)) = true) l)).

(** What the row loop checks of one row. *)
Definition row_accepted (h : host) (c : verifier_cfg) (hasFold : bool) (known : gset bytes)
    (roots : bytes) (period : Z) (s : SubjectProof) : Prop :=
  (hasFold = true -> containsDSTW (sp_Proof s) = false) /\
  (is_extra known s = true ->
     containsDSTW (sp_Proof s) = false /\ isFoldProof (sp_Proof s) = false /\
     exists idx, verifyValsetStwo h (sp_Proof s) period idx (ebOfWeight (sp_Weight s)) = Ok tt) /\
  (is_extra known s = false -> hasFold = false ->
     exists idx, verifySubjectProof h c period idx s roots = Ok tt).

Lemma verify_rows_sound h c hasFold known roots period l i raw extraIdx :
  verify_rows h c hasFold known roots period i raw extraIdx l = Ok tt ->
  Forall (row_accepted h c hasFold known roots period) l /\
  (0 <= raw <= MaxRawStarksPerLNPR -> raw + raw_proofs l <= MaxRawStarksPerLNPR).
Proof.
  revert i raw extraIdx. induction l as [|s l IH]; intros i raw extraIdx H.
  - split; [constructor|]. unfold raw_proofs. cbn. lia.
  - cbn [verify_rows] in H. cbv zeta in H.
    apply guard_ok in H as [Hd1 H]. apply guard_ok in H as [Hd2 H]. apply guard_ok in H as [Hr H].
    unfold raw_proofs in *. rewrite filter_cons.
    set (counted := (0 <? blen (sp_Proof s)) && negb (isFoldProof (sp_Proof s))) in *.
    set (raw' := if counted then raw + 1 else raw) in *.
    assert (Hraw : forall n, (0 <= raw' <= MaxRawStarksPerLNPR -> raw' + n <= MaxRawStarksPerLNPR) ->
      0 <= raw <= MaxRawStarksPerLNPR ->
      raw + (if counted then n + 1 else n) <= MaxRawStarksPerLNPR).
    { intros n Hn Hb. subst raw'. destruct counted; cbn [andb] in Hr; zbool; lia. }
    assert (Hlen : Z.of_nat (length (if decide (counted = true) then s :: filter (fun s =>
        (0 <? blen (sp_Proof s)) && negb (isFoldProof (sp_Proof s)) = true) l else filter (fun s =>
        (0 <? blen (sp_Proof s)) && negb (isFoldProof (sp_Proof s)) = true) l)) =
      if counted then raw_proofs l + 1 else raw_proofs l).
    { unfold raw_proofs. destruct counted; cbn [length]; [rewrite decide_True by done; cbn [length]; lia|done]. }
    rewrite Hlen. destruct (is_extra known s) eqn:Ex.
    + apply guard_ok in H as [He1 H]. apply guard_ok in H as [He2 H]. apply guard_ok in H as [He3 H].
      apply guard_ok in H as [He4 H]. apply orb_false_elim in He1 as [_ He1], He3 as [He3 He3'].
      destruct (verifySubjectProof h c period extraIdx s roots) as [u|] eqn:Ev; [|done].
      apply IH in H as [HF HR]. split; [|by apply Hraw]. constructor; [|done].
      split; [intros ->; by rewrite andb_true_r in Hd1|]. split; [|congruence].
      intros _. split; [done|]. split; [done|]. exists extraIdx.
      unfold verifySubjectProof in Ev. rewrite Z.ltb_antisym in He3.
      apply negb_false_iff in He3, He3'. rewrite He3, He3' in Ev. cbn [andb] in Ev. by destruct u.
    + destruct hasFold.
      * apply IH in H as [HF HR]. split; [|by apply Hraw]. constructor; [|done].
        split; [intros _; by rewrite andb_true_r in Hd1|]. split; congruence.
      * apply guard_ok in H as [He4 H].
        destruct (verifySubjectProof h c period i s roots) as [u|] eqn:Ev; [|done]. cbn [rbind] in H.
        apply IH in H as [HF HR]. split; [|by apply Hraw]. constructor; [|done].
        split; [done|]. split; [congruence|]. intros _ _. exists i. by destruct u.
Qed.

Definition has_fold (blob : LNPRBlob) : bool :=
  match foldProofFromLNPR blob with Some _ => true | None => false end.

(** The shape of a successful verification. *)
Lemma VerifyLNPR_inv h blob k k' :
  VerifyLNPR h blob k = (k', Ok tt) ->
  CheckLNPRUniqueness (k_store k) blob = Ok tt /\
  (lnpr_Subjects blob = [] /\ k' = consume_gas k \/
   lnpr_Subjects blob <> [] /\
   verify_fold h k (LastObjectRoots (k_store k)) (foldProofFromLNPR blob) = Ok tt /\
   exists m known, knownSubjectSet (lnpr_Period blob) (k_store k) = (m, known) /\
     k' = with_store m (consume_gas k) /\
     verify_rows h (vcfg k) (has_fold blob) known (LastObjectRoots (k_store k)) (lnpr_Period blob)
       0 (if has_fold blob then 1 else 0) (nextDepositIndex m) (lnpr_Subjects blob) = Ok tt).
Proof.
  unfold VerifyLNPR, verifyLNPR. destruct (CheckLNPRUniqueness _ _) as [[]|]; [|done].
  cbv zeta. intros H. split; [done|].
  destruct (is_nil (lnpr_Subjects blob)) eqn:En.
  - left. injection H as <-. by destruct (lnpr_Subjects blob).
  - right. split; [by intros E; rewrite E in En|]. rewrite k_store_gas in H.
    change (verify_fold h (consume_gas k)) with (verify_fold h k) in H.
    destruct (verify_fold _ _ _ _) as [[]|]; [|done]. split; [done|].
    fold (has_fold blob) in H. destruct (knownSubjectSet _ _) as [m known].
    exists m, known. split; [done|]. injection H as <- H. split; [done|].
    change (vcfg (with_store m (consume_gas k))) with (vcfg k) in H. done.
Qed.

Definition live_subjects (rows : list row) : gset bytes := list_to_set (pw_Subject <$> roster_powers rows).

(** While somebody is bonded, the known subjects are the roster's and nothing
    is written. *)
Lemma knownSubjectSet_live m rows period :
  roster_rel m rows -> roster_powers rows <> [] ->
  knownSubjectSet period m = (m, live_subjects rows).
Proof.
  intros Hrel Hne. unfold knownSubjectSet. rewrite (DebugSubjectsFromBits_rel m rows Hrel).
  unfold live_subjects. by destruct (roster_powers rows).
Qed.

Lemma VerifyLNPR_store h blob k k' rows :
  roster_rel (k_store k) rows -> roster_powers rows <> [] ->
  VerifyLNPR h blob k = (k', Ok tt) -> k' = consume_gas k.
Proof.
  intros Hrel Hne H. apply VerifyLNPR_inv in H as [_ [[_ ->]|(_ & _ & m & known & Hk & -> & _)]]; [done|].
  rewrite (knownSubjectSet_live _ rows) in Hk by done. injection Hk as <- _. done.
Qed.

(** ** Theorems on verification *)


(** A recheck never changes the keeper, accepts exactly the blobs that
    are unique and do not empty a bonded set, and so never refuses what the
    full verification accepts. *)
Theorem VerifyLNPRRecheck_spec h blob k :
  (VerifyLNPRRecheck h blob k).1 = k /\
  ((VerifyLNPRRecheck h blob k).2 = Ok tt <->
     NoDup (sp_Subject <$> lnpr_Subjects blob) /\
     (lnpr_Subjects blob = [] -> hasBondedOrPrior (k_store k) (lnpr_Period blob) = false)) /\
  ((VerifyLNPR h blob k).2 = Ok tt -> (VerifyLNPRRecheck h blob k).2 = Ok tt).
Proof.
  assert (Hr : VerifyLNPRRecheck h blob k = (k, CheckLNPRUniqueness (k_store k) blob)).
  { unfold VerifyLNPRRecheck, verifyLNPR. by destruct (CheckLNPRUniqueness _ _) as [[]|]. }
  rewrite Hr. split; [done|]. split; [apply CheckLNPRUniqueness_spec|]. cbn [snd].
  destruct (VerifyLNPR h blob k) as [k' r] eqn:E. cbn [snd]. intros ->.
  by apply VerifyLNPR_inv in E as [? _].
Qed.

(** ** Applying an LNPR as roster operations *)

Definition lnpr_op (s : SubjectProof) : roster_op :=
  if sp_Weight s <=? 0 then OpLeave (sp_Subject s) else OpAdmit (sp_Subject s) (sp_Weight s).
(** Empty subjects are ignored. *)
Definition lnpr_ops (blob : LNPRBlob) : list roster_op :=
  map lnpr_op (filter (fun s => sp_Subject s <> []) (lnpr_Subjects blob)).

(** Nobody on the roster has the empty subject. *)
Definition named (rows : list row) : Prop := [] ∉ row_subject <$> rows.

Lemma subjects_row_allocate s rows :
  row_subject <$> row_allocate s rows = (row_subject <$> rows) ++ (if row_find s rows then [] else [s]).
Proof.
  unfold row_allocate. destruct (row_find s rows); [by rewrite app_nil_r|by rewrite fmap_app].
Qed.
Lemma subjects_alter f (i : nat) (rows : list row) :
  (forall r, row_subject (f r) = row_subject r) ->
  row_subject <$> alter f i rows = row_subject <$> rows.
Proof.
  intros Hf. apply list_eq. intros j. rewrite !list_lookup_fmap.
  destruct (decide (i = j)) as [->|Hne].
  - rewrite list_lookup_alter_eq. destruct (rows !! j); cbn; by rewrite ?Hf.
  - by rewrite list_lookup_alter_ne.
Qed.

Lemma subjects_roster_step rows o :
  row_subject <$> roster_step rows o =
  (row_subject <$> rows) ++
  match o with OpAdmit s _ => if row_find s rows then [] else [s] | OpLeave _ => [] end.
Proof.
  destruct o as [s w|s]; cbn [roster_step].
  - unfold roster_admit. cbv zeta. destruct (0 <? w); [|apply subjects_row_allocate].
    destruct (row_find s (row_allocate s rows)); [rewrite subjects_alter by done|];
      apply subjects_row_allocate.
  - unfold roster_leave. rewrite app_nil_r. destruct (row_find s rows); [by apply subjects_alter|done].
Qed.

Lemma named_roster_step rows s :
  named rows -> sp_Subject s <> [] -> named (roster_step rows (lnpr_op s)).
Proof.
  intros Hn Hs. unfold named. rewrite subjects_roster_step. unfold lnpr_op.
  destruct (sp_Weight s <=? 0); [by rewrite app_nil_r|].
  destruct (row_find _ _); [by rewrite app_nil_r|]. rewrite elem_of_app, list_elem_of_singleton.
  intros [H|H]; [done|congruence].
Qed.

Lemma pending_head p s : hd Byte.x00 (PendingJoinKey p s) ∉ [Byte.x10; Byte.x11; Byte.x12; Byte.x13].
Proof. vm_compute. set_solver. Qed.

Lemma blen_nil_iff (b : bytes) : blen b = 0 <-> b = [].
Proof. unfold blen. destruct b; cbn; split; (done || lia). Qed.

Lemma roster_leave_unknown s rows : row_find s rows = None -> roster_leave s rows = rows.
Proof. unfold roster_leave. by intros ->. Qed.

Lemma apply_subject_rel h period k rows s :
  roster_rel (k_store k) rows -> named rows -> has_room rows ->
  roster_rel (k_store (apply_subject h period k s))
    (if decide (sp_Subject s = []) then rows else roster_step rows (lnpr_op s)).
Proof.
  intros Hrel Hn Hroom. unfold apply_subject, lnpr_op. cbv zeta.
  rewrite (depositIndexOf_rel _ rows Hrel).
  assert (Hempty : sp_Subject s = [] -> row_find (sp_Subject s) rows = None).
  { intros ->. by apply row_find_None. }
  destruct (sp_Weight s <=? 0) eqn:Ew; autorewrite with go.
  - destruct (row_find (sp_Subject s) rows) as [i|] eqn:Ef; cbn [fmap option_fmap option_map].
    + rewrite decide_False by (intros E; by specialize (Hempty E)).
      rewrite k_store_upd. pose proof (ApplyLeave_rel (k_store k) rows (MkLeaveBlob period (sp_Subject s)) Hrel) as H.
      destruct (ApplyLeave _ _) as [m' [u|e]]; [apply H|].
      destruct H as [Hv _]. unfold ValidateLeave in Hv. cbn [leave_Subject] in Hv.
      destruct (blen _ =? 0) eqn:E; [|done]. zbool. apply blen_nil_iff in E. by specialize (Hempty E).
    + case_decide; [done|]. cbn [roster_step]. by rewrite roster_leave_unknown.
  - apply roster_rel_Delete_other; [apply pending_head|].
    apply roster_rel_Delete_other; [apply pending_head|].
    destruct (row_find (sp_Subject s) rows) as [i|] eqn:Ef; cbn [fmap option_fmap option_map].
    + rewrite decide_False by (intros E; by specialize (Hempty E)).
      rewrite k_store_upd. by apply admitMember_rel.
    + case_decide as He.
      * rewrite He. done.
      * destruct (0 <? blen (sp_Subject s)) eqn:Eb; [rewrite k_store_upd; by apply AcceptProof_rel|].
        zbool. exfalso. apply He, blen_nil_iff. unfold blen in *. lia.
Qed.

Lemma apply_subjects_rel h period l k rows :
  roster_rel (k_store k) rows -> named rows -> Z.of_nat (length rows + length l) < 2 ^ 32 ->
  let rows' := roster_run (map lnpr_op (filter (fun s => sp_Subject s <> []) l)) rows in
  roster_rel (k_store (fold_left (apply_subject h period) l k)) rows' /\ named rows'.
Proof.
  revert k rows. induction l as [|s l IH]; intros k rows Hrel Hn Hb; [done|].
  cbn [length] in Hb. cbn [fold_left]. rewrite filter_cons.
  pose proof (apply_subject_rel h period k rows s Hrel Hn ltac:(unfold has_room; lia)) as H.
  destruct (decide (sp_Subject s = [])) as [He|He].
  - rewrite decide_False by (intros ?; done). apply IH; [done|done|lia].
  - rewrite decide_True by done. cbn [map]. apply IH; [done|by apply named_roster_step|].
    pose proof (length_roster_step rows (lnpr_op s)). lia.
Qed.

Lemma ApplyLNPR_lemma h blob k rows :
  roster_rel (k_store k) rows -> named rows -> roster_powers rows <> [] ->
  Z.of_nat (length rows + length (lnpr_Subjects blob)) < 2 ^ 32 ->
  let '(k', r) := ApplyLNPR h blob k in
  match r with
  | Ok _ =>
      roster_rel (k_store k') (roster_run (lnpr_ops blob) rows) /\
      named (roster_run (lnpr_ops blob) rows) /\
      (exists m, k_store k' = syncObjectRoots m)
  | Err _ => k_store k' = k_store k
  end.
Proof.
  intros Hrel Hn Hne Hb. unfold ApplyLNPR.
  destruct (VerifyLNPR h blob k) as [k1 [[]|e]] eqn:E.
  - apply (VerifyLNPR_store _ _ _ _ rows) in E; [|done|done]. subst k1.
    destruct (apply_subjects_rel h (lnpr_Period blob) (lnpr_Subjects blob) (consume_gas k) rows
      Hrel Hn Hb) as [H1 H2].
    rewrite k_store_upd. split; [by apply roster_rel_sync|]. split; [done|]. eauto.
  - unfold VerifyLNPR, verifyLNPR in E. destruct (CheckLNPRUniqueness _ _); [|by injection E as <-].
    cbv zeta in E. destruct (is_nil _); [done|]. destruct (verify_fold _ _ _ _); [|by injection E as <-].
    rewrite k_store_gas, (knownSubjectSet_live _ rows) in E by done. by injection E as <-.
Qed.

(** Whatever the verdict, a live roster stays a roster. *)
Lemma ApplyLNPR_rel h blob k rows :
  roster_rel (k_store k) rows -> named rows -> roster_powers rows <> [] ->
  Z.of_nat (length rows + length (lnpr_Subjects blob)) < 2 ^ 32 ->
  exists rows', roster_rel (k_store (ApplyLNPR h blob k).1) rows' /\ named rows' /\
    (rows' = rows \/ exists ops, rows' = roster_run ops rows).
Proof.
  intros Hrel Hn Hne Hb. pose proof (ApplyLNPR_lemma h blob k rows Hrel Hn Hne Hb) as H.
  destruct (ApplyLNPR h blob k) as [k' [u|e]]; cbn [fst].
  - destruct H as (H1 & H2 & _). eexists. split; [exact H1|]. split; [done|]. right. eauto.
  - exists rows. rewrite H. auto.
Qed.

(** C4: applying an accepted LNPR to a live roster performs exactly its
    roster operations, in order: a subject of positive weight is admitted, one
    of weight zero or less leaves, everyone else is untouched (an LNPR is not a
    replacement set); and the stored object roots are those of the new state.
    When verification fails the store is unchanged. *)
Theorem ApplyLNPR_refines h blob k rows :
  roster_rel (k_store k) rows -> named rows -> roster_powers rows <> [] ->
  Z.of_nat (length rows + length (lnpr_Subjects blob)) < 2 ^ 32 ->
  let '(k', r) := ApplyLNPR h blob k in
  match r with
  | Ok _ =>
      roster_rel (k_store k') (roster_run (lnpr_ops blob) rows) /\
      named (roster_run (lnpr_ops blob) rows) /\
      (exists m, k_store k' = syncObjectRoots m)
  | Err _ => k_store k' = k_store k
  end.
Proof. apply ApplyLNPR_lemma. Qed.

(** ** The stored roots

    The object roots in the store are those of the roster in the store. *)
Definition roots_synced (m : store) : Prop := LastObjectRoots (syncObjectRoots m) = LastObjectRoots m.

Lemma Get_sync_other m k : k <> ObjectRootsKey -> store_Get (syncObjectRoots m) k = store_Get m k.
Proof. intros H. by apply store_Get_Set_ne. Qed.

Lemma roots_of_sync m :
  BitfieldRoot (syncObjectRoots m) = BitfieldRoot m /\
  DepositTreeRoot (syncObjectRoots m) = DepositTreeRoot m /\
  EBTreeRoot (syncObjectRoots m) = EBTreeRoot m.
Proof.
  assert (Hn : nextDepositIndex (syncObjectRoots m) = nextDepositIndex m)
    by (unfold nextDepositIndex; by rewrite Get_sync_other).
  split; [unfold BitfieldRoot, Bitfield; by rewrite Get_sync_other|]. split.
  - unfold DepositTreeRoot, depositLeaves. rewrite Hn. f_equal. apply map_ext. intros i. f_equal.
    unfold subjectByIndex. f_equal. f_equal. apply IteratePrefix_ext. intros k Hk.
    apply lookup_insert_ne. intros <-. done.
  - unfold EBTreeRoot, ebLeaves. rewrite Hn. f_equal. apply map_ext. intros i. f_equal.
    unfold EBOf. by rewrite Get_sync_other by discriminate.
Qed.

Lemma sync_synced m : roots_synced (syncObjectRoots m).
Proof.
  unfold roots_synced. f_equal. unfold syncObjectRoots at 1.
  destruct (roots_of_sync m) as (-> & -> & ->). unfold SetLastObjectRoots.
  unfold syncObjectRoots, SetLastObjectRoots. apply insert_insert_eq.
Qed.

(** ** Genesis *)

Definition genesis_ops (l : list GenesisSubject) : list roster_op :=
  map (fun s => OpAdmit (gs_PubKey s) (gs_Weight s))
      (filter (fun s => gs_PubKey s <> [] /\ 0 < gs_Weight s) l).

Lemma genesis_subjects_rel l m rows :
  roster_rel m rows -> Z.of_nat (length rows + length l) < 2 ^ 32 ->
  roster_rel (fold_left genesis_subject l m) (roster_run (genesis_ops l) rows).
Proof.
  revert m rows. induction l as [|s l IH]; intros m rows Hrel Hb; [done|].
  cbn [length] in Hb. cbn [fold_left]. unfold genesis_ops. rewrite filter_cons.
  unfold genesis_subject at 2. destruct (blen (gs_PubKey s) =? 0) eqn:E; zbool.
  - apply blen_nil_iff in E. rewrite decide_False by (intros [? _]; done). apply IH; [done|lia].
  - destruct (0 <? gs_Weight s) eqn:Ew; zbool.
    + rewrite decide_True by (split; [intros H; apply E; by rewrite H|done]). cbn [map].
      apply IH; [apply AcceptProof_rel; [done|unfold has_room; lia]|].
      pose proof (length_roster_step rows (OpAdmit (gs_PubKey s) (gs_Weight s))). lia.
    + rewrite decide_False by (intros [_ ?]; lia). apply IH; [|lia].
      apply roster_rel_Set_other; [vm_compute; set_solver|done].
Qed.

(** The roster genesis builds from distinct keys: one active row per subject
    of positive weight, in order. *)
Definition genesis_row (s : GenesisSubject) : row :=
  MkRow (gs_PubKey s) true (Some (ebFromWeight (gs_Weight s))).

Lemma genesis_rows l rows :
  NoDup ((row_subject <$> rows) ++ (gs_PubKey <$> l)) ->
  Forall (fun s => gs_PubKey s <> [] /\ 0 < gs_Weight s) l ->
  roster_run (genesis_ops l) rows = rows ++ (genesis_row <$> l).
Proof.
  revert rows. induction l as [|s l IH]; intros rows Hn Hf; [by rewrite app_nil_r|].
  inversion Hf as [|? ? [H1 H2] Hf']; subst. unfold genesis_ops. rewrite filter_cons_True by done.
  cbn [map roster_run fold_left roster_step]. fold (genesis_ops l) (roster_run (genesis_ops l)).
  rewrite fmap_cons in Hn. pose proof Hn as (Hd1 & Hd2 & Hd3)%NoDup_app.
  assert (Hni : row_find (gs_PubKey s) rows = None).
  { apply row_find_None. intros Hin. apply (Hd2 _ Hin). left. }
  assert (Hnd : NoDup (row_subject <$> rows ++ [MkRow (gs_PubKey s) false None])).
  { rewrite fmap_app. apply NoDup_app. split; [done|]. split; [|apply NoDup_singleton].
    intros x Hx Hx'. apply list_elem_of_singleton in Hx' as ->. apply (Hd2 _ Hx). left. }
  assert (Hadm : roster_admit (gs_PubKey s) (gs_Weight s) rows = rows ++ [genesis_row s]).
  { unfold roster_admit, row_allocate. rewrite Hni, (proj2 (Z.ltb_lt _ _) H2).
    rewrite (proj2 (row_find_Some _ _ (length rows) Hnd)).
    - rewrite <- (Nat.add_0_r (length rows)), alter_app_r. done.
    - rewrite fmap_app, lookup_app_r by (by rewrite length_fmap).
      by rewrite length_fmap, Nat.sub_diag. }
  rewrite Hadm, IH; [by rewrite <- app_assoc| |done].
  by rewrite fmap_app, <- app_assoc.
Qed.

Lemma AcceptProof_frame p s w m k :
  hd Byte.x00 k ∉ roster_heads -> hd Byte.x00 k <> BondedPrefix -> AcceptProof p s w m !! k = m !! k.
Proof.
  intros H1 H2. unfold AcceptProof. rewrite admitMember_frame by done.
  apply lookup_insert_ne. intros <-. done.
Qed.

Lemma genesis_frame l m k :
  hd Byte.x00 k ∉ roster_heads -> hd Byte.x00 k <> BondedPrefix ->
  fold_left genesis_subject l m !! k = m !! k.
Proof.
  intros H1 H2. revert m. induction l as [|s l IH]; intros m; [done|]. cbn [fold_left].
  rewrite IH. unfold genesis_subject. destruct (_ =? 0); [done|].
  destruct (0 <? _); [by apply AcceptProof_frame|]. apply lookup_insert_ne. by intros <-.
Qed.

(** The genesis roster as a bonded set: weights above 255 are capped. *)
Lemma genesis_powers i l :
  Forall (fun s => gs_PubKey s <> [] /\ 0 < gs_Weight s) l ->
  roster_powers_from i (genesis_row <$> l) =
  map (fun s => MkSubjectPower (gs_PubKey s) (Z.min 255 (gs_Weight s)) true) l.
Proof.
  intros Hf. revert i. induction Hf as [|s l [H1 H2] Hf IH]; intros i; [done|].
  rewrite fmap_cons. cbn [roster_powers_from map row_bit genesis_row app]. rewrite IH. f_equal.
  unfold row_power. cbn [row_subject row_eb genesis_row from_option id].
  destruct (blen (gs_PubKey s) =? 0) eqn:E; zbool; [by apply blen_nil_iff in E|].
  assert (He : byte_val (ebFromWeight (gs_Weight s)) = Z.min 255 (gs_Weight s)).
  { unfold ebFromWeight. destruct (gs_Weight s <=? 0) eqn:E1; zbool; [lia|].
    destruct (255 <? gs_Weight s) eqn:E2; zbool; [rewrite Z.min_l by lia; done|].
    rewrite byte_val_of_Z, Z.mod_small by lia. lia. }
  rewrite He. rewrite (proj2 (Z.ltb_lt 0 _)) by lia. done.
Qed.

Lemma InitGenesis_lemma gs k :
  GenesisState_Validate gs = true -> k_store k = NewMemStore ->
  NoDup (gs_PubKey <$> g_GenesisSubjects gs) ->
  Forall (fun s => gs_PubKey s <> [] /\ 0 < gs_Weight s) (g_GenesisSubjects gs) ->
  Z.of_nat (length (g_GenesisSubjects gs)) < 2 ^ 32 ->
  exists k', InitGenesis gs k = Some k' /\
    roster_rel (k_store k') (genesis_row <$> g_GenesisSubjects gs) /\
    roots_synced (k_store k') /\
    ExportGenesis k' =
      MkGenesisState (g_OwnsValset gs) [] 0
        (map (fun s => MkGenesisSubject (gs_PubKey s) (Z.min 255 (gs_Weight s)))
           (g_GenesisSubjects gs))
        (if g_BlocksPerPeriod gs <=? 0 then BlocksPerPeriod else g_BlocksPerPeriod gs).
Proof.
  intros Hv Hk Hn Hf Hb. unfold InitGenesis. rewrite Hv. cbn [negb]. cbv zeta.
  eexists. split; [reflexivity|].
  set (n := if g_BlocksPerPeriod gs <=? 0 then _ else _).
  set (k1 := SetOwnsValset (g_OwnsValset gs) _).
  set (k2 := if 0 <? blen (g_VerifierAddr gs) then _ else k1).
  assert (Hs2 : k_store k2 = k_store k1) by (subst k2; by destruct (0 <? _)).
  assert (Hl2 : live_blocks k2 = live_blocks k1) by (subst k2; by destruct (0 <? _)).
  assert (Hrel1 : roster_rel (k_store k1) []).
  { subst k1. unfold SetOwnsValset. rewrite k_store_upd. unfold upd_store, with_store, with_live, with_owns.
    cbn [k_store]. rewrite Hk. apply roster_rel_Set_other; [vm_compute; set_solver|].
    apply roster_rel_Set_other; [vm_compute; set_solver|]. apply roster_rel_empty. }
  assert (Hrel : roster_rel (fold_left genesis_subject (g_GenesisSubjects gs) (k_store k1))
                   (genesis_row <$> g_GenesisSubjects gs)).
  { pose proof (genesis_rows (g_GenesisSubjects gs) [] Hn Hf) as Hg. cbn [app] in Hg.
    rewrite <- Hg. by apply genesis_subjects_rel. }
  rewrite !k_store_upd, Hs2. split; [by apply roster_rel_sync|]. split; [apply sync_synced|].
  unfold ExportGenesis. rewrite !k_store_upd, Hs2.
  rewrite (DebugSubjectsFromBits_rel _ _ (roster_rel_sync _ _ Hrel)).
  unfold roster_powers. rewrite genesis_powers by done. rewrite map_map. cbn [pw_Subject pw_Weight].
  assert (Ho : OwnsValset (upd_store syncObjectRoots (upd_store (fun m =>
    fold_left genesis_subject (g_GenesisSubjects gs) m) k2)) = g_OwnsValset gs).
  { unfold OwnsValset, store_Get. rewrite !k_store_upd, Hs2.
    rewrite sync_frame, genesis_frame by (vm_compute; set_solver).
    subst k1. unfold SetOwnsValset. rewrite k_store_upd. unfold store_Set. rewrite lookup_insert_eq.
    by destruct (g_OwnsValset gs). }
  rewrite Ho. f_equal.
  change (BlocksPerPeriodLive (live_blocks k2) = n). rewrite Hl2.
  change (BlocksPerPeriodLive (SetBlocksPerPeriod n) = n).
  unfold BlocksPerPeriodLive, SetBlocksPerPeriod, n. destruct (g_BlocksPerPeriod gs <=? 0) eqn:E; [done|].
  by rewrite E, E.
Qed.

Lemma InitGenesis_LastPower gs k k' s :
  InitGenesis gs k = Some k' -> k_store k' !! LastPowerKey s = k_store k !! LastPowerKey s.
Proof.
  unfold InitGenesis. destruct (GenesisState_Validate gs); [|done]. cbn [negb]. cbv zeta.
  set (k1 := SetOwnsValset _ _). set (k2 := if 0 <? blen _ then _ else k1). intros [= <-].
  rewrite !k_store_upd, sync_frame, genesis_frame by (done || apply LastPower_head).
  assert (Hs2 : k_store k2 = k_store k1) by (subst k2; by destruct (0 <? _)).
  rewrite Hs2. subst k1. unfold SetOwnsValset. rewrite k_store_upd. unfold store_Set.
  rewrite lookup_insert_ne by discriminate. apply lookup_insert_ne. discriminate.
Qed.

(** Genesis on an empty store succeeds for every valid genesis with
    distinct, non-empty keys of positive weight; it establishes the roster of
    those subjects in order with synced roots; and exporting gives the same
    genesis back, except that weights are capped at 255, the period length is
    defaulted, and the verifier address and code id are not exported. *)
Theorem InitGenesis_ExportGenesis gs k :
  GenesisState_Validate gs = true -> k_store k = NewMemStore ->
  NoDup (gs_PubKey <$> g_GenesisSubjects gs) ->
  Forall (fun s => gs_PubKey s <> [] /\ 0 < gs_Weight s) (g_GenesisSubjects gs) ->
  Z.of_nat (length (g_GenesisSubjects gs)) < 2 ^ 32 ->
  exists k', InitGenesis gs k = Some k' /\
    roster_rel (k_store k') (genesis_row <$> g_GenesisSubjects gs) /\
    roots_synced (k_store k') /\
    ExportGenesis k' =
      MkGenesisState (g_OwnsValset gs) [] 0
        (map (fun s => MkGenesisSubject (gs_PubKey s) (Z.min 255 (gs_Weight s)))
           (g_GenesisSubjects gs))
        (if g_BlocksPerPeriod gs <=? 0 then BlocksPerPeriod else g_BlocksPerPeriod gs).
Proof. apply InitGenesis_lemma. Qed.

(** ** The queue *)

Lemma IteratePrefix_filter (P : bytes * bytes -> Prop) `{!forall x, Decision (P x)} (m : store) p :
  IteratePrefix (filter P m) p = filter P (IteratePrefix m p).
Proof.
  apply (sorted_by_key_unique fst); [apply Sorted_IteratePrefix| | apply NoDup_IteratePrefix | |].
  - apply StronglySorted_filter, Sorted_IteratePrefix.
  - eapply sublist_NoDup; [apply (NoDup_IteratePrefix m p)|].
    induction (IteratePrefix m p) as [|kv l IH]; [done|]. rewrite filter_cons.
    case_decide; rewrite ?fmap_cons; by constructor.
  - intros [k v]. rewrite list_elem_of_filter, !elem_of_IteratePrefix, map_lookup_filter_Some. tauto.
Qed.

Lemma loadMembershipFiles_filter h (Q : bytes -> bool) files :
  loadMembershipFiles h (filter (fun kv => Q kv.2 = false) files) =
  filter (fun tx => Q tx = false) (loadMembershipFiles h files).
Proof.
  unfold loadMembershipFiles. destruct (persist h); cbn [negb]; [|done].
  rewrite IteratePrefix_filter. change (map snd ?l) with (l.*2).
  induction (IteratePrefix files []) as [|[k v] l IH]; [done|].
  rewrite !filter_cons. cbn [fst snd].
  destruct (decide (Q v = false)) as [Hq|Hq]; rewrite ?filter_cons; cbn [fst snd];
    case_decide; rewrite ?fmap_cons, ?filter_cons; cbn [snd]; try done.
  - rewrite decide_True by done. by f_equal.
  - by rewrite decide_False.
Qed.

(** Forgetting a spent subject removes exactly its JOIN (and, when it
    left, its LEAV) from what the next proposal will see, from memory and from
    disk alike, and keeps every other pending transaction in order. *)
Theorem forgetMembership_spec h subject dropJoin dropLeave k :
  subject <> [] ->
  PendingMembershipTxs h (forgetMembership h subject dropJoin dropLeave k) =
  filter (fun tx => spent_tx subject dropJoin dropLeave tx = false) (PendingMembershipTxs h k).
Proof.
  intros Hs. unfold forgetMembership. destruct (blen subject =? 0) eqn:E; zbool;
    [by apply blen_nil_iff in E|].
  unfold PendingMembershipTxs. cbn [q_txs q_files with_queue]. rewrite filter_app. f_equal.
  set (Q := spent_tx subject dropJoin dropLeave).
  assert (Hl : loadMembershipFiles h (if persist h
      then filter (fun kv => Q kv.2 = false) (q_files k) else q_files k) =
    filter (fun tx => Q tx = false) (loadMembershipFiles h (q_files k))).
  { destruct (persist h) eqn:Ep; [apply loadMembershipFiles_filter|].
    unfold loadMembershipFiles. by rewrite Ep. }
  rewrite Hl. clear Hl. induction (loadMembershipFiles h (q_files k)) as [|tx l IH]; [done|].
  rewrite (filter_cons (fun tx => Q tx = false)), (filter_cons (fun tx => tx ∉ q_txs k)).
  destruct (decide (Q tx = false)) as [Hq|Hq].
  - rewrite filter_cons, IH.
    assert (Hiff : tx ∉ filter (fun tx => Q tx = false) (q_txs k) <-> tx ∉ q_txs k)
      by (rewrite list_elem_of_filter; tauto).
    destruct (decide (tx ∉ q_txs k)) as [Hm|Hm].
    + rewrite decide_True by tauto. rewrite filter_cons_True by done. done.
    + rewrite decide_False by tauto. done.
  - rewrite IH. case_decide; [by rewrite filter_cons_False|done].
Qed.

(** ** The set the next proposal certifies *)

Lemma fresh_joins_spec leave seen joins :
  let out := fresh_joins leave seen joins in
  NoDup (pw_Subject <$> out) /\
  (forall x, x ∈ out -> x ∈ joins /\ pw_Subject x ∉ leave /\ pw_Subject x ∉ seen) /\
  (forall s, s ∈ pw_Subject <$> joins -> s ∉ leave -> s ∉ seen -> s ∈ pw_Subject <$> out).
Proof.
  revert seen. induction joins as [|j joins IH]; intros seen; cbn [fresh_joins].
  - split; [constructor|]. split; intros x Hx; by apply elem_of_nil in Hx.
  - rewrite fmap_cons.
    destruct (bool_decide_reflect (pw_Subject j ∈ leave)) as [Hl|Hl];
      [|destruct (bool_decide_reflect (pw_Subject j ∈ seen)) as [Hs|Hs]].
    1, 2: destruct (IH seen) as (H1 & H2 & H3); split; [done|]; split;
      [intros x Hx; destruct (H2 x Hx); split; [by right|done]|
       intros s Hin ? ?; apply elem_of_cons in Hin as [->|Hin]; [done|by apply H3]].
    destruct (IH ({[pw_Subject j]} ∪ seen)) as (H1 & H2 & H3). rewrite fmap_cons.
    split; [|split].
    + constructor; [|done]. intros Hin. apply list_elem_of_fmap in Hin as (x & Hx & Hin).
      apply H2 in Hin as (_ & _ & Hin). rewrite Hx in Hin. set_solver.
    + intros x Hx. apply elem_of_cons in Hx as [->|Hx]; [split; [left|done]|].
      destruct (H2 x Hx) as (? & ? & ?). split; [by right|]. split; [done|]. set_solver.
    + intros s Hin Hnl Hns. apply elem_of_cons in Hin as [->|Hin]; [left|].
      destruct (decide (s = pw_Subject j)) as [->|Hne]; [left|]. right.
      apply H3; [done|done|]. set_solver.
Qed.

Lemma mark_leave_subject leave x : pw_Subject (mark_leave leave x) = pw_Subject x.
Proof. unfold mark_leave. by destruct (bool_decide _). Qed.
Lemma mark_leave_subjects leave l : pw_Subject <$> map (mark_leave leave) l = pw_Subject <$> l.
Proof.
  change (map ?f ?l) with (f <$> l). rewrite <- list_fmap_compose. apply list_fmap_ext.
  intros i x _. apply mark_leave_subject.
Qed.

Lemma filter_none {A} (P : A -> Prop) `{!forall x, Decision (P x)} (l : list A) :
  (forall x, x ∈ l -> ~ P x) -> filter P l = [].
Proof.
  induction l as [|x l IH]; intros Hn; [done|].
  rewrite filter_cons_False by (apply Hn; left). apply IH. intros y Hy. apply Hn. by right.
Qed.

(** The last loop of the function never adds anything: every subject of the
    set has been listed by the first loop. *)
Lemma applyQueuedMembership_eq h k period set :
  applyQueuedMembership h k period set =
  merge_sort subject_le
    (map (mark_leave (pending_leaves h k period)) set ++
     fresh_joins (pending_leaves h k period) (list_to_set (pw_Subject <$> set)) (pending_joins h k)).
Proof.
  unfold applyQueuedMembership. cbv zeta. f_equal. rewrite app_assoc.
  rewrite filter_none; [by rewrite app_nil_r|].
  intros s _ [H1 H2]. apply H1, elem_of_union. by left.
Qed.

Lemma applyQueuedMembership_NoDup h k period set :
  NoDup (pw_Subject <$> set) -> NoDup (pw_Subject <$> applyQueuedMembership h k period set).
Proof.
  intros Hn. rewrite applyQueuedMembership_eq.
  rewrite (fmap_Permutation pw_Subject _ _ (merge_sort_Permutation subject_le _)).
  destruct (fresh_joins_spec (pending_leaves h k period) (list_to_set (pw_Subject <$> set))
    (pending_joins h k)) as (H1 & H2 & _).
  rewrite fmap_app, mark_leave_subjects. apply NoDup_app. split; [done|]. split; [|done].
  intros s Hs Hin. apply list_elem_of_fmap in Hin as (x & -> & Hx).
  apply H2 in Hx as (_ & _ & Hx). apply Hx. by apply elem_of_list_to_set.
Qed.

(** The set a proposal certifies is the current set with every leaver at
    weight 0, plus each queued join once, if its subject is new, is not
    leaving and has no deposit index; it is sorted by subject and has no
    subject twice. *)
Theorem applyQueuedMembership_spec h k period set :
  NoDup (pw_Subject <$> set) ->
  let leave := pending_leaves h k period in
  let out := applyQueuedMembership h k period set in
  NoDup (pw_Subject <$> out) /\ StronglySorted subject_le out /\
  (forall x, x ∈ set -> mark_leave leave x ∈ out) /\
  (forall x, x ∈ out -> pw_Subject x ∉ pw_Subject <$> set ->
     x ∈ pending_joins h k /\ pw_Subject x ∉ leave /\
     depositIndexOf (k_store k) (pw_Subject x) = None) /\
  (forall s, s ∈ pw_Subject <$> pending_joins h k -> s ∉ leave -> s ∈ pw_Subject <$> out).
Proof.
  intros Hn leave out. split; [by apply applyQueuedMembership_NoDup|].
  unfold out. rewrite applyQueuedMembership_eq. fold leave.
  destruct (fresh_joins_spec leave (list_to_set (pw_Subject <$> set)) (pending_joins h k))
    as (H1 & H2 & H3).
  split; [apply (StronglySorted_merge_sort subject_le)|].
  setoid_rewrite merge_sort_Permutation. split; [|split].
  - intros x Hx. apply elem_of_app. left. by apply list_elem_of_fmap_2.
  - intros x Hx Hns. apply elem_of_app in Hx as [Hx|Hx].
    + exfalso. apply Hns. rewrite <- (mark_leave_subjects leave). by apply list_elem_of_fmap_2.
    + apply H2 in Hx as (Hj & Hl & _). split; [done|]. split; [done|].
      apply list_elem_of_omap in Hj as (tx & _ & Htx).
      destruct (DecodeLeave tx); [done|]. destruct (DecodeJoin tx) as [j|]; [|done].
      destruct (is_ok _); [|done]. destruct (depositIndexOf _ (join_Subject j)) eqn:E; [done|].
      by injection Htx as <-.
  - intros s Hs Hl. rewrite fmap_app, elem_of_app, mark_leave_subjects.
    destruct (decide (s ∈ pw_Subject <$> set)) as [|Hd]; [by left|]. right.
    apply H3; [done|done|]. by rewrite elem_of_list_to_set.
Qed.

(** ** Witnesses: a closed keeper over a roster of two validators *)

Definition w_keeper (m : store) : Keeper := NewKeeper m None true ∅ 0.
Definition w_lnpr : LNPRBlob :=
  MkLNPRBlob 0 [MkSubjectProof (w_key 1) 10 (w_named (str "FOLD") (LastObjectRoots w_val2));
                MkSubjectProof (w_key 2) 0 []].

Lemma w_lnpr_ok : VerifyLNPR w_host w_lnpr (w_keeper w_val2) = (consume_gas (w_keeper w_val2), Ok tt).
Proof. by vm_compute. Qed.
Lemma w_named_rows : named w_vrows.
Proof. unfold named. vm_compute. set_solver. Qed.


Lemma ApplyLNPR_refines_witness :
  roster_rel (k_store (ApplyLNPR w_host w_lnpr (w_keeper w_val2)).1)
    [MkRow (w_key 1) true (Some (byte_of_Z 10)); MkRow (w_key 2) false (Some Byte.x00)].
Proof.
  pose proof (ApplyLNPR_refines w_host w_lnpr (w_keeper w_val2) w_vrows w_vrel w_named_rows
    ltac:(done) ltac:(by vm_compute)) as H.
  assert (Hr : (ApplyLNPR w_host w_lnpr (w_keeper w_val2)).2 = Ok tt)
    by (unfold ApplyLNPR; rewrite w_lnpr_ok; done).
  destruct (ApplyLNPR _ _ _) as [k' r]. cbn [snd] in Hr. subst r. exact (proj1 H).
Defined.

Definition w_genesis : GenesisState :=
  MkGenesisState true (str "addr") 3 [MkGenesisSubject (w_key 1) 10; MkGenesisSubject (w_key 2) 300] 0.
Lemma InitGenesis_ExportGenesis_witness :
  exists k', InitGenesis w_genesis (w_keeper NewMemStore) = Some k' /\
    g_GenesisSubjects (ExportGenesis k') =
    [MkGenesisSubject (w_key 1) 10; MkGenesisSubject (w_key 2) 255].
Proof.
  destruct (InitGenesis_ExportGenesis w_genesis (w_keeper NewMemStore)) as (k' & H & _ & _ & He);
    [done|done| | |by vm_compute|].
  - apply (bool_decide_unpack _). by vm_compute.
  - constructor; [done|]. constructor; [done|constructor].
  - exists k'. split; [exact H|]. rewrite He. reflexivity.
Defined.

Definition w_join : bytes := EncodeJoin (MkJoinBlob 0 (str "carol") 5 []).
Definition w_leave : bytes := EncodeLeave (MkLeaveBlob 0 (str "carol")).
Lemma forgetMembership_spec_witness :
  PendingMembershipTxs w_host (forgetMembership w_host (str "carol") true false
    (with_queue [w_join; w_leave] ∅ (w_keeper NewMemStore))) = [w_leave].
Proof. rewrite (forgetMembership_spec w_host (str "carol")) by done. by vm_compute. Defined.

Lemma applyQueuedMembership_spec_witness :
  let k := with_queue [w_join] ∅ (w_keeper w_val2) in
  str "carol" ∈ pw_Subject <$> applyQueuedMembership w_host k 0 (roster_powers w_vrows).
Proof.
  intros k. destruct (applyQueuedMembership_spec w_host k 0 (roster_powers w_vrows))
    as (_ & _ & _ & _ & H).
  - apply (bool_decide_unpack _). by vm_compute.
  - apply H.
    + replace (pending_joins w_host k) with [MkSubjectPower (str "carol") 5 true] by (by vm_compute).
      left.
    + replace (pending_leaves w_host k 0) with (∅ : gset bytes) by (by vm_compute).
      apply not_elem_of_empty.
Defined.
