(* ===== verification/LvAbci.v ===== *)
(** * x/leanval: proposals, mempool and block life cycle

    [keeper/abci.go] (building, injecting, checking and staging the LNPR),
    [keeper/ssle.go] (building), [keeper/sdk_wrap.go], [txdecode.go],
    [checktx.go], [reap.go], and the lean part of the application's PreBlocker
    and EndBlocker ([app/app.go]). The inner handlers (hashmerchant's, or the
    SDK's) are parameters. *)

From S2P Require Import Prelude Sha256 KVStore LvTypes LvCodec LvDummyStwo LvMerkle LvBitfield.
From S2P Require Import LvHost LvPower LvKeeper.

#[local] Open Scope go_scope.

(** ** Finding and injecting *)

Fixpoint FindLNPR (txs : list bytes) : option (LNPRBlob * nat) :=
  match txs with
  | [] => None
  | tx :: txs' =>
      match DecodeLNPR tx with
      | Some blob => Some (blob, O)
      | None => match FindLNPR txs' with
                | Some (blob, i) => Some (blob, S i)
                | None => None
                end
      end
  end.

Definition expectedLNPRIndex (txs : list bytes) : nat :=
  match txs with
  | tx :: _ => if has_prefix PrefixHMVE tx then 1 else 0
  | [] => 0
  end.

(** [append(out, nil); copy(out[idx+1:], out[idx:]); out[idx] = x]. *)
Definition insert_at (idx : nat) (x : bytes) (l : list bytes) : list bytes :=
  take idx l ++ x :: drop idx l.

Definition injectLNPR (txs : list bytes) (lnpr : bytes) : list bytes :=
  let out := filter (fun tx => has_prefix PrefixLNPR tx = false) txs in
  insert_at (expectedLNPRIndex out) lnpr out.

(** The index scan of [injectSSLE]: after the LNPR if there is one, else
    after the last HMVE. *)
Fixpoint ssle_index (idx i : nat) (out : list bytes) : nat :=
  match out with
  | [] => idx
  | tx :: out' =>
      if has_prefix PrefixLNPR tx then S i
      else ssle_index (if has_prefix PrefixHMVE tx then S i else idx) (S i) out'
  end.

Definition injectSSLE (txs : list bytes) (ssle : bytes) : list bytes :=
  let out := filter (fun tx => has_prefix PrefixSSLE tx = false) txs in
  insert_at (ssle_index 0 0 out) ssle out.

(** [mergeMembershipFromComet]. *)
Fixpoint merge_membership (seen : gset bytes) (reqTxs : list bytes) : list bytes :=
  match reqTxs with
  | [] => []
  | tx :: l =>
      if negb (IsMembershipTx tx) then merge_membership seen l
      else if bool_decide (tx ∈ seen) then merge_membership seen l
      else tx :: merge_membership ({[tx]} ∪ seen) l
  end.
Definition mergeMembershipFromComet (reqTxs proposed : list bytes) : list bytes :=
  proposed ++ merge_membership (list_to_set proposed) reqTxs.

(** ** Building the LNPR *)

Definition joinProofFor (h : host) (k : Keeper) (subj : bytes) : bytes :=
  default [] (find_map (fun tx =>
    match DecodeJoin tx with
    | Some j => if bytes_eqb (join_Subject j) subj then Some (join_Proof j) else None
    | None => None
    end) (PendingMembershipTxs h k)).

(** The proof a joining subject carries. *)
Definition extra_proof (h : host) (k : Keeper) (period extraIdx : Z) (s : SubjectProof) : bytes :=
  let proof := joinProofFor h k (sp_Subject s) in
  let proof := if containsDSTW proof then [] else proof in
  if blen proof =? 0 then
    match proveValsetStwo h period extraIdx (ebOfWeight (sp_Weight s)) with
    | Ok p => p
    | Err _ => []
    end
  else proof.

Fixpoint prove_extras (h : host) (k : Keeper) (period : Z) (known : gset bytes) (extraIdx : Z)
    (subs : list SubjectProof) : list SubjectProof :=
  match subs with
  | [] => []
  | s :: subs' =>
      if bool_decide (sp_Subject s ∈ known) || (sp_Weight s <=? 0)
      then s :: prove_extras h k period known extraIdx subs'
      else MkSubjectProof (sp_Subject s) (sp_Weight s) (extra_proof h k period extraIdx s)
           :: prove_extras h k period known (u32 (extraIdx + 1)) subs'
  end.

Definition set_proof (p : bytes) (s : SubjectProof) : SubjectProof :=
  MkSubjectProof (sp_Subject s) (sp_Weight s) p.

(** The fold proof goes on the first roster subject (on the first subject if
    there is none). *)
Definition attach_fold (known : gset bytes) (fold : bytes) (subs : list SubjectProof)
  : list SubjectProof :=
  match subs with
  | [] => [MkSubjectProof (DepositIndexBytes 0) 0 fold]
  | _ =>
      let idx := match list_find (fun s => sp_Subject s ∈ known) subs with
                 | Some (i, _) => i
                 | None => O
                 end in
      alter (set_proof fold) idx subs
  end.

Fixpoint dummy_fill (period : Z) (roots : bytes) (raw : Z) (subs : list SubjectProof)
  : list SubjectProof :=
  match subs with
  | [] => []
  | s :: subs' =>
      if MaxRawStarksPerLNPR <=? raw then subs
      else if 0 <? blen (sp_Proof s) then s :: dummy_fill period roots raw subs'
      else set_proof (DummyStwoProveBoundRoots period (sp_Subject s) (sp_Weight s) roots) s
           :: dummy_fill period roots (raw + 1) subs'
  end.

Definition build_blob (h : host) (period : Z) (k : Keeper) : Keeper * LNPRBlob :=
  let k := upd_store syncObjectRoots k in
  let '(m, set) := match DebugSubjectsFromBits (k_store k) with
                   | [] => BondedSetOrCarry period (k_store k)
                   | set => (k_store k, set)
                   end in
  let k := with_store m k in
  let known := list_to_set (pw_Subject <$> set) in
  let set := applyQueuedMembership h k period set in
  let subs := map (fun s => MkSubjectProof (pw_Subject s) (pw_Weight s) []) set in
  let roots := LastObjectRoots (k_store k) in
  let subs := prove_extras h k period known (nextDepositIndex (k_store k)) subs in
  (k, MkLNPRBlob period
        (match ProveSameStatementFold h (foldPairStrings roots) with
         | Ok fold =>
             if 0 <? blen fold then attach_fold known fold subs
             else if k_AllowDummy k then dummy_fill period roots 0 subs else subs
         | Err _ => if k_AllowDummy k then dummy_fill period roots 0 subs else subs
         end)).

Definition buildLNPR (h : host) (period : Z) (k : Keeper) : Keeper * bytes :=
  let '(k, blob) := build_blob h period k in (k, EncodeLNPR blob).

Definition InjectLocalProofs (period : Z) (subjects : list SubjectProof) : bytes :=
  EncodeLNPR (MkLNPRBlob period subjects).

Definition buildSSLE (h : host) (period height : Z) (proposer : bytes) : bytes :=
  match ProveSSLE h period height proposer with
  | Ok (ticket, proof) => EncodeSSLE (MkSSLEBlob period height ticket proposer proof)
  | Err _ => []
  end.

(** ** Prepare and Process *)

Record prepare_request := MkPrepare { pr_Height : Z; pr_Txs : list bytes; pr_Proposer : bytes }.

(** The inner handler answers with transactions, with no response, or with an
    error; [None] for the handler itself is a nil handler. *)
Definition prepare_inner := option (prepare_request -> result lean_error (option (list bytes))).

Definition note_all (h : host) (txs : list bytes) (k : Keeper) : Keeper :=
  fold_left (fun k tx => NoteMembershipTx h tx k) txs k.

(** Membership transactions are queued and dropped from the proposal. *)
Definition drop_membership (txs : list bytes) : list bytes :=
  filter (fun tx => IsMembershipTx tx = false) txs.
Definition membership_only (txs : list bytes) : list bytes :=
  filter (fun tx => IsMembershipTx tx = true) txs.

Definition WrapPrepareProposal (h : host) (inner : prepare_inner) (req : prepare_request)
  : meth Keeper lean_error (list bytes) :=
  run! txs <- mlift (match inner with
                     | None => Ok (pr_Txs req)
                     | Some f => try! resp <- f req; Ok (default [] resp)
                     end);
  fun k =>
    let period := PeriodFromHeight (live_blocks k) (pr_Height req) in
    let k := note_all h (pr_Txs req) k in
    let k := note_all h (membership_only txs) k in
    let '(k, lnpr) := buildLNPR h period k in
    let txs := injectLNPR (drop_membership txs) lnpr in
    let ssle := buildSSLE h period (pr_Height req) (pr_Proposer req) in
    (k, Ok (if 0 <? blen ssle then injectSSLE txs ssle else txs)).

Definition checkLNPR (h : host) (height : Z) (txs : list bytes) : meth Keeper lean_error unit :=
  fun k =>
  match FindLNPR txs with
  | None => (k, guard (k_RequireLNPR k) ELNPROmitted)
  | Some (blob, idx) =>
      if negb (idx =? expectedLNPRIndex txs)%nat
      then (k, Err (ELNPRWrongIndex idx (expectedLNPRIndex txs)))
      else
        let want := PeriodFromHeight (live_blocks k) height in
        if negb (lnpr_Period blob =? want) then (k, Err (ELNPRPeriod (lnpr_Period blob) want))
        else VerifyLNPR h blob k
  end.

Definition checkSSLE (h : host) (live height : Z) (txs : list bytes) : result lean_error unit :=
  match FindSSLE txs with
  | None => Ok tt
  | Some (blob, _) =>
      let want := PeriodFromHeight live height in
      check! guard (negb (ssle_Period blob =? want)) (ESSLEPeriod (ssle_Period blob) want);
      check! guard (negb (ssle_Height blob =? height)) (ESSLEHeight (ssle_Height blob) height);
      VerifySSLEProof h (ssle_Proof blob) (ssle_Period blob) (ssle_Height blob) (ssle_Ticket blob)
  end.

Inductive process_status := ACCEPT | REJECT.

Definition process_inner := option (Z -> list bytes -> result lean_error process_status).

Definition WrapProcessProposal (h : host) (inner : process_inner) (height : Z) (txs : list bytes)
  : meth Keeper lean_error process_status :=
  fun k =>
  match checkLNPR h height txs k with
  | (k, Err _) => (k, Ok REJECT)
  | (k, Ok _) =>
      match checkSSLE h (live_blocks k) height txs with
      | Err _ => (k, Ok REJECT)
      | Ok _ => (k, match inner with None => Ok ACCEPT | Some f => f height txs end)
      end
  end.

(** [SDKWrapPrepare] and [SDKWrapProcess]: bind the context's store, attach
    the context's gas meter for Process and detach it afterwards. *)
Definition SDKWrapPrepare (h : host) (inner : prepare_inner) (ctx_store : store) (req : prepare_request)
  : meth Keeper lean_error (list bytes) :=
  fun k => WrapPrepareProposal h inner req (BindContext ctx_store k).
Definition SDKWrapProcess (h : host) (inner : process_inner) (ctx_store : store) (gas : Z)
    (height : Z) (txs : list bytes) : meth Keeper lean_error process_status :=
  fun k =>
  let '(k, r) := WrapProcessProposal h inner height txs (SetGasMeter (Some gas) (BindContext ctx_store k)) in
  (SetGasMeter None k, r).

(** ** Finalize *)

Definition ProcessInjectedLNPR (h : host) (txs : list bytes) : meth Keeper lean_error unit :=
  fun k =>
  match FindLNPR txs with
  | None => (k, guard (k_RequireLNPR k) ELNPROmitted)
  | Some (blob, _) =>
      match VerifyLNPR h blob k with
      | (k, Err e) => (k, Err e)
      | (k, Ok _) =>
          let k := with_pendingLNPR (Some blob) k in
          if negb (k_hasKey k) then ApplyLNPR h blob k else (k, Ok tt)
      end
  end.

Definition ApplyStagedLNPR (h : host) : meth Keeper lean_error unit :=
  fun k =>
  match k_pendingLNPR k with
  | None => (k, Ok tt)
  | Some blob => ApplyLNPR h blob (with_pendingLNPR None k)
  end.

(** The lean part of [TerpApp.EndBlocker]: apply the staged LNPR, then, when
    lean owns the validator set, announce powers. *)
Definition app_EndBlocker (h : host) (ctx_store : store) (height : Z) (k : Keeper)
  : Keeper * result lean_error (option (list ValidatorUpdate)) :=
  match ApplyStagedLNPR h (BindContext ctx_store k) with
  | (k, Err e) => (k, Err e)
  | (k, Ok _) =>
      if OwnsValset k then
        let p := PeriodFromHeight (live_blocks k) height in
        let k := SetEndPeriod p k in
        let '(m, ups) := ValidatorUpdates p (k_store k) in
        (with_store m k, Ok (Some ups))
      else (k, Ok None)
  end.

(** ** Mempool *)

Definition membership_decodes (tx : bytes) : result lean_error unit :=
  match DecodeJoin tx with
  | Some j => match ValidateJoin j with Ok _ => Ok tt | Err e => Err (EMembership e) end
  | None =>
      match DecodeLeave tx with
      | Some l => match ValidateLeave l with Ok _ => Ok tt | Err e => Err (EMembership e) end
      | None => Err EInner
      end
  end.

(** [WrapTxDecoder]: [inl] is a decoded membership transaction, [inr] the
    inner decoder's transaction. *)
Definition WrapTxDecoder {Tx : Type} (inner : bytes -> result lean_error Tx) (tx : bytes)
  : result lean_error (bytes + Tx) :=
  check! guard (RejectMempoolLNPR tx) EInner;
  check! guard (RejectMempoolSSLE tx) EInner;
  if IsMembershipTx tx then
    check! membership_decodes tx;
    Ok (inl tx)
  else try! t <- inner tx; Ok (inr t).

(** [CheckTx]: the response code; [runTx] is true when the inner run succeeds. *)
Definition CheckTx (runTx : bytes -> bool) (tx : bytes) : Z :=
  if IsMembershipTx tx then (if is_ok (membership_decodes tx) then 0 else 1)
  else if runTx tx then 0 else 1.

Definition NewCheckTx (h : host) (runTx : bytes -> bool) (tx : bytes) (k : Keeper) : Keeper * Z :=
  let code := CheckTx runTx tx in
  (if code =? 0 then NoteMembershipTx h tx k else k, code).

Definition NewInsertTx (h : host) (tx : bytes) (k : Keeper) : Keeper := NoteMembershipTx h tx k.
Definition NewReapTxs (h : host) (k : Keeper) : list bytes := PendingMembershipTxs h k.

(** ** Lemmas on placement *)

Lemma DecodeLNPR_prefix tx blob : DecodeLNPR tx = Some blob -> has_prefix PrefixLNPR tx = true.
Proof.
  intros H. apply DecodeLNPR_inv in H as (_ & tl & ->). unfold EncodeLNPR.
  rewrite <- !app_assoc. apply has_prefix_app.
Qed.

Lemma FindLNPR_none txs :
  (forall tx, tx ∈ txs -> has_prefix PrefixLNPR tx = false) -> FindLNPR txs = None.
Proof.
  induction txs as [|tx txs IH]; intros H; [done|]. cbn [FindLNPR].
  destruct (DecodeLNPR tx) eqn:E.
  - apply DecodeLNPR_prefix in E. rewrite H in E by left. done.
  - rewrite IH; [done|]. intros t Ht. apply H. by right.
Qed.

(** The first decodable transaction is found at its position. *)
Lemma FindLNPR_app l1 tx l2 blob :
  (forall t, t ∈ l1 -> has_prefix PrefixLNPR t = false) -> DecodeLNPR tx = Some blob ->
  FindLNPR (l1 ++ tx :: l2) = Some (blob, length l1).
Proof.
  induction l1 as [|t l1 IH]; intros H Hd; cbn [app FindLNPR length].
  - by rewrite Hd.
  - destruct (DecodeLNPR t) eqn:E.
    + apply DecodeLNPR_prefix in E. rewrite H in E by left. done.
    + rewrite IH; [done| |done]. intros t' Ht. apply H. by right.
Qed.

(** Two different four-byte prefixes exclude each other. *)
Lemma has_prefix_excl p q tx :
  length p = length q -> p <> q -> has_prefix p tx = true -> has_prefix q tx = false.
Proof.
  intros Hl Hne Hp. apply not_true_iff_false. intros Hq.
  apply has_prefix_take in Hp, Hq. rewrite Hl in Hp. congruence.
Qed.

(** A proposal body with the LNPR in its slot: HMVE first if there is one. *)
Inductive lnpr_placed (lnpr : bytes) : list bytes -> Prop :=
| placed_first rest :
    (forall t, t ∈ rest -> has_prefix PrefixLNPR t = false) ->
    lnpr_placed lnpr (lnpr :: rest)
| placed_second hm rest :
    has_prefix PrefixHMVE hm = true ->
    (forall t, t ∈ rest -> has_prefix PrefixLNPR t = false) ->
    lnpr_placed lnpr (hm :: lnpr :: rest).

Lemma injectLNPR_placed txs lnpr : lnpr_placed lnpr (injectLNPR txs lnpr).
Proof.
  unfold injectLNPR, insert_at.
  assert (Hf : forall t, t ∈ filter (fun tx => has_prefix PrefixLNPR tx = false) txs ->
    has_prefix PrefixLNPR t = false) by (intros t Ht; by apply list_elem_of_filter in Ht as [? _]).
  destruct (filter _ txs) as [|tx out]; [constructor; intros t Ht; by apply elem_of_nil in Ht|].
  cbn [expectedLNPRIndex]. destruct (has_prefix PrefixHMVE tx) eqn:E; cbn [take drop app].
  - constructor; [done|]. intros t Ht. apply Hf. by right.
  - by constructor.
Qed.

Lemma placed_found lnpr txs blob :
  lnpr_placed lnpr txs -> has_prefix PrefixLNPR lnpr = true -> DecodeLNPR lnpr = Some blob ->
  FindLNPR txs = Some (blob, expectedLNPRIndex txs).
Proof.
  intros Hp Hl Hd. destruct Hp as [rest Hr|hm rest Hh Hr]; cbn [expectedLNPRIndex].
  - rewrite (has_prefix_excl PrefixLNPR PrefixHMVE lnpr) by done.
    apply (FindLNPR_app [] lnpr rest blob); [intros t Ht; by apply elem_of_nil in Ht|done].
  - rewrite Hh. apply (FindLNPR_app [hm] lnpr rest blob); [|done].
    intros t Ht. apply list_elem_of_singleton in Ht as ->. by apply (has_prefix_excl PrefixHMVE).
Qed.

(** Injecting an SSLE keeps the LNPR in its slot. *)
Lemma injectSSLE_placed lnpr txs ssle :
  has_prefix PrefixLNPR lnpr = true -> has_prefix PrefixSSLE ssle = true ->
  lnpr_placed lnpr txs -> lnpr_placed lnpr (injectSSLE txs ssle).
Proof.
  intros Hl Hs Hp. unfold injectSSLE, insert_at.
  assert (Hls : has_prefix PrefixSSLE lnpr = false) by (by apply (has_prefix_excl PrefixLNPR)).
  assert (Hsl : has_prefix PrefixLNPR ssle = false) by (by apply (has_prefix_excl PrefixSSLE)).
  destruct Hp as [rest Hr|hm rest Hh Hr].
  - rewrite filter_cons_True by done. cbn [ssle_index]. rewrite Hl. cbn [take drop app].
    constructor. intros t Ht. apply elem_of_cons in Ht as [->|Ht]; [done|].
    apply list_elem_of_filter in Ht as [_ Ht]. by apply Hr.
  - rewrite filter_cons_True by (by apply (has_prefix_excl PrefixHMVE)).
    rewrite filter_cons_True by done.
    cbn [ssle_index]. rewrite (has_prefix_excl PrefixHMVE PrefixLNPR hm) by done. rewrite Hl.
    cbn [take drop app]. constructor; [done|]. intros t Ht.
    apply elem_of_cons in Ht as [->|Ht]; [done|].
    apply list_elem_of_filter in Ht as [_ Ht]. by apply Hr.
Qed.

Lemma EncodeSSLE_prefix b : has_prefix PrefixSSLE (EncodeSSLE b) = true.
Proof. unfold EncodeSSLE. cbv zeta. apply has_prefix_app. Qed.
Lemma EncodeLNPR_prefix b : has_prefix PrefixLNPR (EncodeLNPR b) = true.
Proof. unfold EncodeLNPR. cbv zeta. apply has_prefix_app. Qed.

Lemma elem_of_insert_at idx x l t : t ∈ insert_at idx x l <-> t = x \/ t ∈ l.
Proof.
  unfold insert_at. rewrite elem_of_app, elem_of_cons.
  rewrite <- (take_drop idx l) at 3. rewrite elem_of_app. tauto.
Qed.
Lemma elem_of_injectLNPR txs lnpr t :
  t ∈ injectLNPR txs lnpr -> t = lnpr \/ t ∈ txs.
Proof.
  unfold injectLNPR. rewrite elem_of_insert_at, list_elem_of_filter. tauto.
Qed.
Lemma elem_of_injectSSLE txs ssle t : t ∈ injectSSLE txs ssle -> t = ssle \/ t ∈ txs.
Proof.
  unfold injectSSLE. rewrite elem_of_insert_at, list_elem_of_filter. tauto.
Qed.

Lemma not_membership p tx :
  length p = 4%nat -> p <> PrefixJOIN -> p <> PrefixLEAV -> has_prefix p tx = true ->
  IsMembershipTx tx = false.
Proof.
  intros Hl H1 H2 Hp. unfold IsMembershipTx.
  rewrite (has_prefix_excl p PrefixJOIN), (has_prefix_excl p PrefixLEAV) by done. done.
Qed.

Lemma buildSSLE_prefix h period height proposer :
  0 < blen (buildSSLE h period height proposer) ->
  has_prefix PrefixSSLE (buildSSLE h period height proposer) = true.
Proof.
  unfold buildSSLE. destruct (ProveSSLE _ _ _ _) as [[ticket proof]|e]; [|done].
  intros _. apply EncodeSSLE_prefix.
Qed.

Lemma build_blob_period h period k : lnpr_Period (build_blob h period k).2 = period.
Proof.
  unfold build_blob. cbv zeta. by destruct (match DebugSubjectsFromBits _ with [] => _ | _ => _ end).
Qed.

Lemma live_note_all h txs k : live_blocks (note_all h txs k) = live_blocks k.
Proof.
  unfold note_all. revert k. induction txs as [|tx txs IH]; intros k; [done|]. cbn [fold_left].
  rewrite IH. unfold NoteMembershipTx, NoteMembershipBytes. by repeat case_match.
Qed.

(** ** Theorems on proposals *)

(** C6: every proposal Prepare builds has the module's LNPR, for the period
    of the block, in the one slot Process expects (first, or second after an
    HMVE transaction), with no other LNPR-prefixed transaction and no JOIN or
    LEAV left in it, whatever the inner handler answered. So for any keeper
    with the same period length, Process's LNPR check is exactly the
    verification of the blob that Prepare built, when the wire format can
    carry that blob. *)
Theorem WrapPrepareProposal_placed h inner req k k' txs :
  WrapPrepareProposal h inner req k = (k', Ok txs) ->
  let period := PeriodFromHeight (live_blocks k) (pr_Height req) in
  exists k1 blob,
    build_blob h period k1 = (k', blob) /\ lnpr_placed (EncodeLNPR blob) txs /\
    (forall tx, tx ∈ txs -> IsMembershipTx tx = false) /\
    (lnpr_wf blob -> forall k2, live_blocks k2 = live_blocks k ->
       checkLNPR h (pr_Height req) txs k2 = VerifyLNPR h blob k2).
Proof.
  intros H period. unfold WrapPrepareProposal, mbind, mlift in H.
  destruct (match inner with None => _ | Some f => _ end) as [txs0|e]; [|done].
  fold period in H. unfold buildLNPR in H.
  set (k1 := note_all h (membership_only txs0) _) in H.
  destruct (build_blob h period k1) as [k2 blob] eqn:Eb. injection H as <- Htxs.
  exists k1, blob. split; [done|].
  pose proof (EncodeLNPR_prefix blob) as Hpre.
  set (ssle := buildSSLE h period (pr_Height req) (pr_Proposer req)) in Htxs.
  assert (Hplaced : lnpr_placed (EncodeLNPR blob) txs).
  { subst txs. destruct (0 <? blen ssle) eqn:Es; zbool; [|apply injectLNPR_placed].
    apply injectSSLE_placed; [done|by apply buildSSLE_prefix|apply injectLNPR_placed]. }
  split; [done|]. split.
  - intros tx Hin. assert (Hcase : tx = ssle /\ 0 < blen ssle \/ tx = EncodeLNPR blob \/
      tx ∈ drop_membership txs0).
    { subst txs. destruct (0 <? blen ssle) eqn:Es; zbool.
      - apply elem_of_injectSSLE in Hin as [->|Hin]; [by left|].
        apply elem_of_injectLNPR in Hin. tauto.
      - apply elem_of_injectLNPR in Hin. tauto. }
    destruct Hcase as [[-> Hs]|[->|Hd]].
    + apply (not_membership PrefixSSLE); try done. by apply buildSSLE_prefix.
    + by apply (not_membership PrefixLNPR).
    + by apply list_elem_of_filter in Hd as [? _].
  - intros Hwf k3 Hlive. unfold checkLNPR.
    assert (Hd : DecodeLNPR (EncodeLNPR blob) = Some blob).
    { rewrite <- (app_nil_r (EncodeLNPR blob)). by apply DecodeLNPR_encode. }
    rewrite (placed_found _ _ _ Hplaced Hpre Hd), Nat.eqb_refl. cbn [negb].
    pose proof (build_blob_period h period k1) as Hp. rewrite Eb in Hp. cbn [snd] in Hp.
    rewrite Hp, Hlive. fold period. by rewrite Z.eqb_refl.
Qed.


(** ** Staging *)

Lemma VerifyLNPR_pending h blob k : k_pendingLNPR (VerifyLNPR h blob k).1 = k_pendingLNPR k.
Proof.
  unfold VerifyLNPR, verifyLNPR. destruct (CheckLNPRUniqueness _ _); [|done]. cbv zeta.
  destruct (is_nil _); [done|]. destruct (verify_fold _ _ _ _); [|done].
  by destruct (knownSubjectSet _ _).
Qed.

Lemma apply_subject_pending h period k s : k_pendingLNPR (apply_subject h period k s) = k_pendingLNPR k.
Proof. unfold apply_subject, forgetMembership. cbv zeta. by repeat case_match. Qed.

Lemma ApplyLNPR_pending h blob k : k_pendingLNPR (ApplyLNPR h blob k).1 = k_pendingLNPR k.
Proof.
  unfold ApplyLNPR. pose proof (VerifyLNPR_pending h blob k) as H.
  destruct (VerifyLNPR h blob k) as [k1 [u|e]]; [|done]. cbn [fst] in *. rewrite <- H.
  change (k_pendingLNPR (upd_store _ ?x)) with (k_pendingLNPR x).
  clear H. revert k1. induction (lnpr_Subjects blob) as [|s l IH]; intros k1; [done|].
  cbn [fold_left]. rewrite IH. apply apply_subject_pending.
Qed.

Lemma with_pendingLNPR_same b k :
  k_pendingLNPR k = None -> with_pendingLNPR None (with_pendingLNPR b k) = k.
Proof. destruct k. cbn. by intros ->. Qed.

(** With a store key, an LNPR accepted in PreBlock is staged and nothing
    is applied; at the end of the block exactly that blob is applied, once, to
    the state the verification left, and the staging slot is empty. *)
Theorem staged_LNPR_applied_once h txs k k1 blob i :
  k_hasKey k = true -> k_pendingLNPR k = None -> FindLNPR txs = Some (blob, i) ->
  ProcessInjectedLNPR h txs k = (k1, Ok tt) ->
  k_pendingLNPR k1 = Some blob /\
  exists k2, VerifyLNPR h blob k = (k2, Ok tt) /\ k_store k1 = k_store k2 /\
    ApplyStagedLNPR h k1 = ApplyLNPR h blob k2 /\
    ApplyStagedLNPR h (ApplyStagedLNPR h k1).1 = ((ApplyStagedLNPR h k1).1, Ok tt).
Proof.
  intros Hk Hp Hf H. unfold ProcessInjectedLNPR in H. rewrite Hf in H.
  pose proof (VerifyLNPR_pending h blob k) as Hv.
  destruct (VerifyLNPR h blob k) as [k2 [[]|e]] eqn:Ev; [|done]. cbn [fst] in Hv. rewrite Hp in Hv.
  assert (Hk2 : k_hasKey k2 = k_hasKey k).
  { apply VerifyLNPR_inv in Ev as [_ [[_ ->]|(_ & _ & m & kn & _ & -> & _)]]; done. }
  change (k_hasKey (with_pendingLNPR (Some blob) k2)) with (k_hasKey k2) in H.
  rewrite Hk2, Hk in H. injection H as <-. split; [done|]. exists k2. split; [done|]. split; [done|].
  assert (Ha : ApplyStagedLNPR h (with_pendingLNPR (Some blob) k2) = ApplyLNPR h blob k2).
  { unfold ApplyStagedLNPR. cbn [k_pendingLNPR with_pendingLNPR]. f_equal.
    apply (with_pendingLNPR_same (Some blob) k2 Hv). }
  split; [done|]. rewrite Ha. unfold ApplyStagedLNPR. by rewrite ApplyLNPR_pending, Hv.
Qed.

(** ** Mempool *)


(** ** A proposer and the others, in dummy mode *)

Lemma dummy_proof_shape period subject weight roots :
  let p := DummyStwoProveBoundRoots period subject weight roots in
  blen p = 18 /\ slice_to 18 p = p /\ isSTWO p = false /\ isFoldProof p = false.
Proof.
  intros p. assert (Hl : length p = 18%nat).
  { subst p. unfold DummyStwoProveBoundRoots. destruct (dummySeedsBound _ _ _ _) as [a b].
    unfold DummyStwoProve. cbv zeta. rewrite !length_app, !length_le32_put. done. }
  assert (Hs : isSTWO p = false).
  { subst p. unfold DummyStwoProveBoundRoots. by destruct (dummySeedsBound _ _ _ _) as [a b]. }
  split; [unfold blen; lia|]. split; [unfold slice_to; rewrite take_ge; [done|lia]|].
  split; [done|]. unfold isFoldProof. by rewrite Hs, andb_false_r.
Qed.

Section DummyMode.
Context (h : host) (c : verifier_cfg) (known : gset bytes) (roots : bytes) (period : Z).
Context (Hdummy : vc_AllowDummy c = true) (Hver : vc_Verifier c = Some DummyStwoGo).
Context (Hacc : vc_verifierAcc c = []) (Hp : is_u64 period).

Lemma verifyProof_dummy proof inst :
  verifyProof h c proof inst =
  match DummyStwoGo_VerifyDummy proof inst with Ok _ => Ok tt | Err e => Err (EDummy e) end.
Proof.
  unfold verifyProof. rewrite Hacc, Hver. change (0 <? blen []) with false.
  by destruct (wasm_sudo h).
Qed.

Lemma verifySubject_dummy i s :
  is_i64 (sp_Weight s) ->
  let p := DummyStwoProveBoundRoots period (sp_Subject s) (sp_Weight s) roots in
  verifySubjectProof h c period i (set_proof p s) roots = Ok tt.
Proof.
  intros Hw p. destruct (dummy_proof_shape period (sp_Subject s) (sp_Weight s) roots)
    as (Hl & Hsl & Hst & _). fold p in Hl, Hsl, Hst.
  unfold verifySubjectProof. cbn [sp_Proof sp_Subject sp_Weight set_proof].
  rewrite Hst, andb_false_r, Hdummy. cbn [negb guard rbind]. rewrite verifyProof_dummy.
  assert (Hv : DummyStwoGo_VerifyDummy p
    (instancesForRoots period (sp_Subject s) (sp_Weight s) roots) = Ok tt); [|by rewrite Hv].
  apply VerifyDummy_seeds; [done|done|]. rewrite Hl. split; [split; done|done].
Qed.

Lemma verifySubject_empty i s :
  sp_Proof s = [] -> is_ok (verifySubjectProof h c period i s roots) = false.
Proof.
  intros He. unfold verifySubjectProof. rewrite He, Hdummy. cbn [blen length negb guard rbind].
  change (4 <=? Z.of_nat 0) with false. cbn [andb]. by rewrite verifyProof_dummy.
Qed.

Lemma verify_rows_dummy l i raw x :
  Forall (fun s => sp_Proof s = [] /\ is_i64 (sp_Weight s) /\ sp_Subject s ∈ known) l ->
  0 <= raw <= MaxRawStarksPerLNPR ->
  verify_rows h c false known roots period i raw x (dummy_fill period roots raw l) = Ok tt <->
  raw + Z.of_nat (length l) <= MaxRawStarksPerLNPR.
Proof.
  intros Hl. revert i raw. induction Hl as [|s l (He & Hw & Hk) Hl IH]; intros i raw Hr.
  - cbn. split; [lia|done].
  - assert (Hx : forall p, is_extra known (set_proof p s) = false).
    { intros p. unfold is_extra. cbn [sp_Subject set_proof]. by rewrite bool_decide_eq_true_2. }
    cbn [dummy_fill length]. destruct (MaxRawStarksPerLNPR <=? raw) eqn:Em; zbool.
    + split; [|lia]. intros H. cbn [verify_rows] in H. cbv zeta in H.
      pose proof (Hx []) as Hx0. replace (set_proof [] s) with s in Hx0
        by (destruct s; cbn in *; by subst).
      rewrite Hx0, He, !andb_false_r in H. cbn [guard rbind blen length] in H.
      change (0 <? Z.of_nat 0) with false in H. cbn [andb guard rbind] in H.
      change (MaxProofBytes <? Z.of_nat 0) with false in H. cbn [guard rbind] in H.
      pose proof (verifySubject_empty i s He) as Hv.
      by destruct (verifySubjectProof h c period i s roots).
    + rewrite He. change (0 <? blen []) with false. cbv iota.
      set (p := DummyStwoProveBoundRoots period (sp_Subject s) (sp_Weight s) roots).
      destruct (dummy_proof_shape period (sp_Subject s) (sp_Weight s) roots) as (Hpl & _ & _ & Hpf).
      fold p in Hpl, Hpf. cbn [verify_rows]. cbv zeta.
      change (sp_Proof (set_proof p s)) with p.
      rewrite Hx, !andb_false_r, Hpl, Hpf. cbn [guard rbind].
      change (0 <? 18) with true. cbn [andb negb].
      rewrite (proj2 (Z.ltb_ge MaxRawStarksPerLNPR (raw + 1))) by lia. cbn [guard rbind].
      change (MaxProofBytes <? 18) with false. cbn [guard rbind].
      pose proof (verifySubject_dummy i s Hw) as Hv. cbv zeta in Hv. fold p in Hv.
      rewrite Hv. cbn [rbind].
      rewrite (IH (i + 1) (raw + 1)) by lia. lia.
Qed.
End DummyMode.

Lemma dummy_fill_no_fold period roots raw l :
  Forall (fun s => sp_Proof s = []) l ->
  find_map (fun s => if isFoldProof (sp_Proof s) then Some (sp_Proof s) else None)
    (dummy_fill period roots raw l) = None.
Proof.
  intros Hl. revert raw. induction Hl as [|s l He Hl IH]; intros raw; [done|].
  cbn [dummy_fill]. destruct (_ <=? raw).
  - apply find_map_None. intros x Hx. assert (Hx' : sp_Proof x = []).
    { apply elem_of_cons in Hx as [->|Hx]; [done|]. rewrite Forall_forall in Hl. by apply Hl. }
    by rewrite Hx'.
  - rewrite He. change (0 <? blen []) with false. cbn [find_map].
    change (sp_Proof (set_proof ?p s)) with p.
    destruct (dummy_proof_shape period (sp_Subject s) (sp_Weight s) roots) as (_ & _ & _ & ->).
    apply IH.
Qed.

Lemma dummy_fill_subjects period roots raw l :
  sp_Subject <$> dummy_fill period roots raw l = sp_Subject <$> l.
Proof.
  revert raw. induction l as [|s l IH]; intros raw; [done|]. cbn [dummy_fill].
  destruct (_ <=? raw); [done|]. destruct (0 <? _); rewrite !fmap_cons, IH; done.
Qed.

Lemma prove_extras_known h k period known x l :
  Forall (fun s => sp_Subject s ∈ known) l -> prove_extras h k period known x l = l.
Proof.
  induction 1 as [|s l Hs Hl IH]; [done|]. cbn [prove_extras].
  rewrite bool_decide_eq_true_2 by done. cbn [orb]. by rewrite IH.
Qed.

Lemma roster_powers_facts rows i :
  named rows -> NoDup (row_subject <$> rows) ->
  NoDup (pw_Subject <$> roster_powers_from i rows) /\
  pw_Subject <$> roster_powers_from i rows `sublist_of` row_subject <$> rows /\
  Forall (fun x => is_i64 (pw_Weight x)) (roster_powers_from i rows).
Proof.
  intros Hn Hd. assert (H : pw_Subject <$> roster_powers_from i rows `sublist_of` row_subject <$> rows /\
    Forall (fun x => is_i64 (pw_Weight x)) (roster_powers_from i rows)).
  { clear Hd. revert i. induction rows as [|r rows IH]; intros i; [done|].
    unfold named in Hn. rewrite fmap_cons, not_elem_of_cons in Hn. destruct Hn as [Hr Hn].
    destruct (IH Hn (S i)) as [H1 H2]. rewrite fmap_cons. cbn [roster_powers_from].
    destruct (row_bit r); cbn [app]; [|split; [by constructor|done]]. split.
    - rewrite fmap_cons. unfold row_power at 1. cbn [pw_Subject].
      destruct (blen (row_subject r) =? 0) eqn:E; zbool; [apply blen_nil_iff in E; congruence|].
      by constructor.
    - constructor; [|done]. unfold row_power. cbn [pw_Weight].
      pose proof (byte_val_range (default Byte.x00 (row_eb r))). unfold is_i64. lia. }
  destruct H as [H1 H2]. split; [by eapply sublist_NoDup|done].
Qed.

Lemma pending_leaves_sync h k period :
  pending_leaves h (upd_store syncObjectRoots k) period = pending_leaves h k period.
Proof.
  unfold pending_leaves. cbv zeta. rewrite k_store_upd.
  rewrite (IteratePrefix_ext (syncObjectRoots (k_store k)) (k_store k)); [done|].
  intros key Hk. apply has_prefix_PendingLeave in Hk as [s ->].
  apply sync_frame. vm_compute. set_solver.
Qed.

Lemma mark_leave_id leave l :
  (forall s, s ∈ pw_Subject <$> l -> s ∉ leave) -> map (mark_leave leave) l = l.
Proof.
  intros H. rewrite <- (map_id l) at 2. apply map_ext_in. intros x Hx. unfold mark_leave.
  rewrite bool_decide_eq_false_2; [done|]. apply H. apply list_elem_of_fmap_2.
  by apply list_elem_of_In.
Qed.

(** With no pending request, the blob is the sorted roster with dummy proofs
    on its first eight members. *)
Lemma build_blob_dummy h k rows period :
  roster_rel (k_store k) rows -> roster_powers rows <> [] -> roots_synced (k_store k) ->
  PendingMembershipTxs h k = [] -> (forall s, s ∈ live_subjects rows -> s ∉ pending_leaves h k period) ->
  fold_bin h = false -> k_AllowDummy k = true ->
  (build_blob h period k).2 =
  MkLNPRBlob period
    (dummy_fill period (LastObjectRoots (k_store k)) 0
      (map (fun s => MkSubjectProof (pw_Subject s) (pw_Weight s) [])
         (merge_sort subject_le (roster_powers rows)))).
Proof.
  intros Hrel Hne Hsync Hq Hlv Hfb Had. unfold build_blob. cbv zeta. rewrite k_store_upd.
  rewrite (DebugSubjectsFromBits_rel _ rows) by (by apply roster_rel_sync).
  destruct (roster_powers rows) as [|p0 l0] eqn:El; [done|]. rewrite <- El in *. clear El p0 l0.
  set (k1 := with_store _ _).
  assert (Hk1 : k1 = upd_store syncObjectRoots k) by done.
  assert (Hset : applyQueuedMembership h k1 period (roster_powers rows) =
                 merge_sort subject_le (roster_powers rows)).
  { rewrite applyQueuedMembership_eq, Hk1, pending_leaves_sync. f_equal.
    unfold pending_joins. change (PendingMembershipTxs h (upd_store syncObjectRoots k))
      with (PendingMembershipTxs h k). rewrite Hq. cbn [omap list_omap fresh_joins].
    rewrite app_nil_r. apply mark_leave_id. intros s Hs. apply Hlv.
    unfold live_subjects. by apply elem_of_list_to_set. }
  rewrite Hset. rewrite prove_extras_known.
  2: { apply Forall_forall. intros s Hs. apply list_elem_of_In, in_map_iff in Hs as (x & <- & Hx).
    cbn [sp_Subject]. apply elem_of_list_to_set, list_elem_of_fmap_2.
    apply list_elem_of_In in Hx. by rewrite merge_sort_Permutation in Hx. }
  change (k_store k1) with (syncObjectRoots (k_store k)). rewrite Hsync.
  unfold ProveSameStatementFold. cbv zeta. rewrite Hfb. cbn [negb guard rbind snd].
  change (k_AllowDummy k1) with (k_AllowDummy k). by rewrite Had.
Qed.


(** ** The life of a chain *)

Lemma lastPower_frame m m' s : m' !! LastPowerKey s = m !! LastPowerKey s -> lastPower m' s = lastPower m s.
Proof. intros H. unfold lastPower, store_Get. by rewrite H. Qed.

Lemma ApplyLeave_LastPower b m s : (ApplyLeave b m).1 !! LastPowerKey s = m !! LastPowerKey s.
Proof.
  unfold ApplyLeave. destruct (ValidateLeave b); [|done]. cbn [fst].
  set (m1 := store_Delete _ _).
  assert (H1 : m1 !! LastPowerKey s = m !! LastPowerKey s).
  { unfold m1, store_Delete, store_Set. rewrite lookup_delete_ne by discriminate.
    apply lookup_insert_ne. discriminate. }
  destruct (depositIndexOf m1 _); [|done]. rewrite SetEB_frame by apply LastPower_head.
  unfold BitClear. rewrite bit_frame by apply LastPower_head. done.
Qed.

Lemma apply_subject_LastPower h period k x s :
  k_store (apply_subject h period k x) !! LastPowerKey s = k_store k !! LastPowerKey s.
Proof.
  unfold apply_subject. cbv zeta. destruct (sp_Weight x <=? 0); rewrite k_store_forget.
  - destruct (depositIndexOf _ _); [|done]. rewrite k_store_upd. apply ApplyLeave_LastPower.
  - rewrite !k_store_upd. unfold store_Delete. rewrite !lookup_delete_ne by discriminate.
    destruct (depositIndexOf _ _).
    + rewrite k_store_upd. apply admitMember_frame, LastPower_head.
    + destruct (0 <? _); [|done]. rewrite k_store_upd.
      apply AcceptProof_frame; [apply LastPower_head|done].
Qed.

(** Applying an LNPR never changes what was announced. *)
Lemma ApplyLNPR_lastPower h blob k rows s :
  roster_rel (k_store k) rows -> roster_powers rows <> [] ->
  lastPower (k_store (ApplyLNPR h blob k).1) s = lastPower (k_store k) s.
Proof.
  intros Hrel Hne. apply lastPower_frame. unfold ApplyLNPR.
  destruct (VerifyLNPR h blob k) as [k1 [[]|e]] eqn:E; cbn [fst].
  - apply (VerifyLNPR_store _ _ _ _ rows) in E; [|done|done]. subst k1.
    rewrite k_store_upd, sync_frame by apply LastPower_head.
    assert (H : forall l k0, k_store (fold_left (apply_subject h (lnpr_Period blob)) l k0) !! LastPowerKey s =
      k_store k0 !! LastPowerKey s); [|by rewrite H].
    induction l as [|x l IH]; intros k0; [done|]. cbn [fold_left].
    rewrite IH. apply apply_subject_LastPower.
  - unfold VerifyLNPR, verifyLNPR in E. destruct (CheckLNPRUniqueness _ _); [|by injection E as <-].
    cbv zeta in E. destruct (is_nil _); [done|]. destruct (verify_fold _ _ _ _); [|by injection E as <-].
    rewrite k_store_gas, (knownSubjectSet_live _ rows) in E by done. by injection E as <-.
Qed.

(** A state of the chain: the keeper and the consensus engine's table. *)
Definition chain : Type := Keeper * gmap bytes Z.

(** The steps that change committed state: a transaction is noted, an LNPR is
    applied to a live set (accepted or not), powers are announced and taken by
    the engine. *)
Inductive chain_step (h : host) : chain -> chain -> Prop :=
| step_note k t tx : chain_step h (k, t) (NoteMembershipTx h tx k, t)
| step_apply k t blob :
    DebugSubjectsFromBits (k_store k) <> [] ->
    nextDepositIndex (k_store k) + Z.of_nat (length (lnpr_Subjects blob)) < 2 ^ 32 ->
    chain_step h (k, t) ((ApplyLNPR h blob k).1, t)
| step_announce k t period t' :
    engine_apply (ValidatorUpdates period (k_store k)).2 t = Some t' ->
    chain_step h (k, t) (with_store (ValidatorUpdates period (k_store k)).1 k, t').

Definition chain_inv (c : chain) : Prop :=
  exists rows, roster_rel (k_store c.1) rows /\ named rows /\ rows <> [] /\
    powers_ok (k_store c.1) /\ engine_agrees c.2 (k_store c.1).

Lemma engine_agrees_ext t m m' :
  (forall s, lastPower m' s = lastPower m s) -> engine_agrees t m -> engine_agrees t m'.
Proof. intros H Ha s. rewrite H. apply Ha. Qed.

Lemma roster_run_nonempty ops rows : rows <> [] -> roster_run ops rows <> [].
Proof.
  intros Hne E. assert (H : (length rows <= length (roster_run ops rows))%nat).
  { clear. revert rows. induction ops as [|o ops IH]; intros rows; [done|]. cbn.
    etransitivity; [|apply IH]. apply length_roster_step. }
  rewrite E in H. destruct rows; [done|cbn in H; lia].
Qed.

Lemma chain_step_inv h c c' : chain_step h c c' -> chain_inv c -> chain_inv c'.
Proof.
  intros Hs (rows & Hrel & Hn & Hne & Hok & Ha). destruct Hs as [k t tx|k t blob Hlive Hb|k t period t' He];
    cbn [fst snd] in *.
  - exists rows. assert (Hst : k_store (NoteMembershipTx h tx k) = k_store k).
    { unfold NoteMembershipTx, NoteMembershipBytes. by repeat case_match. }
    cbn [fst snd]. by rewrite Hst.
  - rewrite (DebugSubjectsFromBits_rel _ rows Hrel) in Hlive. rewrite (rr_next _ _ Hrel) in Hb.
    pose proof (fun s => ApplyLNPR_lastPower h blob k rows s Hrel Hlive) as Hlp.
    pose proof (ApplyLNPR_rel h blob k rows Hrel Hn Hlive ltac:(lia)) as Hr.
    destruct (ApplyLNPR h blob k) as [k' r]. cbn [fst snd] in *.
    destruct Hr as (rows' & Hrel' & Hn' & Hrun). exists rows'.
    split; [done|]. split; [done|]. split.
    + destruct Hrun as [->|[ops ->]]; [done|by apply roster_run_nonempty].
    + split; [intros s; rewrite Hlp; apply Hok|]. by apply (engine_agrees_ext t (k_store k)).
  - exists rows. cbn [fst snd]. change (k_store (with_store ?m k)) with m.
    destruct (ValidatorUpdates_rel _ rows period Hrel Hne Hok) as [Hrel' Hok'].
    destruct (ValidatorUpdates_accepted_lemma _ rows period t Hrel Hne Hok Ha) as (t2 & He2 & Ha2).
    rewrite He in He2. injection He2 as <-. done.
Qed.

Lemma genesis_chain_inv gs k k0 :
  GenesisState_Validate gs = true -> k_store k = NewMemStore ->
  NoDup (gs_PubKey <$> g_GenesisSubjects gs) -> g_GenesisSubjects gs <> [] ->
  Forall (fun s => gs_PubKey s <> [] /\ 0 < gs_Weight s) (g_GenesisSubjects gs) ->
  Z.of_nat (length (g_GenesisSubjects gs)) < 2 ^ 32 ->
  InitGenesis gs k = Some k0 -> chain_inv (k0, ∅).
Proof.
  intros Hv Hk Hnd Hne Hf Hb Hi.
  destruct (InitGenesis_lemma gs k Hv Hk Hnd Hf Hb) as (k1 & Hi1 & Hrel & _).
  rewrite Hi in Hi1. injection Hi1 as <-.
  assert (H0 : forall s, lastPower (k_store k0) s = 0).
  { intros s. unfold lastPower, store_Get. rewrite (InitGenesis_LastPower gs k k0 s Hi), Hk.
    unfold NewMemStore. by rewrite lookup_empty. }
  exists (genesis_row <$> g_GenesisSubjects gs). cbn [fst snd]. split; [done|]. split; [|split; [|split]].
  - unfold named. rewrite <- list_fmap_compose. intros Hin.
    apply list_elem_of_fmap in Hin as (x & Hx & Hin). rewrite Forall_forall in Hf.
    destruct (Hf x Hin) as [Hx' _]. by apply Hx'.
  - intros E. apply fmap_nil_inv in E. done.
  - intros s. rewrite H0. lia.
  - intros s. rewrite H0, lookup_empty. cbn. by rewrite andb_false_r.
Qed.


(** ** Witnesses *)

Definition w_dummy_keeper : Keeper := NewKeeper w_val2 None false ∅ 0.
Definition w_hmve : bytes := str "HMVE votes".
Definition w_req : prepare_request := MkPrepare 5 [w_hmve; w_join; str "bank send"] (str "proposer").

Lemma WrapPrepareProposal_placed_witness :
  exists k' txs blob, WrapPrepareProposal w_host None w_req w_dummy_keeper = (k', Ok txs) /\
    lnpr_placed (EncodeLNPR blob) txs.
Proof.
  assert (Hr : is_ok (WrapPrepareProposal w_host None w_req w_dummy_keeper).2 = true) by by vm_compute.
  destruct (WrapPrepareProposal w_host None w_req w_dummy_keeper) as [k' [txs|e]] eqn:E; [|done].
  exists k', txs.
  destruct (WrapPrepareProposal_placed w_host None w_req w_dummy_keeper k' txs E)
    as (k1 & blob & _ & Hp & _).
  by exists blob.
Defined.


Lemma staged_LNPR_applied_once_witness :
  k_pendingLNPR (ProcessInjectedLNPR w_host [EncodeLNPR w_lnpr] (SetStoreKey (w_keeper w_val2))).1
  = Some w_lnpr.
Proof.
  assert (Hf : FindLNPR [EncodeLNPR w_lnpr] = Some (w_lnpr, O)) by by vm_compute.
  assert (Hr : is_ok (ProcessInjectedLNPR w_host [EncodeLNPR w_lnpr]
                        (SetStoreKey (w_keeper w_val2))).2 = true) by by vm_compute.
  destruct (ProcessInjectedLNPR w_host [EncodeLNPR w_lnpr] (SetStoreKey (w_keeper w_val2)))
    as [k1 [[]|e]] eqn:E; [|done]. cbn [fst].
  exact (proj1 (staged_LNPR_applied_once w_host [EncodeLNPR w_lnpr] (SetStoreKey (w_keeper w_val2)) k1
    w_lnpr 0 eq_refl eq_refl Hf E)).
Defined.


