(* ===== verification/Sdk.v ===== *)
(** * What the modules use of the Cosmos SDK

    The SDK is not part of the repository. [Sdk B] lists the functions of it
    that the modules call, over an opaque state [B] of the bank and account
    modules; [BankLaws] states the documented behaviour of the bank that the
    theorems rely on. [ToyBank] is a small bank that satisfies the laws, used
    by the witnesses. *)

From S2P Require Import Prelude KVStore.

(** A coin, and a set of coins as a list. *)
Record Coin := MkCoin { coin_Denom : bytes; coin_Amount : Z }.
Abbreviation Coins := (list Coin).

(** The fields of [banktypes.Metadata] the modules write. *)
Record Metadata := MkMetadata {
  md_DenomUnits : list (bytes * Z);
  md_Base : bytes;
  md_Display : bytes;
  md_Name : bytes;
  md_Symbol : bytes
}.

(** The owner of a balance: an account address or a module. *)
Inductive owner := Account (addr : bytes) | Module (name : bytes).
#[global] Instance owner_eq_dec : EqDecision owner.
Proof. solve_decision. Defined.
#[global] Program Instance owner_countable : Countable owner :=
  inj_countable' (fun o => match o with Account a => inl a | Module a => inr a end)
                 (fun s => match s with inl a => Account a | inr a => Module a end) _.
Next Obligation. by intros []. Qed.

(** [Coins.AmountOf]. *)
Fixpoint AmountOf (cs : Coins) (d : bytes) : Z :=
  match cs with
  | [] => 0
  | c :: cs' => (if decide (d = coin_Denom c) then coin_Amount c else 0) + AmountOf cs' d
  end.

Lemma AmountOf_absent l d : d ∉ map coin_Denom l -> AmountOf l d = 0.
Proof.
  induction l as [|c l IH]; cbn; [done|]. intros [Hd Hl]%not_elem_of_cons.
  rewrite decide_False by done. rewrite IH by done. lia.
Qed.
#[global] Instance AmountOf_perm : Proper ((≡ₚ) ==> eq ==> eq) AmountOf.
Proof.
  intros l l' Hl d ? <-. induction Hl; cbn [AmountOf]; repeat case_decide; lia.
Qed.
(** Each denom once: the amount of a denom is that of its coin. *)
Lemma AmountOf_elem l c : NoDup (map coin_Denom l) -> c ∈ l -> AmountOf l (coin_Denom c) = coin_Amount c.
Proof.
  induction l as [|x l IH]; intros Hn Hc; [by apply elem_of_nil in Hc|]. cbn [map] in Hn.
  apply NoDup_cons in Hn as [Hx Hn]. cbn [AmountOf]. apply elem_of_cons in Hc as [->|Hc].
  - rewrite decide_True by done. rewrite AmountOf_absent by done. lia.
  - rewrite decide_False; [rewrite IH by done; lia|]. intros He. apply Hx. rewrite <- He.
    by apply list_elem_of_In, in_map, list_elem_of_In.
Qed.

Class Sdk (B : Type) := {
  (** [sdk.ValidateDenom], [sdk.AccAddressFromBech32], [AccAddress.String] *)
  ValidateDenom : bytes -> bool;
  AccAddressFromBech32 : bytes -> option bytes;
  AccAddress_String : bytes -> bytes;
  (** [banktypes.Metadata.Validate], [sdk.Coins.Validate], [sdk.Coin.IsValid];
      [sdk.NewCoins], which panics ([None]) on an invalid coin *)
  Metadata_Validate : Metadata -> bool;
  Coins_Validate : Coins -> bool;
  Coin_IsValid : Coin -> bool;
  NewCoins : Coin -> option Coins;
  (** the bank keeper; [None] is an error *)
  BlockedAddr : bytes -> bool;
  GetDenomMetaData : B -> bytes -> option Metadata;
  SetDenomMetaData : Metadata -> B -> B;
  MintCoins : bytes -> Coins -> B -> option B;
  BurnCoins : bytes -> Coins -> B -> option B;
  (** [SendCoins] and its variants between accounts and modules *)
  SendCoins : owner -> owner -> Coins -> B -> option B;
  (** [communityPoolKeeper.FundCommunityPool] *)
  FundCommunityPool : Coins -> bytes -> B -> option B;
  (** [ctx.GasMeter().ConsumeGas], which panics ([None]) past the limit *)
  ConsumeGas : Z -> B -> option B;
  (** the protobuf codec of [DenomAuthorityMetadata]: its one field *)
  MarshalAdmin : bytes -> bytes;
  UnmarshalAdmin : bytes -> option bytes
}.

(** [x -> y] moved the coins [cs]. *)
Definition moved {B : Type} (bal : B -> owner -> bytes -> Z) (x y : owner) (cs : Coins) (b b' : B) : Prop :=
  forall o d, bal b' o d = bal b o d - (if decide (o = x) then AmountOf cs d else 0)
                                     + (if decide (o = y) then AmountOf cs d else 0).

(** The documented behaviour of the bank the theorems rely on. *)
Class BankLaws (B : Type) `{Sdk B} := {
  supply : B -> bytes -> Z;
  balance : B -> owner -> bytes -> Z;
  pool : owner;
  newcoins_law : forall c cs, NewCoins c = Some cs -> 0 <= coin_Amount c /\
    forall d, AmountOf cs d = if decide (d = coin_Denom c) then coin_Amount c else 0;
  mint_law : forall m cs b b', MintCoins m cs b = Some b' ->
    (forall d, supply b' d = supply b d + AmountOf cs d) /\
    (forall o d, balance b' o d = balance b o d + if decide (o = Module m) then AmountOf cs d else 0) /\
    (forall d, GetDenomMetaData b' d = GetDenomMetaData b d);
  burn_law : forall m cs b b', BurnCoins m cs b = Some b' ->
    (forall d, supply b' d = supply b d - AmountOf cs d) /\
    (forall o d, balance b' o d = balance b o d - if decide (o = Module m) then AmountOf cs d else 0) /\
    (forall d, GetDenomMetaData b' d = GetDenomMetaData b d);
  send_law : forall x y cs b b', SendCoins x y cs b = Some b' ->
    (forall d, supply b' d = supply b d) /\ moved balance x y cs b b' /\
    (forall d, GetDenomMetaData b' d = GetDenomMetaData b d);
  fund_law : forall cs a b b', FundCommunityPool cs a b = Some b' ->
    (forall d, supply b' d = supply b d) /\ moved balance (Account a) pool cs b b' /\
    (forall d, 0 <= AmountOf cs d) /\
    (forall d, GetDenomMetaData b' d = GetDenomMetaData b d);
  gas_law : forall g b b', ConsumeGas g b = Some b' ->
    (forall d, supply b' d = supply b d) /\ (forall o d, balance b' o d = balance b o d) /\
    (forall d, GetDenomMetaData b' d = GetDenomMetaData b d);
  meta_law : forall md b,
    (forall d, GetDenomMetaData (SetDenomMetaData md b) d =
       if decide (d = md_Base md) then Some md else GetDenomMetaData b d) /\
    (forall d, supply (SetDenomMetaData md b) d = supply b d) /\
    (forall o d, balance (SetDenomMetaData md b) o d = balance b o d)
}.

(** [sdk.Coins] as sets: sorting, adding, and the comparisons of the ante
    handlers. *)
Class SdkCoins := {
  Coins_Sort : Coins -> Coins;
  Coins_Add : Coins -> Coin -> Coins;
  DenomsSubsetOf : Coins -> Coins -> bool;
  IsAnyGTE : Coins -> Coins -> bool
}.
Definition denom_le (a b : Coin) : Prop := bytes_le (coin_Denom a) (coin_Denom b).
#[global] Instance denom_le_dec : RelDecision denom_le := fun a b => bytes_le_dec (coin_Denom a) (coin_Denom b).
(** Coins sorted by denom, each denom once. *)
Definition sorted_coins (cs : Coins) : Prop :=
  StronglySorted denom_le cs /\ NoDup (map coin_Denom cs).
(** Sorting permutes and sorts; adding a coin adds its amount;
    [DenomsSubsetOf] asks that the other set has an amount of each denom, and
    [IsAnyGTE] that some coin is at least a non-zero amount of the other. *)
Class CoinsLaws `{SdkCoins} := {
  sort_law : forall cs, Coins_Sort cs ≡ₚ cs;
  sort_sorted : forall cs, StronglySorted denom_le (Coins_Sort cs);
  add_law : forall cs c d, AmountOf (Coins_Add cs c) d = AmountOf cs d + AmountOf [c] d;
  subset_law : forall a b, sorted_coins a -> sorted_coins b ->
    DenomsSubsetOf a b = true <-> forall c, c ∈ a -> AmountOf b (coin_Denom c) <> 0;
  anygte_law : forall a b, sorted_coins a -> sorted_coins b ->
    IsAnyGTE a b = true <->
    exists c, c ∈ a /\ AmountOf b (coin_Denom c) <> 0 /\ AmountOf b (coin_Denom c) <= coin_Amount c
}.

(** [LegacyDec], as the integer it holds, in units of [10^-18]. *)
Definition dec_one : Z := 10 ^ 18.
Class SdkDec := {
  Dec_Mul : Z -> Z -> Z;
  Dec_MulInt : Z -> Z -> Z;
  Dec_QuoInt64 : Z -> Z -> Z;
  Dec_Ceil : Z -> Z;
  Dec_RoundInt : Z -> Z
}.
(** Products with an integer are exact, division truncates, [Ceil] is the least
    integer not below, and [RoundInt] rounds to the nearest, ties to even. *)
Class DecLaws `{SdkDec} := {
  mul_law : forall d n, Dec_Mul d (n * dec_one) = d * n;
  mulint_law : forall d a, Dec_MulInt d a = d * a;
  quoint_law : forall d n, Dec_QuoInt64 d n = Z.quot d n;
  ceil_law : forall d, exists n, Dec_Ceil d = n * dec_one /\ d <= n * dec_one < d + dec_one;
  round_law : forall d, 2 * Z.abs (Dec_RoundInt d * dec_one - d) <= dec_one;
  round_tie : forall d, 2 * Z.abs (Dec_RoundInt d * dec_one - d) = dec_one -> Z.even (Dec_RoundInt d) = true
}.

(** The codec reads back what it wrote; no bytes is the zero message. *)
Class AdminCodec (B : Type) `{Sdk B} := {
  admin_roundtrip : forall a, UnmarshalAdmin (MarshalAdmin a) = Some a;
  admin_empty : UnmarshalAdmin [] = Some []
}.

(** Addresses: the empty string is not one, a printed address parses back,
    and no bech32 string has a [/] or a [|]; denoms match
    [[a-zA-Z][a-zA-Z0-9/:._-]{2,127}], so none has a [|]. *)
Class AddressLaws (B : Type) `{Sdk B} := {
  bech32_empty : AccAddressFromBech32 [] = None;
  bech32_roundtrip : forall s a, AccAddressFromBech32 s = Some a ->
    AccAddressFromBech32 (AccAddress_String a) = Some a;
  bech32_no_slash : forall s a, AccAddressFromBech32 s = Some a -> "/"%byte ∉ s;
  bech32_no_bar : forall s a, AccAddressFromBech32 s = Some a -> "|"%byte ∉ s;
  denom_no_bar : forall d, ValidateDenom d = true -> "|"%byte ∉ d
}.

(** ** A small bank *)

Record toy := MkToy {
  toy_bal : gmap (owner * bytes) Z;
  toy_sup : gmap bytes Z;
  toy_meta : gmap bytes Metadata;
  toy_gas : Z
}.
Definition toy_get (b : toy) (o : owner) (d : bytes) : Z := default 0 (toy_bal b !! (o, d)).
Definition toy_supply (b : toy) (d : bytes) : Z := default 0 (toy_sup b !! d).
Definition toy_add (o : owner) (c : Coin) (s : Z) (b : toy) : toy :=
  MkToy (<[(o, coin_Denom c) := toy_get b o (coin_Denom c) + s * coin_Amount c]> (toy_bal b))
        (toy_sup b) (toy_meta b) (toy_gas b).
Definition toy_issue (c : Coin) (s : Z) (b : toy) : toy :=
  MkToy (toy_bal b) (<[coin_Denom c := toy_supply b (coin_Denom c) + s * coin_Amount c]> (toy_sup b))
        (toy_meta b) (toy_gas b).
Definition toy_mint1 (m : bytes) (c : Coin) (b : toy) : option toy :=
  if coin_Amount c <? 0 then None
  else Some (toy_issue c 1 (toy_add (Module m) c 1 b)).
Definition toy_burn1 (m : bytes) (c : Coin) (b : toy) : option toy :=
  if toy_get b (Module m) (coin_Denom c) <? coin_Amount c then None
  else Some (toy_issue c (-1) (toy_add (Module m) c (-1) b)).
Definition toy_send1 (x y : owner) (c : Coin) (b : toy) : option toy :=
  if (coin_Amount c <? 0) || (toy_get b x (coin_Denom c) <? coin_Amount c) then None
  else Some (toy_add y c 1 (toy_add x c (-1) b)).
Fixpoint toy_each (f : Coin -> toy -> option toy) (cs : Coins) (b : toy) : option toy :=
  match cs with
  | [] => Some b
  | c :: cs' => match f c b with Some b' => toy_each f cs' b' | None => None end
  end.
Definition toy_set_meta (md : Metadata) (b : toy) : toy :=
  MkToy (toy_bal b) (toy_sup b) (<[md_Base md := md]> (toy_meta b)) (toy_gas b).
Definition toy_pool : owner := Module (str "distribution").
Definition denom_char (b : byte) : bool :=
  let v := byte_val b in
  ((97 <=? v) && (v <=? 122)) || ((65 <=? v) && (v <=? 90)) || ((47 <=? v) && (v <=? 58)) || (v =? 46)
  || (v =? 45) || (v =? 95).
Definition toy_denom (d : bytes) : bool := (3 <=? blen d) && (blen d <=? 128) && forallb denom_char d.
Definition addr_char (b : byte) : bool := negb (byte_val b =? 47) && negb (byte_val b =? 124).
Definition toy_addr (s : bytes) : option bytes :=
  if has_prefix (str "terp1") s && forallb addr_char s && (5 <? blen s)
  then Some (drop 5 s) else None.

#[global] Instance ToyBank : Sdk toy := {|
  ValidateDenom := toy_denom;
  AccAddressFromBech32 := toy_addr;
  AccAddress_String a := str "terp1" ++ a;
  Metadata_Validate md := 0 <? blen (md_Base md);
  Coins_Validate cs := forallb (fun c => 0 <? coin_Amount c) cs;
  Coin_IsValid c := toy_denom (coin_Denom c) && (0 <=? coin_Amount c);
  NewCoins c := if coin_Amount c <? 0 then None else if coin_Amount c =? 0 then Some [] else Some [c];
  BlockedAddr a := bytes_eqb a (str "blocked");
  GetDenomMetaData b d := toy_meta b !! d;
  SetDenomMetaData := toy_set_meta;
  MintCoins m := toy_each (toy_mint1 m);
  BurnCoins m := toy_each (toy_burn1 m);
  SendCoins x y := toy_each (toy_send1 x y);
  FundCommunityPool cs a := toy_each (toy_send1 (Account a) toy_pool) cs;
  ConsumeGas g b := if toy_gas b <? g then None
                    else Some (MkToy (toy_bal b) (toy_sup b) (toy_meta b) (toy_gas b - g));
  MarshalAdmin a := a;
  UnmarshalAdmin bz := Some bz
|}.

Lemma toy_get_add o c s b o' d :
  toy_get (toy_add o c s b) o' d =
  toy_get b o' d + if decide (o' = o) then s * AmountOf [c] d else 0.
Proof.
  unfold toy_get at 1, toy_add. cbn [toy_bal AmountOf].
  destruct (decide (o' = o)) as [->|Ho]; [destruct (decide (d = coin_Denom c)) as [->|Hd]|].
  - rewrite lookup_insert_eq. cbn. lia.
  - rewrite lookup_insert_ne by congruence. unfold toy_get. lia.
  - rewrite lookup_insert_ne by congruence. unfold toy_get. lia.
Qed.
Lemma toy_supply_issue c s b d :
  toy_supply (toy_issue c s b) d = toy_supply b d + s * AmountOf [c] d.
Proof.
  unfold toy_supply at 1, toy_issue. cbn [toy_sup AmountOf]. case_decide as Hd.
  - subst. rewrite lookup_insert_eq. cbn. lia.
  - rewrite lookup_insert_ne by done. unfold toy_supply. lia.
Qed.

(** What one coin does, the list of coins does to the sum of the amounts. *)
Definition toy_effect (ks : Z) (kb : owner -> Z) (cs : Coins) (b b' : toy) : Prop :=
  (forall d, toy_supply b' d = toy_supply b d + ks * AmountOf cs d) /\
  (forall o d, toy_get b' o d = toy_get b o d + kb o * AmountOf cs d) /\
  toy_meta b' = toy_meta b.

Lemma toy_each_law f ks kb :
  (forall c b b', f c b = Some b' -> toy_effect ks kb [c] b b') ->
  forall cs b b', toy_each f cs b = Some b' -> toy_effect ks kb cs b b'.
Proof.
  intros Hf cs. induction cs as [|c cs IH]; intros b b' H; cbn in H.
  - injection H as <-. split; [|split]; intros; cbn; lia || done.
  - destruct (f c b) as [b1|] eqn:E; [|done].
    destruct (Hf _ _ _ E) as (S1 & B1 & M1), (IH _ _ H) as (S2 & B2 & M2).
    split; [|split].
    + intros d. rewrite S2, S1. cbn [AmountOf]. lia.
    + intros o d. rewrite B2, B1. cbn [AmountOf]. lia.
    + congruence.
Qed.

Definition one_if (o x : owner) : Z := if decide (o = x) then 1 else 0.

Lemma toy_mint_effect m cs b b' :
  toy_each (toy_mint1 m) cs b = Some b' -> toy_effect 1 (fun o => one_if o (Module m)) cs b b'.
Proof.
  apply toy_each_law. clear. intros c b b' H. unfold toy_mint1 in H. destruct (_ <? _); [done|].
  injection H as <-. split; [|split; [|done]].
  - intros d. rewrite toy_supply_issue. done.
  - intros o d. change (toy_get (toy_issue ?x ?y ?z) o d) with (toy_get z o d).
    rewrite toy_get_add. unfold one_if. case_decide; lia.
Qed.
Lemma toy_burn_effect m cs b b' :
  toy_each (toy_burn1 m) cs b = Some b' -> toy_effect (-1) (fun o => - one_if o (Module m)) cs b b'.
Proof.
  apply toy_each_law. clear. intros c b b' H. unfold toy_burn1 in H. destruct (_ <? _); [done|].
  injection H as <-. split; [|split; [|done]].
  - intros d. rewrite toy_supply_issue. done.
  - intros o d. change (toy_get (toy_issue ?x ?y ?z) o d) with (toy_get z o d).
    rewrite toy_get_add. unfold one_if. case_decide; lia.
Qed.
Lemma toy_send_effect x y cs b b' :
  toy_each (toy_send1 x y) cs b = Some b' -> toy_effect 0 (fun o => one_if o y - one_if o x) cs b b'.
Proof.
  apply toy_each_law. clear. intros c b b' H. unfold toy_send1 in H. destruct (_ || _); [done|].
  injection H as <-. split; [|split; [|done]].
  - intros d. change (toy_supply _ d) with (toy_supply b d). lia.
  - intros o d. rewrite !toy_get_add. unfold one_if. repeat case_decide; lia.
Qed.
Lemma toy_send_nonneg x y cs b b' :
  toy_each (toy_send1 x y) cs b = Some b' -> forall d, 0 <= AmountOf cs d.
Proof.
  revert b. induction cs as [|c cs IH]; intros b H d; cbn in *; [lia|].
  unfold toy_send1 at 1 in H. destruct (coin_Amount c <? 0) eqn:E; [done|]. cbn in H.
  destruct (toy_get _ _ _ <? _); [done|]. apply IH with (d := d) in H.
  zbool. case_decide; lia.
Qed.

#[global] Instance ToyBankLaws : BankLaws toy.
Proof.
  refine {| supply := toy_supply; balance := toy_get; pool := toy_pool |}; cbn [NewCoins MintCoins
    BurnCoins SendCoins FundCommunityPool ConsumeGas GetDenomMetaData SetDenomMetaData ToyBank].
  - intros c cs H. destruct (coin_Amount c <? 0) eqn:E; [done|].
    destruct (coin_Amount c =? 0) eqn:E0; injection H as <-; zbool; (split; [done|]); intros d; cbn;
      case_decide; lia.
  - intros m cs b b' (S & Bl & M)%toy_mint_effect. split; [|split]; [| |by intros d; rewrite M].
    + intros d. rewrite S. lia.
    + intros o d. rewrite Bl. unfold one_if. case_decide; lia.
  - intros m cs b b' (S & Bl & M)%toy_burn_effect. split; [|split]; [| |by intros d; rewrite M].
    + intros d. rewrite S. lia.
    + intros o d. rewrite Bl. unfold one_if. case_decide; lia.
  - intros x y cs b b' (S & Bl & M)%toy_send_effect. split; [|split]; [| |by intros d; rewrite M].
    + intros d. rewrite S. lia.
    + intros o d. rewrite Bl. unfold one_if. repeat case_decide; lia.
  - intros cs a b b' H. pose proof (toy_send_nonneg _ _ _ _ _ H).
    apply toy_send_effect in H as (S & Bl & M). split; [|split; [|split]]; [| |done|by intros d; rewrite M].
    + intros d. rewrite S. lia.
    + intros o d. rewrite Bl. unfold one_if. repeat case_decide; lia.
  - intros g b b' H. destruct (_ <? _); [done|]. by injection H as <-.
  - intros md b. split; [|done]. intros d. case_decide as Hd.
    + subst. apply lookup_insert_eq.
    + by apply lookup_insert_ne.
Defined.

#[global] Instance ToyCodec : AdminCodec toy.
Proof. by split. Qed.

Lemma forallb_notin (f : byte -> bool) x l : forallb f l = true -> f x = false -> x ∉ l.
Proof.
  intros Hf Hx Hi. apply list_elem_of_In in Hi. rewrite forallb_forall in Hf.
  by rewrite (Hf _ Hi) in Hx.
Qed.
Lemma toy_addr_ok s a :
  toy_addr s = Some a -> has_prefix (str "terp1") s = true /\
    forallb addr_char s = true /\ (5 <? blen s) = true /\ a = drop 5 s.
Proof.
  unfold toy_addr. destruct (has_prefix _ s), (forallb _ s), (5 <? blen s); cbn; try done.
  by intros [= <-].
Qed.
#[global] Instance ToyAddresses : AddressLaws toy.
Proof.
  split; cbn.
  - done.
  - intros s a (E & F & L & ->)%toy_addr_ok.
    apply has_prefix_true in E as [t ->]. change 5%nat with (length (str "terp1")).
    rewrite drop_app_length. change (toy_addr (str "terp1" ++ t) = Some t).
    unfold toy_addr. by rewrite has_prefix_app, F, L.
  - intros s a (_ & F & _)%toy_addr_ok. by apply (forallb_notin _ _ _ F).
  - intros s a (_ & F & _)%toy_addr_ok. by apply (forallb_notin _ _ _ F).
  - intros d H. unfold toy_denom in H. zbool. by eapply forallb_notin.
Qed.

(** ** Coins and decimals, for the witnesses *)

Definition toy_subset (a b : Coins) : bool := forallb (fun c => negb (AmountOf b (coin_Denom c) =? 0)) a.
Definition toy_anygte (a b : Coins) : bool :=
  existsb (fun c => negb (AmountOf b (coin_Denom c) =? 0) && (AmountOf b (coin_Denom c) <=? coin_Amount c)) a.
#[global] Instance ToyCoins : SdkCoins := {|
  Coins_Sort := merge_sort denom_le;
  Coins_Add cs c := c :: cs;
  DenomsSubsetOf := toy_subset;
  IsAnyGTE := toy_anygte
|}.
#[global] Instance denom_le_trans : Transitive denom_le.
Proof. intros a b c. unfold denom_le. apply bytes_le_trans. Qed.
#[global] Instance denom_le_Total : Total denom_le.
Proof. intros a b. unfold denom_le. apply bytes_le_total. Qed.
#[global] Instance ToyCoinsLaws : CoinsLaws.
Proof.
  split; cbn [Coins_Sort Coins_Add DenomsSubsetOf IsAnyGTE ToyCoins].
  - intros cs. apply merge_sort_Permutation.
  - intros cs. apply (StronglySorted_merge_sort denom_le).
  - intros cs c d. cbn [AmountOf]. lia.
  - intros a b _ _. unfold toy_subset. rewrite forallb_forall.
    setoid_rewrite list_elem_of_In. setoid_rewrite negb_true_iff. by setoid_rewrite Z.eqb_neq.
  - intros a b _ _. unfold toy_anygte. rewrite existsb_exists. split.
    + intros (c & Hc & H). zbool. exists c. by rewrite list_elem_of_In.
    + intros (c & Hc & H1 & H2). exists c. rewrite <- list_elem_of_In. split; [done|].
      apply andb_true_intro. split; [apply negb_true_iff; by apply Z.eqb_neq|by apply Z.leb_le].
Qed.

Definition toy_round (d : Z) : Z :=
  let q := d / dec_one in
  let r := d mod dec_one in
  if 2 * r <? dec_one then q else if dec_one <? 2 * r then q + 1 else if Z.even q then q else q + 1.
#[global] Instance ToyDec : SdkDec := {|
  Dec_Mul a b := toy_round (a * b);
  Dec_MulInt d a := d * a;
  Dec_QuoInt64 d n := Z.quot d n;
  Dec_Ceil d := - (- d / dec_one) * dec_one;
  Dec_RoundInt := toy_round
|}.
Lemma toy_round_law d :
  2 * Z.abs (toy_round d * dec_one - d) <= dec_one /\
  (2 * Z.abs (toy_round d * dec_one - d) = dec_one -> Z.even (toy_round d) = true).
Proof.
  unfold toy_round. pose proof (Z.div_mod d dec_one ltac:(done)) as Hd.
  pose proof (Z.mod_pos_bound d dec_one ltac:(done)) as Hm.
  set (q := d / dec_one) in *. set (r := d mod dec_one) in *.
  destruct (2 * r <? dec_one) eqn:E1; [zbool; split; lia|].
  destruct (dec_one <? 2 * r) eqn:E2; [zbool; split; lia|]. zbool.
  destruct (Z.even q) eqn:E3; split; try lia; [done|].
  intros _. by rewrite Z.even_add, E3.
Qed.
#[global] Instance ToyDecLaws : DecLaws.
Proof.
  split; cbn [Dec_Mul Dec_MulInt Dec_QuoInt64 Dec_Ceil Dec_RoundInt ToyDec].
  - intros d n. pose proof (proj1 (toy_round_law (d * (n * dec_one)))). unfold dec_one in *. lia.
  - done.
  - done.
  - intros d. exists (- (- d / dec_one)). split; [done|].
    pose proof (Z.div_mod (- d) dec_one ltac:(done)). pose proof (Z.mod_pos_bound (- d) dec_one ltac:(done)). lia.
  - intros d. apply toy_round_law.
  - intros d. apply toy_round_law.
Qed.

(** A toy codec of countable values: the digits of their code. *)
Fixpoint pos_bytes (p : positive) : bytes :=
  match p with
  | xH => ["000"%byte]
  | xO p' => "001"%byte :: pos_bytes p'
  | xI p' => "002"%byte :: pos_bytes p'
  end.
Fixpoint bytes_pos (l : bytes) : option positive :=
  match l with
  | [] => None
  | b :: l' =>
      if byte_val b =? 0 then Some xH
      else match bytes_pos l' with
           | Some p => Some (if byte_val b =? 1 then xO p else xI p)
           | None => None
           end
  end.
Lemma bytes_pos_bytes p : bytes_pos (pos_bytes p) = Some p.
Proof. induction p as [p IH|p IH|]; cbn [pos_bytes bytes_pos]; [by rewrite IH..|done]. Qed.
