(* ===== verification/TokenFactory.v ===== *)
(** * x/tokenfactory

    The token factory lets an account create denoms [factory/{creator}/{sub}]
    and, as their admin, mint, burn, force-transfer, describe and hand them
    over ([x/tokenfactory/keeper], [x/tokenfactory/types]). The module's own
    state is a key-value store (the authority metadata of each denom and an
    index of denoms by creator) and its parameters; money lives in the bank,
    which is a parameter of the model ([Sdk B], [BankLaws B]). A handler is a
    method: on an error the writes done so far stay in the returned state, and
    the transaction that failed is not a step of [tf_step]. *)

From S2P Require Import Prelude KVStore Sdk.
Open Scope go_scope.

(** ** Strings *)

Definition slash : byte := "/"%byte.
Definition bar : byte := "|"%byte.

(** ** Errors *)

Inductive tf_err :=
| ErrDenomExists | ErrUnauthorized | ErrInvalidDenom | ErrInvalidCreator
| ErrInvalidAuthorityMetadata | ErrInvalidGenesis | ErrSubdenomTooLong | ErrCreatorTooLong
| ErrDenomDoesNotExist | ErrCapabilityNotEnabled
| ErrInvalidAddress | ErrInvalidCoins | ErrInvalidSigner | ErrBlocked
| ErrBank   (** an error of the bank or of the community pool *)
| ErrDecode (** an error of the protobuf codec or of [Metadata.Validate] *)
| Panic.    (** a Go panic: [NewCoins], [ConsumeGas], [SetParamSet] *)

(** ** Constants and capabilities *)

Definition tf_ModuleName : bytes := str "tokenfactory".
Definition ModuleDenomPrefix : bytes := str "factory".
Definition MaxSubdenomLength : Z := 44.
Definition MaxHrpLength : Z := 16.
Definition MaxCreatorLength : Z := 59 + MaxHrpLength.
Definition EnableSetMetadata : bytes := str "enable_metadata".
Definition EnableForceTransfer : bytes := str "enable_force_transfer".
Definition EnableBurnFrom : bytes := str "enable_burn_from".

Definition IsCapabilityEnabled (enabled : list bytes) (capability : bytes) : bool :=
  if Z.of_nat (length enabled) =? 0 then true else existsb (fun v => bytes_eqb v capability) enabled.

(** ** Store keys *)

Definition DenomAuthorityMetadataKey : bytes := str "authoritymetadata".
Definition DenomsPrefixKey : bytes := str "denoms".
Definition CreatorPrefixKey : bytes := str "creator".
Definition GetDenomPrefixStore (denom : bytes) : bytes := Join [DenomsPrefixKey; denom; []] bar.
Definition GetCreatorPrefix (creator : bytes) : bytes := Join [CreatorPrefixKey; creator; []] bar.
Definition GetCreatorsPrefix : bytes := Join [CreatorPrefixKey; []] bar.

(** ** Data *)

Record DenomAuthorityMetadata := MkAuthority { Admin : bytes }.
(** [DenomCreationFee] is a slice: [None] is nil. *)
Record Params := MkParams { DenomCreationFee : option Coins; DenomCreationGasConsume : Z }.
Record GenesisDenom := MkGenesisDenom { gd_Denom : bytes; gd_AuthorityMetadata : DenomAuthorityMetadata }.
Record GenesisState := MkGenesis { gs_Params : Params; FactoryDenoms : list GenesisDenom }.

(** The fields of the keeper that are not stores. *)
Record TFKeeper := MkTFKeeper { enabledCapabilities : list bytes; authority : bytes }.

Record TF (B : Type) := MkTF { tf_store : store; tf_bank : B; tf_params : Params }.
Arguments MkTF {B}.
Arguments tf_store {B}.
Arguments tf_bank {B}.
Arguments tf_params {B}.

Inductive Msg :=
| MsgCreateDenom (Sender Subdenom : bytes)
| MsgMint (Sender : bytes) (Amount : Coin) (MintToAddress : bytes)
| MsgBurn (Sender : bytes) (Amount : Coin) (BurnFromAddress : bytes)
| MsgForceTransfer (Sender : bytes) (Amount : Coin) (TransferFromAddress TransferToAddress : bytes)
| MsgChangeAdmin (Sender Denom NewAdmin : bytes)
| MsgSetDenomMetadata (Sender : bytes) (Md : Metadata)
| MsgUpdateParams (Authority : bytes) (P : Params).

Section Operations.
Context {B : Type} `{!Sdk B}.
Abbreviation M A := (meth (TF B) tf_err A).

Definition on_bank (f : B -> option B) (e : tf_err) : M unit :=
  fun s => match f (tf_bank s) with
           | Some b => (MkTF (tf_store s) b (tf_params s), Ok tt)
           | None => (s, Err e)
           end.
Definition on_store (f : store -> store) : M unit :=
  mput (fun s => MkTF (f (tf_store s)) (tf_bank s) (tf_params s)).
Definition from_opt {A : Type} (o : option A) (e : tf_err) : result tf_err A :=
  match o with Some a => Ok a | None => Err e end.

(** ** Denoms: [types/denoms.go] *)

Definition GetTokenDenom (creator subdenom : bytes) : result tf_err bytes :=
  check! guard (MaxSubdenomLength <? blen subdenom) ErrSubdenomTooLong;
  check! guard (MaxCreatorLength <? blen creator) ErrCreatorTooLong;
  check! guard (bytes_contains creator [slash]) ErrInvalidCreator;
  let denom := Join [ModuleDenomPrefix; creator; subdenom] slash in
  check! guard (negb (ValidateDenom denom)) ErrInvalidDenom;
  Ok denom.

Definition DeconstructDenom (denom : bytes) : result tf_err (bytes * bytes) :=
  check! guard (negb (ValidateDenom denom)) ErrInvalidDenom;
  let strParts := Split denom slash in
  check! guard (Z.of_nat (length strParts) <? 3) ErrInvalidDenom;
  check! guard (negb (bytes_eqb (nth 0 strParts []) ModuleDenomPrefix)) ErrInvalidDenom;
  let creator := nth 1 strParts [] in
  try! creatorAddr <- from_opt (AccAddressFromBech32 creator) ErrInvalidDenom;
  let subdenom := Join (drop 2 strParts) slash in
  Ok (AccAddress_String creatorAddr, subdenom).

(** ** Admins: [keeper/admins.go], [types/authorityMetadata.go] *)

Definition DenomAuthorityMetadata_Validate (metadata : DenomAuthorityMetadata) : result tf_err unit :=
  if bytes_eqb (Admin metadata) [] then Ok tt
  else check! from_opt (AccAddressFromBech32 (Admin metadata)) ErrInvalidAddress; Ok tt.

Definition authority_key (denom : bytes) : bytes :=
  GetDenomPrefixStore denom ++ DenomAuthorityMetadataKey.

Definition GetAuthorityMetadata (s : TF B) (denom : bytes) : result tf_err DenomAuthorityMetadata :=
  let bz := store_Get (tf_store s) (authority_key denom) in
  try! a <- from_opt (UnmarshalAdmin bz) ErrDecode;
  Ok (MkAuthority a).

Definition setAuthorityMetadata (denom : bytes) (metadata : DenomAuthorityMetadata) : M unit :=
  exec! mlift (DenomAuthorityMetadata_Validate metadata);
  on_store (store_Set (authority_key denom) (MarshalAdmin (Admin metadata))).

Definition setAdmin (denom admin : bytes) : M unit :=
  exec! (fun s => (s, GetAuthorityMetadata s denom));
  setAuthorityMetadata denom (MkAuthority admin).

(** ** Creators: [keeper/creators.go] *)

Definition addDenomFromCreator (creator denom : bytes) : M unit :=
  on_store (store_Set (GetCreatorPrefix creator ++ denom) denom).

Definition GetDenomsFromCreator (s : TF B) (creator : bytes) : list bytes :=
  map (fun kv => drop (length (GetCreatorPrefix creator)) kv.1)
      (IteratePrefix (tf_store s) (GetCreatorPrefix creator)).

Definition GetAllDenomsIterator (s : TF B) : list (bytes * bytes) :=
  IteratePrefix (tf_store s) GetCreatorsPrefix.

(** ** Parameters: [keeper/params.go], [types/params.go] *)

(** A nil slice is a valid set of coins. *)
Definition validateDenomCreationFee (fee : option Coins) : bool :=
  match fee with Some cs => Coins_Validate cs | None => true end.
Definition Params_Validate (p : Params) : bool := validateDenomCreationFee (DenomCreationFee p).

(** [SetParamSet] panics on a value its validator refuses. *)
Definition SetParams (p : Params) : M unit :=
  exec! mlift (guard (negb (Params_Validate p)) Panic);
  mput (fun s => MkTF (tf_store s) (tf_bank s) p).

(** ** Creating a denom: [keeper/createdenom.go] *)

Definition validateCreateDenom (creatorAddr subdenom : bytes) : M bytes :=
  run! denom <- mlift (GetTokenDenom creatorAddr subdenom);
  run! found <- mget (fun s => GetDenomMetaData (tf_bank s) denom);
  match found with
  | Some _ => mfail ErrDenomExists
  | None => mret denom
  end.

Definition chargeForCreateDenom (creatorAddr : bytes) : M unit :=
  run! params <- mget tf_params;
  exec! match DenomCreationFee params with
        | Some fee =>
            run! accAddr <- mlift (from_opt (AccAddressFromBech32 creatorAddr) ErrInvalidAddress);
            on_bank (FundCommunityPool fee accAddr) ErrBank
        | None => mret tt
        end;
  if DenomCreationGasConsume params =? 0 then mret tt
  else on_bank (ConsumeGas (DenomCreationGasConsume params)) Panic.

Definition newDenomMetaData (denom : bytes) : Metadata :=
  MkMetadata [(denom, 0)] denom denom denom denom.

Definition createDenomAfterValidation (creatorAddr denom : bytes) : M unit :=
  exec! on_bank (fun b => Some (SetDenomMetaData (newDenomMetaData denom) b)) ErrBank;
  exec! setAuthorityMetadata denom (MkAuthority creatorAddr);
  addDenomFromCreator creatorAddr denom.

Definition CreateDenom (creatorAddr subdenom : bytes) : M bytes :=
  run! denom <- validateCreateDenom creatorAddr subdenom;
  exec! chargeForCreateDenom creatorAddr;
  exec! createDenomAfterValidation creatorAddr denom;
  mret denom.

(** ** Money: [keeper/bankactions.go] *)

Definition mintTo (amount : Coin) (to : bytes) : M unit :=
  exec! mlift (DeconstructDenom (coin_Denom amount));
  run! coins <- mlift (from_opt (NewCoins amount) Panic);
  exec! on_bank (MintCoins tf_ModuleName coins) ErrBank;
  run! addr <- mlift (from_opt (AccAddressFromBech32 to) ErrInvalidAddress);
  exec! mlift (guard (BlockedAddr addr) ErrBlocked);
  on_bank (SendCoins (Module tf_ModuleName) (Account addr) coins) ErrBank.

Definition burnFrom (amount : Coin) (from : bytes) : M unit :=
  exec! mlift (DeconstructDenom (coin_Denom amount));
  run! addr <- mlift (from_opt (AccAddressFromBech32 from) ErrInvalidAddress);
  exec! mlift (guard (BlockedAddr addr) ErrBlocked);
  run! coins <- mlift (from_opt (NewCoins amount) Panic);
  exec! on_bank (SendCoins (Account addr) (Module tf_ModuleName) coins) ErrBank;
  on_bank (BurnCoins tf_ModuleName coins) ErrBank.

Definition forceTransfer (amount : Coin) (fromAddr toAddr : bytes) : M unit :=
  exec! mlift (DeconstructDenom (coin_Denom amount));
  run! fromSdkAddr <- mlift (from_opt (AccAddressFromBech32 fromAddr) ErrInvalidAddress);
  run! toSdkAddr <- mlift (from_opt (AccAddressFromBech32 toAddr) ErrInvalidAddress);
  exec! mlift (guard (BlockedAddr toSdkAddr) ErrBlocked);
  run! coins <- mlift (from_opt (NewCoins amount) Panic);
  on_bank (SendCoins (Account fromSdkAddr) (Account toSdkAddr) coins) ErrBank.

(** ** Messages: [types/msgs.go] *)

Definition valid_address (s : bytes) : result tf_err unit :=
  check! from_opt (AccAddressFromBech32 s) ErrInvalidAddress; Ok tt.
Definition address_if_set (s : bytes) : result tf_err unit :=
  if bytes_eqb s [] then Ok tt else valid_address s.

Definition MsgCreateDenom_ValidateBasic (Sender Subdenom : bytes) : result tf_err unit :=
  check! valid_address Sender;
  match GetTokenDenom Sender Subdenom with
  | Ok _ => Ok tt
  | Err _ => Err ErrInvalidDenom
  end.
Definition MsgMint_ValidateBasic (Sender : bytes) (Amount : Coin) (MintToAddress : bytes) :
    result tf_err unit :=
  check! valid_address Sender;
  check! address_if_set MintToAddress;
  guard (negb (Coin_IsValid Amount) || (coin_Amount Amount =? 0)) ErrInvalidCoins.
Definition MsgBurn_ValidateBasic (Sender : bytes) (Amount : Coin) (BurnFromAddress : bytes) :
    result tf_err unit :=
  check! valid_address Sender;
  check! guard (negb (Coin_IsValid Amount) || (coin_Amount Amount =? 0)) ErrInvalidCoins;
  address_if_set BurnFromAddress.
Definition MsgForceTransfer_ValidateBasic (Sender : bytes) (Amount : Coin)
    (TransferFromAddress TransferToAddress : bytes) : result tf_err unit :=
  check! valid_address Sender;
  check! valid_address TransferFromAddress;
  check! valid_address TransferToAddress;
  guard (negb (Coin_IsValid Amount)) ErrInvalidCoins.
Definition MsgChangeAdmin_ValidateBasic (Sender Denom NewAdmin : bytes) : result tf_err unit :=
  check! valid_address Sender;
  check! valid_address NewAdmin;
  check! DeconstructDenom Denom;
  Ok tt.
Definition MsgSetDenomMetadata_ValidateBasic (Sender : bytes) (Md : Metadata) : result tf_err unit :=
  check! valid_address Sender;
  check! guard (negb (Metadata_Validate Md)) ErrDecode;
  check! DeconstructDenom (md_Base Md);
  Ok tt.
Definition MsgUpdateParams_ValidateBasic (Authority : bytes) (P : Params) : result tf_err unit :=
  check! valid_address Authority;
  guard (negb (Params_Validate P)) ErrInvalidCoins.

Definition ValidateBasic (m : Msg) : result tf_err unit :=
  match m with
  | MsgCreateDenom s d => MsgCreateDenom_ValidateBasic s d
  | MsgMint s c t => MsgMint_ValidateBasic s c t
  | MsgBurn s c f => MsgBurn_ValidateBasic s c f
  | MsgForceTransfer s c f t => MsgForceTransfer_ValidateBasic s c f t
  | MsgChangeAdmin s d a => MsgChangeAdmin_ValidateBasic s d a
  | MsgSetDenomMetadata s md => MsgSetDenomMetadata_ValidateBasic s md
  | MsgUpdateParams a p => MsgUpdateParams_ValidateBasic a p
  end.

(** ** The message server: [keeper/msg_server.go] *)

Definition msg_CreateDenom (Sender Subdenom : bytes) : M bytes :=
  exec! mlift (MsgCreateDenom_ValidateBasic Sender Subdenom);
  CreateDenom Sender Subdenom.

(** The guard every admin operation opens with. *)
Definition require_admin (Sender denom : bytes) : M unit :=
  run! authorityMetadata <- (fun s => (s, GetAuthorityMetadata s denom));
  mlift (guard (negb (bytes_eqb Sender (Admin authorityMetadata))) ErrUnauthorized).

Definition msg_Mint (Sender : bytes) (Amount : Coin) (MintToAddress : bytes) : M unit :=
  run! found <- mget (fun s => GetDenomMetaData (tf_bank s) (coin_Denom Amount));
  exec! match found with Some _ => mret tt | None => mfail ErrDenomDoesNotExist end;
  exec! require_admin Sender (coin_Denom Amount);
  mintTo Amount (if bytes_eqb MintToAddress [] then Sender else MintToAddress).

Definition msg_Burn (k : TFKeeper) (Sender : bytes) (Amount : Coin) (BurnFromAddress : bytes) : M unit :=
  exec! require_admin Sender (coin_Denom Amount);
  if bytes_eqb BurnFromAddress [] then burnFrom Amount Sender
  else
    exec! mlift (guard (negb (IsCapabilityEnabled (enabledCapabilities k) EnableBurnFrom))
                       ErrCapabilityNotEnabled);
    burnFrom Amount BurnFromAddress.

Definition msg_ForceTransfer (k : TFKeeper) (Sender : bytes) (Amount : Coin)
    (TransferFromAddress TransferToAddress : bytes) : M unit :=
  exec! mlift (guard (negb (IsCapabilityEnabled (enabledCapabilities k) EnableForceTransfer))
                     ErrCapabilityNotEnabled);
  exec! require_admin Sender (coin_Denom Amount);
  forceTransfer Amount TransferFromAddress TransferToAddress.

Definition msg_ChangeAdmin (Sender Denom NewAdmin : bytes) : M unit :=
  exec! require_admin Sender Denom;
  setAdmin Denom NewAdmin.

Definition msg_SetDenomMetadata (k : TFKeeper) (Sender : bytes) (Md : Metadata) : M unit :=
  exec! mlift (guard (negb (IsCapabilityEnabled (enabledCapabilities k) EnableSetMetadata))
                     ErrCapabilityNotEnabled);
  exec! mlift (guard (negb (Metadata_Validate Md)) ErrDecode);
  exec! require_admin Sender (md_Base Md);
  on_bank (fun b => Some (SetDenomMetaData Md b)) ErrBank.

Definition msg_UpdateParams (k : TFKeeper) (Authority : bytes) (P : Params) : M unit :=
  exec! mlift (guard (negb (bytes_eqb (authority k) Authority)) ErrInvalidSigner);
  SetParams P.

Definition handle (k : TFKeeper) (m : Msg) : M unit :=
  match m with
  | MsgCreateDenom s d => exec! msg_CreateDenom s d; mret tt
  | MsgMint s c t => msg_Mint s c t
  | MsgBurn s c f => msg_Burn k s c f
  | MsgForceTransfer s c f t => msg_ForceTransfer k s c f t
  | MsgChangeAdmin s d a => msg_ChangeAdmin s d a
  | MsgSetDenomMetadata s md => msg_SetDenomMetadata k s md
  | MsgUpdateParams a p => msg_UpdateParams k a p
  end.

(** ** Genesis: [keeper/genesis.go], [types/genesis.go] *)

(** [for _, denom := range gs.FactoryDenoms] with the set of denoms seen. *)
Fixpoint validate_denoms (seen : gset bytes) (l : list GenesisDenom) : result tf_err unit :=
  match l with
  | [] => Ok tt
  | g :: l' =>
      check! guard (bool_decide (gd_Denom g ∈ seen)) ErrInvalidGenesis;
      check! DeconstructDenom (gd_Denom g);
      check! (if bytes_eqb (Admin (gd_AuthorityMetadata g)) [] then Ok tt
              else check! from_opt (AccAddressFromBech32 (Admin (gd_AuthorityMetadata g)))
                            ErrInvalidAuthorityMetadata; Ok tt);
      validate_denoms ({[gd_Denom g]} ∪ seen) l'
  end.
Definition GenesisState_Validate (gs : GenesisState) : result tf_err unit :=
  check! guard (negb (Params_Validate (gs_Params gs))) ErrInvalidCoins;
  validate_denoms ∅ (FactoryDenoms gs).

(** Every error of the loop is a panic. *)
Definition must (m : M unit) : M unit :=
  fun s => match m s with (s', Ok a) => (s', Ok a) | (s', Err _) => (s', Err Panic) end.
Definition init_denom (genDenom : GenesisDenom) : M unit :=
  must (run! creator_sub <- mlift (DeconstructDenom (gd_Denom genDenom));
        exec! createDenomAfterValidation creator_sub.1 (gd_Denom genDenom);
        setAuthorityMetadata (gd_Denom genDenom) (gd_AuthorityMetadata genDenom)).
Definition InitGenesis (genState : GenesisState) : M unit :=
  let p := gs_Params genState in
  let p' := match DenomCreationFee p with
            | Some _ => p
            | None => MkParams (Some []) (DenomCreationGasConsume p)
            end in
  exec! SetParams p';
  mrange (FactoryDenoms genState) init_denom.

Fixpoint export_denoms (s : TF B) (l : list (bytes * bytes)) : option (list GenesisDenom) :=
  match l with
  | [] => Some []
  | kv :: l' =>
      match GetAuthorityMetadata s kv.2, export_denoms s l' with
      | Ok a, Some rest => Some (MkGenesisDenom kv.2 a :: rest)
      | _, _ => None
      end
  end.
(** [None] is a panic. *)
Definition ExportGenesis (s : TF B) : option GenesisState :=
  match export_denoms s (GetAllDenomsIterator s) with
  | Some l => Some (MkGenesis (tf_params s) l)
  | None => None
  end.

(** A transaction of the module that went through. *)
Definition tf_step (k : TFKeeper) (s : TF B) (m : Msg) (s' : TF B) : Prop :=
  ValidateBasic m = Ok tt /\ handle k m s = (s', Ok tt).

End Operations.

(** ** Lemmas on strings *)

Lemma bytes_contains_single s b : bytes_contains s [b] = false -> b ∉ s.
Proof.
  induction s as [|x s IH]; intros H; [apply not_elem_of_nil|]. cbn in H.
  apply orb_false_iff in H as [H1 H2]. rewrite andb_true_r in H1.
  apply bool_decide_eq_false in H1. apply not_elem_of_cons. split; [congruence|by apply IH].
Qed.

Lemma authority_key_inj d d' : authority_key d = authority_key d' -> d = d'.
Proof.
  unfold authority_key, GetDenomPrefixStore. cbn [Join]. intros H.
  apply app_inv_tail, app_inv_head in H. injection H as H. by apply app_inv_tail in H.
Qed.
Lemma authority_key_creator d c x : authority_key d <> GetCreatorPrefix c ++ x.
Proof. done. Qed.
#[export] Hint Resolve authority_key_creator : go.

(** ** The shape of the successful runs *)

Lemma from_opt_ok {A} (o : option A) e a : from_opt o e = Ok a -> o = Some a.
Proof. unfold from_opt. destruct o; [by intros [= ->]|done]. Qed.
Lemma on_bank_ok {B} (f : B -> option B) e s s' u :
  on_bank f e s = (s', Ok u) ->
  exists b, f (tf_bank s) = Some b /\ s' = MkTF (tf_store s) b (tf_params s).
Proof. unfold on_bank. destruct (f _); [|done]. intros [= <- _]. eauto. Qed.

Ltac run_ok :=
  repeat (run_ok_step || match goal with
  | H : on_bank _ _ _ = (_, Ok _) |- _ => apply on_bank_ok in H as (? & H & ->)
  | H : on_store _ _ = (_, Ok _) |- _ => injection H as <-
  | H : from_opt _ _ = Ok _ |- _ => apply from_opt_ok in H
  end); cbn [tf_store tf_bank tf_params] in *.

(** ** Denoms *)

Section Denoms.
Context {B : Type} `{!Sdk B} `{!AddressLaws B}.

Definition denom_of (creator sub : bytes) : bytes :=
  ModuleDenomPrefix ++ slash :: creator ++ slash :: sub.

Lemma prefix_no_slash : slash ∉ ModuleDenomPrefix.
Proof. apply (bool_decide_unpack _). by vm_compute. Qed.

Lemma GetTokenDenom_ok c sub d :
  GetTokenDenom c sub = Ok d ->
  d = denom_of c sub /\ slash ∉ c /\ ValidateDenom d = true /\ blen sub <= 44 /\ blen c <= 75.
Proof.
  unfold GetTokenDenom. intros H. run_ok. injection H as <-.
  split; [done|]. split; [by apply bytes_contains_single|]. zbool. by split.
Qed.

Lemma denom_of_inj c sub c' sub' :
  slash ∉ c -> slash ∉ c' -> denom_of c sub = denom_of c' sub' -> c = c' /\ sub = sub'.
Proof.
  unfold denom_of. intros Hc Hc' H. apply app_inv_head in H. injection H as H.
  by apply app_sep_inj in H.
Qed.

Lemma DeconstructDenom_denom_of c a sub :
  ValidateDenom (denom_of c sub) = true -> AccAddressFromBech32 c = Some a ->
  DeconstructDenom (denom_of c sub) = Ok (AccAddress_String a, sub).
Proof.
  intros Hv Ha. pose proof (bech32_no_slash _ _ Ha) as Hs.
  unfold DeconstructDenom. rewrite Hv. cbn [negb guard rbind].
  unfold denom_of. rewrite Split_app by apply prefix_no_slash. rewrite Split_app by done.
  replace (_ <? 3) with false.
  2:{ symmetry. apply Z.ltb_ge. pose proof (Split_not_nil sub slash).
      destruct (Split sub slash); cbn [length]; [done|lia]. }
  cbn [nth guard rbind]. rewrite bytes_eqb_refl. cbn [negb guard rbind].
  rewrite Ha. cbn [from_opt rbind drop]. by rewrite drop_0, Join_Split.
Qed.

Lemma DeconstructDenom_ok d c sub :
  DeconstructDenom d = Ok (c, sub) ->
  exists c0 a, AccAddressFromBech32 c0 = Some a /\ c = AccAddress_String a /\
               d = denom_of c0 sub /\ ValidateDenom d = true.
Proof.
  unfold DeconstructDenom. intros H. run_ok. injection H as <- <-. zbool.
  pose proof (Join_Split d slash) as Hj.
  destruct (Split d slash) as [|p [|c0 [|q qs]]]; cbn [length nth] in *; try lia.
  exists c0, x2. split; [done|]. split; [done|]. split; [|done]. subst p. by rewrite <- Hj.
Qed.

(** The denom of a creator and a subdenom takes apart into the
    creator's address, printed canonically, and that subdenom, slashes and
    all; and no other creator or subdenom makes the same denom. *)
Theorem GetTokenDenom_DeconstructDenom c a sub d :
  AccAddressFromBech32 c = Some a -> GetTokenDenom c sub = Ok d ->
  DeconstructDenom d = Ok (AccAddress_String a, sub) /\
  forall c' sub', GetTokenDenom c' sub' = Ok d -> c' = c /\ sub' = sub.
Proof.
  intros Ha H. apply GetTokenDenom_ok in H as (-> & Hc & Hv & _). split.
  - by apply DeconstructDenom_denom_of.
  - intros c' sub' (Hd & Hc' & _)%GetTokenDenom_ok. by apply denom_of_inj in Hd as [-> ->].
Qed.

End Denoms.

Lemma GetTokenDenom_DeconstructDenom_witness :
  DeconstructDenom (str "factory/terp1alice/a/b") = Ok (AccAddress_String (str "alice"), str "a/b") /\
  forall c' sub', GetTokenDenom c' sub' = Ok (str "factory/terp1alice/a/b") ->
                  c' = str "terp1alice" /\ sub' = str "a/b".
Proof.
  apply (GetTokenDenom_DeconstructDenom (str "terp1alice") (str "alice") (str "a/b")
    (str "factory/terp1alice/a/b")); by vm_compute.
Defined.

(** ** What the admin operations do *)

Section Money.
Context {B : Type} `{!Sdk B} `{!BankLaws B}.

Definition coin_at (c : Coin) (d : bytes) : Z := if decide (d = coin_Denom c) then coin_Amount c else 0.
Definition own (o x : owner) (z : Z) : Z := if decide (o = x) then z else 0.

(** The supply moved by [ds], the balances by [db], and nothing else. *)
Definition bank_delta (ds : bytes -> Z) (db : owner -> bytes -> Z) (s s' : TF B) : Prop :=
  tf_store s' = tf_store s /\ tf_params s' = tf_params s /\
  (forall d, supply (tf_bank s') d = supply (tf_bank s) d + ds d) /\
  (forall o d, balance (tf_bank s') o d = balance (tf_bank s) o d + db o d) /\
  (forall d, GetDenomMetaData (tf_bank s') d = GetDenomMetaData (tf_bank s) d).

Lemma require_admin_ok Sender d s s' u :
  require_admin Sender d s = (s', Ok u) ->
  s' = s /\ GetAuthorityMetadata s d = Ok (MkAuthority Sender).
Proof.
  unfold require_admin, mbind. destruct (GetAuthorityMetadata s d) as [[a]|e]; [|done].
  intros H. run_ok. by subst.
Qed.

Lemma mintTo_effect c to s s' u :
  mintTo c to s = (s', Ok u) ->
  exists a cs, AccAddressFromBech32 to = Some a /\ BlockedAddr a = false /\
    DeconstructDenom (coin_Denom c) = Ok cs /\ 0 <= coin_Amount c /\
    bank_delta (coin_at c) (fun o d => own o (Account a) (coin_at c d)) s s'.
Proof.
  unfold mintTo. intros H. run_ok.
  destruct (newcoins_law _ _ H1) as [Hn Hc], (mint_law _ _ _ _ H2) as (S1 & B1 & M1),
    (send_law _ _ _ _ _ H) as (S2 & B2 & M2).
  eexists _, _. repeat (split; [eassumption || done|]).
  split; [|split]; cbn.
  - intros d. by rewrite S2, S1, Hc.
  - intros o d. rewrite B2, B1, Hc. unfold own, coin_at. repeat case_decide; try congruence; lia.
  - intros d. by rewrite M2, M1.
Qed.

Lemma burnFrom_effect c from s s' u :
  burnFrom c from s = (s', Ok u) ->
  exists a cs, AccAddressFromBech32 from = Some a /\ BlockedAddr a = false /\
    DeconstructDenom (coin_Denom c) = Ok cs /\ 0 <= coin_Amount c /\
    bank_delta (fun d => - coin_at c d) (fun o d => - own o (Account a) (coin_at c d)) s s'.
Proof.
  unfold burnFrom. intros H. run_ok.
  match goal with Hn : NewCoins _ = Some _, Hs : SendCoins _ _ _ _ = Some _ |- _ =>
    destruct (newcoins_law _ _ Hn) as [Hp Hc], (send_law _ _ _ _ _ Hs) as (S1 & B1 & M1),
    (burn_law _ _ _ _ H) as (S2 & B2 & M2) end.
  eexists _, _. repeat (split; [eassumption || done|]).
  split; [|split]; cbn.
  - intros d. rewrite S2, S1, Hc. unfold coin_at. lia.
  - intros o d. rewrite B2, B1, Hc. unfold own, coin_at. repeat case_decide; try congruence; lia.
  - intros d. by rewrite M2, M1.
Qed.

Lemma forceTransfer_effect c from to s s' u :
  forceTransfer c from to s = (s', Ok u) ->
  exists a b cs, AccAddressFromBech32 from = Some a /\ AccAddressFromBech32 to = Some b /\
    BlockedAddr b = false /\ DeconstructDenom (coin_Denom c) = Ok cs /\ 0 <= coin_Amount c /\
    bank_delta (fun d => 0)
      (fun o d => own o (Account b) (coin_at c d) - own o (Account a) (coin_at c d)) s s'.
Proof.
  unfold forceTransfer. intros H. run_ok.
  match goal with Hn : NewCoins _ = Some _ |- _ =>
    destruct (newcoins_law _ _ Hn) as [Hp Hc], (send_law _ _ _ _ _ H) as (S1 & B1 & M1) end.
  eexists _, _, _. repeat (split; [eassumption || done|]).
  split; [|split]; cbn.
  - intros d. rewrite S1. lia.
  - intros o d. rewrite B1, Hc. unfold own, coin_at. repeat case_decide; lia.
  - intros d. by rewrite M1.
Qed.

Definition recipient (Sender to : bytes) : bytes := if bytes_eqb to [] then Sender else to.

Lemma msg_Mint_effect Sender c to s s' u :
  msg_Mint Sender c to s = (s', Ok u) ->
  GetAuthorityMetadata s (coin_Denom c) = Ok (MkAuthority Sender) /\
  GetDenomMetaData (tf_bank s) (coin_Denom c) <> None /\
  exists a cs, AccAddressFromBech32 (recipient Sender to) = Some a /\ BlockedAddr a = false /\
    DeconstructDenom (coin_Denom c) = Ok cs /\ 0 <= coin_Amount c /\
    bank_delta (coin_at c) (fun o d => own o (Account a) (coin_at c d)) s s'.
Proof.
  unfold msg_Mint. intros H. run_ok. destruct (GetDenomMetaData _ _) eqn:E; [|done]. run_ok.
  match goal with Ha : require_admin _ _ _ = _ |- _ => apply require_admin_ok in Ha as [-> Ha] end.
  split; [done|]. split; [done|]. by apply mintTo_effect in H.
Qed.

Lemma msg_Burn_effect k Sender c from s s' u :
  msg_Burn k Sender c from s = (s', Ok u) ->
  GetAuthorityMetadata s (coin_Denom c) = Ok (MkAuthority Sender) /\
  (from <> [] -> IsCapabilityEnabled (enabledCapabilities k) EnableBurnFrom = true) /\
  exists a cs, AccAddressFromBech32 (recipient Sender from) = Some a /\ BlockedAddr a = false /\
    DeconstructDenom (coin_Denom c) = Ok cs /\ 0 <= coin_Amount c /\
    bank_delta (fun d => - coin_at c d) (fun o d => - own o (Account a) (coin_at c d)) s s'.
Proof.
  unfold msg_Burn, recipient. intros H. run_ok.
  match goal with Ha : require_admin _ _ _ = _ |- _ => apply require_admin_ok in Ha as [-> Ha] end.
  split; [done|]. destruct (bytes_eqb from []) eqn:E.
  - split; [by apply bytes_eqb_eq in E|]. by apply burnFrom_effect in H.
  - run_ok. split; [done|]. by apply burnFrom_effect in H.
Qed.

Lemma msg_ForceTransfer_effect k Sender c from to s s' u :
  msg_ForceTransfer k Sender c from to s = (s', Ok u) ->
  GetAuthorityMetadata s (coin_Denom c) = Ok (MkAuthority Sender) /\
  IsCapabilityEnabled (enabledCapabilities k) EnableForceTransfer = true /\
  exists a b cs, AccAddressFromBech32 from = Some a /\ AccAddressFromBech32 to = Some b /\
    BlockedAddr b = false /\ DeconstructDenom (coin_Denom c) = Ok cs /\ 0 <= coin_Amount c /\
    bank_delta (fun d => 0)
      (fun o d => own o (Account b) (coin_at c d) - own o (Account a) (coin_at c d)) s s'.
Proof.
  unfold msg_ForceTransfer. intros H. run_ok.
  match goal with Ha : require_admin _ _ _ = _ |- _ => apply require_admin_ok in Ha as [-> Ha] end.
  split; [done|]. split; [done|]. by apply forceTransfer_effect in H.
Qed.

(** A mint that succeeds was sent by the denom's admin on a
    denom of the factory; it adds the amount to the supply and to the
    recipient's account, which is not blocked, and moves no other balance (the
    module account keeps nothing), no other supply, no metadata and no store
    key. A burn takes the amount from the account and the supply in the same
    way, and from an account other than the sender's only with the
    capability; a forced transfer moves the amount between the two accounts
    and keeps every supply. *)
Theorem money_effects k Sender c x y s s' :
  (msg_Mint Sender c x s = (s', Ok tt) ->
     GetAuthorityMetadata s (coin_Denom c) = Ok (MkAuthority Sender) /\
     exists a cs, AccAddressFromBech32 (recipient Sender x) = Some a /\ BlockedAddr a = false /\
       DeconstructDenom (coin_Denom c) = Ok cs /\ 0 <= coin_Amount c /\
       bank_delta (coin_at c) (fun o d => own o (Account a) (coin_at c d)) s s') /\
  (msg_Burn k Sender c x s = (s', Ok tt) ->
     GetAuthorityMetadata s (coin_Denom c) = Ok (MkAuthority Sender) /\
     (x <> [] -> IsCapabilityEnabled (enabledCapabilities k) EnableBurnFrom = true) /\
     exists a cs, AccAddressFromBech32 (recipient Sender x) = Some a /\ BlockedAddr a = false /\
       DeconstructDenom (coin_Denom c) = Ok cs /\ 0 <= coin_Amount c /\
       bank_delta (fun d => - coin_at c d) (fun o d => - own o (Account a) (coin_at c d)) s s') /\
  (msg_ForceTransfer k Sender c x y s = (s', Ok tt) ->
     GetAuthorityMetadata s (coin_Denom c) = Ok (MkAuthority Sender) /\
     IsCapabilityEnabled (enabledCapabilities k) EnableForceTransfer = true /\
     exists a b cs, AccAddressFromBech32 x = Some a /\ AccAddressFromBech32 y = Some b /\
       BlockedAddr b = false /\ DeconstructDenom (coin_Denom c) = Ok cs /\ 0 <= coin_Amount c /\
       bank_delta (fun d => 0)
         (fun o d => own o (Account b) (coin_at c d) - own o (Account a) (coin_at c d)) s s').
Proof.
  split; [|split]; intros H.
  - apply msg_Mint_effect in H as (? & _ & ?). done.
  - by apply msg_Burn_effect in H.
  - by apply msg_ForceTransfer_effect in H.
Qed.

End Money.

(** ** Creating denoms and changing admins *)

Section Admins.
Context {B : Type} `{!Sdk B} `{!BankLaws B} `{!AdminCodec B} `{!AddressLaws B}.
Implicit Types s : TF B.

(** What the creation fee of [p] does to the balances. *)
Definition fee_paid (p : Params) (creator : bytes) (b b' : B) : Prop :=
  match DenomCreationFee p with
  | Some fee => exists a, AccAddressFromBech32 creator = Some a /\
      moved balance (Account a) pool fee b b' /\ forall d, 0 <= AmountOf fee d
  | None => forall o d, balance b' o d = balance b o d
  end.

Lemma chargeForCreateDenom_effect c s s' u :
  chargeForCreateDenom c s = (s', Ok u) ->
  tf_store s' = tf_store s /\ tf_params s' = tf_params s /\
  (forall d, supply (tf_bank s') d = supply (tf_bank s) d) /\
  (forall d, GetDenomMetaData (tf_bank s') d = GetDenomMetaData (tf_bank s) d) /\
  fee_paid (tf_params s) c (tf_bank s) (tf_bank s').
Proof.
  unfold chargeForCreateDenom. intros H. apply mbind_ok in H as (s0 & p & Hp & H).
  apply mget_ok in Hp as [-> ->]. apply mbind_ok in H as (s1 & u1 & H1 & H2).
  assert (Hf : tf_store s1 = tf_store s /\ tf_params s1 = tf_params s /\
    (forall d, supply (tf_bank s1) d = supply (tf_bank s) d) /\
    (forall d, GetDenomMetaData (tf_bank s1) d = GetDenomMetaData (tf_bank s) d) /\
    fee_paid (tf_params s) c (tf_bank s) (tf_bank s1)).
  { unfold fee_paid. destruct (DenomCreationFee (tf_params s)) as [fee|]; run_ok; [|done].
    destruct (fund_law _ _ _ _ H1) as (S1 & B1 & N1 & M1). cbn. eauto 10. }
  destruct (_ =? 0); run_ok; [done|]. destruct (gas_law _ _ _ H2) as (S2 & B2 & M2).
  destruct Hf as (-> & -> & S1 & M1 & F1). split; [done|]. split; [done|].
  split; [by intros d; rewrite S2|]. split; [by intros d; rewrite M2|].
  unfold fee_paid, moved in *. destruct (DenomCreationFee _).
  - destruct F1 as (a & Ha & F1 & Hn). exists a. split; [done|]. split; [|done].
    intros o d. by rewrite B2, F1.
  - intros o d. by rewrite B2.
Qed.

Lemma createDenomAfterValidation_effect c d s s' u :
  createDenomAfterValidation c d s = (s', Ok u) ->
  tf_store s' = store_Set (GetCreatorPrefix c ++ d) d
                  (store_Set (authority_key d) (MarshalAdmin c) (tf_store s)) /\
  tf_params s' = tf_params s /\ tf_bank s' = SetDenomMetaData (newDenomMetaData d) (tf_bank s) /\
  DenomAuthorityMetadata_Validate (MkAuthority c) = Ok tt.
Proof.
  unfold createDenomAfterValidation, setAuthorityMetadata, addDenomFromCreator. intros H.
  run_ok. match goal with H : Some _ = Some _ |- _ => injection H as <- end.
  split; [done|]. split; [done|]. done.
Qed.

Lemma CreateDenom_effect c sub s s' d :
  CreateDenom c sub s = (s', Ok d) ->
  GetTokenDenom c sub = Ok d /\ GetDenomMetaData (tf_bank s) d = None /\
  tf_store s' = store_Set (GetCreatorPrefix c ++ d) d
                  (store_Set (authority_key d) (MarshalAdmin c) (tf_store s)) /\
  tf_params s' = tf_params s /\
  (forall d', supply (tf_bank s') d' = supply (tf_bank s) d') /\
  (forall d', GetDenomMetaData (tf_bank s') d' =
     if decide (d' = d) then Some (newDenomMetaData d) else GetDenomMetaData (tf_bank s) d') /\
  fee_paid (tf_params s) c (tf_bank s) (tf_bank s').
Proof.
  unfold CreateDenom, validateCreateDenom. intros H. apply mbind_ok in H as (s0 & d0 & H0 & H).
  run_ok. destruct (GetDenomMetaData _ _) eqn:E; [done|]. run_ok.
  match goal with
  | H1 : chargeForCreateDenom _ _ = _, H2 : createDenomAfterValidation _ _ _ = _ |- _ =>
      apply chargeForCreateDenom_effect in H1 as (St & Pa & Su & Me & Fe);
      apply createDenomAfterValidation_effect in H2 as (St2 & Pa2 & Ba2 & _) end.
  rewrite St in St2. rewrite Pa in Pa2. 
  destruct (meta_law (newDenomMetaData d) (tf_bank x)) as (Me3 & Su3 & Ba3).
  rewrite <- Ba2 in *. do 4 (split; [done|]). split; [|split].
  - intros d'. by rewrite Su3.
  - intros d'. rewrite Me3. cbn. case_decide; [done|apply Me].
  - unfold fee_paid, moved in *. destruct (DenomCreationFee _).
    + destruct Fe as (a & Ha & F1 & Hn). exists a. split; [done|]. split; [|done].
      intros o d'. by rewrite Ba3, F1.
    + intros o d'. by rewrite Ba3.
Qed.

Lemma GetAuthorityMetadata_store s s' d :
  tf_store s' = tf_store s -> GetAuthorityMetadata s' d = GetAuthorityMetadata s d.
Proof. unfold GetAuthorityMetadata. by intros ->. Qed.

Lemma GetAuthorityMetadata_Set s s' d d' c :
  tf_store s' = store_Set (authority_key d) (MarshalAdmin c) (tf_store s) ->
  GetAuthorityMetadata s' d' =
  if decide (d' = d) then Ok (MkAuthority c) else GetAuthorityMetadata s d'.
Proof.
  unfold GetAuthorityMetadata. intros ->. case_decide as Hd.
  - subst. by rewrite store_Get_Set_eq, admin_roundtrip.
  - rewrite store_Get_Set_ne; [done|]. intros He. by apply authority_key_inj in He.
Qed.

Lemma GetAuthorityMetadata_create s s' d d' c :
  tf_store s' = store_Set (GetCreatorPrefix c ++ d) d
                  (store_Set (authority_key d) (MarshalAdmin c) (tf_store s)) ->
  GetAuthorityMetadata s' d' =
  if decide (d' = d) then Ok (MkAuthority c) else GetAuthorityMetadata s d'.
Proof.
  intros H. unfold GetAuthorityMetadata. rewrite H, store_Get_Set_ne by (intros He; by symmetry in He).
  by apply (GetAuthorityMetadata_Set s (MkTF (store_Set (authority_key d) (MarshalAdmin c) (tf_store s))
    (tf_bank s) (tf_params s)) d d' c).
Qed.

Lemma msg_ChangeAdmin_effect Sender d a s s' u :
  msg_ChangeAdmin Sender d a s = (s', Ok u) ->
  GetAuthorityMetadata s d = Ok (MkAuthority Sender) /\
  DenomAuthorityMetadata_Validate (MkAuthority a) = Ok tt /\
  tf_store s' = store_Set (authority_key d) (MarshalAdmin a) (tf_store s) /\
  tf_bank s' = tf_bank s /\ tf_params s' = tf_params s.
Proof.
  unfold msg_ChangeAdmin, setAdmin, setAuthorityMetadata. intros H.
  apply mbind_ok in H as (s1 & u1 & H1 & H). apply require_admin_ok in H1 as [-> Ha].
  apply mbind_ok in H as (s2 & u2 & H2 & H). injection H2 as <- _. by run_ok.
Qed.

Lemma msg_SetDenomMetadata_effect k Sender md s s' u :
  msg_SetDenomMetadata k Sender md s = (s', Ok u) ->
  GetAuthorityMetadata s (md_Base md) = Ok (MkAuthority Sender) /\
  tf_store s' = tf_store s /\ tf_bank s' = SetDenomMetaData md (tf_bank s) /\ tf_params s' = tf_params s.
Proof.
  unfold msg_SetDenomMetadata. intros H. run_ok.
  match goal with Ha : require_admin _ _ _ = _ |- _ => apply require_admin_ok in Ha as [-> Ha] end.
  by injection H as <-.
Qed.

Lemma msg_UpdateParams_effect k a p s s' u :
  msg_UpdateParams k a p s = (s', Ok u) ->
  a = authority k /\ tf_store s' = tf_store s /\ tf_bank s' = tf_bank s /\ tf_params s' = p /\
  Params_Validate p = true.
Proof. unfold msg_UpdateParams, SetParams. intros H. by run_ok. Qed.


(** *** Every message at once *)

Definition msg_Sender (m : Msg) : bytes :=
  match m with
  | MsgCreateDenom s _ | MsgMint s _ _ | MsgBurn s _ _ | MsgForceTransfer s _ _ _
  | MsgChangeAdmin s _ _ | MsgSetDenomMetadata s _ | MsgUpdateParams s _ => s
  end.

(** The sender is the admin of the factory denom [d]. *)
Definition by_admin (s : TF B) (m : Msg) (d : bytes) : Prop :=
  GetAuthorityMetadata s d = Ok (MkAuthority (msg_Sender m)) /\
  exists cs, DeconstructDenom d = Ok cs.
(** The message creates [d], in the sender's own name space. *)
Definition by_creation (s : TF B) (m : Msg) (d : bytes) : Prop :=
  exists sub, m = MsgCreateDenom (msg_Sender m) sub /\ GetTokenDenom (msg_Sender m) sub = Ok d /\
              GetDenomMetaData (tf_bank s) d = None.
Definition untouched (s s' : TF B) (d : bytes) : Prop :=
  supply (tf_bank s') d = supply (tf_bank s) d /\
  GetAuthorityMetadata s' d = GetAuthorityMetadata s d /\
  GetDenomMetaData (tf_bank s') d = GetDenomMetaData (tf_bank s) d.

Lemma bank_delta_untouched ds db s s' d : bank_delta ds db s s' -> ds d = 0 -> untouched s s' d.
Proof.
  intros (St & _ & Su & _ & Me) H0. split; [rewrite Su; lia|].
  split; [by apply GetAuthorityMetadata_store|apply Me].
Qed.

Lemma tf_step_sender k s m s' : tf_step k s m s' -> msg_Sender m <> [].
Proof.
  intros [Hv _] Hs. destruct m; cbn in Hv, Hs; subst;
    apply rbind_ok in Hv as (u & Hv & _); unfold valid_address in Hv; rewrite bech32_empty in Hv; done.
Qed.

Lemma coin_at_ne c d : d <> coin_Denom c -> coin_at c d = 0.
Proof. intros H. unfold coin_at. by rewrite decide_False. Qed.

Lemma tf_step_frame k s m s' d :
  tf_step k s m s' -> by_admin s m d \/ by_creation s m d \/ untouched s s' d.
Proof.
  intros [Hv H]. destruct m as [c sub|c am to|c am from|c am from to|c dn na|c md|a p]; cbn in H.
  - right. unfold msg_CreateDenom in H. run_ok.
    match goal with Hc : CreateDenom _ _ _ = _ |- _ =>
      apply CreateDenom_effect in Hc as (Ht & Hn & St & _ & Su & Me & _) end.
    destruct (decide (d = x0)) as [->|Hd]; [left; by exists sub|right].
    split; [apply Su|]. split.
    + rewrite (GetAuthorityMetadata_create _ _ _ d _ St). by rewrite decide_False.
    + rewrite Me. by rewrite decide_False.
  - apply msg_Mint_effect in H as (Ha & _ & a & cs & _ & _ & Hcs & _ & Hd).
    destruct (decide (d = coin_Denom am)) as [->|Hne]; [left; split; [done|by exists cs]|].
    do 2 right. apply (bank_delta_untouched _ _ _ _ _ Hd). by apply coin_at_ne.
  - apply msg_Burn_effect in H as (Ha & _ & a & cs & _ & _ & Hcs & _ & Hd).
    destruct (decide (d = coin_Denom am)) as [->|Hne]; [left; split; [done|by exists cs]|].
    do 2 right. apply (bank_delta_untouched _ _ _ _ _ Hd). by rewrite coin_at_ne.
  - apply msg_ForceTransfer_effect in H as (Ha & _ & a & b & cs & _ & _ & _ & Hcs & _ & Hd).
    do 2 right. by apply (bank_delta_untouched _ _ _ _ _ Hd).
  - apply msg_ChangeAdmin_effect in H as (Ha & _ & St & Ba & _).
    destruct (decide (d = dn)) as [->|Hne].
    + left. split; [done|]. cbn in Hv. unfold MsgChangeAdmin_ValidateBasic in Hv. run_ok. eauto.
    + do 2 right. unfold untouched. rewrite Ba. split; [done|]. split; [|done].
      rewrite (GetAuthorityMetadata_Set _ _ _ d _ St). by rewrite decide_False.
  - apply msg_SetDenomMetadata_effect in H as (Ha & St & Ba & _).
    destruct (meta_law md (tf_bank s)) as (Me & Su & _).
    destruct (decide (d = md_Base md)) as [->|Hne].
    + left. split; [done|]. cbn in Hv. unfold MsgSetDenomMetadata_ValidateBasic in Hv. run_ok. eauto.
    + do 2 right. unfold untouched. rewrite Ba, Me, Su. rewrite decide_False by done. split; [done|].
      split; [|done]. by apply GetAuthorityMetadata_store.
  - apply msg_UpdateParams_effect in H as (_ & St & Ba & _). do 2 right. unfold untouched. rewrite Ba.
    split; [done|]. split; [|done]. by apply GetAuthorityMetadata_store.
Qed.

Lemma tf_step_balance k s m s' a d :
  tf_step k s m s' -> balance (tf_bank s') (Account a) d < balance (tf_bank s) (Account a) d ->
  by_admin s m d \/
  exists sub, m = MsgCreateDenom (msg_Sender m) sub /\ AccAddressFromBech32 (msg_Sender m) = Some a.
Proof.
  intros [Hv H] Hlt. destruct m as [c sub|c am to|c am from|c am from to|c dn na|c md|x p]; cbn in H.
  - right. exists sub. split; [done|]. unfold msg_CreateDenom in H. run_ok.
    match goal with Hc : CreateDenom _ _ _ = _ |- _ =>
      apply CreateDenom_effect in Hc as (_ & _ & _ & _ & _ & _ & Fe) end.
    unfold fee_paid in Fe. destruct (DenomCreationFee _).
    + destruct Fe as (a' & Ha & Mv & Hn). rewrite (Mv (Account a) d) in Hlt. specialize (Hn d).
      destruct (decide (Account a = Account a')) as [[= ->]|]; [done|]. case_decide; lia.
    + rewrite Fe in Hlt. lia.
  - left. apply msg_Mint_effect in H as (Ha & _ & a' & cs & _ & _ & Hcs & Hp & (_ & _ & _ & Ba & _)).
    rewrite Ba in Hlt. unfold own, coin_at in Hlt. repeat case_decide; lia.
  - left. apply msg_Burn_effect in H as (Ha & _ & a' & cs & _ & _ & Hcs & Hp & (_ & _ & _ & Ba & _)).
    rewrite Ba in Hlt. unfold own, coin_at in Hlt. repeat case_decide; try lia.
    subst d. split; [done|by exists cs].
  - left. apply msg_ForceTransfer_effect in H as (Ha & _ & a' & b & cs & _ & _ & _ & Hcs & Hp & (_ & _ & _ & Ba & _)).
    rewrite Ba in Hlt. unfold own, coin_at in Hlt. repeat case_decide; try lia;
    subst d; (split; [done|by exists cs]).
  - apply msg_ChangeAdmin_effect in H as (_ & _ & _ & Ba & _). rewrite Ba in Hlt. lia.
  - apply msg_SetDenomMetadata_effect in H as (_ & _ & Ba & _).
    destruct (meta_law md (tf_bank s)) as (_ & _ & Mb). rewrite Ba, Mb in Hlt. lia.
  - apply msg_UpdateParams_effect in H as (_ & _ & Ba & _). rewrite Ba in Hlt. lia.
Qed.

(** C19: Over every message of the module: a transaction after which a
    denom has another supply, another admin or other bank metadata was sent by
    the denom's admin, on a factory denom, or created that denom, which did
    not exist, in the sender's own name space; and a transaction that takes
    coins of a denom from an account was sent by that denom's admin, or is the
    account paying its own creation fee. *)
Theorem tf_step_authorized k s m s' d :
  tf_step k s m s' ->
  (supply (tf_bank s') d <> supply (tf_bank s) d \/
   GetAuthorityMetadata s' d <> GetAuthorityMetadata s d \/
   GetDenomMetaData (tf_bank s') d <> GetDenomMetaData (tf_bank s) d ->
   by_admin s m d \/ by_creation s m d) /\
  (forall a, balance (tf_bank s') (Account a) d < balance (tf_bank s) (Account a) d ->
   by_admin s m d \/
   exists sub, m = MsgCreateDenom (msg_Sender m) sub /\ AccAddressFromBech32 (msg_Sender m) = Some a).
Proof.
  intros H. split; [|intros a; by apply (tf_step_balance k)].
  destruct (tf_step_frame _ _ _ _ d H) as [?|[?|(Su & Au & Me)]]; [by left|by right|]. tauto.
Qed.

(** A run of the chain as the module sees it: its own messages, and what
    other modules do to the bank, which moves balances and keeps supplies and
    metadata. *)
Inductive tf_run (k : TFKeeper) : TF B -> TF B -> Prop :=
| run_nil s : tf_run k s s
| run_msg s m s1 s2 : tf_step k s m s1 -> tf_run k s1 s2 -> tf_run k s s2
| run_bank s b s2 :
    (forall d, supply b d = supply (tf_bank s) d) ->
    (forall d, GetDenomMetaData b d = GetDenomMetaData (tf_bank s) d) ->
    tf_run k (MkTF (tf_store s) b (tf_params s)) s2 -> tf_run k s s2.


End Admins.

(** ** The store invariant *)

Section Invariant.
Context {B : Type} `{!Sdk B} `{!BankLaws B} `{!AdminCodec B} `{!AddressLaws B}.
Implicit Types s : TF B.

(** Every key of the store is the authority metadata of a factory denom that
    has bank metadata, with an admin that is empty or an address; or an entry
    of the creator index, for a denom that has authority metadata; and a
    denom has at most one entry in the index. *)
Definition authority_entry (s : TF B) (key v : bytes) : Prop :=
  exists d a cs, key = authority_key d /\ v = MarshalAdmin a /\
    DenomAuthorityMetadata_Validate (MkAuthority a) = Ok tt /\
    DeconstructDenom d = Ok cs /\ GetDenomMetaData (tf_bank s) d <> None.
Definition index_entry (s : TF B) (key v : bytes) : Prop :=
  exists c, key = GetCreatorPrefix c ++ v /\ is_Some (tf_store s !! authority_key v).
Definition tf_keys_ok (s : TF B) : Prop :=
  (forall key v, tf_store s !! key = Some v -> authority_entry s key v \/ index_entry s key v) /\
  (forall k1 k2 v, tf_store s !! k1 = Some v -> tf_store s !! k2 = Some v ->
     has_prefix GetCreatorsPrefix k1 = true -> has_prefix GetCreatorsPrefix k2 = true -> k1 = k2) /\
  Params_Validate (tf_params s) = true.

Lemma GetCreatorPrefix_has c x : has_prefix GetCreatorsPrefix (GetCreatorPrefix c ++ x) = true.
Proof.
  apply has_prefix_true. exists (c ++ bar :: x).
  unfold GetCreatorPrefix, GetCreatorsPrefix. cbn [Join].
  rewrite <- !app_assoc. f_equal. cbn. f_equal. by rewrite <- app_assoc.
Qed.
Lemma GetCreatorPrefix_inj c d c' d' :
  bar ∉ d -> bar ∉ d' -> GetCreatorPrefix c ++ d = GetCreatorPrefix c' ++ d' -> d = d'.
Proof.
  unfold GetCreatorPrefix. cbn [Join]. intros Hd Hd' H. rewrite <- !app_assoc in H.
  apply app_inv_head in H. cbn in H. injection H as H. rewrite <- !app_assoc in H.
  apply (f_equal (@rev byte)) in H. rewrite !rev_app_distr in H. cbn in H. rewrite <- !app_assoc in H.
  apply app_sep_inj in H as [H _]; [|by rewrite list_elem_of_In, <- in_rev, <- list_elem_of_In..].
  apply (f_equal (@rev byte)) in H. by rewrite !rev_involutive in H.
Qed.
Lemma DeconstructDenom_no_bar d cs : DeconstructDenom d = Ok cs -> bar ∉ d.
Proof.
  destruct cs as [c sub]. intros (_ & _ & _ & _ & _ & Hv)%DeconstructDenom_ok. by apply denom_no_bar.
Qed.
Lemma authority_not_index d : has_prefix GetCreatorsPrefix (authority_key d) = false.
Proof. by vm_compute. Qed.
Lemma authority_ne_index d k : has_prefix GetCreatorsPrefix k = true -> authority_key d <> k.
Proof. intros H <-. by rewrite authority_not_index in H. Qed.

(** The authority of a denom with an entry exists. *)
Lemma tf_keys_authority s d v :
  tf_keys_ok s -> tf_store s !! authority_key d = Some v ->
  exists a cs, v = MarshalAdmin a /\ DenomAuthorityMetadata_Validate (MkAuthority a) = Ok tt /\
    GetAuthorityMetadata s d = Ok (MkAuthority a) /\
    DeconstructDenom d = Ok cs /\ GetDenomMetaData (tf_bank s) d <> None.
Proof.
  intros (Hk & _ & _) Hd. destruct (Hk _ _ Hd) as [(d' & a & cs & He & -> & Hv & Hc & Hm)|(c & He & _)].
  - apply authority_key_inj in He as <-. exists a, cs. repeat (split; [done|]). split; [|done].
    unfold GetAuthorityMetadata, store_Get. rewrite Hd. cbn. by rewrite admin_roundtrip.
  - by destruct (authority_key_creator d c v).
Qed.

(** An admin that is not the empty string has an entry. *)
Lemma admin_has_entry s d a :
  GetAuthorityMetadata s d = Ok (MkAuthority a) -> a <> [] -> is_Some (tf_store s !! authority_key d).
Proof.
  unfold GetAuthorityMetadata, store_Get. destruct (_ !! _); [eauto|]. cbn. rewrite admin_empty.
  by intros [= <-].
Qed.

(** Same store, metadata kept: the invariant is kept. *)
Lemma tf_keys_bank s s' :
  tf_keys_ok s -> tf_store s' = tf_store s -> Params_Validate (tf_params s') = true ->
  (forall d, GetDenomMetaData (tf_bank s) d <> None -> GetDenomMetaData (tf_bank s') d <> None) ->
  tf_keys_ok s'.
Proof.
  intros (Hk & Hu & _) St Hp Hm. unfold tf_keys_ok, index_entry. rewrite St. split; [|by split].
  intros key v Hkv. destruct (Hk _ _ Hkv) as [(d & a & cs & ? & ? & ? & ? & ?)|?]; [left|by right].
  exists d, a, cs. by repeat (split; [done|]); apply Hm.
Qed.

Lemma tf_keys_set_authority s s' d a cs :
  tf_keys_ok s -> DenomAuthorityMetadata_Validate (MkAuthority a) = Ok tt -> DeconstructDenom d = Ok cs ->
  GetDenomMetaData (tf_bank s) d <> None ->
  tf_store s' = store_Set (authority_key d) (MarshalAdmin a) (tf_store s) ->
  tf_bank s' = tf_bank s -> tf_params s' = tf_params s -> tf_keys_ok s'.
Proof.
  intros (Hk & Hu & Hp) Hv Hc Hm St Ba Pa. unfold tf_keys_ok, authority_entry, index_entry.
  rewrite St, Ba, Pa. unfold store_Set. split; [|split; [|done]].
  - intros key v Hkv. destruct (decide (key = authority_key d)) as [->|Hne].
    + rewrite lookup_insert_eq in Hkv. injection Hkv as <-. left. by exists d, a, cs.
    + rewrite lookup_insert_ne in Hkv by done.
      destruct (Hk _ _ Hkv) as [?|(c & -> & Hs)]; [by left|right]. exists c. split; [done|].
      destruct (decide (v = d)) as [->|Hvd]; [rewrite lookup_insert_eq; eauto|].
      rewrite lookup_insert_ne; [done|]. intros He. by apply authority_key_inj in He.
  - intros k1 k2 v H1 H2 P1 P2. 
    rewrite lookup_insert_ne in H1 by (by apply authority_ne_index).
    rewrite lookup_insert_ne in H2 by (by apply authority_ne_index). by eapply Hu.
Qed.

Lemma tf_keys_create s s' d c cs :
  tf_keys_ok s -> tf_store s !! authority_key d = None ->
  DenomAuthorityMetadata_Validate (MkAuthority c) = Ok tt -> DeconstructDenom d = Ok cs ->
  tf_store s' = store_Set (GetCreatorPrefix c ++ d) d
                  (store_Set (authority_key d) (MarshalAdmin c) (tf_store s)) ->
  tf_params s' = tf_params s -> GetDenomMetaData (tf_bank s') d <> None ->
  (forall d', GetDenomMetaData (tf_bank s) d' <> None -> GetDenomMetaData (tf_bank s') d' <> None) ->
  tf_keys_ok s'.
Proof.
  intros Hi Hn Hv Hc St Pa Hd Hm.
  set (s1 := MkTF (tf_store s) (tf_bank s') (tf_params s)).
  set (s2 := MkTF (store_Set (authority_key d) (MarshalAdmin c) (tf_store s)) (tf_bank s') (tf_params s)).
  assert (Hi1 : tf_keys_ok s1) by (apply (tf_keys_bank s); [done|done|apply Hi|done]).
  assert (Hi2 : tf_keys_ok s2) by (by apply (tf_keys_set_authority s1 s2 d c cs)).
  assert (Hno : forall key, has_prefix GetCreatorsPrefix key = true -> tf_store s !! key <> Some d).
  { intros key Hp Hk. destruct (proj1 Hi _ _ Hk) as [(d0 & a & _ & -> & _)|(c0 & _ & [v Ha])].
    - by rewrite authority_not_index in Hp.
    - congruence. }
  destruct Hi2 as (Hk & Hu & Hp). unfold tf_keys_ok. rewrite Pa. split; [|split; [|done]].
  - intros key v Hkv. rewrite St in Hkv. unfold store_Set at 1 in Hkv.
    destruct (decide (key = GetCreatorPrefix c ++ d)) as [->|Hne].
    + rewrite lookup_insert_eq in Hkv. injection Hkv as <-. right. exists c. split; [done|].
      rewrite St. unfold store_Set. rewrite lookup_insert_ne, lookup_insert_eq by done. eauto.
    + rewrite lookup_insert_ne in Hkv by done. destruct (Hk _ _ Hkv) as [?|(c0 & -> & Hs)]; [by left|].
      right. exists c0. split; [done|]. rewrite St. unfold store_Set at 1.
      by rewrite lookup_insert_ne.
  - rewrite St. unfold store_Set. intros k1 k2 v H1 H2 P1 P2.
    pose proof (authority_ne_index d) as Ha.
    rewrite !lookup_insert_Some in H1, H2.
    destruct H1 as [[<- <-]|[N1 [[A1 _]|[_ H1]]]]; [| |]; destruct H2 as [[<- ?]|[N2 [[A2 _]|[_ H2]]]];
      subst; try done; try (by destruct (Ha _ P1)); try (by destruct (Ha _ P2)).
    + by destruct (Hno k2).
    + by destruct (Hno k1).
    + apply (Hu _ _ v); [| |done|done]; cbn; unfold store_Set; by rewrite lookup_insert_ne; [|apply Ha].
Qed.

(** And every denom with authority metadata is in the index. *)
Definition tf_inv (s : TF B) : Prop :=
  tf_keys_ok s /\
  forall d, is_Some (tf_store s !! authority_key d) ->
            exists c, tf_store s !! (GetCreatorPrefix c ++ d) = Some d.

Lemma tf_inv_create s s' d c cs :
  tf_inv s -> tf_store s !! authority_key d = None ->
  DenomAuthorityMetadata_Validate (MkAuthority c) = Ok tt -> DeconstructDenom d = Ok cs ->
  tf_store s' = store_Set (GetCreatorPrefix c ++ d) d
                  (store_Set (authority_key d) (MarshalAdmin c) (tf_store s)) ->
  tf_params s' = tf_params s -> GetDenomMetaData (tf_bank s') d <> None ->
  (forall d', GetDenomMetaData (tf_bank s) d' <> None -> GetDenomMetaData (tf_bank s') d' <> None) ->
  tf_inv s'.
Proof.
  intros [Hk Hx] Hn Hv Hc St Pa Hd Hm. split; [by apply (tf_keys_create s s' d c cs)|].
  intros d' Ha. rewrite St in *. unfold store_Set in *.
  destruct (decide (d' = d)) as [->|Hne]; [exists c; by rewrite lookup_insert_eq|].
  rewrite !lookup_insert_ne in Ha.
  2:{ intros He. by apply authority_key_inj in He. }
  2:{ intros He. by destruct (authority_key_creator d' c d). }
  destruct (Hx _ Ha) as [c' Hc']. exists c'.
  rewrite lookup_insert_ne; [by rewrite lookup_insert_ne|].
  intros He. destruct Ha as [v Ha]. destruct (tf_keys_authority _ _ _ Hk Ha) as (_ & cs' & _ & _ & _ & Hc0 & _).
  apply GetCreatorPrefix_inj in He; [congruence| |];
    [apply (DeconstructDenom_no_bar _ _ Hc)|apply (DeconstructDenom_no_bar _ _ Hc0)].
Qed.

Lemma tf_inv_set_authority s s' d a cs :
  tf_inv s -> is_Some (tf_store s !! authority_key d) ->
  DenomAuthorityMetadata_Validate (MkAuthority a) = Ok tt -> DeconstructDenom d = Ok cs ->
  tf_store s' = store_Set (authority_key d) (MarshalAdmin a) (tf_store s) ->
  tf_bank s' = tf_bank s -> tf_params s' = tf_params s -> tf_inv s'.
Proof.
  intros [Hk Hx] [v Hd] Hv Hc St Ba Pa.
  destruct (tf_keys_authority _ _ _ Hk Hd) as (_ & _ & _ & _ & _ & _ & Hm).
  split; [by apply (tf_keys_set_authority s s' d a cs)|].
  intros d' Ha. rewrite St in *. unfold store_Set in *.
  assert (Ha' : is_Some (tf_store s !! authority_key d')).
  { destruct (decide (d' = d)) as [->|Hne]; [by exists v|].
    rewrite lookup_insert_ne in Ha; [done|]. intros He. by apply authority_key_inj in He. }
  destruct (Hx _ Ha') as [c Hc']. exists c. by rewrite lookup_insert_ne.
Qed.

Lemma tf_inv_bank s s' :
  tf_inv s -> tf_store s' = tf_store s -> Params_Validate (tf_params s') = true ->
  (forall d, GetDenomMetaData (tf_bank s) d <> None -> GetDenomMetaData (tf_bank s') d <> None) ->
  tf_inv s'.
Proof.
  intros [Hk Hx] St Hp Hm. split; [by apply (tf_keys_bank s)|]. by rewrite St.
Qed.

(** No metadata, no authority. *)
Lemma tf_inv_absent s d :
  tf_inv s -> GetDenomMetaData (tf_bank s) d = None -> tf_store s !! authority_key d = None.
Proof.
  intros [Hk _] Hm. destruct (_ !! _) eqn:E; [|done].
  by destruct (tf_keys_authority _ _ _ Hk E) as (_ & _ & _ & _ & _ & _ & Hm').
Qed.

Lemma tf_inv_step k s m s' : tf_inv s -> tf_step k s m s' -> tf_inv s'.
Proof.
  intros Hi Hs. pose proof (tf_step_sender _ _ _ _ Hs) as Hne. destruct Hs as [Hv H].
  assert (Hp : Params_Validate (tf_params s) = true) by apply Hi.
  destruct m as [c sub|c am to|c am from|c am from to|c dn na|c md|a p]; cbn in H, Hv, Hne.
  - unfold msg_CreateDenom in H. run_ok. unfold MsgCreateDenom_ValidateBasic, valid_address in *. run_ok.
    match goal with Hc : CreateDenom _ _ _ = _ |- _ =>
      apply CreateDenom_effect in Hc as (Ht & Hn & St & Pa & _ & Me & _) end.
    apply GetTokenDenom_ok in Ht as (-> & Hsl & Hvd & _).
    eapply (tf_inv_create s s' (denom_of c sub) c); [done|by apply tf_inv_absent| | |done|done| |].
    + unfold DenomAuthorityMetadata_Validate. cbn. apply bytes_eqb_neq in Hne. rewrite Hne.
      match goal with Ha : AccAddressFromBech32 c = Some _ |- _ => by rewrite Ha end.
    + by eapply DeconstructDenom_denom_of.
    + rewrite Me. by rewrite decide_True.
    + intros d' Hd'. rewrite Me. by case_decide.
  - apply msg_Mint_effect in H as (_ & _ & a & cs & _ & _ & _ & _ & (St & Pa & _ & _ & Me)).
    apply (tf_inv_bank s); [done|done|by rewrite Pa|]. intros d. by rewrite Me.
  - apply msg_Burn_effect in H as (_ & _ & a & cs & _ & _ & _ & _ & (St & Pa & _ & _ & Me)).
    apply (tf_inv_bank s); [done|done|by rewrite Pa|]. intros d. by rewrite Me.
  - apply msg_ForceTransfer_effect in H as (_ & _ & a & b & cs & _ & _ & _ & _ & _ & (St & Pa & _ & _ & Me)).
    apply (tf_inv_bank s); [done|done|by rewrite Pa|]. intros d. by rewrite Me.
  - apply msg_ChangeAdmin_effect in H as (Ha & Hva & St & Ba & Pa).
    unfold MsgChangeAdmin_ValidateBasic in Hv. run_ok.
    eapply (tf_inv_set_authority s s' dn na); [done|by eapply admin_has_entry|done..].
  - apply msg_SetDenomMetadata_effect in H as (_ & St & Ba & Pa).
    destruct (meta_law md (tf_bank s)) as (Me & _).
    apply (tf_inv_bank s); [done|done|by rewrite Pa|]. intros d. rewrite Ba, Me. by case_decide.
  - apply msg_UpdateParams_effect in H as (_ & St & Ba & Pa & Hpv).
    apply (tf_inv_bank s); [done|done|by rewrite Pa|]. intros d. by rewrite Ba.
Qed.

Lemma tf_inv_run k s s' : tf_inv s -> tf_run k s s' -> tf_inv s'.
Proof.
  intros Hi Hr. induction Hr as [s|s m s1 s2 Hm Hr IH|s b s2 Hs Hmd Hr IH]; [done| |]; apply IH.
  - by eapply tf_inv_step.
  - apply (tf_inv_bank s); [done|done|apply Hi|]. intros d. cbn. by rewrite Hmd.
Qed.

End Invariant.

(** ** Genesis *)

Section Genesis.
Context {B : Type} `{!Sdk B} `{!BankLaws B} `{!AdminCodec B} `{!AddressLaws B}.
Implicit Types s : TF B.

Lemma export_denoms_spec s l :
  (forall kv, kv ∈ l -> exists a, GetAuthorityMetadata s kv.2 = Ok a) ->
  exists ds, export_denoms s l = Some ds /\ map gd_Denom ds = map snd l /\
    forall g, g ∈ ds -> GetAuthorityMetadata s (gd_Denom g) = Ok (gd_AuthorityMetadata g).
Proof.
  induction l as [|kv l IH]; intros H; cbn.
  - exists []. split; [done|]. split; [done|]. intros g Hg. by apply elem_of_nil in Hg.
  - destruct (H kv ltac:(left)) as [a Ha]. rewrite Ha.
    destruct IH as (ds & -> & Hm & Hg); [intros kv' Hkv; apply H; by right|].
    eexists. split; [done|]. split; [cbn; by rewrite Hm|].
    intros g [->|Hin]%elem_of_cons; [done|by apply Hg].
Qed.

(** An entry of a valid genesis. *)
Definition denom_entry_ok (g : GenesisDenom) : Prop :=
  (exists cs, DeconstructDenom (gd_Denom g) = Ok cs) /\
  DenomAuthorityMetadata_Validate (gd_AuthorityMetadata g) = Ok tt.

Lemma validate_denoms_spec seen l :
  validate_denoms seen l = Ok tt <->
  Forall denom_entry_ok l /\ NoDup (map gd_Denom l) /\ Forall (fun g => gd_Denom g ∉ seen) l.
Proof.
  revert seen. induction l as [|g l IH]; intros seen; cbn [validate_denoms map].
  - split; [intros _; repeat split; constructor|done].
  - rewrite !Forall_cons, NoDup_cons. unfold denom_entry_ok at 1, DenomAuthorityMetadata_Validate.
    destruct (decide (gd_Denom g ∈ seen)) as [Hs|Hs].
    { rewrite bool_decide_true by done. cbn. split; [done|]. tauto. }
    rewrite bool_decide_false by done. cbn [guard rbind].
    destruct (DeconstructDenom (gd_Denom g)) as [cs|e]; cbn [rbind].
    2:{ split; [done|]. intros [[[[cs ?] _] _] _]. done. }
    destruct (if bytes_eqb (Admin (gd_AuthorityMetadata g)) [] then _ else _) as [[]|] eqn:E.
    + cbn [rbind]. rewrite IH.
      assert (Ha : (if bytes_eqb (Admin (gd_AuthorityMetadata g)) [] then Ok tt
         else rbind (from_opt (AccAddressFromBech32 (Admin (gd_AuthorityMetadata g))) ErrInvalidAddress)
                (fun _ => Ok tt)) = Ok tt).
      { destruct (bytes_eqb _ _); [done|]. by destruct (AccAddressFromBech32 _). }
      rewrite !Forall_forall. split.
      * intros (H1 & H2 & H3). split; [by eauto|]. split; [|split; [done|]].
        -- split; [|done]. intros Hin. apply list_elem_of_In, in_map_iff in Hin as (g' & He & Hg').
           apply list_elem_of_In in Hg'. apply (H3 g' Hg'). rewrite He. set_solver.
        -- intros g' Hg'. specialize (H3 g' Hg'). set_solver.
      * intros ([_ H1] & [Hn H2] & [_ H3]). split; [done|]. split; [done|]. intros g' Hg'.
        apply not_elem_of_union. split; [|by apply H3]. intros He%elem_of_singleton.
        apply Hn. rewrite <- He. by apply list_elem_of_In, in_map, list_elem_of_In.
    + split; [done|]. intros [[[_ Ha] _] _]. destruct (bytes_eqb _ _); [done|].
      by destruct (AccAddressFromBech32 _).
Qed.

(** The index lists each denom once. *)
Lemma index_values_NoDup s : tf_inv s -> NoDup (map snd (GetAllDenomsIterator s)).
Proof.
  intros [(_ & Hu & _) _]. unfold GetAllDenomsIterator.
  pose proof (NoDup_IteratePrefix (tf_store s) GetCreatorsPrefix) as Hn.
  assert (Hall : forall k v, (k, v) ∈ IteratePrefix (tf_store s) GetCreatorsPrefix ->
    tf_store s !! k = Some v /\ has_prefix GetCreatorsPrefix k = true)
    by (intros k v; apply elem_of_IteratePrefix).
  induction (IteratePrefix (tf_store s) GetCreatorsPrefix) as [|[k v] l IH]; cbn; [constructor|].
  rewrite fmap_cons in Hn. apply NoDup_cons in Hn as [Hni Hn]. constructor.
  - intros Hin. apply list_elem_of_In, in_map_iff in Hin as ([k' v'] & He & Hin). cbn in He. subst v'.
    apply list_elem_of_In in Hin. destruct (Hall k v ltac:(left)) as [H1 P1].
    destruct (Hall k' v ltac:(by right)) as [H2 P2].
    apply Hni. rewrite (Hu _ _ _ H1 H2 P1 P2). cbn. apply list_elem_of_fmap. by exists (k', v).
  - apply IH; [done|]. intros k' v' Hin. apply Hall. by right.
Qed.

Lemma index_values s d :
  tf_inv s -> d ∈ map snd (GetAllDenomsIterator s) <-> is_Some (tf_store s !! authority_key d).
Proof.
  intros [Hk Hx]. rewrite list_elem_of_In, in_map_iff. split.
  - intros ([k v] & He & Hin). cbn in He. subst v. apply list_elem_of_In, elem_of_IteratePrefix in Hin as [H1 P1].
    destruct (proj1 Hk _ _ H1) as [(d' & a & _ & -> & _)|(c & -> & Hs)]; [|done].
    by rewrite authority_not_index in P1.
  - intros Hs. destruct (Hx _ Hs) as [c Hc]. exists (GetCreatorPrefix c ++ d, d). split; [done|].
    apply list_elem_of_In, elem_of_IteratePrefix. split; [done|apply GetCreatorPrefix_has].
Qed.

(** What the export of a well-formed state holds. *)
Lemma ExportGenesis_inv s :
  tf_inv s -> exists l, ExportGenesis s = Some (MkGenesis (tf_params s) l) /\
    GenesisState_Validate (MkGenesis (tf_params s) l) = Ok tt /\ NoDup (map gd_Denom l) /\
    forall d a, MkGenesisDenom d a ∈ l <->
      is_Some (tf_store s !! authority_key d) /\ GetAuthorityMetadata s d = Ok a.
Proof.
  intros Hi. pose proof (index_values_NoDup s Hi) as Hn.
  destruct (export_denoms_spec s (GetAllDenomsIterator s)) as (ds & He & Hm & Hg).
  { intros [k v] Hin. assert (Hv : v ∈ map snd (GetAllDenomsIterator s))
      by (apply list_elem_of_In, in_map_iff; exists (k, v); by rewrite <- list_elem_of_In).
    apply index_values in Hv as [x Hx]; [|done].
    destruct (tf_keys_authority _ _ _ (proj1 Hi) Hx) as (a & _ & _ & _ & Ha & _). cbn. eauto. }
  rewrite <- Hm in Hn.
  assert (Hd : forall g, g ∈ ds -> is_Some (tf_store s !! authority_key (gd_Denom g))).
  { intros g Hin. apply index_values; [done|]. rewrite <- Hm.
    by apply list_elem_of_In, in_map, list_elem_of_In. }
  exists ds. unfold ExportGenesis. rewrite He. split; [done|]. split; [|split; [done|]].
  - unfold GenesisState_Validate. cbn. rewrite (proj2 (proj2 (proj1 Hi))). cbn.
    apply validate_denoms_spec. split; [|split; [done|]].
    + apply Forall_forall. intros g Hin. destruct (Hd g Hin) as [v Hv].
      destruct (tf_keys_authority _ _ _ (proj1 Hi) Hv) as (a & cs & _ & Hva & Ha & Hc & _).
      rewrite (Hg g Hin) in Ha. injection Ha as Ha. split; [by eauto|]. by rewrite Ha.
    + apply Forall_forall. intros g _. apply not_elem_of_empty.
  - intros d a. split.
    + intros Hin. split; [by apply (Hd _ Hin)|by apply (Hg _ Hin)].
    + intros [Hs Ha]. apply index_values in Hs; [|done]. rewrite <- Hm in Hs.
      apply list_elem_of_In, in_map_iff in Hs as ([d' a'] & <- & Hin). apply list_elem_of_In in Hin.
      specialize (Hg _ Hin). cbn in Hg, Ha. rewrite Ha in Hg. by injection Hg as ->.
Qed.

(** From a well-formed state every history of messages and
    bank traffic leads to a well-formed state: the store holds exactly
    authority metadata of factory denoms that exist in the bank, with a valid
    or empty admin, and an index that has each of them once; and there the
    export never panics, is a genesis that validates, and lists each denom
    that has authority metadata, once, with that metadata. *)
Theorem tf_run_export k s s' :
  tf_inv s -> tf_run k s s' ->
  tf_inv s' /\
  exists l, ExportGenesis s' = Some (MkGenesis (tf_params s') l) /\
    GenesisState_Validate (MkGenesis (tf_params s') l) = Ok tt /\ NoDup (map gd_Denom l) /\
    forall d a, MkGenesisDenom d a ∈ l <->
      is_Some (tf_store s' !! authority_key d) /\ GetAuthorityMetadata s' d = Ok a.
Proof.
  intros Hi Hr. pose proof (tf_inv_run _ _ _ Hi Hr) as Hi'. split; [done|]. by apply ExportGenesis_inv.
Qed.

Lemma init_denom_spec s g :
  tf_inv s -> denom_entry_ok g -> tf_store s !! authority_key (gd_Denom g) = None ->
  exists s', init_denom g s = (s', Ok tt) /\ tf_inv s' /\ tf_params s' = tf_params s /\
    (forall d, is_Some (tf_store s' !! authority_key d) <->
               d = gd_Denom g \/ is_Some (tf_store s !! authority_key d)) /\
    (forall d, GetAuthorityMetadata s' d =
       if decide (d = gd_Denom g) then Ok (gd_AuthorityMetadata g) else GetAuthorityMetadata s d).
Proof.
  destruct g as [dn [adm]]. intros Hi [[[c sub] Hc] Hv] Hn. cbn in *.
  destruct (DeconstructDenom_ok _ _ _ Hc) as (c0 & a & Ha & Hcs & Hd & Hvd).
  assert (Hvc : DenomAuthorityMetadata_Validate (MkAuthority c) = Ok tt).
  { unfold DenomAuthorityMetadata_Validate. cbn. destruct (bytes_eqb c []); [done|].
    rewrite Hcs, (bech32_roundtrip _ _ Ha). done. }
  set (b1 := SetDenomMetaData (newDenomMetaData dn) (tf_bank s)).
  set (s1 := MkTF (store_Set (GetCreatorPrefix c ++ dn) dn
                  (store_Set (authority_key dn) (MarshalAdmin c) (tf_store s))) b1 (tf_params s)).
  set (s2 := MkTF (store_Set (authority_key dn) (MarshalAdmin adm) (tf_store s1)) b1 (tf_params s)).
  assert (Hi1 : tf_inv s1).
  { destruct (meta_law (newDenomMetaData dn) (tf_bank s)) as (Me & _).
    eapply (tf_inv_create s s1 dn c); [done..| |].
    - cbn. rewrite Me. cbn. by rewrite decide_True.
    - intros d' Hd'. cbn. rewrite Me. by case_decide. }
  assert (Hs1 : is_Some (tf_store s1 !! authority_key dn)).
  { exists (MarshalAdmin c). cbn. unfold store_Set. by rewrite lookup_insert_ne, lookup_insert_eq. }
  exists s2. split; [|split; [|split; [done|split]]].
  - unfold init_denom, must, mbind at 1, mlift at 1. cbn [gd_Denom gd_AuthorityMetadata]. rewrite Hc.
    unfold createDenomAfterValidation, setAuthorityMetadata, mbind, mlift, on_bank, on_store, mput. cbn.
    by rewrite Hvc, Hv.
  - by apply (tf_inv_set_authority s1 s2 dn adm (c, sub)).
  - intros d. cbn. unfold store_Set. destruct (decide (d = dn)) as [->|Hne].
    + rewrite lookup_insert_eq. split; [by left|eauto].
    + rewrite !lookup_insert_ne by (done || intros He; by apply authority_key_inj in He). tauto.
  - intros d. rewrite (GetAuthorityMetadata_Set s1 s2 dn d adm eq_refl). case_decide; [done|].
    rewrite (GetAuthorityMetadata_create s s1 dn d c eq_refl). by rewrite decide_False.
Qed.

Lemma init_loop_spec l s :
  tf_inv s -> Forall denom_entry_ok l -> NoDup (map gd_Denom l) ->
  Forall (fun g => tf_store s !! authority_key (gd_Denom g) = None) l ->
  exists s', mrange l init_denom s = (s', Ok tt) /\ tf_inv s' /\ tf_params s' = tf_params s /\
    (forall d, is_Some (tf_store s' !! authority_key d) <->
               d ∈ map gd_Denom l \/ is_Some (tf_store s !! authority_key d)) /\
    (forall g, g ∈ l -> GetAuthorityMetadata s' (gd_Denom g) = Ok (gd_AuthorityMetadata g)) /\
    (forall d, d ∉ map gd_Denom l -> GetAuthorityMetadata s' d = GetAuthorityMetadata s d).
Proof.
  revert s. induction l as [|g l IH]; intros s Hi Hok Hn Hab.
  - exists s. split; [done|]. split; [done|]. split; [done|]. split; [|split; [|done]].
    + intros d. cbn. rewrite elem_of_nil. tauto.
    + intros g Hg. by apply elem_of_nil in Hg.
  - apply Forall_cons in Hok as [Hg Hok], Hab as [Hag Hab]. cbn [map] in *.
    apply NoDup_cons in Hn as [Hni Hn].
    destruct (init_denom_spec s g Hi Hg Hag) as (s1 & R1 & Hi1 & P1 & K1 & A1).
    assert (Hne : forall g', g' ∈ l -> gd_Denom g' <> gd_Denom g).
    { intros g' Hin He. apply Hni. rewrite <- He. by apply list_elem_of_In, in_map, list_elem_of_In. }
    destruct (IH s1 Hi1 Hok Hn) as (s2 & R2 & Hi2 & P2 & K2 & A2 & A2').
    { rewrite Forall_forall in Hab |- *. intros g' Hin. cbn beta.
      destruct (tf_store s1 !! authority_key (gd_Denom g')) eqn:E; [|done].
      destruct (proj1 (K1 (gd_Denom g'))) as [He|Hs]; [by eauto|by destruct (Hne g')|].
      rewrite (Hab g' Hin) in Hs. by destruct Hs. }
    exists s2. rewrite mrange_cons, R1. split; [done|]. split; [done|]. split; [congruence|].
    split; [|split].
    + intros d. rewrite K2, K1, elem_of_cons. tauto.
    + intros g' [->|Hin]%elem_of_cons; [|by apply A2]. rewrite A2' by done. rewrite A1. by rewrite decide_True.
    + intros d [Hd1 Hd2]%not_elem_of_cons. rewrite A2' by done. rewrite A1. by rewrite decide_False.
Qed.

Definition init_params (p : Params) : Params :=
  match DenomCreationFee p with Some _ => p | None => MkParams (Some []) (DenomCreationGasConsume p) end.

(** A genesis that validates initialises the module without a
    panic, on an empty store and whatever the bank holds (provided the empty
    set of coins is valid, for a nil fee); the state is well formed, every
    denom listed has the listed admin, and exporting gives back the same
    denoms, each with its admin, in some order, with the same parameters. *)
Theorem InitGenesis_ExportGenesis_roundtrip gs s :
  GenesisState_Validate gs = Ok tt -> tf_store s = ∅ -> Coins_Validate [] = true ->
  exists s' l, InitGenesis gs s = (s', Ok tt) /\ tf_inv s' /\
    (forall g, g ∈ FactoryDenoms gs ->
       GetAuthorityMetadata s' (gd_Denom g) = Ok (gd_AuthorityMetadata g)) /\
    ExportGenesis s' = Some (MkGenesis (init_params (gs_Params gs)) l) /\ l ≡ₚ FactoryDenoms gs.
Proof.
  intros Hv He Hz. unfold GenesisState_Validate in Hv. run_ok.
  apply validate_denoms_spec in Hv as (Hok & Hn & _).
  set (s0 := MkTF (tf_store s) (tf_bank s) (init_params (gs_Params gs))).
  assert (Hp0 : Params_Validate (init_params (gs_Params gs)) = true).
  { unfold init_params. destruct (DenomCreationFee (gs_Params gs)) eqn:E; [done|].
    unfold Params_Validate, validateDenomCreationFee. done. }
  assert (Hi0 : tf_inv s0).
  { split; [split; [|split; [|done]]|]; cbn; rewrite He.
    - intros k v Hk. by rewrite lookup_empty in Hk.
    - intros k1 k2 v Hk. by rewrite lookup_empty in Hk.
    - intros d Hd. rewrite lookup_empty in Hd. by destruct Hd. }
  destruct (init_loop_spec (FactoryDenoms gs) s0 Hi0 Hok Hn) as (s' & R & Hi & P & K & A & _).
  { apply Forall_forall. intros g _. cbn. by rewrite He. }
  destruct (ExportGenesis_inv s' Hi) as (l & Hl & _ & Hnl & Hel).
  exists s', l. split; [|split; [done|split; [done|split]]].
  - unfold InitGenesis, SetParams. change (match DenomCreationFee (gs_Params gs) with Some _ => _ | None => _ end)
      with (init_params (gs_Params gs)). unfold mbind, mlift, mput. rewrite Hp0. exact R.
  - by rewrite Hl, P.
  - apply NoDup_Permutation; [by eapply (NoDup_fmap_1 gd_Denom)..|].
    intros [d a]. rewrite Hel, K. cbn. rewrite He, lookup_empty. split.
    + intros [[Hin|[x Hx]] Ha]; [|done]. apply list_elem_of_In, in_map_iff in Hin as (g & <- & Hg).
      apply list_elem_of_In in Hg. rewrite (A g Hg) in Ha. injection Ha as <-. by destruct g.
    + intros Hin. split; [left|by apply (A _ Hin)].
      by apply (list_elem_of_fmap_2' gd_Denom _ (MkGenesisDenom d a)).
Qed.

End Genesis.

(** ** Creating a denom, as a whole *)

Section Create.
Context {B : Type} `{!Sdk B} `{!BankLaws B} `{!AdminCodec B} `{!AddressLaws B}.
Implicit Types s : TF B.

Lemma elem_of_GetDenomsFromCreator s c d :
  d ∈ GetDenomsFromCreator s c <-> is_Some (tf_store s !! (GetCreatorPrefix c ++ d)).
Proof.
  unfold GetDenomsFromCreator. rewrite list_elem_of_In, in_map_iff. split.
  - intros ([k v] & He & Hin). apply list_elem_of_In, elem_of_IteratePrefix in Hin as [Hk Hp].
    apply has_prefix_true in Hp as [t ->]. cbn in He. rewrite drop_app_length in He. subst. eauto.
  - intros [v Hv]. exists (GetCreatorPrefix c ++ d, v). cbn. rewrite drop_app_length. split; [done|].
    apply list_elem_of_In, elem_of_IteratePrefix. split; [done|apply has_prefix_app].
Qed.

Lemma GetCreatorPrefix_app c x : GetCreatorPrefix c ++ x = CreatorPrefixKey ++ bar :: c ++ bar :: x.
Proof.
  unfold GetCreatorPrefix. cbn [Join]. rewrite <- app_assoc. f_equal. cbn. f_equal. by rewrite <- app_assoc.
Qed.

(** A creation that succeeds made [factory/{creator}/{sub}], which did
    not exist; the creator is its admin, it has the creator's name for
    metadata, it joins the list of the creator's denoms, whose other members
    and whose neighbours' lists stay as they were; no other denom's admin and
    no supply changes; the creator paid the fee of the parameters to the pool
    and nobody else paid. Creating it again fails with [ErrDenomExists] and
    changes nothing. *)
Theorem CreateDenom_spec c sub s s' d :
  CreateDenom c sub s = (s', Ok d) ->
  d = denom_of c sub /\ GetDenomMetaData (tf_bank s) d = None /\
  GetDenomMetaData (tf_bank s') d = Some (newDenomMetaData d) /\
  GetAuthorityMetadata s' d = Ok (MkAuthority c) /\
  (forall d', d' <> d -> GetAuthorityMetadata s' d' = GetAuthorityMetadata s d') /\
  (forall d', d' ∈ GetDenomsFromCreator s' c <-> d' = d \/ d' ∈ GetDenomsFromCreator s c) /\
  (forall c', c' <> c -> bar ∉ c' -> GetDenomsFromCreator s' c' = GetDenomsFromCreator s c') /\
  (forall d', supply (tf_bank s') d' = supply (tf_bank s) d') /\
  fee_paid (tf_params s) c (tf_bank s) (tf_bank s') /\
  CreateDenom c sub s' = (s', Err ErrDenomExists).
Proof.
  intros H. apply CreateDenom_effect in H as (Ht & Hn & St & Pa & Su & Me & Fe).
  pose proof (GetTokenDenom_ok _ _ _ Ht) as (Hd & Hs & Hv & _).
  assert (Hb : bar ∉ c).
  { apply denom_no_bar in Hv. rewrite Hd in Hv. unfold denom_of in Hv.
    apply not_elem_of_app in Hv as [_ Hv]. apply not_elem_of_cons in Hv as [_ Hv].
    by apply not_elem_of_app in Hv as [Hv _]. }
  assert (Hmd : GetDenomMetaData (tf_bank s') d = Some (newDenomMetaData d))
    by (rewrite Me; by rewrite decide_True).
  split; [done|]. split; [done|]. split; [done|]. split; [|split; [|split; [|split; [|split; [done|split; [done|]]]]]].
  - rewrite (GetAuthorityMetadata_create s s' d d c St). by rewrite decide_True.
  - intros d' Hne. rewrite (GetAuthorityMetadata_create s s' d d' c St). by rewrite decide_False.
  - intros d'. rewrite !elem_of_GetDenomsFromCreator, St. unfold store_Set.
    destruct (decide (d' = d)) as [->|Hne].
    + rewrite lookup_insert_eq. split; [by left|eauto].
    + rewrite lookup_insert_ne by (intros He; by apply app_inv_head in He).
      rewrite lookup_insert_ne by done. tauto.
  - intros c' Hne Hb'. unfold GetDenomsFromCreator. f_equal. apply IteratePrefix_ext.
    intros key [t ->]%has_prefix_true. rewrite St. unfold store_Set. rewrite lookup_insert_ne.
    + by rewrite lookup_insert_ne.
    + rewrite !GetCreatorPrefix_app. intros He. apply app_inv_head in He. injection He as He.
      apply app_sep_inj in He as [? _]; [congruence|done..].
  - unfold CreateDenom, validateCreateDenom. unfold mbind at 1 2, mlift at 1. rewrite Ht.
    unfold mbind at 1, mget. rewrite Hmd. done.
Qed.

(** A message on a denom whose recorded admin is somebody else
    returns an error and changes neither the store nor the bank nor the
    parameters; the error is [ErrUnauthorized] unless an earlier guard (a
    capability, the denom's existence, the metadata) refused it. *)
Theorem not_admin_refused k s m d a :
  GetAuthorityMetadata s d = Ok (MkAuthority a) -> a <> msg_Sender m ->
  match m with
  | MsgMint _ c _ | MsgBurn _ c _ | MsgForceTransfer _ c _ _ => coin_Denom c = d
  | MsgChangeAdmin _ d' _ => d' = d
  | MsgSetDenomMetadata _ md => md_Base md = d
  | _ => False
  end ->
  exists e, handle k m s = (s, Err e) /\
    (e = ErrUnauthorized \/ e = ErrCapabilityNotEnabled \/ e = ErrDenomDoesNotExist \/ e = ErrDecode).
Proof.
  intros Ha Hne Hm.
  assert (Hr : require_admin (msg_Sender m) d s = (s, Err ErrUnauthorized)).
  { unfold require_admin, mbind, mlift. rewrite Ha. cbn. rewrite (proj2 (bytes_eqb_neq _ _)) by congruence.
    done. }
  destruct m as [c sub|c am to|c am from|c am from to|c dn na|c md|x p]; try done; cbn [msg_Sender handle] in *; subst d.
  - unfold msg_Mint, mbind, mget, mret, mfail. destruct (GetDenomMetaData _ _); [|eauto 6].
    rewrite Hr. eauto.
  - unfold msg_Burn, mbind. rewrite Hr. eauto.
  - unfold msg_ForceTransfer, mbind, mlift. destruct (IsCapabilityEnabled _ _); cbn [negb guard]; [|eauto 6].
    rewrite Hr. eauto.
  - unfold msg_ChangeAdmin, mbind. rewrite Hr. eauto.
  - unfold msg_SetDenomMetadata, mbind, mlift. destruct (IsCapabilityEnabled _ _); cbn [negb guard]; [|eauto 6].
    destruct (Metadata_Validate md); cbn [negb guard]; [|eauto 8]. rewrite Hr. eauto.
Qed.

(** No message hands a denom over to the empty admin: [ValidateBasic] refuses
    the new admin, although the keeper would store it. *)
Theorem renounce_refused k s Sender d :
  (forall s', ~ tf_step k s (MsgChangeAdmin Sender d []) s') /\
  (GetAuthorityMetadata s d = Ok (MkAuthority Sender) ->
   exists s', msg_ChangeAdmin Sender d [] s = (s', Ok tt) /\
              GetAuthorityMetadata s' d = Ok (MkAuthority [])).
Proof.
  split.
  - intros s' [Hv _]. cbn in Hv. unfold MsgChangeAdmin_ValidateBasic, valid_address in Hv. run_ok.
    rewrite bech32_empty in *. done.
  - intros Ha. eexists. split.
    + unfold msg_ChangeAdmin, require_admin, setAdmin, setAuthorityMetadata, mbind, mlift. rewrite Ha. cbn.
      rewrite bytes_eqb_refl. cbn. rewrite Ha. cbn. done.
    + erewrite GetAuthorityMetadata_Set; [|done]. by rewrite decide_True.
Qed.

(** A keeper without an authority, which is what [NewKeeper] builds, never
    updates its parameters by message. *)
Lemma no_authority_no_params k s a p s' :
  authority k = [] -> ~ tf_step k s (MsgUpdateParams a p) s'.
Proof.
  intros Hk Hs. pose proof (tf_step_sender _ _ _ _ Hs) as Hn. destruct Hs as [_ H].
  apply msg_UpdateParams_effect in H as (-> & _). by apply Hn.
Qed.

End Create.

(** ** Witnesses *)


Definition w_tfk : TFKeeper := MkTFKeeper [] (str "terp1gov").
Definition w_alice : bytes := str "terp1alice".
Definition w_denom : bytes := str "factory/terp1alice/gold".
Definition w_params : Params := MkParams (Some [MkCoin (str "uterp") 10]) 5.
Definition w_tf0 : TF toy :=
  MkTF ∅ (MkToy {[ (Account (str "alice"), str "uterp") := 100 ]} {[ str "uterp" := 100 ]} ∅ 1000) w_params.
Definition w_tf1 : TF toy := fst (CreateDenom w_alice (str "gold") w_tf0).
Definition w_gold (n : Z) : Coin := MkCoin w_denom n.
Definition w_tf2 : TF toy := fst (msg_Mint w_alice (w_gold 7) (str "terp1bob") w_tf1).
(** A genesis with a denom that has no admin. *)
Definition w_gs : GenesisState :=
  MkGenesis w_params [MkGenesisDenom w_denom (MkAuthority []);
                      MkGenesisDenom (str "factory/terp1bob/x/y") (MkAuthority w_alice)].
Definition w_tf3 : TF toy := fst (InitGenesis w_gs w_tf0).

Lemma money_effects_witness :
  exists a cs, AccAddressFromBech32 (recipient w_alice (str "terp1bob")) = Some a /\ BlockedAddr a = false /\
    DeconstructDenom w_denom = Ok cs /\ 0 <= 7 /\
    bank_delta (coin_at (w_gold 7)) (fun o d => own o (Account a) (coin_at (w_gold 7) d)) w_tf1 w_tf2.
Proof.
  apply (money_effects w_tfk w_alice (w_gold 7) (str "terp1bob") [] w_tf1 w_tf2). vm_refl.
Defined.

Lemma tf_step_authorized_witness :
  supply (tf_bank w_tf2) w_denom = 7 /\
  (by_admin w_tf1 (MsgMint w_alice (w_gold 7) (str "terp1bob")) w_denom \/
   by_creation w_tf1 (MsgMint w_alice (w_gold 7) (str "terp1bob")) w_denom).
Proof.
  split; [vm_refl|].
  apply (tf_step_authorized w_tfk w_tf1 (MsgMint w_alice (w_gold 7) (str "terp1bob")) w_tf2 w_denom).
  - split; vm_refl.
  - left. intros H. vm_compute in H. discriminate H.
Defined.


Lemma InitGenesis_ExportGenesis_roundtrip_witness :
  exists s' l, InitGenesis w_gs w_tf0 = (s', Ok tt) /\ tf_inv s' /\
    (forall g, g ∈ FactoryDenoms w_gs ->
       GetAuthorityMetadata s' (gd_Denom g) = Ok (gd_AuthorityMetadata g)) /\
    ExportGenesis s' = Some (MkGenesis (init_params (gs_Params w_gs)) l) /\ l ≡ₚ FactoryDenoms w_gs.
Proof.
  apply (InitGenesis_ExportGenesis_roundtrip w_gs w_tf0); vm_refl.
Defined.

Lemma tf_run_export_witness :
  exists l, ExportGenesis w_tf2 = Some (MkGenesis (tf_params w_tf2) l) /\
    GenesisState_Validate (MkGenesis (tf_params w_tf2) l) = Ok tt.
Proof.
  destruct (tf_run_export w_tfk w_tf0 w_tf2) as (_ & l & H1 & H2 & _).
  - split; [split; [|split; [|by vm_compute]]|]; cbn.
    + intros k v Hk. by rewrite lookup_empty in Hk.
    + intros k1 k2 v Hk. by rewrite lookup_empty in Hk.
    + intros d Hd. rewrite lookup_empty in Hd. by destruct Hd.
  - apply (run_msg _ _ (MsgCreateDenom w_alice (str "gold")) w_tf1); [split; vm_refl|].
    apply (run_msg _ _ (MsgMint w_alice (w_gold 7) (str "terp1bob")) w_tf2); [split; vm_refl|].
    apply run_nil.
  - exists l. split; assumption.
Defined.

Lemma CreateDenom_spec_witness :
  w_denom = denom_of w_alice (str "gold") /\ GetDenomMetaData (tf_bank w_tf0) w_denom = None /\
  CreateDenom w_alice (str "gold") w_tf1 = (w_tf1, Err ErrDenomExists).
Proof.
  destruct (CreateDenom_spec w_alice (str "gold") w_tf0 w_tf1 w_denom)
    as (H1 & H2 & _ & _ & _ & _ & _ & _ & _ & H3); [vm_refl|]. split; [exact H1|]. split; [exact H2|exact H3].
Defined.

Lemma not_admin_refused_witness :
  exists e, handle w_tfk (MsgMint (str "terp1bob") (w_gold 7) []) w_tf1 = (w_tf1, Err e) /\
    (e = ErrUnauthorized \/ e = ErrCapabilityNotEnabled \/ e = ErrDenomDoesNotExist \/ e = ErrDecode).
Proof.
  apply (not_admin_refused w_tfk w_tf1 (MsgMint (str "terp1bob") (w_gold 7) []) w_denom w_alice).
  - vm_refl.
  - intros H. discriminate H.
  - reflexivity.
Defined.
