(* ===== verification/FeeShare.v ===== *)
(** * x/feeshare

    A contract's controller registers a withdraw address for it
    ([x/feeshare/keeper]); the ante decorator pays a governed share of the
    fees of each transaction to the withdraw addresses of the registered
    contracts it executes ([x/feeshare/ante]). The registry is a key-value
    store with one record per contract and two indexes; the bank, the wasm
    keeper, the codecs and the decimal arithmetic of the SDK are parameters. *)

From S2P Require Import Prelude KVStore Sdk.
Open Scope go_scope.

(** ** Data *)

Inductive fs_err :=
| ErrFeeShareDisabled | ErrFeeShareAlreadyRegistered | ErrFeeShareContractNotRegistered
| ErrFeeSharePayment | ErrFeeShareInvalidWithdrawer
| FsInvalidAddress | FsUnauthorized | FsInvalidSigner | FsInvalidParams | FsInvalidGenesis
| FsPanic. (** [MustUnmarshal], or a nil pointer *)

Record FeeShare := MkFeeShare { ContractAddress : bytes; DeployerAddress : bytes; WithdrawerAddress : bytes }.
(** [DeveloperShares] is a [LegacyDec], in units of [10^-18]; [None] is nil. *)
Record FsParams := MkFsParams { EnableFeeShare : bool; DeveloperShares : option Z; AllowedDenoms : list bytes }.
Record FsGenesis := MkFsGenesis { fs_Params : FsParams; fs_FeeShare : list FeeShare }.
(** The fields of [wasmtypes.ContractInfo] the module reads. *)
Record ContractInfo := MkContractInfo { ci_Creator : bytes; ci_Admin : bytes }.

Definition KeyPrefixFeeShare : bytes := ["001"%byte].
Definition KeyPrefixDeployer : bytes := ["002"%byte].
Definition KeyPrefixWithdrawer : bytes := ["003"%byte].
Definition fs_ParamsKey : bytes := ["004"%byte].
Definition FeeCollectorName : bytes := str "fee_collector".

(** What the module uses of the SDK beyond [Sdk]. *)
Class FsSdk (B : Type) := {
  MarshalFeeShare : FeeShare -> bytes;
  UnmarshalFeeShare : bytes -> option FeeShare;
  MarshalFsParams : FsParams -> bytes;
  UnmarshalFsParams : bytes -> option FsParams;
  (** the wasm keeper, and the address of the governance module *)
  GetContractInfo : bytes -> option ContractInfo;
  HasContractInfo : bytes -> bool;
  govAddress : bytes
}.

(** A codec reads back what it wrote, which is not empty; contract addresses
    have 32 bytes and addresses are not empty. *)
Class FsLaws (B : Type) `{Sdk B} `{FsSdk B} := {
  feeshare_codec : forall f, UnmarshalFeeShare (MarshalFeeShare f) = Some f;
  feeshare_nonempty : forall f, ContractAddress f <> [] -> MarshalFeeShare f <> [];
  params_codec : forall p, UnmarshalFsParams (MarshalFsParams p) = Some p;
  contract_length : forall c info, GetContractInfo c = Some info -> length c = 32%nat;
  address_nonempty : forall s a, AccAddressFromBech32 s = Some a -> a <> []
}.

Section Operations.
Context {B : Type} `{!Sdk B} {CoinsOps : SdkCoins} {DecOps : SdkDec} `{!FsSdk B}.
Abbreviation M A := (meth store fs_err A).

Definition fs_opt {A : Type} (o : option A) (e : fs_err) : result fs_err A :=
  match o with Some a => Ok a | None => Err e end.

(** ** Records: [types/feeshare.go] *)

Definition NewFeeShare (contract deployer withdrawer : bytes) : FeeShare :=
  MkFeeShare (AccAddress_String contract) (AccAddress_String deployer) (AccAddress_String withdrawer).
(** [None] is the nil address. *)
Definition GetContractAddr (fs : FeeShare) : option bytes := AccAddressFromBech32 (ContractAddress fs).
Definition GetDeployerAddr (fs : FeeShare) : option bytes := AccAddressFromBech32 (DeployerAddress fs).
Definition GetWithdrawerAddr (fs : FeeShare) : option bytes := AccAddressFromBech32 (WithdrawerAddress fs).
Definition FeeShare_Validate (fs : FeeShare) : result fs_err unit :=
  check! fs_opt (AccAddressFromBech32 (ContractAddress fs)) FsInvalidAddress;
  check! fs_opt (AccAddressFromBech32 (DeployerAddress fs)) FsInvalidAddress;
  check! guard (bytes_eqb (WithdrawerAddress fs) []) FsInvalidAddress;
  check! fs_opt (AccAddressFromBech32 (WithdrawerAddress fs)) FsInvalidAddress;
  Ok tt.

(** ** The registry: [keeper/feeshare.go] *)

Definition fs_key (contract : bytes) : bytes := KeyPrefixFeeShare ++ contract.
Definition deployer_key (deployer contract : bytes) : bytes := KeyPrefixDeployer ++ deployer ++ contract.
Definition withdrawer_key (withdrawer contract : bytes) : bytes := KeyPrefixWithdrawer ++ withdrawer ++ contract.

Definition GetFeeShare (m : store) (contract : bytes) : result fs_err (option FeeShare) :=
  let bz := store_Get m (fs_key contract) in
  if blen bz =? 0 then Ok None
  else try! f <- fs_opt (UnmarshalFeeShare bz) FsPanic; Ok (Some f).
Definition SetFeeShare (feeshare : FeeShare) : M unit :=
  run! key <- mlift (fs_opt (GetContractAddr feeshare) FsPanic);
  mput (store_Set (fs_key key) (MarshalFeeShare feeshare)).
Definition DeleteFeeShare (fee : FeeShare) : M unit :=
  run! key <- mlift (fs_opt (GetContractAddr fee) FsPanic);
  mput (store_Delete (fs_key key)).
Definition SetDeployerMap (deployer contract : bytes) : M unit :=
  mput (store_Set (deployer_key deployer contract) ["001"%byte]).
Definition DeleteDeployerMap (deployer contract : bytes) : M unit :=
  mput (store_Delete (deployer_key deployer contract)).
Definition SetWithdrawerMap (withdrawer contract : bytes) : M unit :=
  mput (store_Set (withdrawer_key withdrawer contract) ["001"%byte]).
Definition DeleteWithdrawerMap (withdrawer contract : bytes) : M unit :=
  mput (store_Delete (withdrawer_key withdrawer contract)).
Definition store_Has (m : store) (key : bytes) : bool := match m !! key with Some _ => true | None => false end.
Definition IsFeeShareRegistered (m : store) (contract : bytes) : bool := store_Has m (fs_key contract).
Definition IsDeployerMapSet (m : store) (deployer contract : bytes) : bool :=
  store_Has m (deployer_key deployer contract).
Definition IsWithdrawerMapSet (m : store) (withdrawer contract : bytes) : bool :=
  store_Has m (withdrawer_key withdrawer contract).

(** ** Parameters: [types/params.go], [keeper/params.go] *)

Definition validateShares (v : option Z) : bool :=
  match v with Some d => negb (d <? 0) && negb (dec_one <? d) | None => false end.
Definition validateArray (l : list bytes) : bool := forallb (fun denom => negb (bytes_eqb denom [])) l.
Definition FsParams_Validate (p : FsParams) : bool :=
  validateShares (DeveloperShares p) && validateArray (AllowedDenoms p).

Definition fs_GetParams (m : store) : result fs_err FsParams :=
  match m !! fs_ParamsKey with
  | None => Ok (MkFsParams false None [])
  | Some bz => fs_opt (UnmarshalFsParams bz) FsPanic
  end.
Definition fs_SetParams (p : FsParams) : M unit :=
  exec! mlift (guard (negb (FsParams_Validate p)) FsInvalidParams);
  mput (store_Set fs_ParamsKey (MarshalFsParams p)).

(** ** The message server: [keeper/msg_server.go] *)

Definition GetIfContractWasCreatedFromFactory (info : ContractInfo) : bool :=
  match AccAddressFromBech32 (ci_Creator info) with
  | None => false
  | Some creator =>
      if bytes_eqb (ci_Admin info) govAddress then true
      else if blen (ci_Admin info) =? 0 then HasContractInfo creator
      else match AccAddressFromBech32 (ci_Admin info) with
           | None => false
           | Some admin => HasContractInfo admin
           end
  end.

Definition GetContractAdminOrCreatorAddress (contract deployer : bytes) : result fs_err bytes :=
  check! fs_opt (AccAddressFromBech32 deployer) FsInvalidAddress;
  try! info <- fs_opt (GetContractInfo contract) FsPanic;
  if blen (ci_Admin info) =? 0 then
    check! guard (negb (bytes_eqb (ci_Creator info) deployer)) FsUnauthorized;
    fs_opt (AccAddressFromBech32 (ci_Creator info)) FsInvalidAddress
  else
    check! guard (negb (bytes_eqb (ci_Admin info) deployer)) FsUnauthorized;
    fs_opt (AccAddressFromBech32 (ci_Admin info)) FsInvalidAddress.

Definition check_enabled : M unit :=
  run! params <- (fun m => (m, fs_GetParams m));
  mlift (guard (negb (EnableFeeShare params)) ErrFeeShareDisabled).

(** Who may register the contract: the deployer that goes in the record. *)
Definition register_deployer (contract : bytes) (ContractAddr DeployerAddr WithdrawerAddr : bytes) :
    result fs_err bytes :=
  try! info <- fs_opt (GetContractInfo contract) FsPanic;
  if GetIfContractWasCreatedFromFactory info then
    check! guard (negb (bytes_eqb WithdrawerAddr ContractAddr)) ErrFeeShareInvalidWithdrawer;
    fs_opt (AccAddressFromBech32 ContractAddr) FsInvalidAddress
  else GetContractAdminOrCreatorAddress contract DeployerAddr.

Definition RegisterFeeShare (ContractAddr DeployerAddr WithdrawerAddr : bytes) : M unit :=
  exec! check_enabled;
  run! contract <- mlift (fs_opt (AccAddressFromBech32 ContractAddr) FsInvalidAddress);
  run! registered <- mget (fun m => IsFeeShareRegistered m contract);
  exec! mlift (guard registered ErrFeeShareAlreadyRegistered);
  run! withdrawer <- mlift (fs_opt (AccAddressFromBech32 WithdrawerAddr) FsInvalidAddress);
  run! deployer <- mlift (register_deployer contract ContractAddr DeployerAddr WithdrawerAddr);
  exec! SetFeeShare (NewFeeShare contract deployer withdrawer);
  exec! SetDeployerMap deployer contract;
  SetWithdrawerMap withdrawer contract.

Definition registered_share (contract : bytes) : M FeeShare :=
  run! found <- (fun m => (m, GetFeeShare m contract));
  mlift (fs_opt found ErrFeeShareContractNotRegistered).

Definition UpdateFeeShare (ContractAddr DeployerAddr WithdrawerAddr : bytes) : M unit :=
  exec! check_enabled;
  run! contract <- mlift (fs_opt (AccAddressFromBech32 ContractAddr) FsInvalidAddress);
  run! feeshare <- registered_share contract;
  exec! mlift (guard (bytes_eqb WithdrawerAddr (WithdrawerAddress feeshare)) ErrFeeShareAlreadyRegistered);
  exec! mlift (GetContractAdminOrCreatorAddress contract DeployerAddr);
  run! withdrawAddr <- mlift (fs_opt (AccAddressFromBech32 (WithdrawerAddress feeshare)) FsInvalidAddress);
  run! newWithdrawAddr <- mlift (fs_opt (AccAddressFromBech32 WithdrawerAddr) FsInvalidAddress);
  exec! DeleteWithdrawerMap withdrawAddr contract;
  exec! SetWithdrawerMap newWithdrawAddr contract;
  SetFeeShare (MkFeeShare (ContractAddress feeshare) (DeployerAddress feeshare)
                          (AccAddress_String newWithdrawAddr)).

Definition CancelFeeShare (ContractAddr DeployerAddr : bytes) : M unit :=
  exec! check_enabled;
  run! contract <- mlift (fs_opt (AccAddressFromBech32 ContractAddr) FsInvalidAddress);
  run! fee <- registered_share contract;
  exec! mlift (GetContractAdminOrCreatorAddress contract DeployerAddr);
  exec! DeleteFeeShare fee;
  exec! DeleteDeployerMap (default [] (GetDeployerAddr fee)) contract;
  match GetWithdrawerAddr fee with
  | Some withdrawAddr => DeleteWithdrawerMap withdrawAddr contract
  | None => mret tt
  end.

Definition fs_UpdateParams (authority Authority : bytes) (p : FsParams) : M unit :=
  exec! mlift (guard (negb (bytes_eqb authority Authority)) FsInvalidSigner);
  fs_SetParams p.

(** ** Genesis: [genesis.go], [types/genesis.go] *)

Fixpoint validate_shares (seen : gset bytes) (l : list FeeShare) : result fs_err unit :=
  match l with
  | [] => Ok tt
  | fs :: l' =>
      check! guard (bool_decide (ContractAddress fs ∈ seen)) FsInvalidGenesis;
      check! FeeShare_Validate fs;
      validate_shares ({[ContractAddress fs]} ∪ seen) l'
  end.
Definition FsGenesis_Validate (gs : FsGenesis) : result fs_err unit :=
  check! validate_shares ∅ (fs_FeeShare gs);
  guard (negb (FsParams_Validate (fs_Params gs))) FsInvalidParams.

Definition init_share (share : FeeShare) : M unit :=
  let withdrawer := default [] (GetWithdrawerAddr share) in
  exec! SetFeeShare share;
  run! contract <- mlift (fs_opt (GetContractAddr share) FsPanic);
  exec! SetDeployerMap (default [] (GetDeployerAddr share)) contract;
  if negb (blen withdrawer =? 0) then SetWithdrawerMap withdrawer contract else mret tt.
Definition fs_InitGenesis (data : FsGenesis) : M unit :=
  exec! fs_SetParams (fs_Params data);
  mrange (fs_FeeShare data) init_share.

(** ** Payouts: [ante/ante.go] *)

Fixpoint fee_split (l : Coins) (govPercent numPairs : Z) (splitFees : Coins) : Coins :=
  match l with
  | [] => splitFees
  | c :: l' =>
      let rewardAmount := Dec_RoundInt (Dec_QuoInt64 (Dec_MulInt govPercent (coin_Amount c)) numPairs) in
      fee_split l' govPercent numPairs
        (if rewardAmount =? 0 then splitFees
         else Coins_Add splitFees (MkCoin (coin_Denom c) rewardAmount))
  end.
Definition FeePayLogic (fees : Coins) (govPercent numPairs : Z) : Coins :=
  fee_split (Coins_Sort fees) govPercent numPairs [].

(** A message of the transaction: a contract execution, or any other. *)
Inductive fs_msg := MsgExecuteContract (Contract : bytes) | OtherMsg.

Fixpoint withdrawers (m : store) (msgs : list fs_msg) (toPay : list bytes) : result fs_err (list bytes) :=
  match msgs with
  | [] => Ok toPay
  | OtherMsg :: msgs' => withdrawers m msgs' toPay
  | MsgExecuteContract c :: msgs' =>
      try! contractAddr <- fs_opt (AccAddressFromBech32 c) FsInvalidAddress;
      try! shareData <- GetFeeShare m contractAddr;
      withdrawers m msgs'
        (match GetWithdrawerAddr (default (MkFeeShare [] [] []) shareData) with
         | Some w => if bytes_eqb w [] then toPay else toPay ++ [w]
         | None => toPay
         end)
  end.

Definition allowed_fees (totalFees : Coins) (allowed : list bytes) : Coins :=
  if Z.of_nat (length allowed) =? 0 then totalFees
  else foldl (fun fees fee =>
         foldl (fun fees a => if bytes_eqb (coin_Denom fee) a then Coins_Add fees fee else fees) fees allowed)
         [] (Coins_Sort totalFees).

Fixpoint pay_all (toPay : list bytes) (splitFees : Coins) (b : B) : B * result fs_err unit :=
  match toPay with
  | [] => (b, Ok tt)
  | w :: toPay' =>
      match SendCoins (Module FeeCollectorName) (Account w) splitFees b with
      | Some b' => pay_all toPay' splitFees b'
      | None => (b, Err ErrFeeSharePayment)
      end
  end.

Definition FeeSharePayout (m : store) (totalFees : Coins) (msgs : list fs_msg) (b : B) :
    B * result fs_err unit :=
  match fs_GetParams m with
  | Err e => (b, Err e)
  | Ok params =>
      if negb (EnableFeeShare params) then (b, Ok tt)
      else
        match withdrawers m msgs [] with
        | Err e => (b, Err e)
        | Ok toPay =>
            if Z.of_nat (length toPay) =? 0 then (b, Ok tt)
            else
              let fees := allowed_fees totalFees (AllowedDenoms params) in
              match DeveloperShares params, fees with
              | Some govPercent, _ =>
                  pay_all toPay (FeePayLogic fees govPercent (Z.of_nat (length toPay))) b
              | None, [] => pay_all toPay [] b
              | None, _ :: _ => (b, Err FsPanic)
              end
        end
  end.

End Operations.

(** ** The share of a fee *)

Section Shares.
Context {CoinsOps : SdkCoins} {CoinsOk : CoinsLaws} {DecOps : SdkDec} {DecOk : DecLaws}.

(** What each of [n] developers gets of an amount. *)
Definition dev_share (p n a : Z) : Z := Dec_RoundInt (Dec_QuoInt64 (Dec_MulInt p a) n).

Lemma round_zero : Dec_RoundInt 0 = 0.
Proof. pose proof (round_law 0). unfold dec_one in *. lia. Qed.

Lemma dev_share_zero p n : dev_share p n 0 = 0.
Proof.
  unfold dev_share. rewrite mulint_law, quoint_law, Z.mul_0_r.
  replace (Z.quot 0 n) with 0; [apply round_zero|]. destruct n; done.
Qed.

Lemma fee_split_amount l p n acc d :
  AmountOf (fee_split l p n acc) d =
  AmountOf acc d + foldr (fun c z => (if decide (d = coin_Denom c) then dev_share p n (coin_Amount c) else 0) + z) 0 l.
Proof.
  revert acc. induction l as [|c l IH]; intros acc; cbn [fee_split foldr]; [lia|].
  rewrite IH. fold (dev_share p n (coin_Amount c)). destruct (Z.eqb_spec (dev_share p n (coin_Amount c)) 0) as [E|E].
  - rewrite E. case_decide; lia.
  - rewrite add_law. cbn [AmountOf coin_Denom coin_Amount]. case_decide; lia.
Qed.

Lemma FeePayLogic_amount fees p n d :
  NoDup (map coin_Denom fees) -> AmountOf (FeePayLogic fees p n) d = dev_share p n (AmountOf fees d).
Proof.
  intros Hn. unfold FeePayLogic. rewrite fee_split_amount. cbn [AmountOf].
  assert (Hp : forall l : Coins, l ≡ₚ fees -> foldr (fun c z => (if decide (d = coin_Denom c) then dev_share p n (coin_Amount c) else 0) + z) 0 l
    = dev_share p n (AmountOf fees d)).
  { intros l Hl.
    assert (Ha : AmountOf fees d = AmountOf l d) by (by rewrite Hl).
    assert (Hnl : NoDup (map coin_Denom l)) by (by rewrite (Permutation_map coin_Denom Hl)).
    rewrite Ha. clear Ha Hl Hn. induction l as [|c l IH]; cbn [foldr AmountOf].
    - by rewrite dev_share_zero.
    - cbn [map] in Hnl. apply NoDup_cons in Hnl as [Hni Hnl]. rewrite (IH Hnl). case_decide as Hd; [|done].
      subst d. rewrite (AmountOf_absent l) by done. rewrite dev_share_zero. by rewrite !Z.add_0_r. }
  rewrite (Hp _ (sort_law fees)). lia.
Qed.

Lemma dev_share_bounds p n a :
  0 <= p <= dec_one -> 0 < n -> 0 <= a ->
  0 <= dev_share p n a /\
  2 * n * (dev_share p n a * dec_one) <= 2 * p * a + n * dec_one /\
  2 * p * a < 2 * n * (dev_share p n a * dec_one) + n * dec_one + 2 * n.
Proof.
  intros Hp Hn Ha. unfold dev_share. rewrite mulint_law, quoint_law.
  rewrite Z.quot_div_nonneg by nia. pose proof (round_law (p * a / n)) as Hr.
  set (r := Dec_RoundInt _) in *. pose proof (Z.div_mod (p * a) n ltac:(lia)) as Hd.
  pose proof (Z.mod_pos_bound (p * a) n Hn) as Hm. assert (0 <= p * a / n) by (apply Z.div_pos; nia).
  set (q := p * a / n) in *. assert (Ho : 0 < dec_one) by done. split; [|split].
  - destruct (Z.lt_ge_cases r 0); [|done]. nia.
  - replace (2 * p * a) with (2 * (n * q + (p * a) mod n)) by lia.
    assert (2 * (r * dec_one) <= 2 * q + dec_one) by lia. nia.
  - replace (2 * p * a) with (2 * (n * q + (p * a) mod n)) by lia.
    assert (2 * q <= 2 * (r * dec_one) + dec_one) by lia. nia.
Qed.

(** C40: with [n] developers to pay, a governed share [p] of at most one
    and fees of distinct denoms, each developer gets of each denom the [n]-th
    part of [p] times the fee rounded to the nearest integer: together they
    get at most half a unit each more than [p] times the fee, and at most half
    a unit each (and the last decimal of the division) less. *)
Theorem FeePayLogic_bounds fees p n d :
  NoDup (map coin_Denom fees) -> Forall (fun c => 0 <= coin_Amount c) fees ->
  0 <= p <= dec_one -> 0 < n ->
  let a := AmountOf fees d in
  let r := AmountOf (FeePayLogic fees p n) d in
  0 <= r /\ 2 * n * (r * dec_one) <= 2 * p * a + n * dec_one /\
  2 * p * a < 2 * n * (r * dec_one) + n * dec_one + 2 * n.
Proof.
  intros Hn Hf Hp Hz a r. subst r. rewrite FeePayLogic_amount by done. apply dev_share_bounds; [done..|].
  subst a. clear -Hf. induction Hf as [|c l Hc Hl IH]; cbn; [done|]. case_decide; lia.
Qed.

End Shares.

(** ** Payouts *)

Section Payout.
Context {B : Type} `{!Sdk B} `{!BankLaws B} {CoinsOps : SdkCoins} {DecOps : SdkDec} `{!FsSdk B} `{!FsLaws B}.

(** The withdraw address of a message: that of the registered contract it
    executes. *)
Definition payee (m : store) (msg : fs_msg) : option bytes :=
  match msg with
  | OtherMsg => None
  | MsgExecuteContract c =>
      match AccAddressFromBech32 c with
      | None => None
      | Some a => match GetFeeShare m a with
                  | Ok (Some f) => GetWithdrawerAddr f
                  | _ => None
                  end
      end
  end.

Lemma withdrawers_spec `{!AddressLaws B} m msgs acc l :
  withdrawers m msgs acc = Ok l -> l = acc ++ omap (payee m) msgs.
Proof.
  revert acc. induction msgs as [|[c|] msgs IH]; intros acc H; cbn [withdrawers] in H.
  - injection H as <-. cbn. by rewrite app_nil_r.
  - unfold fs_opt in H. cbn [omap list_omap payee]. destruct (AccAddressFromBech32 c) as [a|]; [|done].
    cbn [rbind] in H. destruct (GetFeeShare m a) as [[f|]|]; [| |done]; cbn [rbind default] in H.
    + destruct (GetWithdrawerAddr f) as [w|] eqn:Ew; cbn in H.
      * assert (Hw : bytes_eqb w [] = false)
          by (apply bytes_eqb_neq; by apply (address_nonempty (WithdrawerAddress f))).
        rewrite Ew, Hw in H. apply IH in H. by rewrite <- app_assoc in H.
      * rewrite Ew in H. by apply IH in H.
    + unfold GetWithdrawerAddr in H. cbn in H. rewrite bech32_empty in H. by apply IH in H.
  - by apply IH in H.
Qed.

Definition occurs (a : bytes) (l : list bytes) : Z :=
  foldr (fun w z => (if decide (w = a) then 1 else 0) + z) 0 l.
(** What [n] payments of [cs] to the accounts [l] do to an owner. *)
Definition payment (l : list bytes) (cs : Coins) (o : owner) (d : bytes) : Z :=
  match o with
  | Account a => occurs a l * AmountOf cs d
  | Module x => if decide (x = FeeCollectorName) then - Z.of_nat (length l) * AmountOf cs d else 0
  end.

Lemma pay_all_effect l cs b b' :
  pay_all l cs b = (b', Ok tt) ->
  (forall d, supply b' d = supply b d) /\
  (forall o d, balance b' o d = balance b o d + payment l cs o d).
Proof.
  revert b. induction l as [|w l IH]; intros b H; cbn [pay_all] in H.
  - injection H as <-. split; [done|]. intros [a|x] d; cbn; [lia|]. case_decide; lia.
  - destruct (SendCoins _ _ _ _) as [b1|] eqn:E; [|done]. destruct (send_law _ _ _ _ _ E) as (S1 & B1 & _).
    destruct (IH _ H) as [S2 B2]. split; [intros d; by rewrite S2|].
    intros o d. rewrite B2, B1. destruct o as [a|x]; cbn [payment occurs foldr length].
    + fold (occurs a l). rewrite (decide_False (P := Account a = Module FeeCollectorName)) by done.
      destruct (decide (Account a = Account w)) as [[= ->]|Hne].
      * rewrite decide_True by done. lia.
      * rewrite decide_False by congruence. lia.
    + rewrite (decide_False (P := Module x = Account w)) by done.
      destruct (decide (Module x = Module FeeCollectorName)) as [[= ->]|Hne].
      * rewrite !decide_True by done. lia.
      * rewrite !decide_False by congruence. lia.
Qed.

(** C22: a payout that succeeds with the module enabled pays every
    message that executes a registered contract, and no other, once: each
    withdraw address gets the split of the allowed fees for each of its
    messages, the fee collector loses exactly what they get, and no other
    balance and no supply changes. Disabled, or with nobody to pay, the bank
    is untouched. *)
Theorem FeeSharePayout_spec `{!AddressLaws B} m fees msgs b b' params :
  fs_GetParams m = Ok params -> FeeSharePayout m fees msgs b = (b', Ok tt) ->
  let toPay := omap (payee m) msgs in
  let n := Z.of_nat (length toPay) in
  let cs := match DeveloperShares params with
            | Some p => FeePayLogic (allowed_fees fees (AllowedDenoms params)) p n
            | None => []
            end in
  (EnableFeeShare params = false \/ toPay = [] -> b' = b) /\
  (EnableFeeShare params = true ->
   (forall d, supply b' d = supply b d) /\
   (forall a d, balance b' (Account a) d = balance b (Account a) d + occurs a toPay * AmountOf cs d) /\
   (forall d, balance b' (Module FeeCollectorName) d = balance b (Module FeeCollectorName) d - n * AmountOf cs d) /\
   (forall x d, x <> FeeCollectorName -> balance b' (Module x) d = balance b (Module x) d)).
Proof.
  intros Hp H. unfold FeeSharePayout in H. rewrite Hp in H. cbn zeta.
  destruct (EnableFeeShare params); cbn in H; [|by injection H as <-].
  destruct (withdrawers m msgs []) as [l|] eqn:Ew; [|done]. apply withdrawers_spec in Ew. cbn in Ew. subst l.
  set (l := omap (payee m) msgs) in *.
  destruct (Z.of_nat (length l) =? 0) eqn:E0.
  { injection H as <-. zbool. assert (l = []) as -> by (apply length_zero_iff_nil; lia).
    split; [done|]. intros _. cbn. repeat split; intros; lia. }
  split; [intros [?|Hl]; [done|]; rewrite Hl in E0; done|]. intros _.
  set (cs := match DeveloperShares params with Some p => _ | None => [] end).
  assert (Hpay : pay_all l cs b = (b', Ok tt)).
  { subst cs. destruct (DeveloperShares params); [done|]. by destruct (allowed_fees _ _). }
  apply pay_all_effect in Hpay as [Hs Hb]. split; [done|]. split; [|split].
  - intros a d. apply Hb.
  - intros d. rewrite Hb. cbn. rewrite decide_True by done. lia.
  - intros x d Hx. rewrite Hb. cbn. rewrite decide_False by done. lia.
Qed.

End Payout.

(** ** The registry refines a map *)

Section Registry.
Context {B : Type} `{!Sdk B} `{!AddressLaws B} `{!FsSdk B} `{!FsLaws B}.
Implicit Types (m : store) (R : gmap bytes FeeShare).

Definition share_wf (c : bytes) (f : FeeShare) : Prop :=
  GetContractAddr f = Some c /\ is_Some (GetDeployerAddr f) /\ is_Some (GetWithdrawerAddr f) /\
  length c = 32%nat.

(** The store holds the records of [R], and its two indexes are exactly the
    deployers and the withdrawers of [R]. *)
Definition fs_rel (m : store) (R : gmap bytes FeeShare) : Prop :=
  (forall c, m !! fs_key c = MarshalFeeShare <$> R !! c) /\
  (forall c f, R !! c = Some f -> share_wf c f) /\
  (forall a c, length c = 32%nat ->
     is_Some (m !! deployer_key a c) <-> exists f, R !! c = Some f /\ GetDeployerAddr f = Some a) /\
  (forall a c, length c = 32%nat ->
     is_Some (m !! withdrawer_key a c) <-> exists f, R !! c = Some f /\ GetWithdrawerAddr f = Some a).

Lemma deployer_key_inj a c a' c' :
  length c = 32%nat -> length c' = 32%nat -> deployer_key a c = deployer_key a' c' -> a = a' /\ c = c'.
Proof.
  intros H H' He. unfold deployer_key in He. apply app_inv_head in He. apply app_inj_2 in He; [done|lia].
Qed.
Lemma withdrawer_key_inj a c a' c' :
  length c = 32%nat -> length c' = 32%nat -> withdrawer_key a c = withdrawer_key a' c' -> a = a' /\ c = c'.
Proof.
  intros H H' He. unfold withdrawer_key in He. apply app_inv_head in He. apply app_inj_2 in He; [done|lia].
Qed.

Lemma share_wf_nonempty c f : share_wf c f -> MarshalFeeShare f <> [].
Proof.
  intros (Hc & _). apply feeshare_nonempty. intros He. unfold GetContractAddr in Hc.
  by rewrite He, bech32_empty in Hc.
Qed.

Lemma GetFeeShare_rel m R c : fs_rel m R -> GetFeeShare m c = Ok (R !! c).
Proof.
  intros (Hk & Hw & _). unfold GetFeeShare, store_Get. rewrite Hk.
  destruct (R !! c) as [f|] eqn:E; cbn; [|done].
  pose proof (share_wf_nonempty _ _ (Hw _ _ E)) as Hn.
  destruct (blen (MarshalFeeShare f) =? 0) eqn:E0.
  - zbool. unfold blen in E0. by destruct (MarshalFeeShare f).
  - by rewrite feeshare_codec.
Qed.

(** Writing a record and its two index entries; [w] is the withdrawer. *)
Lemma fs_rel_insert m R c f a w :
  fs_rel m R -> R !! c = None -> share_wf c f -> GetDeployerAddr f = Some a -> GetWithdrawerAddr f = Some w ->
  fs_rel (store_Set (withdrawer_key w c) ["001"%byte]
           (store_Set (deployer_key a c) ["001"%byte] (store_Set (fs_key c) (MarshalFeeShare f) m)))
         (<[c := f]> R).
Proof.
  intros (Hk & Hw & Hd & Hx) Hn Hwf Ha Hww. assert (Hlc : length c = 32%nat) by apply Hwf.
  unfold store_Set. split; [|split; [|split]].
  - intros c'. rewrite !lookup_insert_ne by done. destruct (decide (c' = c)) as [->|Hne].
    + by rewrite !lookup_insert_eq.
    + rewrite !lookup_insert_ne; [apply Hk|done|]. intros He. apply app_inv_head in He. done.
  - intros c' f'. rewrite lookup_insert_Some. intros [[<- <-]|[_ H]]; [done|by apply Hw].
  - intros a' c' Hl. rewrite lookup_insert_ne by done.
    destruct (decide (c' = c)) as [->|Hne].
    + rewrite lookup_insert_eq. destruct (decide (a' = a)) as [->|Hna].
      * rewrite lookup_insert_eq. split; eauto.
      * rewrite lookup_insert_ne, lookup_insert_ne, Hd by (done || intros He; by apply deployer_key_inj in He as [? _]).
        rewrite Hn. split; intros (f' & He & ?); [done|]. injection He as <-. congruence.
    + rewrite (lookup_insert_ne R) by done.
      rewrite lookup_insert_ne, lookup_insert_ne by (done || intros He; by apply deployer_key_inj in He as [_ ?]).
      by apply Hd.
  - intros a' c' Hl. destruct (decide (c' = c)) as [->|Hne].
    + rewrite (lookup_insert_eq R). destruct (decide (a' = w)) as [->|Hna].
      * rewrite lookup_insert_eq. split; eauto.
      * rewrite lookup_insert_ne by (intros He; by apply withdrawer_key_inj in He as [? _]).
        rewrite !lookup_insert_ne by done. rewrite Hx by done.
        rewrite Hn. split; intros (f' & He & ?); [done|]. injection He as <-. congruence.
    + rewrite (lookup_insert_ne R) by done.
      rewrite lookup_insert_ne by (intros He; by apply withdrawer_key_inj in He as [_ ?]).
      rewrite !lookup_insert_ne by done. by apply Hx.
Qed.

(** Deleting a record and its two index entries. *)
Lemma fs_rel_delete m R c f a w :
  fs_rel m R -> R !! c = Some f -> GetDeployerAddr f = Some a -> GetWithdrawerAddr f = Some w ->
  fs_rel (store_Delete (withdrawer_key w c) (store_Delete (deployer_key a c) (store_Delete (fs_key c) m)))
         (delete c R).
Proof.
  intros (Hk & Hw & Hd & Hx) Hf Ha Hww. assert (Hlc : length c = 32%nat) by apply (Hw _ _ Hf).
  unfold store_Delete. split; [|split; [|split]].
  - intros c'. rewrite !lookup_delete_ne by done. destruct (decide (c' = c)) as [->|Hne].
    + by rewrite !lookup_delete_eq.
    + rewrite !lookup_delete_ne; [apply Hk|done|]. intros He. apply app_inv_head in He. done.
  - intros c' f'. rewrite lookup_delete_Some. intros [_ H]. by apply Hw.
  - intros a' c' Hl. rewrite lookup_delete_ne by done.
    destruct (decide (c' = c)) as [->|Hne].
    + rewrite lookup_delete_eq. destruct (decide (a' = a)) as [->|Hna].
      * rewrite lookup_delete_eq. split; [by intros []|by intros (f' & ? & _)].
      * rewrite lookup_delete_ne, lookup_delete_ne, Hd by (done || intros He; by apply deployer_key_inj in He as [? _]).
        split; intros (f' & He & ?); [congruence|done].
    + rewrite (lookup_delete_ne R) by done.
      rewrite lookup_delete_ne, lookup_delete_ne by (done || intros He; by apply deployer_key_inj in He as [_ ?]).
      by apply Hd.
  - intros a' c' Hl. destruct (decide (c' = c)) as [->|Hne].
    + rewrite (lookup_delete_eq R). destruct (decide (a' = w)) as [->|Hna].
      * rewrite lookup_delete_eq. split; [by intros []|by intros (f' & ? & _)].
      * rewrite lookup_delete_ne by (intros He; by apply withdrawer_key_inj in He as [? _]).
        rewrite !lookup_delete_ne by done. rewrite Hx by done.
        split; intros (f' & He & ?); [congruence|done].
    + rewrite (lookup_delete_ne R) by done.
      rewrite lookup_delete_ne by (intros He; by apply withdrawer_key_inj in He as [_ ?]).
      rewrite !lookup_delete_ne by done. by apply Hx.
Qed.

(** Changing the withdrawer of a record, in the order of the code. *)
Lemma fs_rel_update m R c f f' w w' :
  fs_rel m R -> R !! c = Some f -> share_wf c f' -> GetDeployerAddr f' = GetDeployerAddr f ->
  GetWithdrawerAddr f = Some w -> GetWithdrawerAddr f' = Some w' ->
  fs_rel (store_Set (fs_key c) (MarshalFeeShare f')
           (store_Set (withdrawer_key w' c) ["001"%byte] (store_Delete (withdrawer_key w c) m)))
         (<[c := f']> R).
Proof.
  intros (Hk & Hw & Hd & Hx) Hf Hwf Ha Hww Hww'. assert (Hlc : length c = 32%nat) by apply Hwf.
  unfold store_Set, store_Delete. split; [|split; [|split]].
  - intros c'. destruct (decide (c' = c)) as [->|Hne]; [by rewrite !lookup_insert_eq|].
    rewrite (lookup_insert_ne R) by done.
    rewrite lookup_insert_ne by (intros He; by apply app_inv_head in He).
    rewrite lookup_insert_ne, lookup_delete_ne by done. apply Hk.
  - intros c' g. rewrite lookup_insert_Some. intros [[<- <-]|[_ H]]; [done|by apply Hw].
  - intros a' c' Hl. rewrite !lookup_insert_ne, lookup_delete_ne, Hd by done.
    destruct (decide (c' = c)) as [->|Hne]; [|by rewrite (lookup_insert_ne R)].
    rewrite (lookup_insert_eq R), Hf. split; intros (g & [= <-] & ?); eexists; (split; [done|congruence]).
  - intros a' c' Hl. rewrite lookup_insert_ne by done. destruct (decide (c' = c)) as [->|Hne].
    + rewrite (lookup_insert_eq R). destruct (decide (a' = w')) as [->|Hna].
      * rewrite lookup_insert_eq. split; eauto.
      * rewrite lookup_insert_ne by (intros He; by apply withdrawer_key_inj in He as [? _]).
        destruct (decide (a' = w)) as [->|Hnw].
        -- rewrite lookup_delete_eq. split; [by intros []|]. intros (g & [= <-] & ?). congruence.
        -- rewrite lookup_delete_ne by (intros He; by apply withdrawer_key_inj in He as [? _]).
           rewrite Hx, Hf by done. split; intros (g & [= <-] & ?); congruence.
    + rewrite (lookup_insert_ne R) by done.
      rewrite lookup_insert_ne by (intros He; by apply withdrawer_key_inj in He as [_ ?]).
      rewrite lookup_delete_ne by (intros He; by apply withdrawer_key_inj in He as [_ ?]). by apply Hx.
Qed.

Lemma AccAddress_String_ok s a : AccAddressFromBech32 s = Some a ->
  AccAddressFromBech32 (AccAddress_String a) = Some a.
Proof. apply bech32_roundtrip. Qed.

Lemma controller_address c D a :
  GetContractAdminOrCreatorAddress c D = Ok a ->
  AccAddressFromBech32 D = Some a /\ exists info, GetContractInfo c = Some info /\
    D = (if blen (ci_Admin info) =? 0 then ci_Creator info else ci_Admin info).
Proof.
  unfold GetContractAdminOrCreatorAddress, fs_opt. destruct (AccAddressFromBech32 D) as [d|] eqn:Ed; [|done].
  cbn [rbind]. destruct (GetContractInfo c) as [info|]; [|done]. cbn [rbind].
  destruct (blen (ci_Admin info) =? 0) eqn:E; destruct (bytes_eqb _ D) eqn:Eb; try done;
    apply bytes_eqb_eq in Eb; cbn; rewrite Eb, Ed; intros [= <-]; (split; [done|]); exists info;
    by rewrite E.
Qed.

Lemma register_deployer_ok c C D W d :
  register_deployer c C D W = Ok d ->
  length c = 32%nat /\ exists s, AccAddressFromBech32 s = Some d.
Proof.
  unfold register_deployer. intros H. apply rbind_ok in H as (info & Hi & H).
  unfold fs_opt in Hi. destruct (GetContractInfo c) eqn:Ei; [|done].
  split; [by apply contract_length in Ei|]. destruct (GetIfContractWasCreatedFromFactory info).
  - run_ok_step. exists C. unfold fs_opt in H. destruct (AccAddressFromBech32 C); [by injection H as ->|done].
  - apply controller_address in H as [? _]. eauto.
Qed.

Lemma RegisterFeeShare_rel m R C D W m' r :
  fs_rel m R -> RegisterFeeShare C D W m = (m', r) ->
  match r with
  | Ok _ => exists c d w, AccAddressFromBech32 C = Some c /\ AccAddressFromBech32 W = Some w /\
      R !! c = None /\ register_deployer c C D W = Ok d /\ fs_rel m' (<[c := NewFeeShare c d w]> R)
  | Err _ => m' = m
  end.
Proof.
  intros HR. unfold RegisterFeeShare, check_enabled, mbind, mlift, mget.
  destruct (fs_GetParams m); [|by intros [= <- <-]].
  destruct (EnableFeeShare a); cbn [guard negb]; [|by intros [= <- <-]].
  destruct (AccAddressFromBech32 C) as [c|] eqn:EC; cbn [fs_opt]; [|by intros [= <- <-]].
  destruct (IsFeeShareRegistered m c) eqn:Hreg; cbn [guard]; [by intros [= <- <-]|].
  destruct (AccAddressFromBech32 W) as [w|] eqn:EW; cbn [fs_opt]; [|by intros [= <- <-]].
  destruct (register_deployer c C D W) as [d|e] eqn:Ed; [|by intros [= <- <-]].
  destruct (register_deployer_ok _ _ _ _ _ Ed) as (Hlc & s & Hs).
  unfold SetFeeShare, mbind, mlift, GetContractAddr. cbn [NewFeeShare ContractAddress].
  rewrite (bech32_roundtrip C c) by done. cbn [fs_opt]. intros [= <- <-].
  assert (Hn : R !! c = None).
  { unfold IsFeeShareRegistered, store_Has in Hreg. rewrite (proj1 HR) in Hreg. by destruct (R !! c). }
  exists c, d, w. split; [done|]. split; [done|]. split; [done|]. split; [done|].
  apply fs_rel_insert; [done|done| | |]; unfold share_wf, GetContractAddr, GetDeployerAddr, GetWithdrawerAddr;
    cbn [NewFeeShare ContractAddress DeployerAddress WithdrawerAddress];
    rewrite ?(bech32_roundtrip C c), ?(bech32_roundtrip s d), ?(bech32_roundtrip W w) by done; eauto.
Qed.

Lemma UpdateFeeShare_rel m R C D W m' r :
  fs_rel m R -> UpdateFeeShare C D W m = (m', r) ->
  match r with
  | Ok _ => exists c f a w, AccAddressFromBech32 C = Some c /\ AccAddressFromBech32 W = Some w /\
      R !! c = Some f /\ GetContractAdminOrCreatorAddress c D = Ok a /\
      fs_rel m' (<[c := MkFeeShare (ContractAddress f) (DeployerAddress f) (AccAddress_String w)]> R)
  | Err _ => m' = m
  end.
Proof.
  intros HR. unfold UpdateFeeShare, check_enabled, registered_share, mbind, mlift.
  destruct (fs_GetParams m); [|by intros [= <- <-]].
  destruct (EnableFeeShare a); cbn [guard negb]; [|by intros [= <- <-]].
  destruct (AccAddressFromBech32 C) as [c|] eqn:EC; cbn [fs_opt]; [|by intros [= <- <-]].
  rewrite (GetFeeShare_rel m R c HR). destruct (R !! c) as [f|] eqn:Ef; cbn [fs_opt]; [|by intros [= <- <-]].
  destruct (bytes_eqb W _); cbn [guard]; [by intros [= <- <-]|].
  destruct (GetContractAdminOrCreatorAddress c D) as [ad|] eqn:Ead; [|by intros [= <- <-]].
  pose proof (proj1 (proj2 HR) _ _ Ef) as (Hc & Hd & [wo Hwo] & Hl). unfold GetWithdrawerAddr in Hwo. rewrite Hwo.
  cbn [fs_opt]. destruct (AccAddressFromBech32 W) as [w|] eqn:EW; cbn [fs_opt]; [|by intros [= <- <-]].
  unfold SetFeeShare, mbind, mlift, DeleteWithdrawerMap, SetWithdrawerMap, mput, GetContractAddr. cbn [ContractAddress].
  unfold GetContractAddr in Hc. rewrite Hc. cbn [fs_opt]. intros [= <- <-].
  exists c, f, ad, w. split; [done|]. split; [done|]. split; [done|]. split; [done|].
  apply (fs_rel_update m R c f _ wo w); [done|done| |done|done|].
  - split; [done|]. split; [done|]. split; [|done]. unfold GetWithdrawerAddr. cbn.
    rewrite (bech32_roundtrip W w) by done. eauto.
  - unfold GetWithdrawerAddr. cbn. by apply (bech32_roundtrip W).
Qed.

Lemma CancelFeeShare_rel m R C D m' r :
  fs_rel m R -> CancelFeeShare C D m = (m', r) ->
  match r with
  | Ok _ => exists c f a, AccAddressFromBech32 C = Some c /\ R !! c = Some f /\
      GetContractAdminOrCreatorAddress c D = Ok a /\ fs_rel m' (delete c R)
  | Err _ => m' = m
  end.
Proof.
  intros HR. unfold CancelFeeShare, check_enabled, registered_share, mbind, mlift.
  destruct (fs_GetParams m); [|by intros [= <- <-]].
  destruct (EnableFeeShare a); cbn [guard negb]; [|by intros [= <- <-]].
  destruct (AccAddressFromBech32 C) as [c|] eqn:EC; cbn [fs_opt]; [|by intros [= <- <-]].
  rewrite (GetFeeShare_rel m R c HR). destruct (R !! c) as [f|] eqn:Ef; cbn [fs_opt]; [|by intros [= <- <-]].
  destruct (GetContractAdminOrCreatorAddress c D) as [ad|] eqn:Ead; [|by intros [= <- <-]].
  pose proof (proj1 (proj2 HR) _ _ Ef) as (Hc & [dp Hd] & [wo Hwo] & Hl).
  unfold DeleteFeeShare, mbind, mlift. rewrite Hc, Hd, Hwo. cbn [fs_opt].
  unfold DeleteDeployerMap, DeleteWithdrawerMap, mput. cbn [default]. intros [= <- <-].
  exists c, f, ad. split; [done|]. split; [done|]. split; [done|]. by apply (fs_rel_delete m R c f dp wo).
Qed.


(** The sender controls the contract: its admin, or its creator when it has
    no admin. *)
Definition controls (c D : bytes) : Prop :=
  exists info, GetContractInfo c = Some info /\
    D = (if blen (ci_Admin info) =? 0 then ci_Creator info else ci_Admin info).

Lemma insert_changed R R' c c' f :
  R' = <[c := f]> R -> R' !! c' <> R !! c' -> c' = c.
Proof. intros ->. destruct (decide (c' = c)); [done|]. by rewrite lookup_insert_ne. Qed.

(** The record of a contract changes only when its controller
    sends the message, or when a contract made by a factory (its admin is
    governance, or its admin or creator is a contract) and not registered yet
    is registered to itself. *)
Theorem record_changes_authorized m R C D W m' R' c :
  fs_rel m R -> fs_rel m' R' -> R' !! c <> R !! c ->
  RegisterFeeShare C D W m = (m', Ok tt) \/ UpdateFeeShare C D W m = (m', Ok tt) \/
  CancelFeeShare C D m = (m', Ok tt) ->
  AccAddressFromBech32 C = Some c /\
  (controls c D \/
   (exists info, GetContractInfo c = Some info /\ GetIfContractWasCreatedFromFactory info = true) /\
   W = C /\ R !! c = None /\ R' !! c = Some (NewFeeShare c c c)).
Proof.
  intros HR HR' Hne.
  assert (Huniq : forall R1, fs_rel m' R1 -> R' = R1).
  { intros R1 H1. apply map_eq. intros c'. pose proof (GetFeeShare_rel _ _ c' HR') as E1.
    rewrite (GetFeeShare_rel _ _ c' H1) in E1. congruence. }
  intros [H|[H|H]].
  - apply (RegisterFeeShare_rel _ _ _ _ _ _ _ HR) in H as (c0 & d & w & HC & HW & Hn & Hd & H1).
    apply Huniq in H1. pose proof (insert_changed _ _ _ _ _ H1 Hne) as ->. split; [done|].
    unfold register_deployer in Hd. apply rbind_ok in Hd as (info & Hi & Hd).
    unfold fs_opt in Hi. destruct (GetContractInfo c0) eqn:Ei; [|done]. injection Hi as ->.
    destruct (GetIfContractWasCreatedFromFactory info) eqn:Ef.
    + repeat run_ok_step. subst W. rewrite HC in HW. injection HW as <-.
      unfold fs_opt in Hd. rewrite HC in Hd. injection Hd as <-. right. split; [by exists info|].
      split; [done|]. split; [done|]. by rewrite H1, lookup_insert_eq.
    + left. by apply controller_address in Hd as [_ ?].
  - apply (UpdateFeeShare_rel _ _ _ _ _ _ _ HR) in H as (c0 & f & a & w & HC & HW & Hf & Ha & H1).
    apply Huniq in H1. pose proof (insert_changed _ _ _ _ _ H1 Hne) as ->. split; [done|].
    left. by apply controller_address in Ha as [_ ?].
  - apply (CancelFeeShare_rel _ _ _ _ _ _ HR) in H as (c0 & f & a & HC & Hf & Ha & H1).
    apply Huniq in H1. destruct (decide (c = c0)) as [->|Hc].
    + split; [done|]. left. by apply controller_address in Ha as [_ ?].
    + destruct Hne. by rewrite H1, lookup_delete_ne.
Qed.

Lemma FeeShare_Validate_ok f :
  FeeShare_Validate f = Ok tt ->
  exists c d w, GetContractAddr f = Some c /\ GetDeployerAddr f = Some d /\ GetWithdrawerAddr f = Some w.
Proof.
  unfold FeeShare_Validate, GetContractAddr, GetDeployerAddr, GetWithdrawerAddr, fs_opt.
  destruct (AccAddressFromBech32 (ContractAddress f)), (AccAddressFromBech32 (DeployerAddress f)),
    (AccAddressFromBech32 (WithdrawerAddress f)); cbn; try done; [eauto 10|].
  by destruct (bytes_eqb _ _).
Qed.

Lemma validate_shares_ok seen l :
  validate_shares seen l = Ok tt -> Forall (fun f => FeeShare_Validate f = Ok tt) l.
Proof.
  revert seen. induction l as [|f l IH]; intros seen H; cbn [validate_shares] in H; [constructor|].
  repeat run_ok_step. constructor; [done|]. by eapply IH.
Qed.

Lemma init_shares_rel l m R :
  fs_rel m R -> Forall (fun f => FeeShare_Validate f = Ok tt) l ->
  Forall (fun f => forall c, GetContractAddr f = Some c -> length c = 32%nat /\ R !! c = None) l ->
  NoDup (map GetContractAddr l) ->
  exists m' R', mrange l init_share m = (m', Ok tt) /\ fs_rel m' R' /\
    forall c f, R' !! c = Some f <-> R !! c = Some f \/ (f ∈ l /\ GetContractAddr f = Some c).
Proof.
  revert m R. induction l as [|f l IH]; intros m R HR Hv Hl Hn.
  - exists m, R. split; [done|]. split; [done|]. intros c f. rewrite elem_of_nil. tauto.
  - apply Forall_cons in Hv as [Hf Hv], Hl as [Hlf Hl]. cbn [map] in Hn. apply NoDup_cons in Hn as [Hni Hn].
    destruct (FeeShare_Validate_ok f Hf) as (c & d & w & Hc & Hd & Hw). destruct (Hlf _ Hc) as [Hlc HRc].
    assert (Hwn : w <> []) by (by apply (address_nonempty (WithdrawerAddress f))).
    assert (R1 : fs_rel (store_Set (withdrawer_key w c) ["001"%byte]
             (store_Set (deployer_key d c) ["001"%byte] (store_Set (fs_key c) (MarshalFeeShare f) m))) (<[c := f]> R)).
    { apply fs_rel_insert; [done|done| |done|done]. split; [done|]. split; [eauto|]. split; [eauto|done]. }
    edestruct (IH _ _ R1 Hv) as (m2 & R2 & Hr & HR2 & Hm); [|done|].
    { rewrite Forall_forall in Hl |- *. intros g Hg c' Hc'. destruct (Hl g Hg c' Hc') as [? ?]. split; [done|].
      rewrite lookup_insert_ne; [done|]. intros <-. apply Hni. rewrite Hc, <- Hc'.
      by apply list_elem_of_In, in_map, list_elem_of_In. }
    exists m2, R2. rewrite mrange_cons. split; [|split; [done|]].
    + unfold init_share, SetFeeShare, SetDeployerMap, SetWithdrawerMap, mbind, mlift, mput.
      rewrite Hc, Hd, Hw. cbn [fs_opt default from_option id].
      destruct (blen w =? 0) eqn:E; [|exact Hr]. zbool. unfold blen in E. by destruct w.
    + intros c' f'. rewrite Hm, lookup_insert_Some, elem_of_cons. split.
      * intros [[[-> ->]|[_ ?]]|[? ?]]; tauto.
      * intros [?|[[->|?] ?]]; [| |tauto].
        -- left. right. split; [|done]. intros ->. congruence.
        -- left. left. split; [congruence|done].
Qed.

(** A store with only the parameters is an empty registry. *)
Lemma fs_rel_params p : fs_rel (store_Set fs_ParamsKey (MarshalFsParams p) ∅) ∅.
Proof.
  unfold store_Set. split; [|split; [|split]].
  - intros c. rewrite lookup_insert_ne by done. by rewrite !lookup_empty.
  - intros c f Hf. by rewrite lookup_empty in Hf.
  - intros a c _. rewrite lookup_insert_ne, !lookup_empty by done. split; [by intros []|by intros (? & ? & _)].
  - intros a c _. rewrite lookup_insert_ne, !lookup_empty by done. split; [by intros []|by intros (? & ? & _)].
Qed.

(** A genesis that validates, whose contracts are distinct
    addresses of contracts, initialises an empty store without a panic, and
    the registry then has exactly the records of the genesis. *)
Theorem fs_InitGenesis_refines gs :
  FsGenesis_Validate gs = Ok tt ->
  Forall (fun f => forall c, GetContractAddr f = Some c -> length c = 32%nat) (fs_FeeShare gs) ->
  NoDup (map GetContractAddr (fs_FeeShare gs)) ->
  exists m R, fs_InitGenesis gs ∅ = (m, Ok tt) /\ fs_rel m R /\
    forall c f, R !! c = Some f <-> f ∈ fs_FeeShare gs /\ GetContractAddr f = Some c.
Proof.
  intros Hv Hl Hn. unfold FsGenesis_Validate in Hv. repeat run_ok_step.
  set (m0 := store_Set fs_ParamsKey (MarshalFsParams (fs_Params gs)) ∅).
  pose proof (fs_rel_params (fs_Params gs) : fs_rel m0 ∅) as H0.
  destruct (init_shares_rel (fs_FeeShare gs) m0 ∅ H0) as (m & R & Hr & HR & Hm); [| |done|].
  - by eapply validate_shares_ok.
  - rewrite Forall_forall in Hl |- *. intros f Hf c Hc. split; [by eapply Hl|apply lookup_empty].
  - exists m, R. split; [|split; [done|]].
    + unfold fs_InitGenesis, fs_SetParams, mbind, mlift, mput. by rewrite Hv.
    + intros c f. rewrite Hm, lookup_empty. split; [by intros [?|?]|tauto].
Qed.

(** Registering an address that is not a contract reads through a nil
    pointer. *)
Lemma register_non_contract m params C D W c w :
  fs_GetParams m = Ok params -> EnableFeeShare params = true ->
  AccAddressFromBech32 C = Some c -> AccAddressFromBech32 W = Some w ->
  IsFeeShareRegistered m c = false -> GetContractInfo c = None ->
  RegisterFeeShare C D W m = (m, Err FsPanic).
Proof.
  intros Hp He HC HW Hr Hi. unfold RegisterFeeShare, check_enabled, mbind, mlift, mget.
  rewrite Hp, He, HC. cbn. rewrite Hr, HW. cbn. unfold register_deployer. by rewrite Hi.
Qed.

End Registry.

(** ** A small instance, for the witnesses *)

Definition fs_tuple (f : FeeShare) : bytes * bytes * bytes :=
  (ContractAddress f, DeployerAddress f, WithdrawerAddress f).
Definition fs_untuple (t : bytes * bytes * bytes) : FeeShare := MkFeeShare t.1.1 t.1.2 t.2.
Definition fp_tuple (p : FsParams) : bool * option Z * list bytes :=
  (EnableFeeShare p, DeveloperShares p, AllowedDenoms p).
Definition fp_untuple (t : bool * option Z * list bytes) : FsParams := MkFsParams t.1.1 t.1.2 t.2.
Definition w_contract : bytes := str "contract-0000000000000000000000A".
Definition w_carol : bytes := str "terp1carol".

#[global] Instance ToyFs : FsSdk toy := {|
  MarshalFeeShare f := pos_bytes (encode (fs_tuple f));
  UnmarshalFeeShare bz := p ← bytes_pos bz; fs_untuple <$> decode p;
  MarshalFsParams f := pos_bytes (encode (fp_tuple f));
  UnmarshalFsParams bz := p ← bytes_pos bz; fp_untuple <$> decode p;
  GetContractInfo c := if bytes_eqb c w_contract then Some (MkContractInfo w_carol []) else None;
  HasContractInfo c := false;
  govAddress := str "terp1gov"
|}.

#[global] Instance ToyFsLaws : FsLaws toy.
Proof.
  split; cbn [MarshalFeeShare UnmarshalFeeShare MarshalFsParams UnmarshalFsParams
    GetContractInfo ToyFs AccAddressFromBech32 ToyBank].
  - intros [c d w]. rewrite bytes_pos_bytes. cbn. by rewrite decode_encode.
  - intros f _. by destruct (encode (fs_tuple f)).
  - intros [e d l]. rewrite bytes_pos_bytes. cbn. by rewrite decode_encode.
  - intros c info H. destruct (bytes_eqb c w_contract) eqn:E; [|done]. apply bytes_eqb_eq in E. by subst.
  - intros s a (_ & _ & L & ->)%toy_addr_ok Hn. zbool. unfold blen in L.
    apply (f_equal (@length _)) in Hn. rewrite length_drop in Hn. cbn in Hn. lia.
Qed.

Definition w_caddr : bytes := str "terp1" ++ w_contract.
Definition w_fsparams : FsParams := MkFsParams true (Some (dec_one / 2)) [].
Definition w_fs0 : store := store_Set fs_ParamsKey (MarshalFsParams w_fsparams) ∅.
Definition w_share : FeeShare := NewFeeShare w_contract (str "carol") (str "dave").
Definition w_fs1 : store := fst (RegisterFeeShare w_caddr w_carol (str "terp1dave") w_fs0).
Definition w_fees : Coins := [MkCoin (str "uterp") 100].
Definition w_bank : toy :=
  MkToy {[ (Module FeeCollectorName, str "uterp") := 100 ]} {[ str "uterp" := 100 ]} ∅ 0.
Definition w_msgs : list fs_msg := [MsgExecuteContract w_caddr; OtherMsg].
Definition w_bank' : toy := fst (FeeSharePayout w_fs1 w_fees w_msgs w_bank).

Lemma FeePayLogic_bounds_witness :
  let a := AmountOf w_fees (str "uterp") in
  let r := AmountOf (FeePayLogic w_fees (dec_one / 2) 3) (str "uterp") in
  0 <= r /\ 2 * 3 * (r * dec_one) <= 2 * (dec_one / 2) * a + 3 * dec_one /\
  2 * (dec_one / 2) * a < 2 * 3 * (r * dec_one) + 3 * dec_one + 2 * 3.
Proof.
  apply (FeePayLogic_bounds w_fees (dec_one / 2) 3 (str "uterp")).
  - apply (bool_decide_unpack _). by vm_compute.
  - constructor; [|constructor]. vm_compute. discriminate.
  - vm_compute. split; discriminate.
  - reflexivity.
Defined.

(** Rounding to the nearest integer can pay out more than was collected: with
    a share of one and two developers, a fee of 3 pays 2 to each. *)
Example payout_exceeds_fee :
  AmountOf (FeePayLogic [MkCoin (str "uterp") 3] dec_one 2) (str "uterp") = 2.
Proof. by vm_compute. Qed.

Lemma FeeSharePayout_spec_witness :
  balance w_bank' (Account (str "dave")) (str "uterp") = 0 + 1 * 50.
Proof.
  destruct (FeeSharePayout_spec w_fs1 w_fees w_msgs w_bank w_bank' w_fsparams) as [_ H];
    [vm_refl|vm_refl|].
  destruct (H eq_refl) as (_ & Ha & _). rewrite Ha. vm_refl.
Defined.


Lemma record_changes_authorized_witness :
  AccAddressFromBech32 w_caddr = Some w_contract /\
  (controls w_contract w_carol \/
   (exists info, GetContractInfo w_contract = Some info /\ GetIfContractWasCreatedFromFactory info = true) /\
   str "terp1dave" = w_caddr /\ (∅ : gmap bytes FeeShare) !! w_contract = None /\
   (<[w_contract := w_share]> ∅ : gmap bytes FeeShare) !! w_contract =
     Some (NewFeeShare w_contract w_contract w_contract)).
Proof.
  apply (record_changes_authorized w_fs0 ∅ w_caddr w_carol (str "terp1dave") w_fs1
    (<[w_contract := w_share]> ∅) w_contract).
  - apply fs_rel_params.
  - destruct (RegisterFeeShare_rel w_fs0 ∅ w_caddr w_carol (str "terp1dave") w_fs1 (Ok tt))
      as (c & d & w & Hc & Hw & _ & Hd & HR); [apply fs_rel_params|vm_refl|].
    vm_compute in Hc, Hw, Hd. injection Hc as <-. injection Hw as <-. injection Hd as <-. exact HR.
  - intros H. discriminate H.
  - left. vm_refl.
Defined.

Lemma fs_InitGenesis_refines_witness :
  exists m R, fs_InitGenesis (MkFsGenesis w_fsparams [w_share]) ∅ = (m, Ok tt) /\ fs_rel m R /\
    forall c f, R !! c = Some f <-> f ∈ [w_share] /\ GetContractAddr f = Some c.
Proof.
  apply (fs_InitGenesis_refines (MkFsGenesis w_fsparams [w_share])).
  - vm_refl.
  - constructor; [|constructor]. intros c Hc. vm_compute in Hc. by injection Hc as <-.
  - apply (bool_decide_unpack _). by vm_compute.
Defined.
