(* ===== verification/GlobalFee.v ===== *)
(** * x/globalfee

    The decorator that refuses, at CheckTx, a transaction whose fee is below
    the network's minimum gas prices (the module's parameters) and the node's
    own ([x/globalfee/ante]), and the parameters with their validation
    ([x/globalfee/types/params.go], [keeper]). Coin sets and decimals are those
    of [Sdk]; a [LegacyDec] is its scaled integer. *)

From S2P Require Import Prelude KVStore Sdk.
Open Scope go_scope.

(** ** Data *)

Record DecCoin := MkDecCoin { dc_Denom : bytes; dc_Amount : Z }.
Abbreviation DecCoins := (list DecCoin).

Inductive gf_err :=
| ErrTxDecode | ErrNotFound | ErrInsufficientFee | GfInvalidSigner | GfInvalidParams | GfEmptyBondDenom
| GfPanic. (** [NewCoin] on an invalid coin, [Int64] out of range *)

(** The parameters, [None] when the store has none. *)
Abbreviation GF := (option DecCoins).

(** The decorator and the context it reads. *)
Record FeeDecorator := MkFeeDecorator {
  BypassMinFeeMsgTypes : list bytes;
  MaxTotalBypassMinFeeMsgGasUsage : Z;
  BondDenom : bytes
}.
Record gf_ctx := MkGfCtx { IsCheckTx : bool; MinGasPrices : DecCoins }.
(** A [FeeTx]: its fee, its gas limit and the type URLs of its messages. *)
Record FeeTx := MkFeeTx { tx_Fee : Coins; tx_Gas : Z; tx_MsgTypes : list bytes }.

Section Operations.
Context {B : Type} `{!Sdk B} {CoinsOps : SdkCoins} {DecOps : SdkDec}.

(** ** Parameters *)

(** [a < b] on strings. *)
Definition bytes_ltb (a b : bytes) : bool := bytes_leb a b && negb (bytes_eqb a b).

Fixpoint validate_prices (first : bool) (lowDenom : bytes) (seen : gset bytes) (coins : DecCoins) : bool :=
  match coins with
  | [] => true
  | c :: coins' =>
      negb (bool_decide (dc_Denom c ∈ seen)) && ValidateDenom (dc_Denom c) &&
      negb (negb first && bytes_leb (dc_Denom c) lowDenom) && negb (dc_Amount c <? 0) &&
      validate_prices false (dc_Denom c) ({[dc_Denom c]} ∪ seen) coins'
  end.
Definition DecCoins_Validate (coins : DecCoins) : bool := validate_prices true [] ∅ coins.

Definition gf_GetParams (s : GF) : DecCoins := default [] s.
Definition gf_SetParams (p : DecCoins) : meth GF gf_err unit :=
  exec! mlift (guard (negb (DecCoins_Validate p)) GfInvalidParams);
  mput (fun _ => Some p).
Definition gf_UpdateParams (authority Authority : bytes) (p : DecCoins) : meth GF gf_err unit :=
  exec! mlift (guard (negb (bytes_eqb authority Authority)) GfInvalidSigner);
  gf_SetParams p.

(** Genesis: [SetParams] or a panic; the export reads the parameters. *)
Definition gf_InitGenesis (p : DecCoins) : meth GF gf_err unit :=
  fun s => match gf_SetParams p s with
           | (s', Ok u) => (s', Ok u)
           | (s', Err _) => (s', Err GfPanic)
           end.
Definition gf_ExportGenesis (s : GF) : DecCoins := gf_GetParams s.

(** ** Coin sets: [ante/fee_utils.go] *)

Definition ContainZeroCoins (coins : Coins) : bool :=
  (Z.of_nat (length coins) =? 0) || existsb (fun coin => coin_Amount coin =? 0) coins.

(** [Find] halves the slice; the length is enough fuel. *)
Fixpoint find_fuel (fuel : nat) (coins : Coins) (denom : bytes) : option Coin :=
  match fuel with
  | O => None
  | S fuel' =>
      match coins with
      | [] => None
      | [coin] => if bytes_eqb (coin_Denom coin) denom then Some coin else None
      | _ =>
          let midIdx := Nat.div2 (length coins) in
          match drop midIdx coins with
          | [] => None
          | coin :: rest =>
              if bytes_ltb denom (coin_Denom coin) then find_fuel fuel' (take midIdx coins) denom
              else if bytes_eqb denom (coin_Denom coin) then Some coin
              else find_fuel fuel' rest denom
          end
      end
  end.
Definition Find (coins : Coins) (denom : bytes) : option Coin := find_fuel (length coins) coins denom.

Definition CombinedFeeRequirement (globalFees minGasPrices : Coins) : Coins :=
  if Z.of_nat (length minGasPrices) =? 0 then globalFees
  else if (Z.of_nat (length globalFees) =? 0) && negb (Z.of_nat (length minGasPrices) =? 0) then []
  else Coins_Sort (map (fun fee => match Find minGasPrices (coin_Denom fee) with
                                   | Some c => if coin_Amount fee <? coin_Amount c then c else fee
                                   | None => fee
                                   end) globalFees).

(** The two results of each loop; the map of denoms is the list of its keys. *)
Definition splitCoinsByDenoms (feeCoins : Coins) (denomMap : list bytes) : Coins * Coins :=
  (Coins_Sort (filter (fun fc => coin_Denom fc ∉ denomMap) feeCoins),
   Coins_Sort (filter (fun fc => coin_Denom fc ∈ denomMap) feeCoins)).
Definition getNonZeroFees (fees : Coins) : Coins * list bytes :=
  (Coins_Sort (filter (fun gf => coin_Amount gf <> 0) fees),
   map coin_Denom (filter (fun gf => coin_Amount gf = 0) fees)).

(** ** The decorator: [ante/fee.go] *)

Definition NewCoin (denom : bytes) (amount : Z) : result gf_err Coin :=
  let c := MkCoin denom amount in
  check! guard (negb (Coin_IsValid c)) GfPanic; Ok c.

(** [fee = ceil(gasPrice * gasLimit)] for each price. *)
Fixpoint price_fees (glDec : Z) (prices : DecCoins) : result gf_err Coins :=
  match prices with
  | [] => Ok []
  | gp :: prices' =>
      try! c <- NewCoin (dc_Denom gp) (Dec_RoundInt (Dec_Ceil (Dec_Mul (dc_Amount gp) glDec)));
      try! cs <- price_fees glDec prices';
      Ok (c :: cs)
  end.

Definition DefaultZeroGlobalFee (mfd : FeeDecorator) : result gf_err DecCoins :=
  check! guard (bytes_eqb (BondDenom mfd) []) GfEmptyBondDenom;
  check! guard (negb (ValidateDenom (BondDenom mfd))) GfPanic;
  Ok [MkDecCoin (BondDenom mfd) 0].

Definition GetGlobalFee (mfd : FeeDecorator) (s : GF) (gas : Z) : result gf_err Coins :=
  try! prices <- (if Z.of_nat (length (gf_GetParams s)) =? 0 then DefaultZeroGlobalFee mfd
                  else Ok (gf_GetParams s));
  try! fees <- price_fees (i64 gas * dec_one) prices;
  Ok (Coins_Sort fees).

Definition GetMinGasPrice (ctx : gf_ctx) (gasLimit : Z) : result gf_err Coins :=
  if forallb (fun gp => dc_Amount gp =? 0) (MinGasPrices ctx) then Ok []
  else
    check! guard (2 ^ 63 <=? gasLimit) GfPanic;
    try! fees <- price_fees (gasLimit * dec_one) (MinGasPrices ctx);
    Ok (Coins_Sort fees).

Definition ContainsOnlyBypassMinFeeMsgs (mfd : FeeDecorator) (msgs : list bytes) : bool :=
  forallb (fun msg => existsb (fun t => bytes_eqb msg t) (BypassMinFeeMsgTypes mfd)) msgs.

(** The first half of [AnteHandle]: what the network and the node ask for. *)
Definition requirement (mfd : FeeDecorator) (ctx : gf_ctx) (s : GF) (gas : Z) : result gf_err Coins :=
  try! requiredGlobalFees <- GetGlobalFee mfd s gas;
  try! localFees <- GetMinGasPrice ctx gas;
  let combined := CombinedFeeRequirement requiredGlobalFees localFees in
  check! guard (Z.of_nat (length combined) =? 0) ErrNotFound;
  Ok combined.

(** The check on the amounts, given the combined requirement; [Ok] hands the
    transaction to the next handler. *)
Definition check_fee (mfd : FeeDecorator) (tx : FeeTx) (combinedFeeRequirement : Coins) : result gf_err unit :=
  let feeCoins := Coins_Sort (tx_Fee tx) in
  let '(nonZeroCoinFeesReq, zeroCoinFeesDenomReq) := getNonZeroFees combinedFeeRequirement in
  let '(feeCoinsNonZeroDenom, feeCoinsZeroDenom) := splitCoinsByDenoms feeCoins zeroCoinFeesDenomReq in
  check! guard (negb (DenomsSubsetOf feeCoinsNonZeroDenom nonZeroCoinFeesReq)) ErrInsufficientFee;
  let allowedToBypassMinFee :=
    ContainsOnlyBypassMinFeeMsgs mfd (tx_MsgTypes tx) &&
    (tx_Gas tx <=? MaxTotalBypassMinFeeMsgGasUsage mfd) in
  if negb allowedToBypassMinFee && (Z.of_nat (length feeCoinsZeroDenom) =? 0) then
    if (Z.of_nat (length feeCoins) =? 0) && negb (Z.of_nat (length zeroCoinFeesDenomReq) =? 0) then Ok tt
    else guard (negb (IsAnyGTE feeCoinsNonZeroDenom nonZeroCoinFeesReq)) ErrInsufficientFee
  else Ok tt.

(** [None] is a transaction that is not a [FeeTx]. *)
Definition AnteHandle (mfd : FeeDecorator) (ctx : gf_ctx) (s : GF) (tx : option FeeTx) (simulate : bool) :
    result gf_err unit :=
  match tx with
  | None => Err ErrTxDecode
  | Some feeTx =>
      if negb (IsCheckTx ctx) || simulate then Ok tt
      else
        try! combined <- requirement mfd ctx s (tx_Gas feeTx);
        check_fee mfd feeTx combined
  end.

End Operations.

(** ** Binary search *)

Lemma bytes_ltb_lt a b : bytes_ltb a b = true <-> bytes_le a b /\ a <> b.
Proof. unfold bytes_ltb. rewrite andb_true_iff, negb_true_iff, bytes_eqb_neq. done. Qed.

Lemma sorted_coins_app a b :
  sorted_coins (a ++ b) -> sorted_coins a /\ sorted_coins b /\
  forall x y, x ∈ a -> y ∈ b -> bytes_ltb (coin_Denom x) (coin_Denom y) = true.
Proof.
  intros [Hs Hn]. rewrite map_app in Hn. apply NoDup_app in Hn as (Hna & Hd & Hnb).
  assert (Ha : StronglySorted denom_le a /\ StronglySorted denom_le b /\
     forall x y, x ∈ a -> y ∈ b -> denom_le x y).
  { clear -Hs. induction a as [|x a IH]; cbn in Hs.
    - split; [constructor|]. split; [done|]. intros x y Hx. by apply elem_of_nil in Hx.
    - inversion Hs as [|? ? Hs' Hf]; subst. destruct (IH Hs') as (Ha & Hb & Hab).
      apply Forall_app in Hf as [Hfa Hfb]. rewrite Forall_forall in Hfb.
      split; [by constructor|]. split; [done|].
      intros x' y [->|Hx]%elem_of_cons Hy; [by apply Hfb|by apply Hab]. }
  destruct Ha as (Ha & Hb & Hab). split; [done|]. split; [done|].
  intros x y Hx Hy. apply bytes_ltb_lt. split; [by apply Hab|]. intros He.
  apply (Hd (coin_Denom x)); [|rewrite He]; by apply list_elem_of_In, in_map, list_elem_of_In.
Qed.

Lemma List_find_absent denom (l : Coins) :
  (forall x, x ∈ l -> coin_Denom x <> denom) -> List.find (fun c => bytes_eqb (coin_Denom c) denom) l = None.
Proof.
  induction l as [|c l IH]; intros H; cbn; [done|].
  rewrite (proj2 (bytes_eqb_neq _ _)) by (apply H; left). apply IH. intros x Hx. apply H. by right.
Qed.

Lemma List_find_app {A} (p : A -> bool) l1 l2 :
  List.find p (l1 ++ l2) = match List.find p l1 with Some x => Some x | None => List.find p l2 end.
Proof. induction l1 as [|x l1 IH]; cbn; [done|]. by destruct (p x). Qed.

Lemma bytes_ltb_irrefl a b : bytes_ltb a b = true -> bytes_ltb b a = true -> False.
Proof.
  rewrite !bytes_ltb_lt. intros [H1 Hn] [H2 _]. apply Hn. by apply bytes_le_antisymm.
Qed.

Lemma find_fuel_spec fuel coins denom :
  (length coins <= fuel)%nat -> sorted_coins coins ->
  find_fuel fuel coins denom = List.find (fun c => bytes_eqb (coin_Denom c) denom) coins.
Proof.
  revert coins. induction fuel as [|fuel IH]; intros coins Hl Hs.
  { destruct coins; [done|cbn in Hl; lia]. }
  destruct coins as [|c0 [|c1 cs]]; [done| |].
  { cbn. by destruct (bytes_eqb _ _). }
  set (coins := c0 :: c1 :: cs) in *.
  assert (Hlen : (2 <= length coins)%nat) by (cbn; lia).
  pose proof (Nat.lt_div2 (length coins) ltac:(lia)) as Hmid.
  change (find_fuel (S fuel) coins denom) with
    (match drop (Nat.div2 (length coins)) coins with
     | [] => None
     | coin :: rest =>
         if bytes_ltb denom (coin_Denom coin) then find_fuel fuel (take (Nat.div2 (length coins)) coins) denom
         else if bytes_eqb denom (coin_Denom coin) then Some coin
         else find_fuel fuel rest denom
     end).
  set (mid := Nat.div2 (length coins)) in *. pose proof (take_drop mid coins) as Htd.
  destruct (drop mid coins) as [|c rest] eqn:Ed.
  { apply (f_equal (@length _)) in Ed. rewrite length_drop in Ed. cbn [length] in Ed. lia. }
  assert (Hrl : (length rest < length coins)%nat).
  { apply (f_equal (@length _)) in Ed. rewrite length_drop in Ed. cbn [length] in Ed. lia. }
  pose proof Hs as Hs0. rewrite <- Htd in Hs0. destruct (sorted_coins_app _ _ Hs0) as (Ht & Hcr & Hlt).
  destruct (sorted_coins_app [c] rest Hcr) as (_ & Hr & Hcl).
  transitivity (List.find (fun x => bytes_eqb (coin_Denom x) denom) (take mid coins ++ c :: rest));
    [|by rewrite Htd]. rewrite List_find_app. cbn [List.find].
  destruct (bytes_ltb denom (coin_Denom c)) eqn:E1; [|destruct (bytes_eqb denom (coin_Denom c)) eqn:E2].
  - rewrite IH by (done || rewrite length_take; lia).
    destruct (List.find _ (take mid coins)); [done|].
    rewrite (proj2 (bytes_eqb_neq _ _)) by (apply bytes_ltb_lt in E1 as [_ ?]; done).
    symmetry. apply List_find_absent. intros x Hx <-.
    apply (bytes_ltb_irrefl (coin_Denom x) (coin_Denom c)); [done|]. apply Hcl; [by left|done].
  - apply bytes_eqb_eq in E2. subst denom. rewrite List_find_absent; [by rewrite bytes_eqb_refl|].
    intros x Hx He. specialize (Hlt x c Hx ltac:(left)). rewrite He in Hlt.
    by apply (bytes_ltb_irrefl (coin_Denom c) (coin_Denom c)).
  - rewrite IH by (done || lia). apply bytes_eqb_neq in E2. rewrite (List_find_absent denom (take mid coins)).
    + by rewrite (proj2 (bytes_eqb_neq _ _)) by done.
    + intros x Hx <-. specialize (Hlt x c Hx ltac:(left)). congruence.
Qed.

(** ** What is required *)

Section Requirement.
Context {B : Type} `{!Sdk B} {CoinsOps : SdkCoins} {CoinsOk : CoinsLaws} {DecOps : SdkDec} {DecOk : DecLaws}.
(** [Coin.IsValid]: a valid denom and an amount that is not negative. *)
Context (coin_valid : forall c, Coin_IsValid c = ValidateDenom (coin_Denom c) && (0 <=? coin_Amount c)).

Lemma sort_sorted_coins cs : NoDup (map coin_Denom cs) -> sorted_coins (Coins_Sort cs).
Proof.
  intros Hn. split; [apply sort_sorted|]. by rewrite (Permutation_map coin_Denom (sort_law cs)).
Qed.

Definition price_ok (gp : DecCoin) : Prop := ValidateDenom (dc_Denom gp) = true /\ 0 <= dc_Amount gp.

Lemma validate_prices_ok first low seen l :
  validate_prices first low seen l = true ->
  Forall price_ok l /\ NoDup (map dc_Denom l) /\ Forall (fun gp => dc_Denom gp ∉ seen) l.
Proof.
  revert first low seen. induction l as [|c l IH]; intros first low seen H; cbn [validate_prices] in H.
  - split; [constructor|]. split; [constructor|constructor].
  - repeat (apply andb_prop in H as [H ?]). zbool.
    match goal with Hv : validate_prices _ _ _ _ = true |- _ => destruct (IH _ _ _ Hv) as (Hf & Hn & Hs) end.
    rewrite Forall_forall in Hs. rewrite bool_decide_eq_false in *. cbn [map].
    split; [constructor; [by split|done]|]. split.
    + constructor; [|done]. intros Hin. apply list_elem_of_In, in_map_iff in Hin as (g & He & Hg).
      apply list_elem_of_In in Hg. apply (Hs g Hg). rewrite He. set_solver.
    + constructor; [done|]. apply Forall_forall. intros g Hg. specialize (Hs g Hg). set_solver.
Qed.

(** The fee of a price, rounded up to a whole coin. *)
Definition min_fee (price gas : Z) : Z := - (- (price * gas) / dec_one).

Lemma min_fee_bounds price gas :
  price * gas <= min_fee price gas * dec_one < price * gas + dec_one.
Proof.
  unfold min_fee. pose proof (Z.div_mod (- (price * gas)) dec_one ltac:(done)).
  pose proof (Z.mod_pos_bound (- (price * gas)) dec_one ltac:(done)). lia.
Qed.

Lemma ceil_fee price gas : Dec_RoundInt (Dec_Ceil (Dec_Mul price (gas * dec_one))) = min_fee price gas.
Proof.
  rewrite mul_law. destruct (ceil_law (price * gas)) as (n & -> & Hn).
  pose proof (min_fee_bounds price gas) as Hm. pose proof (round_law (n * dec_one)) as Hr.
  assert (Ho : 0 < dec_one) by done. set (r := Dec_RoundInt _) in *.
  assert (r = n) as ->. { unfold dec_one in *. lia. } unfold dec_one in *. lia.
Qed.

Lemma min_fee_nonneg price gas : 0 <= price -> 0 <= gas -> 0 <= min_fee price gas.
Proof.
  intros Hp Hg. pose proof (min_fee_bounds price gas). assert (0 <= price * gas) by nia.
  assert (Ho : 0 < dec_one) by done. nia.
Qed.

Definition fee_of (gas : Z) (gp : DecCoin) : Coin := MkCoin (dc_Denom gp) (min_fee (dc_Amount gp) gas).

Lemma price_fees_ok gas l :
  0 <= gas -> Forall price_ok l -> price_fees (gas * dec_one) l = Ok (map (fee_of gas) l).
Proof.
  intros Hg. induction 1 as [|gp l [Hv Hp] Hf IH]; cbn [price_fees map]; [done|].
  unfold NewCoin. rewrite ceil_fee, coin_valid. cbn [coin_Denom coin_Amount]. rewrite Hv.
  rewrite (proj2 (Z.leb_le _ _)) by (by apply min_fee_nonneg). cbn [andb negb guard rbind].
  rewrite IH. done.
Qed.

Lemma map_fee_denoms gas l : map coin_Denom (map (fee_of gas) l) = map dc_Denom l.
Proof. rewrite map_map. done. Qed.

(** The prices the network asks for: the parameters, or zero of the bond
    denom when there are none. *)
Definition global_prices (mfd : FeeDecorator) (s : GF) : DecCoins :=
  match gf_GetParams s with [] => [MkDecCoin (BondDenom mfd) 0] | ps => ps end.
(** The node's own price of a denom, zero when it has none. *)
Definition local_price (ctx : gf_ctx) (d : bytes) : Z :=
  match List.find (fun gp => bytes_eqb (dc_Denom gp) d) (MinGasPrices ctx) with
  | Some gp => dc_Amount gp
  | None => 0
  end.

Lemma GetGlobalFee_ok mfd s gas :
  DecCoins_Validate (gf_GetParams s) = true -> ValidateDenom (BondDenom mfd) = true -> BondDenom mfd <> [] ->
  0 <= gas < 2 ^ 63 ->
  GetGlobalFee mfd s gas = Ok (Coins_Sort (map (fee_of gas) (global_prices mfd s))) /\
  Forall price_ok (global_prices mfd s) /\ NoDup (map dc_Denom (global_prices mfd s)).
Proof.
  intros Hv Hb Hne Hg.
  assert (Hok : Forall price_ok (global_prices mfd s) /\ NoDup (map dc_Denom (global_prices mfd s))).
  { unfold global_prices. destruct (validate_prices_ok _ _ _ _ Hv) as (Hf & Hn & _).
    destruct (gf_GetParams s); [|done]. split; [by repeat constructor|apply NoDup_singleton]. }
  split; [|done]. destruct Hok as [Hok _]. unfold GetGlobalFee.
  rewrite (i64_id gas) by (unfold is_i64; lia).
  assert (Hp : (if Z.of_nat (length (gf_GetParams s)) =? 0 then DefaultZeroGlobalFee mfd
                else Ok (gf_GetParams s)) = Ok (global_prices mfd s)).
  { unfold global_prices. destruct (gf_GetParams s); [|done]. unfold DefaultZeroGlobalFee. cbn [length].
    change (Z.of_nat 0 =? 0) with true. cbn iota. rewrite (proj2 (bytes_eqb_neq _ _)) by done. by rewrite Hb. }
  rewrite Hp. cbn [rbind]. rewrite price_fees_ok by (done || lia). done.
Qed.

(** In a list with each denom once, the search finds the coin of the denom. *)
Lemma List_find_elem {A} (key : A -> bytes) (l : list A) x :
  NoDup (map key l) -> x ∈ l -> List.find (fun y => bytes_eqb (key y) (key x)) l = Some x.
Proof.
  induction l as [|y l IH]; intros Hn Hx; [by apply elem_of_nil in Hx|]. cbn [map] in Hn.
  apply NoDup_cons in Hn as [Hy Hn]. cbn [List.find]. apply elem_of_cons in Hx as [->|Hx].
  - by rewrite bytes_eqb_refl.
  - rewrite (proj2 (bytes_eqb_neq _ _)); [by apply IH|]. intros He. apply Hy. rewrite He.
    by apply list_elem_of_In, in_map, list_elem_of_In.
Qed.

Lemma Find_local gas l d :
  NoDup (map dc_Denom l) ->
  Find (Coins_Sort (map (fee_of gas) l)) d =
  fee_of gas <$> List.find (fun gp => bytes_eqb (dc_Denom gp) d) l.
Proof.
  intros Hn. assert (Hs : sorted_coins (Coins_Sort (map (fee_of gas) l)))
    by (apply sort_sorted_coins; by rewrite map_fee_denoms).
  unfold Find. rewrite find_fuel_spec by done.
  destruct (List.find (fun gp => _) l) as [gp|] eqn:E; cbn.
  - apply List.find_some in E as [Hin He]. apply bytes_eqb_eq in He. subst d.
    apply (List_find_elem coin_Denom _ (fee_of gas gp)); [apply Hs|].
    rewrite sort_law. by apply list_elem_of_In, in_map.
  - apply List_find_absent. intros x Hx. rewrite sort_law in Hx.
    apply list_elem_of_In, in_map_iff in Hx as (gp & <- & Hin).
    pose proof (List.find_none _ _ E gp Hin) as Hne. by apply bytes_eqb_neq in Hne.
Qed.

Lemma min_fee_zero gas : min_fee 0 gas = 0.
Proof. pose proof (min_fee_bounds 0 gas). unfold dec_one in *. lia. Qed.

(** The requirement of one price of the network. *)
Definition required_coin (ctx : gf_ctx) (gas : Z) (gp : DecCoin) : Coin :=
  MkCoin (dc_Denom gp)
    (Z.max (min_fee (dc_Amount gp) gas) (min_fee (local_price ctx (dc_Denom gp)) gas)).

Lemma requirement_ok mfd ctx s gas :
  DecCoins_Validate (gf_GetParams s) = true -> DecCoins_Validate (MinGasPrices ctx) = true ->
  ValidateDenom (BondDenom mfd) = true -> BondDenom mfd <> [] -> 0 <= gas < 2 ^ 63 ->
  exists R, requirement mfd ctx s gas = Ok R /\ sorted_coins R /\
    R ≡ₚ map (required_coin ctx gas) (global_prices mfd s).
Proof.
  intros Hv Hl Hb Hne Hg. destruct (GetGlobalFee_ok mfd s gas Hv Hb Hne Hg) as (Hgf & Hok & Hn).
  destruct (validate_prices_ok _ _ _ _ Hl) as (Hlf & Hln & _).
  set (ps := global_prices mfd s) in *.
  assert (Hps : ps <> []) by (unfold ps, global_prices; by destruct (gf_GetParams s)).
  assert (Hgn : forall R : Coins, R ≡ₚ map (required_coin ctx gas) ps -> (Z.of_nat (length R) =? 0) = false).
  { intros R HR. apply Z.eqb_neq. rewrite HR, length_map. destruct ps; [done|cbn [length]; lia]. }
  assert (Hnd : NoDup (map coin_Denom (map (required_coin ctx gas) ps))) by (by rewrite map_map).
  unfold requirement. rewrite Hgf. cbn [rbind]. unfold GetMinGasPrice.
  destruct (forallb _ (MinGasPrices ctx)) eqn:Ez; cbn [rbind].
  - change (CombinedFeeRequirement (Coins_Sort (map (fee_of gas) ps)) [])
      with (Coins_Sort (map (fee_of gas) ps)). cbn zeta.
    assert (HR : Coins_Sort (map (fee_of gas) ps) ≡ₚ map (required_coin ctx gas) ps).
    { rewrite sort_law. erewrite map_ext_in; [done|]. intros gp Hgp. unfold fee_of, required_coin. f_equal.
      assert (local_price ctx (dc_Denom gp) = 0) as ->.
      { unfold local_price. destruct (List.find _ _) as [x|] eqn:E; [|done].
        apply List.find_some in E as [Hin _]. rewrite forallb_forall in Ez. by apply Z.eqb_eq, Ez. }
      rewrite min_fee_zero, Z.max_l; [done|]. apply min_fee_nonneg; [|lia].
      rewrite Forall_forall in Hok. apply list_elem_of_In in Hgp. by apply Hok. }
    exists (Coins_Sort (map (fee_of gas) ps)). rewrite (Hgn _ HR). split; [done|]. split; [|done].
    apply sort_sorted_coins. by rewrite map_fee_denoms.
  - rewrite (proj2 (Z.leb_gt _ _)) by lia. cbn [guard rbind]. rewrite price_fees_ok by (done || lia).
    cbn [rbind]. unfold CombinedFeeRequirement.
    rewrite (Permutation_length (sort_law (map (fee_of gas) (MinGasPrices ctx)))),
      (Permutation_length (sort_law (map (fee_of gas) ps))), !length_map.
    rewrite (proj2 (Z.eqb_neq (Z.of_nat (length (MinGasPrices ctx))) 0)).
    2:{ destruct (MinGasPrices ctx); [done|cbn [length]; lia]. }
    rewrite (proj2 (Z.eqb_neq (Z.of_nat (length ps)) 0)) by (destruct ps; [done|cbn [length]; lia]).
    cbn [andb negb]. set (pick := fun fee => match Find _ _ with Some c => _ | None => fee end).
    assert (HR : Coins_Sort (map pick (Coins_Sort (map (fee_of gas) ps))) ≡ₚ map (required_coin ctx gas) ps).
    { rewrite sort_law, sort_law, map_map. erewrite map_ext_in; [done|]. intros gp Hgp.
      unfold pick. rewrite Find_local by done. unfold required_coin, local_price. cbn [fee_of coin_Denom].
      destruct (List.find _ _) as [lp|] eqn:E; cbn.
      - apply List.find_some in E as [_ He]. apply bytes_eqb_eq in He.
        destruct (_ <? _) eqn:El; zbool; unfold fee_of; f_equal; [done|lia|lia].
      - unfold fee_of. f_equal. rewrite min_fee_zero, Z.max_l; [done|]. apply min_fee_nonneg; [|lia].
        rewrite Forall_forall in Hok. apply list_elem_of_In in Hgp. by apply Hok. }
    eexists. rewrite (Hgn _ HR). split; [done|]. split; [|done]. split; [apply sort_sorted|].
    by rewrite (Permutation_map coin_Denom HR).
Qed.

(** ** Who passes *)

Lemma NoDup_map_filter {A} (f : A -> bytes) (P : A -> Prop) `{!forall x, Decision (P x)} (l : list A) :
  NoDup (map f l) -> NoDup (map f (filter P l)).
Proof.
  induction l as [|x l IH]; intros Hn; [constructor|]. cbn [map] in Hn. apply NoDup_cons in Hn as [Hx Hn].
  rewrite filter_cons. case_decide; [|by apply IH]. cbn [map]. constructor; [|by apply IH].
  intros Hin. apply Hx. apply list_elem_of_In, in_map_iff in Hin as (y & He & Hy).
  apply list_elem_of_In, list_elem_of_filter in Hy as [_ Hy]. rewrite <- He.
  by apply list_elem_of_In, in_map, list_elem_of_In.
Qed.

(** The amount of a denom among the required coins that are not zero. *)
Lemma nonzero_amount R d :
  NoDup (map coin_Denom R) ->
  let nz := Coins_Sort (filter (fun gf => coin_Amount gf <> 0) R) in
  (AmountOf nz d <> 0 <-> exists r, r ∈ R /\ coin_Denom r = d /\ coin_Amount r <> 0) /\
  (forall r, r ∈ R -> coin_Denom r = d -> coin_Amount r <> 0 -> AmountOf nz d = coin_Amount r).
Proof.
  intros Hn nz.
  assert (Hf : forall r, r ∈ R -> coin_Denom r = d -> coin_Amount r <> 0 -> AmountOf nz d = coin_Amount r).
  { intros r Hr <- Hz. unfold nz. rewrite sort_law. apply AmountOf_elem; [by apply NoDup_map_filter|].
    by apply list_elem_of_filter. }
  split; [|done]. split.
  - intros Hz. destruct (decide (d ∈ map coin_Denom (filter (fun gf => coin_Amount gf <> 0) R))) as [Hin|Hin].
    + apply list_elem_of_In, in_map_iff in Hin as (r & He & Hr).
      apply list_elem_of_In, list_elem_of_filter in Hr as [Hrz Hr]. eauto.
    + destruct Hz. unfold nz. rewrite sort_law. by apply AmountOf_absent.
  - intros (r & Hr & Hd & Hz). by rewrite (Hf r).
Qed.

(** The messages all bypass the minimum fee, within the gas they may use. *)
Definition bypasses (mfd : FeeDecorator) (tx : FeeTx) : Prop :=
  (forall t, t ∈ tx_MsgTypes tx -> t ∈ BypassMinFeeMsgTypes mfd) /\
  tx_Gas tx <= MaxTotalBypassMinFeeMsgGasUsage mfd.

Lemma bypass_iff mfd tx :
  ContainsOnlyBypassMinFeeMsgs mfd (tx_MsgTypes tx) &&
    (tx_Gas tx <=? MaxTotalBypassMinFeeMsgGasUsage mfd) = true <-> bypasses mfd tx.
Proof.
  unfold bypasses, ContainsOnlyBypassMinFeeMsgs. rewrite andb_true_iff, Z.leb_le, forallb_forall.
  setoid_rewrite existsb_exists. split; intros [H1 H2]; (split; [|done]).
  - intros t Ht. apply list_elem_of_In in Ht. destruct (H1 t Ht) as (u & Hu & He).
    apply bytes_eqb_eq in He. subst. by apply list_elem_of_In.
  - intros t Ht. apply list_elem_of_In, H1 in Ht. exists t. split; [by apply list_elem_of_In|apply bytes_eqb_refl].
Qed.

(** What a fee must be against a requirement: only required denoms, and either
    a bypass, or a denom of which nothing is required (also by paying
    nothing), or enough of one denom. *)
Definition fee_accepted (mfd : FeeDecorator) (tx : FeeTx) (R : Coins) : Prop :=
  (forall c, c ∈ tx_Fee tx -> coin_Denom c ∈ map coin_Denom R) /\
  (bypasses mfd tx \/
   (exists c r, c ∈ tx_Fee tx /\ r ∈ R /\ coin_Denom r = coin_Denom c /\ coin_Amount r = 0) \/
   (tx_Fee tx = [] /\ exists r, r ∈ R /\ coin_Amount r = 0) \/
   (exists c r, c ∈ tx_Fee tx /\ r ∈ R /\ coin_Denom r = coin_Denom c /\ 0 < coin_Amount r <= coin_Amount c)).

Lemma zero_denoms R d :
  d ∈ map coin_Denom (filter (fun gf => coin_Amount gf = 0) R) <->
  exists r, r ∈ R /\ coin_Denom r = d /\ coin_Amount r = 0.
Proof.
  rewrite list_elem_of_In, in_map_iff. split.
  - intros (r & He & Hr). apply list_elem_of_In, list_elem_of_filter in Hr as [Hz Hr]. eauto.
  - intros (r & Hr & He & Hz). exists r. split; [done|]. apply list_elem_of_In, list_elem_of_filter. done.
Qed.

Lemma length_zero {A} (l : list A) : (Z.of_nat (length l) =? 0) = true <-> l = [].
Proof. rewrite Z.eqb_eq. destruct l; cbn; split; intros; (done || lia). Qed.

Lemma filter_sort_nil (P : Coin -> Prop) `{!forall x, Decision (P x)} l :
  Coins_Sort (filter P (Coins_Sort l)) = [] <-> forall c, c ∈ l -> ~ P c.
Proof.
  split.
  - intros Hnil c Hc Hp. assert (Hin : c ∈ Coins_Sort (filter P (Coins_Sort l))).
    { rewrite sort_law, list_elem_of_filter, sort_law. done. }
    rewrite Hnil in Hin. by apply elem_of_nil in Hin.
  - intros Hno. destruct (Coins_Sort (filter P (Coins_Sort l))) as [|c cs] eqn:E; [done|].
    assert (Hin : c ∈ Coins_Sort (filter P (Coins_Sort l))) by (rewrite E; left).
    rewrite sort_law, list_elem_of_filter, sort_law in Hin. by destruct Hin as [? ?%Hno].
Qed.

(** The sets [check_fee] computes from a requirement [R] and a fee. *)
Section Split.
Context (R fee : Coins) (HR : sorted_coins R) (Hn : NoDup (map coin_Denom fee)).
Let nz := Coins_Sort (filter (fun gf => coin_Amount gf <> 0) R).
Let zd := map coin_Denom (filter (fun gf => coin_Amount gf = 0) R).
Let a := Coins_Sort (filter (fun fc => coin_Denom fc ∉ zd) (Coins_Sort fee)).
Let z := Coins_Sort (filter (fun fc => coin_Denom fc ∈ zd) (Coins_Sort fee)).

Lemma split_sorted : sorted_coins a /\ sorted_coins nz.
Proof.
  split; apply sort_sorted_coins, NoDup_map_filter; [|apply HR].
  by rewrite (Permutation_map coin_Denom (sort_law _)).
Qed.

Lemma elem_split c : c ∈ a <-> c ∈ fee /\ coin_Denom c ∉ zd.
Proof. unfold a. rewrite sort_law, list_elem_of_filter, sort_law. tauto. Qed.

Lemma split_subset :
  DenomsSubsetOf a nz = true <-> forall c, c ∈ fee -> coin_Denom c ∈ map coin_Denom R.
Proof.
  rewrite (subset_law a nz (proj1 split_sorted) (proj2 split_sorted)). split.
  - intros Hsb c Hc. destruct (decide (coin_Denom c ∈ zd)) as [Hz|Hz].
    + apply zero_denoms in Hz as (r & Hr & <- & _). by apply list_elem_of_In, in_map, list_elem_of_In.
    + specialize (Hsb c (proj2 (elem_split c) (conj Hc Hz))).
      apply nonzero_amount in Hsb as (r & Hr & <- & _); [|apply HR].
      by apply list_elem_of_In, in_map, list_elem_of_In.
  - intros Hsb c [Hc Hz]%elem_split. apply nonzero_amount; [apply HR|].
    specialize (Hsb c Hc). apply list_elem_of_In, in_map_iff in Hsb as (r & He & Hr). apply list_elem_of_In in Hr.
    exists r. split; [done|]. split; [done|]. intros H0. apply Hz, zero_denoms. eauto.
Qed.

Lemma split_any :
  (forall r, r ∈ R -> 0 <= coin_Amount r) ->
  IsAnyGTE a nz = true <->
  exists c r, c ∈ fee /\ r ∈ R /\ coin_Denom r = coin_Denom c /\ 0 < coin_Amount r <= coin_Amount c.
Proof.
  intros Hpos. rewrite (anygte_law a nz (proj1 split_sorted) (proj2 split_sorted)). split.
  - intros (c & [Hc _]%elem_split & Hnz & Hle).
    destruct (proj1 (proj1 (nonzero_amount R (coin_Denom c) (proj2 HR))) Hnz) as (r & Hr & Hd & Hrz).
    exists c, r. split; [done|]. split; [done|]. split; [done|]. unfold nz in Hle.
    rewrite (proj2 (nonzero_amount R _ (proj2 HR)) r Hr Hd Hrz) in Hle. specialize (Hpos r Hr). lia.
  - intros (c & r & Hc & Hr & Hd & Hle). exists c. assert (Hrz : coin_Amount r <> 0) by lia.
    assert (He : AmountOf nz (coin_Denom c) = coin_Amount r)
      by (by apply (nonzero_amount R _ (proj2 HR))).
    rewrite He. split; [|lia]. apply elem_split. split; [done|]. intros (r' & Hr' & Hd' & Hz')%zero_denoms.
    assert (coin_Amount r = coin_Amount r'); [|lia].
    rewrite <- (AmountOf_elem R r (proj2 HR) Hr), <- (AmountOf_elem R r' (proj2 HR) Hr'). congruence.
Qed.

Lemma split_zero :
  (Z.of_nat (length z) =? 0) = false <->
  exists c r, c ∈ fee /\ r ∈ R /\ coin_Denom r = coin_Denom c /\ coin_Amount r = 0.
Proof.
  rewrite <- not_true_iff_false, length_zero. unfold z. rewrite filter_sort_nil. split.
  - intros Hz. assert (Hex : Exists (fun c => coin_Denom c ∈ zd) fee).
    { destruct (decide (Exists (fun c => coin_Denom c ∈ zd) fee)) as [|Hno]; [done|].
      destruct Hz. intros c Hc Hd. apply Hno, Exists_exists. eauto. }
    apply Exists_exists in Hex as (c & Hc & (r & Hr & Hd & H0)%zero_denoms). eauto 6.
  - intros (c & r & Hc & Hr & Hd & H0) Hno. apply (Hno c Hc), zero_denoms. eauto.
Qed.

Lemma split_free :
  (Z.of_nat (length (Coins_Sort fee)) =? 0) && negb (Z.of_nat (length zd) =? 0) = true <->
  fee = [] /\ exists r, r ∈ R /\ coin_Amount r = 0.
Proof.
  rewrite andb_true_iff, (Permutation_length (sort_law fee)), length_zero.
  rewrite negb_true_iff, <- not_true_iff_false, length_zero.
  assert (Hzd : zd <> [] <-> exists r, r ∈ R /\ coin_Amount r = 0); [|by rewrite Hzd].
  split.
  - intros Hz. destruct zd as [|d l] eqn:E; [done|]. assert (Hd : d ∈ zd) by (rewrite E; left).
    apply zero_denoms in Hd as (r & Hr & _ & H0). eauto.
  - intros (r & Hr & H0) E. assert (Hd : coin_Denom r ∈ zd) by (apply zero_denoms; eauto).
    rewrite E in Hd. by apply elem_of_nil in Hd.
Qed.
End Split.

Lemma check_fee_iff mfd tx R :
  sorted_coins R -> Forall (fun r => 0 <= coin_Amount r) R -> NoDup (map coin_Denom (tx_Fee tx)) ->
  check_fee mfd tx R = Ok tt <-> fee_accepted mfd tx R.
Proof.
  intros HR Hpos Hn. rewrite Forall_forall in Hpos. unfold fee_accepted.
  rewrite <- (split_subset R (tx_Fee tx) HR Hn), <- (split_any R (tx_Fee tx) HR Hn Hpos).
  rewrite <- (split_zero R (tx_Fee tx)), <- (split_free R (tx_Fee tx)), <- bypass_iff.
  unfold check_fee, getNonZeroFees, splitCoinsByDenoms.
  destruct (DenomsSubsetOf _ _); cbn [negb guard rbind]; [|split; [done|by intros [? _]]].
  destruct (_ && (tx_Gas tx <=? _)); cbn [negb andb]; [tauto|].
  destruct (Z.of_nat (length (Coins_Sort (filter _ (Coins_Sort (tx_Fee tx))))) =? 0); [|tauto].
  destruct (_ && _); [tauto|]. destruct (IsAnyGTE _ _); cbn [guard negb]; [tauto|].
  split; [done|]. intros [_ [?|[?|[?|?]]]]; done.
Qed.

(** ** Properties *)

(** Whoever sends what, stored parameters stay valid (sorted, each denom
    once, no negative price); only the authority changes them, and genesis
    writes what the export then reads. *)
Theorem params_stay_valid (s : GF) authority Authority p :
  DecCoins_Validate (gf_GetParams s) = true ->
  DecCoins_Validate (gf_GetParams (gf_UpdateParams authority Authority p s).1) = true /\
  ((gf_UpdateParams authority Authority p s).1 <> s -> authority = Authority) /\
  (forall s', gf_InitGenesis p s = (s', Ok tt) -> gf_ExportGenesis s' = p /\ DecCoins_Validate p = true).
Proof.
  intros Hv. unfold gf_UpdateParams, gf_InitGenesis, gf_ExportGenesis, gf_SetParams.
  destruct (bytes_eqb authority Authority) eqn:Ea, (DecCoins_Validate p) eqn:Ep; cbn; rewrite ?Ep;
    (split; [done|]); (split; [by apply bytes_eqb_eq in Ea || done|]); intros s' [= <-]; done.
Qed.

(** When the parameters and the node's prices are valid, the bond denom is
    a denom and the gas limit fits an [int64], the decorator computes one
    requirement, sorted and with each denom once: for each price of the
    network (zero of the bond denom when there is none) the larger of
    [ceil(price * gas)] for the network's price and for the node's price of that
    denom. No product is negative or overflows into a panic, and the node's
    prices of other denoms are ignored. *)
Theorem requirement_spec mfd ctx s gas :
  DecCoins_Validate (gf_GetParams s) = true -> DecCoins_Validate (MinGasPrices ctx) = true ->
  ValidateDenom (BondDenom mfd) = true -> BondDenom mfd <> [] -> 0 <= gas < 2 ^ 63 ->
  exists R, requirement mfd ctx s gas = Ok R /\ sorted_coins R /\
    R ≡ₚ map (required_coin ctx gas) (global_prices mfd s) /\
    forall price, price * gas <= min_fee price gas * dec_one < price * gas + dec_one.
Proof.
  intros Hv Hl Hb Hne Hg. destruct (requirement_ok mfd ctx s gas Hv Hl Hb Hne Hg) as (R & E & Hs & Hp).
  exists R. split; [done|]. split; [done|]. split; [done|]. intros price. apply min_fee_bounds.
Qed.

Lemma required_nonneg mfd ctx s gas R :
  DecCoins_Validate (gf_GetParams s) = true -> ValidateDenom (BondDenom mfd) = true -> BondDenom mfd <> [] ->
  0 <= gas < 2 ^ 63 -> R ≡ₚ map (required_coin ctx gas) (global_prices mfd s) ->
  Forall (fun r => 0 <= coin_Amount r) R.
Proof.
  intros Hv Hb Hne Hg Hp. destruct (GetGlobalFee_ok mfd s gas Hv Hb Hne Hg) as (_ & Hok & _).
  rewrite Hp. apply Forall_map. rewrite Forall_forall in Hok. apply Forall_forall. intros gp Hgp.
  cbn [required_coin coin_Amount]. destruct (Hok _ Hgp) as [_ Hpr].
  pose proof (min_fee_nonneg _ gas Hpr ltac:(lia)). lia.
Qed.

(** C32: at CheckTx, outside simulation, a fee transaction passes exactly when
    every denom it pays is one of the requirement and either all its messages
    bypass the fee within the gas allowance, or it pays a denom of which
    nothing is required, or it pays nothing and some denom is free, or one coin
    covers the requirement of its denom. *)
Theorem AnteHandle_accepts_iff mfd ctx s tx :
  IsCheckTx ctx = true ->
  DecCoins_Validate (gf_GetParams s) = true -> DecCoins_Validate (MinGasPrices ctx) = true ->
  ValidateDenom (BondDenom mfd) = true -> BondDenom mfd <> [] -> 0 <= tx_Gas tx < 2 ^ 63 ->
  NoDup (map coin_Denom (tx_Fee tx)) ->
  exists R, requirement mfd ctx s (tx_Gas tx) = Ok R /\
    (AnteHandle mfd ctx s (Some tx) false = Ok tt <-> fee_accepted mfd tx R) /\
    (~ fee_accepted mfd tx R -> AnteHandle mfd ctx s (Some tx) false = Err ErrInsufficientFee).
Proof.
  intros Hc Hv Hl Hb Hne Hg Hn.
  destruct (requirement_ok mfd ctx s (tx_Gas tx) Hv Hl Hb Hne Hg) as (R & E & Hs & Hp).
  pose proof (required_nonneg mfd ctx s (tx_Gas tx) R Hv Hb Hne Hg Hp) as Hpos.
  pose proof (check_fee_iff mfd tx R Hs Hpos Hn) as Hiff.
  exists R. split; [done|]. unfold AnteHandle. rewrite Hc. cbn [negb orb]. rewrite E. cbn [rbind].
  split; [done|]. intros Hno. rewrite <- Hiff in Hno. clear -Hno.
  unfold check_fee in *. destruct (getNonZeroFees R), (splitCoinsByDenoms _ _).
  destruct (DenomsSubsetOf _ _); cbn [negb guard rbind] in *; [|done].
  destruct (_ && _); [|done]. destruct (_ && negb _); [done|]. by destruct (IsAnyGTE _ _).
Qed.
End Requirement.

(** On coins sorted by denom, the binary search [Find] returns what a scan of
    the slice returns, and halving never runs past the length of the slice. *)
Theorem Find_linear coins denom :
  sorted_coins coins ->
  Find coins denom = List.find (fun c => bytes_eqb (coin_Denom c) denom) coins.
Proof. intros Hs. by apply find_fuel_spec. Qed.

(** ** A small instance, for the witnesses *)

Definition ex_fee : FeeDecorator := MkFeeDecorator [str "/ibc.core"] 1000 (str "uterp").
Definition ex_params : GF := Some [MkDecCoin (str "uthiol") (dec_one / 40); MkDecCoin (str "uterp") (dec_one / 20)].
Definition ex_sorted : GF := Some [MkDecCoin (str "uterp") (dec_one / 20); MkDecCoin (str "uthiol") (dec_one / 40)].
Definition ex_node : gf_ctx := MkGfCtx true [MkDecCoin (str "uterp") (dec_one / 10)].
Definition ex_tx (amount : Z) : FeeTx := MkFeeTx [MkCoin (str "uterp") amount] 1001 [str "/bank.send"].

Example params_order : gf_UpdateParams (str "gov") (str "gov") (default [] ex_params) None = (None, Err GfInvalidParams).
Proof. vm_refl. Qed.
Example fee_short : AnteHandle ex_fee ex_node ex_sorted (Some (ex_tx 100)) false = Err ErrInsufficientFee.
Proof. vm_refl. Qed.
Example fee_exact : AnteHandle ex_fee ex_node ex_sorted (Some (ex_tx 101)) false = Ok tt.
Proof. vm_refl. Qed.

Lemma toy_coin_valid (c : Coin) : Coin_IsValid c = ValidateDenom (coin_Denom c) && (0 <=? coin_Amount c).
Proof. reflexivity. Qed.

Lemma Find_linear_witness :
  Find [MkCoin (str "a") 1; MkCoin (str "b") 2; MkCoin (str "c") 3] (str "c") = Some (MkCoin (str "c") 3).
Proof.
  rewrite (Find_linear [MkCoin (str "a") 1; MkCoin (str "b") 2; MkCoin (str "c") 3] (str "c")); [done|].
  split; [|by apply (bool_decide_unpack _); vm_compute].
  repeat constructor; vm_compute; reflexivity.
Defined.

Lemma requirement_spec_witness :
  exists R, requirement ex_fee ex_node ex_sorted 1001 = Ok R /\
    R ≡ₚ [MkCoin (str "uterp") 101; MkCoin (str "uthiol") 26].
Proof.
  destruct (requirement_spec toy_coin_valid ex_fee ex_node ex_sorted 1001) as (R & E & _ & Hp & _).
  1-3: vm_refl. 1: done. 1: lia.
  exists R. split; [assumption|]. rewrite Hp.
  replace (map _ _) with [MkCoin (str "uterp") 101; MkCoin (str "uthiol") 26] by vm_refl. reflexivity.
Defined.

Lemma AnteHandle_accepts_iff_witness :
  exists R, requirement ex_fee ex_node ex_sorted 1001 = Ok R /\ ~ fee_accepted ex_fee (ex_tx 100) R.
Proof.
  destruct (AnteHandle_accepts_iff toy_coin_valid ex_fee ex_node ex_sorted (ex_tx 100))
    as (R & E & [_ Hiff] & _).
  1-4: vm_refl. 1: done. 1: cbn; lia. 1: apply NoDup_singleton.
  exists R. split; [assumption|]. intros Ha. apply Hiff in Ha.
  assert (Hs : AnteHandle ex_fee ex_node ex_sorted (Some (ex_tx 100)) false = Err ErrInsufficientFee) by vm_refl.
  congruence.
Defined.

Lemma params_stay_valid_witness :
  gf_InitGenesis (default [] ex_sorted) None = (ex_sorted, Ok tt) /\
  gf_ExportGenesis ex_sorted = default [] ex_sorted.
Proof.
  assert (E : gf_InitGenesis (default [] ex_sorted) None = (ex_sorted, Ok tt)) by vm_refl.
  split; [assumption|].
  apply (params_stay_valid None (str "gov") (str "gov") (default [] ex_sorted)); [vm_refl|assumption].
Defined.
