(* ===== verification/Json.v ===== *)
(** * encoding/json and encoding/base64

    What the modules use of the Go standard library's JSON decoder: the
    scanner with its nesting limit, strings with their escapes and the repair
    of invalid UTF-8, numbers with the range of a [float64], and the decoding
    of a value into the Go types the modules declare (an [interface{}], a
    [bool], a [string], a [[]byte] in base64, a slice, a struct whose fields
    match without regard to case). The modules' encoders are in their files.
    [json_fuel_enough] shows that the fuel of the parser never runs out, and
    [json_parse_size] bounds what a value holds by the length of its text. *)

From S2P Require Import Prelude.

(** ** Values *)

(** A parsed value. Numbers keep their literal; an object keeps its members in
    the order of the text, a repeated key included. *)
Inductive json :=
| JNull
| JBool (b : bool)
| JNum (lit : bytes)
| JStr (s : bytes)
| JArr (l : list json)
| JObj (l : list (bytes * json)).

(** ** Characters *)

Definition quote : byte := Byte.x22.
Definition backslash : byte := Byte.x5c.

Definition is_ws (c : byte) : bool :=
  let v := byte_val c in (v =? 32) || (v =? 9) || (v =? 13) || (v =? 10).
Fixpoint skip_ws (s : bytes) : bytes :=
  match s with
  | c :: s' => if is_ws c then skip_ws s' else s
  | [] => []
  end.

Definition is_digit (c : byte) : bool := (48 <=? byte_val c) && (byte_val c <=? 57).
Definition hex_val (c : byte) : option Z :=
  let v := byte_val c in
  if is_digit c then Some (v - 48)
  else if (97 <=? v) && (v <=? 102) then Some (v - 87)
  else if (65 <=? v) && (v <=? 70) then Some (v - 55)
  else None.

(** ** UTF-8 *)

Definition in_range (lo hi : Z) (c : byte) : bool := (lo <=? byte_val c) && (byte_val c <=? hi).
Definition is_cont (c : byte) : bool := in_range 128 191 c.

(** The length of the valid multi-byte sequence that starts the text, or 0:
    [utf8.DecodeRune] returning [RuneError] of width 1. *)
Definition rune_len (s : bytes) : nat :=
  match s with
  | a :: b :: s2 =>
      if in_range 194 223 a then (if is_cont b then 2%nat else 0%nat)
      else match s2 with
      | c :: s3 =>
          if in_range 224 239 a then
            (if in_range (if byte_val a =? 224 then 160 else 128) (if byte_val a =? 237 then 159 else 191) b
                && is_cont c then 3%nat else 0%nat)
          else match s3 with
          | d :: _ =>
              if in_range 240 244 a then
                (if in_range (if byte_val a =? 240 then 144 else 128) (if byte_val a =? 244 then 143 else 191) b
                    && is_cont c && is_cont d then 4%nat else 0%nat)
              else 0%nat
          | [] => 0%nat
          end
      | [] => 0%nat
      end
  | _ => 0%nat
  end.

(** [utf8.EncodeRune] on a code point that is not a surrogate. *)
Definition encode_rune (r : Z) : bytes :=
  if r <? 128 then [byte_of_Z r]
  else if r <? 2048 then [byte_of_Z (192 + r / 64); byte_of_Z (128 + r mod 64)]
  else if r <? 65536 then
    [byte_of_Z (224 + r / 4096); byte_of_Z (128 + (r / 64) mod 64); byte_of_Z (128 + r mod 64)]
  else [byte_of_Z (240 + r / 262144); byte_of_Z (128 + (r / 4096) mod 64);
        byte_of_Z (128 + (r / 64) mod 64); byte_of_Z (128 + r mod 64)].
Definition replacement : bytes := [Byte.xef; Byte.xbf; Byte.xbd].

(** ** Strings *)

Definition hex4 (s : bytes) : option (Z * bytes) :=
  match s with
  | a :: b :: c :: d :: r =>
      match hex_val a, hex_val b, hex_val c, hex_val d with
      | Some x, Some y, Some z, Some w => Some (x * 4096 + y * 256 + z * 16 + w, r)
      | _, _, _, _ => None
      end
  | _ => None
  end.

(** The rune of a [\u] escape, after [\u]; a surrogate pair takes both escapes. *)
Definition unicode_escape (s : bytes) : option (bytes * bytes) :=
  match hex4 s with
  | None => None
  | Some (r1, rest) =>
      if (55296 <=? r1) && (r1 <? 57344) then
        let pair :=
          match rest with
          | b :: u :: rest' =>
              if bool_decide (b = backslash) && bool_decide (u = "u"%byte) then hex4 rest' else None
          | _ => None
          end in
        match pair with
        | Some (r2, rest2) =>
            if (r1 <? 56320) && (56320 <=? r2) && (r2 <? 57344)
            then Some (encode_rune ((r1 - 55296) * 1024 + (r2 - 56320) + 65536), rest2)
            else Some (replacement, rest)
        | None => Some (replacement, rest)
        end
      else Some (encode_rune r1, rest)
  end.

Definition escape (c : byte) (s : bytes) : option (bytes * bytes) :=
  if bool_decide (c = quote) then Some ([quote], s)
  else if bool_decide (c = backslash) then Some ([backslash], s)
  else if bool_decide (c = "/"%byte) then Some (["/"%byte], s)
  else if bool_decide (c = "b"%byte) then Some ([Byte.x08], s)
  else if bool_decide (c = "f"%byte) then Some ([Byte.x0c], s)
  else if bool_decide (c = "n"%byte) then Some ([Byte.x0a], s)
  else if bool_decide (c = "r"%byte) then Some ([Byte.x0d], s)
  else if bool_decide (c = "t"%byte) then Some ([Byte.x09], s)
  else if bool_decide (c = "u"%byte) then unicode_escape s
  else None.

(** One element of a string, after the opening quote: [None] is an error,
    [inl rest] the closing quote, [inr (out, rest)] the decoded bytes. *)
Definition string_step (s : bytes) : option (bytes + bytes * bytes) :=
  match s with
  | [] => None
  | c :: r =>
      if bool_decide (c = quote) then Some (inl r)
      else if bool_decide (c = backslash) then
        match r with
        | [] => None
        | e :: r' => match escape e r' with Some o => Some (inr o) | None => None end
        end
      else if byte_val c <? 32 then None
      else if byte_val c <? 128 then Some (inr ([c], r))
      else match rune_len s with
           | O => Some (inr (replacement, r))
           | n => Some (inr (take n s, drop n s))
           end
  end.
Fixpoint parse_string (fuel : nat) (s : bytes) : option (bytes * bytes) :=
  match fuel with
  | O => None
  | S f =>
      match string_step s with
      | None => None
      | Some (inl r) => Some ([], r)
      | Some (inr (out, r)) =>
          match parse_string f r with
          | Some (t, r') => Some (out ++ t, r')
          | None => None
          end
      end
  end.

(** ** Numbers *)

Fixpoint take_digits (s : bytes) : bytes * bytes :=
  match s with
  | c :: s' => if is_digit c then let '(d, r) := take_digits s' in (c :: d, r) else ([], s)
  | [] => ([], [])
  end.
Definition take_char (p : byte -> bool) (s : bytes) : bytes * bytes :=
  match s with
  | c :: s' => if p c then ([c], s') else ([], s)
  | [] => ([], [])
  end.

(** The parts of a number literal: sign, integer, fraction, exponent sign and
    exponent digits, and the literal itself. *)
Record numlit := MkNumlit {
  nl_neg : bool; nl_int : bytes; nl_frac : bytes; nl_exp_neg : bool; nl_exp : bytes
}.
Definition int_part (s : bytes) : bytes * bytes :=
  match s with
  | c :: s' => if bool_decide (c = "0"%byte) then ([c], s') else take_digits s
  | [] => ([], [])
  end.
(** The digits, the text and the rest. *)
Definition frac_part (s : bytes) : option (bytes * bytes * bytes) :=
  match s with
  | c :: s' => if bool_decide (c = "."%byte) then
                 match take_digits s' with
                 | ([], _) => None
                 | (d, r) => Some (d, c :: d, r)
                 end
               else Some ([], [], s)
  | [] => Some ([], [], s)
  end.
Definition exp_part (s : bytes) : option (bool * bytes * bytes * bytes) :=
  match s with
  | c :: s' =>
      if bool_decide (c = "e"%byte) || bool_decide (c = "E"%byte) then
        let '(sg, s1) := take_char (fun c => bool_decide (c = "+"%byte) || bool_decide (c = "-"%byte)) s' in
        match take_digits s1 with
        | ([], _) => None
        | (d, r) => Some (bool_decide (sg = ["-"%byte]), d, c :: sg ++ d, r)
        end
      else Some (false, [], [], s)
  | [] => Some (false, [], [], s)
  end.
Definition parse_number (s : bytes) : option (numlit * bytes * bytes) :=
  let '(sign, s1) := take_char (fun c => bool_decide (c = "-"%byte)) s in
  match int_part s1 with
  | ([], _) => None
  | (ip, s2) =>
      match frac_part s2 with
      | None => None
      | Some (fp, ftxt, s3) =>
          match exp_part s3 with
          | None => None
          | Some (en, ed, etxt, s4) =>
              Some (MkNumlit (negb (bool_decide (sign = []))) ip fp en ed, sign ++ ip ++ ftxt ++ etxt, s4)
          end
      end
  end.

Definition digits_val (d : bytes) : Z := fold_left (fun a c => a * 10 + (byte_val c - 48)) d 0.

(** [strconv.ParseFloat] does not overflow: the value rounds below [2^1024]. *)
Definition float_ok (lit : bytes) : bool :=
  match parse_number lit with
  | Some (nl, _, _) =>
      let m := digits_val (nl_int nl ++ nl_frac nl) in
      let e := (if nl_exp_neg nl then - digits_val (nl_exp nl) else digits_val (nl_exp nl)) - blen (nl_frac nl) in
      let top := (2 ^ 54 - 1) * 2 ^ 970 in
      (m =? 0) || (if e <? 0 then m <? top * 10 ^ (- e) else m * 10 ^ e <? top)
  | None => false
  end.

(** [strconv.ParseUint(lit, 10, bits)]. *)
Definition parse_uint (bits : Z) (lit : bytes) : option Z :=
  if forallb is_digit lit && negb (bool_decide (lit = [])) && (digits_val lit <? 2 ^ bits)
  then Some (digits_val lit) else None.

(** ** The parser *)

Definition maxNestingDepth : Z := 10000.

Fixpoint strip (p s : bytes) : option bytes :=
  match p, s with
  | [], _ => Some s
  | a :: p', b :: s' => if bool_decide (a = b) then strip p' s' else None
  | _ :: _, [] => None
  end.

Fixpoint parse_value (fuel : nat) (depth : Z) (s : bytes) {struct fuel} : option (json * bytes) :=
  match fuel with
  | O => None
  | S f =>
      match skip_ws s with
      | [] => None
      | c :: r =>
          if bool_decide (c = "{"%byte) then
            if maxNestingDepth <=? depth then None
            else match strip ["}"%byte] (skip_ws r) with
                 | Some r' => Some (JObj [], r')
                 | None => match parse_members f (depth + 1) r with
                           | Some (l, r') => Some (JObj l, r')
                           | None => None
                           end
                 end
          else if bool_decide (c = "["%byte) then
            if maxNestingDepth <=? depth then None
            else match strip ["]"%byte] (skip_ws r) with
                 | Some r' => Some (JArr [], r')
                 | None => match parse_elems f (depth + 1) r with
                           | Some (l, r') => Some (JArr l, r')
                           | None => None
                           end
                 end
          else if bool_decide (c = quote) then
            match parse_string (S (length r)) r with
            | Some (t, r') => Some (JStr t, r')
            | None => None
            end
          else if bool_decide (c = "t"%byte) then
            match strip (str "rue") r with Some r' => Some (JBool true, r') | None => None end
          else if bool_decide (c = "f"%byte) then
            match strip (str "alse") r with Some r' => Some (JBool false, r') | None => None end
          else if bool_decide (c = "n"%byte) then
            match strip (str "ull") r with Some r' => Some (JNull, r') | None => None end
          else match parse_number (c :: r) with
               | Some (_, lit, r') => Some (JNum lit, r')
               | None => None
               end
      end
  end
with parse_elems (fuel : nat) (depth : Z) (s : bytes) {struct fuel} : option (list json * bytes) :=
  match fuel with
  | O => None
  | S f =>
      match parse_value f depth s with
      | None => None
      | Some (v, r) =>
          match skip_ws r with
          | c :: r' =>
              if bool_decide (c = ","%byte) then
                match parse_elems f depth r' with
                | Some (l, r2) => Some (v :: l, r2)
                | None => None
                end
              else if bool_decide (c = "]"%byte) then Some ([v], r')
              else None
          | [] => None
          end
      end
  end
with parse_members (fuel : nat) (depth : Z) (s : bytes) {struct fuel} : option (list (bytes * json) * bytes) :=
  match fuel with
  | O => None
  | S f =>
      match strip [quote] (skip_ws s) with
      | None => None
      | Some r0 =>
          match parse_string (S (length r0)) r0 with
          | None => None
          | Some (k, r1) =>
              match strip [":"%byte] (skip_ws r1) with
              | None => None
              | Some r2 =>
                  match parse_value f depth r2 with
                  | None => None
                  | Some (v, r) =>
                      match skip_ws r with
                      | c :: r' =>
                          if bool_decide (c = ","%byte) then
                            match parse_members f depth r' with
                            | Some (l, r3) => Some ((k, v) :: l, r3)
                            | None => None
                            end
                          else if bool_decide (c = "}"%byte) then Some ([(k, v)], r')
                          else None
                      | [] => None
                      end
                  end
              end
          end
      end
  end.

(** A whole text: one value and white space. *)
Definition json_fuel (s : bytes) : nat := (2 * length s + 2)%nat.
Definition json_parse (s : bytes) : option json :=
  match parse_value (json_fuel s) 0 s with
  | Some (v, r) => match skip_ws r with [] => Some v | _ => None end
  | None => None
  end.

(** ** Decoding into Go types *)

Fixpoint nums_ok (v : json) : bool :=
  match v with
  | JNum lit => float_ok lit
  | JArr l => forallb nums_ok l
  | JObj l => forallb (fun kv => nums_ok kv.2) l
  | _ => true
  end.

(** Into a [json.RawMessage] (any valid text), an [interface{}] and a
    [map[string]interface{}]. *)
Definition json_valid (s : bytes) : bool := match json_parse s with Some _ => true | None => false end.
Definition Unmarshal_any (s : bytes) : option json :=
  match json_parse s with
  | Some v => if nums_ok v then Some v else None
  | None => None
  end.
Definition Unmarshal_map (s : bytes) : bool :=
  match Unmarshal_any s with Some (JObj _) | Some JNull => true | _ => false end.

(** A [null] leaves the field as it is. *)
Definition dec_bool (cur : bool) (v : json) : option bool :=
  match v with JBool b => Some b | JNull => Some cur | _ => None end.
Definition dec_string (cur : bytes) (v : json) : option bytes :=
  match v with JStr s => Some s | JNull => Some cur | _ => None end.
Definition dec_uint (bits : Z) (cur : Z) (v : json) : option Z :=
  match v with JNum lit => parse_uint bits lit | JNull => Some cur | _ => None end.

(** *** Base64: [base64.StdEncoding], which skips line ends *)

Definition b64_val (c : byte) : option Z :=
  let v := byte_val c in
  if (65 <=? v) && (v <=? 90) then Some (v - 65)
  else if (97 <=? v) && (v <=? 122) then Some (v - 71)
  else if is_digit c then Some (v + 4)
  else if v =? 43 then Some 62
  else if v =? 47 then Some 63
  else None.
Definition is_pad (c : byte) : bool := bool_decide (c = "="%byte).
Definition is_eol (c : byte) : bool := (byte_val c =? 10) || (byte_val c =? 13).

Fixpoint b64_quads (s : bytes) : option bytes :=
  match s with
  | [] => Some []
  | a :: b :: c :: d :: s' =>
      match b64_val a, b64_val b with
      | Some x, Some y =>
          if is_pad c then
            if is_pad d && bool_decide (s' = []) then Some [byte_of_Z (x * 4 + y / 16)] else None
          else match b64_val c with
               | Some z =>
                   if is_pad d then
                     if bool_decide (s' = []) then
                       Some [byte_of_Z (x * 4 + y / 16); byte_of_Z (y * 16 + z / 4)]
                     else None
                   else match b64_val d, b64_quads s' with
                        | Some w, Some t =>
                            Some (byte_of_Z (x * 4 + y / 16) :: byte_of_Z (y * 16 + z / 4)
                                  :: byte_of_Z (z * 64 + w) :: t)
                        | _, _ => None
                        end
               | None => None
               end
      | _, _ => None
      end
  | _ => None
  end.
Definition b64_decode (s : bytes) : option bytes := b64_quads (filter (fun c => is_eol c = false) s).

(** A [[]byte]: a base64 string, or an array of numbers. *)
Definition dec_u8 (v : json) : option byte := byte_of_Z <$> dec_uint 8 0 v.
Fixpoint dec_all {A : Type} (dec : json -> option A) (l : list json) : option (list A) :=
  match l with
  | [] => Some []
  | v :: l' => match dec v, dec_all dec l' with
               | Some a, Some t => Some (a :: t)
               | _, _ => None
               end
  end.
Definition dec_bytes (v : json) : option bytes :=
  match v with
  | JNull => Some []
  | JStr s => b64_decode s
  | JArr l => dec_all dec_u8 l
  | _ => None
  end.
(** A slice of [A]. *)
Definition dec_slice {A : Type} (dec : json -> option A) (v : json) : option (list A) :=
  match v with
  | JNull => Some []
  | JArr l => dec_all dec l
  | _ => None
  end.

(** *** Structs: a key names a field exactly or up to case *)

Fixpoint fold_name (s : bytes) : bytes :=
  match s with
  | [] => []
  | a :: s' =>
      if (97 <=? byte_val a) && (byte_val a <=? 122) then byte_of_Z (byte_val a - 32) :: fold_name s'
      else match s' with
           | b :: s2 =>
               if bool_decide (a = Byte.xc5) && bool_decide (b = Byte.xbf) then "S"%byte :: fold_name s2
               else match s2 with
                    | c :: s3 =>
                        if bool_decide (a = Byte.xe2) && bool_decide (b = Byte.x84) && bool_decide (c = Byte.xaa)
                        then "K"%byte :: fold_name s3
                        else a :: fold_name s'
                    | [] => a :: fold_name s'
                    end
           | [] => [a]
           end
  end.
Definition names (field key : bytes) : bool := bytes_eqb (fold_name key) (fold_name field).

(** The members that name the field are decoded one after the other. *)
Fixpoint dec_field {A : Type} (dec : A -> json -> option A) (field : bytes) (cur : A)
    (l : list (bytes * json)) : option A :=
  match l with
  | [] => Some cur
  | (k, v) :: l' =>
      if names field k then
        match dec cur v with
        | Some a => dec_field dec field a l'
        | None => None
        end
      else dec_field dec field cur l'
  end.
Definition members (v : json) : option (list (bytes * json)) :=
  match v with JObj l => Some l | JNull => Some [] | _ => None end.

(** ** Induction on values *)

Section json_induction.
Context (P : json -> Prop) (Hnull : P JNull) (Hbool : forall b, P (JBool b)) (Hnum : forall l, P (JNum l))
  (Hstr : forall s, P (JStr s)) (Harr : forall l, Forall P l -> P (JArr l))
  (Hobj : forall l, Forall (fun kv => P kv.2) l -> P (JObj l)).
Fixpoint json_rect_nested (v : json) : P v :=
  match v with
  | JNull => Hnull
  | JBool b => Hbool b
  | JNum l => Hnum l
  | JStr s => Hstr s
  | JArr l =>
      Harr l ((fix go (l : list json) : Forall P l :=
                 match l with
                 | [] => Forall_nil_2 _
                 | v :: l' => Forall_cons_2 P v l' (json_rect_nested v) (go l')
                 end) l)
  | JObj l =>
      Hobj l ((fix go (l : list (bytes * json)) : Forall (fun kv => P kv.2) l :=
                 match l with
                 | [] => Forall_nil_2 _
                 | kv :: l' => Forall_cons_2 (fun kv => P kv.2) kv l' (json_rect_nested kv.2) (go l')
                 end) l)
  end.
End json_induction.

(** ** Sizes: every step consumes text *)

Lemma skip_ws_length s : (length (skip_ws s) <= length s)%nat.
Proof. induction s as [|c s IH]; cbn; [done|]. destruct (is_ws c); cbn in *; lia. Qed.

Lemma strip_length p s r : strip p s = Some r -> (length s = length p + length r)%nat.
Proof.
  revert s. induction p as [|a p IH]; intros s H; cbn in H; [by injection H as ->|].
  destruct s as [|b s]; [done|]. destruct (bool_decide _); [|done]. apply IH in H. cbn. lia.
Qed.

Lemma hex4_length s z r : hex4 s = Some (z, r) -> (length s = 4 + length r)%nat.
Proof.
  unfold hex4. destruct s as [|a [|b [|c [|d s]]]]; try done.
  destruct (hex_val a), (hex_val b), (hex_val c), (hex_val d); try done. by intros [= _ <-].
Qed.

Lemma encode_rune_length r : (length (encode_rune r) <= 4)%nat.
Proof. unfold encode_rune. repeat case_match; cbn; lia. Qed.

Lemma unicode_escape_length s out r :
  unicode_escape s = Some (out, r) -> (length out + length r <= length s /\ length r < length s)%nat.
Proof.
  unfold unicode_escape. destruct (hex4 s) as [[r1 rest]|] eqn:E1; [|done]. apply hex4_length in E1.
  pose proof (encode_rune_length r1) as Hr. destruct (_ && _).
  - destruct rest as [|b [|u rest']]; try (intros [= <- <-]; cbn; lia).
    destruct (bool_decide (b = backslash) && _); [|intros [= <- <-]; cbn in *; lia].
    destruct (hex4 rest') as [[r2 rest2]|] eqn:E2; [|intros [= <- <-]; cbn in *; lia].
    apply hex4_length in E2. cbn [length] in *. destruct (_ && _); intros [= <- <-]; [|cbn; lia].
    match goal with |- context [encode_rune ?z] => pose proof (encode_rune_length z) end. cbn [length] in *. lia.
  - intros [= <- <-]. lia.
Qed.

Lemma escape_length c s out r :
  escape c s = Some (out, r) -> (length out + length r <= S (length s) /\ length r <= length s)%nat.
Proof.
  unfold escape. repeat (destruct (bool_decide _); [intros [= <- <-]; cbn; lia|]).
  destruct (bool_decide _); [|done]. intros H. apply unicode_escape_length in H. lia.
Qed.

(** The length of a string of ASCII characters, else 0. *)
Definition is_ascii (c : byte) : bool := byte_val c <? 128.
Definition ascii_len (s : bytes) : nat := if forallb is_ascii s then length s else 0%nat.

Lemma ascii_len_app a b : (ascii_len (a ++ b) <= ascii_len a + ascii_len b)%nat.
Proof.
  unfold ascii_len. rewrite forallb_app, length_app. destruct (forallb _ a), (forallb _ b); cbn; lia.
Qed.
Lemma ascii_len_le s : (ascii_len s <= length s)%nat.
Proof. unfold ascii_len. destruct (forallb _ s); lia. Qed.

Lemma rune_len_length s : (rune_len s <= length s)%nat.
Proof.
  unfold rune_len. destruct s as [|a [|b [|c [|d s]]]]; repeat case_match; cbn; lia.
Qed.

Lemma string_step_length s :
  match string_step s with
  | None => True
  | Some (inl r) => (length r < length s)%nat
  | Some (inr (out, r)) => (length r < length s /\ ascii_len out + length r <= length s)%nat
  end.
Proof.
  unfold string_step. destruct s as [|c r]; [done|]. cbn [length].
  destruct (bool_decide _); [lia|]. destruct (bool_decide _).
  - destruct r as [|e r']; [done|]. destruct (escape e r') as [[out r]|] eqn:E; [|done].
    apply escape_length in E. pose proof (ascii_len_le out). cbn [length]. lia.
  - destruct (_ <? 32); [done|]. destruct (byte_val c <? 128) eqn:Ec.
    { pose proof (ascii_len_le [c]). cbn [length] in *. lia. }
    pose proof (rune_len_length (c :: r)) as Hl. destruct (rune_len (c :: r)) as [|n] eqn:En.
    + change (ascii_len replacement) with 0%nat. lia.
    + pose proof (ascii_len_le (take (S n) (c :: r))) as Ha. rewrite length_take in Ha.
      rewrite length_drop. cbn [length] in *. lia.
Qed.

Lemma parse_string_length f s t r :
  parse_string f s = Some (t, r) -> (ascii_len t + length r < length s)%nat.
Proof.
  revert s t r. induction f as [|f IH]; intros s t r H; cbn in H; [done|].
  pose proof (string_step_length s) as Hs. destruct (string_step s) as [[r0|[out r0]]|]; [| |done].
  - injection H as <- <-. cbn. lia.
  - destruct (parse_string f r0) as [[t' r']|] eqn:E; [|done]. injection H as <- <-.
    apply IH in E. pose proof (ascii_len_app out t'). lia.
Qed.

Lemma parse_string_fuel f g s :
  (length s < f)%nat -> (length s < g)%nat -> parse_string f s = parse_string g s.
Proof.
  revert g s. induction f as [|f IH]; intros [|g] s Hf Hg; try lia. cbn [parse_string].
  pose proof (string_step_length s) as Hs. destruct (string_step s) as [[r0|[out r0]]|]; [done| |done].
  rewrite (IH g) by lia. done.
Qed.

Lemma take_digits_length s d r : take_digits s = (d, r) -> (length s = length d + length r)%nat.
Proof.
  revert d r. induction s as [|c s IH]; intros d r H; cbn in H; [by injection H as <- <-|].
  destruct (is_digit c); [|by injection H as <- <-].
  destruct (take_digits s) as [d' r'] eqn:E. injection H as <- <-. cbn. by rewrite (IH d' r').
Qed.
Lemma take_char_length p s d r : take_char p s = (d, r) -> (length s = length d + length r)%nat.
Proof. unfold take_char. destruct s as [|c s]; [by intros [= <- <-]|]. destruct (p c); by intros [= <- <-]. Qed.

Lemma int_part_length s d r : int_part s = (d, r) -> (length s = length d + length r)%nat.
Proof.
  unfold int_part. destruct s as [|c s']; [by intros [= <- <-]|]. destruct (bool_decide _); [by intros [= <- <-]|].
  apply take_digits_length.
Qed.
Lemma frac_part_length s d t r : frac_part s = Some (d, t, r) -> (length r <= length s)%nat.
Proof.
  unfold frac_part. destruct s as [|c s']; [by intros [= <- <- <-]|].
  destruct (bool_decide _); [|by intros [= <- <- <-]].
  destruct (take_digits s') as [[|d0 d'] r0] eqn:Ed; [done|]. apply take_digits_length in Ed.
  intros [= <- <- <-]. cbn [length] in *. lia.
Qed.
Lemma exp_part_length s n d t r : exp_part s = Some (n, d, t, r) -> (length r <= length s)%nat.
Proof.
  unfold exp_part. destruct s as [|c s']; [by intros [= <- <- <- <-]|].
  destruct (_ || _); [|by intros [= <- <- <- <-]].
  destruct (take_char _ s') as [sg s4] eqn:Ec. apply take_char_length in Ec.
  destruct (take_digits s4) as [[|d0 d'] r0] eqn:Ed; [done|]. apply take_digits_length in Ed.
  intros [= <- <- <- <-]. cbn [length] in *. lia.
Qed.
(** The integer part consumes at least one digit. *)
Lemma parse_number_length s nl lit r : parse_number s = Some (nl, lit, r) -> (length r < length s)%nat.
Proof.
  unfold parse_number. destruct (take_char _ s) as [sign s1] eqn:E1. apply take_char_length in E1.
  destruct (int_part s1) as [[|c0 ip] s2] eqn:E2; [done|]. apply int_part_length in E2.
  destruct (frac_part s2) as [[[fp ftxt] s3]|] eqn:E3; [|done]. apply frac_part_length in E3.
  destruct (exp_part s3) as [[[[en ed] etxt] s4]|] eqn:E4; [|done]. apply exp_part_length in E4.
  intros [= _ _ <-]. cbn [length] in *. lia.
Qed.

(** ** What a value holds is bounded by its text *)

Fixpoint jsize (v : json) : nat :=
  match v with
  | JStr s => (2 + ascii_len s)%nat
  | JArr l => (2 + sum_list (map jsize l))%nat
  | JObj l => (2 + sum_list (map (fun kv => jsize kv.2) l))%nat
  | _ => 1%nat
  end.

Definition value_bound (f : nat) : Prop :=
  forall d s v r, parse_value f d s = Some (v, r) -> (jsize v + length r <= length s)%nat.
Definition elems_bound (f : nat) : Prop :=
  forall d s l r, parse_elems f d s = Some (l, r) -> (sum_list (map jsize l) + length r < length s)%nat.
Definition members_bound (f : nat) : Prop :=
  forall d s l r, parse_members f d s = Some (l, r) ->
    (sum_list (map (fun kv => jsize kv.2) l) + length r < length s)%nat.

Lemma value_size f : elems_bound f -> members_bound f -> value_bound (S f).
Proof.
  intros IHe IHm d s v r H. cbn [parse_value] in H. pose proof (skip_ws_length s) as Hw.
  destruct (skip_ws s) as [|c s'] eqn:Es; [done|]. cbn [length] in Hw. pose proof (skip_ws_length s') as Hw'.
  destruct (bool_decide _); [|destruct (bool_decide _); [|destruct (bool_decide _)]].
  - destruct (_ <=? _); [done|]. destruct (strip _ _) as [r'|] eqn:E.
    { apply strip_length in E. injection H as <- <-. cbn in *. lia. }
    destruct (parse_members f _ s') as [[l r']|] eqn:Em; [|done]. injection H as <- <-.
    apply IHm in Em. cbn [jsize]. lia.
  - destruct (_ <=? _); [done|]. destruct (strip _ _) as [r'|] eqn:E.
    { apply strip_length in E. injection H as <- <-. cbn in *. lia. }
    destruct (parse_elems f _ s') as [[l r']|] eqn:Em; [|done]. injection H as <- <-.
    apply IHe in Em. cbn [jsize]. lia.
  - destruct (parse_string _ s') as [[t r']|] eqn:E; [|done]. injection H as <- <-.
    apply parse_string_length in E. cbn [jsize]. lia.
  - do 3 (destruct (bool_decide _);
      [destruct (strip _ s') as [r'|] eqn:E; [|done]; injection H as <- <-;
       apply strip_length in E; cbn in *; lia|]).
    destruct (parse_number (c :: s')) as [[[nl lit] r']|] eqn:E; [|done]. injection H as <- <-.
    apply parse_number_length in E. cbn [jsize length] in *. lia.
Qed.

Lemma elems_size f : value_bound f -> elems_bound f -> elems_bound (S f).
Proof.
  intros IHv IHe d s l r H. cbn [parse_elems] in H.
  destruct (parse_value f d s) as [[v r0]|] eqn:Ev; [|done]. apply IHv in Ev.
  pose proof (skip_ws_length r0) as Hw. destruct (skip_ws r0) as [|c r1]; [done|]. cbn [length] in Hw.
  destruct (bool_decide _); [|destruct (bool_decide _); [|done]].
  - destruct (parse_elems f d r1) as [[l' r2]|] eqn:Ee; [|done]. injection H as <- <-. apply IHe in Ee.
    cbn [map sum_list_with id]. lia.
  - injection H as <- <-. cbn [map sum_list_with id]. lia.
Qed.

Lemma members_size f : value_bound f -> members_bound f -> members_bound (S f).
Proof.
  intros IHv IHm d s l r H. cbn [parse_members] in H. pose proof (skip_ws_length s) as Hw.
  destruct (strip _ _) as [r0|] eqn:E0; [|done]. apply strip_length in E0.
  destruct (parse_string _ r0) as [[k r1]|] eqn:E1; [|done]. apply parse_string_length in E1.
  pose proof (skip_ws_length r1) as Hw1.
  destruct (strip _ (skip_ws r1)) as [r2|] eqn:E2; [|done]. apply strip_length in E2.
  destruct (parse_value f d r2) as [[v r3]|] eqn:Ev; [|done]. apply IHv in Ev.
  pose proof (skip_ws_length r3) as Hw3. destruct (skip_ws r3) as [|c r4]; [done|]. cbn [length] in *.
  destruct (bool_decide _); [|destruct (bool_decide _); [|done]].
  - destruct (parse_members f d r4) as [[l' r5]|] eqn:Em; [|done]. injection H as <- <-. apply IHm in Em.
    cbn [map sum_list_with snd id]. lia.
  - injection H as <- <-. cbn [map sum_list_with snd id]. lia.
Qed.

Lemma parse_size f : value_bound f /\ elems_bound f /\ members_bound f.
Proof.
  induction f as [|f (IHv & IHe & IHm)]; [by repeat split|].
  split; [by apply value_size|]. split; [by apply elems_size|by apply members_size].
Qed.

Lemma json_parse_size s v : json_parse s = Some v -> (jsize v <= length s)%nat.
Proof.
  unfold json_parse. destruct (parse_value _ 0 s) as [[v' r]|] eqn:E; [|done].
  apply parse_size in E. destruct (skip_ws r); [|done]. intros [= <-]. lia.
Qed.

(** ** The fuel is enough *)

Lemma parse_fuel f :
  (forall g d s, (2 * length s < f)%nat -> (2 * length s < g)%nat -> parse_value f d s = parse_value g d s) /\
  (forall g d s, (2 * length s + 1 < f)%nat -> (2 * length s + 1 < g)%nat ->
     parse_elems f d s = parse_elems g d s) /\
  (forall g d s, (2 * length s + 1 < f)%nat -> (2 * length s + 1 < g)%nat ->
     parse_members f d s = parse_members g d s).
Proof.
  induction f as [|f (IHv & IHe & IHm)]; [repeat split; intros; lia|].
  split; [|split]; intros [|g] d s Hf Hg; try lia.
  - cbn [parse_value]. pose proof (skip_ws_length s) as Hw. destruct (skip_ws s) as [|c s']; [done|].
    cbn [length] in Hw. rewrite (IHm g (d + 1) s'), (IHe g (d + 1) s') by lia. done.
  - cbn [parse_elems]. rewrite (IHv g d s) by lia.
    destruct (parse_value g d s) as [[v r0]|] eqn:Ev; [|done]. apply parse_size in Ev.
    pose proof (skip_ws_length r0) as Hw. destruct (skip_ws r0) as [|c r1]; [done|]. cbn [length] in Hw.
    rewrite (IHe g d r1) by lia. done.
  - cbn [parse_members]. pose proof (skip_ws_length s) as Hw.
    destruct (strip _ _) as [r0|] eqn:E0; [|done]. apply strip_length in E0.
    destruct (parse_string _ r0) as [[k r1]|] eqn:E1; [|done]. apply parse_string_length in E1.
    pose proof (skip_ws_length r1) as Hw1.
    destruct (strip _ (skip_ws r1)) as [r2|] eqn:E2; [|done]. apply strip_length in E2.
    rewrite (IHv g d r2) by lia. destruct (parse_value g d r2) as [[v r3]|] eqn:Ev; [|done].
    apply parse_size in Ev. pose proof (skip_ws_length r3) as Hw3. destruct (skip_ws r3) as [|c r4]; [done|].
    cbn [length] in *. rewrite (IHm g d r4) by lia. done.
Qed.

(** Any larger fuel gives the same result: the parser fails only on the text. *)
Lemma json_fuel_enough f d s :
  (json_fuel s <= f)%nat -> parse_value f d s = parse_value (json_fuel s) d s.
Proof. unfold json_fuel. intros H. apply parse_fuel; lia. Qed.

(** ** Decoded bytes are shorter than their text *)

Lemma b64_val_ascii c z : b64_val c = Some z -> is_ascii c = true.
Proof.
  unfold b64_val, is_ascii, is_digit. intros H. apply Z.ltb_lt.
  repeat (case_match; zbool; try lia); done.
Qed.
Lemma is_pad_ascii c : is_pad c = true -> is_ascii c = true.
Proof. unfold is_pad. intros ->%bool_decide_eq_true. done. Qed.

Lemma b64_quads_ascii n s b :
  (length s <= n)%nat -> b64_quads s = Some b -> forallb is_ascii s = true /\ (length b <= length s)%nat.
Proof.
  revert s b. induction n as [|n IH]; intros s b Hn H.
  { destruct s; [|cbn in Hn; lia]. by injection H as <-. }
  destruct s as [|a [|b0 [|c [|d s]]]]; try done; [by injection H as <-|]. cbn [b64_quads] in H. cbn [length] in Hn.
  destruct (b64_val a) as [x|] eqn:Ea; [|done]. destruct (b64_val b0) as [y|] eqn:Eb; [|done].
  apply b64_val_ascii in Ea, Eb. cbn [forallb length]. rewrite Ea, Eb.
  destruct (is_pad c) eqn:Ec.
  { apply is_pad_ascii in Ec. destruct (is_pad d) eqn:Ed; [|done]. apply is_pad_ascii in Ed. rewrite Ec, Ed.
    cbn [andb] in H. destruct (bool_decide _) eqn:Es; [|done]. apply bool_decide_eq_true in Es. subst s.
    injection H as <-. cbn. split; [done|lia]. }
  destruct (b64_val c) as [z|] eqn:Ec'; [|done]. apply b64_val_ascii in Ec'. rewrite Ec'.
  destruct (is_pad d) eqn:Ed.
  { apply is_pad_ascii in Ed. rewrite Ed. destruct (bool_decide _) eqn:Es; [|done].
    apply bool_decide_eq_true in Es. subst s. injection H as <-. cbn. split; [done|lia]. }
  destruct (b64_val d) as [w|] eqn:Ed'; [|done]. apply b64_val_ascii in Ed'. rewrite Ed'.
  destruct (b64_quads s) as [t|] eqn:Et; [|done]. injection H as <-.
  destruct (IH s t) as [-> Hl]; [lia|done|]. cbn [length andb]. split; [done|lia].
Qed.

Lemma b64_decode_length s b : b64_decode s = Some b -> (length b <= ascii_len s)%nat.
Proof.
  unfold b64_decode. intros H. destruct (b64_quads_ascii _ _ _ (le_n _) H) as [Ha Hl].
  assert (Hs : forallb is_ascii s = true).
  { rewrite forallb_forall in *. intros c Hc. destruct (is_eol c) eqn:E.
    - unfold is_eol in E. unfold is_ascii. apply Z.ltb_lt. apply orb_prop in E as [E|E]; zbool; lia.
    - apply Ha. apply list_elem_of_In, list_elem_of_filter. split; [done|by apply list_elem_of_In]. }
  unfold ascii_len. rewrite Hs. pose proof (length_filter (fun c => is_eol c = false) s). lia.
Qed.

Lemma jsize_pos v : (1 <= jsize v)%nat.
Proof. destruct v; cbn; lia. Qed.

Lemma dec_all_length {A} (dec : json -> option A) l t :
  dec_all dec l = Some t -> length t = length l /\ (length l <= sum_list (map jsize l))%nat.
Proof.
  revert t. induction l as [|v l IH]; intros t H; cbn in H; [by injection H as <-|].
  destruct (dec v); [|done]. destruct (dec_all dec l) as [t'|]; [|done]. injection H as <-.
  destruct (IH t' eq_refl) as [Hl Hs]. pose proof (jsize_pos v). cbn. rewrite Hl. split; [done|lia].
Qed.

Lemma dec_bytes_size v b : dec_bytes v = Some b -> (length b < jsize v)%nat.
Proof.
  destruct v; cbn [dec_bytes jsize]; try done.
  - intros [= <-]. cbn. lia.
  - intros H%b64_decode_length. lia.
  - intros H. apply dec_all_length in H as [-> H]. lia.
Qed.

Lemma sum_list_elem {A} (f : A -> nat) l x : x ∈ l -> (f x <= sum_list (map f l))%nat.
Proof.
  induction l as [|y l IH]; intros Hx; [by apply elem_of_nil in Hx|]. cbn.
  apply elem_of_cons in Hx as [->|Hx]; [lia|]. apply IH in Hx. lia.
Qed.

(** ** Decimal: [strconv.FormatUint(z, 10)], [strconv.Itoa]

    Twenty digits are enough for a [uint64]. *)
Fixpoint format_digits (n : nat) (z : Z) (acc : bytes) : bytes :=
  match n with
  | O => acc
  | S n' =>
      let acc' := byte_of_Z (48 + z mod 10) :: acc in
      if z <? 10 then acc' else format_digits n' (z / 10) acc'
  end.
Definition FormatUint (z : Z) : bytes := format_digits 20 z [].

Lemma digit_val z : byte_val (byte_of_Z (48 + z mod 10)) = 48 + z mod 10.
Proof. rewrite byte_val_of_Z. pose proof (Z.mod_pos_bound z 10 ltac:(lia)). apply Z.mod_small. lia. Qed.
Lemma digit_is_digit z : is_digit (byte_of_Z (48 + z mod 10)) = true.
Proof.
  unfold is_digit. rewrite digit_val. pose proof (Z.mod_pos_bound z 10 ltac:(lia)).
  apply andb_true_intro. split; apply Z.leb_le; lia.
Qed.
Lemma digits_val_acc a d :
  fold_left (fun a c => a * 10 + (byte_val c - 48)) d a = a * 10 ^ Z.of_nat (length d) + digits_val d.
Proof.
  unfold digits_val. revert a. induction d as [|c d IH]; intros a; cbn [fold_left length]; [cbn; lia|].
  rewrite IH, (IH (0 * 10 + _)), Nat2Z.inj_succ, Z.pow_succ_r by lia. lia.
Qed.
Lemma format_digits_val n z acc :
  0 <= z < 10 ^ Z.of_nat n -> (n <> 0)%nat ->
  digits_val (format_digits n z acc) = z * 10 ^ Z.of_nat (length acc) + digits_val acc.
Proof.
  revert z acc. induction n as [|n IH]; intros z acc Hz Hn; [done|]. cbn [format_digits].
  pose proof (Z.div_mod z 10 ltac:(lia)) as Hd. pose proof (Z.mod_pos_bound z 10 ltac:(lia)) as Hm.
  rewrite Nat2Z.inj_succ, Z.pow_succ_r in Hz by lia.
  assert (Hc : digits_val (byte_of_Z (48 + z mod 10) :: acc) =
    (z mod 10) * 10 ^ Z.of_nat (length acc) + digits_val acc).
  { unfold digits_val at 1. cbn [fold_left]. rewrite digits_val_acc, digit_val. lia. }
  destruct (z <? 10) eqn:E; zbool.
  - rewrite Hc, Z.mod_small by lia. done.
  - destruct n as [|n]; [cbn in Hz; lia|]. rewrite IH; [|split; [apply Z.div_pos; lia|apply Z.div_lt_upper_bound; lia]|done].
    rewrite Hc. cbn [length]. rewrite Nat2Z.inj_succ, Z.pow_succ_r by lia. nia.
Qed.
Lemma format_digits_digits n z acc :
  forallb is_digit acc = true -> forallb is_digit (format_digits n z acc) = true.
Proof.
  revert z acc. induction n as [|n IH]; intros z acc Ha; cbn [format_digits]; [done|].
  assert (Hc : forallb is_digit (byte_of_Z (48 + z mod 10) :: acc) = true)
    by (cbn [forallb]; by rewrite digit_is_digit).
  destruct (z <? 10); [done|]. by apply IH.
Qed.

Lemma FormatUint_val z : is_u64 z -> digits_val (FormatUint z) = z.
Proof.
  unfold is_u64. intros Hz. unfold FormatUint. rewrite format_digits_val; [cbn; lia| |done].
  split; [lia|]. transitivity (2 ^ 64); [lia|]. vm_compute. done.
Qed.
Lemma FormatUint_digits z : forallb is_digit (FormatUint z) = true.
Proof. by apply format_digits_digits. Qed.
Lemma FormatUint_inj a b : is_u64 a -> is_u64 b -> FormatUint a = FormatUint b -> a = b.
Proof. intros Ha Hb E. rewrite <- (FormatUint_val a), <- (FormatUint_val b) by done. by rewrite E. Qed.
(** No digit is a separator. *)
Lemma FormatUint_notin z c : is_digit c = false -> c ∉ FormatUint z.
Proof.
  intros Hc Hi. apply list_elem_of_In in Hi. pose proof (FormatUint_digits z) as Hd.
  rewrite forallb_forall in Hd. rewrite (Hd c Hi) in Hc. done.
Qed.
