(* ===== verification/SaFilter.v ===== *)
(** * x/smart-account: the message filter

    [authenticator/message_filter.go]: a JSON pattern stored by the account and
    the comparison of a message's JSON with it. [isSuperset_matches] shows that
    the recursive comparison decides the relation [matches], [filter_order] that
    this relation is a preorder on patterns without numbers. Decimal parsing
    ([math.LegacyNewDecFromStr]) and the JSON form of a message are parameters. *)

From S2P Require Import Prelude Json.
Open Scope go_scope.

(** ** Go maps decoded from an object: the last value of a key *)

Fixpoint last_lookup {A : Type} (k : bytes) (l : list (bytes * A)) : option A :=
  match l with
  | [] => None
  | (k', v) :: l' =>
      match last_lookup k l' with
      | Some x => Some x
      | None => if bytes_eqb k' k then Some v else None
      end
  end.
(** The keys of the map, sorted. *)
Definition sorted_keys {A : Type} (l : list (bytes * A)) : list bytes :=
  merge_sort bytes_le (remove_dups (map fst l)).

(** ** The comparison *)

Inductive filter_err :=
| ExpectedMap | KeyMissing (key : bytes) | ExpectedSlice | MoreElements | NumbersDoNotMatch
| StringsDoNotMatch | ExpectedString | BooleansDoNotMatch | ExpectedNull | FloatsNotAllowed
| FirstJSON | SecondJSON | InvalidJSON | ResolveMsg.

(** [for _, val := range vv]: some value of the map has a float. *)
Fixpoint checkForFloats (v : json) : bool :=
  match v with
  | JObj l =>
      let vv := map (fun kv => (kv.1, checkForFloats kv.2)) l in
      existsb (fun key => default false (last_lookup key vv)) (sorted_keys vv)
  | JArr l => existsb checkForFloats l
  | JNum _ => true
  | _ => false
  end.
Definition containsFloats (data : bytes) : option bool :=
  match Unmarshal_any data with Some v => Some (checkForFloats v) | None => None end.

(** The loops of [isSuperset], over what the comparison of each value of the
    first structure answers on a value of the second. *)
Fixpoint superset_keys (keys : list bytes) (av : list (bytes * (json -> result filter_err unit)))
    (bv : list (bytes * json)) : result filter_err unit :=
  match keys with
  | [] => Ok tt
  | key :: keys' =>
      match last_lookup key av with
      | None => superset_keys keys' av bv
      | Some valA =>
          match last_lookup key bv with
          | None => Err (KeyMissing key)
          | Some valB => check! valA valB; superset_keys keys' av bv
          end
      end
  end.
Fixpoint superset_elems (av : list (json -> result filter_err unit)) (bv : list json) :
    result filter_err unit :=
  match av, bv with
  | valA :: av', valB :: bv' => check! valA valB; superset_elems av' bv'
  | _, _ => Ok tt
  end.

Section Filter.
Context (LegacyNewDecFromStr : bytes -> option Z).

(** Strings that both read as decimals are compared as decimals first. *)
Definition superset_string (av bv : bytes) : result filter_err unit :=
  check! match LegacyNewDecFromStr av with
         | Some decA => match LegacyNewDecFromStr bv with
                        | Some decB => guard (negb (decA =? decB)) NumbersDoNotMatch
                        | None => Ok tt
                        end
         | None => Ok tt
         end;
  guard (negb (bytes_eqb av bv)) StringsDoNotMatch.

Fixpoint isSuperset (a b : json) {struct a} : result filter_err unit :=
  match a with
  | JObj av =>
      match b with
      | JObj bv =>
          let av' := map (fun kv => (kv.1, isSuperset kv.2)) av in
          superset_keys (sorted_keys av') av' bv
      | _ => Err ExpectedMap
      end
  | JArr av =>
      match b with
      | JArr bv =>
          check! guard (Z.of_nat (length bv) <? Z.of_nat (length av)) MoreElements;
          superset_elems (map isSuperset av) bv
      | _ => Err ExpectedSlice
      end
  | JStr av => match b with JStr bv => superset_string av bv | _ => Err ExpectedString end
  | JBool av => match b with
                | JBool bv => guard (negb (Bool.eqb av bv)) BooleansDoNotMatch
                | _ => Err BooleansDoNotMatch
                end
  | JNull => match b with JNull => Ok tt | _ => Err ExpectedNull end
  | JNum _ => Err FloatsNotAllowed
  end.

Definition IsJsonSuperset (a b : bytes) : result filter_err unit :=
  match Unmarshal_any a with
  | None => Err FirstJSON
  | Some av => match Unmarshal_any b with
               | None => Err SecondJSON
               | Some bv => isSuperset av bv
               end
  end.

(** ** The authenticator: its pattern is the configuration itself *)

Definition filter_Initialize (config : bytes) : result filter_err bytes :=
  check! guard (negb (json_valid config)) InvalidJSON; Ok config.
(** The message as JSON, [None] when it does not resolve, decode or encode. *)
Definition filter_Authenticate (pattern : bytes) (msg_json : option bytes) : result filter_err unit :=
  match msg_json with
  | None => Err ResolveMsg
  | Some jsonBz => IsJsonSuperset pattern jsonBz
  end.
Definition filter_OnAuthenticatorAdded (config : bytes) : result filter_err unit :=
  check! guard (negb (json_valid config)) InvalidJSON;
  match containsFloats config with
  | None => Err InvalidJSON
  | Some hasFloats => guard hasFloats InvalidJSON
  end.
End Filter.

(** ** What the comparison decides *)

(** The pattern [a] against the value [b]: every key of a pattern is there and
    matches, a list matches a prefix, strings and booleans are equal, and a
    number matches nothing. *)
Fixpoint matches (a b : json) {struct a} : Prop :=
  match a, b with
  | JObj av, JObj bv =>
      let av' := map (fun kv => (kv.1, matches kv.2)) av in
      forall k m, last_lookup k av' = Some m -> exists y, last_lookup k bv = Some y /\ m y
  | JArr av, JArr bv =>
      (length av <= length bv)%nat /\
      forall i m y, map matches av !! i = Some m -> bv !! i = Some y -> m y
  | JStr s, JStr t => s = t
  | JBool x, JBool y => x = y
  | JNull, JNull => True
  | _, _ => False
  end.

Lemma last_lookup_map {A B} (f : A -> B) k (l : list (bytes * A)) :
  last_lookup k (map (fun kv => (kv.1, f kv.2)) l) = f <$> last_lookup k l.
Proof.
  induction l as [|[k' v] l IH]; cbn; [done|]. rewrite IH. destruct (last_lookup k l); cbn; [done|].
  by destruct (bytes_eqb k' k).
Qed.
Lemma last_lookup_elem {A} k (l : list (bytes * A)) v : last_lookup k l = Some v -> (k, v) ∈ l.
Proof.
  induction l as [|[k' v'] l IH]; cbn; [done|]. destruct (last_lookup k l).
  - intros [= ->]. right. by apply IH.
  - destruct (bytes_eqb k' k) eqn:E; [|done]. apply bytes_eqb_eq in E as ->. intros [= ->]. left.
Qed.
Lemma elem_of_sorted_keys {A} k (l : list (bytes * A)) :
  k ∈ sorted_keys l <-> is_Some (last_lookup k l).
Proof.
  unfold sorted_keys. rewrite merge_sort_Permutation, elem_of_remove_dups.
  induction l as [|[k' v] l IH]; cbn [map last_lookup fst].
  - split; [by intros ?%elem_of_nil|by intros [? ?]].
  - rewrite elem_of_cons, IH. destruct (last_lookup k l) as [x|].
    + split; [eauto|]. intros _. right. eauto.
    + destruct (bytes_eqb k' k) eqn:E.
      * apply bytes_eqb_eq in E as ->. split; [eauto|by left].
      * apply bytes_eqb_neq in E. split; [intros [->|[? ?]]; done|by intros [? ?]].
Qed.

(** The objects clause of [matches] on the values themselves. *)
Lemma matches_obj av bv :
  matches (JObj av) (JObj bv) <->
  forall k x, last_lookup k av = Some x -> exists y, last_lookup k bv = Some y /\ matches x y.
Proof.
  cbn [matches]. setoid_rewrite last_lookup_map. split.
  - intros H k x Hx. apply (H k (matches x)). by rewrite Hx.
  - intros H k m Hm. destruct (last_lookup k av) as [x|] eqn:E; [|done]. injection Hm as <-. by apply H.
Qed.
Lemma matches_arr av bv :
  matches (JArr av) (JArr bv) <->
  (length av <= length bv)%nat /\ forall i x y, av !! i = Some x -> bv !! i = Some y -> matches x y.
Proof.
  cbn [matches]. split; intros [Hl H]; (split; [done|]).
  - intros i x y Hx Hy. apply (H i (matches x) y); [|done].
    change (map matches av) with (matches <$> av). by rewrite list_lookup_fmap, Hx.
  - intros i m y Hm Hy. change (map matches av) with (matches <$> av) in Hm.
    rewrite list_lookup_fmap in Hm. destruct (av !! i) as [x|] eqn:E; [|done]. injection Hm as <-. by apply (H i).
Qed.

Lemma superset_keys_ok keys av bv :
  superset_keys keys av bv = Ok tt <->
  forall k f, k ∈ keys -> last_lookup k av = Some f -> exists y, last_lookup k bv = Some y /\ f y = Ok tt.
Proof.
  induction keys as [|k keys IH]; cbn [superset_keys].
  { split; [|done]. intros _ k f Hk. by apply elem_of_nil in Hk. }
  destruct (last_lookup k av) as [f|] eqn:Ea; [destruct (last_lookup k bv) as [y|] eqn:Eb|].
  - unfold rbind. destruct (f y) as [[]|e] eqn:Ef.
    + rewrite IH. split.
      * intros H k' f' [->|Hk]%elem_of_cons Hf; [|by apply H]. exists y. split; [done|]. congruence.
      * intros H k' f' Hk Hf. apply H; [by right|done].
    + split; [done|]. intros H. destruct (H k f ltac:(left) Ea) as (y' & Hy & Hf). congruence.
  - split; [done|]. intros H. destruct (H k f ltac:(left) Ea) as (y' & Hy & _). congruence.
  - rewrite IH. split.
    + intros H k' f' [->|Hk]%elem_of_cons Hf; [congruence|by apply H].
    + intros H k' f' Hk Hf. apply H; [by right|done].
Qed.

Lemma superset_elems_ok fs bv :
  superset_elems fs bv = Ok tt <->
  forall i f y, fs !! i = Some f -> bv !! i = Some y -> f y = Ok tt.
Proof.
  revert bv. induction fs as [|f fs IH]; intros [|y bv]; cbn [superset_elems].
  1-3: split; [by intros _ [|i] ? ?|done].
  unfold rbind. destruct (f y) as [[]|e] eqn:Ef.
  - rewrite IH. split.
    + intros H [|i] f' y' Hf Hy; cbn in *; [congruence|by apply (H i)].
    + intros H i f' y' Hf Hy. by apply (H (S i)).
  - split; [done|]. intros H. specialize (H 0%nat f y eq_refl eq_refl). congruence.
Qed.

Lemma superset_string_ok dec s t : superset_string dec s t = Ok tt <-> s = t.
Proof.
  unfold superset_string. split.
  - intros (u & _ & H)%rbind_ok. by apply guard_false, negb_false_iff, bytes_eqb_eq in H.
  - intros <-. rewrite bytes_eqb_refl. destruct (dec s); [|done]. by rewrite Z.eqb_refl.
Qed.

Lemma isSuperset_iff dec a : forall b, isSuperset dec a b = Ok tt <-> matches a b.
Proof.
  induction a as [|x|l|s|l IH|l IH] using json_rect_nested; intros b.
  - by destruct b.
  - destruct b as [|y| | | |]; try done. cbn. destruct x, y; cbn; done.
  - by destruct b.
  - destruct b; try done. apply superset_string_ok.
  - destruct b as [| | | |bv|]; try done. rewrite matches_arr. cbn [isSuperset].
    destruct (Z.of_nat (length bv) <? Z.of_nat (length l)) eqn:E; cbn [guard rbind]; zbool.
    { split; [done|]. intros [? _]. lia. }
    rewrite superset_elems_ok. rewrite Forall_forall in IH.
    change (map (isSuperset dec) l) with (isSuperset dec <$> l). setoid_rewrite list_lookup_fmap. split.
    + intros H. split; [lia|]. intros i x y Hx Hy. apply IH; [by eapply list_elem_of_lookup_2|].
      apply (H i); [by rewrite Hx|done].
    + intros [_ H] i f y Hf Hy. destruct (l !! i) as [x|] eqn:Ex; [|done]. injection Hf as <-.
      apply IH; [by eapply list_elem_of_lookup_2|]. by apply (H i).
  - destruct b as [| | | | |bv]; try done. rewrite matches_obj. cbn [isSuperset].
    rewrite superset_keys_ok. rewrite Forall_forall in IH.
    setoid_rewrite elem_of_sorted_keys. setoid_rewrite last_lookup_map. split.
    + intros H k x Hx. destruct (H k (isSuperset dec x)) as (y & Hy & Hs); [by rewrite Hx; eauto|by rewrite Hx|].
      exists y. split; [done|]. apply (IH (k, x)); [by apply last_lookup_elem|done].
    + intros H k f _ Hf. destruct (last_lookup k l) as [x|] eqn:Ex; [|done]. injection Hf as <-.
      destruct (H k x Ex) as (y & Hy & Hm). exists y. split; [done|].
      apply (IH (k, x)); [by apply last_lookup_elem|done].
Qed.

(** ** The order of patterns *)

Lemma floats_obj l :
  checkForFloats (JObj l) = true <-> exists k x, last_lookup k l = Some x /\ checkForFloats x = true.
Proof.
  cbn [checkForFloats]. rewrite existsb_exists. setoid_rewrite <- list_elem_of_In.
  setoid_rewrite elem_of_sorted_keys. setoid_rewrite last_lookup_map. split.
  - intros (k & _ & H). destruct (last_lookup k l) as [x|] eqn:E; [|done]. eauto.
  - intros (k & x & Hx & Hf). exists k. rewrite Hx. cbn. eauto.
Qed.

Lemma matches_no_floats a : forall b, matches a b -> checkForFloats a = false.
Proof.
  induction a as [|x|l|s|l IH|l IH] using json_rect_nested; intros b Hm; try done.
  - destruct b as [| | | |bv|]; try done. apply matches_arr in Hm as [Hl Hm]. rewrite Forall_forall in IH.
    apply not_true_iff_false. cbn [checkForFloats]. rewrite existsb_exists. intros (x & Hx & Hf).
    apply list_elem_of_In in Hx. pose proof Hx as [i Hi]%list_elem_of_lookup.
    destruct (lookup_lt_is_Some_2 bv i) as [y Hy]; [apply lookup_lt_Some in Hi; lia|].
    rewrite (IH x Hx y) in Hf; [done|]. by apply (Hm i).
  - destruct b as [| | | | |bv]; try done. rewrite matches_obj in Hm. rewrite Forall_forall in IH.
    apply not_true_iff_false. intros (k & x & Hx & Hf)%floats_obj. destruct (Hm k x Hx) as (y & _ & Hxy).
    pose proof (IH (k, x) (last_lookup_elem _ _ _ Hx) y Hxy). cbn in *. congruence.
Qed.

Lemma matches_refl a : checkForFloats a = false -> matches a a.
Proof.
  induction a as [|x|l|s|l IH|l IH] using json_rect_nested; intros Hf; try done.
  - rewrite Forall_forall in IH. apply matches_arr. split; [done|]. intros i x y Hx Hy.
    assert (x = y) as -> by congruence. apply IH; [by eapply list_elem_of_lookup_2|].
    apply not_true_iff_false. intros Ht. apply not_true_iff_false in Hf. apply Hf. cbn [checkForFloats].
    apply existsb_exists. exists y. split; [|done]. apply list_elem_of_In. by eapply list_elem_of_lookup_2.
  - rewrite Forall_forall in IH. apply matches_obj. intros k x Hx. exists x. split; [done|].
    apply (IH (k, x)); [by apply last_lookup_elem|]. apply not_true_iff_false. intros Ht.
    apply not_true_iff_false in Hf. apply Hf, floats_obj. eauto.
Qed.

Lemma matches_trans a : forall b c, matches a b -> matches b c -> matches a c.
Proof.
  induction a as [|x|l|s|l IH|l IH] using json_rect_nested; intros b c Hab Hbc.
  - by destruct b.
  - destruct b, c; try done. cbn in *. congruence.
  - by destruct b.
  - destruct b, c; try done. cbn in *. congruence.
  - destruct b as [| | | |bv|], c as [| | | |cv|]; try done.
    rewrite Forall_forall in IH. apply matches_arr in Hab as [L1 Hab], Hbc as [L2 Hbc]. apply matches_arr.
    split; [lia|]. intros i x z Hx Hz.
    destruct (lookup_lt_is_Some_2 bv i) as [y Hy]; [apply lookup_lt_Some in Hx; lia|].
    apply (IH x ltac:(by eapply list_elem_of_lookup_2) y); [by apply (Hab i)|by apply (Hbc i)].
  - destruct b as [| | | | |bv], c as [| | | | |cv]; try done.
    rewrite Forall_forall in IH. rewrite matches_obj in *. intros k x Hx.
    destruct (Hab k x Hx) as (y & Hy & Hxy). destruct (Hbc k y Hy) as (z & Hz & Hyz).
    exists z. split; [done|]. by apply (IH (k, x) (last_lookup_elem _ _ _ Hx) y).
Qed.

(** ** Properties *)

Lemma IsJsonSuperset_iff dec (pattern msg : bytes) :
  IsJsonSuperset dec pattern msg = Ok tt <->
  exists a b, Unmarshal_any pattern = Some a /\ Unmarshal_any msg = Some b /\ matches a b.
Proof.
  unfold IsJsonSuperset. destruct (Unmarshal_any pattern) as [a|]; [|by split; [|intros (? & ? & ? & _)]].
  destruct (Unmarshal_any msg) as [b|]; [|by split; [|intros (? & ? & _ & ? & _)]].
  rewrite isSuperset_iff. split; [by eauto|]. by intros (? & ? & [= <-] & [= <-] & ?).
Qed.

(** The comparison answers without an error exactly when the message
    matches the pattern: every key of the pattern is in the message and matches
    there, a list is matched by a list that starts with it, strings and booleans
    match only themselves, whatever decimals the strings read as, and a number
    matches nothing. The order and repetition of the keys do not matter. *)
Theorem isSuperset_matches dec (pattern msg : bytes) :
  IsJsonSuperset dec pattern msg = Ok tt <->
  exists a b, Unmarshal_any pattern = Some a /\ Unmarshal_any msg = Some b /\ matches a b.
Proof. apply IsJsonSuperset_iff. Qed.

(** A pattern an account may register (valid JSON without numbers) is matched
    by itself, and whatever matches a message that is itself a pattern is
    matched by every message that one matches: a filter never becomes stricter
    by adding fields to a message. A pattern that matches anything at all could
    have been registered. *)
Theorem filter_order dec (p q m : bytes) :
  (filter_OnAuthenticatorAdded p = Ok tt ->
     filter_Initialize p = Ok p /\ IsJsonSuperset dec p p = Ok tt) /\
  (IsJsonSuperset dec p q = Ok tt -> IsJsonSuperset dec q m = Ok tt -> IsJsonSuperset dec p m = Ok tt) /\
  (IsJsonSuperset dec p m = Ok tt -> filter_OnAuthenticatorAdded p = Ok tt).
Proof.
  rewrite !IsJsonSuperset_iff. unfold filter_OnAuthenticatorAdded, filter_Initialize, containsFloats, json_valid.
  unfold Unmarshal_any. split; [|split].
  - destruct (json_parse p) as [a|]; cbn; [|done]. destruct (nums_ok a); cbn; [|done].
    intros H%guard_false. split; [done|]. exists a, a. by auto using matches_refl.
  - intros (a & b & Ha & Hb & Hab) (b' & c & Hb' & Hc & Hbc). exists a, c.
    split; [done|]. split; [done|]. apply (matches_trans a b c); [done|]. congruence.
  - intros (a & b & Ha & _ & Hab). destruct (json_parse p) as [a'|]; [|done].
    destruct (nums_ok a'); [|done]. injection Ha as <-. cbn. by rewrite (matches_no_floats a' b).
Qed.

(** ** Examples *)

(** JSON text with ['] for the quote. *)
Definition jtext (s : String.string) : bytes :=
  map (fun c => if bool_decide (c = "'"%byte) then quote else c) (str s).
Definition ex_dec (s : bytes) : option Z :=
  if bytes_eqb s (str "1.0") then Some 1 else parse_uint 64 s.

Example filter_accepts :
  IsJsonSuperset ex_dec (jtext "{'@type':'/bank.send','amount':[{'denom':'uterp'}]}")
    (jtext "{'amount':[{'amount':'5','denom':'uterp'},{}],'@type':'/bank.send','to':'x'}") = Ok tt.
Proof. vm_refl. Qed.
(** Equal decimals written differently are refused: the comparison as decimals
    can only add an error. *)
Example filter_decimals_as_text :
  ex_dec (str "1") = ex_dec (str "1.0") /\
  IsJsonSuperset ex_dec (jtext "{'amount':'1'}") (jtext "{'amount':'1.0'}") = Err StringsDoNotMatch.
Proof. split; vm_refl. Qed.
Lemma filter_order_witness :
  filter_OnAuthenticatorAdded (jtext "{'a':'1'}") = Ok tt /\
  IsJsonSuperset ex_dec (jtext "{'a':'1'}") (jtext "{'b':[true],'a':'1'}") = Ok tt.
Proof.
  destruct (filter_order ex_dec (jtext "{'a':'1'}") (jtext "{'b':[true],'a':'1'}")
             (jtext "{'b':[true],'a':'1'}")) as (_ & H2 & H3).
  assert (E : IsJsonSuperset ex_dec (jtext "{'a':'1'}") (jtext "{'b':[true],'a':'1'}") = Ok tt) by vm_refl.
  split; [exact (H3 E)|]. apply H2; [assumption|vm_refl].
Defined.
