(* ===== verification/SaAuth.v ===== *)
(** * x/smart-account: authenticators

    [authenticator/]: the authentication request, the authenticators
    (signature, message filter, contract, proof and the two composites with
    their partitioned forms) and the manager that holds one template per type.

    An authenticator is a value of [Authenticator]; the method dispatch of the
    Go interface is the match of each operation. A method runs on a pair of the
    chain's state and the gas meter; a [CacheContext] keeps the state apart but
    shares the meter. A panic (out of gas, a nil pointer) is a failure that no
    authenticator catches. The contract keeper, signature verification, the proof
    verifier and the codecs are parameters ([SaSdk]); JSON is that of [Json].
    Gas charged by the stores of the SDK is left out. *)

From S2P Require Import Prelude KVStore Json Sdk SaFilter.
Open Scope go_scope.

(** ** Requests: [requests.go], [authentication_request.go] *)

Record SignModeData := MkSignModeData { Direct : bytes; Textual : bytes }.
Record LocalAny := MkLocalAny { TypeURL : bytes; Value : bytes }.
Record SimplifiedSignatureData := MkSSD { ssd_Signers : list bytes; ssd_Signatures : list bytes }.
Record ExplicitTxData := MkExplicitTxData {
  ChainID : bytes; AccountNumber : Z; AccountSequence : Z; TimeoutHeight : Z; td_Msgs : list LocalAny; Memo : bytes
}.
Record AuthenticationRequest := MkRequest {
  AuthenticatorId : bytes;
  rq_Account : bytes;
  FeePayer : bytes;
  FeeGranter : bytes;
  Fee : Coins;
  rq_Msg : LocalAny;
  MsgIndex : Z;
  Signature : bytes;
  SignModeTxData : SignModeData;
  TxData : ExplicitTxData;
  SignatureData : SimplifiedSignatureData;
  Simulate : bool;
  AuthenticatorParams : bytes
}.
Definition with_id (id : bytes) (r : AuthenticationRequest) : AuthenticationRequest :=
  MkRequest id (rq_Account r) (FeePayer r) (FeeGranter r) (Fee r) (rq_Msg r) (MsgIndex r) (Signature r)
    (SignModeTxData r) (TxData r) (SignatureData r) (Simulate r) (AuthenticatorParams r).
Definition with_signature (sig : bytes) (r : AuthenticationRequest) : AuthenticationRequest :=
  MkRequest (AuthenticatorId r) (rq_Account r) (FeePayer r) (FeeGranter r) (Fee r) (rq_Msg r) (MsgIndex r) sig
    (SignModeTxData r) (TxData r) (SignatureData r) (Simulate r) (AuthenticatorParams r).
Definition with_params (p : bytes) (r : AuthenticationRequest) : AuthenticationRequest :=
  MkRequest (AuthenticatorId r) (rq_Account r) (FeePayer r) (FeeGranter r) (Fee r) (rq_Msg r) (MsgIndex r)
    (Signature r) (SignModeTxData r) (TxData r) (SignatureData r) (Simulate r) p.

(** [TrackRequest] and [ConfirmExecutionRequest] have the same fields. *)
Record TrackRequest := MkTrackRequest {
  tr_AuthenticatorId : bytes; tr_Account : bytes; tr_FeePayer : bytes; tr_FeeGranter : bytes; tr_Fee : Coins;
  tr_Msg : LocalAny; tr_MsgIndex : Z; tr_AuthenticatorParams : bytes
}.
Definition track_request (r : AuthenticationRequest) (params : bytes) : TrackRequest :=
  MkTrackRequest (AuthenticatorId r) (rq_Account r) (FeePayer r) (FeeGranter r) (Fee r) (rq_Msg r) (MsgIndex r) params.

(** What a contract authenticator is asked. *)
Inductive SudoMsg :=
| OnAuthenticatorAddedRequest (Account params id : bytes)
| OnAuthenticatorRemovedRequest (Account params id : bytes)
| SudoAuthenticate (r : AuthenticationRequest)
| SudoTrack (r : TrackRequest)
| SudoConfirmExecution (r : TrackRequest).

(** ** Failures *)

Inductive sa_err :=
| ErrInvalidRequest | ErrUnauthorized | ErrInvalidPubKey | ErrPubKeySize | ErrInvalidType | ErrTxDecode
| ErrInvalidSequence | ErrLogic | ErrJSON | ErrContract | ErrFilter (e : filter_err) | ErrNotRegistered
| ErrNotFound | ErrAddress | ErrEncode | ErrOutOfGas | ErrPanic | ErrDeductFee.
(** An error, or a panic. [OutOfFuel] is the model's own and never happens. *)
Inductive sa_fail := Fail (e : sa_err) | OutOfGas | NilPointer | IndexOutOfRange | Panicked | OutOfFuel.
Definition fail_if (b : bool) (e : sa_err) : result sa_fail unit := guard b (Fail e).
Definition opt_or {A : Type} (o : option A) (e : sa_err) : result sa_fail A :=
  match o with Some a => Ok a | None => Err (Fail e) end.

(** ** The chain state an authenticator runs on *)

(** [types.Params]. *)
Record SaParams := MkSaParams {
  MaximumUnauthenticatedGas : Z;
  IsSmartAccountActive : bool;
  CircuitBreakerControllers : list bytes
}.
(** The module's store, its parameters ([None] when they were never set) and the
    rest of the chain. *)
Record world (B : Type) := MkWorld { sa_store : store; sa_params : option SaParams; sa_rest : B }.
Arguments MkWorld {B}.
Arguments sa_store {B}.
Arguments sa_params {B}.
Arguments sa_rest {B}.

(** The parts of [sdk.Context] that do not change in a transaction. *)
Record sa_ctx := MkSaCtx { cx_IsCheckTx : bool; cx_IsReCheckTx : bool; cx_BlockHeight : Z; cx_ChainID : bytes }.

(** A gas meter: [ConsumeGas] reports whether it panics. *)
Class GasMeter (G : Type) := {
  NewGasMeter : Z -> G;
  GasLimit : G -> Z;
  GasConsumed : G -> Z;
  meter_ConsumeGas : Z -> G -> G * bool
}.
Class GasMeterLaws (G : Type) `{GasMeter G} := {
  new_meter : forall l, GasLimit (NewGasMeter l) = l /\ GasConsumed (NewGasMeter l) = 0;
  consume_limit : forall a g, GasLimit (meter_ConsumeGas a g).1 = GasLimit g;
  consume_panics : forall a g, (meter_ConsumeGas a g).2 = true <-> GasLimit g < GasConsumed g + a;
  consume_adds : forall a g, (meter_ConsumeGas a g).2 = false ->
    GasConsumed (meter_ConsumeGas a g).1 = GasConsumed g + a;
  consume_grows : forall a g, 0 <= a -> GasConsumed g <= GasConsumed (meter_ConsumeGas a g).1
}.

Class SaSdk (B G : Type) := {
  (** the contract keeper's [Sudo], which may fail or run out of gas *)
  Sudo : bytes -> bytes -> meth (world B * G) sa_fail unit;
  SudoMsg_json : SudoMsg -> bytes;
  (** secp256k1, and its cost among the account module's parameters *)
  VerifySignature : bytes -> bytes -> bytes -> bool;
  SigVerifyCostSecp256k1 : B -> Z;
  (** a message resolved, decoded and printed as JSON *)
  message_json : LocalAny -> option bytes;
  LegacyNewDecFromStr : bytes -> option Z;
  (** the proof verifier of the instance, or [GlobalPathAVerifier] *)
  PathAVerifier : option (Z -> bytes -> bytes -> meth (world B * G) sa_fail unit)
}.

(** ** Authenticators *)

Inductive SignatureAssignment := Single | Partitioned.
#[global] Instance SignatureAssignment_eq_dec : EqDecision SignatureAssignment.
Proof. solve_decision. Defined.
Record ZkProofAuthenticatorConfig := MkZkConfig {
  ZkID : Z; PILayout : bytes; zk_StaticGas : Z; RequirePin : bool; MaxProofBytes : Z
}.
Record ZkProofAuthPayload := MkZkPayload { zk_Proof : bytes; zk_Instances : bytes; CircuitKeyHint : bytes }.

Inductive Authenticator :=
| SignatureVerification (PubKey : option bytes)
| MessageFilter (pattern : bytes)
| CosmwasmAuthenticator (contractAddr authenticatorParams : bytes)
| ZkProofAuthenticatorV1 (config : ZkProofAuthenticatorConfig)
| AllOf (signatureAssignment : SignatureAssignment) (SubAuthenticators : list Authenticator)
| AnyOf (signatureAssignment : SignatureAssignment) (SubAuthenticators : list Authenticator).

Definition Authenticator_Type (a : Authenticator) : bytes :=
  match a with
  | SignatureVerification _ => str "SignatureVerification"
  | MessageFilter _ => str "MessageFilter"
  | CosmwasmAuthenticator _ _ => str "CosmwasmAuthenticatorV1"
  | ZkProofAuthenticatorV1 _ => str "ZkProofAuthenticatorV1"
  | AllOf Single _ => str "AllOf"
  | AllOf Partitioned _ => str "PartitionedAllOf"
  | AnyOf Single _ => str "AnyOf"
  | AnyOf Partitioned _ => str "PartitionedAnyOf"
  end.

(** The templates the manager is given. *)
Definition NewSignatureVerification : Authenticator := SignatureVerification None.
Definition NewMessageFilter : Authenticator := MessageFilter [].
Definition NewCosmwasmAuthenticator : Authenticator := CosmwasmAuthenticator [] [].
Definition NewZkProofAuthenticatorV1 : Authenticator := ZkProofAuthenticatorV1 (MkZkConfig 0 [] 0 false 0).
Definition NewAllOf : Authenticator := AllOf Single [].
Definition NewPartitionedAllOf : Authenticator := AllOf Partitioned [].
Definition NewAnyOf : Authenticator := AnyOf Single [].
Definition NewPartitionedAnyOf : Authenticator := AnyOf Partitioned [].

Definition DefaultZkProofStaticGas : Z := 100000.
Definition zk_gas (c : ZkProofAuthenticatorConfig) : Z :=
  if zk_StaticGas c =? 0 then DefaultZkProofStaticGas else zk_StaticGas c.
(** Sums of [uint64] wrap. *)
Fixpoint StaticGas (a : Authenticator) : Z :=
  match a with
  | ZkProofAuthenticatorV1 c => zk_gas c
  | AllOf _ subs | AnyOf _ subs => fold_left (fun total g => u64 (total + g)) (map StaticGas subs) 0
  | _ => 0
  end.

(** ** The manager: [manager.go] *)

Record AuthenticatorManager := MkManager {
  registeredAuthenticators : gmap bytes Authenticator;
  orderedKeys : list bytes
}.
Definition NewAuthenticatorManager : AuthenticatorManager := MkManager ∅ [].
Definition ResetAuthenticators (am : AuthenticatorManager) : AuthenticatorManager := MkManager ∅ [].
Definition sort_Strings (l : list bytes) : list bytes := merge_sort bytes_le l.
Definition InitializeAuthenticators (initialAuthenticators : list Authenticator) (am : AuthenticatorManager) :
    AuthenticatorManager :=
  if 0 <? Z.of_nat (size (registeredAuthenticators am)) then am
  else
    let am' := fold_left (fun m a => MkManager (<[Authenticator_Type a := a]> (registeredAuthenticators m))
                                       (orderedKeys m ++ [Authenticator_Type a])) initialAuthenticators am in
    MkManager (registeredAuthenticators am') (sort_Strings (orderedKeys am')).
Definition RegisterAuthenticator (a : Authenticator) (am : AuthenticatorManager) : AuthenticatorManager :=
  let keys := match registeredAuthenticators am !! Authenticator_Type a with
              | None => sort_Strings (orderedKeys am ++ [Authenticator_Type a])
              | Some _ => orderedKeys am
              end in
  MkManager (<[Authenticator_Type a := a]> (registeredAuthenticators am)) keys.
(** The first occurrence of the key is cut out. *)
Fixpoint remove_first (k : bytes) (l : list bytes) : list bytes :=
  match l with
  | [] => []
  | x :: l' => if bytes_eqb x k then l' else x :: remove_first k l'
  end.
Definition UnregisterAuthenticator (a : Authenticator) (am : AuthenticatorManager) : AuthenticatorManager :=
  match registeredAuthenticators am !! Authenticator_Type a with
  | Some _ => MkManager (delete (Authenticator_Type a) (registeredAuthenticators am))
                        (remove_first (Authenticator_Type a) (orderedKeys am))
  | None => am
  end.
(** [None] is the nil authenticator of a key without an entry. *)
Definition GetRegisteredAuthenticators (am : AuthenticatorManager) : list (option Authenticator) :=
  map (fun key => registeredAuthenticators am !! key) (orderedKeys am).
Definition IsAuthenticatorTypeRegistered (am : AuthenticatorManager) (t : bytes) : bool :=
  bool_decide (is_Some (registeredAuthenticators am !! t)).
Definition GetAuthenticatorByType (am : AuthenticatorManager) (t : bytes) : option Authenticator :=
  registeredAuthenticators am !! t.

(** ** Configurations *)

Record SubAuthenticatorInitData := MkSubInit { sub_Type : bytes; sub_Config : bytes }.
Definition dec_init_data (v : json) : option SubAuthenticatorInitData :=
  match members v with
  | None => None
  | Some l =>
      match dec_field dec_string (str "type") [] l, dec_field (fun _ => dec_bytes) (str "config") [] l with
      | Some t, Some c => Some (MkSubInit t c)
      | _, _ => None
      end
  end.
Definition Unmarshal_initDatas (config : bytes) : option (list SubAuthenticatorInitData) :=
  match json_parse config with Some v => dec_slice dec_init_data v | None => None end.

Definition compositeId (baseId : bytes) (subId : Z) : bytes := baseId ++ str "." ++ FormatUint subId.

Definition splitSignatures (signature : bytes) (total : Z) : result sa_fail (list bytes) :=
  match json_parse signature with
  | None => Err (Fail ErrInvalidRequest)
  | Some v =>
      try! signatures <- opt_or (dec_slice dec_bytes v) ErrInvalidRequest;
      check! fail_if (negb (Z.of_nat (length signatures) =? total)) ErrInvalidRequest;
      Ok signatures
  end.

Definition dec_zk_config (v : json) : option ZkProofAuthenticatorConfig :=
  match members v with
  | None => None
  | Some l =>
      match dec_field (dec_uint 64) (str "zk_id") 0 l, dec_field dec_string (str "pi_layout") [] l,
            dec_field (dec_uint 64) (str "static_gas") 0 l, dec_field dec_bool (str "require_pin") false l,
            dec_field (dec_uint 64) (str "max_proof_bytes") 0 l with
      | Some id, Some pl, Some g, Some rp, Some mp => Some (MkZkConfig id pl g rp mp)
      | _, _, _, _, _ => None
      end
  end.
Definition ParseZkProofAuthenticatorConfig (config : bytes) : result sa_fail ZkProofAuthenticatorConfig :=
  check! fail_if (blen config =? 0) ErrInvalidRequest;
  try! v <- opt_or (json_parse config) ErrJSON;
  try! cfg <- opt_or (dec_zk_config v) ErrJSON;
  check! fail_if (ZkID cfg =? 0) ErrInvalidRequest;
  Ok (if MaxProofBytes cfg =? 0
      then MkZkConfig (ZkID cfg) (PILayout cfg) (zk_StaticGas cfg) (RequirePin cfg) 65536 else cfg).
Definition dec_zk_payload (v : json) : option ZkProofAuthPayload :=
  match members v with
  | None => None
  | Some l =>
      match dec_field (fun _ => dec_bytes) (str "proof") [] l,
            dec_field (fun _ => dec_bytes) (str "instances") [] l,
            dec_field (fun _ => dec_bytes) (str "circuit_key_hint") [] l with
      | Some p, Some i, Some h => Some (MkZkPayload p i h)
      | _, _, _ => None
      end
  end.
Definition ParseZkProofAuthPayload (raw : bytes) : result sa_fail ZkProofAuthPayload :=
  check! fail_if (blen raw =? 0) ErrInvalidRequest;
  try! v <- opt_or (json_parse raw) ErrJSON;
  try! p <- opt_or (dec_zk_payload v) ErrJSON;
  check! fail_if (blen (zk_Proof p) =? 0) ErrInvalidRequest;
  check! fail_if (blen (zk_Instances p) =? 0) ErrInvalidRequest;
  Ok p.

(** ** Operations *)

Section Operations.
Context {B G : Type} `{!Sdk B} `{!GasMeter G} `{!SaSdk B G}.
Abbreviation St := (world B * G)%type.
Abbreviation M := (meth St sa_fail).

Definition ConsumeGas_ctx (amount : Z) : M unit :=
  fun st => let '(g, panics) := meter_ConsumeGas amount st.2 in
            ((st.1, g), if panics then Err OutOfGas else Ok tt).

(** [CosmwasmAuthenticatorInitData]; the parameters must be a JSON object. *)
Definition parseInitData (data : bytes) : result sa_fail (bytes * bytes) :=
  try! v <- opt_or (json_parse data) ErrJSON;
  try! l <- opt_or (members v) ErrJSON;
  try! contract <- opt_or (dec_field dec_string (str "contract") [] l) ErrJSON;
  try! params <- opt_or (dec_field (fun _ => dec_bytes) (str "params") [] l) ErrJSON;
  check! fail_if (blen contract =? 0) ErrInvalidRequest;
  try! contractAddr <- opt_or (AccAddressFromBech32 contract) ErrAddress;
  if blen params =? 0 then Ok (contractAddr, [])
  else
    check! fail_if (negb (Unmarshal_map params)) ErrJSON;
    Ok (contractAddr, params).

(** *** Initialize

    The configuration of a sub-authenticator is a base64 string inside the
    configuration of the composite, so it is shorter; the length of the
    configuration bounds the depth. *)
Fixpoint init_subs (init : Authenticator -> bytes -> result sa_fail Authenticator) (am : AuthenticatorManager)
    (initDatas : list SubAuthenticatorInitData) : result sa_fail (list Authenticator) :=
  match initDatas with
  | [] => Ok []
  | initData :: rest =>
      match GetAuthenticatorByType am (sub_Type initData) with
      | None => Err NilPointer
      | Some authenticatorCode =>
          try! instance <- init authenticatorCode (sub_Config initData);
          try! instances <- init_subs init am rest;
          Ok (instance :: instances)
      end
  end.
Definition init_composite (init : Authenticator -> bytes -> result sa_fail Authenticator)
    (am : AuthenticatorManager) (subs : list Authenticator) (config : bytes) : result sa_fail (list Authenticator) :=
  try! initDatas <- opt_or (Unmarshal_initDatas config) ErrJSON;
  check! fail_if (Z.of_nat (length initDatas) <=? 1) ErrInvalidRequest;
  try! instances <- init_subs init am initDatas;
  let SubAuthenticators := subs ++ instances in
  check! fail_if (negb (Z.of_nat (length SubAuthenticators) =? Z.of_nat (length initDatas))) ErrInvalidRequest;
  Ok SubAuthenticators.
Definition lift_filter {A : Type} (r : result filter_err A) : result sa_fail A :=
  match r with Ok a => Ok a | Err e => Err (Fail (ErrFilter e)) end.

(** [SignatureVerification]: a configuration of another size leaves the key nil,
    and the next line sets it all the same. *)
Definition sig_Initialize (config : bytes) : Authenticator := SignatureVerification (Some config).
Definition cw_Initialize (config : bytes) : result sa_fail Authenticator :=
  try! d <- parseInitData config; Ok (CosmwasmAuthenticator d.1 d.2).
Definition zk_Initialize (config : bytes) : result sa_fail Authenticator :=
  try! cfg <- ParseZkProofAuthenticatorConfig config; Ok (ZkProofAuthenticatorV1 cfg).

Fixpoint Initialize_fuel (fuel : nat) (am : AuthenticatorManager) (a : Authenticator) (config : bytes) :
    result sa_fail Authenticator :=
  match fuel with
  | O => Err OutOfFuel
  | S f =>
      match a with
      | SignatureVerification _ => Ok (sig_Initialize config)
      | MessageFilter _ => try! pattern <- lift_filter (filter_Initialize config); Ok (MessageFilter pattern)
      | CosmwasmAuthenticator _ _ => cw_Initialize config
      | ZkProofAuthenticatorV1 _ => zk_Initialize config
      | AllOf sa subs => try! subs' <- init_composite (Initialize_fuel f am) am subs config; Ok (AllOf sa subs')
      | AnyOf sa subs => try! subs' <- init_composite (Initialize_fuel f am) am subs config; Ok (AnyOf sa subs')
      end
  end.
Definition Initialize (am : AuthenticatorManager) (a : Authenticator) (config : bytes) : result sa_fail Authenticator :=
  Initialize_fuel (S (length config)) am a config.

(** *** OnAuthenticatorAdded, OnAuthenticatorRemoved *)

Fixpoint on_subs (on : Authenticator -> bytes -> bytes -> M unit) (am : AuthenticatorManager) (baseId : bytes)
    (id : Z) (initDatas : list SubAuthenticatorInitData) : M unit :=
  match initDatas with
  | [] => mret tt
  | initData :: rest =>
      match GetAuthenticatorByType am (sub_Type initData) with
      | None => mfail (Fail ErrInvalidRequest)
      | Some authenticatorCode =>
          exec! on authenticatorCode (sub_Config initData) (compositeId baseId id);
          on_subs on am baseId (id + 1) rest
      end
  end.
Definition onSubAuthenticatorsAdded (on : Authenticator -> bytes -> bytes -> M unit) (am : AuthenticatorManager)
    (data authenticatorId : bytes) : M unit :=
  run! initDatas <- mlift (opt_or (Unmarshal_initDatas data) ErrJSON);
  exec! mlift (fail_if (Z.of_nat (length initDatas) <=? 1) ErrInvalidRequest);
  on_subs on am authenticatorId 0 initDatas.
Definition onSubAuthenticatorsRemoved (on : Authenticator -> bytes -> bytes -> M unit) (am : AuthenticatorManager)
    (data authenticatorId : bytes) : M unit :=
  run! initDatas <- mlift (opt_or (Unmarshal_initDatas data) ErrJSON);
  on_subs on am authenticatorId 0 initDatas.

(** A secp256k1 key has 33 bytes. *)
Definition PubKeySize : Z := 33.
Definition sig_OnAuthenticatorAdded (config : bytes) : result sa_fail unit :=
  fail_if (negb (blen config =? PubKeySize)) ErrPubKeySize.
Definition cw_OnAuthenticatorAdded (account config authenticatorId : bytes) : M unit :=
  run! d <- mlift (parseInitData config);
  Sudo d.1 (SudoMsg_json (OnAuthenticatorAddedRequest account d.2 authenticatorId)).
Definition cw_OnAuthenticatorRemoved (account config authenticatorId : bytes) : M unit :=
  run! d <- mlift (parseInitData config);
  Sudo d.1 (SudoMsg_json (OnAuthenticatorRemovedRequest account d.2 authenticatorId)).
Definition zk_OnAuthenticatorAdded (config : bytes) : result sa_fail unit :=
  check! ParseZkProofAuthenticatorConfig config; Ok tt.

Fixpoint OnAuthenticatorAdded_fuel (fuel : nat) (am : AuthenticatorManager) (account : bytes)
    (a : Authenticator) (config authenticatorId : bytes) : M unit :=
  match fuel with
  | O => mfail OutOfFuel
  | S f =>
      match a with
      | SignatureVerification _ => mlift (sig_OnAuthenticatorAdded config)
      | MessageFilter _ => mlift (lift_filter (filter_OnAuthenticatorAdded config))
      | CosmwasmAuthenticator _ _ => cw_OnAuthenticatorAdded account config authenticatorId
      | ZkProofAuthenticatorV1 _ => mlift (zk_OnAuthenticatorAdded config)
      | AllOf _ _ | AnyOf _ _ =>
          onSubAuthenticatorsAdded (OnAuthenticatorAdded_fuel f am account) am config authenticatorId
      end
  end.
Definition OnAuthenticatorAdded (am : AuthenticatorManager) (account : bytes) (a : Authenticator)
    (config authenticatorId : bytes) : M unit :=
  OnAuthenticatorAdded_fuel (S (length config)) am account a config authenticatorId.

Fixpoint OnAuthenticatorRemoved_fuel (fuel : nat) (am : AuthenticatorManager) (account : bytes)
    (a : Authenticator) (config authenticatorId : bytes) : M unit :=
  match fuel with
  | O => mfail OutOfFuel
  | S f =>
      match a with
      | SignatureVerification _ | MessageFilter _ | ZkProofAuthenticatorV1 _ => mret tt
      | CosmwasmAuthenticator _ _ => cw_OnAuthenticatorRemoved account config authenticatorId
      | AllOf _ _ | AnyOf _ _ =>
          onSubAuthenticatorsRemoved (OnAuthenticatorRemoved_fuel f am account) am config authenticatorId
      end
  end.
Definition OnAuthenticatorRemoved (am : AuthenticatorManager) (account : bytes) (a : Authenticator)
    (config authenticatorId : bytes) : M unit :=
  OnAuthenticatorRemoved_fuel (S (length config)) am account a config authenticatorId.

(** *** Authenticate, Track, ConfirmExecution *)

(** The request of the sub-authenticator [i]: its id, and with partitioned
    signatures its own signature. *)
Definition sub_request (sa : SignatureAssignment) (signatures : list bytes) (request : AuthenticationRequest)
    (i : nat) : AuthenticationRequest :=
  let r := with_id (compositeId (AuthenticatorId request) (Z.of_nat i)) request in
  match sa with
  | Single => r
  | Partitioned => with_signature (nth i signatures []) r
  end.
Definition sub_signatures (sa : SignatureAssignment) (request : AuthenticationRequest) (total : Z) :
    result sa_fail (list bytes) :=
  match sa with Single => Ok [] | Partitioned => splitSignatures (Signature request) total end.

(** The loops over the sub-authenticators, given what each does on a request. *)
Fixpoint all_loop (req : nat -> AuthenticationRequest) (i : nat) (subs : list (AuthenticationRequest -> M unit)) :
    M unit :=
  match subs with
  | [] => mret tt
  | auth :: rest => exec! auth (req i); all_loop req (S i) rest
  end.
(** The first success ends the loop; an error goes to the next one, a panic out. *)
Fixpoint any_loop (req : nat -> AuthenticationRequest) (i : nat) (subs : list (AuthenticationRequest -> M unit)) :
    M unit :=
  match subs with
  | [] => mfail (Fail ErrUnauthorized)
  | auth :: rest =>
      fun st => match auth (req i) st with
                | (st', Err (Fail _)) => any_loop req (S i) rest st'
                | done => done
                end
  end.
(** The same in a [CacheContext]: the state of a failure is dropped, its gas is not. *)
Fixpoint any_cached_loop (req : nat -> AuthenticationRequest) (i : nat)
    (subs : list (AuthenticationRequest -> M unit)) : M unit :=
  match subs with
  | [] => mfail (Fail ErrUnauthorized)
  | auth :: rest =>
      fun st => match auth (req i) st with
                | (st', Ok tt) => (st', Ok tt)
                | (st', Err (Fail _)) => any_cached_loop req (S i) rest (st.1, st'.2)
                | (st', Err panic) => ((st.1, st'.2), Err panic)
                end
  end.

(** *** The operations of each authenticator *)

Definition sig_Authenticate (ctx : sa_ctx) (PubKey : option bytes) (request : AuthenticationRequest) : M unit :=
  run! cost <- mget (fun st => SigVerifyCostSecp256k1 (sa_rest st.1));
  exec! ConsumeGas_ctx cost;
  if Simulate request || cx_IsReCheckTx ctx then mret tt
  else
    match PubKey with
    | None => mfail (Fail ErrInvalidPubKey)
    | Some key =>
        mlift (fail_if (negb (VerifySignature key (Direct (SignModeTxData request)) (Signature request)))
                 ErrUnauthorized)
    end.
Definition cw_Authenticate (contractAddr params : bytes) (request : AuthenticationRequest) : M unit :=
  Sudo contractAddr (SudoMsg_json (SudoAuthenticate (with_params params request))).
Definition cw_Track (contractAddr params : bytes) (request : AuthenticationRequest) : M unit :=
  Sudo contractAddr (SudoMsg_json (SudoTrack (track_request request params))).
Definition cw_ConfirmExecution (contractAddr params : bytes) (request : AuthenticationRequest) : M unit :=
  Sudo contractAddr (SudoMsg_json (SudoConfirmExecution (track_request request params))).
Definition zk_Authenticate (ctx : sa_ctx) (config : ZkProofAuthenticatorConfig) (request : AuthenticationRequest) :
    M unit :=
  let gas := zk_gas config in
  exec! (if 0 <? gas then ConsumeGas_ctx gas else mret tt);
  if Simulate request || cx_IsReCheckTx ctx then mret tt
  else
    run! payload <- mlift (ParseZkProofAuthPayload (Signature request));
    exec! mlift (fail_if (MaxProofBytes config <? blen (zk_Proof payload)) ErrInvalidRequest);
    match PathAVerifier with
    | None => mfail (Fail ErrUnauthorized)
    | Some verifier =>
        fun st => match verifier (ZkID config) (zk_Proof payload) (zk_Instances payload) st with
                  | (st', Err (Fail _)) => (st', Err (Fail ErrUnauthorized))
                  | done => done
                  end
    end.
(** Composites, given what each sub-authenticator does on a request. *)
Definition allof_Authenticate (sa : SignatureAssignment) (subs : list (AuthenticationRequest -> M unit))
    (request : AuthenticationRequest) : M unit :=
  exec! mlift (fail_if (Z.of_nat (length subs) =? 0) ErrInvalidRequest);
  run! signatures <- mlift (sub_signatures sa request (Z.of_nat (length subs)));
  all_loop (sub_request sa signatures request) 0 subs.
Definition anyof_Authenticate (sa : SignatureAssignment) (subs : list (AuthenticationRequest -> M unit))
    (request : AuthenticationRequest) : M unit :=
  exec! mlift (fail_if (Z.of_nat (length subs) =? 0) ErrInvalidRequest);
  run! signatures <- mlift (sub_signatures sa request (Z.of_nat (length subs)));
  any_loop (sub_request sa signatures request) 0 subs.
(** [subTrack] does not split the signatures. *)
Definition subTrack (subs : list (AuthenticationRequest -> M unit)) (request : AuthenticationRequest) : M unit :=
  all_loop (sub_request Single [] request) 0 subs.
Definition allof_ConfirmExecution (sa : SignatureAssignment) (subs : list (AuthenticationRequest -> M unit))
    (request : AuthenticationRequest) : M unit :=
  run! signatures <- mlift (sub_signatures sa request (Z.of_nat (length subs)));
  all_loop (sub_request sa signatures request) 0 subs.
Definition anyof_ConfirmExecution (sa : SignatureAssignment) (subs : list (AuthenticationRequest -> M unit))
    (request : AuthenticationRequest) : M unit :=
  run! signatures <- mlift (sub_signatures sa request (Z.of_nat (length subs)));
  any_cached_loop (sub_request sa signatures request) 0 subs.

(** *** The methods of the interface *)

Fixpoint Authenticate (ctx : sa_ctx) (a : Authenticator) (request : AuthenticationRequest) {struct a} : M unit :=
  match a with
  | SignatureVerification PubKey => sig_Authenticate ctx PubKey request
  | MessageFilter pattern =>
      mlift (lift_filter (filter_Authenticate LegacyNewDecFromStr pattern (message_json (rq_Msg request))))
  | CosmwasmAuthenticator contractAddr params => cw_Authenticate contractAddr params request
  | ZkProofAuthenticatorV1 config => zk_Authenticate ctx config request
  | AllOf sa subs => allof_Authenticate sa (map (Authenticate ctx) subs) request
  | AnyOf sa subs => anyof_Authenticate sa (map (Authenticate ctx) subs) request
  end.

Fixpoint Track (a : Authenticator) (request : AuthenticationRequest) {struct a} : M unit :=
  match a with
  | SignatureVerification _ | MessageFilter _ | ZkProofAuthenticatorV1 _ => mret tt
  | CosmwasmAuthenticator contractAddr params => cw_Track contractAddr params request
  | AllOf _ subs | AnyOf _ subs => subTrack (map Track subs) request
  end.

Fixpoint ConfirmExecution (a : Authenticator) (request : AuthenticationRequest) {struct a} : M unit :=
  match a with
  | SignatureVerification _ | MessageFilter _ | ZkProofAuthenticatorV1 _ => mret tt
  | CosmwasmAuthenticator contractAddr params => cw_ConfirmExecution contractAddr params request
  | AllOf sa subs => allof_ConfirmExecution sa (map ConfirmExecution subs) request
  | AnyOf sa subs => anyof_ConfirmExecution sa (map ConfirmExecution subs) request
  end.
End Operations.

(** ** Induction on authenticators *)

Section authenticator_induction.
Context (P : Authenticator -> Prop) (Hsig : forall k, P (SignatureVerification k))
  (Hmf : forall p, P (MessageFilter p)) (Hcw : forall c p, P (CosmwasmAuthenticator c p))
  (Hzk : forall c, P (ZkProofAuthenticatorV1 c)) (Hall : forall sa l, Forall P l -> P (AllOf sa l))
  (Hany : forall sa l, Forall P l -> P (AnyOf sa l)).
Fixpoint authenticator_nested (a : Authenticator) : P a :=
  let fix go (l : list Authenticator) : Forall P l :=
    match l with
    | [] => Forall_nil_2 _
    | x :: l' => Forall_cons_2 P x l' (authenticator_nested x) (go l')
    end in
  match a with
  | SignatureVerification k => Hsig k
  | MessageFilter p => Hmf p
  | CosmwasmAuthenticator c p => Hcw c p
  | ZkProofAuthenticatorV1 c => Hzk c
  | AllOf sa l => Hall sa l (go l)
  | AnyOf sa l => Hany sa l (go l)
  end.
End authenticator_induction.

(** ** The manager *)

(** The key list is the sorted list of the registered types, each filed under
    its own type. *)
Definition manager_wf (am : AuthenticatorManager) : Prop :=
  StronglySorted bytes_le (orderedKeys am) /\ NoDup (orderedKeys am) /\
  (forall k, k ∈ orderedKeys am <-> is_Some (registeredAuthenticators am !! k)) /\
  (forall k a, registeredAuthenticators am !! k = Some a -> Authenticator_Type a = k).

Lemma elem_of_remove_first k k' l : NoDup l -> k' ∈ remove_first k l <-> k' ∈ l /\ k' <> k.
Proof.
  induction l as [|x l IH]; intros Hn; cbn [remove_first].
  - split; [by intros ?%elem_of_nil|by intros [?%elem_of_nil ?]].
  - apply NoDup_cons in Hn as [Hx Hn]. destruct (bytes_eqb x k) eqn:E.
    + apply bytes_eqb_eq in E as ->. rewrite elem_of_cons. split.
      * intros Hk. split; [by right|]. by intros ->.
      * intros [[->|Hk] Hne]; done.
    + apply bytes_eqb_neq in E. rewrite !elem_of_cons, IH by done. split; [|tauto].
      intros [->|?]; [by auto|tauto].
Qed.
Lemma remove_first_sublist k l : sublist (remove_first k l) l.
Proof.
  induction l as [|x l IH]; cbn; [constructor|]. destruct (bytes_eqb x k); [|by constructor].
  apply sublist_cons. reflexivity.
Qed.
Lemma StronglySorted_sublist {A} (R : A -> A -> Prop) l1 l2 :
  sublist l1 l2 -> StronglySorted R l2 -> StronglySorted R l1.
Proof.
  induction 1 as [|x l1 l2 Hs IH|x l1 l2 Hs IH]; intros H2; [done| |].
  - inversion H2 as [|? ? H3 H4]; subst. constructor; [by apply IH|].
    rewrite Forall_forall in *. intros y Hy. apply H4. by apply (elem_of_sublist l1 l2).
  - inversion H2. by apply IH.
Qed.

Lemma sort_Strings_sorted l : StronglySorted bytes_le (sort_Strings l).
Proof. apply (StronglySorted_merge_sort bytes_le). Qed.
Lemma sort_Strings_perm l : sort_Strings l ≡ₚ l.
Proof. apply merge_sort_Permutation. Qed.

Lemma register_wf a am : manager_wf am -> manager_wf (RegisterAuthenticator a am).
Proof.
  intros (Hs & Hn & Hk & Ht). unfold RegisterAuthenticator, manager_wf. cbn.
  set (t := Authenticator_Type a).
  assert (Hty : forall k b, <[t := a]> (registeredAuthenticators am) !! k = Some b -> Authenticator_Type b = k).
  { intros k b. destruct (decide (k = t)) as [->|Hne].
    - rewrite lookup_insert_eq. by intros [= <-].
    - rewrite lookup_insert_ne by done. apply Ht. }
  assert (Hin : forall k, is_Some (<[t := a]> (registeredAuthenticators am) !! k) <->
    k = t \/ is_Some (registeredAuthenticators am !! k)).
  { intros k. destruct (decide (k = t)) as [->|Hne].
    - rewrite lookup_insert_eq. split; [by left|eauto].
    - rewrite lookup_insert_ne by done. split; [by right|by intros [?|?]]. }
  destruct (registeredAuthenticators am !! t) as [b|] eqn:E; (split; [|split; [|split; [|done]]]).
  - done.
  - done.
  - intros k. rewrite Hin, Hk. split; [by right|]. intros [->|?]; [eauto|done].
  - apply sort_Strings_sorted.
  - rewrite sort_Strings_perm. apply NoDup_app. split; [done|]. split; [|apply NoDup_singleton].
    intros x Hx ->%list_elem_of_singleton. apply Hk in Hx as [? ?]. congruence.
  - intros k. rewrite sort_Strings_perm, elem_of_app, list_elem_of_singleton, Hin, Hk. tauto.
Qed.

Lemma unregister_wf a am : manager_wf am -> manager_wf (UnregisterAuthenticator a am).
Proof.
  intros (Hs & Hn & Hk & Ht). unfold UnregisterAuthenticator. set (t := Authenticator_Type a).
  destruct (registeredAuthenticators am !! t) as [b|] eqn:E; [|done]. unfold manager_wf. cbn.
  split; [|split; [|split]].
  - by eapply StronglySorted_sublist; [apply remove_first_sublist|].
  - eapply sublist_NoDup; [done|apply remove_first_sublist].
  - intros k. rewrite elem_of_remove_first, Hk by done. destruct (decide (k = t)) as [->|Hne].
    + rewrite lookup_delete_eq. split; [by intros [_ ?]|by intros [? ?]].
    + rewrite lookup_delete_ne by done. tauto.
  - intros k c. destruct (decide (k = t)) as [->|Hne].
    + by rewrite lookup_delete_eq.
    + rewrite lookup_delete_ne by done. apply Ht.
Qed.

(** The loop of [InitializeAuthenticators]. *)
Lemma initialize_loop l am :
  let am' := fold_left (fun m a => MkManager (<[Authenticator_Type a := a]> (registeredAuthenticators m))
                                     (orderedKeys m ++ [Authenticator_Type a])) l am in
  orderedKeys am' = orderedKeys am ++ map Authenticator_Type l /\
  (forall k, is_Some (registeredAuthenticators am' !! k) <->
     is_Some (registeredAuthenticators am !! k) \/ k ∈ map Authenticator_Type l) /\
  ((forall k a, registeredAuthenticators am !! k = Some a -> Authenticator_Type a = k) ->
   forall k a, registeredAuthenticators am' !! k = Some a -> Authenticator_Type a = k).
Proof.
  revert am. induction l as [|a l IH]; intros am; cbn [fold_left map].
  - rewrite app_nil_r. split; [done|]. split; [|done]. intros k. split; [by left|].
    intros [?|?%elem_of_nil]; done.
  - set (m := MkManager _ _). destruct (IH m) as (H1 & H2 & H3). split; [|split].
    + rewrite H1. unfold m. cbn. by rewrite <- app_assoc.
    + intros k. rewrite H2. unfold m. cbn. rewrite elem_of_cons.
      destruct (decide (k = Authenticator_Type a)) as [->|Hne].
      * rewrite lookup_insert_eq. split; [by right; left|]. intros _. left. eauto.
      * rewrite lookup_insert_ne by done. tauto.
    + intros Ht. apply H3. unfold m. cbn. intros k b.
      destruct (decide (k = Authenticator_Type a)) as [->|Hne].
      * rewrite lookup_insert_eq. by intros [= <-].
      * rewrite lookup_insert_ne by done. apply Ht.
Qed.

Lemma initialize_wf l am :
  manager_wf am -> NoDup (map Authenticator_Type l) -> manager_wf (InitializeAuthenticators l am).
Proof.
  intros Hwf Hl. unfold InitializeAuthenticators. destruct (0 <? _) eqn:E; [done|].
  assert (Hs : size (registeredAuthenticators am) = 0%nat) by (zbool; lia).
  apply map_size_empty_inv in Hs. destruct Hwf as (_ & _ & Hk & Ht).
  assert (Ho : orderedKeys am = []).
  { destruct (orderedKeys am) as [|k ks] eqn:Ek; [done|]. destruct (proj1 (Hk k)) as [? Hx]; [left|].
    by rewrite Hs, lookup_empty in Hx. }
  destruct (initialize_loop l am) as (H1 & H2 & H3). unfold manager_wf.
  cbn [orderedKeys registeredAuthenticators]. rewrite H1, Ho. cbn [app].
  split; [apply sort_Strings_sorted|]. split; [by rewrite sort_Strings_perm|]. split; [|by apply H3].
  intros k. rewrite sort_Strings_perm, H2, Hs, lookup_empty. split; [by right|]. intros [[? ?]|?]; done.
Qed.

(** ** Nested configurations are shorter *)

Lemma dec_field_bytes field l cur c :
  dec_field (fun _ => dec_bytes) field cur l = Some c ->
  c = cur \/ (length c < sum_list (map (fun kv => jsize kv.2) l))%nat.
Proof.
  revert cur. induction l as [|[k v] l IH]; intros cur H; cbn [dec_field] in H; [left; congruence|].
  cbn [map sum_list_with id snd]. destruct (names field k).
  - destruct (dec_bytes v) as [b|] eqn:E; [|done]. apply dec_bytes_size in E. right.
    destruct (IH b H) as [->|?]; lia.
  - destruct (IH cur H) as [->|?]; [by left|right; lia].
Qed.

Lemma dec_init_data_shorter v d : dec_init_data v = Some d -> (length (sub_Config d) < jsize v)%nat.
Proof.
  unfold dec_init_data, members. destruct v; try done.
  - intros [= <-]. cbn. lia.
  - destruct (dec_field dec_string _ _ _); [|done]. destruct (dec_field _ (str "config") _ _) as [c|] eqn:E; [|done].
    intros [= <-]. cbn [sub_Config jsize]. apply dec_field_bytes in E as [->|E]; cbn; lia.
Qed.

Lemma dec_all_elem {A} (dec : json -> option A) l t d :
  dec_all dec l = Some t -> d ∈ t -> exists v, v ∈ l /\ dec v = Some d.
Proof.
  revert t. induction l as [|v l IH]; intros t H Hd; cbn in H.
  - injection H as <-. by apply elem_of_nil in Hd.
  - destruct (dec v) as [a|] eqn:Ea; [|done]. destruct (dec_all dec l) as [t'|]; [|done]. injection H as <-.
    apply elem_of_cons in Hd as [->|Hd]; [exists v; split; [left|done]|].
    destruct (IH t' eq_refl Hd) as (v' & Hv & Hdec). exists v'. split; [by right|done].
Qed.

Lemma Unmarshal_initDatas_shorter config ds d :
  Unmarshal_initDatas config = Some ds -> d ∈ ds -> (length (sub_Config d) < length config)%nat.
Proof.
  unfold Unmarshal_initDatas. destruct (json_parse config) as [v|] eqn:E; [|done].
  apply json_parse_size in E. unfold dec_slice. destruct v; try done.
  - intros [= <-] Hd. by apply elem_of_nil in Hd.
  - intros H Hd. destruct (dec_all_elem _ _ _ _ H Hd) as (v & Hv & Hdec).
    apply dec_init_data_shorter in Hdec. pose proof (sum_list_elem jsize _ _ Hv). cbn [jsize] in E. lia.
Qed.

(** ** Initialization of nested composites ends *)

Section Termination.
Context {B G : Type} `{!Sdk B} `{!GasMeter G} `{!SaSdk B G} (am : AuthenticatorManager).

Lemma init_subs_ext (f g : Authenticator -> bytes -> result sa_fail Authenticator) ds :
  (forall a d, d ∈ ds -> f a (sub_Config d) = g a (sub_Config d)) -> init_subs f am ds = init_subs g am ds.
Proof.
  induction ds as [|d ds IH]; intros H; cbn [init_subs]; [done|].
  destruct (GetAuthenticatorByType am (sub_Type d)) as [a|]; [|done].
  rewrite (H a d) by left. rewrite IH; [done|]. intros a' d' Hd. apply H. by right.
Qed.
Lemma init_composite_ext (f g : Authenticator -> bytes -> result sa_fail Authenticator) subs config :
  (forall a c, (length c < length config)%nat -> f a c = g a c) ->
  init_composite f am subs config = init_composite g am subs config.
Proof.
  intros H. unfold init_composite. destruct (Unmarshal_initDatas config) as [ds|] eqn:E; [|done]. cbn [opt_or rbind].
  rewrite (init_subs_ext f g); [done|]. intros a d Hd. apply H. by eapply Unmarshal_initDatas_shorter.
Qed.

Lemma Initialize_fuel_eq f g a config :
  (length config < f)%nat -> (length config < g)%nat ->
  Initialize_fuel f am a config = Initialize_fuel g am a config.
Proof.
  revert g a config. induction f as [|f IH]; intros [|g] a config Hf Hg; try lia.
  destruct a; cbn [Initialize_fuel]; try done;
    (rewrite (init_composite_ext (Initialize_fuel f am) (Initialize_fuel g am)); [done|];
     intros a c Hc; apply IH; lia).
Qed.

Lemma init_subs_fuel f ds :
  (forall a d, d ∈ ds -> f a (sub_Config d) <> Err OutOfFuel) -> init_subs f am ds <> Err OutOfFuel.
Proof.
  induction ds as [|d ds IH]; intros H; cbn [init_subs]; [done|].
  destruct (GetAuthenticatorByType am (sub_Type d)) as [a|]; [|done].
  pose proof (H a d ltac:(left)) as Hd. destruct (f a (sub_Config d)) as [i|e]; cbn [rbind]; [|congruence].
  specialize (IH (fun a' d' Hd' => H a' d' ltac:(by right))). destruct (init_subs f am ds); cbn [rbind]; congruence.
Qed.
Lemma Initialize_no_fuel f a config :
  (length config < f)%nat -> Initialize_fuel f am a config <> Err OutOfFuel.
Proof.
  revert a config. induction f as [|f IH]; intros a config Hf; [lia|].
  assert (Hc : forall subs, init_composite (Initialize_fuel f am) am subs config <> Err OutOfFuel).
  { intros subs. unfold init_composite. destruct (Unmarshal_initDatas config) as [ds|] eqn:E; [|done].
    cbn [opt_or rbind]. unfold fail_if, guard. destruct (_ <=? 1); cbn [rbind]; [done|].
    pose proof (init_subs_fuel (Initialize_fuel f am) ds) as Hs.
    destruct (init_subs _ _ _); cbn [rbind]; [by destruct (negb _)|]. intros [= ->]. apply Hs; [|done].
    intros a' d Hd. apply IH. apply (Unmarshal_initDatas_shorter config) in Hd; [lia|done]. }
  destruct a; cbn [Initialize_fuel].
  - done.
  - unfold lift_filter. by destruct (filter_Initialize config).
  - unfold cw_Initialize, parseInitData, opt_or, fail_if, guard, rbind. repeat case_match; congruence.
  - unfold zk_Initialize, ParseZkProofAuthenticatorConfig, opt_or, fail_if, guard, rbind. repeat case_match; congruence.
  - specialize (Hc SubAuthenticators). destruct (init_composite _ _ _ _); cbn [rbind]; congruence.
  - specialize (Hc SubAuthenticators). destruct (init_composite _ _ _ _); cbn [rbind]; congruence.
Qed.

(** The unfolding of a composite without fuel. *)
Lemma Initialize_composite subs config :
  init_composite (Initialize_fuel (length config) am) am subs config =
  init_composite (Initialize am) am subs config.
Proof. apply init_composite_ext. intros a c Hc. apply Initialize_fuel_eq; lia. Qed.

(** ** What can be added can be initialized *)

(** A template has no sub-authenticators of its own. *)
Definition template (a : Authenticator) : Prop :=
  match a with AllOf _ subs | AnyOf _ subs => subs = [] | _ => True end.

Lemma on_subs_init (on : Authenticator -> bytes -> bytes -> meth (world B * G) sa_fail unit) init id n ds st st' :
  (forall k a, registeredAuthenticators am !! k = Some a -> template a) ->
  (forall a d i st st', d ∈ ds -> template a -> on a (sub_Config d) i st = (st', Ok tt) ->
     exists a', init a (sub_Config d) = Ok a') ->
  on_subs on am id n ds st = (st', Ok tt) ->
  exists l, init_subs init am ds = Ok l /\ length l = length ds.
Proof.
  intros Ht Hon. revert n st. induction ds as [|d ds IH]; intros n st H; cbn [on_subs init_subs] in *; [by eauto|].
  destruct (GetAuthenticatorByType am (sub_Type d)) as [a|] eqn:Ea; [|done].
  apply mbind_ok in H as (s1 & [] & H1 & H2).
  destruct (Hon a d _ _ _ ltac:(left) (Ht _ _ Ea) H1) as (a' & ->).
  destruct (IH (fun a d i st st' Hd => Hon a d i st st' ltac:(by right)) _ _ H2) as (l & -> & Hl). cbn [rbind].
  exists (a' :: l). cbn [length]. by rewrite Hl.
Qed.

Lemma added_init account f a config id st st' :
  (forall k a, registeredAuthenticators am !! k = Some a -> template a) -> template a ->
  OnAuthenticatorAdded_fuel f am account a config id st = (st', Ok tt) ->
  exists a', Initialize_fuel f am a config = Ok a'.
Proof.
  intros Ht. revert a config id st st'. induction f as [|f IH]; intros a config id st st' Ha H; [done|].
  assert (Hc : forall subs, subs = [] ->
    onSubAuthenticatorsAdded (OnAuthenticatorAdded_fuel f am account) am config id st = (st', Ok tt) ->
    exists l, init_composite (Initialize_fuel f am) am subs config = Ok l).
  { intros subs -> Hs. unfold onSubAuthenticatorsAdded in Hs.
    apply mbind_ok in Hs as (s0 & ds & Hds & Hs). apply mlift_ok in Hds as [-> Hds].
    unfold init_composite. rewrite Hds. cbn [rbind].
    apply mbind_ok in Hs as (s1 & [] & Hg & Hs). apply mlift_ok in Hg as [-> Hg]. rewrite Hg. cbn [rbind].
    destruct (on_subs_init (OnAuthenticatorAdded_fuel f am account) (Initialize_fuel f am) id 0 ds st st')
      as (l & -> & Hl); [done| |done|].
    { intros a0 d i s s' _ Ha0 Hi. by eapply IH. }
    cbn [rbind app]. rewrite Hl, Z.eqb_refl. cbn. by eauto. }
  destruct a; cbn [OnAuthenticatorAdded_fuel Initialize_fuel] in *.
  - by eauto.
  - unfold filter_OnAuthenticatorAdded, filter_Initialize in *.
    destruct (json_valid config); cbn in *; [by eauto|done].
  - unfold cw_Initialize. apply mbind_ok in H as (s1 & d & Hd & _). apply mlift_ok in Hd as [-> ->]. cbn. by eauto.
  - unfold zk_Initialize. apply mlift_ok in H as [-> H]. apply rbind_ok in H as (d & -> & _). cbn. by eauto.
  - destruct (Hc _ Ha H) as (l & ->). cbn. by eauto.
  - destruct (Hc _ Ha H) as (l & ->). cbn. by eauto.
Qed.
End Termination.
