(* ===== verification/SaPolicy.v ===== *)
(** * x/smart-account: what the authenticators decide

    Theorems on the definitions of [SaAuth]: the manager keeps its key list,
    initialization ends and succeeds on what could be added, trees of built-in
    authenticators decide a boolean policy, [ConfirmExecution] of an [AnyOf]
    keeps the changes of the one that succeeds only, and every node of a tree
    has an id of its own. *)

From S2P Require Import Prelude KVStore Json Sdk SaFilter SaAuth.
Open Scope go_scope.

Section Policy.
Context {B G : Type} {SdkB : Sdk B} {GM : GasMeter G} {GL : GasMeterLaws G} {SS : SaSdk B G}.

(** ** The policy of a tree *)

(** Signatures, filters and composites of them: what the application registers. *)
Fixpoint builtin (a : Authenticator) : bool :=
  match a with
  | SignatureVerification _ | MessageFilter _ => true
  | AllOf _ subs | AnyOf _ subs => forallb builtin subs
  | _ => false
  end.
Fixpoint sig_leaves (a : Authenticator) : Z :=
  match a with
  | SignatureVerification _ => 1
  | AllOf _ subs | AnyOf _ subs => foldr Z.add 0 (map sig_leaves subs)
  | _ => 0
  end.

Fixpoint all_true (req : nat -> AuthenticationRequest) (i : nat) (l : list (AuthenticationRequest -> bool)) : bool :=
  match l with [] => true | p :: l' => p (req i) && all_true req (S i) l' end.
Fixpoint any_true (req : nat -> AuthenticationRequest) (i : nat) (l : list (AuthenticationRequest -> bool)) : bool :=
  match l with [] => false | p :: l' => p (req i) || any_true req (S i) l' end.
Definition split_ok (sa : SignatureAssignment) (subs : list Authenticator) (request : AuthenticationRequest)
    (k : list bytes -> bool) : bool :=
  negb (Z.of_nat (length subs) =? 0) &&
  match sub_signatures sa request (Z.of_nat (length subs)) with Ok sigs => k sigs | Err _ => false end.

(** The formula a tree stands for: a signature that verifies (or is skipped in
    simulation and recheck), a message the pattern matches, all, or any. *)
Fixpoint policy (ctx : sa_ctx) (a : Authenticator) (request : AuthenticationRequest) {struct a} : bool :=
  match a with
  | SignatureVerification PubKey =>
      Simulate request || cx_IsReCheckTx ctx ||
      match PubKey with
      | Some key => VerifySignature key (Direct (SignModeTxData request)) (Signature request)
      | None => false
      end
  | MessageFilter pattern =>
      is_ok (filter_Authenticate LegacyNewDecFromStr pattern (message_json (rq_Msg request)))
  | AllOf sa subs =>
      split_ok sa subs request (fun sigs => all_true (sub_request sa sigs request) 0 (map (policy ctx) subs))
  | AnyOf sa subs =>
      split_ok sa subs request (fun sigs => any_true (sub_request sa sigs request) 0 (map (policy ctx) subs))
  | _ => false
  end.

(** A method decides [b] with at most [n] gas: it leaves the state alone, and
    answers [b] unless the gas does not reach. *)
Definition decides (m : meth (world B * G) sa_fail unit) (n : Z) (b : bool) (w : world B) (g : G) : Prop :=
  let '((w', g'), r) := m (w, g) in
  w' = w /\ GasLimit g' = GasLimit g /\
  ((r = Err OutOfGas /\ GasLimit g < GasConsumed g + n) \/
   (GasConsumed g <= GasConsumed g' <= GasConsumed g + n /\
    ((r = Ok tt /\ b = true) \/ ((exists e, r = Err (Fail e)) /\ b = false)))).

Lemma decides_fail n e w g : 0 <= n -> decides (mfail (Fail e)) n false w g.
Proof. intros Hn. unfold decides, mfail. split; [done|]. split; [done|]. right. split; [lia|]. right. eauto. Qed.
Lemma decides_ok n w g : 0 <= n -> decides (mret tt) n true w g.
Proof. intros Hn. unfold decides, mret. split; [done|]. split; [done|]. right. split; [lia|]. by left. Qed.

(** Sub-authenticators with their gas bound and their answer. *)
Definition all_decide (w : world B) (subs : list (AuthenticationRequest -> meth (world B * G) sa_fail unit))
    (ns : list Z) (ps : list (AuthenticationRequest -> bool)) : Prop :=
  length ns = length subs /\ length ps = length subs /\
  forall i s n p, subs !! i = Some s -> ns !! i = Some n -> ps !! i = Some p ->
    0 <= n /\ forall r g, decides (s r) n (p r) w g.

Lemma all_decide_cons w s subs n ns p ps :
  all_decide w (s :: subs) (n :: ns) (p :: ps) ->
  (0 <= n /\ forall r g, decides (s r) n (p r) w g) /\ all_decide w subs ns ps.
Proof.
  intros (H1 & H2 & H3). split; [by apply (H3 0%nat s n p)|]. cbn in *. split; [lia|]. split; [lia|].
  intros i s' n' p' Hs Hn Hp. by apply (H3 (S i)).
Qed.
Lemma all_decide_pos w subs ns ps : all_decide w subs ns ps -> 0 <= foldr Z.add 0 ns.
Proof.
  revert subs ps. induction ns as [|n ns IH]; intros [|s subs] [|p ps] H; cbn; try lia;
    try (destruct H as (? & ? & _); done).
  apply all_decide_cons in H as [[Hz _] H]. apply IH in H. lia.
Qed.

Lemma all_loop_decides w req subs : forall i ns ps g, all_decide w subs ns ps ->
  decides (all_loop req i subs) (foldr Z.add 0 ns) (all_true req i ps) w g.
Proof.
  induction subs as [|s subs IH]; intros i [|n ns] [|p ps] g H; try (destruct H as (? & ? & _); done).
  - by apply decides_ok.
  - pose proof (all_decide_pos _ _ _ _ H) as Hp. apply all_decide_cons in H as [[Hn Hs] H].
    pose proof (all_decide_pos _ _ _ _ H) as Hp'. specialize (Hs (req i) g).
    unfold decides in *. cbn [all_loop all_true foldr] in *. unfold mbind.
    destruct (s (req i) (w, g)) as [[w1 g1] r1]. destruct Hs as (-> & Hl & [[-> Hg]|[Hc Hr]]).
    { split; [done|]. split; [done|]. left. split; [done|lia]. }
    destruct Hr as [[-> ->]|[[e ->] ->]]; cbn [andb].
    + specialize (IH (S i) ns ps g1 H). destruct (all_loop req (S i) subs (w, g1)) as [[w2 g2] r2].
      destruct IH as (-> & Hl2 & IH). split; [done|]. split; [congruence|].
      destruct IH as [[-> Hg]|[Hc2 Hr2]]; [left; split; [done|lia]|right; split; [lia|done]].
    + split; [done|]. split; [done|]. right. split; [lia|]. right. eauto.
Qed.

Lemma any_loop_decides w req subs : forall i ns ps g, all_decide w subs ns ps ->
  decides (any_loop req i subs) (foldr Z.add 0 ns) (any_true req i ps) w g.
Proof.
  induction subs as [|s subs IH]; intros i [|n ns] [|p ps] g H; try (destruct H as (? & ? & _); done).
  - by apply decides_fail.
  - pose proof (all_decide_pos _ _ _ _ H) as Hp. apply all_decide_cons in H as [[Hn Hs] H].
    pose proof (all_decide_pos _ _ _ _ H) as Hp'. specialize (Hs (req i) g).
    unfold decides in *. cbn [any_loop any_true foldr] in *.
    destruct (s (req i) (w, g)) as [[w1 g1] r1]. destruct Hs as (-> & Hl & [[-> Hg]|[Hc Hr]]).
    { split; [done|]. split; [done|]. left. split; [done|lia]. }
    destruct Hr as [[-> ->]|[[e ->] ->]]; cbn [orb].
    + split; [done|]. split; [done|]. right. split; [lia|]. by left.
    + specialize (IH (S i) ns ps g1 H). destruct (any_loop req (S i) subs (w, g1)) as [[w2 g2] r2].
      destruct IH as (-> & Hl2 & IH). split; [done|]. split; [congruence|].
      destruct IH as [[-> Hg]|[Hc2 Hr2]]; [left; split; [done|lia]|right; split; [lia|done]].
Qed.

(** A composite: the guard on the number of sub-authenticators, the split of
    the signatures, then the loop. *)
Lemma composite_decides sa subs request (loop : list bytes -> meth (world B * G) sa_fail unit) n k w g :
  0 <= n -> (forall sigs, decides (loop sigs) n (k sigs) w g) ->
  decides (exec! mlift (fail_if (Z.of_nat (length subs) =? 0) ErrInvalidRequest);
           run! sigs <- mlift (sub_signatures sa request (Z.of_nat (length subs))); loop sigs)
    n (split_ok sa subs request k) w g.
Proof.
  intros Hn Hk. unfold split_ok. unfold mbind at 1, mlift at 1, fail_if, guard.
  destruct (_ =? 0); cbn [negb andb].
  { apply (decides_fail n ErrInvalidRequest w g Hn). }
  unfold mbind, mlift. destruct (sub_signatures _ _ _) as [sigs|e] eqn:E; [apply Hk|].
  assert (He : exists e', e = Fail e').
  { destruct sa; [done|]. unfold sub_signatures, splitSignatures, opt_or, fail_if, guard, rbind in E.
    repeat case_match; simplify_eq; eauto. }
  destruct He as [e' ->]. by apply (decides_fail n e' w g).
Qed.

Lemma sub_decides ctx w cost subs :
  0 <= cost ->
  Forall (fun a => builtin a = true -> forall request g,
    decides (Authenticate ctx a request) (cost * sig_leaves a) (policy ctx a request) w g) subs ->
  forallb builtin subs = true -> Forall (fun a => 0 <= sig_leaves a) subs ->
  all_decide w (map (Authenticate ctx) subs) (map (fun a => cost * sig_leaves a) subs) (map (policy ctx) subs).
Proof.
  intros Hc IH Hb Hpos. rewrite Forall_forall in IH, Hpos. rewrite forallb_forall in Hb.
  split; [by rewrite !length_map|]. split; [by rewrite !length_map|].
  intros i s n p. change (map ?f subs) with (f <$> subs). rewrite !list_lookup_fmap.
  destruct (subs !! i) as [a|] eqn:E; [|done]. cbn. intros [= <-] [= <-] [= <-].
  apply list_elem_of_lookup_2 in E. split; [specialize (Hpos a E); nia|].
  intros r g. apply IH; [done|]. apply Hb. by apply list_elem_of_In.
Qed.

Lemma sig_leaves_pos a : 0 <= sig_leaves a.
Proof.
  induction a as [k|p|c p|c|sa l IH|sa l IH] using authenticator_nested; cbn [sig_leaves]; try lia;
    induction IH as [|x l Hx Hl IHl]; cbn; lia.
Qed.
Lemma sum_cost cost l : foldr Z.add 0 (map (fun a => cost * sig_leaves a) l) = cost * foldr Z.add 0 (map sig_leaves l).
Proof. induction l as [|a l IH]; cbn; lia. Qed.

Lemma Authenticate_decides ctx a w : forall request g,
  0 <= SigVerifyCostSecp256k1 (sa_rest w) -> builtin a = true ->
  decides (Authenticate ctx a request) (SigVerifyCostSecp256k1 (sa_rest w) * sig_leaves a) (policy ctx a request) w g.
Proof.
  induction a as [k|p|c p|c|sa l IH|sa l IH] using authenticator_nested; intros request g Hc Hb; try done.
  - cbn [Authenticate policy sig_leaves]. rewrite Z.mul_1_r. unfold sig_Authenticate. unfold decides, mbind at 1, mget. cbn [fst].
    set (cost := SigVerifyCostSecp256k1 _) in *. unfold mbind, ConsumeGas_ctx. cbn [fst snd].
    pose proof (consume_limit cost g) as Hl. pose proof (consume_panics cost g) as Hp.
    pose proof (consume_adds cost g) as Ha. destruct (meter_ConsumeGas cost g) as [g' panics]. cbn in *.
    destruct panics; [split; [done|]; split; [done|]; left; split; [done|by apply Hp]|].
    specialize (Ha eq_refl). destruct (Simulate request || cx_IsReCheckTx ctx).
    { split; [done|]. split; [done|]. right. split; [lia|]. by left. }
    destruct k as [key|]; cbn; [|split; [done|]; split; [done|]; right; split; [lia|]; right; eauto].
    destruct (VerifySignature _ _ _); cbn; (split; [done|]; split; [done|]; right; split; [lia|]); eauto.
  - cbn [Authenticate policy sig_leaves]. rewrite Z.mul_0_r. unfold decides, mlift, lift_filter.
    split; [done|]. split; [done|]. right. split; [lia|].
    destruct (filter_Authenticate _ _ _) as [[]|e]; cbn; eauto.
  - cbn [builtin] in Hb. cbn [Authenticate policy sig_leaves].
    pose proof (sub_decides ctx w _ l Hc (Forall_impl _ _ _ IH (fun a H Hb r g => H r g Hc Hb)) Hb
      (Forall_true _ _ sig_leaves_pos)) as Hd.
    unfold allof_Authenticate, anyof_Authenticate. rewrite length_map.
    rewrite <- sum_cost. apply composite_decides; [by eapply all_decide_pos|].
    intros sigs. by apply all_loop_decides.
  - cbn [builtin] in Hb. cbn [Authenticate policy sig_leaves].
    pose proof (sub_decides ctx w _ l Hc (Forall_impl _ _ _ IH (fun a H Hb r g => H r g Hc Hb)) Hb
      (Forall_true _ _ sig_leaves_pos)) as Hd.
    unfold allof_Authenticate, anyof_Authenticate. rewrite length_map.
    rewrite <- sum_cost. apply composite_decides; [by eapply all_decide_pos|].
    intros sigs. by apply any_loop_decides.
Qed.
(** ** Confirmation in cached contexts *)

Lemma any_cached_ok req subs : forall i w g w' g',
  any_cached_loop (B := B) (G := G) req i subs (w, g) = ((w', g'), Ok tt) ->
  exists j s g1, subs !! j = Some s /\ s (req (i + j)%nat) (w, g1) = ((w', g'), Ok tt) /\
    forall m, (m < j)%nat -> exists sm gm stm e, subs !! m = Some sm /\
      sm (req (i + m)%nat) (w, gm) = (stm, Err (Fail e)).
Proof.
  induction subs as [|s subs IH]; intros i w g w' g' H; cbn [any_cached_loop] in H; [done|].
  destruct (s (req i) (w, g)) as [[w1 g1] [[]|e]] eqn:E.
  - injection H as <- <-. exists 0%nat, s, g. rewrite Nat.add_0_r. split; [done|]. split; [done|]. intros m Hm. lia.
  - destruct e as [e| | | | |]; try done. cbn in H. destruct (IH (S i) w g1 w' g' H) as (j & s' & g2 & Hj & Hs & Hm).
    exists (S j), s', g2. rewrite Nat.add_succ_r. split; [done|]. split; [done|]. intros [|m] Hlt.
    + exists s, g, (w1, g1), e. rewrite Nat.add_0_r. done.
    + rewrite Nat.add_succ_r. apply Hm. lia.
Qed.
Lemma any_cached_err req subs : forall i w g w' g' e,
  any_cached_loop (B := B) (G := G) req i subs (w, g) = ((w', g'), Err e) -> w' = w.
Proof.
  induction subs as [|s subs IH]; intros i w g w' g' e H; cbn [any_cached_loop] in H; [by injection H|].
  destruct (s (req i) (w, g)) as [[w1 g1] [[]|e1]]; [done|].
  destruct e1; cbn in H; [by eapply IH|by injection H..].
Qed.

(** ** Ids *)

(** The ids under which the nodes of a tree are called. *)
Fixpoint id_loop (baseId : bytes) (i : nat) (subs : list (bytes -> list bytes)) : list bytes :=
  match subs with
  | [] => []
  | ids :: rest => ids (compositeId baseId (Z.of_nat i)) ++ id_loop baseId (S i) rest
  end.
Fixpoint node_ids (a : Authenticator) (id : bytes) : list bytes :=
  id :: match a with
        | AllOf _ subs | AnyOf _ subs => id_loop id 0 (map node_ids subs)
        | _ => []
        end.
(** The length of a Go slice is an [int]. *)
Fixpoint slices_ok (a : Authenticator) : Prop :=
  match a with
  | AllOf _ subs | AnyOf _ subs =>
      Z.of_nat (length subs) < 2 ^ 63 /\ foldr and True (map slices_ok subs)
  | _ => True
  end.

(** [t] is nothing, or goes on with a dot. *)
Definition below (id x : bytes) : Prop := exists t, x = id ++ t /\ (t = [] \/ exists t', t = str "." ++ t').

Lemma below_refl id : below id id.
Proof. exists []. by rewrite app_nil_r; auto. Qed.
Lemma below_sub id i x : below (compositeId id i) x -> below id x.
Proof.
  intros (t & -> & _). unfold compositeId. exists (str "." ++ FormatUint i ++ t). rewrite <- !app_assoc.
  split; [done|]. right. eauto.
Qed.

Lemma digits_split a b t1 t2 :
  forallb is_digit a = true -> forallb is_digit b = true ->
  (t1 = [] \/ exists t, t1 = str "." ++ t) -> (t2 = [] \/ exists t, t2 = str "." ++ t) ->
  a ++ t1 = b ++ t2 -> a = b.
Proof.
  revert b. induction a as [|x a IH]; intros [|y b] Ha Hb H1 H2 E; cbn [app forallb] in *.
  - done.
  - exfalso. apply andb_prop in Hb as [Hy _]. destruct H1 as [->|[t ->]]; [done|].
    injection E as <- _. done.
  - exfalso. apply andb_prop in Ha as [Hx _]. destruct H2 as [->|[t ->]]; [done|].
    injection E as -> _. done.
  - injection E as -> E. apply andb_prop in Ha as [_ Ha], Hb as [_ Hb]. by rewrite (IH b).
Qed.
Lemma below_format m n x : is_u64 m -> is_u64 n -> below (FormatUint m) x -> below (FormatUint n) x -> m = n.
Proof.
  intros Hm Hn (t1 & -> & H1) (t2 & E & H2). apply FormatUint_inj; [done|done|].
  by apply (digits_split _ _ t1 t2); try apply FormatUint_digits.
Qed.
Lemma below_siblings id i j x :
  is_u64 i -> is_u64 j -> below (compositeId id i) x -> below (compositeId id j) x -> i = j.
Proof.
  intros Hi Hj (t1 & -> & H1) (t2 & E & H2). unfold compositeId in E. rewrite <- !app_assoc in E.
  apply app_inv_head, app_inv_head in E. apply FormatUint_inj; [done|done|].
  by apply (digits_split _ _ t1 t2); try apply FormatUint_digits.
Qed.
Lemma not_below_self id i : ~ below (compositeId id i) id.
Proof.
  intros (t & E & _). apply (f_equal (@length _)) in E. unfold compositeId in E.
  rewrite !length_app in E. cbn in E. lia.
Qed.

Definition ids_ok (ids : bytes -> list bytes) : Prop :=
  forall id, NoDup (ids id) /\ forall x, x ∈ ids id -> below id x.

Lemma id_loop_ok id subs : Forall ids_ok subs -> forall i, Z.of_nat (i + length subs) < 2 ^ 63 ->
  NoDup (id_loop id i subs) /\
  forall x, x ∈ id_loop id i subs -> exists j, (i <= j < i + length subs)%nat /\ below (compositeId id (Z.of_nat j)) x.
Proof.
  induction 1 as [|ids subs Hids Hs IH]; intros i Hi; cbn [id_loop length] in *.
  { split; [constructor|]. intros x Hx. by apply elem_of_nil in Hx. }
  destruct (IH (S i)) as [Hn Hb]; [lia|]. destruct (Hids (compositeId id (Z.of_nat i))) as [Hn1 Hb1]. split.
  - apply NoDup_app. split; [done|]. split; [|done]. intros x Hx1 Hx2. apply Hb1 in Hx1.
    destruct (Hb x Hx2) as (j & Hj & Hx). assert (Z.of_nat i = Z.of_nat j); [|lia].
    eapply below_siblings; [| |exact Hx1|exact Hx]; unfold is_u64; lia.
  - intros x [Hx|Hx]%elem_of_app; [exists i; split; [lia|by apply Hb1]|].
    destruct (Hb x Hx) as (j & Hj & Hbj). exists j. split; [lia|done].
Qed.

Lemma node_ids_composite l : Z.of_nat (length l) < 2 ^ 63 -> Forall ids_ok (map node_ids l) ->
  ids_ok (fun id => id :: id_loop id 0 (map node_ids l)).
Proof.
  intros Hl Hok id. destruct (id_loop_ok id (map node_ids l) Hok 0) as [Hn Hb]; [rewrite length_map; lia|]. split.
  - constructor; [|done]. intros Hx. destruct (Hb id Hx) as (j & _ & Hj). by eapply not_below_self.
  - intros x [->|Hx]%elem_of_cons; [apply below_refl|]. destruct (Hb x Hx) as (j & _ & Hj). by eapply below_sub.
Qed.

Lemma node_ids_ok a : slices_ok a -> ids_ok (node_ids a).
Proof.
  induction a as [k|p|c p|c|sa l IH|sa l IH] using authenticator_nested; intros Hs.
  1-4: intros id; cbn; split; [apply NoDup_singleton|]; intros x ->%list_elem_of_singleton; apply below_refl.
  all: destruct Hs as [Hl Hs]; apply node_ids_composite; [done|]; clear Hl;
    induction IH as [|x l Hx Hf IHl]; cbn in *; constructor; [apply Hx, Hs|apply IHl, Hs].
Qed.

(** ** Properties *)

(** C26: A tree of signature checks, message filters and composites decides its
    boolean policy: authentication leaves the chain state alone, answers without
    an error exactly when the policy holds, and panics only when the gas limit
    is below what its signature checks cost. Partitioned composites give each
    sub-authenticator its own signature. *)
Theorem Authenticate_policy ctx a request (w : world B) (g : G) :
  0 <= SigVerifyCostSecp256k1 (sa_rest w) -> builtin a = true ->
  let cost := SigVerifyCostSecp256k1 (sa_rest w) * sig_leaves a in
  let '((w', g'), r) := Authenticate ctx a request (w, g) in
  w' = w /\ GasLimit g' = GasLimit g /\
  ((r = Err OutOfGas /\ GasLimit g < GasConsumed g + cost) \/
   (GasConsumed g <= GasConsumed g' <= GasConsumed g + cost /\
    ((r = Ok tt /\ policy ctx a request = true) \/
     ((exists e, r = Err (Fail e)) /\ policy ctx a request = false)))).
Proof. intros Hc Hb. by apply (Authenticate_decides ctx a w request g). Qed.

(** [ConfirmExecution] of an [AnyOf] keeps exactly the changes of the first
    sub-authenticator that confirms, run on the state the call started from;
    the ones before it failed on that same state. When none confirms, or one
    panics, the state is unchanged. *)
Theorem AnyOf_ConfirmExecution_isolated sa subs request (w w' : world B) (g g' : G) r :
  ConfirmExecution (AnyOf sa subs) request (w, g) = ((w', g'), r) ->
  match r with
  | Ok _ => exists sigs j sub g1,
      subs !! j = Some sub /\
      ConfirmExecution sub (sub_request sa sigs request j) (w, g1) = ((w', g'), Ok tt) /\
      forall m, (m < j)%nat -> exists subm gm stm e, subs !! m = Some subm /\
        ConfirmExecution subm (sub_request sa sigs request m) (w, gm) = (stm, Err (Fail e))
  | Err _ => w' = w
  end.
Proof.
  cbn [ConfirmExecution]. unfold anyof_ConfirmExecution, mbind, mlift. destruct (sub_signatures _ _ _) as [sigs|e].
  2:{ intros [= <- _ <-]. done. }
  destruct r as [[]|e]; [|apply any_cached_err].
  intros (j & s & g1 & Hj & Hs & Hm)%any_cached_ok. cbn [Nat.add] in *. exists sigs, j.
  change (map (ConfirmExecution (B := B) (G := G)) subs) with (ConfirmExecution (B := B) (G := G) <$> subs) in *.
  rewrite list_lookup_fmap in Hj. destruct (subs !! j) as [sub|] eqn:Ej; [|done]. injection Hj as <-.
  exists sub, g1. split; [done|]. split; [done|]. intros m Hlt. destruct (Hm m Hlt) as (sm & gm & stm & e & Hsm & He).
  rewrite list_lookup_fmap in Hsm. destruct (subs !! m) as [subm|]; [|done]. injection Hsm as <-. eauto 7.
Qed.

(** The nodes of an authenticator tree are called under ids that are all
    different, and the trees of two authenticators of the module never share an
    id, so what a contract files under an authenticator id belongs to one node. *)
Theorem node_ids_unique a b m n :
  slices_ok a -> slices_ok b -> is_u64 m -> is_u64 n -> m <> n ->
  NoDup (node_ids a (FormatUint m)) /\
  forall x, x ∈ node_ids a (FormatUint m) -> x ∈ node_ids b (FormatUint n) -> False.
Proof.
  intros Ha Hb Hm Hn Hne. destruct (node_ids_ok a Ha (FormatUint m)) as [Hnd Hba].
  destruct (node_ids_ok b Hb (FormatUint n)) as [_ Hbb]. split; [done|].
  intros x Hxa Hxb. apply Hne. by apply (below_format m n x); [| |apply Hba|apply Hbb].
Qed.

(** C31: Initializing a composite ends: configurations nested in base64 are
    shorter than the text around them, so the length of the configuration is
    enough fuel, and any more gives the same result. *)
Theorem Initialize_terminates am a config f :
  (length config < f)%nat ->
  Initialize am a config <> Err OutOfFuel /\ Initialize_fuel f am a config = Initialize am a config.
Proof.
  intros Hf. split; [apply Initialize_no_fuel; lia|]. apply Initialize_fuel_eq; lia.
Qed.

(** What an account may add can be used: when the templates of the manager
    are as registered and [OnAuthenticatorAdded] accepts a configuration, nested
    composites included, [Initialize] accepts it too. *)
Theorem added_initializes am account a config id (st st' : world B * G) :
  (forall k b, registeredAuthenticators am !! k = Some b -> template b) -> template a ->
  OnAuthenticatorAdded am account a config id st = (st', Ok tt) ->
  exists a', Initialize am a config = Ok a'.
Proof. apply added_init. Qed.

(** Registering and unregistering keep the manager's key list equal to the
    sorted list of registered types, each once, so listing the authenticators
    gives every registered one and never a nil. *)
Theorem manager_keeps_keys am a l :
  manager_wf am ->
  manager_wf (RegisterAuthenticator a am) /\ manager_wf (UnregisterAuthenticator a am) /\
  manager_wf (ResetAuthenticators am) /\
  (NoDup (map Authenticator_Type l) -> manager_wf (InitializeAuthenticators l am)) /\
  (forall o, o ∈ GetRegisteredAuthenticators am -> o <> None) /\
  (forall b, Some b ∈ GetRegisteredAuthenticators am <->
     registeredAuthenticators am !! Authenticator_Type b = Some b).
Proof.
  intros Hwf. split; [by apply register_wf|]. split; [by apply unregister_wf|]. split.
  { split; [constructor|]. split; [constructor|]. split; [|done]. intros k. cbn. rewrite lookup_empty.
    split; [by intros ?%elem_of_nil|by intros [? ?]]. }
  split; [by apply initialize_wf|]. destruct Hwf as (_ & _ & Hk & Ht).
  unfold GetRegisteredAuthenticators. split.
  - intros o (k & <- & Hin)%list_elem_of_In%in_map_iff. apply list_elem_of_In, Hk in Hin as [? ->]. done.
  - intros b. rewrite list_elem_of_In, in_map_iff. split.
    + intros (k & Hb & _). by rewrite (Ht k b).
    + intros Hb. eexists. split; [done|]. apply list_elem_of_In, Hk. eauto.
Qed.
End Policy.

(** ** A small instance, for the witnesses *)

(** A meter is its limit and what was consumed. *)
#[global] Instance ToyMeter : GasMeter (Z * Z) := {|
  NewGasMeter l := (l, 0);
  GasLimit := fst;
  GasConsumed := snd;
  meter_ConsumeGas a g := ((g.1, g.2 + a), g.1 <? g.2 + a)
|}.
#[global] Instance ToyMeterLaws : GasMeterLaws (Z * Z).
Proof. split; cbn; intros; [done|done|apply Z.ltb_lt|done|lia]. Qed.

(** Contracts file what they are asked under their address; one refuses. A
    signature is valid when it is the key. *)
Definition toy_sudo (c m : bytes) (st : world toy * (Z * Z)) : (world toy * (Z * Z)) * result sa_fail unit :=
  if bytes_eqb c (str "refuses") then (st, Err (Fail ErrContract))
  else ((MkWorld (store_Set c m (sa_store st.1)) (sa_params st.1) (sa_rest st.1), st.2), Ok tt).
#[global] Instance ToySa : SaSdk toy (Z * Z) := {|
  Sudo := toy_sudo;
  SudoMsg_json m := match m with
                    | SudoTrack r | SudoConfirmExecution r => tr_AuthenticatorId r
                    | SudoAuthenticate r => AuthenticatorId r
                    | OnAuthenticatorAddedRequest _ _ i | OnAuthenticatorRemovedRequest _ _ i => i
                    end;
  VerifySignature k m s := bytes_eqb k s;
  SigVerifyCostSecp256k1 _ := 1000;
  message_json m := Some (Value m);
  LegacyNewDecFromStr := ex_dec;
  PathAVerifier := None
|}.

Definition ex_world : world toy := MkWorld ∅ None (MkToy ∅ ∅ ∅ 0).
Definition sa_request (sig : bytes) : AuthenticationRequest :=
  MkRequest (FormatUint 7) (str "alice") (str "alice") [] [] (MkLocalAny (str "/bank.send") (jtext "{'to':'bob'}")) 0
    sig (MkSignModeData [] []) (MkExplicitTxData [] 1 0 0 [] []) (MkSSD [] []) false [].
Definition ex_sa_ctx : sa_ctx := MkSaCtx false false 5 (str "terp").
Definition ex_tree : Authenticator :=
  AllOf Single [SignatureVerification (Some (str "key")); MessageFilter (jtext "{'to':'bob'}")].
Definition ex_manager : AuthenticatorManager :=
  InitializeAuthenticators [NewSignatureVerification; NewMessageFilter; NewAllOf; NewAnyOf; NewPartitionedAnyOf;
    NewPartitionedAllOf] NewAuthenticatorManager.
(** Two nested configurations in base64: the empty pattern object, twice. *)
Definition ex_config : bytes :=
  jtext "[{'type':'MessageFilter','config':'e30='},{'type':'MessageFilter','config':'e30='}]".

Lemma Authenticate_policy_witness :
  (Authenticate ex_sa_ctx ex_tree (sa_request (str "key")) (ex_world, (5000, 0))).2 = Ok tt /\
  policy ex_sa_ctx ex_tree (sa_request (str "key")) = true.
Proof.
  assert (E : (Authenticate ex_sa_ctx ex_tree (sa_request (str "key")) (ex_world, (5000, 0))).2 = Ok tt) by vm_refl.
  split; [assumption|].
  assert (Hc : 0 <= SigVerifyCostSecp256k1 (sa_rest ex_world)) by (cbn; lia).
  pose proof (Authenticate_policy ex_sa_ctx ex_tree (sa_request (str "key")) ex_world (5000, 0) Hc eq_refl) as H.
  cbv zeta in H.
  destruct (Authenticate ex_sa_ctx ex_tree (sa_request (str "key")) (ex_world, (5000, 0))) as [[w' g'] r].
  cbn in E. subst r. destruct H as (_ & _ & [[? _]|[_ [[_ ?]|[[? ?] _]]]]); [discriminate|assumption|discriminate].
Defined.

Lemma AnyOf_ConfirmExecution_isolated_witness :
  exists w' g', ConfirmExecution (AnyOf Single [CosmwasmAuthenticator (str "refuses") []; CosmwasmAuthenticator (str "c2") []])
      (sa_request []) (ex_world, (5000, 0)) = ((w', g'), Ok tt) /\
    exists sigs j sub g1, [CosmwasmAuthenticator (str "refuses") []; CosmwasmAuthenticator (str "c2") []] !! j = Some sub /\
      ConfirmExecution sub (sub_request Single sigs (sa_request []) j) (ex_world, g1) = ((w', g'), Ok tt).
Proof.
  destruct (ConfirmExecution (AnyOf Single [CosmwasmAuthenticator (str "refuses") []; CosmwasmAuthenticator (str "c2") []])
      (sa_request []) (ex_world, (5000, 0))) as [[w' g'] r] eqn:E.
  pose proof (AnyOf_ConfirmExecution_isolated _ _ _ _ _ _ _ _ E) as H.
  assert (Er : r = Ok tt).
  { change r with (w', g', r).2. rewrite <- E. vm_refl. }
  subst r. exists w', g'. split; [reflexivity|].
  destruct H as (sigs & j & sub & g1 & Hj & Hs & _). exists sigs, j, sub, g1. split; assumption.
Defined.

Lemma node_ids_unique_witness :
  NoDup (node_ids ex_tree (FormatUint 7)) /\ node_ids ex_tree (FormatUint 7) = [str "7"; str "7.0"; str "7.1"].
Proof.
  split; [|vm_refl].
  apply (node_ids_unique ex_tree ex_tree 7 8); unfold is_u64; [by cbn|by cbn|lia|lia|lia].
Defined.

Lemma Initialize_terminates_witness :
  Initialize ex_manager NewAllOf ex_config =
    Ok (AllOf Single [MessageFilter (str "{}"); MessageFilter (str "{}")]) /\
  Initialize_fuel 1000 ex_manager NewAllOf ex_config = Initialize ex_manager NewAllOf ex_config.
Proof.
  split; [vm_refl|]. apply (Initialize_terminates ex_manager NewAllOf ex_config 1000).
  apply Nat.ltb_lt. vm_refl.
Defined.

Lemma ex_manager_templates k b : registeredAuthenticators ex_manager !! k = Some b -> template b.
Proof.
  intros H.
  assert (Hf : Forall (fun kb : bytes * Authenticator => match kb.2 with AllOf _ s | AnyOf _ s => s = [] | _ => True end)
    (map_to_list (registeredAuthenticators ex_manager))) by (vm_compute; repeat constructor).
  rewrite Forall_forall in Hf. apply (Hf (k, b)). by apply elem_of_map_to_list.
Qed.
Lemma added_initializes_witness :
  exists a', Initialize ex_manager NewAnyOf ex_config = Ok a'.
Proof.
  apply (added_initializes ex_manager (str "alice") NewAnyOf ex_config (str "1")
    (ex_world, (5000, 0)) (ex_world, (5000, 0))); [exact ex_manager_templates|reflexivity|vm_refl].
Defined.

Lemma manager_keeps_keys_witness :
  manager_wf (RegisterAuthenticator NewSignatureVerification NewAuthenticatorManager) /\
  orderedKeys ex_manager = [str "AllOf"; str "AnyOf"; str "MessageFilter"; str "PartitionedAllOf";
    str "PartitionedAnyOf"; str "SignatureVerification"].
Proof.
  split; [|vm_refl].
  apply (manager_keeps_keys NewAuthenticatorManager NewSignatureVerification []).
  split; [constructor|]. split; [constructor|]. split; [|done]. intros k. cbn. rewrite lookup_empty.
  split; [by intros ?%elem_of_nil|by intros [? ?]].
Defined.

(** A nested type that is not registered is a nil pointer, not an error, when
    the authenticator is used. *)
Example unregistered_sub_panics :
  Initialize ex_manager NewAllOf
    (jtext "[{'type':'Spend','config':'e30='},{'type':'MessageFilter','config':'e30='}]") = Err NilPointer.
Proof. vm_refl. Qed.
(** A proof authenticator pays its static gas in the decorator and again here. *)
Example zk_charges_static_gas_itself :
  (Authenticate ex_sa_ctx (ZkProofAuthenticatorV1 (MkZkConfig 1 [] 700 true 10)) (sa_request []) (ex_world, (5000, 0))).1.2
    = (5000, 700).
Proof. vm_refl. Qed.
