(* ===== verification/SaKeeper.v ===== *)
(** * x/smart-account: the keeper

    [types/keys.go], [keeper/], [genesis.go]: the store of authenticators under
    [[2]|account|id|], the counter of ids, the parameters with the circuit
    breaker, the message server and genesis. [keeper_refines] shows that the
    store implements a map from ids to authenticators, as long as the contracts
    called back do not write the module's store themselves. The protobuf codec
    is a parameter. *)

From S2P Require Import Prelude KVStore Json Sdk SaFilter SaAuth.
Open Scope go_scope.

(** ** Data *)

Record AccountAuthenticator := MkAccountAuthenticator { aa_Id : Z; aa_Type : bytes; aa_Config : bytes }.
Record AuthenticatorData := MkAuthenticatorData { ad_Address : bytes; ad_Authenticators : list AccountAuthenticator }.
Record SaGenesis := MkSaGenesis {
  gs_Params : SaParams; gs_NextAuthenticatorId : Z; gs_AuthenticatorData : list AuthenticatorData
}.
(** The keeper's own fields; the cached parameter is [active_cache]. *)
Record SaKeeper := MkSaKeeper { CircuitBreakerGovernor : bytes; k_manager : AuthenticatorManager }.

Class SaCodec := {
  Marshal_AA : AccountAuthenticator -> bytes;
  Unmarshal_AA : bytes -> option AccountAuthenticator;
  Marshal_UInt64Value : Z -> bytes;
  Unmarshal_UInt64Value : bytes -> option Z
}.
Class SaCodecLaws `{SaCodec} := {
  aa_roundtrip : forall a, is_u64 (aa_Id a) -> Unmarshal_AA (Marshal_AA a) = Some a;
  uint64_roundtrip : forall z, is_u64 z -> Unmarshal_UInt64Value (Marshal_UInt64Value z) = Some z
}.

(** ** Keys *)

Definition KeySeparator : byte := "|"%byte.
(** [fmt.Sprint] of a byte slice: decimals in brackets. *)
Definition Sprint_bytes (bz : bytes) : bytes :=
  str "[" ++ Join (map (fun b => FormatUint (byte_val b)) bz) " "%byte ++ str "]".
Definition BuildKey (elements : list bytes) : bytes := Join elements KeySeparator ++ [KeySeparator].
Definition KeyNextAccountAuthenticatorIdPrefix : bytes := [Byte.x01].
Definition KeyAccountAuthenticatorsPrefix : bytes := [Byte.x02].
Definition KeyNextAccountAuthenticatorId : bytes := BuildKey [Sprint_bytes KeyNextAccountAuthenticatorIdPrefix].
Definition KeyAccountAuthenticatorsPrefixId : bytes := BuildKey [Sprint_bytes KeyAccountAuthenticatorsPrefix].

Definition FirstAuthenticatorId : Z := 1.

(** The active flag as the parameter store holds it: JSON, nothing when unset. *)
Definition raw_active (p : option SaParams) : bytes :=
  match p with
  | None => []
  | Some p => if IsSmartAccountActive p then str "true" else str "false"
  end.
(** [json.Unmarshal] into a [bool], false on an error. *)
Definition decode_active (bz : bytes) : bool :=
  match json_parse bz with
  | Some v => default false (dec_bool false v)
  | None => false
  end.
(** [isSmartAccountActiveBz] and [isSmartAccountActiveVal]. *)
Definition active_cache : Type := bytes * bool.
Definition new_cache : active_cache := ([], false).
Definition GetIsSmartAccountActive (p : option SaParams) (c : active_cache) : active_cache * bool :=
  let bz := raw_active p in
  let c' := if bytes_eqb bz c.1 then c else (bz, decode_active bz) in
  (c', c'.2).

Section Operations.
Context {B G : Type} {SdkB : Sdk B} {GM : GasMeter G} {SS : SaSdk B G} {Cd : SaCodec}.
Abbreviation St := (world B * G)%type.
Abbreviation M := (meth St sa_fail).

Definition KeyAccount (account : bytes) : bytes :=
  BuildKey [Sprint_bytes KeyAccountAuthenticatorsPrefix; AccAddress_String account].
Definition KeyAccountId (account : bytes) (id : Z) : bytes :=
  BuildKey [Sprint_bytes KeyAccountAuthenticatorsPrefix; AccAddress_String account; FormatUint id].

Definition upd_sa_store (f : store -> store) : M unit :=
  mput (fun st => (MkWorld (f (sa_store st.1)) (sa_params st.1) (sa_rest st.1), st.2)).

(** *** Parameters *)

Definition sa_GetParams : M SaParams :=
  fun st => (st, match sa_params st.1 with Some p => Ok p | None => Err Panicked end).
Definition validateCircuitBreakerControllers (controllers : list bytes) : bool :=
  forallb (fun addr => match AccAddressFromBech32 addr with Some _ => true | None => false end) controllers.
Definition SaParams_Validate (p : SaParams) : bool := validateCircuitBreakerControllers (CircuitBreakerControllers p).
(** [SetParamSet] validates and panics. *)
Definition sa_SetParams (p : SaParams) : M unit :=
  exec! mlift (guard (negb (SaParams_Validate p)) Panicked);
  mput (fun st => (MkWorld (sa_store st.1) (Some p) (sa_rest st.1), st.2)).
Definition SetActiveState (active : bool) : M unit :=
  run! params <- sa_GetParams;
  sa_SetParams (MkSaParams (MaximumUnauthenticatedGas params) active (CircuitBreakerControllers params)).

(** *** Reading authenticators *)

Fixpoint gather {A : Type} (parse : bytes -> bytes -> option A) (entries : list (bytes * bytes)) :
    result sa_fail (list A) :=
  match entries with
  | [] => Ok []
  | (k, v) :: rest =>
      try! a <- opt_or (parse k v) ErrEncode;
      try! l <- gather parse rest;
      Ok (a :: l)
  end.
Definition GetAuthenticatorDataForAccount (w : world B) (account : bytes) :
    result sa_fail (list AccountAuthenticator) :=
  gather (fun _ v => Unmarshal_AA v) (IteratePrefix (sa_store w) (KeyAccount account)).
(** The id is an [int] that held a [uint64]. *)
Definition GetSelectedAuthenticatorData (w : world B) (account : bytes) (selectedAuthenticator : Z) :
    result sa_fail AccountAuthenticator :=
  match sa_store w !! KeyAccountId account (u64 selectedAuthenticator) with
  | None => Err (Fail ErrInvalidRequest)
  | Some bz => opt_or (Unmarshal_AA bz) ErrEncode
  end.
Definition GetInitializedAuthenticatorForAccount (k : SaKeeper) (w : world B) (account : bytes)
    (selectedAuthenticator : Z) : result sa_fail (Z * Authenticator) :=
  try! fromStore <- GetSelectedAuthenticatorData w account selectedAuthenticator;
  match GetAuthenticatorByType (k_manager k) (aa_Type fromStore) with
  | None => Err (Fail ErrLogic)
  | Some uninitialized =>
      try! initialized <- Initialize (k_manager k) uninitialized (aa_Config fromStore);
      Ok (aa_Id fromStore, initialized)
  end.

(** *** Writing authenticators *)

Definition SetNextAuthenticatorId (id : Z) : M unit :=
  upd_sa_store (store_Set KeyNextAccountAuthenticatorId (Marshal_UInt64Value id)).
Definition InitializeOrGetNextAuthenticatorId : M Z :=
  fun st =>
    match sa_store st.1 !! KeyNextAccountAuthenticatorId with
    | None => (exec! SetNextAuthenticatorId FirstAuthenticatorId; mret FirstAuthenticatorId) st
    | Some bz => match Unmarshal_UInt64Value bz with
                 | Some id => (st, Ok id)
                 | None => (st, Err Panicked)
                 end
    end.

Definition AddAuthenticator (k : SaKeeper) (account authenticatorType config : bytes) : M Z :=
  match GetAuthenticatorByType (k_manager k) authenticatorType with
  | None => mfail (Fail ErrNotRegistered)
  | Some impl =>
      run! id <- InitializeOrGetNextAuthenticatorId;
      exec! OnAuthenticatorAdded (k_manager k) account impl config (FormatUint id);
      exec! SetNextAuthenticatorId (u64 (id + 1));
      exec! upd_sa_store (store_Set (KeyAccountId account id)
                            (Marshal_AA (MkAccountAuthenticator id authenticatorType config)));
      mret id
  end.
Definition RemoveAuthenticator (k : SaKeeper) (account : bytes) (authenticatorId : Z) : M unit :=
  let key := KeyAccountId account authenticatorId in
  run! found <- mget (fun st => sa_store st.1 !! key);
  match found with
  | None => mfail (Fail ErrNotFound)
  | Some bz =>
      run! existing <- mlift (opt_or (Unmarshal_AA bz) ErrEncode);
      match GetAuthenticatorByType (k_manager k) (aa_Type existing) with
      | None => mfail (Fail ErrNotRegistered)
      | Some impl =>
          exec! OnAuthenticatorRemoved (k_manager k) account impl (aa_Config existing) (FormatUint authenticatorId);
          upd_sa_store (store_Delete key)
      end
  end.

(** *** The message server; [active] is [GetIsSmartAccountActive] *)

Definition validateSender (sender : bytes) : result sa_fail unit :=
  check! opt_or (AccAddressFromBech32 sender) ErrAddress; Ok tt.
(** [GetSigners]. *)
Definition getSender (sender : bytes) : result sa_fail bytes :=
  match AccAddressFromBech32 sender with Some addr => Ok addr | None => Err Panicked end.

Definition msg_AddAuthenticator (k : SaKeeper) (c : active_cache) (Sender Type_ Data : bytes) : M unit :=
  run! active <- mget (fun st => (GetIsSmartAccountActive (sa_params st.1) c).2);
  exec! mlift (fail_if (negb active) ErrUnauthorized);
  run! sender <- mlift (opt_or (AccAddressFromBech32 Sender) ErrAddress);
  exec! AddAuthenticator k sender Type_ Data;
  mret tt.
Definition msg_RemoveAuthenticator (k : SaKeeper) (c : active_cache) (Sender : bytes) (Id : Z) : M unit :=
  run! active <- mget (fun st => (GetIsSmartAccountActive (sa_params st.1) c).2);
  exec! mlift (fail_if (negb active) ErrUnauthorized);
  run! sender <- mlift (opt_or (AccAddressFromBech32 Sender) ErrAddress);
  RemoveAuthenticator k sender Id.
Definition msg_SetActiveState (k : SaKeeper) (Sender : bytes) (Active : bool) : M unit :=
  run! signer <- mlift (getSender Sender);
  exec! (if Active then mlift (fail_if (negb (bytes_eqb signer (CircuitBreakerGovernor k))) ErrUnauthorized)
         else
           run! params <- sa_GetParams;
           mlift (fail_if (negb (existsb (fun controller => bytes_eqb controller (AccAddress_String signer))
                                   (CircuitBreakerControllers params))) ErrUnauthorized));
  SetActiveState Active.

(** *** Genesis *)

(** The account of a key is its second part; the export groups the entries of
    an account that follow each other. *)
Definition key_account (key : bytes) : bytes := nth 1 (Split key KeySeparator) [].
Fixpoint group_entries (acc : list AuthenticatorData) (l : list (bytes * AccountAuthenticator)) :
    list AuthenticatorData :=
  match l with
  | [] => acc
  | (addr, a) :: l' =>
      let acc' :=
        match last acc with
        | Some d => if bytes_eqb (ad_Address d) addr
                    then removelast acc ++ [MkAuthenticatorData addr (ad_Authenticators d ++ [a])]
                    else acc ++ [MkAuthenticatorData addr [a]]
        | None => [MkAuthenticatorData addr [a]]
        end in
      group_entries acc' l'
  end.
Definition GetAllAuthenticatorData (w : world B) : result sa_fail (list AuthenticatorData) :=
  try! l <- gather (fun key v => pair (key_account key) <$> Unmarshal_AA v)
              (IteratePrefix (sa_store w) KeyAccountAuthenticatorsPrefixId);
  Ok (group_entries [] l).

(** [OnAuthenticatorAdded] runs in a cached context that is dropped. *)
Definition AddAuthenticatorWithId (k : SaKeeper) (account authenticatorType config : bytes) (id : Z) : M unit :=
  match GetAuthenticatorByType (k_manager k) authenticatorType with
  | None => mfail (Fail ErrNotRegistered)
  | Some impl =>
      exec! (fun st => let '(st', r) := OnAuthenticatorAdded (k_manager k) account impl config (FormatUint id) st in
                       ((st.1, st'.2), r));
      upd_sa_store (store_Set (KeyAccountId account id)
                      (Marshal_AA (MkAccountAuthenticator id authenticatorType config)))
  end.
(** Every error is a panic. *)
Definition or_panic {A : Type} (m : M A) : M A :=
  fun st => match m st with
            | (st', Err (Fail _)) => (st', Err Panicked)
            | done => done
            end.
Definition init_account (k : SaKeeper) (d : AuthenticatorData) : M unit :=
  match AccAddressFromBech32 (ad_Address d) with
  | None => mfail Panicked
  | Some accAddr =>
      mrange (ad_Authenticators d) (fun a =>
        or_panic (AddAuthenticatorWithId k accAddr (aa_Type a) (aa_Config a) (aa_Id a)))
  end.
Definition sa_InitGenesis (k : SaKeeper) (gs : SaGenesis) : M unit :=
  exec! sa_SetParams (gs_Params gs);
  exec! SetNextAuthenticatorId
    (if gs_NextAuthenticatorId gs =? 0 then FirstAuthenticatorId else gs_NextAuthenticatorId gs);
  mrange (gs_AuthenticatorData gs) (init_account k).
Definition sa_ExportGenesis : M SaGenesis :=
  run! params <- sa_GetParams;
  run! next <- InitializeOrGetNextAuthenticatorId;
  run! all <- (fun st => (st, match GetAllAuthenticatorData st.1 with
                              | Ok l => Ok l
                              | Err _ => Err Panicked
                              end));
  mret (MkSaGenesis params next all).
Definition SaGenesis_Validate (gs : SaGenesis) : bool := SaParams_Validate (gs_Params gs).
End Operations.

(** ** Keys are distinct *)

Lemma key_prefix_text : Sprint_bytes KeyAccountAuthenticatorsPrefix = str "[2]".
Proof. vm_refl. Qed.
Lemma next_key_text : KeyNextAccountAuthenticatorId = str "[1]|".
Proof. vm_refl. Qed.

Section Keys.
Context {B : Type} {SdkB : Sdk B} {AL : AddressLaws B}.

(** An address the chain can print and read back. *)
Definition acct_ok (a : bytes) : Prop := AccAddressFromBech32 (AccAddress_String a) = Some a.
Lemma acct_of_bech32 s a : AccAddressFromBech32 s = Some a -> acct_ok a.
Proof. apply bech32_roundtrip. Qed.
Lemma acct_no_bar a : acct_ok a -> KeySeparator ∉ AccAddress_String a.
Proof. apply bech32_no_bar. Qed.
Lemma AccAddress_String_inj a b : acct_ok a -> acct_ok b -> AccAddress_String a = AccAddress_String b -> a = b.
Proof. unfold acct_ok. intros Ha Hb E. rewrite E in Ha. congruence. Qed.

Lemma KeyAccount_text a : KeyAccount a = str "[2]" ++ KeySeparator :: AccAddress_String a ++ [KeySeparator].
Proof. unfold KeyAccount, BuildKey. rewrite key_prefix_text. cbn [Join]. by rewrite <- app_assoc. Qed.
Lemma KeyAccountId_text a i :
  KeyAccountId a i =
  str "[2]" ++ KeySeparator :: AccAddress_String a ++ KeySeparator :: FormatUint i ++ [KeySeparator].
Proof.
  unfold KeyAccountId, BuildKey. rewrite key_prefix_text. cbn [Join].
  by rewrite <- !app_assoc, <- app_comm_cons, <- app_assoc.
Qed.
Lemma KeyAccountId_inj a b i j :
  acct_ok a -> acct_ok b -> is_u64 i -> is_u64 j -> KeyAccountId a i = KeyAccountId b j -> a = b /\ i = j.
Proof.
  intros Ha Hb Hi Hj. rewrite !KeyAccountId_text. intros E. apply app_inv_head in E. injection E as E.
  apply app_sep_inj in E as [Ea E]; [|by apply acct_no_bar..]. split; [by apply AccAddress_String_inj|].
  apply app_inv_tail in E. by apply FormatUint_inj.
Qed.
Lemma next_key_ne a i : KeyNextAccountAuthenticatorId <> KeyAccountId a i.
Proof. rewrite next_key_text, KeyAccountId_text. done. Qed.
Lemma KeyAccount_prefix a b i :
  acct_ok a -> acct_ok b -> has_prefix (KeyAccount a) (KeyAccountId b i) = true <-> a = b.
Proof.
  intros Ha Hb. rewrite has_prefix_true, KeyAccount_text, KeyAccountId_text. split.
  - intros [t E]. rewrite <- app_assoc in E. apply app_inv_head in E. injection E as E.
    rewrite <- app_assoc in E. apply app_sep_inj in E as [Ea _]; [|by apply acct_no_bar..].
    by symmetry; apply AccAddress_String_inj.
  - intros ->. exists (FormatUint i ++ [KeySeparator]). by rewrite <- app_assoc, <- app_comm_cons, <- app_assoc.
Qed.
Lemma prefix_KeyAccountId a i : has_prefix KeyAccountAuthenticatorsPrefixId (KeyAccountId a i) = true.
Proof.
  change KeyAccountAuthenticatorsPrefixId with (str "[2]|"). rewrite KeyAccountId_text.
  change (has_prefix (str "[2]|") (str "[2]|" ++ AccAddress_String a ++ KeySeparator :: FormatUint i ++ [KeySeparator])
    = true). apply has_prefix_app.
Qed.
Lemma prefix_KeyAccount a k : has_prefix (KeyAccount a) k = true -> has_prefix KeyAccountAuthenticatorsPrefixId k = true.
Proof.
  rewrite !has_prefix_true, KeyAccount_text. intros [t ->]. change KeyAccountAuthenticatorsPrefixId with (str "[2]|").
  exists (AccAddress_String a ++ [KeySeparator] ++ t). by rewrite <- app_assoc, <- app_comm_cons, <- app_assoc.
Qed.
Lemma key_account_text a i : acct_ok a -> key_account (KeyAccountId a i) = AccAddress_String a.
Proof.
  intros Ha. unfold key_account. rewrite KeyAccountId_text, Split_app by (apply (bool_decide_unpack _); by vm_compute).
  by rewrite Split_app by (by apply acct_no_bar).
Qed.
End Keys.

(** ** The abstract registry *)

(** The next id, and under each id the account, type and configuration. *)
Record registry := MkRegistry { rg_next : Z; rg_auth : gmap Z (bytes * (bytes * bytes)) }.

Section Refinement.
Context {B G : Type} {SdkB : Sdk B} {AL : AddressLaws B} {GM : GasMeter G} {SS : SaSdk B G}
  {Cd : SaCodec} {CL : SaCodecLaws}.

(** What the store holds under the key of an account and an id. *)
Definition stored (R : registry) (acct : bytes) (id : Z) : option bytes :=
  match rg_auth R !! id with
  | Some (a, (t, c)) => if bytes_eqb a acct then Some (Marshal_AA (MkAccountAuthenticator id t c)) else None
  | None => None
  end.
Definition sa_rel (m : store) (R : registry) : Prop :=
  1 <= rg_next R < 2 ^ 64 /\
  (m !! KeyNextAccountAuthenticatorId = Some (Marshal_UInt64Value (rg_next R)) \/
   (m !! KeyNextAccountAuthenticatorId = None /\ rg_next R = FirstAuthenticatorId)) /\
  (forall id a tc, rg_auth R !! id = Some (a, tc) -> 0 <= id < rg_next R /\ acct_ok a) /\
  (forall acct id, acct_ok acct -> is_u64 id -> m !! KeyAccountId acct id = stored R acct id) /\
  (forall k v, has_prefix KeyAccountAuthenticatorsPrefixId k = true -> m !! k = Some v ->
     exists acct id, acct_ok acct /\ is_u64 id /\ k = KeyAccountId acct id).

Lemma sa_rel_empty : sa_rel ∅ (MkRegistry FirstAuthenticatorId ∅).
Proof.
  unfold sa_rel, FirstAuthenticatorId. cbn. split; [lia|]. split; [by right|].
  split; [by intros id a tc; rewrite lookup_empty|]. split; [|by intros k v _; rewrite lookup_empty].
  intros acct id _ _. unfold stored. cbn. by rewrite !lookup_empty.
Qed.

(** Writing the counter does not touch the authenticators. *)
Lemma sa_rel_next m R n :
  sa_rel m R -> rg_next R <= n < 2 ^ 64 ->
  sa_rel (store_Set KeyNextAccountAuthenticatorId (Marshal_UInt64Value n) m) (MkRegistry n (rg_auth R)).
Proof.
  intros (Hn & _ & Hid & Hst & Hpre) Hlt. unfold sa_rel, store_Set. cbn [rg_next rg_auth].
  split; [lia|]. split; [left; apply lookup_insert_eq|]. split; [|split].
  - intros id a tc H. destruct (Hid id a tc H). split; [lia|done].
  - intros acct id Ha Hi. rewrite lookup_insert_ne by apply next_key_ne. by rewrite Hst.
  - intros k v Hk. rewrite lookup_insert_ne; [by apply Hpre|]. intros <-. by rewrite next_key_text in Hk.
Qed.
Lemma sa_rel_insert m R acct id t c :
  sa_rel m R -> acct_ok acct -> 0 <= id < rg_next R -> rg_auth R !! id = None ->
  sa_rel (store_Set (KeyAccountId acct id) (Marshal_AA (MkAccountAuthenticator id t c)) m)
         (MkRegistry (rg_next R) (<[id := (acct, (t, c))]> (rg_auth R))).
Proof.
  intros (Hn & Hnext & Hid & Hst & Hpre) Ha Hi Hnone. unfold sa_rel, store_Set. cbn [rg_next rg_auth].
  split; [done|]. split; [by rewrite lookup_insert_ne by (symmetry; apply next_key_ne)|]. split; [|split].
  - intros id' a tc. destruct (decide (id' = id)) as [->|Hne].
    + rewrite lookup_insert_eq. by intros [= <- _].
    + rewrite lookup_insert_ne by done. apply Hid.
  - intros acct' id' Ha' Hi'. unfold stored. cbn [rg_auth]. destruct (decide (id' = id)) as [->|Hne].
    + rewrite lookup_insert_eq. destruct (bytes_eqb acct acct') eqn:E.
      * apply bytes_eqb_eq in E as ->. by rewrite lookup_insert_eq.
      * apply bytes_eqb_neq in E. rewrite lookup_insert_ne; [rewrite Hst by done; unfold stored; by rewrite Hnone|].
        intros [? _]%KeyAccountId_inj; done.
    + rewrite !lookup_insert_ne; [by rewrite Hst|done|].
      intros [_ ?]%KeyAccountId_inj; (done || congruence || (unfold is_u64; lia)).
  - intros k v Hk. destruct (decide (k = KeyAccountId acct id)) as [->|Hne].
    + intros _. exists acct, id. split; [done|]. split; [unfold is_u64; lia|done].
    + rewrite lookup_insert_ne by done. by apply Hpre.
Qed.
Lemma sa_rel_delete m R acct id :
  sa_rel m R -> acct_ok acct -> is_u64 id -> (exists tc, rg_auth R !! id = Some (acct, tc)) ->
  sa_rel (store_Delete (KeyAccountId acct id) m) (MkRegistry (rg_next R) (delete id (rg_auth R))).
Proof.
  intros (Hn & Hnext & Hid & Hst & Hpre) Ha Hi [tc Htc]. unfold sa_rel, store_Delete. cbn [rg_next rg_auth].
  split; [done|]. split; [by rewrite lookup_delete_ne by (symmetry; apply next_key_ne)|]. split; [|split].
  - intros id' a tc'. destruct (decide (id' = id)) as [->|Hne]; [by rewrite lookup_delete_eq|].
    rewrite lookup_delete_ne by done. apply Hid.
  - intros acct' id' Ha' Hi'. unfold stored. cbn [rg_auth]. destruct (decide (id' = id)) as [->|Hne].
    + rewrite lookup_delete_eq. destruct (decide (acct' = acct)) as [->|Hna]; [by rewrite lookup_delete_eq|].
      rewrite lookup_delete_ne by (intros [? _]%KeyAccountId_inj; done). rewrite Hst by done.
      unfold stored. rewrite Htc. destruct tc. by rewrite (proj2 (bytes_eqb_neq _ _)) by done.
    + rewrite !lookup_delete_ne; [by rewrite Hst|done|]. intros [_ ?]%KeyAccountId_inj; done.
  - intros k v Hk. destruct (decide (k = KeyAccountId acct id)) as [->|Hne]; [by rewrite lookup_delete_eq|].
    rewrite lookup_delete_ne by done. by apply Hpre.
Qed.

Lemma stored_decode R acct id t c :
  is_u64 id -> stored R acct id = Some (Marshal_AA (MkAccountAuthenticator id t c)) <->
  rg_auth R !! id = Some (acct, (t, c)).
Proof.
  intros Hi. unfold stored. destruct (rg_auth R !! id) as [[a [t' c']]|]; [|done].
  destruct (bytes_eqb a acct) eqn:E.
  - apply bytes_eqb_eq in E as ->. split.
    + intros [= E]. apply (f_equal Unmarshal_AA) in E. rewrite !aa_roundtrip in E by done. congruence.
    + congruence.
  - apply bytes_eqb_neq in E. split; [done|]. intros [= ? _ _]. done.
Qed.
Lemma stored_Some R acct id v :
  stored R acct id = Some v -> exists t c, rg_auth R !! id = Some (acct, (t, c)) /\
    v = Marshal_AA (MkAccountAuthenticator id t c).
Proof.
  unfold stored. destruct (rg_auth R !! id) as [[a [t c]]|]; [|done].
  destruct (bytes_eqb a acct) eqn:E; [|done]. apply bytes_eqb_eq in E as ->. intros [= <-]. eauto.
Qed.

(** ** Callbacks leave the store alone *)

(** The contracts called back do not write the module's store, which they could
    do by sending the module a message. *)
Context (contracts_frame : forall c m (st : world B * G), sa_store (Sudo c m st).1.1 = sa_store st.1).
Definition frames {A : Type} (m : meth (world B * G) sa_fail A) : Prop :=
  forall st, sa_store (m st).1.1 = sa_store st.1.

Lemma frames_lift {A} (r : result sa_fail A) : frames (mlift r).
Proof. done. Qed.
Lemma frames_fail {A} (e : sa_fail) : frames (A := A) (mfail e).
Proof. done. Qed.
Lemma frames_bind {A C} (m : meth (world B * G) sa_fail A) (k : A -> meth (world B * G) sa_fail C) :
  frames m -> (forall a, frames (k a)) -> frames (mbind m k).
Proof.
  intros Hm Hk st. unfold mbind. specialize (Hm st). destruct (m st) as [s1 [a|e]]; cbn in *; [|done].
  rewrite Hk. done.
Qed.
Lemma frames_on_subs on am id ds : forall n,
  (forall a c i, frames (on a c i)) -> frames (on_subs (B := B) (G := G) on am id n ds).
Proof.
  induction ds as [|d ds IH]; intros n Hon; cbn [on_subs]; [done|].
  destruct (GetAuthenticatorByType _ _); [|done]. apply frames_bind; [apply Hon|]. intros _. by apply IH.
Qed.

Lemma added_frames f am account : forall a config id,
  frames (OnAuthenticatorAdded_fuel (B := B) (G := G) f am account a config id).
Proof.
  induction f as [|f IH]; intros a config id; [done|].
  destruct a; cbn [OnAuthenticatorAdded_fuel]; try apply frames_lift.
  - apply frames_bind; [apply frames_lift|]. intros d st. apply contracts_frame.
  - apply frames_bind; [apply frames_lift|]. intros ds. apply frames_bind; [apply frames_lift|].
    intros _. apply frames_on_subs, IH.
  - apply frames_bind; [apply frames_lift|]. intros ds. apply frames_bind; [apply frames_lift|].
    intros _. apply frames_on_subs, IH.
Qed.
Lemma removed_frames f am account : forall a config id,
  frames (OnAuthenticatorRemoved_fuel (B := B) (G := G) f am account a config id).
Proof.
  induction f as [|f IH]; intros a config id; [done|].
  destruct a; cbn [OnAuthenticatorRemoved_fuel]; try done.
  - apply frames_bind; [apply frames_lift|]. intros d st. apply contracts_frame.
  - apply frames_bind; [apply frames_lift|]. intros ds. apply frames_on_subs, IH.
  - apply frames_bind; [apply frames_lift|]. intros ds. apply frames_on_subs, IH.
Qed.

(** ** Operations on the registry *)

Lemma next_id_ok st R st1 r :
  sa_rel (sa_store st.1) R -> InitializeOrGetNextAuthenticatorId (B := B) (G := G) st = (st1, r) ->
  r = Ok (rg_next R) /\ sa_rel (sa_store st1.1) R.
Proof.
  intros HR H. pose proof HR as (Hn & Hnext & _). unfold InitializeOrGetNextAuthenticatorId in H.
  destruct Hnext as [E|[E En]]; rewrite E in H.
  - rewrite uint64_roundtrip in H by (unfold is_u64; lia). by injection H as <- <-.
  - cbn in H. injection H as <- <-. rewrite En. split; [done|].
    destruct R as [n au]. cbn [rg_next] in En. subst n. cbn. by apply (sa_rel_next _ (MkRegistry _ au) _ HR).
Qed.

Lemma AddAuthenticator_rel k account t c st R st' r :
  sa_rel (sa_store st.1) R -> acct_ok account -> rg_next R + 1 < 2 ^ 64 ->
  AddAuthenticator (B := B) (G := G) k account t c st = (st', r) ->
  match r with
  | Ok id => id = rg_next R /\
      sa_rel (sa_store st'.1) (MkRegistry (rg_next R + 1) (<[rg_next R := (account, (t, c))]> (rg_auth R)))
  | Err _ => sa_rel (sa_store st'.1) R
  end.
Proof.
  intros HR Ha Hlt H. unfold AddAuthenticator in H.
  destruct (GetAuthenticatorByType _ _) as [impl|]; [|by injection H as <- <-].
  unfold mbind at 1 in H. destruct (InitializeOrGetNextAuthenticatorId st) as [s1 r1] eqn:E1.
  destruct (next_id_ok st R s1 r1 HR E1) as [-> HR1]. unfold mbind at 1 in H.
  pose proof (added_frames (S (length c)) (k_manager k) account impl c (FormatUint (rg_next R)) s1) as Hf.
  fold (OnAuthenticatorAdded (B := B) (G := G) (k_manager k) account impl c (FormatUint (rg_next R))) in Hf.
  destruct (OnAuthenticatorAdded (B := B) (G := G) _ _ _ _ _ s1) as [s2 [[]|e]]; cbn in Hf.
  2:{ injection H as <- <-. by rewrite Hf. }
  cbv beta delta [mbind upd_sa_store SetNextAuthenticatorId mput mret] in H.
  apply pair_eq in H as [<- <-]. cbn [sa_store fst]. split; [done|]. rewrite Hf.
  pose proof HR1 as (Hn & _ & Hid & _). rewrite u64_id by (unfold is_u64; lia).
  pose proof (sa_rel_next _ _ (rg_next R + 1) HR1 ltac:(lia)) as HR2.
  apply (sa_rel_insert _ _ account (rg_next R) t c HR2 Ha); cbn [rg_next rg_auth]; [lia|].
  destruct (rg_auth R !! rg_next R) as [[a tc]|] eqn:E; [|done]. apply Hid in E. lia.
Qed.

Lemma RemoveAuthenticator_rel k account id st R st' r :
  sa_rel (sa_store st.1) R -> acct_ok account -> is_u64 id ->
  RemoveAuthenticator (B := B) (G := G) k account id st = (st', r) ->
  match r with
  | Ok _ => (exists tc, rg_auth R !! id = Some (account, tc)) /\
      sa_rel (sa_store st'.1) (MkRegistry (rg_next R) (delete id (rg_auth R)))
  | Err _ => sa_store st'.1 = sa_store st.1
  end.
Proof.
  intros HR Ha Hi H. pose proof HR as (_ & _ & _ & Hst & _). unfold RemoveAuthenticator in H.
  unfold mbind at 1, mget in H. rewrite Hst in H by done.
  destruct (stored R account id) as [bz|] eqn:E; [|by injection H as <- <-].
  apply stored_Some in E as (t & c & Hau & ->). unfold mbind at 1, mlift in H.
  rewrite aa_roundtrip in H by done. cbn [opt_or aa_Type aa_Config] in H.
  destruct (GetAuthenticatorByType _ _) as [impl|]; [|by injection H as <- <-]. unfold mbind in H.
  pose proof (removed_frames (S (length c)) (k_manager k) account impl c (FormatUint id) st) as Hf.
  fold (OnAuthenticatorRemoved (B := B) (G := G) (k_manager k) account impl c (FormatUint id)) in Hf.
  destruct (OnAuthenticatorRemoved (B := B) (G := G) _ _ _ _ _ st) as [s2 [[]|e]]; cbn in Hf.
  2:{ injection H as <- <-. done. }
  cbv beta delta [mbind upd_sa_store SetNextAuthenticatorId mput mret] in H.
  apply pair_eq in H as [<- <-]. cbn [sa_store fst]. split; [by eauto|]. rewrite Hf. apply sa_rel_delete; eauto.
Qed.

Lemma GetSelected_rel (w : world B) R account id :
  sa_rel (sa_store w) R -> acct_ok account -> is_u64 id ->
  GetSelectedAuthenticatorData w account id =
  match rg_auth R !! id with
  | Some (a, (t, c)) => if bytes_eqb a account then Ok (MkAccountAuthenticator id t c) else Err (Fail ErrInvalidRequest)
  | None => Err (Fail ErrInvalidRequest)
  end.
Proof.
  intros (_ & _ & _ & Hst & _) Ha Hi. unfold GetSelectedAuthenticatorData. rewrite u64_id, Hst by done.
  unfold stored. destruct (rg_auth R !! id) as [[a [t c]]|]; [|done].
  destruct (bytes_eqb a account); [|done]. by rewrite aa_roundtrip.
Qed.

Lemma gather_ok {A} (parse : bytes -> bytes -> option A) f l :
  (forall k v, (k, v) ∈ l -> parse k v = Some (f k v)) -> gather parse l = Ok (map (fun kv => f kv.1 kv.2) l).
Proof.
  induction l as [|[k v] l IH]; intros H; cbn [gather map]; [done|]. rewrite (H k v) by left. cbn [opt_or rbind].
  rewrite IH; [done|]. intros k' v' Hk. apply H. by right.
Qed.

(** Every entry under the prefix is an authenticator of the registry. *)
Lemma entry_of m R k v :
  sa_rel m R -> has_prefix KeyAccountAuthenticatorsPrefixId k = true -> m !! k = Some v ->
  exists acct id t c, acct_ok acct /\ is_u64 id /\ rg_auth R !! id = Some (acct, (t, c)) /\
    k = KeyAccountId acct id /\ v = Marshal_AA (MkAccountAuthenticator id t c).
Proof.
  intros (_ & _ & _ & Hst & Hpre) Hk Hv. destruct (Hpre k v Hk Hv) as (acct & id & Ha & Hi & ->).
  rewrite Hst in Hv by done. apply stored_Some in Hv as (t & c & Hau & ->). by eauto 10.
Qed.

(** The zero record, for entries that do not decode (there are none). *)
Definition aa_decode (v : bytes) : AccountAuthenticator := default (MkAccountAuthenticator 0 [] []) (Unmarshal_AA v).

Lemma GetForAccount_rel (w : world B) R account :
  sa_rel (sa_store w) R -> acct_ok account ->
  exists l, GetAuthenticatorDataForAccount w account = Ok l /\
    forall a, a ∈ l <-> rg_auth R !! aa_Id a = Some (account, (aa_Type a, aa_Config a)).
Proof.
  intros HR Ha. unfold GetAuthenticatorDataForAccount.
  rewrite (gather_ok _ (fun _ v => aa_decode v)).
  2:{ intros k v [Hkv Hp]%elem_of_IteratePrefix. apply prefix_KeyAccount in Hp.
      destruct (entry_of _ _ _ _ HR Hp Hkv) as (a & id & t & c & _ & Hi & _ & _ & ->).
      unfold aa_decode. by rewrite aa_roundtrip. }
  eexists. split; [done|]. intros a. rewrite list_elem_of_In, in_map_iff. split.
  - intros ([k v] & He & Hin). apply list_elem_of_In, elem_of_IteratePrefix in Hin as [Hkv Hp]. cbn in He.
    destruct (entry_of _ _ _ _ HR (prefix_KeyAccount _ _ Hp) Hkv) as (a' & id & t & c & Ha' & Hi & Hau & -> & ->).
    apply KeyAccount_prefix in Hp; [|done..]. subst a'. unfold aa_decode in He. rewrite aa_roundtrip in He by done.
    cbn in He. by subst a.
  - intros Hau. destruct a as [id t c]. cbn in Hau. pose proof HR as (Hn & _ & Hid & Hst & _).
    destruct (Hid _ _ _ Hau) as [Hlt _]. assert (Hi : is_u64 id) by (unfold is_u64; lia).
    exists (KeyAccountId account id, Marshal_AA (MkAccountAuthenticator id t c)). cbn [fst snd]. split.
    { unfold aa_decode. by rewrite aa_roundtrip. }
    apply list_elem_of_In, elem_of_IteratePrefix. split; [|by apply KeyAccount_prefix].
    rewrite Hst by done. by apply stored_decode.
Qed.
End Refinement.

(** ** Genesis *)

Section Genesis.
Context {B G : Type} {SdkB : Sdk B} {AL : AddressLaws B} {GM : GasMeter G} {SS : SaSdk B G}
  {Cd : SaCodec} {CL : SaCodecLaws} (k : SaKeeper).

Definition flat (d : AuthenticatorData) : list (bytes * AccountAuthenticator) :=
  map (pair (ad_Address d)) (ad_Authenticators d).

Lemma flat_group l : forall acc,
  concat (map flat (group_entries acc l)) = concat (map flat acc) ++ l.
Proof.
  induction l as [|[addr a] l IH]; intros acc; cbn [group_entries]; [by rewrite app_nil_r|]. rewrite IH.
  assert (H : forall d : list AuthenticatorData, concat (map flat (d ++ [MkAuthenticatorData addr [a]])) =
    concat (map flat d) ++ [(addr, a)]).
  { intros d. rewrite map_app, concat_app. done. }
  destruct (last acc) as [d|] eqn:El.
  - destruct (bytes_eqb (ad_Address d) addr) eqn:E; [|by rewrite H, <- app_assoc].
    apply bytes_eqb_eq in E. apply last_Some in El as [acc' ->]. rewrite removelast_last, !map_app, !concat_app.
    cbn [map concat]. rewrite !app_nil_r.
    assert (Hf : flat (MkAuthenticatorData addr (ad_Authenticators d ++ [a])) = flat d ++ [(addr, a)])
      by (unfold flat; cbn [ad_Address ad_Authenticators]; by rewrite map_app, E).
    by rewrite Hf, <- !app_assoc.
  - apply last_None in El as ->. cbn. done.
Qed.
Lemma group_nonempty l : forall acc,
  (forall d, d ∈ acc -> ad_Authenticators d <> []) -> forall d, d ∈ group_entries acc l -> ad_Authenticators d <> [].
Proof.
  induction l as [|[addr a] l IH]; intros acc Hacc; cbn [group_entries]; [done|]. apply IH.
  destruct (last acc) as [d|] eqn:El.
  - apply last_Some in El as [acc' ->]. rewrite removelast_last. destruct (bytes_eqb _ _);
      (intros x [Hx|Hx]%elem_of_app; [|apply list_elem_of_singleton in Hx as ->; by destruct (ad_Authenticators d)]).
    + apply Hacc. apply elem_of_app. by left.
    + by apply Hacc.
  - by intros x ->%list_elem_of_singleton.
Qed.

(** One authenticator of the genesis. *)
Definition init_entry (e : bytes * AccountAuthenticator) : meth (world B * G) sa_fail unit :=
  match AccAddressFromBech32 e.1 with
  | None => mfail Panicked
  | Some accAddr => or_panic (AddAuthenticatorWithId k accAddr (aa_Type e.2) (aa_Config e.2) (aa_Id e.2))
  end.
Lemma init_account_flat d st :
  ad_Authenticators d <> [] -> init_account (B := B) (G := G) k d st = mrange (flat d) init_entry st.
Proof.
  destruct d as [addr l]. cbn [ad_Authenticators]. intros Hl. unfold init_account, flat. cbn [ad_Address ad_Authenticators].
  destruct (AccAddressFromBech32 addr) as [acc|] eqn:E.
  - clear Hl. revert st. induction l as [|a l IH]; intros st; [done|]. cbn [map]. rewrite !mrange_cons.
    unfold init_entry at 1. cbn [fst snd]. rewrite E. destruct (or_panic _ st) as [s' [u|e]]; [apply IH|done].
  - destruct l as [|a l]; [done|]. cbn [map]. rewrite mrange_cons. unfold init_entry at 1. cbn [fst]. by rewrite E.
Qed.
Lemma init_data_flat data st :
  (forall d, d ∈ data -> ad_Authenticators d <> []) ->
  mrange data (init_account k) st = mrange (concat (map flat data)) init_entry st.
Proof.
  revert st. induction data as [|d data IH]; intros st H; [done|]. cbn [map concat].
  rewrite mrange_cons, mrange_app, init_account_flat by (apply H; left).
  destruct (mrange (flat d) init_entry st) as [s' [u|e]]; [|done]. apply IH. intros d' Hd. apply H. by right.
Qed.

(** An entry the genesis accepts, for the account [acct]. *)
Definition entry_ok (n : Z) (e : bytes * AccountAuthenticator) : Prop :=
  exists acct impl, e.1 = AccAddress_String acct /\ acct_ok acct /\ 0 <= aa_Id e.2 < n /\
    GetAuthenticatorByType (k_manager k) (aa_Type e.2) = Some impl /\
    forall id (s : world B * G), (OnAuthenticatorAdded (k_manager k) acct impl (aa_Config e.2) id s).2 = Ok tt.
(** The registry entry it makes. *)
Definition entry_value (e : bytes * AccountAuthenticator) : bytes * (bytes * bytes) :=
  (default [] (AccAddressFromBech32 e.1), (aa_Type e.2, aa_Config e.2)).

Lemma init_entry_ok n e st au :
  entry_ok n e -> sa_rel (sa_store st.1) (MkRegistry n au) -> au !! aa_Id e.2 = None ->
  exists st', init_entry e st = (st', Ok tt) /\ sa_params st'.1 = sa_params st.1 /\
    sa_rel (sa_store st'.1) (MkRegistry n (<[aa_Id e.2 := entry_value e]> au)).
Proof.
  intros (acct & impl & Haddr & Ha & Hid & Hty & Hon) HR Hnone. unfold init_entry, entry_value. rewrite Haddr, Ha.
  cbn [default]. unfold or_panic, AddAuthenticatorWithId. rewrite Hty. unfold mbind.
  specialize (Hon (FormatUint (aa_Id e.2)) st).
  destruct (OnAuthenticatorAdded (B := B) (G := G) _ _ _ _ _ st) as [s1 r1]. cbn [snd] in Hon. subst r1.
  unfold upd_sa_store, mput. eexists. split; [done|]. split; [done|]. cbn [fst sa_store].
  by apply (sa_rel_insert _ (MkRegistry n au) acct (aa_Id e.2)).
Qed.

Definition add_entries (l : list (bytes * AccountAuthenticator)) (au : gmap Z (bytes * (bytes * bytes))) :=
  fold_left (fun au e => <[aa_Id e.2 := entry_value e]> au) l au.
Lemma init_entries_ok n l : forall st au,
  Forall (entry_ok n) l -> NoDup (map (fun e => aa_Id e.2) l) -> (forall e, e ∈ l -> au !! aa_Id e.2 = None) ->
  sa_rel (sa_store st.1) (MkRegistry n au) ->
  exists st', mrange l init_entry st = (st', Ok tt) /\ sa_params st'.1 = sa_params st.1 /\
    sa_rel (sa_store st'.1) (MkRegistry n (add_entries l au)).
Proof.
  induction l as [|e l IH]; intros st au Hok Hn Hnone HR; [by eauto|].
  inversion Hok as [|? ? He Hl]; subst. cbn [map] in Hn. apply NoDup_cons in Hn as [Hni Hn].
  destruct (init_entry_ok n e st au He HR) as (s1 & E1 & Hp & HR1); [apply Hnone; left|].
  destruct (IH s1 (<[aa_Id e.2 := entry_value e]> au) Hl Hn) as (s2 & E2 & Hp2 & HR2); [|done|].
  - intros e' He'. rewrite lookup_insert_ne; [apply Hnone; by right|]. intros E. apply Hni. rewrite E.
    apply list_elem_of_In, (in_map (fun e => aa_Id e.2)), list_elem_of_In. done.
  - exists s2. rewrite mrange_cons, E1. split; [done|]. split; [congruence|done].
Qed.
Lemma add_entries_lookup l : forall au id,
  NoDup (map (fun e => aa_Id e.2) l) ->
  (forall e, e ∈ l -> aa_Id e.2 = id -> add_entries l au !! id = Some (entry_value e)) /\
  ((forall e, e ∈ l -> aa_Id e.2 <> id) -> add_entries l au !! id = au !! id).
Proof.
  induction l as [|e l IH]; intros au id Hn; [split; [by intros e ?%elem_of_nil|done]|].
  cbn [map] in Hn. apply NoDup_cons in Hn as [Hni Hn]. cbn [add_entries fold_left].
  destruct (IH (<[aa_Id e.2 := entry_value e]> au) id Hn) as [IH1 IH2]. split.
  - intros e' [->|He]%elem_of_cons Hid; [|by apply IH1]. unfold add_entries in IH2. rewrite IH2.
    + subst id. apply lookup_insert_eq.
    + intros e' He' E. apply Hni. rewrite <- E in Hid. rewrite Hid.
      apply list_elem_of_In, (in_map (fun e => aa_Id e.2)), list_elem_of_In. done.
  - intros Hno. unfold add_entries in IH2. rewrite IH2; [|intros e' He'; apply Hno; by right].
    apply lookup_insert_ne, Hno. left.
Qed.

(** What the export lists: every authenticator of the registry once. *)
Lemma export_entries (w : world B) R :
  sa_rel (sa_store w) R ->
  exists l, gather (fun key v => pair (key_account key) <$> Unmarshal_AA v)
              (IteratePrefix (sa_store w) KeyAccountAuthenticatorsPrefixId) = Ok l /\
    (forall e, e ∈ l <-> exists acct, e.1 = AccAddress_String acct /\ acct_ok acct /\
       rg_auth R !! aa_Id e.2 = Some (acct, (aa_Type e.2, aa_Config e.2))) /\
    NoDup (map (fun e => aa_Id e.2) l).
Proof.
  intros HR. set (it := IteratePrefix (sa_store w) KeyAccountAuthenticatorsPrefixId).
  assert (Hit : forall k v, (k, v) ∈ it -> exists acct id t c, acct_ok acct /\ is_u64 id /\
    rg_auth R !! id = Some (acct, (t, c)) /\ k = KeyAccountId acct id /\ v = Marshal_AA (MkAccountAuthenticator id t c)).
  { intros k0 v [Hkv Hp]%elem_of_IteratePrefix. by apply (entry_of _ _ _ _ HR). }
  set (f := fun k v => (key_account k, aa_decode v)).
  rewrite (gather_ok _ f).
  2:{ intros k0 v Hin. destruct (Hit _ _ Hin) as (a & id & t & c & _ & Hi & _ & _ & ->). unfold f, aa_decode.
      by rewrite aa_roundtrip. }
  eexists. split; [done|]. split.
  - intros e. rewrite list_elem_of_In, in_map_iff. split.
    + intros ([k0 v] & <- & Hin). apply list_elem_of_In in Hin.
      destruct (Hit _ _ Hin) as (a & id & t & c & Ha & Hi & Hau & -> & ->). exists a. unfold f, aa_decode.
      cbn [fst snd]. rewrite aa_roundtrip by done. split; [by apply key_account_text|done].
    + intros (a & He & Ha & Hau). destruct e as [addr [id t c]]. cbn [fst snd aa_Id aa_Type aa_Config] in *. subst addr.
      pose proof HR as (Hn & _ & Hid & Hst & _). destruct (Hid _ _ _ Hau) as [Hlt _].
      assert (Hi : is_u64 id) by (unfold is_u64; lia).
      exists (KeyAccountId a id, Marshal_AA (MkAccountAuthenticator id t c)). split.
      { unfold f, aa_decode. cbn [fst snd]. rewrite aa_roundtrip, key_account_text by done. done. }
      apply list_elem_of_In, elem_of_IteratePrefix. split; [|apply prefix_KeyAccountId].
      rewrite Hst by done. by apply stored_decode.
  - rewrite map_map. apply (NoDup_fmap_2_strong (fun kv : bytes * bytes => aa_Id (f kv.1 kv.2).2)).
    2:{ apply NoDup_IteratePrefix_kv. }
    intros [k1 v1] [k2 v2] H1 H2. destruct (Hit _ _ H1) as (a1 & i1 & t1 & c1 & _ & Hi1 & Hu1 & -> & ->).
    destruct (Hit _ _ H2) as (a2 & i2 & t2 & c2 & _ & Hi2 & Hu2 & -> & ->). unfold f, aa_decode. cbn [fst snd].
    rewrite !aa_roundtrip by done. cbn. intros ->. congruence.
Qed.

(** ** Properties *)

(** Exporting the module and importing it into a fresh chain gives the same
    registry, counter and parameters, provided the parameters are valid and every
    stored authenticator is still accepted by its type; the exported genesis
    validates and the import does not panic. *)
Theorem sa_genesis_roundtrip (st st0 : world B * G) R p :
  sa_rel (sa_store st.1) R -> sa_params st.1 = Some p -> SaParams_Validate p = true -> sa_store st0.1 = ∅ ->
  (forall id acct t c, rg_auth R !! id = Some (acct, (t, c)) ->
     exists impl, GetAuthenticatorByType (k_manager k) t = Some impl /\
       forall i (s : world B * G), (OnAuthenticatorAdded (k_manager k) acct impl c i s).2 = Ok tt) ->
  exists st1 gs st2, sa_ExportGenesis st = (st1, Ok gs) /\ SaGenesis_Validate gs = true /\
    sa_InitGenesis k gs st0 = (st2, Ok tt) /\ sa_rel (sa_store st2.1) R /\ sa_params st2.1 = Some p.
Proof.
  intros HR Hp Hv H0 Hacc. unfold sa_ExportGenesis. unfold mbind at 1, sa_GetParams. rewrite Hp. unfold mbind at 1.
  destruct (InitializeOrGetNextAuthenticatorId st) as [s1 r1] eqn:E1. destruct (next_id_ok st R s1 r1 HR E1) as [-> HR1].
  unfold mbind, GetAllAuthenticatorData. destruct (export_entries s1.1 R HR1) as (l & -> & Hl & Hnd). cbn [rbind].
  do 2 eexists. pose proof HR1 as (Hn & _ & Hid & _).
  assert (Hi : exists st2, sa_InitGenesis k (MkSaGenesis p (rg_next R) (group_entries [] l)) st0 = (st2, Ok tt) /\
    sa_rel (sa_store st2.1) R /\ sa_params st2.1 = Some p).
  { unfold sa_InitGenesis, sa_SetParams. cbn [gs_Params gs_NextAuthenticatorId gs_AuthenticatorData]. rewrite Hv.
    rewrite (proj2 (Z.eqb_neq (rg_next R) 0)) by lia.
    set (s2 := (MkWorld (store_Set KeyNextAccountAuthenticatorId (Marshal_UInt64Value (rg_next R)) ∅) (Some p)
                  (sa_rest st0.1), st0.2)).
    unfold mbind, mlift, SetNextAuthenticatorId, upd_sa_store, mput. cbn [negb guard fst snd sa_store sa_params sa_rest].
    rewrite H0. fold s2. rewrite init_data_flat by (apply group_nonempty; by intros d ?%elem_of_nil).
    rewrite flat_group. cbn [map concat app].
    destruct (init_entries_ok (rg_next R) l s2 ∅) as (s3 & E3 & Hp3 & HR3); [|done|done| |].
    - apply Forall_forall. intros e He. apply Hl in He as (acct & Haddr & Ha & Hau).
      destruct (Hacc _ _ _ _ Hau) as (impl & Hty & Hon). exists acct, impl. split; [done|]. split; [done|].
      split; [by apply (Hid _ _ _ Hau)|done].
    - apply (sa_rel_next ∅ _ (rg_next R) sa_rel_empty). cbn. unfold FirstAuthenticatorId. lia.
    - exists s3. split; [done|]. split; [|by rewrite Hp3]. destruct R as [n au]. cbn [rg_next rg_auth] in *.
      replace au with (add_entries l ∅); [done|]. apply map_eq. intros id.
      destruct (add_entries_lookup l ∅ id Hnd) as [L1 L2]. destruct (au !! id) as [[acct [t c]]|] eqn:Eau.
      + destruct (Hid _ _ _ Eau) as [_ Hok].
        rewrite (L1 (AccAddress_String acct, MkAccountAuthenticator id t c)); [|apply Hl; by exists acct|done].
        unfold entry_value. cbn. by rewrite Hok.
      + rewrite L2; [apply lookup_empty|]. intros e He E. apply Hl in He as (acct & _ & _ & Hau). congruence. }
  destruct Hi as (st2 & Hi). exists st2. split; [done|]. split; [done|]. exact Hi.
Qed.
End Genesis.

Section Properties.
Context {B G : Type} {SdkB : Sdk B} {AL : AddressLaws B} {GM : GasMeter G} {SS : SaSdk B G}
  {Cd : SaCodec} {CL : SaCodecLaws}
  (contracts_frame : forall c m (st : world B * G), sa_store (Sudo c m st).1.1 = sa_store st.1).


(** Only the governor switches the module on and only a listed controller
    switches it off; a switch changes the flag and nothing else, and a refused
    one nothing at all. *)
Theorem SetActiveState_authorized (k : SaKeeper) Sender Active (st st' : world B * G) r :
  msg_SetActiveState k Sender Active st = (st', r) ->
  match r with
  | Ok _ => exists signer p, AccAddressFromBech32 Sender = Some signer /\ sa_params st.1 = Some p /\
      (if Active then signer = CircuitBreakerGovernor k
       else AccAddress_String signer ∈ CircuitBreakerControllers p) /\
      st' = (MkWorld (sa_store st.1)
               (Some (MkSaParams (MaximumUnauthenticatedGas p) Active (CircuitBreakerControllers p)))
               (sa_rest st.1), st.2)
  | Err _ => st' = st
  end.
Proof.
  unfold msg_SetActiveState, getSender. unfold mbind at 1, mlift at 1.
  destruct (AccAddressFromBech32 Sender) as [signer|]; [|by intros [= <- <-]]. unfold mbind at 1.
  set (auth := if Active then _ else _).
  assert (Hauth : (auth st).1 = st /\ (is_ok (auth st).2 = true ->
    if Active then signer = CircuitBreakerGovernor k
    else exists p, sa_params st.1 = Some p /\ AccAddress_String signer ∈ CircuitBreakerControllers p)).
  { unfold auth. destruct Active.
    - cbn. unfold fail_if, guard. destruct (bytes_eqb signer _) eqn:E; cbn; [|done].
      apply bytes_eqb_eq in E. done.
    - unfold mbind, sa_GetParams, mlift. destruct (sa_params st.1) as [p|]; cbn; [|done]. split; [done|].
      unfold fail_if, guard. destruct (existsb _ _) eqn:E; cbn; [|done]. intros _. exists p. split; [done|].
      apply existsb_exists in E as (c & Hc & He). apply bytes_eqb_eq in He. subst c. by apply list_elem_of_In. }
  destruct (auth st) as [s1 [[]|e]]; cbn [fst snd is_ok] in Hauth; destruct Hauth as [-> Hauth].
  2:{ by intros [= <- <-]. }
  specialize (Hauth eq_refl). unfold SetActiveState, sa_GetParams, sa_SetParams, mbind, mlift, mput.
  destruct (sa_params st.1) as [p|] eqn:Ep; [|by intros [= <- <-]].
  destruct (SaParams_Validate _); cbn [negb guard]; intros [<- <-]%pair_eq; [|done]. exists signer, p. split; [done|]. split; [done|].
  split; [|done]. destruct Active; [done|]. destruct Hauth as (p' & [= <-] & ?). done.
Qed.
End Properties.

(** The cache holds the value of the bytes it was filled with. *)
Definition cache_ok (c : active_cache) : Prop := c.2 = decode_active c.1.
(** A sequence of reads, each at some value of the parameters. *)
Fixpoint read_all (c : active_cache) (ps : list (option SaParams)) : list bool :=
  match ps with
  | [] => []
  | p :: ps' => let '(c', b) := GetIsSmartAccountActive p c in b :: read_all c' ps'
  end.

Lemma read_active p c :
  cache_ok c ->
  (GetIsSmartAccountActive p c).2 = match p with Some p => IsSmartAccountActive p | None => false end /\
  cache_ok (GetIsSmartAccountActive p c).1.
Proof.
  intros Hc. unfold GetIsSmartAccountActive. cbn [fst snd].
  assert (Hd : decode_active (raw_active p) = match p with Some p => IsSmartAccountActive p | None => false end).
  { destruct p as [p|]; [|vm_refl]. cbn. destruct (IsSmartAccountActive p); vm_refl. }
  destruct (bytes_eqb (raw_active p) c.1) eqn:E; [|done].
  apply bytes_eqb_eq in E. unfold cache_ok in *. rewrite Hc, <- E. done.
Qed.

(** The cached active flag is the parameter: from a new keeper, whatever the
    parameters are at each call, every read answers what decoding the parameter
    afresh answers, false while it is unset. *)
Theorem active_cache_transparent (ps : list (option SaParams)) :
  read_all new_cache ps = map (fun p => match p with Some p => IsSmartAccountActive p | None => false end) ps.
Proof.
  assert (H : forall c, cache_ok c -> read_all c ps =
    map (fun p => match p with Some p => IsSmartAccountActive p | None => false end) ps).
  { induction ps as [|p ps IH]; intros c Hc; [done|]. cbn [read_all map].
    destruct (read_active p c Hc) as [E Hc']. destruct (GetIsSmartAccountActive p c) as [c' b]. cbn in *.
    by rewrite E, IH. }
  apply H. unfold cache_ok. vm_refl.
Qed.

(** ** A small instance, for the witnesses *)

#[global] Instance ToySaCodec : SaCodec := {|
  Marshal_AA a := pos_bytes (encode (aa_Id a, aa_Type a, aa_Config a));
  Unmarshal_AA bz := p ← bytes_pos bz; (fun t => MkAccountAuthenticator t.1.1 t.1.2 t.2) <$> decode p;
  Marshal_UInt64Value z := pos_bytes (encode z);
  Unmarshal_UInt64Value bz := p ← bytes_pos bz; decode p
|}.
#[global] Instance ToySaCodecLaws : SaCodecLaws.
Proof.
  split; cbn [Marshal_AA Unmarshal_AA Marshal_UInt64Value Unmarshal_UInt64Value ToySaCodec].
  - intros [i t c] _. rewrite bytes_pos_bytes. cbn. by rewrite decode_encode.
  - intros z _. rewrite bytes_pos_bytes. cbn. by rewrite decode_encode.
Qed.

(** Contracts that leave the module alone. *)
#[local] Instance QuietSa : SaSdk toy (Z * Z) := {|
  Sudo c m st := if bytes_eqb c (str "refuses") then (st, Err (Fail ErrContract)) else (st, Ok tt);
  SudoMsg_json m := [];
  VerifySignature k m s := bytes_eqb k s;
  SigVerifyCostSecp256k1 _ := 1000;
  message_json m := Some (Value m);
  LegacyNewDecFromStr := ex_dec;
  PathAVerifier := None
|}.
#[local] Instance PairMeter : GasMeter (Z * Z) := {|
  NewGasMeter l := (l, 0);
  GasLimit := fst;
  GasConsumed := snd;
  meter_ConsumeGas a g := ((g.1, g.2 + a), g.1 <? g.2 + a)
|}.
Lemma quiet_frame c m (st : world toy * (Z * Z)) : sa_store (Sudo c m st).1.1 = sa_store st.1.
Proof. unfold Sudo, QuietSa. by destruct (bytes_eqb c _). Qed.

Definition w_keeper : SaKeeper :=
  MkSaKeeper (str "gov") (InitializeAuthenticators [NewSignatureVerification; NewCosmwasmAuthenticator] NewAuthenticatorManager).
Definition w_sig : bytes := str "SignatureVerification".
Definition w_pk : bytes := replicate 33 Byte.x02.
Definition w_st0 : world toy * (Z * Z) :=
  (MkWorld ∅ (Some (MkSaParams 120000 true [str "terp1guard"])) (MkToy ∅ ∅ ∅ 0), (1000000, 0)).
Definition w_st1 : world toy * (Z * Z) := (AddAuthenticator w_keeper (str "alice") w_sig w_pk w_st0).1.
Definition w_reg1 : registry := MkRegistry 2 {[1 := (str "alice", (w_sig, w_pk))]}.

Lemma w_sa_rel : sa_rel (sa_store w_st1.1) w_reg1.
Proof.
  pose proof (AddAuthenticator_rel quiet_frame w_keeper (str "alice") w_sig w_pk w_st0 _ w_st1 (Ok 1)
    sa_rel_empty) as H. cbn [rg_next rg_auth] in H.
  assert (Ha : acct_ok (str "alice")) by (unfold acct_ok; vm_refl).
  assert (E : AddAuthenticator w_keeper (str "alice") w_sig w_pk w_st0 = (w_st1, Ok 1)) by vm_refl.
  destruct (H Ha ltac:(done) E) as [_ H2]. exact H2.
Qed.


Lemma SetActiveState_authorized_witness :
  exists st', msg_SetActiveState w_keeper (str "terp1guard") false w_st1 = (st', Ok tt) /\
  (exists p, sa_params w_st1.1 = Some p /\ AccAddress_String (str "guard") ∈ CircuitBreakerControllers p).
Proof.
  destruct (msg_SetActiveState w_keeper (str "terp1guard") false w_st1) as [st' r] eqn:E.
  assert (Er : r = Ok tt) by (change r with (st', r).2; rewrite <- E; vm_refl).
  pose proof (SetActiveState_authorized _ _ _ _ _ _ E) as H. subst r.
  destruct H as (signer & p & Hs & Hp & Hin & _). exists st'. split; [reflexivity|]. exists p. split; [assumption|].
  assert (Hsg : signer = str "guard") by (assert (Hx : Some (str "guard") = Some signer) by (rewrite <- Hs; vm_refl);
    by injection Hx as <-). rewrite <- Hsg. exact Hin.
Defined.

Lemma sa_genesis_roundtrip_witness :
  exists st1 gs st2, sa_ExportGenesis w_st1 = (st1, Ok gs) /\ gs_NextAuthenticatorId gs = 2 /\
    sa_InitGenesis w_keeper gs (MkWorld ∅ None (MkToy ∅ ∅ ∅ 0), (1000, 0)) = (st2, Ok tt) /\
    sa_rel (sa_store st2.1) w_reg1.
Proof.
  destruct (sa_genesis_roundtrip w_keeper w_st1 (MkWorld ∅ None (MkToy ∅ ∅ ∅ 0), (1000, 0)) w_reg1
    (MkSaParams 120000 true [str "terp1guard"]) w_sa_rel) as (st1 & gs & st2 & E1 & _ & E2 & HR & _).
  - vm_refl.
  - vm_refl.
  - reflexivity.
  - intros id acct t c H. unfold w_reg1 in H. cbn [rg_auth] in H.
    apply lookup_singleton_Some in H as [<- [= <- <- <-]]. exists NewSignatureVerification.
    split; [vm_refl|]. intros i s. reflexivity.
  - exists st1, gs, st2. split; [assumption|]. split; [|split; assumption].
    assert (Eg : (sa_ExportGenesis w_st1).2 = Ok gs) by (rewrite E1; reflexivity).
    revert Eg. match goal with |- ?x = _ -> _ => let y := eval vm_compute in x in
      replace x with y by vm_refl end. by intros [= <-].
Defined.

(** A genesis that leaves out the counter starts it at 1 again: the next
    addition takes an id that is in use and replaces that authenticator. *)
Definition w_genesis : SaGenesis :=
  MkSaGenesis (MkSaParams 120000 true []) 0
    [MkAuthenticatorData (str "terp1alice") [MkAccountAuthenticator 1 w_sig (replicate 33 Byte.x03)]].
Example genesis_reuses_ids :
  SaGenesis_Validate w_genesis = true /\
  (sa_InitGenesis w_keeper w_genesis (MkWorld ∅ None (MkToy ∅ ∅ ∅ 0), (1000, 0))).2 = Ok tt /\
  (AddAuthenticator w_keeper (str "alice") w_sig w_pk
     (sa_InitGenesis w_keeper w_genesis (MkWorld ∅ None (MkToy ∅ ∅ ∅ 0), (1000, 0))).1).2 = Ok 1.
Proof. split; [vm_refl|]. split; vm_refl. Qed.

(** A contract that answers [OnAuthenticatorAdded] by adding an authenticator to
    its own account gets the id of the addition under way: the counter is read
    before the callback and written after it. *)
Definition reentrant (sdk : SaSdk toy (Z * Z)) : SaSdk toy (Z * Z) := {|
  Sudo c m st := match AddAuthenticator (SS := sdk) w_keeper c w_sig w_pk st with
                 | (st', Ok _) => (st', Ok tt)
                 | (st', Err e) => (st', Err e)
                 end;
  SudoMsg_json m := [];
  VerifySignature k m s := bytes_eqb k s;
  SigVerifyCostSecp256k1 _ := 1000;
  message_json m := Some (Value m);
  LegacyNewDecFromStr := ex_dec;
  PathAVerifier := None
|}.
Definition reentrant_add : (world toy * (Z * Z)) * result sa_fail Z :=
  AddAuthenticator (SS := reentrant QuietSa) w_keeper (str "alice") (str "CosmwasmAuthenticatorV1")
    (jtext "{'contract':'terp1c'}") w_st0.
Example reentrant_ids_collide :
  reentrant_add.2 = Ok 1 /\
  is_ok (GetSelectedAuthenticatorData reentrant_add.1.1 (str "alice") 1) = true /\
  is_ok (GetSelectedAuthenticatorData reentrant_add.1.1 (str "c") 1) = true.
Proof. split; [vm_refl|]. split; vm_refl. Qed.
