(* ===== verification/SaAnte.v ===== *)
(** * x/smart-account: the decorators

    [authenticator/authentication_request.go], [ante/ante.go],
    [ante/circuit_breaker.go], [post/post.go], [authenticator/replay_protection.go]:
    how a transaction with selected authenticators is authenticated before it
    runs and confirmed after. A transaction is what the decorators read of it;
    the account keeper, the sign bytes and the fee deduction are parameters.

    [AnteHandle] works on two stores: [an_world], the store of the context, and
    [an_base], the store under it that survives when the decorator fails; the
    fee deduction writes the first into the second. It also works on two gas
    meters: a small one until the fee payer is authenticated, then the
    transaction's own. *)

From S2P Require Import Prelude KVStore Json Sdk SaFilter SaAuth SaKeeper.
Open Scope go_scope.

(** ** Transactions *)

(** A message: its signers and its packed form, [None] when the codec fails. *)
Record SaMsg := MkSaMsg { sm_Signers : option (list bytes); sm_Any : option LocalAny }.
(** A signature; [None] is anything but a single signature. *)
Record SignatureV2 := MkSignatureV2 { sig_Single : option bytes; sig_Sequence : Z }.
Record FeeInfo := MkFeeInfo { fi_Payer : bytes; fi_Granter : bytes; fi_Fee : Coins }.
(** [None] in a field: the transaction does not have the interface, or its
    method fails. [tx_Extensions] lists what each non-critical extension unpacks
    to, the selected authenticators when it is a [TxExtension]. *)
Record SaTx := MkSaTx {
  stx_Msgs : list SaMsg;
  stx_Fee : option FeeInfo;
  stx_IsSigTx : bool;
  stx_Signatures : option (list SignatureV2);
  stx_Signers : option (list bytes);
  stx_TimeoutHeight : option Z;
  stx_Memo : option bytes;
  stx_Extensions : option (list (option (list Z)))
}.
(** [authsigning.SignerData]. *)
Record SignerData := MkSignerData { sd_ChainID : bytes; sd_AccountNumber : Z; sd_Sequence : Z }.

Class SaTxSdk (B G : Type) := {
  (** account number and sequence; [None] is no account *)
  GetAccount : B -> bytes -> option (Z * Z);
  GetSignBytes : sa_ctx -> SignerData -> SaTx -> option bytes;
  (** the fee decorator, with an empty chain behind it *)
  DeductFee : SaTx -> bool -> meth (world B * G) sa_fail unit
}.

(** ** Extensions and routing *)

(** [GetAuthenticatorExtension]: the first extension that unpacks. *)
Fixpoint GetAuthenticatorExtension (exts : list (option (list Z))) : option (list Z) :=
  match exts with
  | [] => None
  | Some selected :: _ => Some selected
  | None :: exts' => GetAuthenticatorExtension exts'
  end.
(** The second result, the options, only when the first is false. *)
Definition IsSelectedAuthenticatorTxExtensionMissing (tx : SaTx) : bool * option (list Z) :=
  match stx_Extensions tx with
  | None => (true, None)
  | Some exts =>
      match GetAuthenticatorExtension exts with
      | None => (true, None)
      | Some selected => if Z.of_nat (length selected) <? 1 then (true, None) else (false, Some selected)
      end
  end.
Definition IsCircuitBreakActive (active : bool) (tx : SaTx) : bool * option (list Z) :=
  if negb active then (true, None) else IsSelectedAuthenticatorTxExtensionMissing tx.
(** [CircuitBreakerDecorator.AnteHandle]: which flow the transaction takes. *)
Definition CircuitBreaker_AnteHandle {A : Type} (authenticatorFlow originalFlow : A) (active : bool) (tx : SaTx) : A :=
  if (IsCircuitBreakActive active tx).1 then originalFlow else authenticatorFlow.
Definition GetSelectedAuthenticators (tx : SaTx) (msgCount : Z) : result sa_fail (list Z) :=
  match stx_Extensions tx with
  | None => Err (Fail ErrTxDecode)
  | Some exts =>
      try! selected <- opt_or (GetAuthenticatorExtension exts) ErrInvalidRequest;
      check! fail_if (negb (Z.of_nat (length selected) =? msgCount)) ErrInvalidRequest;
      Ok selected
  end.

(** ** The authentication request *)

Definition ReplayProtection : Type := ExplicitTxData -> SignatureV2 -> result sa_fail unit.
Definition SequenceMatch : ReplayProtection := fun txData signature =>
  fail_if (negb (sig_Sequence signature =? AccountSequence txData)) ErrInvalidSequence.
Definition NoReplayProtection : ReplayProtection := fun _ _ => Ok tt.

Definition GetSignerAndSignatures (tx : SaTx) : result sa_fail (list bytes * list SignatureV2) :=
  check! fail_if (negb (stx_IsSigTx tx)) ErrTxDecode;
  try! signatures <- opt_or (stx_Signatures tx) ErrEncode;
  try! signers <- opt_or (stx_Signers tx) ErrEncode;
  check! fail_if (negb (Z.of_nat (length signatures) =? Z.of_nat (length signers))) ErrTxDecode;
  Ok (signers, signatures).

Fixpoint pack_msgs (msgs : list SaMsg) : option (list LocalAny) :=
  match msgs with
  | [] => Some []
  | m :: msgs' => match sm_Any m, pack_msgs msgs' with Some a, Some l => Some (a :: l) | _, _ => None end
  end.
Definition extractExplicitTxData (tx : SaTx) (sd : SignerData) : result sa_fail ExplicitTxData :=
  try! timeout <- opt_or (stx_TimeoutHeight tx) ErrInvalidType;
  try! memo <- opt_or (stx_Memo tx) ErrInvalidType;
  try! msgs <- opt_or (pack_msgs (stx_Msgs tx)) ErrEncode;
  Ok (MkExplicitTxData (sd_ChainID sd) (sd_AccountNumber sd) (sd_Sequence sd) timeout msgs memo).

(** The loop over the signatures, with those so far and the signer's. *)
Fixpoint extract_loop (txData : ExplicitTxData) (account : bytes) (replay : ReplayProtection)
    (signers : list bytes) (txSignatures : list SignatureV2) (signatures : list bytes) (msgSignature : bytes)
    {struct txSignatures} : result sa_fail (list bytes * bytes) :=
  match txSignatures with
  | [] => Ok (signatures, msgSignature)
  | signature :: rest =>
      try! single <- opt_or (sig_Single signature) ErrInvalidType;
      let signatures' := signatures ++ [single] in
      match signers with
      | [] => Err IndexOutOfRange
      | signer :: signers' =>
          if bytes_eqb signer account then
            check! replay txData signature;
            extract_loop txData account replay signers' rest signatures' single
          else extract_loop txData account replay signers' rest signatures' msgSignature
      end
  end.
Definition extractSignatures (txSigners : list bytes) (txSignatures : list SignatureV2) (txData : ExplicitTxData)
    (account : bytes) (replay : ReplayProtection) : result sa_fail (list bytes * bytes) :=
  extract_loop txData account replay txSigners txSignatures [] [].

(** [signers[0]]. *)
Definition first_signer (signers : list bytes) : result sa_fail bytes :=
  match signers with s :: _ => Ok s | [] => Err IndexOutOfRange end.

Section Operations.
Context {B G : Type} {SdkB : Sdk B} {GM : GasMeter G} {SS : SaSdk B G} {Cd : SaCodec} {TX : SaTxSdk B G}.
Context (ctx : sa_ctx) (k : SaKeeper).

(** A missing account is a nil pointer outside of genesis. *)
Definition getSignerData (w : world B) (account : bytes) : result sa_fail SignerData :=
  let baseAccount := GetAccount (sa_rest w) account in
  let genesis := cx_BlockHeight ctx =? 0 in
  try! accNum <- (if genesis then Ok 0
                  else match baseAccount with Some (n, _) => Ok n | None => Err NilPointer end);
  Ok (MkSignerData (cx_ChainID ctx) accNum (match baseAccount with Some (_, s) => s | None => 0 end)).

Definition GenerateAuthenticationRequest (w : world B) (account feePayer feeGranter : bytes) (fee : Coins)
    (msg : SaMsg) (tx : SaTx) (msgIndex : nat) (simulate : bool) (replay : ReplayProtection) :
    result sa_fail AuthenticationRequest :=
  try! signers <- opt_or (sm_Signers msg) ErrEncode;
  try! signer <- first_signer signers;
  check! fail_if (negb (bytes_eqb signer account)) ErrInvalidRequest;
  try! ss <- GetSignerAndSignatures tx;
  try! signerData <- getSignerData w account;
  try! txData <- extractExplicitTxData tx signerData;
  try! sigs <- extractSignatures ss.1 ss.2 txData account replay;
  match td_Msgs txData !! msgIndex with
  | None => Err IndexOutOfRange
  | Some any =>
      let authRequest direct :=
        MkRequest [] account feePayer feeGranter fee any (Z.of_nat msgIndex) sigs.2 (MkSignModeData direct [])
          txData (MkSSD ss.1 sigs.1) simulate [] in
      if simulate && cx_IsCheckTx ctx then Ok (authRequest (str "signBytes"))
      else
        try! signBytes <- opt_or (GetSignBytes ctx signerData tx) ErrEncode;
        Ok (authRequest signBytes)
  end.

(** ** The ante handler *)

Definition ValidateAuthenticatorFeePayer (tx : SaTx) : result sa_fail unit :=
  try! feeTx <- opt_or (stx_Fee tx) ErrTxDecode;
  match stx_Msgs tx with
  | [] => Err (Fail ErrTxDecode)
  | msg :: _ =>
      try! signers <- opt_or (sm_Signers msg) ErrUnauthorized;
      match signers with
      | [] => Err (Fail ErrTxDecode)
      | signer :: _ => fail_if (negb (bytes_eqb (fi_Payer feeTx) signer)) ErrUnauthorized
      end
  end.

Record ante := MkAnte { an_base : world B; an_world : world B; an_orig : G; an_payer : G; an_paid : bool }.
(** The meter of the context. *)
Definition an_meter (s : ante) : G := if an_paid s then an_orig s else an_payer s.
Definition set_meter (g : G) (s : ante) : ante :=
  if an_paid s then MkAnte (an_base s) (an_world s) g (an_payer s) true
  else MkAnte (an_base s) (an_world s) (an_orig s) g false.

(** What the decorator knows of the transaction once it has read it. *)
Record ante_env := MkAnteEnv {
  ev_tx : SaTx; ev_simulate : bool; ev_payer : bytes; ev_fee : FeeInfo; ev_selected : list Z
}.

(** The single signer of a message. *)
Definition one_signer (msg : SaMsg) : result sa_fail bytes :=
  try! signers <- opt_or (sm_Signers msg) ErrUnauthorized;
  match signers with
  | [account] => Ok account
  | _ => Err (Fail ErrUnauthorized)
  end.
(** The selected authenticator of a message and the request it is given. *)
Definition message_request (env : ante_env) (w : world B) (msgIndex : nat) (msg : SaMsg) (account : bytes) :
    result sa_fail (Authenticator * AuthenticationRequest) :=
  match ev_selected env !! msgIndex with
  | None => Err IndexOutOfRange
  | Some selectedAuthenticatorId =>
      try! selected <- GetInitializedAuthenticatorForAccount k w account selectedAuthenticatorId;
      try! request <- GenerateAuthenticationRequest w account (ev_payer env) (fi_Granter (ev_fee env))
                        (fi_Fee (ev_fee env)) msg (ev_tx env) msgIndex (ev_simulate env) SequenceMatch;
      Ok (selected.2, with_id (FormatUint selected.1) request)
  end.
(** Authentication in a cached context that is never written: only the meter
    of the result is kept. *)
Definition authenticate_message (env : ante_env) (w : world B) (g : G) (msgIndex : nat) (msg : SaMsg) :
    G * result sa_fail (bytes * (Authenticator * AuthenticationRequest)) :=
  match (try! account <- one_signer msg;
         try! ar <- message_request env w msgIndex msg account;
         Ok (account, ar)) with
  | Err e => (g, Err e)
  | Ok (account, ar) =>
      let '(g1, panics) := meter_ConsumeGas (StaticGas ar.1) g in
      if panics then (g1, Err OutOfGas)
      else match Authenticate ctx ar.1 ar.2 (w, g1) with
           | (st', Ok _) => (st'.2, Ok (account, ar))
           | (st', Err e) => (st'.2, Err e)
           end
  end.
(** The fee payer is authenticated: its gas moves to the transaction's meter,
    the fee is deducted and written through. *)
Definition pay_fees (env : ante_env) (s : ante) : ante * result sa_fail unit :=
  let '(orig, panics) := meter_ConsumeGas (GasConsumed (an_payer s)) (an_orig s) in
  let s1 := MkAnte (an_base s) (an_world s) orig (an_payer s) false in
  if panics then (s1, Err OutOfGas)
  else match DeductFee (ev_tx env) (ev_simulate env) (an_world s, an_payer s) with
       | ((w', payer'), Ok _) => (MkAnte w' w' orig payer' true, Ok tt)
       | ((w', payer'), Err e) => (MkAnte (an_base s) w' orig payer' false, Err e)
       end.

Fixpoint ante_loop (env : ante_env) (msgIndex : nat) (msgs : list SaMsg) (s : ante) :
    ante * result sa_fail (list (Authenticator * AuthenticationRequest)) :=
  match msgs with
  | [] => (s, Ok [])
  | msg :: msgs' =>
      let '(g, r) := authenticate_message env (an_world s) (an_meter s) msgIndex msg in
      let s1 := set_meter g s in
      match r with
      | Err e => (s1, Err e)
      | Ok (account, ar) =>
          let '(s2, r2) := if negb (an_paid s1) && bytes_eqb account (ev_payer env) then pay_fees env s1
                           else (s1, Ok tt) in
          match r2 with
          | Err e => (s2, Err e)
          | Ok _ =>
              match ante_loop env (S msgIndex) msgs' s2 with
              | (s3, Ok tracks) => (s3, Ok (ar :: tracks))
              | (s3, Err e) => (s3, Err e)
              end
          end
      end
  end.
(** The closures, run after every message was authenticated. *)
Definition run_tracks (tracks : list (Authenticator * AuthenticationRequest)) : meth (world B * G) sa_fail unit :=
  mrange tracks (fun t => Track t.1 t.2).

(** The deferred recover. *)
Definition recover_out_of_gas {A : Type} (r : result sa_fail A) : result sa_fail A :=
  match r with Err OutOfGas => Err (Fail ErrOutOfGas) | _ => r end.

Definition read_tx (tx : SaTx) (simulate : bool) : result sa_fail ante_env :=
  match stx_Msgs tx with
  | [] => Err (Fail ErrInvalidRequest)
  | msg :: _ =>
      try! feeTx <- opt_or (stx_Fee tx) ErrTxDecode;
      try! signers <- opt_or (sm_Signers msg) ErrUnauthorized;
      try! feePayer <- first_signer signers;
      try! selected <- GetSelectedAuthenticators tx (Z.of_nat (length (stx_Msgs tx)));
      Ok (MkAnteEnv tx simulate feePayer feeTx selected)
  end.
(** The body after the parameters are read; [Ok] goes to the next handler. *)
Definition ante_body (tx : SaTx) (simulate : bool) (s : ante) : ante * result sa_fail unit :=
  match read_tx tx simulate with
  | Err e => (s, Err e)
  | Ok env =>
      match ante_loop env 0 (stx_Msgs tx) s with
      | (s1, Err e) => (s1, Err e)
      | (s1, Ok tracks) =>
          let '((w', g'), r) := run_tracks tracks (an_world s1, an_meter s1) in
          (set_meter g' (MkAnte (an_base s1) w' (an_orig s1) (an_payer s1) (an_paid s1)), r)
      end
  end.
Definition sa_AnteHandle (tx : SaTx) (simulate : bool) (base w : world B) (g : G) : ante * result sa_fail unit :=
  let s0 := MkAnte base w g g false in
  match ValidateAuthenticatorFeePayer tx with
  | Err e => (s0, Err e)
  | Ok _ =>
      match sa_params w with
      | None => (s0, Err Panicked)
      | Some params =>
          let '(s, r) := ante_body tx simulate (MkAnte base w g (NewGasMeter (MaximumUnauthenticatedGas params)) false) in
          (s, recover_out_of_gas r)
      end
  end.

(** ** The post handler *)

Fixpoint post_loop (tx : SaTx) (fi : FeeInfo) (selected : list Z) (simulate : bool) (msgIndex : nat)
    (msgs : list SaMsg) (success : bool) : meth (world B * G) sa_fail bool :=
  match msgs with
  | [] => mret success
  | msg :: msgs' =>
      fun st =>
      (run! ar <- mlift (
         try! signers <- opt_or (sm_Signers msg) ErrEncode;
         try! account <- first_signer signers;
         match selected !! msgIndex with
         | None => Err IndexOutOfRange
         | Some selectedAuthenticatorId =>
             try! sel <- GetInitializedAuthenticatorForAccount k st.1 account selectedAuthenticatorId;
             try! request <- GenerateAuthenticationRequest st.1 account (fi_Payer fi) (fi_Granter fi) (fi_Fee fi)
                               msg tx msgIndex simulate NoReplayProtection;
             Ok (sel.2, with_id (FormatUint sel.1) request)
         end);
       exec! ConfirmExecution ar.1 ar.2;
       post_loop tx fi selected simulate (S msgIndex) msgs' true) st
  end.
(** The flag handed to the next post handler. *)
Definition PostHandle (active : bool) (tx : SaTx) (simulate success : bool) : meth (world B * G) sa_fail bool :=
  match IsCircuitBreakActive active tx with
  | (true, _) => mret success
  | (false, options) =>
      run! fi <- mlift (opt_or (stx_Fee tx) ErrTxDecode);
      post_loop tx fi (default [] options) simulate 0 (stx_Msgs tx) success
  end.
End Operations.
Arguments ante : clear implicits.

(** ** The loop over the messages *)

Section Loop.
Context {B G : Type} {SdkB : Sdk B} {GM : GasMeter G} {SS : SaSdk B G} {Cd : SaCodec} {TX : SaTxSdk B G}.
Context (ctx : sa_ctx) (k : SaKeeper).

(** The message [i] was authenticated on the state [w]. *)
Definition authenticated (env : ante_env) (w : world B) (i : nat) (msg : SaMsg)
    (ar : Authenticator * AuthenticationRequest) : Prop :=
  exists (g g' : G) account, authenticate_message ctx k env w g i msg = (g', Ok (account, ar)).

Lemma set_meter_fields g (s : ante B G) :
  an_base (set_meter g s) = an_base s /\ an_world (set_meter g s) = an_world s /\ an_paid (set_meter g s) = an_paid s.
Proof. unfold set_meter. by destruct (an_paid s) eqn:E; cbn. Qed.

Lemma ante_loop_cons env i msg msgs (s s' : ante B G) r :
  ante_loop ctx k env i (msg :: msgs) s = (s', r) ->
  (exists g e, s' = set_meter g s /\ r = Err e) \/
  exists g account ar s2 r2, authenticate_message ctx k env (an_world s) (an_meter s) i msg = (g, Ok (account, ar)) /\
    (if negb (an_paid s) && bytes_eqb account (ev_payer env) then pay_fees env (set_meter g s)
     else (set_meter g s, Ok tt)) = (s2, r2) /\
    ((exists e, r2 = Err e /\ s' = s2 /\ r = Err e) \/
     (r2 = Ok tt /\ exists r3, ante_loop ctx k env (S i) msgs s2 = (s', r3) /\
        r = match r3 with Ok l => Ok (ar :: l) | Err e => Err e end)).
Proof.
  cbn [ante_loop]. destruct (authenticate_message ctx k env (an_world s) (an_meter s) i msg) as [g [[account ar]|e]].
  2:{ intros [= <- <-]. left. eauto. }
  destruct (set_meter_fields g s) as (_ & _ & ->). intros H. right. exists g, account, ar.
  destruct (if negb (an_paid s) && bytes_eqb account (ev_payer env) then _ else _) as [s2 r2]. exists s2, r2.
  split; [done|]. split; [done|]. destruct r2 as [[]|e].
  - right. split; [done|]. destruct (ante_loop ctx k env (S i) msgs s2) as [s3 r3]. exists r3.
    destruct r3; injection H as <- <-; done.
  - injection H as <- <-. left. eauto.
Qed.

(** After the fee is paid the loop changes meters only. *)
Lemma ante_loop_paid env : forall msgs i (s s' : ante B G) r,
  an_paid s = true -> ante_loop ctx k env i msgs s = (s', r) ->
  an_base s' = an_base s /\ an_world s' = an_world s /\ an_paid s' = true /\
  forall tracks, r = Ok tracks -> length tracks = length msgs /\
    forall j msg ar, msgs !! j = Some msg -> tracks !! j = Some ar -> authenticated env (an_world s) (i + j)%nat msg ar.
Proof.
  induction msgs as [|msg msgs IH]; intros i s s' r Hp H.
  { injection H as <- <-. split; [done|]. split; [done|]. split; [done|]. intros tracks [= <-]. done. }
  apply ante_loop_cons in H as [(g & e & -> & ->)|(g & account & ar & s2 & r2 & Ha & H2 & H)].
  { destruct (set_meter_fields g s) as (-> & -> & ->). done. }
  rewrite Hp in H2. cbn [negb andb] in H2. injection H2 as <- <-.
  destruct (set_meter_fields g s) as (Hb & Hw & Hpd).
  destruct H as [(e & ? & _)|(_ & r3 & H3 & ->)]; [done|].
  destruct (IH (S i) _ _ _ ltac:(by rewrite Hpd) H3) as (-> & -> & -> & Ht). rewrite Hw in *.
  split; [done|]. split; [done|]. split; [done|]. intros tracks E. destruct r3 as [l|]; [|done]. injection E as <-.
  destruct (Ht l eq_refl) as [Hl Hall]. split; [cbn; lia|]. intros [|j] m a Hm Har; cbn in *.
  - injection Hm as <-. injection Har as <-. rewrite Nat.add_0_r. by exists (an_meter s), g, account.
  - rewrite Nat.add_succ_r. by apply (Hall j).
Qed.

Lemma one_signer_ok msg account : one_signer msg = Ok account <-> sm_Signers msg = Some [account].
Proof.
  unfold one_signer. destruct (sm_Signers msg) as [[|a [|b l]]|]; cbn; split; congruence.
Qed.
Lemma authenticate_account env (w : world B) (g g' : G) i msg account ar :
  authenticate_message ctx k env w g i msg = (g', Ok (account, ar)) ->
  sm_Signers msg = Some [account] /\ message_request ctx k env w i msg account = Ok ar /\
  exists g1 st', Authenticate ctx ar.1 ar.2 (w, g1) = (st', Ok tt).
Proof.
  unfold authenticate_message. destruct (one_signer msg) as [a0|] eqn:E1; cbn [rbind]; [|done].
  destruct (message_request ctx k env w i msg a0) as [ar0|] eqn:E2; cbn [rbind]; [|done].
  destruct (meter_ConsumeGas _ g) as [g1 []]; [done|].
  destruct (Authenticate ctx ar0.1 ar0.2 (w, g1)) as [st' [[]|e]] eqn:E3; [|done].
  intros [= _ <- <-]. apply one_signer_ok in E1. by eauto.
Qed.

(** The fee payer is the signer of the first message, so its authentication pays. *)
Lemma first_pays tx simulate env msg msgs (s : ante B G) g account ar :
  read_tx tx simulate = Ok env -> stx_Msgs tx = msg :: msgs -> an_paid s = false ->
  authenticate_message ctx k env (an_world s) (an_meter s) 0 msg = (g, Ok (account, ar)) ->
  negb (an_paid s) && bytes_eqb account (ev_payer env) = true.
Proof.
  intros Hr Hm Hp Ha. apply authenticate_account in Ha as [Hs _]. unfold read_tx in Hr. rewrite Hm, Hs in Hr.
  destruct (stx_Fee tx); cbn in Hr; [|done]. destruct (GetSelectedAuthenticators _ _); cbn in Hr; [|done].
  injection Hr as <-. rewrite Hp. cbn. apply bytes_eqb_refl.
Qed.

Lemma pay_fees_ok env (s s2 : ante B G) r :
  pay_fees env s = (s2, r) ->
  match r with
  | Ok _ => exists payer', DeductFee (ev_tx env) (ev_simulate env) (an_world s, an_payer s) =
              ((an_world s2, payer'), Ok tt) /\ an_base s2 = an_world s2 /\ an_paid s2 = true
  | Err _ => an_base s2 = an_base s
  end.
Proof.
  unfold pay_fees. destruct (meter_ConsumeGas _ (an_orig s)) as [orig []]; [by intros [= <- <-]|].
  destruct (DeductFee _ _ (an_world s, an_payer s)) as [[w' payer'] [[]|e]]; intros [= <- <-]; [|done].
  exists payer'. done.
Qed.

(** The loop from an unpaid start. *)
Lemma ante_loop_first tx simulate env (s s' : ante B G) r :
  read_tx tx simulate = Ok env -> an_paid s = false -> ante_loop ctx k env 0 (stx_Msgs tx) s = (s', r) ->
  (an_base s' = an_base s /\ exists e, r = Err e) \/
  exists msg ar payer payer', stx_Msgs tx !! 0%nat = Some msg /\ authenticated env (an_world s) 0 msg ar /\
    DeductFee tx simulate (an_world s, payer) = ((an_base s', payer'), Ok tt) /\
    an_world s' = an_base s' /\ an_paid s' = true /\
    forall tracks, r = Ok tracks -> length tracks = length (stx_Msgs tx) /\ tracks !! 0%nat = Some ar /\
      forall j m a, stx_Msgs tx !! S j = Some m -> tracks !! S j = Some a ->
        authenticated env (an_base s') (S j) m a.
Proof.
  intros Hr Hp H. destruct (stx_Msgs tx) as [|msg msgs] eqn:Em; [unfold read_tx in Hr; by rewrite Em in Hr|].
  assert (Henv : ev_tx env = tx /\ ev_simulate env = simulate).
  { unfold read_tx in Hr. rewrite Em in Hr. do 4 apply rbind_ok in Hr as (? & _ & Hr). by injection Hr as <-. }
  destruct Henv as [Htx Hsim].
  apply ante_loop_cons in H as [(g & e & -> & ->)|(g & account & ar & s2 & r2 & Ha & H2 & H)].
  { left. destruct (set_meter_fields g s) as (-> & _). eauto. }
  rewrite (first_pays tx simulate env msg msgs s g account ar) in H2 by done.
  apply pay_fees_ok in H2. destruct (set_meter_fields g s) as (Hb & Hw & _). rewrite Hw, Hb, Htx, Hsim in H2.
  destruct r2 as [[]|e]; destruct H as [(e' & He & -> & ->)|(He & r3 & H3 & ->)]; try done.
  2:{ left. eauto. }
  destruct H2 as (payer' & Hd & Hbw & Hpd). destruct (ante_loop_paid env msgs 1 s2 s' r3 Hpd H3) as (Hb' & Hw' & Hp' & Ht).
  right. exists msg, ar, (an_payer (set_meter g s)), payer'. split; [done|].
  split; [by exists (an_meter s), g, account|]. rewrite Hb', Hw', Hbw. split; [done|]. split; [done|]. split; [done|].
  intros tracks E. destruct r3 as [l|]; [|done]. injection E as <-. destruct (Ht l eq_refl) as [Hl Hall].
  split; [cbn; lia|]. split; [done|]. intros j m a Hm Har. cbn in Hm, Har. by apply (Hall j).
Qed.
End Loop.

(** ** The request of an authenticated message *)

Lemma extract_replay txData account : forall sigs signers acc ms out sig,
  extract_loop txData account SequenceMatch signers sigs acc ms = Ok (out, sig) ->
  (forall j s, signers !! j = Some account -> sigs !! j = Some s -> sig_Sequence s = AccountSequence txData) /\
  (sig = ms \/ exists j s, signers !! j = Some account /\ sigs !! j = Some s /\ sig_Single s = Some sig).
Proof.
  induction sigs as [|s0 sigs IH]; intros signers acc ms out sig H; cbn [extract_loop] in H.
  { injection H as <- <-. split; [|by left]. intros j s _ Hs. by rewrite lookup_nil in Hs. }
  destruct (sig_Single s0) as [single|] eqn:Es; cbn [opt_or rbind] in H; [|done].
  destruct signers as [|signer signers]; [done|]. destruct (bytes_eqb signer account) eqn:Ea.
  - apply bytes_eqb_eq in Ea as ->. apply rbind_ok in H as (u & Hq & H).
    unfold SequenceMatch, fail_if in Hq. apply guard_false in Hq. zbool. destruct (IH _ _ _ _ _ H) as [H1 H2]. split.
    + intros [|j] s Hj Hs; cbn in *; [congruence|by apply (H1 j)].
    + right. destruct H2 as [->|(j & s & Hj & Hs & Hsg)]; [by exists 0%nat, s0|by exists (S j), s].
  - apply bytes_eqb_neq in Ea. destruct (IH _ _ _ _ _ H) as [H1 H2]. split.
    + intros [|j] s Hj Hs; cbn in *; [congruence|by apply (H1 j)].
    + destruct H2 as [->|(j & s & Hj & Hs & Hsg)]; [by left|right; by exists (S j), s].
Qed.

Lemma pack_msgs_lookup msgs l i any : pack_msgs msgs = Some l -> l !! i = Some any ->
  exists m, msgs !! i = Some m /\ sm_Any m = Some any.
Proof.
  revert l i. induction msgs as [|m msgs IH]; intros l i H Hi; cbn in H.
  - injection H as <-. by rewrite lookup_nil in Hi.
  - destruct (sm_Any m) as [a|] eqn:Ea; [|done]. destruct (pack_msgs msgs) as [l'|]; [|done]. injection H as <-.
    destruct i as [|i]; cbn in Hi; [injection Hi as <-; by exists m|]. destruct (IH l' i eq_refl Hi) as (m' & Hm & Ha).
    by exists m'.
Qed.

Section Request.
Context {B G : Type} {SdkB : Sdk B} {AL : AddressLaws B} {GM : GasMeter G} {SS : SaSdk B G} {Cd : SaCodec}
  {CL : SaCodecLaws} {TX : SaTxSdk B G}.
Context (ctx : sa_ctx) (k : SaKeeper).

(** What [GenerateAuthenticationRequest] puts in a request. *)
Lemma request_ok (w : world B) account payer granter fee msg tx i simulate request :
  GenerateAuthenticationRequest (TX := TX) ctx w account payer granter fee msg tx i simulate SequenceMatch = Ok request ->
  rq_Account request = account /\ Simulate request = simulate /\ FeePayer request = payer /\
  (exists m, stx_Msgs tx !! i = Some m /\ sm_Any m = Some (rq_Msg request)) /\
  forall signers sigs, stx_Signers tx = Some signers -> stx_Signatures tx = Some sigs ->
    (forall j s, signers !! j = Some account -> sigs !! j = Some s ->
       sig_Sequence s = match GetAccount (sa_rest w) account with Some (_, q) => q | None => 0 end) /\
    (Signature request = [] \/ exists j s, signers !! j = Some account /\ sigs !! j = Some s /\
       sig_Single s = Some (Signature request)).
Proof.
  unfold GenerateAuthenticationRequest. intros H.
  apply rbind_ok in H as (sg & _ & H). apply rbind_ok in H as (sg0 & _ & H). apply rbind_ok in H as (u & _ & H).
  apply rbind_ok in H as ([signers sigs] & Hss & H). apply rbind_ok in H as (sd & Hsd & H).
  apply rbind_ok in H as (td & Htd & H). apply rbind_ok in H as ([out sig] & Hex & H). cbn [fst snd] in *.
  destruct (td_Msgs td !! i) as [any|] eqn:Ei; [|done].
  assert (Hreq : exists direct, request = MkRequest [] account payer granter fee any (Z.of_nat i) sig
    (MkSignModeData direct []) td (MkSSD signers out) simulate []).
  { destruct (simulate && cx_IsCheckTx ctx); [injection H as <-; by eauto|].
    apply rbind_ok in H as (sb & _ & H). injection H as <-. by eauto. }
  destruct Hreq as [direct ->]. cbn. split; [done|]. split; [done|]. split; [done|].
  unfold extractExplicitTxData in Htd. do 2 apply rbind_ok in Htd as (? & _ & Htd).
  apply rbind_ok in Htd as (l & Hl & Htd). injection Htd as <-. cbn in *.
  destruct (pack_msgs (stx_Msgs tx)) as [l'|] eqn:El; [|done]. injection Hl as <-.
  split; [by eapply pack_msgs_lookup|]. unfold GetSignerAndSignatures in Hss.
  apply rbind_ok in Hss as (? & _ & Hss). apply rbind_ok in Hss as (sigs' & Hs1 & Hss).
  apply rbind_ok in Hss as (signers' & Hs2 & Hss). apply rbind_ok in Hss as (? & _ & Hss). injection Hss as <- <-.
  intros signers0 sigs0 E1 E2. rewrite E1 in Hs2. rewrite E2 in Hs1. injection Hs2 as <-. injection Hs1 as <-.
  apply extract_replay in Hex as [H1 H2]. split; [|done]. intros j s Hj Hs. rewrite (H1 j s Hj Hs). cbn.
  unfold getSignerData in Hsd. apply rbind_ok in Hsd as (? & _ & Hsd). by injection Hsd as <-.
Qed.

(** The authenticator of a message is one its signer registered. *)
Lemma message_request_ok env (w : world B) R i msg account a request :
  sa_rel (sa_store w) R -> acct_ok account -> Forall is_u64 (ev_selected env) ->
  message_request (TX := TX) ctx k env w i msg account = Ok (a, request) ->
  exists sel t c tpl, ev_selected env !! i = Some sel /\ rg_auth R !! sel = Some (account, (t, c)) /\
    GetAuthenticatorByType (k_manager k) t = Some tpl /\ Initialize (k_manager k) tpl c = Ok a /\
    AuthenticatorId request = FormatUint sel /\
    exists request0, GenerateAuthenticationRequest (TX := TX) ctx w account (ev_payer env) (fi_Granter (ev_fee env))
      (fi_Fee (ev_fee env)) msg (ev_tx env) i (ev_simulate env) SequenceMatch = Ok request0 /\
      request = with_id (FormatUint sel) request0.
Proof.
  intros HR Ha Hu. unfold message_request. destruct (ev_selected env !! i) as [sel|] eqn:Ei; [|done]. intros H.
  assert (Hsel : is_u64 sel) by (rewrite Forall_forall in Hu; apply Hu; by eapply list_elem_of_lookup_2).
  apply rbind_ok in H as ([id a'] & Hg & H). apply rbind_ok in H as (request0 & Hrq & H). cbn [fst snd] in H.
  injection H as <- <-. unfold GetInitializedAuthenticatorForAccount in Hg.
  apply rbind_ok in Hg as (aa & Haa & Hg). rewrite (GetSelected_rel w R account sel HR Ha Hsel) in Haa.
  destruct (rg_auth R !! sel) as [[acct [t c]]|] eqn:Eau; [|done]. destruct (bytes_eqb acct account) eqn:Ea; [|done].
  apply bytes_eqb_eq in Ea as ->. injection Haa as <-. cbn [aa_Type aa_Config aa_Id] in Hg.
  destruct (GetAuthenticatorByType (k_manager k) t) as [tpl|] eqn:Et; [|done].
  apply rbind_ok in Hg as (a0 & Hi & Hg). injection Hg as <- <-. exists sel, t, c, tpl. by eauto 10.
Qed.

Lemma AnteHandle_fees_cases tx simulate (base w : world B) (g : G) s r :
  sa_AnteHandle (TX := TX) ctx k tx simulate base w g = (s, r) ->
  (an_base s = base /\ exists e, r = Err e) \/
  exists env msg ar payer payer', read_tx tx simulate = Ok env /\ stx_Msgs tx !! 0%nat = Some msg /\
    authenticated (TX := TX) ctx k env w 0 msg ar /\
    DeductFee tx simulate (w, payer) = ((an_base s, payer'), Ok tt) /\
    (r = Ok tt -> exists tracks gt gt', length tracks = length (stx_Msgs tx) /\
       run_tracks tracks (an_base s, gt) = ((an_world s, gt'), Ok tt) /\
       forall j m a, stx_Msgs tx !! j = Some m -> tracks !! j = Some a ->
         authenticated (TX := TX) ctx k env (if (j =? 0)%nat then w else an_base s) j m a).
Proof.
  unfold sa_AnteHandle. destruct (ValidateAuthenticatorFeePayer tx) as [[]|e]; [|intros [= <- <-]; left; by eauto].
  destruct (sa_params w) as [p|]; [|intros [= <- <-]; left; by eauto].
  set (s0 := MkAnte base w g (NewGasMeter _) false). unfold ante_body.
  destruct (read_tx tx simulate) as [env|e] eqn:Er.
  2:{ intros [= <- <-]. left. split; [done|]. destruct e; cbn; by eauto. }
  destruct (ante_loop ctx k env 0 (stx_Msgs tx) s0) as [s1 r1] eqn:El.
  pose proof (ante_loop_first ctx k tx simulate env s0 s1 r1 Er eq_refl El) as H.
  destruct r1 as [tracks|e].
  - destruct H as [[_ [? ?]]|(msg & ar & payer & payer' & Hm & Hau & Hd & Hwb & Hp & Ht)]; [done|].
    destruct (run_tracks tracks (an_world s1, an_meter s1)) as [[w' g'] r'] eqn:Etr. intros E.
    destruct (set_meter_fields g' (MkAnte (an_base s1) w' (an_orig s1) (an_payer s1) (an_paid s1))) as (Hb & Hw & _).
    injection E as <- <-. right. exists env, msg, ar, payer, payer'. rewrite Hb, Hw. cbn [an_base an_world].
    split; [done|]. split; [done|]. split; [done|]. split; [done|]. intros Hok.
    assert (r' = Ok tt) as -> by (destruct r' as [[]|[]]; cbn in Hok; congruence).
    destruct (Ht tracks eq_refl) as (Hl & H0 & Hall). exists tracks, (an_meter s1), g'. split; [done|].
    rewrite Hwb in Etr. split; [done|]. intros [|j] m a Hjm Hja; [|by apply Hall].
    rewrite Hm in Hjm. rewrite H0 in Hja. injection Hjm as <-. by injection Hja as <-.
  - intros [= <- <-]. destruct H as [[Hb _]|(msg & ar & payer & payer' & Hm & Hau & Hd & _)].
    + left. split; [done|]. destruct e; cbn; by eauto.
    + right. exists env, msg, ar, payer, payer'. split; [done|]. split; [done|]. split; [done|]. split; [done|].
      by destruct e.
Qed.


Lemma AnteHandle_fees_ok tx simulate (base w : world B) (g : G) s :
  sa_AnteHandle (TX := TX) ctx k tx simulate base w g = (s, Ok tt) ->
  exists env payer payer' tracks, read_tx tx simulate = Ok env /\
    DeductFee tx simulate (w, payer) = ((an_base s, payer'), Ok tt) /\ length tracks = length (stx_Msgs tx) /\
    forall j m a, stx_Msgs tx !! j = Some m -> tracks !! j = Some a ->
      authenticated (TX := TX) ctx k env (if (j =? 0)%nat then w else an_base s) j m a.
Proof.
  intros [[_ [e ?]]|(env & msg & ar & payer & payer' & Hr & _ & _ & Hd & Ht)]%AnteHandle_fees_cases; [done|].
  destruct (Ht eq_refl) as (tracks & _ & _ & Hl & _ & Hall). by exists env, payer, payer', tracks.
Qed.

Lemma post_loop_ok tx fi selected simulate : forall msgs i success (st st' : world B * G) b,
  post_loop (TX := TX) ctx k tx fi selected simulate i msgs success st = (st', Ok b) ->
  b = match msgs with [] => success | _ => true end /\
  exists ars, length ars = length msgs /\ mrange ars (fun ar => ConfirmExecution ar.1 ar.2) st = (st', Ok tt) /\
    forall i ar, ars !! i = Some ar -> exists wi account sel id,
      GetInitializedAuthenticatorForAccount k wi account sel = Ok (id, ar.1) /\ AuthenticatorId ar.2 = FormatUint id /\
      rq_Account ar.2 = account.
Proof.
  induction msgs as [|msg msgs IH]; intros i success st st' b H; cbn [post_loop] in H.
  { injection H as <- <-. split; [done|]. by exists []. }
  apply mbind_ok in H as (s1 & ar & Har & H). apply mlift_ok in Har as [-> Har].
  apply mbind_ok in H as (s2 & [] & Hc & H). destruct (IH _ _ _ _ _ H) as [Hb (ars & Hl & Hm & Hall)].
  split; [by destruct msgs|]. exists (ar :: ars). split; [cbn; lia|]. split; [rewrite mrange_cons, Hc; done|].
  intros [|j] ar' Hj; cbn in Hj; [|by apply (Hall j)]. injection Hj as <-.
  apply rbind_ok in Har as (signers & _ & Har). apply rbind_ok in Har as (account & _ & Har).
  destruct (selected !! i) as [sel|]; [|done]. apply rbind_ok in Har as ([id a] & Hg & Har).
  apply rbind_ok in Har as (request & Hrq & Har). injection Har as <-. exists st.1, account, sel, id.
  split; [done|]. split; [done|]. cbn. clear -Hrq. unfold GenerateAuthenticationRequest in Hrq.
  do 7 apply rbind_ok in Hrq as (? & _ & Hrq). destruct (_ !! _); [|done].
  destruct (simulate && _); [by injection Hrq as <-|]. apply rbind_ok in Hrq as (? & _ & Hrq). by injection Hrq as <-.
Qed.

(** ** Properties *)

(** C24: Fees. Whatever the outcome, the store that survives a failed transaction
    is either untouched, or the result of exactly one fee deduction, made after
    the first message was authenticated for the fee payer. A transaction that
    passes has paid, and its state is that result with every message's [Track]
    applied in order; authentication itself left no trace. *)
Theorem AnteHandle_fees tx simulate (base w : world B) (g : G) s r :
  sa_AnteHandle (TX := TX) ctx k tx simulate base w g = (s, r) ->
  (an_base s = base /\ exists e, r = Err e) \/
  exists env msg ar payer payer', read_tx tx simulate = Ok env /\ stx_Msgs tx !! 0%nat = Some msg /\
    authenticated (TX := TX) ctx k env w 0 msg ar /\
    DeductFee tx simulate (w, payer) = ((an_base s, payer'), Ok tt) /\
    (r = Ok tt -> exists tracks gt gt', length tracks = length (stx_Msgs tx) /\
       run_tracks tracks (an_base s, gt) = ((an_world s, gt'), Ok tt) /\
       forall j m a, stx_Msgs tx !! j = Some m -> tracks !! j = Some a ->
         authenticated (TX := TX) ctx k env (if (j =? 0)%nat then w else an_base s) j m a).
Proof. apply AnteHandle_fees_cases. Qed.

Lemma authenticated_registered env (w : world B) R i msg ar signers sigs :
  sa_rel (sa_store w) R -> Forall is_u64 (ev_selected env) -> (forall a l, sm_Signers msg = Some l -> a ∈ l -> acct_ok a) ->
  stx_Signers (ev_tx env) = Some signers -> stx_Signatures (ev_tx env) = Some sigs ->
  authenticated (TX := TX) ctx k env w i msg ar ->
  exists account sel t c tpl, sm_Signers msg = Some [account] /\ ev_selected env !! i = Some sel /\
    rg_auth R !! sel = Some (account, (t, c)) /\ GetAuthenticatorByType (k_manager k) t = Some tpl /\
    Initialize (k_manager k) tpl c = Ok ar.1 /\
    rq_Account ar.2 = account /\ AuthenticatorId ar.2 = FormatUint sel /\
    (exists m, stx_Msgs (ev_tx env) !! i = Some m /\ sm_Any m = Some (rq_Msg ar.2)) /\
    (exists g1 st', Authenticate ctx ar.1 ar.2 (w, g1) = (st', Ok tt)) /\
    (forall j s, signers !! j = Some account -> sigs !! j = Some s ->
       sig_Sequence s = match GetAccount (sa_rest w) account with Some (_, q) => q | None => 0 end).
Proof.
  intros HR Hu Hok Es Eg (g & g' & account & Ha). apply authenticate_account in Ha as (Hs & Hm & Hau).
  destruct ar as [a request]. assert (Hacc : acct_ok account) by (apply (Hok account _ Hs); left).
  destruct (message_request_ok env w R i msg account a request HR Hacc Hu Hm)
    as (sel & t & c & tpl & Hsel & Hreg & Hty & Hin & Hid & request0 & Hrq & Hwith).
  apply request_ok in Hrq as (H1 & _ & _ & H4 & H5). destruct (H5 signers sigs Es Eg) as [H6 _].
  exists account, sel, t, c, tpl. rewrite Hwith. cbn [fst snd with_id rq_Account rq_Msg AuthenticatorId] in *.
  rewrite <- Hwith. by eauto 15.
Qed.

Lemma AnteHandle_authenticates_ok tx simulate (base w : world B) (g : G) s R signers sigs :
  (forall t b (st : world B * G), sa_store (DeductFee t b st).1.1 = sa_store st.1) ->
  sa_rel (sa_store w) R ->
  (forall m a l, m ∈ stx_Msgs tx -> sm_Signers m = Some l -> a ∈ l -> acct_ok a) ->
  (forall exts sel, stx_Extensions tx = Some exts -> GetAuthenticatorExtension exts = Some sel -> Forall is_u64 sel) ->
  stx_Signers tx = Some signers -> stx_Signatures tx = Some sigs ->
  sa_AnteHandle (TX := TX) ctx k tx simulate base w g = (s, Ok tt) ->
  forall i msg, stx_Msgs tx !! i = Some msg ->
  exists account sel t c tpl a request wi,
    sm_Signers msg = Some [account] /\ rg_auth R !! sel = Some (account, (t, c)) /\
    GetAuthenticatorByType (k_manager k) t = Some tpl /\ Initialize (k_manager k) tpl c = Ok a /\
    rq_Account request = account /\ AuthenticatorId request = FormatUint sel /\
    sm_Any msg = Some (rq_Msg request) /\
    (exists gi st', Authenticate ctx a request (wi, gi) = (st', Ok tt)) /\
    (forall j sg, signers !! j = Some account -> sigs !! j = Some sg ->
       sig_Sequence sg = match GetAccount (sa_rest wi) account with Some (_, q) => q | None => 0 end).
Proof.
  intros Hff HR Hacc Hsel Es Eg H i msg Hi.
  destruct (AnteHandle_fees_ok tx simulate base w g s H) as (env & payer & payer' & tracks & Her & Hd & Hl & Hall).
  assert (Henv : ev_tx env = tx /\ Forall is_u64 (ev_selected env)).
  { unfold read_tx in Her. destruct (stx_Msgs tx); [done|]. do 3 apply rbind_ok in Her as (? & _ & Her).
    apply rbind_ok in Her as (sel & Hs & Her). injection Her as <-. split; [done|]. cbn.
    unfold GetSelectedAuthenticators in Hs. destruct (stx_Extensions tx) as [exts|]; [|done].
    apply rbind_ok in Hs as (sel' & Hs & Hs2). apply rbind_ok in Hs2 as (? & _ & Hs2). injection Hs2 as <-.
    destruct (GetAuthenticatorExtension exts) as [sel0|] eqn:El; [|done]. injection Hs as <-. by apply (Hsel exts). }
  destruct Henv as [Htx Hu]. destruct (lookup_lt_is_Some_2 tracks i) as [ar Har].
  { rewrite Hl. by eapply lookup_lt_Some. }
  pose proof (Hall i msg ar Hi Har) as Hau. set (wi := if (i =? 0)%nat then w else an_base s) in *.
  assert (HRi : sa_rel (sa_store wi) R).
  { unfold wi. destruct (i =? 0)%nat; [done|]. specialize (Hff tx simulate (w, payer)). rewrite Hd in Hff. cbn in Hff.
    by rewrite Hff. }
  rewrite <- Htx in Es, Eg.
  destruct (authenticated_registered env wi R i msg ar signers sigs HRi Hu) as
    (account & sel & t & c & tpl & H1 & H2 & H3 & H4 & H5 & H6 & H7 & (m & Hm & Hany) & H9 & H10); try done.
  { intros a l Hs Ha. by eapply (Hacc msg); [eapply list_elem_of_lookup_2| |]. }
  rewrite Htx, Hi in Hm. injection Hm as <-. exists account, sel, t, c, tpl, ar.1, ar.2, wi. by eauto 15.
Qed.

(** Authentication. When a transaction passes, every message has exactly one
    signer, the authenticator selected for it is registered for that signer and
    no one else, that authenticator as configured accepted a request about this
    message and this account, and the signer's signatures carry the account's
    current sequence. *)
Theorem AnteHandle_authenticates tx simulate (base w : world B) (g : G) s R signers sigs :
  (forall t b (st : world B * G), sa_store (DeductFee t b st).1.1 = sa_store st.1) ->
  sa_rel (sa_store w) R ->
  (forall m a l, m ∈ stx_Msgs tx -> sm_Signers m = Some l -> a ∈ l -> acct_ok a) ->
  (forall exts sel, stx_Extensions tx = Some exts -> GetAuthenticatorExtension exts = Some sel -> Forall is_u64 sel) ->
  stx_Signers tx = Some signers -> stx_Signatures tx = Some sigs ->
  sa_AnteHandle (TX := TX) ctx k tx simulate base w g = (s, Ok tt) ->
  forall i msg, stx_Msgs tx !! i = Some msg ->
  exists account sel t c tpl a request wi,
    sm_Signers msg = Some [account] /\ rg_auth R !! sel = Some (account, (t, c)) /\
    GetAuthenticatorByType (k_manager k) t = Some tpl /\ Initialize (k_manager k) tpl c = Ok a /\
    rq_Account request = account /\ AuthenticatorId request = FormatUint sel /\
    sm_Any msg = Some (rq_Msg request) /\
    (exists gi st', Authenticate ctx a request (wi, gi) = (st', Ok tt)) /\
    (forall j sg, signers !! j = Some account -> sigs !! j = Some sg ->
       sig_Sequence sg = match GetAccount (sa_rest wi) account with Some (_, q) => q | None => 0 end).
Proof. apply AnteHandle_authenticates_ok. Qed.

(** Confirmation. When the authenticator flow applies and the post handler
    succeeds, the selected authenticator of every message confirmed it, in
    order, each on the state the one before left. The success flag handed on is
    true whatever it was before. *)
Theorem PostHandle_confirms active tx simulate success (st st' : world B * G) b :
  (IsCircuitBreakActive active tx).1 = false -> stx_Msgs tx <> [] ->
  PostHandle (TX := TX) ctx k active tx simulate success st = (st', Ok b) ->
  b = true /\ exists ars, length ars = length (stx_Msgs tx) /\
    mrange ars (fun ar => ConfirmExecution ar.1 ar.2) st = (st', Ok tt) /\
    forall i ar, ars !! i = Some ar -> exists wi account sel id,
      GetInitializedAuthenticatorForAccount k wi account sel = Ok (id, ar.1) /\ AuthenticatorId ar.2 = FormatUint id /\
      rq_Account ar.2 = account.
Proof.
  unfold PostHandle. destruct (IsCircuitBreakActive active tx) as [[] options]; [done|]. intros _ Hne H.
  apply mbind_ok in H as (s1 & fi & Hfi & H). apply mlift_ok in Hfi as [-> _].
  destruct (post_loop_ok tx fi (default [] options) simulate (stx_Msgs tx) 0 success st st' b H) as [Hb Hars].
  split; [|done]. destruct (stx_Msgs tx); done.
Qed.
End Request.

(** ** A small instance, for the witnesses *)

#[local] Existing Instances QuietSa PairMeter.
(** The fee is one unit of the toy bank's gas. *)
#[local] Instance ToyTx : SaTxSdk toy (Z * Z) := {|
  GetAccount _ a := if bytes_eqb a (str "alice") then Some (1, 5) else None;
  GetSignBytes _ _ _ := Some (str "doc");
  DeductFee _ _ st :=
    ((MkWorld (sa_store st.1) (sa_params st.1)
        (MkToy (toy_bal (sa_rest st.1)) (toy_sup (sa_rest st.1)) (toy_meta (sa_rest st.1)) (toy_gas (sa_rest st.1) - 1)),
      st.2), Ok tt)
|}.
Definition w_ctx : sa_ctx := MkSaCtx false false 7 (str "terp").
Definition w_msg : SaMsg := MkSaMsg (Some [str "alice"]) (Some (MkLocalAny (str "/bank.send") (str "{}"))).
Definition w_tx (seq : Z) : SaTx :=
  MkSaTx [w_msg; w_msg] (Some (MkFeeInfo (str "alice") [] [])) true
    (Some [MkSignatureV2 (Some w_pk) seq]) (Some [str "alice"]) (Some 0) (Some [])
    (Some [None; Some [1; 1]]).
Definition w_ante (seq : Z) : ante toy (Z * Z) * result sa_fail unit :=
  sa_AnteHandle w_ctx w_keeper (w_tx seq) false w_st1.1 w_st1.1 (1000000, 0).

(** A stale sequence is refused before the fee; two messages pay one fee. *)
Example ante_replay_refused : (w_ante 4).2 = Err (Fail ErrInvalidSequence) /\ toy_gas (sa_rest (an_base (w_ante 4).1)) = 0.
Proof. split; vm_refl. Qed.
Example ante_one_fee : (w_ante 5).2 = Ok tt /\ toy_gas (sa_rest (an_base (w_ante 5).1)) = -1.
Proof. split; vm_refl. Qed.
(** A failed execution is reported as a success to the next post handler. *)
Example post_overwrites_success : (PostHandle w_ctx w_keeper true (w_tx 5) false false w_st1).2 = Ok true.
Proof. vm_refl. Qed.

Lemma w_ante_ok : exists s, w_ante 5 = (s, Ok tt).
Proof.
  destruct (w_ante 5) as [s r] eqn:E. exists s. f_equal. change r with (s, r).2. rewrite <- E. vm_refl.
Qed.

Lemma AnteHandle_fees_witness :
  exists s, w_ante 5 = (s, Ok tt) /\
    exists payer payer', DeductFee (w_tx 5) false (w_st1.1, payer) = ((an_base s, payer'), Ok tt).
Proof.
  destruct w_ante_ok as [s E]. exists s. split; [assumption|].
  destruct (AnteHandle_fees w_ctx w_keeper (w_tx 5) false w_st1.1 w_st1.1 (1000000, 0) s (Ok tt) E)
    as [[_ [e He]]|(env & msg & ar & payer & payer' & _ & _ & _ & Hd & _)]; [discriminate|].
  exists payer, payer'. assumption.
Defined.

Lemma AnteHandle_authenticates_witness :
  exists account sel, sm_Signers w_msg = Some [account] /\ exists tc, rg_auth w_reg1 !! sel = Some (account, tc).
Proof.
  destruct w_ante_ok as [s E].
  destruct (AnteHandle_authenticates w_ctx w_keeper (w_tx 5) false w_st1.1 w_st1.1 (1000000, 0) s w_reg1
    [str "alice"] [MkSignatureV2 (Some w_pk) 5]) with (i := 1%nat) (msg := w_msg)
    as (account & sel & t & c & tpl & a & request & wi & Hs & Hr & _).
  - reflexivity.
  - exact w_sa_rel.
  - intros m a l Hm Hl Ha. change (stx_Msgs (w_tx 5)) with [w_msg; w_msg] in Hm.
    assert (m = w_msg) as -> by (apply elem_of_cons in Hm as [->|Hm]; [|apply list_elem_of_singleton in Hm as ->]; reflexivity).
    injection Hl as <-. apply list_elem_of_singleton in Ha as ->. unfold acct_ok. vm_refl.
  - intros exts sel [= <-] [= <-]. repeat constructor; unfold is_u64; lia.
  - reflexivity.
  - reflexivity.
  - exact E.
  - reflexivity.
  - exists account, sel. split; [assumption|]. exists (t, c). assumption.
Defined.

Lemma PostHandle_confirms_witness :
  exists st', PostHandle w_ctx w_keeper true (w_tx 5) false true w_st1 = (st', Ok true) /\
    exists ars, length ars = 2%nat /\ mrange ars (fun ar => ConfirmExecution ar.1 ar.2) w_st1 = (st', Ok tt).
Proof.
  destruct (PostHandle w_ctx w_keeper true (w_tx 5) false true w_st1) as [st' r] eqn:E.
  assert (Er : r = Ok true) by (change r with (st', r).2; rewrite <- E; vm_refl). subst r.
  exists st'. split; [reflexivity|].
  destruct (PostHandle_confirms w_ctx w_keeper true (w_tx 5) false true w_st1 st' true) as [_ (ars & Hl & Hm & _)];
    [reflexivity|discriminate|exact E|].
  exists ars. split; assumption.
Defined.
