(* ===== verification/JsonPrint.v ===== *)
(** * encoding/json: the encoder

    [json.Marshal] of the values the modules encode: strings with Go's escapes
    (HTML characters and line separators included, invalid UTF-8 replaced),
    byte slices in base64, integers in decimal, objects in field order. What
    is printed is parsed back ([json_print_parse], [b64_roundtrip]): this is
    what makes the stores and bundles the modules keep as JSON readable. *)

From S2P Require Import Prelude Json.

(** ** Strings *)

Definition hex_char (n : Z) : byte := byte_of_Z (if n <? 10 then 48 + n else 87 + n).
Definition u00_escape (c : byte) : bytes :=
  str "\u00" ++ [hex_char (byte_val c / 16); hex_char (byte_val c mod 16)].
(** An ASCII character inside a string. *)
Definition print_ascii (c : byte) : bytes :=
  if bool_decide (c = quote) || bool_decide (c = backslash) then [backslash; c]
  else if byte_val c =? 8 then str "\b"
  else if byte_val c =? 12 then str "\f"
  else if byte_val c =? 10 then str "\n"
  else if byte_val c =? 13 then str "\r"
  else if byte_val c =? 9 then str "\t"
  else if (byte_val c <? 32) || (byte_val c =? 60) || (byte_val c =? 62) || (byte_val c =? 38)
  then u00_escape c
  else [c].
(** U+2028 and U+2029 are escaped. *)
Definition line_sep (s : bytes) : option bytes :=
  if has_prefix [Byte.xe2; Byte.x80; Byte.xa8] s then Some (str "\u2028")
  else if has_prefix [Byte.xe2; Byte.x80; Byte.xa9] s then Some (str "\u2029")
  else None.
(** One element of a string: what is printed, and the rest. *)
Definition print_step (s : bytes) : bytes * bytes :=
  match s with
  | [] => ([], [])
  | c :: r =>
      if byte_val c <? 128 then (print_ascii c, r)
      else match rune_len s with
           | O => (str "\ufffd", r)
           | n => match line_sep s with
                  | Some out => (out, drop 3 s)
                  | None => (take n s, drop n s)
                  end
           end
  end.
Fixpoint print_chars (fuel : nat) (s : bytes) : bytes :=
  match fuel, s with
  | S f, _ :: _ => let '(out, r) := print_step s in out ++ print_chars f r
  | _, _ => []
  end.
Definition print_string (s : bytes) : bytes := quote :: print_chars (length s) s ++ [quote].

(** The strings that come back as they were: valid UTF-8. *)
Fixpoint utf8_ok (fuel : nat) (s : bytes) : bool :=
  match fuel, s with
  | S f, c :: r =>
      if byte_val c <? 128 then utf8_ok f r
      else match rune_len s with
           | O => false
           | n => utf8_ok f (drop n s)
           end
  | _, _ => true
  end.
Definition ValidString (s : bytes) : bool := utf8_ok (length s) s.

(** ** Numbers *)

(** [strconv.FormatInt(z, 10)]. *)
Definition FormatInt (z : Z) : bytes := if z <? 0 then "-"%byte :: FormatUint (- z) else FormatUint z.
(** [strconv.ParseInt(lit, 10, bits)] on the literals of JSON. *)
Definition parse_int (bits : Z) (lit : bytes) : option Z :=
  match strip ["-"%byte] lit with
  | Some d => if forallb is_digit d && negb (bool_decide (d = [])) && (digits_val d <=? 2 ^ (bits - 1))
              then Some (- digits_val d) else None
  | None => if forallb is_digit lit && negb (bool_decide (lit = [])) && (digits_val lit <? 2 ^ (bits - 1))
            then Some (digits_val lit) else None
  end.
Definition dec_int (bits : Z) (cur : Z) (v : json) : option Z :=
  match v with JNum lit => parse_int bits lit | JNull => Some cur | _ => None end.

(** ** Base64 *)

Definition b64_char (z : Z) : byte :=
  byte_of_Z (if z <? 26 then 65 + z else if z <? 52 then 71 + z else if z <? 62 then z - 4
             else if z =? 62 then 43 else 47).
Fixpoint b64_encode (s : bytes) : bytes :=
  match s with
  | [] => []
  | [a] => let x := byte_val a in [b64_char (x / 4); b64_char (x mod 4 * 16); "="%byte; "="%byte]
  | [a; b] => let x := byte_val a in let y := byte_val b in
      [b64_char (x / 4); b64_char (x mod 4 * 16 + y / 16); b64_char (y mod 16 * 4); "="%byte]
  | a :: b :: c :: s' => let x := byte_val a in let y := byte_val b in let z := byte_val c in
      b64_char (x / 4) :: b64_char (x mod 4 * 16 + y / 16) :: b64_char (y mod 16 * 4 + z / 64)
      :: b64_char (z mod 64) :: b64_encode s'
  end.

(** ** Values *)

Fixpoint json_print (v : json) : bytes :=
  match v with
  | JNull => str "null"
  | JBool b => if b then str "true" else str "false"
  | JNum lit => lit
  | JStr s => print_string s
  | JArr l => "["%byte :: Join (map json_print l) ","%byte ++ ["]"%byte]
  | JObj l =>
      "{"%byte :: Join (map (fun kv => print_string kv.1 ++ ":"%byte :: json_print kv.2) l) ","%byte ++ ["}"%byte]
  end.
Definition enc_bytes (b : bytes) : json := JStr (b64_encode b).
Definition enc_uint (z : Z) : json := JNum (FormatUint z).
Definition enc_int (z : Z) : json := JNum (FormatInt z).
(** A field with [omitempty]. *)
Definition omit (empty : bool) (field : bytes) (v : json) : list (bytes * json) :=
  if empty then [] else [(field, v)].

(** ** Base64 reads back *)

Lemma b64_char_ok z : 0 <= z < 64 ->
  b64_val (b64_char z) = Some z /\ is_pad (b64_char z) = false /\ is_eol (b64_char z) = false.
Proof.
  intros Hz. set (p := fun n : nat => bool_decide (b64_val (b64_char (Z.of_nat n)) = Some (Z.of_nat n))
    && negb (is_pad (b64_char (Z.of_nat n))) && negb (is_eol (b64_char (Z.of_nat n)))).
  assert (Hp : forallb p (seq 0 64) = true) by vm_refl.
  rewrite forallb_forall in Hp. specialize (Hp (Z.to_nat z)). unfold p in Hp. rewrite Z2Nat.id in Hp by lia.
  assert (Hi : In (Z.to_nat z) (seq 0 64)) by (apply in_seq; lia). apply Hp in Hi.
  apply andb_prop in Hi as [[?%bool_decide_eq_true ?%negb_true_iff]%andb_prop ?%negb_true_iff]. done.
Qed.

Lemma b64_encode_no_eol n s : (length s < n)%nat -> Forall (fun c => is_eol c = false) (b64_encode s).
Proof.
  revert s. induction n as [|n IH]; intros s Hn; [lia|].
  destruct s as [|a [|b [|c s]]]; cbn [b64_encode]; repeat constructor;
    pose proof (byte_val_range a); try pose proof (byte_val_range b); try pose proof (byte_val_range c);
    try (apply b64_char_ok; Z.to_euclidean_division_equations; lia); try done.
  apply IH. cbn in Hn. lia.
Qed.

Lemma byte_of_eq c z : z mod 256 = byte_val c -> byte_of_Z z = c.
Proof. intros H. apply byte_val_inj. by rewrite byte_val_of_Z. Qed.

Lemma b64_quads_encode n s : (length s < n)%nat -> b64_quads (b64_encode s) = Some s.
Proof.
  revert s. induction n as [|n IH]; intros s Hn; [lia|].
  destruct s as [|a [|b [|c s]]]; cbn [b64_encode b64_quads]; [done| | |];
    pose proof (byte_val_range a); try pose proof (byte_val_range b); try pose proof (byte_val_range c).
  - destruct (b64_char_ok (byte_val a / 4)) as (-> & _); [Z.to_euclidean_division_equations; lia|].
    destruct (b64_char_ok (byte_val a mod 4 * 16)) as (-> & _); [Z.to_euclidean_division_equations; lia|].
    cbn. do 2 f_equal. apply byte_of_eq. Z.to_euclidean_division_equations; lia.
  - destruct (b64_char_ok (byte_val a / 4)) as (-> & _); [Z.to_euclidean_division_equations; lia|].
    destruct (b64_char_ok (byte_val a mod 4 * 16 + byte_val b / 16)) as (-> & _);
      [Z.to_euclidean_division_equations; lia|].
    destruct (b64_char_ok (byte_val b mod 16 * 4)) as (-> & -> & _); [Z.to_euclidean_division_equations; lia|].
    cbn. repeat f_equal; apply byte_of_eq; Z.to_euclidean_division_equations; lia.
  - destruct (b64_char_ok (byte_val a / 4)) as (-> & _); [Z.to_euclidean_division_equations; lia|].
    destruct (b64_char_ok (byte_val a mod 4 * 16 + byte_val b / 16)) as (-> & _);
      [Z.to_euclidean_division_equations; lia|].
    destruct (b64_char_ok (byte_val b mod 16 * 4 + byte_val c / 64)) as (-> & -> & _);
      [Z.to_euclidean_division_equations; lia|].
    destruct (b64_char_ok (byte_val c mod 64)) as (-> & -> & _); [Z.to_euclidean_division_equations; lia|].
    rewrite IH by (cbn in Hn; lia).
    repeat f_equal; apply byte_of_eq; Z.to_euclidean_division_equations; lia.
Qed.

Lemma b64_roundtrip s : b64_decode (b64_encode s) = Some s.
Proof.
  unfold b64_decode. rewrite filter_all.
  - apply (b64_quads_encode (S (length s))). lia.
  - apply (b64_encode_no_eol (S (length s))). lia.
Qed.

(** ** Strings read back *)

Lemma rune_len_take s n t : rune_len s = S n -> rune_len (take (S n) s ++ t) = S n.
Proof.
  intros H. destruct s as [|a [|b s2]]; [done|done|]. cbn [rune_len] in H.
  destruct (in_range 194 223 a) eqn:Ea.
  { destruct (is_cont b) eqn:Eb; [|done]. injection H as <-. cbn. by rewrite Ea, Eb. }
  destruct s2 as [|c s3]; [done|]. destruct (in_range 224 239 a) eqn:Ea2.
  { destruct (_ && _) eqn:Eb in H; [|done]. injection H as <-. cbn [take app rune_len]. by rewrite Ea, Ea2, Eb. }
  destruct s3 as [|d s4]; [done|]. destruct (in_range 240 244 a) eqn:Ea3; [|done].
  destruct (_ && _) eqn:Eb in H; [|done]. injection H as <-. cbn [take app rune_len]. by rewrite Ea, Ea2, Ea3, Eb.
Qed.

Lemma string_step_ascii c t : byte_val c < 128 -> string_step (print_ascii c ++ t) = Some (inr ([c], t)).
Proof. intros Hc. destruct c; first [vm_compute in Hc; discriminate Hc | reflexivity]. Qed.
Lemma print_ascii_length c : (1 <= length (print_ascii c))%nat.
Proof. unfold print_ascii, u00_escape. repeat case_match; cbn; lia. Qed.

(** One step of the printer is one step of the reader. *)
Lemma print_step_ok (c : byte) (r t : bytes) :
  (byte_val c <? 128) = true \/ rune_len (c :: r) <> 0%nat ->
  exists raw : bytes, c :: r = raw ++ (print_step (c :: r)).2 /\
    (1 <= length raw <= length (print_step (c :: r)).1)%nat /\
    string_step ((print_step (c :: r)).1 ++ t) = Some (inr (raw, t)).
Proof.
  intros Hv. unfold print_step. destruct (byte_val c <? 128) eqn:Ec; zbool.
  { exists [c]. split; [done|]. split; [split; [done|apply print_ascii_length]|]. by apply string_step_ascii. }
  destruct Hv as [Hv|Hv]; [done|]. destruct (rune_len (c :: r)) as [|n] eqn:En; [done|]. unfold line_sep.
  destruct (has_prefix [Byte.xe2; Byte.x80; Byte.xa8] _) eqn:E1.
  { apply has_prefix_true in E1 as [u ->]. exists [Byte.xe2; Byte.x80; Byte.xa8]. cbn; split_and!; try lia; done. }
  destruct (has_prefix [Byte.xe2; Byte.x80; Byte.xa9] _) eqn:E2.
  { apply has_prefix_true in E2 as [u ->]. exists [Byte.xe2; Byte.x80; Byte.xa9]. cbn; split_and!; try lia; done. }
  pose proof (rune_len_length (c :: r)) as Hl. rewrite En in Hl.
  exists (take (S n) (c :: r)). cbn [fst snd]. split; [by rewrite take_drop|]. split.
  { rewrite length_take. cbn [length] in *. lia. }
  pose proof (rune_len_take (c :: r) n t En) as Ht. cbn [take app] in Ht |- *. unfold string_step.
  rewrite !bool_decide_false by (intros ->; vm_compute in Ec; by apply Ec).
  destruct (byte_val c <? 32) eqn:E3; zbool; [lia|]. destruct (byte_val c <? 128) eqn:E4; zbool; [lia|].
  rewrite Ht. do 2 f_equal. change (c :: take n r ++ t) with (take (S n) (c :: r) ++ t). f_equal.
  - rewrite take_app_le, take_take, Nat.min_id; [done|]. rewrite length_take. cbn [length] in *. lia.
  - apply drop_app_length'. rewrite length_take. cbn [length] in *. lia.
Qed.

Lemma parse_print_chars n s f rest :
  utf8_ok n s = true -> (length s <= n)%nat -> (length s < f)%nat ->
  parse_string f (print_chars n s ++ quote :: rest) = Some (s, rest) /\ (length s <= length (print_chars n s))%nat.
Proof.
  revert s f. induction n as [|n IH]; intros [|c r] [|f] Hv Hn Hf; cbn [length] in *; try lia;
    cbn [print_chars]; [by split; [|lia]..|].
  destruct (print_step_ok c r (print_chars n (print_step (c :: r)).2 ++ quote :: rest)) as (raw & Hr & Hl & Hs).
  { cbn [utf8_ok] in Hv. destruct (byte_val c <? 128); [by left|right]. by destruct (rune_len _). }
  assert (Hv' : utf8_ok n (print_step (c :: r)).2 = true).
  { cbn [utf8_ok] in Hv. unfold print_step. destruct (byte_val c <? 128); [done|].
    destruct (rune_len (c :: r)) as [|k] eqn:Ek; [done|]. unfold line_sep.
    destruct (has_prefix [Byte.xe2; Byte.x80; Byte.xa8] _) eqn:E1; [|destruct (has_prefix [Byte.xe2; Byte.x80; Byte.xa9] _) eqn:E2];
      [apply has_prefix_true in E1 as [u Eu]|apply has_prefix_true in E2 as [u Eu]|done];
      rewrite Eu in *; vm_compute in Ek; injection Ek as <-; exact Hv. }
  destruct (print_step (c :: r)) as [out r'] eqn:E. cbn [fst snd] in *.
  apply (f_equal length) in Hr as Hlen. rewrite length_app in Hlen. cbn [length] in Hlen.
  destruct (IH r' f Hv') as [IH1 IH2]; [lia..|]. split.
  - cbn [parse_string]. rewrite <- app_assoc, Hs, IH1. by rewrite Hr.
  - rewrite length_app. lia.
Qed.
Lemma parse_print_string s rest :
  ValidString s = true ->
  let r := print_chars (length s) s ++ quote :: rest in parse_string (S (length r)) r = Some (s, rest).
Proof.
  intros Hv r. destruct (parse_print_chars (length s) s (S (length s)) rest Hv) as [_ Hl]; [lia..|].
  apply parse_print_chars; [done|lia|]. subst r. rewrite length_app. lia.
Qed.

(** ** Numbers read back *)

(** The literals of integers: no leading zero. *)
Definition nat_lit (d : bytes) : bool :=
  match d with
  | [] => false
  | c :: r => forallb is_digit d && (negb (bool_decide (c = "0"%byte)) || bool_decide (r = []))
  end.
Definition int_lit (lit : bytes) : bool :=
  nat_lit (match strip ["-"%byte] lit with Some d => d | None => lit end).
(** What may follow a value. *)
Definition stops (rest : bytes) : Prop :=
  match rest with [] => True | c :: _ => c = ","%byte \/ c = "]"%byte \/ c = "}"%byte \/ c = Byte.x0a end.

Lemma take_digits_app d rest : forallb is_digit d = true -> stops rest -> take_digits (d ++ rest) = (d, rest).
Proof.
  intros Hd Hs. induction d as [|c d IH]; cbn in *.
  - destruct rest as [|c r]; [done|]. by destruct Hs as [->|[->|[->| ->]]].
  - apply andb_prop in Hd as [-> Hd]. by rewrite IH.
Qed.
Lemma int_part_app d rest : nat_lit d = true -> stops rest -> int_part (d ++ rest) = (d, rest).
Proof.
  intros Hd Hs. destruct d as [|c r]; [done|]. cbn [nat_lit] in Hd. apply andb_prop in Hd as [Hd Hz].
  unfold int_part. cbn [app]. case_bool_decide as Hc.
  - cbn in Hz. apply bool_decide_eq_true in Hz as ->. by subst.
  - change (c :: r ++ rest) with ((c :: r) ++ rest). by apply take_digits_app.
Qed.
Lemma stops_tail rest : stops rest -> frac_part rest = Some ([], [], rest) /\ exp_part rest = Some (false, [], [], rest).
Proof. destruct rest as [|c r]; [done|]. by intros [->|[->|[->| ->]]]. Qed.
Lemma parse_number_lit lit rest :
  int_lit lit = true -> stops rest -> exists nl, parse_number (lit ++ rest) = Some (nl, lit, rest).
Proof.
  intros Hl Hs. unfold int_lit in Hl. destruct (stops_tail rest Hs) as [Hf He]. unfold parse_number.
  destruct (strip ["-"%byte] lit) as [d|] eqn:E.
  - destruct lit as [|c r]; [done|]. cbn in E. case_bool_decide as Hc; [|done]. injection E as <-. subst c.
    cbn [app take_char]. rewrite bool_decide_true by done. rewrite int_part_app by done.
    destruct r as [|x r]; [done|]. rewrite Hf, He. cbn. rewrite !app_nil_r. eauto.
  - destruct lit as [|c r]; [done|]. cbn in E. case_bool_decide as Hc; [done|]. cbn [app take_char].
    rewrite bool_decide_false by congruence. change (c :: r ++ rest) with ((c :: r) ++ rest).
    rewrite int_part_app by done. rewrite Hf, He. cbn. rewrite !app_nil_r. eauto.
Qed.

Lemma format_digits_head n z acc :
  0 <= z < 10 ^ Z.of_nat n -> (n <> 0)%nat ->
  exists c d, format_digits n z acc = c :: d ++ acc /\ (c = "0"%byte -> z = 0 /\ d = []).
Proof.
  revert z acc. induction n as [|n IH]; intros z acc Hz Hn; [done|]. cbn [format_digits].
  rewrite Nat2Z.inj_succ, Z.pow_succ_r in Hz by lia. destruct (z <? 10) eqn:E; zbool.
  - exists (byte_of_Z (48 + z mod 10)), []. split; [done|]. intros Hc. split; [|done].
    apply (f_equal byte_val) in Hc. rewrite digit_val in Hc. vm_compute (byte_val "0"%byte) in Hc.
    rewrite Z.mod_small in Hc; lia.
  - destruct n as [|n]; [cbn in Hz; lia|].
    destruct (IH (z / 10) (byte_of_Z (48 + z mod 10) :: acc)) as (c & d & -> & Hc).
    { split; [apply Z.div_pos; lia|apply Z.div_lt_upper_bound; lia]. }
    { done. }
    exists c, (d ++ [byte_of_Z (48 + z mod 10)]). split; [by rewrite <- app_assoc|].
    intros [H0 _]%Hc. assert (1 <= z / 10) by (apply Z.div_le_lower_bound; lia). lia.
Qed.
Lemma FormatUint_lit z : is_u64 z -> nat_lit (FormatUint z) = true.
Proof.
  unfold is_u64. intros Hz. unfold nat_lit. pose proof (FormatUint_digits z) as Hd. unfold FormatUint in *.
  destruct (format_digits_head 20 z []) as (c & d & E & Hc); [|done|].
  { split; [lia|]. transitivity (2 ^ 64); [lia|]. vm_compute. done. }
  rewrite app_nil_r in E. rewrite E in *. rewrite Hd. cbn [andb].
  case_bool_decide as Hb; [|done]. destruct (Hc Hb) as [_ ->]. done.
Qed.
Lemma FormatUint_no_minus z : strip ["-"%byte] (FormatUint z) = None.
Proof.
  pose proof (FormatUint_notin z "-"%byte eq_refl) as Hn. destruct (FormatUint z) as [|c d]; [done|]. cbn.
  rewrite bool_decide_false; [done|]. intros <-. apply Hn. left.
Qed.
Lemma parse_uint_format bits z : is_u64 z -> z < 2 ^ bits -> parse_uint bits (FormatUint z) = Some z.
Proof.
  intros Hz Hb. unfold parse_uint. rewrite FormatUint_digits, FormatUint_val by done.
  pose proof (FormatUint_lit z Hz) as Hl. rewrite bool_decide_false by (intros E; by rewrite E in Hl).
  cbn. by rewrite (proj2 (Z.ltb_lt _ _) Hb).
Qed.
Lemma FormatInt_lit z : is_i64 z -> int_lit (FormatInt z) = true.
Proof.
  unfold is_i64. intros Hz. unfold int_lit, FormatInt. destruct (z <? 0) eqn:E; zbool.
  - cbn. apply FormatUint_lit. unfold is_u64. lia.
  - rewrite FormatUint_no_minus. apply FormatUint_lit. unfold is_u64. lia.
Qed.
Lemma parse_int_format bits z : is_i64 z -> - 2 ^ (bits - 1) <= z < 2 ^ (bits - 1) -> parse_int bits (FormatInt z) = Some z.
Proof.
  intros Hz Hb. unfold parse_int, FormatInt, is_i64 in *. destruct (z <? 0) eqn:E; zbool.
  - assert (Hu : is_u64 (- z)) by (unfold is_u64; lia). cbn [strip]. rewrite bool_decide_true by done.
    rewrite FormatUint_digits, FormatUint_val by done.
    pose proof (FormatUint_lit _ Hu) as Hl. rewrite bool_decide_false by (intros E'; by rewrite E' in Hl).
    cbn. rewrite (proj2 (Z.leb_le _ _)) by lia. f_equal. lia.
  - assert (Hu : is_u64 z) by (unfold is_u64; lia). rewrite FormatUint_no_minus, FormatUint_digits, FormatUint_val by done.
    pose proof (FormatUint_lit _ Hu) as Hl. rewrite bool_decide_false by (intros E'; by rewrite E' in Hl).
    cbn. by rewrite (proj2 (Z.ltb_lt _ _)) by lia.
Qed.

(** ** Values read back *)

Fixpoint printable (v : json) : bool :=
  match v with
  | JNum lit => int_lit lit
  | JStr s => ValidString s
  | JArr l => forallb printable l
  | JObj l => forallb (fun kv => ValidString kv.1 && printable kv.2) l
  | _ => true
  end.
Fixpoint jheight (v : json) : Z :=
  match v with
  | JArr l => 1 + foldr (fun v m => Z.max (jheight v) m) 0 l
  | JObj l => 1 + foldr (fun kv m => Z.max (jheight kv.2) m) 0 l
  | _ => 0
  end.

Lemma int_lit_head lit : int_lit lit = true -> exists c r, lit = c :: r /\ ((c = "-"%byte) \/ is_digit c = true).
Proof.
  unfold int_lit. destruct lit as [|c r]; [done|]. cbn [strip]. case_bool_decide as Hc; intros H.
  - exists c, r. by auto.
  - exists c, r. split; [done|]. right. cbn in H. by destruct (is_digit c).
Qed.
Lemma json_print_head v : printable v = true ->
  exists c r, json_print v = c :: r /\ is_ws c = false /\ (c <> "]"%byte).
Proof.
  destruct v as [|[]|lit|s|l|l]; cbn [printable json_print]; intros Hp; try (by eexists _, _).
  apply int_lit_head in Hp as (c & r & -> & Hc). exists c, r. split; [done|].
  destruct Hc as [->|Hc]; [done|]. by destruct c.
Qed.

Definition reads (v : json) : Prop :=
  printable v = true -> forall depth rest, stops rest -> depth + jheight v <= maxNestingDepth ->
  exists f0, forall f, (f0 <= f)%nat -> parse_value f depth (json_print v ++ rest) = Some (v, rest).

Lemma reads_elems l depth rest :
  Forall reads l -> l <> [] -> forallb printable l = true ->
  depth + foldr (fun v m => Z.max (jheight v) m) 0 l <= maxNestingDepth ->
  exists f0, forall f, (f0 <= f)%nat ->
    parse_elems f depth (Join (map json_print l) ","%byte ++ "]"%byte :: rest) = Some (l, rest).
Proof.
  intros Hl. induction Hl as [|v l Hv Hl IH]; [done|]. intros _ Hp Hd. cbn [forallb foldr] in *.
  apply andb_prop in Hp as [Hpv Hpl]. destruct l as [|w l].
  - destruct (Hv Hpv depth ("]"%byte :: rest)) as [f0 Hf]; [cbn; auto|lia|].
    exists (S f0). intros [|f] Hle; [lia|]. cbn [parse_elems map Join]. rewrite Hf by lia. done.
  - destruct IH as [f1 Hf1]; [done|done|lia|].
    destruct (Hv Hpv depth (","%byte :: Join (map json_print (w :: l)) ","%byte ++ "]"%byte :: rest)) as [f0 Hf];
      [cbn; auto|lia|].
    exists (S (f0 + f1)). intros [|f] Hle; [lia|]. cbn [parse_elems].
    change (map json_print (v :: w :: l)) with (json_print v :: map json_print (w :: l)).
    rewrite Join_cons, <- app_assoc by done. cbn [app]. rewrite Hf by lia.
    change (skip_ws (","%byte :: ?x)) with (","%byte :: x). cbv iota beta.
    rewrite bool_decide_true by done. rewrite Hf1 by lia. done.
Qed.

Lemma parse_member k v f depth rest tail l r :
  ValidString k = true -> (forall g, (f <= g)%nat -> parse_value g depth (json_print v ++ tail) = Some (v, tail)) ->
  skip_ws tail = tail ->
  (tail = "}"%byte :: rest /\ l = [] /\ r = rest \/
   exists t, tail = ","%byte :: t /\ forall g, (f <= g)%nat -> parse_members g depth t = Some (l, r)) ->
  forall g, (S f <= g)%nat ->
  parse_members g depth ((print_string k ++ ":"%byte :: json_print v) ++ tail) = Some ((k, v) :: l, r).
Proof.
  intros Hk Hv Hw Ht [|g] Hle; [lia|]. unfold print_string. rewrite <- app_assoc. cbn [app].
  cbn [parse_members]. change (skip_ws (quote :: ?x)) with (quote :: x). cbn [strip].
  rewrite bool_decide_true by done. rewrite <- app_assoc. cbn [app].
  rewrite (parse_print_string k (":"%byte :: json_print v ++ tail) Hk).
  change (skip_ws (":"%byte :: ?x)) with (":"%byte :: x). cbn [strip]. rewrite bool_decide_true by done.
  rewrite Hv, Hw by lia. destruct Ht as [(-> & -> & ->)|(t & -> & Ht)].
  - by rewrite bool_decide_false, bool_decide_true by done.
  - rewrite bool_decide_true by done. by rewrite Ht by lia.
Qed.

Lemma reads_members l depth rest :
  Forall (fun kv => reads kv.2) l -> l <> [] -> forallb (fun kv => ValidString kv.1 && printable kv.2) l = true ->
  depth + foldr (fun kv m => Z.max (jheight kv.2) m) 0 l <= maxNestingDepth ->
  exists f0, forall f, (f0 <= f)%nat ->
    parse_members f depth
      (Join (map (fun kv => print_string kv.1 ++ ":"%byte :: json_print kv.2) l) ","%byte ++ "}"%byte :: rest)
    = Some (l, rest).
Proof.
  intros Hl. induction Hl as [|[k v] l Hv Hl IH]; [done|]. intros _ Hp Hd. cbn [forallb foldr fst snd] in *.
  apply andb_prop in Hp as [[Hk Hpv]%andb_prop Hpl]. destruct l as [|w l].
  - destruct (Hv Hpv depth ("}"%byte :: rest)) as [f0 Hf]; [cbn; auto|lia|].
    exists (S f0). cbn [map Join fst snd]. apply (parse_member k v f0 depth rest); auto.
  - destruct IH as [f1 Hf1]; [done|done|lia|]. cbn [map fst snd] in *.
    set (t := Join _ _ ++ _) in Hf1 |- *. set (ps := _ :: _) in t |- *.
    destruct (Hv Hpv depth (","%byte :: t)) as [f0 Hf]; [cbn; auto|lia|].
    exists (S (f0 + f1)). intros f Hle. rewrite Join_cons, <- app_assoc by done.
    apply (parse_member k v (f0 + f1) depth rest (","%byte :: t)); [done| |done| |done].
    + intros g Hg. apply Hf. lia.
    + right. exists t. split; [done|]. intros g Hg. apply Hf1. lia.
Qed.

Lemma reads_array l : Forall reads l -> reads (JArr l).
Proof.
  intros IH Hp depth rest Hs Hd. cbn [printable jheight] in *.
  destruct (decide (l = [])) as [->|Hne].
  { exists 1%nat. intros [|f] Hf; [lia|]. cbn [json_print map Join app parse_value skip_ws].
    change (is_ws _) with false. cbv iota beta. rewrite bool_decide_false, bool_decide_true by done.
    destruct (maxNestingDepth <=? depth) eqn:E; zbool; [cbn in Hd; lia|done]. }
  destruct (reads_elems l (depth + 1) rest IH Hne Hp ltac:(lia)) as [f0 Hf0].
  exists (S f0). intros [|f] Hf; [lia|]. cbn [json_print app]. rewrite <- app_assoc. cbn [app].
  set (body := _ ++ _) in Hf0 |- *. cbn [parse_value]. change (skip_ws ("["%byte :: ?x)) with ("["%byte :: x).
  cbv iota beta. rewrite bool_decide_false, bool_decide_true by done.
  destruct (maxNestingDepth <=? depth) eqn:E; zbool.
  { assert (0 <= foldr (fun v m => Z.max (jheight v) m) 0 l) by (clear; induction l; cbn; lia). lia. }
  rewrite Hf0 by lia. subst body. destruct l as [|v l]; [done|]. cbn [forallb map] in *.
  apply andb_prop in Hp as [Hv _]. destruct (json_print_head v Hv) as (c & r & Ec & Hws & Hc).
  assert (exists t, Join (json_print v :: map json_print l) ","%byte ++ "]"%byte :: rest = c :: t) as [t ->].
  { destruct l; cbn [map]; [cbn; rewrite Ec; by eexists|]. rewrite Join_cons by done. rewrite Ec. by eexists. }
  cbn [skip_ws]. rewrite Hws. cbn [strip]. by rewrite bool_decide_false.
Qed.
Lemma reads_object l : Forall (fun kv => reads kv.2) l -> reads (JObj l).
Proof.
  intros IH Hp depth rest Hs Hd. cbn [printable jheight] in *.
  destruct (decide (l = [])) as [->|Hne].
  { exists 1%nat. intros [|f] Hf; [lia|]. cbn [json_print map Join app parse_value skip_ws].
    change (is_ws _) with false. cbv iota beta. rewrite bool_decide_true by done.
    destruct (maxNestingDepth <=? depth) eqn:E; zbool; [cbn in Hd; lia|done]. }
  destruct (reads_members l (depth + 1) rest IH Hne Hp ltac:(lia)) as [f0 Hf0].
  exists (S f0). intros [|f] Hf; [lia|]. cbn [json_print app]. rewrite <- app_assoc. cbn [app].
  set (body := _ ++ _) in Hf0 |- *. cbn [parse_value]. change (skip_ws ("{"%byte :: ?x)) with ("{"%byte :: x).
  cbv iota beta. rewrite bool_decide_true by done.
  destruct (maxNestingDepth <=? depth) eqn:E; zbool.
  { assert (0 <= foldr (fun kv m => Z.max (jheight kv.2) m) 0 l) by (clear; induction l; cbn; lia). lia. }
  rewrite Hf0 by lia. subst body. destruct l as [|[k v] l]; [done|]. cbn [map fst snd].
  assert (exists t, Join ((print_string k ++ ":"%byte :: json_print v) ::
      map (fun kv => print_string kv.1 ++ ":"%byte :: json_print kv.2) l) ","%byte ++ "}"%byte :: rest = quote :: t)
    as [t ->].
  { destruct l; cbn [map]; [by eexists|]. rewrite Join_cons by done. by eexists. }
  done.
Qed.
Lemma parse_print v : reads v.
Proof.
  induction v as [|b|lit|s|l IH|l IH] using json_rect_nested; [| | | |by apply reads_array|by apply reads_object];
    intros Hp depth rest Hs Hd; cbn [printable jheight] in *.
  - exists 1%nat. by intros [|f]; [lia|].
  - exists 1%nat. destruct b; by intros [|f]; [lia|].
  - exists 1%nat. intros [|f] Hf; [lia|]. destruct (parse_number_lit lit rest Hp Hs) as [nl Hn].
    apply int_lit_head in Hp as (c & r & -> & Hc). cbn [json_print app] in *. cbn [parse_value skip_ws].
    destruct Hc as [->|Hc]; [|destruct c; try discriminate Hc]; change (is_ws _) with false; cbv iota beta;
      rewrite !bool_decide_false by done; by rewrite Hn.
  - exists 1%nat. intros [|f] Hf; [lia|]. cbn [json_print app parse_value]. unfold print_string. cbn [app].
    change (skip_ws (quote :: ?x)) with (quote :: x). cbv iota beta.
    rewrite !(bool_decide_false (quote = _)) by done. rewrite bool_decide_true by done.
    rewrite <- app_assoc. cbn [app]. by rewrite parse_print_string.
Qed.

(** What [Marshal] prints, [Unmarshal] reads; also with the line end an
    [Encoder] adds. *)
Lemma json_line_parse v nl :
  printable v = true -> jheight v <= maxNestingDepth -> nl = [] \/ nl = [Byte.x0a] -> json_parse (json_print v ++ nl) = Some v.
Proof.
  intros Hp Hd Hn. assert (Hs : stops nl) by (destruct Hn as [-> | ->]; cbn; auto).
  destruct (parse_print v Hp 0 nl Hs) as [f0 Hf]; [lia|].
  unfold json_parse. rewrite <- (json_fuel_enough (f0 + json_fuel (json_print v ++ nl))) by lia.
  rewrite Hf by lia. by destruct Hn as [-> | ->].
Qed.
Lemma json_print_parse v :
  printable v = true -> jheight v <= maxNestingDepth -> json_parse (json_print v) = Some v.
Proof. intros Hp Hd. rewrite <- (app_nil_r (json_print v)). apply json_line_parse; auto. Qed.

(** Base64 is ASCII. *)
Lemma utf8_ascii n s : forallb is_ascii s = true -> utf8_ok n s = true.
Proof.
  revert s. induction n as [|n IH]; intros [|c s] H; try done. cbn [forallb] in H. apply andb_prop in H as [Hc Hs].
  cbn [utf8_ok]. unfold is_ascii in Hc. rewrite Hc. by apply IH.
Qed.
Lemma b64_valid s : ValidString (b64_encode s) = true.
Proof.
  unfold ValidString. apply utf8_ascii. pose proof (b64_decode_length (b64_encode s) s (b64_roundtrip s)) as H.
  unfold ascii_len in H. destruct (forallb is_ascii _) eqn:E; [done|]. by destruct s; cbn in *; [|lia].
Qed.
