(* ===== verification/Proto.v ===== *)
(** * The protobuf codec

    [codec.BinaryCodec] and the code generated for the messages: what the
    modules rely on is that a value the Go type has reads back as written, and
    that what is read is such a value. [toy_proto] is a codec with these laws
    for any countable type, used by the witnesses. *)

From S2P Require Import Prelude KVStore Sdk.

(** [wire_ok]: the value is one the Go type has (integers in range, and no nil
    pointer where the codec writes a message). *)
Class Proto (A : Type) := { Marshal : A -> bytes; Unmarshal : bytes -> option A }.
Class WireOk (A : Type) := wire_ok : A -> Prop.
Class ProtoLaws (A : Type) `{Proto A} `{WireOk A} := {
  proto_roundtrip : forall a, wire_ok a -> Unmarshal (Marshal a) = Some a;
  proto_reads : forall bz a, Unmarshal bz = Some a -> wire_ok a
}.
(** A pointer that is not nil. *)
Definition ptr {A : Type} (P : A -> Prop) (o : option A) : Prop := match o with Some a => P a | None => False end.
Definition is_i32 (z : Z) : Prop := - 2 ^ 31 <= z < 2 ^ 31.

Section ToyProto.
Context {A : Type} `{Countable A} `{WireOk A} `{wire_dec : forall a : A, Decision (wire_ok a)}.
Definition toy_proto : Proto A := {|
  Marshal a := pos_bytes (encode a);
  Unmarshal bz := p ← bytes_pos bz; a ← decode p; if decide (wire_ok a) then Some a else None
|}.
Lemma toy_proto_laws : @ProtoLaws A toy_proto _.
Proof.
  split; cbn [Marshal Unmarshal toy_proto].
  - intros a Ha. rewrite bytes_pos_bytes. cbn [base.mbind option_bind]. rewrite decode_encode.
    cbn [base.mbind option_bind]. by rewrite decide_True.
  - intros bz a. destruct (bytes_pos bz) as [q|]; [|done]. cbn [base.mbind option_bind].
    destruct (decode q) as [x|]; [|done]. cbn [base.mbind option_bind]. case_decide; [|done]. by intros [= <-].
Qed.
End ToyProto.

#[global] Instance ptr_dec {A} (P : A -> Prop) `{forall a, Decision (P a)} o : Decision (ptr P o).
Proof. destruct o; cbn; apply _. Defined.
#[global] Instance is_u64_dec z : Decision (is_u64 z).
Proof. unfold is_u64; apply _. Defined.
#[global] Instance is_i64_dec z : Decision (is_i64 z).
Proof. unfold is_i64; apply _. Defined.
#[global] Instance is_i32_dec z : Decision (is_i32 z).
Proof. unfold is_i32; apply _. Defined.
#[global] Instance is_u32_dec z : Decision (is_u32 z).
Proof. unfold is_u32; apply _. Defined.
