(* ===== verification/HmTypes.v ===== *)
(** * hashmerchant: types, keys and encodings

    The records of [x/hashmerchant/types], their validation, the store keys,
    and the JSON in which oracle sources and attestation bundles are kept
    ([keeper/oracle_store.go], [keeper/oracle_bundle.go]). The protobuf codec
    is generated code: class [Proto], with the round trip as its law. *)

From S2P Require Import Prelude KVStore Json JsonPrint Sdk Proto.

Open Scope go_scope.

(** ** Records *)

Record CustodyAuthenticator := MkCustodyAuthenticator {
  ca_Pubkey : bytes; ca_Algorithm : bytes; ca_Scope : bytes
}.
Record OracleSource := MkOracleSource {
  src_SourceId : bytes; src_Kind : Z; src_Endpoint : bytes; src_MerklePrefix : list bytes;
  src_Authenticator : option CustodyAuthenticator; src_Enabled : bool
}.
(** A pointer may be nil. *)
Record RegisteredChain := MkRegisteredChain {
  ch_ChainUid : bytes; ch_Name : bytes; ch_RpcEndpoints : list bytes; ch_HashAlgos : list bytes;
  ch_Enabled : bool; ch_OracleSources : list (option OracleSource)
}.
Record OracleAttestation := MkOracleAttestation {
  oa_SourceId : bytes; oa_Value : bytes; oa_Height : Z; oa_Timestamp : Z;
  oa_CustodySignature : bytes; oa_Ics23Proof : bytes
}.
Record RegisteredContract := MkRegisteredContract {
  rc_ContractAddr : bytes; rc_ChainUid : bytes; rc_SubstoreKeys : list bytes; rc_Enabled : bool
}.
Record EscrowRecord := MkEscrowRecord {
  er_ContractAddr : bytes; er_Amount : Coin; er_PaidUntilHeight : Z; er_LastPruneHeight : Z
}.
Record HashRoot := MkHashRoot {
  hr_ChainUid : bytes; hr_Algo : bytes; hr_Height : Z; hr_Root : bytes; hr_AttestationCount : Z;
  hr_BlockTime : Z; hr_Attestations : list (option OracleAttestation)
}.
(** [QuorumFraction] in units of [10^-18]. *)
Record HmParams := MkHmParams {
  QuorumFraction : Z; PruneInterval : Z; EscrowDenom : bytes; MinEscrowAmount : Z; MarketMode : Z
}.
Record VoteExtensionHashData := MkVoteExtensionHashData {
  ve_RuntimeId : bytes; ve_ChainUid : bytes; ve_Algo : bytes; ve_Root : bytes; ve_ForeignHeight : Z;
  ve_ForeignBlockTime : Z; ve_Ics23Proof : bytes; ve_Attestations : list (option OracleAttestation)
}.
Record HmGenesis := MkHmGenesis {
  hg_Params : HmParams; hg_RegisteredChains : list RegisteredChain;
  hg_RegisteredContracts : list RegisteredContract; hg_EscrowRecords : list EscrowRecord;
  hg_HashRoots : list HashRoot; hg_PruneEpoch : Z
}.

#[global] Instance coin_eq_dec : EqDecision Coin.
Proof. solve_decision. Defined.
#[global] Instance custody_eq_dec : EqDecision CustodyAuthenticator.
Proof. solve_decision. Defined.
#[global] Instance source_eq_dec : EqDecision OracleSource.
Proof. solve_decision. Defined.
#[global] Instance chain_eq_dec : EqDecision RegisteredChain.
Proof. solve_decision. Defined.
#[global] Instance attestation_eq_dec : EqDecision OracleAttestation.
Proof. solve_decision. Defined.
#[global] Instance contract_eq_dec : EqDecision RegisteredContract.
Proof. solve_decision. Defined.
#[global] Instance escrow_eq_dec : EqDecision EscrowRecord.
Proof. solve_decision. Defined.
#[global] Instance root_eq_dec : EqDecision HashRoot.
Proof. solve_decision. Defined.
#[global] Instance hm_params_eq_dec : EqDecision HmParams.
Proof. solve_decision. Defined.
#[global] Instance vote_data_eq_dec : EqDecision VoteExtensionHashData.
Proof. solve_decision. Defined.

(** ** Errors *)

Inductive hm_err :=
| ErrChainNotFound | ErrChainAlreadyExists | ErrContractNotFound | ErrEscrowNotFound
| ErrInsufficientEscrow | ErrHashRootNotFound | ErrInvalidChainUID | ErrHmUnauthorized | ErrInvalidParams
| ErrChainDisabled
| ErrHmSigner      (* [govtypes.ErrInvalidSigner] *)
| ErrHmBank        (* an error of the bank keeper *)
| ErrHmDecode      (* an error of the codec or of [json.Unmarshal] *)
| ErrAttestation   (* [fmt.Errorf] of the attestation checks *)
| HmPanic.

(** ** What the Go types hold *)

#[global] Instance wire_params : WireOk HmParams := fun p => is_u64 (PruneInterval p) /\ is_i32 (MarketMode p).
#[global] Instance wire_chain : WireOk RegisteredChain := fun c =>
  Forall (ptr (fun s => is_i32 (src_Kind s))) (ch_OracleSources c).
#[global] Instance wire_contract : WireOk RegisteredContract := fun _ => True.
#[global] Instance wire_escrow : WireOk EscrowRecord := fun r =>
  is_u64 (er_PaidUntilHeight r) /\ is_u64 (er_LastPruneHeight r).
Definition wire_attestation (a : OracleAttestation) : Prop := is_u64 (oa_Height a) /\ is_i64 (oa_Timestamp a).
Definition wire_attestations (l : list (option OracleAttestation)) : Prop :=
  Forall (ptr wire_attestation) l.
#[global] Instance wire_root : WireOk HashRoot := fun r =>
  is_u64 (hr_Height r) /\ is_u32 (hr_AttestationCount r) /\ is_i64 (hr_BlockTime r) /\
  wire_attestations (hr_Attestations r).
#[global] Instance wire_vote : WireOk VoteExtensionHashData := fun v =>
  is_u64 (ve_ForeignHeight v) /\ is_i64 (ve_ForeignBlockTime v) /\ wire_attestations (ve_Attestations v).

(** ** Validation *)

Definition DefaultParams : HmParams := MkHmParams (667 * 10 ^ 15) 1000 (str "uterp") 1000000 1.
Definition HmParams_Validate (p : HmParams) : result hm_err unit :=
  check! guard ((QuorumFraction p <? 0) || (dec_one <? QuorumFraction p)) ErrInvalidParams;
  check! guard (PruneInterval p =? 0) ErrInvalidParams;
  check! guard (bytes_eqb (EscrowDenom p) []) ErrInvalidParams;
  guard (MinEscrowAmount p <? 0) ErrInvalidParams.

Definition DefaultGenesis : HmGenesis := MkHmGenesis DefaultParams [] [] [] [] 0.
(** The loop over the chains with the set of those seen. *)
Fixpoint validate_chains (seen : list bytes) (l : list RegisteredChain) : result hm_err unit :=
  match l with
  | [] => Ok tt
  | c :: l' =>
      check! guard (bytes_eqb (ch_ChainUid c) []) ErrInvalidChainUID;
      check! guard (bool_decide (ch_ChainUid c ∈ seen)) ErrChainAlreadyExists;
      validate_chains (ch_ChainUid c :: seen) l'
  end.
Definition HmGenesis_Validate (gs : HmGenesis) : result hm_err unit :=
  check! HmParams_Validate (hg_Params gs);
  validate_chains [] (hg_RegisteredChains gs).

Section Messages.
Context {B : Type} {SdkB : Sdk B}.
Definition bech32_ok (s : bytes) : bool := match AccAddressFromBech32 s with Some _ => true | None => false end.
Definition MsgRegisterChain_ValidateBasic (Authority : bytes) (Chain : RegisteredChain) : result hm_err unit :=
  check! guard (negb (bech32_ok Authority)) ErrHmUnauthorized;
  guard (bytes_eqb (ch_ChainUid Chain) []) ErrInvalidChainUID.
Definition MsgRegisterContract_ValidateBasic (Sender ContractAddr ChainUid : bytes) (Escrow : Coin) :
    result hm_err unit :=
  check! guard (negb (bech32_ok Sender)) ErrHmUnauthorized;
  check! guard (bytes_eqb ContractAddr []) ErrContractNotFound;
  check! guard (bytes_eqb ChainUid []) ErrInvalidChainUID;
  guard (negb (0 <? coin_Amount Escrow)) ErrInsufficientEscrow.
Definition MsgRefillEscrow_ValidateBasic (Sender ContractAddr : bytes) (Amount : Coin) : result hm_err unit :=
  check! guard (negb (bech32_ok Sender)) ErrHmUnauthorized;
  check! guard (bytes_eqb ContractAddr []) ErrContractNotFound;
  guard (negb (0 <? coin_Amount Amount)) ErrInsufficientEscrow.
Definition MsgUpdateParams_ValidateBasic (Authority : bytes) (Params : HmParams) : result hm_err unit :=
  check! guard (negb (bech32_ok Authority)) ErrHmUnauthorized;
  HmParams_Validate Params.
End Messages.

(** ** Store keys *)

Definition HmModuleName : bytes := str "hashmerchant".
Definition KeyPrefixRegisteredChains : bytes := [Byte.x01].
Definition KeyPrefixRegisteredContracts : bytes := [Byte.x02].
Definition KeyPrefixEscrow : bytes := [Byte.x03].
Definition KeyPrefixHashRoots : bytes := [Byte.x04].
Definition KeyPrefixParams : bytes := [Byte.x05].
Definition KeyPrefixPruneEpoch : bytes := [Byte.x06].
Definition oracleSourcesKeyPrefix : bytes := [Byte.x06].
Definition KeyRegisteredChain (chainUID : bytes) : bytes := KeyPrefixRegisteredChains ++ chainUID.
Definition KeyRegisteredContract (contractAddr : bytes) : bytes := KeyPrefixRegisteredContracts ++ contractAddr.
Definition KeyEscrow (contractAddr : bytes) : bytes := KeyPrefixEscrow ++ contractAddr.
Definition KeyHashRoot (chainUID algo : bytes) : bytes := KeyPrefixHashRoots ++ chainUID ++ "|"%byte :: algo.
Definition oracleSourcesKey (chainUID : bytes) : bytes := oracleSourcesKeyPrefix ++ chainUID.

(** ** JSON *)

Definition enc_authenticator (a : CustodyAuthenticator) : json :=
  JObj (concat [
    omit (bytes_eqb (ca_Pubkey a) []) (str "pubkey") (enc_bytes (ca_Pubkey a));
    omit (bytes_eqb (ca_Algorithm a) []) (str "algorithm") (JStr (ca_Algorithm a));
    omit (bytes_eqb (ca_Scope a) []) (str "scope") (JStr (ca_Scope a))]).
Definition enc_source (s : OracleSource) : json :=
  JObj (concat [
    omit (bytes_eqb (src_SourceId s) []) (str "source_id") (JStr (src_SourceId s));
    omit (src_Kind s =? 0) (str "kind") (enc_int (src_Kind s));
    omit (bytes_eqb (src_Endpoint s) []) (str "endpoint") (JStr (src_Endpoint s));
    omit (bool_decide (src_MerklePrefix s = [])) (str "merkle_prefix") (JArr (map enc_bytes (src_MerklePrefix s)));
    omit (bool_decide (src_Authenticator s = None)) (str "authenticator")
      (from_option enc_authenticator JNull (src_Authenticator s));
    omit (negb (src_Enabled s)) (str "enabled") (JBool (src_Enabled s))]).
Definition enc_attestation (a : OracleAttestation) : json :=
  JObj (concat [
    omit (bytes_eqb (oa_SourceId a) []) (str "source_id") (JStr (oa_SourceId a));
    omit (bytes_eqb (oa_Value a) []) (str "value") (enc_bytes (oa_Value a));
    omit (oa_Height a =? 0) (str "height") (enc_uint (oa_Height a));
    omit (oa_Timestamp a =? 0) (str "timestamp") (enc_int (oa_Timestamp a));
    omit (bytes_eqb (oa_CustodySignature a) []) (str "custody_signature") (enc_bytes (oa_CustodySignature a));
    omit (bytes_eqb (oa_Ics23Proof a) []) (str "ics23_proof") (enc_bytes (oa_Ics23Proof a))]).

(** A slice field: a [null] empties it. *)
Definition dec_bytes_field (cur : bytes) (v : json) : option bytes := dec_bytes v.
Definition dec_authenticator (cur : CustodyAuthenticator) (v : json) : option CustodyAuthenticator :=
  l ← members v;
  pubkey ← dec_field dec_bytes_field (str "pubkey") (ca_Pubkey cur) l;
  algorithm ← dec_field dec_string (str "algorithm") (ca_Algorithm cur) l;
  scope ← dec_field dec_string (str "scope") (ca_Scope cur) l;
  Some (MkCustodyAuthenticator pubkey algorithm scope).
(** A pointer field: a [null] makes it nil, an object fills what it points to. *)
Definition dec_authenticator_ptr (cur : option CustodyAuthenticator) (v : json) :
    option (option CustodyAuthenticator) :=
  match v with
  | JNull => Some None
  | _ => Some <$> dec_authenticator (default (MkCustodyAuthenticator [] [] []) cur) v
  end.
Definition dec_source (v : json) : option OracleSource :=
  l ← members v;
  sourceId ← dec_field dec_string (str "source_id") [] l;
  kind ← dec_field (dec_int 32) (str "kind") 0 l;
  endpoint ← dec_field dec_string (str "endpoint") [] l;
  merklePrefix ← dec_field (fun _ => dec_slice dec_bytes) (str "merkle_prefix") [] l;
  authenticator ← dec_field dec_authenticator_ptr (str "authenticator") None l;
  enabled ← dec_field dec_bool (str "enabled") false l;
  Some (MkOracleSource sourceId kind endpoint merklePrefix authenticator enabled).
Definition dec_attestation (v : json) : option OracleAttestation :=
  l ← members v;
  sourceId ← dec_field dec_string (str "source_id") [] l;
  value ← dec_field dec_bytes_field (str "value") [] l;
  height ← dec_field (dec_uint 64) (str "height") 0 l;
  timestamp ← dec_field (dec_int 64) (str "timestamp") 0 l;
  sig ← dec_field dec_bytes_field (str "custody_signature") [] l;
  proof ← dec_field dec_bytes_field (str "ics23_proof") [] l;
  Some (MkOracleAttestation sourceId value height timestamp sig proof).

Definition Marshal_sources (sources : list OracleSource) : bytes := json_print (JArr (map enc_source sources)).
Definition Unmarshal_sources (bz : bytes) : option (list OracleSource) :=
  v ← json_parse bz; dec_slice dec_source v.

Definition oracleBundleMagic : bytes := str "HMOR".
Definition packOracleBundle (attestations : list OracleAttestation) : bytes :=
  match attestations with
  | [] => []
  | _ => oracleBundleMagic ++
         json_print (JObj [(str "attestations", JArr (map enc_attestation attestations))])
  end.
Definition unpackOracleBundle (bz : bytes) : result hm_err (list OracleAttestation) :=
  if blen bz <? blen oracleBundleMagic then Ok []
  else if negb (bytes_eqb (take 4 bz) oracleBundleMagic) then Ok []
  else match (v ← json_parse (drop 4 bz); l ← members v;
              dec_field (fun _ => dec_slice dec_attestation) (str "attestations") [] l) with
       | Some l => Ok l
       | None => Err ErrHmDecode
       end.

(** ** What is written as JSON reads back *)

Section Fields.
Context {A : Type} (dec : A -> json -> option A) (f : bytes).
Lemma dec_field_skip cur e g v L r :
  names f g = false -> dec_field dec f cur L = r -> dec_field dec f cur (omit e g v ++ L) = r.
Proof. intros H <-. unfold omit. destruct e; cbn; [done|]. by rewrite H. Qed.
(** An omitted field is the zero value, which the struct starts with. *)
Lemma dec_field_hit (zero x : A) e v L :
  (e = true -> x = zero) -> (e = false -> dec zero v = Some x) -> dec_field dec f x L = Some x ->
  dec_field dec f zero (omit e f v ++ L) = Some x.
Proof.
  intros H0 H1 HL. unfold omit. destruct e; cbn; [by rewrite <- H0|]. unfold names. rewrite bytes_eqb_refl. by rewrite H1.
Qed.
End Fields.

(** Reads one field out of a printed struct. *)
Ltac skip_fields := repeat (apply dec_field_skip; [vm_compute; reflexivity|]).
Ltac read_field :=
  match goal with |- dec_field _ _ _ ?L = _ => subst L end; cbn [concat]; skip_fields; apply dec_field_hit;
    [|intros _|skip_fields; reflexivity];
    [first [intros ?%bytes_eqb_eq; done | intros ?%bool_decide_eq_true; done | intros ?%Z.eqb_eq; done | idtac]|
     first [done | apply b64_roundtrip | idtac]].

Definition authenticator_text (a : CustodyAuthenticator) : bool :=
  ValidString (ca_Algorithm a) && ValidString (ca_Scope a).
Definition source_text (s : OracleSource) : Prop :=
  ValidString (src_SourceId s) = true /\ ValidString (src_Endpoint s) = true /\ is_i32 (src_Kind s) /\
  match src_Authenticator s with Some a => authenticator_text a = true | None => True end.
Definition attestation_text (a : OracleAttestation) : Prop :=
  ValidString (oa_SourceId a) = true /\ wire_attestation a.

Lemma dec_enc_authenticator a : dec_authenticator (MkCustodyAuthenticator [] [] []) (enc_authenticator a) = Some a.
Proof.
  destruct a as [pk al sc]. unfold dec_authenticator, enc_authenticator.
  set (L := concat _). cbn [members ca_Pubkey ca_Algorithm ca_Scope base.mbind option_bind].
  assert (E1 : dec_field dec_bytes_field (str "pubkey") [] L = Some pk) by read_field.
  assert (E2 : dec_field dec_string (str "algorithm") [] L = Some al) by read_field.
  assert (E3 : dec_field dec_string (str "scope") [] L = Some sc) by read_field.
  by rewrite E1, E2, E3.
Qed.
Lemma dec_all_map {A} (dec : json -> option A) (enc : A -> json) (P : A -> Prop) l :
  (forall a, P a -> dec (enc a) = Some a) -> Forall P l -> dec_all dec (map enc l) = Some l.
Proof. intros H. induction 1 as [|a l Ha Hl IH]; cbn; [done|]. by rewrite H, IH. Qed.
Lemma i32_i64 z : is_i32 z -> is_i64 z.
Proof. unfold is_i32, is_i64. lia. Qed.
Lemma dec_enc_source s : source_text s -> dec_source (enc_source s) = Some s.
Proof.
  intros (_ & _ & Hk & _). destruct s as [id k ep mp au en]. unfold dec_source, enc_source.
  set (L := concat _). cbn [members base.mbind option_bind].
  assert (E1 : dec_field dec_string (str "source_id") [] L = Some id) by read_field.
  assert (E2 : dec_field (dec_int 32) (str "kind") 0 L = Some k).
  { read_field. cbn. apply parse_int_format; [by apply i32_i64|exact Hk]. }
  assert (E3 : dec_field dec_string (str "endpoint") [] L = Some ep) by read_field.
  assert (E4 : dec_field (fun _ => dec_slice dec_bytes) (str "merkle_prefix") [] L = Some mp).
  { read_field. cbn. apply (dec_all_map _ _ (fun _ => True)); [|by apply Forall_true]. intros b _. apply b64_roundtrip. }
  assert (E5 : dec_field dec_authenticator_ptr (str "authenticator") None L = Some au).
  { read_field. cbn [src_Authenticator]. destruct au as [a|]; [|done].
    change (Some <$> dec_authenticator (MkCustodyAuthenticator [] [] []) (enc_authenticator a) = Some (Some a)).
    by rewrite dec_enc_authenticator. }
  assert (E6 : dec_field dec_bool (str "enabled") false L = Some en) by (read_field; by destruct en).
  by rewrite E1, E2, E3, E4, E5, E6.
Qed.
Lemma dec_enc_attestation a : attestation_text a -> dec_attestation (enc_attestation a) = Some a.
Proof.
  intros (_ & Hh & Ht). destruct a as [id v h t sg pf]. unfold dec_attestation, enc_attestation.
  set (L := concat _). cbn [members base.mbind option_bind].
  assert (E1 : dec_field dec_string (str "source_id") [] L = Some id) by read_field.
  assert (E2 : dec_field dec_bytes_field (str "value") [] L = Some v) by read_field.
  assert (E3 : dec_field (dec_uint 64) (str "height") 0 L = Some h).
  { read_field. cbn. by apply parse_uint_format; [|apply Hh]. }
  assert (E4 : dec_field (dec_int 64) (str "timestamp") 0 L = Some t).
  { read_field. cbn. by apply parse_int_format. }
  assert (E5 : dec_field dec_bytes_field (str "custody_signature") [] L = Some sg) by read_field.
  assert (E6 : dec_field dec_bytes_field (str "ics23_proof") [] L = Some pf) by read_field.
  by rewrite E1, E2, E3, E4, E5, E6.
Qed.

(** What is printed is printable: base64 is ASCII, field names too. *)
Lemma printable_map {A} (enc : A -> json) (P : A -> Prop) l :
  (forall a, P a -> printable (enc a) = true) -> Forall P l -> forallb printable (map enc l) = true.
Proof. intros H. induction 1 as [|a l Ha Hl IH]; cbn; [done|]. by rewrite H, IH. Qed.
Lemma printable_obj l : forallb (fun kv => ValidString kv.1 && printable kv.2) (concat l) =
  forallb (forallb (fun kv => ValidString kv.1 && printable kv.2)) l.
Proof. induction l as [|x l IH]; [done|]. cbn [concat forallb]. by rewrite forallb_app, IH. Qed.
Lemma printable_omit e f v :
  ValidString f = true -> printable v = true ->
  forallb (fun kv => ValidString kv.1 && printable kv.2) (omit e f v) = true.
Proof. intros Hf Hv. destruct e; [done|]. cbn [omit forallb fst snd]. by rewrite Hf, Hv. Qed.
Ltac print_fields :=
  cbn [printable]; rewrite printable_obj; cbn [forallb];
  repeat (apply andb_true_intro; split); try done; (apply printable_omit; [vm_compute; reflexivity|]).

Lemma printable_authenticator a : authenticator_text a = true -> printable (enc_authenticator a) = true.
Proof. intros [Ha Hs]%andb_prop. unfold enc_authenticator. print_fields; [apply b64_valid|done|done]. Qed.
Lemma printable_source s : source_text s -> printable (enc_source s) = true.
Proof.
  intros (Hi & He & Hk & Ha). unfold enc_source. print_fields; cbn [printable enc_int]; try done.
  - by apply FormatInt_lit, i32_i64.
  - apply (printable_map enc_bytes (fun _ => True)); [intros b _; apply b64_valid|by apply Forall_true].
  - destruct (src_Authenticator s); [by apply printable_authenticator|done].
Qed.
Lemma printable_attestation a : attestation_text a -> printable (enc_attestation a) = true.
Proof.
  intros (Hi & Hh & Ht). unfold enc_attestation. print_fields; cbn [printable enc_uint enc_int enc_bytes];
    try done; try apply b64_valid.
  - unfold int_lit. rewrite FormatUint_no_minus. by apply FormatUint_lit.
  - by apply FormatInt_lit.
Qed.

(** Bounds on nesting. *)
Lemma height_omit e f v : foldr (fun kv m => Z.max (jheight kv.2) m) 0 (omit e f v) <= Z.max (jheight v) 0.
Proof. destruct e; cbn; lia. Qed.
Lemma height_concat l b : 0 <= b -> Forall (fun x => foldr (fun (kv : bytes * json) m => Z.max (jheight kv.2) m) 0 x <= b) l ->
  foldr (fun kv m => Z.max (jheight kv.2) m) 0 (concat l) <= b.
Proof.
  intros Hb. induction 1 as [|x l Hx Hl IH]; [done|]. cbn [concat].
  enough (H : forall y, foldr (fun (kv : bytes * json) m => Z.max (jheight kv.2) m) 0 (x ++ y)
            <= Z.max (foldr (fun kv m => Z.max (jheight kv.2) m) 0 x) (foldr (fun kv m => Z.max (jheight kv.2) m) 0 y)).
  { specialize (H (concat l)). lia. }
  intros y. clear. induction x; cbn; lia.
Qed.
Lemma height_map {A} (enc : A -> json) l b : 0 <= b -> (forall a, jheight (enc a) <= b) ->
  foldr (fun v m => Z.max (jheight v) m) 0 (map enc l) <= b.
Proof. intros Hb H. induction l as [|a l IH]; cbn; [done|]. specialize (H a). lia. Qed.
Ltac heights := cbn [jheight]; match goal with |- 1 + _ <= ?b => apply (Z.le_trans _ (1 + (b - 1))); [|lia] end;
  apply Z.add_le_mono_l, height_concat; [lia|];
  repeat constructor; (etransitivity; [apply height_omit|]).
Lemma height_authenticator a : jheight (enc_authenticator a) <= 1.
Proof. unfold enc_authenticator. heights; cbn; lia. Qed.
Lemma height_source s : jheight (enc_source s) <= 2.
Proof.
  unfold enc_source. heights; cbn [jheight enc_int]; try lia.
  - pose proof (height_map enc_bytes (src_MerklePrefix s) 0 ltac:(lia) ltac:(done)). lia.
  - destruct (src_Authenticator s) as [a|]; cbn [from_option]; [pose proof (height_authenticator a)|cbn]; lia.
Qed.
Lemma height_attestation a : jheight (enc_attestation a) <= 1.
Proof. unfold enc_attestation. heights; cbn; lia. Qed.

Lemma sources_roundtrip l : Forall source_text l -> Unmarshal_sources (Marshal_sources l) = Some l.
Proof.
  intros Hl. unfold Unmarshal_sources, Marshal_sources. rewrite json_print_parse.
  - cbn. by apply (dec_all_map _ _ source_text); [apply dec_enc_source|].
  - by apply (printable_map enc_source source_text); [apply printable_source|].
  - cbn [jheight]. pose proof (height_map enc_source l 2 ltac:(lia) height_source). unfold maxNestingDepth. lia.
Qed.
Lemma bundle_roundtrip l : Forall attestation_text l -> unpackOracleBundle (packOracleBundle l) = Ok l.
Proof.
  intros Hl. destruct (decide (l = [])) as [->|Hne]; [done|].
  assert (Hp : packOracleBundle l = oracleBundleMagic ++
    json_print (JObj [(str "attestations", JArr (map enc_attestation l))])) by (by destruct l).
  rewrite Hp. unfold unpackOracleBundle. set (t := json_print _).
  assert (Hb : (blen (oracleBundleMagic ++ t) <? blen oracleBundleMagic) = false).
  { unfold blen. rewrite length_app. apply Z.ltb_ge. lia. }
  rewrite Hb. change (take 4 (oracleBundleMagic ++ t)) with oracleBundleMagic. rewrite bytes_eqb_refl.
  change (drop 4 (oracleBundleMagic ++ t)) with t. subst t. cbn [negb]. rewrite json_print_parse.
  - cbn [members base.mbind option_bind dec_field]. change (names _ _) with true. cbn [dec_slice].
    by rewrite (dec_all_map _ _ attestation_text) by (apply dec_enc_attestation || done).
  - cbn [printable forallb snd fst]. rewrite andb_true_r. apply andb_true_intro. split; [vm_compute; reflexivity|].
    by apply (printable_map enc_attestation attestation_text); [apply printable_attestation|].
  - cbn [jheight foldr snd]. pose proof (height_map enc_attestation l 1 ltac:(lia) height_attestation).
    unfold maxNestingDepth. lia.
Qed.
