(* ===== verification/HmKeeper.v ===== *)
(** * hashmerchant: the keeper

    [x/hashmerchant/keeper/{keeper,oracle_store,msg_server,genesis}.go] and the
    end blocker of [vote_ext.go]: registered foreign chains, contracts that pay
    an escrow for callbacks, confirmed roots, pruning and genesis, on the
    module's store. The bank and the contracts are parameters. The theorems
    give the type of everything in the store, the effect of the messages and of
    pruning, that the module account covers the escrows, and the genesis round
    trip. *)

From S2P Require Import Prelude KVStore Json JsonPrint Sdk Proto HmTypes.

Open Scope go_scope.

(** ** State *)

Record hm_state (B : Type) := MkHm { hm_store : store; hm_rest : B }.
Arguments MkHm {B} _ _.
Arguments hm_store {B} _.
Arguments hm_rest {B} _.

(** [wasmKeeper.Sudo], which may also panic; [ed25519.Verify]; the account
    keeper's [GetModuleAccount], which creates the account when it is missing. *)
Class HmSdk (B : Type) := {
  hm_Sudo : bytes -> bytes -> meth (hm_state B) hm_err unit;
  ed25519_Verify : bytes -> bytes -> bytes -> bool;
  GetModuleAccount : bytes -> B -> B
}.
Class HmCodec := {
  proto_params :: Proto HmParams;
  proto_chain :: Proto RegisteredChain;
  proto_contract :: Proto RegisteredContract;
  proto_escrow :: Proto EscrowRecord;
  proto_root :: Proto HashRoot
}.
Class HmCodecLaws `{HmCodec} := {
  laws_params :: ProtoLaws HmParams;
  laws_chain :: ProtoLaws RegisteredChain;
  laws_contract :: ProtoLaws RegisteredContract;
  laws_escrow :: ProtoLaws EscrowRecord;
  laws_root :: ProtoLaws HashRoot
}.

Section Operations.
Context {B : Type} {SdkB : Sdk B} {HB : HmSdk B} {HC : HmCodec}.
Abbreviation M := (meth (hm_state B) hm_err).

Definition upd_hm (f : store -> store) : M unit := mput (fun st => MkHm (f (hm_store st)) (hm_rest st)).
(** A stored record: [missing] when there is none. *)
Definition get_record {A : Type} `{Proto A} (key : bytes) (missing : hm_err) : M A :=
  fun st => (st, match hm_store st !! key with
                 | None => Err missing
                 | Some bz => match Unmarshal bz with Some a => Ok a | None => Err ErrHmDecode end
                 end).
(** The records under a prefix in key order; one that does not decode is skipped. *)
Definition iterate {A : Type} `{Proto A} (m : store) (pfx : bytes) : list A :=
  omap (fun kv => Unmarshal kv.2) (IteratePrefix m pfx).

Definition hm_GetParams : M HmParams :=
  fun st => (st, match hm_store st !! KeyPrefixParams with
                 | None => Ok DefaultParams
                 | Some bz => match Unmarshal bz with Some p => Ok p | None => Err ErrHmDecode end
                 end).
Definition hm_SetParams (p : HmParams) : M unit := upd_hm (store_Set KeyPrefixParams (Marshal p)).

Definition SetRegisteredChain (chain : RegisteredChain) : M unit :=
  upd_hm (store_Set (KeyRegisteredChain (ch_ChainUid chain)) (Marshal chain)).
Definition GetRegisteredChain (chainUID : bytes) : M RegisteredChain :=
  get_record (KeyRegisteredChain chainUID) ErrChainNotFound.
Definition HasRegisteredChain (chainUID : bytes) : M bool :=
  mget (fun st => bool_decide (is_Some (hm_store st !! KeyRegisteredChain chainUID))).
Definition IterateRegisteredChains (m : store) : list RegisteredChain := iterate m KeyPrefixRegisteredChains.

Definition SetRegisteredContract (contract : RegisteredContract) : M unit :=
  upd_hm (store_Set (KeyRegisteredContract (rc_ContractAddr contract)) (Marshal contract)).
Definition GetRegisteredContract (contractAddr : bytes) : M RegisteredContract :=
  get_record (KeyRegisteredContract contractAddr) ErrContractNotFound.
Definition IterateRegisteredContracts (m : store) : list RegisteredContract := iterate m KeyPrefixRegisteredContracts.

Definition SetEscrowRecord (record : EscrowRecord) : M unit :=
  upd_hm (store_Set (KeyEscrow (er_ContractAddr record)) (Marshal record)).
Definition GetEscrowRecord (contractAddr : bytes) : M EscrowRecord :=
  get_record (KeyEscrow contractAddr) ErrEscrowNotFound.
Definition IterateEscrowRecords (m : store) : list EscrowRecord := iterate m KeyPrefixEscrow.

Definition SetHashRoot (root : HashRoot) : M unit :=
  upd_hm (store_Set (KeyHashRoot (hr_ChainUid root) (hr_Algo root)) (Marshal root)).
Definition GetHashRoot (chainUID algo : bytes) : M HashRoot :=
  get_record (KeyHashRoot chainUID algo) ErrHashRootNotFound.
Definition IterateHashRoots (m : store) (chainUID : bytes) : list HashRoot :=
  iterate m (KeyPrefixHashRoots ++ chainUID ++ ["|"%byte]).
Definition iterateAllHashRoots (m : store) : list HashRoot := iterate m KeyPrefixHashRoots.

(** [binary.BigEndian.Uint64] panics on fewer than eight bytes. *)
Definition GetPruneEpoch : M Z :=
  fun st => (st, match hm_store st !! KeyPrefixPruneEpoch with
                 | None => Ok 0
                 | Some bz => if blen bz <? 8 then Err HmPanic else Ok (be_get (take 8 bz))
                 end).
Definition SetPruneEpoch (height : Z) : M unit := upd_hm (store_Set KeyPrefixPruneEpoch (be_put 8 height)).

Definition SetOracleSources (chainUID : bytes) (sources : list OracleSource) : M unit :=
  upd_hm (store_Set (oracleSourcesKey chainUID) (Marshal_sources sources)).
Definition GetOracleSources (chainUID : bytes) : M (list OracleSource) :=
  fun st => (st, match hm_store st !! oracleSourcesKey chainUID with
                 | None => Ok []
                 | Some bz => match Unmarshal_sources bz with Some l => Ok l | None => Err ErrHmDecode end
                 end).

(** ** The message server; [authority] is the keeper's, [height] the block's *)

Definition RegisterChain (authority Authority : bytes) (Chain : RegisteredChain) : M unit :=
  exec! mlift (guard (negb (bytes_eqb authority Authority)) ErrHmSigner);
  run! has <- HasRegisteredChain (ch_ChainUid Chain);
  exec! mlift (guard has ErrChainAlreadyExists);
  SetRegisteredChain Chain.

(** [a.Quo(b).Uint64()]: both panic, on a zero divisor and out of range. *)
Definition Quo_Uint64 (a b : Z) : result hm_err Z :=
  check! guard (b =? 0) HmPanic;
  check! guard (negb ((0 <=? Z.quot a b) && (Z.quot a b <? 2 ^ 64))) HmPanic;
  Ok (Z.quot a b).
(** [SendCoinsFromAccountToModule(sender, ModuleName, sdk.NewCoins(amt))]. *)
Definition pay_module (Sender : bytes) (amt : Coin) : M unit :=
  fun st =>
    match NewCoins amt with
    | None => (st, Err HmPanic)
    | Some coins =>
        match SendCoins (Account (default [] (AccAddressFromBech32 Sender))) (Module HmModuleName) coins (hm_rest st) with
        | None => (st, Err ErrHmBank)
        | Some b => (MkHm (hm_store st) b, Ok tt)
        end
    end.

Definition RegisterContract (height : Z) (Sender ContractAddr ChainUid : bytes) (SubstoreKeys : list bytes)
    (Escrow : Coin) : M unit :=
  run! chain <- GetRegisteredChain ChainUid;
  exec! mlift (guard (negb (ch_Enabled chain)) ErrChainDisabled);
  run! params <- hm_GetParams;
  exec! mlift (guard (negb (bytes_eqb (coin_Denom Escrow) (EscrowDenom params))) ErrInsufficientEscrow);
  exec! mlift (guard (coin_Amount Escrow <? MinEscrowAmount params) ErrInsufficientEscrow);
  exec! pay_module Sender Escrow;
  run! periods <- mlift (Quo_Uint64 (coin_Amount Escrow) (MinEscrowAmount params));
  let paidUntil := u64 (u64 height + periods * PruneInterval params) in
  exec! SetRegisteredContract (MkRegisteredContract ContractAddr ChainUid SubstoreKeys true);
  SetEscrowRecord (MkEscrowRecord ContractAddr Escrow paidUntil 0).

(** [coin.Add], which panics on another denom. *)
Definition Coin_Add (a b : Coin) : result hm_err Coin :=
  check! guard (negb (bytes_eqb (coin_Denom a) (coin_Denom b))) HmPanic;
  Ok (MkCoin (coin_Denom a) (coin_Amount a + coin_Amount b)).
Definition RefillEscrow (Sender ContractAddr : bytes) (Amount : Coin) : M unit :=
  run! record <- GetEscrowRecord ContractAddr;
  run! params <- hm_GetParams;
  exec! mlift (guard (negb (bytes_eqb (coin_Denom Amount) (EscrowDenom params))) ErrInsufficientEscrow);
  exec! pay_module Sender Amount;
  run! periods <- mlift (Quo_Uint64 (coin_Amount Amount) (MinEscrowAmount params));
  run! amount <- mlift (Coin_Add (er_Amount record) Amount);
  SetEscrowRecord (MkEscrowRecord (er_ContractAddr record) amount
    (u64 (er_PaidUntilHeight record + periods * PruneInterval params)) (er_LastPruneHeight record)).

Definition hm_UpdateParams (authority Authority : bytes) (Params : HmParams) : M unit :=
  exec! mlift (guard (negb (bytes_eqb authority Authority)) ErrHmSigner);
  exec! mlift (HmParams_Validate Params);
  hm_SetParams Params.

(** ** Pruning *)

Definition disabled (c : RegisteredContract) : RegisteredContract :=
  MkRegisteredContract (rc_ContractAddr c) (rc_ChainUid c) (rc_SubstoreKeys c) false.
(** A contract that is not registered is passed over. *)
Definition disable_contract (addr : bytes) : M unit :=
  fun st => match GetRegisteredContract addr st with
            | (st', Err _) => (st', Ok tt)
            | (st', Ok contract) => SetRegisteredContract (disabled contract) st'
            end.
Definition pruneExpiredEscrows (currentHeight : Z) : M unit :=
  run! toDisable <- mget (fun st =>
    map er_ContractAddr (filter (fun r => er_PaidUntilHeight r < currentHeight) (IterateEscrowRecords (hm_store st))));
  mrange toDisable disable_contract.
Definition hm_EndBlocker (height : Z) : M unit :=
  run! params <- hm_GetParams;
  run! lastPrune <- GetPruneEpoch;
  let blockHeight := u64 height in
  if PruneInterval params <=? u64 (blockHeight - lastPrune) then
    exec! pruneExpiredEscrows blockHeight;
    SetPruneEpoch blockHeight
  else mret tt.

(** ** Genesis *)

Definition init_chain (c : RegisteredChain) : M unit :=
  exec! SetRegisteredChain c;
  match ch_OracleSources c with
  | [] => mret tt
  | sources => SetOracleSources (ch_ChainUid c) (omap id sources)
  end.
Definition hm_InitGenesis (gs : HmGenesis) : M unit :=
  exec! hm_SetParams (hg_Params gs);
  exec! mrange (hg_RegisteredChains gs) init_chain;
  exec! mrange (hg_RegisteredContracts gs) SetRegisteredContract;
  exec! mrange (hg_EscrowRecords gs) SetEscrowRecord;
  exec! mrange (hg_HashRoots gs) SetHashRoot;
  exec! SetPruneEpoch (hg_PruneEpoch gs);
  mput (fun st => MkHm (hm_store st) (GetModuleAccount HmModuleName (hm_rest st))).
(** Parameters that do not decode are exported as the zero value. *)
Definition hm_ExportGenesis : M HmGenesis :=
  fun st =>
    match hm_GetParams st, GetPruneEpoch st with
    | _, (_, Err e) => (st, Err e)
    | (_, params), (_, Ok epoch) =>
        let m := hm_store st in
        (st, Ok (MkHmGenesis (match params with Ok p => p | Err _ => MkHmParams 0 0 [] 0 0 end)
                   (IterateRegisteredChains m) (IterateRegisteredContracts m) (IterateEscrowRecords m)
                   (iterateAllHashRoots m) epoch))
    end.
End Operations.

Ltac hm_keys := unfold KeyRegisteredChain, KeyRegisteredContract, KeyEscrow, KeyHashRoot, oracleSourcesKey,
  KeyPrefixRegisteredChains, KeyPrefixRegisteredContracts, KeyPrefixEscrow, KeyPrefixHashRoots, KeyPrefixParams,
  KeyPrefixPruneEpoch, oracleSourcesKeyPrefix in *; cbn [app] in *.

(** ** The type of the store *)

Section Typed.
Context {B : Type} {SdkB : Sdk B} {HB : HmSdk B} {HC : HmCodec} {HL : HmCodecLaws}.

(** Every entry is one of these: a record filed under its own key. *)
Inductive hm_entry : bytes -> bytes -> Prop :=
| E_params (p : HmParams) : wire_ok p -> hm_entry KeyPrefixParams (Marshal p)
| E_chain c : wire_ok c -> hm_entry (KeyRegisteredChain (ch_ChainUid c)) (Marshal c)
| E_contract c : hm_entry (KeyRegisteredContract (rc_ContractAddr c)) (Marshal c)
| E_escrow r : wire_ok r -> 0 <= coin_Amount (er_Amount r) -> hm_entry (KeyEscrow (er_ContractAddr r)) (Marshal r)
| E_root r : wire_ok r -> hm_entry (KeyHashRoot (hr_ChainUid r) (hr_Algo r)) (Marshal r)
| E_epoch z : is_u64 z -> hm_entry KeyPrefixPruneEpoch (be_put 8 z)
| E_sources uid l : uid <> [] -> Forall source_text l -> hm_entry (oracleSourcesKey uid) (Marshal_sources l).
Definition hm_typed (m : store) : Prop := map_Forall hm_entry m.

(** What the getters see. *)
Definition read {A : Type} `{Proto A} (m : store) (key : bytes) : option A := bz ← m !! key; Unmarshal bz.
Definition chain_at (m : store) (uid : bytes) : option RegisteredChain := read m (KeyRegisteredChain uid).
Definition contract_at (m : store) (a : bytes) : option RegisteredContract := read m (KeyRegisteredContract a).
Definition escrow_at (m : store) (a : bytes) : option EscrowRecord := read m (KeyEscrow a).
Definition root_at (m : store) (uid algo : bytes) : option HashRoot := read m (KeyHashRoot uid algo).
Definition params_of (m : store) : HmParams := default DefaultParams (read m KeyPrefixParams).
Definition epoch_of (m : store) : Z := default 0 (be_get <$> m !! KeyPrefixPruneEpoch).

Lemma typed_empty : hm_typed ∅.
Proof. apply map_Forall_empty. Qed.
Lemma typed_set m k v : hm_typed m -> hm_entry k v -> hm_typed (store_Set k v m).
Proof. intros Hm He. by apply map_Forall_insert_2. Qed.

(** A stored record of each kind. *)
Lemma entry_params v : hm_entry KeyPrefixParams v -> exists p : HmParams, v = Marshal p /\ wire_ok p.
Proof.
  remember KeyPrefixParams as k eqn:Hk. intros He. destruct He; hm_keys; simplify_eq; eauto.
Qed.
Lemma entry_chain k v : hm_entry k v -> has_prefix KeyPrefixRegisteredChains k = true ->
  exists c : RegisteredChain, k = KeyRegisteredChain (ch_ChainUid c) /\ v = Marshal c /\ wire_ok c.
Proof. intros He Hp. destruct He; hm_keys; cbn in Hp; simplify_eq; eauto. Qed.
Lemma entry_contract k v : hm_entry k v -> has_prefix KeyPrefixRegisteredContracts k = true ->
  exists c : RegisteredContract, k = KeyRegisteredContract (rc_ContractAddr c) /\ v = Marshal c /\ wire_ok c.
Proof. intros He Hp. destruct He; hm_keys; cbn in Hp; simplify_eq. exists c. by split_and!. Qed.
Lemma entry_escrow k v : hm_entry k v -> has_prefix KeyPrefixEscrow k = true ->
  exists r, k = KeyEscrow (er_ContractAddr r) /\ v = Marshal r /\ wire_ok r /\ 0 <= coin_Amount (er_Amount r).
Proof. intros He Hp. destruct He; hm_keys; cbn in Hp; simplify_eq; eauto 6. Qed.
Lemma entry_root k v : hm_entry k v -> has_prefix KeyPrefixHashRoots k = true ->
  exists r, k = KeyHashRoot (hr_ChainUid r) (hr_Algo r) /\ v = Marshal r /\ wire_ok r.
Proof. intros He Hp. destruct He; hm_keys; cbn in Hp; simplify_eq; eauto. Qed.
Lemma entry_epoch v : hm_entry KeyPrefixPruneEpoch v -> exists z, v = be_put 8 z /\ is_u64 z.
Proof.
  remember KeyPrefixPruneEpoch as k eqn:Hk. intros He. destruct He; hm_keys; simplify_eq; eauto.
Qed.
Lemma entry_sources uid v : uid <> [] -> hm_entry (oracleSourcesKey uid) v ->
  exists l, v = Marshal_sources l /\ Forall source_text l.
Proof.
  intros Hu. remember (oracleSourcesKey uid) as k eqn:Hk. intros He. destruct He; hm_keys; simplify_eq; eauto.
Qed.

(** Reading a typed store never fails. *)
Lemma typed_params st : hm_typed (hm_store st) -> hm_GetParams (B := B) st = (st, Ok (params_of (hm_store st))) /\
  wire_ok (params_of (hm_store st)).
Proof.
  intros Hm. unfold hm_GetParams, params_of, read. destruct (hm_store st !! KeyPrefixParams) as [v|] eqn:E.
  - apply Hm in E as (p & -> & Hp)%entry_params. cbn [base.mbind option_bind]. by rewrite proto_roundtrip.
  - cbn. split; [done|]. unfold wire_ok, wire_params, is_u64, is_i32. cbn. lia.
Qed.
Lemma typed_epoch st : hm_typed (hm_store st) -> GetPruneEpoch (B := B) st = (st, Ok (epoch_of (hm_store st))) /\
  is_u64 (epoch_of (hm_store st)).
Proof.
  intros Hm. unfold GetPruneEpoch, epoch_of. destruct (hm_store st !! KeyPrefixPruneEpoch) as [v|] eqn:E; [|done].
  apply Hm in E as (z & -> & Hz)%entry_epoch.
  assert (Hl : blen (be_put 8 z) = 8) by (unfold blen; by rewrite length_be_put).
  rewrite Hl, take_ge by (by rewrite length_be_put). change (8 <? 8) with false.
  assert (Hg : be_get (be_put 8 z) = z) by (rewrite be_get_put; by apply Z.mod_small).
  cbn [fmap option_fmap option_map default]. by rewrite Hg.
Qed.
Lemma get_record_read {A} `{Proto A} key e (st st' : hm_state B) a :
  get_record key e st = (st', Ok a) -> st' = st /\ read (hm_store st) key = Some a.
Proof.
  unfold get_record, read. destruct (hm_store st !! key) as [bz|]; [|done]. cbn [base.mbind option_bind].
  destruct (Unmarshal bz); by intros [= <- <-].
Qed.
Lemma read_set {A} `{ProtoLaws A} k k' (a : A) m :
  wire_ok a -> read (store_Set k (Marshal a) m) k' = if decide (k' = k) then Some a else read m k'.
Proof.
  intros Ha. unfold read, store_Set. case_decide as Hk.
  - subst. rewrite lookup_insert_eq. cbn [base.mbind option_bind]. by apply proto_roundtrip.
  - by rewrite lookup_insert_ne.
Qed.
Lemma read_other {A} `{Proto A} k k' v m : k' <> k -> read (A := A) (store_Set k v m) k' = read m k'.
Proof. intros Hk. unfold read, store_Set. by rewrite lookup_insert_ne. Qed.

Lemma elem_of_iterate {A} `{Proto A} m pfx (a : A) :
  a ∈ iterate m pfx <-> exists k v, m !! k = Some v /\ has_prefix pfx k = true /\ Unmarshal v = Some a.
Proof.
  unfold iterate. rewrite list_elem_of_omap. split.
  - intros ([k v] & [Hk Hp]%elem_of_IteratePrefix & Hu). by eauto.
  - intros (k & v & Hk & Hp & Hu). exists (k, v). by rewrite elem_of_IteratePrefix.
Qed.
Lemma prefix_cons b (s : bytes) : has_prefix [b] (b :: s) = true.
Proof. cbn. by rewrite bool_decide_true. Qed.
Lemma elem_of_escrows m r : hm_typed m ->
  r ∈ IterateEscrowRecords m <-> escrow_at m (er_ContractAddr r) = Some r.
Proof.
  intros Hm. unfold IterateEscrowRecords, escrow_at, read. rewrite elem_of_iterate. split.
  - intros (k & v & Hk & Hp & Hu). pose proof (Hm _ _ Hk) as He.
    apply entry_escrow in He as (r' & -> & -> & Hw & _); [|done]. rewrite proto_roundtrip in Hu by done.
    injection Hu as <-. rewrite Hk. cbn [base.mbind option_bind]. by apply proto_roundtrip.
  - intros H. destruct (m !! _) as [v|] eqn:E; [|done]. eexists _, v. split; [exact E|]. split; [|exact H].
    apply prefix_cons.
Qed.
Lemma escrow_addr m a r : hm_typed m -> escrow_at m a = Some r -> er_ContractAddr r = a /\ wire_ok r /\ 0 <= coin_Amount (er_Amount r).
Proof.
  intros Hm H. unfold escrow_at, read in H. destruct (m !! _) as [v|] eqn:E; [|done]. cbn [base.mbind option_bind] in H.
  apply Hm in E. apply entry_escrow in E as (r' & Hk & -> & Hw & Hn); [|apply prefix_cons].
  rewrite proto_roundtrip in H by done. injection H as ->. hm_keys. injection Hk as ->. done.
Qed.
Lemma contract_addr m a c : hm_typed m -> contract_at m a = Some c -> rc_ContractAddr c = a.
Proof.
  intros Hm H. unfold contract_at, read in H. destruct (m !! _) as [v|] eqn:E; [|done]. cbn [base.mbind option_bind] in H.
  apply Hm in E. apply entry_contract in E as (r' & Hk & -> & Hw); [|apply prefix_cons].
  rewrite proto_roundtrip in H by done. injection H as ->. hm_keys. by injection Hk as ->.
Qed.

(** ** Pruning *)

(** The escrow of the contract ran out before [h]. *)
Definition expired (m : store) (h : Z) (a : bytes) : bool :=
  match escrow_at m a with Some r => er_PaidUntilHeight r <? h | None => false end.
Definition not_contract (k : bytes) : Prop := has_prefix KeyPrefixRegisteredContracts k = false.

Lemma disable_one x (st : hm_state B) :
  hm_typed (hm_store st) ->
  exists m', disable_contract x st = (MkHm m' (hm_rest st), Ok tt) /\ hm_typed m' /\
    (forall k, not_contract k -> m' !! k = hm_store st !! k) /\
    forall a, contract_at m' a =
      if decide (a = x) then disabled <$> contract_at (hm_store st) a else contract_at (hm_store st) a.
Proof.
  destruct st as [m b]. intros Hm. unfold disable_contract, GetRegisteredContract, get_record.
  cbn [hm_store hm_rest] in *. destruct (m !! KeyRegisteredContract x) as [v|] eqn:E.
  - pose proof (Hm _ _ E) as He. apply entry_contract in He as (c & Hk & -> & Hw); [|apply prefix_cons].
    rewrite proto_roundtrip by done. eexists. split; [done|]. cbn [hm_store].
    assert (Hx : x = rc_ContractAddr c) by (hm_keys; by injection Hk).
    split; [apply typed_set; [done|apply (E_contract (disabled c))]|]. split.
    + intros k Hn. unfold store_Set. rewrite lookup_insert_ne; [done|].
      intros <-. unfold not_contract, KeyRegisteredContract in Hn. by rewrite has_prefix_app in Hn.
    + intros a. unfold contract_at. rewrite (read_set (A := RegisteredContract)) by done. cbn [rc_ContractAddr disabled].
      rewrite <- Hx. case_decide as H; case_decide as H'; hm_keys; try congruence.
      subst a. unfold read. hm_keys. rewrite E. cbn [base.mbind option_bind]. by rewrite proto_roundtrip.
  - exists m. split_and!; try done. intros a. case_decide; [|done]. subst a. unfold contract_at, read. by rewrite E.
Qed.
Lemma disable_loop addrs (st : hm_state B) :
  hm_typed (hm_store st) ->
  exists m', mrange addrs disable_contract st = (MkHm m' (hm_rest st), Ok tt) /\ hm_typed m' /\
    (forall k, not_contract k -> m' !! k = hm_store st !! k) /\
    forall a, contract_at m' a =
      if bool_decide (a ∈ addrs) then disabled <$> contract_at (hm_store st) a else contract_at (hm_store st) a.
Proof.
  revert st. induction addrs as [|x l IH]; intros [m b] Hm; cbn [hm_store hm_rest] in *; [by exists m|].
  rewrite mrange_cons. destruct (disable_one x (MkHm m b) Hm) as (m1 & -> & Hm1 & Hf1 & Hc1).
  cbn [hm_store hm_rest] in *.
  destruct (IH (MkHm m1 b) Hm1) as (m' & -> & Hm' & Hf & Hc). cbn [hm_store hm_rest] in *.
  exists m'. split; [done|]. split; [done|]. split; [intros k Hk; by rewrite Hf, Hf1|].
  intros a. rewrite Hc, Hc1. destruct (decide (a = x)) as [->|Ha].
  - rewrite (bool_decide_true (x ∈ x :: l)) by left. case_bool_decide; [|done]. by destruct (contract_at m x).
  - assert (Hi : a ∈ x :: l <-> a ∈ l) by (rewrite elem_of_cons; naive_solver). by rewrite (bool_decide_ext _ _ Hi).
Qed.

Lemma elem_of_toDisable m h a : hm_typed m ->
  a ∈ map er_ContractAddr (filter (fun r => er_PaidUntilHeight r < h) (IterateEscrowRecords m)) <-> expired m h a = true.
Proof.
  intros Hm. unfold expired. rewrite list_elem_of_fmap. split.
  - intros (r & -> & [Hp Hi]%list_elem_of_filter). apply elem_of_escrows in Hi; [|done]. rewrite Hi. by apply Z.ltb_lt.
  - intros H. destruct (escrow_at m a) as [r|] eqn:E; [|done]. zbool. pose proof (escrow_addr m a r Hm E) as [<- _].
    exists r. split; [done|]. rewrite list_elem_of_filter. split; [done|]. by apply elem_of_escrows.
Qed.

Lemma EndBlocker_spec (st : hm_state B) height :
  hm_typed (hm_store st) ->
  let m := hm_store st in let h := u64 height in
  let due := PruneInterval (params_of m) <=? u64 (h - epoch_of m) in
  exists m', hm_EndBlocker height st = (MkHm m' (hm_rest st), Ok tt) /\ hm_typed m' /\
    (forall a, contract_at m' a =
       if due && expired m h a then disabled <$> contract_at m a else contract_at m a) /\
    epoch_of m' = (if due then h else epoch_of m) /\
    forall k, not_contract k -> k <> KeyPrefixPruneEpoch -> m' !! k = m !! k.
Proof.
  intros Hm m h due. unfold hm_EndBlocker, mbind at 1. destruct (typed_params st Hm) as [-> Hp].
  unfold mbind at 1. destruct (typed_epoch st Hm) as [-> He]. fold m h. fold due. destruct due eqn:Hd.
  2:{ exists m. destruct st; by split_and!. }
  unfold mbind, pruneExpiredEscrows, mget. unfold mbind.
  destruct (disable_loop (map er_ContractAddr (filter (fun r => er_PaidUntilHeight r < h) (IterateEscrowRecords m))) st Hm)
    as (m1 & Hl & Hm1 & Hf & Hc). fold m. rewrite Hl. unfold SetPruneEpoch, upd_hm, mput.
  cbn [hm_store hm_rest]. eexists. split; [done|]. split; [|split; [|split]].
  - apply typed_set; [done|]. apply E_epoch. apply u64_range.
  - intros a. assert (H : contract_at (store_Set KeyPrefixPruneEpoch (be_put 8 h) m1) a = contract_at m1 a).
    { unfold contract_at. by apply read_other. }
    rewrite H, Hc. cbn [andb]. fold m.
    assert (Hi : bool_decide (a ∈ map er_ContractAddr (filter (fun r => er_PaidUntilHeight r < h) (IterateEscrowRecords m)))
                 = expired m h a).
    { apply eq_true_iff_eq. rewrite bool_decide_eq_true. by apply elem_of_toDisable. }
    by rewrite Hi.
  - unfold epoch_of, store_Set. rewrite lookup_insert_eq. cbn [fmap option_fmap option_map default].
    rewrite be_get_put. apply Z.mod_small. apply (u64_range height).
  - intros k Hk Hk2. unfold store_Set. rewrite lookup_insert_ne by done. by apply Hf.
Qed.

(** ** Messages *)

Lemma upd_hm_ok f (st st' : hm_state B) : upd_hm f st = (st', Ok tt) -> st' = MkHm (f (hm_store st)) (hm_rest st).
Proof. by intros [= <-]. Qed.
Lemma pay_module_ok Sender amt (st st' : hm_state B) :
  pay_module Sender amt st = (st', Ok tt) -> exists coins b', NewCoins amt = Some coins /\
    SendCoins (Account (default [] (AccAddressFromBech32 Sender))) (Module HmModuleName) coins (hm_rest st) = Some b' /\
    st' = MkHm (hm_store st) b'.
Proof.
  unfold pay_module. destruct (NewCoins amt) as [coins|]; [|done].
  destruct (SendCoins _ _ _ _) as [b'|] eqn:E; [|done]. intros [= <-]. by eauto.
Qed.
Lemma Quo_Uint64_ok a b q : Quo_Uint64 a b = Ok q -> b <> 0 /\ q = Z.quot a b /\ is_u64 q.
Proof.
  unfold Quo_Uint64, guard, is_u64. destruct (b =? 0) eqn:E; [done|]. destruct (negb _) eqn:E2; [done|].
  cbn. intros [= <-]. apply negb_false_iff, andb_prop in E2 as [? ?]. zbool. lia.
Qed.

(** A successful registration. *)
Lemma RegisterContract_ok height Sender a uid ks e (st st' : hm_state B) :
  hm_typed (hm_store st) -> RegisterContract height Sender a uid ks e st = (st', Ok tt) ->
  let p := params_of (hm_store st) in
  exists c coins b', chain_at (hm_store st) uid = Some c /\ ch_Enabled c = true /\
    coin_Denom e = EscrowDenom p /\ MinEscrowAmount p <= coin_Amount e /\ MinEscrowAmount p <> 0 /\
    NewCoins e = Some coins /\
    SendCoins (Account (default [] (AccAddressFromBech32 Sender))) (Module HmModuleName) coins (hm_rest st) = Some b' /\
    is_u64 (Z.quot (coin_Amount e) (MinEscrowAmount p)) /\
    st' = MkHm (store_Set (KeyEscrow a) (Marshal (MkEscrowRecord a e
                  (u64 (u64 height + Z.quot (coin_Amount e) (MinEscrowAmount p) * PruneInterval p)) 0))
                (store_Set (KeyRegisteredContract a) (Marshal (MkRegisteredContract a uid ks true)) (hm_store st))) b'.
Proof.
  intros Hm H. unfold RegisterContract in H. apply mbind_ok in H as (s1 & c & Hc & H).
  apply get_record_read in Hc as [-> Hc]. apply mbind_ok in H as (s1 & u & He & H). run_ok_step.
  repeat run_ok_step. destruct (typed_params st Hm) as [Hp _].
  match goal with Hq : hm_GetParams st = _ |- _ => rewrite Hp in Hq; injection Hq as <- <- end.
  match goal with Hq : pay_module _ _ _ = _ |- _ => apply pay_module_ok in Hq as (coins & b' & Hn & Hs & ->) end.
  match goal with Hq : Quo_Uint64 _ _ = _ |- _ => apply Quo_Uint64_ok in Hq as (Hz & -> & Hq) end.
  match goal with Hq : SetRegisteredContract _ _ = _ |- _ => apply upd_hm_ok in Hq as -> end.
  apply upd_hm_ok in H as ->. zbool. exists c, coins, b'. by split_and!.
Qed.
Lemma RefillEscrow_ok Sender a amt (st st' : hm_state B) :
  hm_typed (hm_store st) -> RefillEscrow Sender a amt st = (st', Ok tt) ->
  let p := params_of (hm_store st) in
  exists r coins b', escrow_at (hm_store st) a = Some r /\
    coin_Denom amt = EscrowDenom p /\ coin_Denom (er_Amount r) = coin_Denom amt /\ MinEscrowAmount p <> 0 /\
    NewCoins amt = Some coins /\
    SendCoins (Account (default [] (AccAddressFromBech32 Sender))) (Module HmModuleName) coins (hm_rest st) = Some b' /\
    is_u64 (Z.quot (coin_Amount amt) (MinEscrowAmount p)) /\
    st' = MkHm (store_Set (KeyEscrow a) (Marshal (MkEscrowRecord a
                  (MkCoin (coin_Denom amt) (coin_Amount (er_Amount r) + coin_Amount amt))
                  (u64 (er_PaidUntilHeight r + Z.quot (coin_Amount amt) (MinEscrowAmount p) * PruneInterval p))
                  (er_LastPruneHeight r))) (hm_store st)) b'.
Proof.
  intros Hm H. unfold RefillEscrow in H. apply mbind_ok in H as (s1 & r & Hr & H).
  apply get_record_read in Hr as [-> Hr]. repeat run_ok_step. destruct (typed_params st Hm) as [Hp _].
  match goal with Hq : hm_GetParams st = _ |- _ => rewrite Hp in Hq; injection Hq as <- <- end.
  match goal with Hq : pay_module _ _ _ = _ |- _ => apply pay_module_ok in Hq as (coins & b' & Hn & Hs & ->) end.
  match goal with Hq : Quo_Uint64 _ _ = _ |- _ => apply Quo_Uint64_ok in Hq as (Hz & -> & Hq) end.
  match goal with Hq : Coin_Add _ _ = _ |- _ => unfold Coin_Add in Hq end. repeat run_ok_step.
  destruct (escrow_addr _ _ _ Hm Hr) as [Ha _]. apply upd_hm_ok in H as ->.
  cbn [er_ContractAddr]. match goal with Hq : Ok _ = Ok _ |- _ => injection Hq as <- end.
  cbn [hm_store hm_rest]. exists r, coins, b'. rewrite Ha. split_and!; try done.
  match goal with Hq : coin_Denom _ = coin_Denom _ |- _ => by rewrite Hq end.
Qed.

Inductive hm_msg :=
| MRegisterChain (Authority : bytes) (Chain : RegisteredChain)
| MRegisterContract (Sender ContractAddr ChainUid : bytes) (SubstoreKeys : list bytes) (Escrow : Coin)
| MRefillEscrow (Sender ContractAddr : bytes) (Amount : Coin)
| MUpdateParams (Authority : bytes) (Params : HmParams).
Definition hm_ValidateBasic (msg : hm_msg) : result hm_err unit :=
  match msg with
  | MRegisterChain a c => MsgRegisterChain_ValidateBasic (B := B) a c
  | MRegisterContract s a u _ e => MsgRegisterContract_ValidateBasic (B := B) s a u e
  | MRefillEscrow s a c => MsgRefillEscrow_ValidateBasic (B := B) s a c
  | MUpdateParams a p => MsgUpdateParams_ValidateBasic (B := B) a p
  end.
Definition hm_handle (authority : bytes) (height : Z) (msg : hm_msg) : meth (hm_state B) hm_err unit :=
  match msg with
  | MRegisterChain a c => RegisterChain authority a c
  | MRegisterContract s a u ks e => RegisterContract height s a u ks e
  | MRefillEscrow s a c => RefillEscrow s a c
  | MUpdateParams a p => hm_UpdateParams authority a p
  end.
(** The message was decoded from a transaction and passed [ValidateBasic]. *)
Definition msg_ok (msg : hm_msg) : Prop :=
  hm_ValidateBasic msg = Ok tt /\
  match msg with
  | MRegisterChain _ c => wire_ok c
  | MUpdateParams _ p => wire_ok p
  | _ => True
  end.

Lemma handle_typed authority height msg (st st' : hm_state B) :
  hm_typed (hm_store st) -> msg_ok msg -> hm_handle authority height msg st = (st', Ok tt) -> hm_typed (hm_store st').
Proof.
  intros Hm [Hv Hw] H. destruct msg as [au c|s a u ks e|s a c|au p]; cbn [hm_handle hm_ValidateBasic] in *.
  - unfold RegisterChain, HasRegisteredChain in H. repeat run_ok_step. apply upd_hm_ok in H as ->.
    apply typed_set; [done|]. by apply E_chain.
  - unfold MsgRegisterContract_ValidateBasic in Hv. repeat run_ok_step. zbool.
    apply RegisterContract_ok in H as (c & coins & b' & _ & _ & _ & _ & _ & _ & _ & _ & ->); [|done].
    apply typed_set; [apply typed_set; [done|]; apply (E_contract (MkRegisteredContract _ _ _ _))|].
    apply (E_escrow (MkEscrowRecord _ _ _ _)); [|cbn; lia]. split; cbn; [apply u64_range|by unfold is_u64].
  - unfold MsgRefillEscrow_ValidateBasic in Hv. repeat run_ok_step. zbool.
    apply RefillEscrow_ok in H as (r & coins & b' & Hr & _ & _ & _ & _ & _ & _ & ->); [|done].
    destruct (escrow_addr _ _ _ Hm Hr) as (_ & [_ Hl] & Ha).
    apply typed_set; [done|]. apply (E_escrow (MkEscrowRecord _ _ _ _)); [|cbn; lia].
    split; cbn; [apply u64_range|done].
  - unfold hm_UpdateParams in H. repeat run_ok_step. apply upd_hm_ok in H as ->.
    apply typed_set; [done|]. by apply E_params.
Qed.

(** ** Escrows are covered by the module account *)

(** What the escrow under a key holds of a denom; the sum over the store. *)
Definition held (d : bytes) (k v : bytes) : Z :=
  if has_prefix KeyPrefixEscrow k then
    match Unmarshal v with
    | Some r => if decide (coin_Denom (er_Amount r) = d) then coin_Amount (er_Amount r) else 0
    | None => 0
    end
  else 0.
Definition escrow_total (m : store) (d : bytes) : Z := map_fold (fun k v acc => held d k v + acc) 0 m.

Lemma total_insert m d k v : m !! k = None -> escrow_total (<[k := v]> m) d = held d k v + escrow_total m d.
Proof.
  intros Hk. unfold escrow_total. rewrite (map_fold_insert_L (fun k v acc => held d k v + acc)); [done| |done]. intros; lia.
Qed.
Lemma total_set m d k v :
  escrow_total (store_Set k v m) d = escrow_total m d + held d k v - from_option (held d k) 0 (m !! k).
Proof.
  unfold store_Set. destruct (m !! k) as [v0|] eqn:E; cbn [from_option].
  - rewrite <- (insert_delete_id m k v0 E) at 2. rewrite <- insert_delete_eq.
    rewrite !total_insert by apply lookup_delete_eq. lia.
  - rewrite total_insert by done. lia.
Qed.
Lemma total_other m d k v : has_prefix KeyPrefixEscrow k = false -> escrow_total (store_Set k v m) d = escrow_total m d.
Proof.
  intros Hk. rewrite total_set. assert (H : forall x, held d k x = 0) by (intros x; unfold held; by rewrite Hk).
  rewrite H. destruct (m !! k); cbn; rewrite ?H; lia.
Qed.
Lemma total_ext m m' d :
  (forall k, has_prefix KeyPrefixEscrow k = true -> m !! k = m' !! k) -> escrow_total m d = escrow_total m' d.
Proof.
  revert m'. induction m as [|k v m Hk IH] using map_ind; intros m' He.
  - assert (Hz : forall n : store, (forall k, has_prefix KeyPrefixEscrow k = true -> n !! k = None) -> escrow_total n d = 0).
    { intros n. induction n as [|k v n Hn IHn] using map_ind; intros Hp; [done|]. rewrite total_insert by done.
      rewrite IHn. 2:{ intros k' Hk'. specialize (Hp k' Hk'). destruct (decide (k = k')) as [->|]; [done|].
                       by rewrite lookup_insert_ne in Hp. }
      unfold held. destruct (has_prefix _ k) eqn:E; [|lia]. specialize (Hp k E). by rewrite lookup_insert_eq in Hp. }
    rewrite (Hz ∅) by (intros; apply lookup_empty). rewrite Hz; [done|]. intros k Hk. rewrite <- He by done. apply lookup_empty.
  - rewrite total_insert by done. destruct (has_prefix KeyPrefixEscrow k) eqn:E.
    + pose proof (He k E) as Hl. rewrite lookup_insert_eq in Hl. rewrite <- (insert_delete_id m' k v) by done.
      rewrite total_insert by apply lookup_delete_eq. f_equal. apply IH. intros k' Hk'.
      destruct (decide (k = k')) as [->|Hne]; [by rewrite Hk, lookup_delete_eq|].
      rewrite lookup_delete_ne by done. rewrite <- He by done. by rewrite lookup_insert_ne.
    + unfold held at 1. rewrite E. cbn. apply IH. intros k' Hk'. rewrite <- He by done.
      rewrite lookup_insert_ne; [done|]. intros ->. congruence.
Qed.
Lemma held_escrow d a r : wire_ok r -> held d (KeyEscrow a) (Marshal r) =
  if decide (coin_Denom (er_Amount r) = d) then coin_Amount (er_Amount r) else 0.
Proof. intros Hw. unfold held. unfold KeyEscrow. by rewrite has_prefix_app, proto_roundtrip. Qed.
Lemma held_at m d a : from_option (held d (KeyEscrow a)) 0 (m !! KeyEscrow a) =
  match escrow_at m a with
  | Some r => if decide (coin_Denom (er_Amount r) = d) then coin_Amount (er_Amount r) else 0
  | None => 0
  end.
Proof.
  unfold escrow_at, read. destruct (m !! KeyEscrow a) as [v|]; [|done]. cbn [from_option base.mbind option_bind].
  unfold held, KeyEscrow. rewrite has_prefix_app. by destruct (Unmarshal v).
Qed.

Context {BL : BankLaws B}.

Definition covered (st : hm_state B) : Prop :=
  forall d, escrow_total (hm_store st) d <= balance (hm_rest st) (Module HmModuleName) d.

Lemma pay_balance Sender amt coins (b b' : B) :
  NewCoins amt = Some coins ->
  SendCoins (Account (default [] (AccAddressFromBech32 Sender))) (Module HmModuleName) coins b = Some b' ->
  forall d, balance b' (Module HmModuleName) d =
    balance b (Module HmModuleName) d + if decide (d = coin_Denom amt) then coin_Amount amt else 0.
Proof.
  intros [_ Hn]%newcoins_law (_ & Hs & _)%send_law d. rewrite Hs, Hn.
  rewrite decide_False by done. rewrite decide_True by done. lia.
Qed.

Lemma handle_covered authority height msg (st st' : hm_state B) :
  hm_typed (hm_store st) -> msg_ok msg -> covered st ->
  hm_handle authority height msg st = (st', Ok tt) -> covered st'.
Proof.
  intros Hm [Hv Hw] Hc H d. specialize (Hc d).
  destruct msg as [au c|s a u ks e|s a c|au p]; cbn [hm_handle hm_ValidateBasic] in *.
  - unfold RegisterChain, HasRegisteredChain in H. repeat run_ok_step. apply upd_hm_ok in H as ->.
    cbn [hm_store hm_rest]. by rewrite total_other.
  - unfold MsgRegisterContract_ValidateBasic in Hv. repeat run_ok_step. zbool.
    apply RegisterContract_ok in H as (c & coins & b' & _ & _ & _ & _ & _ & Hn & Hs & _ & ->); [|done].
    cbn [hm_store hm_rest]. rewrite (pay_balance _ _ _ _ _ Hn Hs), total_set, total_other by done.
    rewrite held_escrow by (split; cbn; [apply u64_range|by unfold is_u64]). cbn [er_Amount].
    unfold store_Set. rewrite lookup_insert_ne by done. rewrite held_at.
    destruct (escrow_at (hm_store st) a) as [r0|] eqn:Er; [destruct (escrow_addr _ _ _ Hm Er) as (_ & _ & Hr0)|];
      repeat case_decide; subst; try done; lia.
  - unfold MsgRefillEscrow_ValidateBasic in Hv. repeat run_ok_step. zbool.
    apply RefillEscrow_ok in H as (r & coins & b' & Hr & _ & Hd & _ & Hn & Hs & _ & ->); [|done].
    destruct (escrow_addr _ _ _ Hm Hr) as (_ & [_ Hl] & Ha).
    cbn [hm_store hm_rest]. rewrite (pay_balance _ _ _ _ _ Hn Hs), total_set.
    rewrite held_escrow by (split; cbn; [apply u64_range|done]). cbn [er_Amount coin_Denom coin_Amount].
    rewrite held_at, Hr, Hd. repeat case_decide; subst; try done; lia.
  - unfold hm_UpdateParams in H. repeat run_ok_step. apply upd_hm_ok in H as ->.
    cbn [hm_store hm_rest]. by rewrite total_other.
Qed.
Lemma EndBlocker_covered height (st : hm_state B) :
  hm_typed (hm_store st) -> covered st -> covered (hm_EndBlocker height st).1.
Proof.
  intros Hm Hc d. destruct (EndBlocker_spec st height Hm) as (m' & -> & _ & _ & _ & Hf). cbn [fst hm_store hm_rest].
  rewrite <- (total_ext (hm_store st)); [apply Hc|]. intros k Hk. symmetry. apply Hf.
  - unfold not_contract. apply has_prefix_true in Hk as [t ->]. done.
  - intros ->. done.
Qed.

(** ** Genesis *)

(** The entries a genesis writes, in order. *)
Definition chain_pairs (c : RegisteredChain) : list (bytes * bytes) :=
  (KeyRegisteredChain (ch_ChainUid c), Marshal c) ::
  match ch_OracleSources c with
  | [] => []
  | sources => [(oracleSourcesKey (ch_ChainUid c), Marshal_sources (omap id sources))]
  end.
Definition genesis_pairs (gs : HmGenesis) : list (bytes * bytes) :=
  [(KeyPrefixParams, Marshal (hg_Params gs))] ++ flat_map chain_pairs (hg_RegisteredChains gs) ++
  map (fun c => (KeyRegisteredContract (rc_ContractAddr c), Marshal c)) (hg_RegisteredContracts gs) ++
  map (fun r => (KeyEscrow (er_ContractAddr r), Marshal r)) (hg_EscrowRecords gs) ++
  map (fun r => (KeyHashRoot (hr_ChainUid r) (hr_Algo r), Marshal r)) (hg_HashRoots gs) ++
  [(KeyPrefixPruneEpoch, be_put 8 (hg_PruneEpoch gs))].
Definition set_all (l : list (bytes * bytes)) (m : store) : store := foldl (fun m kv => store_Set kv.1 kv.2 m) m l.

Lemma mrange_sets {A} (f : A -> list (bytes * bytes)) (body : A -> meth (hm_state B) hm_err unit) l :
  (forall x m b, body x (MkHm m b) = (MkHm (set_all (f x) m) b, Ok tt)) ->
  forall m b, mrange l body (MkHm m b) = (MkHm (set_all (flat_map f l) m) b, Ok tt).
Proof.
  intros Hb. induction l as [|x l IH]; intros m b; [done|]. rewrite mrange_cons, Hb, IH. cbn [flat_map].
  unfold set_all. by rewrite foldl_app.
Qed.
Lemma flat_map_single {A C} (f : A -> C) l : flat_map (fun x => [f x]) l = map f l.
Proof. induction l as [|x l IH]; [done|]. cbn. by rewrite IH. Qed.
Lemma InitGenesis_sets gs m (b : B) :
  hm_InitGenesis gs (MkHm m b) = (MkHm (set_all (genesis_pairs gs) m) (GetModuleAccount HmModuleName b), Ok tt).
Proof.
  unfold hm_InitGenesis, hm_SetParams, SetPruneEpoch, upd_hm, mput, mbind. cbn [hm_store hm_rest].
  rewrite (mrange_sets chain_pairs).
  2:{ intros c m' b'. unfold init_chain, chain_pairs, SetRegisteredChain, SetOracleSources, upd_hm, mput, mbind.
      by destruct (ch_OracleSources c). }
  rewrite (mrange_sets (fun c => [(KeyRegisteredContract (rc_ContractAddr c), Marshal c)])) by done.
  rewrite (mrange_sets (fun r => [(KeyEscrow (er_ContractAddr r), Marshal r)])) by done.
  rewrite (mrange_sets (fun r => [(KeyHashRoot (hr_ChainUid r) (hr_Algo r), Marshal r)])) by done.
  unfold genesis_pairs, set_all. by rewrite !flat_map_single, !foldl_app.
Qed.

Lemma set_all_notin l m k : k ∉ l.*1 -> set_all l m !! k = m !! k.
Proof.
  revert m. induction l as [|[k' v'] l IH]; intros m Hk; [done|]. cbn [fmap list_fmap fst] in Hk.
  apply not_elem_of_cons in Hk as [Hk Hl]. change (set_all ((k', v') :: l) m) with (set_all l (store_Set k' v' m)).
  rewrite IH by done. unfold store_Set. by rewrite lookup_insert_ne.
Qed.
Lemma set_all_in l m k v : NoDup l.*1 -> (k, v) ∈ l -> set_all l m !! k = Some v.
Proof.
  revert m. induction l as [|[k' v'] l IH]; intros m Hn Hk; [by apply elem_of_nil in Hk|].
  cbn [fmap list_fmap fst] in Hn. apply NoDup_cons in Hn as [Hk' Hn].
  change (set_all ((k', v') :: l) m) with (set_all l (store_Set k' v' m)).
  apply elem_of_cons in Hk as [[= -> ->]|Hk]; [|by apply IH].
  rewrite set_all_notin by done. apply lookup_insert_eq.
Qed.
Lemma set_all_eq l m : NoDup l.*1 -> (forall k v, m !! k = Some v <-> (k, v) ∈ l) -> set_all l ∅ = m.
Proof.
  intros Hn H. apply map_eq. intros k. destruct (m !! k) as [v|] eqn:E.
  - apply H in E. by apply set_all_in.
  - rewrite set_all_notin; [apply lookup_empty|]. intros ([k' v] & -> & Hi)%list_elem_of_fmap.
    apply H in Hi. cbn in E. congruence.
Qed.

Lemma iterate_pairs {A} `{ProtoLaws A} (key : A -> bytes) m pfx :
  (forall k v, m !! k = Some v -> has_prefix pfx k = true -> exists a : A, k = key a /\ v = Marshal a /\ wire_ok a) ->
  map (fun a => (key a, Marshal a)) (iterate m pfx) = IteratePrefix m pfx.
Proof.
  intros Hm. unfold iterate.
  assert (Hi : Forall (fun kv => exists a : A, kv.1 = key a /\ kv.2 = Marshal a /\ wire_ok a) (IteratePrefix m pfx)).
  { apply Forall_forall. intros [k v] [Hk Hp]%elem_of_IteratePrefix. by eapply Hm. }
  induction Hi as [|[k v] l (a & Hk & Hv & Hw) Hi IH]; [done|]. cbn [fst snd] in *. subst.
  cbn [omap list_omap snd]. rewrite proto_roundtrip by done. cbn [map]. by rewrite IH.
Qed.

(** A store whose oracle sources are those of its chains, as genesis leaves
    it. *)
Definition coherent (m : store) : Prop :=
  hm_typed m /\ is_Some (m !! KeyPrefixParams) /\ is_Some (m !! KeyPrefixPruneEpoch) /\
  m !! KeyRegisteredChain [] = None /\
  forall uid, uid <> [] -> m !! oracleSourcesKey uid =
    match chain_at m uid with
    | Some c => match ch_OracleSources c with
                | [] => None
                | sources => Some (Marshal_sources (omap id sources))
                end
    | None => None
    end.

Lemma elem_of_chains m c : hm_typed m -> c ∈ IterateRegisteredChains m <-> chain_at m (ch_ChainUid c) = Some c.
Proof.
  intros Hm. unfold IterateRegisteredChains, chain_at, read. rewrite elem_of_iterate. split.
  - intros (k & v & Hk & Hp & Hu). pose proof (Hm _ _ Hk) as He.
    apply entry_chain in He as (r' & -> & -> & Hw); [|done]. rewrite proto_roundtrip in Hu by done.
    injection Hu as <-. rewrite Hk. cbn [base.mbind option_bind]. by apply proto_roundtrip.
  - intros H. destruct (m !! _) as [v|] eqn:E; [|done]. eexists _, v. split; [exact E|]. split; [|exact H].
    apply prefix_cons.
Qed.
Lemma chain_of_key m uid v : hm_typed m -> m !! KeyRegisteredChain uid = Some v ->
  exists c, v = Marshal c /\ wire_ok c /\ ch_ChainUid c = uid /\ chain_at m uid = Some c.
Proof.
  intros Hm E. pose proof (Hm _ _ E) as He. apply entry_chain in He as (c & Hk & -> & Hw); [|apply prefix_cons].
  hm_keys. injection Hk as ->. exists c. split_and!; try done. unfold chain_at, read. hm_keys. rewrite E.
  cbn [base.mbind option_bind]. by apply proto_roundtrip.
Qed.

Lemma chain_at_key m uid c : hm_typed m -> chain_at m uid = Some c ->
  ch_ChainUid c = uid /\ m !! KeyRegisteredChain uid = Some (Marshal c).
Proof.
  intros Hm H. unfold chain_at, read in H. destruct (m !! KeyRegisteredChain uid) as [v|] eqn:E; [|done].
  destruct (chain_of_key _ _ _ Hm E) as (c' & -> & Hw & Hu & _). cbn [base.mbind option_bind] in H.
  rewrite proto_roundtrip in H by done. by injection H as ->.
Qed.

Lemma chain_pairs_key c kv : kv ∈ chain_pairs c ->
  kv = (KeyRegisteredChain (ch_ChainUid c), Marshal c) \/
  ch_OracleSources c <> [] /\ kv = (oracleSourcesKey (ch_ChainUid c), Marshal_sources (omap id (ch_OracleSources c))).
Proof.
  unfold chain_pairs. destruct (ch_OracleSources c) as [|s l]; rewrite elem_of_cons; intros [->|H]; eauto.
  - by apply elem_of_nil in H.
  - apply list_elem_of_singleton in H as ->. right. done.
Qed.
Lemma elem_of_chain_pairs l kv : kv ∈ flat_map chain_pairs l <-> exists c, c ∈ l /\ kv ∈ chain_pairs c.
Proof.
  rewrite list_elem_of_In, in_flat_map. split; intros (c & H1 & H2); exists c; by rewrite !list_elem_of_In in *.
Qed.
Lemma NoDup_chain_pairs l : NoDup (map ch_ChainUid l) -> NoDup (flat_map chain_pairs l).*1.
Proof.
  induction l as [|c l IH]; intros Hn; [constructor|]. cbn [map flat_map] in *. apply NoDup_cons in Hn as [Hc Hn].
  rewrite fmap_app. apply NoDup_app. split; [|split; [|by apply IH]].
  - unfold chain_pairs. destruct (ch_OracleSources c); cbn; [by apply NoDup_singleton|].
    apply NoDup_cons. split; [|by apply NoDup_singleton]. by intros [=]%list_elem_of_singleton.
  - intros k (kv & -> & [->|[_ ->]]%chain_pairs_key)%list_elem_of_fmap ([k' v'] & Hk & (c' & Hi & Hp)%elem_of_chain_pairs)%list_elem_of_fmap;
      apply chain_pairs_key in Hp as [Hp|[_ Hp]]; simplify_eq; cbn in *; hm_keys; simplify_eq;
      apply Hc; (match goal with H : ch_ChainUid _ = _ |- _ => rewrite H end); apply list_elem_of_fmap; eauto.
Qed.
Lemma NoDup_chains m : hm_typed m -> NoDup (map ch_ChainUid (IterateRegisteredChains m)).
Proof.
  intros Hm. pose proof (NoDup_IteratePrefix m KeyPrefixRegisteredChains) as Hn.
  rewrite <- (iterate_pairs (A := RegisteredChain) (fun c => KeyRegisteredChain (ch_ChainUid c))) in Hn.
  2:{ intros k v Hk Hp. by apply (entry_chain k v (Hm _ _ Hk)). }
  change (map ?f ?l) with (f <$> l) in Hn. rewrite <- list_fmap_compose in Hn.
  change (NoDup (ch_ChainUid <$> IterateRegisteredChains m)). unfold IterateRegisteredChains.
  by apply (NoDup_fmap_1 KeyRegisteredChain); rewrite <- list_fmap_compose.
Qed.

(** The entries of the exported genesis are the entries of the store. *)
Definition exported (m : store) : HmGenesis :=
  MkHmGenesis (params_of m) (IterateRegisteredChains m) (IterateRegisteredContracts m) (IterateEscrowRecords m)
    (iterateAllHashRoots m) (epoch_of m).
Lemma exported_pairs m : hm_typed m -> genesis_pairs (exported m) =
  [(KeyPrefixParams, Marshal (params_of m))] ++ flat_map chain_pairs (IterateRegisteredChains m) ++
  IteratePrefix m KeyPrefixRegisteredContracts ++ IteratePrefix m KeyPrefixEscrow ++
  IteratePrefix m KeyPrefixHashRoots ++ [(KeyPrefixPruneEpoch, be_put 8 (epoch_of m))].
Proof.
  intros Hm. unfold genesis_pairs, exported, IterateRegisteredContracts, IterateEscrowRecords, iterateAllHashRoots.
  cbn [hg_Params hg_RegisteredChains hg_RegisteredContracts hg_EscrowRecords
    hg_HashRoots hg_PruneEpoch].
  rewrite (iterate_pairs (A := RegisteredContract) (fun c => KeyRegisteredContract (rc_ContractAddr c))).
  2:{ intros k v Hk Hp. by apply (entry_contract k v (Hm _ _ Hk)). }
  rewrite (iterate_pairs (A := EscrowRecord) (fun r => KeyEscrow (er_ContractAddr r))).
  2:{ intros k v Hk Hp. destruct (entry_escrow k v (Hm _ _ Hk) Hp) as (r & ? & ? & ? & _). eauto. }
  rewrite (iterate_pairs (A := HashRoot) (fun r => KeyHashRoot (hr_ChainUid r) (hr_Algo r))); [done|].
  intros k v Hk Hp. by apply (entry_root k v (Hm _ _ Hk)).
Qed.
Lemma coherent_params m : coherent m -> m !! KeyPrefixParams = Some (Marshal (params_of m)).
Proof.
  intros (Hm & [v Hv] & _). unfold params_of, read. rewrite Hv. cbn [base.mbind option_bind].
  destruct (entry_params v (Hm _ _ Hv)) as (p & -> & Hw). by rewrite proto_roundtrip.
Qed.
Lemma coherent_epoch m : coherent m -> m !! KeyPrefixPruneEpoch = Some (be_put 8 (epoch_of m)).
Proof.
  intros (Hm & _ & [v Hv] & _). unfold epoch_of. rewrite Hv. destruct (entry_epoch v (Hm _ _ Hv)) as (z & -> & Hz).
  cbn [fmap option_fmap option_map default]. rewrite be_get_put. by rewrite Z.mod_small.
Qed.
Lemma coherent_elem m k v : coherent m -> m !! k = Some v <-> (k, v) ∈ genesis_pairs (exported m).
Proof.
  intros Hco. pose proof (coherent_params m Hco) as Hp. pose proof (coherent_epoch m Hco) as He.
  destruct Hco as (Hm & _ & _ & H0 & Hs). rewrite exported_pairs by done.
  rewrite !elem_of_app, !list_elem_of_singleton, !elem_of_IteratePrefix, elem_of_chain_pairs. split.
  - intros Hk. pose proof (Hm _ _ Hk) as Hent. destruct Hent as [p Hw|c Hw|c|r Hw Ha|r Hw|z Hz|uid l Hu Hl].
    + left. f_equal. congruence.
    + right; left. destruct (chain_of_key _ _ _ Hm Hk) as (c' & E & Hw' & Hu & Hc).
      assert (c' = c) as ->. { apply (f_equal (Unmarshal (A := RegisteredChain))) in E. rewrite !proto_roundtrip in E by done. by injection E. }
      exists c. split; [by apply elem_of_chains|]. left.
    + do 2 right. left. split; [done|apply has_prefix_app].
    + do 3 right. left. split; [done|apply has_prefix_app].
    + do 4 right. left. split; [done|apply has_prefix_app].
    + do 5 right. f_equal. congruence.
    + right; left. specialize (Hs uid Hu). rewrite Hk in Hs. destruct (chain_at m uid) as [c|] eqn:Ec; [|done].
      destruct (chain_at_key _ _ _ Hm Ec) as [Hcu _].
      exists c. split; [apply elem_of_chains; [done|by rewrite Hcu]|]. unfold chain_pairs.
      destruct (ch_OracleSources c) as [|s0 ss]; [done|]. rewrite Hcu. right.
      apply list_elem_of_singleton. f_equal. congruence.
  - intros [[= -> ->]|[(c & Hc & Hk)|[[? _]|[[? _]|[[? _]|[= -> ->]]]]]]; try done.
    apply elem_of_chains in Hc; [|done]. apply chain_pairs_key in Hk as [[= -> ->]|[Hne [= -> ->]]].
    + by apply (chain_at_key _ _ _ Hm Hc).
    + assert (Hu : ch_ChainUid c <> []).
      { intros E. rewrite E in Hc. unfold chain_at, read in Hc. by rewrite H0 in Hc. }
      rewrite (Hs _ Hu), Hc. by destruct (ch_OracleSources c).
Qed.

Lemma NoDup_exported m : coherent m -> NoDup (genesis_pairs (exported m)).*1.
Proof.
  intros Hco. pose proof Hco as (Hm & _ & _ & H0 & _). rewrite exported_pairs by done.
  assert (Hpre : forall pfx b, pfx = [b] -> forall k, k ∈ (IteratePrefix m pfx).*1 -> exists t, k = b :: t).
  { intros pfx b -> k ([k' v] & -> & [_ Hp]%elem_of_IteratePrefix)%list_elem_of_fmap.
    apply has_prefix_true in Hp as [t ->]. by exists t. }
  assert (Hch : forall k, k ∈ (flat_map chain_pairs (IterateRegisteredChains m)).*1 ->
    exists t, k = Byte.x01 :: t \/ k = Byte.x06 :: t /\ t <> []).
  { intros k (kv & -> & (c & Hc & Hk)%elem_of_chain_pairs)%list_elem_of_fmap. exists (ch_ChainUid c).
    apply elem_of_chains in Hc; [|done]. apply chain_pairs_key in Hk as [->|[_ ->]]; [by left|right]. split; [done|].
    intros E. rewrite E in Hc. unfold chain_at, read in Hc. by rewrite H0 in Hc. }
  rewrite !fmap_app. repeat (apply NoDup_app; split; [|split]); try apply NoDup_singleton; try apply NoDup_IteratePrefix;
    try (by apply NoDup_chain_pairs, NoDup_chains);
    intros k Hk; rewrite ?not_elem_of_app; split_and?; intros Hk';
    repeat match goal with
    | H : _ ∈ (IteratePrefix _ _).*1 |- _ => apply (Hpre _ _ eq_refl) in H as [? ?]
    | H : _ ∈ (flat_map _ _).*1 |- _ => apply Hch in H as [? [?|[? ?]]]
    | H : _ ∈ [_].*1 |- _ => apply list_elem_of_singleton in H; hm_keys; cbn in H
    end; by simplify_eq.
Qed.

Lemma validate_chains_ok seen l :
  Forall (fun c => ch_ChainUid c <> []) l -> NoDup (map ch_ChainUid l) ->
  (forall c, c ∈ l -> ch_ChainUid c ∉ seen) -> validate_chains seen l = Ok tt.
Proof.
  revert seen. induction l as [|c l IH]; intros seen Hf Hn Hs; [done|]. cbn [validate_chains map] in *.
  apply Forall_cons in Hf as [Hc Hf]. apply NoDup_cons in Hn as [Hx Hn].
  apply bytes_eqb_neq in Hc. rewrite Hc. cbn [guard rbind]. rewrite bool_decide_false by (apply Hs; left).
  cbn [guard rbind]. apply IH; [done|done|]. intros c' Hc' [He|Hi]%elem_of_cons.
  - apply Hx. rewrite <- He. by apply list_elem_of_fmap; eauto.
  - by apply (Hs c'); [right|].
Qed.

(** ** Properties *)

(** Exporting the module and importing the result into an empty store gives
    back exactly the same store, byte for byte, when its oracle sources are
    those of its chains; the exported genesis validates when the parameters do. *)
Theorem hm_genesis_roundtrip m (b b0 : B) :
  coherent m -> HmParams_Validate (params_of m) = Ok tt ->
  exists gs, hm_ExportGenesis (MkHm m b) = (MkHm m b, Ok gs) /\ HmGenesis_Validate gs = Ok tt /\
    hm_InitGenesis gs (MkHm ∅ b0) = (MkHm m (GetModuleAccount HmModuleName b0), Ok tt).
Proof.
  intros Hco Hv. pose proof Hco as (Hm & _ & _ & H0 & _). exists (exported m). split; [|split].
  - unfold hm_ExportGenesis. destruct (typed_params (MkHm m b) Hm) as [-> _].
    by destruct (typed_epoch (MkHm m b) Hm) as [-> _].
  - unfold HmGenesis_Validate. cbn [hg_Params hg_RegisteredChains exported]. rewrite Hv. cbn [rbind].
    apply validate_chains_ok; [|by apply NoDup_chains|by intros c _ ?%elem_of_nil].
    apply Forall_forall. intros c Hc%elem_of_chains E; [|done]. rewrite E in Hc. unfold chain_at, read in Hc.
    by rewrite H0 in Hc.
  - rewrite InitGenesis_sets. rewrite (set_all_eq _ m); [done|by apply NoDup_exported|].
    intros k v. by apply coherent_elem.
Qed.

(** The end blocker always succeeds on a typed store. When the prune interval
    has passed since the last prune it disables exactly the contracts whose
    escrow ran out before this block and records the height; otherwise nothing
    changes. No other entry of the store is touched. *)
Theorem EndBlocker_prunes (st : hm_state B) height :
  hm_typed (hm_store st) ->
  let m := hm_store st in let h := u64 height in
  let due := PruneInterval (params_of m) <=? u64 (h - epoch_of m) in
  exists m', hm_EndBlocker height st = (MkHm m' (hm_rest st), Ok tt) /\ hm_typed m' /\
    (forall a, contract_at m' a =
       if due && expired m h a then disabled <$> contract_at m a else contract_at m a) /\
    epoch_of m' = (if due then h else epoch_of m) /\
    forall k, not_contract k -> k <> KeyPrefixPruneEpoch -> m' !! k = m !! k.
Proof. apply EndBlocker_spec. Qed.

(** Paying for callbacks. A registration that succeeds is for an enabled chain,
    pays at least the minimum in the escrow denom into the module account, files
    the contract as enabled and paid for [amount / minimum] prune intervals from
    this block on; a refill that succeeds adds its intervals to what was paid.
    Neither changes the record of another contract, and the payer alone pays. *)
Theorem escrow_purchase height Sender a uid ks (e : Coin) (st st' : hm_state B) :
  hm_typed (hm_store st) -> 0 < coin_Amount e ->
  let m := hm_store st in let p := params_of m in
  let periods := Z.quot (coin_Amount e) (MinEscrowAmount p) in
  let paid (b b' : B) := forall o d, balance b' o d = balance b o d
      - (if decide (o = Account (default [] (AccAddressFromBech32 Sender)))
         then (if decide (d = coin_Denom e) then coin_Amount e else 0) else 0)
      + (if decide (o = Module HmModuleName) then (if decide (d = coin_Denom e) then coin_Amount e else 0) else 0) in
  (RegisterContract height Sender a uid ks e st = (st', Ok tt) ->
     (exists c, chain_at m uid = Some c /\ ch_Enabled c = true) /\
     coin_Denom e = EscrowDenom p /\ MinEscrowAmount p <= coin_Amount e /\ paid (hm_rest st) (hm_rest st') /\
     (forall x, contract_at (hm_store st') x =
        if decide (x = a) then Some (MkRegisteredContract a uid ks true) else contract_at m x) /\
     (forall x, escrow_at (hm_store st') x =
        if decide (x = a) then Some (MkEscrowRecord a e (u64 (u64 height + periods * PruneInterval p)) 0)
        else escrow_at m x)) /\
  (RefillEscrow Sender a e st = (st', Ok tt) ->
     exists r, escrow_at m a = Some r /\ coin_Denom e = EscrowDenom p /\ paid (hm_rest st) (hm_rest st') /\
     (forall x, contract_at (hm_store st') x = contract_at m x) /\
     (forall x, escrow_at (hm_store st') x =
        if decide (x = a)
        then Some (MkEscrowRecord a (MkCoin (coin_Denom e) (coin_Amount (er_Amount r) + coin_Amount e))
                     (u64 (er_PaidUntilHeight r + periods * PruneInterval p)) (er_LastPruneHeight r))
        else escrow_at m x)).
Proof.
  intros Hm He m p periods paid.
  assert (Hpaid : forall coins b', NewCoins e = Some coins ->
    SendCoins (Account (default [] (AccAddressFromBech32 Sender))) (Module HmModuleName) coins (hm_rest st) = Some b' ->
    paid (hm_rest st) b').
  { intros coins b' [_ Hn]%newcoins_law (_ & Hs & _)%send_law o d. by rewrite Hs, Hn. }
  assert (Hr : forall r m1 x, wire_ok r -> escrow_at (store_Set (KeyEscrow a) (Marshal r) m1) x =
    if decide (x = a) then Some r else escrow_at m1 x).
  { intros r m1 x Hw. unfold escrow_at. rewrite (read_set (A := EscrowRecord)) by done. hm_keys.
    case_decide; case_decide; congruence. }
  assert (Hce : forall v m1 x, contract_at (store_Set (KeyEscrow a) v m1) x = contract_at m1 x).
  { intros v m1 x. by apply read_other. }
  split.
  - intros (c & coins & b' & Hc & Hen & Hd & Hmin & _ & Hn & Hs & _ & ->)%RegisterContract_ok; [|done].
    cbn [hm_store hm_rest]. split; [eauto|]. split_and!; [done|done|by eapply Hpaid| |].
    + intros x. rewrite Hce. unfold contract_at. rewrite (read_set (A := RegisteredContract)) by done. hm_keys.
      case_decide; case_decide; first [done|congruence].
    + intros x. rewrite Hr by (split; cbn; [apply u64_range|by unfold is_u64]). case_decide; [done|].
      by apply read_other.
  - intros (r & coins & b' & Hesc & Hd & _ & _ & Hn & Hs & _ & ->)%RefillEscrow_ok; [|done].
    destruct (escrow_addr _ _ _ Hm Hesc) as (_ & [_ Hl] & _). exists r. cbn [hm_store hm_rest].
    split_and!; [done|done|by eapply Hpaid|intros x; apply Hce|].
    intros x. by rewrite Hr by (split; cbn; [apply u64_range|done]).
Qed.
End Typed.

(** ** A small codec and SDK, for the witnesses *)

#[global] Program Instance coin_countable : Countable Coin :=
  inj_countable' (fun c => (coin_Denom c, coin_Amount c)) (fun t => MkCoin t.1 t.2) _.
Next Obligation. by intros []. Qed.
#[global] Program Instance custody_countable : Countable CustodyAuthenticator :=
  inj_countable' (fun c => (ca_Pubkey c, ca_Algorithm c, ca_Scope c)) (fun t => MkCustodyAuthenticator t.1.1 t.1.2 t.2) _.
Next Obligation. by intros []. Qed.
#[global] Program Instance source_countable : Countable OracleSource :=
  inj_countable' (fun s => (src_SourceId s, src_Kind s, src_Endpoint s, src_MerklePrefix s, src_Authenticator s, src_Enabled s))
    (fun t => MkOracleSource t.1.1.1.1.1 t.1.1.1.1.2 t.1.1.1.2 t.1.1.2 t.1.2 t.2) _.
Next Obligation. by intros []. Qed.
#[global] Program Instance chain_countable : Countable RegisteredChain :=
  inj_countable' (fun s => (ch_ChainUid s, ch_Name s, ch_RpcEndpoints s, ch_HashAlgos s, ch_Enabled s, ch_OracleSources s))
    (fun t => MkRegisteredChain t.1.1.1.1.1 t.1.1.1.1.2 t.1.1.1.2 t.1.1.2 t.1.2 t.2) _.
Next Obligation. by intros []. Qed.
#[global] Program Instance attestation_countable : Countable OracleAttestation :=
  inj_countable' (fun s => (oa_SourceId s, oa_Value s, oa_Height s, oa_Timestamp s, oa_CustodySignature s, oa_Ics23Proof s))
    (fun t => MkOracleAttestation t.1.1.1.1.1 t.1.1.1.1.2 t.1.1.1.2 t.1.1.2 t.1.2 t.2) _.
Next Obligation. by intros []. Qed.
#[global] Program Instance contract_countable : Countable RegisteredContract :=
  inj_countable' (fun s => (rc_ContractAddr s, rc_ChainUid s, rc_SubstoreKeys s, rc_Enabled s))
    (fun t => MkRegisteredContract t.1.1.1 t.1.1.2 t.1.2 t.2) _.
Next Obligation. by intros []. Qed.
#[global] Program Instance escrow_countable : Countable EscrowRecord :=
  inj_countable' (fun s => (er_ContractAddr s, er_Amount s, er_PaidUntilHeight s, er_LastPruneHeight s))
    (fun t => MkEscrowRecord t.1.1.1 t.1.1.2 t.1.2 t.2) _.
Next Obligation. by intros []. Qed.
#[global] Program Instance root_countable : Countable HashRoot :=
  inj_countable' (fun s => (hr_ChainUid s, hr_Algo s, hr_Height s, hr_Root s, hr_AttestationCount s, hr_BlockTime s, hr_Attestations s))
    (fun t => MkHashRoot t.1.1.1.1.1.1 t.1.1.1.1.1.2 t.1.1.1.1.2 t.1.1.1.2 t.1.1.2 t.1.2 t.2) _.
Next Obligation. by intros []. Qed.
#[global] Program Instance hm_params_countable : Countable HmParams :=
  inj_countable' (fun s => (QuorumFraction s, PruneInterval s, EscrowDenom s, MinEscrowAmount s, MarketMode s))
    (fun t => MkHmParams t.1.1.1.1 t.1.1.1.2 t.1.1.2 t.1.2 t.2) _.
Next Obligation. by intros []. Qed.

#[global] Instance wire_attestation_dec a : Decision (wire_attestation a).
Proof. unfold wire_attestation; apply _. Defined.
#[global] Instance wire_params_dec (a : HmParams) : Decision (wire_ok a).
Proof. unfold wire_ok, wire_params; apply _. Defined.
#[global] Instance wire_chain_dec (a : RegisteredChain) : Decision (wire_ok a).
Proof. unfold wire_ok, wire_chain; apply _. Defined.
#[global] Instance wire_contract_dec (a : RegisteredContract) : Decision (wire_ok a).
Proof. unfold wire_ok, wire_contract; apply _. Defined.
#[global] Instance wire_escrow_dec (a : EscrowRecord) : Decision (wire_ok a).
Proof. unfold wire_ok, wire_escrow; apply _. Defined.
#[global] Instance wire_root_dec (a : HashRoot) : Decision (wire_ok a).
Proof. unfold wire_ok, wire_root, wire_attestations; apply _. Defined.
#[global] Instance ToyHmCodec : HmCodec := {|
  proto_params := toy_proto; proto_chain := toy_proto; proto_contract := toy_proto;
  proto_escrow := toy_proto; proto_root := toy_proto
|}.
#[global] Instance ToyHmCodecLaws : HmCodecLaws.
Proof. split; apply toy_proto_laws. Qed.

(** Contracts that do nothing but refuse at one address; a signature is the key
    before the message. *)
#[global] Instance ToyHm : HmSdk toy := {|
  hm_Sudo c m st := if bytes_eqb c (str "refuses") then (st, Err ErrHmBank) else (st, Ok tt);
  ed25519_Verify k m s := bytes_eqb s (k ++ m);
  GetModuleAccount _ b := b
|}.

Definition w_source : OracleSource :=
  MkOracleSource (str "node") 2 [] [] (Some (MkCustodyAuthenticator (replicate 32 Byte.x07) (str "ed25519") (str "btc"))) true.
Definition w_chain : RegisteredChain := MkRegisteredChain (str "btc") (str "Bitcoin") [] [str "sha256"] true [Some w_source].
Definition w_hm_genesis : HmGenesis := MkHmGenesis DefaultParams [w_chain] [] [] [] 5.
Definition w_bank : toy := MkToy {[ (Account (str "alice"), str "uterp") := 10000000 ]} ∅ ∅ 0.
Definition w_hm : hm_state toy := MkHm (set_all (genesis_pairs w_hm_genesis) ∅) w_bank.
Definition w_escrow : Coin := MkCoin (str "uterp") 2500000.
Definition w_hm1 : hm_state toy := (RegisterContract 10 (str "terp1alice") (str "terp1c") (str "btc") [] w_escrow w_hm).1.

Lemma w_source_text : source_text w_source.
Proof. split_and!; try vm_refl; unfold is_i32; cbn; lia. Qed.
Lemma w_chain_wire : wire_ok w_chain.
Proof. repeat constructor; cbn; lia. Qed.
Lemma w_hm_typed : hm_typed (hm_store w_hm).
Proof.
  cbn [hm_store w_hm]. unfold set_all, genesis_pairs. cbn [foldl app flat_map chain_pairs w_hm_genesis hg_RegisteredChains
    hg_RegisteredContracts hg_EscrowRecords hg_HashRoots map w_chain ch_OracleSources fst snd].
  repeat apply typed_set; [apply typed_empty|..].
  - apply E_params. unfold wire_ok, wire_params, is_u64, is_i32. cbn. lia.
  - apply (E_chain w_chain), w_chain_wire.
  - apply E_sources; [done|]. repeat constructor; apply w_source_text.
  - apply E_epoch. unfold is_u64. cbn. lia.
Qed.
Lemma w_chain_at uid : chain_at (hm_store w_hm) uid = if decide (uid = str "btc") then Some w_chain else None.
Proof.
  unfold chain_at, read. case_decide as Hu; [subst; vm_refl|]. cbn [hm_store w_hm].
  rewrite set_all_notin; [done|]. intros Hi. cbn in Hi. repeat rewrite elem_of_cons in Hi. 
  destruct Hi as [Hi|[Hi|[Hi|[Hi|Hi]]]]; try discriminate Hi; [|by apply elem_of_nil in Hi].
  injection Hi as Hi. done.
Qed.
Lemma w_hm_coherent : coherent (hm_store w_hm).
Proof.
  split; [apply w_hm_typed|]. split; [exists (Marshal DefaultParams); vm_refl|].
  split; [exists (be_put 8 5); vm_refl|]. split; [vm_refl|].
  intros uid Hu. rewrite w_chain_at. case_decide as Hb; [subst; vm_refl|]. cbn [hm_store w_hm].
  rewrite set_all_notin; [done|]. intros Hi. cbn in Hi. repeat rewrite elem_of_cons in Hi.
  destruct Hi as [Hi|[Hi|[Hi|[Hi|Hi]]]]; try discriminate Hi; [| |by apply elem_of_nil in Hi]; by injection Hi as Hi.
Qed.
Lemma w_hm1_typed : hm_typed (hm_store w_hm1).
Proof.
  apply (handle_typed (str "gov") 10 (MRegisterContract (str "terp1alice") (str "terp1c") (str "btc") [] w_escrow) w_hm w_hm1
    w_hm_typed); [by split; [vm_refl|]|vm_refl].
Qed.

Lemma hm_genesis_roundtrip_witness :
  coherent (hm_store w_hm) /\ HmParams_Validate (params_of (hm_store w_hm)) = Ok tt /\
  exists gs, hm_ExportGenesis (MkHm (hm_store w_hm) w_bank) = (MkHm (hm_store w_hm) w_bank, Ok gs) /\
    HmGenesis_Validate gs = Ok tt /\
    hm_InitGenesis gs (MkHm ∅ w_bank) = (MkHm (hm_store w_hm) (GetModuleAccount HmModuleName w_bank), Ok tt).
Proof.
  split; [apply w_hm_coherent|]. split; [vm_refl|].
  apply (hm_genesis_roundtrip (hm_store w_hm) w_bank w_bank); [apply w_hm_coherent|vm_refl].
Defined.
Lemma EndBlocker_prunes_witness :
  hm_typed (hm_store w_hm1) /\
  let m := hm_store w_hm1 in let h := u64 3000 in
  let due := PruneInterval (params_of m) <=? u64 (h - epoch_of m) in
  exists m', hm_EndBlocker 3000 w_hm1 = (MkHm m' (hm_rest w_hm1), Ok tt) /\ hm_typed m' /\
    (forall a, contract_at m' a = if due && expired m h a then disabled <$> contract_at m a else contract_at m a) /\
    epoch_of m' = (if due then h else epoch_of m) /\
    forall k, not_contract k -> k <> KeyPrefixPruneEpoch -> m' !! k = m !! k.
Proof. split; [apply w_hm1_typed|]. apply (EndBlocker_prunes w_hm1 3000), w_hm1_typed. Defined.
Lemma escrow_purchase_witness :
  RegisterContract 10 (str "terp1alice") (str "terp1c") (str "btc") [] w_escrow w_hm = (w_hm1, Ok tt) /\
  forall x, escrow_at (hm_store w_hm1) x =
    if decide (x = str "terp1c") then Some (MkEscrowRecord (str "terp1c") w_escrow (u64 (u64 10 + 2 * 1000)) 0)
    else escrow_at (hm_store w_hm) x.
Proof.
  assert (E : RegisterContract 10 (str "terp1alice") (str "terp1c") (str "btc") [] w_escrow w_hm = (w_hm1, Ok tt)) by vm_refl.
  split; [done|].
  destruct (escrow_purchase 10 (str "terp1alice") (str "terp1c") (str "btc") [] w_escrow w_hm w_hm1 w_hm_typed) as [H _]; [done|].
  destruct (H E) as (_ & _ & _ & _ & _ & He). intros x. rewrite He. case_decide; [vm_refl|done].
Defined.

(** ** Behaviour worth knowing *)

Definition ok_of {A : Type} (x : hm_state toy * result hm_err A) : bool := is_ok x.2.

(** A chain registered by message keeps its oracle sources in its record only:
    the sources the attestations are checked against stay empty. *)
Example register_chain_no_sources :
  let st := (RegisterChain (str "gov") (str "gov") w_chain (MkHm ∅ w_bank)).1 in
  chain_at (hm_store st) (str "btc") = Some w_chain /\ (GetOracleSources (str "btc") st).2 = Ok [].
Proof. split; vm_refl. Qed.

(** Anybody can register a contract again; the new record replaces the old one,
    and what had been paid is lost. *)
Example register_overwrites :
  let b := MkToy (toy_bal (hm_rest w_hm1) ∪ {[ (Account (str "mallory"), str "uterp") := 1000000 ]}) ∅ ∅ 0 in
  let st := (RegisterContract 11 (str "terp1mallory") (str "terp1c") (str "btc") [] (MkCoin (str "uterp") 1000000)
               (MkHm (hm_store w_hm1) b)).1 in
  er_PaidUntilHeight <$> escrow_at (hm_store w_hm1) (str "terp1c") = Some 2010 /\
  er_PaidUntilHeight <$> escrow_at (hm_store st) (str "terp1c") = Some 1011.
Proof. split; vm_refl. Qed.

(** A contract that was disabled for lack of escrow stays disabled when its
    escrow is refilled. *)
Example refill_stays_disabled :
  let st := (hm_EndBlocker 3000 w_hm1).1 in
  let '(st', r) := RefillEscrow (str "terp1alice") (str "terp1c") (MkCoin (str "uterp") 5000000) st in
  is_ok r = true /\ er_PaidUntilHeight <$> escrow_at (hm_store st') (str "terp1c") = Some 7010 /\
  rc_Enabled <$> contract_at (hm_store st') (str "terp1c") = Some false.
Proof. vm_compute. done. Qed.

(** Validated parameters may have a minimum of zero, and then every
    registration panics. *)
Example zero_minimum_panics :
  let p := MkHmParams 0 1 (str "uterp") 0 1 in
  HmParams_Validate p = Ok tt /\
  (RegisterContract 10 (str "terp1alice") (str "terp1c") (str "btc") [] w_escrow
     (hm_SetParams p w_hm).1).2 = Err HmPanic.
Proof. split; vm_refl. Qed.

(** The key of the prune epoch is that of the sources of the empty chain id. *)
Example epoch_key_collides : oracleSourcesKey [] = KeyPrefixPruneEpoch.
Proof. reflexivity. Qed.
