(* ===== verification/HmVote.v ===== *)
(** * hashmerchant: vote extensions

    [x/hashmerchant/keeper/{vote_ext,oracle,abci}.go]: what a validator attaches
    to its vote, how a peer checks it, how the proposer injects the votes of the
    last commit as a first transaction, how every node tallies them and writes
    the roots that reached the quorum, and the callbacks to contracts. Go walks
    a map in any order, so the tally is walked in an arbitrary one. The sidecar,
    contracts, ed25519 and the codec are parameters. *)

From S2P Require Import Prelude Sha256 KVStore LvTypes LvHost LvKeeper LvAbci Json JsonPrint Sdk Proto HmTypes HmKeeper.

Open Scope go_scope.

(** ** Data *)

(** The commit of the last block with the vote extensions. *)
Record ExtendedVoteInfo := MkExtendedVoteInfo {
  evi_Address : bytes; evi_Power : Z; evi_VoteExtension : bytes; evi_ExtensionSignature : bytes; evi_BlockIdFlag : Z
}.
Record ExtendedCommitInfo := MkExtendedCommitInfo { eci_Round : Z; eci_Votes : list ExtendedVoteInfo }.
Class VoteCodec := {
  proto_vote :: Proto VoteExtensionHashData;
  proto_commit :: Proto ExtendedCommitInfo
}.
#[global] Instance wire_commit : WireOk ExtendedCommitInfo := fun c =>
  Forall (fun v => is_i64 (evi_Power v) /\ is_i32 (evi_BlockIdFlag v)) (eci_Votes c) /\ is_i32 (eci_Round c).
Class VoteCodecLaws `{VoteCodec} := {
  laws_vote :: ProtoLaws VoteExtensionHashData;
  laws_commit :: ProtoLaws ExtendedCommitInfo
}.
(** [LegacyDec.MulInt64] and [TruncateInt]; the product is exact. *)
Class TruncDec := { Dec_MulInt64 : Z -> Z -> Z; Dec_TruncateInt : Z -> Z }.
Class TruncDecLaws `{TruncDec} := {
  mulint64_law : forall d i, Dec_MulInt64 d i = d * i;
  truncate_law : forall d, Dec_TruncateInt d = Z.quot d dec_one
}.

(** ** Attestations *)

Definition custodyDomain (scope sourceID : bytes) : bytes :=
  sha256 (str "hashmerchant/custody/" ++ scope ++ "/"%byte :: sourceID).
(** Eight bytes, the low one first. *)
Definition le64 (v : Z) : bytes := map (fun i => byte_of_Z (Z.shiftr v (8 * Z.of_nat i))) (seq 0 8).
Definition custodyPayload (scope sourceID value : bytes) (height timestamp : Z) : bytes :=
  custodyDomain scope sourceID ++ value ++ le64 height ++ le64 (u64 timestamp).

Definition findOracleSource (sources : list OracleSource) (sourceID : bytes) : option OracleSource :=
  List.find (fun src => bytes_eqb (src_SourceId src) sourceID && src_Enabled src) sources.

Definition aggregateAttestationRoot (attestations : list OracleAttestation) : bytes :=
  match attestations with
  | [] => []
  | _ => sha256 (concat (map (fun att => oa_SourceId att ++ oa_Value att) attestations))
  end.

Definition voteExtensionAttestations (data : VoteExtensionHashData) : list OracleAttestation :=
  match ve_Attestations data with
  | [] => match unpackOracleBundle (ve_Ics23Proof data) with Ok l => l | Err _ => [] end
  | l => omap id l
  end.

(** ** The sidecar *)

(** What the HTTP request gives: a failure, or a status and the body if it can
    be read. *)
Inductive http_response := HttpFailed | HttpStatus (code : Z) (body : option bytes).

Record sidecarAttestationJSON := MkSidecarAttestation {
  sa_SourceID : bytes; sa_Value : bytes; sa_Height : Z; sa_Timestamp : Z; sa_CustodySignature : bytes
}.
Record sidecarResponse := MkSidecarResponse {
  sr_RuntimeID : bytes; sr_ChainUID : bytes; sr_Algo : bytes; sr_Root : bytes; sr_ForeignHeight : Z;
  sr_ForeignBlockTime : Z; sr_Attestations : list sidecarAttestationJSON
}.
Definition dec_sidecar_attestation (v : json) : option sidecarAttestationJSON :=
  l ← members v;
  sourceID ← dec_field dec_string (str "source_id") [] l;
  value ← dec_field dec_string (str "value") [] l;
  height ← dec_field (dec_uint 64) (str "height") 0 l;
  timestamp ← dec_field (dec_int 64) (str "timestamp") 0 l;
  sig ← dec_field dec_string (str "custody_signature") [] l;
  Some (MkSidecarAttestation sourceID value height timestamp sig).
Definition dec_sidecar (v : json) : option sidecarResponse :=
  l ← members v;
  runtimeID ← dec_field dec_string (str "runtime_id") [] l;
  chainUID ← dec_field dec_string (str "chain_uid") [] l;
  algo ← dec_field dec_string (str "algo") [] l;
  root ← dec_field dec_string (str "root") [] l;
  height ← dec_field (dec_uint 64) (str "foreign_height") 0 l;
  blockTime ← dec_field (dec_int 64) (str "foreign_block_time") 0 l;
  attestations ← dec_field (fun _ => dec_slice dec_sidecar_attestation) (str "attestations") [] l;
  Some (MkSidecarResponse runtimeID chainUID algo root height blockTime attestations).

Fixpoint sidecar_attestations (l : list sidecarAttestationJSON) : option (list OracleAttestation) :=
  match l with
  | [] => Some []
  | a :: l' =>
      value ← hex_decode (sa_Value a);
      sig ← hex_decode (sa_CustodySignature a);
      rest ← sidecar_attestations l';
      Some (MkOracleAttestation (sa_SourceID a) value (sa_Height a) (sa_Timestamp a) sig [] :: rest)
  end.
(** [None] is an error. *)
Definition fetchSidecar (resp : http_response) : option VoteExtensionHashData :=
  match resp with
  | HttpFailed | HttpStatus _ None => None
  | HttpStatus code (Some body) =>
      if negb (code =? 200) then None
      else
        v ← json_parse body;
        sr ← dec_sidecar v;
        rootBytes ← hex_decode (sr_Root sr);
        attestations ← sidecar_attestations (sr_Attestations sr);
        let root := if (blen rootBytes =? 0) && (0 <? Z.of_nat (length attestations))
                    then aggregateAttestationRoot attestations else rootBytes in
        Some (MkVoteExtensionHashData (sr_RuntimeID sr) (sr_ChainUID sr) (sr_Algo sr) root (sr_ForeignHeight sr)
                (sr_ForeignBlockTime sr) [] (map Some attestations))
  end.

(** ** The tally's types *)

Record rootVote := MkRootVote {
  rv_root : bytes; rv_height : Z; rv_blockTime : Z; rv_votingPower : Z; rv_attestations : list OracleAttestation
}.
Abbreviation tallyKey := (bytes * bytes)%type.
Abbreviation tally_map := (gmap (bytes * bytes) (gmap bytes (list rootVote))).

Section Votes.
Context {B : Type} {SdkB : Sdk B} {HB : HmSdk B} {HC : HmCodec} {VC : VoteCodec} {TD : TruncDec}.
Abbreviation M := (meth (hm_state B) hm_err).

Definition ExtendVoteHandler (SidecarURL : bytes) (resp : http_response) : bytes :=
  if bytes_eqb SidecarURL [] then []
  else match fetchSidecar resp with
       | None => []
       | Some data => Marshal data
       end.

(** One attestation against the registered sources. *)
Definition check_attestation (sources : list OracleSource) (att : OracleAttestation) : result hm_err unit :=
  match findOracleSource sources (oa_SourceId att) with
  | None => Err ErrAttestation
  | Some src =>
      match src_Authenticator src with
      | None => Err ErrAttestation
      | Some auth =>
          check! guard (negb (bytes_eqb (ca_Algorithm auth) (str "ed25519"))) ErrAttestation;
          check! guard (negb (blen (ca_Pubkey auth) =? 32)) ErrAttestation;
          let msg := custodyPayload (ca_Scope auth) (oa_SourceId att) (oa_Value att) (oa_Height att) (oa_Timestamp att) in
          guard (negb (ed25519_Verify (ca_Pubkey auth) msg (oa_CustodySignature att))) ErrAttestation
      end
  end.
Definition verifyOracleAttestations (chainUID : bytes) (attestations : list OracleAttestation) : M unit :=
  match attestations with
  | [] => mret tt
  | _ =>
      run! sources <- GetOracleSources chainUID;
      run! params <- hm_GetParams;
      mrange attestations (fun att => mlift (check_attestation sources att))
  end.
(** [true] is ACCEPT. *)
Definition VerifyVoteExtensionHandler (VoteExtension : bytes) (st : hm_state B) : bool :=
  if blen VoteExtension =? 0 then true
  else match Unmarshal VoteExtension with
       | None => false
       | Some data =>
           match GetRegisteredChain (ve_ChainUid data) st with
           | (_, Err _) => false
           | (_, Ok chain) =>
               if negb (ch_Enabled chain) then false
               else is_ok (verifyOracleAttestations (ve_ChainUid data) (voteExtensionAttestations data) st).2
           end
       end.

(** ** Tally *)

Definition vote_data (vote : ExtendedVoteInfo) : option VoteExtensionHashData :=
  if blen (evi_VoteExtension vote) =? 0 then None else Unmarshal (evi_VoteExtension vote).
Definition root_vote (vote : ExtendedVoteInfo) (data : VoteExtensionHashData) : rootVote :=
  MkRootVote (ve_Root data) (ve_ForeignHeight data) (ve_ForeignBlockTime data) (evi_Power vote)
    (voteExtensionAttestations data).
Definition tally_vote (tally : tally_map) (vote : ExtendedVoteInfo) : tally_map :=
  match vote_data vote with
  | None => tally
  | Some data =>
      let key := (ve_ChainUid data, ve_Algo data) in
      let rootHex := hex_encode (ve_Root data) in
      let roots := default ∅ (tally !! key) in
      <[key := <[rootHex := default [] (roots !! rootHex) ++ [root_vote vote data]]> roots]> tally
  end.
Definition tally_votes (votes : list ExtendedVoteInfo) : tally_map := foldl tally_vote ∅ votes.
Definition add_power (power : Z) (p : Z) : Z := i64 (power + p).
Definition total_power (votes : list ExtendedVoteInfo) : Z := foldl add_power 0 (map evi_Power votes).
(** [.Int64()] panics out of range. *)
Definition quorum_threshold (params : HmParams) (totalPower : Z) : result hm_err Z :=
  let t := Dec_TruncateInt (Dec_MulInt64 (QuorumFraction params) totalPower) in
  check! guard (negb ((- 2 ^ 63 <=? t) && (t <? 2 ^ 63))) HmPanic;
  Ok t.

(** ** Callbacks *)

(** An empty slice is nil, which is written as [null]. *)
Definition enc_slice (b : bytes) : json := match b with [] => JNull | _ => enc_bytes b end.
Definition enc_sudo_source (att : OracleAttestation) : json :=
  JObj [(str "source_id", JStr (oa_SourceId att)); (str "value", enc_slice (oa_Value att));
        (str "height", enc_uint (oa_Height att))].
Definition HashMerchantSudoMsg (root : HashRoot) (attestations : list OracleAttestation) : bytes :=
  json_print (JObj [(str "hash_merchant", JObj (
    [(str "chain_uid", JStr (hr_ChainUid root)); (str "algo", JStr (hr_Algo root));
     (str "height", enc_uint (hr_Height root)); (str "root", enc_slice (hr_Root root));
     (str "attestation_count", enc_uint (hr_AttestationCount root));
     (str "block_time", enc_int (hr_BlockTime root))] ++
    omit (bool_decide (attestations = [])) (str "oracle_sources") (JArr (map enc_sudo_source attestations))))]).
(** The callback of the iteration; a contract that fails is logged. *)
Definition dispatch_one (height : Z) (root : HashRoot) (attestations : list OracleAttestation)
    (c : RegisteredContract) : M unit :=
  fun st =>
    if negb (bytes_eqb (rc_ChainUid c) (hr_ChainUid root)) || negb (rc_Enabled c) then (st, Ok tt)
    else match GetEscrowRecord (rc_ContractAddr c) st with
         | (_, Err _) => (st, Ok tt)
         | (_, Ok escrow) =>
             if er_PaidUntilHeight escrow <? u64 height then (st, Ok tt)
             else match AccAddressFromBech32 (rc_ContractAddr c) with
                  | None => (st, Ok tt)
                  | Some contractAddr =>
                      match hm_Sudo contractAddr (HashMerchantSudoMsg root attestations) st with
                      | (st', Err HmPanic) => (st', Err HmPanic)
                      | (st', _) => (st', Ok tt)
                      end
                  end
         end.
Definition dispatchSudoCallbacks (height : Z) (root : HashRoot) (attestations : list OracleAttestation) : M unit :=
  run! contracts <- mget (fun st => IterateRegisteredContracts (hm_store st));
  mrange contracts (dispatch_one height root attestations).

(** ** Processing the votes of a commit *)

Definition root_of (key : tallyKey) (votes : list rootVote) (representative : rootVote) : HashRoot :=
  MkHashRoot key.1 key.2 (rv_height representative) (rv_root representative) (u32 (Z.of_nat (length votes)))
    (rv_blockTime representative) (map Some (rv_attestations representative)).
Definition confirm_root (height quorumThreshold : Z) (key : tallyKey) (votes : list rootVote) : M unit :=
  if foldl add_power 0 (map rv_votingPower votes) <? quorumThreshold then mret tt
  else match votes with
       | [] => mfail HmPanic
       | representative :: _ =>
           let root := root_of key votes representative in
           exec! SetHashRoot root;
           dispatchSudoCallbacks height root (rv_attestations representative)
       end.
(** [order] is the order in which the two maps are walked. *)
Definition ProcessVoteExtensions (height : Z) (order : list (tallyKey * list (bytes * list rootVote)))
    (extCommitInfo : ExtendedCommitInfo) : M unit :=
  run! params <- hm_GetParams;
  run! quorumThreshold <- mlift (quorum_threshold params (total_power (eci_Votes extCommitInfo)));
  mrange order (fun kr => mrange kr.2 (fun hv => confirm_root height quorumThreshold kr.1 hv.2)).
(** The orders in which Go may walk the tally. *)
Definition tally_order (tally : tally_map) (order : list (tallyKey * list (bytes * list rootVote))) : Prop :=
  exists l, l ≡ₚ map_to_list tally /\
    Forall2 (fun kr ko => ko.1 = kr.1 /\ ko.2 ≡ₚ map_to_list kr.2) l order.

(** ** Proposals *)

Definition InjectedVoteExtensionPrefix : bytes := [Byte.x48; Byte.x4d; Byte.x56; Byte.x45].
Definition PrepareProposalHandler (LocalLastCommit : ExtendedCommitInfo) (Txs : list bytes) : list bytes :=
  if existsb (fun v => 0 <? blen (evi_VoteExtension v)) (eci_Votes LocalLastCommit)
  then (InjectedVoteExtensionPrefix ++ Marshal LocalLastCommit) :: Txs
  else Txs.
Definition ProcessProposalHandler (Txs : list bytes) : bool :=
  match Txs with
  | [] => true
  | tx :: _ =>
      if has_prefix InjectedVoteExtensionPrefix tx then
        match Unmarshal (A := ExtendedCommitInfo) (drop 4 tx) with Some _ => true | None => false end
      else true
  end.
(** The result is [true] when the votes were found and processed; a panic goes
    through. [order] is the order for the commit that is found. *)
Definition ProcessInjectedVoteExtension (height : Z)
    (order : ExtendedCommitInfo -> list (tallyKey * list (bytes * list rootVote))) (txs : list bytes) : M bool :=
  fun st =>
    match txs with
    | [] => (st, Ok false)
    | tx :: _ =>
        if negb (has_prefix InjectedVoteExtensionPrefix tx) then (st, Ok false)
        else match Unmarshal (drop 4 tx) with
             | None => (st, Ok false)
             | Some commitInfo =>
                 match ProcessVoteExtensions height (order commitInfo) commitInfo st with
                 | (st', Ok _) => (st', Ok true)
                 | (st', Err HmPanic) => (st', Err HmPanic)
                 | (st', Err _) => (st', Ok false)
                 end
             end
    end.
End Votes.

(** ** The tally *)

Section Tally.
Context {VC : VoteCodec}.

(** The votes with the data they carry, in commit order. *)
Definition decoded (votes : list ExtendedVoteInfo) : list (ExtendedVoteInfo * VoteExtensionHashData) :=
  omap (fun v => pair v <$> vote_data v) votes.
Definition names_root (key : tallyKey) (hex : bytes) (vd : ExtendedVoteInfo * VoteExtensionHashData) : Prop :=
  (ve_ChainUid vd.2, ve_Algo vd.2) = key /\ hex_encode (ve_Root vd.2) = hex.
#[global] Instance names_root_dec key hex vd : Decision (names_root key hex vd).
Proof. unfold names_root. apply _. Defined.
Definition matching (votes : list ExtendedVoteInfo) (key : tallyKey) (hex : bytes) : list rootVote :=
  map (fun vd => root_vote vd.1 vd.2) (filter (names_root key hex) (decoded votes)).

Definition look (T : tally_map) (key : tallyKey) (hex : bytes) : option (list rootVote) := roots ← T !! key; roots !! hex.

Lemma look_vote T v key hex : look (tally_vote T v) key hex =
  match vote_data v with
  | Some d => if decide (names_root key hex (v, d)) then Some (default [] (look T key hex) ++ [root_vote v d])
              else look T key hex
  | None => look T key hex
  end.
Proof.
  unfold tally_vote. destruct (vote_data v) as [d|]; [|done]. unfold look, names_root. cbn [fst snd].
  destruct (decide ((ve_ChainUid d, ve_Algo d) = key)) as [<-|Hk].
  - rewrite lookup_insert_eq. cbn [base.mbind option_bind].
    destruct (decide (hex_encode (ve_Root d) = hex)) as [<-|Hh].
    + rewrite lookup_insert_eq, decide_True by done.
      destruct (T !! _) as [roots|]; cbn [default base.mbind option_bind]; [done|]. by rewrite lookup_empty.
    + rewrite lookup_insert_ne, decide_False by naive_solver.
      destruct (T !! _) as [roots|]; cbn [default base.mbind option_bind]; [done|]. by rewrite lookup_empty.
  - rewrite lookup_insert_ne by done. by rewrite decide_False by naive_solver.
Qed.
Lemma tally_matching votes key hex :
  look (tally_votes votes) key hex =
  if decide (matching votes key hex = []) then None else Some (matching votes key hex).
Proof.
  induction votes as [|v votes IH] using rev_ind; [done|].
  unfold tally_votes. rewrite foldl_app. cbn [foldl]. rewrite look_vote. fold (tally_votes votes).
  unfold matching, decoded in *. rewrite omap_app, filter_app, map_app. cbn [omap list_omap].
  destruct (vote_data v) as [d|]; cbn [fmap option_fmap option_map]; [|by rewrite app_nil_r].
  rewrite filter_cons, filter_nil. destruct (decide (names_root key hex (v, d))) as [Hn|Hn]; [|by rewrite app_nil_r].
  rewrite IH. cbn [map fst snd]. rewrite (decide_False (P := _ ++ _ = [])) by (by intros [_ ?]%app_eq_nil).
  case_decide as Hm; cbn [default from_option]; [by rewrite Hm|done].
Qed.

(** The items of a walk, with the key they belong to. *)
Definition walk (order : list (tallyKey * list (bytes * list rootVote))) : list (tallyKey * (bytes * list rootVote)) :=
  flat_map (fun kr => map (pair kr.1) kr.2) order.
Lemma mrange_walk {S E : Type} (body : tallyKey -> bytes * list rootVote -> meth S E unit) order s :
  mrange order (fun kr => mrange kr.2 (body kr.1)) s = mrange (walk order) (fun it => body it.1 it.2) s.
Proof.
  revert s. induction order as [|[k l] order IH]; intros s; [done|]. cbn [walk flat_map fst snd].
  rewrite mrange_cons, mrange_app. cbn [fst snd].
  assert (H : mrange (map (pair k) l) (fun it => body it.1 it.2) s = mrange l (body k) s).
  { clear. revert s. induction l as [|x l IH]; intros s; [done|]. cbn [map]. rewrite !mrange_cons. cbn [fst snd].
    destruct (body k x s) as [s' [u|e]]; [apply IH|done]. }
  rewrite H. destruct (mrange l (body k) s) as [s' [u|e]]; [apply IH|done].
Qed.
Lemma elem_of_walk T order key hex l : tally_order T order ->
  (key, (hex, l)) ∈ walk order <-> look T key hex = Some l.
Proof.
  intros (L & HL & HF). unfold walk, look. rewrite list_elem_of_In, in_flat_map. split.
  - intros ([k rs] & Hi & Hm). cbn [fst snd] in Hm. apply in_map_iff in Hm as ([h l'] & [= -> -> ->] & Hr).
    apply list_elem_of_In, list_elem_of_lookup in Hi as [i Hi].
    destruct (Forall2_lookup_r _ _ _ _ _ HF Hi) as ([k' m] & Hk & Hk1 & Hp). cbn in Hk1, Hp. subst k'.
    assert (Hkm : (key, m) ∈ map_to_list T) by (rewrite <- HL; by eapply list_elem_of_lookup_2).
    apply elem_of_map_to_list in Hkm. rewrite Hkm. cbn [base.mbind option_bind].
    apply elem_of_map_to_list. rewrite <- Hp. by apply list_elem_of_In.
  - intros H. destruct (T !! key) as [m|] eqn:E; [|done]. cbn [base.mbind option_bind] in H.
    assert (Hkm : (key, m) ∈ L) by (rewrite HL; by apply elem_of_map_to_list).
    apply list_elem_of_lookup in Hkm as [i Hi].
    destruct (Forall2_lookup_l _ _ _ _ _ HF Hi) as ([k' rs] & Hk & Hk1 & Hp). cbn in Hk1, Hp. subst k'.
    exists (key, rs). split; [by eapply list_elem_of_In, list_elem_of_lookup_2|].
    cbn [fst snd]. apply in_map. apply list_elem_of_In. rewrite Hp. by apply elem_of_map_to_list.
Qed.
Lemma elem_of_tally votes order key hex l : tally_order (tally_votes votes) order ->
  (key, (hex, l)) ∈ walk order <-> l = matching votes key hex /\ l <> [].
Proof.
  intros Ho. rewrite (elem_of_walk _ _ _ _ _ Ho), tally_matching. case_decide as Hm.
  - split; [done|]. intros [-> ?]. done.
  - split; [by intros [= <-]|]. by intros [-> _].
Qed.
End Tally.

(** ** Voting power *)

Definition sum_power (ps : list Z) : Z := foldr Z.add 0 ps.
Lemma sum_power_app a b : sum_power (a ++ b) = sum_power a + sum_power b.
Proof. unfold sum_power. induction a as [|x a IH]; cbn; lia. Qed.
Lemma sum_power_nonneg ps : Forall (fun p => 0 <= p) ps -> 0 <= sum_power ps.
Proof. induction 1; cbn; [done|]. unfold sum_power in *. lia. Qed.
Lemma add_power_sum ps acc :
  Forall (fun p => 0 <= p) ps -> 0 <= acc -> acc + sum_power ps < 2 ^ 63 -> foldl add_power acc ps = acc + sum_power ps.
Proof.
  intros Hp. revert acc. induction Hp as [|p ps Hp Hps IH]; intros acc Ha Hs; cbn [foldl sum_power foldr] in *; [lia|].
  pose proof (sum_power_nonneg ps Hps). unfold sum_power in *.
  assert (E : add_power acc p = acc + p) by (unfold add_power; apply i64_id; unfold is_i64; lia).
  rewrite E, IH by lia. lia.
Qed.

(** ** Confirming roots *)

(** Contracts do not write the module's store or take from its account, and a
    contract that fails returns an error: the pre-blocker runs without a gas
    limit. *)
Class HmSudoLaws (B : Type) `{BankLaws B} `{HmSdk B} := {
  sudo_store : forall c m (st : hm_state B), hm_store (hm_Sudo c m st).1 = hm_store st;
  sudo_no_panic : forall c m (st : hm_state B), (hm_Sudo c m st).2 <> Err HmPanic;
  sudo_balance : forall c m (st : hm_state B) d,
    balance (hm_rest st) (Module HmModuleName) d <= balance (hm_rest (hm_Sudo c m st).1) (Module HmModuleName) d
}.

Section Confirm.
Context {B : Type} {SdkB : Sdk B} {BL : BankLaws B} {HB : HmSdk B} {SL : HmSudoLaws B}
  {HC : HmCodec} {HL : HmCodecLaws} {VC : VoteCodec} {VL : VoteCodecLaws} {TD : TruncDec} {TL : TruncDecLaws}.

(** The module's own state after [st]: same store, no less in its account. *)
Definition calm (st st' : hm_state B) : Prop :=
  hm_store st' = hm_store st /\
  forall d, balance (hm_rest st) (Module HmModuleName) d <= balance (hm_rest st') (Module HmModuleName) d.
Lemma calm_refl st : calm st st.
Proof. split; [done|]. intros d. lia. Qed.
Lemma calm_trans a b c : calm a b -> calm b c -> calm a c.
Proof. intros [H1 H2] [H3 H4]. split; [congruence|]. intros d. specialize (H2 d). specialize (H4 d). lia. Qed.

Lemma dispatch_one_calm h root atts c (st : hm_state B) :
  exists st', dispatch_one h root atts c st = (st', Ok tt) /\ calm st st'.
Proof.
  unfold dispatch_one. assert (Hr := calm_refl st). destruct (_ || _); [by eauto|].
  destruct (GetEscrowRecord _ st) as [s1 [esc|e]]; [|by eauto]. destruct (_ <? _); [by eauto|].
  destruct (AccAddressFromBech32 _) as [ca|]; [|by eauto].
  pose proof (sudo_store ca (HashMerchantSudoMsg root atts) st) as H1.
  pose proof (sudo_no_panic ca (HashMerchantSudoMsg root atts) st) as H2.
  pose proof (sudo_balance ca (HashMerchantSudoMsg root atts) st) as H3.
  destruct (hm_Sudo _ _ st) as [st' [u|e]]; cbn [fst snd] in *; exists st'; [done|].
  destruct e; done.
Qed.
Lemma dispatch_calm h root atts (st : hm_state B) :
  exists st', dispatchSudoCallbacks h root atts st = (st', Ok tt) /\ calm st st'.
Proof.
  unfold dispatchSudoCallbacks, mbind, mget. generalize (IterateRegisteredContracts (hm_store st)). intros l.
  assert (H : forall s, calm st s -> exists st', mrange l (dispatch_one h root atts) s = (st', Ok tt) /\ calm st st').
  { induction l as [|c l IH]; intros s Hs; [by exists s|]. rewrite mrange_cons.
    destruct (dispatch_one_calm h root atts c s) as (s1 & -> & H1). apply IH. by eapply calm_trans. }
  apply H, calm_refl.
Qed.

(** The votes reach the threshold. *)
Definition wins (t : Z) (votes : list rootVote) : bool := t <=? foldl add_power 0 (map rv_votingPower votes).
Definition root_from (key : tallyKey) (votes : list rootVote) : HashRoot :=
  root_of key votes (default (MkRootVote [] 0 0 0 []) (head votes)).
Definition root_key (key : tallyKey) : bytes := KeyHashRoot key.1 key.2.

Lemma confirm_root_ok h t key votes (st : hm_state B) :
  votes <> [] ->
  exists st', confirm_root h t key votes st = (st', Ok tt) /\
    calm (MkHm (if wins t votes then store_Set (root_key key) (Marshal (root_from key votes)) (hm_store st)
                else hm_store st) (hm_rest st)) st'.
Proof.
  intros Hne. unfold confirm_root, wins. rewrite Z.leb_antisym. destruct (_ <? t); cbn [negb].
  - exists st. split; [done|]. split; [done|]. cbn. intros d. lia.
  - destruct votes as [|rep votes]; [done|]. unfold mbind, SetHashRoot, upd_hm, mput. 
    destruct (dispatch_calm h (root_of key (rep :: votes) rep) (rv_attestations rep)
      (MkHm (store_Set (root_key key) (Marshal (root_from key (rep :: votes))) (hm_store st)) (hm_rest st)))
      as (st' & H & Hc). exists st'. split; [exact H|exact Hc].
Qed.

(** Walking the items: each root key ends with a root some winning item wrote,
    or with what it had; nothing else in the store changes. *)
Lemma confirm_walk h t (items : list (tallyKey * (bytes * list rootVote))) (st : hm_state B) :
  Forall (fun it => it.2.2 <> []) items ->
  exists st', mrange items (fun it => confirm_root h t it.1 it.2.2) st = (st', Ok tt) /\
    (forall d, balance (hm_rest st) (Module HmModuleName) d <= balance (hm_rest st') (Module HmModuleName) d) /\
    forall K, (exists it, it ∈ items /\ wins t it.2.2 = true /\ root_key it.1 = K /\
                 hm_store st' !! K = Some (Marshal (root_from it.1 it.2.2))) \/
              ((forall it, it ∈ items -> wins t it.2.2 = true -> root_key it.1 <> K) /\
               hm_store st' !! K = hm_store st !! K).
Proof.
  intros Hf. revert st. induction Hf as [|[key [hex votes]] items Hv Hf IH]; intros st; cbn [fst snd] in *.
  - exists st. split; [done|]. split; [done|]. intros K. right. split; [by intros it ?%elem_of_nil|done].
  - rewrite mrange_cons. cbn [fst snd]. destruct (confirm_root_ok h t key votes st Hv) as (s1 & -> & Hs & Hb).
    destruct (IH s1) as (st' & -> & Hb' & HK). exists st'. split; [done|]. split.
    { intros d. specialize (Hb d). specialize (Hb' d). cbn [hm_rest] in Hb. lia. }
    cbn [hm_store] in Hs. intros K. destruct (HK K) as [(it & Hi & Hw & Hk & HS)|[Hno HS]].
    + left. exists it. split; [by right|done].
    + destruct (wins t votes) eqn:Ew; [destruct (decide (root_key key = K)) as [<-|Hne]|].
      * left. exists (key, (hex, votes)). cbn [fst snd]. split; [left|]. split; [done|]. split; [done|].
        rewrite HS, Hs. unfold store_Set. by rewrite lookup_insert_eq.
      * right. split; [intros it [->|Hi]%elem_of_cons Hw; [done|by apply Hno]|].
        rewrite HS, Hs. unfold store_Set. by rewrite lookup_insert_ne.
      * right. split; [intros it [->|Hi]%elem_of_cons Hw; [cbn in Hw; congruence|by apply Hno]|].
        by rewrite HS, Hs.
Qed.

(** ** Quorums *)

Definition votes_ok (votes : list ExtendedVoteInfo) : Prop :=
  Forall (fun p => 0 <= p) (map evi_Power votes) /\ sum_power (map evi_Power votes) < 2 ^ 63.
(** The votes for a root of a chain, and their power. *)
Definition votes_for (votes : list ExtendedVoteInfo) (uid algo root : bytes) :
    list (ExtendedVoteInfo * VoteExtensionHashData) :=
  filter (fun vd => ve_ChainUid vd.2 = uid /\ ve_Algo vd.2 = algo /\ ve_Root vd.2 = root) (decoded votes).
Definition vote_power (l : list (ExtendedVoteInfo * VoteExtensionHashData)) : Z :=
  sum_power (map (fun vd => evi_Power vd.1) l).
(** The root a quorum agrees on, as the first of its votes describes it. *)
Definition confirmed (votes : list ExtendedVoteInfo) (t : Z) (uid algo : bytes) : option HashRoot :=
  vd ← List.find (fun vd => bool_decide (ve_ChainUid vd.2 = uid /\ ve_Algo vd.2 = algo) &&
                            (t <=? vote_power (votes_for votes uid algo (ve_Root vd.2)))) (decoded votes);
  Some (MkHashRoot uid algo (ve_ForeignHeight vd.2) (ve_Root vd.2)
          (u32 (Z.of_nat (length (votes_for votes uid algo (ve_Root vd.2))))) (ve_ForeignBlockTime vd.2)
          (map Some (voteExtensionAttestations vd.2))).

Lemma hex_encode_inj a b : hex_encode a = hex_encode b -> a = b.
Proof. intros H. apply (f_equal hex_decode) in H. rewrite !hex_decode_encode in H. by injection H. Qed.
Lemma matching_votes_for votes uid algo root :
  matching votes (uid, algo) (hex_encode root) = map (fun vd => root_vote vd.1 vd.2) (votes_for votes uid algo root).
Proof.
  unfold matching, votes_for. f_equal. apply list_filter_iff. intros [v d]. unfold names_root. cbn [fst snd]. split.
  - intros [[= -> ->] ->%hex_encode_inj]. done.
  - intros (-> & -> & ->). done.
Qed.
Lemma elem_of_decoded votes v d : (v, d) ∈ decoded votes <-> v ∈ votes /\ vote_data v = Some d.
Proof.
  unfold decoded. rewrite list_elem_of_omap. split.
  - intros (v' & Hv & E). destruct (vote_data v') as [d'|] eqn:Ed; [|done]. by injection E as -> ->.
  - intros [Hv Hd]. exists v. by rewrite Hd.
Qed.
Lemma decoded_power votes : Forall (fun p => 0 <= p) (map evi_Power votes) ->
  Forall (fun p => 0 <= p) (map (fun vd => evi_Power vd.1) (decoded votes)) /\
  vote_power (decoded votes) <= sum_power (map evi_Power votes).
Proof.
  unfold vote_power, decoded. induction votes as [|v votes IH]; cbn [map omap list_omap]; [done|].
  intros [Hv Hvs]%Forall_cons. destruct (IH Hvs) as [IH1 IH2]. cbn [sum_power foldr].
  destruct (vote_data v); cbn [fmap option_fmap option_map map fst]; unfold sum_power in *.
  - split; [by constructor|]. cbn [foldr]. lia.
  - split; [done|]. lia.
Qed.
Lemma filters_power {A} (f : A -> Z) (P Q : A -> Prop) `{forall x, Decision (P x)} `{forall x, Decision (Q x)} l :
  Forall (fun p => 0 <= p) (map f l) -> (forall x, P x -> Q x -> False) ->
  0 <= sum_power (map f (filter Q l)) /\
  sum_power (map f (filter P l)) + sum_power (map f (filter Q l)) <= sum_power (map f l).
Proof.
  intros Hf Hd. induction l as [|x l IH]; cbn [map] in *; [done|]. apply Forall_cons in Hf as [Hx Hf].
  specialize (IH Hf). rewrite !filter_cons. unfold sum_power in *.
  destruct (decide (P x)), (decide (Q x)); cbn [map foldr]; try lia. exfalso. eauto.
Qed.
Lemma quorum_unique votes t uid algo r1 r2 :
  votes_ok votes -> sum_power (map evi_Power votes) < 2 * t ->
  t <= vote_power (votes_for votes uid algo r1) -> t <= vote_power (votes_for votes uid algo r2) -> r1 = r2.
Proof.
  intros [Hp Hs] Ht H1 H2. destruct (decide (r1 = r2)) as [|Hne]; [done|]. exfalso.
  destruct (decoded_power votes Hp) as [Hd Hle].
  destruct (filters_power (fun vd : ExtendedVoteInfo * VoteExtensionHashData => evi_Power vd.1)
    (fun vd => ve_ChainUid vd.2 = uid /\ ve_Algo vd.2 = algo /\ ve_Root vd.2 = r1)
    (fun vd => ve_ChainUid vd.2 = uid /\ ve_Algo vd.2 = algo /\ ve_Root vd.2 = r2) (decoded votes) Hd) as [_ Hb].
  { intros vd (_ & _ & E1) (_ & _ & E2). congruence. }
  unfold vote_power, votes_for in *. lia.
Qed.
Lemma matching_power votes uid algo root :
  votes_ok votes ->
  foldl add_power 0 (map rv_votingPower (matching votes (uid, algo) (hex_encode root))) =
  vote_power (votes_for votes uid algo root).
Proof.
  intros [Hp Hs]. rewrite matching_votes_for, map_map. cbn [root_vote rv_votingPower].
  destruct (decoded_power votes Hp) as [Hd Hle].
  destruct (filters_power (fun vd : ExtendedVoteInfo * VoteExtensionHashData => evi_Power vd.1)
    (fun _ => False) (fun vd => ve_ChainUid vd.2 = uid /\ ve_Algo vd.2 = algo /\ ve_Root vd.2 = root)
    (decoded votes) Hd) as [Hn Hb]; [done|].
  rewrite add_power_sum; [done| |done|].
  - clear -Hd. unfold votes_for. induction (decoded votes) as [|x l IH]; [done|]. cbn [map] in Hd.
    apply Forall_cons in Hd as [Hx Hd]. rewrite filter_cons. case_decide; cbn [map]; [constructor; auto|auto].
  - assert (Hz : sum_power (map (fun vd : ExtendedVoteInfo * VoteExtensionHashData => evi_Power vd.1)
      (filter (fun _ => False) (decoded votes))) = 0).
    { clear. induction (decoded votes) as [|x l IH]; [done|]. by rewrite filter_cons_False by tauto. }
    unfold vote_power in Hle. unfold votes_for. lia.
Qed.
Lemma find_head {A} (p : A -> bool) (Q : A -> Prop) `{forall x, Decision (Q x)} l x :
  List.find p l = Some x -> Q x -> (forall y, Q y -> p y = true) -> head (filter Q l) = Some x.
Proof.
  intros Hf Hx Hq. induction l as [|y l IH]; [done|]. cbn in Hf. rewrite filter_cons.
  destruct (p y) eqn:Ey; [injection Hf as ->; by rewrite decide_True|].
  rewrite decide_False; [by apply IH|]. intros Hy%Hq. congruence.
Qed.

(** ** What is written decodes *)

Lemma dec_field_inv {A} (dec : A -> json -> option A) (P : A -> Prop) f cur l x :
  P cur -> (forall c v y, P c -> dec c v = Some y -> P y) -> dec_field dec f cur l = Some x -> P x.
Proof.
  intros Hc Hd. revert cur Hc. induction l as [|[k v] l IH]; intros cur Hc H; cbn in H; [by injection H as <-|].
  destruct (names f k); [|by apply (IH cur)]. destruct (dec cur v) as [y|] eqn:E; [|done]. eauto.
Qed.
Lemma digits_val_nonneg d : forallb is_digit d = true -> 0 <= digits_val d.
Proof.
  unfold digits_val. assert (H : forall acc, 0 <= acc -> forallb is_digit d = true ->
    0 <= fold_left (fun a c => a * 10 + (byte_val c - 48)) d acc).
  { induction d as [|c d IH]; intros acc Ha Hd; [done|]. cbn in *. apply andb_prop in Hd as [Hc Hd].
    apply IH; [|done]. unfold is_digit in Hc. zbool. lia. }
  by apply H.
Qed.
Lemma dec_uint_range c v y : is_u64 c -> dec_uint 64 c v = Some y -> is_u64 y.
Proof.
  intros Hc. destruct v; cbn; try done; [by intros [= <-]|]. unfold parse_uint.
  destruct (_ && _) eqn:E; [|done]. intros [= <-]. apply andb_prop in E as [[Hd _]%andb_prop Hl].
  zbool. split; [by apply digits_val_nonneg|lia].
Qed.
Lemma dec_int_range c v y : is_i64 c -> dec_int 64 c v = Some y -> is_i64 y.
Proof.
  intros Hc. destruct v; cbn; try done; [by intros [= <-]|]. unfold parse_int, is_i64 in *.
  destruct (strip _ _) as [d|].
  - destruct (_ && _) eqn:E; [|done]. intros [= <-]. apply andb_prop in E as [[Hd _]%andb_prop Hl].
    apply digits_val_nonneg in Hd. zbool. lia.
  - destruct (_ && _) eqn:E; [|done]. intros [= <-]. apply andb_prop in E as [[Hd _]%andb_prop Hl].
    apply digits_val_nonneg in Hd. zbool. lia.
Qed.
Ltac bind_step x E := match goal with |- (?m ≫= _) = Some _ -> _ => destruct m as [x|] eqn:E; [|done] end;
  cbn [base.mbind option_bind].
Lemma dec_attestation_wire v a : dec_attestation v = Some a -> wire_attestation a.
Proof.
  unfold dec_attestation. bind_step l E0. bind_step sid E1. bind_step vl E2. bind_step h Eh. bind_step ts Et.
  bind_step sg E3. bind_step pf E4. intros [= <-]. split; cbn [oa_Height oa_Timestamp].
  - eapply (dec_field_inv _ is_u64); [|apply dec_uint_range|exact Eh]. unfold is_u64; lia.
  - eapply (dec_field_inv _ is_i64); [|apply dec_int_range|exact Et]. unfold is_i64; lia.
Qed.
Lemma dec_all_wire l atts : dec_all dec_attestation l = Some atts -> Forall wire_attestation atts.
Proof.
  revert atts. induction l as [|v l IH]; intros atts H; cbn in H; [injection H as <-; constructor|].
  destruct (dec_attestation v) as [a|] eqn:Ea; [|done]. destruct (dec_all dec_attestation l) as [t|]; [|done].
  injection H as <-. constructor; [by apply dec_attestation_wire in Ea|by apply IH].
Qed.
Lemma unpack_wire bz l : unpackOracleBundle bz = Ok l -> Forall wire_attestation l.
Proof.
  unfold unpackOracleBundle. destruct (_ <? _); [intros [= <-]; constructor|].
  destruct (negb _); [intros [= <-]; constructor|].
  destruct (json_parse _) as [v|]; [|done]. cbn [base.mbind option_bind].
  destruct (members v) as [ms|]; [|done]. cbn [base.mbind option_bind].
  destruct (dec_field _ _ _ ms) as [l'|] eqn:E; [|done]. intros [= <-].
  eapply (dec_field_inv _ (Forall wire_attestation)); [| |exact E]; [constructor|].
  intros c w y _ Hy. destruct w; try done; cbn in Hy.
  - injection Hy as <-. constructor.
  - by apply dec_all_wire in Hy.
Qed.
Lemma vote_attestations_wire d : wire_ok d -> Forall wire_attestation (voteExtensionAttestations d).
Proof.
  intros (_ & _ & Ha). unfold voteExtensionAttestations. destruct (ve_Attestations d) as [|o l] eqn:E.
  - destruct (unpackOracleBundle _) as [l|] eqn:Eu; [by apply unpack_wire in Eu|constructor].
  - unfold wire_attestations in Ha. clear E. revert Ha. generalize (o :: l). intros ol Ha.
    induction Ha as [|x t Hx Ht IH]; [constructor|]. destruct x as [a|]; [|done]. cbn. by constructor.
Qed.

Lemma vote_data_wire v d : vote_data v = Some d -> wire_ok d.
Proof. unfold vote_data. destruct (_ =? _); [done|]. apply proto_reads. Qed.

Lemma root_from_votes votes uid algo root vd :
  head (votes_for votes uid algo root) = Some vd -> ve_Root vd.2 = root ->
  root_from (uid, algo) (matching votes (uid, algo) (hex_encode root)) =
  MkHashRoot uid algo (ve_ForeignHeight vd.2) root (u32 (Z.of_nat (length (votes_for votes uid algo root))))
    (ve_ForeignBlockTime vd.2) (map Some (voteExtensionAttestations vd.2)).
Proof.
  intros Hh Hr. rewrite matching_votes_for. unfold root_from, root_of.
  destruct (votes_for votes uid algo root) as [|x l]; [done|]. cbn in Hh. injection Hh as ->.
  cbn [map head default from_option rv_height rv_root rv_blockTime rv_attestations root_vote fst snd].
  cbn [length]. rewrite length_map. by subst root.
Qed.
Lemma root_wire uid algo root vd l :
  vote_data vd.1 = Some vd.2 -> wire_ok (MkHashRoot uid algo (ve_ForeignHeight vd.2) root (u32 l)
    (ve_ForeignBlockTime vd.2) (map Some (voteExtensionAttestations vd.2))).
Proof.
  intros Hd%vote_data_wire. pose proof (vote_attestations_wire _ Hd) as Ha. destruct Hd as (Hh & Ht & _).
  split_and!; cbn; [done|apply u32_range|done|]. unfold wire_attestations.
  induction Ha; cbn [map]; by constructor.
Qed.
Lemma matching_nonempty votes key hex : matching votes key hex <> [] ->
  exists v d, (v, d) ∈ decoded votes /\ (ve_ChainUid d, ve_Algo d) = key /\ hex_encode (ve_Root d) = hex.
Proof.
  unfold matching. destruct (filter _ (decoded votes)) as [|[v d] l] eqn:E; [done|]. intros _. exists v, d.
  assert (Hi : (v, d) ∈ filter (names_root key hex) (decoded votes)) by (rewrite E; left).
  apply list_elem_of_filter in Hi as [[H1 H2] H3]. done.
Qed.

(** A quorum's root is the one its first vote describes. *)
Lemma confirmed_quorum votes t uid algo root :
  votes_ok votes -> sum_power (map evi_Power votes) < 2 * t ->
  t <= vote_power (votes_for votes uid algo root) -> votes_for votes uid algo root <> [] ->
  exists vd, vd ∈ decoded votes /\ head (votes_for votes uid algo root) = Some vd /\ ve_Root vd.2 = root /\
    confirmed votes t uid algo =
      Some (root_from (uid, algo) (matching votes (uid, algo) (hex_encode root))).
Proof.
  intros Hok Ht Hq Hne. unfold confirmed.
  set (p := fun vd : ExtendedVoteInfo * VoteExtensionHashData =>
    bool_decide (ve_ChainUid vd.2 = uid /\ ve_Algo vd.2 = algo) &&
    (t <=? vote_power (votes_for votes uid algo (ve_Root vd.2)))).
  assert (Hp : forall y, ve_ChainUid y.2 = uid /\ ve_Algo y.2 = algo /\ ve_Root y.2 = root -> p y = true).
  { intros y (H1 & H2 & H3). unfold p. rewrite bool_decide_true by done. rewrite H3. by apply Z.leb_le. }
  destruct (List.find p (decoded votes)) as [vd|] eqn:Ef.
  - pose proof (find_some _ _ Ef) as [Hin Hpv]. unfold p in Hpv. apply andb_prop in Hpv as [Hk Hpow].
    apply bool_decide_eq_true in Hk as [Hu Ha]. apply Z.leb_le in Hpow.
    assert (Hr : ve_Root vd.2 = root) by (by apply (quorum_unique votes t uid algo)).
    assert (Hh : head (votes_for votes uid algo root) = Some vd) by (by eapply find_head).
    exists vd. split; [by apply list_elem_of_In|]. split; [done|]. split; [done|]. cbn [base.mbind option_bind].
    rewrite (root_from_votes votes uid algo root vd) by done. by rewrite Hr.
  - exfalso. destruct (votes_for votes uid algo root) as [|vd l] eqn:Ev; [done|].
    assert (Hi : vd ∈ votes_for votes uid algo root) by (rewrite Ev; left). unfold votes_for in Hi.
    apply list_elem_of_filter in Hi as [Hvd Hi]. apply list_elem_of_In in Hi.
    pose proof (find_none _ _ Ef vd Hi) as Hn. by rewrite (Hp vd Hvd) in Hn.
Qed.
Lemma confirmed_none votes t uid algo :
  (forall root, votes_for votes uid algo root <> [] -> vote_power (votes_for votes uid algo root) < t) ->
  confirmed votes t uid algo = None.
Proof.
  intros Hno. unfold confirmed. destruct (List.find _ _) as [vd|] eqn:Ef; [|done]. exfalso.
  apply find_some in Ef as [Hin Hpv]. apply andb_prop in Hpv as [Hk Hpow].
  apply bool_decide_eq_true in Hk as [Hu Ha]. apply Z.leb_le in Hpow.
  assert (Hi : vd ∈ votes_for votes uid algo (ve_Root vd.2)).
  { unfold votes_for. apply list_elem_of_filter. split; [done|]. by apply list_elem_of_In. }
  specialize (Hno (ve_Root vd.2)). destruct (votes_for _ _ _ _); [by apply elem_of_nil in Hi|].
  specialize (Hno ltac:(done)). lia.
Qed.

Definition threshold (p : HmParams) (votes : list ExtendedVoteInfo) : Z :=
  Z.quot (QuorumFraction p * sum_power (map evi_Power votes)) dec_one.
Lemma quorum_threshold_ok p votes : votes_ok votes -> HmParams_Validate p = Ok tt ->
  quorum_threshold p (total_power votes) = Ok (threshold p votes).
Proof.
  intros [Hp Hs] Hv. unfold HmParams_Validate in Hv. apply rbind_ok in Hv as (u & Hg & _). apply guard_false in Hg.
  apply orb_false_iff in Hg as [H0 H1]. zbool. pose proof (sum_power_nonneg _ Hp) as Hn.
  unfold quorum_threshold, total_power, threshold. rewrite add_power_sum by (done || lia). rewrite Z.add_0_l.
  rewrite mulint64_law, truncate_law. set (S := sum_power _) in *. set (t := Z.quot _ _).
  assert (Ht : 0 <= t <= S).
  { unfold t. rewrite Z.quot_div_nonneg by (unfold dec_one in *; lia). split.
    - apply Z.div_pos; unfold dec_one in *; lia.
    - apply Z.div_le_upper_bound; unfold dec_one in *; nia. }
  assert (Hb : (- 2 ^ 63 <=? t) && (t <? 2 ^ 63) = true) by (apply andb_true_intro; split; [apply Z.leb_le|apply Z.ltb_lt]; lia).
  by rewrite Hb.
Qed.

(** Every walk of the tally succeeds; the store stays typed and nothing but
    hash roots changes. *)
Definition written (votes : list ExtendedVoteInfo) (t : Z) (m m' : store) : Prop :=
  forall K, (exists key hex, let l := matching votes key hex in
               l <> [] /\ wins t l = true /\ root_key key = K /\ m' !! K = Some (Marshal (root_from key l))) \/
            ((forall key hex, let l := matching votes key hex in l <> [] -> wins t l = true -> root_key key <> K) /\
             m' !! K = m !! K).
Lemma process_written height order commit t (st : hm_state B) :
  let votes := eci_Votes commit in
  hm_typed (hm_store st) -> quorum_threshold (params_of (hm_store st)) (total_power votes) = Ok t ->
  tally_order (tally_votes votes) order ->
  exists st', ProcessVoteExtensions height order commit st = (st', Ok tt) /\
    (forall d, balance (hm_rest st) (Module HmModuleName) d <= balance (hm_rest st') (Module HmModuleName) d) /\
    written votes t (hm_store st) (hm_store st').
Proof.
  intros votes Hm Ht Ho. unfold ProcessVoteExtensions, mbind at 1.
  destruct (typed_params st Hm) as [-> _]. unfold mbind, mlift. fold votes. rewrite Ht.
  rewrite (mrange_walk (fun key hv => confirm_root height t key hv.2)).
  destruct (confirm_walk height t (walk order) st) as (st' & -> & Hb & HK).
  { apply Forall_forall. intros [key [hex l]] Hi. by apply (elem_of_tally votes order key hex l Ho) in Hi as [_ Hl]. }
  exists st'. split; [done|]. split; [done|]. intros K. destruct (HK K) as [([key [hex l]] & Hi & Hw & Hk & HS)|[Hno HS]].
  - left. apply (elem_of_tally votes order key hex l Ho) in Hi as [-> Hl]. cbn [fst snd] in *.
    exists key, hex. by split_and!.
  - right. split; [|done]. cbv zeta. intros key hex Hl Hw.
    assert (Hin : (key, (hex, matching votes key hex)) ∈ walk order) by (by apply (elem_of_tally votes order key hex _ Ho)).
    exact (Hno _ Hin Hw).
Qed.
Lemma root_from_wire votes key hex : matching votes key hex <> [] -> wire_ok (root_from key (matching votes key hex)).
Proof.
  intros Hl. destruct (matching_nonempty _ _ _ Hl) as (v0 & d0 & Hd0 & <- & <-). rewrite matching_votes_for in *.
  destruct (votes_for votes (ve_ChainUid d0) (ve_Algo d0) (ve_Root d0)) as [|[v d] l] eqn:E; [done|].
  assert (Hi : (v, d) ∈ votes_for votes (ve_ChainUid d0) (ve_Algo d0) (ve_Root d0)) by (rewrite E; left).
  apply list_elem_of_filter in Hi as [_ Hi]. apply elem_of_decoded in Hi as [_ Hi].
  exact (root_wire _ _ (ve_Root d) (v, d) _ Hi).
Qed.
Lemma written_typed votes t m m' : hm_typed m -> written votes t m m' -> hm_typed m'.
Proof.
  intros Hm HK K v Hv. destruct (HK K) as [(key & hex & Hl & _ & <- & HS)|[_ HS]]; rewrite HS in Hv.
  - assert (Hw := root_from_wire votes key hex Hl). injection Hv as <-.
    apply (E_root (root_from key (matching votes key hex)) Hw).
  - by apply (Hm K).
Qed.
Lemma written_total votes t m m' d : written votes t m m' -> escrow_total m' d = escrow_total m d.
Proof.
  intros HK. apply total_ext. intros K Hp. destruct (HK K) as [(key & hex & _ & _ & <- & _)|[_ HS]]; [done|done].
Qed.

Lemma root_key_inj uid algo uid' algo' : "|"%byte ∉ uid -> "|"%byte ∉ uid' ->
  root_key (uid, algo) = root_key (uid', algo') -> uid = uid' /\ algo = algo'.
Proof. intros H1 H2 H. unfold root_key in H. hm_keys. cbn [fst snd] in H. injection H as H. by apply app_sep_inj in H. Qed.

(** ** Properties *)


(** *** The store and the escrows *)

(** What happens to the module: messages, ends of blocks, commits processed in
    any order, and everything else that does not take from its account. *)
Inductive hm_step (authority : bytes) : hm_state B -> hm_state B -> Prop :=
| step_msg height msg st st' :
    msg_ok (B := B) msg -> hm_handle authority height msg st = (st', Ok tt) -> hm_step authority st st'
| step_end height st st' : hm_EndBlocker height st = (st', Ok tt) -> hm_step authority st st'
| step_votes height order commit st st' :
    tally_order (tally_votes (eci_Votes commit)) order ->
    ProcessVoteExtensions height order commit st = (st', Ok tt) -> hm_step authority st st'
| step_rest st b' :
    (forall d, balance (hm_rest st) (Module HmModuleName) d <= balance b' (Module HmModuleName) d) ->
    hm_step authority st (MkHm (hm_store st) b').

Lemma process_inv height order commit (st st' : hm_state B) :
  hm_typed (hm_store st) -> tally_order (tally_votes (eci_Votes commit)) order ->
  ProcessVoteExtensions height order commit st = (st', Ok tt) ->
  (forall d, balance (hm_rest st) (Module HmModuleName) d <= balance (hm_rest st') (Module HmModuleName) d) /\
  exists t, written (eci_Votes commit) t (hm_store st) (hm_store st').
Proof.
  intros Hm Ho H. destruct (quorum_threshold (params_of (hm_store st)) (total_power (eci_Votes commit))) as [t|e] eqn:Et.
  - destruct (process_written height order commit t st Hm Et Ho) as (s1 & H1 & Hb & Hw).
    rewrite H1 in H. injection H as <-. by eauto.
  - unfold ProcessVoteExtensions, mbind at 1 in H. destruct (typed_params st Hm) as [Hp _]. rewrite Hp in H.
    unfold mbind, mlift in H. by rewrite Et in H.
Qed.


(** *** Vote extensions *)

(** The sources a chain's attestations are checked against. *)
Definition sources_at (m : store) (uid : bytes) : option (list OracleSource) :=
  match m !! oracleSourcesKey uid with None => Some [] | Some bz => Unmarshal_sources bz end.
(** An enabled source of that name, the first there is, signed the attestation
    with its ed25519 key. *)
Definition attested (sources : list OracleSource) (att : OracleAttestation) : Prop :=
  exists i src auth, sources !! i = Some src /\ src_SourceId src = oa_SourceId att /\ src_Enabled src = true /\
    (forall j s, (j < i)%nat -> sources !! j = Some s -> ~ (src_SourceId s = oa_SourceId att /\ src_Enabled s = true)) /\
    src_Authenticator src = Some auth /\ ca_Algorithm auth = str "ed25519" /\ blen (ca_Pubkey auth) = 32 /\
    ed25519_Verify (ca_Pubkey auth)
      (custodyPayload (ca_Scope auth) (oa_SourceId att) (oa_Value att) (oa_Height att) (oa_Timestamp att))
      (oa_CustodySignature att) = true.

Lemma find_first {A} (p : A -> bool) l x : List.find p l = Some x <->
  exists i, l !! i = Some x /\ p x = true /\ forall j y, (j < i)%nat -> l !! j = Some y -> p y = false.
Proof.
  induction l as [|y l IH]; cbn; [split; [done|by intros (i & ? & _)]|]. destruct (p y) eqn:E.
  - split.
    + intros [= ->]. exists 0%nat. split; [done|]. split; [done|]. intros j z Hj. lia.
    + intros ([|i] & Hi & Hp & Hj); [done|]. specialize (Hj 0%nat y ltac:(lia) eq_refl). congruence.
  - rewrite IH. split.
    + intros (i & Hi & Hp & Hj). exists (S i). split; [done|]. split; [done|]. intros [|j] z Hlt Hz; [by injection Hz as <-|].
      apply (Hj j); [lia|done].
    + intros ([|i] & Hi & Hp & Hj); [cbn in Hi; congruence|]. exists i. split; [done|]. split; [done|].
      intros j z Hlt Hz. apply (Hj (S j)); [lia|done].
Qed.
Lemma check_attestation_ok sources att : check_attestation sources att = Ok tt <-> attested sources att.
Proof.
  unfold check_attestation, findOracleSource, attested. split.
  - destruct (List.find _ sources) as [src|] eqn:Ef; [|done].
    apply find_first in Ef as (i & Hi & Hp & Hj). apply andb_prop in Hp as [Hid Hen]. apply bytes_eqb_eq in Hid.
    destruct (src_Authenticator src) as [auth|] eqn:Ea; [|done]. intros H.
    apply rbind_ok in H as (? & H1%guard_false%negb_false_iff%bytes_eqb_eq & H).
    apply rbind_ok in H as (? & H2%guard_false%negb_false_iff%Z.eqb_eq & H). apply guard_false, negb_false_iff in H.
    exists i, src, auth. split_and!; try done. intros j s Hlt Hs [E1 E2]. specialize (Hj j s Hlt Hs).
    by rewrite E1, E2, bytes_eqb_refl in Hj.
  - intros (i & src & auth & Hi & Hid & Hen & Hj & Ha & Hal & Hl & Hv).
    assert (Ef : List.find (fun src => bytes_eqb (src_SourceId src) (oa_SourceId att) && src_Enabled src) sources = Some src).
    { apply find_first. exists i. split; [done|]. rewrite Hid, Hen, bytes_eqb_refl. split; [done|].
      intros j s Hlt Hs. specialize (Hj j s Hlt Hs). apply andb_false_iff.
      destruct (src_Enabled s); [left|by right]. apply bytes_eqb_neq. naive_solver. }
    rewrite Ef, Ha, Hal, Hl, Hv. rewrite bytes_eqb_refl. done.
Qed.
Lemma mrange_lift_ok {S E A : Type} (l : list A) (f : A -> result E unit) (s : S) :
  is_ok (mrange l (fun x => mlift (f x)) s).2 = true <-> Forall (fun x => f x = Ok tt) l.
Proof.
  induction l as [|x l IH]; [done|]. rewrite mrange_cons, Forall_cons. unfold mlift at 1.
  destruct (f x) as [[]|e]; [|by split; [|intros [? _]]]. rewrite IH. tauto.
Qed.

(** C28: A peer accepts a vote extension exactly when it is empty, or decodes, names
    a registered and enabled chain, and every attestation it carries is signed
    by the registered source it names. *)
Theorem VerifyVoteExtension_accepts_iff (ext : bytes) (st : hm_state B) :
  hm_typed (hm_store st) ->
  VerifyVoteExtensionHandler ext st = true <->
  ext = [] \/ exists data c, Unmarshal ext = Some data /\ chain_at (hm_store st) (ve_ChainUid data) = Some c /\
    ch_Enabled c = true /\
    (voteExtensionAttestations data = [] \/
     exists sources, sources_at (hm_store st) (ve_ChainUid data) = Some sources /\
       Forall (attested sources) (voteExtensionAttestations data)).
Proof.
  intros Hm. unfold VerifyVoteExtensionHandler. destruct (blen ext =? 0) eqn:El.
  { zbool. destruct ext; [|done]. split; [by left|done]. }
  assert (Hne : ext <> []) by (by intros ->). 
  destruct (Unmarshal ext) as [data|] eqn:Eu; [|split; [done|by intros [?|(? & ? & ? & _)]]].
  unfold GetRegisteredChain, get_record, chain_at, read.
  destruct (hm_store st !! KeyRegisteredChain (ve_ChainUid data)) as [v|] eqn:Ev.
  2:{ split; [done|]. intros [?|(d & c & [= <-] & Hc & _)]; [done|]. by rewrite Ev in Hc. }
  destruct (Unmarshal v) as [c|] eqn:Ec.
  2:{ split; [done|]. intros [?|(d & c & [= <-] & Hc & _)]; [done|]. rewrite Ev in Hc. cbn [base.mbind option_bind] in Hc. congruence. }
  destruct (ch_Enabled c) eqn:En; cbn [negb].
  2:{ split; [done|]. intros [?|(d & c' & [= <-] & Hc & He & _)]; [done|]. rewrite Ev in Hc.
      cbn [base.mbind option_bind] in Hc. congruence. }
  assert (Hv : is_ok (verifyOracleAttestations (ve_ChainUid data) (voteExtensionAttestations data) st).2 = true <->
    voteExtensionAttestations data = [] \/
     exists sources, sources_at (hm_store st) (ve_ChainUid data) = Some sources /\
       Forall (attested sources) (voteExtensionAttestations data)).
  { unfold verifyOracleAttestations. destruct (voteExtensionAttestations data) as [|a l] eqn:Ea; [by split; [left|]|].
    unfold mbind, GetOracleSources, sources_at.
    destruct (match hm_store st !! _ with None => Some [] | Some bz => Unmarshal_sources bz end) as [ss|] eqn:Es.
    - assert (E : match hm_store st !! oracleSourcesKey (ve_ChainUid data) with
                  | Some bz => match Unmarshal_sources bz with Some l0 => Ok l0 | None => Err ErrHmDecode end
                  | None => Ok [] end = Ok (E := hm_err) ss).
      { destruct (hm_store st !! oracleSourcesKey _) as [bz|]; [by rewrite Es|by injection Es as <-]. }
      rewrite E. destruct (typed_params st Hm) as [-> _]. rewrite mrange_lift_ok.
      setoid_rewrite check_attestation_ok. split; [by eauto|]. by intros [?|(s & [= <-] & ?)].
    - destruct (hm_store st !! oracleSourcesKey _) as [bz|] eqn:Eo; [|done]. rewrite Es. split; [done|]. by intros [?|(s & ? & _)]. }
  rewrite Hv. split.
  - intros H. right. exists data, c. rewrite Ev. by split_and!.
  - intros [?|(d & c' & [= <-] & _ & _ & H)]; done.
Qed.

(** The message a source signs binds the scope, the source, the value, the
    height and the time: two that are equal agree in all of them, unless the
    domains are a collision of SHA-256. *)
Theorem custodyPayload_binds scope id v h t scope' id' v' h' t' :
  "/"%byte ∉ scope -> "/"%byte ∉ scope' -> is_u64 h -> is_u64 h' -> is_i64 t -> is_i64 t' ->
  custodyPayload scope id v h t = custodyPayload scope' id' v' h' t' ->
  (scope = scope' /\ id = id' /\ v = v' /\ h = h' /\ t = t') \/
  (let x := str "hashmerchant/custody/" ++ scope ++ "/"%byte :: id in
   let y := str "hashmerchant/custody/" ++ scope' ++ "/"%byte :: id' in
   x <> y /\ sha256 x = sha256 y).
Proof.
  intros Hs Hs' Hh Hh' Ht Ht' E. unfold custodyPayload in E.
  assert (Hle : forall z, le64 z = rev (be_put 8 z)) by reflexivity.
  assert (Hlen : forall z, length (le64 z) = 8%nat) by (intros z; by rewrite Hle, length_rev, length_be_put).
  assert (Hinj : forall a b, is_u64 a -> is_u64 b -> le64 a = le64 b -> a = b).
  { intros a b Ha Hb Hab. rewrite !Hle in Hab. apply (f_equal (@rev byte)) in Hab. rewrite !rev_involutive in Hab.
    by apply be_put_inj in Hab. }
  apply app_inj_1 in E as [Ed E]; [|unfold custodyDomain; by rewrite !sha256_length].
  rewrite !app_assoc in E. apply app_inj_2 in E as [E Et]; [|by rewrite !Hlen].
  apply app_inj_2 in E as [Ev Eh]; [|by rewrite !Hlen].
  apply Hinj in Eh; [|done|done]. apply Hinj in Et; [|apply u64_range|apply u64_range].
  apply (f_equal i64) in Et. rewrite !i64_u64, !i64_id in Et by done.
  unfold custodyDomain in Ed.
  destruct (decide (str "hashmerchant/custody/" ++ scope ++ "/"%byte :: id =
                    str "hashmerchant/custody/" ++ scope' ++ "/"%byte :: id')) as [Eq|Hne].
  - left. apply app_inv_head in Eq. apply app_sep_inj in Eq as [-> ->]; done.
  - right. done.
Qed.

(** *** Proposals *)

(** C30: The two modules compose. When a vote of the last commit has an extension,
    the proposal that [x/leanval] builds around the handler of this module still
    has the commit as its first transaction, this module accepts it, and at the
    start of the block every node processes exactly that commit. *)
Theorem injected_commit_processed h req (k k' : Keeper) commit txs height order (st : hm_state B) :
  existsb (fun v => 0 <? blen (evi_VoteExtension v)) (eci_Votes commit) = true -> wire_ok commit ->
  WrapPrepareProposal h (Some (fun r => Ok (Some (PrepareProposalHandler commit (pr_Txs r))))) req k = (k', Ok txs) ->
  ProcessProposalHandler txs = true /\
  ProcessInjectedVoteExtension height order txs st =
    match ProcessVoteExtensions height (order commit) commit st with
    | (st', Ok _) => (st', Ok true)
    | (st', Err HmPanic) => (st', Err HmPanic)
    | (st', Err _) => (st', Ok false)
    end.
Proof.
  intros Hx Hw H. set (hm := InjectedVoteExtensionPrefix ++ Marshal commit).
  assert (Hp : has_prefix PrefixHMVE hm = true) by apply has_prefix_app.
  assert (Htx : exists rest, txs = hm :: rest).
  { unfold WrapPrepareProposal, PrepareProposalHandler, mbind, mlift in H. rewrite Hx in H. cbn [rbind default from_option] in H.
    fold hm in H. destruct (buildLNPR _ _ _) as [k2 lnpr]. injection H as _ <-.
    assert (Hl : exists rest, injectLNPR (drop_membership (hm :: pr_Txs req)) lnpr = hm :: rest).
    { unfold drop_membership. rewrite filter_cons_True by (by apply (not_membership PrefixHMVE)).
      unfold injectLNPR. rewrite filter_cons_True by (by apply (has_prefix_excl PrefixHMVE)).
      unfold insert_at, expectedLNPRIndex. rewrite Hp. cbn [take drop app]. by eexists. }
    destruct Hl as [rest ->]. destruct (0 <? _); [|by eexists].
    unfold injectSSLE. rewrite filter_cons_True by (by apply (has_prefix_excl PrefixHMVE)).
    unfold insert_at. cbn [ssle_index]. rewrite (has_prefix_excl PrefixHMVE PrefixLNPR hm), Hp by done.
    assert (Hidx : forall l i j, (1 <= i)%nat -> (1 <= j)%nat -> (1 <= ssle_index i j l)%nat).
    { induction l as [|x l IH]; intros i j Hi Hj; cbn [ssle_index]; [done|].
      destruct (has_prefix PrefixLNPR x); [lia|]. apply IH; [destruct (has_prefix _ x); lia|lia]. }
    specialize (Hidx (filter (fun tx => has_prefix PrefixSSLE tx = false) rest) 1%nat 1%nat ltac:(lia) ltac:(lia)).
    destruct (ssle_index _ _ _) as [|n]; [lia|]. cbn [take drop app]. by eexists. }
  destruct Htx as [rest ->]. unfold ProcessProposalHandler, ProcessInjectedVoteExtension.
  assert (Hpre : has_prefix InjectedVoteExtensionPrefix hm = true) by apply has_prefix_app.
  rewrite Hpre. cbn [negb]. change (drop 4 hm) with (Marshal commit). by rewrite proto_roundtrip.
Qed.

(** Attestations packed for older sidecars read back. *)
Theorem oracle_bundle_roundtrip data :
  ve_Attestations data = [] -> (forall l, Forall attestation_text l -> ve_Ics23Proof data = packOracleBundle l ->
    voteExtensionAttestations data = l).
Proof.
  intros He l Hl Hp. unfold voteExtensionAttestations. by rewrite He, Hp, bundle_roundtrip.
Qed.
End Confirm.

(** ** A small instance, for the witnesses *)

#[global] Instance evi_eq_dec : EqDecision ExtendedVoteInfo.
Proof. solve_decision. Defined.
#[global] Instance eci_eq_dec : EqDecision ExtendedCommitInfo.
Proof. solve_decision. Defined.
#[global] Program Instance evi_countable : Countable ExtendedVoteInfo :=
  inj_countable' (fun v => (evi_Address v, evi_Power v, evi_VoteExtension v, evi_ExtensionSignature v, evi_BlockIdFlag v))
    (fun t => MkExtendedVoteInfo t.1.1.1.1 t.1.1.1.2 t.1.1.2 t.1.2 t.2) _.
Next Obligation. by intros []. Qed.
#[global] Program Instance eci_countable : Countable ExtendedCommitInfo :=
  inj_countable' (fun c => (eci_Round c, eci_Votes c)) (fun t => MkExtendedCommitInfo t.1 t.2) _.
Next Obligation. by intros []. Qed.
#[global] Program Instance vote_countable : Countable VoteExtensionHashData :=
  inj_countable' (fun v => (ve_RuntimeId v, ve_ChainUid v, ve_Algo v, ve_Root v, ve_ForeignHeight v, ve_ForeignBlockTime v,
                            ve_Ics23Proof v, ve_Attestations v))
    (fun t => MkVoteExtensionHashData t.1.1.1.1.1.1.1 t.1.1.1.1.1.1.2 t.1.1.1.1.1.2 t.1.1.1.1.2 t.1.1.1.2 t.1.1.2 t.1.2 t.2) _.
Next Obligation. by intros []. Qed.
#[global] Instance wire_vote_dec (a : VoteExtensionHashData) : Decision (wire_ok a).
Proof. unfold wire_ok, wire_vote, wire_attestations; apply _. Defined.
#[global] Instance wire_commit_dec (a : ExtendedCommitInfo) : Decision (wire_ok a).
Proof. unfold wire_ok, wire_commit; apply _. Defined.
#[global] Instance ToyVoteCodec : VoteCodec := {| proto_vote := toy_proto; proto_commit := toy_proto |}.
#[global] Instance ToyVoteCodecLaws : VoteCodecLaws.
Proof. split; apply toy_proto_laws. Qed.
#[global] Instance ToyTrunc : TruncDec := {| Dec_MulInt64 := Z.mul; Dec_TruncateInt d := Z.quot d dec_one |}.
#[global] Instance ToyTruncLaws : TruncDecLaws.
Proof. by split. Qed.
#[global] Instance ToyHmSudoLaws : HmSudoLaws toy.
Proof. split; intros c m st; cbn; destruct (bytes_eqb c _); cbn; try done; intros d; lia. Qed.

(** The order of the map itself. *)
Definition some_order (T : tally_map) : list (tallyKey * list (bytes * list rootVote)) :=
  map (fun kr => (kr.1, map_to_list kr.2)) (map_to_list T).
Lemma some_order_ok T : tally_order T (some_order T).
Proof.
  exists (map_to_list T). split; [done|]. unfold some_order. induction (map_to_list T); cbn; by constructor.
Qed.

Definition w_att : OracleAttestation :=
  MkOracleAttestation (str "node") (str "root A") 800 77
    (replicate 32 Byte.x07 ++ custodyPayload (str "btc") (str "node") (str "root A") 800 77) [].
Definition w_data (root : bytes) (atts : list (option OracleAttestation)) : VoteExtensionHashData :=
  MkVoteExtensionHashData [] (str "btc") (str "sha256") root 800 77 [] atts.
Definition w_vote (power : Z) (d : VoteExtensionHashData) : ExtendedVoteInfo := MkExtendedVoteInfo [] power (Marshal d) [] 2.
Definition w_ext : bytes := Marshal (w_data (str "A") [Some w_att]).
Definition w_commit : ExtendedCommitInfo :=
  MkExtendedCommitInfo 0 [MkExtendedVoteInfo [] 10 w_ext [] 2; w_vote 10 (w_data (str "B") []);
                          w_vote 10 (w_data (str "A") [])].

Lemma VerifyVoteExtension_accepts_iff_witness :
  hm_typed (hm_store w_hm) /\ VerifyVoteExtensionHandler w_ext w_hm = true.
Proof.
  split; [apply w_hm_typed|]. apply (VerifyVoteExtension_accepts_iff w_ext w_hm w_hm_typed). right.
  exists (w_data (str "A") [Some w_att]), w_chain. split; [vm_refl|]. split; [vm_refl|]. split; [done|]. right.
  exists [w_source]. split; [vm_refl|]. change (voteExtensionAttestations _) with [w_att]. repeat constructor.
  exists 0%nat, w_source. eexists. do 3 (split; [done|]). split; [intros j s Hj; lia|]. split; [done|].
  split; [vm_compute; reflexivity|]. split; [vm_compute; reflexivity|]. vm_compute; reflexivity.
Defined.
Lemma custodyPayload_binds_witness :
  custodyPayload (str "btc") (str "node") (str "A") 1 2 = custodyPayload (str "btc") (str "node") (str "A") 1 2 /\
  ((str "btc" = str "btc" /\ str "node" = str "node" /\ str "A" = str "A" /\ 1 = 1 /\ 2 = 2) \/
   (let x := str "hashmerchant/custody/" ++ str "btc" ++ "/"%byte :: str "node" in x <> x /\ sha256 x = sha256 x)).
Proof.
  split; [done|]. apply (custodyPayload_binds (str "btc") (str "node") (str "A") 1 2 (str "btc") (str "node") (str "A") 1 2);
    try done; try (by apply (bool_decide_unpack _)); unfold is_u64, is_i64; lia.
Defined.
Lemma oracle_bundle_roundtrip_witness :
  let data := MkVoteExtensionHashData [] (str "btc") [] [] 1 2 (packOracleBundle [w_att]) [] in
  ve_Attestations data = [] /\ voteExtensionAttestations data = [w_att].
Proof.
  intros data. split; [done|].
  apply (oracle_bundle_roundtrip data eq_refl [w_att]); [|done]. repeat constructor; vm_compute; done.
Defined.
(** The handler of this module inside the one of [x/leanval]. *)
Definition w_inner : prepare_request -> result lean_error (option (list bytes)) :=
  fun r => Ok (Some (PrepareProposalHandler w_commit (pr_Txs r))).
Lemma injected_commit_processed_witness :
  exists k' txs, WrapPrepareProposal w_host (Some w_inner) w_req w_dummy_keeper = (k', Ok txs) /\
    ProcessProposalHandler txs = true /\
    (ProcessInjectedVoteExtension 20 (fun c => some_order (tally_votes (eci_Votes c))) txs w_hm1).2 = Ok true.
Proof.
  assert (Hr : is_ok (WrapPrepareProposal w_host (Some w_inner) w_req w_dummy_keeper).2 = true) by by vm_compute.
  destruct (WrapPrepareProposal w_host (Some w_inner) w_req w_dummy_keeper) as [k' [txs|e]] eqn:E; [|done].
  exists k', txs. split; [done|].
  assert (Hw : wire_ok w_commit) by (by apply (bool_decide_unpack _); vm_compute).
  destruct (injected_commit_processed w_host w_req w_dummy_keeper k' w_commit txs 20
    (fun c => some_order (tally_votes (eci_Votes c))) w_hm1 ltac:(vm_compute; reflexivity) Hw E) as [H1 H2].
  split; [done|]. rewrite H2.
  assert (Hp : (ProcessVoteExtensions 20 (some_order (tally_votes (eci_Votes w_commit))) w_commit w_hm1).2 = Ok tt)
    by (vm_compute; reflexivity).
  destruct (ProcessVoteExtensions _ _ _ _) as [st' r]. cbn in Hp. by subst r.
Defined.

(** ** Behaviour worth knowing *)

(** With the default two thirds and four validators of equal power the
    threshold is rounded down to two: two roots can both have a quorum, and the
    order in which the map is walked decides which one stays. *)
Definition w_split : ExtendedCommitInfo :=
  MkExtendedCommitInfo 0 [w_vote 1 (w_data (str "A") []); w_vote 1 (w_data (str "A") []);
                          w_vote 1 (w_data (str "B") []); w_vote 1 (w_data (str "B") [])].
Definition w_rev (order : list (tallyKey * list (bytes * list rootVote))) : list (tallyKey * list (bytes * list rootVote)) :=
  map (fun kr => (kr.1, rev kr.2)) order.
Example split_vote_order_decides :
  let T := tally_votes (eci_Votes w_split) in
  let run order := hr_Root <$> root_at (hm_store (ProcessVoteExtensions 20 order w_split w_hm1).1) (str "btc") (str "sha256") in
  tally_order T (some_order T) /\ tally_order T (w_rev (some_order T)) /\
  threshold (params_of (hm_store w_hm1)) (eci_Votes w_split) = 2 /\
  run (some_order T) <> run (w_rev (some_order T)).
Proof.
  split; [apply some_order_ok|]. split; [|split; [vm_refl|vm_compute; discriminate]].
  exists (map_to_list (tally_votes (eci_Votes w_split))). split; [done|].
  unfold some_order, w_rev. rewrite map_map. generalize (map_to_list (tally_votes (eci_Votes w_split))).
  intros l. induction l as [|[k m] l IH]; cbn; constructor; [|done]. cbn. split; [done|].
  symmetry. apply Permutation_rev.
Qed.

(** A proposal is accepted with any commit that parses: here one validator that
    does not exist, and a chain nobody registered, whose root is then stored. *)
Definition w_forged : bytes :=
  InjectedVoteExtensionPrefix ++
  Marshal (MkExtendedCommitInfo 0 [w_vote 1 (MkVoteExtensionHashData [] (str "nochain") (str "x") (str "R") 9 9 [] [])]).
Example forged_commit_accepted :
  let st := (ProcessInjectedVoteExtension 20 (fun c => some_order (tally_votes (eci_Votes c))) [w_forged] w_hm1).1 in
  ProcessProposalHandler [w_forged] = true /\ chain_at (hm_store w_hm1) (str "nochain") = None /\
  hr_Root <$> root_at (hm_store st) (str "nochain") (str "x") = Some (str "R").
Proof. split; [vm_refl|]. split; vm_refl. Qed.

(** The aggregate of the attestations depends on the order the sidecar lists
    them in. *)
Example aggregate_unsorted :
  let a := MkOracleAttestation (str "a") (str "1") 0 0 [] [] in
  let b := MkOracleAttestation (str "b") (str "2") 0 0 [] [] in
  aggregateAttestationRoot [a; b] <> aggregateAttestationRoot [b; a].
Proof. vm_compute. discriminate. Qed.
