(* ===== verification/Drip.v ===== *)
(** * drip

    [x/drip]: accounts that governance listed may send tokens to the fee
    collector, from where the distribution module pays them to stakers at the
    next block. Parameters, the two messages and genesis. The bank is the one of
    [Sdk], the codec a parameter. *)

From S2P Require Import Prelude KVStore Sdk Proto.

Open Scope go_scope.

(** ** Data *)

Record DripParams := MkDripParams { EnableDrip : bool; AllowedAddresses : list bytes }.
Record MsgDistributeTokens := MkMsgDistributeTokens { dt_SenderAddress : bytes; dt_Amount : Coins }.
Record DripKeeper := MkDripKeeper { feeCollectorName : bytes; dr_authority : bytes }.

Inductive drip_err :=
| ErrDripDisabled | ErrDripNotAllowed | ErrDuplicate | ErrBlank
| ErrDripAddress   (* an error of [AccAddressFromBech32] *)
| ErrDripSender | ErrDripCoins   (* [fmt.Errorf] of [ValidateBasic] *)
| ErrDripSigner    (* [govtypes.ErrInvalidSigner] *)
| ErrDripBank      (* an error of the bank keeper *)
| DripPanic.

(** The module's store and the state of the bank. *)
Record drip_state (B : Type) := MkDrip { dr_store : store; dr_rest : B }.
Arguments MkDrip {B} dr_store dr_rest.
Arguments dr_store {B} _.
Arguments dr_rest {B} _.

Definition DripParamsKey : bytes := [Byte.x00].

Section Drip.
Context {B : Type} {SdkB : Sdk B} {PP : Proto DripParams}.
Abbreviation M := (meth (drip_state B) drip_err).

(** ** Parameters *)

Definition drip_DefaultParams : DripParams := MkDripParams true [].

(** [idx] holds the addresses seen. *)
Fixpoint assertValidAddresses_loop (idx : gset bytes) (addrs : list bytes) : result drip_err unit :=
  match addrs with
  | [] => Ok tt
  | a :: addrs' =>
      check! guard (bytes_eqb a []) ErrBlank;
      match AccAddressFromBech32 a with
      | None => Err ErrDripAddress
      | Some _ =>
          check! guard (bool_decide (a ∈ idx)) ErrDuplicate;
          assertValidAddresses_loop ({[a]} ∪ idx) addrs'
      end
  end.
Definition assertValidAddresses (addrs : list bytes) : result drip_err unit := assertValidAddresses_loop ∅ addrs.
(** The type assertions of [validateBool] and [validateArray] hold by typing. *)
Definition DripParams_Validate (p : DripParams) : result drip_err unit := assertValidAddresses (AllowedAddresses p).

(** An absent entry gives the zero value; the codec panics on bytes it cannot
    read. *)
Definition drip_GetParams : M DripParams :=
  fun st => match dr_store st !! DripParamsKey with
            | None => (st, Ok (MkDripParams false []))
            | Some bz => match Unmarshal bz with
                         | Some p => (st, Ok p)
                         | None => (st, Err DripPanic)
                         end
            end.
Definition drip_SetParams (params : DripParams) : M unit :=
  exec! mlift (DripParams_Validate params);
  mput (fun st => MkDrip (store_Set DripParamsKey (Marshal params) (dr_store st)) (dr_rest st)).

(** ** Messages *)

Definition MsgDistributeTokens_ValidateBasic (msg : MsgDistributeTokens) : result drip_err unit :=
  check! guard (bytes_eqb (dt_SenderAddress msg) []) ErrDripSender;
  match AccAddressFromBech32 (dt_SenderAddress msg) with
  | None => Err ErrDripAddress
  | Some _ =>
      check! guard (bool_decide (dt_Amount msg = [])) ErrDripCoins;
      guard (negb (Coins_Validate (dt_Amount msg))) ErrDripCoins
  end.
Definition drip_MsgUpdateParams_ValidateBasic (Authority : bytes) (Params : DripParams) : result drip_err unit :=
  match AccAddressFromBech32 Authority with
  | None => Err ErrDripAddress
  | Some _ => DripParams_Validate Params
  end.

Definition SendCoinsFromAccountToFeeCollector (k : DripKeeper) (senderAddr : bytes) (amt : Coins) : M unit :=
  fun st => match SendCoins (Account senderAddr) (Module (feeCollectorName k)) amt (dr_rest st) with
            | Some b => (MkDrip (dr_store st) b, Ok tt)
            | None => (st, Err ErrDripBank)
            end.
Definition DistributeTokens (k : DripKeeper) (msg : MsgDistributeTokens) : M unit :=
  exec! mlift (MsgDistributeTokens_ValidateBasic msg);
  run! params <- drip_GetParams;
  exec! mlift (guard (negb (EnableDrip params)) ErrDripDisabled);
  let authorized := existsb (fun addr => bytes_eqb (dt_SenderAddress msg) addr) (AllowedAddresses params) in
  exec! mlift (guard (negb authorized) ErrDripNotAllowed);
  match AccAddressFromBech32 (dt_SenderAddress msg) with
  | None => mfail ErrDripAddress
  | Some sender => SendCoinsFromAccountToFeeCollector k sender (dt_Amount msg)
  end.
Definition drip_UpdateParams (k : DripKeeper) (Authority : bytes) (Params : DripParams) : M unit :=
  exec! mlift (guard (negb (bytes_eqb (dr_authority k) Authority)) ErrDripSigner);
  drip_SetParams Params.

(** ** Genesis *)

Definition drip_InitGenesis (data : DripParams) : M unit :=
  fun st => match drip_SetParams data st with
            | (st', Ok _) => (st', Ok tt)
            | (st', Err _) => (st', Err DripPanic)
            end.
Definition drip_ExportGenesis : M DripParams := drip_GetParams.
End Drip.

(** ** Lemmas *)

#[global] Instance wire_drip : WireOk DripParams := fun _ => True.

Section DripLaws.
Context {B : Type} {SdkB : Sdk B} {BL : BankLaws B} {PP : Proto DripParams} {PL : ProtoLaws DripParams}.

(** Valid lists: addresses that parse, each once. *)
Definition allowed_ok (l : list bytes) : Prop :=
  NoDup l /\ Forall (fun a => a <> [] /\ AccAddressFromBech32 a <> None) l.
Lemma assertValid_loop_ok idx l :
  assertValidAddresses_loop idx l = Ok tt <-> allowed_ok l /\ forall a, a ∈ l -> a ∉ idx.
Proof.
  unfold allowed_ok. revert idx. induction l as [|a l IH]; intros idx; cbn.
  - split; [|done]. intros _. split; [repeat constructor|]. by intros a ?%elem_of_nil.
  - rewrite NoDup_cons, Forall_cons. destruct (bytes_eqb a []) eqn:E0; cbn.
    { apply bytes_eqb_eq in E0. split; [done|]. intros [[_ [[? _] _]] _]. done. }
    apply bytes_eqb_neq in E0. destruct (AccAddressFromBech32 a) as [x|] eqn:Ea.
    2: { split; [done|]. intros [[_ [[_ H] _]] _]. done. }
    destruct (bool_decide (a ∈ idx)) eqn:Ei; cbn.
    + apply bool_decide_eq_true in Ei. split; [done|]. intros [_ H]. exfalso. apply (H a); [left|done].
    + apply bool_decide_eq_false in Ei. rewrite IH. split.
      * intros [[Hn Hf] Hi]. split_and!; try done.
        -- intros Ha. apply (Hi a Ha). set_solver.
        -- intros b [->|Hb]%elem_of_cons; [done|]. specialize (Hi b Hb). set_solver.
      * intros [[[Hni Hn] [_ Hf]] Hi]. split_and!; try done. intros b Hb.
        assert (b ∉ idx) by (apply Hi; by right). assert (b <> a) by congruence. set_solver.
Qed.
Lemma DripParams_Validate_ok p : DripParams_Validate p = Ok tt <-> allowed_ok (AllowedAddresses p).
Proof.
  unfold DripParams_Validate, assertValidAddresses. rewrite assertValid_loop_ok. split; [by intros [? _]|].
  intros H. split; [done|]. set_solver.
Qed.

(** The parameters of a store; every store the module writes has readable and
    valid ones. *)
Definition drip_params (m : store) : DripParams :=
  match m !! DripParamsKey with
  | None => MkDripParams false []
  | Some bz => default (MkDripParams false []) (Unmarshal bz)
  end.
Definition drip_wf (m : store) : Prop :=
  (forall bz, m !! DripParamsKey = Some bz -> exists p : DripParams, bz = Marshal p) /\ allowed_ok (AllowedAddresses (drip_params m)).
Lemma drip_GetParams_wf (st : drip_state B) : drip_wf (dr_store st) -> drip_GetParams st = (st, Ok (drip_params (dr_store st))).
Proof.
  intros [H _]. unfold drip_GetParams, drip_params. destruct (dr_store st !! _) as [bz|] eqn:E; [|done].
  destruct (H bz eq_refl) as [p ->]. by rewrite proto_roundtrip.
Qed.
Lemma drip_params_set p m : drip_params (store_Set DripParamsKey (Marshal p) m) = p.
Proof. unfold drip_params, store_Set. rewrite lookup_insert_eq. by rewrite proto_roundtrip. Qed.
Lemma drip_SetParams_ok p (st st' : drip_state B) :
  drip_SetParams p st = (st', Ok tt) <->
  allowed_ok (AllowedAddresses p) /\ st' = MkDrip (store_Set DripParamsKey (Marshal p) (dr_store st)) (dr_rest st).
Proof.
  rewrite <- DripParams_Validate_ok. unfold drip_SetParams, mbind, mlift, mput.
  destruct (DripParams_Validate p) as [[]|e]; split; try (by intros [? ?]); try done.
  - by intros [= <-].
  - by intros [_ ->].
Qed.
Lemma drip_wf_set p m : allowed_ok (AllowedAddresses p) -> drip_wf (store_Set DripParamsKey (Marshal p) m).
Proof.
  intros H. split; [|by rewrite drip_params_set]. unfold store_Set. rewrite lookup_insert_eq. intros bz [= <-]. by exists p.
Qed.

(** ** Properties *)

(** When tokens are distributed: exactly if the message is well formed, the
    module is on, the sender is on the list and the bank can pay; the coins then
    go from the sender to the fee collector and nothing else changes. *)
Lemma DistributeTokens_ok k msg (st st' : drip_state B) :
  drip_wf (dr_store st) ->
  let p := drip_params (dr_store st) in
  DistributeTokens k msg st = (st', Ok tt) <->
  dt_Amount msg <> [] /\ Coins_Validate (dt_Amount msg) = true /\ EnableDrip p = true /\
  dt_SenderAddress msg ∈ AllowedAddresses p /\
  exists sender b', AccAddressFromBech32 (dt_SenderAddress msg) = Some sender /\
    SendCoins (Account sender) (Module (feeCollectorName k)) (dt_Amount msg) (dr_rest st) = Some b' /\
    st' = MkDrip (dr_store st) b'.
Proof.
  intros Hwf. cbv zeta. pose proof Hwf as [_ [_ Hf]]. split.
  - intros H. unfold DistributeTokens in H. repeat run_ok_step.
    match goal with H : drip_GetParams _ = _ |- _ => rewrite drip_GetParams_wf in H by done; injection H as <- <- end.
    match goal with H : MsgDistributeTokens_ValidateBasic _ = _ |- _ => unfold MsgDistributeTokens_ValidateBasic in H end.
    repeat run_ok_step. destruct (AccAddressFromBech32 (dt_SenderAddress msg)) as [sender|] eqn:Ea; [|done].
    repeat run_ok_step.
    match goal with H : existsb _ _ = true |- _ => apply existsb_exists in H as (a & Ha & He) end.
    apply bytes_eqb_eq in He. subst a. apply list_elem_of_In in Ha.
    match goal with H : bool_decide _ = false |- _ => apply bool_decide_eq_false in H end.
    unfold SendCoinsFromAccountToFeeCollector in H. destruct (SendCoins _ _ _ _) as [b'|] eqn:Es; [|done].
    injection H as <-. split_and!; try done. by exists sender, b'.
  - intros (Hne & Hv & Hen & Hin & sender & b' & Ha & Hs & ->).
    rewrite Forall_forall in Hf. destruct (Hf _ Hin) as [Hnil _].
    unfold DistributeTokens, MsgDistributeTokens_ValidateBasic, mbind, mlift.
    apply bytes_eqb_neq in Hnil. rewrite Hnil, Ha. cbn [guard rbind]. rewrite bool_decide_eq_false_2 by done.
    cbn [guard rbind]. rewrite Hv. cbn [guard rbind negb]. rewrite drip_GetParams_wf by done. rewrite Hen.
    cbn [guard negb].
    assert (Hx : existsb (fun addr => bytes_eqb (dt_SenderAddress msg) addr) (AllowedAddresses (drip_params (dr_store st))) = true).
    { apply existsb_exists. exists (dt_SenderAddress msg). split; [by apply list_elem_of_In|apply bytes_eqb_refl]. }
    rewrite Hx. cbn [guard negb]. unfold SendCoinsFromAccountToFeeCollector. by rewrite Hs.
Qed.

(** The messages of the module, as a step of its state. *)
Inductive drip_step (k : DripKeeper) : drip_state B -> drip_state B -> Prop :=
| drip_distribute msg st st' : DistributeTokens k msg st = (st', Ok tt) -> drip_step k st st'
| drip_update a p st st' : drip_UpdateParams k a p st = (st', Ok tt) -> drip_step k st st'.

(** A step keeps the parameters readable and valid. *)
Lemma drip_step_wf k st st' : drip_step k st st' -> drip_wf (dr_store st) -> drip_wf (dr_store st').
Proof.
  intros [msg s s' H|a p s s' H] Hwf.
  - apply DistributeTokens_ok in H as (_ & _ & _ & _ & sender & b' & _ & _ & ->); done.
  - unfold drip_UpdateParams in H. repeat run_ok_step. apply drip_SetParams_ok in H as [Hp ->]. by apply drip_wf_set.
Qed.

(** Through every history of messages the stored parameters stay valid. A step
    either is an update by the authority, which changes the parameters to valid
    ones and no balance, or moves coins from an account that is listed while the
    module is on to the fee collector, and changes neither parameters nor any
    supply. *)
Theorem drip_history k (st0 st st' : drip_state B) :
  drip_wf (dr_store st0) -> rtc (drip_step k) st0 st -> drip_step k st st' ->
  let p := drip_params (dr_store st) in let p' := drip_params (dr_store st') in
  drip_wf (dr_store st') /\
  ((drip_UpdateParams k (dr_authority k) p' st = (st', Ok tt) /\ dr_rest st' = dr_rest st) \/
   (p' = p /\ EnableDrip p = true /\ exists s sender cs, s ∈ AllowedAddresses p /\ AccAddressFromBech32 s = Some sender /\
      Coins_Validate cs = true /\ cs <> [] /\
      moved balance (Account sender) (Module (feeCollectorName k)) cs (dr_rest st) (dr_rest st') /\
      forall d, supply (dr_rest st') d = supply (dr_rest st) d)).
Proof.
  intros H0 Hr Hs p p'.
  assert (Hwf : drip_wf (dr_store st)).
  { revert H0. induction Hr as [|x y z Hxy _ IH]; [done|]. intros Hx. apply IH; [done|]. by eapply drip_step_wf. }
  split; [by eapply drip_step_wf|]. destruct Hs as [msg s s' H|a q s s' H].
  - right. apply DistributeTokens_ok in H as (Hne & Hv & Hen & Hin & sender & b' & Ha & Hsend & ->); [|done].
    apply send_law in Hsend as (Hsup & Hm & _). split; [done|]. split; [done|].
    by exists (dt_SenderAddress msg), sender, (dt_Amount msg).
  - left. unfold drip_UpdateParams in H. repeat run_ok_step.
    pose proof H as Hset. apply drip_SetParams_ok in H as [Hp ->].
    unfold p'. cbn [dr_store dr_rest]. rewrite drip_params_set. split; [|done].
    unfold drip_UpdateParams, mbind, mlift. by rewrite bytes_eqb_refl.
Qed.

(** A refused message leaves the state as it was. *)
Theorem drip_refused k (st : drip_state B) :
  drip_wf (dr_store st) ->
  (forall msg st' e, DistributeTokens k msg st = (st', Err e) -> st' = st /\ e <> DripPanic) /\
  (forall a p st' e, drip_UpdateParams k a p st = (st', Err e) -> st' = st).
Proof.
  intros Hwf. split.
  - intros msg st' e. unfold DistributeTokens, mbind, mlift. unfold MsgDistributeTokens_ValidateBasic.
    destruct (bytes_eqb _ []); cbn [guard rbind]; [by intros [= <- <-]|].
    destruct (AccAddressFromBech32 _); [|by intros [= <- <-]].
    destruct (bool_decide _); cbn [guard rbind]; [by intros [= <- <-]|].
    destruct (negb (Coins_Validate _)); cbn [guard]; [by intros [= <- <-]|]. rewrite drip_GetParams_wf by done.
    destruct (negb (EnableDrip _)); cbn [guard]; [by intros [= <- <-]|].
    destruct (negb _); cbn [guard]; [by intros [= <- <-]|]. unfold SendCoinsFromAccountToFeeCollector.
    destruct (SendCoins _ _ _ _); [done|]. by intros [= <- <-].
  - intros a p st' e. unfold drip_UpdateParams, drip_SetParams, mbind, mlift, mput.
    destruct (guard _ _); [|by intros [= <- <-]]. destruct (DripParams_Validate p); [done|]. by intros [= <- <-].
Qed.

(** What genesis writes it exports, and what it exports it accepts. *)
Theorem drip_genesis_roundtrip (p : DripParams) (m : store) (b : B) :
  DripParams_Validate p = Ok tt ->
  exists st, drip_InitGenesis p (MkDrip m b) = (st, Ok tt) /\ drip_ExportGenesis st = (st, Ok p) /\ drip_wf (dr_store st).
Proof.
  intros Hp%DripParams_Validate_ok. eexists. unfold drip_InitGenesis.
  assert (E : drip_SetParams p (MkDrip m b) = (MkDrip (store_Set DripParamsKey (Marshal p) m) b, Ok tt)) by (by apply drip_SetParams_ok).
  rewrite E. split; [done|]. pose proof (drip_wf_set p m Hp) as Hwf. split; [|done].
  unfold drip_ExportGenesis. rewrite drip_GetParams_wf by done. cbn [dr_store]. by rewrite drip_params_set.
Qed.
End DripLaws.

(** ** Witnesses *)

#[global] Instance drip_params_eq_dec : EqDecision DripParams.
Proof. solve_decision. Defined.
#[global] Program Instance drip_params_countable : Countable DripParams :=
  inj_countable' (fun p => (EnableDrip p, AllowedAddresses p)) (fun t => MkDripParams t.1 t.2) _.
Next Obligation. by intros []. Qed.
#[global] Instance wire_drip_dec (p : DripParams) : Decision (wire_ok p).
Proof. left; exact I. Defined.
#[global] Instance ToyDripProto : Proto DripParams := toy_proto.
#[global] Instance ToyDripProtoLaws : ProtoLaws DripParams := toy_proto_laws.

Definition w_drip_keeper : DripKeeper := MkDripKeeper (str "fee_collector") (str "terp1gov").
Definition w_drip_bank : toy := MkToy {[ (Account (str "alice"), str "uterp") := 100 ]} ∅ ∅ 0.
Definition w_drip : drip_state toy :=
  (drip_InitGenesis (MkDripParams true [str "terp1alice"]) (MkDrip ∅ w_drip_bank)).1.
Definition w_drip_msg : MsgDistributeTokens := MkMsgDistributeTokens (str "terp1alice") [MkCoin (str "uterp") 40].
Definition w_drip1 : drip_state toy := (DistributeTokens w_drip_keeper w_drip_msg w_drip).1.

Lemma drip_genesis_roundtrip_witness :
  exists st : drip_state toy, drip_InitGenesis (MkDripParams true [str "terp1alice"]) (MkDrip ∅ w_drip_bank) = (st, Ok tt) /\
    drip_ExportGenesis st = (st, Ok (MkDripParams true [str "terp1alice"])) /\ drip_wf (dr_store st).
Proof. apply (drip_genesis_roundtrip (MkDripParams true [str "terp1alice"]) ∅ w_drip_bank). vm_refl. Defined.
Lemma w_drip_wf : drip_wf (dr_store w_drip).
Proof.
  change (dr_store w_drip) with (store_Set DripParamsKey (Marshal (MkDripParams true [str "terp1alice"])) ∅).
  apply drip_wf_set. apply (DripParams_Validate_ok (MkDripParams true [str "terp1alice"])). vm_refl.
Qed.
Lemma drip_history_witness :
  rtc (drip_step w_drip_keeper) w_drip w_drip /\
  toy_get (dr_rest w_drip1) (Module (str "fee_collector")) (str "uterp") = 40 /\ drip_wf (dr_store w_drip1).
Proof.
  split; [done|]. split; [vm_refl|].
  apply (drip_history w_drip_keeper w_drip w_drip w_drip1 w_drip_wf); [done|].
  apply (drip_distribute _ w_drip_msg). vm_refl.
Defined.
Lemma drip_refused_witness :
  DistributeTokens w_drip_keeper (MkMsgDistributeTokens (str "terp1bob") [MkCoin (str "uterp") 1]) w_drip =
    (w_drip, Err ErrDripNotAllowed) /\ ErrDripNotAllowed <> DripPanic.
Proof.
  assert (E : DistributeTokens w_drip_keeper (MkMsgDistributeTokens (str "terp1bob") [MkCoin (str "uterp") 1]) w_drip =
    (w_drip, Err ErrDripNotAllowed)) by vm_refl.
  split; [done|].
  by destruct (proj1 (drip_refused w_drip_keeper w_drip w_drip_wf) _ _ _ E).
Defined.
