(* ===== verification/CwHooks.v ===== *)
(** * cw-hooks

    [x/cw-hooks]: contracts register to be told of staking and governance
    events; when an event happens every registered contract is called with a
    JSON message under a gas limit. The registries and messages, the hooks with
    their messages, genesis. The staking, governance and wasm keepers are
    parameters; a contract that is called may do anything, this module's own
    messages included. *)

From S2P Require Import Prelude KVStore Json JsonPrint Sdk Proto.

Open Scope go_scope.

(** ** Data *)

Record CwParams := MkCwParams { ContractGasLimit : Z }.
Record CwGenesis := MkCwGenesis {
  cg_Params : CwParams; StakingContractAddresses : list bytes; GovContractAddresses : list bytes
}.

Inductive cw_err :=
| ErrCwSigner       (* [govtypes.ErrInvalidSigner] *)
| ErrCwAddress      (* an error of [AccAddressFromBech32] *)
| ErrCwRegistered | ErrCwNotRegistered   (* [ErrInvalidRequest] *)
| ErrCwNoContract   (* [ErrInvalidAddress] *)
| ErrCwCreator | ErrCwAdmin              (* [ErrUnauthorized] *)
| ErrCwKeeper       (* an error of the staking or governance keeper *)
| ErrCwContract     (* an error a contract returned *)
| CwPanic.

(** The fields of the SDK's types that are read. *)
Record ContractInfo := MkContractInfo { ci_Creator : bytes; ci_Admin : bytes }.
Record ValidatorI := MkValidatorI {
  GetMoniker : bytes; GetOperator : bytes; GetCommission : Z; GetTokens : Z; GetStatus : Z
}.
Record DelegationI := MkDelegationI { GetValidatorAddr : bytes; GetDelegatorAddr : bytes; GetShares : Z }.
(** [SubmitTime] in seconds; [None] is a nil pointer. *)
Record GovProposal := MkGovProposal {
  gp_Id : Z; gp_Proposer : bytes; gp_Status : Z; gp_SubmitTime : option Z; gp_Metadata : bytes; gp_Title : bytes;
  gp_Summary : bytes
}.
Record WeightedVoteOption := MkWeightedVoteOption { wo_Option : Z; wo_Weight : bytes }.
Record GovVote := MkGovVote { gv_ProposalId : Z; gv_Voter : bytes; gv_Options : list (option WeightedVoteOption) }.

(** The module's store and the rest of the chain. *)
Record cw_state (B : Type) := MkCw { cw_store : store; cw_rest : B }.
Arguments MkCw {B} cw_store cw_rest.
Arguments cw_store {B} _.
Arguments cw_rest {B} _.

(** What the module calls. [cw_Sudo limit contract msg] runs a contract under a
    fresh gas meter; running out of gas panics. A keeper returns a value, nil
    here [None], and an error. *)
Class CwSdk (B : Type) := {
  HasContractInfo : B -> bytes -> bool;
  GetContractInfo : B -> bytes -> option ContractInfo;
  cw_Sudo : Z -> bytes -> bytes -> meth (cw_state B) cw_err unit;
  staking_Validator : B -> bytes -> option ValidatorI * option cw_err;
  staking_Delegation : B -> bytes -> bytes -> option DelegationI * option cw_err;
  gov_Proposals_Get : B -> Z -> result cw_err GovProposal;
  gov_Votes_Get : B -> Z -> bytes -> result cw_err GovVote;
  (** [LegacyDec.String], [Int.String], [BondStatus.String]; how
      [encoding/json] writes a [WeightedVoteOption] *)
  Dec_String : Z -> bytes;
  Int_String : Z -> bytes;
  BondStatus_String : Z -> bytes;
  enc_WeightedVoteOption : WeightedVoteOption -> json
}.

(** ** Keys *)

Definition CwParamsKey : bytes := [Byte.x00].
Definition KeyPrefixStaking : bytes := [Byte.x01].
Definition KeyPrefixGov : bytes := [Byte.x02].

Section CwHooks.
Context {B : Type} {SdkB : Sdk B} {CB : CwSdk B} {PP : Proto CwParams}.
Abbreviation M := (meth (cw_state B) cw_err).

Definition upd_cw (f : store -> store) : M unit := mput (fun st => MkCw (f (cw_store st)) (cw_rest st)).

(** ** Parameters *)

Definition cw_DefaultParams : CwParams := MkCwParams 250000.
Definition CwParams_Validate (p : CwParams) : result cw_err unit := Ok tt.
Definition cw_SetParams (p : CwParams) : M unit :=
  exec! mlift (CwParams_Validate p);
  upd_cw (store_Set CwParamsKey (Marshal p)).
Definition cw_GetParams : M CwParams :=
  fun st => match cw_store st !! CwParamsKey with
            | None => (st, Ok (MkCwParams 0))
            | Some bz => match Unmarshal bz with
                         | Some p => (st, Ok p)
                         | None => (st, Err CwPanic)
                         end
            end.

(** ** Contracts *)

Definition SetContract (keyPrefix contractAddr : bytes) : M unit := upd_cw (store_Set (keyPrefix ++ contractAddr) []).
Definition IsContractRegistered (keyPrefix contractAddr : bytes) (m : store) : bool :=
  bool_decide (is_Some (m !! (keyPrefix ++ contractAddr))).
(** The addresses [IterateContracts] visits. *)
Definition GetAllContracts (keyPrefix : bytes) (m : store) : list bytes :=
  map (fun kv => drop (length keyPrefix) kv.1) (IteratePrefix m keyPrefix).
Definition GetAllContractsBech32 (keyPrefix : bytes) (m : store) : list bytes :=
  map AccAddress_String (GetAllContracts keyPrefix m).
Definition DeleteContract (keyPrefix contractAddr : bytes) : M unit := upd_cw (store_Delete (keyPrefix ++ contractAddr)).

Definition ExecuteMessageOnContracts (keyPrefix msgBz : bytes) : M unit :=
  run! p <- cw_GetParams;
  run! contracts <- mget (fun st => GetAllContracts keyPrefix (cw_store st));
  mrange contracts (fun c => cw_Sudo (ContractGasLimit p) c msgBz).

(** ** Messages *)

Definition isContractSenderAuthorized (sender contract : bytes) : M unit :=
  fun st =>
    if negb (HasContractInfo (cw_rest st) contract) then (st, Err ErrCwNoContract)
    else match GetContractInfo (cw_rest st) contract with
         | None => (st, Err CwPanic)
         | Some contractInfo =>
             if negb (bytes_eqb (ci_Creator contractInfo) []) && negb (bytes_eqb (ci_Creator contractInfo) sender)
             then (st, Err ErrCwCreator)
             else if negb (bytes_eqb (ci_Admin contractInfo) []) && negb (bytes_eqb (ci_Admin contractInfo) sender)
             then (st, Err ErrCwAdmin)
             else (st, Ok tt)
         end.
Definition handleContractRegister (sender contractAddr keyPrefix : bytes) : M unit :=
  match AccAddressFromBech32 contractAddr with
  | None => mfail ErrCwAddress
  | Some contract =>
      run! m <- mget cw_store;
      exec! mlift (guard (IsContractRegistered keyPrefix contract m) ErrCwRegistered);
      exec! isContractSenderAuthorized sender contract;
      SetContract keyPrefix contract
  end.
Definition handleContractRemoval (sender contractAddr keyPrefix : bytes) : M unit :=
  match AccAddressFromBech32 contractAddr with
  | None => mfail ErrCwAddress
  | Some contract =>
      run! m <- mget cw_store;
      exec! mlift (guard (negb (IsContractRegistered keyPrefix contract m)) ErrCwNotRegistered);
      exec! isContractSenderAuthorized sender contract;
      DeleteContract keyPrefix contract
  end.
(** The two address checks every message starts with. *)
Definition check_addresses (RegisterAddress ContractAddress : bytes) : result cw_err unit :=
  match AccAddressFromBech32 RegisterAddress, AccAddressFromBech32 ContractAddress with
  | Some _, Some _ => Ok tt
  | _, _ => Err ErrCwAddress
  end.
Definition RegisterStaking (RegisterAddress ContractAddress : bytes) : M unit :=
  exec! mlift (check_addresses RegisterAddress ContractAddress);
  handleContractRegister RegisterAddress ContractAddress KeyPrefixStaking.
Definition RegisterGovernance (RegisterAddress ContractAddress : bytes) : M unit :=
  exec! mlift (check_addresses RegisterAddress ContractAddress);
  handleContractRegister RegisterAddress ContractAddress KeyPrefixGov.
Definition UnregisterGovernance (RegisterAddress ContractAddress : bytes) : M unit :=
  exec! mlift (check_addresses RegisterAddress ContractAddress);
  handleContractRemoval RegisterAddress ContractAddress KeyPrefixGov.
Definition UnregisterStaking (RegisterAddress ContractAddress : bytes) : M unit :=
  exec! mlift (check_addresses RegisterAddress ContractAddress);
  handleContractRemoval RegisterAddress ContractAddress KeyPrefixStaking.
Definition cw_UpdateParams (authority Authority : bytes) (Params : CwParams) : M unit :=
  exec! mlift (guard (negb (bytes_eqb authority Authority)) ErrCwSigner);
  match AccAddressFromBech32 Authority with
  | None => mfail ErrCwAddress
  | Some _ => cw_SetParams Params
  end.

(** ** Genesis *)

Fixpoint valid_addresses (l : list bytes) : result cw_err unit :=
  match l with
  | [] => Ok tt
  | v :: l' => match AccAddressFromBech32 v with
               | None => Err ErrCwAddress
               | Some _ => valid_addresses l'
               end
  end.
Definition ValidateGenesis (data : CwGenesis) : result cw_err unit :=
  check! valid_addresses (StakingContractAddresses data);
  check! valid_addresses (GovContractAddresses data);
  CwParams_Validate (cg_Params data).
Definition init_contract (keyPrefix v : bytes) : M unit :=
  match AccAddressFromBech32 v with
  | None => mfail CwPanic
  | Some accAddr => SetContract keyPrefix accAddr
  end.
Definition cw_InitGenesis (data : CwGenesis) : M unit :=
  match ValidateGenesis data with
  | Err _ => mfail CwPanic
  | Ok _ =>
      exec! cw_SetParams (cg_Params data);
      exec! mrange (StakingContractAddresses data) (init_contract KeyPrefixStaking);
      mrange (GovContractAddresses data) (init_contract KeyPrefixGov)
  end.
Definition cw_ExportGenesis : M CwGenesis :=
  run! params <- cw_GetParams;
  mget (fun st => MkCwGenesis params (GetAllContractsBech32 KeyPrefixStaking (cw_store st))
                    (GetAllContractsBech32 KeyPrefixGov (cw_store st))).

(** ** The messages of staking events *)

Definition Validator_json (val : ValidatorI) : json :=
  JObj [(str "moniker", JStr (GetMoniker val)); (str "validator_address", JStr (GetOperator val));
        (str "commission", JStr (Dec_String (GetCommission val)));
        (str "validator_tokens", JStr (Int_String (GetTokens val)));
        (str "bonded_tokens", JStr (Int_String (GetTokens val)));
        (str "bond_status", JStr (BondStatus_String (GetStatus val)))].
Definition ValidatorSlashed_json (val : ValidatorI) (fraction : Z) : json :=
  JObj [(str "moniker", JStr (GetMoniker val)); (str "validator_address", JStr (GetOperator val));
        (str "slashed_amount", JStr (Dec_String fraction))].
Definition Delegation_json (del : DelegationI) : json :=
  JObj [(str "validator_address", JStr (GetValidatorAddr del)); (str "delegator_address", JStr (GetDelegatorAddr del));
        (str "shares", JStr (Dec_String (GetShares del)))].
(** A struct with one field. *)
Definition sudo_msg (field : string) (v : json) : bytes := json_print (JObj [(str field, v)]).

(** ** Staking hooks *)

Definition skipUntilHeight : Z := 2.
(** The shape of a hook: nothing happens up to [skipUntilHeight]; a value that
    is nil ends it, with the error only in [AfterValidatorCreated]. *)
Definition staking_hook {A : Type} (height : Z) (found : B -> option A * option cw_err) (nil_err : bool)
    (msg : A -> bytes) : M unit :=
  fun st =>
    if height <=? skipUntilHeight then (st, Ok tt)
    else match found (cw_rest st) with
         | (None, err) => (st, match err with Some e => if nil_err then Err e else Ok tt | None => Ok tt end)
         | (Some _, Some e) => (st, Err e)
         | (Some v, None) => ExecuteMessageOnContracts KeyPrefixStaking (msg v) st
         end.
Definition AfterValidatorCreated (height : Z) (valAddr : bytes) : M unit :=
  staking_hook height (fun b => staking_Validator b valAddr) true
    (fun val => sudo_msg "after_validator_created" (Validator_json val)).
Definition AfterValidatorRemoved (height : Z) (valAddr : bytes) : M unit :=
  staking_hook height (fun b => staking_Validator b valAddr) false
    (fun val => sudo_msg "after_validator_removed" (Validator_json val)).
Definition BeforeDelegationCreated (height : Z) (delAddr valAddr : bytes) : M unit :=
  staking_hook height (fun b => staking_Delegation b delAddr valAddr) false
    (fun del => sudo_msg "before_delegation_created" (Delegation_json del)).
Definition BeforeDelegationSharesModified (height : Z) (delAddr valAddr : bytes) : M unit :=
  staking_hook height (fun b => staking_Delegation b delAddr valAddr) false
    (fun del => sudo_msg "before_delegation_shares_modified" (Delegation_json del)).
Definition AfterDelegationModified (height : Z) (delAddr valAddr : bytes) : M unit :=
  staking_hook height (fun b => staking_Delegation b delAddr valAddr) false
    (fun del => sudo_msg "after_delegation_modified" (Delegation_json del)).
Definition BeforeValidatorSlashed (height : Z) (valAddr : bytes) (fraction : Z) : M unit :=
  staking_hook height (fun b => staking_Validator b valAddr) false
    (fun val => sudo_msg "before_validator_slashed" (ValidatorSlashed_json val fraction)).
Definition BeforeValidatorModified (height : Z) (valAddr : bytes) : M unit :=
  staking_hook height (fun b => staking_Validator b valAddr) false
    (fun val => sudo_msg "before_validator_modified" (Validator_json val)).
Definition AfterValidatorBonded (height : Z) (valAddr : bytes) : M unit :=
  staking_hook height (fun b => staking_Validator b valAddr) false
    (fun val => sudo_msg "after_validator_bonded" (Validator_json val)).
Definition AfterValidatorBeginUnbonding (height : Z) (valAddr : bytes) : M unit :=
  staking_hook height (fun b => staking_Validator b valAddr) false
    (fun val => sudo_msg "after_validator_begin_unbonding" (Validator_json val)).
Definition BeforeDelegationRemoved (height : Z) (delAddr valAddr : bytes) : M unit :=
  staking_hook height (fun b => staking_Delegation b delAddr valAddr) false
    (fun del => sudo_msg "before_delegation_removed" (Delegation_json del)).
Definition AfterUnbondingInitiated (id : Z) : M unit := mret tt.

(** ** Governance hooks *)

(** [uint(prop.Status)] of an [int32]; [Second] is the second within the
    minute; a nil time is dereferenced. *)
Definition NewProposal (prop : GovProposal) : result cw_err json :=
  match gp_SubmitTime prop with
  | None => Err CwPanic
  | Some t =>
      Ok (JObj [(str "proposal_id", enc_uint (gp_Id prop)); (str "proposer", JStr (gp_Proposer prop));
                (str "status", enc_uint (u64 (gp_Status prop))); (str "submit_time", JStr (FormatInt (t mod 60)));
                (str "metadata", JStr (gp_Metadata prop)); (str "title", JStr (gp_Title prop));
                (str "summary", JStr (gp_Summary prop))])
  end.
(** The codec reads no options as a nil slice. *)
Definition NewVote (vote : GovVote) : json :=
  JObj [(str "proposal_id", enc_uint (gv_ProposalId vote)); (str "voter_address", JStr (gv_Voter vote));
        (str "vote_option", match gv_Options vote with
                            | [] => JNull
                            | l => JArr (map (fun o => match o with Some w => enc_WeightedVoteOption w | None => JNull end) l)
                            end)].
(** The error of the contracts is printed, and what is returned is the error of
    printing it, which is taken to succeed. A panic is not an error. *)
Definition tell_governance (msgBz : bytes) : M unit :=
  fun st => match ExecuteMessageOnContracts KeyPrefixGov msgBz st with
            | (st', Err CwPanic) => (st', Err CwPanic)
            | (st', _) => (st', Ok tt)
            end.
Definition AfterProposalSubmission (proposalID : Z) : M unit :=
  fun st =>
    (run! prop <- mlift (gov_Proposals_Get (cw_rest st) proposalID);
     run! v <- mlift (NewProposal prop);
     tell_governance (sudo_msg "after_proposal_submission" v)) st.
Definition AfterProposalDeposit (proposalID : Z) : M unit :=
  fun st =>
    (run! prop <- mlift (gov_Proposals_Get (cw_rest st) proposalID);
     run! v <- mlift (NewProposal prop);
     tell_governance (sudo_msg "after_proposal_deposit" v)) st.
Definition AfterProposalVote (proposalID : Z) (voterAddr : bytes) : M unit :=
  fun st =>
    (run! vote <- mlift (gov_Votes_Get (cw_rest st) proposalID voterAddr);
     tell_governance (sudo_msg "after_proposal_vote" (NewVote vote))) st.
Definition AfterProposalFailedMinDeposit (proposalID : Z) : M unit := mret tt.
Definition AfterProposalVotingPeriodEnded (proposalID : Z) : M unit :=
  tell_governance (sudo_msg "after_proposal_voting_period_ended" (JStr (FormatInt (i64 proposalID)))).
End CwHooks.

(** ** The registries as sets *)

#[global] Instance wire_cw : WireOk CwParams := fun p => is_u64 (ContractGasLimit p).
(** A contract the wasm keeper has is one it returns. *)
Class CwLaws (B : Type) `{CwSdk B} := {
  contract_info_law : forall b c, HasContractInfo b c = true -> exists ci, GetContractInfo b c = Some ci
}.

Record registry := MkRegistry { rg_params : CwParams; rg_staking : gset bytes; rg_gov : gset bytes }.

Section CwLemmas.
Context {B : Type} {SdkB : Sdk B} {AL : AddressLaws B} {CB : CwSdk B} {CL : CwLaws B}
  {PP : Proto CwParams} {PL : ProtoLaws CwParams}.

Definition addr_ok (a : bytes) : Prop := exists s, AccAddressFromBech32 s = Some a.
Definition holds_set (m : store) (pfx : bytes) (X : gset bytes) : Prop :=
  (forall a, m !! (pfx ++ a) = if decide (a ∈ X) then Some [] else None) /\ forall a, a ∈ X -> addr_ok a.
Definition holds_params (m : store) (p : CwParams) : Prop :=
  wire_ok p /\ (m !! CwParamsKey = Some (Marshal p) \/ (m !! CwParamsKey = None /\ p = MkCwParams 0)).
Definition cw_rel (m : store) (r : registry) : Prop :=
  holds_params m (rg_params r) /\ holds_set m KeyPrefixStaking (rg_staking r) /\ holds_set m KeyPrefixGov (rg_gov r).

Lemma holds_set_frame m pfx X k v : (forall a, pfx ++ a <> k) -> holds_set m pfx X -> holds_set (<[k := v]> m) pfx X.
Proof. intros Hk [H Ha]. split; [|done]. intros a. rewrite lookup_insert_ne; [apply H|]. intros E. by apply (Hk a). Qed.
Lemma holds_set_frame_delete m pfx X k : (forall a, pfx ++ a <> k) -> holds_set m pfx X -> holds_set (delete k m) pfx X.
Proof. intros Hk [H Ha]. split; [|done]. intros a. rewrite lookup_delete_ne; [apply H|]. intros E. by apply (Hk a). Qed.
Lemma holds_set_insert m pfx X c : addr_ok c -> holds_set m pfx X -> holds_set (<[pfx ++ c := []]> m) pfx ({[c]} ∪ X).
Proof.
  intros Hc [H Ha]. split; [|set_solver]. intros a. destruct (decide (a = c)) as [->|Hn].
  - rewrite lookup_insert_eq, decide_True; [done|set_solver].
  - rewrite lookup_insert_ne by (intros E%app_inv_head; congruence). rewrite H.
    destruct (decide (a ∈ X)); [rewrite decide_True|rewrite decide_False]; set_solver.
Qed.
Lemma holds_set_delete m pfx X c : holds_set m pfx X -> holds_set (delete (pfx ++ c) m) pfx (X ∖ {[c]}).
Proof.
  intros [H Ha]. split; [|set_solver]. intros a. destruct (decide (a = c)) as [->|Hn].
  - rewrite lookup_delete_eq, decide_False; [done|set_solver].
  - rewrite lookup_delete_ne by (intros E%app_inv_head; congruence). rewrite H.
    destruct (decide (a ∈ X)); [rewrite decide_True|rewrite decide_False]; set_solver.
Qed.
Lemma holds_params_frame m p k v : k <> CwParamsKey -> holds_params m p -> holds_params (<[k := v]> m) p.
Proof. intros Hk [Hw H]. split; [done|]. by rewrite lookup_insert_ne. Qed.
Lemma holds_params_frame_delete m p k : k <> CwParamsKey -> holds_params m p -> holds_params (delete k m) p.
Proof. intros Hk [Hw H]. split; [done|]. by rewrite lookup_delete_ne. Qed.
Lemma holds_params_set m p : wire_ok p -> holds_params (<[CwParamsKey := Marshal p]> m) p.
Proof. intros Hw. split; [done|]. left. by rewrite lookup_insert_eq. Qed.
Lemma cw_GetParams_rel (st : cw_state B) p : holds_params (cw_store st) p -> cw_GetParams st = (st, Ok p).
Proof.
  intros [Hw [H|[H ->]]]; unfold cw_GetParams; rewrite H; [|done]. by rewrite proto_roundtrip.
Qed.
Lemma registered_rel m pfx X c : holds_set m pfx X -> IsContractRegistered pfx c m = bool_decide (c ∈ X).
Proof.
  intros [H _]. unfold IsContractRegistered. rewrite H. apply bool_decide_ext.
  case_decide; split; try done; by intros [].
Qed.
(** The contracts of a prefix: the set, ascending, each once. *)
Lemma GetAllContracts_rel m pfx X : holds_set m pfx X ->
  let cs := GetAllContracts pfx m in
  StronglySorted bytes_le cs /\ NoDup cs /\ forall a, a ∈ cs <-> a ∈ X.
Proof.
  intros [H _] cs. unfold cs, GetAllContracts.
  assert (Hp : forall kv, kv ∈ IteratePrefix m pfx -> exists a, kv.1 = pfx ++ a).
  { intros [k v] [_ Hk]%elem_of_IteratePrefix. by apply has_prefix_true. }
  assert (Hd : forall a, drop (length pfx) (pfx ++ a) = a) by (intros; by rewrite drop_app_length).
  split; [|split].
  - pose proof (Sorted_IteratePrefix m pfx) as Hs. revert Hs Hp. generalize (IteratePrefix m pfx) as l.
    induction l as [|kv l IH]; intros Hs Hp; cbn [map]; [constructor|]. apply StronglySorted_inv in Hs as [Hs Hf].
    constructor; [apply IH; [done|]; intros; apply Hp; by right|]. apply Forall_map. rewrite Forall_forall in *.
    intros kv' Hi. specialize (Hf kv' Hi). destruct (Hp kv ltac:(left)) as [a Ea], (Hp kv' ltac:(by right)) as [b Eb].
    unfold key_le in Hf. rewrite Ea, Eb in *. rewrite !Hd. by apply bytes_le_common in Hf.
  - apply NoDup_suffixes.
  - intros a. rewrite list_elem_of_fmap. split.
    + intros (kv & -> & Hi). destruct (Hp kv Hi) as [b Eb]. destruct kv as [k v]. cbn [fst] in *. subst k.
      rewrite Hd. apply elem_of_IteratePrefix in Hi as [Hm _]. rewrite H in Hm. by case_decide.
    + intros Ha. exists (pfx ++ a, []). split; [cbn; by rewrite Hd|]. apply elem_of_IteratePrefix.
      rewrite H, decide_True by done. split; [done|]. apply has_prefix_app.
Qed.

(** ** Messages on the sets *)

Inductive cw_msg :=
| MRegisterStaking (RegisterAddress ContractAddress : bytes)
| MRegisterGovernance (RegisterAddress ContractAddress : bytes)
| MUnregisterGovernance (RegisterAddress ContractAddress : bytes)
| MUnregisterStaking (RegisterAddress ContractAddress : bytes)
| MCwUpdateParams (Authority : bytes) (Params : CwParams).
Definition cw_handle (authority : bytes) (msg : cw_msg) : meth (cw_state B) cw_err unit :=
  match msg with
  | MRegisterStaking s c => RegisterStaking s c
  | MRegisterGovernance s c => RegisterGovernance s c
  | MUnregisterGovernance s c => UnregisterGovernance s c
  | MUnregisterStaking s c => UnregisterStaking s c
  | MCwUpdateParams a p => cw_UpdateParams authority a p
  end.

(** Who may register a contract: somebody who is its creator, if it names one,
    and also its admin, if it has one. *)
Definition may_register (b : B) (s c : bytes) : bool :=
  HasContractInfo b c &&
  match GetContractInfo b c with
  | None => false
  | Some ci => (bytes_eqb (ci_Creator ci) [] || bytes_eqb (ci_Creator ci) s) &&
               (bytes_eqb (ci_Admin ci) [] || bytes_eqb (ci_Admin ci) s)
  end.
Definition set_add (b : B) (s c : bytes) (X : gset bytes) : option (gset bytes) :=
  _ ← AccAddressFromBech32 s; a ← AccAddressFromBech32 c;
  if bool_decide (a ∉ X) && may_register b s a then Some ({[a]} ∪ X) else None.
Definition set_remove (b : B) (s c : bytes) (X : gset bytes) : option (gset bytes) :=
  _ ← AccAddressFromBech32 s; a ← AccAddressFromBech32 c;
  if bool_decide (a ∈ X) && may_register b s a then Some (X ∖ {[a]}) else None.
Definition cw_apply (authority : bytes) (b : B) (msg : cw_msg) (r : registry) : option registry :=
  match msg with
  | MRegisterStaking s c => X ← set_add b s c (rg_staking r); Some (MkRegistry (rg_params r) X (rg_gov r))
  | MRegisterGovernance s c => X ← set_add b s c (rg_gov r); Some (MkRegistry (rg_params r) (rg_staking r) X)
  | MUnregisterGovernance s c => X ← set_remove b s c (rg_gov r); Some (MkRegistry (rg_params r) (rg_staking r) X)
  | MUnregisterStaking s c => X ← set_remove b s c (rg_staking r); Some (MkRegistry (rg_params r) X (rg_gov r))
  | MCwUpdateParams a p =>
      if bytes_eqb authority a && bool_decide (is_Some (AccAddressFromBech32 a))
      then Some (MkRegistry p (rg_staking r) (rg_gov r)) else None
  end.
Definition cw_msg_ok (msg : cw_msg) : Prop := match msg with MCwUpdateParams _ p => wire_ok p | _ => True end.

Lemma authorized_ok s c (st : cw_state B) :
  (may_register (cw_rest st) s c = true -> isContractSenderAuthorized s c st = (st, Ok tt)) /\
  (may_register (cw_rest st) s c = false -> exists e, isContractSenderAuthorized s c st = (st, Err e) /\ e <> CwPanic).
Proof.
  unfold may_register, isContractSenderAuthorized. destruct (HasContractInfo (cw_rest st) c) eqn:Eh; cbn [andb negb].
  2: { split; [done|]. intros _. by eexists. }
  apply contract_info_law in Eh as [ci ->].
  destruct (bytes_eqb (ci_Creator ci) []), (bytes_eqb (ci_Creator ci) s), (bytes_eqb (ci_Admin ci) []),
    (bytes_eqb (ci_Admin ci) s); cbn; split; try done; intros _; by eexists.
Qed.
(** Registering on a prefix adds to its set or is refused. *)
Lemma register_rel pfx X s c (st : cw_state B) :
  holds_set (cw_store st) pfx X ->
  let run := (exec! mlift (check_addresses s c); handleContractRegister s c pfx) st in
  match set_add (cw_rest st) s c X with
  | Some X' => exists a, addr_ok a /\ X' = {[a]} ∪ X /\ run = (MkCw (<[pfx ++ a := []]> (cw_store st)) (cw_rest st), Ok tt)
  | None => exists e, run = (st, Err e) /\ e <> CwPanic
  end.
Proof.
  intros HX. unfold set_add, check_addresses, handleContractRegister, mbind, mlift, mget. cbv zeta.
  destruct (AccAddressFromBech32 s) as [sa|]; [|by eexists].
  destruct (AccAddressFromBech32 c) as [a|] eqn:Ec; cbn [base.mbind option_bind]; [|by eexists].
  rewrite (registered_rel _ _ _ a HX). destruct (decide (a ∈ X)) as [Hi|Hi].
  - rewrite (bool_decide_eq_true_2 (a ∈ X)), (bool_decide_eq_false_2 (a ∉ X)) by tauto. by eexists.
  - rewrite (bool_decide_eq_false_2 (a ∈ X)), (bool_decide_eq_true_2 (a ∉ X)) by tauto. cbn [andb guard].
    destruct (authorized_ok s a st) as [Hy Hn]. destruct (may_register _ s a).
    + rewrite Hy by done. exists a. split; [by exists c|]. done.
    + destruct Hn as (e & -> & He); [done|]. by exists e.
Qed.
Lemma unregister_rel pfx X s c (st : cw_state B) :
  holds_set (cw_store st) pfx X ->
  let run := (exec! mlift (check_addresses s c); handleContractRemoval s c pfx) st in
  match set_remove (cw_rest st) s c X with
  | Some X' => exists a, X' = X ∖ {[a]} /\ run = (MkCw (delete (pfx ++ a) (cw_store st)) (cw_rest st), Ok tt)
  | None => exists e, run = (st, Err e) /\ e <> CwPanic
  end.
Proof.
  intros HX. unfold set_remove, check_addresses, handleContractRemoval, mbind, mlift, mget. cbv zeta.
  destruct (AccAddressFromBech32 s) as [sa|]; [|by eexists].
  destruct (AccAddressFromBech32 c) as [a|] eqn:Ec; cbn [base.mbind option_bind]; [|by eexists].
  rewrite (registered_rel _ _ _ a HX). destruct (bool_decide (a ∈ X)); cbn [andb guard negb]; [|by eexists].
  destruct (authorized_ok s a st) as [Hy Hn]. destruct (may_register _ s a).
  - rewrite Hy by done. by exists a.
  - destruct Hn as (e & -> & He); [done|]. by exists e.
Qed.
Lemma cw_keys_ne a b : KeyPrefixStaking ++ a <> KeyPrefixGov ++ b /\ KeyPrefixGov ++ b <> KeyPrefixStaking ++ a /\
  KeyPrefixStaking ++ a <> CwParamsKey /\ KeyPrefixGov ++ b <> CwParamsKey.
Proof. done. Qed.
Ltac frame := first [apply holds_set_frame | apply holds_set_frame_delete | apply holds_params_frame
                    | apply holds_params_frame_delete]; [try intros ?; try done; by apply cw_keys_ne|done].


(** ** Events *)

(** The calls of a list of contracts, in order, up to the first that fails. *)
Inductive called (limit : Z) (msg : bytes) : list bytes -> cw_state B -> cw_state B * result cw_err unit -> Prop :=
| called_done st : called limit msg [] st (st, Ok tt)
| called_next c cs st st' out :
    cw_Sudo limit c msg st = (st', Ok tt) -> called limit msg cs st' out -> called limit msg (c :: cs) st out
| called_stop c cs st st' e :
    cw_Sudo limit c msg st = (st', Err e) -> called limit msg (c :: cs) st (st', Err e).
Lemma mrange_called limit msg cs st : called limit msg cs st (mrange cs (fun c => cw_Sudo limit c msg) st).
Proof.
  revert st. induction cs as [|c cs IH]; intros st; [constructor|]. rewrite mrange_cons.
  destruct (cw_Sudo limit c msg st) as [st' [[]|e]] eqn:E; [by eapply called_next|by apply called_stop].
Qed.
(** The contracts of a set, ascending. *)
Definition ascending (X : gset bytes) (cs : list bytes) : Prop :=
  StronglySorted bytes_le cs /\ NoDup cs /\ forall a, a ∈ cs <-> a ∈ X.
Lemma Execute_called pfx X p msg (st : cw_state B) :
  holds_set (cw_store st) pfx X -> holds_params (cw_store st) p ->
  exists cs, ascending X cs /\ called (ContractGasLimit p) msg cs st (ExecuteMessageOnContracts pfx msg st).
Proof.
  intros HX Hp. exists (GetAllContracts pfx (cw_store st)). split; [by apply GetAllContracts_rel|].
  unfold ExecuteMessageOnContracts, mbind, mget. rewrite (cw_GetParams_rel _ p Hp). apply mrange_called.
Qed.

Inductive staking_event :=
| EvValidatorCreated (valAddr : bytes) | EvValidatorRemoved (valAddr : bytes) | EvValidatorModified (valAddr : bytes)
| EvValidatorBonded (valAddr : bytes) | EvValidatorBeginUnbonding (valAddr : bytes)
| EvValidatorSlashed (valAddr : bytes) (fraction : Z)
| EvDelegationCreated (delAddr valAddr : bytes) | EvDelegationSharesModified (delAddr valAddr : bytes)
| EvDelegationModified (delAddr valAddr : bytes) | EvDelegationRemoved (delAddr valAddr : bytes).
Definition staking_hook_of (ev : staking_event) (height : Z) : meth (cw_state B) cw_err unit :=
  match ev with
  | EvValidatorCreated v => AfterValidatorCreated height v
  | EvValidatorRemoved v => AfterValidatorRemoved height v
  | EvValidatorModified v => BeforeValidatorModified height v
  | EvValidatorBonded v => AfterValidatorBonded height v
  | EvValidatorBeginUnbonding v => AfterValidatorBeginUnbonding height v
  | EvValidatorSlashed v f => BeforeValidatorSlashed height v f
  | EvDelegationCreated d v => BeforeDelegationCreated height d v
  | EvDelegationSharesModified d v => BeforeDelegationSharesModified height d v
  | EvDelegationModified d v => AfterDelegationModified height d v
  | EvDelegationRemoved d v => BeforeDelegationRemoved height d v
  end.
(** What the contracts are told: the name of the event and the record the
    staking keeper has, if it has one. *)
Definition told {A : Type} (found : option A * option cw_err) (name : string) (f : A -> json) : option json :=
  match found with (Some v, None) => Some (JObj [(str name, f v)]) | _ => None end.
Definition staking_payload (ev : staking_event) (b : B) : option json :=
  match ev with
  | EvValidatorCreated v => told (staking_Validator b v) "after_validator_created" Validator_json
  | EvValidatorRemoved v => told (staking_Validator b v) "after_validator_removed" Validator_json
  | EvValidatorModified v => told (staking_Validator b v) "before_validator_modified" Validator_json
  | EvValidatorBonded v => told (staking_Validator b v) "after_validator_bonded" Validator_json
  | EvValidatorBeginUnbonding v => told (staking_Validator b v) "after_validator_begin_unbonding" Validator_json
  | EvValidatorSlashed v f => told (staking_Validator b v) "before_validator_slashed" (fun x => ValidatorSlashed_json x f)
  | EvDelegationCreated d v => told (staking_Delegation b d v) "before_delegation_created" Delegation_json
  | EvDelegationSharesModified d v => told (staking_Delegation b d v) "before_delegation_shares_modified" Delegation_json
  | EvDelegationModified d v => told (staking_Delegation b d v) "after_delegation_modified" Delegation_json
  | EvDelegationRemoved d v => told (staking_Delegation b d v) "before_delegation_removed" Delegation_json
  end.
Lemma staking_hook_told {A} height (found : B -> option A * option cw_err) nil_err name (f : A -> json) r (st : cw_state B) :
  cw_rel (cw_store st) r -> (forall v, jheight (JObj [(str name, f v)]) <= maxNestingDepth) ->
  let out := staking_hook height found nil_err (fun v => sudo_msg name (f v)) st in
  match told (found (cw_rest st)) name f with
  | Some v => if height <=? skipUntilHeight then out = (st, Ok tt)
              else exists cs msg, ascending (rg_staking r) cs /\ (printable v = true -> json_parse msg = Some v) /\
                     called (ContractGasLimit (rg_params r)) msg cs st out
  | None => out.1 = st
  end.
Proof.
  intros (Hp & Hs & _) Hh. cbv zeta. unfold staking_hook, told. destruct (height <=? skipUntilHeight).
  { destruct (found (cw_rest st)) as [[v|] [e|]]; done. }
  destruct (found (cw_rest st)) as [[v|] [e|]]; try done.
  destruct (Execute_called KeyPrefixStaking _ _ (sudo_msg name (f v)) st Hs Hp) as (cs & Hcs & Hc).
  exists cs, (sudo_msg name (f v)). split; [done|]. split; [|done]. intros Hpr. by apply json_print_parse.
Qed.

(** Staking events. After the second block every hook that finds its record
    calls the contracts that are registered when the event happens, each once,
    in ascending order, under the governed gas limit, with a message that reads
    back as the event and its record, whatever the contracts do in between; the
    first that fails ends the calls and its error is the hook's. Up to the
    second block, and when there is no record, no contract is called and
    nothing changes. *)
Theorem staking_events_delivered ev height r (st : cw_state B) :
  cw_rel (cw_store st) r ->
  match staking_payload ev (cw_rest st) with
  | Some v => if height <=? skipUntilHeight then staking_hook_of ev height st = (st, Ok tt)
              else exists cs msg, ascending (rg_staking r) cs /\ (printable v = true -> json_parse msg = Some v) /\
                     called (ContractGasLimit (rg_params r)) msg cs st (staking_hook_of ev height st)
  | None => (staking_hook_of ev height st).1 = st
  end.
Proof.
  intros Hr. destruct ev as [v|v|v|v|v|v f|d v|d v|d v|d v].
  1-6: by apply (staking_hook_told height (fun b => staking_Validator b v)).
  all: by apply (staking_hook_told height (fun b => staking_Delegation b d v)).
Qed.

Inductive gov_event :=
| EvProposalSubmission (id : Z) | EvProposalDeposit (id : Z) | EvProposalVote (id : Z) (voter : bytes)
| EvProposalVotingPeriodEnded (id : Z).
Definition gov_hook_of (ev : gov_event) : meth (cw_state B) cw_err unit :=
  match ev with
  | EvProposalSubmission id => AfterProposalSubmission id
  | EvProposalDeposit id => AfterProposalDeposit id
  | EvProposalVote id v => AfterProposalVote id v
  | EvProposalVotingPeriodEnded id => AfterProposalVotingPeriodEnded id
  end.
Definition gov_payload (ev : gov_event) (b : B) : result cw_err json :=
  match ev with
  | EvProposalSubmission id =>
      try! p <- gov_Proposals_Get b id; try! v <- NewProposal p; Ok (JObj [(str "after_proposal_submission", v)])
  | EvProposalDeposit id =>
      try! p <- gov_Proposals_Get b id; try! v <- NewProposal p; Ok (JObj [(str "after_proposal_deposit", v)])
  | EvProposalVote id voter => try! v <- gov_Votes_Get b id voter; Ok (JObj [(str "after_proposal_vote", NewVote v)])
  | EvProposalVotingPeriodEnded id => Ok (JObj [(str "after_proposal_voting_period_ended", JStr (FormatInt (i64 id)))])
  end.
Lemma gov_hook_tells ev (st : cw_state B) :
  gov_hook_of ev st = match gov_payload ev (cw_rest st) with
                      | Ok v => tell_governance (json_print v) st
                      | Err e => (st, Err e)
                      end.
Proof.
  destruct ev; cbn [gov_hook_of gov_payload];
    unfold AfterProposalSubmission, AfterProposalDeposit, AfterProposalVote, AfterProposalVotingPeriodEnded, mbind, mlift;
    try (destruct (gov_Proposals_Get _ _) as [p|]; cbn [rbind]; [|done]; by destruct (NewProposal p));
    try (by destruct (gov_Votes_Get _ _ _)); done.
Qed.

(** Governance events. The contracts that are registered are called in
    ascending order, each once, up to the first that fails, but here an error of
    a contract is dropped: unless a contract panics the hook succeeds. Without a
    record, the error of the governance keeper is returned and nothing changes. *)
Theorem gov_events_delivered ev r (st : cw_state B) :
  cw_rel (cw_store st) r ->
  match gov_payload ev (cw_rest st) with
  | Err e => gov_hook_of ev st = (st, Err e)
  | Ok v => exists cs out, ascending (rg_gov r) cs /\ called (ContractGasLimit (rg_params r)) (json_print v) cs st out /\
      gov_hook_of ev st = (out.1, match out.2 with Err CwPanic => Err CwPanic | _ => Ok tt end)
  end.
Proof.
  intros (Hp & _ & Hg). rewrite gov_hook_tells. destruct (gov_payload ev (cw_rest st)) as [v|e]; [|done].
  destruct (Execute_called KeyPrefixGov _ _ (json_print v) st Hg Hp) as (cs & Hcs & Hc).
  eexists cs, _. split; [done|]. split; [exact Hc|]. unfold tell_governance.
  destruct (ExecuteMessageOnContracts _ _ st) as [st' [[]|[]]]; done.
Qed.

(** ** Genesis *)

Lemma valid_addresses_ok l : valid_addresses l = Ok tt <-> Forall (fun v => AccAddressFromBech32 v <> None) l.
Proof.
  induction l as [|v l IH]; cbn; [by split|]. rewrite Forall_cons, <- IH.
  destruct (AccAddressFromBech32 v); split; try done; [|by intros []]. by intros [].
Qed.
Lemma init_contracts_rel pfx l (st : cw_state B) X :
  holds_set (cw_store st) pfx X -> Forall addr_ok l ->
  exists m', mrange (map AccAddress_String l) (init_contract pfx) st = (MkCw m' (cw_rest st), Ok tt) /\
    holds_set m' pfx (list_to_set l ∪ X) /\ forall k, (forall a, pfx ++ a <> k) -> m' !! k = cw_store st !! k.
Proof.
  intros HX Hl. revert st X HX. induction Hl as [|a l [s Ha] Hl IH]; intros st X HX; cbn [map].
  - exists (cw_store st). destruct st. split; [done|]. split; [|done]. by replace (list_to_set [] ∪ X) with X by set_solver.
  - rewrite mrange_cons. unfold init_contract at 1. rewrite (bech32_roundtrip _ _ Ha). unfold SetContract, upd_cw, mput, store_Set.
    destruct (IH (MkCw (<[pfx ++ a := []]> (cw_store st)) (cw_rest st)) ({[a]} ∪ X)) as (m' & -> & Hm & Hf).
    { cbn. apply holds_set_insert; [by exists s|done]. }
    exists m'. split; [done|]. split.
    + replace (list_to_set (a :: l) ∪ X) with (list_to_set l ∪ ({[a]} ∪ X)) by set_solver. done.
    + intros k Hk. rewrite Hf by done. cbn. by rewrite lookup_insert_ne by (intros E; by apply (Hk a)).
Qed.

Lemma list_set (l : list bytes) (X : gset bytes) : (forall a, a ∈ l <-> a ∈ X) -> list_to_set l ∪ ∅ = X.
Proof. intros H. apply set_eq. intros a. rewrite elem_of_union, elem_of_list_to_set, H. set_solver. Qed.

(** Exporting the module and importing the result into an empty store gives the
    same sets and parameters; the exported genesis validates. *)
Theorem cw_genesis_roundtrip r (st : cw_state B) (b0 : B) :
  cw_rel (cw_store st) r ->
  exists gs, cw_ExportGenesis st = (st, Ok gs) /\ ValidateGenesis gs = Ok tt /\
    exists m', cw_InitGenesis gs (MkCw ∅ b0) = (MkCw m' b0, Ok tt) /\ cw_rel m' r.
Proof.
  intros (Hp & Hs & Hg). unfold cw_ExportGenesis, mbind, mget. rewrite (cw_GetParams_rel _ _ Hp).
  eexists. split; [reflexivity|].
  destruct (GetAllContracts_rel _ _ _ Hs) as (_ & _ & Es), (GetAllContracts_rel _ _ _ Hg) as (_ & _ & Eg).
  set (ls := GetAllContracts KeyPrefixStaking (cw_store st)) in *.
  set (lg := GetAllContracts KeyPrefixGov (cw_store st)) in *.
  assert (Hls : Forall addr_ok ls) by (apply Forall_forall; intros a Ha%Es; by apply Hs).
  assert (Hlg : Forall addr_ok lg) by (apply Forall_forall; intros a Ha%Eg; by apply Hg).
  assert (Hv : forall l, Forall addr_ok l -> valid_addresses (map AccAddress_String l) = Ok tt).
  { intros l Hl. apply valid_addresses_ok, Forall_map. eapply Forall_impl; [exact Hl|].
    intros a [s Ha]. by rewrite (bech32_roundtrip _ _ Ha). }
  assert (HV : ValidateGenesis (MkCwGenesis (rg_params r) (map AccAddress_String ls) (map AccAddress_String lg)) = Ok tt).
  { unfold ValidateGenesis. cbn [StakingContractAddresses GovContractAddresses]. by rewrite !Hv. }
  split; [exact HV|]. unfold cw_InitGenesis.
  change (GetAllContractsBech32 KeyPrefixStaking (cw_store st)) with (map AccAddress_String ls).
  change (GetAllContractsBech32 KeyPrefixGov (cw_store st)) with (map AccAddress_String lg).
  rewrite HV. unfold cw_SetParams, mbind, mlift, upd_cw, mput, CwParams_Validate.
  cbn [StakingContractAddresses GovContractAddresses cg_Params cw_store cw_rest].
  set (m0 := store_Set CwParamsKey (Marshal (rg_params r)) ∅).
  assert (H0 : forall pfx, (forall a, pfx ++ a <> CwParamsKey) -> holds_set m0 pfx ∅).
  { intros pfx Hk. split; [|set_solver]. intros a. unfold m0, store_Set. rewrite lookup_insert_ne by (intros E; by apply (Hk a)).
    rewrite lookup_empty. by rewrite decide_False by set_solver. }
  destruct (init_contracts_rel KeyPrefixStaking ls (MkCw m0 b0) ∅) as (m1 & -> & H1 & F1); [by apply H0|done|].
  cbn [cw_rest].
  destruct (init_contracts_rel KeyPrefixGov lg (MkCw m1 b0) ∅) as (m2 & -> & H2 & F2); [|done|].
  { destruct (H0 KeyPrefixGov) as [Ha Hb]; [done|]. split; [|done]. intros a. cbn [cw_store]. rewrite F1 by done. apply Ha. }
  exists m2. split; [done|]. split_and!.
  - split; [apply Hp|]. left. rewrite F2 by done. cbn [cw_store]. rewrite F1 by done. cbn [cw_store]. by unfold m0, store_Set; rewrite lookup_insert_eq.
  - rewrite (list_set _ _ Es) in H1. destruct H1 as [H1 Ha]. split; [|done]. intros a. rewrite F2 by done. apply H1.
  - by rewrite (list_set _ _ Eg) in H2.
Qed.
End CwLemmas.

(** ** Witnesses *)

#[global] Instance cw_params_eq_dec : EqDecision CwParams.
Proof. solve_decision. Defined.
#[global] Program Instance cw_params_countable : Countable CwParams := inj_countable' ContractGasLimit MkCwParams _.
Next Obligation. by intros []. Qed.
#[global] Instance wire_cw_dec (p : CwParams) : Decision (wire_ok p).
Proof. unfold wire_ok, wire_cw; apply _. Defined.
#[global] Instance ToyCwProto : Proto CwParams := toy_proto.
#[global] Instance ToyCwProtoLaws : ProtoLaws CwParams := toy_proto_laws.

(** Three contracts of alice, the third with bob as admin. A call counts in the
    toy's gas, fails at one address and runs out of gas at another. *)
Definition w_info (c : bytes) : option ContractInfo :=
  if bytes_eqb c (str "good") || bytes_eqb c (str "bad") then Some (MkContractInfo (str "terp1alice") [])
  else if bytes_eqb c (str "shared") then Some (MkContractInfo (str "terp1alice") (str "terp1bob"))
  else None.
#[global] Instance ToyCw : CwSdk toy := {|
  HasContractInfo _ c := match w_info c with Some _ => true | None => false end;
  GetContractInfo _ c := w_info c;
  cw_Sudo limit c msg st :=
    let b := cw_rest st in
    let st' := MkCw (cw_store st) (MkToy (toy_bal b) (toy_sup b) (toy_meta b) (toy_gas b + 1)) in
    if bytes_eqb c (str "bad") then (st', Err ErrCwContract)
    else if limit <? 10 then (st', Err CwPanic) else (st', Ok tt);
  staking_Validator _ v :=
    if bytes_eqb v (str "v") then (Some (MkValidatorI (str "moniker") (str "v") (10 ^ 17) 500 3), None)
    else (Some (MkValidatorI [] [] 0 0 0), Some ErrCwKeeper);
  staking_Delegation _ d v :=
    if bytes_eqb d (str "d") then (Some (MkDelegationI v d dec_one), None) else (None, Some ErrCwKeeper);
  gov_Proposals_Get _ id :=
    if id =? 1 then Ok (MkGovProposal 1 (str "terp1alice") 2 (Some 1700000123) [] (str "title") (str "summary"))
    else Err ErrCwKeeper;
  gov_Votes_Get _ id v := Ok (MkGovVote id v [Some (MkWeightedVoteOption 1 (str "1.0"))]);
  Dec_String z := FormatInt z;
  Int_String z := FormatInt z;
  BondStatus_String z := if z =? 3 then str "BOND_STATUS_BONDED" else str "BOND_STATUS_UNSPECIFIED";
  enc_WeightedVoteOption w := JObj [(str "option", enc_int (wo_Option w)); (str "weight", JStr (wo_Weight w))]
|}.
#[global] Instance ToyCwLaws : CwLaws toy.
Proof. split. intros b c H. cbn in *. destruct (w_info c) as [ci|]; [by exists ci|done]. Qed.

Definition w_cw0 : cw_state toy :=
  MkCw (store_Set CwParamsKey (Marshal cw_DefaultParams) ∅) (MkToy ∅ ∅ ∅ 0).
Definition w_cw : cw_state toy := (RegisterStaking (str "terp1alice") (str "terp1good") w_cw0).1.
Definition w_registry0 : registry := MkRegistry cw_DefaultParams ∅ ∅.
Definition w_registry : registry := MkRegistry cw_DefaultParams ({[str "good"]} ∪ ∅) ∅.

Lemma w_cw0_rel : cw_rel (cw_store w_cw0) w_registry0.
Proof.
  assert (Hw : wire_ok cw_DefaultParams) by (unfold wire_ok, wire_cw, is_u64; cbn; lia).
  split_and!; [by apply holds_params_set|..]; (split; [|by intros a ?%elem_of_empty]); intros a; cbn [cw_store w_cw0];
    unfold store_Set; rewrite lookup_insert_ne by done; rewrite lookup_empty; by rewrite decide_False by set_solver.
Qed.
Lemma w_cw_rel : cw_rel (cw_store w_cw) w_registry.
Proof.
  destruct w_cw0_rel as (Hp & Hs & Hg). 
  change (cw_store w_cw) with (<[KeyPrefixStaking ++ str "good" := []]> (cw_store w_cw0)).
  split_and!; [by apply holds_params_frame|apply holds_set_insert; [by exists (str "terp1good")|done]|by apply holds_set_frame].
Qed.

Lemma staking_events_delivered_witness :
  cw_rel (cw_store w_cw) w_registry /\
  exists cs msg, ascending (rg_staking w_registry) cs /\
    json_parse msg = Some (JObj [(str "after_delegation_modified", JObj [(str "validator_address", JStr (str "v"));
      (str "delegator_address", JStr (str "d")); (str "shares", JStr (str "1000000000000000000"))])]) /\
    called 250000 msg cs w_cw (AfterDelegationModified 3 (str "d") (str "v") w_cw).
Proof.
  split; [apply w_cw_rel|].
  destruct (staking_events_delivered (EvDelegationModified (str "d") (str "v")) 3 w_registry w_cw w_cw_rel)
    as (cs & msg & Hcs & Hm & Hc).
  exists cs, msg. split; [exact Hcs|]. split; [apply Hm; vm_compute; reflexivity|exact Hc].
Defined.
Lemma gov_events_delivered_witness :
  cw_rel (cw_store w_cw) w_registry /\ gov_hook_of (EvProposalDeposit 7) w_cw = (w_cw, Err ErrCwKeeper).
Proof.
  split; [apply w_cw_rel|]. exact (gov_events_delivered (EvProposalDeposit 7) w_registry w_cw w_cw_rel).
Defined.
Lemma cw_genesis_roundtrip_witness :
  cw_rel (cw_store w_cw) w_registry /\
  exists gs, cw_ExportGenesis w_cw = (w_cw, Ok gs) /\ ValidateGenesis gs = Ok tt /\
    exists m', cw_InitGenesis gs (MkCw ∅ (cw_rest w_cw)) = (MkCw m' (cw_rest w_cw), Ok tt) /\ cw_rel m' w_registry.
Proof. split; [apply w_cw_rel|]. apply (cw_genesis_roundtrip w_registry w_cw (cw_rest w_cw)), w_cw_rel. Defined.

(** ** Behaviour worth knowing *)

(** A contract whose admin is not its creator can be registered by neither. *)
Example nobody_may_register :
  (RegisterStaking (str "terp1alice") (str "terp1shared") w_cw0).2 = Err ErrCwAdmin /\
  (RegisterStaking (str "terp1bob") (str "terp1shared") w_cw0).2 = Err ErrCwCreator.
Proof. split; vm_refl. Qed.

(** One registered contract that fails makes every staking operation of
    everybody fail. *)
Example bad_contract_blocks_staking :
  let st := (RegisterStaking (str "terp1alice") (str "terp1bad") w_cw0).1 in
  (BeforeDelegationSharesModified 3 (str "d") (str "v") st).2 = Err ErrCwContract.
Proof. vm_compute. reflexivity. Qed.

(** A contract that uses up its gas panics through the hook. *)
Example out_of_gas_panics :
  let st := (cw_UpdateParams (str "terp1gov") (str "terp1gov") (MkCwParams 1) w_cw).1 in
  (AfterValidatorBonded 3 (str "v") st).2 = Err CwPanic.
Proof. vm_compute. reflexivity. Qed.

(** The submit time of a proposal is the second within its minute. *)
Example submit_time_is_second :
  NewProposal (MkGovProposal 1 [] 2 (Some 1700000123) [] [] []) =
  NewProposal (MkGovProposal 1 [] 2 (Some (1700000123 + 3600)) [] [] []).
Proof. vm_compute. reflexivity. Qed.
