(* ===== verification/FfiCodec.v ===== *)
(** * x/leanval/cwffi: payloads, certificates, weights

    [payload.go] and [cert.go] of the driver that runs the chain under the
    simplex engine: the block payload (magic [LNCW]) the engine orders, the
    certificate (magic [LCERT]) it returns, and the two thirds rule. Integers are
    big endian; [int] has 64 bits. *)

From S2P Require Import Prelude LvTypes LvCodec.

#[local] Open Scope go_scope.

(** ** Payloads *)

Record Payload := MkPayload { pl_Height : Z; pl_Txs : list bytes }.
Definition payloadMagic : bytes := str "LNCW".
Definition payloadVersion : byte := Byte.x01.

Definition encode_tx (tx : bytes) : bytes := be_put 4 (blen tx) ++ tx.
Definition Payload_Encode (p : Payload) : bytes :=
  payloadMagic ++ [payloadVersion] ++ be_put 8 (u64 (pl_Height p)) ++ be_put 4 (Z.of_nat (length (pl_Txs p))) ++
  concat (map encode_tx (pl_Txs p)).

Inductive ffi_err :=
| EPayTruncated | EPayMagic | EPayVersion (v : byte) | EPayFuel
| ECertTruncated | ECertVersion (v : byte) | ECertCount (n : Z) | ECertSigners | ECertRaw.

(** The loop over [n] transactions; [rest] is [b[i:]]. *)
Fixpoint decode_txs (fuel : nat) (n : Z) (rest : bytes) : result ffi_err (list bytes) :=
  if n <=? 0 then Ok []
  else match fuel with
       | O => Err EPayFuel
       | S fuel' =>
           check! guard (blen rest <? 4) EPayTruncated;
           let ln := be_get (slice_to 4 rest) in
           let rest := slice_from 4 rest in
           check! guard (blen rest <? ln) EPayTruncated;
           try! txs <- decode_txs fuel' (n - 1) (slice_from ln rest);
           Ok (slice_to ln rest :: txs)
       end.
Definition DecodePayload (b : bytes) : result ffi_err Payload :=
  check! guard (blen b <? 17) EPayTruncated;
  check! guard (negb (bytes_eqb (slice_to 4 b) payloadMagic)) EPayMagic;
  check! guard (negb (bool_decide (byte_at b 4 = payloadVersion))) (EPayVersion (byte_at b 4));
  let height := i64 (be_get (slice 5 13 b)) in
  let n := be_get (slice 13 17 b) in
  try! txs <- decode_txs (S (length b)) n (slice_from 17 b);
  Ok (MkPayload height txs).

(** ** Certificates *)

Record CertSigner := MkCertSigner { cs_Index : Z; cs_Signature : bytes }.
Record LeanCert := MkLeanCert {
  lc_Epoch : Z; lc_View : Z; lc_Digest : bytes; lc_Signers : list CertSigner; lc_Raw : bytes
}.
Definition lcertMagic : bytes := str "LCERT".
Definition lcertVersion : byte := Byte.x01.
Definition zeroCert : LeanCert := MkLeanCert 0 0 [] [] [].

(** [n] signers of 68 bytes each; the length has been checked. *)
Fixpoint parse_signers (n : nat) (rest : bytes) : list CertSigner * bytes :=
  match n with
  | O => ([], rest)
  | S n' =>
      let s := MkCertSigner (be_get (slice_to 4 rest)) (slice 4 68 rest) in
      let '(l, rest') := parse_signers n' (slice_from 68 rest) in
      (s :: l, rest')
  end.
(** With an error the fields read so far are returned. *)
Definition ParseLeanCert (b : bytes) : LeanCert * option ffi_err :=
  if blen b <? 58 then (zeroCert, Some ECertTruncated)
  else if negb (bytes_eqb (slice_to 5 b) lcertMagic) then (MkLeanCert 0 0 [] [] b, None)
  else if negb (bool_decide (byte_at b 5 = lcertVersion)) then (zeroCert, Some (ECertVersion (byte_at b 5)))
  else
    let epoch := be_get (slice 6 14 b) in
    let view := be_get (slice 14 22 b) in
    let digest := slice 22 54 b in
    let n := be_get (slice 54 58 b) in
    if 4096 <? n then (MkLeanCert epoch view digest [] [], Some (ECertCount n))
    else if blen b <? 58 + n * 68 + 4 then (MkLeanCert epoch view digest [] [], Some ECertSigners)
    else
      let '(signers, rest) := parse_signers (Z.to_nat n) (slice_from 58 b) in
      let rawLen := be_get (slice_to 4 rest) in
      let rest := slice_from 4 rest in
      if blen rest <? rawLen then (MkLeanCert epoch view digest signers [], Some ECertRaw)
      else (MkLeanCert epoch view digest signers (slice_to rawLen rest), None).

Definition HasIndex (c : LeanCert) (idx : Z) : bool := existsb (fun s => cs_Index s =? idx) (lc_Signers c).
(** The key of an index in the concatenated keys. *)
Definition pubkey_at (pks : bytes) (idx : Z) : option bytes :=
  let off := idx * 32 in
  if blen pks <? off + 32 then None else Some (slice off (off + 32) pks).
Definition HasPubkey (c : LeanCert) (pks pk : bytes) : bool :=
  if negb (blen pk =? 32) || negb (blen pks mod 32 =? 0) then false
  else existsb (fun s => match pubkey_at pks (cs_Index s) with
                         | None => false
                         | Some k => bytes_eqb k pk
                         end) (lc_Signers c).

(** ** Weights *)

Definition weight_at (weights : list Z) (idx : Z) : option Z :=
  if idx <? Z.of_nat (length weights) then weights !! Z.to_nat idx else None.
Definition signedWeight (c : LeanCert) (weights : list Z) : Z :=
  foldl (fun w s => match weight_at weights (cs_Index s) with Some x => u64 (w + x) | None => w end) 0 (lc_Signers c).
Definition totalWeight (weights : list Z) : Z := foldl (fun t w => u64 (t + w)) 0 weights.
Definition MeetsWeight (signed total : Z) : bool := (0 <? total) && (u64 (total * 2) <? u64 (signed * 3)).

Fixpoint containsDSTW (b : bytes) : bool :=
  match b with
  | [] => false
  | _ :: b' => has_prefix (str "DSTW") b || containsDSTW b'
  end.

(** ** Lemmas *)

Lemma be_field (n : nat) b : (n <= length b)%nat -> b = be_put n (be_get (take n b)) ++ drop n b.
Proof.
  intros H. rewrite <- (take_drop n b) at 1. f_equal.
  rewrite <- (be_put_get (take n b)) at 1. by rewrite length_take_le.
Qed.
Lemma be_take (n : nat) v tl : be_get (take n (be_put n v ++ tl)) = v mod 256 ^ Z.of_nat n.
Proof. rewrite take_app_length' by (by rewrite length_be_put). apply be_get_put. Qed.
Lemma be_drop (n : nat) v tl : drop n (be_put n v ++ tl) = tl.
Proof. by rewrite drop_app_length' by (by rewrite length_be_put). Qed.

Lemma be_put_get_eq n l : length l = n -> be_put n (be_get l) = l.
Proof. intros <-. apply be_put_get. Qed.

(** A payload Go can hold: an [int64] height, and lengths that fit their four
    bytes. *)
Definition tx_wf (tx : bytes) : Prop := blen tx < 2 ^ 32.
Definition payload_wf (p : Payload) : Prop :=
  is_i64 (pl_Height p) /\ Z.of_nat (length (pl_Txs p)) < 2 ^ 32 /\ Forall tx_wf (pl_Txs p).

Lemma decode_txs_encode fuel txs tl :
  Forall tx_wf txs -> (length txs <= fuel)%nat ->
  decode_txs fuel (Z.of_nat (length txs)) (concat (map encode_tx txs) ++ tl) = Ok txs.
Proof.
  intros Hw. revert fuel. induction Hw as [|tx txs Htx Hw IH]; intros fuel Hf; [by destruct fuel|].
  destruct fuel as [|fuel]; cbn [length] in *; [lia|]. cbn [decode_txs].
  destruct (Z.leb_spec (Z.of_nat (S (length txs))) 0); [lia|]. cbn [map concat].
  change (encode_tx tx) with (be_put 4 (blen tx) ++ tx). rewrite <- !app_assoc. set (tail := concat (map encode_tx txs) ++ tl) in *.
  assert (E4 : blen (be_put 4 (blen tx) ++ tx ++ tail) <? 4 = false).
  { apply Z.ltb_ge. unfold blen. rewrite length_app, length_be_put. lia. }
  rewrite E4. cbn [guard rbind]. unfold slice_to, slice_from. change (Z.to_nat 4) with 4%nat.
  rewrite be_take, be_drop. assert (Hm : blen tx mod 256 ^ Z.of_nat 4 = blen tx).
  { apply Z.mod_small. unfold tx_wf, blen in *. change (256 ^ Z.of_nat 4) with (2 ^ 32). lia. }
  rewrite Hm. assert (El : blen (tx ++ tail) <? blen tx = false).
  { apply Z.ltb_ge. unfold blen. rewrite length_app. lia. }
  rewrite El. cbn [guard rbind]. unfold blen. rewrite Nat2Z.id, drop_app_length, take_app_length.
  replace (Z.of_nat (S (length txs)) - 1) with (Z.of_nat (length txs)) by lia.
  unfold tail. rewrite IH by lia. done.
Qed.
Lemma decode_txs_inv fuel n rest txs :
  0 <= n -> decode_txs fuel n rest = Ok txs ->
  Forall tx_wf txs /\ n = Z.of_nat (length txs) /\ exists tl, rest = concat (map encode_tx txs) ++ tl.
Proof.
  revert n rest txs. induction fuel as [|fuel IH]; intros n rest txs Hn; cbn [decode_txs];
    destruct (Z.leb_spec n 0); try done.
  - intros [= <-]. split; [constructor|]. split; [cbn; lia|]. by exists rest.
  - intros [= <-]. split; [constructor|]. split; [cbn; lia|]. by exists rest.
  - intros Hd. repeat run_ok_step. injection Hd as <-. zbool.
    unfold slice_to, slice_from in *. change (Z.to_nat 4) with 4%nat in *.
    assert (Hl : (4 <= length rest)%nat) by (unfold blen in *; lia).
    set (ln := be_get (take 4 rest)) in *. pose proof (be_get_range (take 4 rest)) as Hr. fold ln in Hr.
    rewrite length_take_le in Hr by done. change (256 ^ Z.of_nat 4) with (2 ^ 32) in Hr.
    match goal with H : decode_txs _ _ _ = Ok _ |- _ => apply IH in H as (Hw & Hc & tl & Ht); [|lia] end.
    set (body := drop 4 rest) in *.
    assert (Hb : blen (take (Z.to_nat ln) body) = ln) by (unfold blen in *; rewrite length_take_le; lia).
    split; [|split].
    + constructor; [|done]. unfold tx_wf. lia.
    + cbn [length]. lia.
    + exists tl. cbn [map concat]. unfold encode_tx at 1. rewrite Hb, <- !app_assoc, <- Ht, take_drop.
      unfold ln, body. by apply be_field.
Qed.
(** The fuel is never what stops the loop. *)
Lemma decode_txs_fuel fuel n rest : (length rest < fuel)%nat -> decode_txs fuel n rest <> Err EPayFuel.
Proof.
  revert n rest. induction fuel as [|fuel IH]; intros n rest Hf; [lia|]. cbn [decode_txs].
  destruct (n <=? 0); [done|]. destruct (blen rest <? 4) eqn:E; cbn [guard rbind]; [done|]. zbool.
  destruct (blen (slice_from 4 rest) <? _); cbn [guard rbind]; [done|].
  unfold slice_from. set (r := drop _ (drop _ rest)).
  assert (Hr : (length r < fuel)%nat).
  { unfold r. rewrite !length_drop. unfold blen in E. change (Z.to_nat 4) with 4%nat. lia. }
  specialize (IH (n - 1) r Hr). destruct (decode_txs fuel (n - 1) r) as [l|e]; [done|]. cbn. congruence.
Qed.

Lemma containsDSTW_app a b : containsDSTW b = true -> containsDSTW (a ++ b) = true.
Proof. intros H. induction a as [|x a IH]; [done|]. cbn [app containsDSTW]. by rewrite IH, orb_true_r. Qed.
Lemma containsDSTW_left a b : containsDSTW a = true -> containsDSTW (a ++ b) = true.
Proof.
  induction a as [|x a IH]; [done|]. cbn [containsDSTW app]. rewrite !orb_true_iff. intros [H|H]; [left|right; by apply IH].
  apply has_prefix_true in H as [t Ht]. change (x :: a ++ b) with ((x :: a) ++ b). rewrite Ht, <- app_assoc. apply has_prefix_app.
Qed.
(** A transaction with the dummy magic marks every payload it is in. *)
Lemma containsDSTW_tx p tx : tx ∈ pl_Txs p -> containsDSTW tx = true -> containsDSTW (Payload_Encode p) = true.
Proof.
  intros Hin Hd. unfold Payload_Encode. do 4 apply containsDSTW_app. apply list_elem_of_split in Hin as (l1 & l2 & ->).
  rewrite map_app, concat_app. apply containsDSTW_app. cbn [map concat]. apply containsDSTW_left. by apply containsDSTW_app.
Qed.

(** ** The wire formats *)

Lemma slice_seg lo hi t a b c : t = a ++ b ++ c -> blen a = lo -> blen b = hi - lo -> slice lo hi t = b.
Proof. intros ->. apply slice_app. Qed.
Lemma slice_from_seg n t a b : t = a ++ b -> blen a = n -> slice_from n t = b.
Proof. intros ->. apply slice_from_app. Qed.
Ltac seg := first [by rewrite <- ?app_assoc | unfold blen; rewrite ?length_app; cbn [length]; lia].

Lemma payload_fields m v h n rest :
  length m = 4%nat -> length h = 8%nat -> length n = 4%nat ->
  DecodePayload (m ++ v :: h ++ n ++ rest) =
  check! guard (negb (bytes_eqb m payloadMagic)) EPayMagic;
  check! guard (negb (bool_decide (v = payloadVersion))) (EPayVersion v);
  try! txs <- decode_txs (18 + length rest) (be_get n) rest;
  Ok (MkPayload (i64 (be_get h)) txs).
Proof.
  intros Hm Hh Hn. unfold DecodePayload. set (b := m ++ v :: h ++ n ++ rest).
  assert (Hb : length b = (17 + length rest)%nat) by (unfold b; rewrite length_app; cbn [length]; rewrite !length_app; lia).
  assert (E : blen b <? 17 = false) by (apply Z.ltb_ge; unfold blen; lia). rewrite E. cbn [guard rbind].
  unfold b. rewrite slice_to_app by (unfold blen; lia). rewrite byte_at_app by done.
  rewrite (slice_seg 5 13 _ (m ++ [v]) h (n ++ rest)) by seg.
  rewrite (slice_seg 13 17 _ (m ++ [v] ++ h) n rest) by seg.
  rewrite (slice_from_seg 17 _ (m ++ [v] ++ h ++ n) rest) by seg. fold b. by rewrite Hb.
Qed.

Lemma DecodePayload_spec b p :
  DecodePayload b = Ok p <-> payload_wf p /\ exists tl, b = Payload_Encode p ++ tl.
Proof.
  split.
  - intros H. destruct (blen b <? 17) eqn:E; [unfold DecodePayload in H; by rewrite E in H|]. zbool.
    destruct (split_at 4 b) as (m & b1 & -> & Hm); [unfold blen in E; lia|].
    destruct b1 as [|v b1]; [unfold blen in E; rewrite length_app in E; cbn in E; lia|].
    destruct (split_at 8 b1) as (h & b2 & -> & Hh); [unfold blen in E; rewrite length_app in E; cbn [length] in E; lia|].
    destruct (split_at 4 b2) as (n & rest & -> & Hn).
    { unfold blen in E. rewrite length_app in E. cbn [length] in E. rewrite length_app in E. lia. }
    rewrite payload_fields in H by done. repeat run_ok_step. injection H as <-.
    match goal with H : bool_decide _ = true |- _ => apply bool_decide_eq_true in H as -> end.
    match goal with H : decode_txs _ _ _ = Ok _ |- _ =>
      apply decode_txs_inv in H as (Hw & Hc & tl & ->); [|apply be_get_range] end.
    pose proof (be_get_range n) as Hnr. rewrite Hn in Hnr. change (256 ^ Z.of_nat 4) with (2 ^ 32) in Hnr.
    pose proof (be_get_range h) as Hhr. rewrite Hh in Hhr. change (256 ^ Z.of_nat 8) with (2 ^ 64) in Hhr.
    split; [split_and!; cbn [pl_Height pl_Txs]; [apply i64_range|lia|done]|].
    exists tl. unfold Payload_Encode. cbn [pl_Height pl_Txs]. rewrite u64_i64 by done. rewrite <- Hc.
    rewrite u64_id by exact Hhr. rewrite !be_put_get_eq by done. rewrite <- !app_assoc. by subst m.
  - intros ([Hh [Hc Hw]] & tl & ->). unfold Payload_Encode. rewrite <- !app_assoc. cbn [app].
    rewrite payload_fields by (done || apply length_be_put). rewrite bytes_eqb_refl, bool_decide_eq_true_2 by done.
    cbn [negb guard rbind]. rewrite be_get_put, Z.mod_small by (change (256 ^ Z.of_nat 4) with (2 ^ 32); lia).
    rewrite decode_txs_encode; [|done|]. 
    + cbn [rbind]. rewrite be_get_put, Z.mod_small by apply u64_range. rewrite i64_u64, i64_id by done. by destruct p.
    + rewrite length_app. enough (length (pl_Txs p) <= length (concat (map encode_tx (pl_Txs p))))%nat by lia.
      clear. induction (pl_Txs p) as [|tx l IH]; [done|]. cbn [map concat]. rewrite length_app. unfold encode_tx at 1.
      rewrite length_app, length_be_put. cbn [length]. lia.
Qed.
(** A payload is read exactly when it is the encoding of a payload Go can hold,
    with anything behind it, and then that payload is read. *)
Theorem DecodePayload_iff b p :
  DecodePayload b = Ok p <-> payload_wf p /\ exists tl, b = Payload_Encode p ++ tl.
Proof. apply DecodePayload_spec. Qed.

Definition signer_wf (s : CertSigner) : Prop := is_u32 (cs_Index s) /\ length (cs_Signature s) = 64%nat.
Definition cert_wf (c : LeanCert) : Prop :=
  is_u64 (lc_Epoch c) /\ is_u64 (lc_View c) /\ length (lc_Digest c) = 32%nat /\
  (length (lc_Signers c) <= 4096)%nat /\ Forall signer_wf (lc_Signers c) /\ blen (lc_Raw c) < 2 ^ 32.
(** The format, as the engine writes it. *)
Definition encode_signer (s : CertSigner) : bytes := be_put 4 (cs_Index s) ++ cs_Signature s.
Definition encode_cert (c : LeanCert) : bytes :=
  lcertMagic ++ [lcertVersion] ++ be_put 8 (lc_Epoch c) ++ be_put 8 (lc_View c) ++ lc_Digest c ++
  be_put 4 (Z.of_nat (length (lc_Signers c))) ++ concat (map encode_signer (lc_Signers c)) ++
  be_put 4 (blen (lc_Raw c)) ++ lc_Raw c.

Lemma signers_blen l : Forall signer_wf l -> blen (concat (map encode_signer l)) = 68 * Z.of_nat (length l).
Proof.
  induction 1 as [|s l [_ Hs] Hf IH]; [done|]. cbn [map concat length]. rewrite blen_app, IH.
  unfold encode_signer, blen. rewrite length_app, length_be_put. lia.
Qed.
Lemma parse_signers_encode l tl : Forall signer_wf l ->
  parse_signers (length l) (concat (map encode_signer l) ++ tl) = (l, tl).
Proof.
  induction 1 as [|s l [Hi Hs] Hl IH]; [done|]. cbn [length parse_signers map concat].
  change (encode_signer s) with (be_put 4 (cs_Index s) ++ cs_Signature s). rewrite <- !app_assoc.
  set (tail := concat (map encode_signer l) ++ tl) in *.
  rewrite (slice_seg 4 68 _ (be_put 4 (cs_Index s)) (cs_Signature s) tail);
    [|done|unfold blen; rewrite length_be_put; lia|unfold blen; lia].
  rewrite (slice_from_seg 68 _ (be_put 4 (cs_Index s) ++ cs_Signature s) tail);
    [|by rewrite <- app_assoc|unfold blen; rewrite length_app, length_be_put; lia].
  rewrite IH. unfold slice_to. change (Z.to_nat 4) with 4%nat. rewrite be_take, Z.mod_small by (exact Hi).
  by destruct s.
Qed.
Lemma parse_signers_inv n b : 68 * Z.of_nat n <= blen b ->
  exists l tl, parse_signers n b = (l, tl) /\ length l = n /\ Forall signer_wf l /\ b = concat (map encode_signer l) ++ tl.
Proof.
  revert b. induction n as [|n IH]; intros b Hb; [exists [], b; by repeat constructor|].
  destruct (split_at 4 b) as (i & b1 & -> & Hi); [unfold blen in Hb; lia|].
  destruct (split_at 64 b1) as (sg & b2 & -> & Hs); [unfold blen in Hb; rewrite length_app in Hb; lia|].
  destruct (IH b2) as (l & tl & Hp & Hn & Hf & Hb2); [unfold blen in *; rewrite !length_app in Hb; lia|].
  cbn [parse_signers].
  rewrite (slice_seg 4 68 _ i sg b2) by (done || unfold blen; lia).
  rewrite (slice_from_seg 68 _ (i ++ sg) b2); [|by rewrite <- app_assoc|unfold blen; rewrite length_app; lia].
  rewrite slice_to_app by (unfold blen; lia). rewrite Hp.
  exists (MkCertSigner (be_get i) sg :: l), tl. split; [done|]. split; [cbn; lia|]. split.
  - constructor; [|done]. split; [|done]. cbn. pose proof (be_get_range i) as H. rewrite Hi in H. exact H.
  - cbn [map concat]. unfold encode_signer at 1. cbn [cs_Index cs_Signature]. rewrite be_put_get_eq by done. rewrite <- !app_assoc, Hb2. done.
Qed.
Lemma cert_fields m v e w d n rest :
  length m = 5%nat -> length e = 8%nat -> length w = 8%nat -> length d = 32%nat -> length n = 4%nat ->
  ParseLeanCert (m ++ v :: e ++ w ++ d ++ n ++ rest) =
  if negb (bytes_eqb m lcertMagic) then (MkLeanCert 0 0 [] [] (m ++ v :: e ++ w ++ d ++ n ++ rest), None)
  else if negb (bool_decide (v = lcertVersion)) then (zeroCert, Some (ECertVersion v))
  else if 4096 <? be_get n then (MkLeanCert (be_get e) (be_get w) d [] [], Some (ECertCount (be_get n)))
  else if blen rest <? be_get n * 68 + 4 then (MkLeanCert (be_get e) (be_get w) d [] [], Some ECertSigners)
  else
    let '(signers, rest) := parse_signers (Z.to_nat (be_get n)) rest in
    let rawLen := be_get (slice_to 4 rest) in
    let rest := slice_from 4 rest in
    if blen rest <? rawLen then (MkLeanCert (be_get e) (be_get w) d signers [], Some ECertRaw)
    else (MkLeanCert (be_get e) (be_get w) d signers (slice_to rawLen rest), None).
Proof.
  intros Hm He Hw Hd Hn. unfold ParseLeanCert. set (b := m ++ v :: e ++ w ++ d ++ n ++ rest).
  assert (Hb : blen b = 58 + blen rest) by (unfold b, blen; rewrite length_app; cbn [length]; rewrite !length_app; lia).
  pose proof (blen_nonneg rest) as H0.
  destruct (Z.ltb_spec (blen b) 58); [lia|].
  replace (slice_to 5 b) with m by (unfold b; rewrite slice_to_app by (unfold blen; lia); done).
  replace (byte_at b 5) with v by (unfold b; rewrite byte_at_app by done; done).
  rewrite (slice_seg 6 14 b (m ++ [v]) e (w ++ d ++ n ++ rest)) by (unfold b; seg).
  rewrite (slice_seg 14 22 b (m ++ [v] ++ e) w (d ++ n ++ rest)) by (unfold b; seg).
  rewrite (slice_seg 22 54 b (m ++ [v] ++ e ++ w) d (n ++ rest)) by (unfold b; seg).
  rewrite (slice_seg 54 58 b (m ++ [v] ++ e ++ w ++ d) n rest) by (unfold b; seg).
  rewrite (slice_from_seg 58 b (m ++ [v] ++ e ++ w ++ d ++ n) rest) by (unfold b; seg).
  assert (Hc : (blen b <? 58 + be_get n * 68 + 4) = (blen rest <? be_get n * 68 + 4)).
  { rewrite Hb. destruct (Z.ltb_spec (58 + blen rest) (58 + be_get n * 68 + 4)), (Z.ltb_spec (blen rest) (be_get n * 68 + 4)); lia. }
  by rewrite Hc.
Qed.

Lemma parse_magic b c :
  has_prefix lcertMagic b = true ->
  ParseLeanCert b = (c, None) <-> cert_wf c /\ exists tl, b = encode_cert c ++ tl.
Proof.
  intros [b0 ->]%has_prefix_true. split.
  - intros H. destruct (blen (lcertMagic ++ b0) <? 58) eqn:E; [unfold ParseLeanCert in H; by rewrite E in H|]. zbool.
    rewrite blen_app in E. change (blen lcertMagic) with 5 in E.
    destruct b0 as [|v b1]; [change (blen []) with 0 in E; lia|]. rewrite blen_cons in E.
    destruct (split_at 8 b1) as (e & b2 & -> & He); [unfold blen in E; lia|]. rewrite blen_app in E.
    destruct (split_at 8 b2) as (w & b3 & -> & Hw); [unfold blen in E; lia|]. rewrite blen_app in E.
    destruct (split_at 32 b3) as (d & b4 & -> & Hd); [unfold blen in E; lia|]. rewrite blen_app in E.
    destruct (split_at 4 b4) as (n & rest & -> & Hn); [unfold blen in E; lia|]. clear E.
    rewrite cert_fields in H by done. rewrite bytes_eqb_refl in H. cbn [negb] in H.
    destruct (bool_decide (v = lcertVersion)) eqn:Ev; cbn [negb] in H; [|done]. apply bool_decide_eq_true in Ev as ->.
    destruct (4096 <? be_get n) eqn:En; [done|]. destruct (blen rest <? _) eqn:Er; [done|]. zbool.
    pose proof (be_get_range n) as Hnr.
    destruct (parse_signers_inv (Z.to_nat (be_get n)) rest) as (l & tl & Hp & Hl & Hf & ->); [lia|].
    rewrite Hp in H. rewrite blen_app in Er.
    pose proof (signers_blen l Hf) as Hbl.
    destruct (split_at 4 tl) as (rl & r2 & -> & Hrl); [unfold blen in *; lia|].
    rewrite slice_to_app, slice_from_app in H by (unfold blen; lia). destruct (blen r2 <? be_get rl) eqn:Eraw; [done|].
    injection H as <-. zbool. pose proof (be_get_range rl) as Hrr. rewrite Hrl in Hrr.
    assert (Hs : blen (slice_to (be_get rl) r2) = be_get rl) by (apply blen_slice_to; lia).
    split.
    + pose proof (be_get_range e) as Her. pose proof (be_get_range w) as Hwr. rewrite He in Her. rewrite Hw in Hwr.
      split_and!; cbn; [exact Her|exact Hwr|done|lia|done|]. rewrite Hs. exact (proj2 Hrr).
    + exists (slice_from (be_get rl) r2). unfold encode_cert. cbn [lc_Epoch lc_View lc_Digest lc_Signers lc_Raw].
      rewrite Hs, Hl, Z2Nat.id by lia. rewrite !be_put_get_eq by done.
      rewrite <- !app_assoc, slice_to_from. done.
  - intros [(He & Hw & Hd & Hn & Hf & Hr) [tl Hb]]. rewrite Hb. unfold encode_cert. rewrite <- !app_assoc. cbn [app].
    rewrite cert_fields by (done || apply length_be_put). rewrite bytes_eqb_refl, bool_decide_eq_true_2 by done. cbn [negb].
    rewrite !be_get_put. rewrite (Z.mod_small (Z.of_nat (length (lc_Signers c)))) by (change (256 ^ Z.of_nat 4) with (2 ^ 32); lia).
    destruct (Z.ltb_spec 4096 (Z.of_nat (length (lc_Signers c)))); [lia|].
    rewrite blen_app, signers_blen by done. set (tail := be_put 4 (blen (lc_Raw c)) ++ lc_Raw c ++ tl).
    assert (Ht : 4 <= blen tail) by (unfold tail; rewrite blen_app; unfold blen; rewrite length_be_put; lia).
    destruct (Z.ltb_spec (68 * Z.of_nat (length (lc_Signers c)) + blen tail) (Z.of_nat (length (lc_Signers c)) * 68 + 4)); [lia|].
    rewrite Nat2Z.id, parse_signers_encode by done. unfold tail.
    rewrite slice_to_app, slice_from_app by (unfold blen; by rewrite length_be_put).
    rewrite be_get_put, (Z.mod_small (blen (lc_Raw c))) by (split; [apply blen_nonneg|exact Hr]).
    pose proof (blen_nonneg tl). destruct (Z.ltb_spec (blen (lc_Raw c ++ tl)) (blen (lc_Raw c))) as [Hlt|_]; [rewrite blen_app in Hlt; lia|].
    rewrite (Z.mod_small (lc_Epoch c)), (Z.mod_small (lc_View c)) by first [exact He|exact Hw].
    rewrite slice_to_app by done. by destruct c.
Qed.

Lemma magic_eqb b : bytes_eqb (slice_to 5 b) lcertMagic = has_prefix lcertMagic b.
Proof.
  destruct (has_prefix lcertMagic b) eqn:E.
  - apply has_prefix_true in E as [t ->]. by rewrite slice_to_app, bytes_eqb_refl by done.
  - apply bytes_eqb_neq. intros Hs. rewrite <- (take_drop 5 b) in E. change (take 5 b) with (slice_to 5 b) in E.
    by rewrite Hs, has_prefix_app in E.
Qed.

(** A certificate is read exactly when it is the encoding of a certificate, with
    anything behind it; input without the magic is taken as it is when it has at
    least 58 bytes. *)
Theorem ParseLeanCert_iff b c :
  ParseLeanCert b = (c, None) <->
  (cert_wf c /\ exists tl, b = encode_cert c ++ tl) \/
  (has_prefix lcertMagic b = false /\ 58 <= blen b /\ c = MkLeanCert 0 0 [] [] b).
Proof.
  destruct (has_prefix lcertMagic b) eqn:E.
  - rewrite parse_magic by done. split; [by left|]. intros [H|[H _]]; done.
  - split.
    + unfold ParseLeanCert. rewrite magic_eqb, E. destruct (Z.ltb_spec (blen b) 58); [done|]. intros [= <-]. by right.
    + intros [[_ [tl ->]]|(_ & Hb & ->)]; [unfold encode_cert in E; by rewrite <- app_assoc, has_prefix_app in E|].
      unfold ParseLeanCert. rewrite magic_eqb, E. by destruct (Z.ltb_spec (blen b) 58); [lia|].
Qed.

(** ** Quorums *)

Definition sum_weights (ws : list Z) : Z := foldr Z.add 0 ws.
Definition weights_ok (ws : list Z) : Prop := Forall (fun w => 0 <= w) ws /\ 3 * sum_weights ws < 2 ^ 64.
Lemma sum_weights_nonneg ws : Forall (fun w => 0 <= w) ws -> 0 <= sum_weights ws.
Proof. induction 1; cbn; unfold sum_weights in *; lia. Qed.
Lemma totalWeight_sum ws : weights_ok ws -> totalWeight ws = sum_weights ws.
Proof.
  intros [Hn Hs]. unfold totalWeight.
  assert (H : forall acc, 0 <= acc -> acc + sum_weights ws < 2 ^ 64 -> foldl (fun t w => u64 (t + w)) acc ws = acc + sum_weights ws).
  { clear Hs. induction Hn as [|w ws Hw Hn IH]; intros acc Ha Hs; cbn [foldl sum_weights foldr] in *; [lia|].
    pose proof (sum_weights_nonneg ws Hn) as H0. unfold sum_weights in *.
    rewrite u64_id by (unfold is_u64; lia). rewrite IH by lia. lia. }
  pose proof (sum_weights_nonneg ws Hn). rewrite H; lia.
Qed.

(** The weights of the indices that satisfy [P]. *)
Fixpoint psum (i : Z) (ws : list Z) (P : Z -> bool) : Z :=
  match ws with
  | [] => 0
  | w :: ws' => (if P i then w else 0) + psum (i + 1) ws' P
  end.
Lemma psum_le i ws P : Forall (fun w => 0 <= w) ws -> 0 <= psum i ws P <= sum_weights ws.
Proof. intros Hn. revert i. induction Hn as [|w ws Hw Hn IH]; intros i; cbn; [lia|]. specialize (IH (i + 1)). unfold sum_weights in *. destruct (P i); lia. Qed.
Lemma psum_inter i ws P Q : Forall (fun w => 0 <= w) ws ->
  psum i ws P + psum i ws Q <= sum_weights ws + psum i ws (fun x => P x && Q x).
Proof.
  intros Hn. revert i. induction Hn as [|w ws Hw Hn IH]; intros i; cbn; [lia|]. specialize (IH (i + 1)).
  unfold sum_weights in *. destruct (P i), (Q i); cbn [andb]; lia.
Qed.
Lemma psum_none i ws P : (forall j, i <= j < i + Z.of_nat (length ws) -> P j = false) -> psum i ws P = 0.
Proof.
  revert i. induction ws as [|w ws IH]; intros i H; cbn [psum length] in *; [done|].
  rewrite H by lia. rewrite IH; [lia|]. intros j Hj. apply H. lia.
Qed.
Lemma psum_add i ws P Q R :
  (forall j, R j = P j || Q j) -> (forall j, P j && Q j = false) -> psum i ws R = psum i ws P + psum i ws Q.
Proof.
  intros HR HD. revert i. induction ws as [|w ws IH]; intros i; cbn; [done|]. rewrite IH, HR. specialize (HD i).
  destruct (P i), (Q i); cbn in *; done || lia.
Qed.
Definition weight_of (ws : list Z) (idx : Z) : Z := default 0 (weight_at ws idx).
Lemma psum_single i ws a : 0 <= i -> i <= a ->
  psum i ws (fun j => bool_decide (j = a)) = default 0 (ws !! Z.to_nat (a - i)).
Proof.
  revert i. induction ws as [|w ws IH]; intros i Hi Ha; cbn [psum]; [done|]. case_bool_decide as E.
  - subst a. rewrite Z.sub_diag. rewrite psum_none; [change (w + 0 = w); lia|]. intros j Hj. apply bool_decide_eq_false. lia.
  - rewrite IH by lia. replace (Z.to_nat (a - i)) with (S (Z.to_nat (a - (i + 1)))) by lia.
    change ((w :: ws) !! S (Z.to_nat (a - (i + 1)))) with (ws !! Z.to_nat (a - (i + 1))). lia.
Qed.
Lemma weight_of_psum ws a : 0 <= a -> weight_of ws a = psum 0 ws (fun j => bool_decide (j = a)).
Proof.
  intros Ha. rewrite psum_single by lia. rewrite Z.sub_0_r. unfold weight_of, weight_at.
  destruct (Z.ltb_spec a (Z.of_nat (length ws))); [done|]. by rewrite lookup_ge_None_2 by lia.
Qed.
Lemma indices_psum ws S : NoDup S -> Forall (fun i => 0 <= i) S ->
  sum_weights (map (weight_of ws) S) = psum 0 ws (fun j => bool_decide (j ∈ S)).
Proof.
  intros Hn Hp. induction Hp as [|a S Ha Hp IH]; cbn [map sum_weights foldr].
  - rewrite psum_none; [done|]. intros j _. apply bool_decide_eq_false. apply not_elem_of_nil.
  - apply NoDup_cons in Hn as [Hni Hn]. unfold sum_weights in IH. rewrite IH by done. rewrite weight_of_psum by done.
    symmetry. apply psum_add; intros j.
    + apply eq_true_iff_eq. rewrite orb_true_iff, !bool_decide_eq_true, elem_of_cons. done.
    + apply andb_false_iff. rewrite !bool_decide_eq_false. destruct (decide (j = a)) as [->|]; [by right|by left].
Qed.

(** A certificate that names each signer once. *)
Definition distinct_signers (c : LeanCert) : Prop :=
  NoDup (map cs_Index (lc_Signers c)) /\ Forall (fun i => 0 <= i) (map cs_Index (lc_Signers c)).
Lemma signedWeight_psum c ws : weights_ok ws -> distinct_signers c ->
  signedWeight c ws = psum 0 ws (fun j => bool_decide (j ∈ map cs_Index (lc_Signers c))).
Proof.
  intros [Hw Hs] [Hn Hp]. rewrite <- indices_psum by done. unfold signedWeight.
  pose proof (psum_le 0 ws (fun j => bool_decide (j ∈ map cs_Index (lc_Signers c))) Hw) as Hb.
  rewrite <- indices_psum in Hb by done. revert Hb. generalize (lc_Signers c) as l. clear Hn Hp.
  intros l. assert (H : forall acc, 0 <= acc -> acc + sum_weights (map (weight_of ws) (map cs_Index l)) < 2 ^ 64 ->
    foldl (fun w s => match weight_at ws (cs_Index s) with Some x => u64 (w + x) | None => w end) acc l =
    acc + sum_weights (map (weight_of ws) (map cs_Index l))).
  { induction l as [|s l IH]; intros acc Ha Hb; cbn [foldl map sum_weights foldr] in *; [lia|].
    assert (H0 : forall l', 0 <= foldr Z.add 0 (map (weight_of ws) l')).
    { intros l'. induction l' as [|x l' IHl]; cbn; [lia|]. unfold weight_of at 1, weight_at.
      destruct (x <? _); [|cbn; lia]. destruct (ws !! Z.to_nat x) eqn:Ex; cbn; [|lia].
      rewrite Forall_forall in Hw. apply list_elem_of_lookup_2, Hw in Ex. lia. }
    pose proof (H0 (map cs_Index l)) as H1. pose proof (H0 [cs_Index s]) as H2. cbn in H2.
    unfold sum_weights in IH. unfold weight_of in *. destruct (weight_at ws (cs_Index s)) as [x|]; cbn in *.
    - rewrite u64_id by (unfold is_u64; lia). rewrite IH by lia. lia.
    - rewrite IH by lia. lia. }
  intros Hb. pose proof (sum_weights_nonneg ws Hw). rewrite H; lia.
Qed.
Lemma MeetsWeight_spec s t : 0 <= s -> 0 <= t -> 3 * s < 2 ^ 64 -> 3 * t < 2 ^ 64 ->
  MeetsWeight s t = true <-> 0 < t /\ 2 * t < 3 * s.
Proof.
  intros Hs Ht H3 H2. unfold MeetsWeight. rewrite !u64_id by (unfold is_u64; lia).
  rewrite andb_true_iff, !Z.ltb_lt. split; intros [? ?]; split; lia.
Qed.

Lemma HasIndex_elem c i : HasIndex c i = bool_decide (i ∈ map cs_Index (lc_Signers c)).
Proof.
  apply eq_true_iff_eq. unfold HasIndex. rewrite existsb_exists, bool_decide_eq_true, list_elem_of_In, in_map_iff.
  split; intros (s & Ha & Hb); exists s; [apply Z.eqb_eq in Hb|apply Z.eqb_eq in Ha]; done.
Qed.
Lemma psum_ext i ws P Q : (forall j, P j = Q j) -> psum i ws P = psum i ws Q.
Proof. intros H. revert i. induction ws as [|w ws IH]; intros i; cbn; [done|]. by rewrite IH, H. Qed.

Lemma psum_gt i ws P Q : Forall (fun w => 0 <= w) ws -> psum i ws Q < psum i ws P -> exists j, P j = true /\ Q j = false.
Proof.
  intros Hw. revert i. induction Hw as [|w ws Hp Hw IH]; intros i; cbn [psum]; [lia|]. intros H.
  destruct (P i) eqn:EP, (Q i) eqn:EQ; [|by exists i|..]; apply (IH (i + 1)); lia.
Qed.

(** C13: Two certificates that meet the weight, and name each signer once, have
    signers in common that hold more than a third of the whole weight; so if the
    faulty signers hold at most a third, the two share one that is not faulty. *)
Theorem quorum_intersection c1 c2 ws :
  weights_ok ws -> distinct_signers c1 -> distinct_signers c2 ->
  MeetsWeight (signedWeight c1 ws) (totalWeight ws) = true ->
  MeetsWeight (signedWeight c2 ws) (totalWeight ws) = true ->
  let common := fun i => HasIndex c1 i && HasIndex c2 i in
  sum_weights ws < 3 * psum 0 ws common /\
  forall faulty, 3 * psum 0 ws faulty <= sum_weights ws -> exists i, common i = true /\ faulty i = false.
Proof.
  intros Hok Hd1 Hd2. pose proof Hok as [Hw Hs]. rewrite !signedWeight_psum, totalWeight_sum by done.
  set (P1 := fun j => bool_decide (j ∈ map cs_Index (lc_Signers c1))).
  set (P2 := fun j => bool_decide (j ∈ map cs_Index (lc_Signers c2))).
  pose proof (psum_le 0 ws P1 Hw) as L1. pose proof (psum_le 0 ws P2 Hw) as L2.
  pose proof (psum_inter 0 ws P1 P2 Hw) as L3. rewrite !MeetsWeight_spec by lia. intros [Ht H1] [_ H2].
  intros common. rewrite (psum_ext 0 ws common (fun j => P1 j && P2 j)) by (intros i; unfold common; by rewrite !HasIndex_elem).
  split; [lia|]. intros faulty Hf. destruct (psum_gt 0 ws (fun j => P1 j && P2 j) faulty Hw) as (j & Hj & Hn); [lia|].
  exists j. split; [|done]. unfold common. by rewrite !HasIndex_elem.
Qed.

(** ** Witnesses and behaviour worth knowing *)

Definition w_payload : Payload := MkPayload 7 [str "first"; []].
Definition w_signer (i : Z) : CertSigner := MkCertSigner i (replicate 64 Byte.x05).
Definition w_cert (l : list Z) : LeanCert := MkLeanCert 1 2 (replicate 32 Byte.x09) (map w_signer l) (str "raw").
Example payload_roundtrip : DecodePayload (Payload_Encode w_payload ++ str "tail") = Ok w_payload.
Proof. vm_refl. Qed.
Example cert_roundtrip : ParseLeanCert (encode_cert (w_cert [0; 2]) ++ str "tail") = (w_cert [0; 2], None).
Proof. vm_refl. Qed.
Lemma quorum_intersection_witness :
  MeetsWeight (signedWeight (w_cert [0; 1; 2]) [1; 1; 1; 1]) (totalWeight [1; 1; 1; 1]) = true /\
  exists i, HasIndex (w_cert [0; 1; 2]) i && HasIndex (w_cert [1; 2; 3]) i = true /\ (i =? 1) = false.
Proof.
  split; [vm_compute; reflexivity|].
  refine (proj2 (quorum_intersection (w_cert [0; 1; 2]) (w_cert [1; 2; 3]) [1; 1; 1; 1] _ _ _ _ _) (fun i => i =? 1) _).
  - split; [repeat constructor; lia|vm_compute; reflexivity].
  - split; [apply (bool_decide_unpack _); vm_compute; exact I|repeat constructor; vm_compute; discriminate].
  - split; [apply (bool_decide_unpack _); vm_compute; exact I|repeat constructor; vm_compute; discriminate].
  - vm_compute; reflexivity.
  - vm_compute; reflexivity.
  - vm_compute; discriminate.
Defined.
(** A signer that is repeated counts each time. *)
Example repeated_signer_meets :
  MeetsWeight (signedWeight (w_cert [0; 0; 0]) [1; 1; 1; 1]) (totalWeight [1; 1; 1; 1]) = true.
Proof. vm_refl. Qed.
(** With a bad length of the last field the signers are returned beside the
    error. *)
Example truncated_keeps_signers :
  let '(c, e) := ParseLeanCert (take 268 (encode_cert (w_cert [0; 1; 2]))) in
  e = Some ECertRaw /\ length (lc_Signers c) = 3%nat.
Proof. vm_compute. done. Qed.
