(* ===== verification/FfiParticipants.v ===== *)
(** * x/leanval/cwffi/participants.go: who takes part, with what weight

    The engine learns the participants from the leanval store, through ABCI
    queries whose answers are pairs on the wire. The main theorem relates that
    reading, made without the keeper, to the roster the keeper maintains. *)

From S2P Require Import Prelude Sha256 KVStore LvTypes LvCodec LvMerkle LvBitfield LvPower LvPairs.

#[local] Open Scope go_scope.

(** ** Definitions *)

(** [func(path, data) []byte]: an ABCI query of the store. *)
Definition StoreQuery : Type := bytes -> bytes -> bytes.
Definition subspace_path : bytes := str "/store/leanval/subspace".

(** The reader of pairs panics on some inputs: [None]. An error is [Some None]. *)
Definition caught {A : Type} (r : result pair_error A) : option (option A) :=
  match r with Ok a => Some (Some a) | Err PairPanic => None | Err _ => Some None end.
Definition bits_of (pairs : list rawKV) : bytes :=
  foldl (fun bf p => if bytes_eqb (kv_key p) [BitfieldPrefix] then kv_value p else bf) [] pairs.
(** The subject and index of an entry of the index, if it is well formed. *)
Definition index_entry (p : rawKV) : option (bytes * Z) :=
  match kv_key p with
  | pfx :: subj =>
      if (blen (kv_key p) <? 2) || negb (bool_decide (pfx = DepositIndexPrefix)) then None
      else if negb (blen subj =? 32) then None
      else if blen (kv_value p) <? 5 then None
      else Some (subj, GetU32 (slice_from (blen (kv_value p) - 4) (kv_value p)))
  | [] => None
  end.
Definition pubkeysFromBits (bfRaw idxRaw : bytes) : option (list bytes) :=
  match caught (DecodeSubspacePairs bfRaw) with
  | None => None
  | Some None => Some []
  | Some (Some bfPairs) =>
      let bf := bits_of bfPairs in
      if blen bf =? 0 then Some []
      else match caught (DecodeSubspacePairs idxRaw) with
           | None => None
           | Some None => Some []
           | Some (Some idxPairs) =>
               Some (omap (fun p => match index_entry p with
                                    | None => None
                                    | Some (subj, idx) => if bitGet bf idx then Some subj else None
                                    end) idxPairs)
           end
  end.
Definition pubkeysFromBonded (raw : bytes) (epoch : Z) : option (list bytes) :=
  match caught (DecodeBondedSubspace epoch raw) with
  | None => None
  | Some None => Some []
  | Some (Some rows) =>
      Some (omap (fun r => if negb (blen (bs_Subject r) =? 32) then None
                           else if negb (bs_HasProof r) then None else Some (bs_Subject r)) rows)
  end.
(** [sort.Slice] by [bytes.Compare]; equal keys cannot be told apart. *)
Definition sort_keys (pks : list bytes) : list bytes := merge_sort bytes_le pks.
Definition BondedParticipants (q : StoreQuery) (epoch : Z) : option bytes :=
  match pubkeysFromBits (q subspace_path [BitfieldPrefix]) (q subspace_path [DepositIndexPrefix]) with
  | None => None
  | Some pks =>
      match (if bool_decide (pks = []) then pubkeysFromBonded (q subspace_path (BondedPrefixForPeriod epoch)) epoch
             else Some pks) with
      | None => None
      | Some pks => Some (concat (sort_keys pks))
      end
  end.
(** The [n] keys of 32 bytes. *)
Fixpoint keys32 (n : nat) (pks : bytes) : list bytes :=
  match n with O => [] | S n' => slice_to 32 pks :: keys32 n' (slice_from 32 pks) end.
Definition eb_entry (p : rawKV) : option (Z * Z) :=
  match kv_key p with
  | pfx :: i => if negb (blen (kv_key p) =? 5) || negb (bool_decide (pfx = EBPrefix)) || (blen (kv_value p) <? 1) then None
                else Some (GetU32 i, byte_val (byte_at (kv_value p) 0))
  | [] => None
  end.
Definition eb_map (pairs : list rawKV) : gmap Z Z :=
  foldl (fun m p => match eb_entry p with Some (i, w) => <[i := w]> m | None => m end) ∅ pairs.
Definition index_map (pairs : list rawKV) : gmap bytes Z :=
  foldl (fun m p => match index_entry p with Some (s, i) => <[s := i]> m | None => m end) ∅ pairs.
Definition participant_weight (subjIdx : gmap bytes Z) (ebByIdx : gmap Z Z) (subj : bytes) : Z :=
  match subjIdx !! subj with
  | None => 1
  | Some idx => match ebByIdx !! idx with
                | Some w => if 0 <? w then w else 1
                | None => 1
                end
  end.
(** Pairs that cannot be read count as none. *)
Definition BondedParticipantsWeights (q : StoreQuery) (epoch : Z) : option (bytes * list Z) :=
  match BondedParticipants q epoch with
  | None => None
  | Some pks =>
      if blen pks =? 0 then Some ([], [])
      else match caught (DecodeSubspacePairs (q subspace_path [DepositIndexPrefix])),
                 caught (DecodeSubspacePairs (q subspace_path [EBPrefix])) with
           | Some idxPairs, Some ebPairs =>
               let ebByIdx := eb_map (default [] ebPairs) in
               let subjIdx := index_map (default [] idxPairs) in
               Some (pks, map (participant_weight subjIdx ebByIdx) (keys32 (Z.to_nat (blen pks / 32)) pks))
           | _, _ => None
           end
  end.

(** ** What the reading amounts to *)

(** The query answers with the entries under the prefix. *)
Definition answers (q : StoreQuery) (m : store) : Prop :=
  forall pfx, let wire := encodeKVPairs (map raw_of (IteratePrefix m pfx)) in
  q subspace_path pfx = wire /\ short wire.
Definition sorted_keys (l : list bytes) : Prop := StronglySorted bytes_le l /\ NoDup l.

(** The participants: the roster's members; without any, the subjects proved for
    the epoch. *)
Definition bonded_keys (m : store) (epoch : Z) : list bytes :=
  map pw_Subject (filter (fun x => blen (pw_Subject x) = 32 /\ pw_HasProof x = true) (BondedSet m epoch)).
Definition participants_of (m : store) (rows : list row) (epoch : Z) : list bytes :=
  sort_keys (match members rows with [] => bonded_keys m epoch | ms => map row_subject ms end).
(** The effective balance, and 1 where there is none. *)
Definition roster_weight (rows : list row) (s : bytes) : Z :=
  match list_find (fun r => row_subject r = s) rows with Some (_, r) => Z.max 1 (eb_val r) | None => 1 end.

Lemma answers_decode q m pfx : answers q m ->
  DecodeSubspacePairs (q subspace_path pfx) = Ok (map raw_of (IteratePrefix m pfx)).
Proof. intros Ha. destruct (Ha pfx) as [-> Hs]. by apply decodeKVPairs_total_roundtrip. Qed.

Lemma bits_of_Bitfield m : bits_of (map raw_of (IteratePrefix m [BitfieldPrefix])) = store_Get m BitfieldKey.
Proof.
  assert (H : forall l acc, NoDup l.*1 ->
    foldl (fun bf p => if bytes_eqb (kv_key p) [BitfieldPrefix] then kv_value p else bf) acc (map raw_of l) =
    default acc (list_to_map (M := gmap bytes bytes) l !! BitfieldKey)).
  { induction l as [|[k v] l IH]; intros acc Hn; [done|]. apply NoDup_cons in Hn as [Hni Hn].
    cbn [map foldl list_to_map foldr raw_of kv_key kv_value fst snd uncurry]. rewrite IH by done.
    change (foldr _ ∅ l) with (list_to_map (M := gmap bytes bytes) l).
    destruct (bytes_eqb k [BitfieldPrefix]) eqn:E.
    - apply bytes_eqb_eq in E as ->. change [BitfieldPrefix] with BitfieldKey in *. rewrite lookup_insert_eq.
      by rewrite (not_elem_of_list_to_map_1 l BitfieldKey).
    - apply bytes_eqb_neq in E. by rewrite lookup_insert_ne. }
  unfold bits_of. rewrite H by apply NoDup_IteratePrefix. unfold store_Get. f_equal.
  apply option_eq. intros v. rewrite <- elem_of_list_to_map by apply NoDup_IteratePrefix.
  rewrite elem_of_IteratePrefix. split; [by intros [? _]|done].
Qed.

(** An entry of the index is the key and index the keeper reads. *)
Lemma index_entry_iff m s i :
  (exists kv, kv ∈ IteratePrefix m [DepositIndexPrefix] /\ index_entry (raw_of kv) = Some (s, i)) <->
  depositIndexOf m s = Some i /\ blen s = 32.
Proof.
  unfold depositIndexOf. split.
  - intros ([k v] & Hin & He). apply elem_of_IteratePrefix in Hin as [Hm [t Hk]%has_prefix_true].
    unfold index_entry, raw_of in He. cbn [kv_key kv_value fst snd] in He. subst k. cbn [app] in He.
    destruct (_ || _); [done|]. destruct (blen t =? 32) eqn:E1; cbn [negb] in He; [|done].
    destruct (blen v <? 5) eqn:E2; [done|]. injection He as -> <-. zbool. split; [|done].
    unfold store_Get, DepositIndexKey. cbn [app] in Hm. rewrite Hm. change (default [] (Some v)) with v. cbv zeta. destruct (Z.ltb_spec (blen v) 5); [lia|done].
  - intros [Hd Hs]. destruct (m !! DepositIndexKey s) as [v|] eqn:Hm; unfold store_Get in Hd; rewrite Hm in Hd; [|done].
    change (default [] (Some v)) with v in Hd. exists (DepositIndexKey s, v). split; [apply elem_of_IteratePrefix; split; [done|by rewrite has_prefix_true; exists s]|].
    unfold index_entry, raw_of, DepositIndexKey. cbn [kv_key kv_value fst snd]. rewrite blen_cons, Hs.
    rewrite bool_decide_eq_true_2 by done. cbn [negb orb]. change (1 + 32 <? 2) with false. cbn [orb].
    change (32 =? 32) with true. cbn [negb]. destruct (blen v <? 5); [done|]. by injection Hd as <-.
Qed.

Lemma eb_entry_iff p i w :
  eb_entry p = Some (i, w) <->
  is_u32 i /\ kv_key p = EBKey i /\ exists b v, kv_value p = b :: v /\ byte_val b = w.
Proof.
  change (EBKey i) with (EBPrefix :: PutU32 i). rewrite PutU32_be. unfold eb_entry. split.
  - destruct (kv_key p) as [|x k]; [done|]. rewrite blen_cons. destruct (Z.eqb_spec (1 + blen k) 5) as [Hl|]; cbn [negb orb]; [|done].
    destruct (bool_decide (x = EBPrefix)) eqn:E; cbn [negb orb]; [|done]. apply bool_decide_eq_true in E as ->.
    destruct (kv_value p) as [|b v]; [done|]. destruct (blen (b :: v) <? 1) eqn:E; [done|]. intros [= <- <-].
    assert (Hk : length k = 4%nat) by (unfold blen in Hl; lia).
    split; [apply GetU32_range|]. split; [|by exists b, v].
    rewrite GetU32_be by lia. rewrite take_ge by lia. rewrite <- Hk. by rewrite be_put_get.
  - intros (Hi & -> & b & v & -> & <-).
    assert (Hl : blen (be_put 4 i) = 4) by (unfold blen; by rewrite length_be_put). rewrite blen_cons, Hl.
    rewrite bool_decide_eq_true_2 by done. rewrite blen_cons. pose proof (blen_nonneg v).
    destruct (Z.ltb_spec (1 + blen v) 1); [lia|]. cbn [negb orb]. rewrite <- PutU32_be.
    rewrite <- (app_nil_r (PutU32 i)), GetU32_PutU32 by done. done.
Qed.

(** Reading keeps keys distinct, so a map built entry by entry holds what was read. *)
Lemma NoDup_omap_key {A} (f : rawKV -> option A) (k : A -> bytes) ps :
  (forall p a, f p = Some a -> k a = kv_key p) -> NoDup (map kv_key ps) -> NoDup (k <$> omap f ps).
Proof.
  intros Hk. induction ps as [|p ps IH]; intros Hn; [constructor|]. apply NoDup_cons in Hn as [Hni Hn].
  cbn [omap list_omap]. destruct (f p) as [a|] eqn:E; [|by apply IH]. rewrite fmap_cons. constructor; [|by apply IH].
  rewrite (Hk _ _ E). intros Hin. apply Hni. apply list_elem_of_fmap in Hin as (b & Hb & Hin).
  apply list_elem_of_omap in Hin as (p' & Hp & E'). rewrite Hb, (Hk _ _ E'). by apply list_elem_of_fmap_2.
Qed.
Lemma read_map_lookup {K V} `{Countable K} (f : rawKV -> option (K * V)) ps k v :
  NoDup (fst <$> omap f ps) ->
  foldl (fun m p => match f p with Some (i, w) => <[i := w]> m | None => m end) (∅ : gmap K V) ps !! k = Some v <->
  (k, v) ∈ omap f ps.
Proof.
  intros Hn. assert (Hf : forall acc : gmap K V,
    foldl (fun m p => match f p with Some (i, w) => <[i := w]> m | None => m end) acc ps !! k = Some v <->
    (k, v) ∈ omap f ps \/ (k ∉ fst <$> omap f ps) /\ acc !! k = Some v).
  { induction ps as [|p ps IH]; intros acc; cbn [foldl omap list_omap].
    - split; [intros H0; right; split; [apply not_elem_of_nil|done]|intros [Hin|[_ H0]]; [by apply not_elem_of_nil in Hin|done]].
    - cbn [omap list_omap] in Hn. destruct (f p) as [[i w]|]; [|by apply IH].
      rewrite fmap_cons in Hn |- *. apply NoDup_cons in Hn as [Hni Hn]. rewrite IH by done. cbn [fst] in *.
      rewrite !elem_of_cons. destruct (decide (i = k)) as [->|Hne].
      + rewrite lookup_insert_eq. split.
        * intros [Hin|[_ [= ->]]]; [left; by right|left; by left].
        * intros [[[= ->]|Hin]|[Hni' _]]; [by right|by left|tauto].
      + rewrite lookup_insert_ne by done. split.
        * intros [Hin|[Hn' Ha]]; [left; by right|right; split; [|done]]. intros [->|?]; done.
        * intros [[[= -> ->]|Hin]|[Hn' Ha]]; [done|by left|right; split; [tauto|done]]. }
  rewrite Hf, lookup_empty. split; [intros [?|[_ ?]]; done|by left].
Qed.
Lemma raw_keys l : map kv_key (map raw_of l) = l.*1.
Proof. rewrite map_map. done. Qed.
Lemma index_entry_key p s i : index_entry p = Some (s, i) -> DepositIndexKey s = kv_key p.
Proof.
  unfold index_entry. destruct (kv_key p) as [|x k]; [done|]. destruct (bool_decide (x = DepositIndexPrefix)) eqn:E;
    cbn [negb]; [|by rewrite orb_true_r]. apply bool_decide_eq_true in E as ->.
  destruct (_ || _); [done|]. destruct (negb _); [done|]. destruct (_ <? 5); [done|]. by intros [= -> _].
Qed.

Lemma sort_keys_Permutation l1 l2 : l1 ≡ₚ l2 -> sort_keys l1 = sort_keys l2.
Proof.
  intros Hp. unfold sort_keys. apply (StronglySorted_unique bytes_le).
  1, 2: apply (StronglySorted_merge_sort bytes_le).
  etrans; [apply merge_sort_Permutation|]. rewrite Hp. symmetry. apply merge_sort_Permutation.
Qed.

Section Reading.
Context (q : StoreQuery) (m : store) (rows : list row).
Context (Ha : answers q m) (Hrel : roster_rel m rows).

Lemma index_rows s i : depositIndexOf m s = Some i -> exists r, rows !! Z.to_nat i = Some r /\ row_subject r = s /\ 0 <= i < 2 ^ 32.
Proof.
  intros Hd. apply (rr_index _ _ Hrel) in Hd as [Hi Hl]. rewrite list_lookup_fmap in Hl.
  apply fmap_Some in Hl as (r & Hr & ->). exists r. split; [done|]. split; [done|].
  pose proof (lookup_lt_Some _ _ _ Hr). pose proof (rr_bound _ _ Hrel). lia.
Qed.
Lemma elem_of_members r : r ∈ members rows <-> r ∈ rows /\ row_bit r = true /\ blen (row_subject r) = 32.
Proof. unfold members. rewrite list_elem_of_filter. unfold is_member_row. tauto. Qed.

Lemma pubkeysFromBits_members : exists pks,
  pubkeysFromBits (q subspace_path [BitfieldPrefix]) (q subspace_path [DepositIndexPrefix]) = Some pks /\
  pks ≡ₚ map row_subject (members rows).
Proof.
  unfold pubkeysFromBits. rewrite !(answers_decode q m) by done. cbn [caught]. rewrite bits_of_Bitfield.
  assert (Hbit : forall i r, rows !! Z.to_nat i = Some r -> 0 <= i < 2 ^ 32 ->
    row_bit r = bitGet (Bitfield m) i) by (intros i r Hr Hi; pose proof (rr_bit _ _ Hrel i Hi) as H; by rewrite Hr in H).
  unfold Bitfield in Hbit. destruct (blen (store_Get m BitfieldKey) =? 0) eqn:E0; cbv zeta in Hbit; rewrite ?E0 in Hbit.
  - exists []. split; [done|]. destruct (members rows) as [|r l] eqn:Em; [done|]. exfalso.
    assert (Hin : r ∈ members rows) by (rewrite Em; left). apply elem_of_members in Hin as ([n Hn]%list_elem_of_lookup & Hb & _).
    pose proof (lookup_lt_Some _ _ _ Hn). pose proof (rr_bound _ _ Hrel).
    rewrite (Hbit (Z.of_nat n) r) in Hb by (rewrite ?Nat2Z.id; done || lia). unfold bitGet in Hb.
    destruct (blen [Byte.x00] <=? _) eqn:El; [done|]. zbool. change (blen [Byte.x00]) with 1 in El.
    assert (Hz : Z.of_nat n / 8 = 0) by (pose proof (Z.div_pos (Z.of_nat n) 8); lia). rewrite Hz in Hb. done.
  - eexists. split; [reflexivity|]. apply NoDup_Permutation.
    + eapply (NoDup_fmap_1 DepositIndexKey). apply NoDup_omap_key; [|rewrite raw_keys; apply NoDup_IteratePrefix].
      intros p a. destruct (index_entry p) as [[s i]|] eqn:Ei; [|done]. destruct (bitGet _ _); [|done].
      intros [= <-]. by eapply index_entry_key.
    + eapply sublist_NoDup; [apply (rr_nodup _ _ Hrel)|apply members_subjects_sublist].
    + intros s. rewrite list_elem_of_omap, list_elem_of_fmap. split.
      * intros (p & Hp & Hs). apply list_elem_of_fmap in Hp as (kv & -> & Hkv).
        destruct (index_entry (raw_of kv)) as [[s' i]|] eqn:Ei; [|done]. destruct (bitGet _ i) eqn:Eb; [|done].
        injection Hs as ->. destruct (proj1 (index_entry_iff m s i)) as [Hd Hl]; [by exists kv|].
        apply index_rows in Hd as (r & Hr & <- & Hi). exists r. split; [done|]. apply elem_of_members.
        split; [by eapply list_elem_of_lookup_2|]. by rewrite (Hbit i r).
      * intros (r & -> & Hr). apply elem_of_members in Hr as ([n Hn]%list_elem_of_lookup & Hb & Hl).
        pose proof (lookup_lt_Some _ _ _ Hn). pose proof (rr_bound _ _ Hrel).
        destruct (proj2 (index_entry_iff m (row_subject r) (Z.of_nat n))) as (kv & Hkv & Hi).
        { split; [|done]. apply (rr_index _ _ Hrel). rewrite Nat2Z.id, list_lookup_fmap, Hn. split; [lia|done]. }
        exists (raw_of kv). split; [by apply list_elem_of_fmap_2|]. rewrite Hi.
        by rewrite <- (Hbit _ r), Hb by (rewrite ?Nat2Z.id; done || lia).
Qed.

Lemma pubkeysFromBonded_keys epoch :
  pubkeysFromBonded (q subspace_path (BondedPrefixForPeriod epoch)) epoch = Some (bonded_keys m epoch).
Proof.
  unfold pubkeysFromBonded. destruct (Ha (BondedPrefixForPeriod epoch)) as [-> Hs].
  rewrite DecodeBondedSubspace_agrees by done. cbn [caught]. f_equal. unfold bonded_keys.
  induction (BondedSet m epoch) as [|x l IH]; [done|]. cbn [map omap list_omap view_row bs_Subject bs_HasProof].
  rewrite filter_cons. destruct (Z.eqb_spec (blen (pw_Subject x)) 32); cbn [negb].
  - destruct (pw_HasProof x); cbn [negb]; [rewrite decide_True by done; cbn [map]; by rewrite IH|].
    by rewrite decide_False by (intros [_ ?]; done).
  - by rewrite decide_False by (intros [? _]; done).
Qed.
Lemma BondedParticipants_of epoch : BondedParticipants q epoch = Some (concat (participants_of m rows epoch)).
Proof.
  unfold BondedParticipants, participants_of. destruct pubkeysFromBits_members as (pks & -> & Hp).
  destruct (members rows) as [|r l].
  - apply Permutation_nil_r in Hp as ->. rewrite bool_decide_eq_true_2 by done. by rewrite pubkeysFromBonded_keys.
  - rewrite bool_decide_eq_false_2 by (intros ->; by apply Permutation_nil_l in Hp). by rewrite (sort_keys_Permutation _ _ Hp).
Qed.

Lemma index_map_lookup s : blen s = 32 ->
  index_map (map raw_of (IteratePrefix m [DepositIndexPrefix])) !! s = depositIndexOf m s.
Proof.
  intros Hs. apply option_eq. intros i. unfold index_map. rewrite read_map_lookup.
  - rewrite list_elem_of_omap. pose proof (index_entry_iff m s i) as Hi. split.
    + intros (p & Hp & He). apply list_elem_of_fmap in Hp as (kv & -> & Hkv). apply Hi. by exists kv.
    + intros Hd. destruct (proj2 Hi) as (kv & Hkv & He); [done|]. exists (raw_of kv). split; [by apply list_elem_of_fmap_2|done].
  - apply (NoDup_fmap_1 DepositIndexKey). rewrite <- list_fmap_compose.
    apply (NoDup_omap_key index_entry (fun x => DepositIndexKey x.1)); [intros p [s' i']; apply index_entry_key|].
    rewrite raw_keys. apply NoDup_IteratePrefix.
Qed.
Lemma eb_map_lookup i : is_u32 i ->
  eb_map (map raw_of (IteratePrefix m [EBPrefix])) !! i = byte_val <$> head (store_Get m (EBKey i)).
Proof.
  intros Hi. apply option_eq. intros w. unfold eb_map. rewrite read_map_lookup.
  - rewrite list_elem_of_omap, fmap_Some. split.
    + intros (p & Hp & He). apply list_elem_of_fmap in Hp as ([k v] & -> & Hkv).
      apply eb_entry_iff in He as (_ & Hk & b & v' & Hv & <-). cbn [raw_of kv_key kv_value fst snd] in *. subst k v.
      apply elem_of_IteratePrefix in Hkv as [Hm _]. exists b. split; [|done]. unfold store_Get. by rewrite Hm.
    + intros (b & Hb & ->). unfold store_Get in Hb. destruct (m !! EBKey i) as [v|] eqn:Hm; [|done].
      destruct v as [|b' v]; [done|]. injection Hb as ->. exists (raw_of (EBKey i, b :: v)). split.
      * apply list_elem_of_fmap_2, elem_of_IteratePrefix. split; [done|]. by apply (has_prefix_app [EBPrefix]).
      * apply eb_entry_iff. split; [done|]. split; [done|]. by exists b, v.
  - apply (NoDup_fmap_1 EBKey). rewrite <- list_fmap_compose.
    apply (NoDup_omap_key eb_entry (fun x => EBKey x.1)); [|rewrite raw_keys; apply NoDup_IteratePrefix].
    intros p [i' w'] (_ & -> & _)%eb_entry_iff. done.
Qed.
Lemma participant_weight_roster s : blen s = 32 ->
  participant_weight (index_map (map raw_of (IteratePrefix m [DepositIndexPrefix])))
    (eb_map (map raw_of (IteratePrefix m [EBPrefix]))) s = roster_weight rows s.
Proof.
  intros Hs. unfold participant_weight, roster_weight. rewrite index_map_lookup, (depositIndexOf_rel m rows) by done.
  unfold row_find. destruct (list_find _ rows) as [[n r]|] eqn:E; cbn; [|done].
  apply list_find_Some in E as (Hn & _ & _). pose proof (lookup_lt_Some _ _ _ Hn). pose proof (rr_bound _ _ Hrel).
  rewrite eb_map_lookup by (unfold is_u32; lia). pose proof (rr_eb _ _ Hrel (Z.of_nat n)) as He.
  rewrite Nat2Z.id, Hn in He. specialize (He ltac:(lia)). unfold eb_val.
  destruct (store_Get m (EBKey (Z.of_nat n))) as [|b v], (row_eb r) as [b'|]; cbn in He |- *; try done.
  injection He as ->. destruct (Z.ltb_spec 0 (byte_val b')); lia.
Qed.
Lemma keys32_concat l : Forall (fun s => blen s = 32) l -> keys32 (length l) (concat l) = l.
Proof.
  induction 1 as [|s l Hs Hl IH]; [done|]. cbn [length concat keys32]. by rewrite slice_to_app, slice_from_app, IH.
Qed.
Lemma concat32_blen l : Forall (fun s => blen s = 32) l -> blen (concat l) = 32 * Z.of_nat (length l).
Proof. induction 1 as [|s l Hs Hl IH]; [done|]. cbn [length concat]. rewrite blen_app, IH. lia. Qed.
Lemma participants_of_32 epoch : Forall (fun s => blen s = 32) (participants_of m rows epoch).
Proof.
  apply Forall_forall. intros s. unfold participants_of, sort_keys. rewrite merge_sort_Permutation.
  destruct (members rows) as [|r l] eqn:Em; [unfold bonded_keys|rewrite <- Em]; rewrite list_elem_of_fmap; intros (x & -> & Hx).
  - by apply list_elem_of_filter in Hx as [[? _] _].
  - by apply elem_of_members in Hx as (_ & _ & ?).
Qed.
Lemma BondedParticipantsWeights_of epoch :
  let l := participants_of m rows epoch in
  BondedParticipantsWeights q epoch = Some (concat l, map (roster_weight rows) l).
Proof.
  intros l. unfold BondedParticipantsWeights. rewrite BondedParticipants_of. fold l.
  pose proof (participants_of_32 epoch) as H32. fold l in H32. rewrite concat32_blen by done.
  destruct (Z.eqb_spec (32 * Z.of_nat (length l)) 0) as [E|E].
  - destruct l; [done|cbn [length] in E; lia].
  - rewrite !(answers_decode q m) by done. cbn [caught]. change (default [] (Some ?x)) with x.
    replace (32 * Z.of_nat (length l) / 32) with (Z.of_nat (length l)) by (rewrite Z.mul_comm, Z.div_mul; lia).
    rewrite Nat2Z.id, keys32_concat by done. do 2 f_equal. apply map_ext_in. intros s Hin.
    apply participant_weight_roster. rewrite Forall_forall in H32. by apply H32, list_elem_of_In.
Qed.
End Reading.

Lemma filter_map_sublist {A B} (f : A -> B) (P : A -> Prop) `{!forall x, Decision (P x)} l :
  map f (filter P l) `sublist_of` map f l.
Proof. induction l as [|x l IH]; [done|]. rewrite filter_cons. case_decide; by constructor. Qed.

(** ** Theorem *)

(** C12: The participants the engine is given are the keys of the roster's members in
    ascending order, each once, with the member's effective balance as weight and
    1 where it has none; when the roster has no members they are the subjects
    proved for the epoch. *)
Theorem participants_roster q m rows epoch :
  answers q m -> roster_rel m rows ->
  let l := participants_of m rows epoch in
  BondedParticipantsWeights q epoch = Some (concat l, map (roster_weight rows) l) /\
  sorted_keys l /\ (members rows <> [] -> forall s, s ∈ l <-> exists r, r ∈ members rows /\ row_subject r = s).
Proof.
  intros Ha Hrel l. split; [by apply (BondedParticipantsWeights_of q m rows)|].
  assert (Hp : forall l', sort_keys l' ≡ₚ l') by apply merge_sort_Permutation. split; [split|].
  - apply (StronglySorted_merge_sort bytes_le).
  - unfold l, participants_of. rewrite Hp. destruct (members rows) as [|r l'] eqn:Em; [|rewrite <- Em].
    + eapply sublist_NoDup; [apply (NoDup_BondedSet m epoch)|]. apply filter_map_sublist.
    + eapply sublist_NoDup; [apply (rr_nodup _ _ Hrel)|apply members_subjects_sublist].
  - intros Hne s. unfold l, participants_of. rewrite Hp. destruct (members rows) as [|r l'] eqn:Em; [done|].
    rewrite list_elem_of_fmap. split; intros (x & H1 & H2); exists x; done.
Qed.

Definition w_query (m : store) : StoreQuery := fun _ pfx => encodeKVPairs (map raw_of (IteratePrefix m pfx)).
Lemma w_query_answers m : short (encodeKVPairs (map raw_of (merge_sort key_le (map_to_list m)))) -> answers (w_query m) m.
Proof.
  intros Hs pfx wire. split; [done|]. unfold short in *. eapply Z.le_lt_trans; [|exact Hs]. clear Hs.
  unfold wire, IteratePrefix. generalize (merge_sort key_le (map_to_list m)) as l. induction l as [|kv l IH]; [done|].
  rewrite filter_cons. unfold encodeKVPairs in *. case_decide; cbn [map concat]; rewrite ?blen_app; [lia|].
  pose proof (blen_nonneg (protoBytes 1 (encode_pair (raw_of kv)))). lia.
Qed.
(** Two members, with effective balances 10 and 7. *)
Lemma participants_roster_witness :
  BondedParticipantsWeights (w_query w_val2) 3 = Some (w_key 1 ++ w_key 2, [10; 7]).
Proof.
  destruct (participants_roster (w_query w_val2) w_val2 w_vrows 3) as [H _];
    [apply w_query_answers; vm_compute; reflexivity|exact w_vrel|]. rewrite H. vm_compute. reflexivity.
Defined.
