(* ===== verification/FfiDriver.v ===== *)
(** * x/leanval/cwffi/driver.go: the driver

    The engine asks to propose, to verify and to finalize; the driver builds and
    checks payloads through the application's proposal handlers, and on a
    finalization runs the block and commits it. The application and the native
    check of certificates are parameters. The lock makes each call one step;
    [now] is the clock a call reads. *)

From S2P Require Import Prelude Sha256 KVStore LvTypes LvCodec LvBitfield LvPower LvPairs FfiCodec FfiParticipants.

#[local] Open Scope go_scope.

(** ** The driver's data *)

Record VoteInfo := MkVoteInfo { vi_Address : bytes; vi_Power : Z }.
Inductive check_response := CheckErr | CheckNil | CheckCode (code : Z).

(** The application behind the driver. [None] and [false] are an error or a nil
    response. [Address] is that of an ed25519 key. *)
Class EngineApp (A : Type) := {
  app_Info : A -> option Z;
  app_PrepareProposal : Z -> Z -> list bytes -> bytes -> A -> A * option (list bytes);
  app_ProcessProposal : list bytes -> bytes -> Z -> Z -> bytes -> A -> A * bool;
  app_FinalizeBlock : list bytes -> bytes -> Z -> Z -> bytes -> list VoteInfo -> A -> A * bool;
  app_Commit : A -> A * bool;
  app_CheckTx : bytes -> A -> A * check_response;
  app_query : A -> StoreQuery;
  Address : bytes -> bytes
}.

Record committedBlock := MkCommitted { cb_payload : bytes; cb_cert : bytes }.
Record Driver (A : Type) := MkDriver {
  d_app : A; d_proposer : bytes; d_next : Z; d_lastCert : LeanCert; d_lastCertRaw : bytes; d_lastPks : bytes;
  d_lastWeights : list Z; d_lastPayload : bytes; d_mempool : list bytes; d_committed : gmap Z committedBlock;
  d_conflicts : Z;
  d_storeQuery : bool;  (* whether [SetStoreQuery] was called *)
  d_verifyCert : option (bytes -> list Z -> bytes -> bool)
}.
Arguments MkDriver {A}.
Arguments d_app {A} _.
Arguments d_proposer {A} _.
Arguments d_next {A} _.
Arguments d_lastCert {A} _.
Arguments d_lastCertRaw {A} _.
Arguments d_lastPks {A} _.
Arguments d_lastWeights {A} _.
Arguments d_lastPayload {A} _.
Arguments d_mempool {A} _.
Arguments d_committed {A} _.
Arguments d_conflicts {A} _.
Arguments d_storeQuery {A} _.
Arguments d_verifyCert {A} _.

Section Driver.
Context {A : Type} {App : EngineApp A}.
Implicit Types d : Driver A.

Definition set_app (a : A) d : Driver A :=
  MkDriver a (d_proposer d) (d_next d) (d_lastCert d) (d_lastCertRaw d) (d_lastPks d) (d_lastWeights d)
    (d_lastPayload d) (d_mempool d) (d_committed d) (d_conflicts d) (d_storeQuery d) (d_verifyCert d).
Definition set_payload (p : bytes) d : Driver A :=
  MkDriver (d_app d) (d_proposer d) (d_next d) (d_lastCert d) (d_lastCertRaw d) (d_lastPks d) (d_lastWeights d)
    p (d_mempool d) (d_committed d) (d_conflicts d) (d_storeQuery d) (d_verifyCert d).
Definition set_mempool (m : list bytes) d : Driver A :=
  MkDriver (d_app d) (d_proposer d) (d_next d) (d_lastCert d) (d_lastCertRaw d) (d_lastPks d) (d_lastWeights d)
    (d_lastPayload d) m (d_committed d) (d_conflicts d) (d_storeQuery d) (d_verifyCert d).

Definition NewDriver (app : A) (proposer : bytes) : Driver A :=
  let next := match app_Info app with
              | Some h => if h <? 1 then 1 else i64 (h + 1)
              | None => 1
              end in
  MkDriver app proposer next zeroCert [] [] [] [] [] ∅ 0 false None.
Definition SetStoreQuery d : Driver A :=
  MkDriver (d_app d) (d_proposer d) (d_next d) (d_lastCert d) (d_lastCertRaw d) (d_lastPks d) (d_lastWeights d)
    (d_lastPayload d) (d_mempool d) (d_committed d) (d_conflicts d) true (d_verifyCert d).
Definition SetVerifyCert (fn : bytes -> list Z -> bytes -> bool) d : Driver A :=
  MkDriver (d_app d) (d_proposer d) (d_next d) (d_lastCert d) (d_lastCertRaw d) (d_lastPks d) (d_lastWeights d)
    (d_lastPayload d) (d_mempool d) (d_committed d) (d_conflicts d) (d_storeQuery d) (Some fn).
Definition Height d : Z := match app_Info (d_app d) with Some h => h | None => i64 (d_next d - 1) end.
Definition txKey (tx : bytes) : bytes := sha256 tx.

(** What the engine asks for before an epoch; [None] is a panic. *)
Definition Participants (epoch : Z) d : option bytes :=
  if negb (d_storeQuery d) then Some [] else BondedParticipants (app_query (d_app d)) epoch.
Definition ParticipantsWeights (epoch : Z) d : option (bytes * list Z) :=
  if negb (d_storeQuery d) then Some ([], []) else BondedParticipantsWeights (app_query (d_app d)) epoch.

(** ** Proposing and verifying *)

Definition Propose (now : Z) d : Driver A * option (bytes * bytes) :=
  let h := if d_next d <? 1 then 1 else d_next d in
  match app_PrepareProposal h now (d_mempool d) (d_proposer d) (d_app d) with
  | (a, None) => (set_app a d, None)
  | (a, Some txs) =>
      let raw := Payload_Encode (MkPayload h txs) in
      (set_payload raw (set_app a d), Some (sha256 raw, raw))
  end.
Definition Verify (now : Z) (digest payload : bytes) d : Driver A * bool :=
  let d := set_payload payload d in
  if containsDSTW payload then (d, false)
  else match DecodePayload payload with
       | Err _ => (d, false)
       | Ok p =>
           if (blen digest =? 32) && negb (bytes_eqb (sha256 payload) digest) then (d, false)
           else let '(a, ok) := app_ProcessProposal (pl_Txs p) digest (pl_Height p) now (d_proposer d) (d_app d) in
                (set_app a d, ok)
       end.
Definition Certify d : bool := negb (containsDSTW (d_lastPayload d)).
Definition Report (kind : Z) d : Driver A :=
  if kind =? 7 then
    MkDriver (d_app d) (d_proposer d) (d_next d) (d_lastCert d) (d_lastCertRaw d) (d_lastPks d) (d_lastWeights d)
      (d_lastPayload d) (d_mempool d) (d_committed d) (i64 (d_conflicts d + 1)) (d_storeQuery d) (d_verifyCert d)
  else d.

(** ** Finalizing *)

Definition isZeroSig (sig : bytes) : bool := forallb (fun b => bool_decide (b = Byte.x00)) sig.
Definition vote_of (pks : bytes) (weights : list Z) (s : CertSigner) : option VoteInfo :=
  match pubkey_at pks (cs_Index s) with
  | None => None
  | Some pk =>
      let power := match weight_at weights (cs_Index s) with Some w => i64 w | None => 0 end in
      let power := if power <=? 0 then 1 else power in
      if isZeroSig (cs_Signature s) then None else Some (MkVoteInfo (Address pk) power)
  end.
Definition lastCommitFromCert (c : LeanCert) (pks : bytes) (weights : list Z) : list VoteInfo :=
  omap (vote_of pks weights) (lc_Signers c).
Definition participantsAndWeightsLocked (epoch : Z) d : option (bytes * list Z) :=
  if negb (d_storeQuery d) then Some (d_lastPks d, d_lastWeights d)
  else match BondedParticipantsWeights (app_query (d_app d)) epoch with
       | None => None
       | Some (pks, w) => if blen pks =? 0 then Some (d_lastPks d, d_lastWeights d) else Some (pks, w)
       end.
(** The certificate may be used: for a remote block it is there and the native
    check, if set, accepts it; if it names signers they have the weight. *)
Definition cert_accepted (remote : bool) (pks : bytes) (weights : list Z) (cert : bytes) d : bool :=
  let '(parsed, perr) := ParseLeanCert cert in
  (if remote then
     negb (blen cert =? 0) &&
     match d_verifyCert d with None => true | Some verifyCert => verifyCert pks weights cert end
   else true) &&
  match perr, lc_Signers parsed with
  | None, _ :: _ =>
      let sw := signedWeight parsed weights in
      let tw := totalWeight weights in
      negb ((0 <? tw) && negb (MeetsWeight sw tw))
  | _, _ => true
  end.
Definition included (txs : list bytes) : gset bytes := list_to_set (map txKey txs).
(** The fields after a commit. *)
Definition committed_state (p : Payload) (payload cert : bytes) (pks : bytes) (weights : list Z) (a : A) d : Driver A :=
  let '(parsed, perr) := ParseLeanCert cert in
  let '(lastCert, lastRaw) :=
    match perr with
    | None => (parsed, if 0 <? blen (lc_Raw parsed) then lc_Raw parsed else cert)
    | Some _ => (d_lastCert d, if 0 <? blen cert then cert else d_lastCertRaw d)
    end in
  MkDriver a (d_proposer d) (i64 (pl_Height p + 1)) lastCert lastRaw pks weights (d_lastPayload d)
    (filter (fun tx => txKey tx ∉ included (pl_Txs p)) (d_mempool d))
    (<[pl_Height p := MkCommitted payload cert]> (d_committed d)) (d_conflicts d) (d_storeQuery d) (d_verifyCert d).
(** [Ok (Some h)]: the block was committed, the engine is told and the callback
    runs; [Err tt] is a panic. *)
Definition finalize (now epoch : Z) (digest payload cert : bytes) (remote : bool) : meth (Driver A) unit (option Z) :=
  fun d =>
    match DecodePayload payload with
    | Err _ => (d, Ok None)
    | Ok p =>
        if (0 <? d_next d) && negb (pl_Height p =? d_next d) then (d, Ok None)
        else
          let digest := if negb (blen digest =? 32) then sha256 payload else digest in
          match participantsAndWeightsLocked epoch d with
          | None => (d, Err tt)
          | Some (pks, weights) =>
              if negb (cert_accepted remote pks weights cert d) then (d, Ok None)
              else
                let commit := lastCommitFromCert (ParseLeanCert cert).1 pks weights in
                match app_FinalizeBlock (pl_Txs p) digest (pl_Height p) now (d_proposer d) commit (d_app d) with
                | (a, false) => (set_app a d, Ok None)
                | (a, true) =>
                    match app_Commit a with
                    | (a, false) => (set_app a d, Ok None)
                    | (a, true) => (committed_state p payload cert pks weights a d, Ok (Some (pl_Height p)))
                    end
                end
          end
    end.
Definition Finalize (now epoch : Z) (digest payload cert : bytes) : meth (Driver A) unit (option Z) :=
  finalize now epoch digest payload cert false.
Definition ApplyRemote (now : Z) (payload cert : bytes) : meth (Driver A) unit (option Z) :=
  fun d => if (blen payload =? 0) || (blen cert =? 0) then (d, Ok None)
           else finalize now 0 (sha256 payload) payload cert true d.

Definition PayloadAt (h : Z) d : bytes * Z * bytes :=
  let h := if h <=? 0 then i64 (d_next d - 1) else h in
  if h <? 1 then ([], 0, d_lastCertRaw d)
  else match d_committed d !! h with
       | Some b => (cb_payload b, h, cb_cert b)
       | None => ([], h, d_lastCertRaw d)
       end.
Definition CheckTx (tx : bytes) d : Driver A * check_response :=
  let '(a, resp) := app_CheckTx tx (d_app d) in
  let d := set_app a d in
  match resp with
  | CheckCode 0 =>
      if negb (0 <? blen tx) then (d, resp)
      else if existsb (fun existing => bytes_eqb (txKey existing) (txKey tx)) (d_mempool d) then (d, resp)
      else (set_mempool (d_mempool d ++ [tx]) d, resp)
  | _ => (d, resp)
  end.

(** ** Runs *)

Inductive driver_op :=
| OpSetStoreQuery | OpSetVerifyCert (fn : bytes -> list Z -> bytes -> bool)
| OpPropose (now : Z) | OpVerify (now : Z) (digest payload : bytes) | OpReport (kind : Z)
| OpFinalize (now epoch : Z) (digest payload cert : bytes) | OpApplyRemote (now : Z) (payload cert : bytes)
| OpCheckTx (tx : bytes).
(** A panic keeps the lock: nothing happens after it. *)
Definition driver_step (o : driver_op) d : option (Driver A) :=
  match o with
  | OpSetStoreQuery => Some (SetStoreQuery d)
  | OpSetVerifyCert fn => Some (SetVerifyCert fn d)
  | OpPropose now => Some (Propose now d).1
  | OpVerify now digest payload => Some (Verify now digest payload d).1
  | OpReport kind => Some (Report kind d)
  | OpFinalize now epoch digest payload cert =>
      let '(d', r) := Finalize now epoch digest payload cert d in if is_ok r then Some d' else None
  | OpApplyRemote now payload cert =>
      let '(d', r) := ApplyRemote now payload cert d in if is_ok r then Some d' else None
  | OpCheckTx tx => Some (CheckTx tx d).1
  end.
Fixpoint driver_run (ops : list driver_op) d : option (Driver A) :=
  match ops with
  | [] => Some d
  | o :: ops' => match driver_step o d with Some d' => driver_run ops' d' | None => None end
  end.

(** The blocks from height [first] on, up to the one before the next, each with
    a payload of its height; the pool holds no transaction twice. *)
Record driver_inv (first : Z) d : Prop := MkDriverInv {
  di_next : 1 <= first <= d_next d;
  di_blocks : forall h, is_Some (d_committed d !! h) <-> first <= h < d_next d;
  di_heights : forall h b, d_committed d !! h = Some b ->
    exists p, DecodePayload (cb_payload b) = Ok p /\ pl_Height p = h;
  di_pool : NoDup (map txKey (d_mempool d)) /\ [] ∉ d_mempool d
}.
(** What a step keeps: blocks already committed, and it adds at most one. *)
Record driver_grows d d' : Prop := MkDriverGrows {
  dg_next : d_next d <= d_next d' <= d_next d + 1;
  dg_blocks : d_committed d ⊆ d_committed d'
}.

(** A call commits one block at the next height or changes no field but the
    application. *)
Lemma finalize_cases now epoch digest payload cert remote d d' r :
  finalize now epoch digest payload cert remote d = (d', r) ->
  ((forall h, r <> Ok (Some h)) /\ exists a, d' = set_app a d) \/
  exists p pks ws a1 a2,
    DecodePayload payload = Ok p /\ (d_next d <= 0 \/ pl_Height p = d_next d) /\
    participantsAndWeightsLocked epoch d = Some (pks, ws) /\ cert_accepted remote pks ws cert d = true /\
    app_FinalizeBlock (pl_Txs p) (if negb (blen digest =? 32) then sha256 payload else digest) (pl_Height p) now
      (d_proposer d) (lastCommitFromCert (ParseLeanCert cert).1 pks ws) (d_app d) = (a1, true) /\
    app_Commit a1 = (a2, true) /\
    r = Ok (Some (pl_Height p)) /\ d' = committed_state p payload cert pks ws a2 d.
Proof.
  assert (Hid : d = set_app (d_app d) d) by (by destruct d).
  unfold finalize. destruct (DecodePayload payload) as [p|] eqn:Ed; [|intros [= <- <-]; left; split; [done|by exists (d_app d)]].
  destruct (_ && _) eqn:Eh; [intros [= <- <-]; left; split; [done|by exists (d_app d)]|].
  destruct (participantsAndWeightsLocked epoch d) as [[pks ws]|]; [|intros [= <- <-]; left; split; [done|by exists (d_app d)]].
  destruct (cert_accepted remote pks ws cert d) eqn:Ec; cbn [negb]; [|intros [= <- <-]; left; split; [done|by exists (d_app d)]].
  destruct (app_FinalizeBlock _ _ _ _ _ _ _) as [a1 [|]] eqn:Ef; [|intros [= <- <-]; left; split; [done|by exists a1]].
  destruct (app_Commit a1) as [a2 [|]] eqn:Em; [|intros [= <- <-]; left; split; [done|by exists a2]].
  intros [= <- <-]. right. exists p, pks, ws, a1, a2. split_and!; try done.
  apply andb_false_iff in Eh as [Eh|Eh]; zbool; [by left|by right].
Qed.

Lemma inv_set_app first a d : driver_inv first d -> driver_inv first (set_app a d).
Proof. intros [? ? ? ?]. by split. Qed.
Lemma committed_next p payload cert pks ws a d : d_next (committed_state p payload cert pks ws a d) = i64 (pl_Height p + 1).
Proof. unfold committed_state. destruct (ParseLeanCert cert) as [c [e|]]; done. Qed.
Lemma committed_blocks p payload cert pks ws a d :
  d_committed (committed_state p payload cert pks ws a d) = <[pl_Height p := MkCommitted payload cert]> (d_committed d).
Proof. unfold committed_state. destruct (ParseLeanCert cert) as [c [e|]]; done. Qed.
Lemma committed_mempool p payload cert pks ws a d :
  d_mempool (committed_state p payload cert pks ws a d) = filter (fun tx => txKey tx ∉ included (pl_Txs p)) (d_mempool d).
Proof. unfold committed_state. destruct (ParseLeanCert cert) as [c [e|]]; done. Qed.

Lemma finalize_inv first now epoch digest payload cert remote d d' r :
  d_next d + 1 < 2 ^ 63 -> driver_inv first d ->
  finalize now epoch digest payload cert remote d = (d', r) -> driver_inv first d' /\ driver_grows d d'.
Proof.
  intros Hb Hi Hf. pose proof Hi as [Hn Hbl Hh [Hp He]].
  apply finalize_cases in Hf as [(_ & a & ->)|(p & pks & ws & a1 & a2 & Hd & Hnx & _ & _ & _ & _ & _ & ->)].
  - split; [by apply inv_set_app|]. split; [cbn; lia|done].
  - destruct Hnx as [?|Hnx]; [lia|].
    assert (Hi64 : i64 (pl_Height p + 1) = d_next d + 1) by (rewrite Hnx; apply i64_id; unfold is_i64; lia).
    split; split; rewrite ?committed_next, ?committed_blocks, ?committed_mempool, ?Hi64, ?Hnx; try lia.
    + intros h. destruct (decide (h = d_next d)) as [->|Hne]; [rewrite lookup_insert_eq; split; [lia|by eexists]|].
      rewrite lookup_insert_ne by done. rewrite Hbl. lia.
    + intros h b. destruct (decide (h = d_next d)) as [->|Hne].
      * rewrite lookup_insert_eq. intros [= <-]. by exists p.
      * rewrite lookup_insert_ne by done. apply Hh.
    + split; [eapply sublist_NoDup; [exact Hp|apply filter_map_sublist]|].
      rewrite list_elem_of_filter. tauto.
    + apply insert_subseteq. destruct (d_committed d !! d_next d) eqn:E; [|done].
      assert (H : is_Some (d_committed d !! d_next d)) by by rewrite E. apply Hbl in H. lia.
Qed.
Lemma NoDup_pool_snoc l tx :
  existsb (fun existing => bytes_eqb (txKey existing) (txKey tx)) l = false -> NoDup (map txKey l) ->
  NoDup (map txKey (l ++ [tx])).
Proof.
  intros He Hn. rewrite map_app. apply NoDup_app. split; [done|]. split; [|apply NoDup_singleton].
  intros k Hk Hk'. apply list_elem_of_singleton in Hk' as ->. apply list_elem_of_fmap in Hk as (x & Hx & Hin).
  apply Bool.not_true_iff_false in He. apply He, existsb_exists. exists x. split; [by apply list_elem_of_In|].
  apply bytes_eqb_eq. done.
Qed.
Lemma driver_step_inv first o d d' :
  d_next d + 1 < 2 ^ 63 -> driver_inv first d -> driver_step o d = Some d' -> driver_inv first d' /\ driver_grows d d'.
Proof.
  intros Hb Hi. pose proof Hi as [Hn Hbl Hh [Hp He]].
  destruct o as [|fn|now|now dg pl|k|now ep dg pl ct|now pl ct|tx]; cbn [driver_step].
  - intros [= <-]. split; [done|]. split; [cbn; lia|done].
  - intros [= <-]. split; [done|]. split; [cbn; lia|done].
  - unfold Propose. destruct (app_PrepareProposal _ _ _ _ _) as [a [txs|]]; intros [= <-];
      (split; [done|]; split; [cbn; lia|done]).
  - unfold Verify. destruct (containsDSTW pl); [|destruct (DecodePayload pl); [destruct (_ && _); [|destruct (app_ProcessProposal _ _ _ _ _ _)]|]];
      intros [= <-]; (split; [done|]; split; [cbn; lia|done]).
  - unfold Report. destruct (k =? 7); intros [= <-]; (split; [done|]; split; [lia || (cbn; lia)|done]).
  - destruct (Finalize now ep dg pl ct d) as [d1 r] eqn:Ef. destruct (is_ok r); [|done]. intros [= <-].
    by eapply finalize_inv.
  - destruct (ApplyRemote now pl ct d) as [d1 r] eqn:Ef. destruct (is_ok r); [|done]. intros [= <-].
    unfold ApplyRemote in Ef. destruct (_ || _); [injection Ef as <- _; split; [done|]; split; [lia|done]|].
    by eapply finalize_inv.
  - unfold CheckTx. destruct (app_CheckTx tx (d_app d)) as [a [| |[| |]]];
      try (intros [= <-]; split; [done|]; split; [cbn; lia|done]).
    destruct (Z.ltb_spec 0 (blen tx)); cbn [negb]; [|intros [= <-]; split; [done|]; split; [cbn; lia|done]].
    destruct (existsb _ _) eqn:Ee; intros [= <-]; (split; [|split; [cbn; lia|done]]); [done|].
    split; [done..|]. cbn [d_mempool set_mempool set_app] in *. split; [by apply NoDup_pool_snoc|].
    intros [Hin|Hin%list_elem_of_singleton]%elem_of_app; [done|]. subst tx. by change (blen []) with 0 in *.
Qed.
Lemma driver_run_inv first ops d d' :
  d_next d + Z.of_nat (length ops) < 2 ^ 63 -> driver_inv first d -> driver_run ops d = Some d' ->
  driver_inv first d' /\ d_committed d ⊆ d_committed d' /\ d_next d' <= d_next d + Z.of_nat (length ops).
Proof.
  revert d. induction ops as [|o ops IH]; intros d Hb Hi; cbn [driver_run].
  - intros [= <-]. split_and!; [done|done|cbn; lia].
  - destruct (driver_step o d) as [d1|] eqn:Es; [|done]. intros Hr. cbn [length] in Hb.
    apply (driver_step_inv first) in Es as [Hi1 [Hg1 Hg2]]; [|lia|done].
    apply IH in Hr as (Hi' & Hs & Hn); [|lia|done]. split; [done|]. cbn [length]. split; [by etrans|lia].
Qed.
Lemma NewDriver_inv app proposer : (forall h, app_Info app = Some h -> h + 1 < 2 ^ 63) ->
  driver_inv (d_next (NewDriver app proposer)) (NewDriver app proposer).
Proof.
  intros Hh. assert (Hn : 1 <= d_next (NewDriver app proposer)).
  { unfold NewDriver. destruct (app_Info app) as [h|]; [|cbn; lia]. specialize (Hh h eq_refl).
    destruct (Z.ltb_spec h 1); cbn; [lia|]. rewrite i64_id; [lia|]. unfold is_i64. lia. }
  split; [lia| | |].
  - intros h. cbn [NewDriver d_committed]. rewrite lookup_empty. split; [by intros [? ?]|lia].
  - intros h b. cbn [NewDriver d_committed]. by rewrite lookup_empty.
  - split; [constructor|apply not_elem_of_nil].
Qed.
End Driver.

(** ** Theorems *)

(** C9: Whatever is asked of a fresh driver, it holds one block per height from the
    first it was to decide up to the one before the next, without a gap, each
    readable back and made for its height; its pool holds no transaction twice
    and no empty one. *)
Theorem driver_chain {A} `{App : EngineApp A} app proposer ops d :
  let d0 := NewDriver app proposer in
  (forall h, app_Info app = Some h -> h + 1 < 2 ^ 63) -> d_next d0 + Z.of_nat (length ops) < 2 ^ 63 ->
  driver_run ops d0 = Some d ->
  NoDup (map txKey (d_mempool d)) /\ [] ∉ d_mempool d /\ d_next d0 <= d_next d /\
  forall h, d_next d0 <= h < d_next d <->
    exists payload cert p, d_committed d !! h = Some (MkCommitted payload cert) /\
      PayloadAt h d = (payload, h, cert) /\ DecodePayload payload = Ok p /\ pl_Height p = h.
Proof.
  intros d0 Hh Hb Hr. pose proof (NewDriver_inv app proposer Hh) as Hi0.
  apply (driver_run_inv (d_next d0)) in Hr as [[Hn Hbl Hhs [Hp He]] _]; [|done|done].
  split; [done|]. split; [done|]. split; [lia|]. intros h. rewrite <- Hbl. split.
  - intros [[payload cert] Hc]. destruct (Hhs _ _ Hc) as (p & Hd & Hp'). exists payload, cert, p. split; [done|].
    split; [|done]. unfold PayloadAt. assert (H : is_Some (d_committed d !! h)) by by rewrite Hc. apply Hbl in H.
    destruct (Z.leb_spec h 0); [lia|]. destruct (Z.ltb_spec h 1); [lia|]. by rewrite Hc.
  - intros (payload & cert & p & Hc & _). by rewrite Hc.
Qed.

(** C11: A block once committed is never replaced, whatever is finalized or applied
    later. *)
Theorem driver_never_forks {A} `{App : EngineApp A} app proposer ops1 ops2 d1 d2 h b :
  (forall h, app_Info app = Some h -> h + 1 < 2 ^ 63) ->
  d_next (NewDriver app proposer) + Z.of_nat (length (ops1 ++ ops2)) < 2 ^ 63 ->
  driver_run ops1 (NewDriver app proposer) = Some d1 -> driver_run ops2 d1 = Some d2 ->
  d_committed d1 !! h = Some b -> d_committed d2 !! h = Some b.
Proof.
  intros Hh Hb H1 H2. pose proof (NewDriver_inv app proposer Hh) as Hi0. set (d0 := NewDriver app proposer) in *.
  rewrite length_app, Nat2Z.inj_add in Hb.
  apply (driver_run_inv (d_next d0)) in H1 as (Hi1 & _ & Hn); [|lia|done].
  apply (driver_run_inv (d_next d0)) in H2 as (_ & Hs & _); [|lia|done].
  intros Hc. exact (lookup_weaken _ _ _ _ Hc Hs).
Qed.

(** ** Quorums over the roster *)

Lemma roster_weight_range rows s : 1 <= roster_weight rows s <= 255.
Proof.
  unfold roster_weight. destruct (list_find _ rows) as [[n r]|]; [|lia]. pose proof (eb_val_range r). lia.
Qed.
Lemma roster_weights_ok m rows epoch : roster_rel m rows -> members rows <> [] ->
  weights_ok (map (roster_weight rows) (participants_of m rows epoch)) /\
  0 < sum_weights (map (roster_weight rows) (participants_of m rows epoch)).
Proof.
  intros Hrel Hne.
  assert (Hl : (0 < length (participants_of m rows epoch) <= length rows)%nat).
  { unfold participants_of, sort_keys. rewrite (Permutation_length (merge_sort_Permutation bytes_le _)).
    pose proof (sublist_length _ _ (members_subjects_sublist rows)) as Hs. rewrite !length_fmap in Hs.
    destruct (members rows) as [|r l]; [done|]. cbn [map length] in *. rewrite length_map. lia. }
  pose proof (rr_bound _ _ Hrel) as Hb. revert Hl. generalize (participants_of m rows epoch) as l. clear epoch.
  assert (Hs : forall l, Z.of_nat (length l) <= sum_weights (map (roster_weight rows) l) <= 255 * Z.of_nat (length l)).
  { induction l as [|s l IH]; cbn [map sum_weights foldr length]; [lia|]. pose proof (roster_weight_range rows s).
    unfold sum_weights in IH. lia. }
  intros l Hl. specialize (Hs l). split; [split|lia].
  - apply Forall_forall. intros w (s & -> & _)%list_elem_of_fmap. pose proof (roster_weight_range rows s). lia.
  - lia.
Qed.

(** C10: Where the keys come from the store, a certificate that names its signers,
    each once, lets a block be committed only if they hold more than two thirds
    of the weight of the roster; the block is then the one of the next height, it
    is what is kept and served for that height, and exactly its transactions
    leave the pool. *)
Theorem finalize_quorum {A} `{App : EngineApp A} now epoch digest payload cert remote d d' h c m rows :
  d_storeQuery d = true -> answers (app_query (d_app d)) m -> roster_rel m rows -> members rows <> [] ->
  0 < d_next d -> ParseLeanCert cert = (c, None) -> lc_Signers c <> [] -> distinct_signers c ->
  finalize now epoch digest payload cert remote d = (d', Ok (Some h)) ->
  let ws := map (roster_weight rows) (participants_of m rows epoch) in
  2 * sum_weights ws < 3 * psum 0 ws (HasIndex c) /\
  exists p, DecodePayload payload = Ok p /\ pl_Height p = h /\ h = d_next d /\
    d_committed d' = <[h := MkCommitted payload cert]> (d_committed d) /\
    forall tx, tx ∈ d_mempool d' <-> tx ∈ d_mempool d /\ txKey tx ∉ map txKey (pl_Txs p).
Proof.
  intros Hq Ha Hrel Hne Hpos Hc Hs Hd Hf ws.
  apply finalize_cases in Hf as [[Hr _]|(p & pks & ws' & a1 & a2 & Hp & Hh & Hw & Hacc & _ & _ & Hr & ->)]; [by destruct (Hr h)|].
  injection Hr as ->. destruct (roster_weights_ok m rows epoch Hrel Hne) as [Hok Hpw]. fold ws in Hok, Hpw.
  assert (ws' = ws) as ->.
  { unfold participantsAndWeightsLocked in Hw. rewrite Hq in Hw. cbn [negb] in Hw.
    rewrite (BondedParticipantsWeights_of _ m rows) in Hw by done. fold ws in Hw.
    destruct (Z.eqb_spec (blen (concat (participants_of m rows epoch))) 0) as [E|_]; [|by injection Hw as _ <-].
    rewrite concat32_blen in E by apply participants_of_32. exfalso. revert Hpw. unfold ws.
    destruct (participants_of m rows epoch); [cbn; lia|cbn [length] in E; lia]. }
  split.
  - unfold cert_accepted in Hacc. rewrite Hc in Hacc. apply andb_true_iff in Hacc as [_ Hacc].
    destruct (lc_Signers c) as [|s0 l0] eqn:El; [done|]. rewrite totalWeight_sum in Hacc by done.
    destruct (Z.ltb_spec 0 (sum_weights ws)); [|lia]. cbn [andb] in Hacc. apply negb_true_iff, negb_false_iff in Hacc.
    rewrite signedWeight_psum in Hacc by done. set (P := fun j => bool_decide (j ∈ map cs_Index (lc_Signers c))) in Hacc.
    pose proof (psum_le 0 ws P (proj1 Hok)) as Hle. pose proof (proj2 Hok). apply MeetsWeight_spec in Hacc as [_ Hacc]; [|lia..].
    rewrite (psum_ext 0 ws _ P); [lia|]. intros i. apply HasIndex_elem.
  - exists p. rewrite committed_blocks, committed_mempool. split; [done|]. split; [done|].
    split; [destruct Hh; [lia|done]|]. split; [done|]. intros tx. rewrite list_elem_of_filter. unfold included.
    rewrite elem_of_list_to_set. tauto.
Qed.

(** ** From the proposer to the verifier *)

(** A proposal is the application's transactions at the next height; every
    driver that receives it asks its own application about exactly these, and
    answers what it says, except that the dummy magic in it is refused. *)
Theorem proposal_delivered {A} `{App : EngineApp A} now now' d d' digest raw (e : Driver A) :
  is_i64 (d_next d) -> Propose now d = (d', Some (digest, raw)) ->
  exists txs, let h := Z.max 1 (d_next d) in
    (app_PrepareProposal h now (d_mempool d) (d_proposer d) (d_app d)).2 = Some txs /\ d_lastPayload d' = raw /\
    ((exists tx, tx ∈ txs /\ containsDSTW tx = true) -> (Verify now' digest raw e).2 = false) /\
    (payload_wf (MkPayload h txs) -> containsDSTW raw = false ->
     (Verify now' digest raw e).2 = (app_ProcessProposal txs digest h now' (d_proposer e) (d_app e)).2 /\
     Certify (Verify now' digest raw e).1 = true).
Proof.
  intros Hi. unfold Propose. replace (if d_next d <? 1 then 1 else d_next d) with (Z.max 1 (d_next d))
    by (destruct (Z.ltb_spec (d_next d) 1); lia).
  destruct (app_PrepareProposal _ _ _ _ _) as [a [txs|]]; intros [= <- <- <-]. exists txs. cbv zeta.
  set (p := MkPayload (Z.max 1 (d_next d)) txs). split; [done|]. split; [done|]. split.
  - intros (tx & Hin & Hd). unfold Verify. by rewrite (containsDSTW_tx p tx).
  - intros Hw Hd. unfold Verify. rewrite Hd.
    assert (Hp : DecodePayload (Payload_Encode p) = Ok p)
      by (apply DecodePayload_spec; split; [done|]; exists []; by rewrite app_nil_r).
    rewrite Hp, bytes_eqb_refl, andb_false_r. cbn [pl_Txs pl_Height p].
    destruct (app_ProcessProposal _ _ _ _ _ _) as [a' ok]. split; [done|]. unfold Certify. cbn [fst set_app set_payload d_lastPayload]. by rewrite Hd.
Qed.

(** ** Behaviour worth knowing *)

(** The certificate of a remote block is not compared with the block: one that
    is accepted for a payload is accepted for any other payload of that height. *)
Theorem remote_certificate_unbound {A} `{App : EngineApp A} now payload payload' cert d d1 h p' :
  0 < d_next d -> ApplyRemote now payload cert d = (d1, Ok (Some h)) ->
  payload' <> [] -> DecodePayload payload' = Ok p' -> pl_Height p' = h ->
  (forall digest commit, exists a1 a2,
     app_FinalizeBlock (pl_Txs p') digest h now (d_proposer d) commit (d_app d) = (a1, true) /\ app_Commit a1 = (a2, true)) ->
  exists d2, ApplyRemote now payload' cert d = (d2, Ok (Some h)) /\ d_committed d2 !! h = Some (MkCommitted payload' cert).
Proof.
  intros Hpos H1 Hne Hd Hh Happ. unfold ApplyRemote in *.
  destruct (blen payload =? 0); cbn [orb] in H1; [done|]. destruct (blen cert =? 0) eqn:Ec; [done|].
  apply finalize_cases in H1 as [[Hr _]|(p & pks & ws & a1 & a2 & Hp & Hnx & Hw & Hacc & _ & _ & Hr & ->)]; [by destruct (Hr h)|].
  injection Hr as ->. destruct Hnx as [?|Hnx]; [lia|].
  assert (E0 : blen payload' =? 0 = false) by (apply Z.eqb_neq; destruct payload'; [done|rewrite blen_cons; pose proof (blen_nonneg payload'); lia]).
  rewrite E0. cbn [orb]. unfold finalize. rewrite Hd, Hh, Hnx, Z.eqb_refl. cbn [negb]. rewrite andb_false_r, Hw, Hacc. cbn [negb].
  rewrite Hnx in Happ. edestruct Happ as (b1 & b2 & -> & ->). eexists. split; [done|].
  rewrite committed_blocks, Hh, Hnx. apply lookup_insert_eq.
Qed.

(** ** Witnesses *)

(** An application that accepts everything, and whose store has two members. *)
Record toy := MkToy { toy_height : Z; toy_pending : Z }.
#[export] Instance toy_app : EngineApp toy := {|
  app_Info := fun a => Some (toy_height a);
  app_PrepareProposal := fun _ _ txs _ a => (a, Some txs);
  app_ProcessProposal := fun txs _ _ _ _ a => (a, true);
  app_FinalizeBlock := fun _ _ h _ _ _ a => (MkToy (toy_height a) h, true);
  app_Commit := fun a => (MkToy (toy_pending a) (toy_pending a), true);
  app_CheckTx := fun _ a => (a, CheckCode 0);
  app_query := fun _ => w_query w_val2;
  Address := fun k => take 20 k
|}.
Definition w_app : toy := MkToy 4 4.
Definition w_block (h : Z) (txs : list bytes) : bytes := Payload_Encode (MkPayload h txs).
Definition w_signed (l : list Z) : bytes := encode_cert (w_cert l).
Definition w_ops : list driver_op :=
  [OpSetStoreQuery; OpCheckTx (str "a"); OpCheckTx (str "b"); OpCheckTx (str "a"); OpPropose 10;
   OpFinalize 11 3 [] (w_block 5 [str "a"]) (w_signed [0; 1])].
Definition w_driver : Driver toy := default (NewDriver w_app []) (driver_run w_ops (NewDriver w_app [])).
Lemma w_driver_run : driver_run w_ops (NewDriver w_app []) = Some w_driver.
Proof. vm_compute. reflexivity. Qed.

Lemma driver_chain_witness :
  d_next w_driver = 6 /\ d_mempool w_driver = [str "b"] /\ NoDup (map txKey (d_mempool w_driver)).
Proof.
  split; [vm_compute; reflexivity|]. split; [vm_compute; reflexivity|].
  apply (driver_chain w_app [] w_ops); [intros h [= <-]; vm_compute; reflexivity|vm_compute; reflexivity|exact w_driver_run].
Defined.
(** A second block of height 5 is refused; one of height 6 is added. *)
Definition w_later : list driver_op :=
  [OpFinalize 12 3 [] (w_block 5 [str "z"]) (w_signed [0; 1]); OpFinalize 13 3 [] (w_block 6 [str "b"]) (w_signed [0; 1])].
Lemma driver_never_forks_witness :
  exists d2, driver_run w_later w_driver = Some d2 /\ d_next d2 = 7 /\
    d_committed d2 !! 5 = Some (MkCommitted (w_block 5 [str "a"]) (w_signed [0; 1])).
Proof.
  destruct (driver_run w_later w_driver) as [d2|] eqn:E; [|vm_compute in E; discriminate].
  exists d2. split; [reflexivity|]. split; [vm_compute in E; injection E as <-; reflexivity|].
  apply (driver_never_forks w_app [] w_ops w_later w_driver d2 5); [|vm_compute; reflexivity|exact w_driver_run|exact E|vm_compute; reflexivity].
  intros h [= <-]. vm_compute. reflexivity.
Defined.
Lemma finalize_quorum_witness :
  let ws := [10; 7] in 2 * 17 < 3 * psum 0 ws (HasIndex (w_cert [0; 1])).
Proof.
  destruct (finalize 14 3 [] (w_block 6 []) (w_signed [0; 1]) false w_driver) as [d' r] eqn:E.
  assert (Hr : r = Ok (Some 6)) by (vm_compute in E; congruence). subst r.
  refine (proj1 (finalize_quorum 14 3 [] (w_block 6 []) (w_signed [0; 1]) false w_driver d' 6 (w_cert [0; 1]) w_val2 w_vrows
    _ _ w_vrel _ _ _ _ _ E)).
  - vm_compute. reflexivity.
  - apply w_query_answers. vm_compute. reflexivity.
  - vm_compute. discriminate.
  - vm_compute. reflexivity.
  - vm_compute. reflexivity.
  - vm_compute. discriminate.
  - split; [apply (bool_decide_unpack _); vm_compute; exact I|repeat constructor; vm_compute; discriminate].
Defined.
Lemma proposal_delivered_witness :
  exists d' digest raw, Propose 10 w_driver = (d', Some (digest, raw)) /\ (Verify 12 digest raw (NewDriver w_app [])).2 = true.
Proof.
  destruct (Propose 10 w_driver) as [d' [[digest raw]|]] eqn:E; [|vm_compute in E; discriminate].
  exists d', digest, raw. split; [reflexivity|].
  destruct (proposal_delivered 10 12 w_driver d' digest raw (NewDriver w_app [])) as (txs & Ht & _ & _ & Hv);
    [split; vm_compute; [discriminate|reflexivity]|exact E|]. vm_compute in Ht. injection Ht as <-.
  destruct Hv as [Hv _]; [|vm_compute in E; injection E as _ _ <-; vm_compute; reflexivity|].
  - split; [split; vm_compute; [discriminate|reflexivity]|]. split; [vm_compute; reflexivity|]. repeat constructor.
  - rewrite Hv. vm_compute. reflexivity.
Defined.
(** The native check accepts the certificate of block 6 with no transactions; it
    serves a block with another transaction as well. *)
Definition w_checked : Driver toy :=
  SetVerifyCert (fun _ _ cert => bytes_eqb cert (w_signed [0; 1])) w_driver.
Lemma remote_certificate_unbound_witness :
  exists d2, ApplyRemote 15 (w_block 6 [str "forged"]) (w_signed [0; 1]) w_checked = (d2, Ok (Some 6)) /\
    d_committed d2 !! 6 = Some (MkCommitted (w_block 6 [str "forged"]) (w_signed [0; 1])).
Proof.
  destruct (ApplyRemote 15 (w_block 6 []) (w_signed [0; 1]) w_checked) as [d1 r] eqn:E.
  assert (Hr : r = Ok (Some 6)) by (vm_compute in E; congruence). subst r.
  apply (remote_certificate_unbound 15 (w_block 6 []) (w_block 6 [str "forged"]) (w_signed [0; 1]) w_checked d1 6
    (MkPayload 6 [str "forged"])).
  - vm_compute. reflexivity.
  - exact E.
  - vm_compute. discriminate.
  - vm_compute. reflexivity.
  - reflexivity.
  - intros dg c. eexists _, _. split; reflexivity.
Defined.
(** A driver that was never started has no native check: any bytes are a
    certificate. *)
Example no_check_no_signature :
  (ApplyRemote 15 (w_block 6 [str "forged"]) (str "x") w_driver).2 = Ok (Some 6).
Proof. vm_refl. Qed.
(** A repeated signer stands for the whole roster. *)
Example one_signer_finalizes :
  (Finalize 15 3 [] (w_block 6 []) (w_signed [0]) w_driver).2 = Ok None /\
  (Finalize 15 3 [] (w_block 6 []) (w_signed [0; 0]) w_driver).2 = Ok (Some 6).
Proof. split; vm_refl. Qed.
(** With a bad length at its end a certificate escapes the weight rule, and its
    signers are still the votes the application sees. *)
Example truncated_certificate_votes :
  let cert := take 130 (w_signed [0]) in
  (Finalize 15 3 [] (w_block 6 []) cert w_driver).2 = Ok (Some 6) /\
  length (lastCommitFromCert (ParseLeanCert cert).1 (w_key 1 ++ w_key 2) [10; 7]) = 1%nat.
Proof. split; vm_refl. Qed.
