(* ===== verification/FfiRpc.v ===== *)
(** * x/leanval/cwffi/rpc.go and server/commonware.go: serving and catching up

    The driver's blocks are served over HTTP as JSON; a node that is not a
    participant asks another node for the certificate and the payload of its
    next height and applies them. Requests reach the model after net/http has
    taken them apart: a path, the text of a query field, a body. The texts of
    error messages, the echoed request id and the clock shown by [status] are
    left out. *)

From S2P Require Import Prelude Sha256 KVStore LvTypes LvCodec LvHost LvBitfield LvPower LvPairs Json JsonPrint FfiCodec FfiParticipants FfiDriver.

#[local] Open Scope go_scope.

(** ** Texts *)

Definition decodeTx (s : bytes) : option bytes :=
  let s := trim_0x s in
  match hex_decode s with Some b => Some b | None => b64_decode s end.
(** The value [strconv.ParseInt(s, 10, 64)] returns, beside an error too: 0 for
    a bad text, the nearest bound out of range. *)
Definition ParseInt_value (s : bytes) : Z :=
  let '(neg, d) := match s with
                   | c :: r => if bool_decide (c = "-"%byte) then (true, r)
                               else if bool_decide (c = "+"%byte) then (false, r) else (false, s)
                   | [] => (false, s)
                   end in
  if bool_decide (d = []) || negb (forallb is_digit d) then 0
  else if neg then Z.max (- digits_val d) (- 2 ^ 63) else Z.min (digits_val d) (2 ^ 63 - 1).
Definition parseHeightQuery (s : bytes) : Z := if bytes_eqb s [] then 0 else ParseInt_value s.

(** The white space of [fmt], less the line feed. *)
Definition scan_space (s : bytes) : option bytes :=
  match s with
  | a :: r =>
      if in_range 9 9 a || in_range 11 13 a || in_range 32 32 a then Some r
      else match r with
           | b :: r =>
               if in_range 194 194 a && (in_range 133 133 b || in_range 160 160 b) then Some r
               else match r with
                    | c :: r =>
                        if in_range 225 225 a && in_range 154 154 b && in_range 128 128 c ||
                           in_range 226 226 a && in_range 128 128 b && (in_range 128 138 c || in_range 168 169 c || in_range 175 175 c) ||
                           in_range 226 226 a && in_range 129 129 b && in_range 159 159 c ||
                           in_range 227 227 a && in_range 128 128 b && in_range 128 128 c
                        then Some r else None
                    | [] => None
                    end
           | [] => None
           end
  | [] => None
  end.
Fixpoint skip_space (fuel : nat) (s : bytes) : bytes :=
  match fuel with
  | O => s
  | S fuel' => match scan_space s with Some r => skip_space fuel' r | None => s end
  end.
(** [fmt.Sscanf(s, "%d", &h)] with [h] zero before. *)
Definition Sscanf_d (s : bytes) : Z :=
  let s := skip_space (length s) s in
  let '(neg, s) := match s with
                   | c :: r => if bool_decide (c = "-"%byte) then (true, r)
                               else if bool_decide (c = "+"%byte) then (false, r) else (false, s)
                   | [] => (false, s)
                   end in
  let '(d, _) := take_digits s in
  if bool_decide (d = []) then 0
  else if neg then (if digits_val d <=? 2 ^ 63 then - digits_val d else 0)
  else (if digits_val d <? 2 ^ 63 then digits_val d else 0).

(** ** Requests *)

(** A [json.RawMessage]; absent it is empty. *)
Definition dec_raw (cur : option json) (v : json) : option (option json) := Some (Some v).

Definition parseTxParam (params : option json) : option bytes :=
  match params with
  | None => None
  | Some v =>
      match (l ← members v; dec_field dec_string (str "tx") [] l) with
      | Some (c :: tx) => decodeTx (c :: tx)
      | _ => match dec_slice (dec_string []) v with
             | Some (s :: _) => decodeTx s
             | _ => None
             end
      end
  end.
(** A height is a number or the text of one; [None]: neither. *)
Definition height_value (v : json) : option Z :=
  match dec_int 64 0 v with
  | Some n => Some n
  | None => match dec_string [] v with Some s => Some (ParseInt_value s) | None => None end
  end.
Definition parseHeightJSON (params : option json) : Z :=
  match params with
  | None => 0
  | Some v =>
      match (l ← members v; h ← dec_field dec_raw (str "height") None l; h ← h; height_value h) with
      | Some n => n
      | None => match dec_slice Some v with
                | Some (h :: _) => default 0 (height_value h)
                | _ => 0
                end
      end
  end.

(** ** Results *)

Section Serve.
Context {A : Type} {App : EngineApp A}.
Implicit Types d : Driver A.

Definition text64 (b : bytes) : json := JStr (if 0 <? blen b then b64_encode b else []).
Definition payloadResult (height : Z) d : json :=
  let '(payload, h, cert) := PayloadAt height d in
  JObj [(str "certificate", text64 cert); (str "height", JStr (FormatInt h)); (str "payload", text64 payload)].
Definition cert_signer (pks : bytes) (s : CertSigner) : json :=
  JObj [(str "index", enc_uint (cs_Index s));
        (str "pubkey", JStr (match pubkey_at pks (cs_Index s) with Some k => b64_encode k | None => [] end));
        (str "signature", JStr (b64_encode (cs_Signature s)))].
Definition certificateResult (height : Z) d : json :=
  let '(payload, h, cert) := PayloadAt height d in
  let cert := if blen cert =? 0 then d_lastCertRaw d else cert in
  let parsed := (ParseLeanCert cert).1 in
  JObj [(str "certificate", text64 cert); (str "epoch", enc_uint (lc_Epoch parsed)); (str "height", JStr (FormatInt h));
        (str "signers", JArr (map (cert_signer (d_lastPks d)) (lc_Signers parsed))); (str "view", enc_uint (lc_View parsed))].
Definition to_upper (c : byte) : byte := if in_range 97 122 c then byte_of_Z (byte_val c - 32) else c.
Definition block_signature (pks : bytes) (s : CertSigner) : option json :=
  if isZeroSig (cs_Signature s) then None
  else Some (JObj [(str "block_id_flag", enc_uint 2); (str "signature", JStr (b64_encode (cs_Signature s)));
                   (str "validator_address",
                    JStr (match pubkey_at pks (cs_Index s) with Some k => map to_upper (hex_encode k) | None => [] end))]).
Definition blockResult (height : Z) d : json :=
  let '(payload, h, cert) := PayloadAt height d in
  let '(h, cert) := if h =? 0 then (Height d, d_lastCertRaw d) else (h, cert) in
  let parsed := (ParseLeanCert cert).1 in
  let txs := if 0 <? blen payload then [JStr (b64_encode payload)] else [] in
  JObj [(str "block",
         JObj [(str "data", JObj [(str "txs", JArr txs)]); (str "header", JObj [(str "height", JStr (FormatInt h))]);
               (str "last_commit", JObj [(str "signatures", JArr (omap (block_signature (d_lastPks d)) (lc_Signers parsed)))])]);
        (str "certificate", text64 cert); (str "payload", text64 payload)].
Definition statusResult (now : bytes) d : json :=
  JObj [(str "node_info", JObj [(str "moniker", JStr (str "terpz")); (str "network", JStr (str "lean"))]);
        (str "sync_info", JObj [(str "catching_up", JBool false); (str "latest_block_height", JStr (FormatInt (Height d)));
                                (str "latest_block_time", JStr now)]);
        (str "validator_info", JObj [])].
(** The code and hash of the result. *)
Definition broadcast (tx : bytes) d : Driver A * (Z * bytes) :=
  let '(d, resp) := CheckTx tx d in
  let code := match resp with CheckErr => 1 | CheckNil => 0 | CheckCode c => c end in
  (d, (code, hex_encode (sha256 tx))).

(** ** The server *)

Inductive rpc_reply := RpcResult (v : json) | RpcTx (code : Z) (hash : bytes) | RpcError (code : Z).
(** A POST at the root. *)
Definition rpc_post (now body : bytes) d : Driver A * rpc_reply :=
  match (v ← json_parse body; l ← members v;
         _ ← dec_field dec_string (str "jsonrpc") [] l;
         method ← dec_field dec_string (str "method") [] l;
         params ← dec_field dec_raw (str "params") None l;
         Some (method, params)) with
  | None => (d, RpcError (-32700))
  | Some (method, params) =>
      if bytes_eqb method (str "status") then (d, RpcResult (statusResult now d))
      else if bytes_eqb method (str "block") then (d, RpcResult (blockResult (parseHeightJSON params) d))
      else if bytes_eqb method (str "payload") then (d, RpcResult (payloadResult (parseHeightJSON params) d))
      else if bytes_eqb method (str "lean_certificate") || bytes_eqb method (str "lean/certificate")
      then (d, RpcResult (certificateResult (parseHeightJSON params) d))
      else if bytes_eqb method (str "broadcast_tx_sync") || bytes_eqb method (str "broadcast_tx_commit") ||
              bytes_eqb method (str "broadcast_tx_async")
      then match parseTxParam params with
           | None => (d, RpcError (-32602))
           | Some tx => let '(d, (code, hash)) := broadcast tx d in (d, RpcTx code hash)
           end
      else (d, RpcError (-32601))
  end.
(** A GET of a block, a payload or a certificate, and of [broadcast_tx_sync]. *)
Inductive endpoint := EpCertificate | EpPayload | EpBlock.
Definition endpoint_of (path : bytes) : option endpoint :=
  if has_prefix (str "/block") path then Some EpBlock
  else if has_prefix (str "/payload") path then Some EpPayload
  else if has_prefix (str "/lean/certificate") path then Some EpCertificate
  else None.
Definition endpoint_result (ep : endpoint) (height : Z) d : json :=
  match ep with
  | EpCertificate => certificateResult height d
  | EpPayload => payloadResult height d
  | EpBlock => blockResult height d
  end.
Definition rpc_resp (v : json) : json :=
  JObj [(str "jsonrpc", JStr (str "2.0")); (str "id", JNum (str "-1")); (str "result", v)].
Definition writeJSON (v : json) : bytes := json_print v ++ [Byte.x0a].
Definition rpc_get (path height : bytes) d : option bytes :=
  match endpoint_of path with
  | Some ep => Some (writeJSON (rpc_resp (endpoint_result ep (parseHeightQuery height) d)))
  | None => None
  end.
Definition handleBroadcastQuery (tx : bytes) d : Driver A * rpc_reply :=
  match decodeTx tx with
  | None => (d, RpcError (-32602))
  | Some tx => let '(d, (code, hash)) := broadcast tx d in (d, RpcTx code hash)
  end.
End Serve.

(** ** Catching up *)

(** The height of the block, and its transactions, of the nested structs. *)
Definition dec_header (cur : bytes) (v : json) : option bytes := l ← members v; dec_field dec_string (str "height") cur l.
Definition dec_data (cur : list bytes) (v : json) : option (list bytes) :=
  l ← members v; dec_field (fun _ => dec_slice (dec_string [])) (str "txs") cur l.
Definition dec_block (cur : bytes * list bytes) (v : json) : option (bytes * list bytes) :=
  l ← members v;
  h ← dec_field dec_header (str "header") cur.1 l;
  txs ← dec_field dec_data (str "data") cur.2 l;
  Some (h, txs).
Definition dec_wrap (v : json) : option (option json) :=
  l ← members v;
  _ ← dec_field dec_string (str "payload") [] l;
  dec_field dec_raw (str "result") None l.
Record catchup_res := MkCatchup {
  cr_Payload : bytes; cr_Certificate : bytes; cr_Height : bytes; cr_BlockHeight : bytes; cr_Txs : list bytes
}.
Definition dec_res (v : json) : option catchup_res :=
  l ← members v;
  payload ← dec_field dec_string (str "payload") [] l;
  certificate ← dec_field dec_string (str "certificate") [] l;
  height ← dec_field dec_string (str "height") [] l;
  block ← dec_field dec_block (str "block") ([], []) l;
  Some (MkCatchup payload certificate height block.1 block.2).
(** The payload of a text, if it is one. *)
Definition payload_text (s : bytes) : bytes :=
  match b64_decode s with
  | Some p => if is_ok (DecodePayload p) then p else []
  | None => []
  end.
Definition decodeCatchupPayload (body : bytes) (want : Z) : bytes * bytes :=
  match (v ← json_parse body; result ← dec_wrap v; dec_res (default v result)) with
  | None => ([], [])
  | Some res =>
      let hs := if bytes_eqb (cr_Height res) [] then cr_BlockHeight res else cr_Height res in
      let h := Sscanf_d hs in
      if negb (bytes_eqb hs []) && negb (h =? 0) && negb (h =? want) then ([], [])
      else
        let b64 := if bytes_eqb (cr_Payload res) [] then default [] (head (cr_Txs res)) else cr_Payload res in
        (if bytes_eqb b64 [] then [] else payload_text b64,
         if bytes_eqb (cr_Certificate res) [] then [] else default [] (b64_decode (cr_Certificate res)))
  end.

(** A body is read up to four mebibytes. *)
Definition limit : Z := 4194304.
Definition read_body (b : bytes) : bytes := if blen b <=? limit then b else slice_to limit b.
Fixpoint fetch_loop (get : bytes -> bytes -> option bytes) (height : Z) (paths : list bytes) (payload cert : bytes) : bytes * bytes :=
  match paths with
  | [] => (payload, cert)
  | u :: paths' =>
      match get u (FormatInt height) with
      | None => fetch_loop get height paths' payload cert
      | Some body =>
          let '(p, c) := decodeCatchupPayload (read_body body) height in
          let payload := if 0 <? blen p then p else payload in
          let cert := if 0 <? blen c then c else cert in
          if (0 <? blen payload) && (0 <? blen cert) then (payload, cert)
          else fetch_loop get height paths' payload cert
      end
  end.
(** [get path height] is the body of the answer of the other node. *)
Definition fetchPayloadAndCert (get : bytes -> bytes -> option bytes) (height : Z) : bytes * bytes :=
  fetch_loop get height [str "/lean/certificate"; str "/payload"; str "/block"] [] [].

(** One round of [catchupLoop] while the engine does not run. *)
Definition catchup_round {A} `{App : EngineApp A} (get : bytes -> bytes -> option bytes) (now : Z) : meth (Driver A) unit (option Z) :=
  fun d =>
    let next := i64 (Height d + 1) in
    let next := if next <? 1 then 1 else next in
    let '(payload, cert) := fetchPayloadAndCert get next in
    if (0 <? blen payload) && (0 <? blen cert) then ApplyRemote now payload cert d else (d, Ok None).

(** [skipCommonwareEngine], after the environment has been read: the node does
    not take part. [pub] is its key. *)
Definition skipCommonwareEngine (skip : bool) (pub : option bytes) (participants : bytes) : bool :=
  if skip then true
  else match pub with
       | None => true
       | Some raw =>
           if negb (blen raw =? 32) || (blen participants <? 32) then true
           else negb (existsb (bytes_eqb raw) (keys32 (Z.to_nat (blen participants / 32)) participants))
       end.

(** ** Numbers and texts read back *)

Lemma digits_head s : forallb is_digit s = true -> s <> [] -> exists c r, s = c :: r /\ is_digit c = true.
Proof. destruct s as [|c r]; [done|]. cbn [forallb]. intros [Hc _]%andb_prop _. by exists c, r. Qed.
Lemma digit_plain c : is_digit c = true ->
  c <> "-"%byte /\ c <> "+"%byte /\ forall r, scan_space (c :: r) = None.
Proof. intros H. split; [|split]; [by intros ->..|]. intros [|b [|x r]]; destruct c; done. Qed.
Lemma FormatInt_pos h : 1 <= h < 2 ^ 63 ->
  FormatInt h = FormatUint h /\ digits_val (FormatInt h) = h /\ forallb is_digit (FormatInt h) = true /\ FormatInt h <> [].
Proof.
  intros Hh. unfold FormatInt. destruct (Z.ltb_spec h 0); [lia|].
  assert (Hu : is_u64 h) by (unfold is_u64; lia). split; [done|]. split; [by apply FormatUint_val|].
  split; [apply FormatUint_digits|]. intros E. pose proof (FormatUint_lit h Hu) as Hl. by rewrite E in Hl.
Qed.
Lemma ParseInt_FormatInt h : 1 <= h < 2 ^ 63 -> ParseInt_value (FormatInt h) = h.
Proof.
  intros Hh. destruct (FormatInt_pos h Hh) as (_ & Hv & Hd & Hn). destruct (digits_head _ Hd Hn) as (c & r & E & Hc).
  destruct (digit_plain c Hc) as (H1 & H2 & _). unfold ParseInt_value. rewrite E in *.
  rewrite !bool_decide_eq_false_2 by done. rewrite Hd, Hv. cbn [negb orb]. lia.
Qed.
Lemma Sscanf_FormatInt h : 1 <= h < 2 ^ 63 -> Sscanf_d (FormatInt h) = h.
Proof.
  intros Hh. destruct (FormatInt_pos h Hh) as (_ & Hv & Hd & Hn). destruct (digits_head _ Hd Hn) as (c & r & E & Hc).
  destruct (digit_plain c Hc) as (H1 & H2 & Hs). unfold Sscanf_d.
  assert (Hk : skip_space (length (FormatInt h)) (FormatInt h) = FormatInt h) by (rewrite E; cbn [length skip_space]; by rewrite Hs).
  rewrite Hk, E, !bool_decide_eq_false_2 by done. rewrite <- E. pose proof (take_digits_app (FormatInt h) [] Hd I) as Ht.
  rewrite app_nil_r in Ht. rewrite Ht. rewrite bool_decide_eq_false_2 by done. rewrite Hv.
  destruct (Z.ltb_spec h (2 ^ 63)); lia.
Qed.
Lemma FormatInt_valid h : is_i64 h -> ValidString (FormatInt h) = true.
Proof.
  intros Hh. apply utf8_ascii. assert (Ha : forall s, forallb is_digit s = true -> forallb is_ascii s = true).
  { intros s. rewrite !forallb_forall. intros H c Hc. specialize (H c Hc). by destruct c. }
  unfold FormatInt. destruct (h <? 0); cbn [forallb]; [apply andb_true_iff; split; [done|]|]; apply Ha, FormatUint_digits.
Qed.
Lemma b64_encode_nil b : b64_encode b = [] <-> b = [].
Proof. split; [|by intros ->]. by destruct b as [|x [|y [|z b]]]. Qed.
Lemma text64_eq b : text64 b = JStr (b64_encode b).
Proof. unfold text64. destruct (Z.ltb_spec 0 (blen b)) as [|H]; [done|]. destruct b as [|x b]; [done|]. rewrite blen_cons in H. pose proof (blen_nonneg b). lia. Qed.

(** ** The certificates that are printed *)

Lemma be_get_slice lo hi b (n : nat) : hi - lo <= Z.of_nat n -> 0 <= be_get (slice lo hi b) < 256 ^ Z.of_nat n.
Proof.
  intros Hn. pose proof (be_get_range (slice lo hi b)) as [H0 H1]. split; [done|]. eapply Z.lt_le_trans; [exact H1|].
  apply Z.pow_le_mono_r; [lia|]. unfold slice, slice_to. rewrite length_take. lia.
Qed.
Lemma parse_signers_u32 n b : Forall (fun s => is_u32 (cs_Index s)) (parse_signers n b).1.
Proof.
  revert b. induction n as [|n IH]; intros b; cbn [parse_signers]; [constructor|].
  specialize (IH (slice_from 68 b)). destruct (parse_signers n (slice_from 68 b)) as [l r]. constructor; [|exact IH].
  cbn [cs_Index]. pose proof (be_get_range (slice_to 4 b)) as [H0 H1]. split; [done|]. eapply Z.lt_le_trans; [exact H1|].
  change (2 ^ 32) with (256 ^ 4). apply Z.pow_le_mono_r; [lia|]. unfold slice_to. rewrite length_take. lia.
Qed.
Lemma ParseLeanCert_widths b :
  let c := (ParseLeanCert b).1 in
  is_u64 (lc_Epoch c) /\ is_u64 (lc_View c) /\ Forall (fun s => is_u32 (cs_Index s)) (lc_Signers c).
Proof.
  cbv zeta. pose proof (be_get_slice 6 14 b 8 ltac:(lia)) as He. pose proof (be_get_slice 14 22 b 8 ltac:(lia)) as Hv.
  pose proof (parse_signers_u32 (Z.to_nat (be_get (slice 54 58 b))) (slice_from 58 b)) as Hs.
  assert (Hz : is_u64 0 /\ is_u64 0 /\ Forall (fun s => is_u32 (cs_Index s)) []) by (split_and!; [unfold is_u64; lia..|constructor]).
  unfold ParseLeanCert. destruct (blen b <? 58); [exact Hz|]. destruct (negb _); [exact Hz|]. destruct (negb _); [exact Hz|].
  destruct (4096 <? _); [split_and!; [exact He|exact Hv|constructor]|].
  destruct (blen b <? _); [split_and!; [exact He|exact Hv|constructor]|].
  destruct (parse_signers _ _) as [l r]. cbn [fst] in Hs. destruct (blen _ <? _); (split_and!; [exact He|exact Hv|exact Hs]).
Qed.
Lemma enc_uint_printable z : is_u64 z -> printable (enc_uint z) = true.
Proof.
  intros Hz. change (int_lit (FormatUint z) = true). unfold int_lit. rewrite FormatUint_no_minus. by apply FormatUint_lit.
Qed.

Section Served.
Context {A : Type} {App : EngineApp A}.
Implicit Types d : Driver A.

Lemma PayloadAt_block h d payload cert : 1 <= h -> d_committed d !! h = Some (MkCommitted payload cert) ->
  PayloadAt h d = (payload, h, cert).
Proof.
  intros Hh Hc. unfold PayloadAt. destruct (Z.leb_spec h 0); [lia|]. destruct (Z.ltb_spec h 1); [lia|]. by rewrite Hc.
Qed.
Lemma payloadResult_text h d payload cert :
  1 <= h < 2 ^ 63 -> PayloadAt h d = (payload, h, cert) ->
  json_parse (writeJSON (rpc_resp (payloadResult h d))) = Some (rpc_resp (payloadResult h d)).
Proof.
  intros Hh Hp. unfold payloadResult. rewrite Hp, !text64_eq. apply json_line_parse; [|by vm_compute|by right].
  cbn [rpc_resp printable forallb fst snd]. rewrite !b64_valid, FormatInt_valid by (unfold is_i64; lia). reflexivity.
Qed.
Lemma cert_signers_text pks l : Forall (fun s => is_u32 (cs_Index s)) l ->
  forallb printable (map (cert_signer pks) l) = true /\ foldr (fun v m => Z.max (jheight v) m) 0 (map (cert_signer pks) l) <= 1.
Proof.
  induction 1 as [|s l Hs Hl [IH1 IH2]]; [by split|]. cbn [map forallb foldr]. split.
  - rewrite IH1, andb_true_r. unfold cert_signer. cbn [printable forallb fst snd].
    rewrite b64_valid. assert (Hu : printable (enc_uint (cs_Index s)) = true).
    { apply enc_uint_printable. unfold is_u32, is_u64 in *. lia. }
    rewrite Hu. destruct (pubkey_at _ _); rewrite ?b64_valid; reflexivity.
  - unfold cert_signer at 1. cbn [jheight foldr snd]. unfold enc_uint. cbn [jheight]. lia.
Qed.
Lemma certificateResult_text h d payload cert :
  1 <= h < 2 ^ 63 -> PayloadAt h d = (payload, h, cert) ->
  json_parse (writeJSON (rpc_resp (certificateResult h d))) = Some (rpc_resp (certificateResult h d)).
Proof.
  intros Hh Hp. unfold certificateResult. rewrite Hp, text64_eq. set (ct := if _ =? 0 then _ else _).
  destruct (ParseLeanCert_widths ct) as (He & Hv & Hs). destruct (cert_signers_text (d_lastPks d) _ Hs) as [Hs1 Hs2].
  apply enc_uint_printable in He, Hv. cbn [printable enc_uint] in He, Hv. apply json_line_parse; [| |by right].
  - cbn [rpc_resp printable forallb fst snd enc_uint]. rewrite b64_valid, FormatInt_valid by (unfold is_i64; lia).
    rewrite He, Hv, Hs1. reflexivity.
  - unfold rpc_resp, enc_uint. cbn [jheight foldr snd]. unfold maxNestingDepth. lia.
Qed.

Lemma decode_payloadResult h d payload cert p :
  1 <= h < 2 ^ 63 -> PayloadAt h d = (payload, h, cert) -> DecodePayload payload = Ok p ->
  decodeCatchupPayload (writeJSON (rpc_resp (payloadResult h d))) h = (payload, cert).
Proof.
  intros Hh Hp Hd. unfold decodeCatchupPayload. rewrite (payloadResult_text h d payload cert) by done.
  unfold payloadResult. rewrite Hp, !text64_eq. cbn [base.mbind option_bind].
  change (dec_wrap (rpc_resp ?v)) with (Some (Some v)). cbn [base.mbind option_bind].
  change (dec_res (default _ (Some (JObj [(_, JStr ?c); (_, JStr ?t); (_, JStr ?y)])))) with (Some (MkCatchup y c t [] [])).
  cbn [cr_Height cr_Payload cr_Certificate cr_Txs]. destruct (FormatInt_pos h Hh) as (_ & _ & _ & Hn).
  rewrite (proj2 (bytes_eqb_neq _ _) Hn), Sscanf_FormatInt, Z.eqb_refl, andb_false_r by done.
  assert (Hpn : payload <> []) by (intros ->; by vm_compute in Hd).
  assert (E : bytes_eqb (b64_encode payload) [] = false) by (apply bytes_eqb_neq; by rewrite b64_encode_nil).
  rewrite E, E. unfold payload_text. rewrite b64_roundtrip, Hd. cbn [is_ok]. f_equal.
  destruct (bytes_eqb (b64_encode cert) []) eqn:Ec; [|by rewrite b64_roundtrip].
  apply bytes_eqb_eq in Ec. by rewrite (proj1 (b64_encode_nil cert) Ec).
Qed.
Lemma decode_certificateResult h d payload cert :
  1 <= h < 2 ^ 63 -> PayloadAt h d = (payload, h, cert) -> cert <> [] ->
  decodeCatchupPayload (writeJSON (rpc_resp (certificateResult h d))) h = ([], cert).
Proof.
  intros Hh Hp Hc. unfold decodeCatchupPayload. rewrite (certificateResult_text h d payload cert) by done.
  unfold certificateResult. rewrite Hp. assert (E0 : blen cert =? 0 = false).
  { apply Z.eqb_neq. destruct cert as [|x cert]; [done|]. rewrite blen_cons. pose proof (blen_nonneg cert). lia. }
  rewrite E0, text64_eq. cbn [base.mbind option_bind].
  change (dec_wrap (rpc_resp ?v)) with (Some (Some v)). cbn [base.mbind option_bind].
  change (dec_res (default _ (Some (JObj [(_, JStr ?c); (_, _); (_, JStr ?t); _; _])))) with (Some (MkCatchup [] c t [] [])).
  cbn [cr_Height cr_Payload cr_Certificate cr_Txs]. destruct (FormatInt_pos h Hh) as (_ & _ & _ & Hn).
  rewrite (proj2 (bytes_eqb_neq _ _) Hn), Sscanf_FormatInt, Z.eqb_refl, andb_false_r by done.
  assert (E : bytes_eqb (b64_encode cert) [] = false) by (apply bytes_eqb_neq; by rewrite b64_encode_nil).
  by rewrite E, b64_roundtrip.
Qed.

(** What is asked of a node that has the block. *)
Lemma fetch_served h d payload cert p :
  1 <= h < 2 ^ 63 -> d_committed d !! h = Some (MkCommitted payload cert) -> DecodePayload payload = Ok p -> cert <> [] ->
  (forall path body, rpc_get path (FormatInt h) d = Some body -> blen body <= limit) ->
  fetchPayloadAndCert (fun path height => rpc_get path height d) h = (payload, cert).
Proof.
  intros Hh Hb Hd Hc Hl. pose proof (PayloadAt_block h d payload cert ltac:(lia) Hb) as Hp.
  assert (Hq : parseHeightQuery (FormatInt h) = h).
  { unfold parseHeightQuery. destruct (FormatInt_pos h Hh) as (_ & _ & _ & Hn).
    rewrite (proj2 (bytes_eqb_neq _ _) Hn). by apply ParseInt_FormatInt. }
  assert (Hr : forall path body, rpc_get path (FormatInt h) d = Some body -> read_body body = body).
  { intros path body Hg. unfold read_body. destruct (Z.leb_spec (blen body) limit); [done|]. specialize (Hl _ _ Hg). lia. }
  assert (H1 : rpc_get (str "/lean/certificate") (FormatInt h) d = Some (writeJSON (rpc_resp (certificateResult h d))))
    by (unfold rpc_get; rewrite Hq; done).
  assert (H2 : rpc_get (str "/payload") (FormatInt h) d = Some (writeJSON (rpc_resp (payloadResult h d))))
    by (unfold rpc_get; rewrite Hq; done).
  assert (Hlen : forall b : bytes, b <> [] -> 0 <? blen b = true).
  { intros [|x b] Hn; [done|]. rewrite blen_cons. pose proof (blen_nonneg b). apply Z.ltb_lt. lia. }
  assert (Hpn : payload <> []) by (intros ->; by vm_compute in Hd).
  unfold fetchPayloadAndCert. cbn [fetch_loop]. rewrite H1, (Hr _ _ H1), (decode_certificateResult h d payload cert) by done.
  change (0 <? blen []) with false. cbn [andb]. rewrite H2, (Hr _ _ H2), (decode_payloadResult h d payload cert p) by done.
  rewrite (Hlen payload Hpn), (Hlen cert Hc). change (0 <? blen []) with false. cbn [andb]. rewrite ?(Hlen cert Hc), ?(Hlen payload Hpn). reflexivity.
Qed.
End Served.

(** ** Theorems *)

(** C14: A node that asks another one for its next block, which the other has
    committed, gets exactly the payload and certificate kept there; if it then
    commits a block, it is that one, at that height. The answers have to fit the
    four mebibytes that are read. *)
Theorem catchup_copies {A} `{App : EngineApp A} (server d : Driver A) now h payload cert p :
  1 <= h < 2 ^ 63 -> d_committed server !! h = Some (MkCommitted payload cert) -> DecodePayload payload = Ok p ->
  cert <> [] -> (forall path body, rpc_get path (FormatInt h) server = Some body -> blen body <= limit) ->
  Height d = h - 1 -> d_next d = h ->
  let get := fun path height => rpc_get path height server in
  fetchPayloadAndCert get h = (payload, cert) /\ catchup_round get now d = ApplyRemote now payload cert d /\
  forall d' k, catchup_round get now d = (d', Ok (Some k)) ->
    k = h /\ d_committed d' = <[h := MkCommitted payload cert]> (d_committed d).
Proof.
  intros Hh Hb Hd Hc Hl Hht Hnx get. pose proof (fetch_served h server payload cert p Hh Hb Hd Hc Hl) as Hf.
  assert (Hr : catchup_round get now d = ApplyRemote now payload cert d).
  { unfold catchup_round. rewrite Hht, Z.sub_add, i64_id by (unfold is_i64; lia). destruct (Z.ltb_spec h 1); [lia|].
    unfold get. rewrite Hf. unfold ApplyRemote.
    assert (Hlen : forall b, (0 <? blen b) = negb (blen b =? 0)).
    { intros b. pose proof (blen_nonneg b). destruct (Z.ltb_spec 0 (blen b)), (Z.eqb_spec (blen b) 0); lia || done. }
    rewrite !Hlen. by destruct (blen payload =? 0), (blen cert =? 0). }
  split; [exact Hf|]. split; [exact Hr|]. intros d' k. rewrite Hr. unfold ApplyRemote. destruct (_ || _); [done|].
  intros [[Hn _]|(p' & pks & ws & a1 & a2 & Hp & Hq & _ & _ & _ & _ & Hk & ->)]%finalize_cases; [by destruct (Hn k)|].
  assert (p' = p) as -> by congruence. injection Hk as ->. rewrite committed_blocks.
  assert (pl_Height p = h) as ->; [|done]. destruct Hq; [lia|congruence].
Qed.

(** A node takes part in an epoch exactly when its key is among the participants
    the store names. *)
Theorem takes_part_iff q m rows epoch pub :
  answers q m -> roster_rel m rows -> blen pub = 32 ->
  exists pks, BondedParticipants q epoch = Some pks /\
    (skipCommonwareEngine false (Some pub) pks = false <-> pub ∈ participants_of m rows epoch).
Proof.
  intros Ha Hr Hp. exists (concat (participants_of m rows epoch)). split; [by apply (BondedParticipants_of q m rows)|].
  pose proof (participants_of_32 m rows epoch) as H32. set (l := participants_of m rows epoch) in *.
  unfold skipCommonwareEngine. rewrite Hp, concat32_blen by done. change (32 =? 32) with true. cbn [negb orb].
  replace (32 * Z.of_nat (length l) / 32) with (Z.of_nat (length l)) by (rewrite Z.mul_comm, Z.div_mul; lia).
  rewrite Nat2Z.id, keys32_concat by done.
  destruct (Z.ltb_spec (32 * Z.of_nat (length l)) 32) as [Hl|Hl].
  - split; [done|]. destruct l; [by intros ?%not_elem_of_nil|cbn [length] in Hl; lia].
  - rewrite negb_false_iff, existsb_exists. setoid_rewrite bytes_eqb_eq. split.
    + intros (x & Hx & ->). by apply list_elem_of_In.
    + intros Hin. exists pub. split; [by apply list_elem_of_In|done].
Qed.

(** ** Witnesses *)

Lemma w_bodies path body : rpc_get path (FormatInt 5) w_driver = Some body -> blen body <= limit.
Proof.
  unfold rpc_get. destruct (endpoint_of path) as [[| |]|]; [..|done]; intros H; change body with (default [] (Some body)); rewrite <- H;
    apply Z.leb_le; vm_refl.
Qed.
(** A fresh node at height 4 copies block 5. *)
Lemma catchup_copies_witness :
  catchup_round (fun path height => rpc_get path height w_driver) 20 (SetStoreQuery (NewDriver w_app [])) =
  ApplyRemote 20 (w_block 5 [str "a"]) (w_signed [0; 1]) (SetStoreQuery (NewDriver w_app [])) /\
  (ApplyRemote 20 (w_block 5 [str "a"]) (w_signed [0; 1]) (SetStoreQuery (NewDriver w_app []))).2 = Ok (Some 5).
Proof.
  split; [|vm_compute; reflexivity].
  refine (proj1 (proj2 (catchup_copies w_driver (SetStoreQuery (NewDriver w_app [])) 20 5 (w_block 5 [str "a"])
    (w_signed [0; 1]) (MkPayload 5 [str "a"]) _ _ _ _ w_bodies _ _))).
  - split; vm_compute; [discriminate|reflexivity].
  - vm_compute. reflexivity.
  - vm_compute. reflexivity.
  - vm_compute. discriminate.
  - vm_compute. reflexivity.
  - vm_compute. reflexivity.
Defined.
Lemma takes_part_iff_witness : exists pks, BondedParticipants (w_query w_val2) 3 = Some pks /\
  (skipCommonwareEngine false (Some (w_key 2)) pks = false <-> w_key 2 ∈ participants_of w_val2 w_vrows 3).
Proof.
  apply (takes_part_iff (w_query w_val2) w_val2 w_vrows 3 (w_key 2));
    [apply w_query_answers; vm_compute; reflexivity|exact w_vrel|vm_compute; reflexivity].
Defined.
(** Base64 that happens to be hexadecimal is read as hexadecimal: the six bytes
    of [deadbeef] arrive as four. *)
Example base64_read_as_hex :
  b64_decode (str "deadbeef") <> decodeTx (str "deadbeef") /\ blen <$> decodeTx (str "deadbeef") = Some 4.
Proof. split; vm_compute; [discriminate|reflexivity]. Qed.
