(* ===== verification/LvWrap.v ===== *)
(** * x/leanval: rewards, slashing and staking under the lean validator set

    [keeper/fusion.go], [staking_wrap.go], [staking_mod.go], [slash_wrap.go],
    [distr_wrap.go], [cons_lookup.go], [ante/reject_sudo.go]: what the stock
    modules of the SDK are given once leanval owns the validator set. The stock
    modules are parameters. The theorems follow the signers of a certificate
    from the driver to the shares of the fees. *)

From S2P Require Import Prelude Sha256 KVStore LvTypes LvCodec LvMerkle LvBitfield LvPower LvHost LvKeeper LvPairs FfiCodec FfiParticipants FfiDriver.

#[local] Open Scope go_scope.

(** ** Data *)

(** [abci.VoteInfo]. *)
Record BlockVote := MkBlockVote { bv_Address : bytes; bv_Power : Z; bv_Flag : Z }.
Definition BlockIDFlagCommit : Z := 2.

(** The stock modules over their state [X]: the lookup of a validator by
    consensus address, the F1 allocation, the liveness count of a signature, and
    the blocks of the modules leanval wraps. *)
Class StockModules (X E : Type) := {
  ValidatorByConsAddr : X -> bytes -> bool;
  AllocateTokens : Z -> list BlockVote -> meth X E unit;
  HandleValidatorSignature : bytes -> Z -> Z -> meth X E unit;
  distr_BeginBlock : meth X E unit;
  slashing_BeginBlock : meth X E unit;
  staking_EndBlock : X -> X * (list ValidatorUpdate * option E)
}.

Section Wrap.
Context {X E : Type} {SM : StockModules X E} {A : Type} {App : EngineApp A}.
Abbreviation Alloc := (Z -> list BlockVote -> meth X E unit).

(** ** fusion.go *)

Definition consAddrFromSubject (pub : bytes) : bytes := if blen pub =? 0 then [] else Address pub.
(** The votes and their total; [int64] sums wrap. *)
Definition vote_step (acc : list BlockVote * Z) (s : SubjectPower) : list BlockVote * Z :=
  if (pw_Weight s <=? 0) || negb (pw_HasProof s) then acc
  else
    let addr := consAddrFromSubject (pw_Subject s) in
    if blen addr =? 0 then acc
    else (acc.1 ++ [MkBlockVote addr (pw_Weight s) BlockIDFlagCommit], i64 (acc.2 + pw_Weight s)).
Definition VoteInfosFromBondedSet (set : list SubjectPower) : list BlockVote * Z := foldl vote_step ([], 0) set.

Definition sum_powers (votes : list BlockVote) : Z := foldl (fun t v => i64 (t + bv_Power v)) 0 votes.
Definition AllocateDelegatorFees (votes : list BlockVote) (alloc : option Alloc) : meth X E unit :=
  match alloc with
  | None => mret tt
  | Some alloc =>
      let out := filter (fun v => bv_Flag v = BlockIDFlagCommit) votes in
      match out with
      | [] => mret tt
      | _ => alloc (sum_powers out) out
      end
  end.

(** ** The wrappers; [lean] is the keeper, [None] for a nil one *)

Definition owns (lean : option Keeper) : bool := match lean with Some k => OwnsValset k | None => false end.
Definition known (x : X) (v : BlockVote) : bool := ValidatorByConsAddr x (bv_Address v).

(** cons_lookup.go; [cons] says whether the lookup is set. *)
Definition skipUnknownAlloc (inner : option Alloc) (cons : bool) : Alloc :=
  fun _ votes x =>
    match inner with
    | None => (x, Ok tt)
    | Some alloc =>
        let kept := filter (fun v => cons = false \/ known x v = true) votes in
        alloc (sum_powers kept) kept x
    end.
Definition Distr_BeginBlock (lean : option Keeper) (alloc : option Alloc) (cons : bool) (votes : list BlockVote) : meth X E unit :=
  if negb (owns lean) then distr_BeginBlock
  else
    let alloc := if cons then Some (skipUnknownAlloc alloc cons) else alloc in
    AllocateDelegatorFees votes alloc.

Fixpoint sign_votes (votes : list BlockVote) : meth X E unit :=
  fun x =>
    match votes with
    | [] => (x, Ok tt)
    | v :: votes' =>
        if negb (known x v) then sign_votes votes' x
        else match HandleValidatorSignature (bv_Address v) (bv_Power v) (bv_Flag v) x with
             | (x, Err e) => (x, Err e)
             | (x, Ok _) => sign_votes votes' x
             end
    end.
Definition Slash_BeginBlock (lean : option Keeper) (cons : bool) (votes : list BlockVote) : meth X E unit :=
  if negb (owns lean) || negb cons then slashing_BeginBlock else sign_votes votes.

(** The updates and the error, as Go returns them. *)
Definition WrapStakingEndBlock (staking : bool) (lean : option Keeper) (x : X) : X * (list ValidatorUpdate * option E) :=
  if negb staking then (x, ([], None))
  else let '(x, (u, err)) := staking_EndBlock x in
       if owns lean then (x, ([], err)) else (x, (u, err)).
Definition WrappedStaking_EndBlock (lean : option Keeper) (x : X) : X * (list ValidatorUpdate * option E) :=
  let '(x, (u, err)) := staking_EndBlock x in
  if owns lean then (x, ([], err)) else (x, (u, err)).
End Wrap.

(** ** ante/reject_sudo.go *)

Inductive sudo_err := ErrSudoLeanVerifier | ErrSudoNotPermitted.
Definition TestLeanVerifierAcc : bytes := replicate 20 Byte.x00.
Definition RejectLeanSudo (contract : bytes) : option sudo_err :=
  if bytes_eqb contract TestLeanVerifierAcc then Some ErrSudoLeanVerifier else None.
(** A message of the transaction: [MsgSudoContract] with its contract, or any
    other. *)
Inductive ante_msg := MsgSudoContract (contract : bytes) | OtherMsg.
Definition check_sudo (bech32 : bytes -> option bytes) (m : ante_msg) : option sudo_err :=
  match m with
  | OtherMsg => None
  | MsgSudoContract contract =>
      if bytes_eqb contract [] then None
      else match bech32 contract with
           | None => Some ErrSudoNotPermitted
           | Some addr => RejectLeanSudo addr
           end
  end.
Fixpoint check_msgs (bech32 : bytes -> option bytes) (msgs : list ante_msg) : option sudo_err :=
  match msgs with
  | [] => None
  | m :: msgs' => match check_sudo bech32 m with Some e => Some e | None => check_msgs bech32 msgs' end
  end.
Definition Decorator_AnteHandle {Y R} (bech32 : bytes -> option bytes) (msgs : list ante_msg) (refuse : sudo_err -> R)
    (next : Y -> Y * R) (y : Y) : Y * R :=
  match check_msgs bech32 msgs with Some e => (y, refuse e) | None => next y end.

(** ** Lemmas *)

Definition total (votes : list BlockVote) : Z := foldr (fun v t => bv_Power v + t) 0 votes.
Lemma total_bounds b votes : Forall (fun v => 0 <= bv_Power v <= b) votes -> 0 <= total votes <= b * Z.of_nat (length votes).
Proof. induction 1 as [|v l Hv Hl IH]; cbn [total foldr length] in *; [lia|]. unfold total in IH. lia. Qed.
(** Sums of votes that are small enough do not wrap. *)
Lemma sum_powers_total votes : Forall (fun v => 0 <= bv_Power v) votes -> total votes < 2 ^ 63 -> sum_powers votes = total votes.
Proof.
  intros Hv Ht. unfold sum_powers.
  assert (H : forall acc, 0 <= acc -> acc + total votes < 2 ^ 63 ->
    foldl (fun t v => i64 (t + bv_Power v)) acc votes = acc + total votes).
  { clear Ht. induction Hv as [|v l Hp Hl IH]; intros acc Ha Hb; cbn [foldl total foldr] in *; [lia|].
    assert (0 <= total l) by (clear -Hl; induction Hl as [|w l Hw Hl IH]; cbn [total foldr]; [lia|]; unfold total in IH; lia).
    unfold total in *. rewrite i64_id by (unfold is_i64; lia). rewrite IH by lia. lia. }
  rewrite H; lia.
Qed.
Lemma concat_lookup32 (l : list bytes) (i : nat) : Forall (fun s => blen s = 32) l ->
  take 32 (drop (i * 32) (concat l)) = default [] (l !! i).
Proof.
  intros Hl. revert i. induction Hl as [|s l Hs Hl IH]; intros i; [by destruct i|]. cbn [concat].
  assert (Hn : length s = 32%nat) by (unfold blen in Hs; lia). destruct i as [|i].
  - change (0 * 32)%nat with 0%nat. rewrite drop_0, take_app_length' by done. done.
  - change (S i * 32)%nat with (32 + i * 32)%nat. rewrite drop_app_ge by lia. replace (32 + i * 32 - length s)%nat with (i * 32)%nat by lia. apply IH.
Qed.
Lemma pubkey_at_concat l idx : Forall (fun s => blen s = 32) l -> 0 <= idx -> pubkey_at (concat l) idx = l !! Z.to_nat idx.
Proof.
  intros Hl Hi. unfold pubkey_at. rewrite concat32_blen by done.
  destruct (Z.ltb_spec (32 * Z.of_nat (length l)) (idx * 32 + 32)) as [H|H]; [by rewrite lookup_ge_None_2 by lia|].
  destruct (lookup_lt_is_Some_2 l (Z.to_nat idx) ltac:(lia)) as [s Hs]. rewrite Hs. f_equal.
  unfold slice, slice_to, slice_from. replace (Z.to_nat (idx * 32 + 32 - idx * 32)) with 32%nat by lia.
  replace (Z.to_nat (idx * 32)) with (Z.to_nat idx * 32)%nat by lia. by rewrite concat_lookup32, Hs.
Qed.
Lemma weight_at_map (f : bytes -> Z) l idx s : 0 <= idx -> l !! Z.to_nat idx = Some s -> weight_at (map f l) idx = Some (f s).
Proof.
  intros Hi Hs. pose proof (lookup_lt_Some _ _ _ Hs). unfold weight_at. rewrite length_map.
  destruct (Z.ltb_spec idx (Z.of_nat (length l))); [|lia]. by rewrite list_lookup_fmap, Hs.
Qed.

Section Fees.
Context {A : Type} {App : EngineApp A}.

(** The votes the block carries for a certificate. *)
Definition block_votes (c : LeanCert) (pks : bytes) (ws : list Z) : list BlockVote :=
  map (fun v => MkBlockVote (vi_Address v) (vi_Power v) BlockIDFlagCommit) (lastCommitFromCert c pks ws).
(** The vote of a signer that is a participant. *)
Definition signer_vote (rows : list row) (l : list bytes) (c : LeanCert) (v : BlockVote) : Prop :=
  exists s key, s ∈ lc_Signers c /\ isZeroSig (cs_Signature s) = false /\ l !! Z.to_nat (cs_Index s) = Some key /\
    v = MkBlockVote (Address key) (roster_weight rows key) BlockIDFlagCommit.

Lemma block_votes_spec rows l c v :
  Forall (fun s => blen s = 32) l -> Forall (fun s => 0 <= cs_Index s) (lc_Signers c) ->
  v ∈ block_votes c (concat l) (map (roster_weight rows) l) <-> signer_vote rows l c v.
Proof.
  intros H32 Hi. unfold block_votes, lastCommitFromCert, signer_vote. rewrite list_elem_of_fmap. rewrite Forall_forall in Hi.
  assert (Hv : forall s, s ∈ lc_Signers c -> vote_of (concat l) (map (roster_weight rows) l) s =
    match l !! Z.to_nat (cs_Index s) with
    | None => None
    | Some key => if isZeroSig (cs_Signature s) then None else Some (MkVoteInfo (Address key) (roster_weight rows key))
    end).
  { intros s Hs. unfold vote_of. rewrite pubkey_at_concat by (done || by apply Hi).
    destruct (l !! Z.to_nat (cs_Index s)) as [key|] eqn:E; [|done]. rewrite (weight_at_map _ l _ key) by (done || by apply Hi).
    pose proof (roster_weight_range rows key) as Hr. rewrite i64_id by (unfold is_i64; lia).
    destruct (Z.leb_spec (roster_weight rows key) 0); [lia|done]. }
  split.
  - intros (i & -> & (s & Hs & Hvo)%list_elem_of_omap). rewrite Hv in Hvo by done.
    destruct (l !! Z.to_nat (cs_Index s)) as [key|] eqn:E; [|done]. destruct (isZeroSig (cs_Signature s)) eqn:Ez; [done|].
    injection Hvo as <-. by exists s, key.
  - intros (s & key & Hs & Hz & Hk & ->). exists (MkVoteInfo (Address key) (roster_weight rows key)). split; [done|].
    apply list_elem_of_omap. exists s. split; [done|]. by rewrite Hv, Hk, Hz.
Qed.
Lemma block_votes_length c pks ws : (length (block_votes c pks ws) <= length (lc_Signers c))%nat.
Proof.
  unfold block_votes, lastCommitFromCert. rewrite length_map. induction (lc_Signers c) as [|s l IH]; [done|].
  cbn [omap list_omap length]. destruct (vote_of pks ws s); cbn [length]; lia.
Qed.

Context {X E : Type} {SM : StockModules X E}.

Lemma AllocateDelegatorFees_commit votes (alloc : Z -> list BlockVote -> meth X E unit) (x : X) :
  Forall (fun v => bv_Flag v = BlockIDFlagCommit) votes ->
  AllocateDelegatorFees votes (Some alloc) x = if bool_decide (votes = []) then (x, Ok tt) else alloc (sum_powers votes) votes x.
Proof. intros Hf. unfold AllocateDelegatorFees. rewrite filter_all by done. by destruct votes. Qed.

(** Under the lean validator set the fees of a block are allotted once, over the
    signers of its certificate that the staking module knows, each with its
    weight in the roster, and the total the shares are taken of is the exact sum
    of these weights; without a signer nothing is allotted. *)
Theorem fees_follow_certificate m rows epoch (c : LeanCert) (k : Keeper) (x : X) :
  OwnsValset k = true -> Forall (fun s => 0 <= cs_Index s) (lc_Signers c) -> Z.of_nat (length (lc_Signers c)) <= 4096 ->
  let l := participants_of m rows epoch in
  let votes := block_votes c (concat l) (map (roster_weight rows) l) in
  exists kept,
    Distr_BeginBlock (Some k) (Some AllocateTokens) true votes x =
      (if bool_decide (votes = []) then (x, Ok tt) else AllocateTokens (total kept) kept x) /\
    (forall v, v ∈ kept <-> signer_vote rows l c v /\ ValidatorByConsAddr x (bv_Address v) = true) /\
    0 <= total kept <= 255 * 4096 /\ Forall (fun v => 1 <= bv_Power v <= total kept) kept.
Proof.
  intros Hk Hi Hn l votes. pose proof (participants_of_32 m rows epoch) as H32. fold l in H32.
  assert (Hs : forall v, v ∈ votes <-> signer_vote rows l c v) by (intros v; by apply block_votes_spec).
  set (kept := filter (fun v => true = false \/ known x v = true) votes).
  assert (Hp : Forall (fun v => 1 <= bv_Power v <= 255) kept).
  { apply Forall_forall. intros v [_ Hv]%list_elem_of_filter. apply Hs in Hv as (s & key & _ & _ & _ & ->). apply roster_weight_range. }
  assert (Hlen : (length kept <= length (lc_Signers c))%nat).
  { etrans; [apply length_filter|]. apply block_votes_length. }
  assert (Ht : 0 <= total kept <= 255 * Z.of_nat (length kept)).
  { apply total_bounds. eapply Forall_impl; [exact Hp|]. cbn. lia. }
  exists kept. split_and!; [| |lia|lia|].
  - unfold Distr_BeginBlock, owns. rewrite Hk. cbn [negb]. rewrite AllocateDelegatorFees_commit.
    + unfold skipUnknownAlloc. fold kept. rewrite sum_powers_total; [done|eapply Forall_impl; [exact Hp|]; cbn; lia|lia].
    + apply Forall_forall. intros v (s & key & _ & _ & _ & ->)%Hs. done.
  - intros v. unfold kept. rewrite list_elem_of_filter, Hs. unfold known. intuition congruence.
  - apply Forall_forall. intros v Hv. rewrite Forall_forall in Hp. pose proof (Hp v Hv). split; [lia|].
    clear -Hv Hp. induction kept as [|w ks IH]; [by apply not_elem_of_nil in Hv|]. cbn [total foldr].
    assert (H0 : 0 <= total ks).
    { apply (total_bounds 255). apply Forall_forall. intros u Hu. pose proof (Hp u ltac:(by right)). lia. }
    pose proof (Hp w ltac:(by left)). apply elem_of_cons in Hv as [->|Hv]; unfold total in *; [lia|].
    pose proof (IH ltac:(intros u Hu; apply Hp; by right) Hv). lia.
Qed.
End Fees.

(** ** Slashing *)

Section Slashing.
Context {X E : Type} {SM : StockModules X E}.

(** The stock count over a list of votes, in order, up to an error. *)
Fixpoint sign_all (votes : list BlockVote) : meth X E unit :=
  fun x =>
    match votes with
    | [] => (x, Ok tt)
    | v :: votes' => match HandleValidatorSignature (bv_Address v) (bv_Power v) (bv_Flag v) x with
                     | (x, Err e) => (x, Err e)
                     | (x, Ok _) => sign_all votes' x
                     end
    end.

(** Counting a signature neither makes nor removes a validator. *)
Context (Hkeep : forall a p f x b, ValidatorByConsAddr (HandleValidatorSignature a p f x).1 b = ValidatorByConsAddr x b).

Lemma sign_votes_known votes x : sign_votes votes x = sign_all (filter (fun v => known x v = true) votes) x.
Proof.
  revert x. induction votes as [|v votes IH]; intros x; [done|]. cbn [sign_votes]. rewrite filter_cons.
  destruct (known x v) eqn:Ek; cbn [negb].
  - rewrite decide_True by done. cbn [sign_all].
    destruct (HandleValidatorSignature (bv_Address v) (bv_Power v) (bv_Flag v) x) as [x' [u|e]] eqn:Eh; [|done].
    rewrite IH. f_equal. apply list_filter_iff. intros w. unfold known.
    pose proof (Hkeep (bv_Address v) (bv_Power v) (bv_Flag v) x (bv_Address w)) as Hw. rewrite Eh in Hw. cbn [fst] in Hw. by rewrite Hw.
  - rewrite decide_False by done. apply IH.
Qed.
(** Under the lean validator set the liveness count is the stock one over the
    votes of validators the staking module knows; a member that is no staking
    validator, for whom the stock code fails, cannot stop the block. *)
Theorem slash_skips_unknown k votes x :
  OwnsValset k = true ->
  Slash_BeginBlock (Some k) true votes x = sign_all (filter (fun v => known x v = true) votes) x /\
  ((forall a p f y, ValidatorByConsAddr y a = true -> is_ok (HandleValidatorSignature a p f y).2 = true) ->
   is_ok (Slash_BeginBlock (Some k) true votes x).2 = true).
Proof.
  intros Hk. assert (Hs : Slash_BeginBlock (Some k) true votes x = sign_all (filter (fun v => known x v = true) votes) x).
  { unfold Slash_BeginBlock, owns. rewrite Hk. apply sign_votes_known. }
  split; [exact Hs|]. intros Hok. clear Hs. unfold Slash_BeginBlock, owns. rewrite Hk. cbn [negb orb]. revert x.
  induction votes as [|v votes IH]; intros x; [done|]. cbn [sign_votes]. destruct (known x v) eqn:Ek; cbn [negb]; [|apply IH].
  pose proof (Hok (bv_Address v) (bv_Power v) (bv_Flag v) x Ek) as Ho.
  destruct (HandleValidatorSignature _ _ _ x) as [x' [u|e]]; [apply IH|done].
Qed.
End Slashing.

(** ** Staking *)

(** The staking module's end of block runs as it is; under the lean validator
    set, and only there, its updates are dropped. *)
Lemma staking_updates_dropped {X E} `{SM : StockModules X E} lean (x : X) :
  (WrappedStaking_EndBlock lean x).1 = (staking_EndBlock x).1 /\
  (WrappedStaking_EndBlock lean x).2.1 = (if owns lean then [] else (staking_EndBlock x).2.1) /\
  (WrappedStaking_EndBlock lean x).2.2 = (staking_EndBlock x).2.2.
Proof. unfold WrappedStaking_EndBlock. destruct (staking_EndBlock x) as [x' [u e]]. by destruct (owns lean). Qed.

(** ** Rewards by bonded set *)

Lemma VoteInfosFromBondedSet_spec {A} `{App : EngineApp A} set :
  (forall k, k <> [] -> Address k <> []) ->
  let proved := filter (fun s => 0 < pw_Weight s /\ pw_HasProof s = true /\ pw_Subject s <> []) set in
  (VoteInfosFromBondedSet set).1 = map (fun s => MkBlockVote (Address (pw_Subject s)) (pw_Weight s) BlockIDFlagCommit) proved /\
  (VoteInfosFromBondedSet set).2 = sum_powers (VoteInfosFromBondedSet set).1.
Proof.
  intros Ha. cbv zeta. unfold VoteInfosFromBondedSet.
  assert (H : forall acc, acc.2 = sum_powers acc.1 ->
    (foldl vote_step acc set).1 = acc.1 ++ map (fun s => MkBlockVote (Address (pw_Subject s)) (pw_Weight s) BlockIDFlagCommit)
      (filter (fun s => 0 < pw_Weight s /\ pw_HasProof s = true /\ pw_Subject s <> []) set) /\
    (foldl vote_step acc set).2 = sum_powers (foldl vote_step acc set).1).
  { induction set as [|s set IH]; intros acc Hacc; [cbn; by rewrite app_nil_r|]. cbn [foldl].
    assert (Hv : vote_step acc s = if decide (0 < pw_Weight s /\ pw_HasProof s = true /\ pw_Subject s <> [])
      then (acc.1 ++ [MkBlockVote (Address (pw_Subject s)) (pw_Weight s) BlockIDFlagCommit], i64 (acc.2 + pw_Weight s)) else acc).
    { unfold vote_step, consAddrFromSubject. destruct (Z.leb_spec (pw_Weight s) 0); [by rewrite decide_False by lia|].
      destruct (pw_HasProof s); [|by rewrite decide_False by (intros (_ & ? & _); done)]. cbn [negb orb].
      destruct (pw_Subject s) as [|b sub]; [by rewrite decide_False by (intros (_ & _ & ?); done)|].
      rewrite decide_True by done. rewrite blen_cons. pose proof (blen_nonneg sub). destruct (Z.eqb_spec (1 + blen sub) 0); [lia|].
      specialize (Ha (b :: sub) ltac:(done)). destruct (Address (b :: sub)) as [|a ad]; [done|]. rewrite blen_cons.
      pose proof (blen_nonneg ad). by destruct (Z.eqb_spec (1 + blen ad) 0); [lia|]. }
    rewrite Hv, filter_cons. destruct (decide _) as [Hd|Hd]; [|by apply IH].
    destruct (IH (acc.1 ++ [MkBlockVote (Address (pw_Subject s)) (pw_Weight s) BlockIDFlagCommit], i64 (acc.2 + pw_Weight s))) as [IH1 IH2].
    - cbn [fst snd]. unfold sum_powers in *. rewrite foldl_app. cbn [foldl]. by rewrite <- Hacc.
    - split; [|exact IH2]. rewrite IH1. cbn [fst]. rewrite map_cons. by rewrite <- app_assoc. }
  destruct (H ([], 0) eq_refl) as [H1 H2]. split; [exact H1|exact H2].
Qed.

(** ** The guard on contract calls *)

Definition sudo_allowed (bech32 : bytes -> option bytes) (m : ante_msg) : Prop :=
  match m with
  | OtherMsg | MsgSudoContract [] => True
  | MsgSudoContract c => exists a, bech32 c = Some a /\ a <> TestLeanVerifierAcc
  end.
Lemma check_sudo_None bech32 m : check_sudo bech32 m = None <-> sudo_allowed bech32 m.
Proof.
  destruct m as [[|b c]|]; cbn; [done| |done]. destruct (bech32 (b :: c)) as [a|].
  - unfold RejectLeanSudo. destruct (bytes_eqb a TestLeanVerifierAcc) eqn:E; split; try done.
    + apply bytes_eqb_eq in E. intros (a' & [= <-] & Hne). done.
    + intros _. exists a. split; [done|]. by apply bytes_eqb_neq.
  - split; [done|]. intros (a & ? & _). done.
Qed.
Lemma check_msgs_None bech32 msgs : check_msgs bech32 msgs = None <-> Forall (sudo_allowed bech32) msgs.
Proof.
  induction msgs as [|m msgs IH]; cbn [check_msgs]; [by split|]. rewrite Forall_cons, <- check_sudo_None, <- IH.
  destruct (check_sudo bech32 m); naive_solver.
Qed.
(** A transaction passes to the next decorator exactly when each of its messages
    that calls a contract by [MsgSudoContract] names a readable address other
    than the verifier's; otherwise nothing changes and the first such message
    says why. *)
Theorem sudo_guard_iff {Y R} bech32 msgs (refuse : sudo_err -> R) (next : Y -> Y * R) y :
  (Forall (sudo_allowed bech32) msgs /\ Decorator_AnteHandle bech32 msgs refuse next y = next y) \/
  exists pre m post e, msgs = pre ++ m :: post /\ Forall (sudo_allowed bech32) pre /\ ~ sudo_allowed bech32 m /\
    check_sudo bech32 m = Some e /\ Decorator_AnteHandle bech32 msgs refuse next y = (y, refuse e).
Proof.
  pose proof (check_sudo_None bech32) as Hc.
  unfold Decorator_AnteHandle. induction msgs as [|m msgs IH]; [by left|]. cbn [check_msgs].
  destruct (check_sudo bech32 m) as [e|] eqn:E.
  - right. exists [], m, msgs, e. split_and!; try done. rewrite <- Hc. congruence.
  - apply Hc in E. destruct IH as [[Hf ->]|(pre & m' & post & e & -> & Hf & Hn & He & Hd)].
    + left. split; [by constructor|done].
    + right. exists (m :: pre), m', post, e. split_and!; try done. by constructor.
Qed.

(** ** Witnesses *)

(** Stock modules that note what they are asked; the first member of the example
    roster is a staking validator. *)
#[export] Instance noting : StockModules (list (Z * list BlockVote)) unit := {|
  ValidatorByConsAddr := fun _ a => bytes_eqb a (take 20 (w_key 1));
  AllocateTokens := fun t votes x => (x ++ [(t, votes)], Ok tt);
  HandleValidatorSignature := fun a p f x => (x ++ [(f, [MkBlockVote a p f])], Ok tt);
  distr_BeginBlock := fun x => (x, Ok tt);
  slashing_BeginBlock := fun x => (x, Err tt);
  staking_EndBlock := fun x => (x, ([], None))
|}.
Definition w_owner : Keeper := SetOwnsValset true (w_keeper w_val2).
Definition w_vote1 : BlockVote := MkBlockVote (take 20 (w_key 1)) 10 2.
Lemma fees_follow_certificate_witness :
  exists kept, total kept <= 255 * 4096 /\
    (w_vote1 ∈ kept <-> signer_vote w_vrows (participants_of w_val2 w_vrows 3) (w_cert [0; 1]) w_vote1 /\ true = true).
Proof.
  destruct (fees_follow_certificate (X := list (Z * list BlockVote)) w_val2 w_vrows 3 (w_cert [0; 1]) w_owner [])
    as (kept & _ & Hk & Ht & _); [vm_compute; reflexivity|repeat constructor; vm_compute; discriminate|vm_compute; discriminate|].
  exists kept. split; [exact (proj2 Ht)|exact (Hk w_vote1)].
Defined.
Lemma slash_skips_unknown_witness :
  Slash_BeginBlock (Some w_owner) true [MkBlockVote (take 20 (w_key 2)) 7 2; w_vote1] [] = ([(2, [w_vote1])], Ok tt).
Proof.
  rewrite (proj1 (slash_skips_unknown (SM := noting) ltac:(intros; reflexivity) w_owner _ []
    ltac:(vm_compute; reflexivity))). vm_compute. reflexivity.
Defined.
(** A signer named twice is paid twice. *)
Example repeated_signer_paid_twice :
  let pks := w_key 1 ++ w_key 2 in
  (Distr_BeginBlock (Some w_owner) (Some AllocateTokens) true (block_votes (w_cert [0; 0; 1]) pks [10; 7]) []).1 =
  [(20, [w_vote1; w_vote1])].
Proof. vm_compute. reflexivity. Qed.
