(* ===== verification/LvQuery.v ===== *)
(** * x/leanval/types/{query,query_json}.go and keeper/grpc_query.go

    The query service for the bonded set: its messages are written and read by
    hand, a varint for the period and JSON in a bytes field for the rows. A
    slice with bad bounds panics ([QPanic]); loops over bytes end with the
    input. *)

From S2P Require Import Prelude Sha256 KVStore LvTypes LvCodec LvMerkle LvBitfield LvPower LvPairs Json JsonPrint.

#[local] Open Scope go_scope.

Inductive query_err := QUnexpectedEOF | QField (n : Z) | QExpectedBytes | QJson | QPanic | QFuel.

(** ** Varints in a buffer *)

(** The loop of [sov]; ten rounds are enough for a [uint64]. *)
Fixpoint sov_loop (fuel : nat) (n x : Z) : Z :=
  match fuel with
  | O => n
  | S fuel' => let n := n + 1 in let x := Z.shiftr x 7 in if x =? 0 then n else sov_loop fuel' n x
  end.
Definition sov (x : Z) : Z := sov_loop 10 0 x.
Fixpoint putVarint (fuel : nat) (dAtA : bytes) (offset v : Z) : bytes * Z :=
  match fuel with
  | O => (dAtA, offset)
  | S fuel' =>
      if 128 <=? v then
        putVarint fuel' (<[Z.to_nat offset := byte_of_Z (Z.lor (Z.land v 127) 128)]> dAtA) (offset + 1) (Z.shiftr v 7)
      else (<[Z.to_nat offset := byte_of_Z v]> dAtA, offset + 1)
  end.
Definition encodeVarint (dAtA : bytes) (offset v : Z) : bytes * Z :=
  let offset := offset - sov v in
  ((putVarint 10 dAtA offset v).1, offset).
(** The loop of [consumeVarint]: the value and the bytes it took, or zeros. *)
Fixpoint consumeVarint_loop (i s x : Z) (b : bytes) : Z * Z :=
  match b with
  | [] => (0, 0)
  | c :: b' =>
      if byte_val c <? 128 then
        if (9 <? i) || (i =? 9) && (1 <? byte_val c) then (0, 0)
        else (Z.lor x (u64 (Z.shiftl (byte_val c) s)), i + 1)
      else consumeVarint_loop (i + 1) (s + 7) (Z.lor x (u64 (Z.shiftl (Z.land (byte_val c) 127) s))) b'
  end.
Definition consumeVarint (b : bytes) : Z * Z := consumeVarint_loop 0 0 0 b.

(** ** The request *)

Definition Request_Size (Period : Z) : Z := if Period =? 0 then 0 else 1 + sov Period.
Definition Request_Marshal (Period : Z) : bytes :=
  let dAtA := replicate (Z.to_nat (Request_Size Period)) Byte.x00 in
  let i := blen dAtA in
  if negb (Period =? 0) then
    let '(dAtA, i) := encodeVarint dAtA i Period in
    let i := i - 1 in
    <[Z.to_nat i := Byte.x08]> dAtA
  else dAtA.
(** [for shift := uint(0); ; shift += 7]: [None] at the end of the input. *)
Fixpoint read_varint (shift acc : Z) (rest : bytes) : option (Z * bytes) :=
  match rest with
  | [] => None
  | b :: rest' =>
      let acc := Z.lor acc (u64 (Z.shiftl (Z.land (byte_val b) 127) shift)) in
      if byte_val b <? 128 then Some (acc, rest') else read_varint (shift + 7) acc rest'
  end.
Definition i32 (z : Z) : Z := (z + 2 ^ 31) mod 2 ^ 32 - 2 ^ 31.
Fixpoint Request_loop (fuel : nat) (Period : Z) (rest : bytes) : result query_err Z :=
  match rest with
  | [] => Ok Period
  | _ =>
      match fuel with
      | O => Err QFuel
      | S fuel' =>
          match read_varint 0 0 rest with
          | None => Err QUnexpectedEOF
          | Some (wire, rest) =>
              let fieldNum := i32 (Z.shiftr wire 3) in
              if fieldNum =? 1 then
                match read_varint 0 0 rest with
                | None => Err QUnexpectedEOF
                | Some (Period, rest) => Request_loop fuel' Period rest
                end
              else Err (QField fieldNum)
          end
      end
  end.
Definition Request_Unmarshal (dAtA : bytes) : result query_err Z := Request_loop (length dAtA) 0 dAtA.

(** ** The response *)

(** [Rows] and [raw] are nil as [None]. *)
Record QueryBondedSetResponse := MkResponse { qr_Rows : option (list BondedSetRow); qr_raw : option bytes }.

(** An empty subject is a nil slice: the rows are copied by [append] to nil. *)
Definition enc_row (r : BondedSetRow) : json :=
  JObj [(str "subject", if bytes_eqb (bs_Subject r) [] then JNull else enc_bytes (bs_Subject r));
        (str "weight", enc_int (bs_Weight r)); (str "has_proof", JBool (bs_HasProof r))].
Definition jsonMarshalRows (rows : option (list BondedSetRow)) : bytes :=
  json_print (match rows with None => JNull | Some l => JArr (map enc_row l) end).
Definition dec_row (v : json) : option BondedSetRow :=
  l ← members v;
  subject ← dec_field (fun _ => dec_bytes) (str "subject") [] l;
  weight ← dec_field (dec_int 64) (str "weight") 0 l;
  has_proof ← dec_field dec_bool (str "has_proof") false l;
  Some (MkBondedSetRow subject weight has_proof).
Definition unmarshalRows (b : bytes) : result query_err QueryBondedSetResponse :=
  match json_parse b with
  | Some JNull => Ok (MkResponse None (Some b))
  | Some v => match dec_slice dec_row v with
              | Some l => Ok (MkResponse (Some l) (Some b))
              | None => Err QJson
              end
  | None => Err QJson
  end.

Definition Response_Marshal (m : QueryBondedSetResponse) : bytes :=
  let body := match qr_raw m with Some b => b | None => jsonMarshalRows (qr_Rows m) end in
  let dAtA := replicate (Z.to_nat (1 + sov (blen body) + blen body)) Byte.x00 in
  let dAtA := <[0%nat := Byte.x0a]> dAtA in
  let '(dAtA, off) := putVarint 10 dAtA 1 (blen body) in
  slice_to off dAtA ++ slice_to (blen dAtA - off) body ++ slice_from (off + blen body) dAtA.
Definition Response_Unmarshal (dAtA : bytes) : result query_err QueryBondedSetResponse :=
  if blen dAtA =? 0 then Ok (MkResponse None None)
  else if negb (bool_decide (byte_at dAtA 0 = Byte.x0a)) then Err QExpectedBytes
  else
    let '(l, n) := consumeVarint (slice_from 1 dAtA) in
    let i := 1 + n in
    if blen dAtA <? i64 (i + i64 l) then Err QUnexpectedEOF
    else if i64 (i + i64 l) <? i then Err QPanic
    else unmarshalRows (slice i (i + i64 l) dAtA).

(** [Querier.BondedSet]; [None] is a querier without a keeper. *)
Definition Querier_BondedSet (k : option store) (period : Z) : QueryBondedSetResponse :=
  match k with
  | None => MkResponse None None
  | Some m => MkResponse (Some (map view_row (QueryBondedSet m period))) None
  end.

(** ** Varints read back *)

(** The low seven bits of a longer varint, and what is left. *)
Lemma uvarint_chunk s acc x :
  0 <= s -> 0 <= acc < 2 ^ s -> 128 <= x -> x * 2 ^ s < 2 ^ 64 ->
  let b := byte_of_Z (Z.lor (x mod 256) 128) in
  (byte_val b <? 128) = false /\
  Z.lor acc (u64 (Z.shiftl (Z.land (byte_val b) 127) s)) = acc + x mod 128 * 2 ^ s /\
  0 <= acc + x mod 128 * 2 ^ s < 2 ^ (s + 7) /\
  acc + x mod 128 * 2 ^ s + Z.shiftr x 7 * 2 ^ (s + 7) = acc + x * 2 ^ s /\ Z.shiftr x 7 * 2 ^ (s + 7) < 2 ^ 64 /\ 0 < Z.shiftr x 7.
Proof.
  intros Hs Ha Hx Hb b. unfold b. rewrite uvarint_byte. pose proof (Z.mod_pos_bound x 128 ltac:(lia)) as Hm.
  pose proof (Z.div_mod x 128 ltac:(lia)) as Hdm. assert (Hp : 0 < 2 ^ s) by (apply Z.pow_pos_nonneg; lia).
  assert (H7 : 2 ^ (s + 7) = 128 * 2 ^ s) by (rewrite Z.pow_add_r by lia; lia).
  rewrite Z.shiftr_div_pow2 by lia. change (2 ^ 7) with 128. assert (Hd : 0 < x / 128) by (apply Z.div_str_pos; lia).
  split; [apply Z.ltb_ge; lia|]. rewrite land_127, H7.
  replace ((128 + x mod 128) mod 128) with (x mod 128)
    by (rewrite <- (Z.mul_1_l 128) at 2; rewrite Z.add_comm, Z.mod_add, Z.mod_mod by lia; done).
  assert (Hle : x mod 128 * 2 ^ s <= x * 2 ^ s) by (apply Z.mul_le_mono_nonneg_r; [lia|apply Z.mod_le; lia]).
  rewrite u64_id by (split; [apply Z.shiftl_nonneg; lia|rewrite Z.shiftl_mul_pow2 by lia; lia]).
  rewrite lor_add_shift by lia. split_and!; [done|nia|nia|nia|nia|done].
Qed.
(** The last byte. *)
Lemma uvarint_last s acc x :
  0 <= s -> 0 <= acc < 2 ^ s -> 0 <= x < 128 -> x * 2 ^ s < 2 ^ 64 ->
  (byte_val (byte_of_Z x) <? 128) = true /\
  Z.lor acc (u64 (Z.shiftl (byte_val (byte_of_Z x)) s)) = acc + x * 2 ^ s /\ Z.land (byte_val (byte_of_Z x)) 127 = byte_val (byte_of_Z x).
Proof.
  intros Hs Ha Hx Hb. rewrite byte_val_of_Z, Z.mod_small by lia. split; [apply Z.ltb_lt; lia|]. split.
  - rewrite u64_id by (split; [apply Z.shiftl_nonneg; lia|rewrite Z.shiftl_mul_pow2 by lia; lia]). by rewrite lor_add_shift by lia.
  - rewrite land_127. by apply Z.mod_small.
Qed.
Lemma shiftr7_bound fuel x : 0 <= x < 2 ^ (7 * Z.of_nat (S fuel)) -> 0 <= Z.shiftr x 7 < 2 ^ (7 * Z.of_nat fuel).
Proof.
  intros Hx. rewrite Z.shiftr_div_pow2 by lia. split; [apply Z.div_pos; lia|]. apply Z.div_lt_upper_bound; [lia|].
  rewrite <- Z.pow_add_r by lia. replace (7 + 7 * Z.of_nat fuel) with (7 * Z.of_nat (S fuel)) by lia. lia.
Qed.

Lemma read_varint_uvarint fuel s acc x tl :
  0 <= x < 2 ^ (7 * Z.of_nat fuel) -> 0 <= s -> 0 <= acc < 2 ^ s -> x * 2 ^ s < 2 ^ 64 -> (0 < fuel)%nat ->
  read_varint s acc (uvarint fuel x ++ tl) = Some (acc + x * 2 ^ s, tl).
Proof.
  revert s acc x. induction fuel as [|fuel IH]; intros s acc x Hx Hs Ha Hb Hf; [lia|].
  cbn [uvarint]. destruct (Z.leb_spec 128 x); cbn [app read_varint].
  - destruct (uvarint_chunk s acc x) as (-> & -> & Hr & He & Hl & Hp); [lia..|].
    pose proof (shiftr7_bound fuel x Hx) as Hsx. destruct fuel as [|fuel]; [cbn in Hsx; lia|].
    rewrite IH; [by rewrite He|done|lia|done|done|lia].
  - destruct (uvarint_last s acc x) as (-> & E & ->); [lia..|]. by rewrite E.
Qed.
Lemma consumeVarint_loop_uvarint fuel i s acc x tl :
  0 <= x < 2 ^ (7 * Z.of_nat fuel) -> s = 7 * i -> 0 <= acc < 2 ^ s -> x * 2 ^ s < 2 ^ 64 ->
  (0 < fuel)%nat -> 0 <= i -> i + Z.of_nat fuel <= 10 ->
  consumeVarint_loop i s acc (uvarint fuel x ++ tl) = (acc + x * 2 ^ s, i + blen (uvarint fuel x)).
Proof.
  revert i s acc x. induction fuel as [|fuel IH]; intros i s acc x Hx Hs Ha Hb Hf Hi Hif; [lia|].
  cbn [uvarint]. destruct (Z.leb_spec 128 x); cbn [app consumeVarint_loop].
  - destruct (uvarint_chunk s acc x) as (-> & -> & Hr & He & Hl & Hp); [lia..|].
    pose proof (shiftr7_bound fuel x Hx) as Hsx. destruct fuel as [|fuel]; [cbn in Hsx; lia|].
    rewrite IH; [|done|lia|done|done|lia|lia|lia]. rewrite He, blen_cons. f_equal. lia.
  - destruct (uvarint_last s acc x) as (-> & E & _); [lia..|]. rewrite E, byte_val_of_Z, Z.mod_small by lia.
    assert (Hc : (9 <? i) || (i =? 9) && (1 <? x) = false).
    { destruct (Z.ltb_spec 9 i); [lia|]. destruct (Z.eqb_spec i 9) as [->|]; [|done]. cbn [orb andb]. apply Z.ltb_ge. subst s. lia. }
    by rewrite Hc.
Qed.
Lemma consumeVarint_uvarint x tl : is_u64 x -> consumeVarint (uvarint 10 x ++ tl) = (x, blen (uvarint 10 x)).
Proof.
  intros Hx. unfold consumeVarint. rewrite consumeVarint_loop_uvarint; [f_equal; lia| |lia|lia|unfold is_u64 in Hx; lia|lia|lia|lia].
  split; [apply Hx|]. apply Z.lt_trans with (2 ^ 64); [apply Hx|by vm_compute].
Qed.
Lemma uvarint_fuel x : is_u64 x -> 0 <= x < 2 ^ (7 * Z.of_nat 10).
Proof. intros Hx. split; [apply Hx|]. apply Z.lt_trans with (2 ^ 64); [apply Hx|by vm_compute]. Qed.

(** Writing into the buffer is appending the varint. *)
Lemma sov_uvarint x : is_u64 x -> sov x = blen (uvarint 10 x).
Proof.
  intros Hx. unfold sov. assert (H : forall fuel n y, 0 <= y < 2 ^ (7 * Z.of_nat fuel) -> (0 < fuel)%nat ->
    sov_loop fuel n y = n + blen (uvarint fuel y)).
  { induction fuel as [|fuel IH]; intros n y Hy Hf; [lia|]. cbn [sov_loop uvarint]. pose proof (shiftr7_bound fuel y Hy) as Hs.
    destruct (Z.leb_spec 128 y) as [H|H].
    - assert (0 < Z.shiftr y 7) by (rewrite Z.shiftr_div_pow2 by lia; apply Z.div_str_pos; lia).
      destruct (Z.eqb_spec (Z.shiftr y 7) 0); [lia|]. destruct fuel as [|fuel]; [cbn in Hs; lia|]. rewrite IH by (done || lia).
      rewrite blen_cons. lia.
    - rewrite Z.shiftr_div_pow2, Z.div_small by lia. done. }
  rewrite H; [lia|by apply uvarint_fuel|lia].
Qed.
Lemma varint_byte v : byte_of_Z (Z.lor (Z.land v 127) 128) = byte_of_Z (Z.lor (v mod 256) 128).
Proof.
  apply byte_of_eq. rewrite uvarint_byte, land_127. pose proof (Z.mod_pos_bound v 128 ltac:(lia)) as Hm.
  rewrite <- (Z.mod_small (v mod 128) 256) at 1 by lia. rewrite <- (byte_val_of_Z (v mod 128)), lor_128, byte_val_of_Z.
  rewrite (Z.mod_small (v mod 128) 256), Z.mod_mod by lia. apply Z.mod_small. lia.
Qed.
Lemma putVarint_append fuel pre junk off v :
  blen pre = off -> (length (uvarint fuel v) <= length junk)%nat -> (0 < fuel)%nat -> 0 <= v < 2 ^ (7 * Z.of_nat fuel) ->
  putVarint fuel (pre ++ junk) off v =
  (pre ++ uvarint fuel v ++ drop (length (uvarint fuel v)) junk, off + blen (uvarint fuel v)).
Proof.
  revert pre junk off v. induction fuel as [|fuel IH]; intros pre junk off v Ho Hj Hf Hv; [lia|].
  assert (Hi : forall b, <[Z.to_nat off := b]> (pre ++ junk) = pre ++ b :: drop 1 junk).
  { intros b. replace (Z.to_nat off) with (length pre + 0)%nat by (unfold blen in Ho; lia). rewrite insert_app_r.
    destruct junk as [|x junk]; [|done]. pose proof (length_uvarint_pos (S fuel) v ltac:(lia)). cbn [length] in Hj. lia. }
  cbn [putVarint uvarint] in *. rewrite !Hi. destruct (Z.leb_spec 128 v) as [H|H].
  - pose proof (shiftr7_bound fuel v Hv) as Hs.
    assert (0 < Z.shiftr v 7) by (rewrite Z.shiftr_div_pow2 by lia; apply Z.div_str_pos; lia).
    destruct fuel as [|fuel]; [cbn in Hs; lia|]. rewrite varint_byte.
    change (pre ++ ?b :: drop 1 junk) with (pre ++ [b] ++ drop 1 junk). rewrite app_assoc.
    rewrite IH; [|rewrite blen_app; unfold blen in *; cbn [length]; lia|rewrite length_drop; cbn [length] in Hj; lia|lia|done].
    rewrite drop_drop, <- !app_assoc, blen_cons. cbn [app length]. f_equal; lia.
  - cbn [length app]. unfold blen at 1. done.
Qed.

(** ** The messages on the wire *)

Lemma Request_wire p : is_u64 p -> Request_Marshal p = if p =? 0 then [] else Byte.x08 :: uvarint 10 p.
Proof.
  intros Hp. unfold Request_Marshal, Request_Size. destruct (p =? 0); [done|]. cbn [negb]. rewrite sov_uvarint by done.
  set (u := uvarint 10 p). unfold encodeVarint. rewrite sov_uvarint by done. fold u. pose proof (blen_nonneg u) as Hu.
  replace (Z.to_nat (1 + blen u)) with (S (length u)) by (unfold blen; lia).
  cbn [replicate]. change (Byte.x00 :: replicate (length u) Byte.x00) with ([Byte.x00] ++ replicate (length u) Byte.x00).
  assert (Hl : blen ([Byte.x00] ++ replicate (length u) Byte.x00) - blen u = 1)
    by (rewrite blen_app; unfold blen; rewrite length_replicate; cbn [length]; lia).
  rewrite Hl, putVarint_append; [|done|fold u; by rewrite length_replicate|lia|by apply uvarint_fuel].
  fold u. cbn [fst]. change (Z.to_nat (1 - 1)) with 0%nat. rewrite drop_ge by (by rewrite length_replicate). by rewrite app_nil_r.
Qed.
Lemma Response_wire m :
  let body := match qr_raw m with Some b => b | None => jsonMarshalRows (qr_Rows m) end in
  short body -> Response_Marshal m = Byte.x0a :: uvarint 10 (blen body) ++ body.
Proof.
  intros body Hs. unfold Response_Marshal. fold body. assert (Hb : is_u64 (blen body)).
  { unfold short in Hs. pose proof (blen_nonneg body). unfold is_u64. lia. }
  rewrite sov_uvarint by done. set (u := uvarint 10 (blen body)). pose proof (blen_nonneg u). pose proof (blen_nonneg body).
  replace (Z.to_nat (1 + blen u + blen body)) with (S (length u + length body)) by (unfold blen; lia). cbn [replicate].
  set (junk := replicate (length u + length body) Byte.x00).
  change (<[0%nat := Byte.x0a]> (Byte.x00 :: junk)) with ([Byte.x0a] ++ junk).
  assert (Hj : length junk = (length u + length body)%nat) by apply length_replicate.
  rewrite putVarint_append; [|done|fold u; lia|lia|by apply uvarint_fuel]. fold u.
  set (buf := [Byte.x0a] ++ u ++ drop (length u) junk).
  assert (Hbuf : blen buf = 1 + blen u + blen body).
  { unfold buf. rewrite !blen_app. unfold blen. rewrite length_drop. cbn [length]. lia. }
  rewrite Hbuf. replace (1 + blen u + blen body - (1 + blen u)) with (blen body) by lia.
  assert (Hsf : slice_from (1 + blen u + blen body) buf = []) by (unfold slice_from; apply drop_ge; unfold blen in *; lia).
  rewrite Hsf, app_nil_r. unfold buf. rewrite (app_assoc [Byte.x0a] u), slice_to_app by (rewrite blen_app; done).
  unfold slice_to. rewrite take_ge by (unfold blen; lia). by rewrite <- app_assoc.
Qed.

Lemma dec_enc_row r : is_i64 (bs_Weight r) -> dec_row (enc_row r) = Some r.
Proof.
  intros Hw. destruct r as [s w h]. cbn [bs_Weight] in Hw. unfold enc_row. cbn [bs_Subject bs_Weight bs_HasProof].
  assert (Hs : dec_bytes (if bytes_eqb s [] then JNull else enc_bytes s) = Some s).
  { destruct (bytes_eqb s []) eqn:E; [apply bytes_eqb_eq in E as ->; done|]. apply b64_roundtrip. }
  assert (Hi : dec_int 64 0 (enc_int w) = Some w) by (by apply parse_int_format).
  unfold dec_row. cbn [members base.mbind option_bind].
  assert (E1 : dec_field (fun _ => dec_bytes) (str "subject") []
    [(str "subject", if bytes_eqb s [] then JNull else enc_bytes s); (str "weight", enc_int w); (str "has_proof", JBool h)] = Some s).
  { transitivity (dec_bytes (if bytes_eqb s [] then JNull else enc_bytes s)); [|exact Hs]. rewrite Hs.
    change (match dec_bytes (if bytes_eqb s [] then JNull else enc_bytes s) with Some a => Some a | None => None end = Some s). by rewrite Hs. }
  rewrite E1. cbn [base.mbind option_bind].
  change (dec_field (dec_int 64) (str "weight") 0 _) with (match dec_int 64 0 (enc_int w) with Some a => Some a | None => None end).
  rewrite Hi. reflexivity.
Qed.
Lemma rows_printed l : Forall (fun r => is_i64 (bs_Weight r)) l ->
  printable (JArr (map enc_row l)) = true /\ jheight (JArr (map enc_row l)) <= 2.
Proof.
  intros Hl. cbn [printable jheight]. induction Hl as [|r l Hr Hl [IH1 IH2]]; [by split|]. cbn [map forallb foldr]. split.
  - rewrite IH1, andb_true_r. unfold enc_row. cbn [printable forallb fst snd].
    assert (Hi : printable (enc_int (bs_Weight r)) = true) by (by apply FormatInt_lit). rewrite Hi.
    destruct (bytes_eqb _ []); cbn [printable enc_bytes]; rewrite ?b64_valid; reflexivity.
  - unfold enc_row at 1. cbn [jheight foldr snd]. unfold enc_int. cbn [jheight].
    destruct (bytes_eqb _ []); cbn [jheight enc_bytes]; lia.
Qed.
Lemma unmarshal_rows l : Forall (fun r => is_i64 (bs_Weight r)) l ->
  unmarshalRows (jsonMarshalRows (Some l)) = Ok (MkResponse (Some l) (Some (jsonMarshalRows (Some l)))).
Proof.
  intros Hl. destruct (rows_printed l Hl) as [Hp Hh]. unfold unmarshalRows. unfold jsonMarshalRows at 1.
  rewrite json_print_parse by (done || unfold maxNestingDepth; lia). cbn [dec_slice].
  assert (Hd : dec_all dec_row (map enc_row l) = Some l) by (clear -Hl; induction Hl as [|r l Hr Hl IH]; [done|]; cbn [dec_all map]; by rewrite dec_enc_row, IH).
  by rewrite Hd.
Qed.
Lemma Response_read m l :
  Forall (fun r => is_i64 (bs_Weight r)) l -> qr_raw m = None -> qr_Rows m = Some l -> short (jsonMarshalRows (Some l)) ->
  Response_Unmarshal (Response_Marshal m) = Ok (MkResponse (Some l) (Some (jsonMarshalRows (Some l)))).
Proof.
  intros Hl Hr Hm Hs. rewrite Response_wire by (rewrite Hr, Hm; done). rewrite Hr, Hm. set (body := jsonMarshalRows (Some l)) in *.
  set (u := uvarint 10 (blen body)). pose proof (blen_nonneg u). pose proof (blen_nonneg body). unfold short in Hs.
  unfold Response_Unmarshal. rewrite blen_cons, blen_app. destruct (Z.eqb_spec (1 + (blen u + blen body)) 0); [lia|].
  change (byte_at (Byte.x0a :: u ++ body) 0) with Byte.x0a. rewrite bool_decide_eq_true_2 by done. cbn [negb].
  change (slice_from 1 (Byte.x0a :: u ++ body)) with (u ++ body). unfold u at 1.
  rewrite consumeVarint_uvarint by (unfold is_u64; lia). fold u.
  assert (Hu : blen u <= 10).
  { unfold u, blen. clear. assert (H : forall f x, (length (uvarint f x) <= f)%nat).
    { induction f as [|f IH]; intros x; cbn [uvarint]; [done|]. destruct (128 <=? x); cbn [length]; [specialize (IH (Z.shiftr x 7))|]; lia. }
    specialize (H 10%nat (blen body)). unfold blen in H. lia. }
  rewrite (i64_id (blen body)), i64_id by (unfold is_i64; lia).
  destruct (Z.ltb_spec (1 + (blen u + blen body)) (1 + blen u + blen body)); [lia|].
  destruct (Z.ltb_spec (1 + blen u + blen body) (1 + blen u)); [lia|].
  change (Byte.x0a :: u ++ body) with ([Byte.x0a] ++ u ++ body). rewrite app_assoc.
  assert (Hsl : slice (1 + blen u) (1 + blen u + blen body) (([Byte.x0a] ++ u) ++ body) = body).
  { unfold slice. rewrite slice_from_app by (rewrite blen_app; done). unfold slice_to. apply take_ge. unfold blen. lia. }
  rewrite Hsl. by apply unmarshal_rows.
Qed.
Lemma Request_read p : is_u64 p -> Request_Unmarshal (Request_Marshal p) = Ok p.
Proof.
  intros Hp. rewrite Request_wire by done. destruct (Z.eqb_spec p 0) as [->|Hne]; [done|]. unfold Request_Unmarshal.
  assert (Hr : read_varint 0 0 (uvarint 10 p) = Some (p, [])).
  { rewrite <- (app_nil_r (uvarint 10 p)), read_varint_uvarint; [f_equal; f_equal; lia|by apply uvarint_fuel|lia|lia|unfold is_u64 in Hp; lia|lia]. }
  revert Hr. generalize (uvarint 10 p) as u. intros u Hr. cbn [length Request_loop].
  change (read_varint 0 0 (Byte.x08 :: u)) with (Some (8, u)). cbv iota beta.
  change (i32 (Z.shiftr 8 3) =? 1) with true. cbv iota. rewrite Hr. by destruct (length u).
Qed.

(** ** Theorems *)

Lemma QueryBondedSet_i64 m period : Forall (fun r => is_i64 (bs_Weight r)) (map view_row (QueryBondedSet m period)).
Proof.
  apply Forall_forall. intros r (x & -> & Hx)%list_elem_of_fmap. cbn [view_row bs_Weight].
  assert (Hb : x ∈ BondedSet m period -> is_i64 (pw_Weight x)).
  { intros (s & v & _ & ->)%elem_of_BondedSet. apply row_of_weight. }
  unfold QueryBondedSet in Hx. destruct (_ || _); [|by apply Hb].
  assert (Hd : x ∈ DebugSubjectsFromBits m -> is_i64 (pw_Weight x)).
  { intros (i & _ & Hi)%list_elem_of_omap. destruct (negb _); [done|]. injection Hi as <-. cbn [pw_Weight].
    pose proof (byte_val_range (EBOf m i)). unfold is_i64. lia. }
  destruct (DebugSubjectsFromBits m); [by apply Hb|by apply Hd].
Qed.

(** A query reaches the keeper with the period the client asked for, and the
    client reads exactly the rows the keeper computes for it, in their order. *)
Theorem query_served m period :
  is_u64 period -> short (jsonMarshalRows (Some (map view_row (QueryBondedSet m period)))) ->
  exists p resp, Request_Unmarshal (Request_Marshal period) = Ok p /\
    Response_Unmarshal (Response_Marshal (Querier_BondedSet (Some m) p)) = Ok resp /\
    qr_Rows resp = Some (map view_row (QueryBondedSet m period)).
Proof.
  intros Hp Hs. exists period. eexists. split; [by apply Request_read|]. split; [|shelve].
  apply (Response_read _ (map view_row (QueryBondedSet m period))); [apply QueryBondedSet_i64|done|done|done].
  Unshelve. done.
Qed.
Lemma query_served_witness : exists p resp, Request_Unmarshal (Request_Marshal 300) = Ok p /\
  Response_Unmarshal (Response_Marshal (Querier_BondedSet (Some w_val2) p)) = Ok resp /\
  qr_Rows resp = Some (map view_row (QueryBondedSet w_val2 300)).
Proof. apply query_served; [split; vm_compute; [discriminate|reflexivity]|vm_compute; reflexivity]. Defined.
(** A length above 2^63 passes the bounds test and the slice panics. *)
Example crafted_response_panics :
  Response_Unmarshal (Byte.x0a :: uvarint 10 (2 ^ 64 - 1)) = Err QPanic.
Proof. vm_refl. Qed.
(** The wire type of a field is not looked at: a bytes field is read as the
    period. *)
Example wire_type_ignored : Request_Unmarshal [Byte.x0a; Byte.x05] = Ok 5.
Proof. vm_refl. Qed.
