(* ===== verification/SliceHelper.v ===== *)
(** * terputils/slice_helper.go: helpers on slices

    The generic helpers, over any type; a loop by index over a slice that it
    changes in place is a loop over the list with its writes. *)

From S2P Require Import Prelude.

Section Slices.
Context {T : Type}.

(** ** Definitions *)

(** [sort.Slice] by [<]: any sorted permutation; for a total order all are equal. *)
Definition SortSlice (le : T -> T -> Prop) `{!RelDecision le} (s : list T) : list T := merge_sort le s.
Fixpoint Filter (f : T -> bool) (s : list T) : list T :=
  match s with
  | [] => []
  | x :: s' => if f x then x :: Filter f s' else Filter f s'
  end.
(** One round swaps positions [i] and [maxIndex - 1 - i]. *)
Definition swap (i j : nat) (s : list T) : list T :=
  match s !! i, s !! j with
  | Some x, Some y => <[j := x]> (<[i := y]> s)
  | _, _ => s
  end.
Fixpoint reverse_loop (rounds i maxIndex : nat) (s : list T) : list T :=
  match rounds with
  | O => s
  | S rounds' => reverse_loop rounds' (S i) maxIndex (swap i (maxIndex - i - 1) s)
  end.
Definition ReverseSlice (s : list T) : list T := reverse_loop (length s / 2) 0 (length s) s.

Context `{Countable T}.
Fixpoint duplicate_loop (visited : gset T) (arr : list T) : bool :=
  match arr with
  | [] => false
  | x :: arr' => if bool_decide (x ∈ visited) then true else duplicate_loop (visited ∪ {[x]}) arr'
  end.
Definition ContainsDuplicate (arr : list T) : bool := duplicate_loop ∅ arr.
Fixpoint ContainsDuplicateDeepEqual (multihops : list T) : bool :=
  match multihops with
  | x :: ((y :: _) as rest) => if bool_decide (x = y) then true else ContainsDuplicateDeepEqual rest
  | _ => false
  end.
Fixpoint Contains (slice : list T) (item : T) : bool :=
  match slice with
  | [] => false
  | a :: slice' => if bool_decide (a = item) then true else Contains slice' item
  end.
(** The rest of both slices from [i] and [j] on. *)
Fixpoint MergeSlices (less : T -> T -> bool) (slice1 : list T) : list T -> list T :=
  fix merge2 (slice2 : list T) : list T :=
    match slice1, slice2 with
    | [], _ => slice2
    | _, [] => slice1
    | x :: slice1', y :: slice2' => if less x y then x :: MergeSlices less slice1' slice2 else y :: merge2 slice2'
    end.
(** [shuffle] and [Intn] are the source of randomness: the swaps of [rand.Shuffle] and the
    number of [rand.Intn]. The argument is left shuffled; the result is the pair of both. *)
Definition GetRandomSubset (shuffle : list T -> list T) (Intn : nat -> nat) (slice : list T) : list T * list T :=
  match slice with
  | [] => (slice, [])
  | _ => let slice := shuffle slice in (slice, take (Intn (length slice)) slice)
  end.

(** ** Theorems *)

Lemma Filter_filter f s : Filter f s = filter (fun x => f x = true) s.
Proof.
  induction s as [|x s IH]; [done|]. cbn [Filter]. rewrite filter_cons.
  destruct (f x); [rewrite decide_True by done|rewrite decide_False by done]; by rewrite IH.
Qed.
Lemma length_swap i j s : length (swap i j s) = length s.
Proof. unfold swap. destruct (s !! i), (s !! j); by rewrite ?length_insert. Qed.
Lemma lookup_swap i j s k : (i < length s)%nat -> (j < length s)%nat ->
  swap i j s !! k = if decide (k = j) then s !! i else if decide (k = i) then s !! j else s !! k.
Proof.
  intros Hi Hj. unfold swap. destruct (lookup_lt_is_Some_2 _ _ Hi) as [x Hx]. destruct (lookup_lt_is_Some_2 _ _ Hj) as [y Hy].
  rewrite Hx, Hy. destruct (decide (k = j)) as [->|Hkj].
  - by rewrite list_lookup_insert_eq by (by rewrite length_insert).
  - rewrite list_lookup_insert_ne by done. destruct (decide (k = i)) as [->|Hki].
    + by rewrite list_lookup_insert_eq by done.
    + by rewrite list_lookup_insert_ne by done.
Qed.
Lemma length_reverse_loop r i n s : length (reverse_loop r i n s) = length s.
Proof. revert i s. induction r as [|r IH]; intros i s; cbn [reverse_loop]; [done|]. by rewrite IH, length_swap. Qed.
Lemma reverse_loop_spec n rounds i s s0 :
  length s0 = n -> length s = n -> (i + rounds <= n / 2)%nat ->
  (forall k, (k < n)%nat -> s !! k = if decide (k < i \/ n - i <= k)%nat then s0 !! (n - 1 - k)%nat else s0 !! k) ->
  forall k, (k < n)%nat ->
    reverse_loop rounds i n s !! k = if decide (k < i + rounds \/ n - (i + rounds) <= k)%nat then s0 !! (n - 1 - k)%nat else s0 !! k.
Proof.
  intros Hn0. revert i s. induction rounds as [|r IH]; intros i s Hn Hr Hs k Hk; cbn [reverse_loop].
  - rewrite Nat.add_0_r. by apply Hs.
  - pose proof (Nat.div_mod_eq n 2). replace (i + S r)%nat with (S i + r)%nat by lia.
    apply IH; [by rewrite length_swap|lia| |done]. clear k Hk. intros k Hk. rewrite lookup_swap by lia.
    destruct (decide (k = n - i - 1)%nat) as [->|H1].
    + rewrite Hs by lia. rewrite decide_False by lia. rewrite decide_True by lia. f_equal. lia.
    + destruct (decide (k = i)) as [->|H2].
      * rewrite Hs by lia. rewrite decide_False by lia. rewrite decide_True by lia. f_equal. lia.
      * rewrite Hs by done. destruct (decide (k < i \/ n - i <= k)%nat).
        -- by rewrite decide_True by lia.
        -- by rewrite decide_False by lia.
Qed.
(** The swaps in place reverse the slice. *)
Theorem ReverseSlice_reverse s : ReverseSlice s = reverse s.
Proof.
  apply list_eq_same_length with (length s); [by rewrite length_reverse|apply length_reverse_loop|].
  intros k x y Hk Hx Hy. unfold ReverseSlice in Hx.
  rewrite (reverse_loop_spec (length s) (length s / 2) 0 s s) in Hx; [|done|done|lia| |done].
  - rewrite reverse_lookup in Hy by done. replace (length s - S k)%nat with (length s - 1 - k)%nat in Hy by lia.
    destruct (decide _) as [_|Hd]; [congruence|]. pose proof (Nat.div_mod_eq (length s) 2).
    pose proof (Nat.mod_upper_bound (length s) 2 ltac:(lia)). replace (length s - 1 - k)%nat with k in Hy by lia. congruence.
  - intros j Hj. by rewrite decide_False by lia.
Qed.

Lemma duplicate_loop_spec visited arr : duplicate_loop visited arr = false <-> NoDup arr /\ forall x, x ∈ arr -> x ∉ visited.
Proof.
  revert visited. induction arr as [|x arr IH]; intros visited; cbn [duplicate_loop].
  - split; [|done]. intros _. split; [constructor|]. intros x Hx. by apply not_elem_of_nil in Hx.
  - case_bool_decide as Hv; [split; [done|intros [_ Hn]; exfalso; by apply (Hn x); [left|]]|].
    rewrite IH, NoDup_cons. split.
    + intros [Hn Hx]. split; [split; [|done]|].
      * intros Hin. apply (Hx x Hin). set_solver.
      * intros y [->|Hy]%elem_of_cons; [done|]. specialize (Hx y Hy). set_solver.
    + intros [[Hn Hnd] Hx]. split; [done|]. intros y Hy. specialize (Hx y ltac:(by right)).
      assert (y <> x) by (intros ->; done). set_solver.
Qed.
(** A duplicate is reported exactly when there is one. *)
Theorem ContainsDuplicate_iff arr : ContainsDuplicate arr = true <-> ~ NoDup arr.
Proof.
  unfold ContainsDuplicate. pose proof (duplicate_loop_spec ∅ arr) as Hd. destruct (duplicate_loop ∅ arr).
  - split; [|done]. intros _ Hn. assert (true = false) by (apply Hd; split; [done|set_solver]). done.
  - split; [done|]. intros Hn. exfalso. by apply Hn, Hd.
Qed.

(** Merging two slices sorted by the order keeps all elements and sorts them. *)
Theorem MergeSlices_sorted (less : T -> T -> bool) l1 l2 :
  let le := fun a b => less b a = false in
  Transitive le -> (forall a b, less a b = true -> less b a = false) ->
  StronglySorted le l1 -> StronglySorted le l2 ->
  StronglySorted le (MergeSlices less l1 l2) /\ MergeSlices less l1 l2 ≡ₚ l1 ++ l2.
Proof.
  intros le Htr Has Hs1. revert l2. induction Hs1 as [|x l1 Hs1 IH1 Hx]; intros l2 Hs2.
  - destruct l2; by split.
  - induction Hs2 as [|y l2 Hs2 IH2 Hy]; [cbn; rewrite app_nil_r; split; [by constructor|done]|].
    cbn [MergeSlices]. destruct (less x y) eqn:E.
    + destruct (IH1 (y :: l2)) as [Hs Hp]; [by constructor|]. split; [|by rewrite Hp]. constructor; [done|].
      rewrite Hp. apply Forall_app. split; [done|]. constructor; [by apply Has|].
      eapply Forall_impl; [exact Hy|]. intros z Hz. apply (Htr x y z); [by apply Has|done].
    + destruct IH2 as [Hs Hp]. fold (MergeSlices less (x :: l1) l2). split; [|rewrite Hp; by rewrite <- Permutation_middle].
      constructor; [done|]. rewrite Hp. apply Forall_app. split; [|done]. constructor; [exact E|].
      eapply Forall_impl; [exact Hx|]. intros z Hz. by apply (Htr y x z).
Qed.
Lemma Contains_elem s x : Contains s x = true <-> x ∈ s.
Proof.
  induction s as [|a s IH]; cbn [Contains]; [split; [done|by intros ?%not_elem_of_nil]|].
  rewrite elem_of_cons. case_bool_decide as Ha; [subst; split; [by left|done]|]. rewrite IH. split; [by right|intros [->|?]; done].
Qed.
(** The random choice is a proper part of the slice, never the whole of it: [Intn] stays below its argument. *)
Theorem random_subset_proper shuffle Intn s :
  (forall l, shuffle l ≡ₚ l) -> (forall n, (0 < n)%nat -> (Intn n < n)%nat) -> s <> [] ->
  let '(s', sub) := GetRandomSubset shuffle Intn s in
  s' ≡ₚ s /\ (length sub < length s)%nat /\ forall x, x ∈ sub -> x ∈ s.
Proof.
  intros Hsh Hin Hs. unfold GetRandomSubset. destruct s as [|a s]; [done|]. pose proof (Hsh (a :: s)) as Hp.
  pose proof (Permutation_length Hp) as Hl. split; [done|]. split.
  - rewrite length_take. specialize (Hin (length (shuffle (a :: s)))). cbn in *. lia.
  - intros x Hx. rewrite <- Hp. apply elem_of_take in Hx as (i & Hi & _). by eapply list_elem_of_lookup_2.
Qed.
End Slices.

Lemma MergeSlices_sorted_witness : MergeSlices Z.ltb [1; 4] [2; 4; 9] = [1; 2; 4; 4; 9] /\
  MergeSlices Z.ltb [1; 4] [2; 4; 9] ≡ₚ [1; 4] ++ [2; 4; 9].
Proof.
  split; [vm_compute; reflexivity|].
  apply (MergeSlices_sorted Z.ltb); [intros a b c; rewrite !Z.ltb_ge; lia|intros a b; rewrite Z.ltb_lt, Z.ltb_ge; lia|
    repeat constructor..].
Defined.
(** Only neighbours are compared: equal elements apart are not seen. *)
Example deep_equal_misses : ContainsDuplicateDeepEqual [1; 2; 1] = false.
Proof. reflexivity. Qed.
