(* ===== verification/Patch520.v ===== *)
(** * The reward patch of upgrade v520

    [app/upgrades/v520]: the upgrade walks over all delegations and settles
    those whose stake in the distribution store exceeds what their shares are
    worth in the staking store by at most 9.5 percent: it pays the rewards,
    computed with the worth of the shares, and starts the delegation anew.

    The staking, distribution and bank modules are not part of the repository.
    [DistrSdk] lists the calls the patch makes of them, over an opaque state;
    [DistrLaws] states, through a view of the distribution store, what their
    getters and setters do. Logging and the debug file are left out. *)

From S2P Require Import Prelude KVStore Sdk.

Open Scope go_scope.

(** ** Data *)

(** Records of [x/staking] and [x/distribution]; decimals in units of [10^-18]. *)
Record StkValidator := MkStkValidator { v_OperatorAddress : bytes; v_Tokens : Z; v_DelegatorShares : Z }.
Record StkDelegation := MkStkDelegation { d_DelegatorAddress : bytes; d_ValidatorAddress : bytes; d_Shares : Z }.
(** A nil stake, as in the zero value of the record, is [None]. *)
Record StartingInfo := MkStartingInfo { si_PreviousPeriod : Z; si_Stake : option Z; si_Height : Z }.
(** [D] is the type of valid sets of decimal coins. *)
Record HistoricalRewards (D : Type) := MkHistorical { hr_CumulativeRewardRatio : D; hr_ReferenceCount : Z }.
Arguments MkHistorical {D} _ _.
Arguments hr_CumulativeRewardRatio {D} _.
Arguments hr_ReferenceCount {D} _.
Record SlashEvent := MkSlashEvent { se_ValidatorPeriod : Z; se_Fraction : Z }.

Inductive patch_err :=
| PKeeper               (* an error of a keeper or of an address codec *)
| PEmptyDelegation      (* [ErrEmptyDelegationDistInfo] *)
| PanicStake            (* the stake exceeds the shares by more than the margin *)
| PanicNotPatched | PanicPeriods | PanicNegativeStake | PanicNegativeRewards
| PanicReference        (* a reference count below 0 or above 2 *)
| PanicSdk.             (* a panic inside the SDK, such as a nil decimal *)
Definition is_panic (e : patch_err) : bool :=
  match e with PKeeper | PEmptyDelegation => false | _ => true end.

(** [sdk.DecCoins] and decimals: nil, [AmountOf], [Add], [Sub] (which panics,
    [None], on a negative result) and the like. *)
Class SdkDecCoins (D : Type) := {
  DecCoins_nil : D;
  DecCoins_AmountOf : D -> bytes -> Z;
  DecCoins_Add : D -> D -> D;
  DecCoins_Sub : D -> D -> option D;
  DecCoins_IsAnyNegative : D -> bool;
  DecCoins_MulDecTruncate : D -> Z -> D;
  DecCoins_Intersect : D -> D -> D;
  DecCoins_TruncateDecimal : D -> Coins * D;
  Coins_IsZero : Coins -> bool;
  Dec_MulTruncate : Z -> Z -> Z
}.

Class DistrSdk (B D : Type) := {
  (** address codecs *)
  ValAddress_StringToBytes : bytes -> option bytes;
  ValAddressFromBech32 : bytes -> option bytes;
  AccAddress_StringToBytes : bytes -> option bytes;
  (** the staking keeper; [None] is an error, in [TokensFromShares] a panic *)
  GetAllValidators : B -> option (list StkValidator);
  GetValidatorDelegations : B -> bytes -> option (list StkDelegation);
  RemoveDelegation : StkDelegation -> B -> B * bool;
  StakingKeeper_Validator : B -> bytes -> option StkValidator;
  StakingKeeper_Delegation : B -> bytes -> bytes -> option StkDelegation;
  TokensFromShares : StkValidator -> Z -> option Z;
  TokensFromSharesTruncated : StkValidator -> Z -> option Z;
  (** the distribution keeper *)
  IncrementValidatorPeriod : StkValidator -> B -> B * option Z;
  GetDelegatorStartingInfo : B -> bytes -> bytes -> option StartingInfo;
  HasDelegatorStartingInfo : B -> bytes -> bytes -> option bool;
  SetDelegatorStartingInfo : bytes -> bytes -> StartingInfo -> B -> option B;
  DeleteDelegatorStartingInfo : bytes -> bytes -> B -> option B;
  GetValidatorHistoricalRewards : B -> bytes -> Z -> option (HistoricalRewards D);
  SetValidatorHistoricalRewards : bytes -> Z -> HistoricalRewards D -> B -> option B;
  DeleteValidatorHistoricalReward : bytes -> Z -> B -> option B;
  GetValidatorCurrentRewards_Period : B -> bytes -> option Z;
  GetValidatorOutstandingRewardsCoins : B -> bytes -> option D;
  SetValidatorOutstandingRewards : bytes -> D -> B -> option B;
  GetDelegatorWithdrawAddr : B -> bytes -> option bytes;
  FeePool_Get : B -> option D;
  FeePool_Set : D -> B -> option B;
  (** the events the iterator between two heights visits, in order *)
  SlashEventsBetween : B -> bytes -> Z -> Z -> list SlashEvent;
  SetValidatorSlashEvent : bytes -> Z -> Z -> SlashEvent -> B -> option B
}.

Definition distrModule : bytes := str "distribution".
Definition PatchVal1 : bytes := str "terpvaloper1rwyn6w46u3067enhpdceqasg2um8dddt6tehsv".
Definition LegacySmallestDec : Z := 1.

Section Patch.
Context {B D : Type} {SdkB : Sdk B} {DecOps : SdkDec} {DC : SdkDecCoins D} {DS : DistrSdk B D}.
(** [ctx.BlockHeight()] *)
Context (BlockHeight : Z).
Abbreviation M := (meth B patch_err).
Definition or_err {A : Type} (e : patch_err) (o : option A) : result patch_err A :=
  match o with Some a => Ok a | None => Err e end.
(** A call that changes the state or returns an error. *)
Definition call (f : B -> option B) : M unit :=
  fun b => match f b with Some b' => (b', Ok tt) | None => (b, Err PKeeper) end.

(** ** Rewards *)

Definition customCalculateDelegationRewardsBetween (b : B) (val : StkValidator)
    (startingPeriod endingPeriod stake : Z) : result patch_err D :=
  check! guard (endingPeriod <? startingPeriod) PanicPeriods;
  check! guard (stake <? 0) PanicNegativeStake;
  try! valBz <- or_err PanicSdk (ValAddress_StringToBytes (v_OperatorAddress val));
  try! starting <- or_err PanicSdk (GetValidatorHistoricalRewards b valBz startingPeriod);
  try! ending <- or_err PanicSdk (GetValidatorHistoricalRewards b valBz endingPeriod);
  try! difference <- or_err PanicSdk (DecCoins_Sub (hr_CumulativeRewardRatio ending) (hr_CumulativeRewardRatio starting));
  check! guard (DecCoins_IsAnyNegative difference) PanicNegativeRewards;
  Ok (DecCoins_MulDecTruncate difference stake).

(** The callback on each slash event; the state is the rewards so far, the
    starting period and the stake. *)
Fixpoint slash_loop (b : B) (val : StkValidator) (events : list SlashEvent) (acc : D * Z * Z)
    : result patch_err (D * Z * Z) :=
  match events with
  | [] => Ok acc
  | event :: events' =>
      let '(rewards, startingPeriod, stake) := acc in
      let endingPeriod := se_ValidatorPeriod event in
      if startingPeriod <? endingPeriod then
        try! r <- customCalculateDelegationRewardsBetween b val startingPeriod endingPeriod stake;
        slash_loop b val events'
          (DecCoins_Add rewards r, endingPeriod, Dec_MulTruncate stake (dec_one - se_Fraction event))
      else slash_loop b val events' acc
  end.

(** [LegacyNewDecWithPrec(95, 3)] *)
Definition margin : Z := 95 * 10 ^ 15.
(** The stake to settle with, and whether it was patched. *)
Definition settle_stake (stake currentStake : Z) : result patch_err (Z * bool) :=
  if currentStake <? stake then
    let marginOfErr := Dec_Mul currentStake margin in
    if stake <=? currentStake + marginOfErr then Ok (currentStake, true) else Err PanicStake
  else Ok (stake, false).

(** A nil stake panics at its first use, which is before any change. *)
Definition CustomCalculateDelegationRewards (b : B) (val : StkValidator) (del : StkDelegation) (endingPeriod : Z)
    : result patch_err (D * bool) :=
  try! delAddr <- or_err PanicSdk (AccAddress_StringToBytes (d_DelegatorAddress del));
  try! valAddr <- or_err PanicSdk (ValAddress_StringToBytes (d_ValidatorAddress del));
  try! startingInfo <- or_err PanicSdk (GetDelegatorStartingInfo b valAddr delAddr);
  if si_Height startingInfo =? u64 BlockHeight then Ok (DecCoins_nil, false)
  else
    try! stake <- or_err PanicSdk (si_Stake startingInfo);
    let endingHeight := u64 BlockHeight in
    let events := if si_Height startingInfo <? endingHeight
                  then SlashEventsBetween b valAddr (si_Height startingInfo) endingHeight else [] in
    try! acc <- slash_loop b val events (DecCoins_nil, si_PreviousPeriod startingInfo, stake);
    let '(rewards, startingPeriod, stake) := acc in
    try! currentStake <- or_err PanicSdk (TokensFromShares val (d_Shares del));
    try! settled <- settle_stake stake currentStake;
    let '(stake, patched) := settled in
    try! r <- customCalculateDelegationRewardsBetween b val startingPeriod endingPeriod stake;
    Ok (DecCoins_Add rewards r, patched).

(** ** Reference counts *)

Definition customIncrementReferenceCount (valAddr : bytes) (period : Z) : M unit :=
  run! historical <- (fun b => (b, or_err PKeeper (GetValidatorHistoricalRewards b valAddr period)));
  exec! mlift (guard (2 <? hr_ReferenceCount historical) PanicReference);
  call (SetValidatorHistoricalRewards valAddr period
          (MkHistorical (hr_CumulativeRewardRatio historical) (hr_ReferenceCount historical + 1))).

(** The error of the getter is ignored: the zero record follows. *)
Definition customDecrementReferenceCount (valAddr : bytes) (period : Z) : M unit :=
  run! historical <- mget (fun b => default (MkHistorical DecCoins_nil 0) (GetValidatorHistoricalRewards b valAddr period));
  exec! mlift (guard (hr_ReferenceCount historical =? 0) PanicReference);
  let historical := MkHistorical (hr_CumulativeRewardRatio historical) (hr_ReferenceCount historical - 1) in
  if hr_ReferenceCount historical =? 0 then call (DeleteValidatorHistoricalReward valAddr period)
  else call (SetValidatorHistoricalRewards valAddr period historical).

(** ** One delegation *)

Definition customInitializeDelegation (val del : bytes) : M unit :=
  run! current <- (fun b => (b, or_err PKeeper (GetValidatorCurrentRewards_Period b val)));
  let previousPeriod := u64 (current - 1) in
  exec! customIncrementReferenceCount val previousPeriod;
  run! validator <- (fun b => (b, or_err PKeeper (StakingKeeper_Validator b val)));
  run! delegation <- (fun b => (b, or_err PKeeper (StakingKeeper_Delegation b del val)));
  run! stake <- mlift (or_err PanicSdk (TokensFromSharesTruncated validator (d_Shares delegation)));
  call (SetDelegatorStartingInfo val del (MkStartingInfo previousPeriod (Some stake) (u64 BlockHeight))).

(** Pays the whole coins of the rewards to the withdraw address; the rest goes
    to the community pool. *)
Definition pay_out (delAddr valAddr : bytes) (rewards outstanding : D) : M Coins :=
  let '(finalRewards, remainder) := DecCoins_TruncateDecimal rewards in
  exec! (if Coins_IsZero finalRewards then mret tt
         else
           run! withdrawAddr <- (fun b => (b, or_err PKeeper (GetDelegatorWithdrawAddr b delAddr)));
           call (SendCoins (Module distrModule) (Account withdrawAddr) finalRewards));
  run! remaining <- mlift (or_err PanicSdk (DecCoins_Sub outstanding rewards));
  exec! call (SetValidatorOutstandingRewards valAddr remaining);
  run! feePool <- (fun b => (b, or_err PKeeper (FeePool_Get b)));
  exec! call (FeePool_Set (DecCoins_Add feePool remainder));
  mret finalRewards.

(** The result is what was paid; for no payment the code puts a zero coin in its
    place, for the event, and the caller drops it. *)
Definition CustomWithdrawDelegationRewards (val : StkValidator) (del : StkDelegation) (endingPeriod : Z) : M Coins :=
  run! delAddr <- mlift (or_err PKeeper (AccAddress_StringToBytes (d_DelegatorAddress del)));
  run! valAddr <- mlift (or_err PKeeper (ValAddress_StringToBytes (d_ValidatorAddress del)));
  run! hasInfo <- (fun b => (b, or_err PKeeper (HasDelegatorStartingInfo b valAddr delAddr)));
  exec! mlift (guard (negb hasInfo) PEmptyDelegation);
  run! calc <- (fun b => (b, CustomCalculateDelegationRewards b val del endingPeriod));
  exec! mlift (guard (negb (snd calc)) PanicNotPatched);
  run! outstanding <- (fun b => (b, or_err PKeeper (GetValidatorOutstandingRewardsCoins b valAddr)));
  run! finalRewards <- pay_out delAddr valAddr (DecCoins_Intersect (fst calc) outstanding) outstanding;
  run! startingInfo <- (fun b => (b, or_err PKeeper (GetDelegatorStartingInfo b valAddr delAddr)));
  exec! customDecrementReferenceCount valAddr (si_PreviousPeriod startingInfo);
  exec! call (DeleteDelegatorStartingInfo valAddr delAddr);
  mret finalRewards.

(** The body of the loop over the delegations of a validator. *)
Definition patch_delegation (del : StkDelegation) : M unit :=
  if d_Shares del <=? 0 then
    fun b => let '(b', ok) := RemoveDelegation del b in (b', if ok then Ok tt else Err PKeeper)
  else
    run! val <- mlift (or_err PKeeper (ValAddressFromBech32 (d_ValidatorAddress del)));
    run! delAddr <- mlift (or_err PKeeper (AccAddress_StringToBytes (d_DelegatorAddress del)));
    run! validator <- (fun b => (b, or_err PKeeper (StakingKeeper_Validator b val)));
    run! endingPeriod <- (fun b => let '(b', p) := IncrementValidatorPeriod validator b in (b', or_err PKeeper p));
    run! calc <- (fun b => (b, CustomCalculateDelegationRewards b validator del endingPeriod));
    if snd calc then
      exec! CustomWithdrawDelegationRewards validator del endingPeriod;
      customInitializeDelegation val delAddr
    else mret tt.

(** ** All delegations *)

(** The body of the loop over the validators; one of them gets a slash event. *)
Definition patch_validator (val : StkValidator) : M unit :=
  run! valAddr <- mlift (or_err PKeeper (ValAddress_StringToBytes (v_OperatorAddress val)));
  run! dels <- (fun b => (b, or_err PKeeper (GetValidatorDelegations b valAddr)));
  exec! mrange dels patch_delegation;
  if bytes_eqb (v_OperatorAddress val) PatchVal1 then
    run! period <- (fun b => (b, or_err PKeeper (GetValidatorCurrentRewards_Period b valAddr)));
    call (SetValidatorSlashEvent valAddr 1 period (MkSlashEvent period LegacySmallestDec))
  else mret tt.
Definition CustomValPatch : M unit :=
  run! allVals <- (fun b => (b, or_err PKeeper (GetAllValidators b)));
  mrange allVals patch_validator.
Definition CustomV6PatchMethod : M unit := CustomValPatch.

(** The upgrade: migrations, the parameters of tokenfactory, then the patch,
    whose error is dropped. A panic ends the node. *)
Definition CreateV520UpgradeHandler {V : Type} (RunMigrations : V -> B -> B * option V) (SetTfParams : B -> B)
    (vm : V) : M V :=
  run! migrations <- (fun b => let '(b', r) := RunMigrations vm b in (b', or_err PKeeper r));
  exec! mput SetTfParams;
  fun b => let '(b', r) := CustomV6PatchMethod b in
           (b', match r with
                | Err e => if is_panic e then Err e else Ok migrations
                | Ok _ => Ok migrations
                end).
End Patch.

(** ** What the theorems rely on *)

(** Sets of coins hold no negative amount, and the operations work by denom. *)
Class DecCoinsLaws (D : Type) `{SdkDecCoins D} := {
  dnil_law : forall d, DecCoins_AmountOf DecCoins_nil d = 0;
  damount_law : forall a d, 0 <= DecCoins_AmountOf a d;
  dadd_law : forall a b d, DecCoins_AmountOf (DecCoins_Add a b) d = DecCoins_AmountOf a d + DecCoins_AmountOf b d;
  dsub_law : forall a b c d, DecCoins_Sub a b = Some c -> DecCoins_AmountOf c d = DecCoins_AmountOf a d - DecCoins_AmountOf b d;
  dmul_law : forall a x d, 0 <= x -> DecCoins_AmountOf (DecCoins_MulDecTruncate a x) d = DecCoins_AmountOf a d * x / dec_one;
  dintersect_law : forall a b d,
    DecCoins_AmountOf (DecCoins_Intersect a b) d = Z.min (DecCoins_AmountOf a d) (DecCoins_AmountOf b d);
  dtruncate_law : forall a d,
    AmountOf (DecCoins_TruncateDecimal a).1 d = DecCoins_AmountOf a d / dec_one /\
    DecCoins_AmountOf (DecCoins_TruncateDecimal a).2 d = DecCoins_AmountOf a d mod dec_one;
  iszero_law : forall cs d, Coins_IsZero cs = true -> AmountOf cs d = 0
}.
(** The product of decimals is rounded to the nearest. *)
Class MulRound `{SdkDec} := mul_round : forall a b, 2 * Z.abs (Dec_Mul a b * dec_one - a * b) <= dec_one.

(** A view of the distribution store. *)
Record distr (D : Type) := MkDistr {
  dv_start : gmap (bytes * bytes) StartingInfo;
  dv_hist : gmap (bytes * Z) (HistoricalRewards D);
  dv_out : gmap bytes D;
  dv_pool : D
}.
Arguments MkDistr {D} _ _ _ _.
Arguments dv_start {D} _.
Arguments dv_hist {D} _.
Arguments dv_out {D} _.
Arguments dv_pool {D} _.

Section Views.
Context {D : Type} {DC : SdkDecCoins D}.
Definition start_at (v : distr D) (val del : bytes) : StartingInfo :=
  default (MkStartingInfo 0 None 0) (dv_start v !! (val, del)).
Definition hist_at (v : distr D) (val : bytes) (p : Z) : HistoricalRewards D :=
  default (MkHistorical DecCoins_nil 0) (dv_hist v !! (val, p)).
Definition out_at (v : distr D) (val : bytes) : D := default DecCoins_nil (dv_out v !! val).
Definition set_start (k : bytes * bytes) (i : StartingInfo) (v : distr D) : distr D :=
  MkDistr (<[k := i]> (dv_start v)) (dv_hist v) (dv_out v) (dv_pool v).
Definition del_start (k : bytes * bytes) (v : distr D) : distr D :=
  MkDistr (delete k (dv_start v)) (dv_hist v) (dv_out v) (dv_pool v).
Definition set_hist (k : bytes * Z) (h : HistoricalRewards D) (v : distr D) : distr D :=
  MkDistr (dv_start v) (<[k := h]> (dv_hist v)) (dv_out v) (dv_pool v).
Definition del_hist (k : bytes * Z) (v : distr D) : distr D :=
  MkDistr (dv_start v) (delete k (dv_hist v)) (dv_out v) (dv_pool v).
Definition set_out (k : bytes) (c : D) (v : distr D) : distr D :=
  MkDistr (dv_start v) (dv_hist v) (<[k := c]> (dv_out v)) (dv_pool v).
Definition set_pool (c : D) (v : distr D) : distr D :=
  MkDistr (dv_start v) (dv_hist v) (dv_out v) c.
(** What the module owes of a denom: the outstanding rewards and the pool. *)
Definition out_total (m : gmap bytes D) (d : bytes) : Z := map_fold (fun _ c acc => DecCoins_AmountOf c d + acc) 0 m.
Definition owed (v : distr D) (d : bytes) : Z := out_total (dv_out v) d + DecCoins_AmountOf (dv_pool v) d.
End Views.

Class DistrLaws (B D : Type) `{BankLaws B} `{SdkDecCoins D} `{DistrSdk B D} := {
  dview : B -> distr D;
  (** the other state the patch reads *)
  stk_same (b b' : B) : Prop :=
    (forall v, StakingKeeper_Validator b' v = StakingKeeper_Validator b v) /\
    (forall a v, StakingKeeper_Delegation b' a v = StakingKeeper_Delegation b a v) /\
    (forall v, GetValidatorCurrentRewards_Period b' v = GetValidatorCurrentRewards_Period b v) /\
    (forall a, GetDelegatorWithdrawAddr b' a = GetDelegatorWithdrawAddr b a);
  (** [b'] is [b] with the view [v] *)
  only (b b' : B) (v : distr D) : Prop :=
    dview b' = v /\ (forall o d, balance b' o d = balance b o d) /\ stk_same b b';
  get_start : forall b v a, GetDelegatorStartingInfo b v a = Some (start_at (dview b) v a);
  has_start : forall b v a, HasDelegatorStartingInfo b v a = Some (bool_decide (is_Some (dv_start (dview b) !! (v, a))));
  get_hist : forall b v p, GetValidatorHistoricalRewards b v p = Some (hist_at (dview b) v p);
  get_out : forall b v, GetValidatorOutstandingRewardsCoins b v = Some (out_at (dview b) v);
  get_pool : forall b, FeePool_Get b = Some (dv_pool (dview b));
  set_start_law : forall v a i b, exists b', SetDelegatorStartingInfo v a i b = Some b' /\ only b b' (set_start (v, a) i (dview b));
  del_start_law : forall v a b, exists b', DeleteDelegatorStartingInfo v a b = Some b' /\ only b b' (del_start (v, a) (dview b));
  set_hist_law : forall v p h b, exists b', SetValidatorHistoricalRewards v p h b = Some b' /\ only b b' (set_hist (v, p) h (dview b));
  del_hist_law : forall v p b, exists b', DeleteValidatorHistoricalReward v p b = Some b' /\ only b b' (del_hist (v, p) (dview b));
  set_out_law : forall v c b, exists b', SetValidatorOutstandingRewards v c b = Some b' /\ only b b' (set_out v c (dview b));
  set_pool_law : forall c b, exists b', FeePool_Set c b = Some b' /\ only b b' (set_pool c (dview b));
  send_view : forall x y cs b b', SendCoins x y cs b = Some b' -> dview b' = dview b /\ stk_same b b';
  (** what the module holds beyond what it owes, in units of [10^-18] *)
  surplus (b : B) (d : bytes) : Z := balance b (Module distrModule) d * dec_one - owed (dview b) d;
  slash_law : forall v h p e b b' d, SetValidatorSlashEvent v h p e b = Some b' -> surplus b' d = surplus b d;
  remove_law : forall a b d, surplus (RemoveDelegation a b).1 d = surplus b d;
  increment_law : forall v b d, surplus (IncrementValidatorPeriod v b).1 d = surplus b d;
  (** an address has one reading; truncated worth is not above the rounded one *)
  bech32_val : forall s, ValAddressFromBech32 s = ValAddress_StringToBytes s;
  truncated_law : forall v s x y, TokensFromSharesTruncated v s = Some x -> TokensFromShares v s = Some y -> x <= y
}.

(** ** Lemmas *)

Section Theorems.
Context {B D : Type} {SdkB : Sdk B} {BL : BankLaws B} {DecOps : SdkDec} {MR : MulRound} {DC : SdkDecCoins D}
  {DL : DecCoinsLaws D} {DS : DistrSdk B D} {LA : DistrLaws B D}.
Abbreviation amt := (DecCoins_AmountOf (D := D)).

Lemma out_total_set m v c d : out_total (<[v := c]> m) d = out_total m d - amt (default DecCoins_nil (m !! v)) d + amt c d.
Proof.
  unfold out_total. assert (Hins : forall (m : gmap bytes D) v c, m !! v = None ->
    map_fold (fun _ c acc => amt c d + acc) 0 (<[v := c]> m) = amt c d + map_fold (fun _ c acc => amt c d + acc) 0 m).
  { intros m' v' c' Hv. rewrite (map_fold_insert_L (fun _ c acc => amt c d + acc)); [done| |done]. intros; lia. }
  destruct (m !! v) as [x|] eqn:E.
  - rewrite <- insert_delete_eq. rewrite <- (insert_delete_id m v x E) at 2. rewrite !Hins by (by rewrite lookup_delete_eq). cbn. lia.
  - rewrite Hins by done. cbn. rewrite dnil_law. lia.
Qed.
Lemma stk_same_refl b : stk_same b b.
Proof. by unfold stk_same. Qed.
Lemma stk_same_trans b1 b2 b3 : stk_same b1 b2 -> stk_same b2 b3 -> stk_same b1 b3.
Proof.
  intros (A1 & A2 & A3 & A4) (B1 & B2 & B3 & B4). split_and!; intros; by rewrite ?B1, ?B2, ?B3, ?B4, ?A1, ?A2, ?A3, ?A4.
Qed.
Lemma call_only f b v b' r :
  (exists b1, f b = Some b1 /\ only b b1 v) -> call f b = (b', r) -> r = Ok tt /\ only b b' v.
Proof. intros (b1 & E & Ho). unfold call. rewrite E. by intros [= <- <-]. Qed.

(** What paying out does. *)
Definition paid_out (delAddr valAddr : bytes) (rewards : D) (b b' : B) (paid : Coins) : Prop :=
  (forall d, AmountOf paid d = amt rewards d / dec_one) /\
  (exists w, (forall o d, balance b' o d = balance b o d - (if decide (o = Module distrModule) then AmountOf paid d else 0)
                + (if decide (o = Account w) then AmountOf paid d else 0)) /\
     ((exists d, AmountOf paid d <> 0) -> GetDelegatorWithdrawAddr b delAddr = Some w)) /\
  stk_same b b' /\
  exists out pool, dview b' = set_pool pool (set_out valAddr out (dview b)) /\
    (forall d, amt out d = amt (out_at (dview b) valAddr) d - amt rewards d) /\
    (forall d, amt pool d = amt (dv_pool (dview b)) d + amt rewards d mod dec_one).
Lemma pay_out_spec delAddr valAddr rewards b b' r :
  pay_out delAddr valAddr rewards (out_at (dview b) valAddr) b = (b', r) ->
  match r with
  | Ok paid => paid_out delAddr valAddr rewards b b' paid
  | Err e => is_panic e = true \/ b' = b
  end.
Proof.
  unfold pay_out. pose proof (dtruncate_law rewards) as Ht. destruct (DecCoins_TruncateDecimal rewards) as [paid rest]. cbn in Ht.
  set (pay := if Coins_IsZero paid then _ else _).
  assert (Hpay : forall b1 r1, pay b = (b1, r1) ->
    match r1 with
    | Ok _ => dview b1 = dview b /\ stk_same b b1 /\
        exists w, (forall o d, balance b1 o d = balance b o d - (if decide (o = Module distrModule) then AmountOf paid d else 0)
                     + (if decide (o = Account w) then AmountOf paid d else 0)) /\
          ((exists d, AmountOf paid d <> 0) -> GetDelegatorWithdrawAddr b delAddr = Some w)
    | Err e => b1 = b
    end).
  { intros b1 r1. subst pay. destruct (Coins_IsZero paid) eqn:Ez.
    - intros [= <- <-]. split_and!; [done|apply stk_same_refl|]. exists []. split.
      + intros o d. rewrite (iszero_law _ d Ez). repeat case_decide; lia.
      + intros [d Hd]. by rewrite (iszero_law _ d Ez) in Hd.
    - unfold mbind, call. destruct (GetDelegatorWithdrawAddr b delAddr) as [w|]; cbn; [|by intros [= <- <-]].
      destruct (SendCoins _ _ paid b) as [b2|] eqn:Es; [|by intros [= <- <-]]. intros [= <- <-].
      destruct (send_view _ _ _ _ _ Es) as [Hv Hst]. apply send_law in Es as (_ & Hm & _). split_and!; try done. by exists w. }
  unfold mbind at 1. destruct (pay b) as [b1 [[]|e]] eqn:E1; specialize (Hpay _ _ eq_refl); [|intros [= <- <-]; by right].
  destruct Hpay as (Hv1 & Hs1 & w & Hb1 & Hw). clear pay E1. unfold mbind at 1, mlift.
  destruct (DecCoins_Sub _ rewards) as [out|] eqn:Eo; cbn [or_err]; [|intros [= <- <-]; by left].
  unfold mbind at 1. destruct (call _ b1) as [b2 r2] eqn:E2. eapply call_only in E2 as [-> (Hv2 & Hb2 & Hs2)]; [|apply set_out_law].
  unfold mbind at 1. rewrite get_pool. cbn [or_err].
  unfold mbind at 1. destruct (call _ b2) as [b3 r3] eqn:E3. eapply call_only in E3 as [-> (Hv3 & Hb3 & Hs3)]; [|apply set_pool_law].
  intros [= <- <-]. split_and!.
  - intros d. apply Ht.
  - exists w. split; [|done]. intros o d. by rewrite Hb3, Hb2, Hb1.
  - eapply stk_same_trans, stk_same_trans; eassumption.
  - rewrite Hv3, Hv2, Hv1. eexists _, _. split; [reflexivity|]. split; intros d.
    + by rewrite (dsub_law _ _ _ d Eo).
    + rewrite dadd_law. by rewrite (proj2 (Ht d)).
Qed.
(** Paying out moves from what is owed what leaves the account. *)
Lemma paid_out_surplus delAddr valAddr rewards b b' paid d :
  paid_out delAddr valAddr rewards b b' paid -> surplus b' d = surplus b d.
Proof.
  intros (Hp & (w & Hb & _) & _ & out & pool & Hv & Ho & Hpl). unfold surplus, owed. rewrite Hv, Hb.
  cbn [dv_out dv_pool set_pool set_out]. rewrite out_total_set. fold (out_at (dview b) valAddr).
  rewrite Ho, Hpl, Hp. rewrite decide_True, decide_False by done. pose proof (Z.div_mod (amt rewards d) dec_one ltac:(done)). lia.
Qed.

(** *** Nothing is lost *)

(** Whatever the outcome, unless the node panics, the surplus is the same. *)
Definition keeps {A : Type} (m : meth B patch_err A) : Prop :=
  forall b b' r, m b = (b', r) -> (exists e, r = Err e /\ is_panic e = true) \/ forall d, surplus b' d = surplus b d.
Create HintDb keeps.
Lemma keeps_bind {A C : Type} (m : meth B patch_err A) (k : A -> meth B patch_err C) :
  keeps m -> (forall a, keeps (k a)) -> keeps (mbind m k).
Proof.
  intros Hm Hk b b' r. unfold mbind. destruct (m b) as [b1 [a|e]] eqn:E; destruct (Hm _ _ _ E) as [(e' & He & Hp)|H1].
  - done.
  - intros E'. destruct (Hk a _ _ _ E') as [?|H2]; [by left|]. right. intros d. by rewrite H2, H1.
  - intros [= <- <-]. left. injection He as ->. by exists e'.
  - intros [= <- <-]. by right.
Qed.
Lemma keeps_read {A : Type} (f : B -> result patch_err A) : keeps (fun b => (b, f b)).
Proof. intros b b' r [= <- <-]. by right. Qed.
Lemma keeps_lift {A : Type} (r : result patch_err A) : keeps (mlift r).
Proof. apply (keeps_read (fun _ => r)). Qed.
Lemma keeps_get {A : Type} (f : B -> A) : keeps (mget f).
Proof. apply (keeps_read (fun b => Ok (f b))). Qed.
Lemma keeps_ret {A : Type} (a : A) : keeps (mret a).
Proof. apply (keeps_read (fun _ => Ok a)). Qed.
Lemma keeps_call f : (forall b b', f b = Some b' -> forall d, surplus b' d = surplus b d) -> keeps (call f).
Proof. intros Hf b b' r. unfold call. destruct (f b) as [b1|] eqn:E; intros [= <- <-]; right; [by apply Hf|done]. Qed.
Lemma only_surplus b b' v d : only b b' v -> owed v d = owed (dview b) d -> surplus b' d = surplus b d.
Proof. intros (Hv & Hb & _) Ho. unfold surplus. by rewrite Hv, Hb, Ho. Qed.
Lemma keeps_set f : (forall b, exists b' v, f b = Some b' /\ only b b' v /\ forall d, owed v d = owed (dview b) d) -> keeps (call f).
Proof.
  intros Hf. apply keeps_call. intros b b' E d. destruct (Hf b) as (b1 & v & E1 & Ho & Hd). rewrite E in E1.
  injection E1 as <-. by eapply only_surplus.
Qed.
Lemma keeps_set_hist v p h : keeps (call (SetValidatorHistoricalRewards v p h)).
Proof. apply keeps_set. intros b. destruct (set_hist_law v p h b) as (b' & ? & ?). by eexists _, _. Qed.
Lemma keeps_del_hist v p : keeps (call (DeleteValidatorHistoricalReward v p)).
Proof. apply keeps_set. intros b. destruct (del_hist_law v p b) as (b' & ? & ?). by eexists _, _. Qed.
Lemma keeps_set_start v a i : keeps (call (SetDelegatorStartingInfo v a i)).
Proof. apply keeps_set. intros b. destruct (set_start_law v a i b) as (b' & ? & ?). by eexists _, _. Qed.
Lemma keeps_del_start v a : keeps (call (DeleteDelegatorStartingInfo v a)).
Proof. apply keeps_set. intros b. destruct (del_start_law v a b) as (b' & ? & ?). by eexists _, _. Qed.
Hint Resolve keeps_bind keeps_read keeps_lift keeps_get keeps_ret keeps_set_hist keeps_del_hist keeps_set_start keeps_del_start : keeps.
Ltac keeps := repeat first [solve [auto with keeps] | apply keeps_bind; [|intros ?] | apply (keeps_read _) | case_match].

Lemma keeps_increment v p : keeps (customIncrementReferenceCount v p).
Proof. unfold customIncrementReferenceCount. keeps. Qed.
Lemma keeps_decrement v p : keeps (customDecrementReferenceCount v p).
Proof. unfold customDecrementReferenceCount. keeps. Qed.
Hint Resolve keeps_increment keeps_decrement : keeps.
Lemma keeps_initialize h v a : keeps (customInitializeDelegation h v a).
Proof. unfold customInitializeDelegation. keeps. Qed.
Lemma keeps_pay_out delAddr valAddr calc :
  keeps (run! outstanding <- (fun b => (b, or_err PKeeper (GetValidatorOutstandingRewardsCoins b valAddr)));
         pay_out delAddr valAddr (DecCoins_Intersect calc outstanding) outstanding).
Proof.
  intros b b' r. unfold mbind at 1. rewrite get_out. cbn [or_err]. intros E. apply pay_out_spec in E. destruct r as [paid|e].
  - right. intros d. by eapply paid_out_surplus.
  - destruct E as [Hp| ->]; [left; by exists e|by right].
Qed.
Lemma keeps_assoc {A C F : Type} (m : meth B patch_err A) (k : A -> meth B patch_err C) (l : C -> meth B patch_err F) :
  keeps (mbind (mbind m k) l) -> keeps (mbind m (fun a => mbind (k a) l)).
Proof.
  intros H b b' r E. apply (H b). rewrite <- E. unfold mbind. destruct (m b) as [? [a|?]]; [|done]. by destruct (k a _) as [? [?|?]].
Qed.
Lemma keeps_withdraw h val del ep : keeps (CustomWithdrawDelegationRewards h val del ep).
Proof.
  unfold CustomWithdrawDelegationRewards. do 6 (apply keeps_bind; [by keeps|intros ?]).
  apply keeps_assoc, keeps_bind; [apply keeps_pay_out|intros ?]. keeps.
Qed.
Hint Resolve keeps_initialize keeps_withdraw : keeps.
Lemma keeps_patch_delegation h del : keeps (patch_delegation h del).
Proof.
  unfold patch_delegation. case_match.
  { intros b b' r. pose proof (remove_law del b) as H1. destruct (RemoveDelegation del b) as [b1 ok]. intros [= <- <-].
    right. intros d. apply H1. }
  do 3 (apply keeps_bind; [by keeps|intros ?]). apply keeps_bind; [|intros ?; keeps].
  intros b b' r. pose proof (increment_law a1 b) as H1. destruct (IncrementValidatorPeriod a1 b) as [b1 p]. intros [= <- <-].
  right. intros d. apply H1.
Qed.
Lemma keeps_range {A : Type} (l : list A) body : (forall x, keeps (body x)) -> keeps (mrange l body).
Proof. intros Hb. induction l as [|x l IH]; cbn [mrange]; [apply keeps_ret|]. apply keeps_bind; [apply Hb|done]. Qed.
Lemma keeps_patch_validator h val : keeps (patch_validator h val).
Proof.
  unfold patch_validator. keeps; [apply keeps_range, keeps_patch_delegation|].
  apply keeps_call. intros b b' E d. by eapply slash_law.
Qed.
Lemma keeps_patch h : keeps (CustomV6PatchMethod h).
Proof. unfold CustomV6PatchMethod, CustomValPatch. apply keeps_bind; [auto with keeps|intros l]. apply keeps_range, keeps_patch_validator. Qed.

(** C15: after the patch, whether it went through, met an error or is dropped by the
    upgrade, the distribution account exceeds what the module owes by exactly
    as much as before the patch, in every denom. *)
Theorem patch_conserves {V : Type} (h : Z) (migrate : V -> B -> B * option V) (params : B -> B) (vm v : V) (b b1 b' : B) :
  migrate vm b = (b1, Some v) ->
  CreateV520UpgradeHandler h migrate params vm b = (b', Ok v) ->
  forall d, surplus b' d = surplus (params b1) d.
Proof.
  intros Em. unfold CreateV520UpgradeHandler, mbind, mput. rewrite Em. cbn [or_err].
  destruct (CustomV6PatchMethod h (params b1)) as [b2 r] eqn:E. destruct (keeps_patch h _ _ _ E) as [(e & -> & Hp)|Hk].
  - by rewrite Hp.
  - by intros [= <- _].
Qed.

(** *** The rewards *)

Definition ratio (v : distr D) (val : bytes) (p : Z) (d : bytes) : Z := amt (hr_CumulativeRewardRatio (hist_at v val p)) d.
(** What a stake earns from one period to another. *)
Definition earned (v : distr D) (val : bytes) (p q stake : Z) (d : bytes) : Z :=
  (ratio v val q d - ratio v val p d) * stake / dec_one.
(** The walk over the slash events: the periods they end, the stake left by
    them, and what was earned on the way. *)
Fixpoint walk (v : distr D) (val : bytes) (events : list SlashEvent) (p stake : Z) (d : bytes) : Z * Z * Z :=
  match events with
  | [] => (p, stake, 0)
  | e :: events' =>
      if p <? se_ValidatorPeriod e then
        let '(p', stake', due) := walk v val events' (se_ValidatorPeriod e) (Dec_MulTruncate stake (dec_one - se_Fraction e)) d in
        (p', stake', earned v val p (se_ValidatorPeriod e) stake d + due)
      else walk v val events' p stake d
  end.

Lemma between_spec b val p q stake r valBz : ValAddress_StringToBytes (v_OperatorAddress val) = Some valBz ->
  customCalculateDelegationRewardsBetween b val p q stake = Ok r ->
  p <= q /\ 0 <= stake /\ forall d, amt r d = earned (dview b) valBz p q stake d.
Proof.
  intros Hv H. unfold customCalculateDelegationRewardsBetween in H. rewrite Hv in H.
  apply rbind_ok in H as ([] & Hp & H). apply rbind_ok in H as ([] & Hs & H). apply guard_false, Z.ltb_ge in Hp, Hs.
  cbn [or_err rbind] in H. rewrite !get_hist in H. cbn [or_err rbind] in H. apply rbind_ok in H as (x & H2 & H).
  apply rbind_ok in H as ([] & _ & H). injection H as <-. split_and!; [done..|]. intros d.
  rewrite dmul_law by done. unfold earned, ratio. destruct (DecCoins_Sub _ _) as [x'|] eqn:Ex; [|done].
  injection H2 as ->. by rewrite (dsub_law _ _ _ d Ex).
Qed.
Lemma slash_loop_spec b val events rewards p stake rewards' p' stake' valBz :
  ValAddress_StringToBytes (v_OperatorAddress val) = Some valBz ->
  slash_loop b val events (rewards, p, stake) = Ok (rewards', p', stake') ->
  forall d, exists due, walk (dview b) valBz events p stake d = (p', stake', due) /\ amt rewards' d = amt rewards d + due.
Proof.
  intros Hv. revert rewards p stake. induction events as [|e events IH]; intros rewards p stake H d; cbn [slash_loop walk] in *.
  - injection H as -> -> ->. exists 0. split; [done|lia].
  - destruct (p <? se_ValidatorPeriod e); [|by apply IH]. apply rbind_ok in H as (r & Hr & H).
    destruct (IH _ _ _ H d) as (due & -> & Hd). eexists. split; [reflexivity|].
    apply (between_spec _ _ _ _ _ _ _ Hv) in Hr as (_ & _ & Hr). rewrite Hd, dadd_law, Hr. lia.
Qed.
Lemma settle_stake_spec stake cur s patched : settle_stake stake cur = Ok (s, patched) ->
  s = Z.min stake cur /\ (patched = true <-> cur < stake) /\ (patched = true -> 1000 * stake <= 1095 * cur + 500).
Proof.
  unfold settle_stake. destruct (Z.ltb_spec cur stake).
  - destruct (Z.leb_spec stake (cur + Dec_Mul cur margin)) as [Hm|]; [|done]. intros [= <- <-].
    split_and!; [lia|done|intros _]. pose proof (mul_round cur margin) as Hr. change margin with (95 * 1000000000000000) in *. change dec_one with (1000 * 1000000000000000) in Hr. lia.
  - intros [= <- <-]. split_and!; [lia|split; [done|lia]|done].
Qed.
(** The rewards of a delegation are those of the walk over its slash events plus
    those of its last stretch, there with the recorded stake or the worth of its shares,
    whichever is less. It counts as patched exactly when the recorded
    stake is more, and then it is at most 9.5 percent more. *)
Theorem rewards_spec (h : Z) (b : B) (val : StkValidator) (del : StkDelegation) (ep : Z) (r : D) (patched : bool) (valBz delBz : bytes) :
  AccAddress_StringToBytes (d_DelegatorAddress del) = Some delBz ->
  ValAddress_StringToBytes (d_ValidatorAddress del) = Some valBz ->
  v_OperatorAddress val = d_ValidatorAddress del ->
  CustomCalculateDelegationRewards h b val del ep = Ok (r, patched) ->
  let info := start_at (dview b) valBz delBz in
  if si_Height info =? u64 h then r = DecCoins_nil /\ patched = false
  else exists stake cur events, si_Stake info = Some stake /\ TokensFromShares val (d_Shares del) = Some cur /\
    events = (if si_Height info <? u64 h then SlashEventsBetween b valBz (si_Height info) (u64 h) else []) /\
    forall d, exists p s due, walk (dview b) valBz events (si_PreviousPeriod info) stake d = (p, s, due) /\
      amt r d = due + earned (dview b) valBz p ep (Z.min s cur) d /\
      (patched = true <-> cur < s) /\ (patched = true -> 1000 * s <= 1095 * cur + 500).
Proof.
  intros Hd Hv Hop H info. unfold CustomCalculateDelegationRewards in H. rewrite Hd, Hv in H. cbn [or_err rbind] in H. rewrite get_start in H. cbn [or_err rbind] in H.
  fold info in H. destruct (si_Height info =? u64 h); [by injection H as <- <-|].
  destruct (si_Stake info) as [stake|]; cbn [or_err rbind] in H; [|done].
  apply rbind_ok in H as ([[r0 p] s] & Hl & H). destruct (TokensFromShares val (d_Shares del)) as [cur|]; cbn [or_err rbind] in H; [|done].
  apply rbind_ok in H as ([s' pt] & Hs & H). apply rbind_ok in H as (r1 & Hr & H). injection H as <- <-.
  eexists stake, cur, _. split_and!; [done..|]. intros d. rewrite <- Hop in Hv. destruct (slash_loop_spec _ _ _ _ _ _ _ _ _ _ Hv Hl d) as (due & Hw & Hr0).
  exists p, s, due. apply settle_stake_spec in Hs as (-> & Hp & Hm). apply (between_spec _ _ _ _ _ _ _ Hv) in Hr as (_ & _ & Hr).
  split_and!; try done. rewrite dadd_law, Hr0, Hr, dnil_law. lia.
Qed.

(** *** One delegation *)

Definition refs (v : distr D) (val : bytes) (p : Z) : Z := hr_ReferenceCount (hist_at v val p).
Definition drop_ref (val : bytes) (p : Z) (v : distr D) : distr D :=
  let h := hist_at v val p in
  if hr_ReferenceCount h - 1 =? 0 then del_hist (val, p) v
  else set_hist (val, p) (MkHistorical (hr_CumulativeRewardRatio h) (hr_ReferenceCount h - 1)) v.
Definition add_ref (val : bytes) (p : Z) (v : distr D) : distr D :=
  let h := hist_at v val p in
  set_hist (val, p) (MkHistorical (hr_CumulativeRewardRatio h) (hr_ReferenceCount h + 1)) v.
Lemma hist_at_set val p h v q : hist_at (set_hist (val, p) h v) val q = if decide (q = p) then h else hist_at v val q.
Proof.
  unfold hist_at, set_hist. cbn. case_decide as E; [subst; by rewrite lookup_insert_eq|].
  rewrite lookup_insert_ne by congruence. done.
Qed.
Lemma refs_drop val p v q : refs (drop_ref val p v) val q = refs v val q - if decide (q = p) then 1 else 0.
Proof.
  unfold drop_ref, refs. destruct (Z.eqb_spec (hr_ReferenceCount (hist_at v val p) - 1) 0) as [E|E].
  - unfold hist_at at 1, del_hist. cbn. case_decide as Hq; [subst; rewrite lookup_delete_eq; cbn; lia|].
    rewrite lookup_delete_ne by congruence. fold (hist_at v val q). lia.
  - rewrite hist_at_set. case_decide; [subst; done|lia].
Qed.
Lemma refs_add val p v q : refs (add_ref val p v) val q = refs v val q + if decide (q = p) then 1 else 0.
Proof. unfold add_ref, refs. rewrite hist_at_set. case_decide; [by subst|lia]. Qed.
Lemma drop_ref_rest val p v : dv_start (drop_ref val p v) = dv_start v /\ dv_out (drop_ref val p v) = dv_out v /\ dv_pool (drop_ref val p v) = dv_pool v.
Proof. unfold drop_ref. by case_match. Qed.

Lemma decrement_ok val p b b' : customDecrementReferenceCount val p b = (b', Ok tt) ->
  refs (dview b) val p <> 0 /\ only b b' (drop_ref val p (dview b)).
Proof.
  unfold customDecrementReferenceCount. intros H. apply mbind_ok in H as (b1 & h & H1 & H). apply mget_ok in H1 as [-> ->].
  rewrite get_hist in H. cbn [default] in H. apply mbind_ok in H as (b1 & [] & H1 & H). apply mlift_ok in H1 as [-> H1].
  apply guard_false, Z.eqb_neq in H1. split; [done|]. unfold drop_ref. cbn [hr_ReferenceCount] in H.
  change (hist_at (dview b) val p) with (id (hist_at (dview b) val p)) in *. unfold id in *. case_match.
  - eapply call_only in H as [_ H]; [done|apply del_hist_law].
  - eapply call_only in H as [_ H]; [done|apply set_hist_law].
Qed.
Lemma increment_ok val p b b' : customIncrementReferenceCount val p b = (b', Ok tt) ->
  refs (dview b) val p <= 2 /\ only b b' (add_ref val p (dview b)).
Proof.
  unfold customIncrementReferenceCount. intros H. apply mbind_ok in H as (b1 & h & H1 & H). rewrite get_hist in H1.
  cbn [or_err] in H1. injection H1 as <- <-. apply mbind_ok in H as (b1 & [] & H1 & H). apply mlift_ok in H1 as [-> H1].
  apply guard_false, Z.ltb_ge in H1. split; [done|]. eapply call_only in H as [_ H]; [done|apply set_hist_law].
Qed.
Lemma withdraw_ok h val del ep b b' paid delBz valBz :
  AccAddress_StringToBytes (d_DelegatorAddress del) = Some delBz ->
  ValAddress_StringToBytes (d_ValidatorAddress del) = Some valBz ->
  CustomWithdrawDelegationRewards h val del ep b = (b', Ok paid) ->
  exists r b2, CustomCalculateDelegationRewards h b val del ep = Ok (r, true) /\
    paid_out delBz valBz (DecCoins_Intersect r (out_at (dview b) valBz)) b b2 paid /\
    only b2 b' (del_start (valBz, delBz) (drop_ref valBz (si_PreviousPeriod (start_at (dview b2) valBz delBz)) (dview b2))).
Proof.
  intros Hd Hv H. unfold CustomWithdrawDelegationRewards in H. rewrite Hd, Hv in H. cbn [or_err] in H.
  apply mbind_ok in H as (b0 & x & H1 & H). apply mlift_ok in H1 as [-> [= <-]].
  apply mbind_ok in H as (b0 & x & H1 & H). apply mlift_ok in H1 as [-> [= <-]].
  apply mbind_ok in H as (b0 & has & H1 & H). injection H1 as <- _.
  apply mbind_ok in H as (b0 & x & H1 & H). apply mlift_ok in H1 as [-> _].
  apply mbind_ok in H as (b0 & [r pt] & H1 & H). injection H1 as <- H1. rewrite H1. clear x.
  apply mbind_ok in H as (b0 & x & H2 & H). apply mlift_ok in H2 as [-> H2]. apply guard_false, negb_false_iff in H2. cbn in H2. subst pt.
  apply mbind_ok in H as (b0 & out & H2 & H). rewrite get_out in H2. injection H2 as <- <-. cbn [fst] in H.
  apply mbind_ok in H as (b2 & paid' & H2 & H). apply pay_out_spec in H2. exists r, b2. split; [done|].
  apply mbind_ok in H as (b0 & info & H3 & H). rewrite get_start in H3. injection H3 as <- <-.
  apply mbind_ok in H as (b3 & [] & H3 & H). apply decrement_ok in H3 as [_ (Hv3 & Hb3 & Hs3)].
  apply mbind_ok in H as (b4 & [] & H4 & H). injection H as <- ->. split; [done|].
  eapply call_only in H4 as [_ (Hv4 & Hb4 & Hs4)]; [|apply del_start_law]. rewrite Hv3 in Hv4.
  split_and!; [done|intros; by rewrite Hb4|by eapply stk_same_trans].
Qed.
Lemma initialize_ok h val del b b' : customInitializeDelegation h val del b = (b', Ok tt) ->
  exists cur validator delegation stake, GetValidatorCurrentRewards_Period b val = Some cur /\
    StakingKeeper_Validator b val = Some validator /\ StakingKeeper_Delegation b del val = Some delegation /\
    TokensFromSharesTruncated validator (d_Shares delegation) = Some stake /\
    only b b' (set_start (val, del) (MkStartingInfo (u64 (cur - 1)) (Some stake) (u64 h)) (add_ref val (u64 (cur - 1)) (dview b))).
Proof.
  unfold customInitializeDelegation. intros H. apply mbind_ok in H as (b0 & cur & H1 & H). injection H1 as <- H1.
  apply mbind_ok in H as (b1 & [] & H2 & H). apply increment_ok in H2 as [_ (Hv2 & Hb2 & Hs2)].
  apply mbind_ok in H as (b0 & v & H3 & H). injection H3 as <- H3. apply mbind_ok in H as (b0 & dl & H4 & H). injection H4 as <- H4.
  apply mbind_ok in H as (b0 & st & H5 & H). apply mlift_ok in H5 as [-> H5].
  eapply call_only in H as [_ (Hv6 & Hb6 & Hs6)]; [|apply set_start_law]. pose proof Hs2 as (Sv & Sd & Sp & _).
  rewrite Sv in H3. rewrite Sd in H4. exists cur, v, dl, st. rewrite Hv2 in Hv6.
  destruct (GetValidatorCurrentRewards_Period b val), (StakingKeeper_Validator b val), (StakingKeeper_Delegation b del val),
    (TokensFromSharesTruncated v (d_Shares dl)); try done. injection H1 as ->. injection H3 as ->. injection H4 as ->. injection H5 as ->.
  do 5 (split; [done|]). split; [intros; by rewrite Hb6|by eapply stk_same_trans].
Qed.

(** The facts about a delegation the patch settles: [b1] is the state with the period ended. *)
Definition settles (h : Z) (del : StkDelegation) (val : StkValidator) (delBz valBz : bytes) (ep : Z) (r : D) (b b1 b' : B) : Prop :=
  0 < d_Shares del /\
  AccAddress_StringToBytes (d_DelegatorAddress del) = Some delBz /\
  ValAddress_StringToBytes (d_ValidatorAddress del) = Some valBz /\
  StakingKeeper_Validator b valBz = Some val /\
  IncrementValidatorPeriod val b = (b1, Some ep) /\
  CustomCalculateDelegationRewards h b1 val del ep = Ok (r, true) /\
  patch_delegation h del b = (b', Ok tt).
Lemma settles_steps h del val delBz valBz ep r b b1 b' : settles h del val delBz valBz ep r b b1 b' ->
  exists b2 b3 paid, paid_out delBz valBz (DecCoins_Intersect r (out_at (dview b1) valBz)) b1 b2 paid /\
    only b2 b3 (del_start (valBz, delBz) (drop_ref valBz (si_PreviousPeriod (start_at (dview b2) valBz delBz)) (dview b2))) /\
    customInitializeDelegation h valBz delBz b3 = (b', Ok tt).
Proof.
  intros (Hsh & Hd & Hv & Hval & Hinc & Hcalc & H). unfold patch_delegation in H. rewrite (proj2 (Z.leb_gt _ _) Hsh) in H.
  rewrite bech32_val, Hd, Hv in H. cbn [or_err] in H.
  apply mbind_ok in H as (b0 & x & H1 & H). apply mlift_ok in H1 as [-> [= <-]].
  apply mbind_ok in H as (b0 & x & H1 & H). apply mlift_ok in H1 as [-> [= <-]].
  apply mbind_ok in H as (b0 & x & H1 & H). rewrite Hval in H1. injection H1 as <- <-.
  apply mbind_ok in H as (b0 & x & H1 & H). rewrite Hinc in H1. injection H1 as <- <-.
  apply mbind_ok in H as (b0 & x & H1 & H). rewrite Hcalc in H1. injection H1 as <- <-. cbn [snd] in H.
  apply mbind_ok in H as (b3 & paid & H1 & H). destruct (withdraw_ok _ _ _ _ _ _ _ _ _ Hd Hv H1) as (r' & b2 & Hr & Hp & Ho).
  rewrite Hcalc in Hr. injection Hr as <-. by exists b2, b3, paid.
Qed.

(** A delegation the patch settles is paid the whole coins of the lesser of its
    rewards and the outstanding rewards of the validator, to its withdraw
    address and from the distribution account, and no other balance moves. These leave
    the outstanding rewards, fractions go to the community pool. The delegation starts
    anew at this height, its reference moves from the period it started with to the last one,
    and the records of other delegations and validators stay. *)
Theorem patch_settles (h : Z) (del : StkDelegation) (val : StkValidator) (delBz valBz : bytes) (ep : Z) (r : D) (b b1 b' : B) :
  settles h del val delBz valBz ep r b b1 b' ->
  let due d := Z.min (amt r d) (amt (out_at (dview b1) valBz) d) in
  let sp := si_PreviousPeriod (start_at (dview b1) valBz delBz) in
  exists w cur stake,
    (forall o d, balance b' o d = balance b1 o d - (if decide (o = Module distrModule) then due d / dec_one else 0)
                                + (if decide (o = Account w) then due d / dec_one else 0)) /\
    ((exists d, due d / dec_one <> 0) -> GetDelegatorWithdrawAddr b1 delBz = Some w) /\
    (forall v d, amt (out_at (dview b') v) d = amt (out_at (dview b1) v) d - if decide (v = valBz) then due d else 0) /\
    (forall d, amt (dv_pool (dview b')) d = amt (dv_pool (dview b1)) d + due d mod dec_one) /\
    GetValidatorCurrentRewards_Period b1 valBz = Some cur /\
    dv_start (dview b') = <[(valBz, delBz) := MkStartingInfo (u64 (cur - 1)) (Some stake) (u64 h)]> (dv_start (dview b1)) /\
    (forall p, refs (dview b') valBz p = refs (dview b1) valBz p - (if decide (p = sp) then 1 else 0)
                                         + (if decide (p = u64 (cur - 1)) then 1 else 0)).
Proof.
  intros Hs. destruct (settles_steps _ _ _ _ _ _ _ _ _ _ Hs) as (b2 & b3 & paid & Hp & (Hv3 & Hb3 & Hs3) & Hi).
  destruct Hp as (Hpaid & (w & Hb & Hw) & Hs2 & out & pool & Hv2 & Ho & Hpl).
  apply initialize_ok in Hi as (cur & v & dl & st & Hc & _ & _ & _ & (Hv4 & Hb4 & Hs4)).
  assert (Hdue : forall d, amt (DecCoins_Intersect r (out_at (dview b1) valBz)) d = Z.min (amt r d) (amt (out_at (dview b1) valBz) d))
    by (intros; apply dintersect_law).
  destruct Hs2 as (_ & _ & Sp2 & _), Hs3 as (_ & _ & Sp3 & _).
  assert (Hst : dv_start (dview b2) = dv_start (dview b1) /\ dv_hist (dview b2) = dv_hist (dview b1)) by (by rewrite Hv2).
  destruct Hst as [Hst Hhi]. set (sp2 := si_PreviousPeriod (start_at (dview b2) valBz delBz)) in *.
  destruct (drop_ref_rest valBz sp2 (dview b2)) as (D1 & D2 & D3).
  exists w, cur, st. split_and!.
  - intros o d. rewrite Hb4, Hb3, Hb, Hpaid, Hdue. done.
  - intros [d Hd]. apply Hw. exists d. by rewrite Hpaid, Hdue.
  - intros v' d. unfold out_at at 1. rewrite Hv4. cbn [dv_out set_start add_ref set_hist]. rewrite Hv3. cbn [dv_out del_start].
    rewrite D2, Hv2. cbn [dv_out set_pool set_out]. case_decide as E.
    + subst v'. rewrite lookup_insert_eq. cbn. by rewrite Ho, Hdue.
    + rewrite lookup_insert_ne by done. fold (out_at (dview b1) v'). lia.
  - intros d. rewrite Hv4. cbn [dv_pool set_start add_ref set_hist]. rewrite Hv3. cbn [dv_pool del_start].
    rewrite D3, Hv2. cbn [dv_pool set_pool]. by rewrite Hpl, Hdue.
  - by rewrite <- Sp2, <- Sp3.
  - rewrite Hv4. cbn [dv_start set_start add_ref set_hist]. rewrite Hv3. cbn [dv_start del_start]. rewrite D1, Hst.
    by rewrite insert_delete_eq.
  - intros p. rewrite Hv4. change (refs (set_start _ _ ?x) valBz p) with (refs x valBz p). rewrite refs_add, Hv3.
    change (refs (del_start _ ?x) valBz p) with (refs x valBz p). rewrite refs_drop. unfold sp2, start_at. rewrite Hst.
    unfold refs, hist_at. by rewrite Hhi.
Qed.

End Theorems.

(** ** A small chain, for the witnesses *)

(** A bank beside other state. *)
Section Lift.
Context {B X : Type} {SdkB : Sdk B}.
Definition lift (x : X) (o : option B) : option (B * X) := b ← o; Some (b, x).
#[export] Instance SdkLift : Sdk (B * X) := {|
  ValidateDenom := ValidateDenom (B := B);
  AccAddressFromBech32 := AccAddressFromBech32 (B := B);
  AccAddress_String := AccAddress_String (B := B);
  Metadata_Validate := Metadata_Validate (B := B);
  Coins_Validate := Coins_Validate (B := B);
  Coin_IsValid := Coin_IsValid (B := B);
  NewCoins := NewCoins (B := B);
  BlockedAddr := BlockedAddr (B := B);
  GetDenomMetaData b d := GetDenomMetaData b.1 d;
  SetDenomMetaData md b := (SetDenomMetaData md b.1, b.2);
  MintCoins m cs b := lift b.2 (MintCoins m cs b.1);
  BurnCoins m cs b := lift b.2 (BurnCoins m cs b.1);
  SendCoins x y cs b := lift b.2 (SendCoins x y cs b.1);
  FundCommunityPool cs a b := lift b.2 (FundCommunityPool cs a b.1);
  ConsumeGas g b := lift b.2 (ConsumeGas g b.1);
  MarshalAdmin := MarshalAdmin (B := B);
  UnmarshalAdmin := UnmarshalAdmin (B := B)
|}.
Lemma lift_some (x : X) o b' : lift x o = Some b' -> exists b, o = Some b /\ b' = (b, x).
Proof. unfold lift. destruct o as [b|]; cbn; [|done]. intros [= <-]. by exists b. Qed.
Context {BL : BankLaws B}.
#[export] Instance BankLift : BankLaws (B * X).
Proof.
  refine {| supply b := supply b.1; balance b := balance b.1; pool := pool |};
    cbn [NewCoins MintCoins BurnCoins SendCoins FundCommunityPool ConsumeGas GetDenomMetaData SetDenomMetaData SdkLift].
  - apply newcoins_law.
  - intros m cs [b x] b' (b1 & E & ->)%lift_some. by apply mint_law.
  - intros m cs [b x] b' (b1 & E & ->)%lift_some. by apply burn_law.
  - intros y z cs [b x] b' (b1 & E & ->)%lift_some. by apply send_law in E.
  - intros cs a [b x] b' (b1 & E & ->)%lift_some. by apply fund_law in E.
  - intros g [b x] b' (b1 & E & ->)%lift_some. by apply gas_law in E.
  - intros md [b x]. apply meta_law.
Defined.
End Lift.

(** Sets of coins as maps. *)
Abbreviation toyD := (gmap bytes N).
Definition nat_at (m : toyD) (d : bytes) : N := default 0%N (m !! d).
Definition toy_coins (m : toyD) : Coins :=
  (fun x : bytes * N => MkCoin x.1 (Z.of_N x.2 / dec_one)) <$> map_to_list m.
#[export] Instance ToyDecCoins : SdkDecCoins toyD := {|
  DecCoins_nil := ∅;
  DecCoins_AmountOf m d := Z.of_N (nat_at m d);
  DecCoins_Add := union_with (fun a b => Some (a + b)%N);
  DecCoins_Sub a b := if bool_decide (map_Forall (fun d n => (n <= nat_at a d)%N) b)
                      then Some (map_imap (fun d n => Some (n - nat_at b d)%N) a) else None;
  DecCoins_IsAnyNegative _ := false;
  DecCoins_MulDecTruncate m x := (fun n => Z.to_N (Z.of_N n * x / dec_one)) <$> m;
  DecCoins_Intersect a b := map_imap (fun d n => Some (N.min n (nat_at b d))) a;
  DecCoins_TruncateDecimal m := (toy_coins m, (fun n => Z.to_N (Z.of_N n mod dec_one)) <$> m);
  Coins_IsZero cs := forallb (fun c => coin_Amount c =? 0) cs;
  Dec_MulTruncate a b := Z.quot (a * b) dec_one
|}.
#[export] Instance ToyDecCoinsLaws : DecCoinsLaws toyD.
Proof.
  split; cbn [DecCoins_nil DecCoins_AmountOf DecCoins_Add DecCoins_Sub DecCoins_MulDecTruncate DecCoins_Intersect
    DecCoins_TruncateDecimal Coins_IsZero ToyDecCoins fst snd]; unfold nat_at.
  - done.
  - intros. lia.
  - intros a b d. rewrite lookup_union_with. destruct (a !! d), (b !! d); cbn; lia.
  - intros a b c d. case_bool_decide as Hf; [|done]. intros [= <-]. rewrite map_lookup_imap. unfold nat_at.
    destruct (b !! d) as [n|] eqn:Eb; [specialize (Hf d n Eb)|]; destruct (a !! d) as [m|] eqn:Ea; cbn; rewrite ?Eb; cbn; unfold nat_at in *;
      rewrite ?Ea in *; cbn in *; lia.
  - intros a x d Hx. rewrite lookup_fmap. destruct (a !! d) as [n|]; cbn; [|done]. rewrite Z2N.id; [done|].
    apply Z.div_pos; [nia|done].
  - intros a b d. rewrite map_lookup_imap. unfold nat_at. destruct (a !! d), (b !! d); cbn; lia.
  - intros a d. split.
    + unfold toy_coins. destruct (a !! d) as [n|] eqn:E; cbn [default].
      * change (Z.of_N n / dec_one) with (coin_Amount (MkCoin d (Z.of_N n / dec_one))). change d with (coin_Denom (MkCoin d (Z.of_N n / dec_one))) at 1.
        apply AmountOf_elem; [change (map ?f ?l) with (f <$> l); rewrite <- list_fmap_compose; apply NoDup_fst_map_to_list|].
        apply (list_elem_of_fmap_2' _ _ (d, n)); [by apply elem_of_map_to_list|done].
      * rewrite AmountOf_absent; [done|]. change (map ?f ?l) with (f <$> l). rewrite <- list_fmap_compose.
        intros ([d' n] & Hd & Hin)%list_elem_of_fmap. apply elem_of_map_to_list in Hin. cbn in Hd. congruence.
    + rewrite lookup_fmap. destruct (a !! d) as [n|]; cbn; [|done]. rewrite Z2N.id; [done|]. by apply Z.mod_pos_bound.
  - intros cs d. induction cs as [|c cs IH]; cbn; [done|]. intros [Hc%Z.eqb_eq Hcs]%andb_true_iff. rewrite IH by done. case_decide; lia.
Qed.
#[export] Instance ToyMulRound : MulRound.
Proof. intros a b. cbn. pose proof (round_law (a * b)) as H. cbn in H. lia. Qed.

Record toy_chain := MkChain {
  tc_view : distr toyD;
  tc_vals : gmap bytes StkValidator;
  tc_dels : gmap (bytes * bytes) StkDelegation;
  tc_period : gmap bytes Z
}.
Definition chain := (toy * toy_chain)%type.
Definition view_of (b : chain) : distr toyD := tc_view b.2.
Definition with_view (v : distr toyD) (b : chain) : chain :=
  (b.1, MkChain v (tc_vals b.2) (tc_dels b.2) (tc_period b.2)).
Definition worth (v : StkValidator) (s : Z) : option Z :=
  if v_DelegatorShares v =? 0 then None else Some (s * v_Tokens v / v_DelegatorShares v).
(** The period that ends gets a ratio of 0.0025 more than the one before. *)
Definition end_period (val : StkValidator) (b : chain) : chain * option Z :=
  match tc_period b.2 !! v_OperatorAddress val with
  | None => (b, None)
  | Some p =>
      let v := view_of b in
      let h := hist_at v (v_OperatorAddress val) (p - 1) in
      let v := set_hist (v_OperatorAddress val, p)
        (MkHistorical (DecCoins_Add (hr_CumulativeRewardRatio h) {[str "uterp" := 2500000000000000%N]}) 1) v in
      ((b.1, MkChain v (tc_vals b.2) (tc_dels b.2) (<[v_OperatorAddress val := p + 1]> (tc_period b.2))), Some p)
  end.
#[export] Instance ToyDistr : DistrSdk chain toyD := {|
  ValAddress_StringToBytes s := Some s;
  ValAddressFromBech32 s := Some s;
  AccAddress_StringToBytes s := if bytes_eqb s [] then None else Some s;
  GetAllValidators b := Some (snd <$> map_to_list (tc_vals b.2));
  GetValidatorDelegations b v := Some (filter (fun d => d_ValidatorAddress d = v) (snd <$> map_to_list (tc_dels b.2)));
  RemoveDelegation d b :=
    ((b.1, MkChain (tc_view b.2) (tc_vals b.2) (delete (d_DelegatorAddress d, d_ValidatorAddress d) (tc_dels b.2)) (tc_period b.2)), true);
  StakingKeeper_Validator b v := tc_vals b.2 !! v;
  StakingKeeper_Delegation b a v := tc_dels b.2 !! (a, v);
  TokensFromShares := worth;
  TokensFromSharesTruncated := worth;
  IncrementValidatorPeriod := end_period;
  GetDelegatorStartingInfo b v a := Some (start_at (view_of b) v a);
  HasDelegatorStartingInfo b v a := Some (bool_decide (is_Some (dv_start (view_of b) !! (v, a))));
  SetDelegatorStartingInfo v a i b := Some (with_view (set_start (v, a) i (view_of b)) b);
  DeleteDelegatorStartingInfo v a b := Some (with_view (del_start (v, a) (view_of b)) b);
  GetValidatorHistoricalRewards b v p := Some (hist_at (view_of b) v p);
  SetValidatorHistoricalRewards v p h b := Some (with_view (set_hist (v, p) h (view_of b)) b);
  DeleteValidatorHistoricalReward v p b := Some (with_view (del_hist (v, p) (view_of b)) b);
  GetValidatorCurrentRewards_Period b v := tc_period b.2 !! v;
  GetValidatorOutstandingRewardsCoins b v := Some (out_at (view_of b) v);
  SetValidatorOutstandingRewards v c b := Some (with_view (set_out v c (view_of b)) b);
  GetDelegatorWithdrawAddr b a := Some a;
  FeePool_Get b := Some (dv_pool (view_of b));
  FeePool_Set c b := Some (with_view (set_pool c (view_of b)) b);
  SlashEventsBetween b v h h' := [];
  SetValidatorSlashEvent v h p e b := Some b
|}.
#[export] Instance ToyDistrLaws : DistrLaws chain toyD.
Proof.
  refine {| dview := view_of |}; try (intros; eexists; split; [reflexivity|by split_and!]); try done.
  - intros x y cs [b c] b' (b1 & E & ->)%lift_some. done.
  - intros v h p e b b' d [= <-]. done.
  - intros v b d. cbn [IncrementValidatorPeriod ToyDistr]. unfold end_period. by case_match.
  - intros v s x y. cbn. intros E1 E2. rewrite E1 in E2. injection E2 as ->. lia.
Defined.

Definition w_val : StkValidator := MkStkValidator (str "val") 1000 1000.
Definition w_del : StkDelegation := MkStkDelegation (str "alice") (str "val") (1000 * dec_one).
(** Recorded with 1050 tokens where the shares are worth 1000; 3 tokens outstanding. *)
Definition w_view : distr toyD :=
  MkDistr {[(str "val", str "alice") := MkStartingInfo 1 (Some (1050 * dec_one)) 5]}
          {[(str "val", 1) := MkHistorical ∅ 1]} {[str "val" := {[str "uterp" := 3000000000000000000%N]}]} ∅.
Definition w_chain (v : distr toyD) : chain :=
  (MkToy {[(Module distrModule, str "uterp") := 10]} ∅ ∅ 0,
   MkChain v {[str "val" := w_val]} {[(str "alice", str "val") := w_del]} {[str "val" := 2]}).
Definition w_b : chain := w_chain w_view.
Definition w_b1 : chain := (end_period w_val w_b).1.
Definition w_b' : chain := (patch_delegation 9 w_del w_b).1.
Definition w_rewards : toyD := match CustomCalculateDelegationRewards 9 w_b1 w_val w_del 2 with Ok (r, _) => r | Err _ => ∅ end.
Lemma pair_eta {A C : Type} (x : A * C) c : x.2 = c -> x = (x.1, c).
Proof. destruct x. by intros <-. Qed.
Lemma w_settles : settles 9 w_del w_val (str "alice") (str "val") 2 w_rewards w_b w_b1 w_b'.
Proof.
  split; [vm_compute; reflexivity|]. do 3 (split; [vm_refl|]).
  split; [apply pair_eta; vm_refl|]. split; [vm_refl|].
  refine (pair_eta (patch_delegation 9 w_del w_b) (Ok tt) _). vm_refl.
Defined.

Lemma patch_settles_witness :
  balance w_b' (Account (str "alice")) (str "uterp") = 2 /\
  exists w : bytes, forall o d, balance w_b' o d = balance w_b1 o d
    - (if decide (o = Module distrModule) then Z.min (DecCoins_AmountOf w_rewards d) (DecCoins_AmountOf (out_at (dview w_b1) (str "val")) d) / dec_one else 0)
    + (if decide (o = Account w) then Z.min (DecCoins_AmountOf w_rewards d) (DecCoins_AmountOf (out_at (dview w_b1) (str "val")) d) / dec_one else 0).
Proof.
  split; [vm_compute; reflexivity|].
  destruct (patch_settles 9 w_del w_val (str "alice") (str "val") 2 w_rewards w_b w_b1 w_b' w_settles) as (w & cur & st & H & _).
  exists w. exact H.
Defined.
Lemma rewards_spec_witness : exists stake cur : Z,
  si_Stake (start_at (dview w_b1) (str "val") (str "alice")) = Some stake /\ TokensFromShares w_val (d_Shares w_del) = Some cur /\ cur < stake.
Proof.
  assert (Hc : CustomCalculateDelegationRewards 9 w_b1 w_val w_del 2 = Ok (w_rewards, true)) by vm_refl.
  assert (Hh : (si_Height (start_at (dview w_b1) (str "val") (str "alice")) =? u64 9) = false) by vm_refl.
  pose proof (rewards_spec 9 w_b1 w_val w_del 2 w_rewards true (str "val") (str "alice") eq_refl eq_refl eq_refl Hc) as H.
  cbv zeta in H. rewrite Hh in H. destruct H as (stake & cur & events & H1 & H2 & H3 & H4).
  exists stake, cur. split; [exact H1|]. split; [exact H2|].
  destruct (H4 []) as (p & s & due & Hw & _ & [Hp _] & _). specialize (Hp eq_refl). destruct (_ <? _) in H3; subst events; cbn in Hw; by injection Hw as _ <- _.
Defined.
Definition w_upgrade : chain * result patch_err Z := CreateV520UpgradeHandler 9 (fun vm b => (b, Some vm)) (fun b => b) 6 w_b.
Lemma patch_conserves_witness :
  balance w_upgrade.1 (Module distrModule) (str "uterp") = 8 /\ surplus w_upgrade.1 (str "uterp") = surplus w_b (str "uterp").
Proof.
  split; [vm_refl|].
  apply (patch_conserves 9 (fun (vm : Z) b => (b, Some vm)) (fun b => b) 6 6 w_b w_b); [reflexivity|].
  apply pair_eta. vm_refl.
Defined.
(** A delegation the patch fails on ends it, and the upgrade reports success. *)
Example patch_error_dropped :
  let b : chain := (w_b.1, MkChain w_view (tc_vals w_b.2) {[([], str "val") := MkStkDelegation [] (str "val") 1]} (tc_period w_b.2)) in
  (CustomV6PatchMethod 9 b).2 = Err PKeeper /\
  (CreateV520UpgradeHandler 9 (fun (vm : Z) b => (b, Some vm)) (fun b => b) 6 b).2 = Ok 6.
Proof. split; vm_compute; reflexivity. Qed.
(** The margin is inclusive: 1095 recorded against 1000 is settled, one unit more stops the chain. *)
Example margin_edge :
  settle_stake (1095 * dec_one) (1000 * dec_one) = Ok (1000 * dec_one, true) /\
  settle_stake (1095 * dec_one + 1) (1000 * dec_one) = Err PanicStake.
Proof. split; vm_compute; reflexivity. Qed.
