(* ===== verification/Ipfs.v ===== *)
(** * cmd/ipfs: content identifiers

    [cid.go] reads, prints and checks CIDs; [add.go] computes the CID of a
    file the way [ipfs add] does for one block. The libraries for multihashes,
    multibases and varints are not part of the repository: [Multiformats]
    lists what is called of them, [MultiformatsLaws] their documented formats.
    A CID is the bytes of its field [str]. *)

From S2P Require Import Prelude Sha256 LvTypes LvCodec LvHost LvPairs LvQuery Json JsonPrint.

Open Scope go_scope.

(** ** Data *)

Abbreviation Cid := bytes.
Definition Undef : Cid := [].
Definition Defined (c : Cid) : bool := negb (bytes_eqb c []).

(** What [ErrInvalidCid] wraps. *)
Inductive cid_reason :=
| RVarint | RVersion (v : Z) | RMultihash | RHash (code len : Z) | RShortV0 | RTrailing | RBase | RBlob | RJson | RFormat
| RPrefixV0 | RAlloc (n : Z) | RRead | RSum | RNested (e : cid_err)
with cid_err := ErrInvalidCid (r : cid_reason) | ErrCidTooShort | ErrInvalidEncoding | ErrTooLarge (n : Z) | ErrEOF | CidPanic.

Record Prefix := MkPrefix { p_Version : Z; p_Codec : Z; p_MhType : Z; p_MhLength : Z }.

Definition Raw : Z := 85.
Definition DagProtobuf : Z := 112.
Definition SHA2_256 : Z := 18.
Definition IDENTITY : Z := 0.
(** Multibase codes are the characters that announce them. *)
Definition Base32 : Z := 98.
Definition Base58BTC : Z := 122.

(** go-multihash, go-multibase and go-varint; [None] is an error. *)
Class Multiformats := {
  mh_Decode : bytes -> option (Z * Z * bytes);   (* code, length, digest *)
  mh_Cast : bytes -> option bytes;
  mh_MHFromBytes : bytes -> option (Z * bytes);
  mh_Sum : bytes -> Z -> Z -> option bytes;
  mh_FromB58String : bytes -> option bytes;
  B58String : bytes -> bytes;
  mbase_Encode : Z -> bytes -> option bytes;
  mbase_Decode : bytes -> option (Z * bytes);
  mbase_NewEncoder : Z -> option (bytes -> bytes);
  FromUvarint : bytes -> option (Z * Z);
  PutUvarint : Z -> bytes;
  (** the bytes taken from the reader, and the value *)
  ReadUvarint : bytes -> Z * option Z
}.

(** ** [add.go] *)

Definition DefaultChunkSize : Z := 262144.
Fixpoint ipfs_appendUvarint_loop (fuel : nat) (buf : bytes) (x : Z) : bytes :=
  match fuel with
  | O => buf
  | S fuel' => if 128 <=? x then ipfs_appendUvarint_loop fuel' (buf ++ [byte_of_Z (Z.lor (x mod 256) 128)]) (Z.shiftr x 7)
               else buf ++ [byte_of_Z x]
  end.
(** Ten rounds hold 64 bits. *)
Definition ipfs_appendUvarint (buf : bytes) (x : Z) : bytes := ipfs_appendUvarint_loop 10 buf x.
Definition appendVarintField (buf : bytes) (fieldNum v : Z) : bytes :=
  let buf := ipfs_appendUvarint buf (Z.lor (Z.shiftl fieldNum 3) 0) in
  ipfs_appendUvarint buf v.
Definition appendBytesField (buf : bytes) (fieldNum : Z) (data : bytes) : bytes :=
  let buf := ipfs_appendUvarint buf (Z.lor (Z.shiftl fieldNum 3) 2) in
  let buf := ipfs_appendUvarint buf (blen data) in
  buf ++ data.
Definition encodeUnixFSFileBlock (data : bytes) : bytes :=
  let unixfs := [] in
  let unixfs := appendVarintField unixfs 1 2 in
  let unixfs := appendBytesField unixfs 2 data in
  let unixfs := appendVarintField unixfs 3 (blen data) in
  appendBytesField [] 1 unixfs.

(** ** [cid.go] *)

(** [uvarint] on a string: value and bytes read, both 0 on an error. *)
Fixpoint cid_uvarint_loop (i s x : Z) (buf : bytes) : Z * Z * bool :=
  match buf with
  | [] => (0, 0, false)
  | b :: buf' =>
      if byte_val b <? 128 then
        if (9 <? i) || ((i =? 9) && (1 <? byte_val b)) then (0, 0, false)
        else if (byte_val b =? 0) && (0 <? i) then (0, 0, false)
        else (Z.lor x (u64 (Z.shiftl (byte_val b) s)), i + 1, true)
      else cid_uvarint_loop (i + 1) (s + 7) (Z.lor x (u64 (Z.shiftl (Z.land (byte_val b) 127) s))) buf'
  end.
Definition cid_uvarint (buf : bytes) : Z * Z * bool := cid_uvarint_loop 0 0 0 buf.

Section Cid.
Context {MF : Multiformats}.

Definition tryNewCidV0 (mhash : bytes) : result cid_err Cid :=
  match mh_Decode mhash with
  | None => Err (ErrInvalidCid RMultihash)
  | Some (Code, Length, _) =>
      if negb (Code =? SHA2_256) || negb (Length =? 32) then Err (ErrInvalidCid (RHash Code Length)) else Ok mhash
  end.
Definition NewCidV0 (mhash : bytes) : result cid_err Cid :=
  match tryNewCidV0 mhash with Ok c => Ok c | Err _ => Err CidPanic end.
Definition NewCidV1 (codecType : Z) (mhash : bytes) : Cid := Byte.x01 :: PutUvarint codecType ++ mhash.

Definition AddBytes (data : bytes) : result cid_err Cid :=
  if DefaultChunkSize <? blen data then Err (ErrTooLarge (blen data))
  else match mh_Sum (encodeUnixFSFileBlock data) SHA2_256 (-1) with
       | None => Err (ErrInvalidCid RSum)
       | Some hash => NewCidV0 hash
       end.

(** *** Reading bytes *)

(** Bytes read, and the CID. *)
Definition CidFromBytes (data : bytes) : result cid_err (Z * Cid) :=
  if (2 <? blen data) && (byte_val (byte_at data 0) =? SHA2_256) && (byte_val (byte_at data 1) =? 32) then
    if blen data <? 34 then Err (ErrInvalidCid RShortV0)
    else match mh_Cast (slice_to 34 data) with
         | None => Err (ErrInvalidCid RMultihash)
         | Some h => Ok (34, h)
         end
  else
    match FromUvarint data with
    | None => Err (ErrInvalidCid RVarint)
    | Some (vers, n) =>
        if negb (vers =? 1) then Err (ErrInvalidCid (RVersion vers))
        else match FromUvarint (slice_from n data) with
             | None => Err (ErrInvalidCid RVarint)
             | Some (_, cn) =>
                 match mh_MHFromBytes (slice_from (n + cn) data) with
                 | None => Err (ErrInvalidCid RMultihash)
                 | Some (mhnr, _) => let l := n + cn + mhnr in Ok (l, slice_to l data)
                 end
             end
    end.
Definition Cast (data : bytes) : result cid_err Cid :=
  match CidFromBytes data with
  | Err e => Err (ErrInvalidCid (RNested e))
  | Ok (nr, c) => if negb (nr =? blen data) then Err (ErrInvalidCid RTrailing) else Ok c
  end.
(** The method sets its receiver; on an error it is left as it was. *)
Definition UnmarshalBinary (data : bytes) : meth Cid cid_err unit :=
  run! casted <- mlift (Cast data); mput (fun _ => casted).

(** *** Parts of a CID *)

Definition Version (c : Cid) : Z :=
  if (blen c =? 34) && (byte_val (byte_at c 0) =? 18) && (byte_val (byte_at c 1) =? 32) then 0 else 1.
Definition Type_ (c : Cid) : Z :=
  if Version c =? 0 then DagProtobuf
  else let '(_, n, _) := cid_uvarint c in
       let '(codec, _, _) := cid_uvarint (slice_from n c) in codec.
Definition Bytes (c : Cid) : bytes := if Defined c then c else [].
(** The errors of the varints are ignored: nothing is skipped then. *)
Definition Hash (c : Cid) : bytes :=
  let bz := Bytes c in
  if Version c =? 0 then bz
  else let n1 := match FromUvarint bz with Some (_, n) => n | None => 0 end in
       let n2 := match FromUvarint (slice_from n1 bz) with Some (_, n) => n | None => 0 end in
       slice_from (n1 + n2) bz.
Definition ByteLen (c : Cid) : Z := blen c.
Definition Equals (c o : Cid) : bool := bytes_eqb c o.
Definition KeyString (c : Cid) : bytes := c.
(** [n] bytes are taken by the writer. *)
Definition WriteBytes (n : option Z) (c : Cid) : result cid_err Z :=
  match n with
  | None => Err ErrEOF
  | Some n => if negb (n =? blen c) then Err (ErrInvalidCid RRead) else Ok n
  end.
Definition Prefix_of (c : Cid) : Prefix :=
  if Version c =? 0 then MkPrefix 0 DagProtobuf SHA2_256 32
  else
    let offset := 0 in
    let '(version, n, _) := cid_uvarint (slice_from offset c) in
    let offset := offset + n in
    let '(codec, n, _) := cid_uvarint (slice_from offset c) in
    let offset := offset + n in
    let '(mhtype, n, _) := cid_uvarint (slice_from offset c) in
    let offset := offset + n in
    let '(mhlen, _, _) := cid_uvarint (slice_from offset c) in
    MkPrefix version codec mhtype (i64 mhlen).

(** *** Text *)

Definition Cid_String (c : Cid) : result cid_err bytes :=
  if Version c =? 0 then Ok (B58String (Hash c))
  else match mbase_Encode Base32 (Bytes c) with Some s => Ok s | None => Err CidPanic end.
Definition AddBytesString (data : bytes) : result cid_err bytes :=
  try! c <- AddBytes data; Cid_String c.
Definition StringOfBase (base : Z) (c : Cid) : result cid_err bytes :=
  if Version c =? 0 then
    if negb (base =? Base58BTC) then Err ErrInvalidEncoding else Ok (B58String (Hash c))
  else match mbase_Encode base (Bytes c) with Some s => Ok s | None => Err (ErrInvalidCid RBase) end.
Definition Encode (base : bytes -> bytes) (c : Cid) : bytes :=
  if Version c =? 0 then B58String (Hash c) else base (Bytes c).
Definition is_v0_text (v : bytes) : bool := (blen v =? 46) && bytes_eqb (slice_to 2 v) (str "Qm").
Definition Decode (v : bytes) : result cid_err Cid :=
  if blen v <? 2 then Err ErrCidTooShort
  else if is_v0_text v then
    match mh_FromB58String v with
    | None => Err (ErrInvalidCid RBase)
    | Some hash => tryNewCidV0 hash
    end
  else match mbase_Decode v with
       | None => Err (ErrInvalidCid RBase)
       | Some (_, data) => Cast data
       end.
Definition ExtractEncoding (v : bytes) : result cid_err Z :=
  if blen v <? 2 then Err ErrCidTooShort
  else if is_v0_text v then Ok Base58BTC
  else let encoding := byte_val (byte_at v 0) in
       match mbase_NewEncoder encoding with
       | None => Err (ErrInvalidCid RBase)
       | Some _ => Ok encoding
       end.
Definition UnmarshalText (text : bytes) : meth Cid cid_err unit :=
  run! decodedCid <- mlift (Decode text); mput (fun _ => decodedCid).

(** The piece of [s] between its first and its second [sep], or after the first:
    [strings.Split(s, sep)[1]]; [None] where [sep] is not in it. *)
Fixpoint split_at (sep s : bytes) : option (bytes * bytes) :=
  if has_prefix sep s then Some ([], drop (length sep) s)
  else match s with
       | [] => None
       | c :: s' => match split_at sep s' with Some (a, b) => Some (c :: a, b) | None => None end
       end.
Definition second_part (sep s : bytes) : option bytes :=
  match split_at sep s with
  | None => None
  | Some (_, rest) => Some (match split_at sep rest with Some (a, _) => a | None => rest end)
  end.
(** The types [Parse] takes. *)
Inductive parse_arg := PString (s : bytes) | PBytes (b : bytes) | PMultihash (b : bytes) | PCid (c : Cid) | POther.
Definition Parse (v : parse_arg) : result cid_err Cid :=
  match v with
  | PString v2 => match second_part (str "/ipfs/") v2 with Some s => Decode s | None => Decode v2 end
  | PBytes v2 => Cast v2
  | PMultihash v2 => tryNewCidV0 v2
  | PCid v2 => Ok v2
  | POther => Err (ErrInvalidCid RFormat)
  end.
Definition MustParse (v : parse_arg) : result cid_err Cid :=
  match Parse v with Ok c => Ok c | Err _ => Err CidPanic end.

(** *** JSON *)

(** [json.Unmarshal] into a pointer to the struct: null makes it nil. *)
Definition UnmarshalJSON (b : bytes) : meth Cid cid_err unit :=
  exec! mlift (guard (blen b <? 2) (ErrInvalidCid RBlob));
  match json_parse b with
  | None => mfail (ErrInvalidCid RJson)
  | Some JNull => mput (fun _ => Undef)
  | Some v =>
      match (l ← members v; dec_field dec_string (str "/") [] l) with
      | None => mfail (ErrInvalidCid RJson)
      | Some CidTarget =>
          exec! mlift (guard (bytes_eqb CidTarget []) (ErrInvalidCid RFormat));
          match Decode CidTarget with
          | Err e => mfail (ErrInvalidCid (RNested e))
          | Ok out => mput (fun _ => out)
          end
      end
  end.
Definition MarshalJSON (c : Cid) : result cid_err bytes :=
  if negb (Defined c) then Ok (str "null")
  else try! s <- Cid_String c;
       Ok ([Byte.x7b; Byte.x22; Byte.x2f; Byte.x22; Byte.x3a; Byte.x22] ++ s ++ [Byte.x22; Byte.x7d]).

(** *** Prefixes *)

Definition Prefix_Sum (p : Prefix) (data : bytes) : result cid_err Cid :=
  let length := if p_MhType p =? IDENTITY then -1 else p_MhLength p in
  if (p_Version p =? 0) && (negb (p_MhType p =? SHA2_256) || (negb (p_MhLength p =? 32) && negb (p_MhLength p =? -1)))
  then Err (ErrInvalidCid RPrefixV0)
  else match mh_Sum data (p_MhType p) length with
       | None => Err (ErrInvalidCid RSum)
       | Some hash =>
           if p_Version p =? 0 then NewCidV0 hash
           else if p_Version p =? 1 then Ok (NewCidV1 (p_Codec p) hash)
           else Err (ErrInvalidCid (RVersion (p_Version p)))
       end.
Definition Prefix_Bytes (p : Prefix) : bytes :=
  PutUvarint (p_Version p) ++ PutUvarint (p_Codec p) ++ PutUvarint (p_MhType p) ++ PutUvarint (u64 (p_MhLength p)).
(** One [varint.ReadUvarint] on the rest of a reader. *)
Definition next_uvarint (r : bytes) : result cid_err (Z * bytes) :=
  match ReadUvarint r with
  | (n, Some x) => Ok (x, slice_from n r)
  | (_, None) => Err (ErrInvalidCid RVarint)
  end.
Definition PrefixFromBytes (buf : bytes) : result cid_err Prefix :=
  try! (vers, r) <- next_uvarint buf;
  try! (codec, r) <- next_uvarint r;
  try! (mhtype, r) <- next_uvarint r;
  try! (mhlen, r) <- next_uvarint r;
  Ok (MkPrefix vers codec mhtype (i64 mhlen)).

(** *** Reading from a stream *)

(** [bufByteReader] over a stream whose bytes not yet read are [br_rest]; both
    of its ways of reading a byte take one and keep it. *)
Record bufByteReader := MkReader { br_rest : bytes; br_dst : bytes }.
Definition toBufByteReader (r : bytes) : bufByteReader := MkReader r [].
Definition ReadByte (r : bufByteReader) : bufByteReader * option byte :=
  match br_rest r with
  | [] => (r, None)
  | b :: rest => (MkReader rest (br_dst r ++ [b]), Some b)
  end.
Fixpoint ReadByte_times (n : nat) (r : bufByteReader) : bufByteReader :=
  match n with O => r | S n' => ReadByte_times n' (fst (ReadByte r)) end.
(** [varint.ReadUvarint] calls [ReadByte] as often as it takes bytes. *)
Definition br_ReadUvarint (r : bufByteReader) : bufByteReader * option Z :=
  let '(n, x) := ReadUvarint (br_rest r) in (ReadByte_times (Z.to_nat n) r, x).
(** [io.ReadFull] of [n] bytes: those read, and whether it was all. *)
Definition ReadFull (n : Z) (rest : bytes) : bytes * bool := (slice_to (Z.min n (blen rest)) rest, n <=? blen rest).
Definition maxDigestAlloc : Z := Z.shiftl 32 20.

(** The number of bytes read is right on errors too. *)
Definition CidFromReader (r : bytes) : Z * result cid_err Cid :=
  let br := toBufByteReader r in
  let '(br, vers) := br_ReadUvarint br in
  match vers with
  | None => if bytes_eqb r [] then (0, Err ErrEOF) else (blen (br_dst br), Err (ErrInvalidCid RVarint))
  | Some vers =>
      if vers =? SHA2_256 then
        let '(got, all) := ReadFull 33 (br_rest br) in
        if negb all then (blen (br_dst br) + blen got, Err (ErrInvalidCid RRead))
        else
          let dst := slice_to 1 (br_dst br) ++ got in
          match mh_Cast dst with
          | None => (blen dst, Err (ErrInvalidCid RMultihash))
          | Some h => (blen dst, Ok h)
          end
      else if negb (vers =? 1) then (blen (br_dst br), Err (ErrInvalidCid (RVersion vers)))
      else
        let '(br, codec) := br_ReadUvarint br in
        match codec with
        | None => (blen (br_dst br), Err (ErrInvalidCid RVarint))
        | Some _ =>
            let mhStart := blen (br_dst br) in
            let '(br, code) := br_ReadUvarint br in
            match code with
            | None => (blen (br_dst br), Err (ErrInvalidCid RVarint))
            | Some _ =>
                let '(br, mhl) := br_ReadUvarint br in
                match mhl with
                | None => (blen (br_dst br), Err (ErrInvalidCid RVarint))
                | Some mhl =>
                    if maxDigestAlloc <? mhl then (blen (br_dst br), Err (ErrInvalidCid (RAlloc mhl)))
                    else
                      let prefixLength := blen (br_dst br) in
                      let '(got, all) := ReadFull mhl (br_rest br) in
                      if negb all then (prefixLength + blen got, Err (ErrInvalidCid RRead))
                      else
                        let dst := br_dst br ++ got in
                        match mh_MHFromBytes (slice_from mhStart dst) with
                        | None => (blen dst, Err (ErrInvalidCid RMultihash))
                        | Some _ => (blen dst, Ok dst)
                        end
                end
            end
        end
  end.
End Cid.

(** ** What the theorems rely on *)

Definition MaxInt32 : Z := 2 ^ 31 - 1.
Definition multihash (code : Z) (digest : bytes) : bytes := uvarint 10 code ++ uvarint 10 (blen digest) ++ digest.
Definition mh_wf (code : Z) (digest : bytes) : Prop := 0 <= code < 2 ^ 63 /\ blen digest <= MaxInt32.
(** Letters and digits. *)
Definition alnum (c : byte) : bool :=
  let v := byte_val c in ((48 <=? v) && (v <=? 57)) || ((65 <=? v) && (v <=? 90)) || ((97 <=? v) && (v <=? 122)).

(** Varints are minimal and below [2^63] when read; a multihash is its code,
    the length of its digest and the digest; texts in the bases used here are
    letters and digits and read back, and the base58 text of a SHA-256 multihash
    has 46 of them, [Qm] first. *)
Class MultiformatsLaws `{Multiformats} := {
  put_law : forall x, is_u64 x -> PutUvarint x = uvarint 10 x;
  from_law : forall b x n, FromUvarint b = Some (x, n) <->
    0 <= x < 2 ^ 63 /\ n = blen (uvarint 10 x) /\ exists rest, b = uvarint 10 x ++ rest;
  read_law : forall b x n, ReadUvarint b = (n, Some x) <-> FromUvarint b = Some (x, n);
  mhfrom_law : forall b n h, mh_MHFromBytes b = Some (n, h) <->
    n = blen h /\ exists code digest rest, mh_wf code digest /\ h = multihash code digest /\ b = h ++ rest;
  decode_law : forall b code len digest, mh_Decode b = Some (code, len, digest) <->
    mh_wf code digest /\ len = blen digest /\ b = multihash code digest;
  cast_law : forall b h, mh_Cast b = Some h <-> h = b /\ exists code digest, mh_wf code digest /\ b = multihash code digest;
  sum_law : forall data len, len = -1 \/ len = 32 -> mh_Sum data SHA2_256 len = Some (multihash SHA2_256 (sha256 data));
  b58_law : forall digest, length digest = 32%nat -> let s := B58String (multihash SHA2_256 digest) in
    is_v0_text s = true /\ mh_FromB58String s = Some (multihash SHA2_256 digest) /\ forallb alnum s = true;
  base_law : forall e d s, mbase_Encode e d = Some s ->
    mbase_Decode s = Some (e, d) /\ (exists t, s = byte_of_Z e :: t /\ (d <> [] -> t <> [])) /\ mbase_NewEncoder e <> None;
  base32_law : forall d, exists s, mbase_Encode Base32 d = Some s /\ forallb alnum s = true
}.

(** ** Theorems *)

Section Theorems.
Context {MF : Multiformats} {ML : MultiformatsLaws}.

(** *** Varints *)

Lemma cid_uvarint_loop_uvarint fuel i s acc x tl :
  0 <= x < 2 ^ (7 * Z.of_nat fuel) -> s = 7 * i -> 0 <= acc < 2 ^ s -> x * 2 ^ s < 2 ^ 64 ->
  (0 < fuel)%nat -> 0 <= i -> i + Z.of_nat fuel <= 10 -> (0 < i -> 0 < x) ->
  cid_uvarint_loop i s acc (uvarint fuel x ++ tl) = (acc + x * 2 ^ s, i + blen (uvarint fuel x), true).
Proof.
  revert i s acc x. induction fuel as [|fuel IH]; intros i s acc x Hx Hs Ha Hb Hf Hi Hif Hz; [lia|].
  cbn [uvarint]. destruct (Z.leb_spec 128 x); cbn [app cid_uvarint_loop].
  - destruct (uvarint_chunk s acc x) as (-> & -> & Hr & He & Hl & Hp); [lia..|].
    pose proof (shiftr7_bound fuel x Hx) as Hsx. destruct fuel as [|fuel]; [cbn in Hsx; lia|].
    rewrite IH; [|done|lia|done|done|lia|lia|lia|done]. rewrite He, blen_cons. do 2 f_equal. lia.
  - destruct (uvarint_last s acc x) as (-> & E & _); [lia..|]. rewrite E, byte_val_of_Z, Z.mod_small by lia.
    assert (Hc : (9 <? i) || (i =? 9) && (1 <? x) = false).
    { destruct (Z.ltb_spec 9 i); [lia|]. destruct (Z.eqb_spec i 9) as [->|]; [|done]. cbn [orb andb]. apply Z.ltb_ge. subst s. lia. }
    assert (Hm : (x =? 0) && (0 <? i) = false).
    { destruct (Z.eqb_spec x 0); [|done]. cbn. apply Z.ltb_ge. lia. }
    by rewrite Hc, Hm.
Qed.
Lemma cid_uvarint_uvarint x tl : is_u64 x -> cid_uvarint (uvarint 10 x ++ tl) = (x, blen (uvarint 10 x), true).
Proof.
  intros Hx. unfold cid_uvarint. rewrite cid_uvarint_loop_uvarint; [do 2 f_equal; lia|by apply uvarint_fuel|lia|lia|unfold is_u64 in Hx; lia|lia..].
Qed.
Lemma uvarint_inj x y r r' : is_u64 x -> is_u64 y -> uvarint 10 x ++ r = uvarint 10 y ++ r' -> x = y /\ r = r'.
Proof.
  intros Hx Hy E. pose proof (consumeVarint_uvarint x r Hx) as H1. rewrite E, consumeVarint_uvarint in H1 by done.
  apply (f_equal fst) in H1. cbn [fst] in H1. subst y. split; [done|]. by apply app_inv_head in E.
Qed.
Lemma u63_u64 x : 0 <= x < 2 ^ 63 -> is_u64 x.
Proof. unfold is_u64. lia. Qed.
Hint Resolve u63_u64 : core.
Lemma FromUvarint_uvarint x rest : 0 <= x < 2 ^ 63 -> FromUvarint (uvarint 10 x ++ rest) = Some (x, blen (uvarint 10 x)).
Proof. intros Hx. apply from_law. split; [done|]. split; [done|]. by exists rest. Qed.
Lemma ReadUvarint_uvarint x rest : 0 <= x < 2 ^ 63 -> ReadUvarint (uvarint 10 x ++ rest) = (blen (uvarint 10 x), Some x).
Proof. intros Hx. by apply read_law, FromUvarint_uvarint. Qed.
Lemma ReadUvarint_some b n x : ReadUvarint b = (n, Some x) ->
  0 <= x < 2 ^ 63 /\ n = blen (uvarint 10 x) /\ exists rest, b = uvarint 10 x ++ rest.
Proof. intros H. by apply from_law, read_law. Qed.
Lemma ipfs_appendUvarint_uvarint buf x : ipfs_appendUvarint buf x = buf ++ uvarint 10 x.
Proof.
  unfold ipfs_appendUvarint. generalize 10%nat. intros n. revert buf x. induction n as [|n IH]; intros buf x; cbn; [by rewrite app_nil_r|].
  destruct (128 <=? x); [|done]. rewrite IH, <- app_assoc. done.
Qed.

(** *** Bytes *)

(** The CIDs: a SHA-256 multihash, or version 1, a codec and a multihash. *)
Inductive cid_wf : Cid -> Prop :=
| wf_v0 digest : length digest = 32%nat -> cid_wf (multihash SHA2_256 digest)
| wf_v1 codec code digest : 0 <= codec < 2 ^ 63 -> mh_wf code digest ->
    cid_wf (Byte.x01 :: uvarint 10 codec ++ multihash code digest).
Lemma multihash_v0 digest : length digest = 32%nat -> multihash SHA2_256 digest = [Byte.x12; Byte.x20] ++ digest.
Proof. intros Hl. unfold multihash, blen. rewrite Hl. reflexivity. Qed.
Lemma mh_wf_v0 digest : length digest = 32%nat -> mh_wf SHA2_256 digest.
Proof. intros Hl. unfold mh_wf, blen, SHA2_256, MaxInt32. rewrite Hl. lia. Qed.
Lemma NewCidV1_wire codec h : 0 <= codec < 2 ^ 63 -> NewCidV1 codec h = Byte.x01 :: uvarint 10 codec ++ h.
Proof. intros Hc. unfold NewCidV1. by rewrite put_law by auto. Qed.
Lemma multihash_inj code digest code' digest' rest rest' : mh_wf code digest -> mh_wf code' digest' ->
  multihash code digest ++ rest = multihash code' digest' ++ rest' -> code = code' /\ digest = digest' /\ rest = rest'.
Proof.
  intros [Hc Hd] [Hc' Hd'] E. unfold multihash in E. rewrite <- !app_assoc in E. apply uvarint_inj in E as [-> E]; [|by auto..].
  assert (Hu : forall d, blen d <= MaxInt32 -> is_u64 (blen d)) by (unfold is_u64, MaxInt32, blen; lia).
  apply uvarint_inj in E as [El E]; [|by auto..]. apply app_inj_1 in E as [-> ->]; [done|]. unfold blen in El. lia.
Qed.
Lemma uvarint_one : uvarint 10 1 = [Byte.x01].
Proof. reflexivity. Qed.
#[local] Opaque uvarint.
Lemma slice_to_own (a : bytes) b n : n = blen a -> slice_to n (a ++ b) = a.
Proof. intros ->. by apply slice_to_app. Qed.

Lemma CidFromBytes_complete c rest : cid_wf c -> CidFromBytes (c ++ rest) = Ok (blen c, c).
Proof.
  intros [digest Hl|codec code digest Hc Hm].
  - rewrite multihash_v0 by done. unfold CidFromBytes. cbn [app]. rewrite !blen_cons, blen_app. unfold blen at 1. rewrite Hl.
    pose proof (blen_nonneg rest). replace (2 <? 1 + (1 + (Z.of_nat 32 + blen rest))) with true by (symmetry; apply Z.ltb_lt; lia).
    cbn [byte_at nth andb]. change (byte_val Byte.x12 =? SHA2_256) with true. change (byte_val Byte.x20 =? 32) with true. cbn [andb].
    unfold blen at 1. rewrite Hl. replace (1 + (1 + (Z.of_nat 32 + blen rest)) <? 34) with false by (symmetry; apply Z.ltb_ge; lia).
    rewrite (slice_to_own (Byte.x12 :: Byte.x20 :: digest) rest) by (unfold blen; cbn [length]; lia).
    assert (Hcast : mh_Cast (Byte.x12 :: Byte.x20 :: digest) = Some (Byte.x12 :: Byte.x20 :: digest)).
    { apply cast_law. split; [done|]. exists SHA2_256, digest. split; [by apply mh_wf_v0|]. by rewrite multihash_v0. }
    rewrite Hcast. unfold blen. rewrite Hl. done.
  - unfold CidFromBytes. set (data := (Byte.x01 :: _) ++ rest).
    assert (Hd : data = uvarint 10 1 ++ uvarint 10 codec ++ multihash code digest ++ rest) by (unfold data; rewrite uvarint_one; cbn [app]; by rewrite <- !app_assoc).
    assert (H0 : byte_at data 0 = Byte.x01) by done. rewrite H0. change (byte_val Byte.x01 =? SHA2_256) with false.
    rewrite andb_false_r. cbn [andb]. clear H0. rewrite Hd. rewrite FromUvarint_uvarint by lia. cbn [Z.eqb negb].
    rewrite slice_from_app by done. rewrite FromUvarint_uvarint by done.
    rewrite app_assoc. rewrite slice_from_app by (by rewrite blen_app).
    assert (Hmh : mh_MHFromBytes (multihash code digest ++ rest) = Some (blen (multihash code digest), multihash code digest)).
    { apply mhfrom_law. split; [done|]. by exists code, digest, rest. }
    rewrite Hmh. f_equal. rewrite app_assoc. rewrite <- !blen_app. rewrite slice_to_app by done. f_equal; by rewrite <- app_assoc.
Qed.
Lemma CidFromBytes_sound data n c : CidFromBytes data = Ok (n, c) -> cid_wf c /\ n = blen c /\ exists rest, data = c ++ rest.
Proof.
  unfold CidFromBytes. destruct (_ && _ && _) eqn:Ev0.
  - destruct (Z.ltb_spec (blen data) 34); [done|]. destruct (mh_Cast _) as [h|] eqn:Ec; [|done]. intros [= <- <-].
    apply cast_law in Ec as (-> & code & digest & Hm & E). apply andb_true_iff in Ev0 as [[_ E0]%andb_true_iff E1].
    apply Z.eqb_eq in E0, E1.
    assert (Hs : slice_to 34 data = [Byte.x12; Byte.x20] ++ drop 2 (slice_to 34 data)).
    { destruct data as [|x [|y data]]; [done..|]. change (byte_at (x :: y :: data) 0) with x in E0. change (byte_at (x :: y :: data) 1) with y in E1.
      rewrite <- (byte_of_Z_val x), <- (byte_of_Z_val y), E0, E1. done. }
    assert (Hlen : length (drop 2 (slice_to 34 data)) = 32%nat).
    { pose proof (blen_slice_to 34 data ltac:(lia)) as Hb. rewrite length_drop. unfold blen in Hb. lia. }
    split; [|split].
    + rewrite Hs. rewrite <- multihash_v0 by done. by constructor.
    + by rewrite blen_slice_to by lia.
    + exists (slice_from 34 data). unfold slice_to, slice_from. by rewrite take_drop.
  - destruct (FromUvarint data) as [[vers n1]|] eqn:E1; [|done]. apply from_law in E1 as (_ & -> & r1 & ->).
    destruct (Z.eqb_spec vers 1) as [->|]; cbn [negb]; [|done]. rewrite slice_from_app by done.
    destruct (FromUvarint r1) as [[codec n2]|] eqn:E2; [|done]. apply from_law in E2 as (Hc & -> & r2 & ->).
    rewrite app_assoc, slice_from_app by (by rewrite blen_app). destruct (mh_MHFromBytes r2) as [[n3 h]|] eqn:E3; [|done].
    apply mhfrom_law in E3 as (-> & code & digest & r3 & Hm & -> & ->). intros [= <- <-].
    rewrite <- app_assoc, app_assoc, (app_assoc _ _ r3), <- !blen_app. rewrite slice_to_app by done.
    split; [|split; [done|by eexists]]. rewrite uvarint_one, <- app_assoc. by constructor.
Qed.
Lemma Cast_wf c : cid_wf c -> Cast c = Ok c.
Proof.
  intros Hw. unfold Cast. pose proof (CidFromBytes_complete c [] Hw) as E. rewrite app_nil_r in E. by rewrite E, Z.eqb_refl.
Qed.
(** The reader of binary CIDs accepts exactly the data that starts with a well-formed CID and
    returns it with its length; [Cast] accepts exactly the bytes of the well-formed CIDs. *)
Theorem CidFromBytes_iff (data c : bytes) (n : Z) :
  (CidFromBytes data = Ok (n, c) <-> cid_wf c /\ n = blen c /\ exists rest, data = c ++ rest) /\
  (Cast data = Ok c <-> c = data /\ cid_wf c).
Proof.
  split.
  - split; [apply CidFromBytes_sound|]. intros (Hw & -> & rest & ->). by apply CidFromBytes_complete.
  - split.
    + unfold Cast. destruct (CidFromBytes data) as [[nr c']|] eqn:E; [|done]. apply CidFromBytes_sound in E as (Hw & -> & rest & ->).
      destruct (Z.eqb_spec (blen c') (blen (c' ++ rest))) as [El|]; cbn [negb]; [|done]. intros [= <-].
      rewrite blen_app in El. destruct rest; [by rewrite app_nil_r|]. unfold blen in El. cbn in El. lia.
    + intros [-> Hw]. by apply Cast_wf.
Qed.

(** *** Parts *)

Lemma Defined_wf c : cid_wf c -> Bytes c = c.
Proof. intros [digest Hl|]; unfold Bytes, Defined; [by rewrite multihash_v0|done]. Qed.
Lemma Version_v0 digest : length digest = 32%nat -> Version (multihash SHA2_256 digest) = 0.
Proof. intros Hl. rewrite multihash_v0 by done. unfold Version, blen. cbn [app length]. rewrite Hl. done. Qed.
Lemma Version_v1 (r : bytes) : Version (Byte.x01 :: r) = 1.
Proof. unfold Version. cbn [byte_at nth]. change (byte_val Byte.x01 =? 18) with false. by rewrite andb_false_r. Qed.
Lemma v1_split codec r : Byte.x01 :: uvarint 10 codec ++ r = uvarint 10 1 ++ uvarint 10 codec ++ r.
Proof. by rewrite uvarint_one. Qed.
Lemma is_u64_len d : blen d <= MaxInt32 -> is_u64 (blen d).
Proof. unfold is_u64, MaxInt32, blen. lia. Qed.
Lemma one_u64 : is_u64 1.
Proof. unfold is_u64. lia. Qed.

(** The parts of a CID are those it was made of, its prefix survives its own encoding, and the
    multihash and codec of a version 1 CID rebuild it. *)
Theorem cid_parts (c : Cid) : cid_wf c ->
  (forall digest, c = multihash SHA2_256 digest -> length digest = 32%nat ->
     Version c = 0 /\ Type_ c = DagProtobuf /\ Hash c = c /\ Prefix_of c = MkPrefix 0 DagProtobuf SHA2_256 32) /\
  (forall codec code digest, 0 <= codec < 2 ^ 63 -> mh_wf code digest -> c = NewCidV1 codec (multihash code digest) ->
     Version c = 1 /\ Type_ c = codec /\ Hash c = multihash code digest /\ NewCidV1 (Type_ c) (Hash c) = c /\
     Prefix_of c = MkPrefix 1 codec code (blen digest)) /\
  PrefixFromBytes (Prefix_Bytes (Prefix_of c)) = Ok (Prefix_of c).
Proof.
  intros Hw. pose proof (Defined_wf c Hw) as Hb.
  assert (H0 : forall digest, c = multihash SHA2_256 digest -> length digest = 32%nat ->
     Version c = 0 /\ Type_ c = DagProtobuf /\ Hash c = c /\ Prefix_of c = MkPrefix 0 DagProtobuf SHA2_256 32).
  { intros digest -> Hl. unfold Type_, Hash, Prefix_of. rewrite Hb, Version_v0 by done. by split_and!. }
  assert (H1 : forall codec code digest, 0 <= codec < 2 ^ 63 -> mh_wf code digest -> c = NewCidV1 codec (multihash code digest) ->
     Version c = 1 /\ Type_ c = codec /\ Hash c = multihash code digest /\ NewCidV1 (Type_ c) (Hash c) = c /\
     Prefix_of c = MkPrefix 1 codec code (blen digest)).
  { intros codec code digest Hc [Hm Hd] Hcc. rewrite NewCidV1_wire in Hcc by done.
    assert (Hv : Version c = 1) by (subst c; apply Version_v1). rewrite v1_split in Hcc.
    assert (Ht : Type_ c = codec).
    { unfold Type_. rewrite Hv. cbn [Z.eqb]. rewrite Hcc, cid_uvarint_uvarint by apply one_u64. rewrite slice_from_app by done.
      by rewrite cid_uvarint_uvarint by auto. }
    assert (Hh : Hash c = multihash code digest).
    { unfold Hash. rewrite Hb, Hv. cbn [Z.eqb]. rewrite Hcc, FromUvarint_uvarint by lia. cbv beta iota zeta.
      rewrite (slice_from_app (blen (uvarint 10 1))) by done. rewrite FromUvarint_uvarint by done. rewrite app_assoc. by rewrite slice_from_app by (by rewrite blen_app). }
    split_and!; [done|done|done| |].
    - rewrite Ht, Hh, NewCidV1_wire by done. by rewrite Hcc, v1_split.
    - unfold Prefix_of. rewrite Hv. cbn [Z.eqb]. change (slice_from 0 c) with c. rewrite Hcc. unfold multihash.
      rewrite cid_uvarint_uvarint by apply one_u64. rewrite Z.add_0_l, slice_from_app by done.
      rewrite cid_uvarint_uvarint by auto. rewrite (app_assoc (uvarint 10 1)), slice_from_app by (by rewrite blen_app).
      rewrite cid_uvarint_uvarint by auto. rewrite (app_assoc (_ ++ _) (uvarint 10 code)), slice_from_app by (by rewrite !blen_app).
      rewrite cid_uvarint_uvarint by (by apply is_u64_len). f_equal. apply i64_id. unfold is_i64, MaxInt32, blen in *. lia. }
  split; [done|]. split; [done|].
  assert (Hp : exists v cd t l, Prefix_of c = MkPrefix v cd t l /\ 0 <= v < 2 ^ 63 /\ 0 <= cd < 2 ^ 63 /\ 0 <= t < 2 ^ 63 /\ 0 <= l < 2 ^ 63).
  { destruct Hw as [digest Hl|codec code digest Hc [Hm Hd]].
    - destruct (H0 digest eq_refl Hl) as (_ & _ & _ & ->). eexists _, _, _, _. split; [reflexivity|]. unfold DagProtobuf, SHA2_256. lia.
    - destruct (H1 codec code digest Hc (conj Hm Hd)) as (_ & _ & _ & _ & ->); [by rewrite NewCidV1_wire|].
      eexists _, _, _, _. split; [reflexivity|]. unfold MaxInt32, blen in *. lia. }
  destruct Hp as (v & cd & t & l & -> & Hv & Hcd & Ht & Hl). unfold Prefix_Bytes, PrefixFromBytes. cbn [p_Version p_Codec p_MhType p_MhLength].
  rewrite u64_id by auto. rewrite !put_law by auto. unfold next_uvarint. rewrite ReadUvarint_uvarint by done. cbn [rbind].
  rewrite slice_from_app by done. rewrite ReadUvarint_uvarint by done. cbn [rbind]. rewrite slice_from_app by done.
  rewrite ReadUvarint_uvarint by done. cbn [rbind]. rewrite slice_from_app by done.
  rewrite <- (app_nil_r (uvarint 10 l)), ReadUvarint_uvarint by done. cbn [rbind]. do 2 f_equal. apply i64_id. unfold is_i64. lia.
Qed.

(** *** Streams *)

Lemma ReadByte_times_spec n r : (n <= length (br_rest r))%nat ->
  ReadByte_times n r = MkReader (drop n (br_rest r)) (br_dst r ++ take n (br_rest r)).
Proof.
  revert r. induction n as [|n IH]; intros [rest dst] Hn; cbn [ReadByte_times br_rest br_dst] in *; [by rewrite take_0, app_nil_r|].
  destruct rest as [|b rest]; cbn in Hn; [lia|]. rewrite IH by (cbn; lia). cbn. by rewrite <- app_assoc.
Qed.
Lemma br_ReadUvarint_some rest dst br x : br_ReadUvarint (MkReader rest dst) = (br, Some x) ->
  0 <= x < 2 ^ 63 /\ rest = uvarint 10 x ++ br_rest br /\ br_dst br = dst ++ uvarint 10 x.
Proof.
  unfold br_ReadUvarint. cbn [br_rest]. destruct (ReadUvarint rest) as [n o] eqn:E. intros H.
  assert (o = Some x) as -> by congruence. apply ReadUvarint_some in E as (Hx & -> & r & ->). split; [done|].
  apply (f_equal fst) in H. cbn [fst] in H. rewrite ReadByte_times_spec in H.
  - subst br. cbn [br_rest br_dst]. unfold blen. by rewrite Nat2Z.id, drop_app_length, take_app_length.
  - cbn [br_rest]. unfold blen. rewrite Nat2Z.id, length_app. lia.
Qed.
Lemma br_ReadUvarint_ok rest dst x : 0 <= x < 2 ^ 63 ->
  br_ReadUvarint (MkReader (uvarint 10 x ++ rest) dst) = (MkReader rest (dst ++ uvarint 10 x), Some x).
Proof.
  intros Hx. unfold br_ReadUvarint. cbn [br_rest]. rewrite ReadUvarint_uvarint by done. f_equal. rewrite ReadByte_times_spec; cbn [br_rest br_dst].
  - unfold blen. by rewrite Nat2Z.id, drop_app_length, take_app_length.
  - unfold blen. rewrite Nat2Z.id, length_app. lia.
Qed.
Lemma ReadFull_all n rest got : 0 <= n -> ReadFull n rest = (got, true) -> blen got = n /\ exists r, rest = got ++ r.
Proof.
  unfold ReadFull. intros Hn E. apply pair_equal_spec in E as [<- Hl%Z.leb_le]. rewrite Z.min_l by done.
  split; [by apply blen_slice_to|]. exists (slice_from n rest). unfold slice_to, slice_from. by rewrite take_drop.
Qed.
Lemma ReadFull_app a rest : ReadFull (blen a) (a ++ rest) = (a, true).
Proof.
  unfold ReadFull. rewrite blen_app. pose proof (blen_nonneg rest). rewrite Z.min_l by lia. rewrite slice_to_app by done.
  f_equal. apply Z.leb_le. lia.
Qed.
Lemma uvarint_small x : 0 <= x < 128 -> blen (uvarint 10 x) = 1.
Proof. Transparent uvarint. intros Hx. cbn [uvarint]. by rewrite (proj2 (Z.leb_gt 128 x)) by lia. Qed.
#[local] Opaque uvarint.
Lemma v0_of_stream got code digest : blen got = 33 -> mh_wf code digest -> [Byte.x12] ++ got = multihash code digest ->
  cid_wf ([Byte.x12] ++ got).
Proof.
  intros Hg [Hc Hd] E. assert (H18 : [Byte.x12] = uvarint 10 18) by (by vm_compute). unfold multihash in E. rewrite H18 in E.
  apply uvarint_inj in E as [<- E]; [|unfold is_u64; lia|by auto]. pose proof (f_equal blen E) as El. rewrite blen_app, Hg in El.
  pose proof (blen_uvarint_pos (blen digest)). pose proof (blen_nonneg digest). rewrite uvarint_small in El by lia.
  assert (Hl : length digest = 32%nat) by (unfold blen in El; lia). rewrite H18, E. change (uvarint 10 18 ++ uvarint 10 (blen digest) ++ digest) with (multihash SHA2_256 digest).
  by constructor.
Qed.
Lemma CidFromReader_sound data n c : CidFromReader data = (n, Ok c) -> cid_wf c /\ n = blen c /\ exists rest, data = c ++ rest.
Proof.
  unfold CidFromReader, toBufByteReader. destruct (br_ReadUvarint (MkReader data [])) as [br1 [vers|]] eqn:E1; [|by case_match].
  apply br_ReadUvarint_some in E1 as (Hv & -> & Hd1). destruct (Z.eqb_spec vers SHA2_256) as [->|].
  - destruct (ReadFull 33 (br_rest br1)) as [got []] eqn:Er; cbn [negb]; [|done]. apply ReadFull_all in Er as [Hg [r ->]]; [|lia].
    rewrite Hd1. change (uvarint 10 SHA2_256) with (id (uvarint 10 18)). assert (H18 : uvarint 10 18 = [Byte.x12]) by (by vm_compute).
    unfold id. rewrite H18. change (slice_to 1 ([] ++ [Byte.x12])) with [Byte.x12]. destruct (mh_Cast _) as [h|] eqn:Ec; [|done].
    apply cast_law in Ec as (-> & code & digest & Hm & E). intros H. apply pair_equal_spec in H as [<- H]. injection H as <-.
    split; [by eapply v0_of_stream|]. split; [done|]. by exists r.
  - destruct (Z.eqb_spec vers 1) as [->|]; cbn [negb]; [|done]. destruct br1 as [rest1 dst1]. cbn [br_rest br_dst] in *. subst dst1.
    destruct (br_ReadUvarint (MkReader rest1 _)) as [[rest2 dst2] [codec|]] eqn:E2; [|done].
    apply br_ReadUvarint_some in E2 as (Hc & Hr2 & Hd2'). cbn [br_rest br_dst] in *. subst.
    destruct (br_ReadUvarint (MkReader rest2 _)) as [[rest3 dst3] [code|]] eqn:E3; [|done].
    apply br_ReadUvarint_some in E3 as (Hm & Hr3 & Hd3'). cbn [br_rest br_dst] in *. subst.
    destruct (br_ReadUvarint (MkReader rest3 _)) as [[rest4 dst4] [mhl|]] eqn:E4; [|done].
    apply br_ReadUvarint_some in E4 as (Hl & Hr4 & Hd4'). cbn [br_rest br_dst] in *. subst.
    destruct (Z.ltb_spec maxDigestAlloc mhl) as [|Ha]; [done|].
    destruct (ReadFull mhl rest4) as [got []] eqn:Er; cbn [negb]; [|done]. apply ReadFull_all in Er as [Hg [r ->]]; [|lia].
    destruct (mh_MHFromBytes _); [|done]. intros H. apply pair_equal_spec in H as [<- H].
    assert (Hw : mh_wf code got) by (split; [done|]; change MaxInt32 with 2147483647; change maxDigestAlloc with 33554432 in Ha; lia).
    assert (Hx : ((([] ++ uvarint 10 1) ++ uvarint 10 codec) ++ uvarint 10 code) ++ uvarint 10 mhl =
                 uvarint 10 1 ++ uvarint 10 codec ++ uvarint 10 code ++ uvarint 10 mhl) by (cbn [app]; by rewrite <- !app_assoc).
    rewrite Hx in *. injection H as <-. rewrite <- !app_assoc.
    rewrite (app_assoc (uvarint 10 mhl) got r), (app_assoc (uvarint 10 code) _ r). rewrite <- Hg.
    change (uvarint 10 code ++ uvarint 10 (blen got) ++ got) with (multihash code got). split_and!.
    + rewrite uvarint_one. by constructor.
    + done.
    + exists r. by rewrite <- !app_assoc.
Qed.
Lemma CidFromReader_complete c rest : cid_wf c -> blen c <= maxDigestAlloc -> CidFromReader (c ++ rest) = (blen c, Ok c).
Proof.
  intros [digest Hl|codec code digest Hc [Hm Hd]] Ha; unfold CidFromReader, toBufByteReader.
  - assert (H18 : uvarint 10 18 = [Byte.x12]) by (by vm_compute). rewrite multihash_v0 by done.
    change (([Byte.x12; Byte.x20] ++ digest) ++ rest) with ([Byte.x12] ++ (Byte.x20 :: digest) ++ rest). rewrite <- H18.
    rewrite br_ReadUvarint_ok by lia. cbn [Z.eqb SHA2_256 Pos.eqb br_rest br_dst]. assert (H33 : 33 = blen (Byte.x20 :: digest)) by (unfold blen; cbn [length]; lia).
    rewrite H33, ReadFull_app. cbn [negb]. rewrite H18. change (slice_to 1 ([] ++ [Byte.x12]) ++ Byte.x20 :: digest) with ([Byte.x12; Byte.x20] ++ digest).
    rewrite <- multihash_v0 by done. assert (Hcast : mh_Cast (multihash SHA2_256 digest) = Some (multihash SHA2_256 digest)).
    { apply cast_law. split; [done|]. exists SHA2_256, digest. split; [by apply mh_wf_v0|done]. }
    by rewrite Hcast.
  - rewrite v1_split in *. unfold multihash in *. rewrite <- !app_assoc. rewrite br_ReadUvarint_ok by lia.
    change (1 =? SHA2_256) with false. cbn [Z.eqb negb Pos.eqb]. rewrite br_ReadUvarint_ok by done. rewrite br_ReadUvarint_ok by done.
    rewrite br_ReadUvarint_ok by (unfold MaxInt32, blen in *; lia). cbn [br_rest br_dst].
    rewrite !blen_app in Ha. pose proof (blen_nonneg (uvarint 10 1)). pose proof (blen_nonneg (uvarint 10 codec)).
    pose proof (blen_nonneg (uvarint 10 code)). pose proof (blen_nonneg (uvarint 10 (blen digest))).
    rewrite (proj2 (Z.ltb_ge _ _)) by lia. rewrite ReadFull_app. cbn [negb app]. rewrite <- !app_assoc.
    rewrite (app_assoc (uvarint 10 1) (uvarint 10 codec)). rewrite slice_from_app by done.
    assert (Hmh : mh_MHFromBytes (uvarint 10 code ++ uvarint 10 (blen digest) ++ digest) = Some (blen (multihash code digest), multihash code digest)).
    { apply mhfrom_law. split; [done|]. exists code, digest, []. split; [done|]. split; [done|]. by rewrite app_nil_r. }
    by rewrite Hmh.
Qed.
(** C33: Reading a CID from a stream gives what reading it from memory gives, with the same number of bytes,
    up to the limit on the size of digests; what it returns is never something memory refuses. *)
Theorem CidFromReader_equiv (data c : bytes) (n : Z) :
  (CidFromReader data = (n, Ok c) -> CidFromBytes data = Ok (n, c)) /\
  (CidFromBytes data = Ok (n, c) -> n <= maxDigestAlloc -> CidFromReader data = (n, Ok c)).
Proof.
  split.
  - intros (Hw & -> & rest & ->)%CidFromReader_sound. by apply CidFromBytes_complete.
  - intros (Hw & -> & rest & ->)%CidFromBytes_sound Ha. by apply CidFromReader_complete.
Qed.

(** *** Text *)

Lemma alnum_ascii c : alnum c = true -> (byte_val c <? 128) = true /\ print_ascii c = [c] /\ is_ascii c = true /\ c <> "/"%byte.
Proof. destruct c; vm_compute; done. Qed.
Lemma print_alnum s : forallb alnum s = true -> print_string s = [quote] ++ s ++ [quote].
Proof.
  intros Hs. unfold print_string. cbn [app]. do 2 f_equal. induction s as [|c s IH]; [done|]. cbn in Hs.
  apply andb_true_iff in Hs as [Hc Hs]. destruct (alnum_ascii c Hc) as (H1 & H2 & _). cbn [length print_chars print_step]. rewrite H1, H2.
  cbn [app]. by rewrite IH.
Qed.
Lemma alnum_valid s : forallb alnum s = true -> ValidString s = true.
Proof.
  intros Hs. apply utf8_ascii. apply forallb_forall. intros c Hc. rewrite forallb_forall in Hs. by apply alnum_ascii, Hs.
Qed.
Lemma split_at_none sep s : "/"%byte ∈ sep -> "/"%byte ∉ s -> split_at sep s = None.
Proof.
  intros Hsep. induction s as [|c s IH]; intros Hs; cbn [split_at]; destruct (has_prefix sep _) eqn:E.
  - apply has_prefix_true in E as [t E]. symmetry in E. apply app_eq_nil in E as [-> _]. by apply not_elem_of_nil in Hsep.
  - done.
  - apply has_prefix_true in E as [t E]. exfalso. apply Hs. rewrite E. by apply elem_of_app; left.
  - apply not_elem_of_cons in Hs as [_ Hs]. by rewrite IH.
Qed.
Lemma alnum_no_slash s : forallb alnum s = true -> "/"%byte ∉ s.
Proof.
  intros Hs Hin. apply list_elem_of_In in Hin. rewrite forallb_forall in Hs. by destruct (alnum_ascii _ (Hs _ Hin)) as (_ & _ & _ & ?).
Qed.
Lemma tryNewCidV0_ok digest : length digest = 32%nat -> tryNewCidV0 (multihash SHA2_256 digest) = Ok (multihash SHA2_256 digest).
Proof.
  intros Hl. unfold tryNewCidV0. assert (E : mh_Decode (multihash SHA2_256 digest) = Some (SHA2_256, 32, digest)).
  { apply decode_law. split; [by apply mh_wf_v0|]. split; [unfold blen; by rewrite Hl|done]. }
  rewrite E. done.
Qed.
Lemma is_v0_text_head c t : c <> "Q"%byte -> is_v0_text (c :: t) = false.
Proof.
  intros Hc. unfold is_v0_text. destruct (bytes_eqb _ _) eqn:E; [|by rewrite andb_false_r]. apply bytes_eqb_eq in E.
  destruct t as [|d t]; [done|]. change (slice_to 2 (c :: d :: t)) with [c; d] in E. change (str "Qm") with ["Q"%byte; "m"%byte] in E. congruence.
Qed.
Lemma text_v0 digest : length digest = 32%nat -> let c := multihash SHA2_256 digest in exists s,
  Cid_String c = Ok s /\ Decode s = Ok c /\ ExtractEncoding s = Ok Base58BTC /\ forallb alnum s = true /\ s <> [].
Proof.
  intros Hl c. pose proof (b58_law digest Hl) as (H1 & H2 & H3). set (s := B58String (multihash SHA2_256 digest)) in *.
  assert (Hc : Cid_String c = Ok s).
  { unfold Cid_String, Hash. unfold c. rewrite Version_v0 by done. cbn [Z.eqb]. rewrite Defined_wf by (by constructor). done. }
  assert (Hn : (blen s <? 2) = false).
  { unfold is_v0_text in H1. apply andb_true_iff in H1 as [H1%Z.eqb_eq _]. rewrite H1. done. }
  exists s. split; [done|]. unfold Decode, ExtractEncoding. rewrite Hn, H1, H2. rewrite tryNewCidV0_ok by done.
  split_and!; try done. intros E. by rewrite E in Hn.
Qed.
Lemma text_v1 c : cid_wf c -> Version c = 1 -> exists s,
  Cid_String c = Ok s /\ Decode s = Ok c /\ ExtractEncoding s = Ok Base32 /\ forallb alnum s = true /\ s <> [].
Proof.
  intros Hw Hv. destruct (base32_law c) as (s & Es & Ha). destruct (base_law _ _ _ Es) as (Hd & (t & -> & Ht) & He).
  assert (Hn : t <> []) by (apply Ht; intros ->; inversion Hw).
  change (byte_of_Z Base32) with "b"%byte in *. exists ("b"%byte :: t). unfold Cid_String, Decode, ExtractEncoding. rewrite Hv. cbn [Z.eqb].
  rewrite Defined_wf, Es by done. rewrite is_v0_text_head by done. rewrite Hd.
  assert (Hl : (blen ("b"%byte :: t) <? 2) = false).
  { apply Z.ltb_ge. rewrite blen_cons. destruct t; [done|]. rewrite blen_cons. pose proof (blen_nonneg t). lia. }
  rewrite Hl. split; [done|]. split; [by apply Cast_wf|]. split; [|done].
  change (byte_val (byte_at ("b"%byte :: t) 0)) with Base32. by destruct (mbase_NewEncoder Base32).
Qed.
Lemma Version_01 c : Version c = 0 \/ Version c = 1.
Proof. unfold Version. case_match; auto. Qed.
Lemma text_wf c : cid_wf c -> exists s,
  Cid_String c = Ok s /\ Decode s = Ok c /\ ExtractEncoding s = Ok (if Version c =? 0 then Base58BTC else Base32) /\ forallb alnum s = true /\ s <> [].
Proof.
  intros Hw. inversion Hw as [digest Hl E|codec code digest Hc Hm E].
  - rewrite Version_v0 by done. by apply text_v0.
  - rewrite Version_v1. apply text_v1; [by constructor|apply Version_v1].
Qed.

(** The text of a CID reads back, also as a path and inside JSON, and its base is the one it announces; the
    undefined CID is null in JSON. *)
Theorem cid_text_roundtrip (c c0 : Cid) : cid_wf c -> exists s j,
  Cid_String c = Ok s /\ Decode s = Ok c /\ Parse (PString s) = Ok c /\ Parse (PString (str "/ipfs/" ++ s)) = Ok c /\
  ExtractEncoding s = Ok (if Version c =? 0 then Base58BTC else Base32) /\ StringOfBase (if Version c =? 0 then Base58BTC else Base32) c = Ok s /\
  MarshalJSON c = Ok j /\ UnmarshalJSON j c0 = (c, Ok tt) /\
  UnmarshalJSON (str "null") c0 = (Undef, Ok tt) /\ MarshalJSON Undef = Ok (str "null").
Proof.
  intros Hw. destruct (text_wf c Hw) as (s & Hs & Hd & He & Ha & Hne). exists s, (json_print (JObj [(str "/", JStr s)])).
  assert (Hsl : "/"%byte ∉ s) by (by apply alnum_no_slash). assert (Hin : "/"%byte ∈ str "/ipfs/") by (left).
  split_and!; try done.
  - unfold Parse, second_part. by rewrite split_at_none.
  - unfold Parse, second_part. assert (E : split_at (str "/ipfs/") (str "/ipfs/" ++ s) = Some ([], s)) by done.
    rewrite E. by rewrite split_at_none.
  - unfold Cid_String in Hs. unfold StringOfBase. destruct (Version_01 c) as [Hv|Hv]; rewrite Hv in *; cbn [Z.eqb negb] in *; [done|].
    destruct (mbase_Encode Base32 (Bytes c)); [by injection Hs as ->|done].
  - unfold MarshalJSON. assert (Hdf : Defined c = true) by (by inversion Hw as [? Hl|]; subst; unfold Defined; rewrite ?multihash_v0 by done).
    rewrite Hdf. cbn [negb]. rewrite Hs. cbn [rbind]. f_equal. cbn [json_print map Join fst snd]. rewrite (print_alnum s) by done.
    change (print_string (str "/")) with [quote; "/"%byte; quote]. cbn [app]. by rewrite <- app_assoc.
  - unfold UnmarshalJSON. rewrite json_print_parse; [|cbn; by rewrite alnum_valid|cbn; unfold maxNestingDepth; lia].
    assert (Hl : (blen (json_print (JObj [(str "/", JStr s)])) <? 2) = false).
    { apply Z.ltb_ge. cbn [json_print]. rewrite blen_cons, blen_app. pose proof (blen_nonneg (Join (map (fun kv => print_string kv.1 ++ ":"%byte :: json_print kv.2) [(str "/", JStr s)]) ","%byte)).
      unfold blen at 2. cbn [length]. lia. }
    rewrite Hl. unfold mbind at 1, mlift. cbn [guard].
    assert (Hf : (l ← members (JObj [(str "/", JStr s)]); dec_field dec_string (str "/") [] l) = Some s) by done. rewrite Hf.
    assert (Hb : bytes_eqb s [] = false) by (by apply bytes_eqb_neq). unfold mbind. rewrite Hb. cbn [guard]. by rewrite Hd.
Qed.

(** *** Adding a file *)

(** The UnixFS message: type 2 (a file), the content, and its length. *)
Definition unixfs_wire (data : bytes) : bytes :=
  [Byte.x08; Byte.x02; Byte.x12] ++ uvarint 10 (blen data) ++ data ++ [Byte.x18] ++ uvarint 10 (blen data).
Lemma encodeUnixFSFileBlock_wire data :
  encodeUnixFSFileBlock data = [Byte.x0a] ++ uvarint 10 (blen (unixfs_wire data)) ++ unixfs_wire data.
Proof.
  unfold encodeUnixFSFileBlock, appendBytesField, appendVarintField. rewrite !ipfs_appendUvarint_uvarint. cbn [app Z.shiftl Z.lor].
  change (uvarint 10 (Z.lor (Z.shiftl 1 3) 2)) with [Byte.x0a]. change (uvarint 10 (Z.lor (Z.shiftl 1 3) 0)) with [Byte.x08].
  change (uvarint 10 (Z.lor (Z.shiftl 2 3) 2)) with [Byte.x12]. change (uvarint 10 (Z.lor (Z.shiftl 3 3) 0)) with [Byte.x18].
  change (uvarint 10 2) with [Byte.x02]. set (u := _ ++ uvarint 10 (blen data)).
  assert (Hu : u = unixfs_wire data) by (unfold u, unixfs_wire; cbn [app]; by rewrite <- !app_assoc). rewrite Hu. by cbn [app].
Qed.
Lemma block_inj d1 d2 : blen d1 <= DefaultChunkSize -> blen d2 <= DefaultChunkSize ->
  encodeUnixFSFileBlock d1 = encodeUnixFSFileBlock d2 -> d1 = d2.
Proof.
  intros H1 H2. rewrite !encodeUnixFSFileBlock_wire. intros E. apply app_inv_head in E.
  assert (Hb : forall d, blen d <= DefaultChunkSize -> is_u64 (blen d) /\ is_u64 (blen (unixfs_wire d))).
  { intros d Hd. change DefaultChunkSize with 262144 in Hd. pose proof (blen_nonneg d). unfold unixfs_wire. rewrite !blen_app.
    assert (Hl : forall n x, blen (uvarint n x) <= Z.of_nat n).
    { Transparent uvarint. induction n as [|n IH]; intros x; cbn [uvarint]; [done|]. case_match; rewrite blen_cons.
      - specialize (IH (Z.shiftr x 7)). lia.
      - change (blen []) with 0. lia. }
    pose proof (Hl 10%nat (blen d)). pose proof (blen_nonneg (uvarint 10 (blen d))). unfold is_u64.
    change (blen [Byte.x08; Byte.x02; Byte.x12]) with 3. change (blen [Byte.x18]) with 1. lia. }
  destruct (Hb d1 H1), (Hb d2 H2). apply uvarint_inj in E as [_ E]; [|done..]. unfold unixfs_wire in E. apply app_inv_head in E.
  apply uvarint_inj in E as [El E]; [|done..]. apply app_inj_1 in E as [-> _]; [done|]. unfold blen in El. lia.
Qed.
#[local] Opaque uvarint.
Lemma AddBytes_ok data : blen data <= DefaultChunkSize -> AddBytes data = Ok (multihash SHA2_256 (sha256 (encodeUnixFSFileBlock data))).
Proof.
  intros Hl. unfold AddBytes. rewrite (proj2 (Z.ltb_ge _ _) Hl). rewrite sum_law by (by left).
  unfold NewCidV0. by rewrite tryNewCidV0_ok by apply sha256_length.
Qed.
(** Every file of one block gets a well-formed version 0 CID, whose prefix hashes the block to the
    CID itself; larger ones are refused. Two files with the same CID are equal, or their blocks are a SHA-256 collision. *)
Theorem AddBytes_commits (data data' : bytes) :
  (blen data <= DefaultChunkSize -> exists c, AddBytes data = Ok c /\ cid_wf c /\ Version c = 0 /\
     Prefix_Sum (Prefix_of c) (encodeUnixFSFileBlock data) = Ok c) /\
  (DefaultChunkSize < blen data -> AddBytes data = Err (ErrTooLarge (blen data))) /\
  (forall c, AddBytes data = Ok c -> AddBytes data' = Ok c -> data = data' \/
     encodeUnixFSFileBlock data <> encodeUnixFSFileBlock data' /\
     sha256 (encodeUnixFSFileBlock data) = sha256 (encodeUnixFSFileBlock data')).
Proof.
  split; [|split].
  - intros Hl. eexists. split; [by apply AddBytes_ok|]. assert (H32 := sha256_length (encodeUnixFSFileBlock data)).
    split; [by constructor|]. split; [by apply Version_v0|]. unfold Prefix_of. rewrite Version_v0 by done.
    unfold Prefix_Sum. cbn [Z.eqb p_MhType p_MhLength p_Version SHA2_256 IDENTITY Pos.eqb negb orb andb]. rewrite (sum_law _ 32) by (by right).
    unfold NewCidV0. by rewrite tryNewCidV0_ok.
  - intros Hl. unfold AddBytes. by rewrite (proj2 (Z.ltb_lt _ _) Hl).
  - intros c E1 E2. unfold AddBytes in E1, E2. destruct (Z.ltb_spec DefaultChunkSize (blen data)) as [|L1]; [done|].
    destruct (Z.ltb_spec DefaultChunkSize (blen data')) as [|L2]; [done|].
    pose proof (AddBytes_ok data L1) as A1. pose proof (AddBytes_ok data' L2) as A2.
    unfold AddBytes in A1, A2. rewrite (proj2 (Z.ltb_ge _ _) L1) in A1. rewrite (proj2 (Z.ltb_ge _ _) L2) in A2.
    rewrite A1 in E1. rewrite A2 in E2. rewrite <- E2 in E1. apply (f_equal (fun r => match r with Ok x => x | Err _ => [] end)) in E1.
    rewrite <- (app_nil_r (multihash _ _)), <- (app_nil_r (multihash _ (sha256 (encodeUnixFSFileBlock data')))) in E1.
    apply multihash_inj in E1 as (_ & E1 & _); [|apply mh_wf_v0, sha256_length..].
    destruct (decide (encodeUnixFSFileBlock data = encodeUnixFSFileBlock data')) as [Eb|Nb]; [left; by apply block_inj|by right].
Qed.
End Theorems.

(** ** The formats, for the witnesses *)

Definition toy_FromUvarint (b : bytes) : option (Z * Z) :=
  let '(x, _, ok) := cid_uvarint b in
  if ok && (0 <=? x) && (x <? 2 ^ 63) && has_prefix (uvarint 10 x) b then Some (x, blen (uvarint 10 x)) else None.
(** Code, digest and what follows a multihash. *)
Definition toy_multihash (b : bytes) : option (Z * bytes * bytes) :=
  match toy_FromUvarint b with
  | None => None
  | Some (code, n) =>
      match toy_FromUvarint (slice_from n b) with
      | None => None
      | Some (len, m) =>
          let rest := slice_from m (slice_from n b) in
          if (len <=? MaxInt32) && (len <=? blen rest) then Some (code, slice_to len rest, slice_from len rest) else None
      end
  end.
Definition b58_alphabet : bytes := str "123456789ABCDEFGHJKLMNPQRSTUVWXYZabcdefghijkmnopqrstuvwxyz".
Definition b58_char (d : Z) : byte := byte_at b58_alphabet (Z.to_nat d).
Fixpoint index_of (c : byte) (i : Z) (l : bytes) : option Z :=
  match l with [] => None | x :: l' => if bool_decide (x = c) then Some i else index_of c (i + 1) l' end.
Fixpoint b58_digits (k : nat) (n : Z) : list Z :=
  match k with O => [] | S k' => b58_digits k' (n / 58) ++ [n mod 58] end.
(** Text of 46 characters, enough for the multihashes of 34 bytes. *)
Definition b58_encode (h : bytes) : bytes := map b58_char (b58_digits 46 (be_get h)).
Definition b58_decode (s : bytes) : option bytes :=
  ds ← mapM (fun c => index_of c 0 b58_alphabet) s; Some (be_put 34 (foldl (fun a d => a * 58 + d) 0 ds)).
#[export] Instance ToyFormats : Multiformats := {|
  mh_Decode b := match toy_multihash b with Some (code, digest, []) => Some (code, blen digest, digest) | _ => None end;
  mh_Cast b := match toy_multihash b with Some (_, _, []) => Some b | _ => None end;
  mh_MHFromBytes b := match toy_multihash b with
                      | Some (code, digest, _) => Some (blen (multihash code digest), multihash code digest)
                      | None => None
                      end;
  mh_Sum data code len := if (code =? SHA2_256) && ((len =? -1) || (len =? 32)) then Some (multihash SHA2_256 (sha256 data)) else None;
  mh_FromB58String := b58_decode;
  B58String := b58_encode;
  mbase_Encode e d := if e =? Base32 then Some ("b"%byte :: hex_encode d) else None;
  mbase_Decode s := match s with
                    | c :: t => if bool_decide (c = "b"%byte) then d ← hex_decode t; Some (Base32, d) else None
                    | [] => None
                    end;
  mbase_NewEncoder e := if e =? Base32 then Some hex_encode else None;
  FromUvarint := toy_FromUvarint;
  PutUvarint x := uvarint 10 x;
  ReadUvarint b := match toy_FromUvarint b with Some (x, n) => (n, Some x) | None => (Z.min 10 (blen b), None) end
|}.

Lemma toy_from_law b x n : toy_FromUvarint b = Some (x, n) <->
  0 <= x < 2 ^ 63 /\ n = blen (uvarint 10 x) /\ exists rest, b = uvarint 10 x ++ rest.
Proof.
  unfold toy_FromUvarint. split.
  - destruct (cid_uvarint b) as [[y m] ok]. destruct (ok && _ && _ && _) eqn:E; [|done]. intros H.
    assert (y = x) as -> by (apply (f_equal (fun o => match o with Some p => p.1 | None => 0 end)) in H; exact H).
    assert (n = blen (uvarint 10 x)) as -> by (apply (f_equal (fun o => match o with Some p => p.2 | None => 0 end)) in H; exact (eq_sym H)).
    apply andb_true_iff in E as [[[_ E1]%andb_true_iff E2]%andb_true_iff E3]. apply Z.leb_le in E1. apply Z.ltb_lt in E2.
    split; [done|]. split; [done|]. by apply has_prefix_true.
  - intros (Hx & -> & rest & ->). rewrite cid_uvarint_uvarint by (unfold is_u64; lia). rewrite has_prefix_app.
    by rewrite (proj2 (Z.leb_le _ _)), (proj2 (Z.ltb_lt _ _)) by lia.
Qed.
Lemma toy_multihash_law b code digest rest : toy_multihash b = Some (code, digest, rest) <->
  mh_wf code digest /\ b = multihash code digest ++ rest.
Proof.
  unfold toy_multihash, mh_wf, multihash. split.
  - destruct (toy_FromUvarint b) as [[c n]|] eqn:E1; [|done]. apply toy_from_law in E1 as (Hc & -> & r & ->).
    rewrite slice_from_app by done. destruct (toy_FromUvarint r) as [[l m]|] eqn:E2; [|done]. apply toy_from_law in E2 as (Hl & -> & r' & ->).
    rewrite slice_from_app by done. destruct (_ && _) eqn:E; [|done]. apply andb_true_iff in E as [E3 E4]. apply Z.leb_le in E3, E4.
    intros H. injection H as -> <- <-. rewrite blen_slice_to by lia. split; [done|]. rewrite <- !app_assoc. do 2 f_equal.
    unfold slice_to, slice_from. by rewrite take_drop.
  - intros [[Hc Hd] ->]. rewrite <- !app_assoc. assert (Hl : 0 <= blen digest < 2 ^ 63) by (unfold MaxInt32, blen in *; lia).
    assert (E1 : toy_FromUvarint (uvarint 10 code ++ uvarint 10 (blen digest) ++ digest ++ rest) = Some (code, blen (uvarint 10 code)))
      by (apply toy_from_law; split; [done|]; split; [done|by eexists]).
    rewrite E1, slice_from_app by done.
    assert (E2 : toy_FromUvarint (uvarint 10 (blen digest) ++ digest ++ rest) = Some (blen digest, blen (uvarint 10 (blen digest))))
      by (apply toy_from_law; split; [done|]; split; [done|by eexists]).
    rewrite E2, slice_from_app by done. rewrite blen_app. pose proof (blen_nonneg rest).
    rewrite !(proj2 (Z.leb_le _ _)) by lia. cbn [andb]. by rewrite slice_to_app, slice_from_app by done.
Qed.
Lemma b58_char_ok d : 0 <= d < 58 -> alnum (b58_char d) = true /\ index_of (b58_char d) 0 b58_alphabet = Some d.
Proof.
  intros Hd. assert (H : forallb (fun i => let d := Z.of_nat i in alnum (b58_char d) && bool_decide (index_of (b58_char d) 0 b58_alphabet = Some d)) (seq 0 58) = true)
    by (by vm_compute).
  rewrite forallb_forall in H. specialize (H (Z.to_nat d) ltac:(apply in_seq; lia)). cbv zeta in H. rewrite Z2Nat.id in H by lia.
  apply andb_true_iff in H as [H1 H2]. apply bool_decide_eq_true in H2. done.
Qed.
Lemma b58_digits_range k n : Forall (fun d => 0 <= d < 58) (b58_digits k n).
Proof.
  revert n. induction k as [|k IH]; intros n; cbn; [constructor|]. apply Forall_app. split; [apply IH|]. constructor; [|constructor].
  by apply Z.mod_pos_bound.
Qed.
Lemma b58_value k n : 0 <= n -> foldl (fun a d => a * 58 + d) 0 (b58_digits k n) = n mod 58 ^ Z.of_nat k.
Proof.
  revert n. induction k as [|k IH]; intros n Hn; cbn [b58_digits]; [by rewrite Z.mod_1_r|]. rewrite foldl_app. cbn [foldl].
  rewrite IH by (apply Z.div_pos; lia). rewrite Nat2Z.inj_succ, Z.pow_succ_r by lia.
  rewrite Z.rem_mul_r by lia. lia.
Qed.
Lemma b58_digits_add j k n : 0 <= n -> b58_digits (j + k) n = b58_digits j (n / 58 ^ Z.of_nat k) ++ b58_digits k (n mod 58 ^ Z.of_nat k).
Proof.
  revert n. induction k as [|k IH]; intros n Hn.
  - cbn [b58_digits]. by rewrite Nat.add_0_r, Z.div_1_r, app_nil_r.
  - rewrite Nat.add_succ_r. cbn [b58_digits]. assert (Hp : 0 < 58 ^ Z.of_nat k) by (apply Z.pow_pos_nonneg; lia).
    rewrite IH by (apply Z.div_pos; lia). rewrite Nat2Z.inj_succ, Z.pow_succ_r by lia. rewrite <- app_assoc. rewrite Z.div_div by lia. f_equal.
    rewrite Z.rem_mul_r by lia. f_equal; [f_equal|f_equal].
    + rewrite (Z.mul_comm 58), Z.div_add by lia. rewrite (Z.div_small (n mod 58)) by (apply Z.mod_pos_bound; lia). lia.
    + rewrite (Z.mul_comm 58), Z.mod_add by lia. by rewrite Z.mod_mod by lia.
Qed.
(** All SHA-256 multihashes have the same first two digits. *)
Lemma b58_v0 digest : length digest = 32%nat ->
  is_v0_text (b58_encode (multihash SHA2_256 digest)) = true /\
  b58_decode (b58_encode (multihash SHA2_256 digest)) = Some (multihash SHA2_256 digest) /\
  forallb alnum (b58_encode (multihash SHA2_256 digest)) = true.
Proof.
  intros Hl. rewrite multihash_v0 by done. set (h := [Byte.x12; Byte.x20] ++ digest). set (n := be_get h).
  assert (Hn : 4640 * 256 ^ 32 <= n < 4641 * 256 ^ 32).
  { unfold n, h. cbn [app]. rewrite !be_get_cons. cbn [length]. rewrite Hl. pose proof (be_get_range digest) as Hr. rewrite Hl in Hr.
    change (byte_val Byte.x12) with 18. change (byte_val Byte.x20) with 32. change (Z.of_nat 33) with 33. change (Z.of_nat 32) with 32 in *.
    change (256 ^ 33) with (256 * 256 ^ 32). lia. }
  split; [|split].
  - unfold b58_encode. fold n. change 46%nat with (2 + 44)%nat. rewrite b58_digits_add by lia.
    assert (Hq : n / 58 ^ Z.of_nat 44 = 1378).
    { symmetry. apply (Z.div_unique_pos _ _ _ (n - 1378 * 58 ^ Z.of_nat 44)); [|lia].
      assert (H1 : 1378 * 58 ^ Z.of_nat 44 <= 4640 * 256 ^ 32) by (by vm_compute). assert (H2 : 4641 * 256 ^ 32 <= 1379 * 58 ^ Z.of_nat 44) by (by vm_compute). lia. }
    rewrite Hq. assert (Hlen : forall k m, length (b58_digits k m) = k) by (induction k; intros; cbn; [done|]; rewrite length_app, IHk; cbn; lia).
    rewrite map_app. set (t := map b58_char (b58_digits 44 _)). assert (Ht : length t = 44%nat) by (unfold t; by rewrite length_map, Hlen).
    change (map b58_char (b58_digits 2 1378)) with (str "Qm"). unfold is_v0_text, blen. rewrite length_app, Ht. done.
  - unfold b58_decode, b58_encode. fold n. pose proof (b58_digits_range 46 n) as Hf. pose proof (b58_value 46 n ltac:(lia)) as Hv.
    assert (Hm : mapM (fun c => index_of c 0 b58_alphabet) (map b58_char (b58_digits 46 n)) = Some (b58_digits 46 n)).
    { apply mapM_Some_2. clear Hv. induction Hf as [|d ds Hd Hf IH]; [constructor|]. constructor; [by apply b58_char_ok|done]. }
    rewrite Hm. cbn [base.mbind option_bind]. f_equal. rewrite Hv, Z.mod_small.
    + change 34%nat with (2 + 32)%nat. rewrite <- Hl. change (2 + length digest)%nat with (length h). apply be_put_get.
    + assert (H2 : 4641 * 256 ^ 32 <= 58 ^ Z.of_nat 46) by (by vm_compute). lia.
  - unfold b58_encode. apply forallb_forall. intros c (d & <- & Hd)%in_map_iff. apply b58_char_ok.
    pose proof (b58_digits_range 46 (be_get h)) as Hf. rewrite Forall_forall in Hf. apply Hf. by apply list_elem_of_In.
Qed.
Lemma alnum_hex d : forallb alnum (hex_encode d) = true.
Proof. induction d as [|c d IH]; [done|]. unfold hex_encode in *. cbn. rewrite IH. destruct c; vm_compute; done. Qed.
#[export] Instance ToyFormatsLaws : MultiformatsLaws.
Proof.
  split; cbn [mh_Decode mh_Cast mh_MHFromBytes mh_Sum mh_FromB58String B58String mbase_Encode mbase_Decode mbase_NewEncoder FromUvarint PutUvarint
    ReadUvarint ToyFormats].
  - done.
  - apply toy_from_law.
  - intros b x n. destruct (toy_FromUvarint b) as [[y m]|]; split; intros H; [congruence|congruence|done|done].
  - intros b n h. split.
    + destruct (toy_multihash b) as [[[code digest] rest]|] eqn:E; [|done]. apply toy_multihash_law in E as [Hw ->]. intros H.
      assert (h = multihash code digest /\ n = blen (multihash code digest)) as [-> ->].
      { apply (f_equal (fun o => match o with Some p => p | None => (0, []) end)) in H. apply pair_equal_spec in H as [<- <-]. done. }
      split; [done|]. by exists code, digest, rest.
    + intros (-> & code & digest & rest & Hw & -> & ->). assert (E : toy_multihash (multihash code digest ++ rest) = Some (code, digest, rest)) by (by apply toy_multihash_law).
      by rewrite E.
  - intros b code len digest. split.
    + destruct (toy_multihash b) as [[[c d] [|? ?]]|] eqn:E; [|done..]. apply toy_multihash_law in E as [Hw ->]. intros [= -> <- ->].
      rewrite app_nil_r. done.
    + intros (Hw & -> & ->). assert (E : toy_multihash (multihash code digest) = Some (code, digest, [])).
      { apply toy_multihash_law. by rewrite app_nil_r. } by rewrite E.
  - intros b h. split.
    + destruct (toy_multihash b) as [[[c d] [|? ?]]|] eqn:E; [|done..]. apply toy_multihash_law in E as [Hw E]. intros [= <-].
      rewrite app_nil_r in E. split; [done|]. by exists c, d.
    + intros (-> & code & digest & Hw & ->). assert (E : toy_multihash (multihash code digest) = Some (code, digest, [])).
      { apply toy_multihash_law. by rewrite app_nil_r. } by rewrite E.
  - intros data len [-> | ->]; done.
  - intros digest Hl. by apply b58_v0.
  - intros e d s. destruct (Z.eqb_spec e Base32) as [->|]; [|done]. intros [= <-]. rewrite bool_decide_true by done. rewrite hex_decode_encode.
    split; [done|]. split; [|done]. exists (hex_encode d). split; [done|]. by destruct d.
  - intros d. exists ("b"%byte :: hex_encode d). split; [done|]. cbn [forallb]. by rewrite alnum_hex.
Qed.

(** *** Vectors of [add_test.go], and witnesses *)

Example add_empty : AddBytesString [] = Ok (str "QmaRwA91m9Rdfaq9u3FH1fdMVxw1wFPjKL38czkWMxh3KB").
Proof. vm_refl. Qed.
Example add_hello : AddBytesString (str "hello") = Ok (str "QmWfVY9y3xjsixTgbd9AorQxH7VtMpzfx2HaWtsoUYecaX").
Proof. vm_refl. Qed.

Definition w_hello : Cid := match AddBytes (str "hello") with Ok c => c | Err _ => [] end.
Lemma w_hello_wf : cid_wf w_hello.
Proof.
  assert (E : w_hello = multihash SHA2_256 (sha256 (encodeUnixFSFileBlock (str "hello")))) by vm_refl. rewrite E.
  constructor. apply sha256_length.
Defined.
Definition w_raw : Cid := NewCidV1 Raw (multihash SHA2_256 (sha256 (str "TEST"))).
Lemma w_raw_wf : cid_wf w_raw.
Proof. apply (wf_v1 Raw SHA2_256 (sha256 (str "TEST"))); [by vm_compute|]. split; by vm_compute. Defined.

Lemma cid_text_roundtrip_witness : exists s, Cid_String w_raw = Ok s /\ Parse (PString (str "/ipfs/" ++ s)) = Ok w_raw.
Proof.
  destruct (cid_text_roundtrip w_raw Undef w_raw_wf) as (s & j & H1 & _ & _ & H2 & _). by exists s.
Defined.
Lemma cid_parts_witness : Type_ w_hello = DagProtobuf /\ Prefix_of w_hello = MkPrefix 0 DagProtobuf SHA2_256 32.
Proof.
  destruct (cid_parts w_hello w_hello_wf) as (H & _ & _).
  destruct (H (sha256 (encodeUnixFSFileBlock (str "hello")))) as (_ & H1 & _ & H2); [vm_refl|apply sha256_length|]. by split.
Defined.
Lemma CidFromReader_equiv_witness : CidFromReader (w_hello ++ [Byte.x00]) = (34, Ok w_hello) /\
  CidFromBytes (w_hello ++ [Byte.x00]) = Ok (34, w_hello).
Proof.
  assert (H : CidFromReader (w_hello ++ [Byte.x00]) = (34, Ok w_hello)) by vm_refl.
  split; [exact H|]. exact (proj1 (CidFromReader_equiv (w_hello ++ [Byte.x00]) w_hello 34) H).
Defined.
Lemma AddBytes_commits_witness : exists c, AddBytes (str "hello") = Ok c /\ Version c = 0.
Proof.
  destruct (AddBytes_commits (str "hello") []) as (H & _ & _). destruct H as (c & H1 & _ & H2 & _); [by vm_compute|]. by exists c.
Defined.
(** No multihash is asked for: the CID is made, and cannot be read. *)
Example newcidv1_unchecked : NewCidV1 Raw [] = [Byte.x01; Byte.x55] /\ Cast (NewCidV1 Raw []) = Err (ErrInvalidCid (RNested (ErrInvalidCid RMultihash))).
Proof. split; vm_refl. Qed.
