(* ===== verification/FeeShareQuery.v ===== *)
(** * x/feeshare: listings, export, messages, queries

    The parts of [x/feeshare] around the registry of [FeeShare]: iteration and
    export of genesis, the stateless checks of the messages, the query server,
    the ante decorator and the migration of the parameters. The pagination of
    the SDK is a parameter. *)

From S2P Require Import Prelude KVStore Sdk FeeShare.
Open Scope go_scope.

(** ** Definitions *)

Section Operations.
Context {B : Type} `{!Sdk B} `{!FsSdk B} {CoinsOps : SdkCoins} {DecOps : SdkDec}.
Abbreviation M A := (meth store fs_err A).

(** *** Listings: [keeper/feeshare.go], [genesis.go] *)

Fixpoint unmarshal_all (l : list (bytes * bytes)) : result fs_err (list FeeShare) :=
  match l with
  | [] => Ok []
  | (_, value) :: l' =>
      try! feeshare <- fs_opt (UnmarshalFeeShare value) FsPanic;
      try! rest <- unmarshal_all l';
      Ok (feeshare :: rest)
  end.
Definition GetFeeShares (m : store) : result fs_err (list FeeShare) := unmarshal_all (IteratePrefix m KeyPrefixFeeShare).
(** The callback changes a state of its own and may stop the walk. *)
Fixpoint iterate_shares {S : Type} (handlerFn : FeeShare -> S -> S * bool) (l : list (bytes * bytes)) (s : S) : S * result fs_err unit :=
  match l with
  | [] => (s, Ok tt)
  | (_, value) :: l' =>
      match UnmarshalFeeShare value with
      | None => (s, Err FsPanic)
      | Some feeshare => let '(s, stop) := handlerFn feeshare s in if stop then (s, Ok tt) else iterate_shares handlerFn l' s
      end
  end.
Definition IterateFeeShares {S : Type} (m : store) (handlerFn : FeeShare -> S -> S * bool) (s : S) : S * result fs_err unit :=
  iterate_shares handlerFn (IteratePrefix m KeyPrefixFeeShare) s.
Definition fs_ExportGenesis (m : store) : result fs_err FsGenesis :=
  try! params <- fs_GetParams m;
  try! shares <- GetFeeShares m;
  Ok (MkFsGenesis params shares).

(** *** Messages: [types/msg.go] *)

Record MsgRegisterFeeShare := MkMsgRegister { mr_ContractAddress : bytes; mr_DeployerAddress : bytes; mr_WithdrawerAddress : bytes }.
Record MsgCancelFeeShare := MkMsgCancel { mc_ContractAddress : bytes; mc_DeployerAddress : bytes }.
Record MsgUpdateFeeShare := MkMsgUpdate { mu_ContractAddress : bytes; mu_DeployerAddress : bytes; mu_WithdrawerAddress : bytes }.
(** [None] is the nil withdrawer. *)
Definition NewMsgRegisterFeeShare (contract deployer : bytes) (withdrawer : option bytes) : MsgRegisterFeeShare :=
  let withdrawerAddress := match withdrawer with Some w => AccAddress_String w | None => [] end in
  MkMsgRegister (AccAddress_String contract) (AccAddress_String deployer) withdrawerAddress.
Definition NewMsgCancelFeeShare (contract deployer : bytes) : MsgCancelFeeShare :=
  MkMsgCancel (AccAddress_String contract) (AccAddress_String deployer).
Definition NewMsgUpdateFeeShare (contract deployer withdraw : bytes) : MsgUpdateFeeShare :=
  MkMsgUpdate (AccAddress_String contract) (AccAddress_String deployer) (AccAddress_String withdraw).
Definition MsgRegister_ValidateBasic (msg : MsgRegisterFeeShare) : result fs_err unit :=
  check! fs_opt (AccAddressFromBech32 (mr_DeployerAddress msg)) FsInvalidAddress;
  check! fs_opt (AccAddressFromBech32 (mr_ContractAddress msg)) FsInvalidAddress;
  if negb (bytes_eqb (mr_WithdrawerAddress msg) []) then
    check! fs_opt (AccAddressFromBech32 (mr_WithdrawerAddress msg)) FsInvalidAddress; Ok tt
  else Ok tt.
Definition MsgCancel_ValidateBasic (msg : MsgCancelFeeShare) : result fs_err unit :=
  check! fs_opt (AccAddressFromBech32 (mc_DeployerAddress msg)) FsInvalidAddress;
  check! fs_opt (AccAddressFromBech32 (mc_ContractAddress msg)) FsInvalidAddress; Ok tt.
Definition MsgUpdate_ValidateBasic (msg : MsgUpdateFeeShare) : result fs_err unit :=
  check! fs_opt (AccAddressFromBech32 (mu_DeployerAddress msg)) FsInvalidAddress;
  check! fs_opt (AccAddressFromBech32 (mu_ContractAddress msg)) FsInvalidAddress;
  check! fs_opt (AccAddressFromBech32 (mu_WithdrawerAddress msg)) FsInvalidAddress; Ok tt.
Definition fs_MsgUpdateParams_ValidateBasic (Authority : bytes) (p : FsParams) : result fs_err unit :=
  check! fs_opt (AccAddressFromBech32 Authority) FsInvalidAddress;
  guard (negb (FsParams_Validate p)) FsInvalidParams.
(** An address that does not parse is the nil signer. *)
Definition signer_of (DeployerAddr : bytes) : list bytes := [default [] (AccAddressFromBech32 DeployerAddr)].

(** *** Queries: [types/keys.go], [types/query.go], [keeper/grpc_query.go] *)

Definition GetKeyPrefixDeployer (deployerAddress : bytes) : bytes := KeyPrefixDeployer ++ deployerAddress.
Definition GetKeyPrefixWithdrawer (withdrawerAddress : bytes) : bytes := KeyPrefixWithdrawer ++ withdrawerAddress.
Inductive query_status := InvalidArgument | NotFound | Internal | QueryPanic.
Definition Query_ValidateBasic (address : bytes) : result fs_err unit :=
  check! fs_opt (AccAddressFromBech32 address) FsInvalidAddress; Ok tt.
(** The entries of [prefix.NewStore(store, p)], without the prefix. *)
Definition prefix_entries (m : store) (p : bytes) : list (bytes * bytes) :=
  (fun kv : bytes * bytes => (drop (length p) kv.1, kv.2)) <$> IteratePrefix m p.

(** [query.Paginate] with its page request: the entries it hands to the
    callback and the page response. *)
Context {P : Type} (Paginate : list (bytes * bytes) -> option (list (bytes * bytes) * P)).
Definition FeeShares (m : store) : result query_status (list FeeShare * P) :=
  match Paginate (prefix_entries m KeyPrefixFeeShare) with
  | None => Err Internal
  | Some (page, pageRes) =>
      match unmarshal_all page with
      | Err _ => Err Internal
      | Ok feeshares => Ok (feeshares, pageRes)
      end
  end.
Definition query_FeeShare (m : store) (ContractAddr : bytes) : result query_status FeeShare :=
  match AccAddressFromBech32 ContractAddr with
  | None => Err InvalidArgument
  | Some contract =>
      match GetFeeShare m contract with
      | Err _ => Err QueryPanic
      | Ok None => Err NotFound
      | Ok (Some feeshare) => Ok feeshare
      end
  end.
Definition query_Params (m : store) : result query_status FsParams :=
  match fs_GetParams m with Ok params => Ok params | Err _ => Err QueryPanic end.
Definition list_contracts (m : store) (prefix : bytes) : result query_status (list bytes * P) :=
  match Paginate (prefix_entries m prefix) with
  | None => Err Internal
  | Some (page, pageRes) => Ok (map (fun kv => AccAddress_String kv.1) page, pageRes)
  end.
Definition DeployerFeeShares (m : store) (DeployerAddr : bytes) : result query_status (list bytes * P) :=
  match AccAddressFromBech32 DeployerAddr with
  | None => Err InvalidArgument
  | Some deployer => list_contracts m (GetKeyPrefixDeployer deployer)
  end.
Definition WithdrawerFeeShares (m : store) (WithdrawerAddr : bytes) : result query_status (list bytes * P) :=
  match AccAddressFromBech32 WithdrawerAddr with
  | None => Err InvalidArgument
  | Some withdrawer => list_contracts m (GetKeyPrefixWithdrawer withdrawer)
  end.

(** *** The decorator and the migration: [ante/ante.go], [migrations/v2] *)

Inductive ante_err := ErrTxDecode | ErrInsufficientFunds (e : fs_err).
(** [None] is a transaction without fees; [next] is the rest of the ante chain. *)
Definition Payout_AnteHandle {R : Type} (m : store) (feeTx : option Coins) (msgs : list fs_msg)
    (next : B -> B * result ante_err R) (b : B) : B * result ante_err R :=
  match feeTx with
  | None => (b, Err ErrTxDecode)
  | Some fee =>
      match FeeSharePayout m fee msgs b with
      | (b', Err e) => (b', Err (ErrInsufficientFunds e))
      | (b', Ok _) => next b'
      end
  end.
(** [legacy] is the parameter set of the legacy subspace. *)
Definition Migrate (legacy : FsParams) : M unit :=
  exec! mlift (guard (negb (FsParams_Validate legacy)) FsInvalidParams);
  mput (store_Set fs_ParamsKey (MarshalFsParams legacy)).
End Operations.

(** ** Theorems *)

Section Theorems.
Context {B : Type} `{!Sdk B} `{!AddressLaws B} `{!FsSdk B} `{!FsLaws B} {CoinsOps : SdkCoins} {DecOps : SdkDec}.

(** The entries under a prefix, as keys. *)
Lemma elem_of_prefix_entries m p k v : (k, v) ∈ prefix_entries m p <-> m !! (p ++ k) = Some v.
Proof.
  unfold prefix_entries. rewrite list_elem_of_fmap. split.
  - intros ([k' v'] & [= -> ->] & Hin). apply elem_of_IteratePrefix in Hin as [Hm Hp]. apply has_prefix_true in Hp as [t ->].
    cbn in *. by rewrite drop_app_length.
  - intros Hm. exists (p ++ k, v). cbn. rewrite drop_app_length. split; [done|]. apply elem_of_IteratePrefix. split; [done|apply has_prefix_app].
Qed.
Lemma NoDup_prefix_entries m p : NoDup (prefix_entries m p).*1.
Proof.
  unfold prefix_entries. rewrite <- list_fmap_compose. pose proof (NoDup_IteratePrefix m p) as Hn.
  assert (Hp : Forall (fun kv => has_prefix p kv.1 = true) (IteratePrefix m p)).
  { apply Forall_forall. intros [k v] [_ Hk]%elem_of_IteratePrefix. done. }
  revert Hn Hp. generalize (IteratePrefix m p). induction l as [|[k v] l IH]; [constructor|]. rewrite !fmap_cons.
  intros [Hni Hn]%NoDup_cons [Hk Hp]%Forall_cons. constructor; [|by apply IH]. cbn in *.
  intros ([k' v'] & Hd & Hin)%list_elem_of_fmap. cbn in Hd. rewrite Forall_forall in Hp. specialize (Hp _ Hin). cbn in Hp.
  apply has_prefix_true in Hk as [t ->]. apply has_prefix_true in Hp as [t' ->]. rewrite !drop_app_length in Hd. subst t'.
  apply Hni. by apply list_elem_of_fmap; exists (p ++ t, v').
Qed.

(** *** Listings *)

Lemma unmarshal_all_rel (l : list (bytes * bytes)) (R : gmap bytes FeeShare) :
  (forall k v, (k, v) ∈ l -> exists f, v = MarshalFeeShare f) ->
  exists shares, unmarshal_all l = Ok shares /\ map MarshalFeeShare shares = l.*2.
Proof.
  induction l as [|[k v] l IH]; intros Hl; [by exists []|]. destruct (Hl k v) as [f ->]; [left|].
  destruct IH as (shares & E & Hm); [intros k' v' Hin; apply (Hl k'); by right|].
  exists (f :: shares). cbn [unmarshal_all]. rewrite feeshare_codec. cbn [fs_opt rbind]. rewrite E. split; [done|]. cbn [map fmap list_fmap fst snd]. by rewrite Hm.
Qed.
Lemma marshal_inj f g : MarshalFeeShare f = MarshalFeeShare g -> f = g.
Proof. intros E. pose proof (feeshare_codec f) as H. rewrite E, feeshare_codec in H. by injection H. Qed.
Lemma GetFeeShares_rel m R : fs_rel m R ->
  exists shares, GetFeeShares m = Ok shares /\ NoDup (map GetContractAddr shares) /\
    forall f, f ∈ shares <-> exists c, R !! c = Some f.
Proof.
  intros (Hk & Hw & _). unfold GetFeeShares. set (l := IteratePrefix m KeyPrefixFeeShare).
  assert (Hl : forall k v, (k, v) ∈ l <-> exists c f, k = fs_key c /\ R !! c = Some f /\ v = MarshalFeeShare f).
  { intros k v. unfold l. rewrite elem_of_IteratePrefix. split.
    - intros [Hm Hp]. apply has_prefix_true in Hp as [c ->]. change (KeyPrefixFeeShare ++ c) with (fs_key c) in *. rewrite Hk in Hm.
      destruct (R !! c) as [f|] eqn:E; [|done]. injection Hm as <-. by exists c, f.
    - intros (c & f & -> & Hc & ->). rewrite Hk, Hc. split; [done|apply has_prefix_app]. }
  destruct (unmarshal_all_rel l R) as (shares & E & Hm); [intros k v Hin; apply Hl in Hin as (c & f & _ & _ & ->); by exists f|].
  exists shares. split; [done|].
  assert (Hpair : Forall2 (fun f kv => exists c, kv = (fs_key c, MarshalFeeShare f) /\ R !! c = Some f) shares l).
  { assert (Hsub : forall kv, kv ∈ l -> exists c f, kv = (fs_key c, MarshalFeeShare f) /\ R !! c = Some f).
    { intros [k v] Hin. apply Hl in Hin as (c & f & -> & Hc & ->). by exists c, f. }
    clear E Hl. revert shares Hm. generalize l, Hsub. clear l Hsub. induction l as [|kv l IH]; intros Hsub shares Hm.
    - destruct shares; [constructor|done].
    - destruct shares as [|f shares]; [done|]. cbn in Hm. destruct (Hsub kv) as (c & g & -> & Hc); [left|]. cbn in Hm. injection Hm as Hf Hm.
      apply marshal_inj in Hf as ->. constructor; [by exists c|]. apply IH; [intros kv Hin; apply Hsub; by right|done]. }
  split.
  - pose proof (NoDup_IteratePrefix m KeyPrefixFeeShare) as Hn. fold l in Hn. revert Hn. clear E Hm Hl. induction Hpair as [|f kv shares l (c & -> & Hc) Hp IH]; [constructor|].
    rewrite fmap_cons. cbn [map]. intros [Hni Hn]%NoDup_cons. constructor; [|by apply IH]. cbn in Hni. intros Hin. apply Hni.
    apply list_elem_of_In, in_map_iff in Hin as (g & Hg & Hin). apply list_elem_of_In in Hin.
    apply list_elem_of_lookup_1 in Hin as [i Hi]. destruct (Forall2_lookup_l _ _ _ _ _ Hp Hi) as (kv & Hkv & c' & -> & Hc').
    destruct (Hw _ _ Hc) as (H1 & _), (Hw _ _ Hc') as (H2 & _). rewrite H1, H2 in Hg. injection Hg as ->.
    apply list_elem_of_lookup_2 in Hkv. apply list_elem_of_fmap. eexists (_, _). split; [|exact Hkv]. done.
  - intros f. split.
    + intros [i Hi]%list_elem_of_lookup_1. destruct (Forall2_lookup_l _ _ _ _ _ Hpair Hi) as (kv & _ & c & _ & Hc). by exists c.
    + intros [c Hc]. assert (Hin : (fs_key c, MarshalFeeShare f) ∈ l) by (apply Hl; by exists c, f).
      apply list_elem_of_lookup_1 in Hin as [i Hi]. destruct (Forall2_lookup_r _ _ _ _ _ Hpair Hi) as (g & Hg & c' & Heq & Hc').
      injection Heq as _ Hf. apply marshal_inj in Hf as ->. by apply list_elem_of_lookup_2 in Hg.
Qed.

(** *** Genesis *)

Lemma share_wf_valid c f : share_wf c f -> FeeShare_Validate f = Ok tt.
Proof.
  intros (Hc & [d Hd] & [w Hw] & _). unfold FeeShare_Validate, GetContractAddr, GetDeployerAddr, GetWithdrawerAddr in *. rewrite Hc, Hd, Hw.
  cbn [fs_opt rbind]. destruct (bytes_eqb (WithdrawerAddress f) []) eqn:E; [|done]. apply bytes_eqb_eq in E. by rewrite E, bech32_empty in Hw.
Qed.
Lemma validate_shares_complete seen l :
  Forall (fun f => FeeShare_Validate f = Ok tt) l -> NoDup (map GetContractAddr l) ->
  (forall f s, f ∈ l -> s ∈ seen -> AccAddressFromBech32 s <> GetContractAddr f) -> validate_shares seen l = Ok tt.
Proof.
  revert seen. induction l as [|f l IH]; intros seen Hv Hn Hs; [done|]. apply Forall_cons in Hv as [Hf Hv]. cbn [map] in Hn.
  apply NoDup_cons in Hn as [Hni Hn]. cbn [validate_shares]. rewrite bool_decide_false by (intros Hin; by apply (Hs f (ContractAddress f)); [left| |]).
  cbn [guard rbind]. rewrite Hf. cbn [rbind]. apply IH; [done|done|]. intros g s Hg [->%elem_of_singleton|Hin]%elem_of_union.
  - intros E. apply Hni. unfold GetContractAddr at 1. rewrite E. by apply list_elem_of_In, in_map, list_elem_of_In.
  - apply Hs; [by right|done].
Qed.
(** The exported genesis of a registry is valid and, imported into an empty store, gives the same registry
    with the same parameters. *)
Theorem fs_genesis_roundtrip (m : store) (R : gmap bytes FeeShare) (p : FsParams) :
  fs_rel m R -> fs_GetParams m = Ok p -> FsParams_Validate p = true ->
  exists gs m', fs_ExportGenesis m = Ok gs /\ FsGenesis_Validate gs = Ok tt /\ fs_InitGenesis gs ∅ = (m', Ok tt) /\
    fs_rel m' R /\ fs_GetParams m' = Ok p.
Proof.
  intros HR Hp Hpv. destruct (GetFeeShares_rel m R HR) as (shares & Hg & Hn & Hs). exists (MkFsGenesis p shares).
  assert (Hwf : forall f, f ∈ shares -> exists c, R !! c = Some f /\ share_wf c f).
  { intros f [c Hc]%Hs. exists c. split; [done|]. by apply (proj1 (proj2 HR)). }
  assert (Hv : Forall (fun f => FeeShare_Validate f = Ok tt) shares).
  { apply Forall_forall. intros f (c & _ & Hw)%Hwf. by eapply share_wf_valid. }
  destruct (init_shares_rel shares (store_Set fs_ParamsKey (MarshalFsParams p) ∅) ∅) as (m' & R' & Hr & HR' & Hm);
    [apply fs_rel_params|done| |done|].
  { apply Forall_forall. intros f (c & _ & Hw)%Hwf c' Hc'. destruct Hw as (Hc & _ & _ & Hl). rewrite Hc in Hc'. injection Hc' as <-.
    split; [done|apply lookup_empty]. }
  assert (HRR : R' = R).
  { apply map_eq. intros c. apply option_eq. intros f. rewrite Hm, lookup_empty. split.
    - intros [?|[Hin Hc]]; [done|]. destruct (Hwf f Hin) as (c' & Hc' & Hw). destruct Hw as (Hcc & _). rewrite Hc in Hcc. by injection Hcc as ->.
    - intros Hc. right. split; [apply Hs; by exists c|]. by destruct (proj1 (proj2 HR) _ _ Hc). }
  subst R'. exists m'. split_and!.
  - unfold fs_ExportGenesis. by rewrite Hp, Hg.
  - unfold FsGenesis_Validate. cbn [fs_FeeShare fs_Params]. rewrite validate_shares_complete; [|done|done|set_solver]. cbn [rbind]. by rewrite Hpv.
  - unfold fs_InitGenesis, fs_SetParams, mbind, mlift, mput. cbn [fs_Params fs_FeeShare]. by rewrite Hpv.
  - done.
  - assert (Hk : forall l m0 m1, mrange l init_share m0 = (m1, Ok tt) -> m1 !! fs_ParamsKey = m0 !! fs_ParamsKey).
    { induction l as [|f l IH]; intros m0 m1 E; [by injection E as <-|]. rewrite mrange_cons in E.
      destruct (init_share f m0) as [m2 [[]|]] eqn:E2; [|done]. rewrite (IH _ _ E). clear E IH.
      unfold init_share, SetFeeShare, SetDeployerMap, SetWithdrawerMap, mbind, mlift, mput, store_Set in E2.
      destruct (GetContractAddr f) as [c|]; cbn [fs_opt] in E2; [|done]. destruct (negb _) in E2; injection E2 as <-; by rewrite !lookup_insert_ne. }
    unfold fs_GetParams. rewrite (Hk _ _ _ Hr). unfold store_Set. rewrite lookup_insert_eq. cbn. by rewrite params_codec.
Qed.

(** *** Queries *)

Section Pages.
Context {P : Type} (page : P) (Paginate : list (bytes * bytes) -> option (list (bytes * bytes) * P)).
(** A request whose limit covers everything. *)
Context (whole : forall l, Paginate l = Some (l, page)).

Lemma list_contracts_all m prefix : list_contracts Paginate m prefix = Ok (map AccAddress_String (prefix_entries m prefix).*1, page).
Proof. unfold list_contracts. rewrite whole. by rewrite map_map. Qed.
Lemma index_listing m (key : bytes -> bytes -> bytes) prefix a (lists : bytes -> bytes -> Prop) :
  (forall a c, key a c = prefix ++ a ++ c) ->
  (forall a c, length c = 32%nat -> is_Some (m !! key a c) <-> lists a c) -> (forall a c, lists a c -> length c = 32%nat) ->
  (forall x v, m !! (prefix ++ x) = Some v -> exists b c, x = b ++ c /\ length c = 32%nat /\ length b = length a) ->
  NoDup (prefix_entries m (prefix ++ a)).*1 /\ forall c, c ∈ (prefix_entries m (prefix ++ a)).*1 <-> lists a c.
Proof.
  intros Hkey His Hlen Hclean. split; [apply NoDup_prefix_entries|]. intros c. rewrite list_elem_of_fmap. split.
  - intros ([c' v] & -> & Hin). apply elem_of_prefix_entries in Hin. rewrite <- app_assoc in Hin. cbn.
    destruct (Hclean _ _ Hin) as (b & c & E & Hl & Hb). apply app_inj_1 in E as [-> ->]; [|done]. apply His; [done|]. rewrite Hkey. by eexists.
  - intros Hc. pose proof (Hlen _ _ Hc) as Hl. apply His in Hc as [v Hv]; [|done]. exists (c, v). split; [done|].
    apply elem_of_prefix_entries. rewrite <- app_assoc. by rewrite <- Hkey.
Qed.
(** With a page that covers everything, the listing of a deployer or a withdrawer is each of its
    contracts once, when the addresses in the index all have the length of the one asked for; the query of
    one contract answers its record. *)
Theorem fs_queries_exact (m : store) (R : gmap bytes FeeShare) (addr a : bytes) :
  fs_rel m R -> AccAddressFromBech32 addr = Some a ->
  let same_length prefix := forall x v, m !! (prefix ++ x) = Some v -> exists b c, x = b ++ c /\ length c = 32%nat /\ length b = length a in
  (same_length KeyPrefixDeployer -> exists cs, DeployerFeeShares Paginate m addr = Ok (map AccAddress_String cs, page) /\ NoDup cs /\
     forall c, c ∈ cs <-> exists f, R !! c = Some f /\ GetDeployerAddr f = Some a) /\
  (same_length KeyPrefixWithdrawer -> exists cs, WithdrawerFeeShares Paginate m addr = Ok (map AccAddress_String cs, page) /\ NoDup cs /\
     forall c, c ∈ cs <-> exists f, R !! c = Some f /\ GetWithdrawerAddr f = Some a) /\
  query_FeeShare m addr = match R !! a with Some f => Ok f | None => Err NotFound end.
Proof.
  intros HR Ha same. pose proof HR as (_ & Hwf & Hdep & Hwit). unfold DeployerFeeShares, WithdrawerFeeShares, query_FeeShare. rewrite Ha.
  rewrite !list_contracts_all. rewrite (GetFeeShare_rel _ _ _ HR). split; [|split].
  - intros Hs. eexists. split; [reflexivity|].
    apply (index_listing m deployer_key KeyPrefixDeployer a (fun a c => exists f, R !! c = Some f /\ GetDeployerAddr f = Some a)); [done|done| |done].
    intros a' c (f & Hf & _). by apply (Hwf _ _ Hf).
  - intros Hs. eexists. split; [reflexivity|].
    apply (index_listing m withdrawer_key KeyPrefixWithdrawer a (fun a c => exists f, R !! c = Some f /\ GetWithdrawerAddr f = Some a)); [done|done| |done].
    intros a' c (f & Hf & _). by apply (Hwf _ _ Hf).
  - by destruct (R !! a).
Qed.
End Pages.

(** A registration without a withdrawer passes the stateless checks and is refused by the handler. *)
Lemma empty_withdrawer_refused C D c m : AccAddressFromBech32 C = Some c -> is_Some (AccAddressFromBech32 D) ->
  MsgRegister_ValidateBasic (MkMsgRegister C D []) = Ok tt /\ is_ok (RegisterFeeShare C D [] m).2 = false.
Proof.
  intros HC [d HD]. split; [unfold MsgRegister_ValidateBasic; cbn; by rewrite HD, HC|].
  destruct (RegisterFeeShare C D [] m) as [m' [[]|e]] eqn:E; [|done]. exfalso. unfold RegisterFeeShare in E. repeat run_ok_step.
  match goal with H : fs_opt (AccAddressFromBech32 []) _ = Ok _ |- _ => by rewrite bech32_empty in H end.
Qed.
(** What the constructors make passes the stateless checks, and the signer is the deployer. *)
Lemma constructed_valid c d w sc sd sw :
  AccAddressFromBech32 sc = Some c -> AccAddressFromBech32 sd = Some d -> AccAddressFromBech32 sw = Some w ->
  MsgRegister_ValidateBasic (NewMsgRegisterFeeShare c d (Some w)) = Ok tt /\
  MsgRegister_ValidateBasic (NewMsgRegisterFeeShare c d None) = Ok tt /\
  MsgCancel_ValidateBasic (NewMsgCancelFeeShare c d) = Ok tt /\ MsgUpdate_ValidateBasic (NewMsgUpdateFeeShare c d w) = Ok tt /\
  signer_of (mr_DeployerAddress (NewMsgRegisterFeeShare c d (Some w))) = [d].
Proof.
  intros Hc%bech32_roundtrip Hd%bech32_roundtrip Hw%bech32_roundtrip.
  unfold MsgRegister_ValidateBasic, MsgCancel_ValidateBasic, MsgUpdate_ValidateBasic, signer_of. cbn. rewrite Hc, Hd, Hw. cbn.
  split_and!; try done. by case_match.
Qed.
End Theorems.

(** ** Witnesses *)

Lemma w_fs1_rel : fs_rel w_fs1 {[w_contract := w_share]}.
Proof.
  pose proof (RegisterFeeShare_rel w_fs0 ∅ w_caddr w_carol (str "terp1dave") w_fs1 (Ok tt) (fs_rel_params _) ltac:(vm_refl)) as
    (c & d & w & Hc & Hw & _ & Hd & HR).
  assert (c = w_contract) as -> by (vm_compute in Hc; injection Hc as <-; vm_refl).
  assert (w = str "dave") as -> by (vm_compute in Hw; injection Hw as <-; vm_refl).
  assert (d = str "carol") as -> by (vm_compute in Hd; injection Hd as <-; vm_refl).
  exact HR.
Defined.
Lemma fs_genesis_roundtrip_witness : exists gs m', fs_ExportGenesis w_fs1 = Ok gs /\ fs_FeeShare gs = [w_share] /\
  fs_InitGenesis gs ∅ = (m', Ok tt) /\ fs_rel m' {[w_contract := w_share]}.
Proof.
  destruct (fs_genesis_roundtrip w_fs1 {[w_contract := w_share]} w_fsparams w_fs1_rel) as (gs & m' & He & _ & Hi & HR & _); [vm_refl|vm_refl|].
  exists gs, m'. split; [exact He|]. split; [|by split]. vm_compute in He. injection He as <-. vm_refl.
Defined.
Definition w_addr : bytes := str "terp1carol".
Lemma fs_queries_exact_witness : exists cs, DeployerFeeShares (fun l => Some (l, tt)) w_fs1 w_addr = Ok (map AccAddress_String cs, tt) /\ w_contract ∈ cs.
Proof.
  assert (Ha : AccAddressFromBech32 w_addr = Some (str "carol")) by vm_refl.
  destruct (fs_queries_exact tt (fun l => Some (l, tt)) (fun l => eq_refl) w_fs1 {[w_contract := w_share]} w_addr (str "carol") w_fs1_rel Ha) as (H & _ & _).
  destruct H as (cs & H1 & _ & H2).
  - intros x v Hx. exists (str "carol"), w_contract.
    assert (Hk : map_Forall (fun k _ => has_prefix KeyPrefixDeployer k = true -> k = deployer_key (str "carol") w_contract) w_fs1)
      by (apply (bool_decide_unpack _); vm_compute; exact I).
    specialize (Hk _ _ Hx (has_prefix_app _ _)). apply app_inv_head in Hk. split; [exact Hk|]. split; vm_refl.
  - exists cs. split; [exact H1|]. apply H2. exists w_share. split; vm_refl.
Defined.
(** A deployer whose address starts with another address: the query for the shorter one lists an address that is no contract. *)
Example deployer_listing_leaks :
  let a := str "contract-00000000000" in
  let m := (fs_InitGenesis (MkFsGenesis w_fsparams [NewFeeShare w_contract w_contract w_contract]) ∅).1 in
  DeployerFeeShares (fun l => Some (l, tt)) m (AccAddress_String a) = Ok ([AccAddress_String (str "00000000000A" ++ w_contract)], tt).
Proof. cbv zeta. vm_refl. Qed.
