(* ===== verification/HmQuery.v ===== *)
(** * hashmerchant: the query server

    [x/hashmerchant/keeper/grpc_query.go]: each query of the keeper's records.
    The theorems say what is answered on a typed store, that a query changes
    nothing, and when the listing of a chain's roots is that of the chain. *)

From S2P Require Import Prelude KVStore Json JsonPrint Sdk Proto HmTypes HmKeeper.

Open Scope go_scope.

(** ** Definitions *)

(** A status of the query server, or the keeper's error. *)
Inductive hq_err := HqInvalidArgument | HqKeeper (e : hm_err).

(** Requests; a request is a pointer, [None] when nil. *)
Record QueryHashRootRequest := MkQueryHashRoot { qr_ChainUid : bytes; qr_Algo : bytes }.

Section Operations.
Context {B : Type} {HC : HmCodec}.
Abbreviation Q := (meth (hm_state B) hq_err).

(** [if err != nil { return nil, err }] after a call of the keeper. *)
Definition from_keeper {A : Type} (m : meth (hm_state B) hm_err A) : Q A :=
  fun st => let '(st', r) := m st in
            (st', match r with Ok a => Ok a | Err e => Err (HqKeeper e) end).

Definition hq_Params : Q HmParams := from_keeper hm_GetParams.
Definition hq_RegisteredChain (req : option bytes) : Q RegisteredChain :=
  match req with
  | None => mfail HqInvalidArgument
  | Some ChainUid =>
      exec! mlift (guard (bytes_eqb ChainUid []) HqInvalidArgument);
      from_keeper (GetRegisteredChain ChainUid)
  end.
Definition hq_RegisteredChains : Q (list RegisteredChain) :=
  mget (fun st => IterateRegisteredChains (hm_store st)).
Definition hq_RegisteredContract (req : option bytes) : Q RegisteredContract :=
  match req with
  | None => mfail HqInvalidArgument
  | Some ContractAddr =>
      exec! mlift (guard (bytes_eqb ContractAddr []) HqInvalidArgument);
      from_keeper (GetRegisteredContract ContractAddr)
  end.
Definition hq_RegisteredContracts : Q (list RegisteredContract) :=
  mget (fun st => IterateRegisteredContracts (hm_store st)).
Definition hq_HashRoot (req : option QueryHashRootRequest) : Q HashRoot :=
  match req with
  | None => mfail HqInvalidArgument
  | Some req =>
      exec! mlift (guard (bytes_eqb (qr_ChainUid req) [] || bytes_eqb (qr_Algo req) []) HqInvalidArgument);
      from_keeper (GetHashRoot (qr_ChainUid req) (qr_Algo req))
  end.
Definition hq_HashRoots (req : option bytes) : Q (list HashRoot) :=
  match req with
  | None => mfail HqInvalidArgument
  | Some ChainUid =>
      exec! mlift (guard (bytes_eqb ChainUid []) HqInvalidArgument);
      mget (fun st => IterateHashRoots (hm_store st) ChainUid)
  end.
Definition hq_Escrow (req : option bytes) : Q EscrowRecord :=
  match req with
  | None => mfail HqInvalidArgument
  | Some ContractAddr =>
      exec! mlift (guard (bytes_eqb ContractAddr []) HqInvalidArgument);
      from_keeper (GetEscrowRecord ContractAddr)
  end.
End Operations.

(** ** What is answered *)

Section Answers.
Context {B : Type} {HC : HmCodec} {HL : HmCodecLaws}.
Implicit Types st : hm_state B.

(** The answer to a query of one record, which is there or not. *)
Definition answer {A : Type} (bad : bool) (missing : hm_err) (o : option A) : result hq_err A :=
  if bad then Err HqInvalidArgument
  else match o with Some a => Ok a | None => Err (HqKeeper missing) end.

Lemma get_record_typed {A} `{ProtoLaws A} key missing st :
  (forall v, hm_store st !! key = Some v -> exists a : A, v = Marshal a /\ wire_ok a) ->
  get_record key missing st = (st, match read (hm_store st) key with Some a => Ok a | None => Err missing end).
Proof.
  intros Hv. unfold get_record, read. destruct (hm_store st !! key) as [v|]; [|done].
  destruct (Hv v eq_refl) as (a & -> & Ha). cbn [base.mbind option_bind]. by rewrite proto_roundtrip.
Qed.
Lemma guarded_query {A} `{ProtoLaws A} bad key missing st :
  (forall v, hm_store st !! key = Some v -> exists a : A, v = Marshal a /\ wire_ok a) ->
  (exec! mlift (guard bad HqInvalidArgument); from_keeper (get_record key missing)) st =
  (st, answer bad missing (read (A := A) (hm_store st) key)).
Proof.
  intros Hv. unfold mbind, mlift, from_keeper, answer. destruct bad; cbn [guard]; [done|].
  rewrite get_record_typed by done. by destruct (read _ _).
Qed.

(** Keys are distinct in a listing of records filed under a key of their own. *)
Lemma NoDup_iterate {A} `{ProtoLaws A} (key : A -> bytes) m pfx :
  (forall k v, m !! k = Some v -> has_prefix pfx k = true -> exists a : A, k = key a /\ v = Marshal a /\ wire_ok a) ->
  NoDup (map key (iterate m pfx)).
Proof.
  intros Hm. pose proof (NoDup_IteratePrefix m pfx) as Hn. rewrite <- (iterate_pairs key) in Hn by done.
  change (map ?f ?l) with (f <$> l) in *. by rewrite <- list_fmap_compose in Hn.
Qed.
Lemma elem_of_iterate_typed {A} `{ProtoLaws A} (key : A -> bytes) m pfx (a : A) :
  (forall k v, m !! k = Some v -> has_prefix pfx k = true -> exists a : A, k = key a /\ v = Marshal a /\ wire_ok a) ->
  a ∈ iterate m pfx <-> read m (key a) = Some a /\ has_prefix pfx (key a) = true.
Proof.
  intros Hm. rewrite elem_of_iterate. unfold read. split.
  - intros (k & v & Hk & Hp & Hu). destruct (Hm _ _ Hk Hp) as (a' & -> & -> & Hw).
    rewrite proto_roundtrip in Hu by done. injection Hu as <-. rewrite Hk. cbn [base.mbind option_bind].
    by rewrite proto_roundtrip.
  - intros [Hr Hp]. destruct (m !! key a) as [v|] eqn:E; [|done]. by exists (key a), v.
Qed.

(** Roots under the prefix of any chain are roots. *)
Lemma roots_prefix uid k : has_prefix (KeyPrefixHashRoots ++ uid ++ ["|"%byte]) k = true -> has_prefix KeyPrefixHashRoots k = true.
Proof. intros [t ->]%has_prefix_true. hm_keys. apply prefix_cons. Qed.
Lemma roots_typed m uid : hm_typed m -> forall k v, m !! k = Some v ->
  has_prefix (KeyPrefixHashRoots ++ uid ++ ["|"%byte]) k = true ->
  exists r, k = KeyHashRoot (hr_ChainUid r) (hr_Algo r) /\ v = Marshal r /\ wire_ok r.
Proof. intros Hm k v Hk Hp%roots_prefix. by apply entry_root; [apply Hm|]. Qed.

(** Two texts cut at their first bar. *)
Lemma cut_at_bar (u u' x x' : bytes) :
  "|"%byte ∉ u -> "|"%byte ∉ u' -> u ++ "|"%byte :: x = u' ++ "|"%byte :: x' -> u = u' /\ x = x'.
Proof.
  revert u'. induction u as [|b u IH]; intros [|b' u'] Hu Hu' H; cbn in H; simplify_eq; [done|..].
  - destruct Hu'. left.
  - destruct Hu. left.
  - rewrite not_elem_of_cons in *. destruct (IH u') as [-> ->]; naive_solver.
Qed.

(** The listing of a chain's roots. *)
Lemma roots_listed st uid : hm_typed (hm_store st) -> uid <> [] ->
  let m := hm_store st in
  exists l, hq_HashRoots (Some uid) st = (st, Ok l) /\
      NoDup (map (fun r => KeyHashRoot (hr_ChainUid r) (hr_Algo r)) l) /\
      (forall r, r ∈ l <-> root_at m (hr_ChainUid r) (hr_Algo r) = Some r /\
         has_prefix (uid ++ ["|"%byte]) (hr_ChainUid r ++ "|"%byte :: hr_Algo r) = true) /\
      ("|"%byte ∉ uid ->
       (forall r, root_at m (hr_ChainUid r) (hr_Algo r) = Some r -> "|"%byte ∉ hr_ChainUid r) ->
       forall r, r ∈ l <-> root_at m (hr_ChainUid r) (hr_Algo r) = Some r /\ hr_ChainUid r = uid).
Proof.
  intros Hm Hu m. pose proof (roots_typed m uid Hm) as Ht.
  assert (Hmem : forall r, r ∈ IterateHashRoots m uid <-> root_at m (hr_ChainUid r) (hr_Algo r) = Some r /\
    has_prefix (uid ++ ["|"%byte]) (hr_ChainUid r ++ "|"%byte :: hr_Algo r) = true).
  { intros r. unfold IterateHashRoots.
    by rewrite (elem_of_iterate_typed (fun r => KeyHashRoot (hr_ChainUid r) (hr_Algo r))). }
  exists (IterateHashRoots m uid). split.
  { unfold hq_HashRoots, mbind, mlift. by rewrite (proj2 (bytes_eqb_neq _ _) Hu). }
  split; [by apply (NoDup_iterate (fun r => KeyHashRoot (hr_ChainUid r) (hr_Algo r)))|]. split; [done|].
  intros Hb Hbs r. rewrite Hmem. split; intros [H1 H2]; (split; [done|]).
  - apply has_prefix_true in H2 as [t H2]. rewrite <- app_assoc in H2.
    destruct (cut_at_bar (hr_ChainUid r) uid (hr_Algo r) t) as [? _]; [by apply Hbs|done..].
  - subst uid. pose proof (has_prefix_app (hr_ChainUid r ++ ["|"%byte]) (hr_Algo r)) as Hp.
    by rewrite <- app_assoc in Hp.
Qed.

(** A query of one record whose entries the lemma [entry] types. *)
Ltac one_record entry Hm := apply guarded_query; let v := fresh in let Hv := fresh in intros v Hv;
  apply Hm in Hv; apply entry in Hv; [naive_solver|apply prefix_cons].

(** On a typed store no query changes the state. A query of one record answers
    the record, or that it is missing, or refuses an empty key; the listings
    of chains, contracts and roots hold every record once, those of the roots
    the roots whose key continues the chain's name and a bar; those are the
    chain's own when no bar occurs in the name asked for and in the name of a
    chain that has roots. *)
Theorem hm_queries_exact st :
  hm_typed (hm_store st) ->
  let m := hm_store st in
  hq_Params st = (st, Ok (params_of m)) /\
  (forall uid, hq_RegisteredChain (Some uid) st = (st, answer (bytes_eqb uid []) ErrChainNotFound (chain_at m uid))) /\
  (forall a, hq_RegisteredContract (Some a) st = (st, answer (bytes_eqb a []) ErrContractNotFound (contract_at m a))) /\
  (forall a, hq_Escrow (Some a) st = (st, answer (bytes_eqb a []) ErrEscrowNotFound (escrow_at m a))) /\
  (forall uid algo, hq_HashRoot (Some (MkQueryHashRoot uid algo)) st =
     (st, answer (bytes_eqb uid [] || bytes_eqb algo []) ErrHashRootNotFound (root_at m uid algo))) /\
  (exists l, hq_RegisteredChains st = (st, Ok l) /\ NoDup (map ch_ChainUid l) /\
     forall c, c ∈ l <-> chain_at m (ch_ChainUid c) = Some c) /\
  (exists l, hq_RegisteredContracts st = (st, Ok l) /\ NoDup (map rc_ContractAddr l) /\
     forall c, c ∈ l <-> contract_at m (rc_ContractAddr c) = Some c) /\
  forall uid, uid <> [] ->
    exists l, hq_HashRoots (Some uid) st = (st, Ok l) /\
      NoDup (map (fun r => KeyHashRoot (hr_ChainUid r) (hr_Algo r)) l) /\
      (forall r, r ∈ l <-> root_at m (hr_ChainUid r) (hr_Algo r) = Some r /\
         has_prefix (uid ++ ["|"%byte]) (hr_ChainUid r ++ "|"%byte :: hr_Algo r) = true) /\
      ("|"%byte ∉ uid ->
       (forall r, root_at m (hr_ChainUid r) (hr_Algo r) = Some r -> "|"%byte ∉ hr_ChainUid r) ->
       forall r, r ∈ l <-> root_at m (hr_ChainUid r) (hr_Algo r) = Some r /\ hr_ChainUid r = uid).
Proof.
  intros Hm m. split; [unfold hq_Params, from_keeper; by rewrite (proj1 (typed_params st Hm))|].
  split; [intros uid; one_record entry_chain Hm|]. split; [intros a; one_record entry_contract Hm|].
  split; [intros a; one_record entry_escrow Hm|]. split; [intros uid algo; one_record entry_root Hm|].
  split; [eexists; split; [done|]; split; [by apply NoDup_chains|intros c; by apply elem_of_chains]|].
  split.
  { assert (Ht : forall k v, m !! k = Some v -> has_prefix KeyPrefixRegisteredContracts k = true ->
      exists a, k = KeyRegisteredContract (rc_ContractAddr a) /\ v = Marshal a /\ wire_ok a)
      by (intros k v Hk; by apply entry_contract, Hm).
    eexists. split; [done|]. split.
    - apply (NoDup_iterate (fun c => KeyRegisteredContract (rc_ContractAddr c))) in Ht.
      apply (NoDup_fmap_1 KeyRegisteredContract). by rewrite <- list_fmap_compose.
    - intros c. unfold IterateRegisteredContracts.
      rewrite (elem_of_iterate_typed (fun c => KeyRegisteredContract (rc_ContractAddr c))) by done.
      split; [by intros [? _]|]. intros H. split; [done|apply prefix_cons]. }
  intros uid Hu. by apply roots_listed.
Qed.
End Answers.

(** ** Witness *)

Definition w_root (uid algo : bytes) : HashRoot := MkHashRoot uid algo 7 (str "root") 2 0 [].
Definition w_roots : hm_state toy :=
  (SetHashRoot (w_root (str "eth") (str "keccak")) (SetHashRoot (w_root (str "btc") (str "sha256")) w_hm).1).1.
Lemma w_roots_typed : hm_typed (hm_store w_roots).
Proof.
  unfold w_roots, SetHashRoot, upd_hm, mput. cbn [fst hm_store]. apply typed_set; [apply typed_set; [apply w_hm_typed|]|].
  - apply (E_root (w_root (str "btc") (str "sha256"))). by repeat constructor.
  - apply (E_root (w_root (str "eth") (str "keccak"))). by repeat constructor.
Qed.
Lemma hm_queries_exact_witness :
  hm_typed (hm_store w_roots) /\
  (exists l, hq_RegisteredChains w_roots = (w_roots, Ok l) /\ NoDup (map ch_ChainUid l)) /\
  hq_HashRoots (Some (str "btc")) w_roots = (w_roots, Ok [w_root (str "btc") (str "sha256")]).
Proof.
  split; [apply w_roots_typed|].
  destruct (hm_queries_exact w_roots w_roots_typed) as (_ & _ & _ & _ & _ & (l & Hl & Hn & _) & _ & H).
  split; [exists l; split; [exact Hl|exact Hn]|]. destruct (H (str "btc")) as (l' & Hl' & _); [discriminate|]. rewrite Hl'.
  assert (Hc : (hq_HashRoots (Some (str "btc")) w_roots).2 = Ok [w_root (str "btc") (str "sha256")]) by vm_refl.
  rewrite Hl' in Hc. cbn [snd] in Hc. rewrite Hc. exact eq_refl.
Defined.

(** ** Behaviour worth knowing *)

(** Nothing keeps a bar out of a chain's name: the roots of the chain [a|b] are
    listed as roots of the chain [a], and two chains can share the key of a root. *)
Example root_listing_leaks :
  let st := (SetHashRoot (w_root (str "a|b") (str "sha256")) w_hm).1 in
  is_ok (MsgRegisterChain_ValidateBasic (str "terp1gov") (MkRegisteredChain (str "a|b") [] [] [] true [])) = true /\
  (hq_HashRoots (Some (str "a")) st).2 = Ok [w_root (str "a|b") (str "sha256")] /\
  (hq_HashRoot (Some (MkQueryHashRoot (str "a") (str "b|sha256"))) st).2 = Ok (w_root (str "a|b") (str "sha256")).
Proof. cbv zeta. split; [vm_refl|]. split; vm_refl. Qed.
