(* ===== verification/AnteChain.v ===== *)
(** * The ante chain

    [app/abci/ante.go], [app/abci/post.go], [x/smart-account/ante/pubkey.go]:
    the handler every transaction passes before it runs, put together from the
    SDK's decorators, the guard of [LvWrap] and the decorators of [SaAnte]. A
    decorator of the SDK is what it does before it calls the next one, a
    parameter. The theorems say which checks a transaction that passes has
    passed, on which states, and what a refused one can leave behind. *)

From S2P Require Import Prelude KVStore Json JsonPrint Sdk SaFilter SaAuth SaKeeper SaAnte LvWrap.
Open Scope go_scope.

(** ** Definitions *)

(** [signing.SignatureData]: nil, the two known types, anything else. *)
Inductive SignatureData :=
| SdNil
| SingleSignatureData (Signature : bytes)
| MultiSignatureData (Signatures : list SignatureData)
| SdOther.
(** An event of type [tx], its attributes. *)
Definition TxEvent : Type := list (bytes * bytes).

(** The context of the chain: the store that survives a refusal, the store of
    the context, its gas meter and events; and the keeper's cached flag. *)
Record chain_state (B G : Type) := MkChain {
  cs_base : world B; cs_world : world B; cs_gas : G; cs_events : list TxEvent; cs_active : active_cache
}.
Arguments MkChain {B G}.
Arguments cs_base {B G}.
Arguments cs_world {B G}.
Arguments cs_gas {B G}.
Arguments cs_events {B G}.
Arguments cs_active {B G}.

Definition Handler (B G : Type) : Type := SaTx -> bool -> meth (chain_state B G) sa_fail unit.
Definition Decorator (B G : Type) : Type := SaTx -> bool -> Handler B G -> meth (chain_state B G) sa_fail unit.
(** The part of a decorator of the SDK before its [next]. *)
Definition Stock (B G : Type) : Type := SaTx -> bool -> meth (world B * G) sa_fail unit.

Class AnteSdk (B G : Type) := {
  (** the SDK's decorators in the order of the chain; the fee decorator is
      [DeductFee] *)
  SetUpContext : Stock B G;
  LimitSimulationGas : option Z -> Stock B G;
  CountTX : Stock B G;
  ExtensionOptions : Stock B G;
  ValidateBasicTx : Stock B G;
  TxTimeoutHeight : Stock B G;
  ValidateMemo : Stock B G;
  ConsumeGasForTxSize : Stock B G;
  SetPubKey : Stock B G;
  ValidateSigCount : Stock B G;
  SigGasConsumer : Type;
  DefaultSigVerificationGasConsumer : SigGasConsumer;
  SigGasConsume : SigGasConsumer -> Stock B G;
  SigVerification : Stock B G;
  IncrementSequence : Stock B G;
  RedundantRelay : Stock B G;
  ChainAnteDecorators : list (Decorator B G) -> Handler B G;
  (** how the guard sees a message; the signatures with their data *)
  sudo_view : SaMsg -> ante_msg;
  GetSignaturesV2 : SaTx -> option (list (SignatureData * Z));
  MultiSignature_Marshal : list bytes -> option bytes
}.
(** What the SDK documents of [ChainAnteDecorators]: each decorator wraps the
    ones after it, and the last is given a handler that does nothing. *)
Definition Terminator {B G : Type} : Handler B G := fun _ _ => mret tt.
Class AnteLaws (B G : Type) `{AnteSdk B G} := {
  chain_one : forall d tx simulate st, ChainAnteDecorators [d] tx simulate st = d tx simulate Terminator st;
  chain_cons : forall d d' ds tx simulate st,
    ChainAnteDecorators (d :: d' :: ds) tx simulate st = d tx simulate (ChainAnteDecorators (d' :: ds)) st
}.

(** *** pubkey.go *)

Section PubKey.
Context {B G : Type} {AS : AnteSdk B G}.

Fixpoint signatureDataToBz (data : SignatureData) : result sa_fail (list bytes) :=
  match data with
  | SdNil => Err (Fail ErrInvalidRequest)
  | SingleSignatureData Signature => Ok [Signature]
  | MultiSignatureData Signatures =>
      try! sigs <- (fix nested l := match l with
                    | [] => Ok []
                    | d :: l' =>
                        try! nestedSigs <- signatureDataToBz d;
                        try! rest <- nested l';
                        Ok (nestedSigs ++ rest)
                    end) Signatures;
      try! aggregatedSig <- opt_or (MultiSignature_Marshal sigs) ErrEncode;
      Ok (sigs ++ [aggregatedSig])
  | SdOther => Err (Fail ErrInvalidType)
  end.
(** [fmt.Sprintf("%s/%d", signer, sequence)]: a signer is a [[]byte], which
    [%s] prints as it is. *)
Definition acc_seq (signer : bytes) (sequence : Z) : bytes := signer ++ "/"%byte :: FormatUint sequence.
Definition sequence_event (signer : bytes) (sequence : Z) : TxEvent :=
  [(str "acc_seq", acc_seq signer sequence); (str "authenticator_acc_seq", acc_seq signer sequence)].
Definition signature_event (sigBz : bytes) : TxEvent :=
  [(str "signature", b64_encode sigBz); (str "authenticator_signature", b64_encode sigBz)].
(** The loop over the signatures, from the [i]th on. *)
Fixpoint pubkey_events (signers : list bytes) (i : nat) (sigs : list (SignatureData * Z)) : result sa_fail (list TxEvent) :=
  match sigs with
  | [] => Ok []
  | (data, sequence) :: sigs' =>
      match signers !! i with
      | None => Err IndexOutOfRange
      | Some signer =>
          try! sigBzs <- signatureDataToBz data;
          try! events <- pubkey_events signers (S i) sigs';
          Ok (sequence_event signer sequence :: map signature_event sigBzs ++ events)
      end
  end.
Definition EmitPubKey_AnteHandle : Decorator B G := fun tx simulate next st =>
  match (check! fail_if (negb (stx_IsSigTx tx)) ErrTxDecode;
         try! signers <- opt_or (stx_Signers tx) ErrTxDecode;
         try! sigs <- opt_or (GetSignaturesV2 tx) ErrTxDecode;
         pubkey_events signers 0 sigs) with
  | Err e => (st, Err e)
  | Ok events =>
      next tx simulate (MkChain (cs_base st) (cs_world st) (cs_gas st) (cs_events st ++ events) (cs_active st))
  end.
End PubKey.

(** *** ante.go *)

(** The options; a keeper that is only checked against nil, or not used at all,
    is whether it is there. *)
Record HandlerOptions (C : Type) := MkOptions {
  AccountKeeper : bool; BankKeeper : bool; SignModeHandler : bool; TXCounterStoreKey : bool;
  ho_SigGasConsumer : option C;
  SmartAccount : SaKeeper;
  (** the simulation gas limit of the configuration; the pointer may be nil *)
  WasmConfig : option (option Z);
  FeeShareKeeper : bool; GlobalFeeKeeper : bool; BypassMinFeeMsgTypes : list bytes
}.
Arguments AccountKeeper {C}.
Arguments BankKeeper {C}.
Arguments SignModeHandler {C}.
Arguments TXCounterStoreKey {C}.
Arguments ho_SigGasConsumer {C}.
Arguments SmartAccount {C}.
Arguments WasmConfig {C}.
Inductive options_err := ErrAccountKeeper | ErrBankKeeper | ErrSignMode | ErrCounterKey | OptionsPanic.

Section Chain.
Context {B G : Type} {SdkB : Sdk B} {GM : GasMeter G} {SS : SaSdk B G} {Cd : SaCodec} {TX : SaTxSdk B G} {AS : AnteSdk B G}.
Context (ctx : sa_ctx).

(** A decorator of the SDK. *)
Definition stock (d : Stock B G) : Decorator B G := fun tx simulate next st =>
  let '((w, g), r) := d tx simulate (cs_world st, cs_gas st) in
  let st' := MkChain (cs_base st) w g (cs_events st) (cs_active st) in
  match r with Err e => (st', Err e) | Ok _ => next tx simulate st' end.
(** The first one also recovers from running out of gas behind it. *)
Definition set_up (d : Stock B G) : Decorator B G := fun tx simulate next st =>
  let '(st', r) := stock d tx simulate next st in (st', recover_out_of_gas r).
(** [leanvalante.Decorator]. *)
Definition lean_guard : Decorator B G := fun tx simulate next =>
  Decorator_AnteHandle AccAddressFromBech32 (map sudo_view (stx_Msgs tx)) (fun _ => Err (Fail ErrUnauthorized)) (next tx simulate).
(** The recover of the authenticator decorator covers the handlers behind it. *)
Definition authenticator_decorator (k : SaKeeper) : Decorator B G := fun tx simulate next st =>
  let '(s, r) := sa_AnteHandle ctx k tx simulate (cs_base st) (cs_world st) (cs_gas st) in
  let st1 := MkChain (an_base s) (an_world s) (an_meter s) (cs_events st) (cs_active st) in
  match r with
  | Err e => (st1, Err e)
  | Ok _ => let '(st2, r2) := next tx simulate st1 in (st2, recover_out_of_gas r2)
  end.
(** The decorator that decides the flow never calls [next]. *)
Definition circuit_breaker (authenticatorFlow originalFlow : Handler B G) : Decorator B G := fun tx simulate _ st =>
  let '(c, active) := GetIsSmartAccountActive (sa_params (cs_world st)) (cs_active st) in
  CircuitBreaker_AnteHandle authenticatorFlow originalFlow active tx tx simulate
    (MkChain (cs_base st) (cs_world st) (cs_gas st) (cs_events st) c).

Definition classic_flow (consumer : SigGasConsumer) : Handler B G :=
  ChainAnteDecorators
    [stock DeductFee; stock SetPubKey; stock ValidateSigCount; stock (SigGasConsume consumer); stock SigVerification;
     stock IncrementSequence; stock RedundantRelay].
Definition authenticator_flow (k : SaKeeper) : Handler B G :=
  ChainAnteDecorators
    [EmitPubKey_AnteHandle; stock ValidateSigCount; authenticator_decorator k; stock IncrementSequence].
Definition NewAnteHandler (options : HandlerOptions SigGasConsumer) : result options_err (Handler B G) :=
  check! guard (negb (AccountKeeper options)) ErrAccountKeeper;
  check! guard (negb (BankKeeper options)) ErrBankKeeper;
  check! guard (negb (SignModeHandler options)) ErrSignMode;
  check! guard (negb (TXCounterStoreKey options)) ErrCounterKey;
  let sigGasConsumer := default DefaultSigVerificationGasConsumer (ho_SigGasConsumer options) in
  match WasmConfig options with
  | None => Err OptionsPanic
  | Some SimulationGasLimit =>
      Ok (ChainAnteDecorators
            [set_up SetUpContext; stock (LimitSimulationGas SimulationGasLimit); stock CountTX; stock ExtensionOptions;
             stock ValidateBasicTx; lean_guard; stock TxTimeoutHeight; stock ValidateMemo; stock ConsumeGasForTxSize;
             circuit_breaker (authenticator_flow (SmartAccount options)) (classic_flow sigGasConsumer)])
  end.
(** *** post.go: the chain has the one decorator *)
Definition NewPostHandler (k : SaKeeper) (tx : SaTx) (simulate success : bool) : meth (active_cache * (world B * G)) sa_fail bool :=
  fun st => let '(c, active) := GetIsSmartAccountActive (sa_params st.2.1) st.1 in
            let '(s, r) := PostHandle ctx k active tx simulate success st.2 in ((c, s), r).
End Chain.

(** ** The chain as a sequence *)

Section Laws.
Context {B G : Type} {SdkB : Sdk B} {GM : GasMeter G} {SS : SaSdk B G} {Cd : SaCodec} {TX : SaTxSdk B G} {AS : AnteSdk B G}
  {AL : AnteLaws B G}.
Context (ctx : sa_ctx).
Implicit Types st : chain_state B G.

(** The decorators of the SDK one after the other. *)
Definition pass (ds : list (Stock B G)) (tx : SaTx) (simulate : bool) : meth (world B * G) sa_fail unit :=
  mrange ds (fun d => d tx simulate).
Definition set_wg (st : chain_state B G) (wg : world B * G) : chain_state B G :=
  MkChain (cs_base st) wg.1 wg.2 (cs_events st) (cs_active st).

Lemma set_wg_id st : set_wg st (cs_world st, cs_gas st) = st.
Proof. by destruct st. Qed.
Lemma chain_stocks ds d rest tx simulate st :
  ChainAnteDecorators (map stock ds ++ d :: rest) tx simulate st =
  let '(wg, r) := pass ds tx simulate (cs_world st, cs_gas st) in
  match r with Err e => (set_wg st wg, Err e) | Ok _ => ChainAnteDecorators (d :: rest) tx simulate (set_wg st wg) end.
Proof.
  revert st. induction ds as [|x ds IH]; intros st; cbn [map app pass mrange].
  { unfold mret. by rewrite set_wg_id. }
  replace (ChainAnteDecorators (stock x :: map stock ds ++ d :: rest) tx simulate st) with
    (stock x tx simulate (ChainAnteDecorators (map stock ds ++ d :: rest)) st) by (destruct ds; cbn [map app]; by rewrite chain_cons).
  unfold stock at 1, mbind. destruct (x tx simulate (cs_world st, cs_gas st)) as [[w g] [[]|e]]; [|done].
  rewrite IH. cbn [cs_world cs_gas]. unfold pass. by destruct (mrange ds _ (w, g)) as [wg [[]|e]].
Qed.
Lemma pass_app ds ds' tx simulate wg :
  pass (ds ++ ds') tx simulate wg =
  let '(wg, r) := pass ds tx simulate wg in match r with Err e => (wg, Err e) | Ok _ => pass ds' tx simulate wg end.
Proof.
  revert wg. unfold pass. induction ds as [|x ds IH]; intros wg; cbn [app mrange]; [done|]. unfold mbind.
  destruct (x tx simulate wg) as [wg' [[]|e]]; [apply IH|done].
Qed.
Lemma chain_all_stock ds d tx simulate st :
  ChainAnteDecorators (map stock (ds ++ [d])) tx simulate st =
  let '(wg, r) := pass (ds ++ [d]) tx simulate (cs_world st, cs_gas st) in (set_wg st wg, r).
Proof.
  rewrite map_app, pass_app. cbn [map]. rewrite chain_stocks.
  destruct (pass ds tx simulate _) as [[w g] [[]|e]]; [|done]. rewrite chain_one.
  unfold stock, pass, set_wg. cbn [mrange]. unfold mbind. cbn [cs_world cs_gas fst snd].
  by destruct (d tx simulate (w, g)) as [[w' g'] [[]|e]].
Qed.

(** A decorator that leaves the smart accounts alone. *)
Definition leaves_accounts (tx : SaTx) (simulate : bool) (d : Stock B G) : Prop :=
  forall wg, sa_store (d tx simulate wg).1.1 = sa_store wg.1.
Lemma pass_accounts ds tx simulate wg :
  Forall (leaves_accounts tx simulate) ds -> sa_store (pass ds tx simulate wg).1.1 = sa_store wg.1.
Proof.
  intros H. revert wg. induction H as [|d ds Hd _ IH]; intros wg; [done|]. unfold pass. cbn [mrange]. unfold mbind.
  specialize (Hd wg). destruct (d tx simulate wg) as [wg' [[]|e]]; cbn in Hd; [|done]. rewrite <- Hd. apply IH.
Qed.

(** The decorators before the guard, and those from it to the fork. *)
Definition before_guard (limit : option Z) : list (Stock B G) :=
  [SetUpContext; LimitSimulationGas limit; CountTX; ExtensionOptions; ValidateBasicTx].
Definition after_guard : list (Stock B G) := [TxTimeoutHeight; ValidateMemo; ConsumeGasForTxSize].
Definition classic (consumer : SigGasConsumer) : list (Stock B G) :=
  [DeductFee; SetPubKey; ValidateSigCount; SigGasConsume consumer; SigVerification; IncrementSequence; RedundantRelay].

Lemma recover_ok {A} (r : result sa_fail A) a : recover_out_of_gas r = Ok a <-> r = Ok a.
Proof. destruct r as [?|[]]; cbn; split; congruence. Qed.

(** The whole handler in the order it works. *)
Definition fork (k : SaKeeper) (consumer : SigGasConsumer) (tx : SaTx) (simulate : bool) :
    meth (chain_state B G) sa_fail unit :=
  circuit_breaker (authenticator_flow ctx k) (classic_flow consumer) tx simulate Terminator.
Definition flat_ante (limit : option Z) (k : SaKeeper) (consumer : SigGasConsumer) (tx : SaTx) (simulate : bool)
    (st : chain_state B G) : chain_state B G * result sa_fail unit :=
  let '(wg, r) := pass (before_guard limit) tx simulate (cs_world st, cs_gas st) in
  match r with
  | Err e => (set_wg st wg, Err e)
  | Ok _ =>
      match check_msgs AccAddressFromBech32 (map sudo_view (stx_Msgs tx)) with
      | Some _ => (set_wg st wg, Err (Fail ErrUnauthorized))
      | None =>
          let '(wg, r) := pass after_guard tx simulate wg in
          match r with Err e => (set_wg st wg, Err e) | Ok _ => fork k consumer tx simulate (set_wg st wg) end
      end
  end.
Lemma handler_flat options h tx simulate st :
  NewAnteHandler ctx options = Ok h ->
  exists limit, WasmConfig options = Some limit /\
    h tx simulate st =
    let '(st', r) := flat_ante limit (SmartAccount options)
                       (default DefaultSigVerificationGasConsumer (ho_SigGasConsumer options)) tx simulate st in
    (st', recover_out_of_gas r).
Proof.
  unfold NewAnteHandler. do 4 (intros H; apply rbind_ok in H as (_ & _ & H); revert H).
  destruct (WasmConfig options) as [limit|]; [|done]. intros [= <-]. exists limit. split; [done|].
  set (d := circuit_breaker _ _). rewrite chain_cons. unfold set_up.
  match goal with |- context [stock SetUpContext tx simulate (ChainAnteDecorators ?ds) st] =>
    replace (stock SetUpContext tx simulate (ChainAnteDecorators ds) st) with
      (ChainAnteDecorators (map stock (before_guard limit) ++ lean_guard :: map stock after_guard ++ [d]) tx simulate st)
      by (apply chain_cons)
  end.
  rewrite chain_stocks. unfold flat_ante. destruct (pass (before_guard limit) _ _ _) as [wg [[]|e]]; [|done].
  cbn [map after_guard app]. rewrite chain_cons. unfold lean_guard at 1, Decorator_AnteHandle.
  destruct (check_msgs _ _); [done|].
  pose proof (chain_stocks after_guard d [] tx simulate (set_wg st wg)) as Hc.
  cbn [map after_guard app] in Hc. rewrite Hc. destruct wg as [w g]. cbn [set_wg cs_world cs_gas fst snd].
  fold after_guard. destruct (pass after_guard _ _ _) as [wg [[]|e]]; [|done]. rewrite chain_one. done.
Qed.

(** *** The two flows *)

(** The events of the public key decorator. *)
Definition emitted (tx : SaTx) (events : list TxEvent) : Prop :=
  exists signers sigs, stx_Signers tx = Some signers /\ GetSignaturesV2 tx = Some sigs /\
    pubkey_events signers 0 sigs = Ok events.
Lemma EmitPubKey_cases tx simulate next st :
  (exists e, EmitPubKey_AnteHandle tx simulate next st = (st, Err e)) \/
  exists events, emitted tx events /\ EmitPubKey_AnteHandle tx simulate next st =
    next tx simulate (MkChain (cs_base st) (cs_world st) (cs_gas st) (cs_events st ++ events) (cs_active st)).
Proof.
  unfold EmitPubKey_AnteHandle. destruct (stx_IsSigTx tx); cbn [negb fail_if guard rbind]; [|eauto].
  destruct (stx_Signers tx) as [signers|] eqn:Es; cbn [opt_or rbind]; [|eauto].
  destruct (GetSignaturesV2 tx) as [sigs|] eqn:Eg; cbn [opt_or rbind]; [|eauto].
  destruct (pubkey_events signers 0 sigs) as [events|e] eqn:Ee; [|eauto]. right. exists events. split; [|done].
  by exists signers, sigs.
Qed.

(** What the authenticator flow did: on success, or where it stopped. *)
Lemma authenticator_flow_cases k tx simulate st st' r :
  authenticator_flow ctx k tx simulate st = (st', r) ->
  (cs_base st' = cs_base st /\ exists e, r = Err e) \/
  exists events w1 g1 s rs, emitted tx events /\ ValidateSigCount tx simulate (cs_world st, cs_gas st) = ((w1, g1), Ok tt) /\
    sa_AnteHandle ctx k tx simulate (cs_base st) w1 g1 = (s, rs) /\ cs_base st' = an_base s /\
    match rs with
    | Err e => r = Err e
    | Ok _ => exists ri, IncrementSequence tx simulate (an_world s, an_meter s) = ((cs_world st', cs_gas st'), ri) /\
        r = recover_out_of_gas ri
    end.
Proof.
  unfold authenticator_flow. rewrite chain_cons.
  destruct (EmitPubKey_cases tx simulate (ChainAnteDecorators
    [stock ValidateSigCount; authenticator_decorator ctx k; stock IncrementSequence]) st) as [[e ->]|(events & He & ->)].
  { intros [= <- <-]. by eauto. }
  rewrite chain_cons. unfold stock at 1. cbn [cs_world cs_gas cs_base cs_events cs_active].
  destruct (ValidateSigCount tx simulate (cs_world st, cs_gas st)) as [[w1 g1] [[]|e]] eqn:Ev.
  2:{ intros [= <- <-]. by eauto. }
  rewrite chain_cons. unfold authenticator_decorator. cbn [cs_world cs_gas cs_base cs_events cs_active].
  destruct (sa_AnteHandle ctx k tx simulate (cs_base st) w1 g1) as [s rs] eqn:Es.
  intros H. right. exists events, w1, g1, s, rs. split; [done|]. split; [done|]. split; [done|].
  destruct rs as [[]|e]; [|by injection H as <- <-]. rewrite chain_one in H. unfold stock in H.
  cbn [cs_world cs_gas cs_base cs_events cs_active] in H.
  destruct (IncrementSequence tx simulate (an_world s, an_meter s)) as [[w2 g2] ri].
  destruct ri as [[]|e]; injection H as <- <-; (split; [done|]); by eexists.
Qed.
Lemma classic_flow_eq consumer tx simulate st :
  classic_flow consumer tx simulate st =
  let '(wg, r) := pass (classic consumer) tx simulate (cs_world st, cs_gas st) in (set_wg st wg, r).
Proof. exact (chain_all_stock (take 6 (classic consumer)) RedundantRelay tx simulate st). Qed.

(** Which flow a transaction takes on the state it reaches the fork with. *)
Definition takes_classic (st : chain_state B G) (w : world B) (tx : SaTx) : bool :=
  (IsCircuitBreakActive (GetIsSmartAccountActive (sa_params w) (cs_active st)).2 tx).1.
Lemma fork_cases k consumer tx simulate st st' r :
  fork k consumer tx simulate st = (st', r) ->
  if takes_classic st (cs_world st) tx
  then pass (classic consumer) tx simulate (cs_world st, cs_gas st) = ((cs_world st', cs_gas st'), r) /\ cs_base st' = cs_base st
  else exists c, authenticator_flow ctx k tx simulate (MkChain (cs_base st) (cs_world st) (cs_gas st) (cs_events st) c) = (st', r).
Proof.
  unfold fork, circuit_breaker, takes_classic, CircuitBreaker_AnteHandle.
  destruct (GetIsSmartAccountActive _ _) as [c active]. cbn [snd]. destruct (IsCircuitBreakActive active tx).1; [|by eauto].
  rewrite classic_flow_eq. cbn [cs_world cs_gas].
  destruct (pass (classic consumer) tx simulate _) as [[w g] r0]. by intros [= <- <-].
Qed.

(** ** Properties *)

(** A transaction that passes: the common decorators passed in order with the
    guard among them, and the flow its state selects passed on what they left.
    In the classic flow that includes the signatures and the sequence; in the
    other the authenticators of [SaAnte] and then the sequence. *)
Lemma ante_passed options h tx simulate st st' :
  NewAnteHandler ctx options = Ok h -> h tx simulate st = (st', Ok tt) ->
  Forall (sudo_allowed AccAddressFromBech32) (map sudo_view (stx_Msgs tx)) /\
  exists limit w g, WasmConfig options = Some limit /\
    pass (before_guard limit ++ after_guard) tx simulate (cs_world st, cs_gas st) = ((w, g), Ok tt) /\
    if takes_classic st w tx
    then pass (classic (default DefaultSigVerificationGasConsumer (ho_SigGasConsumer options))) tx simulate (w, g) =
           ((cs_world st', cs_gas st'), Ok tt) /\ cs_base st' = cs_base st
    else exists events w1 g1 s, emitted tx events /\ ValidateSigCount tx simulate (w, g) = ((w1, g1), Ok tt) /\
           sa_AnteHandle ctx (SmartAccount options) tx simulate (cs_base st) w1 g1 = (s, Ok tt) /\ cs_base st' = an_base s /\
           IncrementSequence tx simulate (an_world s, an_meter s) = ((cs_world st', cs_gas st'), Ok tt).
Proof.
  intros Hh. destruct (handler_flat options h tx simulate st Hh) as (limit & El & ->).
  destruct (flat_ante limit _ _ tx simulate st) as [st1 r] eqn:Ef. intros [= -> Hr]. apply recover_ok in Hr as ->.
  unfold flat_ante in Ef. destruct (pass (before_guard limit) tx simulate _) as [wg [[]|e]] eqn:E1; [|done].
  destruct (check_msgs _ _) eqn:Ec; [done|]. split; [by apply check_msgs_None|].
  destruct (pass after_guard tx simulate wg) as [[w g] [[]|e]] eqn:E2; [|done].
  exists limit, w, g. split; [done|]. split; [by rewrite pass_app, E1|].
  apply fork_cases in Ef. change (cs_world (set_wg st (w, g))) with w in Ef. change (cs_gas (set_wg st (w, g))) with g in Ef.
  change (takes_classic (set_wg st (w, g)) w tx) with (takes_classic st w tx) in Ef.
  destruct (takes_classic st w tx); [done|]. destruct Ef as (c & Ef).
  apply authenticator_flow_cases in Ef as [[_ [e ?]]|(events & w1 & g1 & s & rs & He & Hv & Hs & Hb & Hr)]; [done|].
  destruct rs as [[]|e]; [|done]. destruct Hr as (ri & Hi & Hr). symmetry in Hr. apply recover_ok in Hr as ->.
  by exists events, w1, g1, s.
Qed.


(** What a refused transaction leaves. The store that survives is the one before
    it, or, in the authenticator flow only, the result of one fee deduction on
    the store the common decorators left, made after the first message was
    authenticated. *)
Theorem ante_refused options h tx simulate st st' e :
  NewAnteHandler ctx options = Ok h -> h tx simulate st = (st', Err e) ->
  cs_base st' = cs_base st \/
  exists limit w g w1 g1 env msg ar payer payer',
    pass (before_guard limit ++ after_guard) tx simulate (cs_world st, cs_gas st) = ((w, g), Ok tt) /\
    takes_classic st w tx = false /\ ValidateSigCount tx simulate (w, g) = ((w1, g1), Ok tt) /\
    read_tx tx simulate = Ok env /\ stx_Msgs tx !! 0%nat = Some msg /\
    authenticated ctx (SmartAccount options) env w1 0 msg ar /\
    DeductFee tx simulate (w1, payer) = ((cs_base st', payer'), Ok tt).
Proof.
  intros Hh. destruct (handler_flat options h tx simulate st Hh) as (limit & El & ->).
  destruct (flat_ante limit _ _ tx simulate st) as [st1 r] eqn:Ef. intros [= -> _].
  unfold flat_ante in Ef. destruct (pass (before_guard limit) tx simulate _) as [wg [[]|e1]] eqn:E1.
  2:{ left. by injection Ef as <- <-. }
  destruct (check_msgs _ _) eqn:Ec. { left. by injection Ef as <- <-. }
  destruct (pass after_guard tx simulate wg) as [[w g] [[]|e1]] eqn:E2.
  2:{ left. by injection Ef as <- <-. }
  apply fork_cases in Ef. change (cs_world (set_wg st (w, g))) with w in Ef. change (cs_gas (set_wg st (w, g))) with g in Ef.
  change (takes_classic (set_wg st (w, g)) w tx) with (takes_classic st w tx) in Ef.
  destruct (takes_classic st w tx) eqn:Et; [left; by destruct Ef as [_ ->]|]. destruct Ef as (c & Ef).
  apply authenticator_flow_cases in Ef as [[-> _]|(events & w1 & g1 & s & rs & He & Hv & Hs & -> & _)]; [by left|].
  cbn [cs_base set_wg] in Hs. apply AnteHandle_fees_cases in Hs as [[-> _]|(env & msg & ar & payer & payer' & Hr & Hm & Ha & Hfee & _)];
    [by left|].
  right. exists limit, w, g, w1, g1, env, msg, ar, payer, payer'. split; [by rewrite pass_app, E1|]. done.
Qed.

(** The handler exists exactly when the keepers it needs are there. *)
Lemma NewAnteHandler_iff options :
  (exists h, NewAnteHandler ctx options = Ok h) <->
  AccountKeeper options = true /\ BankKeeper options = true /\ SignModeHandler options = true /\
  TXCounterStoreKey options = true /\ WasmConfig options <> None.
Proof.
  unfold NewAnteHandler. destruct (AccountKeeper options), (BankKeeper options), (SignModeHandler options),
    (TXCounterStoreKey options), (WasmConfig options); cbn; naive_solver.
Qed.

(** The events exist only when every signature has a signer at its place. *)
Lemma pubkey_events_length signers i sigs events :
  pubkey_events signers i sigs = Ok events -> (sigs = [] \/ i + length sigs <= length signers)%nat /\
  (length sigs <= length events)%nat.
Proof.
  revert i events. induction sigs as [|[d q] sigs IH]; intros i events H; cbn [pubkey_events] in H.
  { injection H as <-. cbn. split; [by left|lia]. }
  destruct (signers !! i) as [signer|] eqn:E; [|done]. apply rbind_ok in H as (bz & _ & H).
  apply rbind_ok in H as (ev & Hev & H). injection H as <-. apply lookup_lt_Some in E.
  destruct (IH _ _ Hev) as [Hl Hn]. cbn [length]. rewrite length_app. split; [right; destruct Hl as [->|]; cbn; lia|lia].
Qed.
End Laws.

(** ** A small instance, for the witnesses *)

Fixpoint toy_ante_chain (ds : list (Decorator toy (Z * Z))) : Handler toy (Z * Z) :=
  match ds with [] => Terminator | d :: ds' => fun tx simulate => d tx simulate (toy_ante_chain ds') end.
Definition pass_on : Stock toy (Z * Z) := fun _ _ => mret tt.
(** The meter is charged for the size; a signature is good when its sequence is. *)
#[local] Instance ToyAnte : AnteSdk toy (Z * Z) := {|
  SetUpContext _ _ st := ((st.1, (500000, 0)), Ok tt);
  LimitSimulationGas _ := pass_on; CountTX := pass_on; ExtensionOptions := pass_on;
  ValidateBasicTx tx _ := mlift (fail_if (match stx_Msgs tx with [] => true | _ => false end) ErrInvalidRequest);
  TxTimeoutHeight := pass_on; ValidateMemo := pass_on;
  ConsumeGasForTxSize _ _ st := ((st.1, (meter_ConsumeGas (GasMeter := PairMeter) 100 st.2).1), Ok tt);
  SetPubKey := pass_on; ValidateSigCount := pass_on;
  SigGasConsumer := unit; DefaultSigVerificationGasConsumer := tt; SigGasConsume _ := pass_on;
  SigVerification tx _ :=
    mlift (fail_if (negb (bool_decide (map sig_Sequence <$> stx_Signatures tx = Some [5]))) ErrUnauthorized);
  IncrementSequence := pass_on; RedundantRelay := pass_on;
  ChainAnteDecorators := toy_ante_chain;
  sudo_view m := match sm_Any m with
                 | Some any => if bytes_eqb (TypeURL any) (str "/sudo") then MsgSudoContract (Value any) else OtherMsg
                 | None => OtherMsg
                 end;
  GetSignaturesV2 tx := map (fun s => (match sig_Single s with Some b => SingleSignatureData b | None => SdOther end,
                                       sig_Sequence s)) <$> stx_Signatures tx;
  MultiSignature_Marshal sigs := Some (concat sigs)
|}.
#[local] Instance ToyAnteLaws : AnteLaws toy (Z * Z).
Proof. split; reflexivity. Qed.
#[local] Existing Instances QuietSa PairMeter ToyTx.

Definition w_options : HandlerOptions unit := MkOptions unit true true true true None w_keeper (Some None) true true [].
Definition w_chain0 : chain_state toy (Z * Z) := MkChain w_st1.1 w_st1.1 (0, 0) [] new_cache.
Definition w_handler : Handler toy (Z * Z) := fun tx simulate st =>
  match NewAnteHandler w_ctx w_options with Ok h => h tx simulate st | Err _ => (st, Err Panicked) end.
Definition no_extension (tx : SaTx) : SaTx :=
  MkSaTx (stx_Msgs tx) (stx_Fee tx) (stx_IsSigTx tx) (stx_Signatures tx) (stx_Signers tx) (stx_TimeoutHeight tx)
    (stx_Memo tx) None.

(** Both flows pass a good transaction and refuse a bad one; the refused one in
    the authenticator flow keeps the base here because its first message fails. *)
Example both_flows :
  (w_handler (w_tx 5) false w_chain0).2 = Ok tt /\ (w_handler (no_extension (w_tx 5)) false w_chain0).2 = Ok tt /\
  (w_handler (w_tx 4) false w_chain0).2 = Err (Fail ErrInvalidSequence) /\
  (w_handler (no_extension (w_tx 4)) false w_chain0).2 = Err (Fail ErrUnauthorized).
Proof. split; [vm_refl|]. split; [vm_refl|]. split; vm_refl. Qed.
Lemma w_handler_eq : exists h, NewAnteHandler w_ctx w_options = Ok h /\ forall tx simulate st, w_handler tx simulate st = h tx simulate st.
Proof. eexists. split; reflexivity. Qed.

Lemma w_stock_frame limit d :
  d ∈ ValidateSigCount :: before_guard limit ++ after_guard -> leaves_accounts (w_tx 5) false d.
Proof. intros H wg. repeat (apply elem_of_cons in H as [->|H]; [reflexivity|]). by apply elem_of_nil in H. Qed.
Lemma w_msgs_acct m a l : m ∈ stx_Msgs (w_tx 5) -> sm_Signers m = Some l -> a ∈ l -> acct_ok a.
Proof.
  intros Hm Hl Ha. change (stx_Msgs (w_tx 5)) with [w_msg; w_msg] in Hm.
  assert (m = w_msg) as -> by (apply elem_of_cons in Hm as [->|Hm]; [|apply list_elem_of_singleton in Hm as ->]; reflexivity).
  injection Hl as <-. apply list_elem_of_singleton in Ha as ->. unfold acct_ok. vm_refl.
Qed.
Lemma w_handler_run tx : exists st', w_handler tx false w_chain0 = (st', (w_handler tx false w_chain0).2).
Proof. exists (w_handler tx false w_chain0).1. by destruct (w_handler tx false w_chain0). Qed.

Lemma ante_refused_witness :
  exists st', w_handler (no_extension (w_tx 4)) false w_chain0 = (st', Err (Fail ErrUnauthorized)) /\
  (cs_base st' = cs_base w_chain0 \/ exists w, takes_classic w_chain0 w (no_extension (w_tx 4)) = false).
Proof.
  destruct (w_handler_run (no_extension (w_tx 4))) as [st' E].
  rewrite (proj2 (proj2 (proj2 both_flows))) in E. exists st'. split; [exact E|].
  destruct w_handler_eq as (h & Hh & Eh). rewrite Eh in E.
  destruct (ante_refused (AS := ToyAnte) w_ctx w_options h _ _ _ _ _ Hh E) as [H|(limit & w & g & w1 & g1 & env & msg & ar & p & p' & _ & Ht & _)];
    [left; exact H|right; exists w; exact Ht].
Defined.

(** ** Behaviour worth knowing *)

(** A message later in the transaction that is not authenticated: the
    transaction is refused, and its fee is gone. *)
Example refused_pays :
  let tx := MkSaTx [w_msg; w_msg] (Some (MkFeeInfo (str "alice") [] [])) true
    (Some [MkSignatureV2 (Some w_pk) 5]) (Some [str "alice"]) (Some 0) (Some []) (Some [Some [1; 9]]) in
  is_ok (w_handler tx false w_chain0).2 = false /\
  toy_gas (sa_rest (cs_base (w_handler tx false w_chain0).1)) = -1 /\ toy_gas (sa_rest (cs_base w_chain0)) = 0.
Proof. cbv zeta. split; [vm_refl|]. split; vm_refl. Qed.

(** The handler does not depend on the fee share and global fee keepers or on
    the list of bypassed messages: none of their decorators is in the chain. *)
Example fee_modules_unused (ctx : sa_ctx) (a b : bool) (l : list bytes) :
  NewAnteHandler ctx (MkOptions unit true true true true None w_keeper (Some None) a b l) = NewAnteHandler ctx w_options.
Proof. reflexivity. Qed.

(** The address in the event that indexes a transaction is raw bytes, not text. *)
Example acc_seq_raw : pubkey_events [[Byte.xff; Byte.x00]] 0 [(SingleSignatureData (str "s"), 7)] =
  Ok [[(str "acc_seq", [Byte.xff; Byte.x00; "/"%byte; "7"%byte]); (str "authenticator_acc_seq", [Byte.xff; Byte.x00; "/"%byte; "7"%byte])];
      [(str "signature", str "cw=="); (str "authenticator_signature", str "cw==")]].
Proof. vm_refl. Qed.
