(* ===== verification/Queries.v ===== *)
(** * The query servers of the smaller modules

    [x/tokenfactory/keeper/grpc_query.go], [x/smart-account/keeper/query.go] and
    [query_params.go], [x/cw-hooks/keeper/grpc_query.go],
    [x/drip/keeper/grpc_query.go], [x/globalfee/querier.go]: each query over the
    keeper of its module. The theorems read the answers off the abstract state
    the keepers implement. *)

From S2P Require Import Prelude KVStore Json JsonPrint Sdk Proto GlobalFee SaFilter SaAuth CwHooks SaKeeper Drip TokenFactory.
Open Scope go_scope.

(** ** Token factory *)

Module TfQuery.
Section Operations.
Context {B : Type} `{!Sdk B}.
Definition tfq_Params (s : TF B) : result tf_err TokenFactory.Params := Ok (tf_params s).
Definition tfq_DenomAuthorityMetadata (s : TF B) (Denom : bytes) : result tf_err TokenFactory.DenomAuthorityMetadata :=
  GetAuthorityMetadata s Denom.
Definition DenomsFromCreator (s : TF B) (Creator : bytes) : result tf_err (list bytes) :=
  Ok (GetDenomsFromCreator s Creator).
End Operations.

Section Answers.
Context {B : Type} `{!Sdk B} `{!BankLaws B} `{!AdminCodec B} `{!AddressLaws B}.
Implicit Types s : TF B.

(** An entry of a creator's list whose name has no bar is the denom itself. *)
Lemma listed_value s c d v : tf_keys_ok s -> bar ∉ d -> tf_store s !! (GetCreatorPrefix c ++ d) = Some v ->
  v = d /\ is_Some (tf_store s !! authority_key d).
Proof.
  intros Hk Hb Hv. destruct (proj1 Hk _ _ Hv) as [(d' & a & cs & He & _)|(c' & He & Hs)].
  - by destruct (authority_key_creator d' c d).
  - destruct Hs as [v' Hs]. destruct (tf_keys_authority s v v' Hk Hs) as (a & cs & _ & _ & _ & Hc & _).
    apply DeconstructDenom_no_bar in Hc. apply GetCreatorPrefix_inj in He; [|done..]. subst. by eauto.
Qed.
(** In every state the messages can reach, the authority query never fails; its
    answer has an admin only if the denom exists. Each list of a creator has its
    denoms once; a name without a bar in it is a denom that exists, every denom
    that exists is in a list, and in one list only. *)
Theorem tf_queries_exact s :
  tf_inv s ->
  (forall d, exists a, tfq_DenomAuthorityMetadata s d = Ok (MkAuthority a) /\
     (a <> [] -> is_Some (tf_store s !! authority_key d))) /\
  (forall c, exists l, DenomsFromCreator s c = Ok l /\ NoDup l /\
     forall d, d ∈ l -> bar ∉ d -> is_Some (tf_store s !! authority_key d) /\
       forall c' l', DenomsFromCreator s c' = Ok l' -> d ∈ l' -> c' = c) /\
  forall d, is_Some (tf_store s !! authority_key d) -> exists c l, DenomsFromCreator s c = Ok l /\ d ∈ l.
Proof.
  intros [Hk Hx]. split; [|split].
  - intros d. destruct (tf_store s !! authority_key d) as [v|] eqn:E.
    + destruct (tf_keys_authority s d v Hk E) as (a & cs & _ & _ & Ha & _). exists a. split; [done|]. by eauto.
    + exists []. unfold tfq_DenomAuthorityMetadata, GetAuthorityMetadata, store_Get. rewrite E. cbn. by rewrite admin_empty.
  - intros c. eexists. split; [done|]. split.
    + apply NoDup_suffixes.
    + intros d Hd Hb. apply elem_of_GetDenomsFromCreator in Hd as [v Hv].
      destruct (listed_value s c d v Hk Hb Hv) as [-> Hs]. split; [done|].
      intros c' l' [= <-] Hd'. apply elem_of_GetDenomsFromCreator in Hd' as [v' Hv'].
      destruct (listed_value s c' d v' Hk Hb Hv') as [-> _]. destruct Hk as (_ & Hu & _).
      pose proof (Hu _ _ _ Hv' Hv (GetCreatorPrefix_has _ _) (GetCreatorPrefix_has _ _)) as E.
      rewrite !GetCreatorPrefix_app in E. apply app_inv_head in E. injection E as E. by apply app_inv_tail in E.
  - intros d Hs. destruct (Hx d Hs) as [c Hc]. exists c. eexists. split; [done|]. apply elem_of_GetDenomsFromCreator. by eauto.
Qed.
End Answers.
End TfQuery.

(** ** Smart accounts *)

Module SaQuery.
Inductive sq_err := InvalidArgument | Internal (e : sa_fail).
Record GetAuthenticatorRequest := MkGetAuthenticator { ga_Account : bytes; ga_AuthenticatorId : Z }.
Section Operations.
Context {B G : Type} {SdkB : Sdk B} {GM : GasMeter G} {SS : SaSdk B G} {Cd : SaCodec}.
Definition internal {A : Type} (r : result sa_fail A) : result sq_err A :=
  match r with Ok a => Ok a | Err e => Err (Internal e) end.
(** [None] is a nil request. *)
Definition GetAuthenticators (w : world B) (request : option bytes) : result sq_err (list AccountAuthenticator) :=
  match request with
  | None => Err InvalidArgument
  | Some account =>
      try! acc <- internal (opt_or (AccAddressFromBech32 account) ErrAddress);
      internal (GetAuthenticatorDataForAccount w acc)
  end.
Definition GetAuthenticator (w : world B) (request : option GetAuthenticatorRequest) : result sq_err AccountAuthenticator :=
  match request with
  | None => Err InvalidArgument
  | Some request =>
      try! acc <- internal (opt_or (AccAddressFromBech32 (ga_Account request)) ErrAddress);
      internal (GetSelectedAuthenticatorData w acc (i64 (ga_AuthenticatorId request)))
  end.
(** A panic when the parameters were never set. *)
Definition saq_Params (w : world B) (req : option unit) : result sq_err SaParams :=
  match req with
  | None => Err InvalidArgument
  | Some _ => match sa_params w with Some p => Ok p | None => Err (Internal Panicked) end
  end.
End Operations.

Section Answers.
Context {B G : Type} {SdkB : Sdk B} {AL : AddressLaws B} {GM : GasMeter G} {SS : SaSdk B G} {Cd : SaCodec} {CL : SaCodecLaws}.

(** On a store that implements a registry, a query for an account that parses
    answers exactly its authenticators, and one by number exactly the one of
    that number when the account owns it, whatever the sign of the number as an
    [int]; an address that does not parse is an internal error. *)
Theorem sa_queries_exact (w : world B) R account addr :
  sa_rel (sa_store w) R ->
  (AccAddressFromBech32 account = None ->
     GetAuthenticators w (Some account) = Err (Internal (Fail ErrAddress)) /\
     forall id, GetAuthenticator w (Some (MkGetAuthenticator account id)) = Err (Internal (Fail ErrAddress))) /\
  (AccAddressFromBech32 account = Some addr -> acct_ok addr ->
     (exists l, GetAuthenticators w (Some account) = Ok l /\
        forall a, a ∈ l <-> rg_auth R !! aa_Id a = Some (addr, (aa_Type a, aa_Config a))) /\
     forall id, is_u64 id -> GetAuthenticator w (Some (MkGetAuthenticator account id)) =
       match rg_auth R !! id with
       | Some (a, (t, c)) => if bytes_eqb a addr then Ok (MkAccountAuthenticator id t c)
                             else Err (Internal (Fail ErrInvalidRequest))
       | None => Err (Internal (Fail ErrInvalidRequest))
       end).
Proof.
  intros HR. unfold GetAuthenticators, GetAuthenticator. cbn [ga_Account ga_AuthenticatorId]. split.
  - intros E. by rewrite E.
  - intros E Ha. rewrite E. cbn [opt_or internal rbind]. split.
    + destruct (GetForAccount_rel w R addr HR Ha) as (l & -> & Hl). by exists l.
    + intros id Hi. assert (Eid : GetSelectedAuthenticatorData w addr (i64 id) = GetSelectedAuthenticatorData w addr id).
      { unfold GetSelectedAuthenticatorData. by rewrite u64_i64. }
      rewrite Eid, (GetSelected_rel w R addr id HR Ha Hi).
      destruct (rg_auth R !! id) as [[a [t c]]|]; [|done]. by destruct (bytes_eqb a addr).
Qed.
End Answers.
End SaQuery.

(** ** Hooks, drip, global fee *)

Module CwQuery.
Section Operations.
Context {B : Type} {SdkB : Sdk B} {CB : CwSdk B} {PP : Proto CwParams}.
Definition cwq_Params : meth (cw_state B) cw_err CwParams := cw_GetParams.
Definition StakingContracts (st : cw_state B) : list bytes := GetAllContractsBech32 KeyPrefixStaking (cw_store st).
Definition GovernanceContracts (st : cw_state B) : list bytes := GetAllContractsBech32 KeyPrefixGov (cw_store st).
End Operations.

Section Answers.
Context {B : Type} {SdkB : Sdk B} {AL : AddressLaws B} {CB : CwSdk B} {CL : CwLaws B} {PP : Proto CwParams} {PL : ProtoLaws CwParams}.
(** The listings are the texts of the registered contracts and parse back to
    them; the parameters are those of the registry. *)
Theorem cw_queries_exact (st : cw_state B) (r : CwHooks.registry) :
  cw_rel (cw_store st) r ->
  cwq_Params st = (st, Ok (rg_params r)) /\
  (forall x, x ∈ StakingContracts st <-> exists a, a ∈ rg_staking r /\ x = AccAddress_String a) /\
  (forall x, x ∈ GovernanceContracts st <-> exists a, a ∈ rg_gov r /\ x = AccAddress_String a) /\
  (forall x, x ∈ StakingContracts st ++ GovernanceContracts st -> AccAddressFromBech32 x <> None).
Proof.
  intros (Hp & Hs & Hg). split; [by apply cw_GetParams_rel|].
  assert (Hl : forall pfx X, holds_set (cw_store st) pfx X ->
    forall x, x ∈ GetAllContractsBech32 pfx (cw_store st) <-> exists a, a ∈ X /\ x = AccAddress_String a).
  { intros pfx X H x. unfold GetAllContractsBech32. rewrite list_elem_of_fmap.
    destruct (GetAllContracts_rel _ _ _ H) as (_ & _ & Hm). setoid_rewrite Hm. naive_solver. }
  split; [by apply Hl|]. split; [by apply Hl|].
  intros x. rewrite elem_of_app, (Hl _ _ Hs), (Hl _ _ Hg). destruct Hs as [_ Hs], Hg as [_ Hg].
  intros [(a & [s Ha]%Hs & ->)|(a & [s Ha]%Hg & ->)]; by rewrite (bech32_roundtrip _ _ Ha).
Qed.
End Answers.
End CwQuery.

Module DripQuery.
Definition dripq_Params {B : Type} {PP : Proto DripParams} : meth (drip_state B) drip_err DripParams := drip_GetParams.
End DripQuery.
Module GlobalFeeQuery.
Definition MinimumGasPrices (s : GF) : result gf_err DecCoins := Ok (gf_GetParams s).
End GlobalFeeQuery.

(** ** Witnesses *)

#[local] Existing Instances QuietSa PairMeter.
Lemma w_tf1_inv : tf_inv w_tf1.
Proof.
  apply (tf_inv_run w_tfk w_tf0).
  - split; [split; [|split; [|by vm_compute]]|]; cbn.
    + intros k v Hk. by rewrite lookup_empty in Hk.
    + intros k1 k2 v Hk. by rewrite lookup_empty in Hk.
    + intros d Hd. rewrite lookup_empty in Hd. by destruct Hd.
  - apply (run_msg _ _ (MsgCreateDenom w_alice (str "gold")) w_tf1); [split; vm_refl|]. apply run_nil.
Qed.
Lemma tf_queries_exact_witness :
  tf_inv w_tf1 /\ exists c l, TfQuery.DenomsFromCreator w_tf1 c = Ok l /\ w_denom ∈ l.
Proof.
  split; [apply w_tf1_inv|]. destruct (TfQuery.tf_queries_exact w_tf1 w_tf1_inv) as (_ & _ & H). apply H.
  exists (MarshalAdmin w_alice). vm_refl.
Defined.
Lemma sa_queries_exact_witness :
  sa_rel (sa_store w_st1.1) w_reg1 /\
  SaQuery.GetAuthenticator w_st1.1 (Some (SaQuery.MkGetAuthenticator (str "terp1alice") 1)) =
    Ok (MkAccountAuthenticator 1 w_sig w_pk).
Proof.
  split; [exact w_sa_rel|].
  destruct (SaQuery.sa_queries_exact w_st1.1 w_reg1 (str "terp1alice") (str "alice") w_sa_rel) as [_ H].
  destruct H as [_ H]; [vm_refl|unfold acct_ok; vm_refl|]. rewrite H by (unfold is_u64; lia). vm_refl.
Defined.
Lemma cw_queries_exact_witness :
  cw_rel (cw_store w_cw) w_registry /\ str "terp1good" ∈ CwQuery.StakingContracts w_cw.
Proof.
  split; [exact w_cw_rel|]. destruct (CwQuery.cw_queries_exact w_cw w_registry w_cw_rel) as (_ & H & _).
  apply H. exists (str "good"). split; [set_solver|vm_refl].
Defined.

(** A denom that was never created answers like one whose admin renounced it. *)
Example unknown_denom_answers :
  TfQuery.tfq_DenomAuthorityMetadata w_tf0 (str "factory/terp1alice/none") = Ok (MkAuthority []).
Proof. vm_refl. Qed.
