(* ===== verification/Cli.v ===== *)
(** * terputils/terpcli: commands from message types

    [terputils/terpcli/{parsers,flag_advice,dynamic}.go] and the argument counts
    of [tx_cmd_wrap.go] and [query_cmd_wrap.go]: a request or message is filled
    from the arguments and flags of a command, field by field, by reflection. A
    type is the list of its fields. [strconv] is modelled; coins, decimals,
    durations, times and the flag set are parameters. The theorems say which
    argument a field gets, when every argument is used, and what of printed
    numbers reads back. *)

From S2P Require Import Prelude Json JsonPrint.
Open Scope go_scope.

(** ** Data *)

(** [reflect.Kind], with the width of integers and whether a signed one is a
    [time.Duration]. *)
Inductive Kind :=
| KBool | KUint (bits : Z) | KInt (bits : Z) (duration : bool) | KFloat | KString | KPtr | KSlice | KStruct | KOther.
(** A field: its name, kind, [Type.String()] and whether its tag says
    [deprecated:"true"]. *)
Record Field := MkField { f_Name : bytes; f_Kind : Kind; f_Type : bytes; f_Deprecated : bool }.
(** What a field is set to; values made by a parameter are of the type [X]. *)
Inductive Value (X : Type) :=
| VBool (b : bool) | VUint (z : Z) | VInt (z : Z) | VString (s : bytes) | VUints (l : list Z) | VOther (x : X).
Arguments VBool {X}.
Arguments VUint {X}.
Arguments VInt {X}.
Arguments VString {X}.
Arguments VUints {X}.
Arguments VOther {X}.
Inductive cli_err :=
| CliParse       (* a value that does not parse *)
| CliNoFlag      (* "Programmer set the flag name wrong" *)
| CliFlag        (* an error of the flag set *)
| CliType        (* a type that is not recognized *)
| CliCustom      (* an error of a custom parser *)
| CliPanic.

(** [pflag.FlagSet]: [None] is an error, of [Lookup] a nil flag. *)
Record FlagSet (X : Type) := MkFlagSet {
  GetString : bytes -> option bytes;
  Lookup : bytes -> option bytes;
  GetUint64 : bytes -> option Z;
  ReadPageRequest : option X
}.
Arguments MkFlagSet {X}.
Arguments GetString {X}.
Arguments Lookup {X}.
Arguments GetUint64 {X}.
Arguments ReadPageRequest {X}.

(** A custom parser: the value or an error, and whether it used the argument. *)
Definition CustomFieldParserFn (X : Type) : Type := bytes -> FlagSet X -> result cli_err (Value X) * bool.
Record FlagAdvice (X : Type) := MkAdvice {
  HasPagination : bool;
  CustomFlagOverrides : gmap bytes bytes;
  CustomFieldParsers : gmap bytes (CustomFieldParserFn X);
  IsTx : bool;
  TxSenderFieldName : bytes;
  FromValue : bytes
}.
Arguments MkAdvice {X}.
Arguments HasPagination {X}.
Arguments CustomFlagOverrides {X}.
Arguments CustomFieldParsers {X}.
Arguments IsTx {X}.
Arguments TxSenderFieldName {X}.
Arguments FromValue {X}.

Class CliSdk (X : Type) := {
  time_ParseDuration : bytes -> option Z;
  strconv_ParseFloat : bytes -> option X;
  ParseCoinNormalized : bytes -> option X;
  ParseCoinsNormalized : bytes -> option X;
  NewIntFromString : bytes -> option X;
  LegacyDecFromStr : bytes -> option X;
  time_Parse : bytes -> option X;
  time_Unix : Z -> X
}.

(** ** The language's library *)

(** [strings.ToLower] on the names of fields, which are ASCII. *)
Definition lower_byte (b : byte) : byte :=
  if (65 <=? byte_val b) && (byte_val b <=? 90) then byte_of_Z (byte_val b + 32) else b.
Definition ToLower (s : bytes) : bytes := map lower_byte s.
Definition has_suffix (suf s : bytes) : bool := has_prefix (rev suf) (rev s).
(** [unicode.IsSpace], in UTF-8. *)
Definition spaces : list bytes :=
  map (fun z => [byte_of_Z z]) [9; 10; 11; 12; 13; 32] ++
  map (map byte_of_Z) ([[194; 133]; [194; 160]; [225; 154; 128]; [226; 128; 168]; [226; 128; 169]; [226; 128; 175];
    [226; 129; 159]; [227; 128; 128]] ++ map (fun z => [226; 128; 128 + z]) [0; 1; 2; 3; 4; 5; 6; 7; 8; 9; 10]).
(** Whole spaces off the front; each is a byte at least, so the length is
    enough fuel. *)
Fixpoint trim_front (fuel : nat) (sp : list bytes) (s : bytes) : bytes :=
  match fuel with
  | O => s
  | S n => match List.find (fun p => has_prefix p s) sp with
           | Some p => trim_front n sp (drop (length p) s)
           | None => s
           end
  end.
Definition TrimSpace (s : bytes) : bytes :=
  let s := trim_front (length s) spaces s in
  rev (trim_front (length s) (map (@rev byte) spaces) (rev s)).
(** [strconv.ParseBool], [ParseUint(s, 10, 64)], [ParseInt(s, 10, 64)]. *)
Definition strconv_ParseBool (s : bytes) : option bool :=
  if bool_decide (s ∈ [str "1"; str "t"; str "T"; str "true"; str "TRUE"; str "True"]) then Some true
  else if bool_decide (s ∈ [str "0"; str "f"; str "F"; str "false"; str "FALSE"; str "False"]) then Some false
  else None.
Definition strconv_ParseUint (s : bytes) : option Z := parse_uint 64 s.
Definition strconv_ParseInt (s : bytes) : option Z :=
  let '(neg, d) := match s with
                   | c :: d => if bool_decide (c = "-"%byte) then (true, d) else if bool_decide (c = "+"%byte) then (false, d) else (false, s)
                   | [] => (false, [])
                   end in
  if forallb is_digit d && negb (bool_decide (d = [])) then
    if neg then if digits_val d <=? 2 ^ 63 then Some (- digits_val d) else None
    else if digits_val d <? 2 ^ 63 then Some (digits_val d) else None
  else None.
(** What [SetUint] and [SetInt] store in a field of the width. *)
Definition wrap_u (bits z : Z) : Z := z mod 2 ^ bits.
Definition wrap_i (bits z : Z) : Z := (z + 2 ^ (bits - 1)) mod 2 ^ bits - 2 ^ (bits - 1).

(** ** flag_advice.go *)

(** The maps are rebuilt with lower-case keys. The order in which Go walks a map
    matters when two keys differ by case only: [l] lists the map in that order. *)
Definition lower_keys {V : Type} (l : list (bytes * V)) : gmap bytes V :=
  foldl (fun m kv => <[ToLower kv.1 := kv.2]> m) ∅ l.
Definition Sanitize {X : Type} (f : FlagAdvice X) (overrides : list (bytes * bytes))
    (parsers : list (bytes * CustomFieldParserFn X)) : FlagAdvice X :=
  MkAdvice (HasPagination f) (lower_keys overrides) (lower_keys parsers) (IsTx f) (TxSenderFieldName f) (FromValue f).
Definition FlagOnlyParser {X : Type} (f : FlagSet X -> result cli_err (Value X)) : CustomFieldParserFn X :=
  fun _ fs => (f fs, false).

(** ** parsers.go *)

Section Parsers.
Context {X : Type} {CS : CliSdk X}.

Definition or_parse {A : Type} (o : option A) : result cli_err A :=
  match o with Some a => Ok a | None => Err CliParse end.
Definition ParseUint (arg : bytes) : result cli_err Z := or_parse (strconv_ParseUint arg).
Definition ParseInt (arg : bytes) : result cli_err Z := or_parse (strconv_ParseInt arg).
Definition ParseFloat (arg : bytes) : result cli_err X := or_parse (strconv_ParseFloat arg).
Definition ParseUnixTime (arg : bytes) : result cli_err X :=
  match strconv_ParseInt arg with
  | None => or_parse (time_Parse arg)
  | Some timeUnix => Ok (time_Unix timeUnix)
  end.
Definition ParseDenom (arg : bytes) : result cli_err bytes := Ok (TrimSpace arg).
Definition ParseCoin (arg : bytes) : result cli_err X := or_parse (ParseCoinNormalized arg).
Definition ParseCoins (arg : bytes) : result cli_err X := or_parse (ParseCoinsNormalized arg).
Definition ParseSdkInt (arg : bytes) : result cli_err X := or_parse (NewIntFromString arg).
Definition ParseSdkDec (arg : bytes) : result cli_err X := or_parse (LegacyDecFromStr arg).

Fixpoint parse_uints (elements : list bytes) : result cli_err (list Z) :=
  match elements with
  | [] => Ok []
  | e :: es =>
      try! u <- or_parse (strconv_ParseUint e);
      try! us <- parse_uints es;
      Ok (u :: us)
  end.
(** A negative number in square brackets is freed of them. *)
Definition unbracket (arg : bytes) : bytes :=
  if has_prefix (str "[") arg && has_suffix (str "]") arg && bool_decide (arg !! 1%nat = Some "-"%byte)
  then let arg := drop 1 arg in take (length arg - 1) arg
  else arg.
Definition ParseFieldFromArg (f : Field) (arg : bytes) : result cli_err (Value X) :=
  let arg := unbracket arg in
  match f_Kind f with
  | KBool => try! b <- or_parse (strconv_ParseBool arg); Ok (VBool b)
  | KUint bits => try! u <- ParseUint arg; Ok (VUint (wrap_u bits u))
  | KInt bits true => try! i <- or_parse (time_ParseDuration arg); Ok (VInt (wrap_i bits i))
  | KInt bits false => try! i <- ParseInt arg; Ok (VInt (wrap_i bits i))
  | KFloat => try! x <- ParseFloat arg; Ok (VOther x)
  | KString => try! s <- ParseDenom arg; Ok (VString s)
  | KSlice =>
      if bytes_eqb (f_Type f) (str "[]uint64") then try! l <- parse_uints (Split arg ","%byte); Ok (VUints l)
      else if bytes_eqb (f_Type f) (str "types.Coins") then try! x <- ParseCoins arg; Ok (VOther x)
      else Err CliType
  | KStruct =>
      if bytes_eqb (f_Type f) (str "types.Coin") then try! x <- ParseCoin arg; Ok (VOther x)
      else if bytes_eqb (f_Type f) (str "math.Int") then try! x <- ParseSdkInt arg; Ok (VOther x)
      else if bytes_eqb (f_Type f) (str "time.Time") then try! x <- ParseUnixTime arg; Ok (VOther x)
      else if bytes_eqb (f_Type f) (str "math.LegacyDec") then try! x <- ParseSdkDec arg; Ok (VOther x)
      else Err CliType
  | KPtr | KOther => Err CliType
  end.

(** [SetUint] panics on a field that is not unsigned. *)
Definition set_uint (f : Field) (u : Z) : result cli_err (Value X) :=
  match f_Kind f with KUint bits => Ok (VUint (wrap_u bits u)) | _ => Err CliPanic end.
(** A flag that is neither a string nor a [uint64] is read as the empty text. *)
Definition parseFieldFromDirectlySetFlag (f : Field) (flagName : bytes) (flags : FlagSet X) : result cli_err (Value X) :=
  match GetString flags flagName with
  | Some s => ParseFieldFromArg f s
  | None =>
      match Lookup flags flagName with
      | None => Err CliNoFlag
      | Some t =>
          if bytes_eqb t (str "uint64") then
            match GetUint64 flags flagName with None => Err CliFlag | Some u => set_uint f u end
          else ParseFieldFromArg f []
      end
  end.
Definition paginationType : bytes := str "*query.PageRequest".
(** Whether the field takes the sender. *)
Definition is_sender (advice : FlagAdvice X) (name : bytes) : bool :=
  bytes_eqb (TxSenderFieldName advice) name ||
  (bytes_eqb (TxSenderFieldName advice) [] && (bytes_eqb name (str "sender") || bytes_eqb name (str "owner"))).
(** [None]: not parsed from a flag. *)
Definition ParseFieldFromFlag (f : Field) (advice : FlagAdvice X) (flags : FlagSet X) : option (result cli_err (Value X)) :=
  let name := ToLower (f_Name f) in
  match CustomFlagOverrides advice !! name with
  | Some flagName => Some (parseFieldFromDirectlySetFlag f flagName flags)
  | None =>
      match f_Kind f with
      | KString => if IsTx advice && is_sender advice name then Some (Ok (VString (FromValue advice))) else None
      | KPtr =>
          if HasPagination advice && bytes_eqb (f_Type f) paginationType
          then Some (match ReadPageRequest flags with Some x => Ok (VOther x) | None => Err CliFlag end)
          else None
      | _ => None
      end
  end.
(** Whether the argument was used, and the value. *)
Definition ParseField (f : Field) (arg : bytes) (advice : FlagAdvice X) (flags : FlagSet X) :
    bool * result cli_err (Value X) :=
  match CustomFieldParsers advice !! ToLower (f_Name f) with
  | Some parseFn => let '(r, usedArg) := parseFn arg flags in (usedArg, r)
  | None =>
      match ParseFieldFromFlag f advice flags with
      | Some r => (false, r)
      | None => (true, ParseFieldFromArg f arg)
      end
  end.
(** The loop over the fields from the [i]th on; [None] is a field left alone.
    An index below zero would panic. *)
Fixpoint fields_loop (advice : FlagAdvice X) (flags : FlagSet X) (args : list bytes) (i argIndexOffset : Z) (fields : list Field) :
    result cli_err (list (option (Value X))) :=
  match fields with
  | [] => Ok []
  | f :: fs =>
      if f_Deprecated f then
        try! vs <- fields_loop advice flags args (i + 1) (argIndexOffset - 1) fs; Ok (None :: vs)
      else
        let at_ := i + argIndexOffset in
        if (at_ <? Z.of_nat (length args)) && (at_ <? 0) then Err CliPanic
        else
          let arg := if at_ <? Z.of_nat (length args) then default [] (args !! Z.to_nat at_) else [] in
          let '(usedArg, r) := ParseField f arg advice flags in
          try! v <- r;
          try! vs <- fields_loop advice flags args (i + 1) (if usedArg then argIndexOffset else argIndexOffset - 1) fs;
          Ok (Some v :: vs)
  end.
Definition ParseFieldsFromFlagsAndArgs (advice : FlagAdvice X) (flags : FlagSet X) (args : list bytes) (fields : list Field) :
    result cli_err (list (option (Value X))) :=
  fields_loop advice flags args 0 0 fields.
Definition ParseNumFields (fields : list Field) : Z := Z.of_nat (length fields).
Definition ParseHasPagination (fields : list Field) : bool := existsb (fun f => bytes_eqb (f_Type f) paginationType) fields.

(** ** tx_cmd_wrap.go, query_cmd_wrap.go: the number of arguments *)

(** [NumArgs] of the description, when it is not zero. *)
Definition BuildTxCli_NumArgs (NumArgs : Z) (fields : list Field) (overrides : gmap bytes bytes)
    (parsers : gmap bytes (CustomFieldParserFn X)) : Z :=
  if NumArgs =? 0 then ParseNumFields fields - 1 - Z.of_nat (size overrides) - Z.of_nat (size parsers) else NumArgs.
Definition prepareDescriptor_numArgs (hasPagination : bool) (fields : list Field) (overrides : gmap bytes bytes) : Z :=
  let hasPagination := hasPagination || ParseHasPagination fields in
  let numArgs := ParseNumFields fields - Z.of_nat (size overrides) in
  if hasPagination then numArgs - 1 else numArgs.

(** ** Numbers in text *)

Fixpoint parse_rows (subArrays : list bytes) : result cli_err (list (list Z)) :=
  match subArrays with
  | [] => Ok []
  | a :: rest =>
      try! row <- parse_uints (Split a ","%byte);
      try! rows <- parse_rows rest;
      Ok (row :: rows)
  end.
Definition ParseStringTo2DArray (input : bytes) : result cli_err (list (list Z)) := parse_rows (Split input ";"%byte).
(** The separator is a comma and a space. *)
Fixpoint join_text (strs : list bytes) : bytes :=
  match strs with
  | [] => []
  | [s] => s
  | s :: rest => s ++ str ", " ++ join_text rest
  end.
Definition ParseUint64SliceToString (values : list Z) : bytes := join_text (map FormatUint values).
End Parsers.

(** ** dynamic.go *)

Definition is_lower_digit (b : byte) : bool :=
  ((97 <=? byte_val b) && (byte_val b <=? 122)) || ((48 <=? byte_val b) && (byte_val b <=? 57)).
Definition is_upper (b : byte) : bool := (65 <=? byte_val b) && (byte_val b <=? 90).
(** The replacement of [([a-z0-9])([A-Z])] by [${1}-${2}]: matches never overlap,
    as a byte is not of both classes. *)
Fixpoint dashes (s : bytes) : bytes :=
  match s with
  | a :: ((b :: _) as s') => if is_lower_digit a && is_upper b then a :: "-"%byte :: dashes s' else a :: dashes s'
  | _ => s
  end.
Definition pascalToKebab (s : bytes) : bytes := ToLower (dashes s).
Definition nonAttachableFields : list bytes := [str "sender"; str "pagination"; str "owner"; str "admin"].
(** An absent key of the map reads as the empty string. *)
Definition attachFieldsToUse (overrides : gmap bytes bytes) (fields : list Field) : bytes :=
  concat (map (fun f => let fn := pascalToKebab (f_Name f) in
                        if negb (bytes_eqb (default [] (overrides !! fn)) []) || bool_decide (fn ∈ nonAttachableFields) then []
                        else str " [" ++ fn ++ str "]") fields).

(** ** Which argument a field gets *)

Section Consume.
Context {X : Type} {CS : CliSdk X} (advice : FlagAdvice X) (flags : FlagSet X).

(** The arguments as a queue: a field that uses its argument takes the first. *)
Fixpoint consume (args : list bytes) (fields : list Field) : result cli_err (list (option (Value X))) :=
  match fields with
  | [] => Ok []
  | f :: fs =>
      if f_Deprecated f then try! vs <- consume args fs; Ok (None :: vs)
      else let '(usedArg, r) := ParseField f (hd [] args) advice flags in
           try! v <- r;
           try! vs <- consume (if usedArg then tail args else args) fs;
           Ok (Some v :: vs)
  end.
Lemma fields_loop_consume args i offset fields :
  0 <= i + offset -> fields_loop advice flags args i offset fields = consume (drop (Z.to_nat (i + offset)) args) fields.
Proof.
  revert i offset. induction fields as [|f fs IH]; intros i offset Ho; cbn [fields_loop consume]; [done|].
  destruct (f_Deprecated f).
  { rewrite IH by lia. by replace (i + 1 + (offset - 1)) with (i + offset) by lia. }
  assert (Hneg : (i + offset <? 0) = false) by (apply Z.ltb_ge; lia). rewrite Hneg, andb_false_r.
  assert (Harg : (if i + offset <? Z.of_nat (length args) then default [] (args !! Z.to_nat (i + offset)) else []) =
    hd [] (drop (Z.to_nat (i + offset)) args)).
  { rewrite <- (Nat.add_0_r (Z.to_nat (i + offset))) at 1. rewrite <- lookup_drop.
    destruct (i + offset <? Z.of_nat (length args)) eqn:E.
    - by destruct (drop _ args).
    - apply Z.ltb_ge in E. by rewrite drop_ge by lia. }
  rewrite Harg. destruct (ParseField f _ advice flags) as [usedArg [v|e]]; [|done]. cbn [rbind].
  destruct usedArg.
  - rewrite IH by lia. replace (Z.to_nat (i + 1 + offset)) with (Z.to_nat (i + offset) + 1)%nat by lia.
    rewrite <- drop_drop. by destruct (drop (Z.to_nat (i + offset)) args).
  - rewrite IH by lia. by replace (i + 1 + (offset - 1)) with (i + offset) by lia.
Qed.

(** Whether a field takes an argument, when the custom parsers only read flags. *)
Definition takes_arg (f : Field) : bool :=
  negb (f_Deprecated f) && bool_decide (CustomFieldParsers advice !! ToLower (f_Name f) = None) &&
  bool_decide (CustomFlagOverrides advice !! ToLower (f_Name f) = None) &&
  match f_Kind f with
  | KString => negb (IsTx advice && is_sender advice (ToLower (f_Name f)))
  | KPtr => negb (HasPagination advice && bytes_eqb (f_Type f) paginationType)
  | _ => true
  end.
Definition flag_only : Prop :=
  map_Forall (fun _ p => exists f, p = FlagOnlyParser f) (CustomFieldParsers advice).
Lemma ParseField_takes f arg :
  flag_only -> f_Deprecated f = false ->
  (ParseField f arg advice flags).1 = takes_arg f /\
  (takes_arg f = true -> (ParseField f arg advice flags).2 = ParseFieldFromArg f arg) /\
  (takes_arg f = false -> forall arg', ParseField f arg' advice flags = ParseField f arg advice flags).
Proof.
  intros Hp Hd. unfold takes_arg, ParseField, ParseFieldFromFlag. rewrite Hd. cbn [negb andb].
  destruct (CustomFieldParsers advice !! ToLower (f_Name f)) as [p|] eqn:Ep.
  { destruct (Hp _ _ Ep) as [g ->]. cbn. done. }
  destruct (CustomFlagOverrides advice !! ToLower (f_Name f)); [done|].
  rewrite !bool_decide_true by done. cbn [andb].
  destruct (f_Kind f); cbn [negb]; try done; [destruct (IsTx advice && _)|destruct (HasPagination advice && _)]; done.
Qed.

(** Fields that take arguments, each with its own. *)
Definition arg_fields (fields : list Field) : list Field := filter (fun f => takes_arg f = true) fields.
Lemma consume_positions args fields vs :
  flag_only -> consume args fields = Ok vs ->
  length vs = length fields /\
  forall n f v, fields !! n = Some f -> vs !! n = Some v ->
    (f_Deprecated f = true <-> v = None) /\
    (takes_arg f = true -> exists x, v = Some x /\
       ParseFieldFromArg f (default [] (args !! length (arg_fields (take n fields)))) = Ok x).
Proof.
  intros Hp. revert args vs. induction fields as [|f fs IH]; intros args vs H; cbn [consume] in H.
  { injection H as <-. done. }
  destruct (f_Deprecated f) eqn:Ed.
  - apply rbind_ok in H as (vs' & H & E). injection E as <-. destruct (IH _ _ H) as [Hl Hv].
    assert (Ht : takes_arg f = false) by (unfold takes_arg; by rewrite Ed).
    split; [cbn; by rewrite Hl|]. intros [|n] g v Hg Hvn; cbn in Hg, Hvn; [injection Hg as <-; injection Hvn as <-|].
    + rewrite Ht. done.
    + destruct (Hv n g v Hg Hvn) as [H1 H2]. split; [done|]. intros Hg'. cbn [take arg_fields]. unfold arg_fields.
      rewrite filter_cons, Ht, decide_False by done. by apply H2.
  - destruct (ParseField_takes f (hd [] args) Hp Ed) as (Hu & Hr & _).
    destruct (ParseField f (hd [] args) advice flags) as [u r]. cbn [fst snd] in Hu, Hr. subst u.
    apply rbind_ok in H as (v0 & Hr0 & H). apply rbind_ok in H as (vs' & H & E). injection E as <-.
    destruct (IH _ _ H) as [Hl Hv]. split; [cbn; by rewrite Hl|].
    intros [|n] g v Hg Hvn; cbn in Hg, Hvn; [injection Hg as <-; injection Hvn as <-|].
    + split; [by rewrite Ed|]. intros Ht. exists v0. split; [done|]. rewrite (Hr Ht) in Hr0. by destruct args.
    + destruct (Hv n g v Hg Hvn) as [H1 H2]. split; [done|]. intros Hg'. destruct (H2 Hg') as (x & -> & Hx).
      exists x. split; [done|]. rewrite <- Hx. f_equal. cbn [take]. unfold arg_fields. rewrite filter_cons.
      destruct (takes_arg f); [rewrite decide_True by done|rewrite decide_False by done]; [|done].
      cbn [length]. by destruct args.
Qed.

(** The loop with its index arithmetic takes the arguments in order: it never
    reads outside of them, and when it succeeds every field is set but the
    deprecated ones, and the [n]th field, if it takes an argument, has the value
    of the argument whose number is the count of such fields before it (an
    argument that is not there counts as empty). *)
Theorem ParseFields_positions args fields :
  flag_only ->
  ParseFieldsFromFlagsAndArgs advice flags args fields = consume args fields /\
  forall vs, ParseFieldsFromFlagsAndArgs advice flags args fields = Ok vs ->
    length vs = length fields /\
    forall n f v, fields !! n = Some f -> vs !! n = Some v ->
      (f_Deprecated f = true <-> v = None) /\
      (takes_arg f = true -> exists x, v = Some x /\
         ParseFieldFromArg f (default [] (args !! length (arg_fields (take n fields)))) = Ok x).
Proof.
  intros Hp. assert (E : ParseFieldsFromFlagsAndArgs advice flags args fields = consume args fields)
    by apply (fields_loop_consume args 0 0 fields ltac:(lia)).
  split; [done|]. rewrite E. intros vs. by apply consume_positions.
Qed.
End Consume.

(** ** The number of arguments *)

Section Count.
Context {X : Type} {CS : CliSdk X}.

(** The names of the fields, in lower case. *)
Definition names (fields : list Field) : list bytes := map (fun f => ToLower (f_Name f)) fields.

Lemma size_named {V} (m : gmap bytes V) (l : list bytes) :
  NoDup l -> (forall k, is_Some (m !! k) -> k ∈ l) -> length (filter (fun k => is_Some (m !! k)) l) = size m.
Proof.
  intros Hn Hin. rewrite <- size_dom. rewrite <- (size_list_to_set (C := gset bytes) (filter _ l)) by by apply NoDup_filter.
  f_equal. apply set_eq. intros k. rewrite elem_of_list_to_set, list_elem_of_filter, elem_of_dom. naive_solver.
Qed.
Lemma filter_partition {A} (P Q : A -> Prop) {DP : forall x, Decision (P x)} {DQ : forall x, Decision (Q x)} (l : list A) :
  (forall x, x ∈ l -> P x -> Q x -> False) ->
  (length (filter P l) + length (filter Q l) = length (filter (fun x => P x \/ Q x) l))%nat.
Proof.
  induction l as [|x l IH]; intros Hd; [done|]. rewrite !filter_cons.
  assert (Hi : forall y, y ∈ l -> P y -> Q y -> False) by (intros y Hy; apply Hd; by right). specialize (IH Hi).
  destruct (decide (P x)) as [Hp|Hp], (decide (Q x)) as [Hq|Hq].
  - destruct (Hd x ltac:(left) Hp Hq).
  - rewrite decide_True by tauto. cbn [length]. lia.
  - rewrite decide_True by tauto. cbn [length]. lia.
  - rewrite decide_False by tauto. lia.
Qed.
Lemma filter_compl {A} (P : A -> Prop) {DP : forall x, Decision (P x)} (l : list A) :
  (length (filter P l) + length (filter (fun x => ~ P x) l) = length l)%nat.
Proof.
  induction l as [|x l IH]; [done|]. rewrite !filter_cons. destruct (decide (P x)).
  - rewrite decide_False by tauto. cbn [length]. lia.
  - rewrite decide_True by tauto. cbn [length]. lia.
Qed.
Lemma filter_ext_in {A} (P Q : A -> Prop) {DP : forall x, Decision (P x)} {DQ : forall x, Decision (Q x)} (l : list A) :
  Forall (fun x => P x <-> Q x) l -> filter P l = filter Q l.
Proof.
  induction 1 as [|x l Hx _ IH]; [done|]. rewrite !filter_cons, IH.
  destruct (decide (P x)), (decide (Q x)); tauto.
Qed.
Lemma filter_names {V} (m : gmap bytes V) (fields : list Field) :
  NoDup (names fields) -> (forall k, is_Some (m !! k) -> k ∈ names fields) ->
  length (filter (fun f => is_Some (m !! ToLower (f_Name f))) fields) = size m.
Proof.
  intros Hn Hin. rewrite <- (size_named m (names fields)) by done. clear Hn Hin. unfold names.
  induction fields as [|f fs IH]; [done|]. cbn [map]. rewrite !filter_cons.
  destruct (decide (is_Some (m !! ToLower (f_Name f)))); cbn [length]; by rewrite IH.
Qed.

(** The field that gets the sender and nothing else decides. *)
Definition sends (advice : FlagAdvice X) (f : Field) : bool :=
  match f_Kind f with KString => is_sender advice (ToLower (f_Name f)) | _ => false end &&
  bool_decide (CustomFieldParsers advice !! ToLower (f_Name f) = None) &&
  bool_decide (CustomFlagOverrides advice !! ToLower (f_Name f) = None).

Lemma takes_arg_iff (advice : FlagAdvice X) f :
  IsTx advice = true -> HasPagination advice = false -> f_Deprecated f = false ->
  ~ ((is_Some (CustomFlagOverrides advice !! ToLower (f_Name f)) \/ is_Some (CustomFieldParsers advice !! ToLower (f_Name f))) \/
     sends advice f = true) <-> takes_arg advice f = true.
Proof.
  intros Htx Hpg Hd. unfold takes_arg, sends. rewrite Htx, Hpg, Hd. cbn [negb andb].
  destruct (CustomFieldParsers advice !! _) as [p|]; [rewrite (bool_decide_false (_ = _)) by done; cbn|].
  { split; [|done]. intros H. destruct H. left. right. by eexists. }
  destruct (CustomFlagOverrides advice !! _) as [o|]; [rewrite (bool_decide_false (Some o = None)) by done|].
  { rewrite andb_false_r. split; [|done]. intros H. destruct H. left. left. by eexists. }
  rewrite !bool_decide_true, !andb_true_r by done. cbn [andb].
  assert (Hno : forall (Q : Prop) V W, ~ ((is_Some (@None V) \/ is_Some (@None W)) \/ Q) <-> ~ Q).
  { intros Q V W. split; [tauto|]. intros HQ [[[? ?]|[? ?]]|?]; [done|done|tauto]. }
  rewrite Hno. destruct (f_Kind f); cbn; try by split. destruct (is_sender advice _); cbn; split; try done.
Qed.

(** A command for a message whose fields have distinct names, none of them
    deprecated, whose overrides and custom parsers name fields of it, no field
    twice, and whose sender is one field, asks for exactly as many arguments as
    the fields take: every argument is used, and every field has one. *)
Theorem tx_args_exact (advice : FlagAdvice X) (fields : list Field) :
  IsTx advice = true -> HasPagination advice = false ->
  NoDup (names fields) -> Forall (fun f => f_Deprecated f = false) fields ->
  (forall k, is_Some (CustomFlagOverrides advice !! k) -> k ∈ names fields /\ CustomFieldParsers advice !! k = None) ->
  (forall k, is_Some (CustomFieldParsers advice !! k) -> k ∈ names fields) ->
  length (filter (fun f => sends advice f = true) fields) = 1%nat ->
  Z.of_nat (length (arg_fields advice fields)) =
  BuildTxCli_NumArgs 0 fields (CustomFlagOverrides advice) (CustomFieldParsers advice).
Proof.
  intros Htx Hpg Hn Hdep Ho Hp Hs.
  unfold BuildTxCli_NumArgs, ParseNumFields. change (0 =? 0) with true. cbn iota.
  set (O := fun f => is_Some (CustomFlagOverrides advice !! ToLower (f_Name f))).
  set (P := fun f => is_Some (CustomFieldParsers advice !! ToLower (f_Name f))).
  set (S := fun f => sends advice f = true).
  pose proof (filter_names (CustomFlagOverrides advice) fields Hn (fun k H => proj1 (Ho k H))) as HO.
  pose proof (filter_names (CustomFieldParsers advice) fields Hn Hp) as HP.
  pose proof (filter_partition O P fields) as H1. fold (O) in HO.
  assert (Hop : forall f, f ∈ fields -> O f -> P f -> False).
  { intros f _ Hof Hpf. destruct (Ho _ Hof) as [_ Hnone]. unfold P in Hpf. rewrite Hnone in Hpf. by destruct Hpf. }
  pose proof (filter_partition (fun f => O f \/ P f) S fields) as H2.
  assert (Hops : forall f, f ∈ fields -> O f \/ P f -> S f -> False).
  { intros f _ [Hof|Hpf] Hsf; unfold S, sends in Hsf; repeat rewrite andb_true_iff in Hsf; destruct Hsf as [[_ E1] E2];
      apply bool_decide_eq_true in E1, E2.
    - unfold O in Hof. rewrite E2 in Hof. by destruct Hof.
    - unfold P in Hpf. rewrite E1 in Hpf. by destruct Hpf. }
  pose proof (filter_compl (fun f => (O f \/ P f) \/ S f) fields) as H3.
  cbv beta in H1, H2, H3. match type of H3 with (_ + length ?F = _)%nat => assert (H4 : F = arg_fields advice fields) end.
  { apply filter_ext_in. rewrite Forall_forall in Hdep |- *. intros f Hf. by apply takes_arg_iff; [..|apply Hdep]. }
  specialize (H1 Hop). specialize (H2 Hops). rewrite H4 in H3. unfold O, P, S in *. lia.
Qed.
End Count.

(** ** Numbers in text *)

Section Text.
Context {X : Type} {CS : CliSdk X}.

(** Rows of numbers as the reader expects them. *)
Definition print_row (row : list Z) : bytes := Join (map FormatUint row) ","%byte.
Definition print_rows (rows : list (list Z)) : bytes := Join (map print_row rows) ";"%byte.

Lemma Format_no_sep z c : is_u64 z -> is_digit c = false -> c ∉ FormatUint z.
Proof.
  intros Hz Hc Hin. pose proof (FormatUint_digits z) as Hd. rewrite forallb_forall in Hd.
  apply list_elem_of_In, Hd in Hin. congruence.
Qed.
Lemma Split_none s c : c ∉ s -> Split s c = [s].
Proof.
  induction s as [|b s IH]; [done|]. rewrite not_elem_of_cons. intros [Hb Hs]. cbn [Split].
  rewrite decide_False by done. by rewrite IH.
Qed.
Lemma Split_Join l c : l <> [] -> Forall (fun p => c ∉ p) l -> Split (Join l c) c = l.
Proof.
  induction l as [|p [|q l] IH]; intros Hn Hf; [done|..]; apply Forall_cons in Hf as [Hp Hf].
  - by apply Split_none.
  - rewrite Join_cons, Split_app by done. by rewrite IH.
Qed.
Lemma Join_no_sep l c d : c <> d -> Forall (fun p => c ∉ p) l -> c ∉ Join l d.
Proof.
  intros Hc. induction l as [|p [|q l] IH]; intros Hf; [apply not_elem_of_nil|..]; apply Forall_cons in Hf as [Hp Hf]; [done|].
  rewrite Join_cons by done. rewrite not_elem_of_app, not_elem_of_cons. by split_and!; [..|apply IH].
Qed.
Lemma ParseUint_Format z : is_u64 z -> strconv_ParseUint (FormatUint z) = Some z.
Proof.
  intros Hz. unfold strconv_ParseUint, parse_uint. rewrite FormatUint_digits, FormatUint_val by done.
  rewrite bool_decide_false; [|intros E; pose proof (FormatUint_lit z Hz) as Hl; by rewrite E in Hl].
  unfold is_u64 in Hz. by rewrite (proj2 (Z.ltb_lt z (2 ^ 64))) by lia.
Qed.
Lemma parse_uints_print row : Forall is_u64 row -> parse_uints (map FormatUint row) = Ok row.
Proof. induction 1 as [|z row Hz _ IH]; cbn [map parse_uints]; [done|]. by rewrite ParseUint_Format, IH. Qed.

(** A number prints and reads back; a list printed with commas reads back as an
    argument for a field of such numbers, and rows printed with semicolons as
    rows, when no row is empty. *)
Theorem numbers_roundtrip rows row f :
  rows <> [] -> Forall (fun r => r <> [] /\ Forall is_u64 r) rows -> row ∈ rows ->
  f_Kind f = KSlice -> f_Type f = str "[]uint64" ->
  ParseStringTo2DArray (print_rows rows) = Ok rows /\ ParseFieldFromArg f (print_row row) = Ok (VUints row).
Proof.
  intros Hn Hf Hin Hk Ht.
  assert (Hrow : forall r, r <> [] -> Forall is_u64 r -> Split (print_row r) ","%byte = map FormatUint r).
  { intros r Hr Hu. apply Split_Join; [by destruct r|]. apply Forall_map. eapply Forall_impl; [exact Hu|]. intros z Hz.
    by apply Format_no_sep. }
  split.
  - unfold ParseStringTo2DArray, print_rows. rewrite Split_Join; [|by destruct rows|].
    2:{ apply Forall_map. eapply Forall_impl; [exact Hf|]. intros r [_ Hu]. apply Join_no_sep; [done|]. apply Forall_map.
        eapply Forall_impl; [exact Hu|]. intros z Hz. by apply Format_no_sep. }
    clear Hn Hin. induction Hf as [|r rows [Hr Hu] _ IH]; [done|]. cbn [map parse_rows].
    rewrite Hrow, parse_uints_print by done. cbn [rbind]. by rewrite IH.
  - rewrite Forall_forall in Hf. destruct (Hf row Hin) as [Hr Hu]. unfold ParseFieldFromArg.
    assert (Hb : unbracket (print_row row) = print_row row).
    { unfold unbracket. assert (Hx : "["%byte ∉ print_row row).
      { apply Join_no_sep; [done|]. apply Forall_map. eapply Forall_impl; [exact Hu|]. intros z Hz. by apply Format_no_sep. }
      destruct (has_prefix (str "[") (print_row row)) eqn:E; [|done]. apply has_prefix_true in E as [t E]. destruct Hx.
      rewrite E. left. }
    rewrite Hb, Hk, Ht. change (bytes_eqb (str "[]uint64") (str "[]uint64")) with true. cbn iota.
    by rewrite Hrow, parse_uints_print.
Qed.

(** What is printed for people is not what is read: the space after the comma
    makes every list of two or more numbers unreadable. *)
Theorem printed_slice_unreadable a b l :
  is_u64 a -> parse_uints (Split (ParseUint64SliceToString (a :: b :: l)) ","%byte) = Err CliParse.
Proof.
  intros Ha. unfold ParseUint64SliceToString. cbn [map join_text].
  match goal with |- context [FormatUint a ++ str ", " ++ ?t] =>
    change (FormatUint a ++ str ", " ++ t) with (FormatUint a ++ ","%byte :: " "%byte :: t); generalize t as rest end.
  intros rest. rewrite Split_app by (by apply Format_no_sep). cbn [parse_uints]. rewrite ParseUint_Format by done.
  cbn [or_parse rbind]. assert (Hs : exists q qs, Split (" "%byte :: rest) ","%byte = (" "%byte :: q) :: qs).
  { cbn [Split]. rewrite decide_False by done. destruct (Split rest _) as [|q qs]; by eauto. }
  destruct Hs as (q & qs & ->). done.
Qed.
End Text.

(** ** Witnesses *)

#[local] Instance ToyCli : CliSdk bytes := {|
  time_ParseDuration _ := None; strconv_ParseFloat _ := None; ParseCoinNormalized s := Some s; ParseCoinsNormalized s := Some s;
  NewIntFromString s := Some s; LegacyDecFromStr s := Some s; time_Parse _ := None; time_Unix z := FormatInt z
|}.
Definition w_flags : FlagSet bytes :=
  MkFlagSet (fun n => if bytes_eqb n (str "memo") then Some (str " hi ") else None)
    (fun n => if bytes_eqb n (str "limit") then Some (str "uint64") else if bytes_eqb n (str "dry") then Some (str "bool") else None)
    (fun _ => Some 300) None.
(** [MsgRemoveAuthenticator], and a message with a field from a flag. *)
Definition w_remove : list Field :=
  [MkField (str "Sender") KString (str "string") false; MkField (str "Id") (KUint 64) (str "uint64") false].
Definition w_msg_fields : list Field :=
  [MkField (str "Owner") KString (str "string") false; MkField (str "Memo") KString (str "string") false;
   MkField (str "Amount") KStruct (str "types.Coin") false; MkField (str "Small") (KUint 8) (str "uint8") false].
Definition w_advice : FlagAdvice bytes := MkAdvice false {[str "memo" := str "memo"]} ∅ true [] (str "terp1alice").

Example remove_command :
  ParseFieldsFromFlagsAndArgs w_advice w_flags [str "17"] w_remove = Ok [Some (VString (str "terp1alice")); Some (VUint 17)].
Proof. vm_refl. Qed.
Lemma ParseFields_positions_witness :
  flag_only w_advice /\
  ParseFieldsFromFlagsAndArgs w_advice w_flags [str "5uterp"; str "7"] w_msg_fields =
    Ok [Some (VString (str "terp1alice")); Some (VString (str "hi")); Some (VOther (str "5uterp")); Some (VUint 7)].
Proof.
  assert (Hf : flag_only w_advice) by apply map_Forall_empty. split; [exact Hf|].
  rewrite (proj1 (ParseFields_positions w_advice w_flags [str "5uterp"; str "7"] w_msg_fields Hf)). vm_refl.
Defined.
Lemma tx_args_exact_witness :
  Z.of_nat (length (arg_fields w_advice w_msg_fields)) = 2 /\
  BuildTxCli_NumArgs 0 w_msg_fields (CustomFlagOverrides w_advice) (CustomFieldParsers w_advice) = 2.
Proof.
  split; [vm_refl|]. rewrite <- (tx_args_exact w_advice w_msg_fields); [vm_refl|vm_refl|vm_refl|..].
  - vm_compute. repeat constructor; rewrite ?elem_of_cons, ?elem_of_nil; intuition discriminate.
  - repeat constructor.
  - intros k Hk. change (CustomFlagOverrides w_advice) with ({[str "memo" := str "memo"]} : gmap bytes bytes) in Hk.
    destruct Hk as [v Hk]. apply lookup_singleton_Some in Hk as [<- _]. split; [|vm_refl].
    apply list_elem_of_In. right. left. vm_refl.
  - intros k [v Hk]. change (CustomFieldParsers w_advice) with (∅ : gmap bytes (CustomFieldParserFn bytes)) in Hk.
    by rewrite lookup_empty in Hk.
  - vm_refl.
Defined.
Lemma numbers_roundtrip_witness :
  ParseStringTo2DArray (str "1,2;30") = Ok [[1; 2]; [30]] /\
  ParseFieldFromArg (MkField (str "Ids") KSlice (str "[]uint64") false) (str "1,2") = Ok (VUints [1; 2]).
Proof.
  destruct (numbers_roundtrip [[1; 2]; [30]] [1; 2] (MkField (str "Ids") KSlice (str "[]uint64") false)) as [H1 H2];
    [discriminate| |left|reflexivity|reflexivity|].
  - repeat constructor; try discriminate; unfold is_u64; lia.
  - change (print_rows [[1; 2]; [30]]) with (str "1,2;30") in H1. change (print_row [1; 2]) with (str "1,2") in H2.
    split; assumption.
Defined.
Lemma printed_slice_unreadable_witness : parse_uints (Split (str "1, 2") ","%byte) = Err CliParse.
Proof. refine (printed_slice_unreadable 1 2 [] _). unfold is_u64; lia. Defined.

(** ** Behaviour worth knowing *)

(** A number too big for its field is cut to the field's width without an error,
    from an argument and from a flag. *)
Example narrow_field_wraps :
  ParseFieldFromArg (MkField (str "Small") (KUint 8) (str "uint8") false) (str "300") = Ok (VUint 44) /\
  ParseFieldFromArg (MkField (str "Small") (KInt 8 false) (str "int8") false) (str "[-129]") = Ok (VInt 127) /\
  parseFieldFromDirectlySetFlag (MkField (str "Small") (KUint 8) (str "uint8") false) (str "limit") w_flags = Ok (VUint 44).
Proof. split; [vm_refl|]. split; vm_refl. Qed.
(** A deprecated field counts for an argument that no field takes. *)
Example deprecated_counts :
  let fields := MkField (str "Old") KString (str "string") true :: w_msg_fields in
  BuildTxCli_NumArgs 0 fields (CustomFlagOverrides w_advice) (CustomFieldParsers w_advice) = 3 /\
  length (arg_fields w_advice fields) = 2%nat.
Proof. cbv zeta. split; vm_refl. Qed.
(** A query does not subtract its custom parsers, a transaction does. *)
Example query_counts_parsers :
  prepareDescriptor_numArgs false w_remove (∅ : gmap bytes bytes) = 2 /\
  BuildTxCli_NumArgs 0 w_remove (∅ : gmap bytes bytes)
    ({[str "id" := FlagOnlyParser (fun _ : FlagSet bytes => Ok (VUint 1))]} : gmap bytes (CustomFieldParserFn bytes)) = 0.
Proof. split; vm_refl. Qed.
(** A flag of another type than the two known sets a text field to nothing. *)
Example other_flag_empties :
  parseFieldFromDirectlySetFlag (MkField (str "Memo") KString (str "string") false) (str "dry") w_flags = Ok (VString []).
Proof. vm_refl. Qed.
Example kebab : pascalToKebab (str "AuthenticatorTypeID2Go") = str "authenticator-type-id2-go".
Proof. vm_refl. Qed.
(** The usage line looks an override up by the name with dashes, the parser by
    the name in lower case: a field of two words that is read from a flag is
    still shown as an argument. *)
Example usage_shows_flag :
  let fields := [MkField (str "PoolId") (KUint 64) (str "uint64") false] in
  let overrides : gmap bytes bytes := {[str "poolid" := str "pool"]} in
  attachFieldsToUse overrides fields = str " [pool-id]" /\
  arg_fields (MkAdvice (X := bytes) false overrides ∅ true [] []) fields = [].
Proof. cbv zeta. split; vm_refl. Qed.
