(* ===== verification/FfiEpoch.v ===== *)
(** * Epochs of the simplex engine

    [server/commonware.go] and [x/leanval/cwffi/ffi.go]: when the engine is
    started and stopped. The driver tells of every commit; at the end of a
    period the next epoch is put in a channel, and a goroutine restarts the
    engine with the participants of that epoch, if this node is one of them. The
    engine is native code, a class. The theorems say with what the engine runs
    in every reachable state, and that epochs only advance. *)

From S2P Require Import Prelude Sha256 KVStore LvTypes LvCodec LvMerkle LvBitfield LvPower LvPairs FfiCodec FfiParticipants FfiDriver Json Cli.
#[local] Open Scope go_scope.

(** ** ffi.go *)

Record Config := MkConfig {
  PrivateKey : bytes; Listen : bytes; Bootstrappers : bytes; StorageDir : bytes; Namespace : bytes;
  cf_Participants : bytes; cf_Weights : list Z; cf_Epoch : Z; FloorPath : bytes; FloorCert : bytes
}.
(** The native library: [lean_cw_start] with its return code, [lean_cw_stop],
    what the engine that runs was started with, and the check of a certificate,
    to which weights are given as bytes. *)
Class Native (N : Type) := {
  lean_cw_start : Config -> bytes -> N -> N * Z;
  lean_cw_stop : N -> N;
  running_with : N -> option Config;
  lean_cw_verify_finalization : bytes -> option bytes -> bytes -> Z
}.
(** A start that reports success runs with the configuration it was given; a
    stopped engine does not run. *)
Class NativeLaws (N : Type) `{Native N} := {
  start_runs : forall cfg ws n n', lean_cw_start cfg ws n = (n', 0) -> running_with n' = Some cfg;
  stop_stops : forall n, running_with (lean_cw_stop n) = None
}.

Definition uint64Bytes_at (v : Z) : bytes := map (fun i => byte_of_Z (Z.shiftr v (8 * i))) [0; 1; 2; 3; 4; 5; 6; 7].
Definition uint64Bytes (w : list Z) : bytes := concat (map uint64Bytes_at w).

Inductive start_err := ErrNilDriver | ErrPrivateKey | ErrStart (rc : Z) | ErrNotInSet (epoch : Z) | ErrMkdir | EpochPanic.

Section Ffi.
Context {N : Type} {NE : Native N}.
Definition Running (n : N) : bool := match running_with n with Some _ => true | None => false end.
(** The driver is never nil here. *)
Definition Start (cfg : Config) (n : N) : N * result start_err unit :=
  if blen (PrivateKey cfg) <? 32 then (n, Err ErrPrivateKey)
  else let '(n', rc) := lean_cw_start cfg (uint64Bytes (cf_Weights cfg)) n in
       if rc =? 0 then (n', Ok tt) else (n', Err (ErrStart rc)).
Definition VerifyFinalization (pks : bytes) (weights : list Z) (cert : bytes) : bool :=
  if (blen pks =? 0) || (blen cert =? 0) then false
  else
    let wptr := if 0 <? Z.of_nat (length weights) then Some (uint64Bytes weights) else None in
    lean_cw_verify_finalization pks wptr cert =? 1.
End Ffi.

(** ** commonware.go *)

(** The environment and the node's files: [LEAN_CW_SKIP], the validator key
    ([None] an error), whether a directory can be made, the saved floor. *)
Record node_env := MkNodeEnv {
  LEAN_CW_SKIP : bytes; ev_PubKey : option bytes; ev_MkdirAll : bytes -> bool; ev_floor : option bytes;
  ev_seed : bytes; ev_listen : bytes; ev_boot : bytes; ev_storage : bytes
}.
Definition useCommonware (LEAN_CONSENSUS : bytes) : bool :=
  let v := ToLower (TrimSpace LEAN_CONSENSUS) in
  bytes_eqb v (str "commonware") || bytes_eqb v (str "cw") || bytes_eqb v (str "simplex").
(** The chunks of 32 bytes of the participants. *)
Definition chunks (participants : bytes) : list bytes := keys32 (Z.to_nat (blen participants / 32)) participants.
Definition skipCommonwareEngine (env : node_env) (participants : bytes) : bool :=
  let v := ToLower (TrimSpace (LEAN_CW_SKIP env)) in
  if bytes_eqb v (str "1") || bytes_eqb v (str "true") || bytes_eqb v (str "yes") then true
  else match ev_PubKey env with
       | None => true
       | Some raw =>
           if negb (blen raw =? 32) || (blen participants <? 32) then true
           else negb (existsb (bytes_eqb raw) (chunks participants))
       end.

(** The engine, the epoch it was last started for, the channel of epochs to
    start, whether the catch-up loop was started. *)
Record cwEngine (N : Type) := MkEngine { e_native : N; e_epoch : Z; e_rotate : list Z; e_catchup : bool }.
Arguments MkEngine {N}.
Arguments e_native {N}.
Arguments e_epoch {N}.
Arguments e_rotate {N}.
Arguments e_catchup {N}.

Section Engine.
Context {N A : Type} {NE : Native N} {App : EngineApp A}.
Context (env : node_env) (live : Z).
Implicit Types (d : Driver A) (e : cwEngine N).

Definition set_native (n : N) e : cwEngine N := MkEngine n (e_epoch e) (e_rotate e) (e_catchup e).
Definition stop_if_running (n : N) : N := if Running n then lean_cw_stop n else n.
(** The storage path is clean, so [filepath.Join] adds one slash. *)
Definition epoch_dir (epoch : Z) : bytes := ev_storage env ++ str "/epoch-" ++ FormatUint epoch.
Definition floor_path : bytes := ev_storage env ++ str "/last-finalization".
(** The weights, or 1 each when the second reading has another length. *)
Definition epoch_weights (epoch : Z) (pks : bytes) d : option (list Z) :=
  match ParticipantsWeights epoch d with
  | None => None
  | Some (a, w) => Some (if blen a =? blen pks then w else replicate (Z.to_nat (blen pks / 32)) 1)
  end.
Definition floor_cert d : bytes :=
  let floorCert := d_lastCertRaw d in
  if blen floorCert =? 0 then default [] (ev_floor env) else floorCert.
Definition epoch_config (epoch : Z) (pks : bytes) (weights : list Z) d : Config :=
  MkConfig (ev_seed env) (ev_listen env) (ev_boot env) (epoch_dir epoch) (str "lean-terpz") pks weights epoch
    floor_path (floor_cert d).
(** The attempts that are left; [last] is what is returned when there are none. *)
Fixpoint start_loop (left : nat) (cfg : Config) (last : start_err) (n : N) : N * result start_err unit :=
  match left with
  | O => (n, Err last)
  | S k => match Start cfg n with
           | (n', Ok _) => (n', Ok tt)
           | (n', Err err) => start_loop k cfg err (stop_if_running n')
           end
  end.
Definition startEpoch (epoch : Z) (pks : bytes) d e : cwEngine N * result start_err unit :=
  let e1 := set_native (stop_if_running (e_native e)) e in
  match (if blen pks =? 0 then Participants epoch d else Some pks) with
  | None => (e1, Err EpochPanic)
  | Some pks =>
      if skipCommonwareEngine env pks then (e1, Err (ErrNotInSet epoch))
      else if negb (ev_MkdirAll env (epoch_dir epoch)) then (e1, Err ErrMkdir)
      else match epoch_weights epoch pks d with
           | None => (e1, Err EpochPanic)
           | Some weights =>
               match start_loop 15 (epoch_config epoch pks weights d) ErrNilDriver (e_native e1) with
               | (n, Ok _) => (MkEngine n epoch (e_rotate e) (e_catchup e), Ok tt)
               | (n, Err err) => (set_native n e, Err err)
               end
           end
  end.
Definition rotate (epoch : Z) d e : cwEngine N * result start_err unit :=
  if (epoch <=? e_epoch e) && Running (e_native e) then (e, Ok tt)
  else match Participants epoch d with
       | None => (e, Err EpochPanic)
       | Some pks =>
           if skipCommonwareEngine env pks then (e, Ok tt)
           else startEpoch epoch pks d e
       end.
(** The callback of a commit: a channel of four that drops what does not fit. *)
Definition onCommit (h : Z) e : cwEngine N :=
  let cur := PeriodFromHeight live h in
  let next := PeriodFromHeight live (i64 (h + 1)) in
  if next =? cur then e
  else if (length (e_rotate e) <? 4)%nat then MkEngine (e_native e) (e_epoch e) (e_rotate e ++ [next]) (e_catchup e)
  else e.
(** The start of the node, after the chain was initialized: the participants of
    epoch 0, those of genesis when there are none, the node's own key when
    genesis has none. *)
Definition genesis_pks (validators : list bytes) : bytes :=
  let pks := concat (filter (fun b => blen b = 32) validators) in
  if blen pks =? 0 then default [] (ev_PubKey env) else pks.
Definition startCommonware (validators : list bytes) (n : N) d : cwEngine N * result start_err unit :=
  let e := MkEngine n 0 [] false in
  match Participants 0 d with
  | None => (e, Err EpochPanic)
  | Some pks =>
      let pks := if blen pks =? 0 then genesis_pks validators else pks in
      if skipCommonwareEngine env pks then (MkEngine n 0 [] true, Ok tt) else startEpoch 0 pks d e
  end.
(** The goroutine takes the next epoch of the channel; an error is logged. *)
Definition take_rotate d e : cwEngine N :=
  match e_rotate e with
  | [] => e
  | ep :: rest => (rotate ep d (MkEngine (e_native e) (e_epoch e) rest (e_catchup e))).1
  end.
End Engine.

(** ** catchupURL *)

(** [strings.TrimRight(u, "/")], [IndexByte] and [LastIndexByte]. *)
Fixpoint drop_slashes (r : bytes) : bytes :=
  match r with c :: r' => if bool_decide (c = "/"%byte) then drop_slashes r' else r | [] => [] end.
Definition after_first (c : byte) (s : bytes) : bytes :=
  match list_find (fun x => x = c) s with Some (i, _) => drop (S i) s | None => s end.
Definition before_last (c : byte) (s : bytes) : bytes :=
  match list_find (fun x => x = c) (rev s) with Some (i, _) => rev (drop (S i) (rev s)) | None => s end.
Fixpoint boot_host (parts : list bytes) : bytes :=
  match parts with
  | [] => []
  | part :: rest =>
      let part := TrimSpace part in
      if bytes_eqb part [] then boot_host rest
      else
        let host := before_last ":"%byte (after_first "@"%byte part) in
        if bytes_eqb host [] then boot_host rest
        else str "http://" ++ host ++ str ":26657"
  end.
Definition catchupURL (LEAN_CW_CATCHUP boot : bytes) : bytes :=
  let u := TrimSpace LEAN_CW_CATCHUP in
  if negb (bytes_eqb u []) then rev (drop_slashes (rev u)) else boot_host (Split boot ","%byte).

(** ** Starting *)

Section Laws.
Context {N A : Type} {NE : Native N} {NL : NativeLaws N} {App : EngineApp A}.
Context (env : node_env) (live : Z).
Implicit Types (d : Driver A) (e : cwEngine N).

Lemma stopped n : running_with (stop_if_running n) = None.
Proof. unfold stop_if_running, Running. destruct (running_with n) eqn:E; [apply stop_stops|done]. Qed.
Lemma start_loop_spec k cfg last n n' r :
  start_loop k cfg last n = (n', r) -> running_with n = None ->
  match r with Ok _ => running_with n' = Some cfg | Err _ => running_with n' = None end.
Proof.
  revert last n. induction k as [|k IH]; intros last n H Hn; cbn [start_loop] in H; [by injection H as <- <-|].
  unfold Start in H. destruct (blen (PrivateKey cfg) <? 32); [by apply IH in H; [|apply stopped]|].
  destruct (lean_cw_start cfg _ n) as [n1 rc] eqn:E. destruct (rc =? 0) eqn:Erc.
  - injection H as <- <-. apply Z.eqb_eq in Erc as ->. by apply start_runs in E.
  - by apply IH in H; [|apply stopped].
Qed.

(** This node is among the participants. *)
Definition takes_part (pks : bytes) : Prop := exists raw, ev_PubKey env = Some raw /\ blen raw = 32 /\ raw ∈ chunks pks.
Lemma skip_false pks : skipCommonwareEngine env pks = false -> takes_part pks.
Proof.
  unfold skipCommonwareEngine. destruct (_ || _ || _); [done|]. destruct (ev_PubKey env) as [raw|] eqn:E; [|done].
  destruct (blen raw =? 32) eqn:El; [|done]. cbn [negb orb]. destruct (blen pks <? 32); [done|].
  intros H%negb_false_iff. apply existsb_exists in H as (x & Hx & Hb). apply bytes_eqb_eq in Hb as <-.
  exists raw. split; [done|]. split; [by apply Z.eqb_eq|]. by apply list_elem_of_In.
Qed.
Lemma length_keys32 n pks : length (keys32 n pks) = n.
Proof. revert pks. induction n as [|n IH]; intros pks; cbn [keys32 length]; [done|by rewrite IH]. Qed.
(** There is a weight for each participant. *)
Lemma epoch_weights_length epoch pks d ws :
  epoch_weights epoch pks d = Some ws -> Z.of_nat (length ws) = blen pks / 32.
Proof.
  unfold epoch_weights, ParticipantsWeights. assert (Hp : 0 <= blen pks) by apply blen_nonneg.
  assert (Hr : Z.of_nat (length (replicate (Z.to_nat (blen pks / 32)) 1)) = blen pks / 32).
  { rewrite length_replicate, Z2Nat.id; [done|]. apply Z.div_pos; lia. }
  assert (Hnone : ws = (if blen [] =? blen pks then [] else replicate (Z.to_nat (blen pks / 32)) 1) ->
    Z.of_nat (length ws) = blen pks / 32).
  { destruct (blen [] =? blen pks) eqn:E; intros ->; [|exact Hr]. apply Z.eqb_eq in E. by rewrite <- E. }
  destruct (d_storeQuery d); cbn [negb].
  2:{ intros Hw. apply Hnone. by injection Hw as <-. }
  unfold BondedParticipantsWeights. destruct (BondedParticipants _ epoch) as [a|]; [|done].
  destruct (blen a =? 0) eqn:Ea.
  { intros Hw. apply Hnone. by injection Hw as <-. }
  destruct (caught _) as [i|]; [|done]. destruct (caught _) as [b|]; [|done]. intros Hw. injection Hw as <-.
  destruct (blen a =? blen pks) eqn:E; [|exact Hr]. apply Z.eqb_eq in E. rewrite length_map, length_keys32, Z2Nat.id, E; [done|].
  apply Z.div_pos; lia.
Qed.

(** An epoch that is started runs with its own configuration; one that is not
    leaves no engine running. *)
Lemma startEpoch_spec epoch pks d e e' r :
  startEpoch env epoch pks d e = (e', r) ->
  e_rotate e' = e_rotate e /\ e_catchup e' = e_catchup e /\
  match r with
  | Ok _ => e_epoch e' = epoch /\ exists pks' ws, running_with (e_native e') = Some (epoch_config env epoch pks' ws d) /\
      takes_part pks' /\ epoch_weights epoch pks' d = Some ws /\
      (if blen pks =? 0 then Participants epoch d = Some pks' else pks' = pks)
  | Err _ => e_epoch e' = e_epoch e /\ running_with (e_native e') = None
  end.
Proof.
  unfold startEpoch. set (e1 := set_native _ e). assert (He1 : running_with (e_native e1) = None) by apply stopped.
  assert (Hf : forall err, (e1, Err err) = (e', r) -> e_rotate e' = e_rotate e /\ e_catchup e' = e_catchup e /\
    match r with Ok _ => False | Err _ => e_epoch e' = e_epoch e /\ running_with (e_native e') = None end).
  { intros err Hx. injection Hx as <- <-. split; [reflexivity|]. split; [reflexivity|]. by split. }
  destruct (if blen pks =? 0 then Participants epoch d else Some pks) as [pks'|] eqn:Ep.
  2:{ intros H%Hf. destruct r; [by destruct H as (_ & _ & [])|exact H]. }
  destruct (skipCommonwareEngine env pks') eqn:Es. { intros H%Hf. destruct r; [by destruct H as (_ & _ & [])|exact H]. }
  destruct (ev_MkdirAll env _); cbn [negb]. 2:{ intros H%Hf. destruct r; [by destruct H as (_ & _ & [])|exact H]. }
  destruct (epoch_weights epoch pks' d) as [ws|] eqn:Ew. 2:{ intros H%Hf. destruct r; [by destruct H as (_ & _ & [])|exact H]. }
  destruct (start_loop 15 _ _ _) as [n [[]|err]] eqn:El; apply start_loop_spec in El; try done; intros Hx; injection Hx as <- <-;
    (split; [reflexivity|]; split; [reflexivity|]); [|by split]. split; [reflexivity|]. exists pks', ws. split_and!; try done; [by apply skip_false|].
  destruct (blen pks =? 0); [done|]. by injection Ep.
Qed.

(** ** Every state of the node *)

(** What a running engine was started with. *)
Definition engine_ok e : Prop :=
  match running_with (e_native e) with
  | None => True
  | Some cfg => cf_Epoch cfg = e_epoch e /\ takes_part (cf_Participants cfg) /\
      Z.of_nat (length (cf_Weights cfg)) = blen (cf_Participants cfg) / 32
  end.
Lemma startEpoch_ok epoch pks d e e' r : startEpoch env epoch pks d e = (e', r) -> engine_ok e'.
Proof.
  intros (_ & _ & H)%startEpoch_spec. unfold engine_ok. destruct r as [[]|err].
  - destruct H as (He & pks' & ws & -> & Ht & Hw & _). cbn. split_and!; [done|done|by apply epoch_weights_length in Hw].
  - by destruct H as [_ ->].
Qed.
Lemma rotate_cases epoch d e e' r :
  rotate env epoch d e = (e', r) ->
  e' = e \/ exists pks, Participants epoch d = Some pks /\ startEpoch env epoch pks d e = (e', r).
Proof.
  unfold rotate. destruct (_ && _); [intros [= <- <-]; by left|]. destruct (Participants epoch d) as [pks|]; [|intros [= <- <-]; by left].
  destruct (skipCommonwareEngine env pks); [intros [= <- <-]; by left|]. by eauto.
Qed.

(** Commits come one height after the other; the channel is emptied at any time,
    with the driver as it is then; the engine may die. *)
Inductive node_step : Z * cwEngine N -> Z * cwEngine N -> Prop :=
| NCommit h e : node_step (h, e) (h + 1, onCommit live (h + 1) e)
| NTake h d e : node_step (h, e) (h, take_rotate env d e)
| NDie h n e : running_with n = None -> node_step (h, e) (h, set_native n e).

Definition next_period (h : Z) : Z := PeriodFromHeight live (i64 (h + 1)).
Record node_inv (s : Z * cwEngine N) : Prop := MkNodeInv {
  ni_ok : engine_ok s.2;
  ni_epoch : e_epoch s.2 <= next_period s.1;
  ni_sorted : StronglySorted Z.lt (e_rotate s.2);
  ni_queue : Forall (fun ep => e_epoch s.2 < ep <= next_period s.1) (e_rotate s.2);
  ni_small : (length (e_rotate s.2) <= 4)%nat
}.

(** Periods grow with the height. *)
Lemma next_period_mono h : -1 <= h -> h + 2 < 2 ^ 63 -> next_period h <= next_period (h + 1).
Proof.
  intros H0 Hh. unfold next_period, PeriodFromHeight. rewrite !i64_id by (unfold is_i64; lia).
  rewrite !(proj2 (Z.ltb_ge _ 0)) by lia.
  assert (Hb : 0 < BlocksPerPeriodLive live).
  { unfold BlocksPerPeriodLive, BlocksPerPeriod. destruct (live <=? 0) eqn:E; [lia|]. apply Z.leb_gt in E. lia. }
  assert (Hq : forall x, 0 <= x < 2 ^ 63 -> is_u64 (Z.quot x (BlocksPerPeriodLive live))).
  { intros x Hx. unfold is_u64. split; [apply Z.quot_pos; lia|].
    pose proof (Z.quot_le_upper_bound x (BlocksPerPeriodLive live) x Hb) as Hu. assert (x <= BlocksPerPeriodLive live * x) by nia. lia. }
  rewrite !u64_id by (apply Hq; lia). apply Z.quot_le_mono; lia.
Qed.
Lemma queue_later h ep e q : next_period h <= next_period (h + 1) ->
  Forall (fun x => ep < x <= next_period h) q -> Forall (fun x => ep < x <= next_period (h + 1)) q.
Proof. intros Hm H. eapply Forall_impl; [exact H|]. cbn. lia. Qed.

Lemma commit_inv h e : -1 <= h -> h + 2 < 2 ^ 63 -> node_inv (h, e) -> node_inv (h + 1, onCommit live (h + 1) e).
Proof.
  intros H0 Hh [Hok He Hs Hq Hl]. cbn [fst snd] in *. pose proof (next_period_mono h H0 Hh) as Hm.
  assert (Hq' := queue_later h _ e _ Hm Hq). unfold onCommit. fold (next_period (h + 1)).
  assert (Ec : PeriodFromHeight live (h + 1) = next_period h) by (unfold next_period; rewrite i64_id; [done|unfold is_i64; lia]).
  rewrite Ec. destruct (next_period (h + 1) =? next_period h) eqn:E; [by split; cbn [fst snd]; [|lia|..]|].
  destruct (length (e_rotate e) <? 4)%nat eqn:El; [|by split; cbn [fst snd]; [|lia|..]].
  apply Z.eqb_neq in E. apply Nat.ltb_lt in El. split; cbn [fst snd e_native e_epoch e_rotate e_catchup]; [done|lia|..].
  - apply StronglySorted_app. split_and!; [|done|repeat constructor]. intros x y Hx Hy%list_elem_of_singleton. subst y.
    rewrite Forall_forall in Hq. specialize (Hq x Hx). lia.
  - apply Forall_app. split; [done|]. constructor; [lia|constructor].
  - rewrite length_app. cbn. lia.
Qed.
Lemma rotate_inv h ep q d e :
  engine_ok e -> e_rotate e = q -> e_epoch e < ep <= next_period h ->
  let e' := (rotate env ep d e).1 in
  engine_ok e' /\ e_rotate e' = q /\ (e_epoch e' = e_epoch e \/ e_epoch e' = ep).
Proof.
  intros Hok Hq Hep. cbv zeta. destruct (rotate env ep d e) as [e' r] eqn:E. cbn [fst].
  apply rotate_cases in E as [->|(pks & _ & E)]; [by split_and!; [| |left]|].
  split; [by eapply startEpoch_ok|]. apply startEpoch_spec in E as (Hr & _ & E). split; [congruence|].
  destruct r; [right; apply E|left; apply E].
Qed.
Lemma take_inv h d e : node_inv (h, e) -> node_inv (h, take_rotate env d e) /\ e_epoch e <= e_epoch (take_rotate env d e).
Proof.
  intros [Hok He Hs Hq Hl]. cbn [fst snd] in *. unfold take_rotate. destruct (e_rotate e) as [|ep rest] eqn:Er.
  { split; [|lia]. split; cbn [fst snd]; rewrite ?Er; done. }
  apply StronglySorted_inv in Hs as [Hs Hf]. apply Forall_cons in Hq as [Hep Hq].
  set (e1 := MkEngine (e_native e) (e_epoch e) rest (e_catchup e)).
  destruct (rotate_inv h ep rest d e1) as (Hok' & Hr & Hep'); [done|done|done|]. cbv zeta in Hok', Hr, Hep'.
  change (e_epoch e1) with (e_epoch e) in Hep'. split; [|destruct Hep' as [->| ->]; lia].
  split; cbn [fst snd]; rewrite ?Hr; [done|destruct Hep' as [->| ->]; lia|done| |cbn in Hl; lia].
  destruct Hep' as [->| ->]; [done|]. rewrite Forall_forall in *. intros x Hx. specialize (Hq x Hx). specialize (Hf x Hx). lia.
Qed.

(** The heights reached are machine integers. *)
Inductive node_run : Z * cwEngine N -> Z * cwEngine N -> Prop :=
| run_done s : node_run s s
| run_step s s1 s' : node_step s s1 -> s1.1 + 1 < 2 ^ 63 -> node_run s1 s' -> node_run s s'.
Lemma node_inv_step s s' : -1 <= s.1 -> s'.1 + 1 < 2 ^ 63 -> node_inv s -> node_step s s' ->
  node_inv s' /\ e_epoch s.2 <= e_epoch s'.2 /\ s.1 <= s'.1.
Proof.
  intros H0 Hh Hi Hs. destruct Hs as [h e|h d e|h n e Hn]; cbn [fst snd] in *.
  - split; [apply commit_inv; [lia|lia|done]|]. split; [|lia]. unfold onCommit.
    destruct (_ =? _); [lia|]. destruct (_ <? _)%nat; cbn; lia.
  - destruct (take_inv h d e Hi) as [H1 H2]. by split_and!.
  - split; [|cbn; lia]. destruct Hi as [_ He Hs Hq Hl]. split; try done. cbn. unfold engine_ok. cbn. by rewrite Hn.
Qed.

Lemma node_inv_run s s' : node_run s s' -> node_inv s -> -1 <= s.1 -> node_inv s' /\ -1 <= s'.1.
Proof.
  induction 1 as [s|s s1 s' Hs Hb _ IH]; intros Hi H0; [done|].
  destruct (node_inv_step s s1 H0 Hb Hi Hs) as (? & _ & ?). apply IH; [done|lia].
Qed.


(** An epoch that waits is started when its turn comes, if this node takes part,
    its directory can be made and the native start succeeds: with exactly the
    participants and weights the driver reads for that epoch. *)
Theorem rotation_starts ep rest d e pks ws :
  e_rotate e = ep :: rest -> (Running (e_native e) = true -> e_epoch e < ep) ->
  Participants ep d = Some pks -> ParticipantsWeights ep d = Some (pks, ws) ->
  skipCommonwareEngine env pks = false -> ev_MkdirAll env (epoch_dir env ep) = true -> 32 <= blen (ev_seed env) ->
  (forall cfg w n, exists n', lean_cw_start cfg w n = (n', 0)) ->
  let e' := take_rotate env d e in
  e_epoch e' = ep /\ e_rotate e' = rest /\
  running_with (e_native e') = Some (epoch_config env ep pks ws d).
Proof.
  intros Hq Hnew Hp Hw Hs Hm Hseed Hstart. cbv zeta. unfold take_rotate. rewrite Hq. unfold rotate. cbn [e_epoch e_native].
  assert (Hc : (ep <=? e_epoch e) && Running (e_native e) = false).
  { destruct (Running (e_native e)); [|apply andb_false_r]. rewrite (proj2 (Z.leb_gt _ _)); [done|]. by apply Hnew. }
  assert (Hl : (blen pks =? 0) = false).
  { destruct (blen pks =? 0) eqn:E; [|done]. apply Z.eqb_eq in E. unfold skipCommonwareEngine in Hs. rewrite E in Hs.
    destruct (_ || _ || _); [done|]. destruct (ev_PubKey env); [|done]. change (0 <? 32) with true in Hs.
    by rewrite orb_true_r in Hs. }
  rewrite Hc, Hp, Hs. unfold startEpoch. rewrite Hl, Hs, Hm. cbn [negb]. unfold epoch_weights. rewrite Hw, Z.eqb_refl.
  cbn [start_loop]. unfold Start. cbn [PrivateKey epoch_config]. rewrite (proj2 (Z.ltb_ge _ 32)) by lia.
  set (cfg := epoch_config env ep pks ws d). cbn [e_native set_native].
  destruct (Hstart cfg (uint64Bytes (cf_Weights cfg)) (stop_if_running (e_native e))) as [n' E].
  rewrite E. cbn [fst e_epoch e_rotate e_native]. apply start_runs in E. done.
Qed.

(** A node that is no longer a participant when an epoch begins: the engine of
    the old epoch is left running. *)
Theorem left_keeps_running ep d e pks cfg :
  running_with (e_native e) = Some cfg -> Participants ep d = Some pks -> skipCommonwareEngine env pks = true ->
  rotate env ep d e = (e, Ok tt).
Proof. intros Hr Hp Hs. unfold rotate. rewrite Hp, Hs. by destruct (_ && _). Qed.
End Laws.

(** The weights cross into the library in little-endian order. *)
Lemma uint64Bytes_le v : is_u64 v -> be_get (rev (uint64Bytes_at v)) = v.
Proof.
  intros Hv. assert (E : rev (uint64Bytes_at v) = be_put 8 v).
  { unfold uint64Bytes_at. cbn [map rev app be_put]. rewrite !Z.shiftr_div_pow2 by lia. cbn. reflexivity. }
  rewrite E, be_get_put. by apply Z.mod_small.
Qed.

(** ** Witnesses *)

(** An engine that starts whatever it is given. *)
#[export] Instance toy_native : Native (option Config) := {|
  lean_cw_start cfg _ _ := (Some cfg, 0);
  lean_cw_stop _ := None;
  running_with n := n;
  lean_cw_verify_finalization _ _ cert := if blen cert =? 0 then 0 else 1
|}.
#[export] Instance toy_native_laws : NativeLaws (option Config).
Proof. split; [|done]. intros cfg ws n n' E. cbn in *. congruence. Qed.

Definition w_pks : bytes := default [] (Participants 1 w_driver).
Definition w_node (key : bytes) : node_env :=
  MkNodeEnv (str "no") (Some key) (fun _ => true) None (replicate 32 Byte.x01) (str "0.0.0.0:1") [] (str "/home/lean-cw").
Definition w_env : node_env := w_node (take 32 w_pks).
Definition w_engine : cwEngine (option Config) := (startCommonware w_env [] None w_driver).1.
(** Four blocks in a period: after the blocks 4 to 7 the epoch 2 waits. *)
Definition w_engine7 : cwEngine (option Config) := 
  onCommit 4 (4 + 1 + 1 + 1) (onCommit 4 (4 + 1 + 1) (onCommit 4 (4 + 1) w_engine)).

Example epoch_waits : e_epoch w_engine = 0 /\ e_rotate w_engine7 = [2] /\ Running (e_native w_engine7) = true.
Proof. split; [vm_refl|]. split; vm_refl. Qed.
Lemma w_engine_start : startCommonware w_env [] None w_driver = (w_engine, Ok tt).
Proof. vm_compute. reflexivity. Qed.
Lemma w_engine_run : node_run w_env 4 (4, w_engine) (4 + 1 + 1 + 1, w_engine7).
Proof.
  refine (run_step _ _ _ _ _ (NCommit w_env 4 4 w_engine) _ _); [reflexivity|].
  refine (run_step _ _ _ _ _ (NCommit w_env 4 (4 + 1) _) _ _); [reflexivity|].
  refine (run_step _ _ _ _ _ (NCommit w_env 4 (4 + 1 + 1) _) _ _); [reflexivity|]. exact (run_done _ _ _).
Qed.
Lemma rotation_starts_witness :
  exists ws, ParticipantsWeights 2 w_driver = Some (w_pks, ws) /\
  e_epoch (take_rotate w_env w_driver w_engine7) = 2.
Proof.
  exists (default [] (snd <$> ParticipantsWeights 2 w_driver)). split; [vm_compute; reflexivity|].
  refine (proj1 (rotation_starts w_env 2 [] w_driver w_engine7 w_pks (default [] (snd <$> ParticipantsWeights 2 w_driver)) _ _ _ _ _ _ _ _)).
  - vm_compute. reflexivity.
  - intros _. vm_compute. reflexivity.
  - vm_compute. reflexivity.
  - vm_compute. reflexivity.
  - vm_compute. reflexivity.
  - reflexivity.
  - vm_compute. discriminate.
  - intros cfg w n. exists (Some cfg). reflexivity.
Defined.
Lemma left_keeps_running_witness :
  exists cfg, running_with (e_native w_engine7) = Some cfg /\
  rotate (w_node (replicate 32 Byte.xff)) 2 w_driver w_engine7 = (w_engine7, Ok tt).
Proof.
  destruct (running_with (e_native w_engine7)) as [cfg|] eqn:E; [|vm_compute in E; discriminate]. exists cfg. split; [reflexivity|].
  refine (left_keeps_running (w_node (replicate 32 Byte.xff)) 2 w_driver w_engine7 w_pks cfg E _ _); vm_compute; reflexivity.
Defined.

(** ** Behaviour worth knowing *)

(** A node that starts again at height 5 starts its engine for epoch 0, while
    the block it works on belongs to period 1. *)
Example restart_epoch_zero :
  Height w_driver = 5 /\ next_period 4 (Height w_driver) = 1 /\ e_epoch w_engine = 0 /\ Running (e_native w_engine) = true.
Proof. split; [vm_refl|]. split; [vm_refl|]. split; vm_refl. Qed.
(** A channel that is not served keeps the four oldest epochs and drops the
    rest. *)
Example full_channel_drops :
  e_rotate (foldl (fun e h => onCommit 1 h e) w_engine [1; 2; 3; 4; 5; 6]) = [2; 3; 4; 5].
Proof. vm_refl. Qed.
(** The loop that catches up goes on when the node takes part later. *)
Example catchup_stays :
  let e := (startCommonware (w_node (replicate 32 Byte.xff)) [] (None : option Config) w_driver).1 in
  let e' := take_rotate w_env w_driver (onCommit 4 7 e) in
  e_catchup e' = true /\ Running (e_native e') = true.
Proof. cbv zeta. split; vm_refl. Qed.
Example catchup_url :
  catchupURL [] (str " , 0a@node.terp.network:26656") = str "http://node.terp.network:26657" /\
  catchupURL (str " http://a/ ") [] = str "http://a".
Proof. split; vm_refl. Qed.
