(* ===== verification/Bootstrap.v ===== *)
(** * The bootstrap command

    [cmd/terpd/cmd/bootstrap.go]: from a configuration and flags to a node that
    is started: genesis with its hash, state sync with its trusted block or a
    snapshot, peers, pruning. The operating system and the network are a class
    of operations on a host ([Host]); what the theorems need of it is
    [HostLaws]. Progress messages are left out. *)

From S2P Require Import Prelude Sha256 LvHost Json JsonPrint Cli.

Open Scope go_scope.

(** ** Paths *)

(** [filepath.Clean] on the elements of a path, the last first. *)
Fixpoint clean_elems (rooted : bool) (l acc : list bytes) : list bytes :=
  match l with
  | [] => acc
  | e :: l' =>
      if bytes_eqb e [] || bytes_eqb e (str ".") then clean_elems rooted l' acc
      else if bytes_eqb e (str "..") then
        match acc with
        | p :: acc' => if bytes_eqb p (str "..") then clean_elems rooted l' (e :: acc) else clean_elems rooted l' acc'
        | [] => clean_elems rooted l' (if rooted then [] else [e])
        end
      else clean_elems rooted l' (e :: acc)
  end.
(** [filepath.Join(home, names...)], for names without a slash. *)
Definition filepath_Join (home : bytes) (names : list bytes) : bytes :=
  let rooted := has_prefix (str "/") home in
  (if rooted then str "/" else []) ++ Join (rev (clean_elems rooted (Split home "/"%byte ++ names) [])) "/"%byte.

(** ** The configuration *)

Record BootstrapConfig := MkBootstrapConfig {
  SyncMode : bytes; GenesisURL : bytes; GenesisHash : bytes; SnapshotURL : bytes; StateSyncRPCs : bytes;
  TrustOffset : Z; MaxRetries : Z; Seeds : bytes; PersistentPeers : bytes; PrivateMode : bool;
  Cosmovisor : bool; Service : bool; Pruning : bytes
}.
Record networkPreset := MkPreset { np_ChainID : bytes; np_GenesisURL : bytes; np_RPCs : bytes }.
Definition networkPresets (network : bytes) : option networkPreset :=
  if bytes_eqb network (str "morocco-1") then Some (MkPreset (str "morocco-1")
    (str "https://raw.githubusercontent.com/terpnetwork/networks/refs/heads/main/mainnet/morocco-1/genesis.json")
    (str "https://rpc.terp.chaintools.tech:443"))
  else if bytes_eqb network (str "120u-1") then Some (MkPreset (str "120u-1")
    (str "https://raw.githubusercontent.com/terpnetwork/networks/refs/heads/main/testnet/120u-1/genesis.json")
    (str "https://testnet-rpc.terp.network:443"))
  else None.
Definition DefaultBootstrapConfig : BootstrapConfig := {|
  SyncMode := str "statesync";
  GenesisURL := str "https://raw.githubusercontent.com/terpnetwork/networks/refs/heads/main/testnet/120u-1/genesis.json";
  GenesisHash := []; SnapshotURL := [];
  StateSyncRPCs := str "https://testnet-rpc.terp.network:443,https://testnet-rpc.terp.network:443";
  TrustOffset := 1000; MaxRetries := 6; Seeds := []; PersistentPeers := []; PrivateMode := true;
  Cosmovisor := false; Service := false; Pruning := [] |}.
(** The flags; an absent text flag is empty. *)
Record Flags := MkFlags {
  fl_home : bytes; fl_moniker : bytes; fl_chain_id : bytes; fl_network : bytes; fl_public : bool; fl_setup_only : bool;
  fl_sync_mode : bytes; fl_genesis_url : bytes; fl_genesis_hash : bytes; fl_snapshot_url : bytes; fl_statesync_rpcs : bytes;
  fl_trust_offset : Z; fl_max_retries : Z; fl_bootstrap_seeds : bytes; fl_bootstrap_peers : bytes; fl_cosmovisor : bool;
  fl_service : bool; fl_pruning : bytes
}.
(** [if v != "" { field = v }]. *)
Definition override (v old : bytes) : bytes := if bytes_eqb v [] then old else v.
Definition applyBootstrapFlagOverrides (fl : Flags) (c : BootstrapConfig) : BootstrapConfig := {|
  SyncMode := override (fl_sync_mode fl) (SyncMode c); GenesisURL := override (fl_genesis_url fl) (GenesisURL c);
  GenesisHash := override (fl_genesis_hash fl) (GenesisHash c); SnapshotURL := override (fl_snapshot_url fl) (SnapshotURL c);
  StateSyncRPCs := override (fl_statesync_rpcs fl) (StateSyncRPCs c);
  TrustOffset := if 0 <? fl_trust_offset fl then fl_trust_offset fl else TrustOffset c;
  MaxRetries := if 0 <? fl_max_retries fl then fl_max_retries fl else MaxRetries c;
  Seeds := override (fl_bootstrap_seeds fl) (Seeds c); PersistentPeers := override (fl_bootstrap_peers fl) (PersistentPeers c);
  PrivateMode := PrivateMode c; Cosmovisor := fl_cosmovisor fl || Cosmovisor c; Service := fl_service fl || Service c;
  Pruning := override (fl_pruning fl) (Pruning c) |}.

(** The part of the CometBFT configuration that the command changes. *)
Record CometConfig := MkComet {
  cm_Seeds : bytes; cm_PersistentPeers : bytes; cm_PexReactor : bool; cm_MaxNumInboundPeers : Z; cm_MaxNumOutboundPeers : Z;
  cm_AddrBookStrict : bool; cm_Broadcast : bool;
  ss_Enable : bool; ss_RPCServers : list bytes; ss_TrustHeight : Z; ss_TrustHash : bytes; ss_TrustPeriod : Z
}.
Definition set_peers (seeds peers : bytes) (c : CometConfig) : CometConfig :=
  MkComet seeds peers (cm_PexReactor c) (cm_MaxNumInboundPeers c) (cm_MaxNumOutboundPeers c) (cm_AddrBookStrict c) (cm_Broadcast c)
    (ss_Enable c) (ss_RPCServers c) (ss_TrustHeight c) (ss_TrustHash c) (ss_TrustPeriod c).
Definition set_statesync (enable : bool) (servers : list bytes) (height : Z) (hash : bytes) (period : Z) (c : CometConfig) : CometConfig :=
  MkComet (cm_Seeds c) (cm_PersistentPeers c) (cm_PexReactor c) (cm_MaxNumInboundPeers c) (cm_MaxNumOutboundPeers c)
    (cm_AddrBookStrict c) (cm_Broadcast c) enable servers height hash period.
Definition applyPrivateMode (c : CometConfig) : CometConfig :=
  MkComet [] (cm_PersistentPeers c) false 0 10 false false
    (ss_Enable c) (ss_RPCServers c) (ss_TrustHeight c) (ss_TrustHash c) (ss_TrustPeriod c).
(** [168 * time.Hour], in nanoseconds. *)
Definition trust_period : Z := 168 * 3600 * 10 ^ 9.

(** ** Texts *)

Definition splitTrimmed (s : bytes) (sep : byte) : list bytes :=
  List.filter (fun p => negb (bytes_eqb p [])) (map TrimSpace (Split s sep)).
Definition isLocalPath (s : bytes) : bool :=
  has_prefix (str "/") s || has_prefix (str "./") s || has_prefix (str "file://") s || has_prefix (str "~/") s.
Definition detectFormat (path : bytes) : bytes :=
  if has_suffix (str ".tar.lz4") path then str "lz4"
  else if has_suffix (str ".tar.zst") path || has_suffix (str ".tar.zstd") path then str "zst"
  else if has_suffix (str ".tar.gz") path || has_suffix (str ".tgz") path then str "gz"
  else if has_suffix (str ".tar") path then str "tar"
  else str "lz4".
Definition TrimPrefix (p s : bytes) : bytes := if has_prefix p s then drop (length p) s else s.
Definition before (c : byte) (s : bytes) : bytes := match Split s c with p :: _ => p | [] => s end.
(** [extractHost] of [statesync.go]. *)
Definition extractHost (rpcAddr : bytes) : bytes :=
  let addr := TrimPrefix (str "https://") rpcAddr in
  let addr := TrimPrefix (str "http://") addr in
  let addr := TrimPrefix (str "tcp://") addr in
  before "/"%byte (before ":"%byte addr).

(** ** The host *)

Inductive stat := Exists | NotExist | StatErr.
Record PeerInfo := MkPeer { pi_ID : bytes; pi_RemoteIP : bytes; pi_ListenAddr : bytes }.
Class Host (W : Type) := {
  os_ReadFile : W -> bytes -> option bytes;
  os_WriteFile : bytes -> bytes -> W -> W * bool;
  os_Stat : W -> bytes -> stat;
  os_Executable : option bytes;
  os_Getenv : bytes -> bytes;
  runtime_GOOS : bytes;
  time_Now : Z;                                              (* in seconds *)
  DefaultNodeHome : bytes;                                   (* of [app] *)
  viper_Bootstrap : W -> BootstrapConfig -> BootstrapConfig; (* [bootstrap] of app.toml, over the argument *)
  exec_LookPath : W -> bytes -> option bytes;
  exec_Run : list (list bytes) -> bytes -> W -> W * bool;    (* a pipeline and its input *)
  http_Get : bytes -> W -> W * option (Z * option bytes);    (* the status and the body *)
  rpc_Status : bytes -> W -> W * option (Z * bytes);         (* the latest height and the id of the node *)
  rpc_Block : bytes -> Z -> W -> W * option bytes;           (* the hash of a block *)
  rpc_NetInfo : bytes -> W -> W * option (list PeerInfo);
  cmt_Load : W -> bytes -> option CometConfig;               (* viper on config.toml, over the defaults *)
  cmt_Default : CometConfig;
  cmt_Write : bytes -> CometConfig -> W -> W                 (* [cmtcfg.WriteConfigFile] *)
}.
Inductive boot_err :=
| EUnknownNetwork | EInit | EDownload | EStatus (code : Z) | EHashMismatch | EReadFile | EConfig | ESyncMode | ENoRpcs
| ERpc | EAttempts | ESnapshotMissing | EFormat | EExtract | EExecutable | EBootstrapState | EPruning | EWriteFile
| ECosmovisor.
Inductive boot_end := SetupOnly | ExecStart (binary : bytes) (argv : list bytes).

Section Bootstrap.
Context {W : Type} {HH : Host W}.

Definition io {A : Type} (f : W -> W * option A) (e : boot_err) : meth W boot_err A := fun w =>
  let '(w, r) := f w in (w, match r with Some a => Ok a | None => Err e end).
Definition exec (argvs : list (list bytes)) (stdin : bytes) (e : boot_err) : meth W boot_err unit := fun w =>
  let '(w, ok) := exec_Run argvs stdin w in (w, if ok then Ok tt else Err e).
Definition write_file (path data : bytes) : meth W boot_err unit := fun w =>
  let '(w, ok) := os_WriteFile path data w in (w, if ok then Ok tt else Err EWriteFile).
Definition read_file (path : bytes) : meth W boot_err bytes := fun w =>
  (w, match os_ReadFile w path with Some d => Ok d | None => Err EReadFile end).

Definition runInit (home moniker chainID : bytes) : meth W boot_err unit :=
  run! binary <- mlift (match os_Executable with Some b => Ok b | None => Err EExecutable end);
  exec [[binary; str "init"; moniker; str "--chain-id"; chainID; str "--home"; home]] [] EInit.
(** The body of an answer with status 200. *)
Definition get_ok (url : bytes) : meth W boot_err bytes :=
  run! resp <- io (http_Get url) EDownload;
  if negb (resp.1 =? 200) then mfail (EStatus resp.1)
  else mlift (match resp.2 with Some data => Ok data | None => Err EDownload end).
Definition downloadFile (url destPath : bytes) : meth W boot_err unit :=
  run! data <- get_ok url; write_file destPath data.
Definition validateFileHash (path expectedHash : bytes) : meth W boot_err unit :=
  run! data <- read_file path;
  mlift (guard (negb (bytes_eqb (hex_encode (sha256 data)) expectedHash)) EHashMismatch).

Definition extractToHome (input inputFmt home : bytes) : meth W boot_err unit :=
  let sh cmd := exec [[str "sh"; str "-c"; cmd]] [] EExtract in
  if bytes_eqb inputFmt (str "lz4") then sh (str "lz4 -dc " ++ input ++ str " | tar xf - -C " ++ home)
  else if bytes_eqb inputFmt (str "zst") || bytes_eqb inputFmt (str "zstd") then
    sh (str "zstd -dc " ++ input ++ str " | tar xf - -C " ++ home)
  else if bytes_eqb inputFmt (str "gz") || bytes_eqb inputFmt (str "gzip") then sh (str "tar xzf " ++ input ++ str " -C " ++ home)
  else if bytes_eqb inputFmt (str "tar") then exec [[str "tar"; str "xf"; input; str "-C"; home]] [] EExtract
  else mfail EFormat.
Definition downloadAndExtractTarball (url destDir : bytes) : meth W boot_err unit :=
  run! body <- get_ok url;
  let untar := [str "tar"; str "xf"; str "-"; str "-C"; destDir] in
  if has_suffix (str ".tar.lz4") url then exec [[str "lz4"; str "-dc"]; untar] body EExtract
  else if has_suffix (str ".tar.zst") url then exec [[str "zstd"; str "-dc"]; untar] body EExtract
  else if has_suffix (str ".tar.gz") url || has_suffix (str ".tgz") url then
    exec [[str "tar"; str "-xzf"; str "-"; str "-C"; destDir]] body EExtract
  else exec [untar] body EExtract.

(** ** State sync *)

Record SyncInfo := MkSyncInfo { si_TrustHeight : Z; si_TrustHash : bytes; si_Peers : list bytes }.
Definition peer_addr (p : PeerInfo) : bytes :=
  let parts := Split (pi_ListenAddr p) ":"%byte in
  let port := if (1 <? length parts)%nat then List.last parts [] else str "26656" in
  pi_ID p ++ str "@" ++ pi_RemoteIP p ++ str ":" ++ port.
Definition fetchStateSyncInfo (rpcAddr : bytes) (trustOffset : Z) : meth W boot_err SyncInfo :=
  run! status <- io (rpc_Status rpcAddr) ERpc;
  let trustHeight := i64 (status.1 - trustOffset) in
  let trustHeight := if trustHeight <? 1 then 1 else trustHeight in
  run! hash <- io (rpc_Block rpcAddr trustHeight) ERpc;
  let rpcHost := extractHost rpcAddr in
  let peers := if bytes_eqb rpcHost [] then [] else [status.2 ++ str "@" ++ rpcHost ++ str ":26656"] in
  run! netInfo <- (fun w => let '(w, r) := rpc_NetInfo rpcAddr w in (w, Ok r));
  let peers := peers ++ match netInfo with Some l => map peer_addr l | None => [] end in
  mret (MkSyncInfo trustHeight (hex_encode hash) peers).
(** Discovered peers are appended to the configured ones. *)
Definition merge_peers (peers : list bytes) (c : CometConfig) : CometConfig :=
  match peers with
  | [] => c
  | _ => set_peers (cm_Seeds c) ((if bytes_eqb (cm_PersistentPeers c) [] then [] else cm_PersistentPeers c ++ str ",") ++
           Join peers ","%byte) c
  end.
Definition rpc_servers (rpcs : list bytes) (rpc : bytes) : list bytes :=
  match rpcs with r0 :: r1 :: _ => [r0; r1] | _ => [rpc; rpc] end.
(** [for attempt := 0; attempt < MaxRetries; attempt++]: [n] attempts are left. *)
Fixpoint statesync_loop (n : nat) (attempt : nat) (rpcs : list bytes) (trustOffset : Z) (c : CometConfig)
  : meth W boot_err CometConfig :=
  match n with
  | O => mfail EAttempts
  | S n' => fun w =>
      let rpc := nth (attempt mod length rpcs) rpcs [] in
      match fetchStateSyncInfo rpc trustOffset w with
      | (w, Err _) => statesync_loop n' (S attempt) rpcs trustOffset c w
      | (w, Ok si) => (w, Ok (merge_peers (si_Peers si)
          (set_statesync true (rpc_servers rpcs rpc) (si_TrustHeight si) (si_TrustHash si) trust_period c)))
      end
  end.
Definition configureStateSyncBootstrap (c : CometConfig) (bs : BootstrapConfig) : meth W boot_err CometConfig :=
  let rpcs := splitTrimmed (StateSyncRPCs bs) ","%byte in
  if (length rpcs =? 0)%nat then mfail ENoRpcs
  else statesync_loop (Z.to_nat (MaxRetries bs)) 0 rpcs (TrustOffset bs) c.

(** ** Snapshots *)

Definition fileExists (w : W) (path : bytes) : bool := match os_Stat w path with Exists => true | _ => false end.
Definition restore_snapshot (home : bytes) (bs : BootstrapConfig) : meth W boot_err unit :=
  if bytes_eqb (SnapshotURL bs) [] then mret tt
  else if isLocalPath (SnapshotURL bs) then
    let localPath := TrimPrefix (str "file://") (SnapshotURL bs) in
    run! found <- mget (fun w => fileExists w localPath);
    if negb found then mfail ESnapshotMissing
    else extractToHome localPath (detectFormat localPath) home
  else downloadAndExtractTarball (SnapshotURL bs) (filepath_Join home [str "data"]).
Definition configureSnapshotBootstrap (home : bytes) (c : CometConfig) (bs : BootstrapConfig) : meth W boot_err CometConfig :=
  exec! restore_snapshot home bs;
  let c := set_statesync false (ss_RPCServers c) (ss_TrustHeight c) (ss_TrustHash c) (ss_TrustPeriod c) c in
  let rpcs := splitTrimmed (StateSyncRPCs bs) ","%byte in
  run! c <- (match rpcs with
             | [] => mret c
             | r :: _ => fun w => match fetchStateSyncInfo r (TrustOffset bs) w with
                                  | (w, Ok si) => (w, Ok (merge_peers (si_Peers si) c))
                                  | (w, Err _) => (w, Ok c)
                                  end
             end);
  run! sentry <- mget (fun w => fileExists w (filepath_Join home [str "data"; str "application.db"]) &&
      (negb (fileExists w (filepath_Join home [str "data"; str "blockstore.db"])) ||
       negb (fileExists w (filepath_Join home [str "data"; str "state.db"]))));
  if negb sentry then mret c else
  match rpcs with
  | [] => mfail ENoRpcs
  | r :: _ =>
      run! si <- fetchStateSyncInfo r (TrustOffset bs);
      let c := set_statesync false (rpc_servers rpcs r) (si_TrustHeight si) (si_TrustHash si) trust_period c in
      exec! mput (cmt_Write (filepath_Join home [str "config"; str "config.toml"]) c);
      run! binary <- mlift (match os_Executable with Some b => Ok b | None => Err EExecutable end);
      exec! exec [[binary; str "comet"; str "bootstrap-state"; str "--home"; home]] [] EBootstrapState;
      mret c
  end.

(** ** The rest *)

(** The first line that starts with [pruning =] is replaced. *)
Fixpoint replace_pruning (pruning : bytes) (lines : list bytes) : list bytes :=
  match lines with
  | [] => []
  | line :: rest =>
      if has_prefix (str "pruning =") (TrimSpace line) then (str "pruning = " ++ [quote] ++ pruning ++ [quote]) :: rest
      else line :: replace_pruning pruning rest
  end.
Definition applyPruningConfig (home pruning : bytes) : meth W boot_err unit :=
  if negb (existsb (bytes_eqb pruning) [str "default"; str "nothing"; str "everything"]) then mfail EPruning else
  let path := filepath_Join home [str "config"; str "app.toml"] in
  run! data <- read_file path;
  write_file path (Join (replace_pruning pruning (Split data Byte.x0a)) Byte.x0a).
Definition loadCometConfig (home : bytes) : meth W boot_err CometConfig := fun w =>
  let path := filepath_Join home [str "config"; str "config.toml"] in
  if negb (fileExists w path) then (w, Ok cmt_Default)
  else (w, match cmt_Load w path with Some c => Ok c | None => Err EConfig end).
Definition installCosmovisor (binary home : bytes) : meth W boot_err unit :=
  run! goPath <- (fun w => (w, match exec_LookPath w (str "go") with Some p => Ok p | None => Err ECosmovisor end));
  exec! exec [[goPath; str "install"; str "cosmossdk.io/tools/cosmovisor/cmd/cosmovisor@latest"]] [] ECosmovisor;
  run! bin <- (fun w => (w, match exec_LookPath w (str "cosmovisor") with Some p => Ok p | None => Err ECosmovisor end));
  exec [[bin; str "init"; binary]] [] ECosmovisor.

Definition unlines (l : list bytes) : bytes := concat (map (fun x => x ++ [Byte.x0a]) l).
Definition createSystemdService (home : bytes) (cosmovisor : bool) : meth W boot_err unit :=
  if negb (bytes_eqb runtime_GOOS (str "linux")) then mret tt else
  let currentUser := override (os_Getenv (str "USER")) (str "root") in
  let gopath := override (os_Getenv (str "GOPATH")) (filepath_Join (os_Getenv (str "HOME")) [str "go"]) in
  run! p <- (if cosmovisor then mret (filepath_Join gopath [str "bin"; str "cosmovisor"] ++ str " run start --home " ++ home,
                                      str "Terp Node (cosmovisor)")
             else mlift (match os_Executable with
                         | Some binary => Ok (binary ++ str " start --home " ++ home, str "Terp Node")
                         | None => Err EExecutable
                         end));
  write_file (str "/etc/systemd/system/terpd.service") (unlines [
    str "[Unit]"; str "Description=" ++ p.2; str "After=network-online.target"; str "Wants=network-online.target"; [];
    str "[Service]"; str "User=" ++ currentUser; str "ExecStart=" ++ p.1; str "Restart=always"; str "RestartSec=3";
    str "LimitNOFILE=65535"; str "Environment=" ++ [quote] ++ str "DAEMON_NAME=terpd" ++ [quote];
    str "Environment=" ++ [quote] ++ str "DAEMON_HOME=" ++ home ++ [quote];
    str "Environment=" ++ [quote] ++ str "DAEMON_ALLOW_DOWNLOAD_BINARIES=false" ++ [quote];
    str "Environment=" ++ [quote] ++ str "DAEMON_RESTART_AFTER_UPGRADE=true" ++ [quote]; [];
    str "[Install]"; str "WantedBy=multi-user.target"]).

(** The configuration after the network preset and the flags. *)
Definition resolve (fl : Flags) (cfg : BootstrapConfig) : result boot_err (bytes * BootstrapConfig) :=
  try! p <- (if bytes_eqb (fl_network fl) [] then Ok (fl_chain_id fl, cfg)
             else match networkPresets (fl_network fl) with
                  | None => Err EUnknownNetwork
                  | Some np => Ok (np_ChainID np,
                      MkBootstrapConfig (SyncMode cfg) (np_GenesisURL np) (GenesisHash cfg) (SnapshotURL cfg) (np_RPCs np)
                        (TrustOffset cfg) (MaxRetries cfg) (Seeds cfg) (PersistentPeers cfg) (PrivateMode cfg)
                        (Cosmovisor cfg) (Service cfg) (Pruning cfg))
                  end);
  let c := applyBootstrapFlagOverrides fl p.2 in
  Ok (p.1, if fl_public fl then
        MkBootstrapConfig (SyncMode c) (GenesisURL c) (GenesisHash c) (SnapshotURL c) (StateSyncRPCs c) (TrustOffset c)
          (MaxRetries c) (Seeds c) (PersistentPeers c) false (Cosmovisor c) (Service c) (Pruning c)
      else c).
(** The directory of the node. *)
Definition home_of (fl : Flags) : bytes := override (fl_home fl) DefaultNodeHome.
Definition runBootstrap (fl : Flags) : meth W boot_err boot_end :=
  let home := home_of fl in
  let moniker := override (fl_moniker fl) (str "terp-node-" ++ FormatInt (Z.rem time_Now 10000)) in
  run! cfg <- mget (fun w => viper_Bootstrap w DefaultBootstrapConfig);
  run! p <- mlift (resolve fl cfg);
  let bs := p.2 in
  let genesisPath := filepath_Join home [str "config"; str "genesis.json"] in
  run! st <- mget (fun w => os_Stat w genesisPath);
  exec! (match st with NotExist => runInit home moniker p.1 | _ => mret tt end);
  exec! (if bytes_eqb (GenesisURL bs) [] then mret tt else downloadFile (GenesisURL bs) genesisPath);
  exec! (if bytes_eqb (GenesisHash bs) [] then mret tt else validateFileHash genesisPath (GenesisHash bs));
  run! c <- loadCometConfig home;
  let c := set_peers (override (Seeds bs) (cm_Seeds c)) (override (PersistentPeers bs) (cm_PersistentPeers c)) c in
  run! c <- (if bytes_eqb (SyncMode bs) (str "statesync") then configureStateSyncBootstrap c bs
             else if bytes_eqb (SyncMode bs) (str "snapshot") then configureSnapshotBootstrap home c bs
             else mfail ESyncMode);
  let c := if PrivateMode bs then applyPrivateMode c else c in
  exec! mput (cmt_Write (filepath_Join home [str "config"; str "config.toml"]) c);
  exec! (if bytes_eqb (Pruning bs) [] then mret tt else applyPruningConfig home (Pruning bs));
  run! binary <- mlift (match os_Executable with Some b => Ok b | None => Err EExecutable end);
  exec! (if Cosmovisor bs then installCosmovisor binary home else mret tt);
  exec! (if Service bs then createSystemdService home (Cosmovisor bs) else mret tt);
  if fl_setup_only fl then mret SetupOnly else
  let plain := ExecStart binary [str "terpd"; str "start"; str "--home"; home] in
  if Cosmovisor bs then
    run! found <- mget (fun w => exec_LookPath w (str "cosmovisor"));
    mret (match found with
          | Some b => ExecStart b [str "cosmovisor"; str "run"; str "start"; str "--home"; home]
          | None => plain
          end)
  else mret plain.
End Bootstrap.

(** ** Paths do not clash *)

Lemma clean_elems_app rooted l l' acc : clean_elems rooted (l ++ l') acc = clean_elems rooted l' (clean_elems rooted l acc).
Proof.
  revert acc. induction l as [|e l IH]; intros acc; [done|]. cbn [app clean_elems].
  destruct (_ || _); [apply IH|]. destruct (bytes_eqb e (str "..")); [|apply IH].
  destruct acc as [|p acc]; [apply IH|]. destruct (bytes_eqb p (str "..")); apply IH.
Qed.
Lemma Join_last l n c : exists p, Join (l ++ [n]) c = p ++ n.
Proof.
  induction l as [|a l IH]; [by exists []|]. cbn [app Join]. destruct IH as [p IH].
  destruct (l ++ [n]) as [|b r] eqn:E; [by destruct l|]. rewrite IH. exists (a ++ c :: p). by rewrite <- app_assoc.
Qed.
(** A file of the configuration directory ends with its name. *)
Lemma config_path home n : (bytes_eqb n [] || bytes_eqb n (str ".")) = false -> bytes_eqb n (str "..") = false ->
  exists p, filepath_Join home [str "config"; n] = p ++ n.
Proof.
  intros H1 H2. unfold filepath_Join. cbv zeta. rewrite clean_elems_app. set (acc := clean_elems _ (Split _ _) _).
  assert (E : forall r, clean_elems r [str "config"; n] acc = [n; str "config"] ++ acc).
  { intros r. cbn [clean_elems]. rewrite H1, H2. reflexivity. }
  rewrite E. cbn [app rev]. destruct (Join_last (rev acc ++ [str "config"]) n "/"%byte) as [p Hp].
  rewrite Hp. eexists. by rewrite app_assoc.
Qed.
Lemma ends_apart (p q a b : bytes) : length a = length b -> a <> b -> p ++ a <> q ++ b.
Proof. intros Hl Hn E. apply app_inj_2 in E as [_ E]; done. Qed.
Definition genesis_path (home : bytes) : bytes := filepath_Join home [str "config"; str "genesis.json"].
Definition config_toml (home : bytes) : bytes := filepath_Join home [str "config"; str "config.toml"].
Definition app_toml (home : bytes) : bytes := filepath_Join home [str "config"; str "app.toml"].
Lemma config_paths_apart home : config_toml home <> genesis_path home /\ app_toml home <> genesis_path home /\
  app_toml home <> config_toml home.
Proof.
  destruct (config_path home (str "genesis.json") eq_refl eq_refl) as [p Hp].
  destruct (config_path home (str "config.toml") eq_refl eq_refl) as [q Hq].
  destruct (config_path home (str "app.toml") eq_refl eq_refl) as [r Hr].
  unfold genesis_path, config_toml, app_toml. rewrite Hp, Hq, Hr.
  change (str "genesis.json") with (str "genesi" ++ str "s.json"). change (str "config.toml") with (str "confi" ++ str "g.toml").
  change (str "app.toml") with (str "ap" ++ str "p.toml"). rewrite !app_assoc.
  split; [by apply ends_apart|]. split; by apply ends_apart.
Qed.

(** ** What the host promises *)

(** Network calls write no file, and a file holds what was written last. *)
Class HostLaws (W : Type) `{Host W} := {
  hl_http : forall u w q, os_ReadFile (http_Get u w).1 q = os_ReadFile w q;
  hl_status : forall u w q, os_ReadFile (rpc_Status u w).1 q = os_ReadFile w q;
  hl_block : forall u h w q, os_ReadFile (rpc_Block u h w).1 q = os_ReadFile w q;
  hl_net : forall u w q, os_ReadFile (rpc_NetInfo u w).1 q = os_ReadFile w q;
  hl_write : forall p d w q, p <> q -> os_ReadFile (os_WriteFile p d w).1 q = os_ReadFile w q;
  hl_write_config : forall p d w q, p <> q -> cmt_Load (os_WriteFile p d w).1 q = cmt_Load w q;
  hl_config : forall p c w, cmt_Load (cmt_Write p c w) p = Some c;
  hl_config_other : forall p c w q, p <> q -> os_ReadFile (cmt_Write p c w) q = os_ReadFile w q
}.

Section BootstrapLaws.
Context {W : Type} {HH : Host W} {HL : HostLaws W}.

(** Steps that leave the file [q] alone. *)
Definition keeps {A} (q : bytes) (m : meth W boot_err A) : Prop := forall w, os_ReadFile (m w).1 q = os_ReadFile w q.
Lemma boot_keeps_bind {A B} q (m : meth W boot_err A) (k : A -> meth W boot_err B) :
  keeps q m -> (forall a, keeps q (k a)) -> keeps q (mbind m k).
Proof.
  intros Hm Hk w. unfold mbind. specialize (Hm w). destruct (m w) as [w' [a|e]]; cbn in *; [|done]. by rewrite Hk.
Qed.
Lemma boot_keeps_ret {A} q (r : result boot_err A) : keeps q (mlift r).
Proof. done. Qed.
Lemma keeps_io {A} q f e : (forall w, os_ReadFile (f w).1 q = os_ReadFile w q) -> keeps q (@io W A f e).
Proof. intros Hf w. unfold io. specialize (Hf w). by destruct (f w) as [w' [a|]]. Qed.
Lemma fetch_keeps q rpc off : keeps q (fetchStateSyncInfo rpc off).
Proof.
  apply boot_keeps_bind; [apply keeps_io; intros w; apply hl_status|]. intros [h id]. cbv zeta.
  apply boot_keeps_bind; [apply keeps_io; intros w; apply hl_block|]. intros hash.
  apply boot_keeps_bind; [|done]. intros w. pose proof (hl_net rpc w q) as Hn. by destruct (rpc_NetInfo rpc w).
Qed.
Lemma fetch_height rpc off w w' si : fetchStateSyncInfo rpc off w = (w', Ok si) -> 1 <= si_TrustHeight si.
Proof.
  unfold fetchStateSyncInfo, mbind, io, mret. destruct (rpc_Status rpc w) as [w1 [[h id]|]]; [|done]. cbv zeta. cbn [fst snd].
  destruct (rpc_Block _ _ _) as [w2 [hash|]]; [|done]. destruct (rpc_NetInfo rpc w2) as [w3 r]. intros [= _ <-]. cbn.
  destruct (_ <? 1) eqn:E; zbool; lia.
Qed.
Lemma merge_peers_sync peers c : let c' := merge_peers peers c in ss_Enable c' = ss_Enable c /\ ss_RPCServers c' = ss_RPCServers c /\
  ss_TrustHeight c' = ss_TrustHeight c /\ ss_TrustHash c' = ss_TrustHash c.
Proof. by destruct peers. Qed.

(** The configuration names a block that a server of the list served, and
    servers of the list. *)
Definition synced (rpcs : list bytes) (off : Z) (c : CometConfig) : Prop :=
  ss_Enable c = true /\ Forall (fun r => r ∈ rpcs) (ss_RPCServers c) /\ length (ss_RPCServers c) = 2%nat /\ 1 <= ss_TrustHeight c /\
  exists rpc w w' si, rpc ∈ rpcs /\ fetchStateSyncInfo rpc off w = (w', Ok si) /\
    ss_TrustHeight c = si_TrustHeight si /\ ss_TrustHash c = si_TrustHash si.

Lemma rotation_in (attempt : nat) (rpcs : list bytes) : rpcs <> [] -> nth (attempt mod length rpcs) rpcs [] ∈ rpcs.
Proof.
  intros Hr. apply list_elem_of_In, nth_In. apply Nat.mod_upper_bound. by destruct rpcs.
Qed.
Lemma statesync_loop_spec n attempt rpcs off c w w' c' : rpcs <> [] ->
  statesync_loop n attempt rpcs off c w = (w', Ok c') -> synced rpcs off c' /\ forall q, os_ReadFile w' q = os_ReadFile w q.
Proof.
  intros Hr. revert attempt w. induction n as [|n IH]; intros attempt w; cbn [statesync_loop]; [done|].
  pose proof (fun q => fetch_keeps q (nth (attempt mod length rpcs) rpcs []) off w) as Hk.
  destruct (fetchStateSyncInfo _ off w) as [w1 [si|e]] eqn:E.
  - intros [= <- <-]. split; [|done]. pose proof (rotation_in attempt rpcs Hr) as Hin.
    destruct (merge_peers_sync (si_Peers si) (set_statesync true (rpc_servers rpcs (nth (attempt mod length rpcs) rpcs []))
      (si_TrustHeight si) (si_TrustHash si) trust_period c)) as (H1 & H2 & H3 & H4).
    unfold synced. rewrite H1, H2, H3, H4. split; [done|]. split; [|split; [|split]].
    + cbn [ss_RPCServers set_statesync]. unfold rpc_servers. destruct rpcs as [|r0 [|r1 rest]]; [done| |].
      * by repeat constructor.
      * repeat constructor.
    + cbn [ss_RPCServers set_statesync]. unfold rpc_servers. by destruct rpcs as [|r0 [|r1 rest]].
    + by apply fetch_height in E.
    + eauto 10.
  - intros H. destruct (IH _ _ H) as [H1 H2]. split; [done|]. intros q. by rewrite H2, Hk.
Qed.
(** It fails only if no attempt is answered: the servers are asked in turn. *)
Lemma statesync_loop_fails n attempt rpcs off c w w' e : statesync_loop n attempt rpcs off c w = (w', Err e) ->
  forall k, (k < n)%nat -> exists w1 w2 e', fetchStateSyncInfo (nth ((attempt + k) mod length rpcs) rpcs []) off w1 = (w2, Err e').
Proof.
  revert attempt w. induction n as [|n IH]; intros attempt w; [lia|]. cbn [statesync_loop].
  destruct (fetchStateSyncInfo _ off w) as [w1 [si|e1]] eqn:E; [done|]. intros H [|k] Hk.
  - rewrite Nat.add_0_r. eauto.
  - replace (attempt + S k)%nat with (S attempt + k)%nat by lia. apply (IH _ _ H). lia.
Qed.
Lemma validated path hash w w' : validateFileHash path hash w = (w', Ok tt) ->
  w' = w /\ exists data, os_ReadFile w path = Some data /\ hex_encode (sha256 data) = hash.
Proof.
  unfold validateFileHash, mbind, read_file, mlift, guard. destruct (os_ReadFile w path) as [d|]; [|done].
  unfold bytes_eqb. destruct (bool_decide (hex_encode (sha256 d) = hash)) eqn:E; cbn [negb]; [|done].
  intros [= <-]. apply bool_decide_eq_true in E. eauto.
Qed.
Lemma pruning_keeps home pruning w w' : applyPruningConfig home pruning w = (w', Ok tt) ->
  os_ReadFile w' (genesis_path home) = os_ReadFile w (genesis_path home) /\
  cmt_Load w' (config_toml home) = cmt_Load w (config_toml home).
Proof.
  unfold applyPruningConfig. destruct (negb _); [done|]. cbv zeta. fold (app_toml home).
  unfold mbind, read_file, write_file. destruct (os_ReadFile w (app_toml home)) as [d|]; [|done].
  destruct (config_paths_apart home) as (_ & H2 & H3).
  set (text := Join _ _). pose proof (hl_write (app_toml home) text w _ H2) as Hg.
  pose proof (hl_write_config (app_toml home) text w _ H3) as Hc.
  destruct (os_WriteFile (app_toml home) text w) as [w1 []]; [|done]. by intros [= <-].
Qed.

(** A node that [bootstrap] starts with state sync has the genesis whose hash
    was configured, and a configuration that trusts a block one of the
    configured servers served; in private mode it asks nobody for peers. *)
Theorem bootstrap_statesync fl chain bs w w' out :
  resolve fl (viper_Bootstrap w DefaultBootstrapConfig) = Ok (chain, bs) ->
  SyncMode bs = str "statesync" -> Cosmovisor bs = false -> Service bs = false ->
  runBootstrap fl w = (w', Ok out) ->
  (GenesisHash bs <> [] -> exists data, os_ReadFile w' (genesis_path (home_of fl)) = Some data /\
     hex_encode (sha256 data) = GenesisHash bs) /\
  exists c, cmt_Load w' (config_toml (home_of fl)) = Some c /\
    synced (splitTrimmed (StateSyncRPCs bs) ","%byte) (TrustOffset bs) c /\
    (PrivateMode bs = true -> cm_PexReactor c = false /\ cm_MaxNumInboundPeers c = 0 /\ cm_Seeds c = []).
Proof.
  intros Hr Hm Hcv Hsv. unfold runBootstrap. cbv zeta. fold (genesis_path (home_of fl)). fold (config_toml (home_of fl)).
  intros (w1 & cfg & [= <- <-] & H)%mbind_ok. apply mbind_ok in H as (w2 & p & Hp & H). unfold mlift in Hp.
  rewrite Hr in Hp. injection Hp as <- <-. cbn [snd] in H.
  apply mbind_ok in H as (w3 & st & [= <- <-] & H).
  apply mbind_ok in H as (w4 & [] & _ & H). apply mbind_ok in H as (w5 & [] & _ & H).
  apply mbind_ok in H as (w6 & [] & Hv & H). apply mbind_ok in H as (w7 & c0 & Hl & H).
  assert (E7 : w7 = w6) by (unfold loadCometConfig in Hl; destruct (negb _); by injection Hl). subst w7. clear Hl.
  apply mbind_ok in H as (w8 & c1 & Hs & H). rewrite Hcv, Hsv in H.
  rewrite Hm in Hs. change (bytes_eqb (str "statesync") (str "statesync")) with true in Hs. cbn [bool_decide] in Hs.
  unfold configureStateSyncBootstrap in Hs. cbv zeta in Hs.
  destruct (length (splitTrimmed (StateSyncRPCs bs) ","%byte) =? 0)%nat eqn:El; [done|].
  apply statesync_loop_spec in Hs as [Hsync Hkeep]; [|by intros E; rewrite E in El].
  apply mbind_ok in H as (w9 & [] & [= <-] & H). apply mbind_ok in H as (w10 & [] & Hp & H).
  assert (Hw : w' = w10).
  { apply mbind_ok in H as (w11 & binary & Hb & H). assert (w11 = w10) as -> by (unfold mlift in Hb; by destruct os_Executable; injection Hb).
    apply mbind_ok in H as (w12 & [] & [= <-] & H). apply mbind_ok in H as (w13 & [] & [= <-] & H).
    destruct (fl_setup_only fl); by injection H. }
  subst w'. clear H. destruct (config_paths_apart (home_of fl)) as (H1 & _ & _).
  set (c2 := if PrivateMode bs then _ else _) in *.
  assert (Hfin : os_ReadFile w10 (genesis_path (home_of fl)) = os_ReadFile w8 (genesis_path (home_of fl)) /\
    cmt_Load w10 (config_toml (home_of fl)) = Some c2).
  { destruct (bytes_eqb (Pruning bs) []).
    - injection Hp as <-. split; [by apply hl_config_other | apply hl_config].
    - destruct (pruning_keeps _ _ _ _ Hp) as [Hg Hc]. split; [rewrite Hg; by apply hl_config_other | rewrite Hc; apply hl_config]. }
  destruct Hfin as [Hg Hc]. split.
  - intros Hh. destruct (bytes_eqb (GenesisHash bs) []) eqn:Eh; [by apply bool_decide_eq_true in Eh|].
    apply validated in Hv as [-> (d & Hd & Hx)]. exists d. by rewrite Hg, Hkeep.
  - exists c2. split; [done|]. subst c2. by destruct (PrivateMode bs).
Qed.
End BootstrapLaws.

(** ** A host, and what it shows *)

Record toy_host := MkToyHost { th_files : bytes -> option bytes; th_configs : bytes -> option CometConfig; th_runs : list (list (list bytes)) }.
Definition toy_put {A} (m : bytes -> option A) (p : bytes) (a : A) : bytes -> option A :=
  fun q => if decide (p = q) then Some a else m q.
Definition toy_comet : CometConfig := MkComet [] [] true 40 10 true true false [] 0 [] 0.
(** The servers whose address starts with [http://up] answer. *)
#[local] Instance toy_host_ops : Host toy_host := {
  os_ReadFile w p := th_files w p;
  os_WriteFile p d w := (MkToyHost (toy_put (th_files w) p d) (th_configs w) (th_runs w), true);
  os_Stat w p := match th_files w p with Some _ => Exists | None => NotExist end;
  os_Executable := Some (str "/bin/terpd"); os_Getenv := fun _ => []; runtime_GOOS := str "linux"; time_Now := 0;
  DefaultNodeHome := str "/root/.terp"; viper_Bootstrap := fun _ c => c; exec_LookPath := fun _ _ => None;
  exec_Run argvs _ w := (MkToyHost (th_files w) (th_configs w) (th_runs w ++ [argvs]), true);
  http_Get u w := (w, Some (200, Some (str "genesis")));
  rpc_Status u w := (w, if has_prefix (str "http://up") u then Some (5000, str "id") else None);
  rpc_Block u h w := (w, Some [Byte.xab]); rpc_NetInfo u w := (w, None);
  cmt_Load w p := th_configs w p; cmt_Default := toy_comet;
  cmt_Write p c w := MkToyHost (th_files w) (toy_put (th_configs w) p c) (th_runs w)
}.
#[local] Instance toy_host_laws : HostLaws toy_host.
Proof.
  split; try done; intros; cbn; unfold toy_put.
  - by rewrite decide_False.
  - by rewrite decide_True.
Qed.
Definition toy_start : toy_host := MkToyHost (fun _ => None) (fun _ => None) [].
Definition toy_flags (rpcs snapshot hash : bytes) : Flags :=
  MkFlags (str "/n/") [] (str "120u-1") [] false false (if bytes_eqb snapshot [] then [] else str "snapshot") [] hash snapshot rpcs
    0 0 [] [] false false [].
(** The hash of the genesis that the host serves. *)
Definition toy_hash : bytes := hex_encode (sha256 (str "genesis")).
Lemma bootstrap_statesync_witness : exists w', runBootstrap (toy_flags (str "http://down:1,http://up1:1") [] toy_hash) toy_start =
    (w', Ok (ExecStart (str "/bin/terpd") [str "terpd"; str "start"; str "--home"; str "/n/"])) /\
  exists c, cmt_Load w' (str "/n/config/config.toml") = Some c /\ ss_TrustHeight c = 4000.
Proof.
  eexists. split; [vm_compute; reflexivity|]. eexists. split; vm_compute; reflexivity.
Defined.
(** A wrong hash, also one that differs in case only, stops it; the genesis
    that was refused stays on the disk. *)
Example upper_case_hash_refused : exists w', runBootstrap (toy_flags (str "http://up1:1") [] (map (fun c => if 96 <? byte_val c then byte_of_Z (byte_val c - 32) else c) toy_hash)) toy_start =
    (w', Err EHashMismatch) /\ os_ReadFile w' (str "/n/config/genesis.json") = Some (str "genesis").
Proof. eexists. split; vm_compute; reflexivity. Qed.
(** The servers written are the first two of the list, also when both failed
    and a third one answered. *)
Example failed_servers_configured : exists w' c,
  configureStateSyncBootstrap toy_comet (applyBootstrapFlagOverrides
    (toy_flags (str "http://down:1,http://gone:1,http://up1:1") [] []) DefaultBootstrapConfig) toy_start = (w', Ok c) /\
  ss_RPCServers c = [str "http://down:1"; str "http://gone:1"].
Proof. do 2 eexists. split; vm_compute; reflexivity. Qed.
(** In private mode the peers a server names are added to the persistent ones. *)
Example private_mode_discovers : exists w' c, runBootstrap (toy_flags (str "http://up1:1") [] []) toy_start =
    (w', Ok (ExecStart (str "/bin/terpd") [str "terpd"; str "start"; str "--home"; str "/n/"])) /\
  cmt_Load w' (str "/n/config/config.toml") = Some c /\ cm_PexReactor c = false /\ cm_PersistentPeers c = str "id@up1:26656".
Proof. do 2 eexists. split; [vm_compute; reflexivity|]. split; [vm_compute; reflexivity|]. split; vm_compute; reflexivity. Qed.
(** A local snapshot is unpacked into the home, a downloaded one into the data
    directory of it. *)
Example snapshot_directories :
  th_runs (restore_snapshot (str "/n") (applyBootstrapFlagOverrides (toy_flags [] (str "/s.tar") []) DefaultBootstrapConfig)
    (MkToyHost (toy_put (fun _ => None) (str "/s.tar") []) (fun _ => None) [])).1 = [[[str "tar"; str "xf"; str "/s.tar"; str "-C"; str "/n"]]] /\
  th_runs (restore_snapshot (str "/n") (applyBootstrapFlagOverrides (toy_flags [] (str "http://h/s.tar") []) DefaultBootstrapConfig)
    toy_start).1 = [[[str "tar"; str "xf"; str "-"; str "-C"; str "/n/data"]]].
Proof. split; vm_compute; reflexivity. Qed.
(** Without a line [pruning =] nothing is set, and the command goes on. *)
Example pruning_line_missing : replace_pruning (str "everything") [str "pruning=default"; str "x"] = [str "pruning=default"; str "x"].
Proof. vm_compute. reflexivity. Qed.
