(* ===== verification/Wire.v ===== *)
(** * The protobuf wire format

    The helpers that the protobuf generator writes into every [.pb.go] file of
    the modules ([encodeVarint], [sov], [skip], the varint loops and the loop
    over the fields of [Unmarshal]), as they are in
    [x/hashmerchant/types/types.pb.go]; the copies of the other files differ in
    their names only. The code under [api/] calls the copies of another module:
    [WireRuntime] is the interface, [generated] the copies in [x/]. A writer
    runs backwards over a buffer of the size that [Size] announced and panics
    outside of it; a reader carries the index [iNdEx] into the whole input. *)

From S2P Require Import Prelude Proto LvCodec.

Open Scope go_scope.

Inductive wire_err :=
| ErrIntOverflow | ErrUnexpectedEOF | ErrInvalidLength | ErrUnexpectedEndOfGroup
| ErrEndGroup                    (* [wiretype end group for non-group] *)
| ErrIllegalTag (fieldNum wire : Z)
| ErrWrongWireType (wireType : Z)
| ErrIllegalWireType (wireType : Z)
| ErrField                       (* an error of a type of another module *)
| WirePanic                      (* an index out of range, or a nil pointer *)
| WireOutOfFuel.

(** ** The helpers *)

(** [bits.Len64]. *)
Definition Len64 (x : Z) : Z := if x =? 0 then 0 else Z.log2 x + 1.
Definition sov (x : Z) : Z := (Len64 (Z.lor x 1) + 6) / 7.

(** [dAtA[i] = b]. *)
Definition store_byte (dAtA : bytes) (i : Z) (b : byte) : result wire_err bytes :=
  if (0 <=? i) && (i <? blen dAtA) then Ok (<[Z.to_nat i := b]> dAtA) else Err WirePanic.
(** [copy(dAtA[i:], s)]. *)
Definition copy_at (dAtA : bytes) (i : Z) (s : bytes) : result wire_err bytes :=
  if (0 <=? i) && (i <=? blen dAtA) then
    let n := Z.min (blen s) (blen dAtA - i) in
    Ok (slice_to i dAtA ++ slice_to n s ++ slice_from (i + n) dAtA)
  else Err WirePanic.

(** [for v >= 1<<7 { dAtA[offset] = uint8(v&0x7f | 0x80); v >>= 7; offset++ }]
    and the last byte: the buffer and [offset]. *)
Fixpoint varint_groups (fuel : nat) (dAtA : bytes) (offset v : Z) : result wire_err (bytes * Z) :=
  match fuel with
  | O => Err WireOutOfFuel
  | S fuel' =>
      if 2 ^ 7 <=? v then
        try! dAtA <- store_byte dAtA offset (byte_of_Z (Z.lor (Z.land v 127) 128));
        varint_groups fuel' dAtA (offset + 1) (Z.shiftr v 7)
      else try! dAtA <- store_byte dAtA offset (byte_of_Z v); Ok (dAtA, offset)
  end.
(** Ten groups of seven bits hold a [uint64]. *)
Definition encodeVarint (dAtA : bytes) (offset v : Z) : result wire_err (bytes * Z) :=
  let base := offset - sov v in
  try! (dAtA, _) <- varint_groups 10 dAtA base v;
  Ok (dAtA, base).
Definition byte_index (dAtA : bytes) (i : Z) : Z := byte_val (byte_at dAtA (Z.to_nat i)).
(** [for shift := uint(0); ; shift += 7 { ... x |= T(b&0x7F) << shift ... }]:
    the value and the index after it. The shift passes 64 after ten bytes. *)
Fixpoint varint_loop (fuel : nat) (T : Z -> Z) (dAtA : bytes) (l iNdEx shift x : Z) : result wire_err (Z * Z) :=
  match fuel with
  | O => Err WireOutOfFuel
  | S fuel' =>
      if 64 <=? shift then Err ErrIntOverflow
      else if l <=? iNdEx then Err ErrUnexpectedEOF
      else
        let b := byte_index dAtA iNdEx in
        let x := Z.lor x (T (Z.shiftl (Z.land b 127) shift)) in
        if b <? 128 then Ok (x, iNdEx + 1)
        else varint_loop fuel' T dAtA l (iNdEx + 1) (shift + 7) x
  end.
Definition read_varint (T : Z -> Z) (dAtA : bytes) (l iNdEx : Z) : result wire_err (Z * Z) :=
  varint_loop 11 T dAtA l iNdEx 0 0.
(** [int32(z)]. *)
Definition i32 (z : Z) : Z := (z + 2 ^ 31) mod 2 ^ 32 - 2 ^ 31.

(** [skip]: the length of the first field of [dAtA]. *)
Fixpoint skip_loop (fuel : nat) (dAtA : bytes) (l iNdEx depth : Z) : result wire_err Z :=
  match fuel with
  | O => Err WireOutOfFuel
  | S fuel' =>
      if iNdEx <? l then
        try! (wire, iNdEx) <- read_varint u64 dAtA l iNdEx;
        let wireType := Z.land wire 7 in
        try! (iNdEx, depth) <-
          (if wireType =? 0 then
             try! (_, iNdEx) <- read_varint u64 dAtA l iNdEx; Ok (iNdEx, depth)
           else if wireType =? 1 then Ok (i64 (iNdEx + 8), depth)
           else if wireType =? 2 then
             try! (length, iNdEx) <- read_varint i64 dAtA l iNdEx;
             if length <? 0 then Err ErrInvalidLength else Ok (i64 (iNdEx + length), depth)
           else if wireType =? 3 then Ok (iNdEx, depth + 1)
           else if wireType =? 4 then
             if depth =? 0 then Err ErrUnexpectedEndOfGroup else Ok (iNdEx, depth - 1)
           else if wireType =? 5 then Ok (i64 (iNdEx + 4), depth)
           else Err (ErrIllegalWireType wireType));
        if iNdEx <? 0 then Err ErrInvalidLength
        else if depth =? 0 then Ok iNdEx
        else skip_loop fuel' dAtA l iNdEx depth
      else Err ErrUnexpectedEOF
  end.
Definition skip (dAtA : bytes) : result wire_err Z := skip_loop (S (length dAtA)) dAtA (blen dAtA) 0 0.

(** ** The interface of the helpers *)

Class WireRuntime := {
  Sov : Z -> Z;
  EncodeVarint : bytes -> Z -> Z -> result wire_err (bytes * Z);
  Skip : bytes -> result wire_err Z
}.
Definition generated : WireRuntime := {| Sov := sov; EncodeVarint := encodeVarint; Skip := skip |}.

Section Messages.
Context {RT : WireRuntime}.

(** ** Writing *)

(** The buffer [dAtA] and the index [i]. *)
Definition writer : Type := bytes * Z -> result wire_err (bytes * Z).
Definition wskip : writer := fun st => Ok st.
Definition wseq (w w' : writer) : writer := fun st => rbind (w st) w'.
Notation "w ;> w'" := (wseq w w') (at level 60, right associativity) : go_scope.
(** [if cond { ... }]. *)
Definition wif (c : bool) (w : writer) : writer := if c then w else wskip.

(** [for _, num := range l { ... dAtA2[j] = uint8(num); j++ }]. *)
Fixpoint pack_loop (l : list Z) (dAtA : bytes) (j : Z) : result wire_err (bytes * Z) :=
  match l with
  | [] => Ok (dAtA, j)
  | num :: l' =>
      try! (dAtA, j) <- varint_groups 10 dAtA j num;
      pack_loop l' dAtA (j + 1)
  end.

(** [i--; dAtA[i] = b]. *)
Definition wbyte (b : byte) : writer := fun '(dAtA, i) =>
  try! dAtA <- store_byte dAtA (i - 1) b; Ok (dAtA, i - 1).
(** [i -= len(s); copy(dAtA[i:], s)]. *)
Definition wcopy (s : bytes) : writer := fun '(dAtA, i) =>
  try! dAtA <- copy_at dAtA (i - blen s) s; Ok (dAtA, i - blen s).
(** [i = encodeVarint(dAtA, i, v)]. *)
Definition wvarint (v : Z) : writer := fun '(dAtA, i) => EncodeVarint dAtA i v.
Definition wbool (b : bool) : writer := wbyte (if b then Byte.x01 else Byte.x00).
(** [for iNdEx := len(l) - 1; iNdEx >= 0; iNdEx-- { ... }]. *)
Fixpoint wdown {A : Type} (l : list A) (w : A -> writer) : writer :=
  match l with
  | [] => wskip
  | a :: l' => wdown l' w ;> w a
  end.

(** [MarshalToSizedBuffer(dAtA)] writes into the end of its argument, which it
    shares with the caller, and returns the length of what it wrote. *)
Definition sized (w : writer) (dAtA : bytes) : result wire_err (bytes * Z) :=
  try! (d, i) <- w (dAtA, blen dAtA); Ok (d, blen d - i).
(** [size, err := m.MarshalToSizedBuffer(dAtA[:i]); i -= size;
    i = encodeVarint(dAtA, i, uint64(size))]. *)
Definition wmsg (m : bytes -> result wire_err (bytes * Z)) : writer := fun '(dAtA, i) =>
  if (0 <=? i) && (i <=? blen dAtA) then
    try! (d, size) <- m (slice_to i dAtA);
    EncodeVarint (d ++ slice_from i dAtA) (i - size) size
  else Err WirePanic.
(** [size := m.F.Size(); i -= size; _, err := m.F.MarshalTo(dAtA[i:]);
    i = encodeVarint(dAtA, i, uint64(size))]. *)
Definition wcustom (size : Z) (text : result wire_err bytes) : writer := fun '(dAtA, i) =>
  try! text <- text;
  try! dAtA <- copy_at dAtA (i - size) text;
  EncodeVarint dAtA (i - size) size.

(** A packed field: the numbers are written into a buffer of their own,
    [make([]byte, len(l)*10)]. *)
Definition wpacked (l : list Z) : writer := fun st =>
  try! (d, j) <- pack_loop l (replicate (10 * length l) Byte.x00) 0;
  (wcopy (slice_to j d) ;> wvarint j) st.

(** ** Reading *)

(** A [case] of the switch: from the input, its length, the wire type and the
    index after the tag, to the message and the index after the field. *)
Definition action (M : Type) : Type := bytes -> Z -> Z -> Z -> M -> result wire_err (M * Z).

(** [m.F = 0; ... m.F |= T(b&0x7F) << shift]. *)
Definition case_varint {M : Type} (T : Z -> Z) (set : Z -> M -> M) : action M := fun dAtA l wireType iNdEx m =>
  if negb (wireType =? 0) then Err (ErrWrongWireType wireType)
  else try! (v, iNdEx) <- read_varint T dAtA l iNdEx; Ok (set v m, iNdEx).
(** [m.F = bool(v != 0)]. *)
Definition case_bool {M : Type} (set : bool -> M -> M) : action M :=
  case_varint i64 (fun v => set (negb (v =? 0))).

(** The checks of a length, and [dAtA[iNdEx:postIndex]]. *)
Definition take_len (dAtA : bytes) (l iNdEx len : Z) : result wire_err (bytes * Z) :=
  if len <? 0 then Err ErrInvalidLength else
  let postIndex := i64 (iNdEx + len) in
  if postIndex <? 0 then Err ErrInvalidLength
  else if l <? postIndex then Err ErrUnexpectedEOF
  else Ok (slice iNdEx postIndex dAtA, postIndex).
(** A field declared as a string: the length is a [uint64], converted; a type
    of its own reads the bytes with its [Unmarshal]. *)
Definition case_text {M : Type} (set : bytes -> M -> result wire_err M) : action M := fun dAtA l wireType iNdEx m =>
  if negb (wireType =? 2) then Err (ErrWrongWireType wireType) else
  try! (stringLen, iNdEx) <- read_varint u64 dAtA l iNdEx;
  try! (s, postIndex) <- take_len dAtA l iNdEx (i64 stringLen);
  try! m <- set s m;
  Ok (m, postIndex).
(** [m.F = string(dAtA[iNdEx:postIndex])]. *)
Definition case_string {M : Type} (set : bytes -> M -> M) : action M := case_text (fun s m => Ok (set s m)).
(** A message: the length is an [int], and
    [m.F.Unmarshal(dAtA[iNdEx:postIndex])] may fail. *)
Definition case_msg {M : Type} (set : bytes -> M -> result wire_err M) : action M := fun dAtA l wireType iNdEx m =>
  if negb (wireType =? 2) then Err (ErrWrongWireType wireType) else
  try! (msglen, iNdEx) <- read_varint i64 dAtA l iNdEx;
  try! (s, postIndex) <- take_len dAtA l iNdEx msglen;
  try! m <- set s m;
  Ok (m, postIndex).
(** [m.F = append(m.F[:0], dAtA[iNdEx:postIndex]...)]. *)
Definition case_bytes {M : Type} (set : bytes -> M -> M) : action M := case_msg (fun s m => Ok (set s m)).
(** [for iNdEx < postIndex { ... m.F = append(m.F, v) }]: the elements may end
    after [postIndex], which is not checked. *)
Fixpoint packed_loop {M : Type} (fuel : nat) (app : Z -> M -> M) (dAtA : bytes) (l iNdEx postIndex : Z) (m : M)
  : result wire_err (M * Z) :=
  match fuel with
  | O => Err WireOutOfFuel
  | S fuel' =>
      if iNdEx <? postIndex then
        try! (v, iNdEx) <- read_varint u64 dAtA l iNdEx;
        packed_loop fuel' app dAtA l iNdEx postIndex (app v m)
      else Ok (m, iNdEx)
  end.
Definition case_packed {M : Type} (app : Z -> M -> M) : action M := fun dAtA l wireType iNdEx m =>
  if wireType =? 0 then
    try! (v, iNdEx) <- read_varint u64 dAtA l iNdEx; Ok (app v m, iNdEx)
  else if wireType =? 2 then
    try! (packedLen, iNdEx) <- read_varint i64 dAtA l iNdEx;
    try! (_, postIndex) <- take_len dAtA l iNdEx packedLen;
    packed_loop (S (length dAtA)) app dAtA l iNdEx postIndex m
  else Err (ErrWrongWireType wireType).

(** [switch fieldNum { ... }]: the case of a field number, and what the default
    does with the bytes of a field it skips. *)
Record switch (M : Type) := MkSwitch { case_of : Z -> option (action M); on_unknown : bytes -> M -> M }.

(** The loop over the fields. Every round takes at least the tag. *)
Fixpoint unmarshal_loop {M : Type} (fuel : nat) (sw : switch M) (dAtA : bytes) (l iNdEx : Z) (m : M)
  : result wire_err M :=
  match fuel with
  | O => Err WireOutOfFuel
  | S fuel' =>
      if iNdEx <? l then
        let preIndex := iNdEx in
        try! (wire, iNdEx) <- read_varint u64 dAtA l iNdEx;
        let fieldNum := i32 (Z.shiftr wire 3) in
        let wireType := Z.land wire 7 in
        if wireType =? 4 then Err ErrEndGroup
        else if fieldNum <=? 0 then Err (ErrIllegalTag fieldNum wire)
        else
          match case_of M sw fieldNum with
          | Some act =>
              try! (m, iNdEx) <- act dAtA l wireType iNdEx m;
              unmarshal_loop fuel' sw dAtA l iNdEx m
          | None =>
              try! skippy <- Skip (slice_from preIndex dAtA);
              if (skippy <? 0) || (i64 (preIndex + skippy) <? 0) then Err ErrInvalidLength
              else if l <? i64 (preIndex + skippy) then Err ErrUnexpectedEOF
              else
                let m := on_unknown M sw (slice preIndex (preIndex + skippy) dAtA) m in
                unmarshal_loop fuel' sw dAtA l (i64 (preIndex + skippy)) m
          end
      else if l <? iNdEx then Err ErrUnexpectedEOF else Ok m
  end.
(** [m.Unmarshal(dAtA)]: merges into [m]. *)
Definition unmarshal_with {M : Type} (sw : switch M) (dAtA : bytes) (m : M) : result wire_err M :=
  unmarshal_loop (S (length dAtA)) sw dAtA (blen dAtA) 0 m.
(** The code under [x/] drops the fields it skips. *)
Definition dropping {M : Type} (cases : Z -> option (action M)) : switch M := MkSwitch M cases (fun _ m => m).
Definition unmarshal {M : Type} (cases : Z -> option (action M)) : bytes -> M -> result wire_err M :=
  unmarshal_with (dropping cases).

(** ** The interface of a message *)

Class WireMsg (A : Type) := {
  Size : A -> Z;
  MarshalToSizedBuffer : A -> bytes -> result wire_err (bytes * Z);
  wUnmarshal : bytes -> A -> result wire_err A;
  wZero : A          (* [A{}] *)
}.
(** [size := m.Size(); dAtA = make([]byte, size); n, err :=
    m.MarshalToSizedBuffer(dAtA[:size]); return dAtA[:n]]. *)
Definition wMarshal {A : Type} `{WireMsg A} (m : A) : result wire_err bytes :=
  let dAtA := replicate (Z.to_nat (Size m)) Byte.x00 in
  try! (d, n) <- MarshalToSizedBuffer m dAtA;
  Ok (slice_to n d).
(** A type with its own codec ([gogoproto.customtype]). *)
Class WireCustom (A : Type) := {
  cSize : A -> Z;
  cMarshal : A -> result wire_err bytes;
  cUnmarshal : bytes -> result wire_err A;
  cZero : A
}.

(** The parts of a message, named by the kind of the field. *)
Definition wlen (t : byte) (s : bytes) : writer := (wcopy s ;> wvarint (blen s)) ;> wbyte t.
Definition wsub {A : Type} `{WireMsg A} (t : byte) (x : A) : writer := wmsg (MarshalToSizedBuffer x) ;> wbyte t.
(** A nil element of a repeated field: the method dereferences it. *)
Definition wsub_ptr {A : Type} `{WireMsg A} (t : byte) (x : option A) : writer :=
  match x with Some x => wsub t x | None => fun _ => Err WirePanic end.
Definition wcust {A : Type} `{WireCustom A} (t : byte) (x : A) : writer := wcustom (cSize x) (cMarshal x) ;> wbyte t.
Definition size_len (l : Z) : Z := 1 + l + Sov l.
(** [for _, e := range l { n += ... }]. *)
Definition size_each {A : Type} (f : A -> Z) (l : list A) : Z := fold_left (fun n e => n + f e) l 0.
(** [Size] of a nil receiver is zero. *)
Definition size_ptr {A : Type} `{WireMsg A} (x : option A) : Z := match x with Some x => Size x | None => 0 end.

Definition case_sub {M A : Type} `{WireMsg A} (get : M -> A) (set : A -> M -> M) : action M :=
  case_msg (fun s m => try! x <- wUnmarshal s (get m); Ok (set x m)).
(** [if m.F == nil { m.F = &A{} }; m.F.Unmarshal(...)]. *)
Definition case_ptr {M A : Type} `{WireMsg A} (get : M -> option A) (set : option A -> M -> M) : action M :=
  case_msg (fun s m => try! x <- wUnmarshal s (default wZero (get m)); Ok (set (Some x) m)).
(** [m.F = append(m.F, A{}); m.F[len(m.F)-1].Unmarshal(...)]. *)
Definition case_rep {M A : Type} `{WireMsg A} (get : M -> list A) (set : list A -> M -> M) : action M :=
  case_msg (fun s m => try! x <- wUnmarshal s wZero; Ok (set (get m ++ [x]) m)).
Definition case_rep_ptr {M A : Type} `{WireMsg A} (get : M -> list (option A)) (set : list (option A) -> M -> M) : action M :=
  case_msg (fun s m => try! x <- wUnmarshal s wZero; Ok (set (get m ++ [Some x]) m)).
Definition case_strings {M : Type} (get : M -> list bytes) (set : list bytes -> M -> M) : action M :=
  case_string (fun s m => set (get m ++ [s]) m).
Definition case_byteses {M : Type} (get : M -> list bytes) (set : list bytes -> M -> M) : action M :=
  case_bytes (fun s m => set (get m ++ [s]) m).
Definition case_custom {M A : Type} `{WireCustom A} (set : A -> M -> M) : action M :=
  case_text (fun s m => try! x <- cUnmarshal s; Ok (set x m)).
Definition case_packed_list {M : Type} (get : M -> list Z) (set : list Z -> M -> M) : action M :=
  case_packed (fun v m => set (get m ++ [v]) m).

End Messages.
Arguments MkSwitch {M}.
Arguments case_of {M}.
Arguments on_unknown {M}.
Notation "w ;> w'" := (wseq w w') (at level 60, right associativity) : go_scope.
