(* ===== verification/WireLaws.v ===== *)
(** * The protobuf wire format: what is written is read

    A writer emits a fixed string of bytes ([emits]), [Size] announces its
    length ([sizes]) and the loop of [Unmarshal] takes it back ([consumes]);
    the three are proved together for every kind of field ([field]) and compose
    over the fields of a message. Reading returns on every input, and keeps the
    ranges of the Go types ([good]). [WireLaws] is what one message promises to
    the message it is a field of; [wire_laws] proves it for a generated codec. *)

From S2P Require Import Prelude Proto Sdk LvCodec Wire.

Open Scope go_scope.

(** ** Lemmas on bits *)

(** [a | 0x80] below [0x80]. *)
Lemma lor_add_disjoint7 a : 0 <= a < 128 -> Z.lor 128 a = a + 128.
Proof.
  intros Ha. rewrite <- Z.lxor_lor, <- Z.add_nocarry_lxor; [lia| |];
    apply Z.bits_inj'; intros n Hn; rewrite Z.land_spec, Z.bits_0; change 128 with (2 ^ 7) in *;
    (destruct (decide (n = 7)) as [->|];
     [rewrite (testbit_high a 7 7) by lia; apply andb_false_r | by rewrite Z.pow2_bits_false by lia]).
Qed.

(** Two's complement on [k + 1] bits: bit [k] is repeated upwards. *)
Definition swrap (k z : Z) : Z := (z + 2 ^ k) mod 2 ^ (k + 1) - 2 ^ k.
Lemma testbit_sign x k n : - 2 ^ k <= x < 2 ^ k -> 0 <= k <= n -> Z.testbit x n = (x <? 0).
Proof.
  intros Hx Hn. destruct (x <? 0) eqn:E; zbool.
  - rewrite <- (Z.lnot_involutive x), Z.lnot_spec by lia.
    rewrite (testbit_high (Z.lnot x) k) by (unfold Z.lnot; lia). done.
  - apply (testbit_high x k); lia.
Qed.
Lemma testbit_swrap k z n : 0 <= k -> 0 <= n -> Z.testbit (swrap k z) n = Z.testbit z (Z.min n k).
Proof.
  intros Hk Hn. pose proof (Z.mod_pos_bound (z + 2 ^ k) (2 ^ (k + 1)) ltac:(apply Z.pow_pos_nonneg; lia)).
  assert (Hp : 2 ^ (k + 1) = 2 * 2 ^ k) by (rewrite Z.pow_add_r by lia; lia).
  assert (Hs : - 2 ^ k <= swrap k z < 2 ^ k) by (unfold swrap; lia).
  assert (Hlow : forall m, 0 <= m <= k -> Z.testbit (swrap k z) m = Z.testbit z m).
  { intros m Hm. rewrite <- (Z.mod_pow2_bits_low _ (k + 1)), <- (Z.mod_pow2_bits_low z (k + 1)) by lia.
    f_equal. unfold swrap. rewrite Zminus_mod_idemp_l. f_equal. lia. }
  destruct (Z.le_gt_cases n k); [rewrite Z.min_l by lia; apply Hlow; lia|].
  rewrite Z.min_r, <- Hlow by lia. by rewrite !(testbit_sign _ k) by lia.
Qed.
Lemma swrap_lor k a b : 0 <= k -> swrap k (Z.lor a b) = Z.lor (swrap k a) (swrap k b).
Proof.
  intros Hk. apply Z.bits_inj'. intros n Hn.
  by rewrite Z.lor_spec, !testbit_swrap, Z.lor_spec.
Qed.
Lemma mod_pow2_lor w a b : 0 <= w -> Z.lor a b mod 2 ^ w = Z.lor (a mod 2 ^ w) (b mod 2 ^ w).
Proof.
  intros Hw. apply Z.bits_inj'. intros n Hn. rewrite Z.lor_spec.
  destruct (Z.lt_ge_cases n w).
  - by rewrite !Z.mod_pow2_bits_low, Z.lor_spec by lia.
  - by rewrite !Z.mod_pow2_bits_high by lia.
Qed.
Lemma swrap_u64 k z : 0 <= k < 64 -> swrap k (u64 z) = swrap k z.
Proof.
  intros Hk. apply Z.bits_inj'. intros n Hn. rewrite !testbit_swrap by lia.
  unfold u64. apply Z.mod_pow2_bits_low. lia.
Qed.

Lemma i32_id z : is_i32 z -> i32 z = z.
Proof. unfold is_i32, i32. intros H. rewrite Z.mod_small; lia. Qed.
Lemma i32_range z : is_i32 (i32 z).
Proof. unfold is_i32, i32. pose proof (Z.mod_pos_bound (z + 2 ^ 31) (2 ^ 32)). lia. Qed.

(** A conversion of the accumulated value commutes with the accumulation. *)
Class Trunc (T : Z -> Z) := {
  trunc_lor : forall a b, T (Z.lor a b) = Z.lor (T a) (T b);
  trunc_u64 : forall z, T (u64 z) = T z;
  trunc_idem : forall z, T (T z) = T z;
  trunc_0 : T 0 = 0
}.
#[global] Instance trunc_u64_i : Trunc u64.
Proof.
  split; [intros; by apply (mod_pow2_lor 64) | | |done]; intros; unfold u64; by rewrite Z.mod_mod.
Qed.
#[global] Instance trunc_u32_i : Trunc u32.
Proof.
  split; [intros; by apply (mod_pow2_lor 32)| | |done]; intros; unfold u32, u64; [|by rewrite Z.mod_mod].
  change (2 ^ 64) with (2 ^ 32 * 2 ^ 32). rewrite Z.rem_mul_r by lia. rewrite Z.mul_comm, Z.mod_add by lia. by rewrite Z.mod_mod.
Qed.
#[global] Instance trunc_i64_i : Trunc i64.
Proof.
  split; [intros; by apply (swrap_lor 63) | intros; by apply (swrap_u64 63) | |done].
  intros. apply i64_id, i64_range.
Qed.
#[global] Instance trunc_i32_i : Trunc i32.
Proof.
  split; [intros; by apply (swrap_lor 31) | intros; by apply (swrap_u64 31) | |done].
  intros. apply i32_id, i32_range.
Qed.
Lemma split7 v : 0 <= v -> Z.lor (v mod 128) (Z.shiftl (v / 128) 7) = v.
Proof.
  intros Hv. apply Z.bits_inj'. intros n Hn. change 128 with (2 ^ 7).
  rewrite Z.lor_spec, Z.shiftl_spec by lia.
  destruct (Z.lt_ge_cases n 7).
  - by rewrite Z.mod_pow2_bits_low, (Z.testbit_neg_r _ (n - 7)), orb_false_r by lia.
  - rewrite Z.mod_pow2_bits_high by lia. cbn [orb]. rewrite Z.div_pow2_bits by lia. f_equal. lia.
Qed.

(** ** What a writer emits *)

(** The bytes [w] leaves in front of the index, in a buffer with room for them. *)
Definition emits (w : writer) (bs : bytes) : Prop := blen bs < 2 ^ 63 -> forall pre mid post,
  length mid = length bs ->
  w (pre ++ mid ++ post, blen pre + blen mid) = Ok (pre ++ bs ++ post, blen pre).
Definition msg_emits (m : bytes -> result wire_err (bytes * Z)) (bs : bytes) : Prop :=
  blen bs < 2 ^ 63 -> forall pre mid, length mid = length bs -> m (pre ++ mid) = Ok (pre ++ bs, blen bs).
(** A size announces the length of [bs]. *)
Definition sizes (n : Z) (bs : bytes) : Prop := 0 <= n /\ (n < 2 ^ 63 \/ blen bs < 2 ^ 63 -> n = blen bs).

(** The varint of a number below [2^(7n)]. *)
Fixpoint varint_n (n : nat) (v : Z) : bytes :=
  match n with
  | O => []
  | S n' => if v <? 128 then [byte_of_Z v] else byte_of_Z (v mod 128 + 128) :: varint_n n' (v / 128)
  end.
Definition varint (v : Z) : bytes := varint_n 10 v.
(** A field of wire type 2. *)
Definition delimited (t : byte) (s : bytes) : bytes := t :: varint (blen s) ++ s.
Definition vfield (t : byte) (v : Z) : bytes := t :: varint v.

Lemma sov_log2 v : 0 <= v -> sov v = Z.log2 v / 7 + 1.
Proof.
  intros Hv. unfold sov, Len64.
  assert (Hl : Z.lor v 1 <> 0) by (intros H; apply Z.lor_eq_0_iff in H; lia).
  rewrite (proj2 (Z.eqb_neq _ _) Hl), Z.log2_lor by lia. change (Z.log2 1) with 0.
  rewrite Z.max_l by apply Z.log2_nonneg.
  replace (Z.log2 v + 1 + 6) with (Z.log2 v + 1 * 7) by lia. by rewrite Z.div_add by lia.
Qed.

Lemma blen_varint_n n v : 0 <= v < 2 ^ (7 * Z.of_nat n) -> blen (varint_n n v) = if (n =? 0)%nat then 0 else sov v.
Proof.
  revert v. induction n as [|n IH]; intros v Hv; [done|].
  cbn [varint_n Nat.eqb]. rewrite sov_log2 by lia.
  destruct (v <? 128) eqn:E; zbool.
  - rewrite Z.div_small; [done|].
    split; [apply Z.log2_nonneg|]. change 7 with (Z.succ 6). apply Zle_lt_succ.
    change 6 with (Z.log2 127). apply Z.log2_le_mono. lia.
  - assert (Hq : 0 < v / 128) by (apply Z.div_str_pos; lia).
    rewrite Nat2Z.inj_succ in Hv. replace (7 * Z.succ (Z.of_nat n)) with (7 + 7 * Z.of_nat n) in Hv by lia.
    rewrite Z.pow_add_r in Hv by lia.
    rewrite blen_cons, IH by (split; [lia|]; apply Z.div_lt_upper_bound; lia).
    destruct n as [|n]; [change (2 ^ (7 * Z.of_nat 0)) with 1 in Hv; lia|]. cbn [Nat.eqb].
    rewrite sov_log2 by lia. change (v / 128) with (v / 2 ^ 7). rewrite <- (Z.shiftr_div_pow2 v 7), Z.log2_shiftr by lia.
    assert (7 <= Z.log2 v) by (change 7 with (Z.log2 128); by apply Z.log2_le_mono).
    rewrite Z.max_r by lia. replace (Z.log2 v - 7) with (Z.log2 v + (-1) * 7) by lia.
    rewrite Z.div_add by lia. lia.
Qed.
Lemma blen_varint v : is_u64 v -> blen (varint v) = sov v.
Proof. unfold is_u64. intros H. apply (blen_varint_n 10). change (2 ^ (7 * Z.of_nat 10)) with (64 * 2 ^ 64). lia. Qed.
Lemma varint_nonempty v : exists b s, varint v = b :: s.
Proof. unfold varint. cbn [varint_n]. destruct (v <? 128); eauto. Qed.
Lemma blen_varint_pos v : 0 < blen (varint v).
Proof. destruct (varint_nonempty v) as (b & s & ->). rewrite blen_cons. pose proof (blen_nonneg s). lia. Qed.

Lemma store_byte_app pre x post b : store_byte (pre ++ x :: post) (blen pre) b = Ok (pre ++ b :: post).
Proof.
  unfold store_byte. rewrite blen_app, blen_cons. pose proof (blen_nonneg pre). pose proof (blen_nonneg post).
  rewrite (proj2 (Z.leb_le _ _)), (proj2 (Z.ltb_lt _ _)) by lia. cbn [andb].
  unfold blen. rewrite Nat2Z.id, insert_app_r_alt by lia. by rewrite Nat.sub_diag.
Qed.
Lemma varint_groups_emits n v pre mid post :
  0 <= v < 2 ^ (7 * Z.of_nat n) -> n <> 0%nat -> length mid = length (varint_n n v) ->
  varint_groups n (pre ++ mid ++ post) (blen pre) v = Ok (pre ++ varint_n n v ++ post, blen pre + blen (varint_n n v) - 1).
Proof.
  revert v pre mid. induction n as [|n IH]; intros v pre mid Hv Hn Hm; [done|].
  cbn [varint_groups varint_n] in *. change (2 ^ 7) with 128.
  destruct (v <? 128) eqn:E; zbool.
  - rewrite (proj2 (Z.leb_gt _ _)) by lia. destruct mid as [|x [|y mid]]; try discriminate Hm.
    cbn [app]. rewrite store_byte_app. cbn [rbind app]. do 2 f_equal. change (blen [_]) with 1. lia.
  - rewrite (proj2 (Z.leb_le _ _)) by lia. destruct mid as [|x mid]; [discriminate Hm|].
    cbn [app]. rewrite store_byte_app. cbn [rbind].
    assert (Hb : Z.lor (Z.land v 127) 128 = v mod 128 + 128).
    { change 127 with (Z.ones 7). rewrite Z.land_ones by lia. change (2 ^ 7) with 128.
      rewrite Z.lor_comm. rewrite <- (lor_add_disjoint7 (v mod 128)); [done|]. apply Z.mod_pos_bound; lia. }
    rewrite Hb, Z.shiftr_div_pow2 by lia. change (2 ^ 7) with 128.
    rewrite Nat2Z.inj_succ in Hv. replace (7 * Z.succ (Z.of_nat n)) with (7 + 7 * Z.of_nat n) in Hv by lia.
    rewrite Z.pow_add_r in Hv by lia.
    assert (0 < v / 128) by (apply Z.div_str_pos; lia).
    specialize (IH (v / 128) (pre ++ [byte_of_Z (v mod 128 + 128)]) mid).
    rewrite <- !app_assoc in IH. cbn [app] in IH.
    rewrite blen_app in IH. change (blen [byte_of_Z (v mod 128 + 128)]) with 1 in IH. rewrite IH.
    + cbn [app]. rewrite blen_cons. do 2 f_equal. lia.
    + split; [lia|]. apply Z.div_lt_upper_bound; lia.
    + intros ->. change (2 ^ (7 * Z.of_nat 0)) with 1 in Hv. lia.
    + cbn in Hm. lia.
Qed.

Lemma short_u64 bs : blen bs < 2 ^ 63 -> is_u64 (blen bs).
Proof. pose proof (blen_nonneg bs). unfold is_u64. lia. Qed.
Lemma blen_same (a b : bytes) : length a = length b -> blen a = blen b.
Proof. unfold blen. lia. Qed.

Lemma encodeVarint_emits v pre mid post : is_u64 v -> length mid = length (varint v) ->
  encodeVarint (pre ++ mid ++ post) (blen pre + blen mid) v = Ok (pre ++ varint v ++ post, blen pre).
Proof.
  intros Hv Hm. unfold encodeVarint. rewrite (blen_same _ _ Hm), blen_varint by done.
  replace (blen pre + sov v - sov v) with (blen pre) by lia.
  rewrite varint_groups_emits; [done| |done|done].
  unfold is_u64 in Hv. change (2 ^ (7 * Z.of_nat 10)) with (64 * 2 ^ 64). lia.
Qed.

(** ** What a reader takes back *)

Lemma byte_index_app pre b post : byte_index (pre ++ b :: post) (blen pre) = byte_val b.
Proof. unfold byte_index, blen. rewrite Nat2Z.id. by rewrite byte_at_app. Qed.
Lemma varint_loop_reads T `{Trunc T} fuel n v x shift pre post :
  0 <= v < 2 ^ (64 - shift) -> v < 2 ^ (7 * Z.of_nat n) -> (n <= fuel)%nat -> n <> 0%nat -> 0 <= shift < 64 ->
  varint_loop fuel T (pre ++ varint_n n v ++ post) (blen (pre ++ varint_n n v ++ post)) (blen pre) shift x =
  Ok (Z.lor x (T (Z.shiftl v shift)), blen pre + blen (varint_n n v)).
Proof.
  revert fuel v x shift pre. induction n as [|n IH]; intros fuel v x shift pre Hv Hn Hf Hz Hs; [done|].
  destruct fuel as [|fuel]; [lia|]. cbn [varint_loop].
  rewrite (proj2 (Z.leb_gt 64 shift)) by lia.
  assert (Hb : exists b w, varint_n (S n) v = b :: w) by (cbn [varint_n]; destruct (v <? 128); eauto).
  destruct Hb as (b & w & Hb). rewrite Hb. cbn [app]. rewrite byte_index_app, blen_app, blen_cons.
  pose proof (blen_nonneg (w ++ post)). rewrite (proj2 (Z.leb_gt _ (blen pre))) by lia.
  cbn [varint_n] in Hb. destruct (v <? 128) eqn:E; zbool; injection Hb as <- <-.
  - rewrite byte_val_of_Z, Z.mod_small by lia. rewrite (proj2 (Z.ltb_lt v 128)) by done.
    change 127 with (Z.ones 7). rewrite Z.land_ones, Z.mod_small by lia. done.
  - pose proof (Z.mod_pos_bound v 128). rewrite byte_val_of_Z, (Z.mod_small (_ + _)) by lia.
    rewrite (proj2 (Z.ltb_ge _ 128)) by lia.
    replace (Z.land (v mod 128 + 128) 127) with (v mod 128); cycle 1.
    { change 127 with (Z.ones 7). rewrite Z.land_ones by lia. change (2 ^ 7) with 128.
      replace (v mod 128 + 128) with (v mod 128 + 1 * 128) by lia. rewrite Z.mod_add by lia. by rewrite Z.mod_mod. }
    rewrite Nat2Z.inj_succ in Hn. replace (7 * Z.succ (Z.of_nat n)) with (7 + 7 * Z.of_nat n) in Hn by lia.
    rewrite Z.pow_add_r in Hn by lia.
    assert (Hq : 0 < v / 128) by (apply Z.div_str_pos; lia).
    assert (H7 : shift + 7 < 64).
    { destruct (Z.lt_ge_cases (shift + 7) 64); [done|]. assert (2 ^ (64 - shift) <= 128) by (change 128 with (2 ^ 7); apply Z.pow_le_mono_r; lia). lia. }
    assert (Hp : 2 ^ (64 - shift) = 128 * 2 ^ (64 - (shift + 7))).
    { change 128 with (2 ^ 7). rewrite <- Z.pow_add_r by lia. f_equal. lia. }
    specialize (IH fuel (v / 128) (Z.lor x (T (Z.shiftl (v mod 128) shift))) (shift + 7)
      (pre ++ [byte_of_Z (v mod 128 + 128)])).
    rewrite <- app_assoc in IH. cbn [app] in IH.
    rewrite blen_app, blen_cons, (blen_app pre [_]) in IH.
    change (blen [byte_of_Z (v mod 128 + 128)]) with 1 in IH. rewrite IH.
    + rewrite <- Z.lor_assoc, <- trunc_lor. do 2 f_equal; [|rewrite blen_cons; lia]. do 2 f_equal.
      rewrite Z.add_comm, <- Z.shiftl_shiftl, <- Z.shiftl_lor by lia. by rewrite split7 by lia.
    + split; [lia|]. apply Z.div_lt_upper_bound; lia.
    + apply Z.div_lt_upper_bound; lia.
    + lia.
    + intros ->. change (2 ^ (7 * Z.of_nat 0)) with 1 in Hn. lia.
    + lia.
Qed.
Lemma read_varint_reads T `{Trunc T} v pre post : is_u64 v ->
  read_varint T (pre ++ varint v ++ post) (blen (pre ++ varint v ++ post)) (blen pre) = Ok (T v, blen pre + blen (varint v)).
Proof.
  intros Hv. unfold read_varint, varint, is_u64 in *.
  rewrite (varint_loop_reads T 11 10); [by rewrite Z.shiftl_0_r|by rewrite Z.sub_0_r| |lia|done|lia].
  change (2 ^ (7 * Z.of_nat 10)) with (64 * 2 ^ 64). lia.
Qed.
Lemma take_len_reads pre s post : blen (pre ++ s ++ post) < 2 ^ 63 ->
  take_len (pre ++ s ++ post) (blen (pre ++ s ++ post)) (blen pre) (blen s) = Ok (s, blen pre + blen s).
Proof.
  rewrite !blen_app. intros Hs. pose proof (blen_nonneg pre). pose proof (blen_nonneg s). pose proof (blen_nonneg post).
  unfold take_len. rewrite (proj2 (Z.ltb_ge (blen s) 0)) by done.
  rewrite i64_id by (unfold is_i64; lia). rewrite (proj2 (Z.ltb_ge (blen pre + _) 0)), (proj2 (Z.ltb_ge _ (blen pre + blen s))) by lia.
  unfold slice. rewrite slice_from_app by done. rewrite slice_to_app by lia. done.
Qed.

(** ** The helpers *)

Definition tag_num (t : byte) : Z := Z.shiftr (byte_val t) 3.
(** A tag of one byte, of wire type [wt]. *)
Definition tag_ok (t : byte) (wt : Z) : bool :=
  (byte_val t <? 128) && (0 <? tag_num t) && (Z.land (byte_val t) 7 =? wt) && negb (wt =? 4).

(** What follows the tag of a field that is not a group. *)
Definition field_body (wt : Z) (p : bytes) : Prop :=
  (wt = 0 /\ (exists v, is_u64 v /\ p = varint v)) \/ (wt = 1 /\ blen p = 8) \/ (wt = 5 /\ blen p = 4) \/
  (wt = 2 /\ exists s, p = varint (blen s) ++ s).
Class RuntimeLaws `{WireRuntime} := {
  rl_Sov : forall v, is_u64 v -> Sov v = blen (varint v);
  rl_Sov_nonneg : forall v, 0 <= v -> 0 <= Sov v;
  rl_EncodeVarint : forall v pre mid post, is_u64 v -> length mid = length (varint v) ->
    EncodeVarint (pre ++ mid ++ post) (blen pre + blen mid) v = Ok (pre ++ varint v ++ post, blen pre);
  rl_Skip : forall d, blen d < 2 ^ 63 -> match Skip d with Ok n => 0 < n < 2 ^ 63 | Err e => e <> WireOutOfFuel end;
  rl_Skip_field : forall t wt p rest, tag_ok t wt = true -> blen (t :: p ++ rest) < 2 ^ 63 -> field_body wt p ->
    Skip (t :: p ++ rest) = Ok (blen (t :: p))
}.
Lemma varint_small t : byte_val t < 128 -> varint (byte_val t) = [t].
Proof. intros H. unfold varint. cbn [varint_n]. rewrite (proj2 (Z.ltb_lt _ _)) by done. by rewrite byte_of_Z_val. Qed.
Lemma sov_nonneg v : 0 <= v -> 0 <= sov v.
Proof. intros H. rewrite sov_log2 by done. pose proof (Z.log2_nonneg v). pose proof (Z.div_pos (Z.log2 v) 7). lia. Qed.

(** ** Reading always returns *)

Lemma varint_loop_good T `{Trunc T} fuel d l i shift x : 0 <= i -> T x = x -> 64 <= shift + 7 * (Z.of_nat fuel - 1) -> (fuel <> 0)%nat ->
  match varint_loop fuel T d l i shift x with
  | Ok (v, i') => T v = v /\ i < i' <= l
  | Err e => e <> WireOutOfFuel
  end.
Proof.
  revert i shift x. induction fuel as [|fuel IH]; intros i shift x Hi Hx Hf Hn; [done|]. cbn [varint_loop].
  destruct (64 <=? shift) eqn:E; [done|]. destruct (l <=? i) eqn:E2; [done|]. zbool. cbv zeta.
  assert (Hx' : forall y, T (Z.lor x (T y)) = Z.lor x (T y)) by (intros; by rewrite trunc_lor, trunc_idem, Hx).
  destruct (_ <? 128); [split; [apply Hx' | lia]|].
  specialize (IH (i + 1) (shift + 7) (Z.lor x (T (Z.shiftl (Z.land (byte_index d i) 127) shift)))
    ltac:(lia) (Hx' _) ltac:(lia) ltac:(lia)).
  destruct (varint_loop _ _ _ _ _ _ _) as [[v i']|e]; [|done]. split; [apply IH | lia].
Qed.
Lemma read_varint_good T `{Trunc T} d l i : 0 <= i ->
  match read_varint T d l i with Ok (v, i') => T v = v /\ i < i' <= l | Err e => e <> WireOutOfFuel end.
Proof. intros Hi. unfold read_varint. apply (varint_loop_good T 11); [done|apply trunc_0|lia|done]. Qed.

Lemma i64_add a b : 0 <= a < 2 ^ 63 -> 0 <= b < 2 ^ 63 -> i64 (a + b) < 0 \/ i64 (a + b) = a + b.
Proof.
  intros Ha Hb. destruct (decide (a + b < 2 ^ 63)).
  - right. apply i64_id. unfold is_i64. lia.
  - left. unfold i64. replace (a + b + 2 ^ 63) with ((a + b - 2 ^ 63) + 1 * 2 ^ 64) by lia.
    rewrite Z.mod_add, Z.mod_small by lia. lia.
Qed.
Lemma skip_loop_good fuel d i depth : blen d < 2 ^ 63 -> 0 <= i -> Z.max 0 (blen d - i) < Z.of_nat fuel ->
  match skip_loop fuel d (blen d) i depth with Ok n => i < n < 2 ^ 63 | Err e => e <> WireOutOfFuel end.
Proof.
  intros Hd. revert i depth. induction fuel as [|fuel IH]; intros i depth Hi Hf; [lia|]; cbn [skip_loop].
  destruct (i <? blen d) eqn:E; [|done]. zbool.
  pose proof (read_varint_good u64 d (blen d) i ltac:(lia)) as Hr.
  destruct (read_varint u64 d (blen d) i) as [[w i1]|e]; [|done]. cbn [rbind]. destruct Hr as [_ Hr]. cbv zeta.
  set (step := if Z.land w 7 =? 0 then _ else _).
  assert (Hs : match step with Ok (i2, _) => (i1 <= i2 \/ i2 < 0) /\ i2 < 2 ^ 63 | Err e => e <> WireOutOfFuel end).
  { assert (Ha : forall k, 0 <= k < 2 ^ 63 -> (i1 <= i64 (i1 + k) \/ i64 (i1 + k) < 0) /\ i64 (i1 + k) < 2 ^ 63).
    { intros k Hk. pose proof (i64_range (i1 + k)) as Hq. unfold is_i64 in Hq. destruct (i64_add i1 k); lia. }
    subst step.
    destruct (Z.land w 7 =? 0); [|destruct (Z.land w 7 =? 1); [apply Ha; lia|destruct (Z.land w 7 =? 2);
      [|destruct (Z.land w 7 =? 3); [lia|destruct (Z.land w 7 =? 4);
        [destruct (depth =? 0); (done || lia)|destruct (Z.land w 7 =? 5); [apply Ha; lia | done]]]]]].
    - pose proof (read_varint_good u64 d (blen d) i1 ltac:(lia)) as Hv.
      destruct (read_varint u64 d (blen d) i1) as [[? ?]|?]; cbn [rbind]; [lia | done].
    - pose proof (read_varint_good i64 d (blen d) i1 ltac:(lia)) as Hv.
      destruct (read_varint i64 d (blen d) i1) as [[n i2]|?]; cbn [rbind]; [|done].
      destruct Hv as [Hn Hv]. destruct (n <? 0) eqn:En; [done|]. zbool.
      pose proof (i64_range n) as Hrn. rewrite Hn in Hrn. unfold is_i64 in Hrn.
      pose proof (i64_range (i2 + n)) as Hq. unfold is_i64 in Hq. destruct (i64_add i2 n); lia. }
  destruct step as [[i2 dp]|e]; [|done]. cbn [rbind]. destruct (i2 <? 0) eqn:E2; [done|]. zbool.
  destruct (dp =? 0); [lia|]. specialize (IH i2 dp ltac:(lia) ltac:(lia)).
  destruct (skip_loop _ _ _ _ _); [lia | done].
Qed.
Lemma skip_good d : blen d < 2 ^ 63 -> match skip d with Ok n => 0 < n < 2 ^ 63 | Err e => e <> WireOutOfFuel end.
Proof. intros Hd. apply skip_loop_good; [done|lia|unfold blen; lia]. Qed.


Lemma skip_unknown t wt p rest d' : tag_ok t wt = true -> blen (t :: p ++ rest) < 2 ^ 63 ->
  field_body wt p -> d' = t :: p ++ rest -> skip d' = Ok (blen (t :: p)).
Proof.
  unfold tag_ok, tag_num. intros Ht Hs Hp ->. zbool. unfold skip. cbn [skip_loop].
  pose proof (byte_val_range t). rewrite blen_cons in *. rewrite blen_app in *.
  pose proof (blen_nonneg p). pose proof (blen_nonneg rest).
  rewrite (proj2 (Z.ltb_lt 0 _)) by lia.
  pose proof (read_varint_reads u64 (byte_val t) [] (p ++ rest) ltac:(unfold is_u64; lia)) as Hr.
  rewrite varint_small, u64_id in Hr by (done || unfold is_u64; lia). cbn [app] in Hr.
  rewrite blen_cons, blen_app in Hr. change (blen []) with 0 in Hr. change (blen [t]) with 1 in Hr.
  rewrite Hr. cbn [rbind]. cbv zeta. rewrite H1. rewrite Z.add_0_l, (blen_cons t p).
  destruct Hp as [(-> & v & Hv & ->)|[(-> & Hp)|[(-> & Hp)|(-> & s & ->)]]]; cbn [Z.eqb Pos.eqb].
  - pose proof (read_varint_reads u64 v [t] rest Hv) as Hw. cbn [app] in Hw.
    rewrite blen_cons, blen_app in Hw. change (blen [t]) with 1 in Hw. rewrite Hw. cbn [rbind].
    by rewrite (proj2 (Z.ltb_ge _ 0)) by lia.
  - rewrite i64_id by (unfold is_i64; lia). cbn [rbind]. rewrite Hp. done.
  - rewrite i64_id by (unfold is_i64; lia). cbn [rbind]. rewrite Hp. done.
  - rewrite blen_app in *. pose proof (blen_nonneg s). pose proof (blen_nonneg (varint (blen s))).
    pose proof (read_varint_reads i64 (blen s) [t] (s ++ rest) ltac:(apply short_u64; lia)) as Hw. cbn [app] in Hw.
    rewrite blen_cons, !blen_app in Hw. change (blen [t]) with 1 in Hw. rewrite <- app_assoc.
    replace (1 + (blen (varint (blen s)) + blen s + blen rest)) with (1 + (blen (varint (blen s)) + (blen s + blen rest))) by lia.
    rewrite Hw. cbn [rbind]. rewrite i64_id by (unfold is_i64; lia). rewrite (proj2 (Z.ltb_ge (blen s) 0)) by lia.
    cbn [rbind]. rewrite i64_id by (unfold is_i64; lia). rewrite (proj2 (Z.ltb_ge _ 0)) by lia. cbn [rbind]. f_equal. lia.
Qed.
#[global] Instance generated_laws : @RuntimeLaws generated.
Proof.
  split; cbn [Sov EncodeVarint Skip generated].
  - intros v Hv. by rewrite blen_varint.
  - apply sov_nonneg.
  - intros. by apply encodeVarint_emits.
  - apply skip_good.
  - intros t wt p rest Ht Hs Hp. by apply (skip_unknown t wt p rest).
Qed.

Section Laws.
Context {RT : WireRuntime} {RL : RuntimeLaws}.

(** ** Writers *)

Lemma emits_varint v : is_u64 v -> emits (wvarint v) (varint v).
Proof. intros Hv _ pre mid post Hm. by apply rl_EncodeVarint. Qed.
Lemma emits_skip : emits wskip [].
Proof. intros _ pre [|x mid] post Hm; [|done]. unfold wskip. by rewrite Z.add_0_r. Qed.
Lemma emits_byte b : emits (wbyte b) [b].
Proof.
  intros _ pre [|x [|y mid]] post Hm; try done. unfold wbyte. change (blen [x]) with 1.
  replace (blen pre + 1 - 1) with (blen pre) by lia. cbn [app]. by rewrite store_byte_app.
Qed.
Lemma copy_at_app pre mid post s : length mid = length s -> copy_at (pre ++ mid ++ post) (blen pre) s = Ok (pre ++ s ++ post).
Proof.
  intros Hm. unfold copy_at. rewrite !blen_app.
  pose proof (blen_nonneg pre). pose proof (blen_nonneg mid). pose proof (blen_nonneg post).
  pose proof (blen_same _ _ Hm) as Hl.
  rewrite (proj2 (Z.leb_le 0 _)), (proj2 (Z.leb_le (blen pre) _)) by lia. cbn [andb].
  rewrite Z.min_l by lia. rewrite slice_to_app by done. rewrite (slice_to_all _ s) by done.
  rewrite (app_assoc pre mid), slice_from_app by (rewrite blen_app; lia). done.
Qed.
Lemma emits_copy s : emits (wcopy s) s.
Proof.
  intros _ pre mid post Hm. unfold wcopy. rewrite (blen_same _ _ Hm).
  replace (blen pre + blen s - blen s) with (blen pre) by lia. by rewrite copy_at_app.
Qed.
(** A buffer with room for two pieces splits. *)
Lemma split_room (a b mid : bytes) : length mid = length (a ++ b) ->
  exists ma mb, mid = ma ++ mb /\ length ma = length a /\ length mb = length b.
Proof.
  rewrite length_app. intros H. exists (take (length a) mid), (drop (length a) mid).
  rewrite take_drop, length_take, length_drop. repeat split; lia.
Qed.
Lemma emits_seq w w' a b : emits w a -> emits w' b -> emits (w ;> w') (b ++ a).
Proof.
  intros Ha Hb Hs pre mid post Hm. rewrite blen_app in Hs.
  pose proof (blen_nonneg a). pose proof (blen_nonneg b).
  destruct (split_room _ _ _ Hm) as (mb & ma & -> & Hmb & Hma). unfold wseq.
  specialize (Ha ltac:(lia) (pre ++ mb) ma post Hma). specialize (Hb ltac:(lia) pre mb (a ++ post) Hmb).
  rewrite !blen_app, <- !app_assoc in *.
  replace (blen pre + (blen mb + blen ma)) with (blen pre + blen mb + blen ma) by lia.
  by rewrite Ha.
Qed.
Lemma emits_if (c : bool) w bs : (c = true -> emits w bs) -> emits (wif c w) (if c then bs else []).
Proof. destruct c; cbn [wif]; [by intros H; apply H | intros _; apply emits_skip]. Qed.
Lemma emits_down {A} (l : list A) w f : Forall (fun a => emits (w a) (f a)) l -> emits (wdown l w) (concat (map f l)).
Proof.
  induction 1 as [|a l Ha _ IH]; cbn [wdown map concat]; [apply emits_skip|]. by apply emits_seq.
Qed.
Lemma emits_msg m bs : msg_emits m bs -> emits (wmsg m) (varint (blen bs) ++ bs).
Proof.
  intros Hw Hs pre mid post Hm. rewrite blen_app in Hs.
  pose proof (blen_nonneg bs). pose proof (blen_varint_pos (blen bs)).
  destruct (split_room _ _ _ Hm) as (mv & mb & -> & Hmv & Hmb).
  unfold wmsg. rewrite !blen_app. pose proof (blen_nonneg pre). pose proof (blen_nonneg mv).
  pose proof (blen_nonneg mb). pose proof (blen_nonneg post).
  rewrite (proj2 (Z.leb_le 0 _)), (proj2 (Z.leb_le (blen pre + _) _)) by lia. cbn [andb].
  replace (pre ++ (mv ++ mb) ++ post) with (((pre ++ mv) ++ mb) ++ post) by by rewrite <- !app_assoc.
  rewrite slice_to_app by (rewrite !blen_app; lia). rewrite slice_from_app by (rewrite !blen_app; lia).
  rewrite Hw by (done || lia). cbn [rbind].
  replace (((pre ++ mv) ++ bs) ++ post) with (pre ++ mv ++ bs ++ post) by by rewrite <- !app_assoc.
  rewrite (blen_same mb bs) by done. replace (blen pre + (blen mv + blen bs) - blen bs) with (blen pre + blen mv) by lia.
  rewrite rl_EncodeVarint by (done || apply short_u64; lia). by rewrite <- !app_assoc.
Qed.
Lemma emits_custom size text : size = blen text -> emits (wcustom size (Ok text)) (varint (blen text) ++ text).
Proof.
  intros -> Hs pre mid post Hm. rewrite blen_app in Hs. pose proof (blen_varint_pos (blen text)).
  destruct (split_room _ _ _ Hm) as (mv & mt & -> & Hmv & Hmt). cbn [wcustom rbind].
  rewrite blen_app, (blen_same mt text) by done.
  replace (blen pre + (blen mv + blen text) - blen text) with (blen (pre ++ mv)) by (rewrite blen_app; lia).
  replace (pre ++ (mv ++ mt) ++ post) with ((pre ++ mv) ++ mt ++ post) by by rewrite <- !app_assoc.
  rewrite copy_at_app by done. cbn [rbind]. rewrite <- app_assoc, blen_app.
  rewrite rl_EncodeVarint by (done || apply short_u64; lia). by rewrite <- !app_assoc.
Qed.
Lemma emits_sized w bs : emits w bs -> msg_emits (sized w) bs.
Proof.
  intros Hw Hs pre mid Hm. unfold sized. specialize (Hw Hs pre mid [] Hm). rewrite !app_nil_r in Hw.
  rewrite blen_app, Hw. cbn [rbind]. rewrite blen_app. do 2 f_equal. lia.
Qed.

Lemma sizes_nil : sizes 0 [].
Proof. split; [lia|done]. Qed.
Lemma sizes_add n n' a b : sizes n a -> sizes n' b -> sizes (n + n') (a ++ b).
Proof.
  intros [H1 H2] [H3 H4]. pose proof (blen_nonneg a). pose proof (blen_nonneg b). split; [lia|].
  rewrite blen_app. intros Hs. assert (n = blen a) by (apply H2; lia). assert (n' = blen b) by (apply H4; lia). lia.
Qed.
Lemma sizes_if (c : bool) n bs : (c = true -> sizes n bs) -> sizes (if c then n else 0) (if c then bs else []).
Proof. destruct c; [by intros H; apply H | intros _; apply sizes_nil]. Qed.
Lemma sizes_delimited t n bs : sizes n bs -> sizes (1 + n + Sov n) (delimited t bs).
Proof.
  intros [H1 H2]. pose proof (rl_Sov_nonneg n H1). split; [lia|]. unfold delimited. rewrite blen_cons, blen_app.
  pose proof (blen_nonneg (varint (blen bs))). pose proof (blen_nonneg bs). intros Hn.
  assert (n = blen bs) by (apply H2; lia). subst n. rewrite <- rl_Sov by (apply short_u64; destruct Hn; lia). lia.
Qed.
Lemma sizes_bytes s : sizes (blen s) s.
Proof. split; [apply blen_nonneg | done]. Qed.
Lemma sizes_vfield t v : is_u64 v -> sizes (1 + Sov v) (vfield t v).
Proof.
  intros Hv. pose proof (rl_Sov_nonneg v ltac:(apply Hv)). split; [lia|].
  intros _. unfold vfield. by rewrite blen_cons, <- rl_Sov.
Qed.

(** ** Fields *)

Definition act_reads {M} (act : action M) (wt : Z) (p : bytes) (m m' : M) : Prop := forall pre post,
  blen (pre ++ p ++ post) < 2 ^ 63 ->
  act (pre ++ p ++ post) (blen (pre ++ p ++ post)) wt (blen pre) m = Ok (m', blen pre + blen p).
(** The loop runs over [c] and takes [m] to [m']. *)
Definition consumes {M} (sw : switch M) (c : bytes) (m m' : M) : Prop := forall pre post,
  blen (pre ++ c ++ post) < 2 ^ 63 -> exists k, (k <= length c)%nat /\ forall f,
  unmarshal_loop (k + f) sw (pre ++ c ++ post) (blen (pre ++ c ++ post)) (blen pre) m =
  unmarshal_loop f sw (pre ++ c ++ post) (blen (pre ++ c ++ post)) (blen pre + blen c) m'.

Lemma consumes_nil {M} sw (m : M) : consumes sw [] m m.
Proof. intros pre post _. exists 0%nat. split; [done|]. intros f. by rewrite Z.add_0_r. Qed.
Lemma consumes_app {M} sw c c' (m m1 m' : M) : consumes sw c m m1 -> consumes sw c' m1 m' -> consumes sw (c ++ c') m m'.
Proof.
  intros H1 H2 pre post Hs. specialize (H1 pre (c' ++ post)). specialize (H2 (pre ++ c) post).
  rewrite <- !app_assoc in *. destruct (H1 Hs) as (k1 & Hk1 & E1), (H2 Hs) as (k2 & Hk2 & E2).
  exists (k1 + k2)%nat. rewrite length_app. split; [lia|]. intros f.
  rewrite <- Nat.add_assoc, E1. rewrite (blen_app pre c) in E2. rewrite E2, (blen_app c). f_equal. lia.
Qed.
Lemma consumes_field {M} sw t wt p act (m m' : M) :
  tag_ok t wt = true -> case_of sw (tag_num t) = Some act -> act_reads act wt p m m' -> consumes sw (t :: p) m m'.
Proof.
  unfold tag_ok, tag_num. intros Ht Hsw Ha pre post Hs. zbool. exists 1%nat. split; [cbn; lia|].
  intros f. cbn [Nat.add unmarshal_loop]. pose proof (byte_val_range t).
  pose proof (read_varint_reads u64 (byte_val t) pre (p ++ post) ltac:(unfold is_u64; lia)) as Hr.
  rewrite varint_small, u64_id in Hr by (done || unfold is_u64; lia). cbn [app] in *.
  pose proof (blen_nonneg pre). pose proof (blen_nonneg (p ++ post)).
  rewrite (proj2 (Z.ltb_lt (blen pre) _)) by (rewrite blen_app, blen_cons; lia).
  rewrite Hr. cbn [rbind]. change (blen [t]) with 1.
  assert (Hn : Z.shiftr (byte_val t) 3 < 16) by (rewrite Z.shiftr_div_pow2 by lia; apply Z.div_lt_upper_bound; lia).
  rewrite i32_id by (unfold is_i32; lia).
  rewrite H1, (proj2 (Z.eqb_neq wt 4)), (proj2 (Z.leb_gt (Z.shiftr _ _) 0)), Hsw by done.
  specialize (Ha (pre ++ [t]) post). rewrite <- app_assoc in Ha. cbn [app] in Ha.
  rewrite (blen_app pre [t]) in Ha. change (blen [t]) with 1 in Ha. rewrite Ha by done. cbn [rbind].
  rewrite blen_cons. f_equal. lia.
Qed.

(** One field: what is written, its size and what is read agree. *)
Definition field {M} (sw : switch M) (w : writer) (n : Z) (m m' : M) : Prop :=
  exists c, emits w c /\ sizes n c /\ consumes sw c m m'.
Lemma field_seq {M} sw w W n N (m m1 m' : M) : field sw W N m m1 -> field sw w n m1 m' -> field sw (w ;> W) (N + n) m m'.
Proof.
  intros (C & H1 & H2 & H3) (c & H4 & H5 & H6). exists (C ++ c).
  split; [by apply emits_seq|]. split; [by apply sizes_add|]. by apply (consumes_app sw C c m m1 m').
Qed.
Lemma field_nil {M} sw (m : M) : field sw wskip 0 m m.
Proof. exists []. split; [apply emits_skip|]. split; [apply sizes_nil | apply consumes_nil]. Qed.
Lemma field_if {M} sw (b : bool) w n (m m' : M) :
  (b = true -> field sw w n m m') -> (b = false -> m' = m) -> field sw (wif b w) (if b then n else 0) m m'.
Proof. destruct b; cbn; [auto|]. intros _ H. rewrite (H eq_refl). apply field_nil. Qed.
(** A field of wire type 2. *)
Lemma field_delimited {M} sw t w n s act (m m' : M) :
  tag_ok t 2 = true -> case_of sw (tag_num t) = Some act -> emits w (varint (blen s) ++ s) -> sizes n s ->
  act_reads act 2 (varint (blen s) ++ s) m m' -> field sw (w ;> wbyte t) (size_len n) m m'.
Proof.
  intros Ht Hsw Hw Hn Ha. exists (delimited t s). split; [|split].
  - apply (emits_seq w (wbyte t) _ [t]); [done | apply emits_byte].
  - by apply sizes_delimited.
  - by apply (consumes_field sw t 2 _ act).
Qed.

Lemma reads_len {M} (T : Z -> Z) `{Trunc T} (conv : Z -> Z) (set : bytes -> M -> result wire_err M) s m m' :
  (is_i64 (blen s) -> conv (T (blen s)) = blen s) -> set s m = Ok m' ->
  act_reads (fun dAtA l wireType iNdEx m =>
    if negb (wireType =? 2) then Err (ErrWrongWireType wireType) else
    try! (len, iNdEx) <- read_varint T dAtA l iNdEx;
    try! (s, postIndex) <- take_len dAtA l iNdEx (conv len);
    try! m <- set s m; Ok (m, postIndex)) 2 (varint (blen s) ++ s) m m'.
Proof.
  intros Hc Hset pre post Hs. cbn [negb Z.eqb]. change (negb (2 =? 2)) with false. cbv iota.
  assert (Hl : blen s < 2 ^ 63).
  { rewrite !blen_app in Hs. pose proof (blen_nonneg pre). pose proof (blen_nonneg post).
    pose proof (blen_nonneg (varint (blen s))). lia. }
  rewrite <- !app_assoc in *. rewrite (read_varint_reads T (blen s) pre (s ++ post) (short_u64 _ Hl)). cbn [rbind].
  rewrite Hc by (pose proof (blen_nonneg s); unfold is_i64; lia).
  pose proof (take_len_reads (pre ++ varint (blen s)) s post) as Ht. rewrite <- !app_assoc in Ht.
  rewrite (blen_app pre (varint (blen s))) in Ht. rewrite (Ht Hs). cbn [rbind]. rewrite Hset. cbn [rbind].
  rewrite blen_app. do 2 f_equal. lia.
Qed.
Lemma reads_msg {M} (set : bytes -> M -> result wire_err M) s m m' :
  (blen s < 2 ^ 63 -> set s m = Ok m') -> act_reads (case_msg set) 2 (varint (blen s) ++ s) m m'.
Proof.
  intros Hset pre post Hs. refine (reads_len i64 (fun z => z) set s m m' (i64_id _) (Hset _) pre post Hs).
  rewrite !blen_app in Hs. pose proof (blen_nonneg pre). pose proof (blen_nonneg post).
  pose proof (blen_nonneg (varint (blen s))). lia.
Qed.
Lemma reads_text {M} (set : bytes -> M -> result wire_err M) s m m' :
  set s m = Ok m' -> act_reads (case_text set) 2 (varint (blen s) ++ s) m m'.
Proof.
  intros Hset pre post Hs. refine (reads_len u64 i64 set s m _ _ Hset pre post Hs).
  intros H. by rewrite trunc_u64, i64_id.
Qed.
Lemma reads_string {M} (set : bytes -> M -> M) s m : act_reads (case_string set) 2 (varint (blen s) ++ s) m (set s m).
Proof. by apply reads_text. Qed.
Lemma reads_varint {M} T `{Trunc T} (set : Z -> M -> M) v m :
  T v = v -> act_reads (case_varint T set) 0 (varint (u64 v)) m (set v m).
Proof.
  intros Hv pre post Hs. unfold case_varint. change (negb (0 =? 0)) with false. cbv iota.
  rewrite (read_varint_reads T) by apply u64_range. cbn [rbind]. by rewrite trunc_u64, Hv.
Qed.

(** ** The laws of a message *)

(** What the value must have to be read back as written, besides being a value
    of the Go type: a number of another module that is nil is written as 0. *)
Class WireFull (A : Type) := wire_full : A -> Prop.
#[global] Instance wire_full_default A : WireFull A | 1000 := fun _ => True.
(** The reader returns, and what it returns has [P]. *)
Definition good {A} (P : A -> Prop) (r : result wire_err A) : Prop :=
  match r with Ok a => P a | Err e => e <> WireOutOfFuel end.
Class WireLaws (A : Type) `{WireMsg A} `{WireOk A} `{WireFull A} := {
  wl_write : forall a, wire_ok a -> wire_full a -> exists bs,
    msg_emits (MarshalToSizedBuffer a) bs /\ sizes (Size a) bs /\ (blen bs < 2 ^ 63 -> wUnmarshal bs wZero = Ok a);
  wl_zero : wire_ok (wZero : A);
  wl_read : forall d a, blen d < 2 ^ 63 -> wire_ok a -> good wire_ok (wUnmarshal d a)
}.
(** An optional message. *)
Definition opt_ok {A} `{WireOk A} (o : option A) : Prop := match o with Some a => wire_ok a | None => True end.
Definition opt_full {A} `{WireFull A} (o : option A) : Prop := match o with Some a => wire_full a | None => True end.
Class CustomLaws (A : Type) `{WireCustom A} `{WireFull A} := {
  cl_write : forall a, wire_full a -> exists text, cMarshal a = Ok text /\ cSize a = blen text /\ cUnmarshal text = Ok a;
  cl_read : forall d, good (fun _ : A => True) (cUnmarshal d)
}.

Lemma consumes_unmarshal {A} (sw : switch A) bs zero a : consumes sw bs zero a -> blen bs < 2 ^ 63 ->
  unmarshal_with sw bs zero = Ok a.
Proof.
  intros H3 Hs. destruct (H3 [] [] ltac:(by rewrite app_nil_r)) as (k & Hk & E).
  rewrite app_nil_r in E. cbn [app] in E. change (blen []) with 0 in E. unfold unmarshal_with.
  replace (S (length bs)) with (k + S (length bs - k))%nat by lia. rewrite E. cbn [unmarshal_loop].
  by rewrite Z.add_0_l, Z.ltb_irrefl.
Qed.
Lemma message_write {A} (sw : switch A) w n zero a : field sw w n zero a -> exists bs,
  msg_emits (sized w) bs /\ sizes n bs /\ (blen bs < 2 ^ 63 -> unmarshal_with sw bs zero = Ok a).
Proof.
  intros (bs & H1 & H2 & H3). exists bs. split; [by apply emits_sized|]. split; [done|]. by apply consumes_unmarshal.
Qed.

Lemma emits_len s : emits (wcopy s ;> wvarint (blen s)) (varint (blen s) ++ s).
Proof.
  intros Hs. refine (emits_seq _ _ _ _ (emits_copy s) (emits_varint _ _) Hs). apply short_u64.
  rewrite blen_app in Hs. pose proof (blen_nonneg (varint (blen s))). lia.
Qed.
Lemma blen_zero (s : bytes) : (0 <? blen s) = false -> s = [].
Proof. destruct s; [done|]. rewrite blen_cons. intros E. zbool. pose proof (blen_nonneg s). lia. Qed.

Section Fields.
Context {M : Type} (sw : switch M) (t : byte).

Lemma field_len set s m m' : tag_ok t 2 = true -> case_of sw (tag_num t) = Some (case_string set) -> set s m = m' ->
  field sw (wlen t s) (size_len (blen s)) m m'.
Proof.
  intros Ht Hsw <-.
  apply (field_delimited sw t _ _ s _ m _ Ht Hsw); [apply emits_len|apply sizes_bytes|apply reads_string].
Qed.
Lemma field_lenb set s m m' : tag_ok t 2 = true -> case_of sw (tag_num t) = Some (case_bytes set) -> set s m = m' ->
  field sw (wlen t s) (size_len (blen s)) m m'.
Proof.
  intros Ht Hsw <-.
  apply (field_delimited sw t _ _ s _ m _ Ht Hsw); [apply emits_len|apply sizes_bytes|by apply reads_msg].
Qed.
Lemma field_string set s m m' : tag_ok t 2 = true -> case_of sw (tag_num t) = Some (case_string set) -> set s m = m' ->
  (s = [] -> m' = m) -> field sw (wif (0 <? blen s) (wlen t s)) (if 0 <? blen s then size_len (blen s) else 0) m m'.
Proof.
  intros Ht Hsw Hm H0. apply field_if; [intros _; by apply (field_len set) | intros E; by apply H0, blen_zero].
Qed.
Lemma field_bytes set s m m' : tag_ok t 2 = true -> case_of sw (tag_num t) = Some (case_bytes set) -> set s m = m' ->
  (s = [] -> m' = m) -> field sw (wif (0 <? blen s) (wlen t s)) (if 0 <? blen s then size_len (blen s) else 0) m m'.
Proof.
  intros Ht Hsw Hm H0. apply field_if; [intros _; by apply (field_lenb set) | intros E; by apply H0, blen_zero].
Qed.
Lemma field_varint T set v m m' : tag_ok t 0 = true -> case_of sw (tag_num t) = Some (case_varint T set) -> Trunc T -> T v = v ->
  set v m = m' -> (v = 0 -> m' = m) ->
  field sw (wif (negb (v =? 0)) (wvarint (u64 v) ;> wbyte t)) (if negb (v =? 0) then 1 + Sov (u64 v) else 0) m m'.
Proof.
  intros Ht Hsw HT Hv <- H0. apply field_if; [intros _ | intros E; zbool; auto].
  exists (vfield t (u64 v)). split; [|split].
  - apply (emits_seq _ _ (varint _) [t]); [apply emits_varint, u64_range | apply emits_byte].
  - apply sizes_vfield, u64_range.
  - apply (consumes_field sw t 0 _ _ _ _ Ht Hsw). by apply reads_varint.
Qed.
Lemma field_bool set b m m' : tag_ok t 0 = true -> case_of sw (tag_num t) = Some (case_bool set) -> set b m = m' ->
  (b = false -> m' = m) -> field sw (wif b (wbool b ;> wbyte t)) (if b then 2 else 0) m m'.
Proof.
  intros Ht Hsw <- H0. apply field_if; [intros -> | auto].
  exists (vfield t 1). split; [|split].
  - apply (emits_seq _ _ [Byte.x01] [t]); apply emits_byte.
  - by split.
  - apply (consumes_field sw t 0 _ _ _ _ Ht Hsw). exact (reads_varint i64 (fun v => set (negb (v =? 0))) 1 m eq_refl).
Qed.

Context {A : Type} `{WireLaws A}.
Lemma field_one act x m m' : tag_ok t 2 = true -> case_of sw (tag_num t) = Some act -> wire_ok x -> wire_full x ->
  (forall s, wUnmarshal s wZero = Ok x -> blen s < 2 ^ 63 -> act_reads act 2 (varint (blen s) ++ s) m m') ->
  field sw (wsub t x) (size_len (Size x)) m m'.
Proof.
  intros Ht Hsw Hx Hf Ha. destruct (wl_write x Hx Hf) as (bs & H3 & H4 & H5).
  destruct (decide (blen bs < 2 ^ 63)) as [Hb|Hb].
  - apply (field_delimited sw t _ _ bs _ m _ Ht Hsw); [by apply emits_msg|done|]. apply Ha; auto.
  - exists (delimited t bs). split; [|split].
    + apply (emits_seq _ _ (varint (blen bs) ++ bs) [t]); [by apply emits_msg | apply emits_byte].
    + by apply sizes_delimited.
    + intros pre post Hs. exfalso. unfold delimited in Hs. rewrite !blen_app, blen_cons, blen_app in Hs.
      pose proof (blen_nonneg pre). pose proof (blen_nonneg post). pose proof (blen_nonneg (varint (blen bs))). lia.
Qed.
Lemma field_sub get set (x : A) m m' : tag_ok t 2 = true -> case_of sw (tag_num t) = Some (case_sub get set) ->
  wire_ok x -> wire_full x -> get m = wZero -> set x m = m' -> field sw (wsub t x) (size_len (Size x)) m m'.
Proof.
  intros Ht Hsw Hx Hf Hg <-. apply (field_one _ x m _ Ht Hsw Hx Hf). intros s Hs Hl. apply reads_msg. intros _.
  by rewrite Hg, Hs.
Qed.
Lemma field_ptr get set (o : option A) m m' : tag_ok t 2 = true -> case_of sw (tag_num t) = Some (case_ptr get set) ->
  (forall x, o = Some x -> wire_ok x /\ wire_full x) -> get m = None -> set o m = m' -> (o = None -> m' = m) ->
  field sw (match o with Some x => wsub t x | None => wskip end) (match o with Some x => size_len (Size x) | None => 0 end) m m'.
Proof.
  intros Ht Hsw Hx Hg <- Hn. destruct o as [x|]; [|rewrite Hn by done; apply field_nil].
  destruct (Hx x eq_refl) as [Hx1 Hx2]. apply (field_one _ x m _ Ht Hsw Hx1 Hx2). intros s Hs Hl. apply reads_msg. intros _.
  rewrite Hg. cbn [default]. by rewrite Hs.
Qed.
End Fields.

(** ** Repeated fields *)

(** [get] and [set] of a field. *)
Definition lens {M B} (get : M -> B) (set : B -> M -> M) : Prop :=
  (forall l m, get (set l m) = l) /\ (forall l l' m, set l (set l' m) = set l m) /\ (forall m, set (get m) m = m).
Lemma fold_add_acc {A} (f : A -> Z) l n : fold_left (fun n e => n + f e) l n = n + size_each f l.
Proof.
  unfold size_each. revert n. induction l as [|a l IH]; intros n; cbn [fold_left]; [lia|]. rewrite (IH (n + f a)), (IH (0 + f a)). lia.
Qed.
Lemma size_each_cons {A} (f : A -> Z) a l : size_each f (a :: l) = f a + size_each f l.
Proof. unfold size_each. cbn [fold_left]. by rewrite fold_add_acc. Qed.

Section Repeated.
Context {M : Type} (sw : switch M) (t : byte).

Lemma field_down {B} (w1 : B -> writer) (n1 : B -> Z) get set (l : list B) m m' :
  Forall (fun x => forall m, field sw (w1 x) (n1 x) m (set (get m ++ [x]) m)) l -> lens get set ->
  get m = [] -> set l m = m' ->
  field sw (wif (0 <? Z.of_nat (length l)) (wdown l w1)) (if 0 <? Z.of_nat (length l) then size_each n1 l else 0) m m'.
Proof.
  intros Hl (L1 & L2 & L3) Hg <-. apply field_if; cycle 1.
  { destruct l; [intros _; by rewrite <- Hg, L3 | intros E; cbn [length] in E; zbool; lia]. }
  intros _. replace (set l m) with (set (get m ++ l) m) by by rewrite Hg. clear Hg. revert m.
  induction Hl as [|x l Hx Hl IH]; intros m; cbn [wdown].
  - rewrite app_nil_r, L3. apply field_nil.
  - rewrite size_each_cons. apply (field_seq _ _ _ _ _ _ (set (get m ++ [x]) m)); [apply Hx|].
    specialize (IH (set (get m ++ [x]) m)). by rewrite L1, L2, <- app_assoc in IH.
Qed.
Lemma field_strings get set (l : list bytes) m m' :
  tag_ok t 2 = true -> case_of sw (tag_num t) = Some (case_strings get set) -> lens get set -> get m = [] -> set l m = m' ->
  field sw (wif (0 <? Z.of_nat (length l)) (wdown l (wlen t)))
    (if 0 <? Z.of_nat (length l) then size_each (fun s => size_len (blen s)) l else 0) m m'.
Proof.
  intros Ht Hsw HL Hg Hm. apply (field_down _ _ get set); try done. apply Forall_forall. intros s _ m0.
  by apply (field_len sw t (fun s m => set (get m ++ [s]) m)).
Qed.
Lemma field_byteses get set (l : list bytes) m m' :
  tag_ok t 2 = true -> case_of sw (tag_num t) = Some (case_byteses get set) -> lens get set -> get m = [] -> set l m = m' ->
  field sw (wif (0 <? Z.of_nat (length l)) (wdown l (wlen t)))
    (if 0 <? Z.of_nat (length l) then size_each (fun s => size_len (blen s)) l else 0) m m'.
Proof.
  intros Ht Hsw HL Hg Hm. apply (field_down _ _ get set); try done. apply Forall_forall. intros s _ m0.
  by apply (field_lenb sw t (fun s m => set (get m ++ [s]) m)).
Qed.
Lemma field_rep {A} `{WireLaws A} get set (l : list A) m m' :
  tag_ok t 2 = true -> case_of sw (tag_num t) = Some (case_rep get set) -> Forall wire_ok l -> Forall wire_full l ->
  lens get set -> get m = [] -> set l m = m' ->
  field sw (wif (0 <? Z.of_nat (length l)) (wdown l (wsub t)))
    (if 0 <? Z.of_nat (length l) then size_each (fun e => size_len (Size e)) l else 0) m m'.
Proof.
  intros Ht Hsw Ho Hf HL Hg Hm. apply (field_down _ _ get set); try done.
  rewrite Forall_forall in Ho, Hf. apply Forall_forall. intros x Hx m0.
  apply (field_one sw t _ x m0 _ Ht Hsw); auto. intros s Hs Hb. apply reads_msg. by rewrite Hs.
Qed.
Lemma field_rep_ptr {A} `{WireLaws A} get set (l : list (option A)) m m' :
  tag_ok t 2 = true -> case_of sw (tag_num t) = Some (case_rep_ptr get set) ->
  Forall (ptr wire_ok) l -> Forall (ptr wire_full) l -> lens get set -> get m = [] -> set l m = m' ->
  field sw (wif (0 <? Z.of_nat (length l)) (wdown l (wsub_ptr t)))
    (if 0 <? Z.of_nat (length l) then size_each (fun e => size_len (size_ptr e)) l else 0) m m'.
Proof.
  intros Ht Hsw Ho Hf HL Hg Hm. apply (field_down _ _ get set); try done.
  rewrite Forall_forall in Ho, Hf. apply Forall_forall. intros [x|] Hx m0; [|by destruct (Ho _ Hx)].
  apply (field_one sw t _ x m0 _ Ht Hsw); [apply (Ho _ Hx) | apply (Hf _ Hx) |].
  intros s Hs Hb. apply reads_msg. by rewrite Hs.
Qed.
Lemma field_custom {A} `{CustomLaws A} set (x : A) m m' :
  tag_ok t 2 = true -> case_of sw (tag_num t) = Some (case_custom set) -> wire_full x -> set x m = m' ->
  field sw (wcust t x) (size_len (cSize x)) m m'.
Proof.
  intros Ht Hsw Hf <-. unfold wcust. destruct (cl_write x Hf) as (text & -> & -> & E).
  apply (field_delimited sw t _ _ text _ m _ Ht Hsw); [by apply emits_custom|apply sizes_bytes|].
  apply reads_text. by rewrite E.
Qed.
End Repeated.

(** ** Packed fields *)

Definition packed (l : list Z) : bytes := concat (map varint l).
Lemma length_varint_n n v : (length (varint_n n v) <= n)%nat.
Proof. revert v. induction n as [|n IH]; intros v; cbn; [done|]. destruct (v <? 128); cbn; [lia|]. specialize (IH (v / 128)). lia. Qed.
Lemma length_packed l : (length (packed l) <= 10 * length l)%nat.
Proof.
  unfold packed. induction l as [|v l IH]; cbn [map concat length]; [done|].
  rewrite length_app. pose proof (length_varint_n 10 v). unfold varint in *. lia.
Qed.
Lemma length_packed_ge l : (length l <= length (packed l))%nat.
Proof.
  unfold packed. induction l as [|v l IH]; cbn [map concat length]; [done|].
  rewrite length_app. destruct (varint_nonempty v) as (b & s & ->). cbn. lia.
Qed.
Lemma pack_loop_emits l pre mid post : Forall is_u64 l -> length mid = length (packed l) ->
  pack_loop l (pre ++ mid ++ post) (blen pre) = Ok (pre ++ packed l ++ post, blen pre + blen (packed l)).
Proof.
  intros Hl. unfold packed. revert pre mid. induction Hl as [|v l Hv Hl IH]; intros pre mid Hm; cbn [map concat pack_loop] in *.
  - destruct mid; [|done]. by rewrite Z.add_0_r.
  - destruct (split_room _ _ _ Hm) as (mv & ml & -> & Hmv & Hml).
    pose proof (varint_groups_emits 10 v pre mv (ml ++ post)) as Hg. rewrite <- !app_assoc. rewrite Hg; cycle 1.
    + unfold is_u64 in Hv. change (2 ^ (7 * Z.of_nat 10)) with (64 * 2 ^ 64). lia.
    + done.
    + done.
    + cbn [rbind]. change (varint_n 10 v) with (varint v).
      specialize (IH (pre ++ varint v) ml Hml). rewrite <- !app_assoc, blen_app in IH.
      replace (blen pre + blen (varint v) - 1 + 1) with (blen pre + blen (varint v)) by lia.
      rewrite IH. do 2 f_equal. rewrite blen_app. lia.
Qed.
Lemma emits_packed l : Forall is_u64 l -> emits (wpacked l) (varint (blen (packed l)) ++ packed l).
Proof.
  intros Hl Hs pre mid post Hm. unfold wpacked.
  pose proof (pack_loop_emits l [] (replicate (length (packed l)) Byte.x00)
    (replicate (10 * length l - length (packed l)) Byte.x00) Hl (length_replicate _ _)) as Hp.
  cbn [app] in Hp. rewrite <- replicate_add in Hp. pose proof (length_packed l).
  replace (length (packed l) + (10 * length l - length (packed l)))%nat with (10 * length l)%nat in Hp by lia.
  change (blen []) with 0 in Hp. rewrite Hp. cbn [rbind]. rewrite Z.add_0_l, slice_to_app by done.
  by apply emits_len.
Qed.
Lemma sizes_packed l : Forall is_u64 l -> sizes (size_each Sov l) (packed l).
Proof.
  unfold packed. induction 1 as [|v l Hv Hl IH]; [apply sizes_nil|]. rewrite size_each_cons. cbn [map concat].
  apply sizes_add; [|done]. split; [apply rl_Sov_nonneg, Hv | intros _; by apply rl_Sov].
Qed.
Lemma packed_loop_reads {M} get (set : list Z -> M -> M) l pre post fuel m : lens get set -> Forall is_u64 l -> (length l < fuel)%nat ->
  packed_loop fuel (fun v m => set (get m ++ [v]) m) (pre ++ packed l ++ post) (blen (pre ++ packed l ++ post)) (blen pre)
    (blen pre + blen (packed l)) m = Ok (set (get m ++ l) m, blen pre + blen (packed l)).
Proof.
  intros (L1 & L2 & L3) Hl. revert pre fuel m. unfold packed.
  induction Hl as [|v l Hv Hl IH]; intros pre fuel m Hf; (destruct fuel as [|fuel]; [cbn in Hf; lia|]); cbn [packed_loop map concat].
  - rewrite Z.add_0_r, Z.ltb_irrefl. by rewrite app_nil_r, L3.
  - rewrite (blen_app (varint v)). pose proof (blen_varint_pos v). pose proof (blen_nonneg (concat (map varint l))).
    rewrite (proj2 (Z.ltb_lt _ _)) by lia. rewrite <- (app_assoc (varint v)).
    rewrite (read_varint_reads u64 v pre _ Hv). cbn [rbind]. rewrite u64_id by done.
    specialize (IH (pre ++ varint v) fuel (set (get m ++ [v]) m) ltac:(cbn in Hf; lia)).
    rewrite <- app_assoc, (blen_app pre (varint v)), L1, L2, <- app_assoc in IH.
    replace (blen pre + (blen (varint v) + blen (concat (map varint l)))) with
      (blen pre + blen (varint v) + blen (concat (map varint l))) by lia. exact IH.
Qed.
Lemma reads_packed {M} get set (l : list Z) (m : M) : Forall is_u64 l -> lens get set ->
  act_reads (case_packed_list get set) 2 (varint (blen (packed l)) ++ packed l) m (set (get m ++ l) m).
Proof.
  intros Hl HL pre post Hs. unfold case_packed_list, case_packed. change (2 =? 0) with false. change (2 =? 2) with true. cbv iota.
  assert (Hp : blen (packed l) < 2 ^ 63).
  { rewrite !blen_app in Hs. pose proof (blen_nonneg pre). pose proof (blen_nonneg post).
    pose proof (blen_nonneg (varint (blen (packed l)))). lia. }
  rewrite <- !app_assoc in *. rewrite (read_varint_reads i64 _ pre _ (short_u64 _ Hp)). cbn [rbind].
  rewrite i64_id by (pose proof (blen_nonneg (packed l)); unfold is_i64; lia).
  pose proof (take_len_reads (pre ++ varint (blen (packed l))) (packed l) post) as Hk.
  pose proof (packed_loop_reads get set l (pre ++ varint (blen (packed l))) post
    (S (length (pre ++ varint (blen (packed l)) ++ packed l ++ post))) m HL Hl) as Hr.
  rewrite <- !app_assoc, (blen_app pre (varint _)) in Hk, Hr. rewrite (Hk Hs). cbn [rbind]. rewrite Hr.
  - rewrite blen_app. do 2 f_equal. lia.
  - pose proof (length_packed_ge l). rewrite !length_app. lia.
Qed.
Lemma field_packed {M} (sw : switch M) t get set (l : list Z) m m' :
  tag_ok t 2 = true -> case_of sw (tag_num t) = Some (case_packed_list get set) -> Forall is_u64 l ->
  lens get set -> get m = [] -> set l m = m' ->
  field sw (wif (0 <? Z.of_nat (length l)) (wpacked l ;> wbyte t))
    (if 0 <? Z.of_nat (length l) then 1 + Sov (size_each Sov l) + size_each Sov l else 0) m m'.
Proof.
  intros Ht Hsw Hl HL Hg <-. apply field_if; cycle 1.
  { destruct HL as (_ & _ & L3). destruct l; [intros _; by rewrite <- Hg, L3 | intros E; cbn [length] in E; zbool; lia]. }
  intros _. replace (1 + Sov (size_each Sov l) + size_each Sov l) with (size_len (size_each Sov l)) by (unfold size_len; lia).
  apply (field_delimited sw t _ _ (packed l) _ m _ Ht Hsw); [by apply emits_packed | by apply sizes_packed|].
  pose proof (reads_packed get set l m Hl HL) as Hr. by rewrite Hg in Hr.
Qed.

(** The invariant [P] of the message is kept, and the index moves forward
    within the input. *)
Definition act_good {M} (P : M -> Prop) (act : action M) : Prop := forall d wt i m,
  blen d < 2 ^ 63 -> 0 <= i <= blen d -> P m ->
  match act d (blen d) wt i m with
  | Ok (m', i') => P m' /\ i <= i' <= blen d
  | Err e => e <> WireOutOfFuel
  end.
Lemma good_varint {M} P T `{Trunc T} (set : Z -> M -> M) :
  (forall v m, T v = v -> P m -> P (set v m)) -> act_good P (case_varint T set).
Proof.
  intros Hset d wt i m Hd Hi Hm. unfold case_varint. destruct (negb _); [done|].
  pose proof (read_varint_good T d (blen d) i ltac:(lia)) as Hr.
  destruct (read_varint _ _ _ _) as [[v i']|e]; [|done]. cbn [rbind]. destruct Hr. split; [by apply Hset | lia].
Qed.
Lemma good_bool {M} P (set : bool -> M -> M) : (forall b m, P m -> P (set b m)) -> act_good P (case_bool set).
Proof. intros Hset. apply (good_varint P i64). auto. Qed.
Lemma take_len_good d i len : blen d < 2 ^ 63 -> 0 <= i <= blen d -> is_i64 len ->
  match take_len d (blen d) i len with
  | Ok (s, p) => blen s < 2 ^ 63 /\ i <= p <= blen d
  | Err e => e <> WireOutOfFuel
  end.
Proof.
  intros Hd Hi Hl. unfold take_len, is_i64 in *. destruct (len <? 0) eqn:E1; [done|]. zbool.
  destruct (i64_add i len) as [Hp|Hp]; [lia|lia| |]; cbv zeta.
  - by rewrite (proj2 (Z.ltb_lt _ 0)) by done.
  - rewrite Hp. destruct (i + len <? 0) eqn:E2; [done|]. destruct (blen d <? i + len) eqn:E3; [done|]. zbool.
    split; [|lia]. unfold slice, slice_to, slice_from, blen in *. rewrite length_take, length_drop. lia.
Qed.
Lemma good_text {M} (P : M -> Prop) set : (forall s m, P m -> good P (set s m)) -> act_good P (case_text set).
Proof.
  intros Hset d wt i m Hd Hi Hm. unfold case_text. destruct (negb _); [done|].
  pose proof (read_varint_good u64 d (blen d) i ltac:(lia)) as Hr.
  destruct (read_varint _ _ _ _) as [[v i']|e]; [|done]. cbn [rbind].
  pose proof (take_len_good d i' (i64 v) Hd ltac:(lia) (i64_range v)) as Ht.
  destruct (take_len _ _ _ _) as [[s p]|e]; [|done]. cbn [rbind].
  specialize (Hset s m Hm). destruct (set s m) as [m'|e]; [|done]. cbn [rbind]. split; [done | lia].
Qed.
Lemma good_string {M} (P : M -> Prop) set : (forall s m, P m -> P (set s m)) -> act_good P (case_string set).
Proof. intros Hset. apply good_text. intros s m Hm. by apply Hset. Qed.
Lemma good_msg {M} (P : M -> Prop) set : (forall s m, blen s < 2 ^ 63 -> P m -> good P (set s m)) -> act_good P (case_msg set).
Proof.
  intros Hset d wt i m Hd Hi Hm. unfold case_msg. destruct (negb _); [done|].
  pose proof (read_varint_good i64 d (blen d) i ltac:(lia)) as Hr.
  destruct (read_varint _ _ _ _) as [[v i']|e]; [|done]. cbn [rbind]. destruct Hr as [Hv Hr].
  pose proof (take_len_good d i' v Hd ltac:(lia) ltac:(rewrite <- Hv; apply i64_range)) as Ht.
  destruct (take_len _ _ _ _) as [[s p]|e]; [|done]. cbn [rbind]. destruct Ht as [Hs Ht].
  specialize (Hset s m Hs Hm). destruct (set s m) as [m'|e]; [|done]. cbn [rbind]. split; [done | lia].
Qed.
Lemma good_bytes {M} (P : M -> Prop) set : (forall s m, P m -> P (set s m)) -> act_good P (case_bytes set).
Proof. intros Hset. apply good_msg. intros s m _ Hm. by apply Hset. Qed.
Lemma good_sub {M A} `{WireLaws A} (P : M -> Prop) get set : (forall m, P m -> wire_ok (get m)) ->
  (forall (x : A) m, wire_ok x -> P m -> P (set x m)) -> act_good P (case_sub get set).
Proof.
  intros Hg Hset. apply good_msg. intros s m Hs Hm. pose proof (wl_read s (get m) Hs (Hg m Hm)) as Hr.
  destruct (wUnmarshal s (get m)); [|done]. by apply Hset.
Qed.
Lemma good_ptr {M A} `{WireLaws A} (P : M -> Prop) get set : (forall m x, P m -> get m = Some x -> wire_ok x) ->
  (forall (x : A) m, wire_ok x -> P m -> P (set (Some x) m)) -> act_good P (case_ptr get set).
Proof.
  intros Hg Hset. apply good_msg. intros s m Hs Hm.
  pose proof (wl_read s (default wZero (get m)) Hs) as Hr.
  destruct (wUnmarshal s _); cbn [good rbind] in *; [apply Hset; [|done]|]; apply Hr;
    (destruct (get m) as [x|] eqn:E; [by apply (Hg m) | apply wl_zero]).
Qed.
Lemma good_rep {M A} `{WireLaws A} (P : M -> Prop) get set :
  (forall (x : A) m, wire_ok x -> P m -> P (set (get m ++ [x]) m)) -> act_good P (case_rep get set).
Proof.
  intros Hset. apply good_msg. intros s m Hs Hm. pose proof (wl_read s wZero Hs wl_zero) as Hr.
  destruct (wUnmarshal s wZero); [|done]. by apply Hset.
Qed.
Lemma good_rep_ptr {M A} `{WireLaws A} (P : M -> Prop) get set :
  (forall (x : A) m, wire_ok x -> P m -> P (set (get m ++ [Some x]) m)) -> act_good P (case_rep_ptr get set).
Proof.
  intros Hset. apply good_msg. intros s m Hs Hm. pose proof (wl_read s wZero Hs wl_zero) as Hr.
  destruct (wUnmarshal s wZero); [|done]. by apply Hset.
Qed.
Lemma good_custom {M A} `{CustomLaws A} (P : M -> Prop) set : (forall (x : A) m, P m -> P (set x m)) -> act_good P (case_custom set).
Proof.
  intros Hset. apply good_text. intros s m Hm. pose proof (cl_read s) as Hr.
  destruct (cUnmarshal s); [|done]. by apply Hset.
Qed.
Lemma packed_loop_good {M} (P : M -> Prop) app d p fuel i m : (forall v m, is_u64 v -> P m -> P (app v m)) ->
  0 <= i <= blen d -> p <= blen d -> P m -> blen d - i < Z.of_nat fuel ->
  match packed_loop fuel app d (blen d) i p m with
  | Ok (m', i') => P m' /\ i <= i' <= blen d
  | Err e => e <> WireOutOfFuel
  end.
Proof.
  intros Happ. revert i m. induction fuel as [|fuel IH]; intros i m Hi Hp Hm Hf; [lia|]. cbn [packed_loop].
  destruct (i <? p) eqn:E; [|split; [done|lia]]. zbool.
  pose proof (read_varint_good u64 d (blen d) i ltac:(lia)) as Hr.
  destruct (read_varint _ _ _ _) as [[v i']|e]; [|done]. cbn [rbind]. destruct Hr as [Hv Hr].
  specialize (IH i' (app v m) ltac:(lia) Hp ltac:(apply Happ; [rewrite <- Hv; apply u64_range|done]) ltac:(lia)).
  destruct (packed_loop _ _ _ _ _ _ _) as [[m' i2]|e]; [|done]. split; [apply IH | lia].
Qed.
Lemma good_packed {M} (P : M -> Prop) get set : (forall v m, is_u64 v -> P m -> P (set (get m ++ [v]) m)) ->
  act_good P (case_packed_list get set).
Proof.
  intros Hset d wt i m Hd Hi Hm. unfold case_packed_list, case_packed. destruct (wt =? 0); [|destruct (wt =? 2); [|done]].
  - pose proof (read_varint_good u64 d (blen d) i ltac:(lia)) as Hr.
    destruct (read_varint _ _ _ _) as [[v i']|e]; [|done]. destruct Hr as [Hv Hr].
    split; [apply Hset; [rewrite <- Hv; apply u64_range|done] | lia].
  - pose proof (read_varint_good i64 d (blen d) i ltac:(lia)) as Hr.
    destruct (read_varint _ _ _ _) as [[v i']|e]; [|done]. cbn [rbind]. destruct Hr as [Hv Hr].
    pose proof (take_len_good d i' v Hd ltac:(lia) ltac:(rewrite <- Hv; apply i64_range)) as Ht.
    destruct (take_len _ _ _ _) as [[s p]|e]; [|done]. cbn [rbind].
    pose proof (packed_loop_good P (fun v m => set (get m ++ [v]) m) d p (S (length d)) i' m Hset
      ltac:(lia) ltac:(lia) Hm ltac:(unfold blen; lia)) as Hk.
    destruct (packed_loop _ _ _ _ _ _ _) as [[m' i2]|e]; [|done]. split; [apply Hk | lia].
Qed.
Lemma unmarshal_loop_good {M} (P : M -> Prop) sw fuel d i m : (forall n act, case_of sw n = Some act -> act_good P act) -> (forall s m, P m -> P (on_unknown sw s m)) ->
  blen d < 2 ^ 63 -> 0 <= i <= blen d -> P m -> blen d - i < Z.of_nat fuel ->
  good P (unmarshal_loop fuel sw d (blen d) i m).
Proof.
  intros Hsw Hu Hd. revert i m. induction fuel as [|fuel IH]; intros i m Hi Hm Hf; [lia|]. cbn [unmarshal_loop].
  destruct (i <? blen d) eqn:E; cycle 1. { by destruct (blen d <? i). }
  zbool. pose proof (read_varint_good u64 d (blen d) i ltac:(lia)) as Hr.
  destruct (read_varint u64 d (blen d) i) as [[w i1]|e]; [|done]. cbn [rbind]. destruct Hr as [_ Hr]. cbv zeta.
  destruct (Z.land w 7 =? 4); [done|]. destruct (i32 _ <=? 0); [done|].
  destruct (case_of sw (i32 (Z.shiftr w 3))) as [act|] eqn:Ea.
  - pose proof (Hsw _ _ Ea d (Z.land w 7) i1 m Hd ltac:(lia) Hm) as Ha.
    destruct (act _ _ _ _ _) as [[m' i2]|e]; [|done]. cbn [rbind]. apply IH; [lia|apply Ha|lia].
  - pose proof (rl_Skip (slice_from i d)) as Hs.
    rewrite blen_slice_from in Hs by lia. specialize (Hs ltac:(lia)).
    destruct (Skip _) as [n|e]; [|done]. cbn [rbind].
    destruct (n <? 0) eqn:E1; [done|]. destruct (i64 (i + n) <? 0) eqn:E2; [done|]. cbn [orb].
    destruct (blen d <? i64 (i + n)) eqn:E3; [done|]. zbool.
    assert (i < i64 (i + n)); [|apply IH; [lia|by apply Hu|lia]].
    destruct (i64_add i n); lia.
Qed.
Lemma unmarshal_good {M} (P : M -> Prop) sw d m : (forall n act, case_of sw n = Some act -> act_good P act) -> (forall s m, P m -> P (on_unknown sw s m)) ->
  blen d < 2 ^ 63 -> P m -> good P (unmarshal_with sw d m).
Proof.
  intros Hsw Hu Hd Hm. pose proof (blen_nonneg d). unfold unmarshal_with. apply unmarshal_loop_good; [done|done|done|lia|done|unfold blen; lia].
Qed.

(** ** Fields the reader does not know *)

Lemma slice_mid (a b c : bytes) : slice (blen a) (blen a + blen b) (a ++ b ++ c) = b.
Proof. unfold slice. rewrite slice_from_app by done. apply slice_to_app. lia. Qed.

(** A field of a number the reader does not know goes to the default. *)
Lemma consumes_unknown {M} (sw : switch M) t wt p m : tag_ok t wt = true -> case_of sw (tag_num t) = None ->
  field_body wt p -> consumes sw (t :: p) m (on_unknown sw (t :: p) m).
Proof.
  intros Ht Hsw Hp pre post Hs. exists 1%nat. split; [cbn; lia|]. intros f. cbn [Nat.add unmarshal_loop].
  pose proof (blen_nonneg pre). pose proof (blen_nonneg post). pose proof (blen_nonneg p).
  pose proof Hs as Hs'. rewrite !blen_app, blen_cons in Hs'.
  assert (Hk : Skip (slice_from (blen pre) (pre ++ (t :: p) ++ post)) = Ok (blen (t :: p))).
  { rewrite slice_from_app by done. apply (rl_Skip_field t wt p post); [done| |done].
    rewrite blen_cons, blen_app. lia. }
  unfold tag_ok, tag_num in *. zbool. pose proof (byte_val_range t).
  pose proof (read_varint_reads u64 (byte_val t) pre (p ++ post) ltac:(unfold is_u64; lia)) as Hr.
  rewrite varint_small, u64_id in Hr by (done || unfold is_u64; lia). cbn [app] in *.
  rewrite (proj2 (Z.ltb_lt (blen pre) _)) by (rewrite blen_app, blen_cons, blen_app; lia).
  rewrite Hr. cbn [rbind]. cbv zeta.
  assert (Hn : Z.shiftr (byte_val t) 3 < 16) by (rewrite Z.shiftr_div_pow2 by lia; apply Z.div_lt_upper_bound; lia).
  rewrite i32_id by (unfold is_i32; lia).
  match goal with E : Z.land _ 7 = wt |- _ => rewrite E end.
  rewrite (proj2 (Z.eqb_neq wt 4)), (proj2 (Z.leb_gt (Z.shiftr _ _) 0)), Hsw by done.
  rewrite Hk. cbn [rbind]. rewrite blen_cons. rewrite i64_id by (unfold is_i64; lia).
  rewrite (proj2 (Z.ltb_ge (1 + _) 0)), (proj2 (Z.ltb_ge (blen pre + _) 0)) by lia. cbn [orb].
  rewrite (proj2 (Z.ltb_ge _ (blen pre + _))) by (rewrite blen_app, blen_cons, blen_app; lia).
  pose proof (slice_mid pre (t :: p) post) as Hm. rewrite blen_cons in Hm. cbn [app] in Hm. by rewrite Hm.
Qed.

End Laws.

(** Every value of [Coin] is one the model has. *)
#[global] Instance coin_wire_ok : WireOk Coin := fun _ => True.
Lemma coins_ok (l : list Coin) : Forall wire_ok l.
Proof. by apply Forall_forall. Qed.

(** ** Round trip *)

(** The value is written without a panic into exactly the bytes that [Size]
    announced, and read back. *)
Definition round_trips {A} `{WireMsg A} (a : A) : Prop :=
  exists bz, wMarshal a = Ok bz /\ blen bz = Size a /\ wUnmarshal bz wZero = Ok a.
Lemma wMarshal_emits {A} `{WireMsg A} (a : A) bs : msg_emits (MarshalToSizedBuffer a) bs -> Size a = blen bs ->
  blen bs < 2 ^ 63 -> wMarshal a = Ok bs.
Proof.
  intros Hw Hz Hb. unfold wMarshal. pose proof (Hw Hb [] (replicate (Z.to_nat (Size a)) Byte.x00)) as Hm. cbn [app] in Hm.
  rewrite Hm by (rewrite length_replicate, Hz; unfold blen; lia). cbn [rbind]. by rewrite slice_to_all.
Qed.
Section RoundTrip.
Context {A : Type} `{WireLaws A}.
Lemma wire_roundtrip a : wire_ok a -> wire_full a -> Size a < 2 ^ 63 -> round_trips a.
Proof.
  intros Ha Hf Hs. destruct (wl_write a Ha Hf) as (bs & Hw & [Hn Hz] & Hr). specialize (Hz (or_introl Hs)).
  exists bs. split; [apply wMarshal_emits; (done || lia)|]. split; [done|]. apply Hr. lia.
Qed.
Lemma wire_inj a b : wire_ok a -> wire_full a -> Size a < 2 ^ 63 -> wire_ok b -> wire_full b -> Size b < 2 ^ 63 ->
  wMarshal a = wMarshal b -> a = b.
Proof.
  intros H3 H4 H5 H6 H7 H8 E. destruct (wire_roundtrip a H3 H4 H5) as (x & Hx & _ & Ra).
  destruct (wire_roundtrip b H6 H7 H8) as (y & Hy & _ & Rb). congruence.
Qed.
(** The codec as the keepers see it ([Proto]): a failed [Marshal] is a panic
    of [MustMarshal]. Its two laws hold for what fits into a Go slice. *)
Definition generated_proto : Proto A := {|
  Marshal a := match wMarshal a with Ok bz => bz | Err _ => [] end;
  Unmarshal bz := match wUnmarshal bz wZero with Ok a => Some a | Err _ => None end |}.
Lemma generated_proto_roundtrip a : wire_ok a -> wire_full a -> Size a < 2 ^ 63 ->
  @Unmarshal A generated_proto (@Marshal A generated_proto a) = Some a.
Proof.
  intros Ha Hf Hs. destruct (wire_roundtrip a Ha Hf Hs) as (bz & Hm & _ & Hr). cbn. by rewrite Hm, Hr.
Qed.
Lemma generated_proto_reads bz a : blen bz < 2 ^ 63 -> @Unmarshal A generated_proto bz = Some a -> wire_ok a.
Proof.
  intros Hb. cbn. pose proof (wl_read bz wZero Hb wl_zero) as Hr.
  destruct (wUnmarshal bz wZero); [|done]. by intros [= <-].
Qed.
End RoundTrip.

(** ** Tactics for the messages *)

#[global] Strategy 1000 [unmarshal_loop unmarshal_with sized].


Lemma u64_fix v : u64 v = v -> is_u64 v.
Proof. intros <-. apply u64_range. Qed.
Lemma i64_fix v : i64 v = v -> is_i64 v.
Proof. intros <-. apply i64_range. Qed.
Lemma i32_fix v : i32 v = v -> is_i32 v.
Proof. intros <-. apply i32_range. Qed.
Lemma u32_fix v : u32 v = v -> is_u32 v.
Proof. intros <-. unfold is_u32, u32. apply Z.mod_pos_bound. lia. Qed.
Lemma zero_u64 : is_u64 0. Proof. done. Qed.
Lemma zero_i64 : is_i64 0. Proof. done. Qed.
Lemma zero_i32 : is_i32 0. Proof. done. Qed.
Lemma zero_u32 : is_u32 0. Proof. done. Qed.
Lemma Forall_snoc {A} (P : A -> Prop) l x : Forall P l -> P x -> Forall P (l ++ [x]).
Proof. intros. apply Forall_app_2; [done|]. by constructor. Qed.
Create HintDb wire.
#[export] Hint Resolve u64_fix i64_fix i32_fix u32_fix u64_id i64_id i32_id u32_id zero_u64 zero_i64 zero_i32 zero_u32
  Forall_snoc wl_zero coins_ok : wire.
#[export] Hint Extern 1 (Forall _ []) => constructor : wire.
#[export] Hint Extern 1 True => exact I : wire.
#[export] Hint Extern 5 (wire_ok _) => exact I : wire.
#[export] Hint Extern 5 (wire_full _) => exact I : wire.
Lemma full_default {A} (l : list A) : Forall (@wire_full A (wire_full_default A)) l.
Proof. by apply Forall_forall. Qed.
Lemma full_default_ptr {A} `{WireOk A} (l : list (option A)) :
  Forall (ptr wire_ok) l -> Forall (ptr (@wire_full A (wire_full_default A))) l.
Proof. intros Hl. apply (Forall_impl _ _ _ Hl). by intros [a|]. Qed.
Lemma opt_full_default {A} (o : option A) : @opt_full A (wire_full_default A) o.
Proof. by destruct o. Qed.
#[export] Hint Resolve full_default full_default_ptr opt_full_default : wire.

Ltac wire_lens := split; [|split]; [intros ? []; reflexivity | intros ? ? []; reflexivity | intros []; reflexivity].
#[export] Hint Opaque u64 i64 u32 i32 is_u64 is_i64 is_u32 is_i32 : wire.
#[global] Arguments u64 : simpl never.
#[global] Arguments i64 : simpl never.
#[global] Arguments u32 : simpl never.
#[global] Arguments i32 : simpl never.
#[global] Arguments is_u64 : simpl never.
#[global] Arguments is_i64 : simpl never.
#[global] Arguments is_u32 : simpl never.
#[global] Arguments is_i32 : simpl never.
(** A field that is not written has the value the reader starts from. *)
Ltac wire_default := let E := fresh in intros E; simpl in E; subst; reflexivity.
(** Unfolds the predicates of a message that is built by its constructor. *)
Ltac head_of x := lazymatch x with ?f _ => head_of f | _ => x end.
Ltac built x := let h := head_of x in is_constructor h.
Ltac wire_open :=
  repeat match goal with
  | H : @wire_ok _ ?i ?x |- _ => built x; let h := head_of i in unfold wire_ok at 1, h in H; cbn in H
  | H : @wire_full _ ?i ?x |- _ => built x; let h := head_of i in unfold wire_full at 1, h in H; cbn in H
  | |- @wire_ok _ ?i ?x => built x; let h := head_of i in unfold wire_ok at 1, h; cbn
  | |- @wire_full _ ?i ?x => built x; let h := head_of i in unfold wire_full at 1, h; cbn
  end.
Ltac wire_prop := cbn in *; wire_open; intuition (wire_open; eauto with wire).
(** The message after the field, with its constructor. *)
Ltac wire_set := cbn; reflexivity.
(** The field whose writer is the goal's and whose case is the reader's. *)
Ltac wire_leaf :=
  lazymatch goal with
  | |- field ?sw (wif _ (wlen ?t _)) _ _ _ =>
      lazymatch eval hnf in (case_of sw (tag_num t)) with
      | Some (case_string _) => eapply field_string; [reflexivity | reflexivity | wire_set | wire_default]
      | Some (case_bytes _) => eapply field_bytes; [reflexivity | reflexivity | wire_set | wire_default]
      end
  | |- field ?sw (wif _ (wdown _ (wlen ?t))) _ _ _ =>
      lazymatch eval hnf in (case_of sw (tag_num t)) with
      | Some (case_strings _ _) => eapply field_strings; [reflexivity | reflexivity | wire_lens | reflexivity | wire_set]
      | Some (case_byteses _ _) => eapply field_byteses; [reflexivity | reflexivity | wire_lens | reflexivity | wire_set]
      end
  | |- field _ (wif _ (wdown _ (wsub _))) _ _ _ =>
      eapply field_rep; [apply _ | reflexivity | reflexivity | solve [wire_prop] | solve [wire_prop] | wire_lens | reflexivity | wire_set]
  | |- field _ (wif _ (wdown _ (wsub_ptr _))) _ _ _ =>
      eapply field_rep_ptr; [apply _ | reflexivity | reflexivity | solve [wire_prop] | solve [wire_prop] | wire_lens | reflexivity | wire_set]
  | |- field _ (wif _ (wvarint _ ;> _)) _ _ _ =>
      eapply field_varint; [reflexivity | reflexivity | apply _ | solve [wire_prop] | wire_set | wire_default]
  | |- field _ (wif _ (wbool _ ;> _)) _ _ _ => eapply field_bool; [reflexivity | reflexivity | wire_set | wire_default]
  | |- field _ (wif _ (wpacked _ ;> _)) _ _ _ =>
      eapply field_packed; [reflexivity | reflexivity | solve [wire_prop] | wire_lens | reflexivity | wire_set]
  | |- field _ (wsub _ _) _ _ _ =>
      eapply field_sub; [apply _ | reflexivity | reflexivity | solve [wire_prop] | solve [wire_prop] | reflexivity | wire_set]
  | |- field _ (wcust _ _) _ _ _ => eapply field_custom; [apply _ | reflexivity | reflexivity | solve [wire_prop] | wire_set]
  | |- field _ (match _ with Some _ => _ | None => _ end) _ _ _ =>
      eapply field_ptr; [apply _ | reflexivity | reflexivity | let E := fresh in intros ? E; simpl in E; subst; solve [wire_prop]
                        | reflexivity | wire_set | wire_default]
  | |- field _ wskip _ _ _ => apply field_nil
  end.
Ltac wire_fields :=
  lazymatch goal with
  | |- field _ (wseq _ _) _ _ _ => eapply field_seq; [wire_fields | wire_leaf]
  | |- _ => wire_leaf
  end.

(** One case of the switch. *)
Ltac wire_good :=
  lazymatch goal with
  | |- act_good _ (case_string _) => apply good_string; intros ? [] ?; solve [wire_prop]
  | |- act_good _ (case_bytes _) => apply good_bytes; intros ? [] ?; solve [wire_prop]
  | |- act_good _ (case_strings _ _) => apply good_string; intros ? [] ?; solve [wire_prop]
  | |- act_good _ (case_byteses _ _) => apply good_bytes; intros ? [] ?; solve [wire_prop]
  | |- act_good _ (case_varint _ _) => apply good_varint; [apply _|]; intros ? [] ? ?; solve [wire_prop]
  | |- act_good _ (case_bool _) => apply good_bool; intros ? [] ?; solve [wire_prop]
  | |- act_good _ (case_sub _ _) => apply good_sub; [intros [] ?; solve [wire_prop] | intros ? [] ? ?; solve [wire_prop]]
  | |- act_good _ (case_ptr _ _) =>
      apply good_ptr; [let E := fresh in intros [] ? ? E; simpl in E; subst; solve [wire_prop] | intros ? [] ? ?; solve [wire_prop]]
  | |- act_good _ (case_rep _ _) => apply good_rep; intros ? [] ? ?; solve [wire_prop]
  | |- act_good _ (case_rep_ptr _ _) => apply good_rep_ptr; intros ? [] ? ?; solve [wire_prop]
  | |- act_good _ (case_custom _) => apply good_custom; intros ? [] ?; solve [wire_prop]
  | |- act_good _ (case_packed_list _ _) => apply good_packed; intros ? [] ? ?; solve [wire_prop]
  end.
(** [WireLaws] of a message, from the definitions of its codec. *)
Ltac wire_laws sw :=
  split;
  [ intros [] Ha Hf; refine (message_write (dropping sw) _ _ _ _ _); wire_fields
  | solve [wire_prop]
  | intros d m Hd Hm; refine (unmarshal_good wire_ok (dropping sw) d m _ _ _ _); [|intros ? ? Hk; exact Hk|exact Hd|exact Hm];
    intros n act Hn; cbn [case_of dropping] in Hn; unfold sw in Hn; repeat case_match; try discriminate Hn;
    injection Hn as <-; wire_good ].
