(* ===== verification/Pulsar.v ===== *)
(** * The codec of the API types

    The methods [size], [marshal] and [unmarshal] that the generator of the
    [api/] packages writes into [ProtoMethods] of every message. A message
    there is a pointer, and keeps the fields it does not know; the numbers are
    written by the helpers of another module ([WireRuntime]). *)

From S2P Require Import Prelude Proto Sdk LvCodec Wire WireLaws.

Open Scope go_scope.

(** ** Writing and reading *)

(** [options.Unmarshal] is the library's: with [Merge] it adds to the message,
    without it the message is cleared first. *)
Class Options := { Merge : bool }.

Section Methods.
Context {RT : WireRuntime}.

(** [pWrite] is the body of [marshal], [pUnmarshal] takes [DiscardUnknown]. *)
Class PulsarMsg (A : Type) := {
  pSize : A -> Z;
  pWrite : A -> writer;
  pUnmarshal : bool -> bytes -> A -> result wire_err A;
  pZero : A
}.
(** [size := options.Size(x); dAtA := make([]byte, size)], the fields, and
    [input.Buf = dAtA]. *)
Definition pMarshal {A : Type} `{PulsarMsg A} (x : A) : result wire_err bytes :=
  try! (dAtA, _) <- pWrite x (replicate (Z.to_nat (pSize x)) Byte.x00, pSize x);
  Ok dAtA.
(** The methods of a nil message. *)
Definition pMarshal_ptr {A : Type} `{PulsarMsg A} (x : option A) : result wire_err bytes :=
  match x with Some x => pMarshal x | None => Ok [] end.
Definition pSize_ptr {A : Type} `{PulsarMsg A} (x : option A) : Z := match x with Some x => pSize x | None => 0 end.

(** [encoded, err := options.Marshal(x.F); i -= len(encoded); copy(dAtA[i:], encoded);
    i = runtime.EncodeVarint(dAtA, i, uint64(len(encoded))); i--; dAtA[i] = t]. *)
Definition wenc {A : Type} `{PulsarMsg A} (t : byte) (x : option A) : writer := fun st =>
  try! encoded <- pMarshal_ptr x; wlen t encoded st.
(** [if x.unknownFields != nil { i -= len(x.unknownFields); copy(dAtA[i:], x.unknownFields) }]. *)
Definition wunknown (u : bytes) : writer := wif (0 <? blen u) (wcopy u).
Definition size_unknown (u : bytes) : Z := if 0 <? blen u then blen u else 0.
(** The numbers are written into [dAtA] itself. *)
Definition wpacked_in (l : list Z) : writer := fun '(dAtA, i) =>
  let pksize := size_each Sov l in
  let i := i - pksize in
  try! (dAtA, _) <- pack_loop l dAtA i;
  EncodeVarint dAtA i pksize.

(** [if x.F == nil { x.F = &A{} }; options.Unmarshal(dAtA[iNdEx:postIndex], x.F)]. *)
Definition pcase_ptr {M A : Type} {OP : Options} `{PulsarMsg A} (discard : bool) (get : M -> option A) (set : option A -> M -> M) : action M :=
  case_msg (fun s m =>
    try! x <- pUnmarshal discard s (if Merge then default pZero (get m) else pZero); Ok (set (Some x) m)).
(** [x.F = append(x.F, &A{}); options.Unmarshal(..., x.F[len(x.F)-1])]. *)
Definition pcase_rep {M A : Type} `{PulsarMsg A} (discard : bool) (get : M -> list (option A))
  (set : list (option A) -> M -> M) : action M :=
  case_msg (fun s m => try! x <- pUnmarshal discard s pZero; Ok (set (get m ++ [Some x]) m)).
(** [if !options.DiscardUnknown { x.unknownFields = append(x.unknownFields, ...) }]. *)
Definition keeping {M : Type} (discard : bool) (get : M -> bytes) (set : bytes -> M -> M)
  (cases : Z -> option (action M)) : switch M :=
  MkSwitch cases (fun s m => if discard then m else set (get m ++ s) m).

(** What one message promises to the message it is a field of. *)
Class PulsarLaws (A : Type) `{PulsarMsg A} `{WireOk A} `{WireFull A} := {
  pl_write : forall a, wire_ok a -> wire_full a -> exists bs,
    emits (pWrite a) bs /\ sizes (pSize a) bs /\ (blen bs < 2 ^ 63 -> pUnmarshal false bs pZero = Ok a);
  pl_zero : wire_ok (pZero : A);
  pl_read : forall discard d a, blen d < 2 ^ 63 -> wire_ok a -> good wire_ok (pUnmarshal discard d a)
}.

(** A string of fields that [cases] does not know. *)
Definition unknown_field {M : Type} (cases : Z -> option (action M)) (c : bytes) : Prop :=
  exists t wt p, c = t :: p /\ tag_ok t wt = true /\ field_body wt p /\ cases (tag_num t) = None.
Definition unknown_ok {M : Type} (cases : Z -> option (action M)) (u : bytes) : Prop :=
  exists cs, u = concat cs /\ Forall (unknown_field cases) cs.
End Methods.

(** ** Writers with their bytes *)

Definition writes (w : writer) (n : Z) (c : bytes) : Prop := emits w c /\ sizes n c.

Section Writes.
Context {RT : WireRuntime} {RL : RuntimeLaws}.

Lemma writes_skip : writes wskip 0 [].
Proof. split; [apply emits_skip | apply sizes_nil]. Qed.
Lemma writes_seq w W n N c C : writes W N C -> writes w n c -> writes (w ;> W) (N + n) (C ++ c).
Proof. intros [H1 H2] [H3 H4]. split; [by apply emits_seq | by apply sizes_add]. Qed.
Lemma writes_if (b : bool) w n c : writes w n c -> writes (wif b w) (if b then n else 0) (if b then c else []).
Proof. destruct b; [done|]. intros _. apply writes_skip. Qed.
Lemma writes_len t s : writes (wlen t s) (size_len (blen s)) (delimited t s).
Proof.
  split; [|apply sizes_delimited, sizes_bytes].
  apply (emits_seq _ _ (varint _ ++ s) [t]); [apply emits_len | apply emits_byte].
Qed.
Lemma writes_varint t v : writes (wvarint (u64 v) ;> wbyte t) (1 + Sov (u64 v)) (vfield t (u64 v)).
Proof.
  split; [|apply sizes_vfield, u64_range].
  apply (emits_seq _ _ (varint _) [t]); [apply emits_varint, u64_range | apply emits_byte].
Qed.
Lemma writes_bool t : writes (wbool true ;> wbyte t) 2 (vfield t 1).
Proof. split; [|by split]. apply (emits_seq _ _ [Byte.x01] [t]); apply emits_byte. Qed.
Lemma writes_down {B} (w1 : B -> writer) (n1 : B -> Z) (f : B -> bytes) l :
  Forall (fun x => writes (w1 x) (n1 x) (f x)) l -> writes (wdown l w1) (size_each n1 l) (concat (map f l)).
Proof.
  induction 1 as [|x l Hx Hl IH]; cbn [wdown map concat]; [apply writes_skip|].
  rewrite size_each_cons. by apply writes_seq.
Qed.
Lemma writes_sub {A} `{WireMsg A} t (x : A) bs : msg_emits (MarshalToSizedBuffer x) bs -> sizes (Size x) bs ->
  writes (wsub t x) (size_len (Size x)) (delimited t bs).
Proof.
  intros Hx Hs. split; [|by apply sizes_delimited].
  apply (emits_seq _ _ (varint (blen bs) ++ bs) [t]); [by apply emits_msg | apply emits_byte].
Qed.
Lemma pMarshal_emits {A} `{PulsarMsg A} (x : A) bs : emits (pWrite x) bs -> sizes (pSize x) bs -> blen bs < 2 ^ 63 ->
  pMarshal x = Ok bs.
Proof.
  intros Hw [Hn Hz] Hb. specialize (Hz (or_intror Hb)).
  pose proof (Hw Hb [] (replicate (Z.to_nat (pSize x)) Byte.x00) []) as Hm. cbn [app] in Hm.
  rewrite !app_nil_r in Hm. unfold pMarshal.
  assert (Hl : length (replicate (Z.to_nat (pSize x)) Byte.x00) = length bs) by (rewrite length_replicate, Hz; unfold blen; lia).
  rewrite (blen_same _ _ Hl), <- Hz in Hm. cbn [Z.add] in Hm. change (blen [] + pSize x) with (pSize x) in Hm.
  by rewrite Hm.
Qed.
Lemma writes_enc {A} `{PulsarMsg A} t (x : A) bs : emits (pWrite x) bs -> sizes (pSize x) bs ->
  writes (wenc t (Some x)) (size_len (pSize x)) (delimited t bs).
Proof.
  intros Hx Hs. split; [|by apply sizes_delimited]. intros Hb pre mid post Hm. unfold wenc. cbn [pMarshal_ptr].
  assert (blen bs < 2 ^ 63).
  { unfold delimited in Hb. rewrite blen_cons, blen_app in Hb. pose proof (blen_nonneg (varint (blen bs))). lia. }
  rewrite (pMarshal_emits x bs) by done. cbn [rbind]. by apply writes_len.
Qed.
Lemma writes_custom {A} `{WireCustom A} t (x : A) text : cMarshal x = Ok text -> cSize x = blen text ->
  writes (wcust t x) (size_len (cSize x)) (delimited t text).
Proof.
  intros Hm Hs. unfold wcust. rewrite Hm, Hs. split; [|apply sizes_delimited, sizes_bytes].
  apply (emits_seq _ _ (varint _ ++ text) [t]); [by apply emits_custom | apply emits_byte].
Qed.
Lemma writes_packed t l : Forall is_u64 l -> writes (wpacked l ;> wbyte t) (1 + Sov (size_each Sov l) + size_each Sov l)
  (delimited t (packed l)).
Proof.
  intros Hl. split.
  - apply (emits_seq _ _ (varint _ ++ packed l) [t]); [by apply emits_packed | apply emits_byte].
  - replace (1 + Sov _ + _) with (1 + size_each Sov l + Sov (size_each Sov l)) by lia. by apply sizes_delimited, sizes_packed.
Qed.
Lemma writes_packed_in t l : Forall is_u64 l -> writes (wpacked_in l ;> wbyte t) (1 + Sov (size_each Sov l) + size_each Sov l)
  (delimited t (packed l)).
Proof.
  intros Hl. split.
  - apply (emits_seq _ _ (varint (blen (packed l)) ++ packed l) [t]); [|apply emits_byte].
    intros Hb pre mid post Hm. rewrite blen_app in Hb. pose proof (blen_nonneg (varint (blen (packed l)))).
    assert (Hp : blen (packed l) < 2 ^ 63) by lia. destruct (sizes_packed l Hl) as [_ Hz]. specialize (Hz (or_intror Hp)).
    destruct (split_room _ _ _ Hm) as (mv & mp & -> & Hmv & Hmp). unfold wpacked_in. cbv zeta. rewrite Hz.
    rewrite blen_app, (blen_same mp (packed l)) by done.
    replace (blen pre + (blen mv + blen (packed l)) - blen (packed l)) with (blen (pre ++ mv)) by (rewrite blen_app; lia).
    replace (pre ++ (mv ++ mp) ++ post) with ((pre ++ mv) ++ mp ++ post) by by rewrite <- !app_assoc.
    rewrite pack_loop_emits by done. cbn [rbind]. rewrite <- app_assoc, blen_app.
    rewrite rl_EncodeVarint by (done || apply short_u64; lia). by rewrite <- !app_assoc.
  - replace (1 + Sov _ + _) with (1 + size_each Sov l + Sov (size_each Sov l)) by lia. by apply sizes_delimited, sizes_packed.
Qed.
Lemma writes_unknown u : writes (wunknown u) (size_unknown u) u.
Proof.
  unfold wunknown, size_unknown. destruct (0 <? blen u) eqn:E.
  - split; [apply emits_copy | apply sizes_bytes].
  - rewrite (blen_zero u E). apply writes_skip.
Qed.
End Writes.

(** ** Readers with their bytes *)

Section Reads.
Context {RT : WireRuntime} {RL : RuntimeLaws} {OP : Options} {M : Type} (sw : switch M) (t : byte).

Lemma cons_string set s m m' : tag_ok t 2 = true -> case_of sw (tag_num t) = Some (case_string set) -> set s m = m' ->
  consumes sw (delimited t s) m m'.
Proof. intros Ht Hsw <-. apply (consumes_field sw t 2 _ _ _ _ Ht Hsw). apply reads_string. Qed.
Lemma cons_bytes set s m m' : tag_ok t 2 = true -> case_of sw (tag_num t) = Some (case_bytes set) -> set s m = m' ->
  consumes sw (delimited t s) m m'.
Proof. intros Ht Hsw <-. apply (consumes_field sw t 2 _ _ _ _ Ht Hsw). by apply reads_msg. Qed.
Lemma cons_varint T `{Trunc T} set v m m' : tag_ok t 0 = true -> case_of sw (tag_num t) = Some (case_varint T set) ->
  T v = v -> set v m = m' -> consumes sw (vfield t (u64 v)) m m'.
Proof. intros Ht Hsw Hv <-. apply (consumes_field sw t 0 _ _ _ _ Ht Hsw). by apply reads_varint. Qed.
Lemma cons_bool set m m' : tag_ok t 0 = true -> case_of sw (tag_num t) = Some (case_bool set) -> set true m = m' ->
  consumes sw (vfield t 1) m m'.
Proof.
  intros Ht Hsw <-. apply (consumes_field sw t 0 _ _ _ _ Ht Hsw).
  exact (reads_varint i64 (fun v => set (negb (v =? 0))) 1 m eq_refl).
Qed.
Lemma cons_ptr {A} `{PulsarMsg A} discard get set (x : A) s m m' : tag_ok t 2 = true ->
  case_of sw (tag_num t) = Some (pcase_ptr discard get set) -> get m = None -> pUnmarshal discard s pZero = Ok x ->
  set (Some x) m = m' -> consumes sw (delimited t s) m m'.
Proof.
  intros Ht Hsw Hg Hx <-. apply (consumes_field sw t 2 _ _ _ _ Ht Hsw). apply reads_msg. intros _.
  rewrite Hg. destruct Merge; cbn [default]; by rewrite Hx.
Qed.
Lemma cons_rep {A} `{PulsarMsg A} discard get set (x : A) s m m' : tag_ok t 2 = true ->
  case_of sw (tag_num t) = Some (pcase_rep discard get set) -> pUnmarshal discard s pZero = Ok x ->
  set (get m ++ [Some x]) m = m' -> consumes sw (delimited t s) m m'.
Proof.
  intros Ht Hsw Hx <-. apply (consumes_field sw t 2 _ _ _ _ Ht Hsw). apply reads_msg. intros _. by rewrite Hx.
Qed.
Lemma consumes_long c m m' : ~ blen c < 2 ^ 63 -> consumes sw c m m'.
Proof.
  intros Hc pre post Hs. exfalso. rewrite !blen_app in Hs. pose proof (blen_nonneg pre). pose proof (blen_nonneg post). lia.
Qed.
Lemma cons_packed get set l m m' : tag_ok t 2 = true -> case_of sw (tag_num t) = Some (case_packed_list get set) ->
  Forall is_u64 l -> lens get set -> set (get m ++ l) m = m' -> consumes sw (delimited t (packed l)) m m'.
Proof.
  intros Ht Hsw Hl HL <-. apply (consumes_field sw t 2 _ _ _ _ Ht Hsw). by apply reads_packed.
Qed.
End Reads.

(** ** The fields of an API message *)

Section PulsarFields.
Context {RT : WireRuntime} {RL : RuntimeLaws} {OP : Options} {M : Type} (sw : switch M) (t : byte).

Lemma pfield_one {A} `{PulsarLaws A} (x : A) m m' : wire_ok x -> wire_full x ->
  (forall s, pUnmarshal false s pZero = Ok x -> consumes sw (delimited t s) m m') ->
  field sw (wenc t (Some x)) (size_len (pSize x)) m m'.
Proof.
  intros Hx Hf Hc. destruct (pl_write x Hx Hf) as (bs & H3 & H4 & H5).
  destruct (writes_enc t x bs H3 H4) as [H6 H7]. exists (delimited t bs). split; [done|]. split; [done|].
  destruct (decide (blen bs < 2 ^ 63)) as [Hb|Hb]; [by apply Hc, H5|]. apply consumes_long.
  unfold delimited. rewrite blen_cons, blen_app. pose proof (blen_nonneg (varint (blen bs))). lia.
Qed.
Lemma field_pptr {A} `{PulsarLaws A} get set (o : option A) m m' : tag_ok t 2 = true ->
  case_of sw (tag_num t) = Some (pcase_ptr false get set) -> opt_ok o -> opt_full o -> get m = None -> set o m = m' ->
  (o = None -> m' = m) ->
  field sw (match o with Some x => wenc t (Some x) | None => wskip end)
    (match o with Some x => size_len (pSize x) | None => 0 end) m m'.
Proof.
  intros Ht Hsw Ho Hf Hg <- Hn. destruct o as [x|]; [|rewrite Hn by done; apply field_nil].
  apply (pfield_one x m _ Ho Hf).
  intros s Hs. by apply (cons_ptr sw t false get set x s m).
Qed.
Lemma field_prep {A} `{PulsarLaws A} get set (l : list (option A)) m m' : tag_ok t 2 = true ->
  case_of sw (tag_num t) = Some (pcase_rep false get set) -> Forall (ptr wire_ok) l -> Forall (ptr wire_full) l ->
  lens get set -> get m = [] -> set l m = m' ->
  field sw (wif (0 <? Z.of_nat (length l)) (wdown l (wenc t)))
    (if 0 <? Z.of_nat (length l) then size_each (fun e => size_len (pSize_ptr e)) l else 0) m m'.
Proof.
  intros Ht Hsw Ho Hf HL Hg Hm. apply (field_down sw _ _ get set); try done.
  rewrite Forall_forall in Ho, Hf. apply Forall_forall. intros [x|] Hx m0; [|by destruct (Ho _ Hx)].
  apply (pfield_one x m0 _ (Ho _ Hx) (Hf _ Hx)).
  intros s Hs. by apply (cons_rep sw t false get set x s m0).
Qed.
Lemma field_packed_in get set (l : list Z) m m' : tag_ok t 2 = true ->
  case_of sw (tag_num t) = Some (case_packed_list get set) -> Forall is_u64 l -> lens get set -> get m = [] -> set l m = m' ->
  field sw (wif (0 <? Z.of_nat (length l)) (wpacked_in l ;> wbyte t))
    (if 0 <? Z.of_nat (length l) then 1 + Sov (size_each Sov l) + size_each Sov l else 0) m m'.
Proof.
  intros Ht Hsw Hl HL Hg <-. pose proof HL as (_ & _ & L3). apply field_if; cycle 1.
  { destruct l; [intros _; by rewrite <- Hg, L3 | intros E; cbn [length] in E; zbool; lia]. }
  intros _. destruct (writes_packed_in t l Hl) as [H1 H2]. exists (delimited t (packed l)).
  split; [done|]. split; [done|]. apply (cons_packed sw t get set); try done. by rewrite Hg.
Qed.
End PulsarFields.

(** The unknown fields are written last and read back. *)
Lemma consumes_keeping {RT : WireRuntime} {RL : RuntimeLaws} {M} get set (cases : Z -> option (action M)) u m :
  unknown_ok cases u -> lens get set -> consumes (keeping false get set cases) u m (set (get m ++ u) m).
Proof.
  intros (cs & -> & Hc) (L1 & L2 & L3). revert m. induction Hc as [|c cs (t & wt & p & -> & Ht & Hb & Hn) _ IH]; intros m; cbn [concat].
  - rewrite app_nil_r, L3. apply consumes_nil.
  - eapply consumes_app; [by apply (consumes_unknown _ t wt)|]. cbn [on_unknown keeping].
    specialize (IH (set (get m ++ t :: p) m)). by rewrite L1, L2, <- app_assoc in IH.
Qed.
Lemma field_unknown {RT : WireRuntime} {RL : RuntimeLaws} {M} get set (cases : Z -> option (action M)) u m m' :
  unknown_ok cases u -> lens get set -> get m = [] -> set u m = m' ->
  field (keeping false get set cases) (wunknown u) (size_unknown u) m m'.
Proof.
  intros Hu HL Hg <-. destruct (writes_unknown u) as [H1 H2]. exists u. split; [done|]. split; [done|].
  pose proof (consumes_keeping get set cases u m Hu HL) as Hc. by rewrite Hg in Hc.
Qed.
Lemma unknown_nil {RT : WireRuntime} {M} (cases : Z -> option (action M)) : unknown_ok cases [].
Proof. by exists []. Qed.

(** Reading. *)
Lemma good_pptr {RT : WireRuntime} {OP : Options} {M A} `{PulsarLaws A} (P : M -> Prop) discard get set :
  (forall m x, P m -> get m = Some x -> wire_ok x) -> (forall (x : A) m, wire_ok x -> P m -> P (set (Some x) m)) ->
  act_good P (pcase_ptr discard get set).
Proof.
  intros Hg Hset. apply good_msg. intros s m Hs Hm.
  assert (Hz : wire_ok (if Merge then default pZero (get m) else pZero)).
  { destruct Merge; [|apply pl_zero]. destruct (get m) as [x|] eqn:E; [by apply (Hg m) | apply pl_zero]. }
  pose proof (pl_read discard s _ Hs Hz) as Hr.
  destruct (pUnmarshal discard s _); cbn [good rbind] in *; [by apply Hset | done].
Qed.
Lemma good_prep {RT : WireRuntime} {M A} `{PulsarLaws A} (P : M -> Prop) discard get set :
  (forall (x : A) m, wire_ok x -> P m -> P (set (get m ++ [Some x]) m)) -> act_good P (pcase_rep discard get set).
Proof.
  intros Hset. apply good_msg. intros s m Hs Hm. pose proof (pl_read discard s pZero Hs pl_zero) as Hr.
  destruct (pUnmarshal discard s pZero); [|done]. by apply Hset.
Qed.

(** A value written by the API codec is read back, with the fields it does not
    know. *)
Lemma pulsar_roundtrip {RT : WireRuntime} {RL : RuntimeLaws} {A} `{PulsarLaws A} (a : A) :
  wire_ok a -> wire_full a -> pSize a < 2 ^ 63 -> exists bz,
  pMarshal a = Ok bz /\ blen bz = pSize a /\ pUnmarshal false bz pZero = Ok a.
Proof.
  intros Ha Hf Hs. destruct (pl_write a Ha Hf) as (bs & Hw & Hz & Hr). pose proof (proj2 Hz (or_introl Hs)).
  exists bs. split; [apply pMarshal_emits; (done || lia)|]. split; [done|]. apply Hr. lia.
Qed.
Lemma pmessage_write {RT : WireRuntime} {RL : RuntimeLaws} {A} (sw : switch A) w n zero a : field sw w n zero a -> exists bs,
  emits w bs /\ sizes n bs /\ (blen bs < 2 ^ 63 -> unmarshal_with sw bs zero = Ok a).
Proof.
  intros (bs & H1 & H2 & H3). exists bs. split; [done|]. split; [done|]. by apply consumes_unmarshal.
Qed.

(** ** The two codecs of a message *)

(** The API value of a value of the chain. *)
Class ToApi (A B : Type) := to_api : A -> B.
(** Both codecs write the same bytes, and the API codec reads them. *)
Class ApiLaws (A B : Type) {RT : WireRuntime} {WA : WireMsg A} {PB : PulsarMsg B} {OA : WireOk A} {FA : WireFull A} {TA : ToApi A B} :=
  api_write : forall a, wire_ok a -> wire_full a -> 0 <= Size a /\ (Size a < 2 ^ 63 -> exists bs,
    msg_emits (MarshalToSizedBuffer a) bs /\ sizes (Size a) bs /\ emits (pWrite (to_api a)) bs /\
    sizes (pSize (to_api a)) bs /\ pUnmarshal false bs pZero = Ok (to_api a)).
(** The text of a number, which the API types keep as a string. *)
Definition text_of {A : Type} `{WireCustom A} (x : A) : bytes := match cMarshal x with Ok s => s | Err _ => [] end.
Class TextLaws (A : Type) `{WireCustom A} `{WireFull A} :=
  text_laws : forall a, wire_full a -> exists s, cMarshal a = Ok s /\ cSize a = blen s /\ s <> [].
(** The bytes of a repeated field that the API type does not have. *)
Definition lost {A : Type} `{WireMsg A} (t : byte) (l : list (option A)) : bytes :=
  concat (map (fun o => match o with Some x => delimited t (match wMarshal x with Ok s => s | Err _ => [] end) | None => [] end) l).

(** One field: written alike by both, and read by the API codec. *)
Definition twin {RT : WireRuntime} {M} (sw : switch M) (w : writer) (n : Z) (w' : writer) (n' : Z) (m m' : M) : Prop :=
  0 <= n /\ (n < 2 ^ 63 -> exists c, writes w n c /\ writes w' n' c /\ consumes sw c m m').

Section Twins.
Context {RT : WireRuntime} {RL : RuntimeLaws} {OP : Options} {M : Type} (sw : switch M) (t : byte).

Lemma twin_seq w n w' n' W N W' N' m m1 m' : twin sw W N W' N' m m1 -> twin sw w n w' n' m1 m' ->
  twin sw (w ;> W) (N + n) (w' ;> W') (N' + n') m m'.
Proof.
  intros [P1 H1] [P2 H2]. split; [lia|]. intros Hs.
  destruct (H1 ltac:(lia)) as (C & A1 & A2 & A3), (H2 ltac:(lia)) as (c & B1 & B2 & B3). exists (C ++ c).
  split; [by apply writes_seq|]. split; [by apply writes_seq|]. by apply (consumes_app sw C c m m1 m').
Qed.
(** The API value has no field it does not know. *)
Lemma twin_known w n w' n' m m' : twin sw w n w' n' m m' -> twin sw w n (wunknown [] ;> w') (n' + size_unknown []) m m'.
Proof.
  intros [P1 H1]. split; [done|]. intros Hs. destruct (H1 Hs) as (c & A1 & A2 & A3). exists c.
  split; [done|]. split; [|done]. pose proof (writes_seq _ _ _ _ _ _ A2 (writes_unknown [])) as Hw. by rewrite app_nil_r in Hw.
Qed.
Lemma twin_nil m : twin sw wskip 0 wskip 0 m m.
Proof. split; [done|]. intros _. exists []. split; [apply writes_skip|]. split; [apply writes_skip | apply consumes_nil]. Qed.
Lemma twin_if (b : bool) w n w' n' m m' : twin sw w n w' n' m m' -> (b = false -> m' = m) ->
  twin sw (wif b w) (if b then n else 0) (wif b w') (if b then n' else 0) m m'.
Proof. destruct b; [done|]. intros _ H. rewrite (H eq_refl). apply twin_nil. Qed.
(** Both write the bytes [c]. *)
Lemma twin_chunk w n w' n' c m m' : 0 <= n -> writes w n c -> writes w' n' c -> consumes sw c m m' -> twin sw w n w' n' m m'.
Proof. intros H1 H2 H3 H4. split; [done|]. intros _. by exists c. Qed.
Lemma sov_len_nonneg {R : WireRuntime} {L : RuntimeLaws} n : 0 <= n -> 0 <= size_len n.
Proof. intros H. unfold size_len. pose proof (rl_Sov_nonneg n H). lia. Qed.

Lemma twin_len set s m m' : tag_ok t 2 = true -> case_of sw (tag_num t) = Some (case_string set) -> set s m = m' ->
  twin sw (@wlen generated t s) (@size_len generated (blen s)) (wlen t s) (size_len (blen s)) m m'.
Proof.
  intros Ht Hsw Hm. apply (twin_chunk _ _ _ _ (delimited t s)).
  - apply sov_len_nonneg, blen_nonneg.
  - apply writes_len.
  - apply writes_len.
  - by apply (cons_string sw t set).
Qed.
Lemma twin_lenb set s m m' : tag_ok t 2 = true -> case_of sw (tag_num t) = Some (case_bytes set) -> set s m = m' ->
  twin sw (@wlen generated t s) (@size_len generated (blen s)) (wlen t s) (size_len (blen s)) m m'.
Proof.
  intros Ht Hsw Hm. apply (twin_chunk _ _ _ _ (delimited t s)).
  - apply sov_len_nonneg, blen_nonneg.
  - apply writes_len.
  - apply writes_len.
  - by apply (cons_bytes sw t set).
Qed.
Lemma twin_string set s m m' : tag_ok t 2 = true -> case_of sw (tag_num t) = Some (case_string set) -> set s m = m' ->
  (s = [] -> m' = m) ->
  twin sw (wif (0 <? blen s) (@wlen generated t s)) (if 0 <? blen s then @size_len generated (blen s) else 0)
    (wif (0 <? blen s) (wlen t s)) (if 0 <? blen s then size_len (blen s) else 0) m m'.
Proof. intros Ht Hsw Hm H0. apply twin_if; [by apply (twin_len set) | intros E; by apply H0, blen_zero]. Qed.
Lemma twin_bytes set s m m' : tag_ok t 2 = true -> case_of sw (tag_num t) = Some (case_bytes set) -> set s m = m' ->
  (s = [] -> m' = m) ->
  twin sw (wif (0 <? blen s) (@wlen generated t s)) (if 0 <? blen s then @size_len generated (blen s) else 0)
    (wif (0 <? blen s) (wlen t s)) (if 0 <? blen s then size_len (blen s) else 0) m m'.
Proof. intros Ht Hsw Hm H0. apply twin_if; [by apply (twin_lenb set) | intros E; by apply H0, blen_zero]. Qed.
Lemma twin_varint T set v m m' : tag_ok t 0 = true -> case_of sw (tag_num t) = Some (case_varint T set) -> Trunc T ->
  T v = v -> set v m = m' -> (v = 0 -> m' = m) ->
  twin sw (wif (negb (v =? 0)) (@wvarint generated (u64 v) ;> wbyte t)) (if negb (v =? 0) then 1 + @Sov generated (u64 v) else 0)
    (wif (negb (v =? 0)) (wvarint (u64 v) ;> wbyte t)) (if negb (v =? 0) then 1 + Sov (u64 v) else 0) m m'.
Proof.
  intros Ht Hsw HT Hv Hm H0. apply twin_if; [|intros E; zbool; auto]. apply (twin_chunk _ _ _ _ (vfield t (u64 v))).
  - pose proof (@rl_Sov_nonneg generated _ (u64 v) ltac:(apply u64_range)). lia.
  - apply writes_varint.
  - apply writes_varint.
  - by apply (cons_varint sw t T set).
Qed.
Lemma twin_bool set b m m' : tag_ok t 0 = true -> case_of sw (tag_num t) = Some (case_bool set) -> set b m = m' ->
  (b = false -> m' = m) ->
  twin sw (wif b (wbool b ;> wbyte t)) (if b then 2 else 0) (wif b (wbool b ;> wbyte t)) (if b then 2 else 0) m m'.
Proof.
  intros Ht Hsw Hm H0. apply twin_if; [|done]. destruct b; cycle 1.
  { split; [done|]. intros _. exists [t; Byte.x00]. rewrite (H0 eq_refl) in *. clear H0.
    split; [|split].
    1,2: split; [apply (emits_seq _ _ [Byte.x00] [t]); apply emits_byte | by split].
    apply (consumes_field sw t 0 [Byte.x00] _ _ _ Ht Hsw). rewrite <- Hm at 2.
    exact (reads_varint i64 (fun v => set (negb (v =? 0))) 0 m eq_refl). }
  apply (twin_chunk _ _ _ _ (vfield t 1)); [done|apply writes_bool|apply writes_bool|]. by apply (cons_bool sw t set).
Qed.
Lemma twin_down {B C} (w1 : B -> writer) (n1 : B -> Z) (w2 : C -> writer) (n2 : C -> Z) (f : B -> C) get set (l : list B) m m' :
  Forall (fun x => forall m, twin sw (w1 x) (n1 x) (w2 (f x)) (n2 (f x)) m (set (get m ++ [f x]) m)) l -> lens get set ->
  get m = [] -> set (map f l) m = m' ->
  twin sw (wif (0 <? Z.of_nat (length l)) (wdown l w1)) (if 0 <? Z.of_nat (length l) then size_each n1 l else 0)
    (wif (0 <? Z.of_nat (length (map f l))) (wdown (map f l) w2))
    (if 0 <? Z.of_nat (length (map f l)) then size_each n2 (map f l) else 0) m m'.
Proof.
  intros Hl (L1 & L2 & L3) Hg <-. rewrite length_map. apply twin_if; cycle 1.
  { destruct l; [intros _; cbn [map]; by rewrite <- Hg, L3 | intros E; cbn [length] in E; zbool; lia]. }
  replace (set (map f l) m) with (set (get m ++ map f l) m) by by rewrite Hg. clear Hg. revert m.
  induction Hl as [|x l Hx Hl IH]; intros m; cbn [wdown map].
  - rewrite app_nil_r, L3. apply twin_nil.
  - rewrite !size_each_cons. apply (twin_seq _ _ _ _ _ _ _ _ m (set (get m ++ [f x]) m)); [apply Hx|].
    specialize (IH (set (get m ++ [f x]) m)). by rewrite L1, L2, <- app_assoc in IH.
Qed.
Lemma twin_strings get set (l : list bytes) m m' : tag_ok t 2 = true ->
  case_of sw (tag_num t) = Some (case_strings get set) -> lens get set -> get m = [] -> set l m = m' ->
  twin sw (wif (0 <? Z.of_nat (length l)) (wdown l (@wlen generated t)))
    (if 0 <? Z.of_nat (length l) then size_each (fun s => @size_len generated (blen s)) l else 0)
    (wif (0 <? Z.of_nat (length l)) (wdown l (wlen t)))
    (if 0 <? Z.of_nat (length l) then size_each (fun s => size_len (blen s)) l else 0) m m'.
Proof.
  intros Ht Hsw HL Hg Hm.
  pose proof (twin_down (@wlen generated t) (fun s => @size_len generated (blen s)) (wlen t) (fun s => size_len (blen s))
    (fun s => s) get set l m m') as Hd. rewrite map_id in Hd. apply Hd; try done.
  apply Forall_forall. intros s _ m0. by apply (twin_len (fun s m => set (get m ++ [s]) m)).
Qed.
Lemma twin_byteses get set (l : list bytes) m m' : tag_ok t 2 = true ->
  case_of sw (tag_num t) = Some (case_byteses get set) -> lens get set -> get m = [] -> set l m = m' ->
  twin sw (wif (0 <? Z.of_nat (length l)) (wdown l (@wlen generated t)))
    (if 0 <? Z.of_nat (length l) then size_each (fun s => @size_len generated (blen s)) l else 0)
    (wif (0 <? Z.of_nat (length l)) (wdown l (wlen t)))
    (if 0 <? Z.of_nat (length l) then size_each (fun s => size_len (blen s)) l else 0) m m'.
Proof.
  intros Ht Hsw HL Hg Hm.
  pose proof (twin_down (@wlen generated t) (fun s => @size_len generated (blen s)) (wlen t) (fun s => size_len (blen s))
    (fun s => s) get set l m m') as Hd. rewrite map_id in Hd. apply Hd; try done.
  apply Forall_forall. intros s _ m0. by apply (twin_lenb (fun s m => set (get m ++ [s]) m)).
Qed.
Lemma twin_packed get set (l : list Z) m m' : tag_ok t 2 = true ->
  case_of sw (tag_num t) = Some (case_packed_list get set) -> Forall is_u64 l -> lens get set -> get m = [] -> set l m = m' ->
  twin sw (wif (0 <? Z.of_nat (length l)) (@wpacked generated l ;> wbyte t))
    (if 0 <? Z.of_nat (length l) then 1 + @Sov generated (size_each (@Sov generated) l) + size_each (@Sov generated) l else 0)
    (wif (0 <? Z.of_nat (length l)) (wpacked_in l ;> wbyte t))
    (if 0 <? Z.of_nat (length l) then 1 + Sov (size_each Sov l) + size_each Sov l else 0) m m'.
Proof.
  intros Ht Hsw Hl HL Hg <-. pose proof HL as (_ & _ & L3). apply twin_if; cycle 1.
  { destruct l; [intros _; by rewrite <- Hg, L3 | intros E; cbn [length] in E; zbool; lia]. }
  apply (twin_chunk _ _ _ _ (delimited t (packed l))).
  - pose proof (@sizes_packed generated _ l Hl) as [Hn _]. pose proof (@rl_Sov_nonneg generated _ _ Hn). lia.
  - by apply writes_packed.
  - by apply writes_packed_in.
  - apply (cons_packed sw t get set); try done. by rewrite Hg.
Qed.
End Twins.

Section TwinMessages.
Context {RT : WireRuntime} {RL : RuntimeLaws} {OP : Options} {M : Type} (sw : switch M) (t : byte).
Context {A B : Type} {WA : WireMsg A} {PB : PulsarMsg B} {OA : WireOk A} {FA : WireFull A} {TA : ToApi A B} {AL : ApiLaws A B}.

Lemma twin_one (x : A) m m' : wire_ok x -> wire_full x ->
  (forall s, pUnmarshal false s pZero = Ok (to_api x) -> consumes sw (delimited t s) m m') ->
  twin sw (@wsub generated A _ t x) (@size_len generated (Size x)) (wenc t (Some (to_api x))) (size_len (pSize (to_api x))) m m'.
Proof.
  intros Hx Hf Hc. destruct (api_write x Hx Hf) as [Hn Hw]. split; [by apply sov_len_nonneg|]. intros Hs.
  assert (Hx' : Size x < 2 ^ 63) by (unfold size_len in Hs; pose proof (@rl_Sov_nonneg generated _ _ Hn); lia).
  destruct (Hw Hx') as (bs & H1 & H2 & H3 & H4 & H5). exists (delimited t bs).
  split; [by apply writes_sub|]. split; [by apply writes_enc | by apply Hc].
Qed.
Lemma twin_sub get set (x : A) m m' : tag_ok t 2 = true -> case_of sw (tag_num t) = Some (pcase_ptr false get set) ->
  wire_ok x -> wire_full x -> get m = None -> set (Some (to_api x)) m = m' ->
  twin sw (@wsub generated A _ t x) (@size_len generated (Size x)) (wenc t (Some (to_api x))) (size_len (pSize (to_api x))) m m'.
Proof.
  intros Ht Hsw Hx Hf Hg Hm. apply (twin_one x m m' Hx Hf). intros s Hs. by apply (cons_ptr sw t false get set (to_api x) s m).
Qed.
Lemma twin_ptr get set (o : option A) m m' : tag_ok t 2 = true -> case_of sw (tag_num t) = Some (pcase_ptr false get set) ->
  opt_ok o -> opt_full o -> get m = None -> set (option_map to_api o) m = m' -> (o = None -> m' = m) ->
  twin sw (match o with Some x => @wsub generated A _ t x | None => wskip end)
    (match o with Some x => @size_len generated (Size x) | None => 0 end)
    (match option_map to_api o with Some y => wenc t (Some y) | None => wskip end)
    (match option_map to_api o with Some y => size_len (pSize y) | None => 0 end) m m'.
Proof.
  intros Ht Hsw Ho Hf Hg Hm Hn. destruct o as [x|]; cbn [option_map] in *; [by apply (twin_sub get set)|].
  rewrite (Hn eq_refl). apply twin_nil.
Qed.
Lemma twin_rep get set (l : list A) m m' : tag_ok t 2 = true -> case_of sw (tag_num t) = Some (pcase_rep false get set) ->
  Forall wire_ok l -> Forall wire_full l -> lens get set -> get m = [] -> set (map (fun x => Some (to_api x)) l) m = m' ->
  twin sw (wif (0 <? Z.of_nat (length l)) (wdown l (@wsub generated A _ t)))
    (if 0 <? Z.of_nat (length l) then size_each (fun e => @size_len generated (Size e)) l else 0)
    (wif (0 <? Z.of_nat (length (map (fun x => Some (to_api x)) l))) (wdown (map (fun x => Some (to_api x)) l) (wenc t)))
    (if 0 <? Z.of_nat (length (map (fun x => Some (to_api x)) l))
     then size_each (fun e => size_len (pSize_ptr e)) (map (fun x => Some (to_api x)) l) else 0) m m'.
Proof.
  intros Ht Hsw Ho Hf HL Hg Hm. apply (twin_down sw _ _ _ _ (fun x => Some (to_api x)) get set); try done.
  rewrite Forall_forall in Ho, Hf. apply Forall_forall. intros x Hx m0. apply (twin_one x); [by apply Ho|by apply Hf|].
  intros s Hs. by apply (cons_rep sw t false get set (to_api x) s m0).
Qed.
Lemma twin_rep_ptr get set (l : list (option A)) m m' : tag_ok t 2 = true ->
  case_of sw (tag_num t) = Some (pcase_rep false get set) ->
  Forall (ptr wire_ok) l -> Forall (ptr wire_full) l -> lens get set -> get m = [] -> set (map (option_map to_api) l) m = m' ->
  twin sw (wif (0 <? Z.of_nat (length l)) (wdown l (@wsub_ptr generated A _ t)))
    (if 0 <? Z.of_nat (length l) then size_each (fun e => @size_len generated (size_ptr e)) l else 0)
    (wif (0 <? Z.of_nat (length (map (option_map to_api) l))) (wdown (map (option_map to_api) l) (wenc t)))
    (if 0 <? Z.of_nat (length (map (option_map to_api) l))
     then size_each (fun e => size_len (pSize_ptr e)) (map (option_map to_api) l) else 0) m m'.
Proof.
  intros Ht Hsw Ho Hf HL Hg Hm. apply (twin_down sw _ _ _ _ (option_map to_api) get set); try done.
  rewrite Forall_forall in Ho, Hf. apply Forall_forall. intros [x|] Hx m0; [|by destruct (Ho _ Hx)].
  apply (twin_one x); [apply (Ho _ Hx)|apply (Hf _ Hx)|].
  intros s Hs. by apply (cons_rep sw t false get set (to_api x) s m0).
Qed.
End TwinMessages.

Section TwinOthers.
Context {RT : WireRuntime} {RL : RuntimeLaws} {M : Type}.

Lemma twin_custom (sw : switch M) t {A} `{TextLaws A} set (x : A) m m' : tag_ok t 2 = true ->
  case_of sw (tag_num t) = Some (case_string set) -> wire_full x -> set (text_of x) m = m' ->
  twin sw (@wcust generated A _ t x) (@size_len generated (cSize x)) (wif (0 <? blen (text_of x)) (wlen t (text_of x)))
    (if 0 <? blen (text_of x) then size_len (blen (text_of x)) else 0) m m'.
Proof.
  intros Ht Hsw Hf. unfold text_of. destruct (text_laws x Hf) as (s & Hm & Hs & Hne). rewrite Hm. intros Hset.
  assert (Hb : (0 <? blen s) = true) by (destruct s; [done|]; rewrite blen_cons; pose proof (blen_nonneg s); apply Z.ltb_lt; lia).
  rewrite Hb. cbn [wif]. apply (twin_chunk _ _ _ _ _ (delimited t s)).
  - rewrite Hs. apply sov_len_nonneg, blen_nonneg.
  - by apply writes_custom.
  - apply writes_len.
  - by apply (cons_string sw t set).
Qed.
(** A repeated field that the API type does not have ends among the fields it
    does not know. *)
Lemma twin_lost get set (cases : Z -> option (action M)) t {A} `{WireLaws A} (l : list (option A)) m m' :
  tag_ok t 2 = true -> cases (tag_num t) = None -> Forall (ptr wire_ok) l -> Forall (ptr wire_full) l -> lens get set ->
  get m = [] -> set (lost t l) m = m' ->
  twin (keeping false get set cases) (wif (0 <? Z.of_nat (length l)) (wdown l (@wsub_ptr generated A _ t)))
    (if 0 <? Z.of_nat (length l) then size_each (fun e => @size_len generated (size_ptr e)) l else 0)
    (wunknown (lost t l)) (size_unknown (lost t l)) m m'.
Proof.
  intros Ht Hc Ho Hf HL Hg <-.
  assert (Hw : 0 <= size_each (fun e => @size_len generated (size_ptr e)) l /\
    (size_each (fun e => @size_len generated (size_ptr e)) l < 2 ^ 63 ->
     writes (wdown l (@wsub_ptr generated A _ t)) (size_each (fun e => @size_len generated (size_ptr e)) l) (lost t l) /\
     unknown_ok cases (lost t l))).
  { clear Hg HL. unfold lost. induction l as [|o l IH].
    { split; [done|]. intros _. split; [apply writes_skip|]. by exists []. }
    inversion_clear Ho as [|? ? Ho1 Ho2]. inversion_clear Hf as [|? ? Hf1 Hf2]. specialize (IH Ho2 Hf2) as [IH1 IH2].
    destruct o as [x|]; [|done]. cbn [ptr] in *. rewrite size_each_cons. cbn [size_ptr map concat wdown wsub_ptr].
    destruct (wl_write x Ho1 Hf1) as (bs & Hx & [Hn Hz] & _).
    pose proof (@sov_len_nonneg generated _ _ Hn) as Hnn. split; [lia|]. intros Hs.
    assert (Hx' : Size x < 2 ^ 63) by (unfold size_len in *; pose proof (@rl_Sov_nonneg generated _ _ Hn); lia).
    specialize (Hz (or_introl Hx')). destruct (IH2 ltac:(lia)) as (Hw & cs & Hcs & Hall).
    rewrite (wMarshal_emits x bs Hx Hz) by lia. rewrite Hcs.
    split; [rewrite <- Hcs; apply writes_seq; [by apply writes_sub | done]|].
    exists (delimited t bs :: cs). split; [done|]. constructor; [|done].
    exists t, 2, (varint (blen bs) ++ bs). split; [done|]. split; [done|]. split; [|done]. right; right; right. eauto. }
  destruct Hw as [Hn Hw]. destruct (0 <? Z.of_nat (length l)) eqn:E; cbn [wif]; cycle 1.
  - destruct l as [|o l]; [|cbn [length] in E; zbool; lia]. change (lost t []) with ([] : bytes).
    destruct HL as (_ & _ & L3). rewrite <- Hg, L3, Hg. apply twin_nil.
  - split; [done|]. intros Hs. destruct (Hw Hs) as [H3 H4]. exists (lost t l).
    split; [done|]. split; [apply writes_unknown|].
    pose proof (consumes_keeping get set cases (lost t l) m H4 HL) as Hk. by rewrite Hg in Hk.
Qed.
End TwinOthers.

Lemma twin_api {RT : WireRuntime} {RL : RuntimeLaws} {B} (sw : switch B) w n w' n' zero b :
  twin sw w n w' n' zero b -> 0 <= n /\ (n < 2 ^ 63 -> exists bs,
    msg_emits (sized w) bs /\ sizes n bs /\ emits w' bs /\ sizes n' bs /\ unmarshal_with sw bs zero = Ok b).
Proof.
  intros [Hn Ht]. split; [done|]. intros Hs. destruct (Ht Hs) as (bs & [H1 H2] & [H3 H4] & H5). exists bs.
  split; [by apply emits_sized|]. split; [done|]. split; [done|]. split; [done|].
  apply consumes_unmarshal; [done|]. rewrite <- (proj2 H2 (or_introl Hs)). done.
Qed.
(** The chain and the API agree on a value: the same bytes, each read by both. *)
Definition agrees {RT : WireRuntime} {A B} `{WireMsg A} `{PulsarMsg B} `{ToApi A B} (a : A) : Prop := exists bz,
  wMarshal a = Ok bz /\ pMarshal (to_api a : B) = Ok bz /\ wUnmarshal bz wZero = Ok a /\
  pUnmarshal false bz pZero = Ok (to_api a : B).
Lemma api_agrees {RT : WireRuntime} {RL : RuntimeLaws} {A B} {WA : WireMsg A} {OA : WireOk A} {FA : WireFull A} {WL : WireLaws A}
  {PB : PulsarMsg B} {TA : ToApi A B} {AL : ApiLaws A B} (a : A) :
  wire_ok a -> wire_full a -> Size a < 2 ^ 63 -> agrees (B := B) a.
Proof.
  intros Ha Hf Hs. destruct (wire_roundtrip a Ha Hf Hs) as (bz & Hm & Hz & Hr).
  destruct (api_write a Ha Hf) as [Hn Hw]. destruct (Hw Hs) as (bs & H1 & H2 & H3 & H4 & H5).
  pose proof (proj2 H2 (or_introl Hs)) as Hb. rewrite (wMarshal_emits a bs H1 Hb) in Hm by lia. injection Hm as <-.
  exists bs. split; [apply wMarshal_emits; (done || lia)|]. split; [apply pMarshal_emits; (done || lia)|]. done.
Qed.

(** ** Tactics for the API messages *)

#[export] Hint Resolve pl_zero unknown_nil : wire.
Ltac pulsar_leaf :=
  lazymatch goal with
  | |- field _ (wunknown _) _ _ _ =>
      eapply field_unknown; [solve [wire_prop] | wire_lens | reflexivity | wire_set]
  | |- field _ (match _ with Some _ => _ | None => _ end) _ _ _ =>
      eapply field_pptr; [apply _ | reflexivity | reflexivity | solve [wire_prop] | solve [wire_prop]
                         | reflexivity | wire_set | wire_default]
  | |- field _ (wif _ (wdown _ (wenc _))) _ _ _ =>
      eapply field_prep; [apply _ | reflexivity | reflexivity | solve [wire_prop] | solve [wire_prop] | wire_lens | reflexivity | wire_set]
  | |- field _ (wif _ (wpacked_in _ ;> _)) _ _ _ =>
      eapply field_packed_in; [reflexivity | reflexivity | solve [wire_prop] | wire_lens | reflexivity | wire_set]
  | |- _ => wire_leaf
  end.
Ltac pulsar_fields :=
  lazymatch goal with
  | |- field _ (wseq _ _) _ _ _ => eapply field_seq; [pulsar_fields | pulsar_leaf]
  | |- _ => pulsar_leaf
  end.
Ltac pulsar_good :=
  lazymatch goal with
  | |- act_good _ (pcase_ptr _ _ _) =>
      apply good_pptr; [let E := fresh in intros [] ? ? E; simpl in E; subst; solve [wire_prop] | intros ? [] ? ?; solve [wire_prop]]
  | |- act_good _ (pcase_rep _ _ _) => apply good_prep; intros ? [] ? ?; solve [wire_prop]
  | |- _ => wire_good
  end.
(** [PulsarLaws] of a message, from its switch, the cases of it and the body of [marshal]. *)
Ltac pulsar_laws sw cases marshal :=
  split;
  [ intros [] Ha Hf; refine (pmessage_write (sw false) _ _ _ _ _);
    lazymatch goal with |- field ?s _ ?n ?z ?a => change (field s (marshal a) n z a) end; unfold marshal; pulsar_fields
  | solve [wire_prop]
  | intros discard d m Hd Hm; refine (unmarshal_good wire_ok (sw discard) d m _ _ _ _); [| |exact Hd|exact Hm];
    [ intros n act Hn; cbn [case_of keeping sw] in Hn; unfold cases in Hn; repeat case_match; try discriminate Hn;
      injection Hn as <-; pulsar_good
    | intros s [] Hk; destruct discard; cbn [on_unknown keeping sw]; solve [wire_prop] ] ].

(** The field whose two writers are the goal's. *)
Ltac twin_leaf :=
  lazymatch goal with
  | |- twin _ _ _ (wunknown _) _ _ _ =>
      eapply twin_lost; [apply _ | reflexivity | reflexivity | solve [wire_prop] | solve [wire_prop] | wire_lens | reflexivity | wire_set]
  | |- twin ?sw (wif _ (wlen ?t _)) _ _ _ _ _ =>
      lazymatch eval hnf in (case_of sw (tag_num t)) with
      | Some (case_string _) => eapply twin_string; [reflexivity | reflexivity | wire_set | wire_default]
      | Some (case_bytes _) => eapply twin_bytes; [reflexivity | reflexivity | wire_set | wire_default]
      end
  | |- twin ?sw (wif _ (wdown _ (wlen ?t))) _ _ _ _ _ =>
      lazymatch eval hnf in (case_of sw (tag_num t)) with
      | Some (case_strings _ _) => eapply twin_strings; [reflexivity | reflexivity | wire_lens | reflexivity | wire_set]
      | Some (case_byteses _ _) => eapply twin_byteses; [reflexivity | reflexivity | wire_lens | reflexivity | wire_set]
      end
  | |- twin _ (wif _ (wdown _ (wsub _))) _ _ _ _ _ =>
      eapply twin_rep; [apply _ | reflexivity | reflexivity | solve [wire_prop] | solve [wire_prop] | wire_lens | reflexivity | wire_set]
  | |- twin _ (wif _ (wdown _ (wsub_ptr _))) _ _ _ _ _ =>
      eapply twin_rep_ptr; [apply _ | reflexivity | reflexivity | solve [wire_prop] | solve [wire_prop] | wire_lens | reflexivity | wire_set]
  | |- twin _ (wif _ (wvarint _ ;> _)) _ _ _ _ _ =>
      eapply twin_varint; [reflexivity | reflexivity | apply _ | solve [wire_prop] | wire_set | wire_default]
  | |- twin _ (wif _ (wbool _ ;> _)) _ _ _ _ _ => eapply twin_bool; [reflexivity | reflexivity | wire_set | wire_default]
  | |- twin _ (wif _ (wpacked _ ;> _)) _ _ _ _ _ =>
      eapply twin_packed; [reflexivity | reflexivity | solve [wire_prop] | wire_lens | reflexivity | wire_set]
  | |- twin _ (wsub _ _) _ _ _ _ _ =>
      eapply twin_sub; [apply _ | reflexivity | reflexivity | solve [wire_prop] | solve [wire_prop] | reflexivity | wire_set]
  | |- twin _ (wcust _ _) _ _ _ _ _ => eapply twin_custom; [apply _ | reflexivity | reflexivity | solve [wire_prop] | wire_set]
  | |- twin _ (match _ with Some _ => _ | None => _ end) _ _ _ _ _ =>
      eapply twin_ptr; [apply _ | reflexivity | reflexivity | solve [wire_prop] | solve [wire_prop] | reflexivity | wire_set | wire_default]
  end.
Ltac twin_fields :=
  lazymatch goal with
  | |- twin _ (wseq _ _) _ _ _ _ _ => eapply twin_seq; [twin_fields | twin_leaf]
  | |- _ => twin_leaf
  end.
(** [ApiLaws] of a message whose API type has all its fields, and of one whose
    API type lacks the last. *)
Ltac api_start sw marshal :=
  intros [] Ha Hf; refine (twin_api (sw false) _ _ _ _ _ _ _);
  lazymatch goal with |- twin ?s ?w ?n _ ?n' ?z ?a => change (twin s w n (marshal a) n' z a) end; unfold marshal.
Ltac api_laws sw marshal := api_start sw marshal; refine (twin_known _ _ _ _ _ _ _ _); twin_fields.
Ltac api_laws_lost sw marshal := api_start sw marshal; twin_fields.
