(* ===== verification/WireToy.v ===== *)
(** * A codec for the types of other modules

    Witnesses need codecs of [LegacyDec], [Int] and [Coin] that satisfy the
    laws: numbers are written as a text of their own, and [Coin] is the message
    of its denom and its amount, with both codecs. *)

From S2P Require Import Prelude Proto Sdk Wire WireLaws Pulsar.

Open Scope go_scope.
#[local] Existing Instance generated.

(** ** Numbers *)

Section ToyCustom.
Context {A : Type} `{Countable A} (zero : A).
Definition toy_text (a : A) : bytes := Byte.x2b :: pos_bytes (encode a).
Definition toy_read (s : bytes) : result wire_err A :=
  match s with
  | _ :: s' =>
      match bytes_pos s' with
      | Some p => match decode p with Some a => Ok a | None => Err ErrField end
      | None => Err ErrField
      end
  | [] => Err ErrField
  end.
Definition toy_custom : WireCustom A :=
  {| cSize a := blen (toy_text a); cMarshal a := Ok (toy_text a); cUnmarshal := toy_read; cZero := zero |}.
Lemma toy_custom_laws : @CustomLaws A toy_custom _.
Proof.
  split; cbn [cMarshal cSize cUnmarshal toy_custom].
  - intros a _. exists (toy_text a). split; [done|]. split; [done|]. unfold toy_text, toy_read.
    by rewrite bytes_pos_bytes, decode_encode.
  - intros d. unfold toy_read. destruct d as [|? d]; [done|].
    destruct (bytes_pos d); [|done]. by destruct (decode _).
Qed.
Lemma toy_text_laws : @TextLaws A toy_custom _.
Proof. intros a _. by exists (toy_text a). Qed.
End ToyCustom.

(** ** Coins *)

#[local] Instance toy_Z : WireCustom Z := toy_custom 0.
#[local] Instance toy_Z_laws : CustomLaws Z := toy_custom_laws 0.
#[local] Instance toy_Z_text : TextLaws Z := toy_text_laws 0.

Definition ToyCoin_marshal (m : Coin) : bytes -> result wire_err (bytes * Z) := sized (
  wcust Byte.x12 (coin_Amount m) ;>
  wif (0 <? blen (coin_Denom m)) (wlen Byte.x0a (coin_Denom m))).
Definition ToyCoin_size (m : Coin) : Z :=
  (if 0 <? blen (coin_Denom m) then size_len (blen (coin_Denom m)) else 0) + size_len (cSize (coin_Amount m)).
Definition ToyCoin_switch (fieldNum : Z) : option (action Coin) :=
  match fieldNum with
  | 1 => Some (case_string (fun v m => (MkCoin v (coin_Amount m))))
  | 2 => Some (case_custom (fun v m => (MkCoin (coin_Denom m) v)))
  | _ => None
  end.
#[global] Instance ToyCoin : WireMsg Coin := {|
  Size := ToyCoin_size; MarshalToSizedBuffer := ToyCoin_marshal; wUnmarshal := unmarshal ToyCoin_switch; wZero := MkCoin [] 0 |}.
#[global] Instance ToyCoinLaws : WireLaws Coin.
Proof. wire_laws ToyCoin_switch. Qed.

(** The API type of a coin, whose amount is a string. *)
Record ApiToyCoin := MkApiToyCoin { tc_Denom : bytes; tc_Amount : bytes; tc_unknownFields : bytes }.
Definition ApiToyCoin_size (x : ApiToyCoin) : Z :=
  (if 0 <? blen (tc_Denom x) then size_len (blen (tc_Denom x)) else 0) +
  (if 0 <? blen (tc_Amount x) then size_len (blen (tc_Amount x)) else 0) +
  size_unknown (tc_unknownFields x).
Definition ApiToyCoin_marshal (x : ApiToyCoin) : writer :=
  wunknown (tc_unknownFields x) ;>
  wif (0 <? blen (tc_Amount x)) (wlen Byte.x12 (tc_Amount x)) ;>
  wif (0 <? blen (tc_Denom x)) (wlen Byte.x0a (tc_Denom x)).
Definition ApiToyCoin_cases (discard : bool) (fieldNum : Z) : option (action ApiToyCoin) :=
  match fieldNum with
  | 1 => Some (case_string (fun v m => (MkApiToyCoin v (tc_Amount m) (tc_unknownFields m))))
  | 2 => Some (case_string (fun v m => (MkApiToyCoin (tc_Denom m) v (tc_unknownFields m))))
  | _ => None
  end.
Definition ApiToyCoin_switch (discard : bool) : switch ApiToyCoin :=
  keeping discard tc_unknownFields (fun v m => (MkApiToyCoin (tc_Denom m) (tc_Amount m) v)) (ApiToyCoin_cases discard).
#[global] Instance ApiToyCoin_msg : PulsarMsg ApiToyCoin := {|
  pSize := ApiToyCoin_size; pWrite := ApiToyCoin_marshal;
  pUnmarshal := fun discard => unmarshal_with (ApiToyCoin_switch discard); pZero := MkApiToyCoin [] [] [] |}.
#[global] Instance ApiToyCoin_ok : WireOk ApiToyCoin := fun _ => True.
#[global] Instance ApiToyCoin_full : WireFull ApiToyCoin := fun x => unknown_ok (ApiToyCoin_cases false) (tc_unknownFields x).
#[global] Instance ApiToyCoin_laws : PulsarLaws ApiToyCoin.
Proof. pulsar_laws ApiToyCoin_switch ApiToyCoin_cases ApiToyCoin_marshal. Qed.
#[global] Instance ApiToyCoin_to_api : ToApi Coin ApiToyCoin := fun a => MkApiToyCoin (coin_Denom a) (text_of (coin_Amount a)) [].
#[global] Instance ApiToyCoin_api : ApiLaws Coin ApiToyCoin.
Proof. api_laws ApiToyCoin_switch ApiToyCoin_marshal. Qed.
