(* ===== verification/WireFs.v ===== *)
(** * feeshare: the protobuf codec

    [x/feeshare/types/*.pb.go]: [MarshalToSizedBuffer], [Size] and [Unmarshal]
    of every message with fields, over the records of the keeper and of the
    messages. [query.PageRequest], [query.PageResponse] and the codec of
    [LegacyDec] belong to other modules. *)

From S2P Require Import Prelude Proto Sdk Wire WireLaws FeeShare FeeShareQuery.

Open Scope go_scope.
#[local] Existing Instance generated.

Section Codec.
Context {PageRequest PageResponse : Type} `{WireLaws PageRequest} `{WireLaws PageResponse} `{CustomLaws (option Z)}.

(** [FeeShare]. *)
Definition FeeShare_MarshalToSizedBuffer (m : FeeShare) : bytes -> result wire_err (bytes * Z) := sized (
  wif (0 <? blen (WithdrawerAddress m)) (wlen Byte.x1a (WithdrawerAddress m)) ;>
  wif (0 <? blen (DeployerAddress m)) (wlen Byte.x12 (DeployerAddress m)) ;>
  wif (0 <? blen (ContractAddress m)) (wlen Byte.x0a (ContractAddress m))).
Definition FeeShare_Size (m : FeeShare) : Z :=
  (if 0 <? blen (ContractAddress m) then size_len (blen (ContractAddress m)) else 0) +
  (if 0 <? blen (DeployerAddress m) then size_len (blen (DeployerAddress m)) else 0) +
  (if 0 <? blen (WithdrawerAddress m) then size_len (blen (WithdrawerAddress m)) else 0).
Definition FeeShare_switch (fieldNum : Z) : option (action FeeShare) :=
  match fieldNum with
  | 1 => Some (case_string (fun v m => (MkFeeShare v (DeployerAddress m) (WithdrawerAddress m))))
  | 2 => Some (case_string (fun v m => (MkFeeShare (ContractAddress m) v (WithdrawerAddress m))))
  | 3 => Some (case_string (fun v m => (MkFeeShare (ContractAddress m) (DeployerAddress m) v)))
  | _ => None
  end.
Definition FeeShare_Unmarshal : bytes -> FeeShare -> result wire_err FeeShare := unmarshal FeeShare_switch.
#[global] Instance fsw_FeeShare_msg : WireMsg FeeShare := {|
  Size := FeeShare_Size; MarshalToSizedBuffer := FeeShare_MarshalToSizedBuffer;
  wUnmarshal := FeeShare_Unmarshal; wZero := MkFeeShare [] [] [] |}.
#[global] Instance fsw_FeeShare_ok : WireOk FeeShare := fun m => True.
#[global] Instance fsw_FeeShare_laws : WireLaws FeeShare.
Proof. wire_laws FeeShare_switch. Qed.

(** [Params]. *)
Definition Params_MarshalToSizedBuffer (m : FsParams) : bytes -> result wire_err (bytes * Z) := sized (
  wif (0 <? Z.of_nat (length (AllowedDenoms m))) (wdown (AllowedDenoms m) (wlen Byte.x1a)) ;>
  wcust Byte.x12 (DeveloperShares m) ;>
  wif (EnableFeeShare m) (wbool (EnableFeeShare m) ;> wbyte Byte.x08)).
Definition Params_Size (m : FsParams) : Z :=
  (if (EnableFeeShare m) then 2 else 0) +
  size_len (cSize (DeveloperShares m)) +
  (if 0 <? Z.of_nat (length (AllowedDenoms m)) then size_each (fun s => size_len (blen s)) (AllowedDenoms m) else 0).
Definition Params_switch (fieldNum : Z) : option (action FsParams) :=
  match fieldNum with
  | 1 => Some (case_bool (fun v m => (MkFsParams v (DeveloperShares m) (AllowedDenoms m))))
  | 2 => Some (case_custom (fun v m => (MkFsParams (EnableFeeShare m) v (AllowedDenoms m))))
  | 3 => Some (case_strings AllowedDenoms (fun v m => (MkFsParams (EnableFeeShare m) (DeveloperShares m) v)))
  | _ => None
  end.
Definition Params_Unmarshal : bytes -> FsParams -> result wire_err FsParams := unmarshal Params_switch.
#[global] Instance fsw_Params_msg : WireMsg FsParams := {|
  Size := Params_Size; MarshalToSizedBuffer := Params_MarshalToSizedBuffer;
  wUnmarshal := Params_Unmarshal; wZero := MkFsParams false cZero [] |}.
#[global] Instance fsw_Params_ok : WireOk FsParams := fun m => True.
#[global] Instance fsw_Params_full : WireFull FsParams := fun m => wire_full (DeveloperShares m).
#[global] Instance fsw_Params_laws : WireLaws FsParams.
Proof. wire_laws Params_switch. Qed.

(** [GenesisState]. *)
Definition GenesisState_MarshalToSizedBuffer (m : FsGenesis) : bytes -> result wire_err (bytes * Z) := sized (
  wif (0 <? Z.of_nat (length (fs_FeeShare m))) (wdown (fs_FeeShare m) (wsub Byte.x12)) ;>
  wsub Byte.x0a (fs_Params m)).
Definition GenesisState_Size (m : FsGenesis) : Z :=
  size_len (Size (fs_Params m)) +
  (if 0 <? Z.of_nat (length (fs_FeeShare m)) then size_each (fun e => size_len (Size e)) (fs_FeeShare m) else 0).
Definition GenesisState_switch (fieldNum : Z) : option (action FsGenesis) :=
  match fieldNum with
  | 1 => Some (case_sub fs_Params (fun v m => (MkFsGenesis v (fs_FeeShare m))))
  | 2 => Some (case_rep fs_FeeShare (fun v m => (MkFsGenesis (fs_Params m) v)))
  | _ => None
  end.
Definition GenesisState_Unmarshal : bytes -> FsGenesis -> result wire_err FsGenesis := unmarshal GenesisState_switch.
#[global] Instance fsw_GenesisState_msg : WireMsg FsGenesis := {|
  Size := GenesisState_Size; MarshalToSizedBuffer := GenesisState_MarshalToSizedBuffer;
  wUnmarshal := GenesisState_Unmarshal; wZero := MkFsGenesis wZero [] |}.
#[global] Instance fsw_GenesisState_ok : WireOk FsGenesis := fun m => wire_ok (fs_Params m) /\ Forall wire_ok (fs_FeeShare m).
#[global] Instance fsw_GenesisState_full : WireFull FsGenesis := fun m => wire_full (fs_Params m).
#[global] Instance fsw_GenesisState_laws : WireLaws FsGenesis.
Proof. wire_laws GenesisState_switch. Qed.

(** [MsgRegisterFeeShare]. *)
Definition MsgRegisterFeeShare_MarshalToSizedBuffer (m : MsgRegisterFeeShare) : bytes -> result wire_err (bytes * Z) := sized (
  wif (0 <? blen (mr_WithdrawerAddress m)) (wlen Byte.x1a (mr_WithdrawerAddress m)) ;>
  wif (0 <? blen (mr_DeployerAddress m)) (wlen Byte.x12 (mr_DeployerAddress m)) ;>
  wif (0 <? blen (mr_ContractAddress m)) (wlen Byte.x0a (mr_ContractAddress m))).
Definition MsgRegisterFeeShare_Size (m : MsgRegisterFeeShare) : Z :=
  (if 0 <? blen (mr_ContractAddress m) then size_len (blen (mr_ContractAddress m)) else 0) +
  (if 0 <? blen (mr_DeployerAddress m) then size_len (blen (mr_DeployerAddress m)) else 0) +
  (if 0 <? blen (mr_WithdrawerAddress m) then size_len (blen (mr_WithdrawerAddress m)) else 0).
Definition MsgRegisterFeeShare_switch (fieldNum : Z) : option (action MsgRegisterFeeShare) :=
  match fieldNum with
  | 1 => Some (case_string (fun v m => (MkMsgRegister v (mr_DeployerAddress m) (mr_WithdrawerAddress m))))
  | 2 => Some (case_string (fun v m => (MkMsgRegister (mr_ContractAddress m) v (mr_WithdrawerAddress m))))
  | 3 => Some (case_string (fun v m => (MkMsgRegister (mr_ContractAddress m) (mr_DeployerAddress m) v)))
  | _ => None
  end.
Definition MsgRegisterFeeShare_Unmarshal : bytes -> MsgRegisterFeeShare -> result wire_err MsgRegisterFeeShare := unmarshal MsgRegisterFeeShare_switch.
#[global] Instance fsw_MsgRegisterFeeShare_msg : WireMsg MsgRegisterFeeShare := {|
  Size := MsgRegisterFeeShare_Size; MarshalToSizedBuffer := MsgRegisterFeeShare_MarshalToSizedBuffer;
  wUnmarshal := MsgRegisterFeeShare_Unmarshal; wZero := MkMsgRegister [] [] [] |}.
#[global] Instance fsw_MsgRegisterFeeShare_ok : WireOk MsgRegisterFeeShare := fun m => True.
#[global] Instance fsw_MsgRegisterFeeShare_laws : WireLaws MsgRegisterFeeShare.
Proof. wire_laws MsgRegisterFeeShare_switch. Qed.

(** [MsgUpdateFeeShare]. *)
Definition MsgUpdateFeeShare_MarshalToSizedBuffer (m : MsgUpdateFeeShare) : bytes -> result wire_err (bytes * Z) := sized (
  wif (0 <? blen (mu_WithdrawerAddress m)) (wlen Byte.x1a (mu_WithdrawerAddress m)) ;>
  wif (0 <? blen (mu_DeployerAddress m)) (wlen Byte.x12 (mu_DeployerAddress m)) ;>
  wif (0 <? blen (mu_ContractAddress m)) (wlen Byte.x0a (mu_ContractAddress m))).
Definition MsgUpdateFeeShare_Size (m : MsgUpdateFeeShare) : Z :=
  (if 0 <? blen (mu_ContractAddress m) then size_len (blen (mu_ContractAddress m)) else 0) +
  (if 0 <? blen (mu_DeployerAddress m) then size_len (blen (mu_DeployerAddress m)) else 0) +
  (if 0 <? blen (mu_WithdrawerAddress m) then size_len (blen (mu_WithdrawerAddress m)) else 0).
Definition MsgUpdateFeeShare_switch (fieldNum : Z) : option (action MsgUpdateFeeShare) :=
  match fieldNum with
  | 1 => Some (case_string (fun v m => (MkMsgUpdate v (mu_DeployerAddress m) (mu_WithdrawerAddress m))))
  | 2 => Some (case_string (fun v m => (MkMsgUpdate (mu_ContractAddress m) v (mu_WithdrawerAddress m))))
  | 3 => Some (case_string (fun v m => (MkMsgUpdate (mu_ContractAddress m) (mu_DeployerAddress m) v)))
  | _ => None
  end.
Definition MsgUpdateFeeShare_Unmarshal : bytes -> MsgUpdateFeeShare -> result wire_err MsgUpdateFeeShare := unmarshal MsgUpdateFeeShare_switch.
#[global] Instance fsw_MsgUpdateFeeShare_msg : WireMsg MsgUpdateFeeShare := {|
  Size := MsgUpdateFeeShare_Size; MarshalToSizedBuffer := MsgUpdateFeeShare_MarshalToSizedBuffer;
  wUnmarshal := MsgUpdateFeeShare_Unmarshal; wZero := MkMsgUpdate [] [] [] |}.
#[global] Instance fsw_MsgUpdateFeeShare_ok : WireOk MsgUpdateFeeShare := fun m => True.
#[global] Instance fsw_MsgUpdateFeeShare_laws : WireLaws MsgUpdateFeeShare.
Proof. wire_laws MsgUpdateFeeShare_switch. Qed.

(** [MsgCancelFeeShare]. *)
Definition MsgCancelFeeShare_MarshalToSizedBuffer (m : MsgCancelFeeShare) : bytes -> result wire_err (bytes * Z) := sized (
  wif (0 <? blen (mc_DeployerAddress m)) (wlen Byte.x12 (mc_DeployerAddress m)) ;>
  wif (0 <? blen (mc_ContractAddress m)) (wlen Byte.x0a (mc_ContractAddress m))).
Definition MsgCancelFeeShare_Size (m : MsgCancelFeeShare) : Z :=
  (if 0 <? blen (mc_ContractAddress m) then size_len (blen (mc_ContractAddress m)) else 0) +
  (if 0 <? blen (mc_DeployerAddress m) then size_len (blen (mc_DeployerAddress m)) else 0).
Definition MsgCancelFeeShare_switch (fieldNum : Z) : option (action MsgCancelFeeShare) :=
  match fieldNum with
  | 1 => Some (case_string (fun v m => (MkMsgCancel v (mc_DeployerAddress m))))
  | 2 => Some (case_string (fun v m => (MkMsgCancel (mc_ContractAddress m) v)))
  | _ => None
  end.
Definition MsgCancelFeeShare_Unmarshal : bytes -> MsgCancelFeeShare -> result wire_err MsgCancelFeeShare := unmarshal MsgCancelFeeShare_switch.
#[global] Instance fsw_MsgCancelFeeShare_msg : WireMsg MsgCancelFeeShare := {|
  Size := MsgCancelFeeShare_Size; MarshalToSizedBuffer := MsgCancelFeeShare_MarshalToSizedBuffer;
  wUnmarshal := MsgCancelFeeShare_Unmarshal; wZero := MkMsgCancel [] [] |}.
#[global] Instance fsw_MsgCancelFeeShare_ok : WireOk MsgCancelFeeShare := fun m => True.
#[global] Instance fsw_MsgCancelFeeShare_laws : WireLaws MsgCancelFeeShare.
Proof. wire_laws MsgCancelFeeShare_switch. Qed.

(** [MsgUpdateParams]. *)
Record MsgUpdateParams := MkMsgUpdateParams { MsgUpdateParams_Authority : bytes; MsgUpdateParams_Params : FsParams }.
Definition MsgUpdateParams_MarshalToSizedBuffer (m : MsgUpdateParams) : bytes -> result wire_err (bytes * Z) := sized (
  wsub Byte.x12 (MsgUpdateParams_Params m) ;>
  wif (0 <? blen (MsgUpdateParams_Authority m)) (wlen Byte.x0a (MsgUpdateParams_Authority m))).
Definition MsgUpdateParams_Size (m : MsgUpdateParams) : Z :=
  (if 0 <? blen (MsgUpdateParams_Authority m) then size_len (blen (MsgUpdateParams_Authority m)) else 0) +
  size_len (Size (MsgUpdateParams_Params m)).
Definition MsgUpdateParams_switch (fieldNum : Z) : option (action MsgUpdateParams) :=
  match fieldNum with
  | 1 => Some (case_string (fun v m => (MkMsgUpdateParams v (MsgUpdateParams_Params m))))
  | 2 => Some (case_sub MsgUpdateParams_Params (fun v m => (MkMsgUpdateParams (MsgUpdateParams_Authority m) v)))
  | _ => None
  end.
Definition MsgUpdateParams_Unmarshal : bytes -> MsgUpdateParams -> result wire_err MsgUpdateParams := unmarshal MsgUpdateParams_switch.
#[global] Instance fsw_MsgUpdateParams_msg : WireMsg MsgUpdateParams := {|
  Size := MsgUpdateParams_Size; MarshalToSizedBuffer := MsgUpdateParams_MarshalToSizedBuffer;
  wUnmarshal := MsgUpdateParams_Unmarshal; wZero := MkMsgUpdateParams [] wZero |}.
#[global] Instance fsw_MsgUpdateParams_ok : WireOk MsgUpdateParams := fun m => wire_ok (MsgUpdateParams_Params m).
#[global] Instance fsw_MsgUpdateParams_full : WireFull MsgUpdateParams := fun m => wire_full (MsgUpdateParams_Params m).
#[global] Instance fsw_MsgUpdateParams_laws : WireLaws MsgUpdateParams.
Proof. wire_laws MsgUpdateParams_switch. Qed.

(** [QueryFeeSharesRequest]. *)
Record QueryFeeSharesRequest := MkQueryFeeSharesRequest { QueryFeeSharesRequest_Pagination : option PageRequest }.
Definition QueryFeeSharesRequest_MarshalToSizedBuffer (m : QueryFeeSharesRequest) : bytes -> result wire_err (bytes * Z) := sized (
  (match (QueryFeeSharesRequest_Pagination m) with Some x => wsub Byte.x0a x | None => wskip end)).
Definition QueryFeeSharesRequest_Size (m : QueryFeeSharesRequest) : Z :=
  (match (QueryFeeSharesRequest_Pagination m) with Some x => size_len (Size x) | None => 0 end).
Definition QueryFeeSharesRequest_switch (fieldNum : Z) : option (action QueryFeeSharesRequest) :=
  match fieldNum with
  | 1 => Some (case_ptr QueryFeeSharesRequest_Pagination (fun v m => (MkQueryFeeSharesRequest v)))
  | _ => None
  end.
Definition QueryFeeSharesRequest_Unmarshal : bytes -> QueryFeeSharesRequest -> result wire_err QueryFeeSharesRequest := unmarshal QueryFeeSharesRequest_switch.
#[global] Instance fsw_QueryFeeSharesRequest_msg : WireMsg QueryFeeSharesRequest := {|
  Size := QueryFeeSharesRequest_Size; MarshalToSizedBuffer := QueryFeeSharesRequest_MarshalToSizedBuffer;
  wUnmarshal := QueryFeeSharesRequest_Unmarshal; wZero := MkQueryFeeSharesRequest None |}.
#[global] Instance fsw_QueryFeeSharesRequest_ok : WireOk QueryFeeSharesRequest := fun m => opt_ok (QueryFeeSharesRequest_Pagination m).
#[global] Instance fsw_QueryFeeSharesRequest_full : WireFull QueryFeeSharesRequest := fun m => opt_full (QueryFeeSharesRequest_Pagination m).
#[global] Instance fsw_QueryFeeSharesRequest_laws : WireLaws QueryFeeSharesRequest.
Proof. wire_laws QueryFeeSharesRequest_switch. Qed.

(** [QueryFeeSharesResponse]. *)
Record QueryFeeSharesResponse := MkQueryFeeSharesResponse { QueryFeeSharesResponse_Feeshare : list FeeShare; QueryFeeSharesResponse_Pagination : option PageResponse }.
Definition QueryFeeSharesResponse_MarshalToSizedBuffer (m : QueryFeeSharesResponse) : bytes -> result wire_err (bytes * Z) := sized (
  (match (QueryFeeSharesResponse_Pagination m) with Some x => wsub Byte.x12 x | None => wskip end) ;>
  wif (0 <? Z.of_nat (length (QueryFeeSharesResponse_Feeshare m))) (wdown (QueryFeeSharesResponse_Feeshare m) (wsub Byte.x0a))).
Definition QueryFeeSharesResponse_Size (m : QueryFeeSharesResponse) : Z :=
  (if 0 <? Z.of_nat (length (QueryFeeSharesResponse_Feeshare m)) then size_each (fun e => size_len (Size e)) (QueryFeeSharesResponse_Feeshare m) else 0) +
  (match (QueryFeeSharesResponse_Pagination m) with Some x => size_len (Size x) | None => 0 end).
Definition QueryFeeSharesResponse_switch (fieldNum : Z) : option (action QueryFeeSharesResponse) :=
  match fieldNum with
  | 1 => Some (case_rep QueryFeeSharesResponse_Feeshare (fun v m => (MkQueryFeeSharesResponse v (QueryFeeSharesResponse_Pagination m))))
  | 2 => Some (case_ptr QueryFeeSharesResponse_Pagination (fun v m => (MkQueryFeeSharesResponse (QueryFeeSharesResponse_Feeshare m) v)))
  | _ => None
  end.
Definition QueryFeeSharesResponse_Unmarshal : bytes -> QueryFeeSharesResponse -> result wire_err QueryFeeSharesResponse := unmarshal QueryFeeSharesResponse_switch.
#[global] Instance fsw_QueryFeeSharesResponse_msg : WireMsg QueryFeeSharesResponse := {|
  Size := QueryFeeSharesResponse_Size; MarshalToSizedBuffer := QueryFeeSharesResponse_MarshalToSizedBuffer;
  wUnmarshal := QueryFeeSharesResponse_Unmarshal; wZero := MkQueryFeeSharesResponse [] None |}.
#[global] Instance fsw_QueryFeeSharesResponse_ok : WireOk QueryFeeSharesResponse := fun m => Forall wire_ok (QueryFeeSharesResponse_Feeshare m) /\ opt_ok (QueryFeeSharesResponse_Pagination m).
#[global] Instance fsw_QueryFeeSharesResponse_full : WireFull QueryFeeSharesResponse := fun m => opt_full (QueryFeeSharesResponse_Pagination m).
#[global] Instance fsw_QueryFeeSharesResponse_laws : WireLaws QueryFeeSharesResponse.
Proof. wire_laws QueryFeeSharesResponse_switch. Qed.

(** [QueryFeeShareRequest]. *)
Record QueryFeeShareRequest := MkQueryFeeShareRequest { QueryFeeShareRequest_ContractAddress : bytes }.
Definition QueryFeeShareRequest_MarshalToSizedBuffer (m : QueryFeeShareRequest) : bytes -> result wire_err (bytes * Z) := sized (
  wif (0 <? blen (QueryFeeShareRequest_ContractAddress m)) (wlen Byte.x0a (QueryFeeShareRequest_ContractAddress m))).
Definition QueryFeeShareRequest_Size (m : QueryFeeShareRequest) : Z :=
  (if 0 <? blen (QueryFeeShareRequest_ContractAddress m) then size_len (blen (QueryFeeShareRequest_ContractAddress m)) else 0).
Definition QueryFeeShareRequest_switch (fieldNum : Z) : option (action QueryFeeShareRequest) :=
  match fieldNum with
  | 1 => Some (case_string (fun v m => (MkQueryFeeShareRequest v)))
  | _ => None
  end.
Definition QueryFeeShareRequest_Unmarshal : bytes -> QueryFeeShareRequest -> result wire_err QueryFeeShareRequest := unmarshal QueryFeeShareRequest_switch.
#[global] Instance fsw_QueryFeeShareRequest_msg : WireMsg QueryFeeShareRequest := {|
  Size := QueryFeeShareRequest_Size; MarshalToSizedBuffer := QueryFeeShareRequest_MarshalToSizedBuffer;
  wUnmarshal := QueryFeeShareRequest_Unmarshal; wZero := MkQueryFeeShareRequest [] |}.
#[global] Instance fsw_QueryFeeShareRequest_ok : WireOk QueryFeeShareRequest := fun m => True.
#[global] Instance fsw_QueryFeeShareRequest_laws : WireLaws QueryFeeShareRequest.
Proof. wire_laws QueryFeeShareRequest_switch. Qed.

(** [QueryFeeShareResponse]. *)
Record QueryFeeShareResponse := MkQueryFeeShareResponse { QueryFeeShareResponse_Feeshare : FeeShare }.
Definition QueryFeeShareResponse_MarshalToSizedBuffer (m : QueryFeeShareResponse) : bytes -> result wire_err (bytes * Z) := sized (
  wsub Byte.x0a (QueryFeeShareResponse_Feeshare m)).
Definition QueryFeeShareResponse_Size (m : QueryFeeShareResponse) : Z :=
  size_len (Size (QueryFeeShareResponse_Feeshare m)).
Definition QueryFeeShareResponse_switch (fieldNum : Z) : option (action QueryFeeShareResponse) :=
  match fieldNum with
  | 1 => Some (case_sub QueryFeeShareResponse_Feeshare (fun v m => (MkQueryFeeShareResponse v)))
  | _ => None
  end.
Definition QueryFeeShareResponse_Unmarshal : bytes -> QueryFeeShareResponse -> result wire_err QueryFeeShareResponse := unmarshal QueryFeeShareResponse_switch.
#[global] Instance fsw_QueryFeeShareResponse_msg : WireMsg QueryFeeShareResponse := {|
  Size := QueryFeeShareResponse_Size; MarshalToSizedBuffer := QueryFeeShareResponse_MarshalToSizedBuffer;
  wUnmarshal := QueryFeeShareResponse_Unmarshal; wZero := MkQueryFeeShareResponse wZero |}.
#[global] Instance fsw_QueryFeeShareResponse_ok : WireOk QueryFeeShareResponse := fun m => wire_ok (QueryFeeShareResponse_Feeshare m).
#[global] Instance fsw_QueryFeeShareResponse_laws : WireLaws QueryFeeShareResponse.
Proof. wire_laws QueryFeeShareResponse_switch. Qed.

(** [QueryParamsResponse]. *)
Record QueryParamsResponse := MkQueryParamsResponse { QueryParamsResponse_Params : FsParams }.
Definition QueryParamsResponse_MarshalToSizedBuffer (m : QueryParamsResponse) : bytes -> result wire_err (bytes * Z) := sized (
  wsub Byte.x0a (QueryParamsResponse_Params m)).
Definition QueryParamsResponse_Size (m : QueryParamsResponse) : Z :=
  size_len (Size (QueryParamsResponse_Params m)).
Definition QueryParamsResponse_switch (fieldNum : Z) : option (action QueryParamsResponse) :=
  match fieldNum with
  | 1 => Some (case_sub QueryParamsResponse_Params (fun v m => (MkQueryParamsResponse v)))
  | _ => None
  end.
Definition QueryParamsResponse_Unmarshal : bytes -> QueryParamsResponse -> result wire_err QueryParamsResponse := unmarshal QueryParamsResponse_switch.
#[global] Instance fsw_QueryParamsResponse_msg : WireMsg QueryParamsResponse := {|
  Size := QueryParamsResponse_Size; MarshalToSizedBuffer := QueryParamsResponse_MarshalToSizedBuffer;
  wUnmarshal := QueryParamsResponse_Unmarshal; wZero := MkQueryParamsResponse wZero |}.
#[global] Instance fsw_QueryParamsResponse_ok : WireOk QueryParamsResponse := fun m => wire_ok (QueryParamsResponse_Params m).
#[global] Instance fsw_QueryParamsResponse_full : WireFull QueryParamsResponse := fun m => wire_full (QueryParamsResponse_Params m).
#[global] Instance fsw_QueryParamsResponse_laws : WireLaws QueryParamsResponse.
Proof. wire_laws QueryParamsResponse_switch. Qed.

(** [QueryDeployerFeeSharesRequest]. *)
Record QueryDeployerFeeSharesRequest := MkQueryDeployerFeeSharesRequest { QueryDeployerFeeSharesRequest_DeployerAddress : bytes; QueryDeployerFeeSharesRequest_Pagination : option PageRequest }.
Definition QueryDeployerFeeSharesRequest_MarshalToSizedBuffer (m : QueryDeployerFeeSharesRequest) : bytes -> result wire_err (bytes * Z) := sized (
  (match (QueryDeployerFeeSharesRequest_Pagination m) with Some x => wsub Byte.x12 x | None => wskip end) ;>
  wif (0 <? blen (QueryDeployerFeeSharesRequest_DeployerAddress m)) (wlen Byte.x0a (QueryDeployerFeeSharesRequest_DeployerAddress m))).
Definition QueryDeployerFeeSharesRequest_Size (m : QueryDeployerFeeSharesRequest) : Z :=
  (if 0 <? blen (QueryDeployerFeeSharesRequest_DeployerAddress m) then size_len (blen (QueryDeployerFeeSharesRequest_DeployerAddress m)) else 0) +
  (match (QueryDeployerFeeSharesRequest_Pagination m) with Some x => size_len (Size x) | None => 0 end).
Definition QueryDeployerFeeSharesRequest_switch (fieldNum : Z) : option (action QueryDeployerFeeSharesRequest) :=
  match fieldNum with
  | 1 => Some (case_string (fun v m => (MkQueryDeployerFeeSharesRequest v (QueryDeployerFeeSharesRequest_Pagination m))))
  | 2 => Some (case_ptr QueryDeployerFeeSharesRequest_Pagination (fun v m => (MkQueryDeployerFeeSharesRequest (QueryDeployerFeeSharesRequest_DeployerAddress m) v)))
  | _ => None
  end.
Definition QueryDeployerFeeSharesRequest_Unmarshal : bytes -> QueryDeployerFeeSharesRequest -> result wire_err QueryDeployerFeeSharesRequest := unmarshal QueryDeployerFeeSharesRequest_switch.
#[global] Instance fsw_QueryDeployerFeeSharesRequest_msg : WireMsg QueryDeployerFeeSharesRequest := {|
  Size := QueryDeployerFeeSharesRequest_Size; MarshalToSizedBuffer := QueryDeployerFeeSharesRequest_MarshalToSizedBuffer;
  wUnmarshal := QueryDeployerFeeSharesRequest_Unmarshal; wZero := MkQueryDeployerFeeSharesRequest [] None |}.
#[global] Instance fsw_QueryDeployerFeeSharesRequest_ok : WireOk QueryDeployerFeeSharesRequest := fun m => opt_ok (QueryDeployerFeeSharesRequest_Pagination m).
#[global] Instance fsw_QueryDeployerFeeSharesRequest_full : WireFull QueryDeployerFeeSharesRequest := fun m => opt_full (QueryDeployerFeeSharesRequest_Pagination m).
#[global] Instance fsw_QueryDeployerFeeSharesRequest_laws : WireLaws QueryDeployerFeeSharesRequest.
Proof. wire_laws QueryDeployerFeeSharesRequest_switch. Qed.

(** [QueryDeployerFeeSharesResponse]. *)
Record QueryDeployerFeeSharesResponse := MkQueryDeployerFeeSharesResponse { QueryDeployerFeeSharesResponse_ContractAddresses : list bytes; QueryDeployerFeeSharesResponse_Pagination : option PageResponse }.
Definition QueryDeployerFeeSharesResponse_MarshalToSizedBuffer (m : QueryDeployerFeeSharesResponse) : bytes -> result wire_err (bytes * Z) := sized (
  (match (QueryDeployerFeeSharesResponse_Pagination m) with Some x => wsub Byte.x12 x | None => wskip end) ;>
  wif (0 <? Z.of_nat (length (QueryDeployerFeeSharesResponse_ContractAddresses m))) (wdown (QueryDeployerFeeSharesResponse_ContractAddresses m) (wlen Byte.x0a))).
Definition QueryDeployerFeeSharesResponse_Size (m : QueryDeployerFeeSharesResponse) : Z :=
  (if 0 <? Z.of_nat (length (QueryDeployerFeeSharesResponse_ContractAddresses m)) then size_each (fun s => size_len (blen s)) (QueryDeployerFeeSharesResponse_ContractAddresses m) else 0) +
  (match (QueryDeployerFeeSharesResponse_Pagination m) with Some x => size_len (Size x) | None => 0 end).
Definition QueryDeployerFeeSharesResponse_switch (fieldNum : Z) : option (action QueryDeployerFeeSharesResponse) :=
  match fieldNum with
  | 1 => Some (case_strings QueryDeployerFeeSharesResponse_ContractAddresses (fun v m => (MkQueryDeployerFeeSharesResponse v (QueryDeployerFeeSharesResponse_Pagination m))))
  | 2 => Some (case_ptr QueryDeployerFeeSharesResponse_Pagination (fun v m => (MkQueryDeployerFeeSharesResponse (QueryDeployerFeeSharesResponse_ContractAddresses m) v)))
  | _ => None
  end.
Definition QueryDeployerFeeSharesResponse_Unmarshal : bytes -> QueryDeployerFeeSharesResponse -> result wire_err QueryDeployerFeeSharesResponse := unmarshal QueryDeployerFeeSharesResponse_switch.
#[global] Instance fsw_QueryDeployerFeeSharesResponse_msg : WireMsg QueryDeployerFeeSharesResponse := {|
  Size := QueryDeployerFeeSharesResponse_Size; MarshalToSizedBuffer := QueryDeployerFeeSharesResponse_MarshalToSizedBuffer;
  wUnmarshal := QueryDeployerFeeSharesResponse_Unmarshal; wZero := MkQueryDeployerFeeSharesResponse [] None |}.
#[global] Instance fsw_QueryDeployerFeeSharesResponse_ok : WireOk QueryDeployerFeeSharesResponse := fun m => opt_ok (QueryDeployerFeeSharesResponse_Pagination m).
#[global] Instance fsw_QueryDeployerFeeSharesResponse_full : WireFull QueryDeployerFeeSharesResponse := fun m => opt_full (QueryDeployerFeeSharesResponse_Pagination m).
#[global] Instance fsw_QueryDeployerFeeSharesResponse_laws : WireLaws QueryDeployerFeeSharesResponse.
Proof. wire_laws QueryDeployerFeeSharesResponse_switch. Qed.

(** [QueryWithdrawerFeeSharesRequest]. *)
Record QueryWithdrawerFeeSharesRequest := MkQueryWithdrawerFeeSharesRequest { QueryWithdrawerFeeSharesRequest_WithdrawerAddress : bytes; QueryWithdrawerFeeSharesRequest_Pagination : option PageRequest }.
Definition QueryWithdrawerFeeSharesRequest_MarshalToSizedBuffer (m : QueryWithdrawerFeeSharesRequest) : bytes -> result wire_err (bytes * Z) := sized (
  (match (QueryWithdrawerFeeSharesRequest_Pagination m) with Some x => wsub Byte.x12 x | None => wskip end) ;>
  wif (0 <? blen (QueryWithdrawerFeeSharesRequest_WithdrawerAddress m)) (wlen Byte.x0a (QueryWithdrawerFeeSharesRequest_WithdrawerAddress m))).
Definition QueryWithdrawerFeeSharesRequest_Size (m : QueryWithdrawerFeeSharesRequest) : Z :=
  (if 0 <? blen (QueryWithdrawerFeeSharesRequest_WithdrawerAddress m) then size_len (blen (QueryWithdrawerFeeSharesRequest_WithdrawerAddress m)) else 0) +
  (match (QueryWithdrawerFeeSharesRequest_Pagination m) with Some x => size_len (Size x) | None => 0 end).
Definition QueryWithdrawerFeeSharesRequest_switch (fieldNum : Z) : option (action QueryWithdrawerFeeSharesRequest) :=
  match fieldNum with
  | 1 => Some (case_string (fun v m => (MkQueryWithdrawerFeeSharesRequest v (QueryWithdrawerFeeSharesRequest_Pagination m))))
  | 2 => Some (case_ptr QueryWithdrawerFeeSharesRequest_Pagination (fun v m => (MkQueryWithdrawerFeeSharesRequest (QueryWithdrawerFeeSharesRequest_WithdrawerAddress m) v)))
  | _ => None
  end.
Definition QueryWithdrawerFeeSharesRequest_Unmarshal : bytes -> QueryWithdrawerFeeSharesRequest -> result wire_err QueryWithdrawerFeeSharesRequest := unmarshal QueryWithdrawerFeeSharesRequest_switch.
#[global] Instance fsw_QueryWithdrawerFeeSharesRequest_msg : WireMsg QueryWithdrawerFeeSharesRequest := {|
  Size := QueryWithdrawerFeeSharesRequest_Size; MarshalToSizedBuffer := QueryWithdrawerFeeSharesRequest_MarshalToSizedBuffer;
  wUnmarshal := QueryWithdrawerFeeSharesRequest_Unmarshal; wZero := MkQueryWithdrawerFeeSharesRequest [] None |}.
#[global] Instance fsw_QueryWithdrawerFeeSharesRequest_ok : WireOk QueryWithdrawerFeeSharesRequest := fun m => opt_ok (QueryWithdrawerFeeSharesRequest_Pagination m).
#[global] Instance fsw_QueryWithdrawerFeeSharesRequest_full : WireFull QueryWithdrawerFeeSharesRequest := fun m => opt_full (QueryWithdrawerFeeSharesRequest_Pagination m).
#[global] Instance fsw_QueryWithdrawerFeeSharesRequest_laws : WireLaws QueryWithdrawerFeeSharesRequest.
Proof. wire_laws QueryWithdrawerFeeSharesRequest_switch. Qed.

(** [QueryWithdrawerFeeSharesResponse]. *)
Record QueryWithdrawerFeeSharesResponse := MkQueryWithdrawerFeeSharesResponse { QueryWithdrawerFeeSharesResponse_ContractAddresses : list bytes; QueryWithdrawerFeeSharesResponse_Pagination : option PageResponse }.
Definition QueryWithdrawerFeeSharesResponse_MarshalToSizedBuffer (m : QueryWithdrawerFeeSharesResponse) : bytes -> result wire_err (bytes * Z) := sized (
  (match (QueryWithdrawerFeeSharesResponse_Pagination m) with Some x => wsub Byte.x12 x | None => wskip end) ;>
  wif (0 <? Z.of_nat (length (QueryWithdrawerFeeSharesResponse_ContractAddresses m))) (wdown (QueryWithdrawerFeeSharesResponse_ContractAddresses m) (wlen Byte.x0a))).
Definition QueryWithdrawerFeeSharesResponse_Size (m : QueryWithdrawerFeeSharesResponse) : Z :=
  (if 0 <? Z.of_nat (length (QueryWithdrawerFeeSharesResponse_ContractAddresses m)) then size_each (fun s => size_len (blen s)) (QueryWithdrawerFeeSharesResponse_ContractAddresses m) else 0) +
  (match (QueryWithdrawerFeeSharesResponse_Pagination m) with Some x => size_len (Size x) | None => 0 end).
Definition QueryWithdrawerFeeSharesResponse_switch (fieldNum : Z) : option (action QueryWithdrawerFeeSharesResponse) :=
  match fieldNum with
  | 1 => Some (case_strings QueryWithdrawerFeeSharesResponse_ContractAddresses (fun v m => (MkQueryWithdrawerFeeSharesResponse v (QueryWithdrawerFeeSharesResponse_Pagination m))))
  | 2 => Some (case_ptr QueryWithdrawerFeeSharesResponse_Pagination (fun v m => (MkQueryWithdrawerFeeSharesResponse (QueryWithdrawerFeeSharesResponse_ContractAddresses m) v)))
  | _ => None
  end.
Definition QueryWithdrawerFeeSharesResponse_Unmarshal : bytes -> QueryWithdrawerFeeSharesResponse -> result wire_err QueryWithdrawerFeeSharesResponse := unmarshal QueryWithdrawerFeeSharesResponse_switch.
#[global] Instance fsw_QueryWithdrawerFeeSharesResponse_msg : WireMsg QueryWithdrawerFeeSharesResponse := {|
  Size := QueryWithdrawerFeeSharesResponse_Size; MarshalToSizedBuffer := QueryWithdrawerFeeSharesResponse_MarshalToSizedBuffer;
  wUnmarshal := QueryWithdrawerFeeSharesResponse_Unmarshal; wZero := MkQueryWithdrawerFeeSharesResponse [] None |}.
#[global] Instance fsw_QueryWithdrawerFeeSharesResponse_ok : WireOk QueryWithdrawerFeeSharesResponse := fun m => opt_ok (QueryWithdrawerFeeSharesResponse_Pagination m).
#[global] Instance fsw_QueryWithdrawerFeeSharesResponse_full : WireFull QueryWithdrawerFeeSharesResponse := fun m => opt_full (QueryWithdrawerFeeSharesResponse_Pagination m).
#[global] Instance fsw_QueryWithdrawerFeeSharesResponse_laws : WireLaws QueryWithdrawerFeeSharesResponse.
Proof. wire_laws QueryWithdrawerFeeSharesResponse_switch. Qed.

End Codec.
