(* ===== verification/WireHm.v ===== *)
(** * hashmerchant: the protobuf codec

    [x/hashmerchant/types/*.pb.go]: [MarshalToSizedBuffer], [Size] and
    [Unmarshal] of every message with fields, over the records of [HmTypes].
    The parameters are written with the nil of [LegacyDec] and [Int], whose
    codecs, with those of [Coin] and of the pagination, belong to other
    modules. *)

From S2P Require Import Prelude Proto Sdk HmTypes Wire WireLaws Pulsar WireToy.

Open Scope go_scope.
#[local] Existing Instance generated.

(** ** What the Go types hold *)

#[global] Instance wire_source : WireOk OracleSource := fun s => is_i32 (src_Kind s).
#[global] Instance wire_attestation_i : WireOk OracleAttestation := fun a =>
  is_u64 (oa_Height a) /\ is_i64 (oa_Timestamp a).
Lemma attestations_ptr l : wire_attestations l -> Forall (ptr wire_ok) l.
Proof. done. Qed.
Lemma attestations_snoc l a : wire_attestations l -> wire_ok a -> wire_attestations (l ++ [Some a]).
Proof. intros Hl Ha. by apply Forall_snoc. Qed.
Lemma sources_ptr l : Forall (ptr (fun s => is_i32 (src_Kind s))) l -> Forall (ptr wire_ok) l.
Proof. done. Qed.
Lemma sources_snoc l s : Forall (ptr (fun s => is_i32 (src_Kind s))) l -> wire_ok s ->
  Forall (ptr (fun s => is_i32 (src_Kind s))) (l ++ [Some s]).
Proof. intros Hl Hs. by apply Forall_snoc. Qed.
#[local] Hint Resolve attestations_ptr attestations_snoc sources_ptr sources_snoc : wire.
#[local] Hint Extern 1 (wire_attestations []) => constructor : wire.

Ltac each := repeat match goal with |- _ /\ _ => split | |- forall _, _ => intro end.
Ltac side := solve [assumption | exact I | apply full_default].

Section Codec.
Context {PageRequest PageResponse LegacyDec Int : Type} `{WireLaws PageRequest} `{WireLaws PageResponse}
  `{CustomLaws LegacyDec} `{CustomLaws Int} `{WireMsg Coin} `{WireFull Coin} `{!WireLaws Coin}.

(** [CustodyAuthenticator]. *)
Definition CustodyAuthenticator_MarshalToSizedBuffer (m : CustodyAuthenticator) : bytes -> result wire_err (bytes * Z) := sized (
  wif (0 <? blen (ca_Scope m)) (wlen Byte.x1a (ca_Scope m)) ;>
  wif (0 <? blen (ca_Algorithm m)) (wlen Byte.x12 (ca_Algorithm m)) ;>
  wif (0 <? blen (ca_Pubkey m)) (wlen Byte.x0a (ca_Pubkey m))).
Definition CustodyAuthenticator_Size (m : CustodyAuthenticator) : Z :=
  (if 0 <? blen (ca_Pubkey m) then size_len (blen (ca_Pubkey m)) else 0) +
  (if 0 <? blen (ca_Algorithm m) then size_len (blen (ca_Algorithm m)) else 0) +
  (if 0 <? blen (ca_Scope m) then size_len (blen (ca_Scope m)) else 0).
Definition CustodyAuthenticator_switch (fieldNum : Z) : option (action CustodyAuthenticator) :=
  match fieldNum with
  | 1 => Some (case_bytes (fun v m => (MkCustodyAuthenticator v (ca_Algorithm m) (ca_Scope m))))
  | 2 => Some (case_string (fun v m => (MkCustodyAuthenticator (ca_Pubkey m) v (ca_Scope m))))
  | 3 => Some (case_string (fun v m => (MkCustodyAuthenticator (ca_Pubkey m) (ca_Algorithm m) v)))
  | _ => None
  end.
Definition CustodyAuthenticator_Unmarshal : bytes -> CustodyAuthenticator -> result wire_err CustodyAuthenticator := unmarshal CustodyAuthenticator_switch.
#[global] Instance hmw_CustodyAuthenticator_msg : WireMsg CustodyAuthenticator := {|
  Size := CustodyAuthenticator_Size; MarshalToSizedBuffer := CustodyAuthenticator_MarshalToSizedBuffer;
  wUnmarshal := CustodyAuthenticator_Unmarshal; wZero := MkCustodyAuthenticator [] [] [] |}.
#[global] Instance hmw_CustodyAuthenticator_ok : WireOk CustodyAuthenticator := fun m => True.
#[global] Instance hmw_CustodyAuthenticator_laws : WireLaws CustodyAuthenticator.
Proof. wire_laws CustodyAuthenticator_switch. Qed.

(** [OracleSource]. *)
Definition OracleSource_MarshalToSizedBuffer (m : OracleSource) : bytes -> result wire_err (bytes * Z) := sized (
  wif (src_Enabled m) (wbool (src_Enabled m) ;> wbyte Byte.x30) ;>
  (match (src_Authenticator m) with Some x => wsub Byte.x2a x | None => wskip end) ;>
  wif (0 <? Z.of_nat (length (src_MerklePrefix m))) (wdown (src_MerklePrefix m) (wlen Byte.x22)) ;>
  wif (0 <? blen (src_Endpoint m)) (wlen Byte.x1a (src_Endpoint m)) ;>
  wif (negb ((src_Kind m) =? 0)) (wvarint (u64 (src_Kind m)) ;> wbyte Byte.x10) ;>
  wif (0 <? blen (src_SourceId m)) (wlen Byte.x0a (src_SourceId m))).
Definition OracleSource_Size (m : OracleSource) : Z :=
  (if 0 <? blen (src_SourceId m) then size_len (blen (src_SourceId m)) else 0) +
  (if negb ((src_Kind m) =? 0) then 1 + Sov (u64 (src_Kind m)) else 0) +
  (if 0 <? blen (src_Endpoint m) then size_len (blen (src_Endpoint m)) else 0) +
  (if 0 <? Z.of_nat (length (src_MerklePrefix m)) then size_each (fun s => size_len (blen s)) (src_MerklePrefix m) else 0) +
  (match (src_Authenticator m) with Some x => size_len (Size x) | None => 0 end) +
  (if (src_Enabled m) then 2 else 0).
Definition OracleSource_switch (fieldNum : Z) : option (action OracleSource) :=
  match fieldNum with
  | 1 => Some (case_string (fun v m => (MkOracleSource v (src_Kind m) (src_Endpoint m) (src_MerklePrefix m) (src_Authenticator m) (src_Enabled m))))
  | 2 => Some (case_varint i32 (fun v m => (MkOracleSource (src_SourceId m) v (src_Endpoint m) (src_MerklePrefix m) (src_Authenticator m) (src_Enabled m))))
  | 3 => Some (case_string (fun v m => (MkOracleSource (src_SourceId m) (src_Kind m) v (src_MerklePrefix m) (src_Authenticator m) (src_Enabled m))))
  | 4 => Some (case_byteses src_MerklePrefix (fun v m => (MkOracleSource (src_SourceId m) (src_Kind m) (src_Endpoint m) v (src_Authenticator m) (src_Enabled m))))
  | 5 => Some (case_ptr src_Authenticator (fun v m => (MkOracleSource (src_SourceId m) (src_Kind m) (src_Endpoint m) (src_MerklePrefix m) v (src_Enabled m))))
  | 6 => Some (case_bool (fun v m => (MkOracleSource (src_SourceId m) (src_Kind m) (src_Endpoint m) (src_MerklePrefix m) (src_Authenticator m) v)))
  | _ => None
  end.
Definition OracleSource_Unmarshal : bytes -> OracleSource -> result wire_err OracleSource := unmarshal OracleSource_switch.
#[global] Instance hmw_OracleSource_msg : WireMsg OracleSource := {|
  Size := OracleSource_Size; MarshalToSizedBuffer := OracleSource_MarshalToSizedBuffer;
  wUnmarshal := OracleSource_Unmarshal; wZero := MkOracleSource [] 0 [] [] None false |}.
#[global] Instance hmw_OracleSource_laws : WireLaws OracleSource.
Proof. wire_laws OracleSource_switch. Qed.

(** [RegisteredChain]. *)
Definition RegisteredChain_MarshalToSizedBuffer (m : RegisteredChain) : bytes -> result wire_err (bytes * Z) := sized (
  wif (0 <? Z.of_nat (length (ch_OracleSources m))) (wdown (ch_OracleSources m) (wsub_ptr Byte.x32)) ;>
  wif (ch_Enabled m) (wbool (ch_Enabled m) ;> wbyte Byte.x28) ;>
  wif (0 <? Z.of_nat (length (ch_HashAlgos m))) (wdown (ch_HashAlgos m) (wlen Byte.x22)) ;>
  wif (0 <? Z.of_nat (length (ch_RpcEndpoints m))) (wdown (ch_RpcEndpoints m) (wlen Byte.x1a)) ;>
  wif (0 <? blen (ch_Name m)) (wlen Byte.x12 (ch_Name m)) ;>
  wif (0 <? blen (ch_ChainUid m)) (wlen Byte.x0a (ch_ChainUid m))).
Definition RegisteredChain_Size (m : RegisteredChain) : Z :=
  (if 0 <? blen (ch_ChainUid m) then size_len (blen (ch_ChainUid m)) else 0) +
  (if 0 <? blen (ch_Name m) then size_len (blen (ch_Name m)) else 0) +
  (if 0 <? Z.of_nat (length (ch_RpcEndpoints m)) then size_each (fun s => size_len (blen s)) (ch_RpcEndpoints m) else 0) +
  (if 0 <? Z.of_nat (length (ch_HashAlgos m)) then size_each (fun s => size_len (blen s)) (ch_HashAlgos m) else 0) +
  (if (ch_Enabled m) then 2 else 0) +
  (if 0 <? Z.of_nat (length (ch_OracleSources m)) then size_each (fun e => size_len (size_ptr e)) (ch_OracleSources m) else 0).
Definition RegisteredChain_switch (fieldNum : Z) : option (action RegisteredChain) :=
  match fieldNum with
  | 1 => Some (case_string (fun v m => (MkRegisteredChain v (ch_Name m) (ch_RpcEndpoints m) (ch_HashAlgos m) (ch_Enabled m) (ch_OracleSources m))))
  | 2 => Some (case_string (fun v m => (MkRegisteredChain (ch_ChainUid m) v (ch_RpcEndpoints m) (ch_HashAlgos m) (ch_Enabled m) (ch_OracleSources m))))
  | 3 => Some (case_strings ch_RpcEndpoints (fun v m => (MkRegisteredChain (ch_ChainUid m) (ch_Name m) v (ch_HashAlgos m) (ch_Enabled m) (ch_OracleSources m))))
  | 4 => Some (case_strings ch_HashAlgos (fun v m => (MkRegisteredChain (ch_ChainUid m) (ch_Name m) (ch_RpcEndpoints m) v (ch_Enabled m) (ch_OracleSources m))))
  | 5 => Some (case_bool (fun v m => (MkRegisteredChain (ch_ChainUid m) (ch_Name m) (ch_RpcEndpoints m) (ch_HashAlgos m) v (ch_OracleSources m))))
  | 6 => Some (case_rep_ptr ch_OracleSources (fun v m => (MkRegisteredChain (ch_ChainUid m) (ch_Name m) (ch_RpcEndpoints m) (ch_HashAlgos m) (ch_Enabled m) v)))
  | _ => None
  end.
Definition RegisteredChain_Unmarshal : bytes -> RegisteredChain -> result wire_err RegisteredChain := unmarshal RegisteredChain_switch.
#[global] Instance hmw_RegisteredChain_msg : WireMsg RegisteredChain := {|
  Size := RegisteredChain_Size; MarshalToSizedBuffer := RegisteredChain_MarshalToSizedBuffer;
  wUnmarshal := RegisteredChain_Unmarshal; wZero := MkRegisteredChain [] [] [] [] false [] |}.
#[global] Instance hmw_RegisteredChain_laws : WireLaws RegisteredChain.
Proof. wire_laws RegisteredChain_switch. Qed.

(** [OracleAttestation]. *)
Definition OracleAttestation_MarshalToSizedBuffer (m : OracleAttestation) : bytes -> result wire_err (bytes * Z) := sized (
  wif (0 <? blen (oa_Ics23Proof m)) (wlen Byte.x32 (oa_Ics23Proof m)) ;>
  wif (0 <? blen (oa_CustodySignature m)) (wlen Byte.x2a (oa_CustodySignature m)) ;>
  wif (negb ((oa_Timestamp m) =? 0)) (wvarint (u64 (oa_Timestamp m)) ;> wbyte Byte.x20) ;>
  wif (negb ((oa_Height m) =? 0)) (wvarint (u64 (oa_Height m)) ;> wbyte Byte.x18) ;>
  wif (0 <? blen (oa_Value m)) (wlen Byte.x12 (oa_Value m)) ;>
  wif (0 <? blen (oa_SourceId m)) (wlen Byte.x0a (oa_SourceId m))).
Definition OracleAttestation_Size (m : OracleAttestation) : Z :=
  (if 0 <? blen (oa_SourceId m) then size_len (blen (oa_SourceId m)) else 0) +
  (if 0 <? blen (oa_Value m) then size_len (blen (oa_Value m)) else 0) +
  (if negb ((oa_Height m) =? 0) then 1 + Sov (u64 (oa_Height m)) else 0) +
  (if negb ((oa_Timestamp m) =? 0) then 1 + Sov (u64 (oa_Timestamp m)) else 0) +
  (if 0 <? blen (oa_CustodySignature m) then size_len (blen (oa_CustodySignature m)) else 0) +
  (if 0 <? blen (oa_Ics23Proof m) then size_len (blen (oa_Ics23Proof m)) else 0).
Definition OracleAttestation_switch (fieldNum : Z) : option (action OracleAttestation) :=
  match fieldNum with
  | 1 => Some (case_string (fun v m => (MkOracleAttestation v (oa_Value m) (oa_Height m) (oa_Timestamp m) (oa_CustodySignature m) (oa_Ics23Proof m))))
  | 2 => Some (case_bytes (fun v m => (MkOracleAttestation (oa_SourceId m) v (oa_Height m) (oa_Timestamp m) (oa_CustodySignature m) (oa_Ics23Proof m))))
  | 3 => Some (case_varint u64 (fun v m => (MkOracleAttestation (oa_SourceId m) (oa_Value m) v (oa_Timestamp m) (oa_CustodySignature m) (oa_Ics23Proof m))))
  | 4 => Some (case_varint i64 (fun v m => (MkOracleAttestation (oa_SourceId m) (oa_Value m) (oa_Height m) v (oa_CustodySignature m) (oa_Ics23Proof m))))
  | 5 => Some (case_bytes (fun v m => (MkOracleAttestation (oa_SourceId m) (oa_Value m) (oa_Height m) (oa_Timestamp m) v (oa_Ics23Proof m))))
  | 6 => Some (case_bytes (fun v m => (MkOracleAttestation (oa_SourceId m) (oa_Value m) (oa_Height m) (oa_Timestamp m) (oa_CustodySignature m) v)))
  | _ => None
  end.
Definition OracleAttestation_Unmarshal : bytes -> OracleAttestation -> result wire_err OracleAttestation := unmarshal OracleAttestation_switch.
#[global] Instance hmw_OracleAttestation_msg : WireMsg OracleAttestation := {|
  Size := OracleAttestation_Size; MarshalToSizedBuffer := OracleAttestation_MarshalToSizedBuffer;
  wUnmarshal := OracleAttestation_Unmarshal; wZero := MkOracleAttestation [] [] 0 0 [] [] |}.
#[global] Instance hmw_OracleAttestation_laws : WireLaws OracleAttestation.
Proof. wire_laws OracleAttestation_switch. Qed.

(** [RegisteredContract]. *)
Definition RegisteredContract_MarshalToSizedBuffer (m : RegisteredContract) : bytes -> result wire_err (bytes * Z) := sized (
  wif (rc_Enabled m) (wbool (rc_Enabled m) ;> wbyte Byte.x20) ;>
  wif (0 <? Z.of_nat (length (rc_SubstoreKeys m))) (wdown (rc_SubstoreKeys m) (wlen Byte.x1a)) ;>
  wif (0 <? blen (rc_ChainUid m)) (wlen Byte.x12 (rc_ChainUid m)) ;>
  wif (0 <? blen (rc_ContractAddr m)) (wlen Byte.x0a (rc_ContractAddr m))).
Definition RegisteredContract_Size (m : RegisteredContract) : Z :=
  (if 0 <? blen (rc_ContractAddr m) then size_len (blen (rc_ContractAddr m)) else 0) +
  (if 0 <? blen (rc_ChainUid m) then size_len (blen (rc_ChainUid m)) else 0) +
  (if 0 <? Z.of_nat (length (rc_SubstoreKeys m)) then size_each (fun s => size_len (blen s)) (rc_SubstoreKeys m) else 0) +
  (if (rc_Enabled m) then 2 else 0).
Definition RegisteredContract_switch (fieldNum : Z) : option (action RegisteredContract) :=
  match fieldNum with
  | 1 => Some (case_string (fun v m => (MkRegisteredContract v (rc_ChainUid m) (rc_SubstoreKeys m) (rc_Enabled m))))
  | 2 => Some (case_string (fun v m => (MkRegisteredContract (rc_ContractAddr m) v (rc_SubstoreKeys m) (rc_Enabled m))))
  | 3 => Some (case_strings rc_SubstoreKeys (fun v m => (MkRegisteredContract (rc_ContractAddr m) (rc_ChainUid m) v (rc_Enabled m))))
  | 4 => Some (case_bool (fun v m => (MkRegisteredContract (rc_ContractAddr m) (rc_ChainUid m) (rc_SubstoreKeys m) v)))
  | _ => None
  end.
Definition RegisteredContract_Unmarshal : bytes -> RegisteredContract -> result wire_err RegisteredContract := unmarshal RegisteredContract_switch.
#[global] Instance hmw_RegisteredContract_msg : WireMsg RegisteredContract := {|
  Size := RegisteredContract_Size; MarshalToSizedBuffer := RegisteredContract_MarshalToSizedBuffer;
  wUnmarshal := RegisteredContract_Unmarshal; wZero := MkRegisteredContract [] [] [] false |}.
#[global] Instance hmw_RegisteredContract_laws : WireLaws RegisteredContract.
Proof. wire_laws RegisteredContract_switch. Qed.

(** [EscrowRecord]. *)
Definition EscrowRecord_MarshalToSizedBuffer (m : EscrowRecord) : bytes -> result wire_err (bytes * Z) := sized (
  wif (negb ((er_LastPruneHeight m) =? 0)) (wvarint (u64 (er_LastPruneHeight m)) ;> wbyte Byte.x20) ;>
  wif (negb ((er_PaidUntilHeight m) =? 0)) (wvarint (u64 (er_PaidUntilHeight m)) ;> wbyte Byte.x18) ;>
  wsub Byte.x12 (er_Amount m) ;>
  wif (0 <? blen (er_ContractAddr m)) (wlen Byte.x0a (er_ContractAddr m))).
Definition EscrowRecord_Size (m : EscrowRecord) : Z :=
  (if 0 <? blen (er_ContractAddr m) then size_len (blen (er_ContractAddr m)) else 0) +
  size_len (Size (er_Amount m)) +
  (if negb ((er_PaidUntilHeight m) =? 0) then 1 + Sov (u64 (er_PaidUntilHeight m)) else 0) +
  (if negb ((er_LastPruneHeight m) =? 0) then 1 + Sov (u64 (er_LastPruneHeight m)) else 0).
Definition EscrowRecord_switch (fieldNum : Z) : option (action EscrowRecord) :=
  match fieldNum with
  | 1 => Some (case_string (fun v m => (MkEscrowRecord v (er_Amount m) (er_PaidUntilHeight m) (er_LastPruneHeight m))))
  | 2 => Some (case_sub er_Amount (fun v m => (MkEscrowRecord (er_ContractAddr m) v (er_PaidUntilHeight m) (er_LastPruneHeight m))))
  | 3 => Some (case_varint u64 (fun v m => (MkEscrowRecord (er_ContractAddr m) (er_Amount m) v (er_LastPruneHeight m))))
  | 4 => Some (case_varint u64 (fun v m => (MkEscrowRecord (er_ContractAddr m) (er_Amount m) (er_PaidUntilHeight m) v)))
  | _ => None
  end.
Definition EscrowRecord_Unmarshal : bytes -> EscrowRecord -> result wire_err EscrowRecord := unmarshal EscrowRecord_switch.
#[global] Instance hmw_EscrowRecord_msg : WireMsg EscrowRecord := {|
  Size := EscrowRecord_Size; MarshalToSizedBuffer := EscrowRecord_MarshalToSizedBuffer;
  wUnmarshal := EscrowRecord_Unmarshal; wZero := MkEscrowRecord [] wZero 0 0 |}.
#[global] Instance hmw_EscrowRecord_full : WireFull EscrowRecord := fun m => wire_full (er_Amount m).
#[global] Instance hmw_EscrowRecord_laws : WireLaws EscrowRecord.
Proof. wire_laws EscrowRecord_switch. Qed.

(** [HashRoot]. *)
Definition HashRoot_MarshalToSizedBuffer (m : HashRoot) : bytes -> result wire_err (bytes * Z) := sized (
  wif (0 <? Z.of_nat (length (hr_Attestations m))) (wdown (hr_Attestations m) (wsub_ptr Byte.x3a)) ;>
  wif (negb ((hr_BlockTime m) =? 0)) (wvarint (u64 (hr_BlockTime m)) ;> wbyte Byte.x30) ;>
  wif (negb ((hr_AttestationCount m) =? 0)) (wvarint (u64 (hr_AttestationCount m)) ;> wbyte Byte.x28) ;>
  wif (0 <? blen (hr_Root m)) (wlen Byte.x22 (hr_Root m)) ;>
  wif (negb ((hr_Height m) =? 0)) (wvarint (u64 (hr_Height m)) ;> wbyte Byte.x18) ;>
  wif (0 <? blen (hr_Algo m)) (wlen Byte.x12 (hr_Algo m)) ;>
  wif (0 <? blen (hr_ChainUid m)) (wlen Byte.x0a (hr_ChainUid m))).
Definition HashRoot_Size (m : HashRoot) : Z :=
  (if 0 <? blen (hr_ChainUid m) then size_len (blen (hr_ChainUid m)) else 0) +
  (if 0 <? blen (hr_Algo m) then size_len (blen (hr_Algo m)) else 0) +
  (if negb ((hr_Height m) =? 0) then 1 + Sov (u64 (hr_Height m)) else 0) +
  (if 0 <? blen (hr_Root m) then size_len (blen (hr_Root m)) else 0) +
  (if negb ((hr_AttestationCount m) =? 0) then 1 + Sov (u64 (hr_AttestationCount m)) else 0) +
  (if negb ((hr_BlockTime m) =? 0) then 1 + Sov (u64 (hr_BlockTime m)) else 0) +
  (if 0 <? Z.of_nat (length (hr_Attestations m)) then size_each (fun e => size_len (size_ptr e)) (hr_Attestations m) else 0).
Definition HashRoot_switch (fieldNum : Z) : option (action HashRoot) :=
  match fieldNum with
  | 1 => Some (case_string (fun v m => (MkHashRoot v (hr_Algo m) (hr_Height m) (hr_Root m) (hr_AttestationCount m) (hr_BlockTime m) (hr_Attestations m))))
  | 2 => Some (case_string (fun v m => (MkHashRoot (hr_ChainUid m) v (hr_Height m) (hr_Root m) (hr_AttestationCount m) (hr_BlockTime m) (hr_Attestations m))))
  | 3 => Some (case_varint u64 (fun v m => (MkHashRoot (hr_ChainUid m) (hr_Algo m) v (hr_Root m) (hr_AttestationCount m) (hr_BlockTime m) (hr_Attestations m))))
  | 4 => Some (case_bytes (fun v m => (MkHashRoot (hr_ChainUid m) (hr_Algo m) (hr_Height m) v (hr_AttestationCount m) (hr_BlockTime m) (hr_Attestations m))))
  | 5 => Some (case_varint u32 (fun v m => (MkHashRoot (hr_ChainUid m) (hr_Algo m) (hr_Height m) (hr_Root m) v (hr_BlockTime m) (hr_Attestations m))))
  | 6 => Some (case_varint i64 (fun v m => (MkHashRoot (hr_ChainUid m) (hr_Algo m) (hr_Height m) (hr_Root m) (hr_AttestationCount m) v (hr_Attestations m))))
  | 7 => Some (case_rep_ptr hr_Attestations (fun v m => (MkHashRoot (hr_ChainUid m) (hr_Algo m) (hr_Height m) (hr_Root m) (hr_AttestationCount m) (hr_BlockTime m) v)))
  | _ => None
  end.
Definition HashRoot_Unmarshal : bytes -> HashRoot -> result wire_err HashRoot := unmarshal HashRoot_switch.
#[global] Instance hmw_HashRoot_msg : WireMsg HashRoot := {|
  Size := HashRoot_Size; MarshalToSizedBuffer := HashRoot_MarshalToSizedBuffer;
  wUnmarshal := HashRoot_Unmarshal; wZero := MkHashRoot [] [] 0 [] 0 0 [] |}.
#[global] Instance hmw_HashRoot_laws : WireLaws HashRoot.
Proof. wire_laws HashRoot_switch. Qed.

(** [HashPairTicket]. *)
Record HashPairTicket := MkHashPairTicket { HashPairTicket_ProjectId : bytes; HashPairTicket_OriginHash : bytes; HashPairTicket_DestinationHash : bytes; HashPairTicket_ZkCircuitId : bytes; HashPairTicket_DestinationChainId : Z; HashPairTicket_ExpiryBlock : Z; HashPairTicket_Metadata : bytes }.
Definition HashPairTicket_MarshalToSizedBuffer (m : HashPairTicket) : bytes -> result wire_err (bytes * Z) := sized (
  wif (0 <? blen (HashPairTicket_Metadata m)) (wlen Byte.x3a (HashPairTicket_Metadata m)) ;>
  wif (negb ((HashPairTicket_ExpiryBlock m) =? 0)) (wvarint (u64 (HashPairTicket_ExpiryBlock m)) ;> wbyte Byte.x30) ;>
  wif (negb ((HashPairTicket_DestinationChainId m) =? 0)) (wvarint (u64 (HashPairTicket_DestinationChainId m)) ;> wbyte Byte.x28) ;>
  wif (0 <? blen (HashPairTicket_ZkCircuitId m)) (wlen Byte.x22 (HashPairTicket_ZkCircuitId m)) ;>
  wif (0 <? blen (HashPairTicket_DestinationHash m)) (wlen Byte.x1a (HashPairTicket_DestinationHash m)) ;>
  wif (0 <? blen (HashPairTicket_OriginHash m)) (wlen Byte.x12 (HashPairTicket_OriginHash m)) ;>
  wif (0 <? blen (HashPairTicket_ProjectId m)) (wlen Byte.x0a (HashPairTicket_ProjectId m))).
Definition HashPairTicket_Size (m : HashPairTicket) : Z :=
  (if 0 <? blen (HashPairTicket_ProjectId m) then size_len (blen (HashPairTicket_ProjectId m)) else 0) +
  (if 0 <? blen (HashPairTicket_OriginHash m) then size_len (blen (HashPairTicket_OriginHash m)) else 0) +
  (if 0 <? blen (HashPairTicket_DestinationHash m) then size_len (blen (HashPairTicket_DestinationHash m)) else 0) +
  (if 0 <? blen (HashPairTicket_ZkCircuitId m) then size_len (blen (HashPairTicket_ZkCircuitId m)) else 0) +
  (if negb ((HashPairTicket_DestinationChainId m) =? 0) then 1 + Sov (u64 (HashPairTicket_DestinationChainId m)) else 0) +
  (if negb ((HashPairTicket_ExpiryBlock m) =? 0) then 1 + Sov (u64 (HashPairTicket_ExpiryBlock m)) else 0) +
  (if 0 <? blen (HashPairTicket_Metadata m) then size_len (blen (HashPairTicket_Metadata m)) else 0).
Definition HashPairTicket_switch (fieldNum : Z) : option (action HashPairTicket) :=
  match fieldNum with
  | 1 => Some (case_string (fun v m => (MkHashPairTicket v (HashPairTicket_OriginHash m) (HashPairTicket_DestinationHash m) (HashPairTicket_ZkCircuitId m) (HashPairTicket_DestinationChainId m) (HashPairTicket_ExpiryBlock m) (HashPairTicket_Metadata m))))
  | 2 => Some (case_bytes (fun v m => (MkHashPairTicket (HashPairTicket_ProjectId m) v (HashPairTicket_DestinationHash m) (HashPairTicket_ZkCircuitId m) (HashPairTicket_DestinationChainId m) (HashPairTicket_ExpiryBlock m) (HashPairTicket_Metadata m))))
  | 3 => Some (case_bytes (fun v m => (MkHashPairTicket (HashPairTicket_ProjectId m) (HashPairTicket_OriginHash m) v (HashPairTicket_ZkCircuitId m) (HashPairTicket_DestinationChainId m) (HashPairTicket_ExpiryBlock m) (HashPairTicket_Metadata m))))
  | 4 => Some (case_string (fun v m => (MkHashPairTicket (HashPairTicket_ProjectId m) (HashPairTicket_OriginHash m) (HashPairTicket_DestinationHash m) v (HashPairTicket_DestinationChainId m) (HashPairTicket_ExpiryBlock m) (HashPairTicket_Metadata m))))
  | 5 => Some (case_varint u64 (fun v m => (MkHashPairTicket (HashPairTicket_ProjectId m) (HashPairTicket_OriginHash m) (HashPairTicket_DestinationHash m) (HashPairTicket_ZkCircuitId m) v (HashPairTicket_ExpiryBlock m) (HashPairTicket_Metadata m))))
  | 6 => Some (case_varint u64 (fun v m => (MkHashPairTicket (HashPairTicket_ProjectId m) (HashPairTicket_OriginHash m) (HashPairTicket_DestinationHash m) (HashPairTicket_ZkCircuitId m) (HashPairTicket_DestinationChainId m) v (HashPairTicket_Metadata m))))
  | 7 => Some (case_bytes (fun v m => (MkHashPairTicket (HashPairTicket_ProjectId m) (HashPairTicket_OriginHash m) (HashPairTicket_DestinationHash m) (HashPairTicket_ZkCircuitId m) (HashPairTicket_DestinationChainId m) (HashPairTicket_ExpiryBlock m) v)))
  | _ => None
  end.
Definition HashPairTicket_Unmarshal : bytes -> HashPairTicket -> result wire_err HashPairTicket := unmarshal HashPairTicket_switch.
#[global] Instance hmw_HashPairTicket_msg : WireMsg HashPairTicket := {|
  Size := HashPairTicket_Size; MarshalToSizedBuffer := HashPairTicket_MarshalToSizedBuffer;
  wUnmarshal := HashPairTicket_Unmarshal; wZero := MkHashPairTicket [] [] [] [] 0 0 [] |}.
#[global] Instance hmw_HashPairTicket_ok : WireOk HashPairTicket := fun m => is_u64 (HashPairTicket_DestinationChainId m) /\ is_u64 (HashPairTicket_ExpiryBlock m).
#[global] Instance hmw_HashPairTicket_laws : WireLaws HashPairTicket.
Proof. wire_laws HashPairTicket_switch. Qed.

(** [VoteExtensionHashData]. *)
Definition VoteExtensionHashData_MarshalToSizedBuffer (m : VoteExtensionHashData) : bytes -> result wire_err (bytes * Z) := sized (
  wif (0 <? Z.of_nat (length (ve_Attestations m))) (wdown (ve_Attestations m) (wsub_ptr Byte.x42)) ;>
  wif (0 <? blen (ve_Ics23Proof m)) (wlen Byte.x3a (ve_Ics23Proof m)) ;>
  wif (negb ((ve_ForeignBlockTime m) =? 0)) (wvarint (u64 (ve_ForeignBlockTime m)) ;> wbyte Byte.x30) ;>
  wif (negb ((ve_ForeignHeight m) =? 0)) (wvarint (u64 (ve_ForeignHeight m)) ;> wbyte Byte.x28) ;>
  wif (0 <? blen (ve_Root m)) (wlen Byte.x22 (ve_Root m)) ;>
  wif (0 <? blen (ve_Algo m)) (wlen Byte.x1a (ve_Algo m)) ;>
  wif (0 <? blen (ve_ChainUid m)) (wlen Byte.x12 (ve_ChainUid m)) ;>
  wif (0 <? blen (ve_RuntimeId m)) (wlen Byte.x0a (ve_RuntimeId m))).
Definition VoteExtensionHashData_Size (m : VoteExtensionHashData) : Z :=
  (if 0 <? blen (ve_RuntimeId m) then size_len (blen (ve_RuntimeId m)) else 0) +
  (if 0 <? blen (ve_ChainUid m) then size_len (blen (ve_ChainUid m)) else 0) +
  (if 0 <? blen (ve_Algo m) then size_len (blen (ve_Algo m)) else 0) +
  (if 0 <? blen (ve_Root m) then size_len (blen (ve_Root m)) else 0) +
  (if negb ((ve_ForeignHeight m) =? 0) then 1 + Sov (u64 (ve_ForeignHeight m)) else 0) +
  (if negb ((ve_ForeignBlockTime m) =? 0) then 1 + Sov (u64 (ve_ForeignBlockTime m)) else 0) +
  (if 0 <? blen (ve_Ics23Proof m) then size_len (blen (ve_Ics23Proof m)) else 0) +
  (if 0 <? Z.of_nat (length (ve_Attestations m)) then size_each (fun e => size_len (size_ptr e)) (ve_Attestations m) else 0).
Definition VoteExtensionHashData_switch (fieldNum : Z) : option (action VoteExtensionHashData) :=
  match fieldNum with
  | 1 => Some (case_string (fun v m => (MkVoteExtensionHashData v (ve_ChainUid m) (ve_Algo m) (ve_Root m) (ve_ForeignHeight m) (ve_ForeignBlockTime m) (ve_Ics23Proof m) (ve_Attestations m))))
  | 2 => Some (case_string (fun v m => (MkVoteExtensionHashData (ve_RuntimeId m) v (ve_Algo m) (ve_Root m) (ve_ForeignHeight m) (ve_ForeignBlockTime m) (ve_Ics23Proof m) (ve_Attestations m))))
  | 3 => Some (case_string (fun v m => (MkVoteExtensionHashData (ve_RuntimeId m) (ve_ChainUid m) v (ve_Root m) (ve_ForeignHeight m) (ve_ForeignBlockTime m) (ve_Ics23Proof m) (ve_Attestations m))))
  | 4 => Some (case_bytes (fun v m => (MkVoteExtensionHashData (ve_RuntimeId m) (ve_ChainUid m) (ve_Algo m) v (ve_ForeignHeight m) (ve_ForeignBlockTime m) (ve_Ics23Proof m) (ve_Attestations m))))
  | 5 => Some (case_varint u64 (fun v m => (MkVoteExtensionHashData (ve_RuntimeId m) (ve_ChainUid m) (ve_Algo m) (ve_Root m) v (ve_ForeignBlockTime m) (ve_Ics23Proof m) (ve_Attestations m))))
  | 6 => Some (case_varint i64 (fun v m => (MkVoteExtensionHashData (ve_RuntimeId m) (ve_ChainUid m) (ve_Algo m) (ve_Root m) (ve_ForeignHeight m) v (ve_Ics23Proof m) (ve_Attestations m))))
  | 7 => Some (case_bytes (fun v m => (MkVoteExtensionHashData (ve_RuntimeId m) (ve_ChainUid m) (ve_Algo m) (ve_Root m) (ve_ForeignHeight m) (ve_ForeignBlockTime m) v (ve_Attestations m))))
  | 8 => Some (case_rep_ptr ve_Attestations (fun v m => (MkVoteExtensionHashData (ve_RuntimeId m) (ve_ChainUid m) (ve_Algo m) (ve_Root m) (ve_ForeignHeight m) (ve_ForeignBlockTime m) (ve_Ics23Proof m) v)))
  | _ => None
  end.
Definition VoteExtensionHashData_Unmarshal : bytes -> VoteExtensionHashData -> result wire_err VoteExtensionHashData := unmarshal VoteExtensionHashData_switch.
#[global] Instance hmw_VoteExtensionHashData_msg : WireMsg VoteExtensionHashData := {|
  Size := VoteExtensionHashData_Size; MarshalToSizedBuffer := VoteExtensionHashData_MarshalToSizedBuffer;
  wUnmarshal := VoteExtensionHashData_Unmarshal; wZero := MkVoteExtensionHashData [] [] [] [] 0 0 [] [] |}.
#[global] Instance hmw_VoteExtensionHashData_laws : WireLaws VoteExtensionHashData.
Proof. wire_laws VoteExtensionHashData_switch. Qed.

(** [Params]. *)
Record Params := MkParams { Params_QuorumFraction : LegacyDec; Params_PruneInterval : Z; Params_EscrowDenom : bytes; Params_MinEscrowAmount : Int; Params_MarketMode : Z }.
Definition Params_MarshalToSizedBuffer (m : Params) : bytes -> result wire_err (bytes * Z) := sized (
  wif (negb ((Params_MarketMode m) =? 0)) (wvarint (u64 (Params_MarketMode m)) ;> wbyte Byte.x28) ;>
  wcust Byte.x22 (Params_MinEscrowAmount m) ;>
  wif (0 <? blen (Params_EscrowDenom m)) (wlen Byte.x1a (Params_EscrowDenom m)) ;>
  wif (negb ((Params_PruneInterval m) =? 0)) (wvarint (u64 (Params_PruneInterval m)) ;> wbyte Byte.x10) ;>
  wcust Byte.x0a (Params_QuorumFraction m)).
Definition Params_Size (m : Params) : Z :=
  size_len (cSize (Params_QuorumFraction m)) +
  (if negb ((Params_PruneInterval m) =? 0) then 1 + Sov (u64 (Params_PruneInterval m)) else 0) +
  (if 0 <? blen (Params_EscrowDenom m) then size_len (blen (Params_EscrowDenom m)) else 0) +
  size_len (cSize (Params_MinEscrowAmount m)) +
  (if negb ((Params_MarketMode m) =? 0) then 1 + Sov (u64 (Params_MarketMode m)) else 0).
Definition Params_switch (fieldNum : Z) : option (action Params) :=
  match fieldNum with
  | 1 => Some (case_custom (fun v m => (MkParams v (Params_PruneInterval m) (Params_EscrowDenom m) (Params_MinEscrowAmount m) (Params_MarketMode m))))
  | 2 => Some (case_varint u64 (fun v m => (MkParams (Params_QuorumFraction m) v (Params_EscrowDenom m) (Params_MinEscrowAmount m) (Params_MarketMode m))))
  | 3 => Some (case_string (fun v m => (MkParams (Params_QuorumFraction m) (Params_PruneInterval m) v (Params_MinEscrowAmount m) (Params_MarketMode m))))
  | 4 => Some (case_custom (fun v m => (MkParams (Params_QuorumFraction m) (Params_PruneInterval m) (Params_EscrowDenom m) v (Params_MarketMode m))))
  | 5 => Some (case_varint i32 (fun v m => (MkParams (Params_QuorumFraction m) (Params_PruneInterval m) (Params_EscrowDenom m) (Params_MinEscrowAmount m) v)))
  | _ => None
  end.
Definition Params_Unmarshal : bytes -> Params -> result wire_err Params := unmarshal Params_switch.
#[global] Instance hmw_Params_msg : WireMsg Params := {|
  Size := Params_Size; MarshalToSizedBuffer := Params_MarshalToSizedBuffer;
  wUnmarshal := Params_Unmarshal; wZero := MkParams cZero 0 [] cZero 0 |}.
#[global] Instance hmw_Params_ok : WireOk Params := fun m => is_u64 (Params_PruneInterval m) /\ is_i32 (Params_MarketMode m).
#[global] Instance hmw_Params_full : WireFull Params := fun m => wire_full (Params_QuorumFraction m) /\ wire_full (Params_MinEscrowAmount m).
#[global] Instance hmw_Params_laws : WireLaws Params.
Proof. wire_laws Params_switch. Qed.

(** [GenesisState]. *)
Record GenesisState := MkGenesisState { GenesisState_Params : Params; GenesisState_RegisteredChains : list RegisteredChain; GenesisState_RegisteredContracts : list RegisteredContract; GenesisState_EscrowRecords : list EscrowRecord; GenesisState_HashRoots : list HashRoot; GenesisState_PruneEpoch : Z }.
Definition GenesisState_MarshalToSizedBuffer (m : GenesisState) : bytes -> result wire_err (bytes * Z) := sized (
  wif (negb ((GenesisState_PruneEpoch m) =? 0)) (wvarint (u64 (GenesisState_PruneEpoch m)) ;> wbyte Byte.x30) ;>
  wif (0 <? Z.of_nat (length (GenesisState_HashRoots m))) (wdown (GenesisState_HashRoots m) (wsub Byte.x2a)) ;>
  wif (0 <? Z.of_nat (length (GenesisState_EscrowRecords m))) (wdown (GenesisState_EscrowRecords m) (wsub Byte.x22)) ;>
  wif (0 <? Z.of_nat (length (GenesisState_RegisteredContracts m))) (wdown (GenesisState_RegisteredContracts m) (wsub Byte.x1a)) ;>
  wif (0 <? Z.of_nat (length (GenesisState_RegisteredChains m))) (wdown (GenesisState_RegisteredChains m) (wsub Byte.x12)) ;>
  wsub Byte.x0a (GenesisState_Params m)).
Definition GenesisState_Size (m : GenesisState) : Z :=
  size_len (Size (GenesisState_Params m)) +
  (if 0 <? Z.of_nat (length (GenesisState_RegisteredChains m)) then size_each (fun e => size_len (Size e)) (GenesisState_RegisteredChains m) else 0) +
  (if 0 <? Z.of_nat (length (GenesisState_RegisteredContracts m)) then size_each (fun e => size_len (Size e)) (GenesisState_RegisteredContracts m) else 0) +
  (if 0 <? Z.of_nat (length (GenesisState_EscrowRecords m)) then size_each (fun e => size_len (Size e)) (GenesisState_EscrowRecords m) else 0) +
  (if 0 <? Z.of_nat (length (GenesisState_HashRoots m)) then size_each (fun e => size_len (Size e)) (GenesisState_HashRoots m) else 0) +
  (if negb ((GenesisState_PruneEpoch m) =? 0) then 1 + Sov (u64 (GenesisState_PruneEpoch m)) else 0).
Definition GenesisState_switch (fieldNum : Z) : option (action GenesisState) :=
  match fieldNum with
  | 1 => Some (case_sub GenesisState_Params (fun v m => (MkGenesisState v (GenesisState_RegisteredChains m) (GenesisState_RegisteredContracts m) (GenesisState_EscrowRecords m) (GenesisState_HashRoots m) (GenesisState_PruneEpoch m))))
  | 2 => Some (case_rep GenesisState_RegisteredChains (fun v m => (MkGenesisState (GenesisState_Params m) v (GenesisState_RegisteredContracts m) (GenesisState_EscrowRecords m) (GenesisState_HashRoots m) (GenesisState_PruneEpoch m))))
  | 3 => Some (case_rep GenesisState_RegisteredContracts (fun v m => (MkGenesisState (GenesisState_Params m) (GenesisState_RegisteredChains m) v (GenesisState_EscrowRecords m) (GenesisState_HashRoots m) (GenesisState_PruneEpoch m))))
  | 4 => Some (case_rep GenesisState_EscrowRecords (fun v m => (MkGenesisState (GenesisState_Params m) (GenesisState_RegisteredChains m) (GenesisState_RegisteredContracts m) v (GenesisState_HashRoots m) (GenesisState_PruneEpoch m))))
  | 5 => Some (case_rep GenesisState_HashRoots (fun v m => (MkGenesisState (GenesisState_Params m) (GenesisState_RegisteredChains m) (GenesisState_RegisteredContracts m) (GenesisState_EscrowRecords m) v (GenesisState_PruneEpoch m))))
  | 6 => Some (case_varint u64 (fun v m => (MkGenesisState (GenesisState_Params m) (GenesisState_RegisteredChains m) (GenesisState_RegisteredContracts m) (GenesisState_EscrowRecords m) (GenesisState_HashRoots m) v)))
  | _ => None
  end.
Definition GenesisState_Unmarshal : bytes -> GenesisState -> result wire_err GenesisState := unmarshal GenesisState_switch.
#[global] Instance hmw_GenesisState_msg : WireMsg GenesisState := {|
  Size := GenesisState_Size; MarshalToSizedBuffer := GenesisState_MarshalToSizedBuffer;
  wUnmarshal := GenesisState_Unmarshal; wZero := MkGenesisState wZero [] [] [] [] 0 |}.
#[global] Instance hmw_GenesisState_ok : WireOk GenesisState := fun m => wire_ok (GenesisState_Params m) /\ Forall wire_ok (GenesisState_RegisteredChains m) /\ Forall wire_ok (GenesisState_RegisteredContracts m) /\ Forall wire_ok (GenesisState_EscrowRecords m) /\ Forall wire_ok (GenesisState_HashRoots m) /\ is_u64 (GenesisState_PruneEpoch m).
#[global] Instance hmw_GenesisState_full : WireFull GenesisState := fun m => wire_full (GenesisState_Params m) /\ Forall wire_full (GenesisState_EscrowRecords m).
#[global] Instance hmw_GenesisState_laws : WireLaws GenesisState.
Proof. wire_laws GenesisState_switch. Qed.

(** [MsgRegisterChain]. *)
Record MsgRegisterChain := MkMsgRegisterChain { MsgRegisterChain_Authority : bytes; MsgRegisterChain_Chain : RegisteredChain }.
Definition MsgRegisterChain_MarshalToSizedBuffer (m : MsgRegisterChain) : bytes -> result wire_err (bytes * Z) := sized (
  wsub Byte.x12 (MsgRegisterChain_Chain m) ;>
  wif (0 <? blen (MsgRegisterChain_Authority m)) (wlen Byte.x0a (MsgRegisterChain_Authority m))).
Definition MsgRegisterChain_Size (m : MsgRegisterChain) : Z :=
  (if 0 <? blen (MsgRegisterChain_Authority m) then size_len (blen (MsgRegisterChain_Authority m)) else 0) +
  size_len (Size (MsgRegisterChain_Chain m)).
Definition MsgRegisterChain_switch (fieldNum : Z) : option (action MsgRegisterChain) :=
  match fieldNum with
  | 1 => Some (case_string (fun v m => (MkMsgRegisterChain v (MsgRegisterChain_Chain m))))
  | 2 => Some (case_sub MsgRegisterChain_Chain (fun v m => (MkMsgRegisterChain (MsgRegisterChain_Authority m) v)))
  | _ => None
  end.
Definition MsgRegisterChain_Unmarshal : bytes -> MsgRegisterChain -> result wire_err MsgRegisterChain := unmarshal MsgRegisterChain_switch.
#[global] Instance hmw_MsgRegisterChain_msg : WireMsg MsgRegisterChain := {|
  Size := MsgRegisterChain_Size; MarshalToSizedBuffer := MsgRegisterChain_MarshalToSizedBuffer;
  wUnmarshal := MsgRegisterChain_Unmarshal; wZero := MkMsgRegisterChain [] wZero |}.
#[global] Instance hmw_MsgRegisterChain_ok : WireOk MsgRegisterChain := fun m => wire_ok (MsgRegisterChain_Chain m).
#[global] Instance hmw_MsgRegisterChain_laws : WireLaws MsgRegisterChain.
Proof. wire_laws MsgRegisterChain_switch. Qed.

(** [MsgRegisterContract]. *)
Record MsgRegisterContract := MkMsgRegisterContract { MsgRegisterContract_Sender : bytes; MsgRegisterContract_ContractAddr : bytes; MsgRegisterContract_ChainUid : bytes; MsgRegisterContract_SubstoreKeys : list bytes; MsgRegisterContract_Escrow : Coin }.
Definition MsgRegisterContract_MarshalToSizedBuffer (m : MsgRegisterContract) : bytes -> result wire_err (bytes * Z) := sized (
  wsub Byte.x2a (MsgRegisterContract_Escrow m) ;>
  wif (0 <? Z.of_nat (length (MsgRegisterContract_SubstoreKeys m))) (wdown (MsgRegisterContract_SubstoreKeys m) (wlen Byte.x22)) ;>
  wif (0 <? blen (MsgRegisterContract_ChainUid m)) (wlen Byte.x1a (MsgRegisterContract_ChainUid m)) ;>
  wif (0 <? blen (MsgRegisterContract_ContractAddr m)) (wlen Byte.x12 (MsgRegisterContract_ContractAddr m)) ;>
  wif (0 <? blen (MsgRegisterContract_Sender m)) (wlen Byte.x0a (MsgRegisterContract_Sender m))).
Definition MsgRegisterContract_Size (m : MsgRegisterContract) : Z :=
  (if 0 <? blen (MsgRegisterContract_Sender m) then size_len (blen (MsgRegisterContract_Sender m)) else 0) +
  (if 0 <? blen (MsgRegisterContract_ContractAddr m) then size_len (blen (MsgRegisterContract_ContractAddr m)) else 0) +
  (if 0 <? blen (MsgRegisterContract_ChainUid m) then size_len (blen (MsgRegisterContract_ChainUid m)) else 0) +
  (if 0 <? Z.of_nat (length (MsgRegisterContract_SubstoreKeys m)) then size_each (fun s => size_len (blen s)) (MsgRegisterContract_SubstoreKeys m) else 0) +
  size_len (Size (MsgRegisterContract_Escrow m)).
Definition MsgRegisterContract_switch (fieldNum : Z) : option (action MsgRegisterContract) :=
  match fieldNum with
  | 1 => Some (case_string (fun v m => (MkMsgRegisterContract v (MsgRegisterContract_ContractAddr m) (MsgRegisterContract_ChainUid m) (MsgRegisterContract_SubstoreKeys m) (MsgRegisterContract_Escrow m))))
  | 2 => Some (case_string (fun v m => (MkMsgRegisterContract (MsgRegisterContract_Sender m) v (MsgRegisterContract_ChainUid m) (MsgRegisterContract_SubstoreKeys m) (MsgRegisterContract_Escrow m))))
  | 3 => Some (case_string (fun v m => (MkMsgRegisterContract (MsgRegisterContract_Sender m) (MsgRegisterContract_ContractAddr m) v (MsgRegisterContract_SubstoreKeys m) (MsgRegisterContract_Escrow m))))
  | 4 => Some (case_strings MsgRegisterContract_SubstoreKeys (fun v m => (MkMsgRegisterContract (MsgRegisterContract_Sender m) (MsgRegisterContract_ContractAddr m) (MsgRegisterContract_ChainUid m) v (MsgRegisterContract_Escrow m))))
  | 5 => Some (case_sub MsgRegisterContract_Escrow (fun v m => (MkMsgRegisterContract (MsgRegisterContract_Sender m) (MsgRegisterContract_ContractAddr m) (MsgRegisterContract_ChainUid m) (MsgRegisterContract_SubstoreKeys m) v)))
  | _ => None
  end.
Definition MsgRegisterContract_Unmarshal : bytes -> MsgRegisterContract -> result wire_err MsgRegisterContract := unmarshal MsgRegisterContract_switch.
#[global] Instance hmw_MsgRegisterContract_msg : WireMsg MsgRegisterContract := {|
  Size := MsgRegisterContract_Size; MarshalToSizedBuffer := MsgRegisterContract_MarshalToSizedBuffer;
  wUnmarshal := MsgRegisterContract_Unmarshal; wZero := MkMsgRegisterContract [] [] [] [] wZero |}.
#[global] Instance hmw_MsgRegisterContract_ok : WireOk MsgRegisterContract := fun m => True.
#[global] Instance hmw_MsgRegisterContract_full : WireFull MsgRegisterContract := fun m => wire_full (MsgRegisterContract_Escrow m).
#[global] Instance hmw_MsgRegisterContract_laws : WireLaws MsgRegisterContract.
Proof. wire_laws MsgRegisterContract_switch. Qed.

(** [MsgRefillEscrow]. *)
Record MsgRefillEscrow := MkMsgRefillEscrow { MsgRefillEscrow_Sender : bytes; MsgRefillEscrow_ContractAddr : bytes; MsgRefillEscrow_Amount : Coin }.
Definition MsgRefillEscrow_MarshalToSizedBuffer (m : MsgRefillEscrow) : bytes -> result wire_err (bytes * Z) := sized (
  wsub Byte.x1a (MsgRefillEscrow_Amount m) ;>
  wif (0 <? blen (MsgRefillEscrow_ContractAddr m)) (wlen Byte.x12 (MsgRefillEscrow_ContractAddr m)) ;>
  wif (0 <? blen (MsgRefillEscrow_Sender m)) (wlen Byte.x0a (MsgRefillEscrow_Sender m))).
Definition MsgRefillEscrow_Size (m : MsgRefillEscrow) : Z :=
  (if 0 <? blen (MsgRefillEscrow_Sender m) then size_len (blen (MsgRefillEscrow_Sender m)) else 0) +
  (if 0 <? blen (MsgRefillEscrow_ContractAddr m) then size_len (blen (MsgRefillEscrow_ContractAddr m)) else 0) +
  size_len (Size (MsgRefillEscrow_Amount m)).
Definition MsgRefillEscrow_switch (fieldNum : Z) : option (action MsgRefillEscrow) :=
  match fieldNum with
  | 1 => Some (case_string (fun v m => (MkMsgRefillEscrow v (MsgRefillEscrow_ContractAddr m) (MsgRefillEscrow_Amount m))))
  | 2 => Some (case_string (fun v m => (MkMsgRefillEscrow (MsgRefillEscrow_Sender m) v (MsgRefillEscrow_Amount m))))
  | 3 => Some (case_sub MsgRefillEscrow_Amount (fun v m => (MkMsgRefillEscrow (MsgRefillEscrow_Sender m) (MsgRefillEscrow_ContractAddr m) v)))
  | _ => None
  end.
Definition MsgRefillEscrow_Unmarshal : bytes -> MsgRefillEscrow -> result wire_err MsgRefillEscrow := unmarshal MsgRefillEscrow_switch.
#[global] Instance hmw_MsgRefillEscrow_msg : WireMsg MsgRefillEscrow := {|
  Size := MsgRefillEscrow_Size; MarshalToSizedBuffer := MsgRefillEscrow_MarshalToSizedBuffer;
  wUnmarshal := MsgRefillEscrow_Unmarshal; wZero := MkMsgRefillEscrow [] [] wZero |}.
#[global] Instance hmw_MsgRefillEscrow_ok : WireOk MsgRefillEscrow := fun m => True.
#[global] Instance hmw_MsgRefillEscrow_full : WireFull MsgRefillEscrow := fun m => wire_full (MsgRefillEscrow_Amount m).
#[global] Instance hmw_MsgRefillEscrow_laws : WireLaws MsgRefillEscrow.
Proof. wire_laws MsgRefillEscrow_switch. Qed.

(** [MsgUpdateParams]. *)
Record MsgUpdateParams := MkMsgUpdateParams { MsgUpdateParams_Authority : bytes; MsgUpdateParams_Params : Params }.
Definition MsgUpdateParams_MarshalToSizedBuffer (m : MsgUpdateParams) : bytes -> result wire_err (bytes * Z) := sized (
  wsub Byte.x12 (MsgUpdateParams_Params m) ;>
  wif (0 <? blen (MsgUpdateParams_Authority m)) (wlen Byte.x0a (MsgUpdateParams_Authority m))).
Definition MsgUpdateParams_Size (m : MsgUpdateParams) : Z :=
  (if 0 <? blen (MsgUpdateParams_Authority m) then size_len (blen (MsgUpdateParams_Authority m)) else 0) +
  size_len (Size (MsgUpdateParams_Params m)).
Definition MsgUpdateParams_switch (fieldNum : Z) : option (action MsgUpdateParams) :=
  match fieldNum with
  | 1 => Some (case_string (fun v m => (MkMsgUpdateParams v (MsgUpdateParams_Params m))))
  | 2 => Some (case_sub MsgUpdateParams_Params (fun v m => (MkMsgUpdateParams (MsgUpdateParams_Authority m) v)))
  | _ => None
  end.
Definition MsgUpdateParams_Unmarshal : bytes -> MsgUpdateParams -> result wire_err MsgUpdateParams := unmarshal MsgUpdateParams_switch.
#[global] Instance hmw_MsgUpdateParams_msg : WireMsg MsgUpdateParams := {|
  Size := MsgUpdateParams_Size; MarshalToSizedBuffer := MsgUpdateParams_MarshalToSizedBuffer;
  wUnmarshal := MsgUpdateParams_Unmarshal; wZero := MkMsgUpdateParams [] wZero |}.
#[global] Instance hmw_MsgUpdateParams_ok : WireOk MsgUpdateParams := fun m => wire_ok (MsgUpdateParams_Params m).
#[global] Instance hmw_MsgUpdateParams_full : WireFull MsgUpdateParams := fun m => wire_full (MsgUpdateParams_Params m).
#[global] Instance hmw_MsgUpdateParams_laws : WireLaws MsgUpdateParams.
Proof. wire_laws MsgUpdateParams_switch. Qed.

(** [QueryParamsResponse]. *)
Record QueryParamsResponse := MkQueryParamsResponse { QueryParamsResponse_Params : Params }.
Definition QueryParamsResponse_MarshalToSizedBuffer (m : QueryParamsResponse) : bytes -> result wire_err (bytes * Z) := sized (
  wsub Byte.x0a (QueryParamsResponse_Params m)).
Definition QueryParamsResponse_Size (m : QueryParamsResponse) : Z :=
  size_len (Size (QueryParamsResponse_Params m)).
Definition QueryParamsResponse_switch (fieldNum : Z) : option (action QueryParamsResponse) :=
  match fieldNum with
  | 1 => Some (case_sub QueryParamsResponse_Params (fun v m => (MkQueryParamsResponse v)))
  | _ => None
  end.
Definition QueryParamsResponse_Unmarshal : bytes -> QueryParamsResponse -> result wire_err QueryParamsResponse := unmarshal QueryParamsResponse_switch.
#[global] Instance hmw_QueryParamsResponse_msg : WireMsg QueryParamsResponse := {|
  Size := QueryParamsResponse_Size; MarshalToSizedBuffer := QueryParamsResponse_MarshalToSizedBuffer;
  wUnmarshal := QueryParamsResponse_Unmarshal; wZero := MkQueryParamsResponse wZero |}.
#[global] Instance hmw_QueryParamsResponse_ok : WireOk QueryParamsResponse := fun m => wire_ok (QueryParamsResponse_Params m).
#[global] Instance hmw_QueryParamsResponse_full : WireFull QueryParamsResponse := fun m => wire_full (QueryParamsResponse_Params m).
#[global] Instance hmw_QueryParamsResponse_laws : WireLaws QueryParamsResponse.
Proof. wire_laws QueryParamsResponse_switch. Qed.

(** [QueryRegisteredChainRequest]. *)
Record QueryRegisteredChainRequest := MkQueryRegisteredChainRequest { QueryRegisteredChainRequest_ChainUid : bytes }.
Definition QueryRegisteredChainRequest_MarshalToSizedBuffer (m : QueryRegisteredChainRequest) : bytes -> result wire_err (bytes * Z) := sized (
  wif (0 <? blen (QueryRegisteredChainRequest_ChainUid m)) (wlen Byte.x0a (QueryRegisteredChainRequest_ChainUid m))).
Definition QueryRegisteredChainRequest_Size (m : QueryRegisteredChainRequest) : Z :=
  (if 0 <? blen (QueryRegisteredChainRequest_ChainUid m) then size_len (blen (QueryRegisteredChainRequest_ChainUid m)) else 0).
Definition QueryRegisteredChainRequest_switch (fieldNum : Z) : option (action QueryRegisteredChainRequest) :=
  match fieldNum with
  | 1 => Some (case_string (fun v m => (MkQueryRegisteredChainRequest v)))
  | _ => None
  end.
Definition QueryRegisteredChainRequest_Unmarshal : bytes -> QueryRegisteredChainRequest -> result wire_err QueryRegisteredChainRequest := unmarshal QueryRegisteredChainRequest_switch.
#[global] Instance hmw_QueryRegisteredChainRequest_msg : WireMsg QueryRegisteredChainRequest := {|
  Size := QueryRegisteredChainRequest_Size; MarshalToSizedBuffer := QueryRegisteredChainRequest_MarshalToSizedBuffer;
  wUnmarshal := QueryRegisteredChainRequest_Unmarshal; wZero := MkQueryRegisteredChainRequest [] |}.
#[global] Instance hmw_QueryRegisteredChainRequest_ok : WireOk QueryRegisteredChainRequest := fun m => True.
#[global] Instance hmw_QueryRegisteredChainRequest_laws : WireLaws QueryRegisteredChainRequest.
Proof. wire_laws QueryRegisteredChainRequest_switch. Qed.

(** [QueryRegisteredChainResponse]. *)
Record QueryRegisteredChainResponse := MkQueryRegisteredChainResponse { QueryRegisteredChainResponse_Chain : RegisteredChain }.
Definition QueryRegisteredChainResponse_MarshalToSizedBuffer (m : QueryRegisteredChainResponse) : bytes -> result wire_err (bytes * Z) := sized (
  wsub Byte.x0a (QueryRegisteredChainResponse_Chain m)).
Definition QueryRegisteredChainResponse_Size (m : QueryRegisteredChainResponse) : Z :=
  size_len (Size (QueryRegisteredChainResponse_Chain m)).
Definition QueryRegisteredChainResponse_switch (fieldNum : Z) : option (action QueryRegisteredChainResponse) :=
  match fieldNum with
  | 1 => Some (case_sub QueryRegisteredChainResponse_Chain (fun v m => (MkQueryRegisteredChainResponse v)))
  | _ => None
  end.
Definition QueryRegisteredChainResponse_Unmarshal : bytes -> QueryRegisteredChainResponse -> result wire_err QueryRegisteredChainResponse := unmarshal QueryRegisteredChainResponse_switch.
#[global] Instance hmw_QueryRegisteredChainResponse_msg : WireMsg QueryRegisteredChainResponse := {|
  Size := QueryRegisteredChainResponse_Size; MarshalToSizedBuffer := QueryRegisteredChainResponse_MarshalToSizedBuffer;
  wUnmarshal := QueryRegisteredChainResponse_Unmarshal; wZero := MkQueryRegisteredChainResponse wZero |}.
#[global] Instance hmw_QueryRegisteredChainResponse_ok : WireOk QueryRegisteredChainResponse := fun m => wire_ok (QueryRegisteredChainResponse_Chain m).
#[global] Instance hmw_QueryRegisteredChainResponse_laws : WireLaws QueryRegisteredChainResponse.
Proof. wire_laws QueryRegisteredChainResponse_switch. Qed.

(** [QueryRegisteredChainsRequest]. *)
Record QueryRegisteredChainsRequest := MkQueryRegisteredChainsRequest { QueryRegisteredChainsRequest_Pagination : option PageRequest }.
Definition QueryRegisteredChainsRequest_MarshalToSizedBuffer (m : QueryRegisteredChainsRequest) : bytes -> result wire_err (bytes * Z) := sized (
  (match (QueryRegisteredChainsRequest_Pagination m) with Some x => wsub Byte.x0a x | None => wskip end)).
Definition QueryRegisteredChainsRequest_Size (m : QueryRegisteredChainsRequest) : Z :=
  (match (QueryRegisteredChainsRequest_Pagination m) with Some x => size_len (Size x) | None => 0 end).
Definition QueryRegisteredChainsRequest_switch (fieldNum : Z) : option (action QueryRegisteredChainsRequest) :=
  match fieldNum with
  | 1 => Some (case_ptr QueryRegisteredChainsRequest_Pagination (fun v m => (MkQueryRegisteredChainsRequest v)))
  | _ => None
  end.
Definition QueryRegisteredChainsRequest_Unmarshal : bytes -> QueryRegisteredChainsRequest -> result wire_err QueryRegisteredChainsRequest := unmarshal QueryRegisteredChainsRequest_switch.
#[global] Instance hmw_QueryRegisteredChainsRequest_msg : WireMsg QueryRegisteredChainsRequest := {|
  Size := QueryRegisteredChainsRequest_Size; MarshalToSizedBuffer := QueryRegisteredChainsRequest_MarshalToSizedBuffer;
  wUnmarshal := QueryRegisteredChainsRequest_Unmarshal; wZero := MkQueryRegisteredChainsRequest None |}.
#[global] Instance hmw_QueryRegisteredChainsRequest_ok : WireOk QueryRegisteredChainsRequest := fun m => opt_ok (QueryRegisteredChainsRequest_Pagination m).
#[global] Instance hmw_QueryRegisteredChainsRequest_full : WireFull QueryRegisteredChainsRequest := fun m => opt_full (QueryRegisteredChainsRequest_Pagination m).
#[global] Instance hmw_QueryRegisteredChainsRequest_laws : WireLaws QueryRegisteredChainsRequest.
Proof. wire_laws QueryRegisteredChainsRequest_switch. Qed.

(** [QueryRegisteredChainsResponse]. *)
Record QueryRegisteredChainsResponse := MkQueryRegisteredChainsResponse { QueryRegisteredChainsResponse_Chains : list RegisteredChain; QueryRegisteredChainsResponse_Pagination : option PageResponse }.
Definition QueryRegisteredChainsResponse_MarshalToSizedBuffer (m : QueryRegisteredChainsResponse) : bytes -> result wire_err (bytes * Z) := sized (
  (match (QueryRegisteredChainsResponse_Pagination m) with Some x => wsub Byte.x12 x | None => wskip end) ;>
  wif (0 <? Z.of_nat (length (QueryRegisteredChainsResponse_Chains m))) (wdown (QueryRegisteredChainsResponse_Chains m) (wsub Byte.x0a))).
Definition QueryRegisteredChainsResponse_Size (m : QueryRegisteredChainsResponse) : Z :=
  (if 0 <? Z.of_nat (length (QueryRegisteredChainsResponse_Chains m)) then size_each (fun e => size_len (Size e)) (QueryRegisteredChainsResponse_Chains m) else 0) +
  (match (QueryRegisteredChainsResponse_Pagination m) with Some x => size_len (Size x) | None => 0 end).
Definition QueryRegisteredChainsResponse_switch (fieldNum : Z) : option (action QueryRegisteredChainsResponse) :=
  match fieldNum with
  | 1 => Some (case_rep QueryRegisteredChainsResponse_Chains (fun v m => (MkQueryRegisteredChainsResponse v (QueryRegisteredChainsResponse_Pagination m))))
  | 2 => Some (case_ptr QueryRegisteredChainsResponse_Pagination (fun v m => (MkQueryRegisteredChainsResponse (QueryRegisteredChainsResponse_Chains m) v)))
  | _ => None
  end.
Definition QueryRegisteredChainsResponse_Unmarshal : bytes -> QueryRegisteredChainsResponse -> result wire_err QueryRegisteredChainsResponse := unmarshal QueryRegisteredChainsResponse_switch.
#[global] Instance hmw_QueryRegisteredChainsResponse_msg : WireMsg QueryRegisteredChainsResponse := {|
  Size := QueryRegisteredChainsResponse_Size; MarshalToSizedBuffer := QueryRegisteredChainsResponse_MarshalToSizedBuffer;
  wUnmarshal := QueryRegisteredChainsResponse_Unmarshal; wZero := MkQueryRegisteredChainsResponse [] None |}.
#[global] Instance hmw_QueryRegisteredChainsResponse_ok : WireOk QueryRegisteredChainsResponse := fun m => Forall wire_ok (QueryRegisteredChainsResponse_Chains m) /\ opt_ok (QueryRegisteredChainsResponse_Pagination m).
#[global] Instance hmw_QueryRegisteredChainsResponse_full : WireFull QueryRegisteredChainsResponse := fun m => opt_full (QueryRegisteredChainsResponse_Pagination m).
#[global] Instance hmw_QueryRegisteredChainsResponse_laws : WireLaws QueryRegisteredChainsResponse.
Proof. wire_laws QueryRegisteredChainsResponse_switch. Qed.

(** [QueryRegisteredContractRequest]. *)
Record QueryRegisteredContractRequest := MkQueryRegisteredContractRequest { QueryRegisteredContractRequest_ContractAddr : bytes }.
Definition QueryRegisteredContractRequest_MarshalToSizedBuffer (m : QueryRegisteredContractRequest) : bytes -> result wire_err (bytes * Z) := sized (
  wif (0 <? blen (QueryRegisteredContractRequest_ContractAddr m)) (wlen Byte.x0a (QueryRegisteredContractRequest_ContractAddr m))).
Definition QueryRegisteredContractRequest_Size (m : QueryRegisteredContractRequest) : Z :=
  (if 0 <? blen (QueryRegisteredContractRequest_ContractAddr m) then size_len (blen (QueryRegisteredContractRequest_ContractAddr m)) else 0).
Definition QueryRegisteredContractRequest_switch (fieldNum : Z) : option (action QueryRegisteredContractRequest) :=
  match fieldNum with
  | 1 => Some (case_string (fun v m => (MkQueryRegisteredContractRequest v)))
  | _ => None
  end.
Definition QueryRegisteredContractRequest_Unmarshal : bytes -> QueryRegisteredContractRequest -> result wire_err QueryRegisteredContractRequest := unmarshal QueryRegisteredContractRequest_switch.
#[global] Instance hmw_QueryRegisteredContractRequest_msg : WireMsg QueryRegisteredContractRequest := {|
  Size := QueryRegisteredContractRequest_Size; MarshalToSizedBuffer := QueryRegisteredContractRequest_MarshalToSizedBuffer;
  wUnmarshal := QueryRegisteredContractRequest_Unmarshal; wZero := MkQueryRegisteredContractRequest [] |}.
#[global] Instance hmw_QueryRegisteredContractRequest_ok : WireOk QueryRegisteredContractRequest := fun m => True.
#[global] Instance hmw_QueryRegisteredContractRequest_laws : WireLaws QueryRegisteredContractRequest.
Proof. wire_laws QueryRegisteredContractRequest_switch. Qed.

(** [QueryRegisteredContractResponse]. *)
Record QueryRegisteredContractResponse := MkQueryRegisteredContractResponse { QueryRegisteredContractResponse_Contract : RegisteredContract }.
Definition QueryRegisteredContractResponse_MarshalToSizedBuffer (m : QueryRegisteredContractResponse) : bytes -> result wire_err (bytes * Z) := sized (
  wsub Byte.x0a (QueryRegisteredContractResponse_Contract m)).
Definition QueryRegisteredContractResponse_Size (m : QueryRegisteredContractResponse) : Z :=
  size_len (Size (QueryRegisteredContractResponse_Contract m)).
Definition QueryRegisteredContractResponse_switch (fieldNum : Z) : option (action QueryRegisteredContractResponse) :=
  match fieldNum with
  | 1 => Some (case_sub QueryRegisteredContractResponse_Contract (fun v m => (MkQueryRegisteredContractResponse v)))
  | _ => None
  end.
Definition QueryRegisteredContractResponse_Unmarshal : bytes -> QueryRegisteredContractResponse -> result wire_err QueryRegisteredContractResponse := unmarshal QueryRegisteredContractResponse_switch.
#[global] Instance hmw_QueryRegisteredContractResponse_msg : WireMsg QueryRegisteredContractResponse := {|
  Size := QueryRegisteredContractResponse_Size; MarshalToSizedBuffer := QueryRegisteredContractResponse_MarshalToSizedBuffer;
  wUnmarshal := QueryRegisteredContractResponse_Unmarshal; wZero := MkQueryRegisteredContractResponse wZero |}.
#[global] Instance hmw_QueryRegisteredContractResponse_ok : WireOk QueryRegisteredContractResponse := fun m => wire_ok (QueryRegisteredContractResponse_Contract m).
#[global] Instance hmw_QueryRegisteredContractResponse_laws : WireLaws QueryRegisteredContractResponse.
Proof. wire_laws QueryRegisteredContractResponse_switch. Qed.

(** [QueryRegisteredContractsRequest]. *)
Record QueryRegisteredContractsRequest := MkQueryRegisteredContractsRequest { QueryRegisteredContractsRequest_Pagination : option PageRequest }.
Definition QueryRegisteredContractsRequest_MarshalToSizedBuffer (m : QueryRegisteredContractsRequest) : bytes -> result wire_err (bytes * Z) := sized (
  (match (QueryRegisteredContractsRequest_Pagination m) with Some x => wsub Byte.x0a x | None => wskip end)).
Definition QueryRegisteredContractsRequest_Size (m : QueryRegisteredContractsRequest) : Z :=
  (match (QueryRegisteredContractsRequest_Pagination m) with Some x => size_len (Size x) | None => 0 end).
Definition QueryRegisteredContractsRequest_switch (fieldNum : Z) : option (action QueryRegisteredContractsRequest) :=
  match fieldNum with
  | 1 => Some (case_ptr QueryRegisteredContractsRequest_Pagination (fun v m => (MkQueryRegisteredContractsRequest v)))
  | _ => None
  end.
Definition QueryRegisteredContractsRequest_Unmarshal : bytes -> QueryRegisteredContractsRequest -> result wire_err QueryRegisteredContractsRequest := unmarshal QueryRegisteredContractsRequest_switch.
#[global] Instance hmw_QueryRegisteredContractsRequest_msg : WireMsg QueryRegisteredContractsRequest := {|
  Size := QueryRegisteredContractsRequest_Size; MarshalToSizedBuffer := QueryRegisteredContractsRequest_MarshalToSizedBuffer;
  wUnmarshal := QueryRegisteredContractsRequest_Unmarshal; wZero := MkQueryRegisteredContractsRequest None |}.
#[global] Instance hmw_QueryRegisteredContractsRequest_ok : WireOk QueryRegisteredContractsRequest := fun m => opt_ok (QueryRegisteredContractsRequest_Pagination m).
#[global] Instance hmw_QueryRegisteredContractsRequest_full : WireFull QueryRegisteredContractsRequest := fun m => opt_full (QueryRegisteredContractsRequest_Pagination m).
#[global] Instance hmw_QueryRegisteredContractsRequest_laws : WireLaws QueryRegisteredContractsRequest.
Proof. wire_laws QueryRegisteredContractsRequest_switch. Qed.

(** [QueryRegisteredContractsResponse]. *)
Record QueryRegisteredContractsResponse := MkQueryRegisteredContractsResponse { QueryRegisteredContractsResponse_Contracts : list RegisteredContract; QueryRegisteredContractsResponse_Pagination : option PageResponse }.
Definition QueryRegisteredContractsResponse_MarshalToSizedBuffer (m : QueryRegisteredContractsResponse) : bytes -> result wire_err (bytes * Z) := sized (
  (match (QueryRegisteredContractsResponse_Pagination m) with Some x => wsub Byte.x12 x | None => wskip end) ;>
  wif (0 <? Z.of_nat (length (QueryRegisteredContractsResponse_Contracts m))) (wdown (QueryRegisteredContractsResponse_Contracts m) (wsub Byte.x0a))).
Definition QueryRegisteredContractsResponse_Size (m : QueryRegisteredContractsResponse) : Z :=
  (if 0 <? Z.of_nat (length (QueryRegisteredContractsResponse_Contracts m)) then size_each (fun e => size_len (Size e)) (QueryRegisteredContractsResponse_Contracts m) else 0) +
  (match (QueryRegisteredContractsResponse_Pagination m) with Some x => size_len (Size x) | None => 0 end).
Definition QueryRegisteredContractsResponse_switch (fieldNum : Z) : option (action QueryRegisteredContractsResponse) :=
  match fieldNum with
  | 1 => Some (case_rep QueryRegisteredContractsResponse_Contracts (fun v m => (MkQueryRegisteredContractsResponse v (QueryRegisteredContractsResponse_Pagination m))))
  | 2 => Some (case_ptr QueryRegisteredContractsResponse_Pagination (fun v m => (MkQueryRegisteredContractsResponse (QueryRegisteredContractsResponse_Contracts m) v)))
  | _ => None
  end.
Definition QueryRegisteredContractsResponse_Unmarshal : bytes -> QueryRegisteredContractsResponse -> result wire_err QueryRegisteredContractsResponse := unmarshal QueryRegisteredContractsResponse_switch.
#[global] Instance hmw_QueryRegisteredContractsResponse_msg : WireMsg QueryRegisteredContractsResponse := {|
  Size := QueryRegisteredContractsResponse_Size; MarshalToSizedBuffer := QueryRegisteredContractsResponse_MarshalToSizedBuffer;
  wUnmarshal := QueryRegisteredContractsResponse_Unmarshal; wZero := MkQueryRegisteredContractsResponse [] None |}.
#[global] Instance hmw_QueryRegisteredContractsResponse_ok : WireOk QueryRegisteredContractsResponse := fun m => Forall wire_ok (QueryRegisteredContractsResponse_Contracts m) /\ opt_ok (QueryRegisteredContractsResponse_Pagination m).
#[global] Instance hmw_QueryRegisteredContractsResponse_full : WireFull QueryRegisteredContractsResponse := fun m => opt_full (QueryRegisteredContractsResponse_Pagination m).
#[global] Instance hmw_QueryRegisteredContractsResponse_laws : WireLaws QueryRegisteredContractsResponse.
Proof. wire_laws QueryRegisteredContractsResponse_switch. Qed.

(** [QueryHashRootRequest]. *)
Record QueryHashRootRequest := MkQueryHashRootRequest { QueryHashRootRequest_ChainUid : bytes; QueryHashRootRequest_Algo : bytes }.
Definition QueryHashRootRequest_MarshalToSizedBuffer (m : QueryHashRootRequest) : bytes -> result wire_err (bytes * Z) := sized (
  wif (0 <? blen (QueryHashRootRequest_Algo m)) (wlen Byte.x12 (QueryHashRootRequest_Algo m)) ;>
  wif (0 <? blen (QueryHashRootRequest_ChainUid m)) (wlen Byte.x0a (QueryHashRootRequest_ChainUid m))).
Definition QueryHashRootRequest_Size (m : QueryHashRootRequest) : Z :=
  (if 0 <? blen (QueryHashRootRequest_ChainUid m) then size_len (blen (QueryHashRootRequest_ChainUid m)) else 0) +
  (if 0 <? blen (QueryHashRootRequest_Algo m) then size_len (blen (QueryHashRootRequest_Algo m)) else 0).
Definition QueryHashRootRequest_switch (fieldNum : Z) : option (action QueryHashRootRequest) :=
  match fieldNum with
  | 1 => Some (case_string (fun v m => (MkQueryHashRootRequest v (QueryHashRootRequest_Algo m))))
  | 2 => Some (case_string (fun v m => (MkQueryHashRootRequest (QueryHashRootRequest_ChainUid m) v)))
  | _ => None
  end.
Definition QueryHashRootRequest_Unmarshal : bytes -> QueryHashRootRequest -> result wire_err QueryHashRootRequest := unmarshal QueryHashRootRequest_switch.
#[global] Instance hmw_QueryHashRootRequest_msg : WireMsg QueryHashRootRequest := {|
  Size := QueryHashRootRequest_Size; MarshalToSizedBuffer := QueryHashRootRequest_MarshalToSizedBuffer;
  wUnmarshal := QueryHashRootRequest_Unmarshal; wZero := MkQueryHashRootRequest [] [] |}.
#[global] Instance hmw_QueryHashRootRequest_ok : WireOk QueryHashRootRequest := fun m => True.
#[global] Instance hmw_QueryHashRootRequest_laws : WireLaws QueryHashRootRequest.
Proof. wire_laws QueryHashRootRequest_switch. Qed.

(** [QueryHashRootResponse]. *)
Record QueryHashRootResponse := MkQueryHashRootResponse { QueryHashRootResponse_Root : HashRoot }.
Definition QueryHashRootResponse_MarshalToSizedBuffer (m : QueryHashRootResponse) : bytes -> result wire_err (bytes * Z) := sized (
  wsub Byte.x0a (QueryHashRootResponse_Root m)).
Definition QueryHashRootResponse_Size (m : QueryHashRootResponse) : Z :=
  size_len (Size (QueryHashRootResponse_Root m)).
Definition QueryHashRootResponse_switch (fieldNum : Z) : option (action QueryHashRootResponse) :=
  match fieldNum with
  | 1 => Some (case_sub QueryHashRootResponse_Root (fun v m => (MkQueryHashRootResponse v)))
  | _ => None
  end.
Definition QueryHashRootResponse_Unmarshal : bytes -> QueryHashRootResponse -> result wire_err QueryHashRootResponse := unmarshal QueryHashRootResponse_switch.
#[global] Instance hmw_QueryHashRootResponse_msg : WireMsg QueryHashRootResponse := {|
  Size := QueryHashRootResponse_Size; MarshalToSizedBuffer := QueryHashRootResponse_MarshalToSizedBuffer;
  wUnmarshal := QueryHashRootResponse_Unmarshal; wZero := MkQueryHashRootResponse wZero |}.
#[global] Instance hmw_QueryHashRootResponse_ok : WireOk QueryHashRootResponse := fun m => wire_ok (QueryHashRootResponse_Root m).
#[global] Instance hmw_QueryHashRootResponse_laws : WireLaws QueryHashRootResponse.
Proof. wire_laws QueryHashRootResponse_switch. Qed.

(** [QueryHashRootsRequest]. *)
Record QueryHashRootsRequest := MkQueryHashRootsRequest { QueryHashRootsRequest_ChainUid : bytes; QueryHashRootsRequest_Pagination : option PageRequest }.
Definition QueryHashRootsRequest_MarshalToSizedBuffer (m : QueryHashRootsRequest) : bytes -> result wire_err (bytes * Z) := sized (
  (match (QueryHashRootsRequest_Pagination m) with Some x => wsub Byte.x12 x | None => wskip end) ;>
  wif (0 <? blen (QueryHashRootsRequest_ChainUid m)) (wlen Byte.x0a (QueryHashRootsRequest_ChainUid m))).
Definition QueryHashRootsRequest_Size (m : QueryHashRootsRequest) : Z :=
  (if 0 <? blen (QueryHashRootsRequest_ChainUid m) then size_len (blen (QueryHashRootsRequest_ChainUid m)) else 0) +
  (match (QueryHashRootsRequest_Pagination m) with Some x => size_len (Size x) | None => 0 end).
Definition QueryHashRootsRequest_switch (fieldNum : Z) : option (action QueryHashRootsRequest) :=
  match fieldNum with
  | 1 => Some (case_string (fun v m => (MkQueryHashRootsRequest v (QueryHashRootsRequest_Pagination m))))
  | 2 => Some (case_ptr QueryHashRootsRequest_Pagination (fun v m => (MkQueryHashRootsRequest (QueryHashRootsRequest_ChainUid m) v)))
  | _ => None
  end.
Definition QueryHashRootsRequest_Unmarshal : bytes -> QueryHashRootsRequest -> result wire_err QueryHashRootsRequest := unmarshal QueryHashRootsRequest_switch.
#[global] Instance hmw_QueryHashRootsRequest_msg : WireMsg QueryHashRootsRequest := {|
  Size := QueryHashRootsRequest_Size; MarshalToSizedBuffer := QueryHashRootsRequest_MarshalToSizedBuffer;
  wUnmarshal := QueryHashRootsRequest_Unmarshal; wZero := MkQueryHashRootsRequest [] None |}.
#[global] Instance hmw_QueryHashRootsRequest_ok : WireOk QueryHashRootsRequest := fun m => opt_ok (QueryHashRootsRequest_Pagination m).
#[global] Instance hmw_QueryHashRootsRequest_full : WireFull QueryHashRootsRequest := fun m => opt_full (QueryHashRootsRequest_Pagination m).
#[global] Instance hmw_QueryHashRootsRequest_laws : WireLaws QueryHashRootsRequest.
Proof. wire_laws QueryHashRootsRequest_switch. Qed.

(** [QueryHashRootsResponse]. *)
Record QueryHashRootsResponse := MkQueryHashRootsResponse { QueryHashRootsResponse_Roots : list HashRoot; QueryHashRootsResponse_Pagination : option PageResponse }.
Definition QueryHashRootsResponse_MarshalToSizedBuffer (m : QueryHashRootsResponse) : bytes -> result wire_err (bytes * Z) := sized (
  (match (QueryHashRootsResponse_Pagination m) with Some x => wsub Byte.x12 x | None => wskip end) ;>
  wif (0 <? Z.of_nat (length (QueryHashRootsResponse_Roots m))) (wdown (QueryHashRootsResponse_Roots m) (wsub Byte.x0a))).
Definition QueryHashRootsResponse_Size (m : QueryHashRootsResponse) : Z :=
  (if 0 <? Z.of_nat (length (QueryHashRootsResponse_Roots m)) then size_each (fun e => size_len (Size e)) (QueryHashRootsResponse_Roots m) else 0) +
  (match (QueryHashRootsResponse_Pagination m) with Some x => size_len (Size x) | None => 0 end).
Definition QueryHashRootsResponse_switch (fieldNum : Z) : option (action QueryHashRootsResponse) :=
  match fieldNum with
  | 1 => Some (case_rep QueryHashRootsResponse_Roots (fun v m => (MkQueryHashRootsResponse v (QueryHashRootsResponse_Pagination m))))
  | 2 => Some (case_ptr QueryHashRootsResponse_Pagination (fun v m => (MkQueryHashRootsResponse (QueryHashRootsResponse_Roots m) v)))
  | _ => None
  end.
Definition QueryHashRootsResponse_Unmarshal : bytes -> QueryHashRootsResponse -> result wire_err QueryHashRootsResponse := unmarshal QueryHashRootsResponse_switch.
#[global] Instance hmw_QueryHashRootsResponse_msg : WireMsg QueryHashRootsResponse := {|
  Size := QueryHashRootsResponse_Size; MarshalToSizedBuffer := QueryHashRootsResponse_MarshalToSizedBuffer;
  wUnmarshal := QueryHashRootsResponse_Unmarshal; wZero := MkQueryHashRootsResponse [] None |}.
#[global] Instance hmw_QueryHashRootsResponse_ok : WireOk QueryHashRootsResponse := fun m => Forall wire_ok (QueryHashRootsResponse_Roots m) /\ opt_ok (QueryHashRootsResponse_Pagination m).
#[global] Instance hmw_QueryHashRootsResponse_full : WireFull QueryHashRootsResponse := fun m => opt_full (QueryHashRootsResponse_Pagination m).
#[global] Instance hmw_QueryHashRootsResponse_laws : WireLaws QueryHashRootsResponse.
Proof. wire_laws QueryHashRootsResponse_switch. Qed.

(** [QueryEscrowRequest]. *)
Record QueryEscrowRequest := MkQueryEscrowRequest { QueryEscrowRequest_ContractAddr : bytes }.
Definition QueryEscrowRequest_MarshalToSizedBuffer (m : QueryEscrowRequest) : bytes -> result wire_err (bytes * Z) := sized (
  wif (0 <? blen (QueryEscrowRequest_ContractAddr m)) (wlen Byte.x0a (QueryEscrowRequest_ContractAddr m))).
Definition QueryEscrowRequest_Size (m : QueryEscrowRequest) : Z :=
  (if 0 <? blen (QueryEscrowRequest_ContractAddr m) then size_len (blen (QueryEscrowRequest_ContractAddr m)) else 0).
Definition QueryEscrowRequest_switch (fieldNum : Z) : option (action QueryEscrowRequest) :=
  match fieldNum with
  | 1 => Some (case_string (fun v m => (MkQueryEscrowRequest v)))
  | _ => None
  end.
Definition QueryEscrowRequest_Unmarshal : bytes -> QueryEscrowRequest -> result wire_err QueryEscrowRequest := unmarshal QueryEscrowRequest_switch.
#[global] Instance hmw_QueryEscrowRequest_msg : WireMsg QueryEscrowRequest := {|
  Size := QueryEscrowRequest_Size; MarshalToSizedBuffer := QueryEscrowRequest_MarshalToSizedBuffer;
  wUnmarshal := QueryEscrowRequest_Unmarshal; wZero := MkQueryEscrowRequest [] |}.
#[global] Instance hmw_QueryEscrowRequest_ok : WireOk QueryEscrowRequest := fun m => True.
#[global] Instance hmw_QueryEscrowRequest_laws : WireLaws QueryEscrowRequest.
Proof. wire_laws QueryEscrowRequest_switch. Qed.

(** [QueryEscrowResponse]. *)
Record QueryEscrowResponse := MkQueryEscrowResponse { QueryEscrowResponse_Escrow : EscrowRecord }.
Definition QueryEscrowResponse_MarshalToSizedBuffer (m : QueryEscrowResponse) : bytes -> result wire_err (bytes * Z) := sized (
  wsub Byte.x0a (QueryEscrowResponse_Escrow m)).
Definition QueryEscrowResponse_Size (m : QueryEscrowResponse) : Z :=
  size_len (Size (QueryEscrowResponse_Escrow m)).
Definition QueryEscrowResponse_switch (fieldNum : Z) : option (action QueryEscrowResponse) :=
  match fieldNum with
  | 1 => Some (case_sub QueryEscrowResponse_Escrow (fun v m => (MkQueryEscrowResponse v)))
  | _ => None
  end.
Definition QueryEscrowResponse_Unmarshal : bytes -> QueryEscrowResponse -> result wire_err QueryEscrowResponse := unmarshal QueryEscrowResponse_switch.
#[global] Instance hmw_QueryEscrowResponse_msg : WireMsg QueryEscrowResponse := {|
  Size := QueryEscrowResponse_Size; MarshalToSizedBuffer := QueryEscrowResponse_MarshalToSizedBuffer;
  wUnmarshal := QueryEscrowResponse_Unmarshal; wZero := MkQueryEscrowResponse wZero |}.
#[global] Instance hmw_QueryEscrowResponse_ok : WireOk QueryEscrowResponse := fun m => wire_ok (QueryEscrowResponse_Escrow m).
#[global] Instance hmw_QueryEscrowResponse_full : WireFull QueryEscrowResponse := fun m => wire_full (QueryEscrowResponse_Escrow m).
#[global] Instance hmw_QueryEscrowResponse_laws : WireLaws QueryEscrowResponse.
Proof. wire_laws QueryEscrowResponse_switch. Qed.

(** ** What the codec promises *)

(** C34: The records that hashmerchant keeps and sends are read back as they
    were written: marshalling a value the Go types have neither fails nor
    panics, fills exactly the bytes [Size] announced, and [Unmarshal] gives the
    value again. *)
Theorem hm_records_roundtrip :
  (forall c : RegisteredChain, wire_ok c -> Size c < 2 ^ 63 -> round_trips c) /\
  (forall c : RegisteredContract, Size c < 2 ^ 63 -> round_trips c) /\
  (forall r : EscrowRecord, wire_ok r -> wire_full r -> Size r < 2 ^ 63 -> round_trips r) /\
  (forall r : HashRoot, wire_ok r -> Size r < 2 ^ 63 -> round_trips r) /\
  (forall v : VoteExtensionHashData, wire_ok v -> Size v < 2 ^ 63 -> round_trips v) /\
  (forall p : Params, wire_ok p -> wire_full p -> Size p < 2 ^ 63 -> round_trips p) /\
  (forall g : GenesisState, wire_ok g -> wire_full g -> Size g < 2 ^ 63 -> round_trips g).
Proof. each; apply wire_roundtrip; side. Qed.


End Codec.

(** ** Concrete values *)

#[local] Existing Instance toy_Z.
#[local] Existing Instance toy_Z_laws.
Definition w_chain : RegisteredChain := MkRegisteredChain (str "hub") (str "Hub") [str "rpc"; []] [str "sha256"] true
  [Some (MkOracleSource (str "src") 1 (str "http") [str "ibc"] (Some (MkCustodyAuthenticator (str "key") [] [])) true)].
Definition w_root : HashRoot := MkHashRoot (str "hub") (str "sha256") 300 [Byte.xff] 3 (-1) [Some (MkOracleAttestation (str "src") [Byte.x01] 7 (-2) [] [])].
Definition w_escrow : EscrowRecord := MkEscrowRecord (str "c1") (MkCoin (str "uterp") 5) 10 (2 ^ 64 - 1).
Definition w_genesis : GenesisState (LegacyDec := Z) (Int := Z) :=
  MkGenesisState (MkParams 660000000000000000 100 (str "uterp") 5 1) [w_chain]
    [MkRegisteredContract (str "c1") (str "hub") [str "bank"] true] [w_escrow] [w_root] 8.
(** The bytes of a root; a negative time takes ten bytes. *)
Example w_root_bytes : wMarshal w_root = Ok (
  [Byte.x0a; Byte.x03] ++ str "hub" ++ [Byte.x12; Byte.x06] ++ str "sha256" ++ [Byte.x18; Byte.xac; Byte.x02; Byte.x22; Byte.x01; Byte.xff;
   Byte.x28; Byte.x03; Byte.x30] ++ replicate 9 Byte.xff ++ [Byte.x01; Byte.x3a; Byte.x15; Byte.x0a; Byte.x03] ++ str "src" ++
  [Byte.x12; Byte.x01; Byte.x01; Byte.x18; Byte.x07; Byte.x20; Byte.xfe] ++ replicate 8 Byte.xff ++ [Byte.x01]).
Proof. vm_refl. Qed.
(** A nil attestation cannot be written; a packed tail, a group end and a
    length that overflows cannot be read. *)
Example w_nil_attestation : wMarshal (MkHashRoot [] [] 0 [] 0 0 [None]) = Err WirePanic.
Proof. vm_refl. Qed.
Example w_bad_length : wUnmarshal ([Byte.x0a] ++ replicate 9 Byte.xff ++ [Byte.x01]) (wZero : HashRoot) = Err ErrInvalidLength.
Proof. vm_refl. Qed.
Example w_group_end : wUnmarshal [Byte.x0c] (wZero : HashRoot) = Err ErrEndGroup.
Proof. vm_refl. Qed.
(** A later field replaces an earlier one, and an unknown field is dropped. *)
Example w_last_wins : wUnmarshal [Byte.x18; Byte.x01; Byte.x78; Byte.x09; Byte.x18; Byte.x02] (wZero : HashRoot) =
  Ok (MkHashRoot [] [] 2 [] 0 0 []).
Proof. vm_refl. Qed.

Ltac wire_value := repeat first [split | constructor | by vm_compute].
Lemma hm_records_roundtrip_witness : round_trips w_genesis /\ round_trips w_root.
Proof.
  destruct (hm_records_roundtrip (LegacyDec := Z) (Int := Z)) as (_ & _ & _ & Hr & _ & _ & Hg). split.
  - apply Hg; [|by repeat constructor | vm_compute; done].
    wire_value.
  - apply Hr; [wire_value | vm_compute; done].
Defined.
