(* ===== verification/WireSa.v ===== *)
(** * smart-account: the protobuf codec

    [x/smart-account/types/*.pb.go]: [MarshalToSizedBuffer], [Size] and
    [Unmarshal] of every message with fields, the transaction extension with
    its packed numbers among them. *)

From S2P Require Import Prelude Proto Wire WireLaws SaAuth SaKeeper.

Open Scope go_scope.
#[local] Existing Instance generated.

(** [AccountAuthenticator]. *)
Definition AccountAuthenticator_MarshalToSizedBuffer (m : AccountAuthenticator) : bytes -> result wire_err (bytes * Z) := sized (
  wif (0 <? blen (aa_Config m)) (wlen Byte.x1a (aa_Config m)) ;>
  wif (0 <? blen (aa_Type m)) (wlen Byte.x12 (aa_Type m)) ;>
  wif (negb ((aa_Id m) =? 0)) (wvarint (u64 (aa_Id m)) ;> wbyte Byte.x08)).
Definition AccountAuthenticator_Size (m : AccountAuthenticator) : Z :=
  (if negb ((aa_Id m) =? 0) then 1 + Sov (u64 (aa_Id m)) else 0) +
  (if 0 <? blen (aa_Type m) then size_len (blen (aa_Type m)) else 0) +
  (if 0 <? blen (aa_Config m) then size_len (blen (aa_Config m)) else 0).
Definition AccountAuthenticator_switch (fieldNum : Z) : option (action AccountAuthenticator) :=
  match fieldNum with
  | 1 => Some (case_varint u64 (fun v m => (MkAccountAuthenticator v (aa_Type m) (aa_Config m))))
  | 2 => Some (case_string (fun v m => (MkAccountAuthenticator (aa_Id m) v (aa_Config m))))
  | 3 => Some (case_bytes (fun v m => (MkAccountAuthenticator (aa_Id m) (aa_Type m) v)))
  | _ => None
  end.
Definition AccountAuthenticator_Unmarshal : bytes -> AccountAuthenticator -> result wire_err AccountAuthenticator := unmarshal AccountAuthenticator_switch.
#[global] Instance saw_AccountAuthenticator_msg : WireMsg AccountAuthenticator := {|
  Size := AccountAuthenticator_Size; MarshalToSizedBuffer := AccountAuthenticator_MarshalToSizedBuffer;
  wUnmarshal := AccountAuthenticator_Unmarshal; wZero := MkAccountAuthenticator 0 [] [] |}.
#[global] Instance saw_AccountAuthenticator_ok : WireOk AccountAuthenticator := fun m => is_u64 (aa_Id m).
#[global] Instance saw_AccountAuthenticator_laws : WireLaws AccountAuthenticator.
Proof. wire_laws AccountAuthenticator_switch. Qed.

(** [Params]. *)
Definition Params_MarshalToSizedBuffer (m : SaParams) : bytes -> result wire_err (bytes * Z) := sized (
  wif (0 <? Z.of_nat (length (CircuitBreakerControllers m))) (wdown (CircuitBreakerControllers m) (wlen Byte.x1a)) ;>
  wif (IsSmartAccountActive m) (wbool (IsSmartAccountActive m) ;> wbyte Byte.x10) ;>
  wif (negb ((MaximumUnauthenticatedGas m) =? 0)) (wvarint (u64 (MaximumUnauthenticatedGas m)) ;> wbyte Byte.x08)).
Definition Params_Size (m : SaParams) : Z :=
  (if negb ((MaximumUnauthenticatedGas m) =? 0) then 1 + Sov (u64 (MaximumUnauthenticatedGas m)) else 0) +
  (if (IsSmartAccountActive m) then 2 else 0) +
  (if 0 <? Z.of_nat (length (CircuitBreakerControllers m)) then size_each (fun s => size_len (blen s)) (CircuitBreakerControllers m) else 0).
Definition Params_switch (fieldNum : Z) : option (action SaParams) :=
  match fieldNum with
  | 1 => Some (case_varint u64 (fun v m => (MkSaParams v (IsSmartAccountActive m) (CircuitBreakerControllers m))))
  | 2 => Some (case_bool (fun v m => (MkSaParams (MaximumUnauthenticatedGas m) v (CircuitBreakerControllers m))))
  | 3 => Some (case_strings CircuitBreakerControllers (fun v m => (MkSaParams (MaximumUnauthenticatedGas m) (IsSmartAccountActive m) v)))
  | _ => None
  end.
Definition Params_Unmarshal : bytes -> SaParams -> result wire_err SaParams := unmarshal Params_switch.
#[global] Instance saw_Params_msg : WireMsg SaParams := {|
  Size := Params_Size; MarshalToSizedBuffer := Params_MarshalToSizedBuffer;
  wUnmarshal := Params_Unmarshal; wZero := MkSaParams 0 false [] |}.
#[global] Instance saw_Params_ok : WireOk SaParams := fun m => is_u64 (MaximumUnauthenticatedGas m).
#[global] Instance saw_Params_laws : WireLaws SaParams.
Proof. wire_laws Params_switch. Qed.

(** [AuthenticatorData]. *)
Definition AuthenticatorData_MarshalToSizedBuffer (m : AuthenticatorData) : bytes -> result wire_err (bytes * Z) := sized (
  wif (0 <? Z.of_nat (length (ad_Authenticators m))) (wdown (ad_Authenticators m) (wsub Byte.x12)) ;>
  wif (0 <? blen (ad_Address m)) (wlen Byte.x0a (ad_Address m))).
Definition AuthenticatorData_Size (m : AuthenticatorData) : Z :=
  (if 0 <? blen (ad_Address m) then size_len (blen (ad_Address m)) else 0) +
  (if 0 <? Z.of_nat (length (ad_Authenticators m)) then size_each (fun e => size_len (Size e)) (ad_Authenticators m) else 0).
Definition AuthenticatorData_switch (fieldNum : Z) : option (action AuthenticatorData) :=
  match fieldNum with
  | 1 => Some (case_string (fun v m => (MkAuthenticatorData v (ad_Authenticators m))))
  | 2 => Some (case_rep ad_Authenticators (fun v m => (MkAuthenticatorData (ad_Address m) v)))
  | _ => None
  end.
Definition AuthenticatorData_Unmarshal : bytes -> AuthenticatorData -> result wire_err AuthenticatorData := unmarshal AuthenticatorData_switch.
#[global] Instance saw_AuthenticatorData_msg : WireMsg AuthenticatorData := {|
  Size := AuthenticatorData_Size; MarshalToSizedBuffer := AuthenticatorData_MarshalToSizedBuffer;
  wUnmarshal := AuthenticatorData_Unmarshal; wZero := MkAuthenticatorData [] [] |}.
#[global] Instance saw_AuthenticatorData_ok : WireOk AuthenticatorData := fun m => Forall wire_ok (ad_Authenticators m).
#[global] Instance saw_AuthenticatorData_laws : WireLaws AuthenticatorData.
Proof. wire_laws AuthenticatorData_switch. Qed.

(** [GenesisState]. *)
Definition GenesisState_MarshalToSizedBuffer (m : SaGenesis) : bytes -> result wire_err (bytes * Z) := sized (
  wif (0 <? Z.of_nat (length (gs_AuthenticatorData m))) (wdown (gs_AuthenticatorData m) (wsub Byte.x1a)) ;>
  wif (negb ((gs_NextAuthenticatorId m) =? 0)) (wvarint (u64 (gs_NextAuthenticatorId m)) ;> wbyte Byte.x10) ;>
  wsub Byte.x0a (gs_Params m)).
Definition GenesisState_Size (m : SaGenesis) : Z :=
  size_len (Size (gs_Params m)) +
  (if negb ((gs_NextAuthenticatorId m) =? 0) then 1 + Sov (u64 (gs_NextAuthenticatorId m)) else 0) +
  (if 0 <? Z.of_nat (length (gs_AuthenticatorData m)) then size_each (fun e => size_len (Size e)) (gs_AuthenticatorData m) else 0).
Definition GenesisState_switch (fieldNum : Z) : option (action SaGenesis) :=
  match fieldNum with
  | 1 => Some (case_sub gs_Params (fun v m => (MkSaGenesis v (gs_NextAuthenticatorId m) (gs_AuthenticatorData m))))
  | 2 => Some (case_varint u64 (fun v m => (MkSaGenesis (gs_Params m) v (gs_AuthenticatorData m))))
  | 3 => Some (case_rep gs_AuthenticatorData (fun v m => (MkSaGenesis (gs_Params m) (gs_NextAuthenticatorId m) v)))
  | _ => None
  end.
Definition GenesisState_Unmarshal : bytes -> SaGenesis -> result wire_err SaGenesis := unmarshal GenesisState_switch.
#[global] Instance saw_GenesisState_msg : WireMsg SaGenesis := {|
  Size := GenesisState_Size; MarshalToSizedBuffer := GenesisState_MarshalToSizedBuffer;
  wUnmarshal := GenesisState_Unmarshal; wZero := MkSaGenesis wZero 0 [] |}.
#[global] Instance saw_GenesisState_ok : WireOk SaGenesis := fun m => wire_ok (gs_Params m) /\ is_u64 (gs_NextAuthenticatorId m) /\ Forall wire_ok (gs_AuthenticatorData m).
#[global] Instance saw_GenesisState_laws : WireLaws SaGenesis.
Proof. wire_laws GenesisState_switch. Qed.

(** [MsgAddAuthenticator]. *)
Record MsgAddAuthenticator := MkMsgAddAuthenticator { MsgAddAuthenticator_Sender : bytes; MsgAddAuthenticator_AuthenticatorType : bytes; MsgAddAuthenticator_Data : bytes }.
Definition MsgAddAuthenticator_MarshalToSizedBuffer (m : MsgAddAuthenticator) : bytes -> result wire_err (bytes * Z) := sized (
  wif (0 <? blen (MsgAddAuthenticator_Data m)) (wlen Byte.x1a (MsgAddAuthenticator_Data m)) ;>
  wif (0 <? blen (MsgAddAuthenticator_AuthenticatorType m)) (wlen Byte.x12 (MsgAddAuthenticator_AuthenticatorType m)) ;>
  wif (0 <? blen (MsgAddAuthenticator_Sender m)) (wlen Byte.x0a (MsgAddAuthenticator_Sender m))).
Definition MsgAddAuthenticator_Size (m : MsgAddAuthenticator) : Z :=
  (if 0 <? blen (MsgAddAuthenticator_Sender m) then size_len (blen (MsgAddAuthenticator_Sender m)) else 0) +
  (if 0 <? blen (MsgAddAuthenticator_AuthenticatorType m) then size_len (blen (MsgAddAuthenticator_AuthenticatorType m)) else 0) +
  (if 0 <? blen (MsgAddAuthenticator_Data m) then size_len (blen (MsgAddAuthenticator_Data m)) else 0).
Definition MsgAddAuthenticator_switch (fieldNum : Z) : option (action MsgAddAuthenticator) :=
  match fieldNum with
  | 1 => Some (case_string (fun v m => (MkMsgAddAuthenticator v (MsgAddAuthenticator_AuthenticatorType m) (MsgAddAuthenticator_Data m))))
  | 2 => Some (case_string (fun v m => (MkMsgAddAuthenticator (MsgAddAuthenticator_Sender m) v (MsgAddAuthenticator_Data m))))
  | 3 => Some (case_bytes (fun v m => (MkMsgAddAuthenticator (MsgAddAuthenticator_Sender m) (MsgAddAuthenticator_AuthenticatorType m) v)))
  | _ => None
  end.
Definition MsgAddAuthenticator_Unmarshal : bytes -> MsgAddAuthenticator -> result wire_err MsgAddAuthenticator := unmarshal MsgAddAuthenticator_switch.
#[global] Instance saw_MsgAddAuthenticator_msg : WireMsg MsgAddAuthenticator := {|
  Size := MsgAddAuthenticator_Size; MarshalToSizedBuffer := MsgAddAuthenticator_MarshalToSizedBuffer;
  wUnmarshal := MsgAddAuthenticator_Unmarshal; wZero := MkMsgAddAuthenticator [] [] [] |}.
#[global] Instance saw_MsgAddAuthenticator_ok : WireOk MsgAddAuthenticator := fun m => True.
#[global] Instance saw_MsgAddAuthenticator_laws : WireLaws MsgAddAuthenticator.
Proof. wire_laws MsgAddAuthenticator_switch. Qed.

(** [MsgAddAuthenticatorResponse]. *)
Record MsgAddAuthenticatorResponse := MkMsgAddAuthenticatorResponse { MsgAddAuthenticatorResponse_Success : bool }.
Definition MsgAddAuthenticatorResponse_MarshalToSizedBuffer (m : MsgAddAuthenticatorResponse) : bytes -> result wire_err (bytes * Z) := sized (
  wif (MsgAddAuthenticatorResponse_Success m) (wbool (MsgAddAuthenticatorResponse_Success m) ;> wbyte Byte.x08)).
Definition MsgAddAuthenticatorResponse_Size (m : MsgAddAuthenticatorResponse) : Z :=
  (if (MsgAddAuthenticatorResponse_Success m) then 2 else 0).
Definition MsgAddAuthenticatorResponse_switch (fieldNum : Z) : option (action MsgAddAuthenticatorResponse) :=
  match fieldNum with
  | 1 => Some (case_bool (fun v m => (MkMsgAddAuthenticatorResponse v)))
  | _ => None
  end.
Definition MsgAddAuthenticatorResponse_Unmarshal : bytes -> MsgAddAuthenticatorResponse -> result wire_err MsgAddAuthenticatorResponse := unmarshal MsgAddAuthenticatorResponse_switch.
#[global] Instance saw_MsgAddAuthenticatorResponse_msg : WireMsg MsgAddAuthenticatorResponse := {|
  Size := MsgAddAuthenticatorResponse_Size; MarshalToSizedBuffer := MsgAddAuthenticatorResponse_MarshalToSizedBuffer;
  wUnmarshal := MsgAddAuthenticatorResponse_Unmarshal; wZero := MkMsgAddAuthenticatorResponse false |}.
#[global] Instance saw_MsgAddAuthenticatorResponse_ok : WireOk MsgAddAuthenticatorResponse := fun m => True.
#[global] Instance saw_MsgAddAuthenticatorResponse_laws : WireLaws MsgAddAuthenticatorResponse.
Proof. wire_laws MsgAddAuthenticatorResponse_switch. Qed.

(** [MsgRemoveAuthenticator]. *)
Record MsgRemoveAuthenticator := MkMsgRemoveAuthenticator { MsgRemoveAuthenticator_Sender : bytes; MsgRemoveAuthenticator_Id : Z }.
Definition MsgRemoveAuthenticator_MarshalToSizedBuffer (m : MsgRemoveAuthenticator) : bytes -> result wire_err (bytes * Z) := sized (
  wif (negb ((MsgRemoveAuthenticator_Id m) =? 0)) (wvarint (u64 (MsgRemoveAuthenticator_Id m)) ;> wbyte Byte.x10) ;>
  wif (0 <? blen (MsgRemoveAuthenticator_Sender m)) (wlen Byte.x0a (MsgRemoveAuthenticator_Sender m))).
Definition MsgRemoveAuthenticator_Size (m : MsgRemoveAuthenticator) : Z :=
  (if 0 <? blen (MsgRemoveAuthenticator_Sender m) then size_len (blen (MsgRemoveAuthenticator_Sender m)) else 0) +
  (if negb ((MsgRemoveAuthenticator_Id m) =? 0) then 1 + Sov (u64 (MsgRemoveAuthenticator_Id m)) else 0).
Definition MsgRemoveAuthenticator_switch (fieldNum : Z) : option (action MsgRemoveAuthenticator) :=
  match fieldNum with
  | 1 => Some (case_string (fun v m => (MkMsgRemoveAuthenticator v (MsgRemoveAuthenticator_Id m))))
  | 2 => Some (case_varint u64 (fun v m => (MkMsgRemoveAuthenticator (MsgRemoveAuthenticator_Sender m) v)))
  | _ => None
  end.
Definition MsgRemoveAuthenticator_Unmarshal : bytes -> MsgRemoveAuthenticator -> result wire_err MsgRemoveAuthenticator := unmarshal MsgRemoveAuthenticator_switch.
#[global] Instance saw_MsgRemoveAuthenticator_msg : WireMsg MsgRemoveAuthenticator := {|
  Size := MsgRemoveAuthenticator_Size; MarshalToSizedBuffer := MsgRemoveAuthenticator_MarshalToSizedBuffer;
  wUnmarshal := MsgRemoveAuthenticator_Unmarshal; wZero := MkMsgRemoveAuthenticator [] 0 |}.
#[global] Instance saw_MsgRemoveAuthenticator_ok : WireOk MsgRemoveAuthenticator := fun m => is_u64 (MsgRemoveAuthenticator_Id m).
#[global] Instance saw_MsgRemoveAuthenticator_laws : WireLaws MsgRemoveAuthenticator.
Proof. wire_laws MsgRemoveAuthenticator_switch. Qed.

(** [MsgRemoveAuthenticatorResponse]. *)
Record MsgRemoveAuthenticatorResponse := MkMsgRemoveAuthenticatorResponse { MsgRemoveAuthenticatorResponse_Success : bool }.
Definition MsgRemoveAuthenticatorResponse_MarshalToSizedBuffer (m : MsgRemoveAuthenticatorResponse) : bytes -> result wire_err (bytes * Z) := sized (
  wif (MsgRemoveAuthenticatorResponse_Success m) (wbool (MsgRemoveAuthenticatorResponse_Success m) ;> wbyte Byte.x08)).
Definition MsgRemoveAuthenticatorResponse_Size (m : MsgRemoveAuthenticatorResponse) : Z :=
  (if (MsgRemoveAuthenticatorResponse_Success m) then 2 else 0).
Definition MsgRemoveAuthenticatorResponse_switch (fieldNum : Z) : option (action MsgRemoveAuthenticatorResponse) :=
  match fieldNum with
  | 1 => Some (case_bool (fun v m => (MkMsgRemoveAuthenticatorResponse v)))
  | _ => None
  end.
Definition MsgRemoveAuthenticatorResponse_Unmarshal : bytes -> MsgRemoveAuthenticatorResponse -> result wire_err MsgRemoveAuthenticatorResponse := unmarshal MsgRemoveAuthenticatorResponse_switch.
#[global] Instance saw_MsgRemoveAuthenticatorResponse_msg : WireMsg MsgRemoveAuthenticatorResponse := {|
  Size := MsgRemoveAuthenticatorResponse_Size; MarshalToSizedBuffer := MsgRemoveAuthenticatorResponse_MarshalToSizedBuffer;
  wUnmarshal := MsgRemoveAuthenticatorResponse_Unmarshal; wZero := MkMsgRemoveAuthenticatorResponse false |}.
#[global] Instance saw_MsgRemoveAuthenticatorResponse_ok : WireOk MsgRemoveAuthenticatorResponse := fun m => True.
#[global] Instance saw_MsgRemoveAuthenticatorResponse_laws : WireLaws MsgRemoveAuthenticatorResponse.
Proof. wire_laws MsgRemoveAuthenticatorResponse_switch. Qed.

(** [MsgSetActiveState]. *)
Record MsgSetActiveState := MkMsgSetActiveState { MsgSetActiveState_Sender : bytes; MsgSetActiveState_Active : bool }.
Definition MsgSetActiveState_MarshalToSizedBuffer (m : MsgSetActiveState) : bytes -> result wire_err (bytes * Z) := sized (
  wif (MsgSetActiveState_Active m) (wbool (MsgSetActiveState_Active m) ;> wbyte Byte.x10) ;>
  wif (0 <? blen (MsgSetActiveState_Sender m)) (wlen Byte.x0a (MsgSetActiveState_Sender m))).
Definition MsgSetActiveState_Size (m : MsgSetActiveState) : Z :=
  (if 0 <? blen (MsgSetActiveState_Sender m) then size_len (blen (MsgSetActiveState_Sender m)) else 0) +
  (if (MsgSetActiveState_Active m) then 2 else 0).
Definition MsgSetActiveState_switch (fieldNum : Z) : option (action MsgSetActiveState) :=
  match fieldNum with
  | 1 => Some (case_string (fun v m => (MkMsgSetActiveState v (MsgSetActiveState_Active m))))
  | 2 => Some (case_bool (fun v m => (MkMsgSetActiveState (MsgSetActiveState_Sender m) v)))
  | _ => None
  end.
Definition MsgSetActiveState_Unmarshal : bytes -> MsgSetActiveState -> result wire_err MsgSetActiveState := unmarshal MsgSetActiveState_switch.
#[global] Instance saw_MsgSetActiveState_msg : WireMsg MsgSetActiveState := {|
  Size := MsgSetActiveState_Size; MarshalToSizedBuffer := MsgSetActiveState_MarshalToSizedBuffer;
  wUnmarshal := MsgSetActiveState_Unmarshal; wZero := MkMsgSetActiveState [] false |}.
#[global] Instance saw_MsgSetActiveState_ok : WireOk MsgSetActiveState := fun m => True.
#[global] Instance saw_MsgSetActiveState_laws : WireLaws MsgSetActiveState.
Proof. wire_laws MsgSetActiveState_switch. Qed.

(** [AgAuthData]. *)
Record AgAuthData := MkAgAuthData { AgAuthData_Data : bytes }.
Definition AgAuthData_MarshalToSizedBuffer (m : AgAuthData) : bytes -> result wire_err (bytes * Z) := sized (
  wif (0 <? blen (AgAuthData_Data m)) (wlen Byte.x0a (AgAuthData_Data m))).
Definition AgAuthData_Size (m : AgAuthData) : Z :=
  (if 0 <? blen (AgAuthData_Data m) then size_len (blen (AgAuthData_Data m)) else 0).
Definition AgAuthData_switch (fieldNum : Z) : option (action AgAuthData) :=
  match fieldNum with
  | 1 => Some (case_bytes (fun v m => (MkAgAuthData v)))
  | _ => None
  end.
Definition AgAuthData_Unmarshal : bytes -> AgAuthData -> result wire_err AgAuthData := unmarshal AgAuthData_switch.
#[global] Instance saw_AgAuthData_msg : WireMsg AgAuthData := {|
  Size := AgAuthData_Size; MarshalToSizedBuffer := AgAuthData_MarshalToSizedBuffer;
  wUnmarshal := AgAuthData_Unmarshal; wZero := MkAgAuthData [] |}.
#[global] Instance saw_AgAuthData_ok : WireOk AgAuthData := fun m => True.
#[global] Instance saw_AgAuthData_laws : WireLaws AgAuthData.
Proof. wire_laws AgAuthData_switch. Qed.

(** [TxExtension]. *)
Record TxExtension := MkTxExtension { TxExtension_SelectedAuthenticators : list Z; TxExtension_AggAuth : option AgAuthData }.
Definition TxExtension_MarshalToSizedBuffer (m : TxExtension) : bytes -> result wire_err (bytes * Z) := sized (
  (match (TxExtension_AggAuth m) with Some x => wsub Byte.x12 x | None => wskip end) ;>
  wif (0 <? Z.of_nat (length (TxExtension_SelectedAuthenticators m))) (wpacked (TxExtension_SelectedAuthenticators m) ;> wbyte Byte.x0a)).
Definition TxExtension_Size (m : TxExtension) : Z :=
  (if 0 <? Z.of_nat (length (TxExtension_SelectedAuthenticators m)) then 1 + Sov (size_each Sov (TxExtension_SelectedAuthenticators m)) + size_each Sov (TxExtension_SelectedAuthenticators m) else 0) +
  (match (TxExtension_AggAuth m) with Some x => size_len (Size x) | None => 0 end).
Definition TxExtension_switch (fieldNum : Z) : option (action TxExtension) :=
  match fieldNum with
  | 1 => Some (case_packed_list TxExtension_SelectedAuthenticators (fun v m => (MkTxExtension v (TxExtension_AggAuth m))))
  | 2 => Some (case_ptr TxExtension_AggAuth (fun v m => (MkTxExtension (TxExtension_SelectedAuthenticators m) v)))
  | _ => None
  end.
Definition TxExtension_Unmarshal : bytes -> TxExtension -> result wire_err TxExtension := unmarshal TxExtension_switch.
#[global] Instance saw_TxExtension_msg : WireMsg TxExtension := {|
  Size := TxExtension_Size; MarshalToSizedBuffer := TxExtension_MarshalToSizedBuffer;
  wUnmarshal := TxExtension_Unmarshal; wZero := MkTxExtension [] None |}.
#[global] Instance saw_TxExtension_ok : WireOk TxExtension := fun m => Forall is_u64 (TxExtension_SelectedAuthenticators m) /\ opt_ok (TxExtension_AggAuth m).
#[global] Instance saw_TxExtension_laws : WireLaws TxExtension.
Proof. wire_laws TxExtension_switch. Qed.

(** [BlsConfig]. *)
Record BlsConfig := MkBlsConfig { BlsConfig_Pubkeys : list bytes; BlsConfig_Threshold : Z }.
Definition BlsConfig_MarshalToSizedBuffer (m : BlsConfig) : bytes -> result wire_err (bytes * Z) := sized (
  wif (negb ((BlsConfig_Threshold m) =? 0)) (wvarint (u64 (BlsConfig_Threshold m)) ;> wbyte Byte.x10) ;>
  wif (0 <? Z.of_nat (length (BlsConfig_Pubkeys m))) (wdown (BlsConfig_Pubkeys m) (wlen Byte.x0a))).
Definition BlsConfig_Size (m : BlsConfig) : Z :=
  (if 0 <? Z.of_nat (length (BlsConfig_Pubkeys m)) then size_each (fun s => size_len (blen s)) (BlsConfig_Pubkeys m) else 0) +
  (if negb ((BlsConfig_Threshold m) =? 0) then 1 + Sov (u64 (BlsConfig_Threshold m)) else 0).
Definition BlsConfig_switch (fieldNum : Z) : option (action BlsConfig) :=
  match fieldNum with
  | 1 => Some (case_byteses BlsConfig_Pubkeys (fun v m => (MkBlsConfig v (BlsConfig_Threshold m))))
  | 2 => Some (case_varint u64 (fun v m => (MkBlsConfig (BlsConfig_Pubkeys m) v)))
  | _ => None
  end.
Definition BlsConfig_Unmarshal : bytes -> BlsConfig -> result wire_err BlsConfig := unmarshal BlsConfig_switch.
#[global] Instance saw_BlsConfig_msg : WireMsg BlsConfig := {|
  Size := BlsConfig_Size; MarshalToSizedBuffer := BlsConfig_MarshalToSizedBuffer;
  wUnmarshal := BlsConfig_Unmarshal; wZero := MkBlsConfig [] 0 |}.
#[global] Instance saw_BlsConfig_ok : WireOk BlsConfig := fun m => is_u64 (BlsConfig_Threshold m).
#[global] Instance saw_BlsConfig_laws : WireLaws BlsConfig.
Proof. wire_laws BlsConfig_switch. Qed.

(** [QueryParamsResponse]. *)
Record QueryParamsResponse := MkQueryParamsResponse { QueryParamsResponse_Params : SaParams }.
Definition QueryParamsResponse_MarshalToSizedBuffer (m : QueryParamsResponse) : bytes -> result wire_err (bytes * Z) := sized (
  wsub Byte.x0a (QueryParamsResponse_Params m)).
Definition QueryParamsResponse_Size (m : QueryParamsResponse) : Z :=
  size_len (Size (QueryParamsResponse_Params m)).
Definition QueryParamsResponse_switch (fieldNum : Z) : option (action QueryParamsResponse) :=
  match fieldNum with
  | 1 => Some (case_sub QueryParamsResponse_Params (fun v m => (MkQueryParamsResponse v)))
  | _ => None
  end.
Definition QueryParamsResponse_Unmarshal : bytes -> QueryParamsResponse -> result wire_err QueryParamsResponse := unmarshal QueryParamsResponse_switch.
#[global] Instance saw_QueryParamsResponse_msg : WireMsg QueryParamsResponse := {|
  Size := QueryParamsResponse_Size; MarshalToSizedBuffer := QueryParamsResponse_MarshalToSizedBuffer;
  wUnmarshal := QueryParamsResponse_Unmarshal; wZero := MkQueryParamsResponse wZero |}.
#[global] Instance saw_QueryParamsResponse_ok : WireOk QueryParamsResponse := fun m => wire_ok (QueryParamsResponse_Params m).
#[global] Instance saw_QueryParamsResponse_laws : WireLaws QueryParamsResponse.
Proof. wire_laws QueryParamsResponse_switch. Qed.

(** [GetAuthenticatorsRequest]. *)
Record GetAuthenticatorsRequest := MkGetAuthenticatorsRequest { GetAuthenticatorsRequest_Account : bytes }.
Definition GetAuthenticatorsRequest_MarshalToSizedBuffer (m : GetAuthenticatorsRequest) : bytes -> result wire_err (bytes * Z) := sized (
  wif (0 <? blen (GetAuthenticatorsRequest_Account m)) (wlen Byte.x0a (GetAuthenticatorsRequest_Account m))).
Definition GetAuthenticatorsRequest_Size (m : GetAuthenticatorsRequest) : Z :=
  (if 0 <? blen (GetAuthenticatorsRequest_Account m) then size_len (blen (GetAuthenticatorsRequest_Account m)) else 0).
Definition GetAuthenticatorsRequest_switch (fieldNum : Z) : option (action GetAuthenticatorsRequest) :=
  match fieldNum with
  | 1 => Some (case_string (fun v m => (MkGetAuthenticatorsRequest v)))
  | _ => None
  end.
Definition GetAuthenticatorsRequest_Unmarshal : bytes -> GetAuthenticatorsRequest -> result wire_err GetAuthenticatorsRequest := unmarshal GetAuthenticatorsRequest_switch.
#[global] Instance saw_GetAuthenticatorsRequest_msg : WireMsg GetAuthenticatorsRequest := {|
  Size := GetAuthenticatorsRequest_Size; MarshalToSizedBuffer := GetAuthenticatorsRequest_MarshalToSizedBuffer;
  wUnmarshal := GetAuthenticatorsRequest_Unmarshal; wZero := MkGetAuthenticatorsRequest [] |}.
#[global] Instance saw_GetAuthenticatorsRequest_ok : WireOk GetAuthenticatorsRequest := fun m => True.
#[global] Instance saw_GetAuthenticatorsRequest_laws : WireLaws GetAuthenticatorsRequest.
Proof. wire_laws GetAuthenticatorsRequest_switch. Qed.

(** [GetAuthenticatorsResponse]. *)
Record GetAuthenticatorsResponse := MkGetAuthenticatorsResponse { GetAuthenticatorsResponse_AccountAuthenticators : list (option AccountAuthenticator) }.
Definition GetAuthenticatorsResponse_MarshalToSizedBuffer (m : GetAuthenticatorsResponse) : bytes -> result wire_err (bytes * Z) := sized (
  wif (0 <? Z.of_nat (length (GetAuthenticatorsResponse_AccountAuthenticators m))) (wdown (GetAuthenticatorsResponse_AccountAuthenticators m) (wsub_ptr Byte.x0a))).
Definition GetAuthenticatorsResponse_Size (m : GetAuthenticatorsResponse) : Z :=
  (if 0 <? Z.of_nat (length (GetAuthenticatorsResponse_AccountAuthenticators m)) then size_each (fun e => size_len (size_ptr e)) (GetAuthenticatorsResponse_AccountAuthenticators m) else 0).
Definition GetAuthenticatorsResponse_switch (fieldNum : Z) : option (action GetAuthenticatorsResponse) :=
  match fieldNum with
  | 1 => Some (case_rep_ptr GetAuthenticatorsResponse_AccountAuthenticators (fun v m => (MkGetAuthenticatorsResponse v)))
  | _ => None
  end.
Definition GetAuthenticatorsResponse_Unmarshal : bytes -> GetAuthenticatorsResponse -> result wire_err GetAuthenticatorsResponse := unmarshal GetAuthenticatorsResponse_switch.
#[global] Instance saw_GetAuthenticatorsResponse_msg : WireMsg GetAuthenticatorsResponse := {|
  Size := GetAuthenticatorsResponse_Size; MarshalToSizedBuffer := GetAuthenticatorsResponse_MarshalToSizedBuffer;
  wUnmarshal := GetAuthenticatorsResponse_Unmarshal; wZero := MkGetAuthenticatorsResponse [] |}.
#[global] Instance saw_GetAuthenticatorsResponse_ok : WireOk GetAuthenticatorsResponse := fun m => Forall (ptr wire_ok) (GetAuthenticatorsResponse_AccountAuthenticators m).
#[global] Instance saw_GetAuthenticatorsResponse_laws : WireLaws GetAuthenticatorsResponse.
Proof. wire_laws GetAuthenticatorsResponse_switch. Qed.

(** [GetAuthenticatorRequest]. *)
Record GetAuthenticatorRequest := MkGetAuthenticatorRequest { GetAuthenticatorRequest_Account : bytes; GetAuthenticatorRequest_AuthenticatorId : Z }.
Definition GetAuthenticatorRequest_MarshalToSizedBuffer (m : GetAuthenticatorRequest) : bytes -> result wire_err (bytes * Z) := sized (
  wif (negb ((GetAuthenticatorRequest_AuthenticatorId m) =? 0)) (wvarint (u64 (GetAuthenticatorRequest_AuthenticatorId m)) ;> wbyte Byte.x10) ;>
  wif (0 <? blen (GetAuthenticatorRequest_Account m)) (wlen Byte.x0a (GetAuthenticatorRequest_Account m))).
Definition GetAuthenticatorRequest_Size (m : GetAuthenticatorRequest) : Z :=
  (if 0 <? blen (GetAuthenticatorRequest_Account m) then size_len (blen (GetAuthenticatorRequest_Account m)) else 0) +
  (if negb ((GetAuthenticatorRequest_AuthenticatorId m) =? 0) then 1 + Sov (u64 (GetAuthenticatorRequest_AuthenticatorId m)) else 0).
Definition GetAuthenticatorRequest_switch (fieldNum : Z) : option (action GetAuthenticatorRequest) :=
  match fieldNum with
  | 1 => Some (case_string (fun v m => (MkGetAuthenticatorRequest v (GetAuthenticatorRequest_AuthenticatorId m))))
  | 2 => Some (case_varint u64 (fun v m => (MkGetAuthenticatorRequest (GetAuthenticatorRequest_Account m) v)))
  | _ => None
  end.
Definition GetAuthenticatorRequest_Unmarshal : bytes -> GetAuthenticatorRequest -> result wire_err GetAuthenticatorRequest := unmarshal GetAuthenticatorRequest_switch.
#[global] Instance saw_GetAuthenticatorRequest_msg : WireMsg GetAuthenticatorRequest := {|
  Size := GetAuthenticatorRequest_Size; MarshalToSizedBuffer := GetAuthenticatorRequest_MarshalToSizedBuffer;
  wUnmarshal := GetAuthenticatorRequest_Unmarshal; wZero := MkGetAuthenticatorRequest [] 0 |}.
#[global] Instance saw_GetAuthenticatorRequest_ok : WireOk GetAuthenticatorRequest := fun m => is_u64 (GetAuthenticatorRequest_AuthenticatorId m).
#[global] Instance saw_GetAuthenticatorRequest_laws : WireLaws GetAuthenticatorRequest.
Proof. wire_laws GetAuthenticatorRequest_switch. Qed.

(** [GetAuthenticatorResponse]. *)
Record GetAuthenticatorResponse := MkGetAuthenticatorResponse { GetAuthenticatorResponse_AccountAuthenticator : option AccountAuthenticator }.
Definition GetAuthenticatorResponse_MarshalToSizedBuffer (m : GetAuthenticatorResponse) : bytes -> result wire_err (bytes * Z) := sized (
  (match (GetAuthenticatorResponse_AccountAuthenticator m) with Some x => wsub Byte.x0a x | None => wskip end)).
Definition GetAuthenticatorResponse_Size (m : GetAuthenticatorResponse) : Z :=
  (match (GetAuthenticatorResponse_AccountAuthenticator m) with Some x => size_len (Size x) | None => 0 end).
Definition GetAuthenticatorResponse_switch (fieldNum : Z) : option (action GetAuthenticatorResponse) :=
  match fieldNum with
  | 1 => Some (case_ptr GetAuthenticatorResponse_AccountAuthenticator (fun v m => (MkGetAuthenticatorResponse v)))
  | _ => None
  end.
Definition GetAuthenticatorResponse_Unmarshal : bytes -> GetAuthenticatorResponse -> result wire_err GetAuthenticatorResponse := unmarshal GetAuthenticatorResponse_switch.
#[global] Instance saw_GetAuthenticatorResponse_msg : WireMsg GetAuthenticatorResponse := {|
  Size := GetAuthenticatorResponse_Size; MarshalToSizedBuffer := GetAuthenticatorResponse_MarshalToSizedBuffer;
  wUnmarshal := GetAuthenticatorResponse_Unmarshal; wZero := MkGetAuthenticatorResponse None |}.
#[global] Instance saw_GetAuthenticatorResponse_ok : WireOk GetAuthenticatorResponse := fun m => opt_ok (GetAuthenticatorResponse_AccountAuthenticator m).
#[global] Instance saw_GetAuthenticatorResponse_laws : WireLaws GetAuthenticatorResponse.
Proof. wire_laws GetAuthenticatorResponse_switch. Qed.
