(* ===== verification/WireTf.v ===== *)
(** * tokenfactory: the protobuf codec

    [x/tokenfactory/types/*.pb.go]: [MarshalToSizedBuffer], [Size] and
    [Unmarshal] of every message with fields. The codecs of [Coin] and of the
    bank's [Metadata] belong to other modules. *)

From S2P Require Import Prelude Proto Sdk TokenFactory Wire WireLaws.

Open Scope go_scope.
#[local] Existing Instance generated.

Section Codec.
Context {Metadata : Type} `{WireLaws Metadata} `{WireMsg Coin} `{WireFull Coin} `{!WireLaws Coin}.

(** [DenomAuthorityMetadata]. *)
Definition DenomAuthorityMetadata_MarshalToSizedBuffer (m : DenomAuthorityMetadata) : bytes -> result wire_err (bytes * Z) := sized (
  wif (0 <? blen (Admin m)) (wlen Byte.x0a (Admin m))).
Definition DenomAuthorityMetadata_Size (m : DenomAuthorityMetadata) : Z :=
  (if 0 <? blen (Admin m) then size_len (blen (Admin m)) else 0).
Definition DenomAuthorityMetadata_switch (fieldNum : Z) : option (action DenomAuthorityMetadata) :=
  match fieldNum with
  | 1 => Some (case_string (fun v m => (MkAuthority v)))
  | _ => None
  end.
Definition DenomAuthorityMetadata_Unmarshal : bytes -> DenomAuthorityMetadata -> result wire_err DenomAuthorityMetadata := unmarshal DenomAuthorityMetadata_switch.
#[global] Instance tfw_DenomAuthorityMetadata_msg : WireMsg DenomAuthorityMetadata := {|
  Size := DenomAuthorityMetadata_Size; MarshalToSizedBuffer := DenomAuthorityMetadata_MarshalToSizedBuffer;
  wUnmarshal := DenomAuthorityMetadata_Unmarshal; wZero := MkAuthority [] |}.
#[global] Instance tfw_DenomAuthorityMetadata_ok : WireOk DenomAuthorityMetadata := fun m => True.
#[global] Instance tfw_DenomAuthorityMetadata_laws : WireLaws DenomAuthorityMetadata.
Proof. wire_laws DenomAuthorityMetadata_switch. Qed.

(** [Params]. *)
Record Params := MkParams { Params_DenomCreationFee : list Coin; Params_DenomCreationGasConsume : Z }.
Definition Params_MarshalToSizedBuffer (m : Params) : bytes -> result wire_err (bytes * Z) := sized (
  wif (negb ((Params_DenomCreationGasConsume m) =? 0)) (wvarint (u64 (Params_DenomCreationGasConsume m)) ;> wbyte Byte.x10) ;>
  wif (0 <? Z.of_nat (length (Params_DenomCreationFee m))) (wdown (Params_DenomCreationFee m) (wsub Byte.x0a))).
Definition Params_Size (m : Params) : Z :=
  (if 0 <? Z.of_nat (length (Params_DenomCreationFee m)) then size_each (fun e => size_len (Size e)) (Params_DenomCreationFee m) else 0) +
  (if negb ((Params_DenomCreationGasConsume m) =? 0) then 1 + Sov (u64 (Params_DenomCreationGasConsume m)) else 0).
Definition Params_switch (fieldNum : Z) : option (action Params) :=
  match fieldNum with
  | 1 => Some (case_rep Params_DenomCreationFee (fun v m => (MkParams v (Params_DenomCreationGasConsume m))))
  | 2 => Some (case_varint u64 (fun v m => (MkParams (Params_DenomCreationFee m) v)))
  | _ => None
  end.
Definition Params_Unmarshal : bytes -> Params -> result wire_err Params := unmarshal Params_switch.
#[global] Instance tfw_Params_msg : WireMsg Params := {|
  Size := Params_Size; MarshalToSizedBuffer := Params_MarshalToSizedBuffer;
  wUnmarshal := Params_Unmarshal; wZero := MkParams [] 0 |}.
#[global] Instance tfw_Params_ok : WireOk Params := fun m => is_u64 (Params_DenomCreationGasConsume m).
#[global] Instance tfw_Params_full : WireFull Params := fun m => Forall wire_full (Params_DenomCreationFee m).
#[global] Instance tfw_Params_laws : WireLaws Params.
Proof. wire_laws Params_switch. Qed.

(** [GenesisDenom]. *)
Definition GenesisDenom_MarshalToSizedBuffer (m : GenesisDenom) : bytes -> result wire_err (bytes * Z) := sized (
  wsub Byte.x12 (gd_AuthorityMetadata m) ;>
  wif (0 <? blen (gd_Denom m)) (wlen Byte.x0a (gd_Denom m))).
Definition GenesisDenom_Size (m : GenesisDenom) : Z :=
  (if 0 <? blen (gd_Denom m) then size_len (blen (gd_Denom m)) else 0) +
  size_len (Size (gd_AuthorityMetadata m)).
Definition GenesisDenom_switch (fieldNum : Z) : option (action GenesisDenom) :=
  match fieldNum with
  | 1 => Some (case_string (fun v m => (MkGenesisDenom v (gd_AuthorityMetadata m))))
  | 2 => Some (case_sub gd_AuthorityMetadata (fun v m => (MkGenesisDenom (gd_Denom m) v)))
  | _ => None
  end.
Definition GenesisDenom_Unmarshal : bytes -> GenesisDenom -> result wire_err GenesisDenom := unmarshal GenesisDenom_switch.
#[global] Instance tfw_GenesisDenom_msg : WireMsg GenesisDenom := {|
  Size := GenesisDenom_Size; MarshalToSizedBuffer := GenesisDenom_MarshalToSizedBuffer;
  wUnmarshal := GenesisDenom_Unmarshal; wZero := MkGenesisDenom [] wZero |}.
#[global] Instance tfw_GenesisDenom_ok : WireOk GenesisDenom := fun m => wire_ok (gd_AuthorityMetadata m).
#[global] Instance tfw_GenesisDenom_laws : WireLaws GenesisDenom.
Proof. wire_laws GenesisDenom_switch. Qed.

(** [GenesisState]. *)
Record GenesisState := MkGenesisState { GenesisState_Params : Params; GenesisState_FactoryDenoms : list GenesisDenom }.
Definition GenesisState_MarshalToSizedBuffer (m : GenesisState) : bytes -> result wire_err (bytes * Z) := sized (
  wif (0 <? Z.of_nat (length (GenesisState_FactoryDenoms m))) (wdown (GenesisState_FactoryDenoms m) (wsub Byte.x12)) ;>
  wsub Byte.x0a (GenesisState_Params m)).
Definition GenesisState_Size (m : GenesisState) : Z :=
  size_len (Size (GenesisState_Params m)) +
  (if 0 <? Z.of_nat (length (GenesisState_FactoryDenoms m)) then size_each (fun e => size_len (Size e)) (GenesisState_FactoryDenoms m) else 0).
Definition GenesisState_switch (fieldNum : Z) : option (action GenesisState) :=
  match fieldNum with
  | 1 => Some (case_sub GenesisState_Params (fun v m => (MkGenesisState v (GenesisState_FactoryDenoms m))))
  | 2 => Some (case_rep GenesisState_FactoryDenoms (fun v m => (MkGenesisState (GenesisState_Params m) v)))
  | _ => None
  end.
Definition GenesisState_Unmarshal : bytes -> GenesisState -> result wire_err GenesisState := unmarshal GenesisState_switch.
#[global] Instance tfw_GenesisState_msg : WireMsg GenesisState := {|
  Size := GenesisState_Size; MarshalToSizedBuffer := GenesisState_MarshalToSizedBuffer;
  wUnmarshal := GenesisState_Unmarshal; wZero := MkGenesisState wZero [] |}.
#[global] Instance tfw_GenesisState_ok : WireOk GenesisState := fun m => wire_ok (GenesisState_Params m) /\ Forall wire_ok (GenesisState_FactoryDenoms m).
#[global] Instance tfw_GenesisState_full : WireFull GenesisState := fun m => wire_full (GenesisState_Params m).
#[global] Instance tfw_GenesisState_laws : WireLaws GenesisState.
Proof. wire_laws GenesisState_switch. Qed.

(** [MsgCreateDenom]. *)
Record MsgCreateDenom := MkMsgCreateDenom { MsgCreateDenom_Sender : bytes; MsgCreateDenom_Subdenom : bytes }.
Definition MsgCreateDenom_MarshalToSizedBuffer (m : MsgCreateDenom) : bytes -> result wire_err (bytes * Z) := sized (
  wif (0 <? blen (MsgCreateDenom_Subdenom m)) (wlen Byte.x12 (MsgCreateDenom_Subdenom m)) ;>
  wif (0 <? blen (MsgCreateDenom_Sender m)) (wlen Byte.x0a (MsgCreateDenom_Sender m))).
Definition MsgCreateDenom_Size (m : MsgCreateDenom) : Z :=
  (if 0 <? blen (MsgCreateDenom_Sender m) then size_len (blen (MsgCreateDenom_Sender m)) else 0) +
  (if 0 <? blen (MsgCreateDenom_Subdenom m) then size_len (blen (MsgCreateDenom_Subdenom m)) else 0).
Definition MsgCreateDenom_switch (fieldNum : Z) : option (action MsgCreateDenom) :=
  match fieldNum with
  | 1 => Some (case_string (fun v m => (MkMsgCreateDenom v (MsgCreateDenom_Subdenom m))))
  | 2 => Some (case_string (fun v m => (MkMsgCreateDenom (MsgCreateDenom_Sender m) v)))
  | _ => None
  end.
Definition MsgCreateDenom_Unmarshal : bytes -> MsgCreateDenom -> result wire_err MsgCreateDenom := unmarshal MsgCreateDenom_switch.
#[global] Instance tfw_MsgCreateDenom_msg : WireMsg MsgCreateDenom := {|
  Size := MsgCreateDenom_Size; MarshalToSizedBuffer := MsgCreateDenom_MarshalToSizedBuffer;
  wUnmarshal := MsgCreateDenom_Unmarshal; wZero := MkMsgCreateDenom [] [] |}.
#[global] Instance tfw_MsgCreateDenom_ok : WireOk MsgCreateDenom := fun m => True.
#[global] Instance tfw_MsgCreateDenom_laws : WireLaws MsgCreateDenom.
Proof. wire_laws MsgCreateDenom_switch. Qed.

(** [MsgCreateDenomResponse]. *)
Record MsgCreateDenomResponse := MkMsgCreateDenomResponse { MsgCreateDenomResponse_NewTokenDenom : bytes }.
Definition MsgCreateDenomResponse_MarshalToSizedBuffer (m : MsgCreateDenomResponse) : bytes -> result wire_err (bytes * Z) := sized (
  wif (0 <? blen (MsgCreateDenomResponse_NewTokenDenom m)) (wlen Byte.x0a (MsgCreateDenomResponse_NewTokenDenom m))).
Definition MsgCreateDenomResponse_Size (m : MsgCreateDenomResponse) : Z :=
  (if 0 <? blen (MsgCreateDenomResponse_NewTokenDenom m) then size_len (blen (MsgCreateDenomResponse_NewTokenDenom m)) else 0).
Definition MsgCreateDenomResponse_switch (fieldNum : Z) : option (action MsgCreateDenomResponse) :=
  match fieldNum with
  | 1 => Some (case_string (fun v m => (MkMsgCreateDenomResponse v)))
  | _ => None
  end.
Definition MsgCreateDenomResponse_Unmarshal : bytes -> MsgCreateDenomResponse -> result wire_err MsgCreateDenomResponse := unmarshal MsgCreateDenomResponse_switch.
#[global] Instance tfw_MsgCreateDenomResponse_msg : WireMsg MsgCreateDenomResponse := {|
  Size := MsgCreateDenomResponse_Size; MarshalToSizedBuffer := MsgCreateDenomResponse_MarshalToSizedBuffer;
  wUnmarshal := MsgCreateDenomResponse_Unmarshal; wZero := MkMsgCreateDenomResponse [] |}.
#[global] Instance tfw_MsgCreateDenomResponse_ok : WireOk MsgCreateDenomResponse := fun m => True.
#[global] Instance tfw_MsgCreateDenomResponse_laws : WireLaws MsgCreateDenomResponse.
Proof. wire_laws MsgCreateDenomResponse_switch. Qed.

(** [MsgMint]. *)
Record MsgMint := MkMsgMint { MsgMint_Sender : bytes; MsgMint_Amount : Coin; MsgMint_MintToAddress : bytes }.
Definition MsgMint_MarshalToSizedBuffer (m : MsgMint) : bytes -> result wire_err (bytes * Z) := sized (
  wif (0 <? blen (MsgMint_MintToAddress m)) (wlen Byte.x1a (MsgMint_MintToAddress m)) ;>
  wsub Byte.x12 (MsgMint_Amount m) ;>
  wif (0 <? blen (MsgMint_Sender m)) (wlen Byte.x0a (MsgMint_Sender m))).
Definition MsgMint_Size (m : MsgMint) : Z :=
  (if 0 <? blen (MsgMint_Sender m) then size_len (blen (MsgMint_Sender m)) else 0) +
  size_len (Size (MsgMint_Amount m)) +
  (if 0 <? blen (MsgMint_MintToAddress m) then size_len (blen (MsgMint_MintToAddress m)) else 0).
Definition MsgMint_switch (fieldNum : Z) : option (action MsgMint) :=
  match fieldNum with
  | 1 => Some (case_string (fun v m => (MkMsgMint v (MsgMint_Amount m) (MsgMint_MintToAddress m))))
  | 2 => Some (case_sub MsgMint_Amount (fun v m => (MkMsgMint (MsgMint_Sender m) v (MsgMint_MintToAddress m))))
  | 3 => Some (case_string (fun v m => (MkMsgMint (MsgMint_Sender m) (MsgMint_Amount m) v)))
  | _ => None
  end.
Definition MsgMint_Unmarshal : bytes -> MsgMint -> result wire_err MsgMint := unmarshal MsgMint_switch.
#[global] Instance tfw_MsgMint_msg : WireMsg MsgMint := {|
  Size := MsgMint_Size; MarshalToSizedBuffer := MsgMint_MarshalToSizedBuffer;
  wUnmarshal := MsgMint_Unmarshal; wZero := MkMsgMint [] wZero [] |}.
#[global] Instance tfw_MsgMint_ok : WireOk MsgMint := fun m => True.
#[global] Instance tfw_MsgMint_full : WireFull MsgMint := fun m => wire_full (MsgMint_Amount m).
#[global] Instance tfw_MsgMint_laws : WireLaws MsgMint.
Proof. wire_laws MsgMint_switch. Qed.

(** [MsgBurn]. *)
Record MsgBurn := MkMsgBurn { MsgBurn_Sender : bytes; MsgBurn_Amount : Coin; MsgBurn_BurnFromAddress : bytes }.
Definition MsgBurn_MarshalToSizedBuffer (m : MsgBurn) : bytes -> result wire_err (bytes * Z) := sized (
  wif (0 <? blen (MsgBurn_BurnFromAddress m)) (wlen Byte.x1a (MsgBurn_BurnFromAddress m)) ;>
  wsub Byte.x12 (MsgBurn_Amount m) ;>
  wif (0 <? blen (MsgBurn_Sender m)) (wlen Byte.x0a (MsgBurn_Sender m))).
Definition MsgBurn_Size (m : MsgBurn) : Z :=
  (if 0 <? blen (MsgBurn_Sender m) then size_len (blen (MsgBurn_Sender m)) else 0) +
  size_len (Size (MsgBurn_Amount m)) +
  (if 0 <? blen (MsgBurn_BurnFromAddress m) then size_len (blen (MsgBurn_BurnFromAddress m)) else 0).
Definition MsgBurn_switch (fieldNum : Z) : option (action MsgBurn) :=
  match fieldNum with
  | 1 => Some (case_string (fun v m => (MkMsgBurn v (MsgBurn_Amount m) (MsgBurn_BurnFromAddress m))))
  | 2 => Some (case_sub MsgBurn_Amount (fun v m => (MkMsgBurn (MsgBurn_Sender m) v (MsgBurn_BurnFromAddress m))))
  | 3 => Some (case_string (fun v m => (MkMsgBurn (MsgBurn_Sender m) (MsgBurn_Amount m) v)))
  | _ => None
  end.
Definition MsgBurn_Unmarshal : bytes -> MsgBurn -> result wire_err MsgBurn := unmarshal MsgBurn_switch.
#[global] Instance tfw_MsgBurn_msg : WireMsg MsgBurn := {|
  Size := MsgBurn_Size; MarshalToSizedBuffer := MsgBurn_MarshalToSizedBuffer;
  wUnmarshal := MsgBurn_Unmarshal; wZero := MkMsgBurn [] wZero [] |}.
#[global] Instance tfw_MsgBurn_ok : WireOk MsgBurn := fun m => True.
#[global] Instance tfw_MsgBurn_full : WireFull MsgBurn := fun m => wire_full (MsgBurn_Amount m).
#[global] Instance tfw_MsgBurn_laws : WireLaws MsgBurn.
Proof. wire_laws MsgBurn_switch. Qed.

(** [MsgChangeAdmin]. *)
Record MsgChangeAdmin := MkMsgChangeAdmin { MsgChangeAdmin_Sender : bytes; MsgChangeAdmin_Denom : bytes; MsgChangeAdmin_NewAdmin : bytes }.
Definition MsgChangeAdmin_MarshalToSizedBuffer (m : MsgChangeAdmin) : bytes -> result wire_err (bytes * Z) := sized (
  wif (0 <? blen (MsgChangeAdmin_NewAdmin m)) (wlen Byte.x1a (MsgChangeAdmin_NewAdmin m)) ;>
  wif (0 <? blen (MsgChangeAdmin_Denom m)) (wlen Byte.x12 (MsgChangeAdmin_Denom m)) ;>
  wif (0 <? blen (MsgChangeAdmin_Sender m)) (wlen Byte.x0a (MsgChangeAdmin_Sender m))).
Definition MsgChangeAdmin_Size (m : MsgChangeAdmin) : Z :=
  (if 0 <? blen (MsgChangeAdmin_Sender m) then size_len (blen (MsgChangeAdmin_Sender m)) else 0) +
  (if 0 <? blen (MsgChangeAdmin_Denom m) then size_len (blen (MsgChangeAdmin_Denom m)) else 0) +
  (if 0 <? blen (MsgChangeAdmin_NewAdmin m) then size_len (blen (MsgChangeAdmin_NewAdmin m)) else 0).
Definition MsgChangeAdmin_switch (fieldNum : Z) : option (action MsgChangeAdmin) :=
  match fieldNum with
  | 1 => Some (case_string (fun v m => (MkMsgChangeAdmin v (MsgChangeAdmin_Denom m) (MsgChangeAdmin_NewAdmin m))))
  | 2 => Some (case_string (fun v m => (MkMsgChangeAdmin (MsgChangeAdmin_Sender m) v (MsgChangeAdmin_NewAdmin m))))
  | 3 => Some (case_string (fun v m => (MkMsgChangeAdmin (MsgChangeAdmin_Sender m) (MsgChangeAdmin_Denom m) v)))
  | _ => None
  end.
Definition MsgChangeAdmin_Unmarshal : bytes -> MsgChangeAdmin -> result wire_err MsgChangeAdmin := unmarshal MsgChangeAdmin_switch.
#[global] Instance tfw_MsgChangeAdmin_msg : WireMsg MsgChangeAdmin := {|
  Size := MsgChangeAdmin_Size; MarshalToSizedBuffer := MsgChangeAdmin_MarshalToSizedBuffer;
  wUnmarshal := MsgChangeAdmin_Unmarshal; wZero := MkMsgChangeAdmin [] [] [] |}.
#[global] Instance tfw_MsgChangeAdmin_ok : WireOk MsgChangeAdmin := fun m => True.
#[global] Instance tfw_MsgChangeAdmin_laws : WireLaws MsgChangeAdmin.
Proof. wire_laws MsgChangeAdmin_switch. Qed.

(** [MsgSetDenomMetadata]. *)
Record MsgSetDenomMetadata := MkMsgSetDenomMetadata { MsgSetDenomMetadata_Sender : bytes; MsgSetDenomMetadata_Metadata : Metadata }.
Definition MsgSetDenomMetadata_MarshalToSizedBuffer (m : MsgSetDenomMetadata) : bytes -> result wire_err (bytes * Z) := sized (
  wsub Byte.x12 (MsgSetDenomMetadata_Metadata m) ;>
  wif (0 <? blen (MsgSetDenomMetadata_Sender m)) (wlen Byte.x0a (MsgSetDenomMetadata_Sender m))).
Definition MsgSetDenomMetadata_Size (m : MsgSetDenomMetadata) : Z :=
  (if 0 <? blen (MsgSetDenomMetadata_Sender m) then size_len (blen (MsgSetDenomMetadata_Sender m)) else 0) +
  size_len (Size (MsgSetDenomMetadata_Metadata m)).
Definition MsgSetDenomMetadata_switch (fieldNum : Z) : option (action MsgSetDenomMetadata) :=
  match fieldNum with
  | 1 => Some (case_string (fun v m => (MkMsgSetDenomMetadata v (MsgSetDenomMetadata_Metadata m))))
  | 2 => Some (case_sub MsgSetDenomMetadata_Metadata (fun v m => (MkMsgSetDenomMetadata (MsgSetDenomMetadata_Sender m) v)))
  | _ => None
  end.
Definition MsgSetDenomMetadata_Unmarshal : bytes -> MsgSetDenomMetadata -> result wire_err MsgSetDenomMetadata := unmarshal MsgSetDenomMetadata_switch.
#[global] Instance tfw_MsgSetDenomMetadata_msg : WireMsg MsgSetDenomMetadata := {|
  Size := MsgSetDenomMetadata_Size; MarshalToSizedBuffer := MsgSetDenomMetadata_MarshalToSizedBuffer;
  wUnmarshal := MsgSetDenomMetadata_Unmarshal; wZero := MkMsgSetDenomMetadata [] wZero |}.
#[global] Instance tfw_MsgSetDenomMetadata_ok : WireOk MsgSetDenomMetadata := fun m => wire_ok (MsgSetDenomMetadata_Metadata m).
#[global] Instance tfw_MsgSetDenomMetadata_full : WireFull MsgSetDenomMetadata := fun m => wire_full (MsgSetDenomMetadata_Metadata m).
#[global] Instance tfw_MsgSetDenomMetadata_laws : WireLaws MsgSetDenomMetadata.
Proof. wire_laws MsgSetDenomMetadata_switch. Qed.

(** [MsgForceTransfer]. *)
Record MsgForceTransfer := MkMsgForceTransfer { MsgForceTransfer_Sender : bytes; MsgForceTransfer_Amount : Coin; MsgForceTransfer_TransferFromAddress : bytes; MsgForceTransfer_TransferToAddress : bytes }.
Definition MsgForceTransfer_MarshalToSizedBuffer (m : MsgForceTransfer) : bytes -> result wire_err (bytes * Z) := sized (
  wif (0 <? blen (MsgForceTransfer_TransferToAddress m)) (wlen Byte.x22 (MsgForceTransfer_TransferToAddress m)) ;>
  wif (0 <? blen (MsgForceTransfer_TransferFromAddress m)) (wlen Byte.x1a (MsgForceTransfer_TransferFromAddress m)) ;>
  wsub Byte.x12 (MsgForceTransfer_Amount m) ;>
  wif (0 <? blen (MsgForceTransfer_Sender m)) (wlen Byte.x0a (MsgForceTransfer_Sender m))).
Definition MsgForceTransfer_Size (m : MsgForceTransfer) : Z :=
  (if 0 <? blen (MsgForceTransfer_Sender m) then size_len (blen (MsgForceTransfer_Sender m)) else 0) +
  size_len (Size (MsgForceTransfer_Amount m)) +
  (if 0 <? blen (MsgForceTransfer_TransferFromAddress m) then size_len (blen (MsgForceTransfer_TransferFromAddress m)) else 0) +
  (if 0 <? blen (MsgForceTransfer_TransferToAddress m) then size_len (blen (MsgForceTransfer_TransferToAddress m)) else 0).
Definition MsgForceTransfer_switch (fieldNum : Z) : option (action MsgForceTransfer) :=
  match fieldNum with
  | 1 => Some (case_string (fun v m => (MkMsgForceTransfer v (MsgForceTransfer_Amount m) (MsgForceTransfer_TransferFromAddress m) (MsgForceTransfer_TransferToAddress m))))
  | 2 => Some (case_sub MsgForceTransfer_Amount (fun v m => (MkMsgForceTransfer (MsgForceTransfer_Sender m) v (MsgForceTransfer_TransferFromAddress m) (MsgForceTransfer_TransferToAddress m))))
  | 3 => Some (case_string (fun v m => (MkMsgForceTransfer (MsgForceTransfer_Sender m) (MsgForceTransfer_Amount m) v (MsgForceTransfer_TransferToAddress m))))
  | 4 => Some (case_string (fun v m => (MkMsgForceTransfer (MsgForceTransfer_Sender m) (MsgForceTransfer_Amount m) (MsgForceTransfer_TransferFromAddress m) v)))
  | _ => None
  end.
Definition MsgForceTransfer_Unmarshal : bytes -> MsgForceTransfer -> result wire_err MsgForceTransfer := unmarshal MsgForceTransfer_switch.
#[global] Instance tfw_MsgForceTransfer_msg : WireMsg MsgForceTransfer := {|
  Size := MsgForceTransfer_Size; MarshalToSizedBuffer := MsgForceTransfer_MarshalToSizedBuffer;
  wUnmarshal := MsgForceTransfer_Unmarshal; wZero := MkMsgForceTransfer [] wZero [] [] |}.
#[global] Instance tfw_MsgForceTransfer_ok : WireOk MsgForceTransfer := fun m => True.
#[global] Instance tfw_MsgForceTransfer_full : WireFull MsgForceTransfer := fun m => wire_full (MsgForceTransfer_Amount m).
#[global] Instance tfw_MsgForceTransfer_laws : WireLaws MsgForceTransfer.
Proof. wire_laws MsgForceTransfer_switch. Qed.

(** [MsgUpdateParams]. *)
Record MsgUpdateParams := MkMsgUpdateParams { MsgUpdateParams_Authority : bytes; MsgUpdateParams_Params : Params }.
Definition MsgUpdateParams_MarshalToSizedBuffer (m : MsgUpdateParams) : bytes -> result wire_err (bytes * Z) := sized (
  wsub Byte.x12 (MsgUpdateParams_Params m) ;>
  wif (0 <? blen (MsgUpdateParams_Authority m)) (wlen Byte.x0a (MsgUpdateParams_Authority m))).
Definition MsgUpdateParams_Size (m : MsgUpdateParams) : Z :=
  (if 0 <? blen (MsgUpdateParams_Authority m) then size_len (blen (MsgUpdateParams_Authority m)) else 0) +
  size_len (Size (MsgUpdateParams_Params m)).
Definition MsgUpdateParams_switch (fieldNum : Z) : option (action MsgUpdateParams) :=
  match fieldNum with
  | 1 => Some (case_string (fun v m => (MkMsgUpdateParams v (MsgUpdateParams_Params m))))
  | 2 => Some (case_sub MsgUpdateParams_Params (fun v m => (MkMsgUpdateParams (MsgUpdateParams_Authority m) v)))
  | _ => None
  end.
Definition MsgUpdateParams_Unmarshal : bytes -> MsgUpdateParams -> result wire_err MsgUpdateParams := unmarshal MsgUpdateParams_switch.
#[global] Instance tfw_MsgUpdateParams_msg : WireMsg MsgUpdateParams := {|
  Size := MsgUpdateParams_Size; MarshalToSizedBuffer := MsgUpdateParams_MarshalToSizedBuffer;
  wUnmarshal := MsgUpdateParams_Unmarshal; wZero := MkMsgUpdateParams [] wZero |}.
#[global] Instance tfw_MsgUpdateParams_ok : WireOk MsgUpdateParams := fun m => wire_ok (MsgUpdateParams_Params m).
#[global] Instance tfw_MsgUpdateParams_full : WireFull MsgUpdateParams := fun m => wire_full (MsgUpdateParams_Params m).
#[global] Instance tfw_MsgUpdateParams_laws : WireLaws MsgUpdateParams.
Proof. wire_laws MsgUpdateParams_switch. Qed.

(** [QueryParamsResponse]. *)
Record QueryParamsResponse := MkQueryParamsResponse { QueryParamsResponse_Params : Params }.
Definition QueryParamsResponse_MarshalToSizedBuffer (m : QueryParamsResponse) : bytes -> result wire_err (bytes * Z) := sized (
  wsub Byte.x0a (QueryParamsResponse_Params m)).
Definition QueryParamsResponse_Size (m : QueryParamsResponse) : Z :=
  size_len (Size (QueryParamsResponse_Params m)).
Definition QueryParamsResponse_switch (fieldNum : Z) : option (action QueryParamsResponse) :=
  match fieldNum with
  | 1 => Some (case_sub QueryParamsResponse_Params (fun v m => (MkQueryParamsResponse v)))
  | _ => None
  end.
Definition QueryParamsResponse_Unmarshal : bytes -> QueryParamsResponse -> result wire_err QueryParamsResponse := unmarshal QueryParamsResponse_switch.
#[global] Instance tfw_QueryParamsResponse_msg : WireMsg QueryParamsResponse := {|
  Size := QueryParamsResponse_Size; MarshalToSizedBuffer := QueryParamsResponse_MarshalToSizedBuffer;
  wUnmarshal := QueryParamsResponse_Unmarshal; wZero := MkQueryParamsResponse wZero |}.
#[global] Instance tfw_QueryParamsResponse_ok : WireOk QueryParamsResponse := fun m => wire_ok (QueryParamsResponse_Params m).
#[global] Instance tfw_QueryParamsResponse_full : WireFull QueryParamsResponse := fun m => wire_full (QueryParamsResponse_Params m).
#[global] Instance tfw_QueryParamsResponse_laws : WireLaws QueryParamsResponse.
Proof. wire_laws QueryParamsResponse_switch. Qed.

(** [QueryDenomAuthorityMetadataRequest]. *)
Record QueryDenomAuthorityMetadataRequest := MkQueryDenomAuthorityMetadataRequest { QueryDenomAuthorityMetadataRequest_Denom : bytes }.
Definition QueryDenomAuthorityMetadataRequest_MarshalToSizedBuffer (m : QueryDenomAuthorityMetadataRequest) : bytes -> result wire_err (bytes * Z) := sized (
  wif (0 <? blen (QueryDenomAuthorityMetadataRequest_Denom m)) (wlen Byte.x0a (QueryDenomAuthorityMetadataRequest_Denom m))).
Definition QueryDenomAuthorityMetadataRequest_Size (m : QueryDenomAuthorityMetadataRequest) : Z :=
  (if 0 <? blen (QueryDenomAuthorityMetadataRequest_Denom m) then size_len (blen (QueryDenomAuthorityMetadataRequest_Denom m)) else 0).
Definition QueryDenomAuthorityMetadataRequest_switch (fieldNum : Z) : option (action QueryDenomAuthorityMetadataRequest) :=
  match fieldNum with
  | 1 => Some (case_string (fun v m => (MkQueryDenomAuthorityMetadataRequest v)))
  | _ => None
  end.
Definition QueryDenomAuthorityMetadataRequest_Unmarshal : bytes -> QueryDenomAuthorityMetadataRequest -> result wire_err QueryDenomAuthorityMetadataRequest := unmarshal QueryDenomAuthorityMetadataRequest_switch.
#[global] Instance tfw_QueryDenomAuthorityMetadataRequest_msg : WireMsg QueryDenomAuthorityMetadataRequest := {|
  Size := QueryDenomAuthorityMetadataRequest_Size; MarshalToSizedBuffer := QueryDenomAuthorityMetadataRequest_MarshalToSizedBuffer;
  wUnmarshal := QueryDenomAuthorityMetadataRequest_Unmarshal; wZero := MkQueryDenomAuthorityMetadataRequest [] |}.
#[global] Instance tfw_QueryDenomAuthorityMetadataRequest_ok : WireOk QueryDenomAuthorityMetadataRequest := fun m => True.
#[global] Instance tfw_QueryDenomAuthorityMetadataRequest_laws : WireLaws QueryDenomAuthorityMetadataRequest.
Proof. wire_laws QueryDenomAuthorityMetadataRequest_switch. Qed.

(** [QueryDenomAuthorityMetadataResponse]. *)
Record QueryDenomAuthorityMetadataResponse := MkQueryDenomAuthorityMetadataResponse { QueryDenomAuthorityMetadataResponse_AuthorityMetadata : DenomAuthorityMetadata }.
Definition QueryDenomAuthorityMetadataResponse_MarshalToSizedBuffer (m : QueryDenomAuthorityMetadataResponse) : bytes -> result wire_err (bytes * Z) := sized (
  wsub Byte.x0a (QueryDenomAuthorityMetadataResponse_AuthorityMetadata m)).
Definition QueryDenomAuthorityMetadataResponse_Size (m : QueryDenomAuthorityMetadataResponse) : Z :=
  size_len (Size (QueryDenomAuthorityMetadataResponse_AuthorityMetadata m)).
Definition QueryDenomAuthorityMetadataResponse_switch (fieldNum : Z) : option (action QueryDenomAuthorityMetadataResponse) :=
  match fieldNum with
  | 1 => Some (case_sub QueryDenomAuthorityMetadataResponse_AuthorityMetadata (fun v m => (MkQueryDenomAuthorityMetadataResponse v)))
  | _ => None
  end.
Definition QueryDenomAuthorityMetadataResponse_Unmarshal : bytes -> QueryDenomAuthorityMetadataResponse -> result wire_err QueryDenomAuthorityMetadataResponse := unmarshal QueryDenomAuthorityMetadataResponse_switch.
#[global] Instance tfw_QueryDenomAuthorityMetadataResponse_msg : WireMsg QueryDenomAuthorityMetadataResponse := {|
  Size := QueryDenomAuthorityMetadataResponse_Size; MarshalToSizedBuffer := QueryDenomAuthorityMetadataResponse_MarshalToSizedBuffer;
  wUnmarshal := QueryDenomAuthorityMetadataResponse_Unmarshal; wZero := MkQueryDenomAuthorityMetadataResponse wZero |}.
#[global] Instance tfw_QueryDenomAuthorityMetadataResponse_ok : WireOk QueryDenomAuthorityMetadataResponse := fun m => wire_ok (QueryDenomAuthorityMetadataResponse_AuthorityMetadata m).
#[global] Instance tfw_QueryDenomAuthorityMetadataResponse_laws : WireLaws QueryDenomAuthorityMetadataResponse.
Proof. wire_laws QueryDenomAuthorityMetadataResponse_switch. Qed.

(** [QueryDenomsFromCreatorRequest]. *)
Record QueryDenomsFromCreatorRequest := MkQueryDenomsFromCreatorRequest { QueryDenomsFromCreatorRequest_Creator : bytes }.
Definition QueryDenomsFromCreatorRequest_MarshalToSizedBuffer (m : QueryDenomsFromCreatorRequest) : bytes -> result wire_err (bytes * Z) := sized (
  wif (0 <? blen (QueryDenomsFromCreatorRequest_Creator m)) (wlen Byte.x0a (QueryDenomsFromCreatorRequest_Creator m))).
Definition QueryDenomsFromCreatorRequest_Size (m : QueryDenomsFromCreatorRequest) : Z :=
  (if 0 <? blen (QueryDenomsFromCreatorRequest_Creator m) then size_len (blen (QueryDenomsFromCreatorRequest_Creator m)) else 0).
Definition QueryDenomsFromCreatorRequest_switch (fieldNum : Z) : option (action QueryDenomsFromCreatorRequest) :=
  match fieldNum with
  | 1 => Some (case_string (fun v m => (MkQueryDenomsFromCreatorRequest v)))
  | _ => None
  end.
Definition QueryDenomsFromCreatorRequest_Unmarshal : bytes -> QueryDenomsFromCreatorRequest -> result wire_err QueryDenomsFromCreatorRequest := unmarshal QueryDenomsFromCreatorRequest_switch.
#[global] Instance tfw_QueryDenomsFromCreatorRequest_msg : WireMsg QueryDenomsFromCreatorRequest := {|
  Size := QueryDenomsFromCreatorRequest_Size; MarshalToSizedBuffer := QueryDenomsFromCreatorRequest_MarshalToSizedBuffer;
  wUnmarshal := QueryDenomsFromCreatorRequest_Unmarshal; wZero := MkQueryDenomsFromCreatorRequest [] |}.
#[global] Instance tfw_QueryDenomsFromCreatorRequest_ok : WireOk QueryDenomsFromCreatorRequest := fun m => True.
#[global] Instance tfw_QueryDenomsFromCreatorRequest_laws : WireLaws QueryDenomsFromCreatorRequest.
Proof. wire_laws QueryDenomsFromCreatorRequest_switch. Qed.

(** [QueryDenomsFromCreatorResponse]. *)
Record QueryDenomsFromCreatorResponse := MkQueryDenomsFromCreatorResponse { QueryDenomsFromCreatorResponse_Denoms : list bytes }.
Definition QueryDenomsFromCreatorResponse_MarshalToSizedBuffer (m : QueryDenomsFromCreatorResponse) : bytes -> result wire_err (bytes * Z) := sized (
  wif (0 <? Z.of_nat (length (QueryDenomsFromCreatorResponse_Denoms m))) (wdown (QueryDenomsFromCreatorResponse_Denoms m) (wlen Byte.x0a))).
Definition QueryDenomsFromCreatorResponse_Size (m : QueryDenomsFromCreatorResponse) : Z :=
  (if 0 <? Z.of_nat (length (QueryDenomsFromCreatorResponse_Denoms m)) then size_each (fun s => size_len (blen s)) (QueryDenomsFromCreatorResponse_Denoms m) else 0).
Definition QueryDenomsFromCreatorResponse_switch (fieldNum : Z) : option (action QueryDenomsFromCreatorResponse) :=
  match fieldNum with
  | 1 => Some (case_strings QueryDenomsFromCreatorResponse_Denoms (fun v m => (MkQueryDenomsFromCreatorResponse v)))
  | _ => None
  end.
Definition QueryDenomsFromCreatorResponse_Unmarshal : bytes -> QueryDenomsFromCreatorResponse -> result wire_err QueryDenomsFromCreatorResponse := unmarshal QueryDenomsFromCreatorResponse_switch.
#[global] Instance tfw_QueryDenomsFromCreatorResponse_msg : WireMsg QueryDenomsFromCreatorResponse := {|
  Size := QueryDenomsFromCreatorResponse_Size; MarshalToSizedBuffer := QueryDenomsFromCreatorResponse_MarshalToSizedBuffer;
  wUnmarshal := QueryDenomsFromCreatorResponse_Unmarshal; wZero := MkQueryDenomsFromCreatorResponse [] |}.
#[global] Instance tfw_QueryDenomsFromCreatorResponse_ok : WireOk QueryDenomsFromCreatorResponse := fun m => True.
#[global] Instance tfw_QueryDenomsFromCreatorResponse_laws : WireLaws QueryDenomsFromCreatorResponse.
Proof. wire_laws QueryDenomsFromCreatorResponse_switch. Qed.

End Codec.
