(* ===== verification/WireCw.v ===== *)
(** * cw-hooks: the protobuf codec

    [x/cw-hooks/types/*.pb.go]: [MarshalToSizedBuffer], [Size] and [Unmarshal]
    of every message with fields, and of one without: the messages without
    fields of all the modules have the same code. *)

From S2P Require Import Prelude Proto CwHooks Wire WireLaws.

Open Scope go_scope.
#[local] Existing Instance generated.

(** [Contract]. *)
Record Contract := MkContract { Contract_ContractAddress : bytes; Contract_RegisterAddress : bytes }.
Definition Contract_MarshalToSizedBuffer (m : Contract) : bytes -> result wire_err (bytes * Z) := sized (
  wif (0 <? blen (Contract_RegisterAddress m)) (wlen Byte.x12 (Contract_RegisterAddress m)) ;>
  wif (0 <? blen (Contract_ContractAddress m)) (wlen Byte.x0a (Contract_ContractAddress m))).
Definition Contract_Size (m : Contract) : Z :=
  (if 0 <? blen (Contract_ContractAddress m) then size_len (blen (Contract_ContractAddress m)) else 0) +
  (if 0 <? blen (Contract_RegisterAddress m) then size_len (blen (Contract_RegisterAddress m)) else 0).
Definition Contract_switch (fieldNum : Z) : option (action Contract) :=
  match fieldNum with
  | 1 => Some (case_string (fun v m => (MkContract v (Contract_RegisterAddress m))))
  | 2 => Some (case_string (fun v m => (MkContract (Contract_ContractAddress m) v)))
  | _ => None
  end.
Definition Contract_Unmarshal : bytes -> Contract -> result wire_err Contract := unmarshal Contract_switch.
#[global] Instance cww_Contract_msg : WireMsg Contract := {|
  Size := Contract_Size; MarshalToSizedBuffer := Contract_MarshalToSizedBuffer;
  wUnmarshal := Contract_Unmarshal; wZero := MkContract [] [] |}.
#[global] Instance cww_Contract_ok : WireOk Contract := fun m => True.
#[global] Instance cww_Contract_laws : WireLaws Contract.
Proof. wire_laws Contract_switch. Qed.

(** [Params]. *)
Definition Params_MarshalToSizedBuffer (m : CwParams) : bytes -> result wire_err (bytes * Z) := sized (
  wif (negb ((ContractGasLimit m) =? 0)) (wvarint (u64 (ContractGasLimit m)) ;> wbyte Byte.x08)).
Definition Params_Size (m : CwParams) : Z :=
  (if negb ((ContractGasLimit m) =? 0) then 1 + Sov (u64 (ContractGasLimit m)) else 0).
Definition Params_switch (fieldNum : Z) : option (action CwParams) :=
  match fieldNum with
  | 1 => Some (case_varint u64 (fun v m => (MkCwParams v)))
  | _ => None
  end.
Definition Params_Unmarshal : bytes -> CwParams -> result wire_err CwParams := unmarshal Params_switch.
#[global] Instance cww_Params_msg : WireMsg CwParams := {|
  Size := Params_Size; MarshalToSizedBuffer := Params_MarshalToSizedBuffer;
  wUnmarshal := Params_Unmarshal; wZero := MkCwParams 0 |}.
#[global] Instance cww_Params_laws : WireLaws CwParams.
Proof. wire_laws Params_switch. Qed.

(** [GenesisState]. *)
Definition GenesisState_MarshalToSizedBuffer (m : CwGenesis) : bytes -> result wire_err (bytes * Z) := sized (
  wif (0 <? Z.of_nat (length (GovContractAddresses m))) (wdown (GovContractAddresses m) (wlen Byte.x1a)) ;>
  wif (0 <? Z.of_nat (length (StakingContractAddresses m))) (wdown (StakingContractAddresses m) (wlen Byte.x12)) ;>
  wsub Byte.x0a (cg_Params m)).
Definition GenesisState_Size (m : CwGenesis) : Z :=
  size_len (Size (cg_Params m)) +
  (if 0 <? Z.of_nat (length (StakingContractAddresses m)) then size_each (fun s => size_len (blen s)) (StakingContractAddresses m) else 0) +
  (if 0 <? Z.of_nat (length (GovContractAddresses m)) then size_each (fun s => size_len (blen s)) (GovContractAddresses m) else 0).
Definition GenesisState_switch (fieldNum : Z) : option (action CwGenesis) :=
  match fieldNum with
  | 1 => Some (case_sub cg_Params (fun v m => (MkCwGenesis v (StakingContractAddresses m) (GovContractAddresses m))))
  | 2 => Some (case_strings StakingContractAddresses (fun v m => (MkCwGenesis (cg_Params m) v (GovContractAddresses m))))
  | 3 => Some (case_strings GovContractAddresses (fun v m => (MkCwGenesis (cg_Params m) (StakingContractAddresses m) v)))
  | _ => None
  end.
Definition GenesisState_Unmarshal : bytes -> CwGenesis -> result wire_err CwGenesis := unmarshal GenesisState_switch.
#[global] Instance cww_GenesisState_msg : WireMsg CwGenesis := {|
  Size := GenesisState_Size; MarshalToSizedBuffer := GenesisState_MarshalToSizedBuffer;
  wUnmarshal := GenesisState_Unmarshal; wZero := MkCwGenesis wZero [] [] |}.
#[global] Instance cww_GenesisState_ok : WireOk CwGenesis := fun m => wire_ok (cg_Params m).
#[global] Instance cww_GenesisState_laws : WireLaws CwGenesis.
Proof. wire_laws GenesisState_switch. Qed.

(** [MsgUpdateParams]. *)
Record MsgUpdateParams := MkMsgUpdateParams { MsgUpdateParams_Authority : bytes; MsgUpdateParams_Params : CwParams }.
Definition MsgUpdateParams_MarshalToSizedBuffer (m : MsgUpdateParams) : bytes -> result wire_err (bytes * Z) := sized (
  wsub Byte.x12 (MsgUpdateParams_Params m) ;>
  wif (0 <? blen (MsgUpdateParams_Authority m)) (wlen Byte.x0a (MsgUpdateParams_Authority m))).
Definition MsgUpdateParams_Size (m : MsgUpdateParams) : Z :=
  (if 0 <? blen (MsgUpdateParams_Authority m) then size_len (blen (MsgUpdateParams_Authority m)) else 0) +
  size_len (Size (MsgUpdateParams_Params m)).
Definition MsgUpdateParams_switch (fieldNum : Z) : option (action MsgUpdateParams) :=
  match fieldNum with
  | 1 => Some (case_string (fun v m => (MkMsgUpdateParams v (MsgUpdateParams_Params m))))
  | 2 => Some (case_sub MsgUpdateParams_Params (fun v m => (MkMsgUpdateParams (MsgUpdateParams_Authority m) v)))
  | _ => None
  end.
Definition MsgUpdateParams_Unmarshal : bytes -> MsgUpdateParams -> result wire_err MsgUpdateParams := unmarshal MsgUpdateParams_switch.
#[global] Instance cww_MsgUpdateParams_msg : WireMsg MsgUpdateParams := {|
  Size := MsgUpdateParams_Size; MarshalToSizedBuffer := MsgUpdateParams_MarshalToSizedBuffer;
  wUnmarshal := MsgUpdateParams_Unmarshal; wZero := MkMsgUpdateParams [] wZero |}.
#[global] Instance cww_MsgUpdateParams_ok : WireOk MsgUpdateParams := fun m => wire_ok (MsgUpdateParams_Params m).
#[global] Instance cww_MsgUpdateParams_laws : WireLaws MsgUpdateParams.
Proof. wire_laws MsgUpdateParams_switch. Qed.

(** [MsgUpdateParamsResponse]. *)
Record MsgUpdateParamsResponse := MkMsgUpdateParamsResponse { }.
Definition MsgUpdateParamsResponse_MarshalToSizedBuffer (m : MsgUpdateParamsResponse) : bytes -> result wire_err (bytes * Z) := sized (
  wskip).
Definition MsgUpdateParamsResponse_Size (m : MsgUpdateParamsResponse) : Z :=
  0.
Definition MsgUpdateParamsResponse_switch (fieldNum : Z) : option (action MsgUpdateParamsResponse) := None.
Definition MsgUpdateParamsResponse_Unmarshal : bytes -> MsgUpdateParamsResponse -> result wire_err MsgUpdateParamsResponse := unmarshal MsgUpdateParamsResponse_switch.
#[global] Instance cww_MsgUpdateParamsResponse_msg : WireMsg MsgUpdateParamsResponse := {|
  Size := MsgUpdateParamsResponse_Size; MarshalToSizedBuffer := MsgUpdateParamsResponse_MarshalToSizedBuffer;
  wUnmarshal := MsgUpdateParamsResponse_Unmarshal; wZero := MkMsgUpdateParamsResponse |}.
#[global] Instance cww_MsgUpdateParamsResponse_ok : WireOk MsgUpdateParamsResponse := fun m => True.
#[global] Instance cww_MsgUpdateParamsResponse_laws : WireLaws MsgUpdateParamsResponse.
Proof. wire_laws MsgUpdateParamsResponse_switch. Qed.

(** [MsgRegisterStaking]. *)
Record MsgRegisterStaking := MkMsgRegisterStaking { MsgRegisterStaking_ContractAddress : bytes; MsgRegisterStaking_RegisterAddress : bytes }.
Definition MsgRegisterStaking_MarshalToSizedBuffer (m : MsgRegisterStaking) : bytes -> result wire_err (bytes * Z) := sized (
  wif (0 <? blen (MsgRegisterStaking_RegisterAddress m)) (wlen Byte.x12 (MsgRegisterStaking_RegisterAddress m)) ;>
  wif (0 <? blen (MsgRegisterStaking_ContractAddress m)) (wlen Byte.x0a (MsgRegisterStaking_ContractAddress m))).
Definition MsgRegisterStaking_Size (m : MsgRegisterStaking) : Z :=
  (if 0 <? blen (MsgRegisterStaking_ContractAddress m) then size_len (blen (MsgRegisterStaking_ContractAddress m)) else 0) +
  (if 0 <? blen (MsgRegisterStaking_RegisterAddress m) then size_len (blen (MsgRegisterStaking_RegisterAddress m)) else 0).
Definition MsgRegisterStaking_switch (fieldNum : Z) : option (action MsgRegisterStaking) :=
  match fieldNum with
  | 1 => Some (case_string (fun v m => (MkMsgRegisterStaking v (MsgRegisterStaking_RegisterAddress m))))
  | 2 => Some (case_string (fun v m => (MkMsgRegisterStaking (MsgRegisterStaking_ContractAddress m) v)))
  | _ => None
  end.
Definition MsgRegisterStaking_Unmarshal : bytes -> MsgRegisterStaking -> result wire_err MsgRegisterStaking := unmarshal MsgRegisterStaking_switch.
#[global] Instance cww_MsgRegisterStaking_msg : WireMsg MsgRegisterStaking := {|
  Size := MsgRegisterStaking_Size; MarshalToSizedBuffer := MsgRegisterStaking_MarshalToSizedBuffer;
  wUnmarshal := MsgRegisterStaking_Unmarshal; wZero := MkMsgRegisterStaking [] [] |}.
#[global] Instance cww_MsgRegisterStaking_ok : WireOk MsgRegisterStaking := fun m => True.
#[global] Instance cww_MsgRegisterStaking_laws : WireLaws MsgRegisterStaking.
Proof. wire_laws MsgRegisterStaking_switch. Qed.

(** [MsgRegisterGovernance]. *)
Record MsgRegisterGovernance := MkMsgRegisterGovernance { MsgRegisterGovernance_ContractAddress : bytes; MsgRegisterGovernance_RegisterAddress : bytes }.
Definition MsgRegisterGovernance_MarshalToSizedBuffer (m : MsgRegisterGovernance) : bytes -> result wire_err (bytes * Z) := sized (
  wif (0 <? blen (MsgRegisterGovernance_RegisterAddress m)) (wlen Byte.x12 (MsgRegisterGovernance_RegisterAddress m)) ;>
  wif (0 <? blen (MsgRegisterGovernance_ContractAddress m)) (wlen Byte.x0a (MsgRegisterGovernance_ContractAddress m))).
Definition MsgRegisterGovernance_Size (m : MsgRegisterGovernance) : Z :=
  (if 0 <? blen (MsgRegisterGovernance_ContractAddress m) then size_len (blen (MsgRegisterGovernance_ContractAddress m)) else 0) +
  (if 0 <? blen (MsgRegisterGovernance_RegisterAddress m) then size_len (blen (MsgRegisterGovernance_RegisterAddress m)) else 0).
Definition MsgRegisterGovernance_switch (fieldNum : Z) : option (action MsgRegisterGovernance) :=
  match fieldNum with
  | 1 => Some (case_string (fun v m => (MkMsgRegisterGovernance v (MsgRegisterGovernance_RegisterAddress m))))
  | 2 => Some (case_string (fun v m => (MkMsgRegisterGovernance (MsgRegisterGovernance_ContractAddress m) v)))
  | _ => None
  end.
Definition MsgRegisterGovernance_Unmarshal : bytes -> MsgRegisterGovernance -> result wire_err MsgRegisterGovernance := unmarshal MsgRegisterGovernance_switch.
#[global] Instance cww_MsgRegisterGovernance_msg : WireMsg MsgRegisterGovernance := {|
  Size := MsgRegisterGovernance_Size; MarshalToSizedBuffer := MsgRegisterGovernance_MarshalToSizedBuffer;
  wUnmarshal := MsgRegisterGovernance_Unmarshal; wZero := MkMsgRegisterGovernance [] [] |}.
#[global] Instance cww_MsgRegisterGovernance_ok : WireOk MsgRegisterGovernance := fun m => True.
#[global] Instance cww_MsgRegisterGovernance_laws : WireLaws MsgRegisterGovernance.
Proof. wire_laws MsgRegisterGovernance_switch. Qed.

(** [MsgUnregisterGovernance]. *)
Record MsgUnregisterGovernance := MkMsgUnregisterGovernance { MsgUnregisterGovernance_ContractAddress : bytes; MsgUnregisterGovernance_RegisterAddress : bytes }.
Definition MsgUnregisterGovernance_MarshalToSizedBuffer (m : MsgUnregisterGovernance) : bytes -> result wire_err (bytes * Z) := sized (
  wif (0 <? blen (MsgUnregisterGovernance_RegisterAddress m)) (wlen Byte.x12 (MsgUnregisterGovernance_RegisterAddress m)) ;>
  wif (0 <? blen (MsgUnregisterGovernance_ContractAddress m)) (wlen Byte.x0a (MsgUnregisterGovernance_ContractAddress m))).
Definition MsgUnregisterGovernance_Size (m : MsgUnregisterGovernance) : Z :=
  (if 0 <? blen (MsgUnregisterGovernance_ContractAddress m) then size_len (blen (MsgUnregisterGovernance_ContractAddress m)) else 0) +
  (if 0 <? blen (MsgUnregisterGovernance_RegisterAddress m) then size_len (blen (MsgUnregisterGovernance_RegisterAddress m)) else 0).
Definition MsgUnregisterGovernance_switch (fieldNum : Z) : option (action MsgUnregisterGovernance) :=
  match fieldNum with
  | 1 => Some (case_string (fun v m => (MkMsgUnregisterGovernance v (MsgUnregisterGovernance_RegisterAddress m))))
  | 2 => Some (case_string (fun v m => (MkMsgUnregisterGovernance (MsgUnregisterGovernance_ContractAddress m) v)))
  | _ => None
  end.
Definition MsgUnregisterGovernance_Unmarshal : bytes -> MsgUnregisterGovernance -> result wire_err MsgUnregisterGovernance := unmarshal MsgUnregisterGovernance_switch.
#[global] Instance cww_MsgUnregisterGovernance_msg : WireMsg MsgUnregisterGovernance := {|
  Size := MsgUnregisterGovernance_Size; MarshalToSizedBuffer := MsgUnregisterGovernance_MarshalToSizedBuffer;
  wUnmarshal := MsgUnregisterGovernance_Unmarshal; wZero := MkMsgUnregisterGovernance [] [] |}.
#[global] Instance cww_MsgUnregisterGovernance_ok : WireOk MsgUnregisterGovernance := fun m => True.
#[global] Instance cww_MsgUnregisterGovernance_laws : WireLaws MsgUnregisterGovernance.
Proof. wire_laws MsgUnregisterGovernance_switch. Qed.

(** [MsgUnregisterStaking]. *)
Record MsgUnregisterStaking := MkMsgUnregisterStaking { MsgUnregisterStaking_ContractAddress : bytes; MsgUnregisterStaking_RegisterAddress : bytes }.
Definition MsgUnregisterStaking_MarshalToSizedBuffer (m : MsgUnregisterStaking) : bytes -> result wire_err (bytes * Z) := sized (
  wif (0 <? blen (MsgUnregisterStaking_RegisterAddress m)) (wlen Byte.x12 (MsgUnregisterStaking_RegisterAddress m)) ;>
  wif (0 <? blen (MsgUnregisterStaking_ContractAddress m)) (wlen Byte.x0a (MsgUnregisterStaking_ContractAddress m))).
Definition MsgUnregisterStaking_Size (m : MsgUnregisterStaking) : Z :=
  (if 0 <? blen (MsgUnregisterStaking_ContractAddress m) then size_len (blen (MsgUnregisterStaking_ContractAddress m)) else 0) +
  (if 0 <? blen (MsgUnregisterStaking_RegisterAddress m) then size_len (blen (MsgUnregisterStaking_RegisterAddress m)) else 0).
Definition MsgUnregisterStaking_switch (fieldNum : Z) : option (action MsgUnregisterStaking) :=
  match fieldNum with
  | 1 => Some (case_string (fun v m => (MkMsgUnregisterStaking v (MsgUnregisterStaking_RegisterAddress m))))
  | 2 => Some (case_string (fun v m => (MkMsgUnregisterStaking (MsgUnregisterStaking_ContractAddress m) v)))
  | _ => None
  end.
Definition MsgUnregisterStaking_Unmarshal : bytes -> MsgUnregisterStaking -> result wire_err MsgUnregisterStaking := unmarshal MsgUnregisterStaking_switch.
#[global] Instance cww_MsgUnregisterStaking_msg : WireMsg MsgUnregisterStaking := {|
  Size := MsgUnregisterStaking_Size; MarshalToSizedBuffer := MsgUnregisterStaking_MarshalToSizedBuffer;
  wUnmarshal := MsgUnregisterStaking_Unmarshal; wZero := MkMsgUnregisterStaking [] [] |}.
#[global] Instance cww_MsgUnregisterStaking_ok : WireOk MsgUnregisterStaking := fun m => True.
#[global] Instance cww_MsgUnregisterStaking_laws : WireLaws MsgUnregisterStaking.
Proof. wire_laws MsgUnregisterStaking_switch. Qed.

(** [QueryParamsResponse]. *)
Record QueryParamsResponse := MkQueryParamsResponse { QueryParamsResponse_Params : CwParams }.
Definition QueryParamsResponse_MarshalToSizedBuffer (m : QueryParamsResponse) : bytes -> result wire_err (bytes * Z) := sized (
  wsub Byte.x0a (QueryParamsResponse_Params m)).
Definition QueryParamsResponse_Size (m : QueryParamsResponse) : Z :=
  size_len (Size (QueryParamsResponse_Params m)).
Definition QueryParamsResponse_switch (fieldNum : Z) : option (action QueryParamsResponse) :=
  match fieldNum with
  | 1 => Some (case_sub QueryParamsResponse_Params (fun v m => (MkQueryParamsResponse v)))
  | _ => None
  end.
Definition QueryParamsResponse_Unmarshal : bytes -> QueryParamsResponse -> result wire_err QueryParamsResponse := unmarshal QueryParamsResponse_switch.
#[global] Instance cww_QueryParamsResponse_msg : WireMsg QueryParamsResponse := {|
  Size := QueryParamsResponse_Size; MarshalToSizedBuffer := QueryParamsResponse_MarshalToSizedBuffer;
  wUnmarshal := QueryParamsResponse_Unmarshal; wZero := MkQueryParamsResponse wZero |}.
#[global] Instance cww_QueryParamsResponse_ok : WireOk QueryParamsResponse := fun m => wire_ok (QueryParamsResponse_Params m).
#[global] Instance cww_QueryParamsResponse_laws : WireLaws QueryParamsResponse.
Proof. wire_laws QueryParamsResponse_switch. Qed.

(** [QueryStakingContractsResponse]. *)
Record QueryStakingContractsResponse := MkQueryStakingContractsResponse { QueryStakingContractsResponse_Contracts : list bytes }.
Definition QueryStakingContractsResponse_MarshalToSizedBuffer (m : QueryStakingContractsResponse) : bytes -> result wire_err (bytes * Z) := sized (
  wif (0 <? Z.of_nat (length (QueryStakingContractsResponse_Contracts m))) (wdown (QueryStakingContractsResponse_Contracts m) (wlen Byte.x0a))).
Definition QueryStakingContractsResponse_Size (m : QueryStakingContractsResponse) : Z :=
  (if 0 <? Z.of_nat (length (QueryStakingContractsResponse_Contracts m)) then size_each (fun s => size_len (blen s)) (QueryStakingContractsResponse_Contracts m) else 0).
Definition QueryStakingContractsResponse_switch (fieldNum : Z) : option (action QueryStakingContractsResponse) :=
  match fieldNum with
  | 1 => Some (case_strings QueryStakingContractsResponse_Contracts (fun v m => (MkQueryStakingContractsResponse v)))
  | _ => None
  end.
Definition QueryStakingContractsResponse_Unmarshal : bytes -> QueryStakingContractsResponse -> result wire_err QueryStakingContractsResponse := unmarshal QueryStakingContractsResponse_switch.
#[global] Instance cww_QueryStakingContractsResponse_msg : WireMsg QueryStakingContractsResponse := {|
  Size := QueryStakingContractsResponse_Size; MarshalToSizedBuffer := QueryStakingContractsResponse_MarshalToSizedBuffer;
  wUnmarshal := QueryStakingContractsResponse_Unmarshal; wZero := MkQueryStakingContractsResponse [] |}.
#[global] Instance cww_QueryStakingContractsResponse_ok : WireOk QueryStakingContractsResponse := fun m => True.
#[global] Instance cww_QueryStakingContractsResponse_laws : WireLaws QueryStakingContractsResponse.
Proof. wire_laws QueryStakingContractsResponse_switch. Qed.

(** [QueryGovernanceContractsResponse]. *)
Record QueryGovernanceContractsResponse := MkQueryGovernanceContractsResponse { QueryGovernanceContractsResponse_Contracts : list bytes }.
Definition QueryGovernanceContractsResponse_MarshalToSizedBuffer (m : QueryGovernanceContractsResponse) : bytes -> result wire_err (bytes * Z) := sized (
  wif (0 <? Z.of_nat (length (QueryGovernanceContractsResponse_Contracts m))) (wdown (QueryGovernanceContractsResponse_Contracts m) (wlen Byte.x0a))).
Definition QueryGovernanceContractsResponse_Size (m : QueryGovernanceContractsResponse) : Z :=
  (if 0 <? Z.of_nat (length (QueryGovernanceContractsResponse_Contracts m)) then size_each (fun s => size_len (blen s)) (QueryGovernanceContractsResponse_Contracts m) else 0).
Definition QueryGovernanceContractsResponse_switch (fieldNum : Z) : option (action QueryGovernanceContractsResponse) :=
  match fieldNum with
  | 1 => Some (case_strings QueryGovernanceContractsResponse_Contracts (fun v m => (MkQueryGovernanceContractsResponse v)))
  | _ => None
  end.
Definition QueryGovernanceContractsResponse_Unmarshal : bytes -> QueryGovernanceContractsResponse -> result wire_err QueryGovernanceContractsResponse := unmarshal QueryGovernanceContractsResponse_switch.
#[global] Instance cww_QueryGovernanceContractsResponse_msg : WireMsg QueryGovernanceContractsResponse := {|
  Size := QueryGovernanceContractsResponse_Size; MarshalToSizedBuffer := QueryGovernanceContractsResponse_MarshalToSizedBuffer;
  wUnmarshal := QueryGovernanceContractsResponse_Unmarshal; wZero := MkQueryGovernanceContractsResponse [] |}.
#[global] Instance cww_QueryGovernanceContractsResponse_ok : WireOk QueryGovernanceContractsResponse := fun m => True.
#[global] Instance cww_QueryGovernanceContractsResponse_laws : WireLaws QueryGovernanceContractsResponse.
Proof. wire_laws QueryGovernanceContractsResponse_switch. Qed.
