(* ===== verification/WireDrip.v ===== *)
(** * drip: the protobuf codec

    [x/drip/types/*.pb.go]: [MarshalToSizedBuffer], [Size] and [Unmarshal] of
    every message with fields. The codec of [Coin] belongs to the SDK. *)

From S2P Require Import Prelude Proto Sdk Drip Wire WireLaws.

Open Scope go_scope.
#[local] Existing Instance generated.

Section Codec.
Context `{WireMsg Coin} `{WireFull Coin} `{!WireLaws Coin}.

(** [Params]. *)
Definition Params_MarshalToSizedBuffer (m : DripParams) : bytes -> result wire_err (bytes * Z) := sized (
  wif (0 <? Z.of_nat (length (AllowedAddresses m))) (wdown (AllowedAddresses m) (wlen Byte.x1a)) ;>
  wif (EnableDrip m) (wbool (EnableDrip m) ;> wbyte Byte.x08)).
Definition Params_Size (m : DripParams) : Z :=
  (if (EnableDrip m) then 2 else 0) +
  (if 0 <? Z.of_nat (length (AllowedAddresses m)) then size_each (fun s => size_len (blen s)) (AllowedAddresses m) else 0).
Definition Params_switch (fieldNum : Z) : option (action DripParams) :=
  match fieldNum with
  | 1 => Some (case_bool (fun v m => (MkDripParams v (AllowedAddresses m))))
  | 3 => Some (case_strings AllowedAddresses (fun v m => (MkDripParams (EnableDrip m) v)))
  | _ => None
  end.
Definition Params_Unmarshal : bytes -> DripParams -> result wire_err DripParams := unmarshal Params_switch.
#[global] Instance drw_Params_msg : WireMsg DripParams := {|
  Size := Params_Size; MarshalToSizedBuffer := Params_MarshalToSizedBuffer;
  wUnmarshal := Params_Unmarshal; wZero := MkDripParams false [] |}.
#[global] Instance drw_Params_laws : WireLaws DripParams.
Proof. wire_laws Params_switch. Qed.

(** [GenesisState]. *)
Record GenesisState := MkGenesisState { GenesisState_Params : DripParams }.
Definition GenesisState_MarshalToSizedBuffer (m : GenesisState) : bytes -> result wire_err (bytes * Z) := sized (
  wsub Byte.x0a (GenesisState_Params m)).
Definition GenesisState_Size (m : GenesisState) : Z :=
  size_len (Size (GenesisState_Params m)).
Definition GenesisState_switch (fieldNum : Z) : option (action GenesisState) :=
  match fieldNum with
  | 1 => Some (case_sub GenesisState_Params (fun v m => (MkGenesisState v)))
  | _ => None
  end.
Definition GenesisState_Unmarshal : bytes -> GenesisState -> result wire_err GenesisState := unmarshal GenesisState_switch.
#[global] Instance drw_GenesisState_msg : WireMsg GenesisState := {|
  Size := GenesisState_Size; MarshalToSizedBuffer := GenesisState_MarshalToSizedBuffer;
  wUnmarshal := GenesisState_Unmarshal; wZero := MkGenesisState wZero |}.
#[global] Instance drw_GenesisState_ok : WireOk GenesisState := fun m => wire_ok (GenesisState_Params m).
#[global] Instance drw_GenesisState_laws : WireLaws GenesisState.
Proof. wire_laws GenesisState_switch. Qed.

(** [MsgDistributeTokens]. *)
Definition MsgDistributeTokens_MarshalToSizedBuffer (m : MsgDistributeTokens) : bytes -> result wire_err (bytes * Z) := sized (
  wif (0 <? Z.of_nat (length (dt_Amount m))) (wdown (dt_Amount m) (wsub Byte.x12)) ;>
  wif (0 <? blen (dt_SenderAddress m)) (wlen Byte.x0a (dt_SenderAddress m))).
Definition MsgDistributeTokens_Size (m : MsgDistributeTokens) : Z :=
  (if 0 <? blen (dt_SenderAddress m) then size_len (blen (dt_SenderAddress m)) else 0) +
  (if 0 <? Z.of_nat (length (dt_Amount m)) then size_each (fun e => size_len (Size e)) (dt_Amount m) else 0).
Definition MsgDistributeTokens_switch (fieldNum : Z) : option (action MsgDistributeTokens) :=
  match fieldNum with
  | 1 => Some (case_string (fun v m => (MkMsgDistributeTokens v (dt_Amount m))))
  | 2 => Some (case_rep dt_Amount (fun v m => (MkMsgDistributeTokens (dt_SenderAddress m) v)))
  | _ => None
  end.
Definition MsgDistributeTokens_Unmarshal : bytes -> MsgDistributeTokens -> result wire_err MsgDistributeTokens := unmarshal MsgDistributeTokens_switch.
#[global] Instance drw_MsgDistributeTokens_msg : WireMsg MsgDistributeTokens := {|
  Size := MsgDistributeTokens_Size; MarshalToSizedBuffer := MsgDistributeTokens_MarshalToSizedBuffer;
  wUnmarshal := MsgDistributeTokens_Unmarshal; wZero := MkMsgDistributeTokens [] [] |}.
#[global] Instance drw_MsgDistributeTokens_ok : WireOk MsgDistributeTokens := fun m => True.
#[global] Instance drw_MsgDistributeTokens_full : WireFull MsgDistributeTokens := fun m => Forall wire_full (dt_Amount m).
#[global] Instance drw_MsgDistributeTokens_laws : WireLaws MsgDistributeTokens.
Proof. wire_laws MsgDistributeTokens_switch. Qed.

(** [MsgUpdateParams]. *)
Record MsgUpdateParams := MkMsgUpdateParams { MsgUpdateParams_Authority : bytes; MsgUpdateParams_Params : DripParams }.
Definition MsgUpdateParams_MarshalToSizedBuffer (m : MsgUpdateParams) : bytes -> result wire_err (bytes * Z) := sized (
  wsub Byte.x12 (MsgUpdateParams_Params m) ;>
  wif (0 <? blen (MsgUpdateParams_Authority m)) (wlen Byte.x0a (MsgUpdateParams_Authority m))).
Definition MsgUpdateParams_Size (m : MsgUpdateParams) : Z :=
  (if 0 <? blen (MsgUpdateParams_Authority m) then size_len (blen (MsgUpdateParams_Authority m)) else 0) +
  size_len (Size (MsgUpdateParams_Params m)).
Definition MsgUpdateParams_switch (fieldNum : Z) : option (action MsgUpdateParams) :=
  match fieldNum with
  | 1 => Some (case_string (fun v m => (MkMsgUpdateParams v (MsgUpdateParams_Params m))))
  | 2 => Some (case_sub MsgUpdateParams_Params (fun v m => (MkMsgUpdateParams (MsgUpdateParams_Authority m) v)))
  | _ => None
  end.
Definition MsgUpdateParams_Unmarshal : bytes -> MsgUpdateParams -> result wire_err MsgUpdateParams := unmarshal MsgUpdateParams_switch.
#[global] Instance drw_MsgUpdateParams_msg : WireMsg MsgUpdateParams := {|
  Size := MsgUpdateParams_Size; MarshalToSizedBuffer := MsgUpdateParams_MarshalToSizedBuffer;
  wUnmarshal := MsgUpdateParams_Unmarshal; wZero := MkMsgUpdateParams [] wZero |}.
#[global] Instance drw_MsgUpdateParams_ok : WireOk MsgUpdateParams := fun m => wire_ok (MsgUpdateParams_Params m).
#[global] Instance drw_MsgUpdateParams_laws : WireLaws MsgUpdateParams.
Proof. wire_laws MsgUpdateParams_switch. Qed.

(** [QueryParamsResponse]. *)
Record QueryParamsResponse := MkQueryParamsResponse { QueryParamsResponse_Params : DripParams }.
Definition QueryParamsResponse_MarshalToSizedBuffer (m : QueryParamsResponse) : bytes -> result wire_err (bytes * Z) := sized (
  wsub Byte.x0a (QueryParamsResponse_Params m)).
Definition QueryParamsResponse_Size (m : QueryParamsResponse) : Z :=
  size_len (Size (QueryParamsResponse_Params m)).
Definition QueryParamsResponse_switch (fieldNum : Z) : option (action QueryParamsResponse) :=
  match fieldNum with
  | 1 => Some (case_sub QueryParamsResponse_Params (fun v m => (MkQueryParamsResponse v)))
  | _ => None
  end.
Definition QueryParamsResponse_Unmarshal : bytes -> QueryParamsResponse -> result wire_err QueryParamsResponse := unmarshal QueryParamsResponse_switch.
#[global] Instance drw_QueryParamsResponse_msg : WireMsg QueryParamsResponse := {|
  Size := QueryParamsResponse_Size; MarshalToSizedBuffer := QueryParamsResponse_MarshalToSizedBuffer;
  wUnmarshal := QueryParamsResponse_Unmarshal; wZero := MkQueryParamsResponse wZero |}.
#[global] Instance drw_QueryParamsResponse_ok : WireOk QueryParamsResponse := fun m => wire_ok (QueryParamsResponse_Params m).
#[global] Instance drw_QueryParamsResponse_laws : WireLaws QueryParamsResponse.
Proof. wire_laws QueryParamsResponse_switch. Qed.

End Codec.
