(* ===== verification/WireGf.v ===== *)
(** * globalfee: the protobuf codec

    [x/globalfee/types/*.pb.go]: [MarshalToSizedBuffer], [Size] and [Unmarshal]
    of every message with fields. The codec of [DecCoin] belongs to the SDK. *)

From S2P Require Import Prelude Proto Wire WireLaws.

Open Scope go_scope.
#[local] Existing Instance generated.

Section Codec.
Context {DecCoin : Type} `{WireLaws DecCoin}.

(** [Params]. *)
Record Params := MkParams { Params_MinimumGasPrices : list DecCoin }.
Definition Params_MarshalToSizedBuffer (m : Params) : bytes -> result wire_err (bytes * Z) := sized (
  wif (0 <? Z.of_nat (length (Params_MinimumGasPrices m))) (wdown (Params_MinimumGasPrices m) (wsub Byte.x0a))).
Definition Params_Size (m : Params) : Z :=
  (if 0 <? Z.of_nat (length (Params_MinimumGasPrices m)) then size_each (fun e => size_len (Size e)) (Params_MinimumGasPrices m) else 0).
Definition Params_switch (fieldNum : Z) : option (action Params) :=
  match fieldNum with
  | 1 => Some (case_rep Params_MinimumGasPrices (fun v m => (MkParams v)))
  | _ => None
  end.
Definition Params_Unmarshal : bytes -> Params -> result wire_err Params := unmarshal Params_switch.
#[global] Instance gfw_Params_msg : WireMsg Params := {|
  Size := Params_Size; MarshalToSizedBuffer := Params_MarshalToSizedBuffer;
  wUnmarshal := Params_Unmarshal; wZero := MkParams [] |}.
#[global] Instance gfw_Params_ok : WireOk Params := fun m => Forall wire_ok (Params_MinimumGasPrices m).
#[global] Instance gfw_Params_full : WireFull Params := fun m => Forall wire_full (Params_MinimumGasPrices m).
#[global] Instance gfw_Params_laws : WireLaws Params.
Proof. wire_laws Params_switch. Qed.

(** [GenesisState]. *)
Record GenesisState := MkGenesisState { GenesisState_Params : Params }.
Definition GenesisState_MarshalToSizedBuffer (m : GenesisState) : bytes -> result wire_err (bytes * Z) := sized (
  wsub Byte.x0a (GenesisState_Params m)).
Definition GenesisState_Size (m : GenesisState) : Z :=
  size_len (Size (GenesisState_Params m)).
Definition GenesisState_switch (fieldNum : Z) : option (action GenesisState) :=
  match fieldNum with
  | 1 => Some (case_sub GenesisState_Params (fun v m => (MkGenesisState v)))
  | _ => None
  end.
Definition GenesisState_Unmarshal : bytes -> GenesisState -> result wire_err GenesisState := unmarshal GenesisState_switch.
#[global] Instance gfw_GenesisState_msg : WireMsg GenesisState := {|
  Size := GenesisState_Size; MarshalToSizedBuffer := GenesisState_MarshalToSizedBuffer;
  wUnmarshal := GenesisState_Unmarshal; wZero := MkGenesisState wZero |}.
#[global] Instance gfw_GenesisState_ok : WireOk GenesisState := fun m => wire_ok (GenesisState_Params m).
#[global] Instance gfw_GenesisState_full : WireFull GenesisState := fun m => wire_full (GenesisState_Params m).
#[global] Instance gfw_GenesisState_laws : WireLaws GenesisState.
Proof. wire_laws GenesisState_switch. Qed.

(** [MsgUpdateParams]. *)
Record MsgUpdateParams := MkMsgUpdateParams { MsgUpdateParams_Authority : bytes; MsgUpdateParams_Params : Params }.
Definition MsgUpdateParams_MarshalToSizedBuffer (m : MsgUpdateParams) : bytes -> result wire_err (bytes * Z) := sized (
  wsub Byte.x12 (MsgUpdateParams_Params m) ;>
  wif (0 <? blen (MsgUpdateParams_Authority m)) (wlen Byte.x0a (MsgUpdateParams_Authority m))).
Definition MsgUpdateParams_Size (m : MsgUpdateParams) : Z :=
  (if 0 <? blen (MsgUpdateParams_Authority m) then size_len (blen (MsgUpdateParams_Authority m)) else 0) +
  size_len (Size (MsgUpdateParams_Params m)).
Definition MsgUpdateParams_switch (fieldNum : Z) : option (action MsgUpdateParams) :=
  match fieldNum with
  | 1 => Some (case_string (fun v m => (MkMsgUpdateParams v (MsgUpdateParams_Params m))))
  | 2 => Some (case_sub MsgUpdateParams_Params (fun v m => (MkMsgUpdateParams (MsgUpdateParams_Authority m) v)))
  | _ => None
  end.
Definition MsgUpdateParams_Unmarshal : bytes -> MsgUpdateParams -> result wire_err MsgUpdateParams := unmarshal MsgUpdateParams_switch.
#[global] Instance gfw_MsgUpdateParams_msg : WireMsg MsgUpdateParams := {|
  Size := MsgUpdateParams_Size; MarshalToSizedBuffer := MsgUpdateParams_MarshalToSizedBuffer;
  wUnmarshal := MsgUpdateParams_Unmarshal; wZero := MkMsgUpdateParams [] wZero |}.
#[global] Instance gfw_MsgUpdateParams_ok : WireOk MsgUpdateParams := fun m => wire_ok (MsgUpdateParams_Params m).
#[global] Instance gfw_MsgUpdateParams_full : WireFull MsgUpdateParams := fun m => wire_full (MsgUpdateParams_Params m).
#[global] Instance gfw_MsgUpdateParams_laws : WireLaws MsgUpdateParams.
Proof. wire_laws MsgUpdateParams_switch. Qed.

(** [QueryMinimumGasPricesResponse]. *)
Record QueryMinimumGasPricesResponse := MkQueryMinimumGasPricesResponse { QueryMinimumGasPricesResponse_MinimumGasPrices : list DecCoin }.
Definition QueryMinimumGasPricesResponse_MarshalToSizedBuffer (m : QueryMinimumGasPricesResponse) : bytes -> result wire_err (bytes * Z) := sized (
  wif (0 <? Z.of_nat (length (QueryMinimumGasPricesResponse_MinimumGasPrices m))) (wdown (QueryMinimumGasPricesResponse_MinimumGasPrices m) (wsub Byte.x0a))).
Definition QueryMinimumGasPricesResponse_Size (m : QueryMinimumGasPricesResponse) : Z :=
  (if 0 <? Z.of_nat (length (QueryMinimumGasPricesResponse_MinimumGasPrices m)) then size_each (fun e => size_len (Size e)) (QueryMinimumGasPricesResponse_MinimumGasPrices m) else 0).
Definition QueryMinimumGasPricesResponse_switch (fieldNum : Z) : option (action QueryMinimumGasPricesResponse) :=
  match fieldNum with
  | 1 => Some (case_rep QueryMinimumGasPricesResponse_MinimumGasPrices (fun v m => (MkQueryMinimumGasPricesResponse v)))
  | _ => None
  end.
Definition QueryMinimumGasPricesResponse_Unmarshal : bytes -> QueryMinimumGasPricesResponse -> result wire_err QueryMinimumGasPricesResponse := unmarshal QueryMinimumGasPricesResponse_switch.
#[global] Instance gfw_QueryMinimumGasPricesResponse_msg : WireMsg QueryMinimumGasPricesResponse := {|
  Size := QueryMinimumGasPricesResponse_Size; MarshalToSizedBuffer := QueryMinimumGasPricesResponse_MarshalToSizedBuffer;
  wUnmarshal := QueryMinimumGasPricesResponse_Unmarshal; wZero := MkQueryMinimumGasPricesResponse [] |}.
#[global] Instance gfw_QueryMinimumGasPricesResponse_ok : WireOk QueryMinimumGasPricesResponse := fun m => Forall wire_ok (QueryMinimumGasPricesResponse_MinimumGasPrices m).
#[global] Instance gfw_QueryMinimumGasPricesResponse_full : WireFull QueryMinimumGasPricesResponse := fun m => Forall wire_full (QueryMinimumGasPricesResponse_MinimumGasPrices m).
#[global] Instance gfw_QueryMinimumGasPricesResponse_laws : WireLaws QueryMinimumGasPricesResponse.
Proof. wire_laws QueryMinimumGasPricesResponse_switch. Qed.

End Codec.
