(* ===== verification/ApiFs.v ===== *)
(** * feeshare: the codec of the API types

    [api/terp/feeshare/v1/*.pulsar.go]: [size], [marshal] and
    [unmarshal] of every message with fields, and the agreement with
    the codec of [x/feeshare/types]. *)

From S2P Require Import Prelude Proto Sdk Wire WireLaws FeeShare FeeShareQuery WireFs Pulsar.

Open Scope go_scope.

Section Api.
Context {RT : WireRuntime} {RL : RuntimeLaws} {OP : Options}.
Context {PageRequest ApiPageRequest : Type} {WPageRequest : WireMsg PageRequest} {OPageRequest : WireOk PageRequest} {FPageRequest : WireFull PageRequest} {LPageRequest : WireLaws PageRequest}
  {PPageRequest : PulsarMsg ApiPageRequest} {POPageRequest : WireOk ApiPageRequest} {PFPageRequest : WireFull ApiPageRequest} {PLPageRequest : PulsarLaws ApiPageRequest}
  {TPageRequest : ToApi PageRequest ApiPageRequest} {APageRequest : ApiLaws PageRequest ApiPageRequest}.
Context {PageResponse ApiPageResponse : Type} {WPageResponse : WireMsg PageResponse} {OPageResponse : WireOk PageResponse} {FPageResponse : WireFull PageResponse} {LPageResponse : WireLaws PageResponse}
  {PPageResponse : PulsarMsg ApiPageResponse} {POPageResponse : WireOk ApiPageResponse} {PFPageResponse : WireFull ApiPageResponse} {PLPageResponse : PulsarLaws ApiPageResponse}
  {TPageResponse : ToApi PageResponse ApiPageResponse} {APageResponse : ApiLaws PageResponse ApiPageResponse}.
Context {CDec : WireCustom (option Z)} {CFDec : WireFull (option Z)} {CLDec : CustomLaws (option Z)} {CTDec : TextLaws (option Z)}.

(** [FeeShare]. *)
Record ApiFeeShare := MkApiFeeShare { ApiFeeShare_ContractAddress : bytes; ApiFeeShare_DeployerAddress : bytes; ApiFeeShare_WithdrawerAddress : bytes; ApiFeeShare_unknownFields : bytes }.
Definition FeeShare_size (x : ApiFeeShare) : Z :=
  (if 0 <? blen (ApiFeeShare_ContractAddress x) then size_len (blen (ApiFeeShare_ContractAddress x)) else 0) +
  (if 0 <? blen (ApiFeeShare_DeployerAddress x) then size_len (blen (ApiFeeShare_DeployerAddress x)) else 0) +
  (if 0 <? blen (ApiFeeShare_WithdrawerAddress x) then size_len (blen (ApiFeeShare_WithdrawerAddress x)) else 0) +
  size_unknown (ApiFeeShare_unknownFields x).
Definition FeeShare_marshal (x : ApiFeeShare) : writer :=
  wunknown (ApiFeeShare_unknownFields x) ;>
  wif (0 <? blen (ApiFeeShare_WithdrawerAddress x)) (wlen Byte.x1a (ApiFeeShare_WithdrawerAddress x)) ;>
  wif (0 <? blen (ApiFeeShare_DeployerAddress x)) (wlen Byte.x12 (ApiFeeShare_DeployerAddress x)) ;>
  wif (0 <? blen (ApiFeeShare_ContractAddress x)) (wlen Byte.x0a (ApiFeeShare_ContractAddress x)).
Definition FeeShare_cases (discard : bool) (fieldNum : Z) : option (action ApiFeeShare) :=
  match fieldNum with
  | 1 => Some (case_string (fun v m => (MkApiFeeShare v (ApiFeeShare_DeployerAddress m) (ApiFeeShare_WithdrawerAddress m) (ApiFeeShare_unknownFields m))))
  | 2 => Some (case_string (fun v m => (MkApiFeeShare (ApiFeeShare_ContractAddress m) v (ApiFeeShare_WithdrawerAddress m) (ApiFeeShare_unknownFields m))))
  | 3 => Some (case_string (fun v m => (MkApiFeeShare (ApiFeeShare_ContractAddress m) (ApiFeeShare_DeployerAddress m) v (ApiFeeShare_unknownFields m))))
  | _ => None
  end.
Definition FeeShare_switch (discard : bool) : switch ApiFeeShare :=
  keeping discard ApiFeeShare_unknownFields (fun v m => (MkApiFeeShare (ApiFeeShare_ContractAddress m) (ApiFeeShare_DeployerAddress m) (ApiFeeShare_WithdrawerAddress m) v)) (FeeShare_cases discard).
#[global] Instance afs_FeeShare_msg : PulsarMsg ApiFeeShare := {|
  pSize := FeeShare_size; pWrite := FeeShare_marshal; pUnmarshal := fun discard => unmarshal_with (FeeShare_switch discard); pZero := MkApiFeeShare [] [] [] [] |}.
#[global] Instance afs_FeeShare_ok : WireOk ApiFeeShare := fun m => True.
#[global] Instance afs_FeeShare_full : WireFull ApiFeeShare := fun m => unknown_ok (FeeShare_cases false) (ApiFeeShare_unknownFields m).
#[global] Instance afs_FeeShare_laws : PulsarLaws ApiFeeShare.
Proof. pulsar_laws FeeShare_switch FeeShare_cases FeeShare_marshal. Qed.
#[global] Instance afs_FeeShare_to_api : ToApi FeeShare ApiFeeShare := fun a => MkApiFeeShare (ContractAddress a) (DeployerAddress a) (WithdrawerAddress a) [].
#[global] Instance afs_FeeShare_api : ApiLaws FeeShare ApiFeeShare.
Proof. api_laws FeeShare_switch FeeShare_marshal. Qed.

(** [Params]. *)
Record ApiParams := MkApiParams { ApiParams_EnableFeeShare : bool; ApiParams_DeveloperShares : bytes; ApiParams_AllowedDenoms : list bytes; ApiParams_unknownFields : bytes }.
Definition Params_size (x : ApiParams) : Z :=
  (if (ApiParams_EnableFeeShare x) then 2 else 0) +
  (if 0 <? blen (ApiParams_DeveloperShares x) then size_len (blen (ApiParams_DeveloperShares x)) else 0) +
  (if 0 <? Z.of_nat (length (ApiParams_AllowedDenoms x)) then size_each (fun s => size_len (blen s)) (ApiParams_AllowedDenoms x) else 0) +
  size_unknown (ApiParams_unknownFields x).
Definition Params_marshal (x : ApiParams) : writer :=
  wunknown (ApiParams_unknownFields x) ;>
  wif (0 <? Z.of_nat (length (ApiParams_AllowedDenoms x))) (wdown (ApiParams_AllowedDenoms x) (wlen Byte.x1a)) ;>
  wif (0 <? blen (ApiParams_DeveloperShares x)) (wlen Byte.x12 (ApiParams_DeveloperShares x)) ;>
  wif (ApiParams_EnableFeeShare x) (wbool (ApiParams_EnableFeeShare x) ;> wbyte Byte.x08).
Definition Params_cases (discard : bool) (fieldNum : Z) : option (action ApiParams) :=
  match fieldNum with
  | 1 => Some (case_bool (fun v m => (MkApiParams v (ApiParams_DeveloperShares m) (ApiParams_AllowedDenoms m) (ApiParams_unknownFields m))))
  | 2 => Some (case_string (fun v m => (MkApiParams (ApiParams_EnableFeeShare m) v (ApiParams_AllowedDenoms m) (ApiParams_unknownFields m))))
  | 3 => Some (case_strings ApiParams_AllowedDenoms (fun v m => (MkApiParams (ApiParams_EnableFeeShare m) (ApiParams_DeveloperShares m) v (ApiParams_unknownFields m))))
  | _ => None
  end.
Definition Params_switch (discard : bool) : switch ApiParams :=
  keeping discard ApiParams_unknownFields (fun v m => (MkApiParams (ApiParams_EnableFeeShare m) (ApiParams_DeveloperShares m) (ApiParams_AllowedDenoms m) v)) (Params_cases discard).
#[global] Instance afs_Params_msg : PulsarMsg ApiParams := {|
  pSize := Params_size; pWrite := Params_marshal; pUnmarshal := fun discard => unmarshal_with (Params_switch discard); pZero := MkApiParams false [] [] [] |}.
#[global] Instance afs_Params_ok : WireOk ApiParams := fun m => True.
#[global] Instance afs_Params_full : WireFull ApiParams := fun m => unknown_ok (Params_cases false) (ApiParams_unknownFields m).
#[global] Instance afs_Params_laws : PulsarLaws ApiParams.
Proof. pulsar_laws Params_switch Params_cases Params_marshal. Qed.
#[global] Instance afs_Params_to_api : ToApi FsParams ApiParams := fun a => MkApiParams (EnableFeeShare a) (text_of (DeveloperShares a)) (AllowedDenoms a) [].
#[global] Instance afs_Params_api : ApiLaws FsParams ApiParams.
Proof. api_laws Params_switch Params_marshal. Qed.

(** [GenesisState]. *)
Record ApiGenesisState := MkApiGenesisState { ApiGenesisState_Params : option ApiParams; ApiGenesisState_FeeShare : list (option ApiFeeShare); ApiGenesisState_unknownFields : bytes }.
Definition GenesisState_size (x : ApiGenesisState) : Z :=
  (match (ApiGenesisState_Params x) with Some y => size_len (pSize y) | None => 0 end) +
  (if 0 <? Z.of_nat (length (ApiGenesisState_FeeShare x)) then size_each (fun e => size_len (pSize_ptr e)) (ApiGenesisState_FeeShare x) else 0) +
  size_unknown (ApiGenesisState_unknownFields x).
Definition GenesisState_marshal (x : ApiGenesisState) : writer :=
  wunknown (ApiGenesisState_unknownFields x) ;>
  wif (0 <? Z.of_nat (length (ApiGenesisState_FeeShare x))) (wdown (ApiGenesisState_FeeShare x) (wenc Byte.x12)) ;>
  (match (ApiGenesisState_Params x) with Some y => wenc Byte.x0a (Some y) | None => wskip end).
Definition GenesisState_cases (discard : bool) (fieldNum : Z) : option (action ApiGenesisState) :=
  match fieldNum with
  | 1 => Some (pcase_ptr discard ApiGenesisState_Params (fun v m => (MkApiGenesisState v (ApiGenesisState_FeeShare m) (ApiGenesisState_unknownFields m))))
  | 2 => Some (pcase_rep discard ApiGenesisState_FeeShare (fun v m => (MkApiGenesisState (ApiGenesisState_Params m) v (ApiGenesisState_unknownFields m))))
  | _ => None
  end.
Definition GenesisState_switch (discard : bool) : switch ApiGenesisState :=
  keeping discard ApiGenesisState_unknownFields (fun v m => (MkApiGenesisState (ApiGenesisState_Params m) (ApiGenesisState_FeeShare m) v)) (GenesisState_cases discard).
#[global] Instance afs_GenesisState_msg : PulsarMsg ApiGenesisState := {|
  pSize := GenesisState_size; pWrite := GenesisState_marshal; pUnmarshal := fun discard => unmarshal_with (GenesisState_switch discard); pZero := MkApiGenesisState None [] [] |}.
#[global] Instance afs_GenesisState_ok : WireOk ApiGenesisState := fun m => opt_ok (ApiGenesisState_Params m) /\ Forall (ptr wire_ok) (ApiGenesisState_FeeShare m).
#[global] Instance afs_GenesisState_full : WireFull ApiGenesisState := fun m => unknown_ok (GenesisState_cases false) (ApiGenesisState_unknownFields m) /\ opt_full (ApiGenesisState_Params m) /\ Forall (ptr wire_full) (ApiGenesisState_FeeShare m).
#[global] Instance afs_GenesisState_laws : PulsarLaws ApiGenesisState.
Proof. pulsar_laws GenesisState_switch GenesisState_cases GenesisState_marshal. Qed.
#[global] Instance afs_GenesisState_to_api : ToApi FsGenesis ApiGenesisState := fun a => MkApiGenesisState (Some (to_api (fs_Params a))) (map (fun e => Some (to_api e)) (fs_FeeShare a)) [].
#[global] Instance afs_GenesisState_api : ApiLaws FsGenesis ApiGenesisState.
Proof. api_laws GenesisState_switch GenesisState_marshal. Qed.

(** [MsgRegisterFeeShare]. *)
Record ApiMsgRegisterFeeShare := MkApiMsgRegisterFeeShare { ApiMsgRegisterFeeShare_ContractAddress : bytes; ApiMsgRegisterFeeShare_DeployerAddress : bytes; ApiMsgRegisterFeeShare_WithdrawerAddress : bytes; ApiMsgRegisterFeeShare_unknownFields : bytes }.
Definition MsgRegisterFeeShare_size (x : ApiMsgRegisterFeeShare) : Z :=
  (if 0 <? blen (ApiMsgRegisterFeeShare_ContractAddress x) then size_len (blen (ApiMsgRegisterFeeShare_ContractAddress x)) else 0) +
  (if 0 <? blen (ApiMsgRegisterFeeShare_DeployerAddress x) then size_len (blen (ApiMsgRegisterFeeShare_DeployerAddress x)) else 0) +
  (if 0 <? blen (ApiMsgRegisterFeeShare_WithdrawerAddress x) then size_len (blen (ApiMsgRegisterFeeShare_WithdrawerAddress x)) else 0) +
  size_unknown (ApiMsgRegisterFeeShare_unknownFields x).
Definition MsgRegisterFeeShare_marshal (x : ApiMsgRegisterFeeShare) : writer :=
  wunknown (ApiMsgRegisterFeeShare_unknownFields x) ;>
  wif (0 <? blen (ApiMsgRegisterFeeShare_WithdrawerAddress x)) (wlen Byte.x1a (ApiMsgRegisterFeeShare_WithdrawerAddress x)) ;>
  wif (0 <? blen (ApiMsgRegisterFeeShare_DeployerAddress x)) (wlen Byte.x12 (ApiMsgRegisterFeeShare_DeployerAddress x)) ;>
  wif (0 <? blen (ApiMsgRegisterFeeShare_ContractAddress x)) (wlen Byte.x0a (ApiMsgRegisterFeeShare_ContractAddress x)).
Definition MsgRegisterFeeShare_cases (discard : bool) (fieldNum : Z) : option (action ApiMsgRegisterFeeShare) :=
  match fieldNum with
  | 1 => Some (case_string (fun v m => (MkApiMsgRegisterFeeShare v (ApiMsgRegisterFeeShare_DeployerAddress m) (ApiMsgRegisterFeeShare_WithdrawerAddress m) (ApiMsgRegisterFeeShare_unknownFields m))))
  | 2 => Some (case_string (fun v m => (MkApiMsgRegisterFeeShare (ApiMsgRegisterFeeShare_ContractAddress m) v (ApiMsgRegisterFeeShare_WithdrawerAddress m) (ApiMsgRegisterFeeShare_unknownFields m))))
  | 3 => Some (case_string (fun v m => (MkApiMsgRegisterFeeShare (ApiMsgRegisterFeeShare_ContractAddress m) (ApiMsgRegisterFeeShare_DeployerAddress m) v (ApiMsgRegisterFeeShare_unknownFields m))))
  | _ => None
  end.
Definition MsgRegisterFeeShare_switch (discard : bool) : switch ApiMsgRegisterFeeShare :=
  keeping discard ApiMsgRegisterFeeShare_unknownFields (fun v m => (MkApiMsgRegisterFeeShare (ApiMsgRegisterFeeShare_ContractAddress m) (ApiMsgRegisterFeeShare_DeployerAddress m) (ApiMsgRegisterFeeShare_WithdrawerAddress m) v)) (MsgRegisterFeeShare_cases discard).
#[global] Instance afs_MsgRegisterFeeShare_msg : PulsarMsg ApiMsgRegisterFeeShare := {|
  pSize := MsgRegisterFeeShare_size; pWrite := MsgRegisterFeeShare_marshal; pUnmarshal := fun discard => unmarshal_with (MsgRegisterFeeShare_switch discard); pZero := MkApiMsgRegisterFeeShare [] [] [] [] |}.
#[global] Instance afs_MsgRegisterFeeShare_ok : WireOk ApiMsgRegisterFeeShare := fun m => True.
#[global] Instance afs_MsgRegisterFeeShare_full : WireFull ApiMsgRegisterFeeShare := fun m => unknown_ok (MsgRegisterFeeShare_cases false) (ApiMsgRegisterFeeShare_unknownFields m).
#[global] Instance afs_MsgRegisterFeeShare_laws : PulsarLaws ApiMsgRegisterFeeShare.
Proof. pulsar_laws MsgRegisterFeeShare_switch MsgRegisterFeeShare_cases MsgRegisterFeeShare_marshal. Qed.
#[global] Instance afs_MsgRegisterFeeShare_to_api : ToApi MsgRegisterFeeShare ApiMsgRegisterFeeShare := fun a => MkApiMsgRegisterFeeShare (mr_ContractAddress a) (mr_DeployerAddress a) (mr_WithdrawerAddress a) [].
#[global] Instance afs_MsgRegisterFeeShare_api : ApiLaws MsgRegisterFeeShare ApiMsgRegisterFeeShare.
Proof. api_laws MsgRegisterFeeShare_switch MsgRegisterFeeShare_marshal. Qed.

(** [MsgUpdateFeeShare]. *)
Record ApiMsgUpdateFeeShare := MkApiMsgUpdateFeeShare { ApiMsgUpdateFeeShare_ContractAddress : bytes; ApiMsgUpdateFeeShare_DeployerAddress : bytes; ApiMsgUpdateFeeShare_WithdrawerAddress : bytes; ApiMsgUpdateFeeShare_unknownFields : bytes }.
Definition MsgUpdateFeeShare_size (x : ApiMsgUpdateFeeShare) : Z :=
  (if 0 <? blen (ApiMsgUpdateFeeShare_ContractAddress x) then size_len (blen (ApiMsgUpdateFeeShare_ContractAddress x)) else 0) +
  (if 0 <? blen (ApiMsgUpdateFeeShare_DeployerAddress x) then size_len (blen (ApiMsgUpdateFeeShare_DeployerAddress x)) else 0) +
  (if 0 <? blen (ApiMsgUpdateFeeShare_WithdrawerAddress x) then size_len (blen (ApiMsgUpdateFeeShare_WithdrawerAddress x)) else 0) +
  size_unknown (ApiMsgUpdateFeeShare_unknownFields x).
Definition MsgUpdateFeeShare_marshal (x : ApiMsgUpdateFeeShare) : writer :=
  wunknown (ApiMsgUpdateFeeShare_unknownFields x) ;>
  wif (0 <? blen (ApiMsgUpdateFeeShare_WithdrawerAddress x)) (wlen Byte.x1a (ApiMsgUpdateFeeShare_WithdrawerAddress x)) ;>
  wif (0 <? blen (ApiMsgUpdateFeeShare_DeployerAddress x)) (wlen Byte.x12 (ApiMsgUpdateFeeShare_DeployerAddress x)) ;>
  wif (0 <? blen (ApiMsgUpdateFeeShare_ContractAddress x)) (wlen Byte.x0a (ApiMsgUpdateFeeShare_ContractAddress x)).
Definition MsgUpdateFeeShare_cases (discard : bool) (fieldNum : Z) : option (action ApiMsgUpdateFeeShare) :=
  match fieldNum with
  | 1 => Some (case_string (fun v m => (MkApiMsgUpdateFeeShare v (ApiMsgUpdateFeeShare_DeployerAddress m) (ApiMsgUpdateFeeShare_WithdrawerAddress m) (ApiMsgUpdateFeeShare_unknownFields m))))
  | 2 => Some (case_string (fun v m => (MkApiMsgUpdateFeeShare (ApiMsgUpdateFeeShare_ContractAddress m) v (ApiMsgUpdateFeeShare_WithdrawerAddress m) (ApiMsgUpdateFeeShare_unknownFields m))))
  | 3 => Some (case_string (fun v m => (MkApiMsgUpdateFeeShare (ApiMsgUpdateFeeShare_ContractAddress m) (ApiMsgUpdateFeeShare_DeployerAddress m) v (ApiMsgUpdateFeeShare_unknownFields m))))
  | _ => None
  end.
Definition MsgUpdateFeeShare_switch (discard : bool) : switch ApiMsgUpdateFeeShare :=
  keeping discard ApiMsgUpdateFeeShare_unknownFields (fun v m => (MkApiMsgUpdateFeeShare (ApiMsgUpdateFeeShare_ContractAddress m) (ApiMsgUpdateFeeShare_DeployerAddress m) (ApiMsgUpdateFeeShare_WithdrawerAddress m) v)) (MsgUpdateFeeShare_cases discard).
#[global] Instance afs_MsgUpdateFeeShare_msg : PulsarMsg ApiMsgUpdateFeeShare := {|
  pSize := MsgUpdateFeeShare_size; pWrite := MsgUpdateFeeShare_marshal; pUnmarshal := fun discard => unmarshal_with (MsgUpdateFeeShare_switch discard); pZero := MkApiMsgUpdateFeeShare [] [] [] [] |}.
#[global] Instance afs_MsgUpdateFeeShare_ok : WireOk ApiMsgUpdateFeeShare := fun m => True.
#[global] Instance afs_MsgUpdateFeeShare_full : WireFull ApiMsgUpdateFeeShare := fun m => unknown_ok (MsgUpdateFeeShare_cases false) (ApiMsgUpdateFeeShare_unknownFields m).
#[global] Instance afs_MsgUpdateFeeShare_laws : PulsarLaws ApiMsgUpdateFeeShare.
Proof. pulsar_laws MsgUpdateFeeShare_switch MsgUpdateFeeShare_cases MsgUpdateFeeShare_marshal. Qed.
#[global] Instance afs_MsgUpdateFeeShare_to_api : ToApi MsgUpdateFeeShare ApiMsgUpdateFeeShare := fun a => MkApiMsgUpdateFeeShare (mu_ContractAddress a) (mu_DeployerAddress a) (mu_WithdrawerAddress a) [].
#[global] Instance afs_MsgUpdateFeeShare_api : ApiLaws MsgUpdateFeeShare ApiMsgUpdateFeeShare.
Proof. api_laws MsgUpdateFeeShare_switch MsgUpdateFeeShare_marshal. Qed.

(** [MsgCancelFeeShare]. *)
Record ApiMsgCancelFeeShare := MkApiMsgCancelFeeShare { ApiMsgCancelFeeShare_ContractAddress : bytes; ApiMsgCancelFeeShare_DeployerAddress : bytes; ApiMsgCancelFeeShare_unknownFields : bytes }.
Definition MsgCancelFeeShare_size (x : ApiMsgCancelFeeShare) : Z :=
  (if 0 <? blen (ApiMsgCancelFeeShare_ContractAddress x) then size_len (blen (ApiMsgCancelFeeShare_ContractAddress x)) else 0) +
  (if 0 <? blen (ApiMsgCancelFeeShare_DeployerAddress x) then size_len (blen (ApiMsgCancelFeeShare_DeployerAddress x)) else 0) +
  size_unknown (ApiMsgCancelFeeShare_unknownFields x).
Definition MsgCancelFeeShare_marshal (x : ApiMsgCancelFeeShare) : writer :=
  wunknown (ApiMsgCancelFeeShare_unknownFields x) ;>
  wif (0 <? blen (ApiMsgCancelFeeShare_DeployerAddress x)) (wlen Byte.x12 (ApiMsgCancelFeeShare_DeployerAddress x)) ;>
  wif (0 <? blen (ApiMsgCancelFeeShare_ContractAddress x)) (wlen Byte.x0a (ApiMsgCancelFeeShare_ContractAddress x)).
Definition MsgCancelFeeShare_cases (discard : bool) (fieldNum : Z) : option (action ApiMsgCancelFeeShare) :=
  match fieldNum with
  | 1 => Some (case_string (fun v m => (MkApiMsgCancelFeeShare v (ApiMsgCancelFeeShare_DeployerAddress m) (ApiMsgCancelFeeShare_unknownFields m))))
  | 2 => Some (case_string (fun v m => (MkApiMsgCancelFeeShare (ApiMsgCancelFeeShare_ContractAddress m) v (ApiMsgCancelFeeShare_unknownFields m))))
  | _ => None
  end.
Definition MsgCancelFeeShare_switch (discard : bool) : switch ApiMsgCancelFeeShare :=
  keeping discard ApiMsgCancelFeeShare_unknownFields (fun v m => (MkApiMsgCancelFeeShare (ApiMsgCancelFeeShare_ContractAddress m) (ApiMsgCancelFeeShare_DeployerAddress m) v)) (MsgCancelFeeShare_cases discard).
#[global] Instance afs_MsgCancelFeeShare_msg : PulsarMsg ApiMsgCancelFeeShare := {|
  pSize := MsgCancelFeeShare_size; pWrite := MsgCancelFeeShare_marshal; pUnmarshal := fun discard => unmarshal_with (MsgCancelFeeShare_switch discard); pZero := MkApiMsgCancelFeeShare [] [] [] |}.
#[global] Instance afs_MsgCancelFeeShare_ok : WireOk ApiMsgCancelFeeShare := fun m => True.
#[global] Instance afs_MsgCancelFeeShare_full : WireFull ApiMsgCancelFeeShare := fun m => unknown_ok (MsgCancelFeeShare_cases false) (ApiMsgCancelFeeShare_unknownFields m).
#[global] Instance afs_MsgCancelFeeShare_laws : PulsarLaws ApiMsgCancelFeeShare.
Proof. pulsar_laws MsgCancelFeeShare_switch MsgCancelFeeShare_cases MsgCancelFeeShare_marshal. Qed.
#[global] Instance afs_MsgCancelFeeShare_to_api : ToApi MsgCancelFeeShare ApiMsgCancelFeeShare := fun a => MkApiMsgCancelFeeShare (mc_ContractAddress a) (mc_DeployerAddress a) [].
#[global] Instance afs_MsgCancelFeeShare_api : ApiLaws MsgCancelFeeShare ApiMsgCancelFeeShare.
Proof. api_laws MsgCancelFeeShare_switch MsgCancelFeeShare_marshal. Qed.

(** [MsgUpdateParams]. *)
Record ApiMsgUpdateParams := MkApiMsgUpdateParams { ApiMsgUpdateParams_Authority : bytes; ApiMsgUpdateParams_Params : option ApiParams; ApiMsgUpdateParams_unknownFields : bytes }.
Definition MsgUpdateParams_size (x : ApiMsgUpdateParams) : Z :=
  (if 0 <? blen (ApiMsgUpdateParams_Authority x) then size_len (blen (ApiMsgUpdateParams_Authority x)) else 0) +
  (match (ApiMsgUpdateParams_Params x) with Some y => size_len (pSize y) | None => 0 end) +
  size_unknown (ApiMsgUpdateParams_unknownFields x).
Definition MsgUpdateParams_marshal (x : ApiMsgUpdateParams) : writer :=
  wunknown (ApiMsgUpdateParams_unknownFields x) ;>
  (match (ApiMsgUpdateParams_Params x) with Some y => wenc Byte.x12 (Some y) | None => wskip end) ;>
  wif (0 <? blen (ApiMsgUpdateParams_Authority x)) (wlen Byte.x0a (ApiMsgUpdateParams_Authority x)).
Definition MsgUpdateParams_cases (discard : bool) (fieldNum : Z) : option (action ApiMsgUpdateParams) :=
  match fieldNum with
  | 1 => Some (case_string (fun v m => (MkApiMsgUpdateParams v (ApiMsgUpdateParams_Params m) (ApiMsgUpdateParams_unknownFields m))))
  | 2 => Some (pcase_ptr discard ApiMsgUpdateParams_Params (fun v m => (MkApiMsgUpdateParams (ApiMsgUpdateParams_Authority m) v (ApiMsgUpdateParams_unknownFields m))))
  | _ => None
  end.
Definition MsgUpdateParams_switch (discard : bool) : switch ApiMsgUpdateParams :=
  keeping discard ApiMsgUpdateParams_unknownFields (fun v m => (MkApiMsgUpdateParams (ApiMsgUpdateParams_Authority m) (ApiMsgUpdateParams_Params m) v)) (MsgUpdateParams_cases discard).
#[global] Instance afs_MsgUpdateParams_msg : PulsarMsg ApiMsgUpdateParams := {|
  pSize := MsgUpdateParams_size; pWrite := MsgUpdateParams_marshal; pUnmarshal := fun discard => unmarshal_with (MsgUpdateParams_switch discard); pZero := MkApiMsgUpdateParams [] None [] |}.
#[global] Instance afs_MsgUpdateParams_ok : WireOk ApiMsgUpdateParams := fun m => opt_ok (ApiMsgUpdateParams_Params m).
#[global] Instance afs_MsgUpdateParams_full : WireFull ApiMsgUpdateParams := fun m => unknown_ok (MsgUpdateParams_cases false) (ApiMsgUpdateParams_unknownFields m) /\ opt_full (ApiMsgUpdateParams_Params m).
#[global] Instance afs_MsgUpdateParams_laws : PulsarLaws ApiMsgUpdateParams.
Proof. pulsar_laws MsgUpdateParams_switch MsgUpdateParams_cases MsgUpdateParams_marshal. Qed.
#[global] Instance afs_MsgUpdateParams_to_api : ToApi MsgUpdateParams ApiMsgUpdateParams := fun a => MkApiMsgUpdateParams (MsgUpdateParams_Authority a) (Some (to_api (MsgUpdateParams_Params a))) [].
#[global] Instance afs_MsgUpdateParams_api : ApiLaws MsgUpdateParams ApiMsgUpdateParams.
Proof. api_laws MsgUpdateParams_switch MsgUpdateParams_marshal. Qed.

(** [QueryFeeSharesRequest]. *)
Record ApiQueryFeeSharesRequest := MkApiQueryFeeSharesRequest { ApiQueryFeeSharesRequest_Pagination : option ApiPageRequest; ApiQueryFeeSharesRequest_unknownFields : bytes }.
Definition QueryFeeSharesRequest_size (x : ApiQueryFeeSharesRequest) : Z :=
  (match (ApiQueryFeeSharesRequest_Pagination x) with Some y => size_len (pSize y) | None => 0 end) +
  size_unknown (ApiQueryFeeSharesRequest_unknownFields x).
Definition QueryFeeSharesRequest_marshal (x : ApiQueryFeeSharesRequest) : writer :=
  wunknown (ApiQueryFeeSharesRequest_unknownFields x) ;>
  (match (ApiQueryFeeSharesRequest_Pagination x) with Some y => wenc Byte.x0a (Some y) | None => wskip end).
Definition QueryFeeSharesRequest_cases (discard : bool) (fieldNum : Z) : option (action ApiQueryFeeSharesRequest) :=
  match fieldNum with
  | 1 => Some (pcase_ptr discard ApiQueryFeeSharesRequest_Pagination (fun v m => (MkApiQueryFeeSharesRequest v (ApiQueryFeeSharesRequest_unknownFields m))))
  | _ => None
  end.
Definition QueryFeeSharesRequest_switch (discard : bool) : switch ApiQueryFeeSharesRequest :=
  keeping discard ApiQueryFeeSharesRequest_unknownFields (fun v m => (MkApiQueryFeeSharesRequest (ApiQueryFeeSharesRequest_Pagination m) v)) (QueryFeeSharesRequest_cases discard).
#[global] Instance afs_QueryFeeSharesRequest_msg : PulsarMsg ApiQueryFeeSharesRequest := {|
  pSize := QueryFeeSharesRequest_size; pWrite := QueryFeeSharesRequest_marshal; pUnmarshal := fun discard => unmarshal_with (QueryFeeSharesRequest_switch discard); pZero := MkApiQueryFeeSharesRequest None [] |}.
#[global] Instance afs_QueryFeeSharesRequest_ok : WireOk ApiQueryFeeSharesRequest := fun m => opt_ok (ApiQueryFeeSharesRequest_Pagination m).
#[global] Instance afs_QueryFeeSharesRequest_full : WireFull ApiQueryFeeSharesRequest := fun m => unknown_ok (QueryFeeSharesRequest_cases false) (ApiQueryFeeSharesRequest_unknownFields m) /\ opt_full (ApiQueryFeeSharesRequest_Pagination m).
#[global] Instance afs_QueryFeeSharesRequest_laws : PulsarLaws ApiQueryFeeSharesRequest.
Proof. pulsar_laws QueryFeeSharesRequest_switch QueryFeeSharesRequest_cases QueryFeeSharesRequest_marshal. Qed.
#[global] Instance afs_QueryFeeSharesRequest_to_api : ToApi (@QueryFeeSharesRequest PageRequest) ApiQueryFeeSharesRequest := fun a => MkApiQueryFeeSharesRequest (option_map to_api (QueryFeeSharesRequest_Pagination a)) [].
#[global] Instance afs_QueryFeeSharesRequest_api : ApiLaws (@QueryFeeSharesRequest PageRequest) ApiQueryFeeSharesRequest.
Proof. api_laws QueryFeeSharesRequest_switch QueryFeeSharesRequest_marshal. Qed.

(** [QueryFeeSharesResponse]. *)
Record ApiQueryFeeSharesResponse := MkApiQueryFeeSharesResponse { ApiQueryFeeSharesResponse_Feeshare : list (option ApiFeeShare); ApiQueryFeeSharesResponse_Pagination : option ApiPageResponse; ApiQueryFeeSharesResponse_unknownFields : bytes }.
Definition QueryFeeSharesResponse_size (x : ApiQueryFeeSharesResponse) : Z :=
  (if 0 <? Z.of_nat (length (ApiQueryFeeSharesResponse_Feeshare x)) then size_each (fun e => size_len (pSize_ptr e)) (ApiQueryFeeSharesResponse_Feeshare x) else 0) +
  (match (ApiQueryFeeSharesResponse_Pagination x) with Some y => size_len (pSize y) | None => 0 end) +
  size_unknown (ApiQueryFeeSharesResponse_unknownFields x).
Definition QueryFeeSharesResponse_marshal (x : ApiQueryFeeSharesResponse) : writer :=
  wunknown (ApiQueryFeeSharesResponse_unknownFields x) ;>
  (match (ApiQueryFeeSharesResponse_Pagination x) with Some y => wenc Byte.x12 (Some y) | None => wskip end) ;>
  wif (0 <? Z.of_nat (length (ApiQueryFeeSharesResponse_Feeshare x))) (wdown (ApiQueryFeeSharesResponse_Feeshare x) (wenc Byte.x0a)).
Definition QueryFeeSharesResponse_cases (discard : bool) (fieldNum : Z) : option (action ApiQueryFeeSharesResponse) :=
  match fieldNum with
  | 1 => Some (pcase_rep discard ApiQueryFeeSharesResponse_Feeshare (fun v m => (MkApiQueryFeeSharesResponse v (ApiQueryFeeSharesResponse_Pagination m) (ApiQueryFeeSharesResponse_unknownFields m))))
  | 2 => Some (pcase_ptr discard ApiQueryFeeSharesResponse_Pagination (fun v m => (MkApiQueryFeeSharesResponse (ApiQueryFeeSharesResponse_Feeshare m) v (ApiQueryFeeSharesResponse_unknownFields m))))
  | _ => None
  end.
Definition QueryFeeSharesResponse_switch (discard : bool) : switch ApiQueryFeeSharesResponse :=
  keeping discard ApiQueryFeeSharesResponse_unknownFields (fun v m => (MkApiQueryFeeSharesResponse (ApiQueryFeeSharesResponse_Feeshare m) (ApiQueryFeeSharesResponse_Pagination m) v)) (QueryFeeSharesResponse_cases discard).
#[global] Instance afs_QueryFeeSharesResponse_msg : PulsarMsg ApiQueryFeeSharesResponse := {|
  pSize := QueryFeeSharesResponse_size; pWrite := QueryFeeSharesResponse_marshal; pUnmarshal := fun discard => unmarshal_with (QueryFeeSharesResponse_switch discard); pZero := MkApiQueryFeeSharesResponse [] None [] |}.
#[global] Instance afs_QueryFeeSharesResponse_ok : WireOk ApiQueryFeeSharesResponse := fun m => Forall (ptr wire_ok) (ApiQueryFeeSharesResponse_Feeshare m) /\ opt_ok (ApiQueryFeeSharesResponse_Pagination m).
#[global] Instance afs_QueryFeeSharesResponse_full : WireFull ApiQueryFeeSharesResponse := fun m => unknown_ok (QueryFeeSharesResponse_cases false) (ApiQueryFeeSharesResponse_unknownFields m) /\ Forall (ptr wire_full) (ApiQueryFeeSharesResponse_Feeshare m) /\ opt_full (ApiQueryFeeSharesResponse_Pagination m).
#[global] Instance afs_QueryFeeSharesResponse_laws : PulsarLaws ApiQueryFeeSharesResponse.
Proof. pulsar_laws QueryFeeSharesResponse_switch QueryFeeSharesResponse_cases QueryFeeSharesResponse_marshal. Qed.
#[global] Instance afs_QueryFeeSharesResponse_to_api : ToApi (@QueryFeeSharesResponse PageResponse) ApiQueryFeeSharesResponse := fun a => MkApiQueryFeeSharesResponse (map (fun e => Some (to_api e)) (QueryFeeSharesResponse_Feeshare a)) (option_map to_api (QueryFeeSharesResponse_Pagination a)) [].
#[global] Instance afs_QueryFeeSharesResponse_api : ApiLaws (@QueryFeeSharesResponse PageResponse) ApiQueryFeeSharesResponse.
Proof. api_laws QueryFeeSharesResponse_switch QueryFeeSharesResponse_marshal. Qed.

(** [QueryFeeShareRequest]. *)
Record ApiQueryFeeShareRequest := MkApiQueryFeeShareRequest { ApiQueryFeeShareRequest_ContractAddress : bytes; ApiQueryFeeShareRequest_unknownFields : bytes }.
Definition QueryFeeShareRequest_size (x : ApiQueryFeeShareRequest) : Z :=
  (if 0 <? blen (ApiQueryFeeShareRequest_ContractAddress x) then size_len (blen (ApiQueryFeeShareRequest_ContractAddress x)) else 0) +
  size_unknown (ApiQueryFeeShareRequest_unknownFields x).
Definition QueryFeeShareRequest_marshal (x : ApiQueryFeeShareRequest) : writer :=
  wunknown (ApiQueryFeeShareRequest_unknownFields x) ;>
  wif (0 <? blen (ApiQueryFeeShareRequest_ContractAddress x)) (wlen Byte.x0a (ApiQueryFeeShareRequest_ContractAddress x)).
Definition QueryFeeShareRequest_cases (discard : bool) (fieldNum : Z) : option (action ApiQueryFeeShareRequest) :=
  match fieldNum with
  | 1 => Some (case_string (fun v m => (MkApiQueryFeeShareRequest v (ApiQueryFeeShareRequest_unknownFields m))))
  | _ => None
  end.
Definition QueryFeeShareRequest_switch (discard : bool) : switch ApiQueryFeeShareRequest :=
  keeping discard ApiQueryFeeShareRequest_unknownFields (fun v m => (MkApiQueryFeeShareRequest (ApiQueryFeeShareRequest_ContractAddress m) v)) (QueryFeeShareRequest_cases discard).
#[global] Instance afs_QueryFeeShareRequest_msg : PulsarMsg ApiQueryFeeShareRequest := {|
  pSize := QueryFeeShareRequest_size; pWrite := QueryFeeShareRequest_marshal; pUnmarshal := fun discard => unmarshal_with (QueryFeeShareRequest_switch discard); pZero := MkApiQueryFeeShareRequest [] [] |}.
#[global] Instance afs_QueryFeeShareRequest_ok : WireOk ApiQueryFeeShareRequest := fun m => True.
#[global] Instance afs_QueryFeeShareRequest_full : WireFull ApiQueryFeeShareRequest := fun m => unknown_ok (QueryFeeShareRequest_cases false) (ApiQueryFeeShareRequest_unknownFields m).
#[global] Instance afs_QueryFeeShareRequest_laws : PulsarLaws ApiQueryFeeShareRequest.
Proof. pulsar_laws QueryFeeShareRequest_switch QueryFeeShareRequest_cases QueryFeeShareRequest_marshal. Qed.
#[global] Instance afs_QueryFeeShareRequest_to_api : ToApi QueryFeeShareRequest ApiQueryFeeShareRequest := fun a => MkApiQueryFeeShareRequest (QueryFeeShareRequest_ContractAddress a) [].
#[global] Instance afs_QueryFeeShareRequest_api : ApiLaws QueryFeeShareRequest ApiQueryFeeShareRequest.
Proof. api_laws QueryFeeShareRequest_switch QueryFeeShareRequest_marshal. Qed.

(** [QueryFeeShareResponse]. *)
Record ApiQueryFeeShareResponse := MkApiQueryFeeShareResponse { ApiQueryFeeShareResponse_Feeshare : option ApiFeeShare; ApiQueryFeeShareResponse_unknownFields : bytes }.
Definition QueryFeeShareResponse_size (x : ApiQueryFeeShareResponse) : Z :=
  (match (ApiQueryFeeShareResponse_Feeshare x) with Some y => size_len (pSize y) | None => 0 end) +
  size_unknown (ApiQueryFeeShareResponse_unknownFields x).
Definition QueryFeeShareResponse_marshal (x : ApiQueryFeeShareResponse) : writer :=
  wunknown (ApiQueryFeeShareResponse_unknownFields x) ;>
  (match (ApiQueryFeeShareResponse_Feeshare x) with Some y => wenc Byte.x0a (Some y) | None => wskip end).
Definition QueryFeeShareResponse_cases (discard : bool) (fieldNum : Z) : option (action ApiQueryFeeShareResponse) :=
  match fieldNum with
  | 1 => Some (pcase_ptr discard ApiQueryFeeShareResponse_Feeshare (fun v m => (MkApiQueryFeeShareResponse v (ApiQueryFeeShareResponse_unknownFields m))))
  | _ => None
  end.
Definition QueryFeeShareResponse_switch (discard : bool) : switch ApiQueryFeeShareResponse :=
  keeping discard ApiQueryFeeShareResponse_unknownFields (fun v m => (MkApiQueryFeeShareResponse (ApiQueryFeeShareResponse_Feeshare m) v)) (QueryFeeShareResponse_cases discard).
#[global] Instance afs_QueryFeeShareResponse_msg : PulsarMsg ApiQueryFeeShareResponse := {|
  pSize := QueryFeeShareResponse_size; pWrite := QueryFeeShareResponse_marshal; pUnmarshal := fun discard => unmarshal_with (QueryFeeShareResponse_switch discard); pZero := MkApiQueryFeeShareResponse None [] |}.
#[global] Instance afs_QueryFeeShareResponse_ok : WireOk ApiQueryFeeShareResponse := fun m => opt_ok (ApiQueryFeeShareResponse_Feeshare m).
#[global] Instance afs_QueryFeeShareResponse_full : WireFull ApiQueryFeeShareResponse := fun m => unknown_ok (QueryFeeShareResponse_cases false) (ApiQueryFeeShareResponse_unknownFields m) /\ opt_full (ApiQueryFeeShareResponse_Feeshare m).
#[global] Instance afs_QueryFeeShareResponse_laws : PulsarLaws ApiQueryFeeShareResponse.
Proof. pulsar_laws QueryFeeShareResponse_switch QueryFeeShareResponse_cases QueryFeeShareResponse_marshal. Qed.
#[global] Instance afs_QueryFeeShareResponse_to_api : ToApi QueryFeeShareResponse ApiQueryFeeShareResponse := fun a => MkApiQueryFeeShareResponse (Some (to_api (QueryFeeShareResponse_Feeshare a))) [].
#[global] Instance afs_QueryFeeShareResponse_api : ApiLaws QueryFeeShareResponse ApiQueryFeeShareResponse.
Proof. api_laws QueryFeeShareResponse_switch QueryFeeShareResponse_marshal. Qed.

(** [QueryParamsResponse]. *)
Record ApiQueryParamsResponse := MkApiQueryParamsResponse { ApiQueryParamsResponse_Params : option ApiParams; ApiQueryParamsResponse_unknownFields : bytes }.
Definition QueryParamsResponse_size (x : ApiQueryParamsResponse) : Z :=
  (match (ApiQueryParamsResponse_Params x) with Some y => size_len (pSize y) | None => 0 end) +
  size_unknown (ApiQueryParamsResponse_unknownFields x).
Definition QueryParamsResponse_marshal (x : ApiQueryParamsResponse) : writer :=
  wunknown (ApiQueryParamsResponse_unknownFields x) ;>
  (match (ApiQueryParamsResponse_Params x) with Some y => wenc Byte.x0a (Some y) | None => wskip end).
Definition QueryParamsResponse_cases (discard : bool) (fieldNum : Z) : option (action ApiQueryParamsResponse) :=
  match fieldNum with
  | 1 => Some (pcase_ptr discard ApiQueryParamsResponse_Params (fun v m => (MkApiQueryParamsResponse v (ApiQueryParamsResponse_unknownFields m))))
  | _ => None
  end.
Definition QueryParamsResponse_switch (discard : bool) : switch ApiQueryParamsResponse :=
  keeping discard ApiQueryParamsResponse_unknownFields (fun v m => (MkApiQueryParamsResponse (ApiQueryParamsResponse_Params m) v)) (QueryParamsResponse_cases discard).
#[global] Instance afs_QueryParamsResponse_msg : PulsarMsg ApiQueryParamsResponse := {|
  pSize := QueryParamsResponse_size; pWrite := QueryParamsResponse_marshal; pUnmarshal := fun discard => unmarshal_with (QueryParamsResponse_switch discard); pZero := MkApiQueryParamsResponse None [] |}.
#[global] Instance afs_QueryParamsResponse_ok : WireOk ApiQueryParamsResponse := fun m => opt_ok (ApiQueryParamsResponse_Params m).
#[global] Instance afs_QueryParamsResponse_full : WireFull ApiQueryParamsResponse := fun m => unknown_ok (QueryParamsResponse_cases false) (ApiQueryParamsResponse_unknownFields m) /\ opt_full (ApiQueryParamsResponse_Params m).
#[global] Instance afs_QueryParamsResponse_laws : PulsarLaws ApiQueryParamsResponse.
Proof. pulsar_laws QueryParamsResponse_switch QueryParamsResponse_cases QueryParamsResponse_marshal. Qed.
#[global] Instance afs_QueryParamsResponse_to_api : ToApi QueryParamsResponse ApiQueryParamsResponse := fun a => MkApiQueryParamsResponse (Some (to_api (QueryParamsResponse_Params a))) [].
#[global] Instance afs_QueryParamsResponse_api : ApiLaws QueryParamsResponse ApiQueryParamsResponse.
Proof. api_laws QueryParamsResponse_switch QueryParamsResponse_marshal. Qed.

(** [QueryDeployerFeeSharesRequest]. *)
Record ApiQueryDeployerFeeSharesRequest := MkApiQueryDeployerFeeSharesRequest { ApiQueryDeployerFeeSharesRequest_DeployerAddress : bytes; ApiQueryDeployerFeeSharesRequest_Pagination : option ApiPageRequest; ApiQueryDeployerFeeSharesRequest_unknownFields : bytes }.
Definition QueryDeployerFeeSharesRequest_size (x : ApiQueryDeployerFeeSharesRequest) : Z :=
  (if 0 <? blen (ApiQueryDeployerFeeSharesRequest_DeployerAddress x) then size_len (blen (ApiQueryDeployerFeeSharesRequest_DeployerAddress x)) else 0) +
  (match (ApiQueryDeployerFeeSharesRequest_Pagination x) with Some y => size_len (pSize y) | None => 0 end) +
  size_unknown (ApiQueryDeployerFeeSharesRequest_unknownFields x).
Definition QueryDeployerFeeSharesRequest_marshal (x : ApiQueryDeployerFeeSharesRequest) : writer :=
  wunknown (ApiQueryDeployerFeeSharesRequest_unknownFields x) ;>
  (match (ApiQueryDeployerFeeSharesRequest_Pagination x) with Some y => wenc Byte.x12 (Some y) | None => wskip end) ;>
  wif (0 <? blen (ApiQueryDeployerFeeSharesRequest_DeployerAddress x)) (wlen Byte.x0a (ApiQueryDeployerFeeSharesRequest_DeployerAddress x)).
Definition QueryDeployerFeeSharesRequest_cases (discard : bool) (fieldNum : Z) : option (action ApiQueryDeployerFeeSharesRequest) :=
  match fieldNum with
  | 1 => Some (case_string (fun v m => (MkApiQueryDeployerFeeSharesRequest v (ApiQueryDeployerFeeSharesRequest_Pagination m) (ApiQueryDeployerFeeSharesRequest_unknownFields m))))
  | 2 => Some (pcase_ptr discard ApiQueryDeployerFeeSharesRequest_Pagination (fun v m => (MkApiQueryDeployerFeeSharesRequest (ApiQueryDeployerFeeSharesRequest_DeployerAddress m) v (ApiQueryDeployerFeeSharesRequest_unknownFields m))))
  | _ => None
  end.
Definition QueryDeployerFeeSharesRequest_switch (discard : bool) : switch ApiQueryDeployerFeeSharesRequest :=
  keeping discard ApiQueryDeployerFeeSharesRequest_unknownFields (fun v m => (MkApiQueryDeployerFeeSharesRequest (ApiQueryDeployerFeeSharesRequest_DeployerAddress m) (ApiQueryDeployerFeeSharesRequest_Pagination m) v)) (QueryDeployerFeeSharesRequest_cases discard).
#[global] Instance afs_QueryDeployerFeeSharesRequest_msg : PulsarMsg ApiQueryDeployerFeeSharesRequest := {|
  pSize := QueryDeployerFeeSharesRequest_size; pWrite := QueryDeployerFeeSharesRequest_marshal; pUnmarshal := fun discard => unmarshal_with (QueryDeployerFeeSharesRequest_switch discard); pZero := MkApiQueryDeployerFeeSharesRequest [] None [] |}.
#[global] Instance afs_QueryDeployerFeeSharesRequest_ok : WireOk ApiQueryDeployerFeeSharesRequest := fun m => opt_ok (ApiQueryDeployerFeeSharesRequest_Pagination m).
#[global] Instance afs_QueryDeployerFeeSharesRequest_full : WireFull ApiQueryDeployerFeeSharesRequest := fun m => unknown_ok (QueryDeployerFeeSharesRequest_cases false) (ApiQueryDeployerFeeSharesRequest_unknownFields m) /\ opt_full (ApiQueryDeployerFeeSharesRequest_Pagination m).
#[global] Instance afs_QueryDeployerFeeSharesRequest_laws : PulsarLaws ApiQueryDeployerFeeSharesRequest.
Proof. pulsar_laws QueryDeployerFeeSharesRequest_switch QueryDeployerFeeSharesRequest_cases QueryDeployerFeeSharesRequest_marshal. Qed.
#[global] Instance afs_QueryDeployerFeeSharesRequest_to_api : ToApi (@QueryDeployerFeeSharesRequest PageRequest) ApiQueryDeployerFeeSharesRequest := fun a => MkApiQueryDeployerFeeSharesRequest (QueryDeployerFeeSharesRequest_DeployerAddress a) (option_map to_api (QueryDeployerFeeSharesRequest_Pagination a)) [].
#[global] Instance afs_QueryDeployerFeeSharesRequest_api : ApiLaws (@QueryDeployerFeeSharesRequest PageRequest) ApiQueryDeployerFeeSharesRequest.
Proof. api_laws QueryDeployerFeeSharesRequest_switch QueryDeployerFeeSharesRequest_marshal. Qed.

(** [QueryDeployerFeeSharesResponse]. *)
Record ApiQueryDeployerFeeSharesResponse := MkApiQueryDeployerFeeSharesResponse { ApiQueryDeployerFeeSharesResponse_ContractAddresses : list bytes; ApiQueryDeployerFeeSharesResponse_Pagination : option ApiPageResponse; ApiQueryDeployerFeeSharesResponse_unknownFields : bytes }.
Definition QueryDeployerFeeSharesResponse_size (x : ApiQueryDeployerFeeSharesResponse) : Z :=
  (if 0 <? Z.of_nat (length (ApiQueryDeployerFeeSharesResponse_ContractAddresses x)) then size_each (fun s => size_len (blen s)) (ApiQueryDeployerFeeSharesResponse_ContractAddresses x) else 0) +
  (match (ApiQueryDeployerFeeSharesResponse_Pagination x) with Some y => size_len (pSize y) | None => 0 end) +
  size_unknown (ApiQueryDeployerFeeSharesResponse_unknownFields x).
Definition QueryDeployerFeeSharesResponse_marshal (x : ApiQueryDeployerFeeSharesResponse) : writer :=
  wunknown (ApiQueryDeployerFeeSharesResponse_unknownFields x) ;>
  (match (ApiQueryDeployerFeeSharesResponse_Pagination x) with Some y => wenc Byte.x12 (Some y) | None => wskip end) ;>
  wif (0 <? Z.of_nat (length (ApiQueryDeployerFeeSharesResponse_ContractAddresses x))) (wdown (ApiQueryDeployerFeeSharesResponse_ContractAddresses x) (wlen Byte.x0a)).
Definition QueryDeployerFeeSharesResponse_cases (discard : bool) (fieldNum : Z) : option (action ApiQueryDeployerFeeSharesResponse) :=
  match fieldNum with
  | 1 => Some (case_strings ApiQueryDeployerFeeSharesResponse_ContractAddresses (fun v m => (MkApiQueryDeployerFeeSharesResponse v (ApiQueryDeployerFeeSharesResponse_Pagination m) (ApiQueryDeployerFeeSharesResponse_unknownFields m))))
  | 2 => Some (pcase_ptr discard ApiQueryDeployerFeeSharesResponse_Pagination (fun v m => (MkApiQueryDeployerFeeSharesResponse (ApiQueryDeployerFeeSharesResponse_ContractAddresses m) v (ApiQueryDeployerFeeSharesResponse_unknownFields m))))
  | _ => None
  end.
Definition QueryDeployerFeeSharesResponse_switch (discard : bool) : switch ApiQueryDeployerFeeSharesResponse :=
  keeping discard ApiQueryDeployerFeeSharesResponse_unknownFields (fun v m => (MkApiQueryDeployerFeeSharesResponse (ApiQueryDeployerFeeSharesResponse_ContractAddresses m) (ApiQueryDeployerFeeSharesResponse_Pagination m) v)) (QueryDeployerFeeSharesResponse_cases discard).
#[global] Instance afs_QueryDeployerFeeSharesResponse_msg : PulsarMsg ApiQueryDeployerFeeSharesResponse := {|
  pSize := QueryDeployerFeeSharesResponse_size; pWrite := QueryDeployerFeeSharesResponse_marshal; pUnmarshal := fun discard => unmarshal_with (QueryDeployerFeeSharesResponse_switch discard); pZero := MkApiQueryDeployerFeeSharesResponse [] None [] |}.
#[global] Instance afs_QueryDeployerFeeSharesResponse_ok : WireOk ApiQueryDeployerFeeSharesResponse := fun m => opt_ok (ApiQueryDeployerFeeSharesResponse_Pagination m).
#[global] Instance afs_QueryDeployerFeeSharesResponse_full : WireFull ApiQueryDeployerFeeSharesResponse := fun m => unknown_ok (QueryDeployerFeeSharesResponse_cases false) (ApiQueryDeployerFeeSharesResponse_unknownFields m) /\ opt_full (ApiQueryDeployerFeeSharesResponse_Pagination m).
#[global] Instance afs_QueryDeployerFeeSharesResponse_laws : PulsarLaws ApiQueryDeployerFeeSharesResponse.
Proof. pulsar_laws QueryDeployerFeeSharesResponse_switch QueryDeployerFeeSharesResponse_cases QueryDeployerFeeSharesResponse_marshal. Qed.
#[global] Instance afs_QueryDeployerFeeSharesResponse_to_api : ToApi (@QueryDeployerFeeSharesResponse PageResponse) ApiQueryDeployerFeeSharesResponse := fun a => MkApiQueryDeployerFeeSharesResponse (QueryDeployerFeeSharesResponse_ContractAddresses a) (option_map to_api (QueryDeployerFeeSharesResponse_Pagination a)) [].
#[global] Instance afs_QueryDeployerFeeSharesResponse_api : ApiLaws (@QueryDeployerFeeSharesResponse PageResponse) ApiQueryDeployerFeeSharesResponse.
Proof. api_laws QueryDeployerFeeSharesResponse_switch QueryDeployerFeeSharesResponse_marshal. Qed.

(** [QueryWithdrawerFeeSharesRequest]. *)
Record ApiQueryWithdrawerFeeSharesRequest := MkApiQueryWithdrawerFeeSharesRequest { ApiQueryWithdrawerFeeSharesRequest_WithdrawerAddress : bytes; ApiQueryWithdrawerFeeSharesRequest_Pagination : option ApiPageRequest; ApiQueryWithdrawerFeeSharesRequest_unknownFields : bytes }.
Definition QueryWithdrawerFeeSharesRequest_size (x : ApiQueryWithdrawerFeeSharesRequest) : Z :=
  (if 0 <? blen (ApiQueryWithdrawerFeeSharesRequest_WithdrawerAddress x) then size_len (blen (ApiQueryWithdrawerFeeSharesRequest_WithdrawerAddress x)) else 0) +
  (match (ApiQueryWithdrawerFeeSharesRequest_Pagination x) with Some y => size_len (pSize y) | None => 0 end) +
  size_unknown (ApiQueryWithdrawerFeeSharesRequest_unknownFields x).
Definition QueryWithdrawerFeeSharesRequest_marshal (x : ApiQueryWithdrawerFeeSharesRequest) : writer :=
  wunknown (ApiQueryWithdrawerFeeSharesRequest_unknownFields x) ;>
  (match (ApiQueryWithdrawerFeeSharesRequest_Pagination x) with Some y => wenc Byte.x12 (Some y) | None => wskip end) ;>
  wif (0 <? blen (ApiQueryWithdrawerFeeSharesRequest_WithdrawerAddress x)) (wlen Byte.x0a (ApiQueryWithdrawerFeeSharesRequest_WithdrawerAddress x)).
Definition QueryWithdrawerFeeSharesRequest_cases (discard : bool) (fieldNum : Z) : option (action ApiQueryWithdrawerFeeSharesRequest) :=
  match fieldNum with
  | 1 => Some (case_string (fun v m => (MkApiQueryWithdrawerFeeSharesRequest v (ApiQueryWithdrawerFeeSharesRequest_Pagination m) (ApiQueryWithdrawerFeeSharesRequest_unknownFields m))))
  | 2 => Some (pcase_ptr discard ApiQueryWithdrawerFeeSharesRequest_Pagination (fun v m => (MkApiQueryWithdrawerFeeSharesRequest (ApiQueryWithdrawerFeeSharesRequest_WithdrawerAddress m) v (ApiQueryWithdrawerFeeSharesRequest_unknownFields m))))
  | _ => None
  end.
Definition QueryWithdrawerFeeSharesRequest_switch (discard : bool) : switch ApiQueryWithdrawerFeeSharesRequest :=
  keeping discard ApiQueryWithdrawerFeeSharesRequest_unknownFields (fun v m => (MkApiQueryWithdrawerFeeSharesRequest (ApiQueryWithdrawerFeeSharesRequest_WithdrawerAddress m) (ApiQueryWithdrawerFeeSharesRequest_Pagination m) v)) (QueryWithdrawerFeeSharesRequest_cases discard).
#[global] Instance afs_QueryWithdrawerFeeSharesRequest_msg : PulsarMsg ApiQueryWithdrawerFeeSharesRequest := {|
  pSize := QueryWithdrawerFeeSharesRequest_size; pWrite := QueryWithdrawerFeeSharesRequest_marshal; pUnmarshal := fun discard => unmarshal_with (QueryWithdrawerFeeSharesRequest_switch discard); pZero := MkApiQueryWithdrawerFeeSharesRequest [] None [] |}.
#[global] Instance afs_QueryWithdrawerFeeSharesRequest_ok : WireOk ApiQueryWithdrawerFeeSharesRequest := fun m => opt_ok (ApiQueryWithdrawerFeeSharesRequest_Pagination m).
#[global] Instance afs_QueryWithdrawerFeeSharesRequest_full : WireFull ApiQueryWithdrawerFeeSharesRequest := fun m => unknown_ok (QueryWithdrawerFeeSharesRequest_cases false) (ApiQueryWithdrawerFeeSharesRequest_unknownFields m) /\ opt_full (ApiQueryWithdrawerFeeSharesRequest_Pagination m).
#[global] Instance afs_QueryWithdrawerFeeSharesRequest_laws : PulsarLaws ApiQueryWithdrawerFeeSharesRequest.
Proof. pulsar_laws QueryWithdrawerFeeSharesRequest_switch QueryWithdrawerFeeSharesRequest_cases QueryWithdrawerFeeSharesRequest_marshal. Qed.
#[global] Instance afs_QueryWithdrawerFeeSharesRequest_to_api : ToApi (@QueryWithdrawerFeeSharesRequest PageRequest) ApiQueryWithdrawerFeeSharesRequest := fun a => MkApiQueryWithdrawerFeeSharesRequest (QueryWithdrawerFeeSharesRequest_WithdrawerAddress a) (option_map to_api (QueryWithdrawerFeeSharesRequest_Pagination a)) [].
#[global] Instance afs_QueryWithdrawerFeeSharesRequest_api : ApiLaws (@QueryWithdrawerFeeSharesRequest PageRequest) ApiQueryWithdrawerFeeSharesRequest.
Proof. api_laws QueryWithdrawerFeeSharesRequest_switch QueryWithdrawerFeeSharesRequest_marshal. Qed.

(** [QueryWithdrawerFeeSharesResponse]. *)
Record ApiQueryWithdrawerFeeSharesResponse := MkApiQueryWithdrawerFeeSharesResponse { ApiQueryWithdrawerFeeSharesResponse_ContractAddresses : list bytes; ApiQueryWithdrawerFeeSharesResponse_Pagination : option ApiPageResponse; ApiQueryWithdrawerFeeSharesResponse_unknownFields : bytes }.
Definition QueryWithdrawerFeeSharesResponse_size (x : ApiQueryWithdrawerFeeSharesResponse) : Z :=
  (if 0 <? Z.of_nat (length (ApiQueryWithdrawerFeeSharesResponse_ContractAddresses x)) then size_each (fun s => size_len (blen s)) (ApiQueryWithdrawerFeeSharesResponse_ContractAddresses x) else 0) +
  (match (ApiQueryWithdrawerFeeSharesResponse_Pagination x) with Some y => size_len (pSize y) | None => 0 end) +
  size_unknown (ApiQueryWithdrawerFeeSharesResponse_unknownFields x).
Definition QueryWithdrawerFeeSharesResponse_marshal (x : ApiQueryWithdrawerFeeSharesResponse) : writer :=
  wunknown (ApiQueryWithdrawerFeeSharesResponse_unknownFields x) ;>
  (match (ApiQueryWithdrawerFeeSharesResponse_Pagination x) with Some y => wenc Byte.x12 (Some y) | None => wskip end) ;>
  wif (0 <? Z.of_nat (length (ApiQueryWithdrawerFeeSharesResponse_ContractAddresses x))) (wdown (ApiQueryWithdrawerFeeSharesResponse_ContractAddresses x) (wlen Byte.x0a)).
Definition QueryWithdrawerFeeSharesResponse_cases (discard : bool) (fieldNum : Z) : option (action ApiQueryWithdrawerFeeSharesResponse) :=
  match fieldNum with
  | 1 => Some (case_strings ApiQueryWithdrawerFeeSharesResponse_ContractAddresses (fun v m => (MkApiQueryWithdrawerFeeSharesResponse v (ApiQueryWithdrawerFeeSharesResponse_Pagination m) (ApiQueryWithdrawerFeeSharesResponse_unknownFields m))))
  | 2 => Some (pcase_ptr discard ApiQueryWithdrawerFeeSharesResponse_Pagination (fun v m => (MkApiQueryWithdrawerFeeSharesResponse (ApiQueryWithdrawerFeeSharesResponse_ContractAddresses m) v (ApiQueryWithdrawerFeeSharesResponse_unknownFields m))))
  | _ => None
  end.
Definition QueryWithdrawerFeeSharesResponse_switch (discard : bool) : switch ApiQueryWithdrawerFeeSharesResponse :=
  keeping discard ApiQueryWithdrawerFeeSharesResponse_unknownFields (fun v m => (MkApiQueryWithdrawerFeeSharesResponse (ApiQueryWithdrawerFeeSharesResponse_ContractAddresses m) (ApiQueryWithdrawerFeeSharesResponse_Pagination m) v)) (QueryWithdrawerFeeSharesResponse_cases discard).
#[global] Instance afs_QueryWithdrawerFeeSharesResponse_msg : PulsarMsg ApiQueryWithdrawerFeeSharesResponse := {|
  pSize := QueryWithdrawerFeeSharesResponse_size; pWrite := QueryWithdrawerFeeSharesResponse_marshal; pUnmarshal := fun discard => unmarshal_with (QueryWithdrawerFeeSharesResponse_switch discard); pZero := MkApiQueryWithdrawerFeeSharesResponse [] None [] |}.
#[global] Instance afs_QueryWithdrawerFeeSharesResponse_ok : WireOk ApiQueryWithdrawerFeeSharesResponse := fun m => opt_ok (ApiQueryWithdrawerFeeSharesResponse_Pagination m).
#[global] Instance afs_QueryWithdrawerFeeSharesResponse_full : WireFull ApiQueryWithdrawerFeeSharesResponse := fun m => unknown_ok (QueryWithdrawerFeeSharesResponse_cases false) (ApiQueryWithdrawerFeeSharesResponse_unknownFields m) /\ opt_full (ApiQueryWithdrawerFeeSharesResponse_Pagination m).
#[global] Instance afs_QueryWithdrawerFeeSharesResponse_laws : PulsarLaws ApiQueryWithdrawerFeeSharesResponse.
Proof. pulsar_laws QueryWithdrawerFeeSharesResponse_switch QueryWithdrawerFeeSharesResponse_cases QueryWithdrawerFeeSharesResponse_marshal. Qed.
#[global] Instance afs_QueryWithdrawerFeeSharesResponse_to_api : ToApi (@QueryWithdrawerFeeSharesResponse PageResponse) ApiQueryWithdrawerFeeSharesResponse := fun a => MkApiQueryWithdrawerFeeSharesResponse (QueryWithdrawerFeeSharesResponse_ContractAddresses a) (option_map to_api (QueryWithdrawerFeeSharesResponse_Pagination a)) [].
#[global] Instance afs_QueryWithdrawerFeeSharesResponse_api : ApiLaws (@QueryWithdrawerFeeSharesResponse PageResponse) ApiQueryWithdrawerFeeSharesResponse.
Proof. api_laws QueryWithdrawerFeeSharesResponse_switch QueryWithdrawerFeeSharesResponse_marshal. Qed.

End Api.
