(* ===== verification/ApiHm.v ===== *)
(** * hashmerchant: the codec of the API types

    [api/terp/hashmerchant/v1/*.pulsar.go]: [size], [marshal] and
    [unmarshal] of every message with fields, and the agreement with
    the codec of [x/hashmerchant/types]. *)

From S2P Require Import Prelude Proto Sdk HmTypes Wire WireLaws Pulsar WireToy WireHm.

Open Scope go_scope.

Section Api.
Context {RT : WireRuntime} {RL : RuntimeLaws} {OP : Options}.
Context {PageRequest ApiPageRequest : Type} {WPageRequest : WireMsg PageRequest} {OPageRequest : WireOk PageRequest} {FPageRequest : WireFull PageRequest} {LPageRequest : WireLaws PageRequest}
  {PPageRequest : PulsarMsg ApiPageRequest} {POPageRequest : WireOk ApiPageRequest} {PFPageRequest : WireFull ApiPageRequest} {PLPageRequest : PulsarLaws ApiPageRequest}
  {TPageRequest : ToApi PageRequest ApiPageRequest} {APageRequest : ApiLaws PageRequest ApiPageRequest}.
Context {PageResponse ApiPageResponse : Type} {WPageResponse : WireMsg PageResponse} {OPageResponse : WireOk PageResponse} {FPageResponse : WireFull PageResponse} {LPageResponse : WireLaws PageResponse}
  {PPageResponse : PulsarMsg ApiPageResponse} {POPageResponse : WireOk ApiPageResponse} {PFPageResponse : WireFull ApiPageResponse} {PLPageResponse : PulsarLaws ApiPageResponse}
  {TPageResponse : ToApi PageResponse ApiPageResponse} {APageResponse : ApiLaws PageResponse ApiPageResponse}.
Context {LegacyDec : Type} {CLegacyDec : WireCustom LegacyDec} {CFLegacyDec : WireFull LegacyDec} {CLLegacyDec : CustomLaws LegacyDec} {CTLegacyDec : TextLaws LegacyDec}.
Context {Int : Type} {CInt : WireCustom Int} {CFInt : WireFull Int} {CLInt : CustomLaws Int} {CTInt : TextLaws Int}.
Context {ApiCoin : Type} {WCoin : WireMsg Coin} {FCoin : WireFull Coin} {LCoin : WireLaws Coin}
  {PCoin : PulsarMsg ApiCoin} {POCoin : WireOk ApiCoin} {PFCoin : WireFull ApiCoin} {PLCoin : PulsarLaws ApiCoin}
  {TCoin : ToApi Coin ApiCoin} {ACoin : ApiLaws Coin ApiCoin}.

(** [RegisteredChain]. *)
Record ApiRegisteredChain := MkApiRegisteredChain { ApiRegisteredChain_ChainUid : bytes; ApiRegisteredChain_Name : bytes; ApiRegisteredChain_RpcEndpoints : list bytes; ApiRegisteredChain_HashAlgos : list bytes; ApiRegisteredChain_Enabled : bool; ApiRegisteredChain_unknownFields : bytes }.
Definition RegisteredChain_size (x : ApiRegisteredChain) : Z :=
  (if 0 <? blen (ApiRegisteredChain_ChainUid x) then size_len (blen (ApiRegisteredChain_ChainUid x)) else 0) +
  (if 0 <? blen (ApiRegisteredChain_Name x) then size_len (blen (ApiRegisteredChain_Name x)) else 0) +
  (if 0 <? Z.of_nat (length (ApiRegisteredChain_RpcEndpoints x)) then size_each (fun s => size_len (blen s)) (ApiRegisteredChain_RpcEndpoints x) else 0) +
  (if 0 <? Z.of_nat (length (ApiRegisteredChain_HashAlgos x)) then size_each (fun s => size_len (blen s)) (ApiRegisteredChain_HashAlgos x) else 0) +
  (if (ApiRegisteredChain_Enabled x) then 2 else 0) +
  size_unknown (ApiRegisteredChain_unknownFields x).
Definition RegisteredChain_marshal (x : ApiRegisteredChain) : writer :=
  wunknown (ApiRegisteredChain_unknownFields x) ;>
  wif (ApiRegisteredChain_Enabled x) (wbool (ApiRegisteredChain_Enabled x) ;> wbyte Byte.x28) ;>
  wif (0 <? Z.of_nat (length (ApiRegisteredChain_HashAlgos x))) (wdown (ApiRegisteredChain_HashAlgos x) (wlen Byte.x22)) ;>
  wif (0 <? Z.of_nat (length (ApiRegisteredChain_RpcEndpoints x))) (wdown (ApiRegisteredChain_RpcEndpoints x) (wlen Byte.x1a)) ;>
  wif (0 <? blen (ApiRegisteredChain_Name x)) (wlen Byte.x12 (ApiRegisteredChain_Name x)) ;>
  wif (0 <? blen (ApiRegisteredChain_ChainUid x)) (wlen Byte.x0a (ApiRegisteredChain_ChainUid x)).
Definition RegisteredChain_cases (discard : bool) (fieldNum : Z) : option (action ApiRegisteredChain) :=
  match fieldNum with
  | 1 => Some (case_string (fun v m => (MkApiRegisteredChain v (ApiRegisteredChain_Name m) (ApiRegisteredChain_RpcEndpoints m) (ApiRegisteredChain_HashAlgos m) (ApiRegisteredChain_Enabled m) (ApiRegisteredChain_unknownFields m))))
  | 2 => Some (case_string (fun v m => (MkApiRegisteredChain (ApiRegisteredChain_ChainUid m) v (ApiRegisteredChain_RpcEndpoints m) (ApiRegisteredChain_HashAlgos m) (ApiRegisteredChain_Enabled m) (ApiRegisteredChain_unknownFields m))))
  | 3 => Some (case_strings ApiRegisteredChain_RpcEndpoints (fun v m => (MkApiRegisteredChain (ApiRegisteredChain_ChainUid m) (ApiRegisteredChain_Name m) v (ApiRegisteredChain_HashAlgos m) (ApiRegisteredChain_Enabled m) (ApiRegisteredChain_unknownFields m))))
  | 4 => Some (case_strings ApiRegisteredChain_HashAlgos (fun v m => (MkApiRegisteredChain (ApiRegisteredChain_ChainUid m) (ApiRegisteredChain_Name m) (ApiRegisteredChain_RpcEndpoints m) v (ApiRegisteredChain_Enabled m) (ApiRegisteredChain_unknownFields m))))
  | 5 => Some (case_bool (fun v m => (MkApiRegisteredChain (ApiRegisteredChain_ChainUid m) (ApiRegisteredChain_Name m) (ApiRegisteredChain_RpcEndpoints m) (ApiRegisteredChain_HashAlgos m) v (ApiRegisteredChain_unknownFields m))))
  | _ => None
  end.
Definition RegisteredChain_switch (discard : bool) : switch ApiRegisteredChain :=
  keeping discard ApiRegisteredChain_unknownFields (fun v m => (MkApiRegisteredChain (ApiRegisteredChain_ChainUid m) (ApiRegisteredChain_Name m) (ApiRegisteredChain_RpcEndpoints m) (ApiRegisteredChain_HashAlgos m) (ApiRegisteredChain_Enabled m) v)) (RegisteredChain_cases discard).
#[global] Instance ahm_RegisteredChain_msg : PulsarMsg ApiRegisteredChain := {|
  pSize := RegisteredChain_size; pWrite := RegisteredChain_marshal; pUnmarshal := fun discard => unmarshal_with (RegisteredChain_switch discard); pZero := MkApiRegisteredChain [] [] [] [] false [] |}.
#[global] Instance ahm_RegisteredChain_ok : WireOk ApiRegisteredChain := fun m => True.
#[global] Instance ahm_RegisteredChain_full : WireFull ApiRegisteredChain := fun m => unknown_ok (RegisteredChain_cases false) (ApiRegisteredChain_unknownFields m).
#[global] Instance ahm_RegisteredChain_laws : PulsarLaws ApiRegisteredChain.
Proof. pulsar_laws RegisteredChain_switch RegisteredChain_cases RegisteredChain_marshal. Qed.
#[global] Instance ahm_RegisteredChain_to_api : ToApi RegisteredChain ApiRegisteredChain := fun a => MkApiRegisteredChain (ch_ChainUid a) (ch_Name a) (ch_RpcEndpoints a) (ch_HashAlgos a) (ch_Enabled a) (lost Byte.x32 (ch_OracleSources a)).
#[global] Instance ahm_RegisteredChain_api : ApiLaws RegisteredChain ApiRegisteredChain.
Proof. api_laws_lost RegisteredChain_switch RegisteredChain_marshal. Qed.

(** [RegisteredContract]. *)
Record ApiRegisteredContract := MkApiRegisteredContract { ApiRegisteredContract_ContractAddr : bytes; ApiRegisteredContract_ChainUid : bytes; ApiRegisteredContract_SubstoreKeys : list bytes; ApiRegisteredContract_Enabled : bool; ApiRegisteredContract_unknownFields : bytes }.
Definition RegisteredContract_size (x : ApiRegisteredContract) : Z :=
  (if 0 <? blen (ApiRegisteredContract_ContractAddr x) then size_len (blen (ApiRegisteredContract_ContractAddr x)) else 0) +
  (if 0 <? blen (ApiRegisteredContract_ChainUid x) then size_len (blen (ApiRegisteredContract_ChainUid x)) else 0) +
  (if 0 <? Z.of_nat (length (ApiRegisteredContract_SubstoreKeys x)) then size_each (fun s => size_len (blen s)) (ApiRegisteredContract_SubstoreKeys x) else 0) +
  (if (ApiRegisteredContract_Enabled x) then 2 else 0) +
  size_unknown (ApiRegisteredContract_unknownFields x).
Definition RegisteredContract_marshal (x : ApiRegisteredContract) : writer :=
  wunknown (ApiRegisteredContract_unknownFields x) ;>
  wif (ApiRegisteredContract_Enabled x) (wbool (ApiRegisteredContract_Enabled x) ;> wbyte Byte.x20) ;>
  wif (0 <? Z.of_nat (length (ApiRegisteredContract_SubstoreKeys x))) (wdown (ApiRegisteredContract_SubstoreKeys x) (wlen Byte.x1a)) ;>
  wif (0 <? blen (ApiRegisteredContract_ChainUid x)) (wlen Byte.x12 (ApiRegisteredContract_ChainUid x)) ;>
  wif (0 <? blen (ApiRegisteredContract_ContractAddr x)) (wlen Byte.x0a (ApiRegisteredContract_ContractAddr x)).
Definition RegisteredContract_cases (discard : bool) (fieldNum : Z) : option (action ApiRegisteredContract) :=
  match fieldNum with
  | 1 => Some (case_string (fun v m => (MkApiRegisteredContract v (ApiRegisteredContract_ChainUid m) (ApiRegisteredContract_SubstoreKeys m) (ApiRegisteredContract_Enabled m) (ApiRegisteredContract_unknownFields m))))
  | 2 => Some (case_string (fun v m => (MkApiRegisteredContract (ApiRegisteredContract_ContractAddr m) v (ApiRegisteredContract_SubstoreKeys m) (ApiRegisteredContract_Enabled m) (ApiRegisteredContract_unknownFields m))))
  | 3 => Some (case_strings ApiRegisteredContract_SubstoreKeys (fun v m => (MkApiRegisteredContract (ApiRegisteredContract_ContractAddr m) (ApiRegisteredContract_ChainUid m) v (ApiRegisteredContract_Enabled m) (ApiRegisteredContract_unknownFields m))))
  | 4 => Some (case_bool (fun v m => (MkApiRegisteredContract (ApiRegisteredContract_ContractAddr m) (ApiRegisteredContract_ChainUid m) (ApiRegisteredContract_SubstoreKeys m) v (ApiRegisteredContract_unknownFields m))))
  | _ => None
  end.
Definition RegisteredContract_switch (discard : bool) : switch ApiRegisteredContract :=
  keeping discard ApiRegisteredContract_unknownFields (fun v m => (MkApiRegisteredContract (ApiRegisteredContract_ContractAddr m) (ApiRegisteredContract_ChainUid m) (ApiRegisteredContract_SubstoreKeys m) (ApiRegisteredContract_Enabled m) v)) (RegisteredContract_cases discard).
#[global] Instance ahm_RegisteredContract_msg : PulsarMsg ApiRegisteredContract := {|
  pSize := RegisteredContract_size; pWrite := RegisteredContract_marshal; pUnmarshal := fun discard => unmarshal_with (RegisteredContract_switch discard); pZero := MkApiRegisteredContract [] [] [] false [] |}.
#[global] Instance ahm_RegisteredContract_ok : WireOk ApiRegisteredContract := fun m => True.
#[global] Instance ahm_RegisteredContract_full : WireFull ApiRegisteredContract := fun m => unknown_ok (RegisteredContract_cases false) (ApiRegisteredContract_unknownFields m).
#[global] Instance ahm_RegisteredContract_laws : PulsarLaws ApiRegisteredContract.
Proof. pulsar_laws RegisteredContract_switch RegisteredContract_cases RegisteredContract_marshal. Qed.
#[global] Instance ahm_RegisteredContract_to_api : ToApi RegisteredContract ApiRegisteredContract := fun a => MkApiRegisteredContract (rc_ContractAddr a) (rc_ChainUid a) (rc_SubstoreKeys a) (rc_Enabled a) [].
#[global] Instance ahm_RegisteredContract_api : ApiLaws RegisteredContract ApiRegisteredContract.
Proof. api_laws RegisteredContract_switch RegisteredContract_marshal. Qed.

(** [EscrowRecord]. *)
Record ApiEscrowRecord := MkApiEscrowRecord { ApiEscrowRecord_ContractAddr : bytes; ApiEscrowRecord_Amount : option ApiCoin; ApiEscrowRecord_PaidUntilHeight : Z; ApiEscrowRecord_LastPruneHeight : Z; ApiEscrowRecord_unknownFields : bytes }.
Definition EscrowRecord_size (x : ApiEscrowRecord) : Z :=
  (if 0 <? blen (ApiEscrowRecord_ContractAddr x) then size_len (blen (ApiEscrowRecord_ContractAddr x)) else 0) +
  (match (ApiEscrowRecord_Amount x) with Some y => size_len (pSize y) | None => 0 end) +
  (if negb ((ApiEscrowRecord_PaidUntilHeight x) =? 0) then 1 + Sov (u64 (ApiEscrowRecord_PaidUntilHeight x)) else 0) +
  (if negb ((ApiEscrowRecord_LastPruneHeight x) =? 0) then 1 + Sov (u64 (ApiEscrowRecord_LastPruneHeight x)) else 0) +
  size_unknown (ApiEscrowRecord_unknownFields x).
Definition EscrowRecord_marshal (x : ApiEscrowRecord) : writer :=
  wunknown (ApiEscrowRecord_unknownFields x) ;>
  wif (negb ((ApiEscrowRecord_LastPruneHeight x) =? 0)) (wvarint (u64 (ApiEscrowRecord_LastPruneHeight x)) ;> wbyte Byte.x20) ;>
  wif (negb ((ApiEscrowRecord_PaidUntilHeight x) =? 0)) (wvarint (u64 (ApiEscrowRecord_PaidUntilHeight x)) ;> wbyte Byte.x18) ;>
  (match (ApiEscrowRecord_Amount x) with Some y => wenc Byte.x12 (Some y) | None => wskip end) ;>
  wif (0 <? blen (ApiEscrowRecord_ContractAddr x)) (wlen Byte.x0a (ApiEscrowRecord_ContractAddr x)).
Definition EscrowRecord_cases (discard : bool) (fieldNum : Z) : option (action ApiEscrowRecord) :=
  match fieldNum with
  | 1 => Some (case_string (fun v m => (MkApiEscrowRecord v (ApiEscrowRecord_Amount m) (ApiEscrowRecord_PaidUntilHeight m) (ApiEscrowRecord_LastPruneHeight m) (ApiEscrowRecord_unknownFields m))))
  | 2 => Some (pcase_ptr discard ApiEscrowRecord_Amount (fun v m => (MkApiEscrowRecord (ApiEscrowRecord_ContractAddr m) v (ApiEscrowRecord_PaidUntilHeight m) (ApiEscrowRecord_LastPruneHeight m) (ApiEscrowRecord_unknownFields m))))
  | 3 => Some (case_varint u64 (fun v m => (MkApiEscrowRecord (ApiEscrowRecord_ContractAddr m) (ApiEscrowRecord_Amount m) v (ApiEscrowRecord_LastPruneHeight m) (ApiEscrowRecord_unknownFields m))))
  | 4 => Some (case_varint u64 (fun v m => (MkApiEscrowRecord (ApiEscrowRecord_ContractAddr m) (ApiEscrowRecord_Amount m) (ApiEscrowRecord_PaidUntilHeight m) v (ApiEscrowRecord_unknownFields m))))
  | _ => None
  end.
Definition EscrowRecord_switch (discard : bool) : switch ApiEscrowRecord :=
  keeping discard ApiEscrowRecord_unknownFields (fun v m => (MkApiEscrowRecord (ApiEscrowRecord_ContractAddr m) (ApiEscrowRecord_Amount m) (ApiEscrowRecord_PaidUntilHeight m) (ApiEscrowRecord_LastPruneHeight m) v)) (EscrowRecord_cases discard).
#[global] Instance ahm_EscrowRecord_msg : PulsarMsg ApiEscrowRecord := {|
  pSize := EscrowRecord_size; pWrite := EscrowRecord_marshal; pUnmarshal := fun discard => unmarshal_with (EscrowRecord_switch discard); pZero := MkApiEscrowRecord [] None 0 0 [] |}.
#[global] Instance ahm_EscrowRecord_ok : WireOk ApiEscrowRecord := fun m => opt_ok (ApiEscrowRecord_Amount m) /\ is_u64 (ApiEscrowRecord_PaidUntilHeight m) /\ is_u64 (ApiEscrowRecord_LastPruneHeight m).
#[global] Instance ahm_EscrowRecord_full : WireFull ApiEscrowRecord := fun m => unknown_ok (EscrowRecord_cases false) (ApiEscrowRecord_unknownFields m) /\ opt_full (ApiEscrowRecord_Amount m).
#[global] Instance ahm_EscrowRecord_laws : PulsarLaws ApiEscrowRecord.
Proof. pulsar_laws EscrowRecord_switch EscrowRecord_cases EscrowRecord_marshal. Qed.
#[global] Instance ahm_EscrowRecord_to_api : ToApi EscrowRecord ApiEscrowRecord := fun a => MkApiEscrowRecord (er_ContractAddr a) (Some (to_api (er_Amount a))) (er_PaidUntilHeight a) (er_LastPruneHeight a) [].
#[global] Instance ahm_EscrowRecord_api : ApiLaws EscrowRecord ApiEscrowRecord.
Proof. api_laws EscrowRecord_switch EscrowRecord_marshal. Qed.

(** [HashRoot]. *)
Record ApiHashRoot := MkApiHashRoot { ApiHashRoot_ChainUid : bytes; ApiHashRoot_Algo : bytes; ApiHashRoot_Height : Z; ApiHashRoot_Root : bytes; ApiHashRoot_AttestationCount : Z; ApiHashRoot_BlockTime : Z; ApiHashRoot_unknownFields : bytes }.
Definition HashRoot_size (x : ApiHashRoot) : Z :=
  (if 0 <? blen (ApiHashRoot_ChainUid x) then size_len (blen (ApiHashRoot_ChainUid x)) else 0) +
  (if 0 <? blen (ApiHashRoot_Algo x) then size_len (blen (ApiHashRoot_Algo x)) else 0) +
  (if negb ((ApiHashRoot_Height x) =? 0) then 1 + Sov (u64 (ApiHashRoot_Height x)) else 0) +
  (if 0 <? blen (ApiHashRoot_Root x) then size_len (blen (ApiHashRoot_Root x)) else 0) +
  (if negb ((ApiHashRoot_AttestationCount x) =? 0) then 1 + Sov (u64 (ApiHashRoot_AttestationCount x)) else 0) +
  (if negb ((ApiHashRoot_BlockTime x) =? 0) then 1 + Sov (u64 (ApiHashRoot_BlockTime x)) else 0) +
  size_unknown (ApiHashRoot_unknownFields x).
Definition HashRoot_marshal (x : ApiHashRoot) : writer :=
  wunknown (ApiHashRoot_unknownFields x) ;>
  wif (negb ((ApiHashRoot_BlockTime x) =? 0)) (wvarint (u64 (ApiHashRoot_BlockTime x)) ;> wbyte Byte.x30) ;>
  wif (negb ((ApiHashRoot_AttestationCount x) =? 0)) (wvarint (u64 (ApiHashRoot_AttestationCount x)) ;> wbyte Byte.x28) ;>
  wif (0 <? blen (ApiHashRoot_Root x)) (wlen Byte.x22 (ApiHashRoot_Root x)) ;>
  wif (negb ((ApiHashRoot_Height x) =? 0)) (wvarint (u64 (ApiHashRoot_Height x)) ;> wbyte Byte.x18) ;>
  wif (0 <? blen (ApiHashRoot_Algo x)) (wlen Byte.x12 (ApiHashRoot_Algo x)) ;>
  wif (0 <? blen (ApiHashRoot_ChainUid x)) (wlen Byte.x0a (ApiHashRoot_ChainUid x)).
Definition HashRoot_cases (discard : bool) (fieldNum : Z) : option (action ApiHashRoot) :=
  match fieldNum with
  | 1 => Some (case_string (fun v m => (MkApiHashRoot v (ApiHashRoot_Algo m) (ApiHashRoot_Height m) (ApiHashRoot_Root m) (ApiHashRoot_AttestationCount m) (ApiHashRoot_BlockTime m) (ApiHashRoot_unknownFields m))))
  | 2 => Some (case_string (fun v m => (MkApiHashRoot (ApiHashRoot_ChainUid m) v (ApiHashRoot_Height m) (ApiHashRoot_Root m) (ApiHashRoot_AttestationCount m) (ApiHashRoot_BlockTime m) (ApiHashRoot_unknownFields m))))
  | 3 => Some (case_varint u64 (fun v m => (MkApiHashRoot (ApiHashRoot_ChainUid m) (ApiHashRoot_Algo m) v (ApiHashRoot_Root m) (ApiHashRoot_AttestationCount m) (ApiHashRoot_BlockTime m) (ApiHashRoot_unknownFields m))))
  | 4 => Some (case_bytes (fun v m => (MkApiHashRoot (ApiHashRoot_ChainUid m) (ApiHashRoot_Algo m) (ApiHashRoot_Height m) v (ApiHashRoot_AttestationCount m) (ApiHashRoot_BlockTime m) (ApiHashRoot_unknownFields m))))
  | 5 => Some (case_varint u32 (fun v m => (MkApiHashRoot (ApiHashRoot_ChainUid m) (ApiHashRoot_Algo m) (ApiHashRoot_Height m) (ApiHashRoot_Root m) v (ApiHashRoot_BlockTime m) (ApiHashRoot_unknownFields m))))
  | 6 => Some (case_varint i64 (fun v m => (MkApiHashRoot (ApiHashRoot_ChainUid m) (ApiHashRoot_Algo m) (ApiHashRoot_Height m) (ApiHashRoot_Root m) (ApiHashRoot_AttestationCount m) v (ApiHashRoot_unknownFields m))))
  | _ => None
  end.
Definition HashRoot_switch (discard : bool) : switch ApiHashRoot :=
  keeping discard ApiHashRoot_unknownFields (fun v m => (MkApiHashRoot (ApiHashRoot_ChainUid m) (ApiHashRoot_Algo m) (ApiHashRoot_Height m) (ApiHashRoot_Root m) (ApiHashRoot_AttestationCount m) (ApiHashRoot_BlockTime m) v)) (HashRoot_cases discard).
#[global] Instance ahm_HashRoot_msg : PulsarMsg ApiHashRoot := {|
  pSize := HashRoot_size; pWrite := HashRoot_marshal; pUnmarshal := fun discard => unmarshal_with (HashRoot_switch discard); pZero := MkApiHashRoot [] [] 0 [] 0 0 [] |}.
#[global] Instance ahm_HashRoot_ok : WireOk ApiHashRoot := fun m => is_u64 (ApiHashRoot_Height m) /\ is_u32 (ApiHashRoot_AttestationCount m) /\ is_i64 (ApiHashRoot_BlockTime m).
#[global] Instance ahm_HashRoot_full : WireFull ApiHashRoot := fun m => unknown_ok (HashRoot_cases false) (ApiHashRoot_unknownFields m).
#[global] Instance ahm_HashRoot_laws : PulsarLaws ApiHashRoot.
Proof. pulsar_laws HashRoot_switch HashRoot_cases HashRoot_marshal. Qed.
#[global] Instance ahm_HashRoot_to_api : ToApi HashRoot ApiHashRoot := fun a => MkApiHashRoot (hr_ChainUid a) (hr_Algo a) (hr_Height a) (hr_Root a) (hr_AttestationCount a) (hr_BlockTime a) (lost Byte.x3a (hr_Attestations a)).
#[global] Instance ahm_HashRoot_api : ApiLaws HashRoot ApiHashRoot.
Proof. api_laws_lost HashRoot_switch HashRoot_marshal. Qed.

(** [HashPairTicket]. *)
Record ApiHashPairTicket := MkApiHashPairTicket { ApiHashPairTicket_ProjectId : bytes; ApiHashPairTicket_OriginHash : bytes; ApiHashPairTicket_DestinationHash : bytes; ApiHashPairTicket_ZkCircuitId : bytes; ApiHashPairTicket_DestinationChainId : Z; ApiHashPairTicket_ExpiryBlock : Z; ApiHashPairTicket_Metadata : bytes; ApiHashPairTicket_unknownFields : bytes }.
Definition HashPairTicket_size (x : ApiHashPairTicket) : Z :=
  (if 0 <? blen (ApiHashPairTicket_ProjectId x) then size_len (blen (ApiHashPairTicket_ProjectId x)) else 0) +
  (if 0 <? blen (ApiHashPairTicket_OriginHash x) then size_len (blen (ApiHashPairTicket_OriginHash x)) else 0) +
  (if 0 <? blen (ApiHashPairTicket_DestinationHash x) then size_len (blen (ApiHashPairTicket_DestinationHash x)) else 0) +
  (if 0 <? blen (ApiHashPairTicket_ZkCircuitId x) then size_len (blen (ApiHashPairTicket_ZkCircuitId x)) else 0) +
  (if negb ((ApiHashPairTicket_DestinationChainId x) =? 0) then 1 + Sov (u64 (ApiHashPairTicket_DestinationChainId x)) else 0) +
  (if negb ((ApiHashPairTicket_ExpiryBlock x) =? 0) then 1 + Sov (u64 (ApiHashPairTicket_ExpiryBlock x)) else 0) +
  (if 0 <? blen (ApiHashPairTicket_Metadata x) then size_len (blen (ApiHashPairTicket_Metadata x)) else 0) +
  size_unknown (ApiHashPairTicket_unknownFields x).
Definition HashPairTicket_marshal (x : ApiHashPairTicket) : writer :=
  wunknown (ApiHashPairTicket_unknownFields x) ;>
  wif (0 <? blen (ApiHashPairTicket_Metadata x)) (wlen Byte.x3a (ApiHashPairTicket_Metadata x)) ;>
  wif (negb ((ApiHashPairTicket_ExpiryBlock x) =? 0)) (wvarint (u64 (ApiHashPairTicket_ExpiryBlock x)) ;> wbyte Byte.x30) ;>
  wif (negb ((ApiHashPairTicket_DestinationChainId x) =? 0)) (wvarint (u64 (ApiHashPairTicket_DestinationChainId x)) ;> wbyte Byte.x28) ;>
  wif (0 <? blen (ApiHashPairTicket_ZkCircuitId x)) (wlen Byte.x22 (ApiHashPairTicket_ZkCircuitId x)) ;>
  wif (0 <? blen (ApiHashPairTicket_DestinationHash x)) (wlen Byte.x1a (ApiHashPairTicket_DestinationHash x)) ;>
  wif (0 <? blen (ApiHashPairTicket_OriginHash x)) (wlen Byte.x12 (ApiHashPairTicket_OriginHash x)) ;>
  wif (0 <? blen (ApiHashPairTicket_ProjectId x)) (wlen Byte.x0a (ApiHashPairTicket_ProjectId x)).
Definition HashPairTicket_cases (discard : bool) (fieldNum : Z) : option (action ApiHashPairTicket) :=
  match fieldNum with
  | 1 => Some (case_string (fun v m => (MkApiHashPairTicket v (ApiHashPairTicket_OriginHash m) (ApiHashPairTicket_DestinationHash m) (ApiHashPairTicket_ZkCircuitId m) (ApiHashPairTicket_DestinationChainId m) (ApiHashPairTicket_ExpiryBlock m) (ApiHashPairTicket_Metadata m) (ApiHashPairTicket_unknownFields m))))
  | 2 => Some (case_bytes (fun v m => (MkApiHashPairTicket (ApiHashPairTicket_ProjectId m) v (ApiHashPairTicket_DestinationHash m) (ApiHashPairTicket_ZkCircuitId m) (ApiHashPairTicket_DestinationChainId m) (ApiHashPairTicket_ExpiryBlock m) (ApiHashPairTicket_Metadata m) (ApiHashPairTicket_unknownFields m))))
  | 3 => Some (case_bytes (fun v m => (MkApiHashPairTicket (ApiHashPairTicket_ProjectId m) (ApiHashPairTicket_OriginHash m) v (ApiHashPairTicket_ZkCircuitId m) (ApiHashPairTicket_DestinationChainId m) (ApiHashPairTicket_ExpiryBlock m) (ApiHashPairTicket_Metadata m) (ApiHashPairTicket_unknownFields m))))
  | 4 => Some (case_string (fun v m => (MkApiHashPairTicket (ApiHashPairTicket_ProjectId m) (ApiHashPairTicket_OriginHash m) (ApiHashPairTicket_DestinationHash m) v (ApiHashPairTicket_DestinationChainId m) (ApiHashPairTicket_ExpiryBlock m) (ApiHashPairTicket_Metadata m) (ApiHashPairTicket_unknownFields m))))
  | 5 => Some (case_varint u64 (fun v m => (MkApiHashPairTicket (ApiHashPairTicket_ProjectId m) (ApiHashPairTicket_OriginHash m) (ApiHashPairTicket_DestinationHash m) (ApiHashPairTicket_ZkCircuitId m) v (ApiHashPairTicket_ExpiryBlock m) (ApiHashPairTicket_Metadata m) (ApiHashPairTicket_unknownFields m))))
  | 6 => Some (case_varint u64 (fun v m => (MkApiHashPairTicket (ApiHashPairTicket_ProjectId m) (ApiHashPairTicket_OriginHash m) (ApiHashPairTicket_DestinationHash m) (ApiHashPairTicket_ZkCircuitId m) (ApiHashPairTicket_DestinationChainId m) v (ApiHashPairTicket_Metadata m) (ApiHashPairTicket_unknownFields m))))
  | 7 => Some (case_bytes (fun v m => (MkApiHashPairTicket (ApiHashPairTicket_ProjectId m) (ApiHashPairTicket_OriginHash m) (ApiHashPairTicket_DestinationHash m) (ApiHashPairTicket_ZkCircuitId m) (ApiHashPairTicket_DestinationChainId m) (ApiHashPairTicket_ExpiryBlock m) v (ApiHashPairTicket_unknownFields m))))
  | _ => None
  end.
Definition HashPairTicket_switch (discard : bool) : switch ApiHashPairTicket :=
  keeping discard ApiHashPairTicket_unknownFields (fun v m => (MkApiHashPairTicket (ApiHashPairTicket_ProjectId m) (ApiHashPairTicket_OriginHash m) (ApiHashPairTicket_DestinationHash m) (ApiHashPairTicket_ZkCircuitId m) (ApiHashPairTicket_DestinationChainId m) (ApiHashPairTicket_ExpiryBlock m) (ApiHashPairTicket_Metadata m) v)) (HashPairTicket_cases discard).
#[global] Instance ahm_HashPairTicket_msg : PulsarMsg ApiHashPairTicket := {|
  pSize := HashPairTicket_size; pWrite := HashPairTicket_marshal; pUnmarshal := fun discard => unmarshal_with (HashPairTicket_switch discard); pZero := MkApiHashPairTicket [] [] [] [] 0 0 [] [] |}.
#[global] Instance ahm_HashPairTicket_ok : WireOk ApiHashPairTicket := fun m => is_u64 (ApiHashPairTicket_DestinationChainId m) /\ is_u64 (ApiHashPairTicket_ExpiryBlock m).
#[global] Instance ahm_HashPairTicket_full : WireFull ApiHashPairTicket := fun m => unknown_ok (HashPairTicket_cases false) (ApiHashPairTicket_unknownFields m).
#[global] Instance ahm_HashPairTicket_laws : PulsarLaws ApiHashPairTicket.
Proof. pulsar_laws HashPairTicket_switch HashPairTicket_cases HashPairTicket_marshal. Qed.
#[global] Instance ahm_HashPairTicket_to_api : ToApi HashPairTicket ApiHashPairTicket := fun a => MkApiHashPairTicket (HashPairTicket_ProjectId a) (HashPairTicket_OriginHash a) (HashPairTicket_DestinationHash a) (HashPairTicket_ZkCircuitId a) (HashPairTicket_DestinationChainId a) (HashPairTicket_ExpiryBlock a) (HashPairTicket_Metadata a) [].
#[global] Instance ahm_HashPairTicket_api : ApiLaws HashPairTicket ApiHashPairTicket.
Proof. api_laws HashPairTicket_switch HashPairTicket_marshal. Qed.

(** [VoteExtensionHashData]. *)
Record ApiVoteExtensionHashData := MkApiVoteExtensionHashData { ApiVoteExtensionHashData_RuntimeId : bytes; ApiVoteExtensionHashData_ChainUid : bytes; ApiVoteExtensionHashData_Algo : bytes; ApiVoteExtensionHashData_Root : bytes; ApiVoteExtensionHashData_ForeignHeight : Z; ApiVoteExtensionHashData_ForeignBlockTime : Z; ApiVoteExtensionHashData_Ics23Proof : bytes; ApiVoteExtensionHashData_unknownFields : bytes }.
Definition VoteExtensionHashData_size (x : ApiVoteExtensionHashData) : Z :=
  (if 0 <? blen (ApiVoteExtensionHashData_RuntimeId x) then size_len (blen (ApiVoteExtensionHashData_RuntimeId x)) else 0) +
  (if 0 <? blen (ApiVoteExtensionHashData_ChainUid x) then size_len (blen (ApiVoteExtensionHashData_ChainUid x)) else 0) +
  (if 0 <? blen (ApiVoteExtensionHashData_Algo x) then size_len (blen (ApiVoteExtensionHashData_Algo x)) else 0) +
  (if 0 <? blen (ApiVoteExtensionHashData_Root x) then size_len (blen (ApiVoteExtensionHashData_Root x)) else 0) +
  (if negb ((ApiVoteExtensionHashData_ForeignHeight x) =? 0) then 1 + Sov (u64 (ApiVoteExtensionHashData_ForeignHeight x)) else 0) +
  (if negb ((ApiVoteExtensionHashData_ForeignBlockTime x) =? 0) then 1 + Sov (u64 (ApiVoteExtensionHashData_ForeignBlockTime x)) else 0) +
  (if 0 <? blen (ApiVoteExtensionHashData_Ics23Proof x) then size_len (blen (ApiVoteExtensionHashData_Ics23Proof x)) else 0) +
  size_unknown (ApiVoteExtensionHashData_unknownFields x).
Definition VoteExtensionHashData_marshal (x : ApiVoteExtensionHashData) : writer :=
  wunknown (ApiVoteExtensionHashData_unknownFields x) ;>
  wif (0 <? blen (ApiVoteExtensionHashData_Ics23Proof x)) (wlen Byte.x3a (ApiVoteExtensionHashData_Ics23Proof x)) ;>
  wif (negb ((ApiVoteExtensionHashData_ForeignBlockTime x) =? 0)) (wvarint (u64 (ApiVoteExtensionHashData_ForeignBlockTime x)) ;> wbyte Byte.x30) ;>
  wif (negb ((ApiVoteExtensionHashData_ForeignHeight x) =? 0)) (wvarint (u64 (ApiVoteExtensionHashData_ForeignHeight x)) ;> wbyte Byte.x28) ;>
  wif (0 <? blen (ApiVoteExtensionHashData_Root x)) (wlen Byte.x22 (ApiVoteExtensionHashData_Root x)) ;>
  wif (0 <? blen (ApiVoteExtensionHashData_Algo x)) (wlen Byte.x1a (ApiVoteExtensionHashData_Algo x)) ;>
  wif (0 <? blen (ApiVoteExtensionHashData_ChainUid x)) (wlen Byte.x12 (ApiVoteExtensionHashData_ChainUid x)) ;>
  wif (0 <? blen (ApiVoteExtensionHashData_RuntimeId x)) (wlen Byte.x0a (ApiVoteExtensionHashData_RuntimeId x)).
Definition VoteExtensionHashData_cases (discard : bool) (fieldNum : Z) : option (action ApiVoteExtensionHashData) :=
  match fieldNum with
  | 1 => Some (case_string (fun v m => (MkApiVoteExtensionHashData v (ApiVoteExtensionHashData_ChainUid m) (ApiVoteExtensionHashData_Algo m) (ApiVoteExtensionHashData_Root m) (ApiVoteExtensionHashData_ForeignHeight m) (ApiVoteExtensionHashData_ForeignBlockTime m) (ApiVoteExtensionHashData_Ics23Proof m) (ApiVoteExtensionHashData_unknownFields m))))
  | 2 => Some (case_string (fun v m => (MkApiVoteExtensionHashData (ApiVoteExtensionHashData_RuntimeId m) v (ApiVoteExtensionHashData_Algo m) (ApiVoteExtensionHashData_Root m) (ApiVoteExtensionHashData_ForeignHeight m) (ApiVoteExtensionHashData_ForeignBlockTime m) (ApiVoteExtensionHashData_Ics23Proof m) (ApiVoteExtensionHashData_unknownFields m))))
  | 3 => Some (case_string (fun v m => (MkApiVoteExtensionHashData (ApiVoteExtensionHashData_RuntimeId m) (ApiVoteExtensionHashData_ChainUid m) v (ApiVoteExtensionHashData_Root m) (ApiVoteExtensionHashData_ForeignHeight m) (ApiVoteExtensionHashData_ForeignBlockTime m) (ApiVoteExtensionHashData_Ics23Proof m) (ApiVoteExtensionHashData_unknownFields m))))
  | 4 => Some (case_bytes (fun v m => (MkApiVoteExtensionHashData (ApiVoteExtensionHashData_RuntimeId m) (ApiVoteExtensionHashData_ChainUid m) (ApiVoteExtensionHashData_Algo m) v (ApiVoteExtensionHashData_ForeignHeight m) (ApiVoteExtensionHashData_ForeignBlockTime m) (ApiVoteExtensionHashData_Ics23Proof m) (ApiVoteExtensionHashData_unknownFields m))))
  | 5 => Some (case_varint u64 (fun v m => (MkApiVoteExtensionHashData (ApiVoteExtensionHashData_RuntimeId m) (ApiVoteExtensionHashData_ChainUid m) (ApiVoteExtensionHashData_Algo m) (ApiVoteExtensionHashData_Root m) v (ApiVoteExtensionHashData_ForeignBlockTime m) (ApiVoteExtensionHashData_Ics23Proof m) (ApiVoteExtensionHashData_unknownFields m))))
  | 6 => Some (case_varint i64 (fun v m => (MkApiVoteExtensionHashData (ApiVoteExtensionHashData_RuntimeId m) (ApiVoteExtensionHashData_ChainUid m) (ApiVoteExtensionHashData_Algo m) (ApiVoteExtensionHashData_Root m) (ApiVoteExtensionHashData_ForeignHeight m) v (ApiVoteExtensionHashData_Ics23Proof m) (ApiVoteExtensionHashData_unknownFields m))))
  | 7 => Some (case_bytes (fun v m => (MkApiVoteExtensionHashData (ApiVoteExtensionHashData_RuntimeId m) (ApiVoteExtensionHashData_ChainUid m) (ApiVoteExtensionHashData_Algo m) (ApiVoteExtensionHashData_Root m) (ApiVoteExtensionHashData_ForeignHeight m) (ApiVoteExtensionHashData_ForeignBlockTime m) v (ApiVoteExtensionHashData_unknownFields m))))
  | _ => None
  end.
Definition VoteExtensionHashData_switch (discard : bool) : switch ApiVoteExtensionHashData :=
  keeping discard ApiVoteExtensionHashData_unknownFields (fun v m => (MkApiVoteExtensionHashData (ApiVoteExtensionHashData_RuntimeId m) (ApiVoteExtensionHashData_ChainUid m) (ApiVoteExtensionHashData_Algo m) (ApiVoteExtensionHashData_Root m) (ApiVoteExtensionHashData_ForeignHeight m) (ApiVoteExtensionHashData_ForeignBlockTime m) (ApiVoteExtensionHashData_Ics23Proof m) v)) (VoteExtensionHashData_cases discard).
#[global] Instance ahm_VoteExtensionHashData_msg : PulsarMsg ApiVoteExtensionHashData := {|
  pSize := VoteExtensionHashData_size; pWrite := VoteExtensionHashData_marshal; pUnmarshal := fun discard => unmarshal_with (VoteExtensionHashData_switch discard); pZero := MkApiVoteExtensionHashData [] [] [] [] 0 0 [] [] |}.
#[global] Instance ahm_VoteExtensionHashData_ok : WireOk ApiVoteExtensionHashData := fun m => is_u64 (ApiVoteExtensionHashData_ForeignHeight m) /\ is_i64 (ApiVoteExtensionHashData_ForeignBlockTime m).
#[global] Instance ahm_VoteExtensionHashData_full : WireFull ApiVoteExtensionHashData := fun m => unknown_ok (VoteExtensionHashData_cases false) (ApiVoteExtensionHashData_unknownFields m).
#[global] Instance ahm_VoteExtensionHashData_laws : PulsarLaws ApiVoteExtensionHashData.
Proof. pulsar_laws VoteExtensionHashData_switch VoteExtensionHashData_cases VoteExtensionHashData_marshal. Qed.
#[global] Instance ahm_VoteExtensionHashData_to_api : ToApi VoteExtensionHashData ApiVoteExtensionHashData := fun a => MkApiVoteExtensionHashData (ve_RuntimeId a) (ve_ChainUid a) (ve_Algo a) (ve_Root a) (ve_ForeignHeight a) (ve_ForeignBlockTime a) (ve_Ics23Proof a) (lost Byte.x42 (ve_Attestations a)).
#[global] Instance ahm_VoteExtensionHashData_api : ApiLaws VoteExtensionHashData ApiVoteExtensionHashData.
Proof. api_laws_lost VoteExtensionHashData_switch VoteExtensionHashData_marshal. Qed.

(** [Params]. *)
Record ApiParams := MkApiParams { ApiParams_QuorumFraction : bytes; ApiParams_PruneInterval : Z; ApiParams_EscrowDenom : bytes; ApiParams_MinEscrowAmount : bytes; ApiParams_MarketMode : Z; ApiParams_unknownFields : bytes }.
Definition Params_size (x : ApiParams) : Z :=
  (if 0 <? blen (ApiParams_QuorumFraction x) then size_len (blen (ApiParams_QuorumFraction x)) else 0) +
  (if negb ((ApiParams_PruneInterval x) =? 0) then 1 + Sov (u64 (ApiParams_PruneInterval x)) else 0) +
  (if 0 <? blen (ApiParams_EscrowDenom x) then size_len (blen (ApiParams_EscrowDenom x)) else 0) +
  (if 0 <? blen (ApiParams_MinEscrowAmount x) then size_len (blen (ApiParams_MinEscrowAmount x)) else 0) +
  (if negb ((ApiParams_MarketMode x) =? 0) then 1 + Sov (u64 (ApiParams_MarketMode x)) else 0) +
  size_unknown (ApiParams_unknownFields x).
Definition Params_marshal (x : ApiParams) : writer :=
  wunknown (ApiParams_unknownFields x) ;>
  wif (negb ((ApiParams_MarketMode x) =? 0)) (wvarint (u64 (ApiParams_MarketMode x)) ;> wbyte Byte.x28) ;>
  wif (0 <? blen (ApiParams_MinEscrowAmount x)) (wlen Byte.x22 (ApiParams_MinEscrowAmount x)) ;>
  wif (0 <? blen (ApiParams_EscrowDenom x)) (wlen Byte.x1a (ApiParams_EscrowDenom x)) ;>
  wif (negb ((ApiParams_PruneInterval x) =? 0)) (wvarint (u64 (ApiParams_PruneInterval x)) ;> wbyte Byte.x10) ;>
  wif (0 <? blen (ApiParams_QuorumFraction x)) (wlen Byte.x0a (ApiParams_QuorumFraction x)).
Definition Params_cases (discard : bool) (fieldNum : Z) : option (action ApiParams) :=
  match fieldNum with
  | 1 => Some (case_string (fun v m => (MkApiParams v (ApiParams_PruneInterval m) (ApiParams_EscrowDenom m) (ApiParams_MinEscrowAmount m) (ApiParams_MarketMode m) (ApiParams_unknownFields m))))
  | 2 => Some (case_varint u64 (fun v m => (MkApiParams (ApiParams_QuorumFraction m) v (ApiParams_EscrowDenom m) (ApiParams_MinEscrowAmount m) (ApiParams_MarketMode m) (ApiParams_unknownFields m))))
  | 3 => Some (case_string (fun v m => (MkApiParams (ApiParams_QuorumFraction m) (ApiParams_PruneInterval m) v (ApiParams_MinEscrowAmount m) (ApiParams_MarketMode m) (ApiParams_unknownFields m))))
  | 4 => Some (case_string (fun v m => (MkApiParams (ApiParams_QuorumFraction m) (ApiParams_PruneInterval m) (ApiParams_EscrowDenom m) v (ApiParams_MarketMode m) (ApiParams_unknownFields m))))
  | 5 => Some (case_varint i32 (fun v m => (MkApiParams (ApiParams_QuorumFraction m) (ApiParams_PruneInterval m) (ApiParams_EscrowDenom m) (ApiParams_MinEscrowAmount m) v (ApiParams_unknownFields m))))
  | _ => None
  end.
Definition Params_switch (discard : bool) : switch ApiParams :=
  keeping discard ApiParams_unknownFields (fun v m => (MkApiParams (ApiParams_QuorumFraction m) (ApiParams_PruneInterval m) (ApiParams_EscrowDenom m) (ApiParams_MinEscrowAmount m) (ApiParams_MarketMode m) v)) (Params_cases discard).
#[global] Instance ahm_Params_msg : PulsarMsg ApiParams := {|
  pSize := Params_size; pWrite := Params_marshal; pUnmarshal := fun discard => unmarshal_with (Params_switch discard); pZero := MkApiParams [] 0 [] [] 0 [] |}.
#[global] Instance ahm_Params_ok : WireOk ApiParams := fun m => is_u64 (ApiParams_PruneInterval m) /\ is_i32 (ApiParams_MarketMode m).
#[global] Instance ahm_Params_full : WireFull ApiParams := fun m => unknown_ok (Params_cases false) (ApiParams_unknownFields m).
#[global] Instance ahm_Params_laws : PulsarLaws ApiParams.
Proof. pulsar_laws Params_switch Params_cases Params_marshal. Qed.
#[global] Instance ahm_Params_to_api : ToApi (@Params LegacyDec Int) ApiParams := fun a => MkApiParams (text_of (Params_QuorumFraction a)) (Params_PruneInterval a) (Params_EscrowDenom a) (text_of (Params_MinEscrowAmount a)) (Params_MarketMode a) [].
#[global] Instance ahm_Params_api : ApiLaws (@Params LegacyDec Int) ApiParams.
Proof. api_laws Params_switch Params_marshal. Qed.

(** [GenesisState]. *)
Record ApiGenesisState := MkApiGenesisState { ApiGenesisState_Params : option ApiParams; ApiGenesisState_RegisteredChains : list (option ApiRegisteredChain); ApiGenesisState_RegisteredContracts : list (option ApiRegisteredContract); ApiGenesisState_EscrowRecords : list (option ApiEscrowRecord); ApiGenesisState_HashRoots : list (option ApiHashRoot); ApiGenesisState_PruneEpoch : Z; ApiGenesisState_unknownFields : bytes }.
Definition GenesisState_size (x : ApiGenesisState) : Z :=
  (match (ApiGenesisState_Params x) with Some y => size_len (pSize y) | None => 0 end) +
  (if 0 <? Z.of_nat (length (ApiGenesisState_RegisteredChains x)) then size_each (fun e => size_len (pSize_ptr e)) (ApiGenesisState_RegisteredChains x) else 0) +
  (if 0 <? Z.of_nat (length (ApiGenesisState_RegisteredContracts x)) then size_each (fun e => size_len (pSize_ptr e)) (ApiGenesisState_RegisteredContracts x) else 0) +
  (if 0 <? Z.of_nat (length (ApiGenesisState_EscrowRecords x)) then size_each (fun e => size_len (pSize_ptr e)) (ApiGenesisState_EscrowRecords x) else 0) +
  (if 0 <? Z.of_nat (length (ApiGenesisState_HashRoots x)) then size_each (fun e => size_len (pSize_ptr e)) (ApiGenesisState_HashRoots x) else 0) +
  (if negb ((ApiGenesisState_PruneEpoch x) =? 0) then 1 + Sov (u64 (ApiGenesisState_PruneEpoch x)) else 0) +
  size_unknown (ApiGenesisState_unknownFields x).
Definition GenesisState_marshal (x : ApiGenesisState) : writer :=
  wunknown (ApiGenesisState_unknownFields x) ;>
  wif (negb ((ApiGenesisState_PruneEpoch x) =? 0)) (wvarint (u64 (ApiGenesisState_PruneEpoch x)) ;> wbyte Byte.x30) ;>
  wif (0 <? Z.of_nat (length (ApiGenesisState_HashRoots x))) (wdown (ApiGenesisState_HashRoots x) (wenc Byte.x2a)) ;>
  wif (0 <? Z.of_nat (length (ApiGenesisState_EscrowRecords x))) (wdown (ApiGenesisState_EscrowRecords x) (wenc Byte.x22)) ;>
  wif (0 <? Z.of_nat (length (ApiGenesisState_RegisteredContracts x))) (wdown (ApiGenesisState_RegisteredContracts x) (wenc Byte.x1a)) ;>
  wif (0 <? Z.of_nat (length (ApiGenesisState_RegisteredChains x))) (wdown (ApiGenesisState_RegisteredChains x) (wenc Byte.x12)) ;>
  (match (ApiGenesisState_Params x) with Some y => wenc Byte.x0a (Some y) | None => wskip end).
Definition GenesisState_cases (discard : bool) (fieldNum : Z) : option (action ApiGenesisState) :=
  match fieldNum with
  | 1 => Some (pcase_ptr discard ApiGenesisState_Params (fun v m => (MkApiGenesisState v (ApiGenesisState_RegisteredChains m) (ApiGenesisState_RegisteredContracts m) (ApiGenesisState_EscrowRecords m) (ApiGenesisState_HashRoots m) (ApiGenesisState_PruneEpoch m) (ApiGenesisState_unknownFields m))))
  | 2 => Some (pcase_rep discard ApiGenesisState_RegisteredChains (fun v m => (MkApiGenesisState (ApiGenesisState_Params m) v (ApiGenesisState_RegisteredContracts m) (ApiGenesisState_EscrowRecords m) (ApiGenesisState_HashRoots m) (ApiGenesisState_PruneEpoch m) (ApiGenesisState_unknownFields m))))
  | 3 => Some (pcase_rep discard ApiGenesisState_RegisteredContracts (fun v m => (MkApiGenesisState (ApiGenesisState_Params m) (ApiGenesisState_RegisteredChains m) v (ApiGenesisState_EscrowRecords m) (ApiGenesisState_HashRoots m) (ApiGenesisState_PruneEpoch m) (ApiGenesisState_unknownFields m))))
  | 4 => Some (pcase_rep discard ApiGenesisState_EscrowRecords (fun v m => (MkApiGenesisState (ApiGenesisState_Params m) (ApiGenesisState_RegisteredChains m) (ApiGenesisState_RegisteredContracts m) v (ApiGenesisState_HashRoots m) (ApiGenesisState_PruneEpoch m) (ApiGenesisState_unknownFields m))))
  | 5 => Some (pcase_rep discard ApiGenesisState_HashRoots (fun v m => (MkApiGenesisState (ApiGenesisState_Params m) (ApiGenesisState_RegisteredChains m) (ApiGenesisState_RegisteredContracts m) (ApiGenesisState_EscrowRecords m) v (ApiGenesisState_PruneEpoch m) (ApiGenesisState_unknownFields m))))
  | 6 => Some (case_varint u64 (fun v m => (MkApiGenesisState (ApiGenesisState_Params m) (ApiGenesisState_RegisteredChains m) (ApiGenesisState_RegisteredContracts m) (ApiGenesisState_EscrowRecords m) (ApiGenesisState_HashRoots m) v (ApiGenesisState_unknownFields m))))
  | _ => None
  end.
Definition GenesisState_switch (discard : bool) : switch ApiGenesisState :=
  keeping discard ApiGenesisState_unknownFields (fun v m => (MkApiGenesisState (ApiGenesisState_Params m) (ApiGenesisState_RegisteredChains m) (ApiGenesisState_RegisteredContracts m) (ApiGenesisState_EscrowRecords m) (ApiGenesisState_HashRoots m) (ApiGenesisState_PruneEpoch m) v)) (GenesisState_cases discard).
#[global] Instance ahm_GenesisState_msg : PulsarMsg ApiGenesisState := {|
  pSize := GenesisState_size; pWrite := GenesisState_marshal; pUnmarshal := fun discard => unmarshal_with (GenesisState_switch discard); pZero := MkApiGenesisState None [] [] [] [] 0 [] |}.
#[global] Instance ahm_GenesisState_ok : WireOk ApiGenesisState := fun m => opt_ok (ApiGenesisState_Params m) /\ Forall (ptr wire_ok) (ApiGenesisState_RegisteredChains m) /\ Forall (ptr wire_ok) (ApiGenesisState_RegisteredContracts m) /\ Forall (ptr wire_ok) (ApiGenesisState_EscrowRecords m) /\ Forall (ptr wire_ok) (ApiGenesisState_HashRoots m) /\ is_u64 (ApiGenesisState_PruneEpoch m).
#[global] Instance ahm_GenesisState_full : WireFull ApiGenesisState := fun m => unknown_ok (GenesisState_cases false) (ApiGenesisState_unknownFields m) /\ opt_full (ApiGenesisState_Params m) /\ Forall (ptr wire_full) (ApiGenesisState_RegisteredChains m) /\ Forall (ptr wire_full) (ApiGenesisState_RegisteredContracts m) /\ Forall (ptr wire_full) (ApiGenesisState_EscrowRecords m) /\ Forall (ptr wire_full) (ApiGenesisState_HashRoots m).
#[global] Instance ahm_GenesisState_laws : PulsarLaws ApiGenesisState.
Proof. pulsar_laws GenesisState_switch GenesisState_cases GenesisState_marshal. Qed.
#[global] Instance ahm_GenesisState_to_api : ToApi (@GenesisState LegacyDec Int) ApiGenesisState := fun a => MkApiGenesisState (Some (to_api (GenesisState_Params a))) (map (fun e => Some (to_api e)) (GenesisState_RegisteredChains a)) (map (fun e => Some (to_api e)) (GenesisState_RegisteredContracts a)) (map (fun e => Some (to_api e)) (GenesisState_EscrowRecords a)) (map (fun e => Some (to_api e)) (GenesisState_HashRoots a)) (GenesisState_PruneEpoch a) [].
#[global] Instance ahm_GenesisState_api : ApiLaws (@GenesisState LegacyDec Int) ApiGenesisState.
Proof. api_laws GenesisState_switch GenesisState_marshal. Qed.

(** [MsgRegisterChain]. *)
Record ApiMsgRegisterChain := MkApiMsgRegisterChain { ApiMsgRegisterChain_Authority : bytes; ApiMsgRegisterChain_Chain : option ApiRegisteredChain; ApiMsgRegisterChain_unknownFields : bytes }.
Definition MsgRegisterChain_size (x : ApiMsgRegisterChain) : Z :=
  (if 0 <? blen (ApiMsgRegisterChain_Authority x) then size_len (blen (ApiMsgRegisterChain_Authority x)) else 0) +
  (match (ApiMsgRegisterChain_Chain x) with Some y => size_len (pSize y) | None => 0 end) +
  size_unknown (ApiMsgRegisterChain_unknownFields x).
Definition MsgRegisterChain_marshal (x : ApiMsgRegisterChain) : writer :=
  wunknown (ApiMsgRegisterChain_unknownFields x) ;>
  (match (ApiMsgRegisterChain_Chain x) with Some y => wenc Byte.x12 (Some y) | None => wskip end) ;>
  wif (0 <? blen (ApiMsgRegisterChain_Authority x)) (wlen Byte.x0a (ApiMsgRegisterChain_Authority x)).
Definition MsgRegisterChain_cases (discard : bool) (fieldNum : Z) : option (action ApiMsgRegisterChain) :=
  match fieldNum with
  | 1 => Some (case_string (fun v m => (MkApiMsgRegisterChain v (ApiMsgRegisterChain_Chain m) (ApiMsgRegisterChain_unknownFields m))))
  | 2 => Some (pcase_ptr discard ApiMsgRegisterChain_Chain (fun v m => (MkApiMsgRegisterChain (ApiMsgRegisterChain_Authority m) v (ApiMsgRegisterChain_unknownFields m))))
  | _ => None
  end.
Definition MsgRegisterChain_switch (discard : bool) : switch ApiMsgRegisterChain :=
  keeping discard ApiMsgRegisterChain_unknownFields (fun v m => (MkApiMsgRegisterChain (ApiMsgRegisterChain_Authority m) (ApiMsgRegisterChain_Chain m) v)) (MsgRegisterChain_cases discard).
#[global] Instance ahm_MsgRegisterChain_msg : PulsarMsg ApiMsgRegisterChain := {|
  pSize := MsgRegisterChain_size; pWrite := MsgRegisterChain_marshal; pUnmarshal := fun discard => unmarshal_with (MsgRegisterChain_switch discard); pZero := MkApiMsgRegisterChain [] None [] |}.
#[global] Instance ahm_MsgRegisterChain_ok : WireOk ApiMsgRegisterChain := fun m => opt_ok (ApiMsgRegisterChain_Chain m).
#[global] Instance ahm_MsgRegisterChain_full : WireFull ApiMsgRegisterChain := fun m => unknown_ok (MsgRegisterChain_cases false) (ApiMsgRegisterChain_unknownFields m) /\ opt_full (ApiMsgRegisterChain_Chain m).
#[global] Instance ahm_MsgRegisterChain_laws : PulsarLaws ApiMsgRegisterChain.
Proof. pulsar_laws MsgRegisterChain_switch MsgRegisterChain_cases MsgRegisterChain_marshal. Qed.
#[global] Instance ahm_MsgRegisterChain_to_api : ToApi MsgRegisterChain ApiMsgRegisterChain := fun a => MkApiMsgRegisterChain (MsgRegisterChain_Authority a) (Some (to_api (MsgRegisterChain_Chain a))) [].
#[global] Instance ahm_MsgRegisterChain_api : ApiLaws MsgRegisterChain ApiMsgRegisterChain.
Proof. api_laws MsgRegisterChain_switch MsgRegisterChain_marshal. Qed.

(** [MsgRegisterContract]. *)
Record ApiMsgRegisterContract := MkApiMsgRegisterContract { ApiMsgRegisterContract_Sender : bytes; ApiMsgRegisterContract_ContractAddr : bytes; ApiMsgRegisterContract_ChainUid : bytes; ApiMsgRegisterContract_SubstoreKeys : list bytes; ApiMsgRegisterContract_Escrow : option ApiCoin; ApiMsgRegisterContract_unknownFields : bytes }.
Definition MsgRegisterContract_size (x : ApiMsgRegisterContract) : Z :=
  (if 0 <? blen (ApiMsgRegisterContract_Sender x) then size_len (blen (ApiMsgRegisterContract_Sender x)) else 0) +
  (if 0 <? blen (ApiMsgRegisterContract_ContractAddr x) then size_len (blen (ApiMsgRegisterContract_ContractAddr x)) else 0) +
  (if 0 <? blen (ApiMsgRegisterContract_ChainUid x) then size_len (blen (ApiMsgRegisterContract_ChainUid x)) else 0) +
  (if 0 <? Z.of_nat (length (ApiMsgRegisterContract_SubstoreKeys x)) then size_each (fun s => size_len (blen s)) (ApiMsgRegisterContract_SubstoreKeys x) else 0) +
  (match (ApiMsgRegisterContract_Escrow x) with Some y => size_len (pSize y) | None => 0 end) +
  size_unknown (ApiMsgRegisterContract_unknownFields x).
Definition MsgRegisterContract_marshal (x : ApiMsgRegisterContract) : writer :=
  wunknown (ApiMsgRegisterContract_unknownFields x) ;>
  (match (ApiMsgRegisterContract_Escrow x) with Some y => wenc Byte.x2a (Some y) | None => wskip end) ;>
  wif (0 <? Z.of_nat (length (ApiMsgRegisterContract_SubstoreKeys x))) (wdown (ApiMsgRegisterContract_SubstoreKeys x) (wlen Byte.x22)) ;>
  wif (0 <? blen (ApiMsgRegisterContract_ChainUid x)) (wlen Byte.x1a (ApiMsgRegisterContract_ChainUid x)) ;>
  wif (0 <? blen (ApiMsgRegisterContract_ContractAddr x)) (wlen Byte.x12 (ApiMsgRegisterContract_ContractAddr x)) ;>
  wif (0 <? blen (ApiMsgRegisterContract_Sender x)) (wlen Byte.x0a (ApiMsgRegisterContract_Sender x)).
Definition MsgRegisterContract_cases (discard : bool) (fieldNum : Z) : option (action ApiMsgRegisterContract) :=
  match fieldNum with
  | 1 => Some (case_string (fun v m => (MkApiMsgRegisterContract v (ApiMsgRegisterContract_ContractAddr m) (ApiMsgRegisterContract_ChainUid m) (ApiMsgRegisterContract_SubstoreKeys m) (ApiMsgRegisterContract_Escrow m) (ApiMsgRegisterContract_unknownFields m))))
  | 2 => Some (case_string (fun v m => (MkApiMsgRegisterContract (ApiMsgRegisterContract_Sender m) v (ApiMsgRegisterContract_ChainUid m) (ApiMsgRegisterContract_SubstoreKeys m) (ApiMsgRegisterContract_Escrow m) (ApiMsgRegisterContract_unknownFields m))))
  | 3 => Some (case_string (fun v m => (MkApiMsgRegisterContract (ApiMsgRegisterContract_Sender m) (ApiMsgRegisterContract_ContractAddr m) v (ApiMsgRegisterContract_SubstoreKeys m) (ApiMsgRegisterContract_Escrow m) (ApiMsgRegisterContract_unknownFields m))))
  | 4 => Some (case_strings ApiMsgRegisterContract_SubstoreKeys (fun v m => (MkApiMsgRegisterContract (ApiMsgRegisterContract_Sender m) (ApiMsgRegisterContract_ContractAddr m) (ApiMsgRegisterContract_ChainUid m) v (ApiMsgRegisterContract_Escrow m) (ApiMsgRegisterContract_unknownFields m))))
  | 5 => Some (pcase_ptr discard ApiMsgRegisterContract_Escrow (fun v m => (MkApiMsgRegisterContract (ApiMsgRegisterContract_Sender m) (ApiMsgRegisterContract_ContractAddr m) (ApiMsgRegisterContract_ChainUid m) (ApiMsgRegisterContract_SubstoreKeys m) v (ApiMsgRegisterContract_unknownFields m))))
  | _ => None
  end.
Definition MsgRegisterContract_switch (discard : bool) : switch ApiMsgRegisterContract :=
  keeping discard ApiMsgRegisterContract_unknownFields (fun v m => (MkApiMsgRegisterContract (ApiMsgRegisterContract_Sender m) (ApiMsgRegisterContract_ContractAddr m) (ApiMsgRegisterContract_ChainUid m) (ApiMsgRegisterContract_SubstoreKeys m) (ApiMsgRegisterContract_Escrow m) v)) (MsgRegisterContract_cases discard).
#[global] Instance ahm_MsgRegisterContract_msg : PulsarMsg ApiMsgRegisterContract := {|
  pSize := MsgRegisterContract_size; pWrite := MsgRegisterContract_marshal; pUnmarshal := fun discard => unmarshal_with (MsgRegisterContract_switch discard); pZero := MkApiMsgRegisterContract [] [] [] [] None [] |}.
#[global] Instance ahm_MsgRegisterContract_ok : WireOk ApiMsgRegisterContract := fun m => opt_ok (ApiMsgRegisterContract_Escrow m).
#[global] Instance ahm_MsgRegisterContract_full : WireFull ApiMsgRegisterContract := fun m => unknown_ok (MsgRegisterContract_cases false) (ApiMsgRegisterContract_unknownFields m) /\ opt_full (ApiMsgRegisterContract_Escrow m).
#[global] Instance ahm_MsgRegisterContract_laws : PulsarLaws ApiMsgRegisterContract.
Proof. pulsar_laws MsgRegisterContract_switch MsgRegisterContract_cases MsgRegisterContract_marshal. Qed.
#[global] Instance ahm_MsgRegisterContract_to_api : ToApi MsgRegisterContract ApiMsgRegisterContract := fun a => MkApiMsgRegisterContract (MsgRegisterContract_Sender a) (MsgRegisterContract_ContractAddr a) (MsgRegisterContract_ChainUid a) (MsgRegisterContract_SubstoreKeys a) (Some (to_api (MsgRegisterContract_Escrow a))) [].
#[global] Instance ahm_MsgRegisterContract_api : ApiLaws MsgRegisterContract ApiMsgRegisterContract.
Proof. api_laws MsgRegisterContract_switch MsgRegisterContract_marshal. Qed.

(** [MsgRefillEscrow]. *)
Record ApiMsgRefillEscrow := MkApiMsgRefillEscrow { ApiMsgRefillEscrow_Sender : bytes; ApiMsgRefillEscrow_ContractAddr : bytes; ApiMsgRefillEscrow_Amount : option ApiCoin; ApiMsgRefillEscrow_unknownFields : bytes }.
Definition MsgRefillEscrow_size (x : ApiMsgRefillEscrow) : Z :=
  (if 0 <? blen (ApiMsgRefillEscrow_Sender x) then size_len (blen (ApiMsgRefillEscrow_Sender x)) else 0) +
  (if 0 <? blen (ApiMsgRefillEscrow_ContractAddr x) then size_len (blen (ApiMsgRefillEscrow_ContractAddr x)) else 0) +
  (match (ApiMsgRefillEscrow_Amount x) with Some y => size_len (pSize y) | None => 0 end) +
  size_unknown (ApiMsgRefillEscrow_unknownFields x).
Definition MsgRefillEscrow_marshal (x : ApiMsgRefillEscrow) : writer :=
  wunknown (ApiMsgRefillEscrow_unknownFields x) ;>
  (match (ApiMsgRefillEscrow_Amount x) with Some y => wenc Byte.x1a (Some y) | None => wskip end) ;>
  wif (0 <? blen (ApiMsgRefillEscrow_ContractAddr x)) (wlen Byte.x12 (ApiMsgRefillEscrow_ContractAddr x)) ;>
  wif (0 <? blen (ApiMsgRefillEscrow_Sender x)) (wlen Byte.x0a (ApiMsgRefillEscrow_Sender x)).
Definition MsgRefillEscrow_cases (discard : bool) (fieldNum : Z) : option (action ApiMsgRefillEscrow) :=
  match fieldNum with
  | 1 => Some (case_string (fun v m => (MkApiMsgRefillEscrow v (ApiMsgRefillEscrow_ContractAddr m) (ApiMsgRefillEscrow_Amount m) (ApiMsgRefillEscrow_unknownFields m))))
  | 2 => Some (case_string (fun v m => (MkApiMsgRefillEscrow (ApiMsgRefillEscrow_Sender m) v (ApiMsgRefillEscrow_Amount m) (ApiMsgRefillEscrow_unknownFields m))))
  | 3 => Some (pcase_ptr discard ApiMsgRefillEscrow_Amount (fun v m => (MkApiMsgRefillEscrow (ApiMsgRefillEscrow_Sender m) (ApiMsgRefillEscrow_ContractAddr m) v (ApiMsgRefillEscrow_unknownFields m))))
  | _ => None
  end.
Definition MsgRefillEscrow_switch (discard : bool) : switch ApiMsgRefillEscrow :=
  keeping discard ApiMsgRefillEscrow_unknownFields (fun v m => (MkApiMsgRefillEscrow (ApiMsgRefillEscrow_Sender m) (ApiMsgRefillEscrow_ContractAddr m) (ApiMsgRefillEscrow_Amount m) v)) (MsgRefillEscrow_cases discard).
#[global] Instance ahm_MsgRefillEscrow_msg : PulsarMsg ApiMsgRefillEscrow := {|
  pSize := MsgRefillEscrow_size; pWrite := MsgRefillEscrow_marshal; pUnmarshal := fun discard => unmarshal_with (MsgRefillEscrow_switch discard); pZero := MkApiMsgRefillEscrow [] [] None [] |}.
#[global] Instance ahm_MsgRefillEscrow_ok : WireOk ApiMsgRefillEscrow := fun m => opt_ok (ApiMsgRefillEscrow_Amount m).
#[global] Instance ahm_MsgRefillEscrow_full : WireFull ApiMsgRefillEscrow := fun m => unknown_ok (MsgRefillEscrow_cases false) (ApiMsgRefillEscrow_unknownFields m) /\ opt_full (ApiMsgRefillEscrow_Amount m).
#[global] Instance ahm_MsgRefillEscrow_laws : PulsarLaws ApiMsgRefillEscrow.
Proof. pulsar_laws MsgRefillEscrow_switch MsgRefillEscrow_cases MsgRefillEscrow_marshal. Qed.
#[global] Instance ahm_MsgRefillEscrow_to_api : ToApi MsgRefillEscrow ApiMsgRefillEscrow := fun a => MkApiMsgRefillEscrow (MsgRefillEscrow_Sender a) (MsgRefillEscrow_ContractAddr a) (Some (to_api (MsgRefillEscrow_Amount a))) [].
#[global] Instance ahm_MsgRefillEscrow_api : ApiLaws MsgRefillEscrow ApiMsgRefillEscrow.
Proof. api_laws MsgRefillEscrow_switch MsgRefillEscrow_marshal. Qed.

(** [MsgUpdateParams]. *)
Record ApiMsgUpdateParams := MkApiMsgUpdateParams { ApiMsgUpdateParams_Authority : bytes; ApiMsgUpdateParams_Params : option ApiParams; ApiMsgUpdateParams_unknownFields : bytes }.
Definition MsgUpdateParams_size (x : ApiMsgUpdateParams) : Z :=
  (if 0 <? blen (ApiMsgUpdateParams_Authority x) then size_len (blen (ApiMsgUpdateParams_Authority x)) else 0) +
  (match (ApiMsgUpdateParams_Params x) with Some y => size_len (pSize y) | None => 0 end) +
  size_unknown (ApiMsgUpdateParams_unknownFields x).
Definition MsgUpdateParams_marshal (x : ApiMsgUpdateParams) : writer :=
  wunknown (ApiMsgUpdateParams_unknownFields x) ;>
  (match (ApiMsgUpdateParams_Params x) with Some y => wenc Byte.x12 (Some y) | None => wskip end) ;>
  wif (0 <? blen (ApiMsgUpdateParams_Authority x)) (wlen Byte.x0a (ApiMsgUpdateParams_Authority x)).
Definition MsgUpdateParams_cases (discard : bool) (fieldNum : Z) : option (action ApiMsgUpdateParams) :=
  match fieldNum with
  | 1 => Some (case_string (fun v m => (MkApiMsgUpdateParams v (ApiMsgUpdateParams_Params m) (ApiMsgUpdateParams_unknownFields m))))
  | 2 => Some (pcase_ptr discard ApiMsgUpdateParams_Params (fun v m => (MkApiMsgUpdateParams (ApiMsgUpdateParams_Authority m) v (ApiMsgUpdateParams_unknownFields m))))
  | _ => None
  end.
Definition MsgUpdateParams_switch (discard : bool) : switch ApiMsgUpdateParams :=
  keeping discard ApiMsgUpdateParams_unknownFields (fun v m => (MkApiMsgUpdateParams (ApiMsgUpdateParams_Authority m) (ApiMsgUpdateParams_Params m) v)) (MsgUpdateParams_cases discard).
#[global] Instance ahm_MsgUpdateParams_msg : PulsarMsg ApiMsgUpdateParams := {|
  pSize := MsgUpdateParams_size; pWrite := MsgUpdateParams_marshal; pUnmarshal := fun discard => unmarshal_with (MsgUpdateParams_switch discard); pZero := MkApiMsgUpdateParams [] None [] |}.
#[global] Instance ahm_MsgUpdateParams_ok : WireOk ApiMsgUpdateParams := fun m => opt_ok (ApiMsgUpdateParams_Params m).
#[global] Instance ahm_MsgUpdateParams_full : WireFull ApiMsgUpdateParams := fun m => unknown_ok (MsgUpdateParams_cases false) (ApiMsgUpdateParams_unknownFields m) /\ opt_full (ApiMsgUpdateParams_Params m).
#[global] Instance ahm_MsgUpdateParams_laws : PulsarLaws ApiMsgUpdateParams.
Proof. pulsar_laws MsgUpdateParams_switch MsgUpdateParams_cases MsgUpdateParams_marshal. Qed.
#[global] Instance ahm_MsgUpdateParams_to_api : ToApi (@MsgUpdateParams LegacyDec Int) ApiMsgUpdateParams := fun a => MkApiMsgUpdateParams (MsgUpdateParams_Authority a) (Some (to_api (MsgUpdateParams_Params a))) [].
#[global] Instance ahm_MsgUpdateParams_api : ApiLaws (@MsgUpdateParams LegacyDec Int) ApiMsgUpdateParams.
Proof. api_laws MsgUpdateParams_switch MsgUpdateParams_marshal. Qed.

(** [QueryParamsResponse]. *)
Record ApiQueryParamsResponse := MkApiQueryParamsResponse { ApiQueryParamsResponse_Params : option ApiParams; ApiQueryParamsResponse_unknownFields : bytes }.
Definition QueryParamsResponse_size (x : ApiQueryParamsResponse) : Z :=
  (match (ApiQueryParamsResponse_Params x) with Some y => size_len (pSize y) | None => 0 end) +
  size_unknown (ApiQueryParamsResponse_unknownFields x).
Definition QueryParamsResponse_marshal (x : ApiQueryParamsResponse) : writer :=
  wunknown (ApiQueryParamsResponse_unknownFields x) ;>
  (match (ApiQueryParamsResponse_Params x) with Some y => wenc Byte.x0a (Some y) | None => wskip end).
Definition QueryParamsResponse_cases (discard : bool) (fieldNum : Z) : option (action ApiQueryParamsResponse) :=
  match fieldNum with
  | 1 => Some (pcase_ptr discard ApiQueryParamsResponse_Params (fun v m => (MkApiQueryParamsResponse v (ApiQueryParamsResponse_unknownFields m))))
  | _ => None
  end.
Definition QueryParamsResponse_switch (discard : bool) : switch ApiQueryParamsResponse :=
  keeping discard ApiQueryParamsResponse_unknownFields (fun v m => (MkApiQueryParamsResponse (ApiQueryParamsResponse_Params m) v)) (QueryParamsResponse_cases discard).
#[global] Instance ahm_QueryParamsResponse_msg : PulsarMsg ApiQueryParamsResponse := {|
  pSize := QueryParamsResponse_size; pWrite := QueryParamsResponse_marshal; pUnmarshal := fun discard => unmarshal_with (QueryParamsResponse_switch discard); pZero := MkApiQueryParamsResponse None [] |}.
#[global] Instance ahm_QueryParamsResponse_ok : WireOk ApiQueryParamsResponse := fun m => opt_ok (ApiQueryParamsResponse_Params m).
#[global] Instance ahm_QueryParamsResponse_full : WireFull ApiQueryParamsResponse := fun m => unknown_ok (QueryParamsResponse_cases false) (ApiQueryParamsResponse_unknownFields m) /\ opt_full (ApiQueryParamsResponse_Params m).
#[global] Instance ahm_QueryParamsResponse_laws : PulsarLaws ApiQueryParamsResponse.
Proof. pulsar_laws QueryParamsResponse_switch QueryParamsResponse_cases QueryParamsResponse_marshal. Qed.
#[global] Instance ahm_QueryParamsResponse_to_api : ToApi (@QueryParamsResponse LegacyDec Int) ApiQueryParamsResponse := fun a => MkApiQueryParamsResponse (Some (to_api (QueryParamsResponse_Params a))) [].
#[global] Instance ahm_QueryParamsResponse_api : ApiLaws (@QueryParamsResponse LegacyDec Int) ApiQueryParamsResponse.
Proof. api_laws QueryParamsResponse_switch QueryParamsResponse_marshal. Qed.

(** [QueryRegisteredChainRequest]. *)
Record ApiQueryRegisteredChainRequest := MkApiQueryRegisteredChainRequest { ApiQueryRegisteredChainRequest_ChainUid : bytes; ApiQueryRegisteredChainRequest_unknownFields : bytes }.
Definition QueryRegisteredChainRequest_size (x : ApiQueryRegisteredChainRequest) : Z :=
  (if 0 <? blen (ApiQueryRegisteredChainRequest_ChainUid x) then size_len (blen (ApiQueryRegisteredChainRequest_ChainUid x)) else 0) +
  size_unknown (ApiQueryRegisteredChainRequest_unknownFields x).
Definition QueryRegisteredChainRequest_marshal (x : ApiQueryRegisteredChainRequest) : writer :=
  wunknown (ApiQueryRegisteredChainRequest_unknownFields x) ;>
  wif (0 <? blen (ApiQueryRegisteredChainRequest_ChainUid x)) (wlen Byte.x0a (ApiQueryRegisteredChainRequest_ChainUid x)).
Definition QueryRegisteredChainRequest_cases (discard : bool) (fieldNum : Z) : option (action ApiQueryRegisteredChainRequest) :=
  match fieldNum with
  | 1 => Some (case_string (fun v m => (MkApiQueryRegisteredChainRequest v (ApiQueryRegisteredChainRequest_unknownFields m))))
  | _ => None
  end.
Definition QueryRegisteredChainRequest_switch (discard : bool) : switch ApiQueryRegisteredChainRequest :=
  keeping discard ApiQueryRegisteredChainRequest_unknownFields (fun v m => (MkApiQueryRegisteredChainRequest (ApiQueryRegisteredChainRequest_ChainUid m) v)) (QueryRegisteredChainRequest_cases discard).
#[global] Instance ahm_QueryRegisteredChainRequest_msg : PulsarMsg ApiQueryRegisteredChainRequest := {|
  pSize := QueryRegisteredChainRequest_size; pWrite := QueryRegisteredChainRequest_marshal; pUnmarshal := fun discard => unmarshal_with (QueryRegisteredChainRequest_switch discard); pZero := MkApiQueryRegisteredChainRequest [] [] |}.
#[global] Instance ahm_QueryRegisteredChainRequest_ok : WireOk ApiQueryRegisteredChainRequest := fun m => True.
#[global] Instance ahm_QueryRegisteredChainRequest_full : WireFull ApiQueryRegisteredChainRequest := fun m => unknown_ok (QueryRegisteredChainRequest_cases false) (ApiQueryRegisteredChainRequest_unknownFields m).
#[global] Instance ahm_QueryRegisteredChainRequest_laws : PulsarLaws ApiQueryRegisteredChainRequest.
Proof. pulsar_laws QueryRegisteredChainRequest_switch QueryRegisteredChainRequest_cases QueryRegisteredChainRequest_marshal. Qed.
#[global] Instance ahm_QueryRegisteredChainRequest_to_api : ToApi QueryRegisteredChainRequest ApiQueryRegisteredChainRequest := fun a => MkApiQueryRegisteredChainRequest (QueryRegisteredChainRequest_ChainUid a) [].
#[global] Instance ahm_QueryRegisteredChainRequest_api : ApiLaws QueryRegisteredChainRequest ApiQueryRegisteredChainRequest.
Proof. api_laws QueryRegisteredChainRequest_switch QueryRegisteredChainRequest_marshal. Qed.

(** [QueryRegisteredChainResponse]. *)
Record ApiQueryRegisteredChainResponse := MkApiQueryRegisteredChainResponse { ApiQueryRegisteredChainResponse_Chain : option ApiRegisteredChain; ApiQueryRegisteredChainResponse_unknownFields : bytes }.
Definition QueryRegisteredChainResponse_size (x : ApiQueryRegisteredChainResponse) : Z :=
  (match (ApiQueryRegisteredChainResponse_Chain x) with Some y => size_len (pSize y) | None => 0 end) +
  size_unknown (ApiQueryRegisteredChainResponse_unknownFields x).
Definition QueryRegisteredChainResponse_marshal (x : ApiQueryRegisteredChainResponse) : writer :=
  wunknown (ApiQueryRegisteredChainResponse_unknownFields x) ;>
  (match (ApiQueryRegisteredChainResponse_Chain x) with Some y => wenc Byte.x0a (Some y) | None => wskip end).
Definition QueryRegisteredChainResponse_cases (discard : bool) (fieldNum : Z) : option (action ApiQueryRegisteredChainResponse) :=
  match fieldNum with
  | 1 => Some (pcase_ptr discard ApiQueryRegisteredChainResponse_Chain (fun v m => (MkApiQueryRegisteredChainResponse v (ApiQueryRegisteredChainResponse_unknownFields m))))
  | _ => None
  end.
Definition QueryRegisteredChainResponse_switch (discard : bool) : switch ApiQueryRegisteredChainResponse :=
  keeping discard ApiQueryRegisteredChainResponse_unknownFields (fun v m => (MkApiQueryRegisteredChainResponse (ApiQueryRegisteredChainResponse_Chain m) v)) (QueryRegisteredChainResponse_cases discard).
#[global] Instance ahm_QueryRegisteredChainResponse_msg : PulsarMsg ApiQueryRegisteredChainResponse := {|
  pSize := QueryRegisteredChainResponse_size; pWrite := QueryRegisteredChainResponse_marshal; pUnmarshal := fun discard => unmarshal_with (QueryRegisteredChainResponse_switch discard); pZero := MkApiQueryRegisteredChainResponse None [] |}.
#[global] Instance ahm_QueryRegisteredChainResponse_ok : WireOk ApiQueryRegisteredChainResponse := fun m => opt_ok (ApiQueryRegisteredChainResponse_Chain m).
#[global] Instance ahm_QueryRegisteredChainResponse_full : WireFull ApiQueryRegisteredChainResponse := fun m => unknown_ok (QueryRegisteredChainResponse_cases false) (ApiQueryRegisteredChainResponse_unknownFields m) /\ opt_full (ApiQueryRegisteredChainResponse_Chain m).
#[global] Instance ahm_QueryRegisteredChainResponse_laws : PulsarLaws ApiQueryRegisteredChainResponse.
Proof. pulsar_laws QueryRegisteredChainResponse_switch QueryRegisteredChainResponse_cases QueryRegisteredChainResponse_marshal. Qed.
#[global] Instance ahm_QueryRegisteredChainResponse_to_api : ToApi QueryRegisteredChainResponse ApiQueryRegisteredChainResponse := fun a => MkApiQueryRegisteredChainResponse (Some (to_api (QueryRegisteredChainResponse_Chain a))) [].
#[global] Instance ahm_QueryRegisteredChainResponse_api : ApiLaws QueryRegisteredChainResponse ApiQueryRegisteredChainResponse.
Proof. api_laws QueryRegisteredChainResponse_switch QueryRegisteredChainResponse_marshal. Qed.

(** [QueryRegisteredChainsRequest]. *)
Record ApiQueryRegisteredChainsRequest := MkApiQueryRegisteredChainsRequest { ApiQueryRegisteredChainsRequest_Pagination : option ApiPageRequest; ApiQueryRegisteredChainsRequest_unknownFields : bytes }.
Definition QueryRegisteredChainsRequest_size (x : ApiQueryRegisteredChainsRequest) : Z :=
  (match (ApiQueryRegisteredChainsRequest_Pagination x) with Some y => size_len (pSize y) | None => 0 end) +
  size_unknown (ApiQueryRegisteredChainsRequest_unknownFields x).
Definition QueryRegisteredChainsRequest_marshal (x : ApiQueryRegisteredChainsRequest) : writer :=
  wunknown (ApiQueryRegisteredChainsRequest_unknownFields x) ;>
  (match (ApiQueryRegisteredChainsRequest_Pagination x) with Some y => wenc Byte.x0a (Some y) | None => wskip end).
Definition QueryRegisteredChainsRequest_cases (discard : bool) (fieldNum : Z) : option (action ApiQueryRegisteredChainsRequest) :=
  match fieldNum with
  | 1 => Some (pcase_ptr discard ApiQueryRegisteredChainsRequest_Pagination (fun v m => (MkApiQueryRegisteredChainsRequest v (ApiQueryRegisteredChainsRequest_unknownFields m))))
  | _ => None
  end.
Definition QueryRegisteredChainsRequest_switch (discard : bool) : switch ApiQueryRegisteredChainsRequest :=
  keeping discard ApiQueryRegisteredChainsRequest_unknownFields (fun v m => (MkApiQueryRegisteredChainsRequest (ApiQueryRegisteredChainsRequest_Pagination m) v)) (QueryRegisteredChainsRequest_cases discard).
#[global] Instance ahm_QueryRegisteredChainsRequest_msg : PulsarMsg ApiQueryRegisteredChainsRequest := {|
  pSize := QueryRegisteredChainsRequest_size; pWrite := QueryRegisteredChainsRequest_marshal; pUnmarshal := fun discard => unmarshal_with (QueryRegisteredChainsRequest_switch discard); pZero := MkApiQueryRegisteredChainsRequest None [] |}.
#[global] Instance ahm_QueryRegisteredChainsRequest_ok : WireOk ApiQueryRegisteredChainsRequest := fun m => opt_ok (ApiQueryRegisteredChainsRequest_Pagination m).
#[global] Instance ahm_QueryRegisteredChainsRequest_full : WireFull ApiQueryRegisteredChainsRequest := fun m => unknown_ok (QueryRegisteredChainsRequest_cases false) (ApiQueryRegisteredChainsRequest_unknownFields m) /\ opt_full (ApiQueryRegisteredChainsRequest_Pagination m).
#[global] Instance ahm_QueryRegisteredChainsRequest_laws : PulsarLaws ApiQueryRegisteredChainsRequest.
Proof. pulsar_laws QueryRegisteredChainsRequest_switch QueryRegisteredChainsRequest_cases QueryRegisteredChainsRequest_marshal. Qed.
#[global] Instance ahm_QueryRegisteredChainsRequest_to_api : ToApi (@QueryRegisteredChainsRequest PageRequest) ApiQueryRegisteredChainsRequest := fun a => MkApiQueryRegisteredChainsRequest (option_map to_api (QueryRegisteredChainsRequest_Pagination a)) [].
#[global] Instance ahm_QueryRegisteredChainsRequest_api : ApiLaws (@QueryRegisteredChainsRequest PageRequest) ApiQueryRegisteredChainsRequest.
Proof. api_laws QueryRegisteredChainsRequest_switch QueryRegisteredChainsRequest_marshal. Qed.

(** [QueryRegisteredChainsResponse]. *)
Record ApiQueryRegisteredChainsResponse := MkApiQueryRegisteredChainsResponse { ApiQueryRegisteredChainsResponse_Chains : list (option ApiRegisteredChain); ApiQueryRegisteredChainsResponse_Pagination : option ApiPageResponse; ApiQueryRegisteredChainsResponse_unknownFields : bytes }.
Definition QueryRegisteredChainsResponse_size (x : ApiQueryRegisteredChainsResponse) : Z :=
  (if 0 <? Z.of_nat (length (ApiQueryRegisteredChainsResponse_Chains x)) then size_each (fun e => size_len (pSize_ptr e)) (ApiQueryRegisteredChainsResponse_Chains x) else 0) +
  (match (ApiQueryRegisteredChainsResponse_Pagination x) with Some y => size_len (pSize y) | None => 0 end) +
  size_unknown (ApiQueryRegisteredChainsResponse_unknownFields x).
Definition QueryRegisteredChainsResponse_marshal (x : ApiQueryRegisteredChainsResponse) : writer :=
  wunknown (ApiQueryRegisteredChainsResponse_unknownFields x) ;>
  (match (ApiQueryRegisteredChainsResponse_Pagination x) with Some y => wenc Byte.x12 (Some y) | None => wskip end) ;>
  wif (0 <? Z.of_nat (length (ApiQueryRegisteredChainsResponse_Chains x))) (wdown (ApiQueryRegisteredChainsResponse_Chains x) (wenc Byte.x0a)).
Definition QueryRegisteredChainsResponse_cases (discard : bool) (fieldNum : Z) : option (action ApiQueryRegisteredChainsResponse) :=
  match fieldNum with
  | 1 => Some (pcase_rep discard ApiQueryRegisteredChainsResponse_Chains (fun v m => (MkApiQueryRegisteredChainsResponse v (ApiQueryRegisteredChainsResponse_Pagination m) (ApiQueryRegisteredChainsResponse_unknownFields m))))
  | 2 => Some (pcase_ptr discard ApiQueryRegisteredChainsResponse_Pagination (fun v m => (MkApiQueryRegisteredChainsResponse (ApiQueryRegisteredChainsResponse_Chains m) v (ApiQueryRegisteredChainsResponse_unknownFields m))))
  | _ => None
  end.
Definition QueryRegisteredChainsResponse_switch (discard : bool) : switch ApiQueryRegisteredChainsResponse :=
  keeping discard ApiQueryRegisteredChainsResponse_unknownFields (fun v m => (MkApiQueryRegisteredChainsResponse (ApiQueryRegisteredChainsResponse_Chains m) (ApiQueryRegisteredChainsResponse_Pagination m) v)) (QueryRegisteredChainsResponse_cases discard).
#[global] Instance ahm_QueryRegisteredChainsResponse_msg : PulsarMsg ApiQueryRegisteredChainsResponse := {|
  pSize := QueryRegisteredChainsResponse_size; pWrite := QueryRegisteredChainsResponse_marshal; pUnmarshal := fun discard => unmarshal_with (QueryRegisteredChainsResponse_switch discard); pZero := MkApiQueryRegisteredChainsResponse [] None [] |}.
#[global] Instance ahm_QueryRegisteredChainsResponse_ok : WireOk ApiQueryRegisteredChainsResponse := fun m => Forall (ptr wire_ok) (ApiQueryRegisteredChainsResponse_Chains m) /\ opt_ok (ApiQueryRegisteredChainsResponse_Pagination m).
#[global] Instance ahm_QueryRegisteredChainsResponse_full : WireFull ApiQueryRegisteredChainsResponse := fun m => unknown_ok (QueryRegisteredChainsResponse_cases false) (ApiQueryRegisteredChainsResponse_unknownFields m) /\ Forall (ptr wire_full) (ApiQueryRegisteredChainsResponse_Chains m) /\ opt_full (ApiQueryRegisteredChainsResponse_Pagination m).
#[global] Instance ahm_QueryRegisteredChainsResponse_laws : PulsarLaws ApiQueryRegisteredChainsResponse.
Proof. pulsar_laws QueryRegisteredChainsResponse_switch QueryRegisteredChainsResponse_cases QueryRegisteredChainsResponse_marshal. Qed.
#[global] Instance ahm_QueryRegisteredChainsResponse_to_api : ToApi (@QueryRegisteredChainsResponse PageResponse) ApiQueryRegisteredChainsResponse := fun a => MkApiQueryRegisteredChainsResponse (map (fun e => Some (to_api e)) (QueryRegisteredChainsResponse_Chains a)) (option_map to_api (QueryRegisteredChainsResponse_Pagination a)) [].
#[global] Instance ahm_QueryRegisteredChainsResponse_api : ApiLaws (@QueryRegisteredChainsResponse PageResponse) ApiQueryRegisteredChainsResponse.
Proof. api_laws QueryRegisteredChainsResponse_switch QueryRegisteredChainsResponse_marshal. Qed.

(** [QueryRegisteredContractRequest]. *)
Record ApiQueryRegisteredContractRequest := MkApiQueryRegisteredContractRequest { ApiQueryRegisteredContractRequest_ContractAddr : bytes; ApiQueryRegisteredContractRequest_unknownFields : bytes }.
Definition QueryRegisteredContractRequest_size (x : ApiQueryRegisteredContractRequest) : Z :=
  (if 0 <? blen (ApiQueryRegisteredContractRequest_ContractAddr x) then size_len (blen (ApiQueryRegisteredContractRequest_ContractAddr x)) else 0) +
  size_unknown (ApiQueryRegisteredContractRequest_unknownFields x).
Definition QueryRegisteredContractRequest_marshal (x : ApiQueryRegisteredContractRequest) : writer :=
  wunknown (ApiQueryRegisteredContractRequest_unknownFields x) ;>
  wif (0 <? blen (ApiQueryRegisteredContractRequest_ContractAddr x)) (wlen Byte.x0a (ApiQueryRegisteredContractRequest_ContractAddr x)).
Definition QueryRegisteredContractRequest_cases (discard : bool) (fieldNum : Z) : option (action ApiQueryRegisteredContractRequest) :=
  match fieldNum with
  | 1 => Some (case_string (fun v m => (MkApiQueryRegisteredContractRequest v (ApiQueryRegisteredContractRequest_unknownFields m))))
  | _ => None
  end.
Definition QueryRegisteredContractRequest_switch (discard : bool) : switch ApiQueryRegisteredContractRequest :=
  keeping discard ApiQueryRegisteredContractRequest_unknownFields (fun v m => (MkApiQueryRegisteredContractRequest (ApiQueryRegisteredContractRequest_ContractAddr m) v)) (QueryRegisteredContractRequest_cases discard).
#[global] Instance ahm_QueryRegisteredContractRequest_msg : PulsarMsg ApiQueryRegisteredContractRequest := {|
  pSize := QueryRegisteredContractRequest_size; pWrite := QueryRegisteredContractRequest_marshal; pUnmarshal := fun discard => unmarshal_with (QueryRegisteredContractRequest_switch discard); pZero := MkApiQueryRegisteredContractRequest [] [] |}.
#[global] Instance ahm_QueryRegisteredContractRequest_ok : WireOk ApiQueryRegisteredContractRequest := fun m => True.
#[global] Instance ahm_QueryRegisteredContractRequest_full : WireFull ApiQueryRegisteredContractRequest := fun m => unknown_ok (QueryRegisteredContractRequest_cases false) (ApiQueryRegisteredContractRequest_unknownFields m).
#[global] Instance ahm_QueryRegisteredContractRequest_laws : PulsarLaws ApiQueryRegisteredContractRequest.
Proof. pulsar_laws QueryRegisteredContractRequest_switch QueryRegisteredContractRequest_cases QueryRegisteredContractRequest_marshal. Qed.
#[global] Instance ahm_QueryRegisteredContractRequest_to_api : ToApi QueryRegisteredContractRequest ApiQueryRegisteredContractRequest := fun a => MkApiQueryRegisteredContractRequest (QueryRegisteredContractRequest_ContractAddr a) [].
#[global] Instance ahm_QueryRegisteredContractRequest_api : ApiLaws QueryRegisteredContractRequest ApiQueryRegisteredContractRequest.
Proof. api_laws QueryRegisteredContractRequest_switch QueryRegisteredContractRequest_marshal. Qed.

(** [QueryRegisteredContractResponse]. *)
Record ApiQueryRegisteredContractResponse := MkApiQueryRegisteredContractResponse { ApiQueryRegisteredContractResponse_Contract : option ApiRegisteredContract; ApiQueryRegisteredContractResponse_unknownFields : bytes }.
Definition QueryRegisteredContractResponse_size (x : ApiQueryRegisteredContractResponse) : Z :=
  (match (ApiQueryRegisteredContractResponse_Contract x) with Some y => size_len (pSize y) | None => 0 end) +
  size_unknown (ApiQueryRegisteredContractResponse_unknownFields x).
Definition QueryRegisteredContractResponse_marshal (x : ApiQueryRegisteredContractResponse) : writer :=
  wunknown (ApiQueryRegisteredContractResponse_unknownFields x) ;>
  (match (ApiQueryRegisteredContractResponse_Contract x) with Some y => wenc Byte.x0a (Some y) | None => wskip end).
Definition QueryRegisteredContractResponse_cases (discard : bool) (fieldNum : Z) : option (action ApiQueryRegisteredContractResponse) :=
  match fieldNum with
  | 1 => Some (pcase_ptr discard ApiQueryRegisteredContractResponse_Contract (fun v m => (MkApiQueryRegisteredContractResponse v (ApiQueryRegisteredContractResponse_unknownFields m))))
  | _ => None
  end.
Definition QueryRegisteredContractResponse_switch (discard : bool) : switch ApiQueryRegisteredContractResponse :=
  keeping discard ApiQueryRegisteredContractResponse_unknownFields (fun v m => (MkApiQueryRegisteredContractResponse (ApiQueryRegisteredContractResponse_Contract m) v)) (QueryRegisteredContractResponse_cases discard).
#[global] Instance ahm_QueryRegisteredContractResponse_msg : PulsarMsg ApiQueryRegisteredContractResponse := {|
  pSize := QueryRegisteredContractResponse_size; pWrite := QueryRegisteredContractResponse_marshal; pUnmarshal := fun discard => unmarshal_with (QueryRegisteredContractResponse_switch discard); pZero := MkApiQueryRegisteredContractResponse None [] |}.
#[global] Instance ahm_QueryRegisteredContractResponse_ok : WireOk ApiQueryRegisteredContractResponse := fun m => opt_ok (ApiQueryRegisteredContractResponse_Contract m).
#[global] Instance ahm_QueryRegisteredContractResponse_full : WireFull ApiQueryRegisteredContractResponse := fun m => unknown_ok (QueryRegisteredContractResponse_cases false) (ApiQueryRegisteredContractResponse_unknownFields m) /\ opt_full (ApiQueryRegisteredContractResponse_Contract m).
#[global] Instance ahm_QueryRegisteredContractResponse_laws : PulsarLaws ApiQueryRegisteredContractResponse.
Proof. pulsar_laws QueryRegisteredContractResponse_switch QueryRegisteredContractResponse_cases QueryRegisteredContractResponse_marshal. Qed.
#[global] Instance ahm_QueryRegisteredContractResponse_to_api : ToApi QueryRegisteredContractResponse ApiQueryRegisteredContractResponse := fun a => MkApiQueryRegisteredContractResponse (Some (to_api (QueryRegisteredContractResponse_Contract a))) [].
#[global] Instance ahm_QueryRegisteredContractResponse_api : ApiLaws QueryRegisteredContractResponse ApiQueryRegisteredContractResponse.
Proof. api_laws QueryRegisteredContractResponse_switch QueryRegisteredContractResponse_marshal. Qed.

(** [QueryRegisteredContractsRequest]. *)
Record ApiQueryRegisteredContractsRequest := MkApiQueryRegisteredContractsRequest { ApiQueryRegisteredContractsRequest_Pagination : option ApiPageRequest; ApiQueryRegisteredContractsRequest_unknownFields : bytes }.
Definition QueryRegisteredContractsRequest_size (x : ApiQueryRegisteredContractsRequest) : Z :=
  (match (ApiQueryRegisteredContractsRequest_Pagination x) with Some y => size_len (pSize y) | None => 0 end) +
  size_unknown (ApiQueryRegisteredContractsRequest_unknownFields x).
Definition QueryRegisteredContractsRequest_marshal (x : ApiQueryRegisteredContractsRequest) : writer :=
  wunknown (ApiQueryRegisteredContractsRequest_unknownFields x) ;>
  (match (ApiQueryRegisteredContractsRequest_Pagination x) with Some y => wenc Byte.x0a (Some y) | None => wskip end).
Definition QueryRegisteredContractsRequest_cases (discard : bool) (fieldNum : Z) : option (action ApiQueryRegisteredContractsRequest) :=
  match fieldNum with
  | 1 => Some (pcase_ptr discard ApiQueryRegisteredContractsRequest_Pagination (fun v m => (MkApiQueryRegisteredContractsRequest v (ApiQueryRegisteredContractsRequest_unknownFields m))))
  | _ => None
  end.
Definition QueryRegisteredContractsRequest_switch (discard : bool) : switch ApiQueryRegisteredContractsRequest :=
  keeping discard ApiQueryRegisteredContractsRequest_unknownFields (fun v m => (MkApiQueryRegisteredContractsRequest (ApiQueryRegisteredContractsRequest_Pagination m) v)) (QueryRegisteredContractsRequest_cases discard).
#[global] Instance ahm_QueryRegisteredContractsRequest_msg : PulsarMsg ApiQueryRegisteredContractsRequest := {|
  pSize := QueryRegisteredContractsRequest_size; pWrite := QueryRegisteredContractsRequest_marshal; pUnmarshal := fun discard => unmarshal_with (QueryRegisteredContractsRequest_switch discard); pZero := MkApiQueryRegisteredContractsRequest None [] |}.
#[global] Instance ahm_QueryRegisteredContractsRequest_ok : WireOk ApiQueryRegisteredContractsRequest := fun m => opt_ok (ApiQueryRegisteredContractsRequest_Pagination m).
#[global] Instance ahm_QueryRegisteredContractsRequest_full : WireFull ApiQueryRegisteredContractsRequest := fun m => unknown_ok (QueryRegisteredContractsRequest_cases false) (ApiQueryRegisteredContractsRequest_unknownFields m) /\ opt_full (ApiQueryRegisteredContractsRequest_Pagination m).
#[global] Instance ahm_QueryRegisteredContractsRequest_laws : PulsarLaws ApiQueryRegisteredContractsRequest.
Proof. pulsar_laws QueryRegisteredContractsRequest_switch QueryRegisteredContractsRequest_cases QueryRegisteredContractsRequest_marshal. Qed.
#[global] Instance ahm_QueryRegisteredContractsRequest_to_api : ToApi (@QueryRegisteredContractsRequest PageRequest) ApiQueryRegisteredContractsRequest := fun a => MkApiQueryRegisteredContractsRequest (option_map to_api (QueryRegisteredContractsRequest_Pagination a)) [].
#[global] Instance ahm_QueryRegisteredContractsRequest_api : ApiLaws (@QueryRegisteredContractsRequest PageRequest) ApiQueryRegisteredContractsRequest.
Proof. api_laws QueryRegisteredContractsRequest_switch QueryRegisteredContractsRequest_marshal. Qed.

(** [QueryRegisteredContractsResponse]. *)
Record ApiQueryRegisteredContractsResponse := MkApiQueryRegisteredContractsResponse { ApiQueryRegisteredContractsResponse_Contracts : list (option ApiRegisteredContract); ApiQueryRegisteredContractsResponse_Pagination : option ApiPageResponse; ApiQueryRegisteredContractsResponse_unknownFields : bytes }.
Definition QueryRegisteredContractsResponse_size (x : ApiQueryRegisteredContractsResponse) : Z :=
  (if 0 <? Z.of_nat (length (ApiQueryRegisteredContractsResponse_Contracts x)) then size_each (fun e => size_len (pSize_ptr e)) (ApiQueryRegisteredContractsResponse_Contracts x) else 0) +
  (match (ApiQueryRegisteredContractsResponse_Pagination x) with Some y => size_len (pSize y) | None => 0 end) +
  size_unknown (ApiQueryRegisteredContractsResponse_unknownFields x).
Definition QueryRegisteredContractsResponse_marshal (x : ApiQueryRegisteredContractsResponse) : writer :=
  wunknown (ApiQueryRegisteredContractsResponse_unknownFields x) ;>
  (match (ApiQueryRegisteredContractsResponse_Pagination x) with Some y => wenc Byte.x12 (Some y) | None => wskip end) ;>
  wif (0 <? Z.of_nat (length (ApiQueryRegisteredContractsResponse_Contracts x))) (wdown (ApiQueryRegisteredContractsResponse_Contracts x) (wenc Byte.x0a)).
Definition QueryRegisteredContractsResponse_cases (discard : bool) (fieldNum : Z) : option (action ApiQueryRegisteredContractsResponse) :=
  match fieldNum with
  | 1 => Some (pcase_rep discard ApiQueryRegisteredContractsResponse_Contracts (fun v m => (MkApiQueryRegisteredContractsResponse v (ApiQueryRegisteredContractsResponse_Pagination m) (ApiQueryRegisteredContractsResponse_unknownFields m))))
  | 2 => Some (pcase_ptr discard ApiQueryRegisteredContractsResponse_Pagination (fun v m => (MkApiQueryRegisteredContractsResponse (ApiQueryRegisteredContractsResponse_Contracts m) v (ApiQueryRegisteredContractsResponse_unknownFields m))))
  | _ => None
  end.
Definition QueryRegisteredContractsResponse_switch (discard : bool) : switch ApiQueryRegisteredContractsResponse :=
  keeping discard ApiQueryRegisteredContractsResponse_unknownFields (fun v m => (MkApiQueryRegisteredContractsResponse (ApiQueryRegisteredContractsResponse_Contracts m) (ApiQueryRegisteredContractsResponse_Pagination m) v)) (QueryRegisteredContractsResponse_cases discard).
#[global] Instance ahm_QueryRegisteredContractsResponse_msg : PulsarMsg ApiQueryRegisteredContractsResponse := {|
  pSize := QueryRegisteredContractsResponse_size; pWrite := QueryRegisteredContractsResponse_marshal; pUnmarshal := fun discard => unmarshal_with (QueryRegisteredContractsResponse_switch discard); pZero := MkApiQueryRegisteredContractsResponse [] None [] |}.
#[global] Instance ahm_QueryRegisteredContractsResponse_ok : WireOk ApiQueryRegisteredContractsResponse := fun m => Forall (ptr wire_ok) (ApiQueryRegisteredContractsResponse_Contracts m) /\ opt_ok (ApiQueryRegisteredContractsResponse_Pagination m).
#[global] Instance ahm_QueryRegisteredContractsResponse_full : WireFull ApiQueryRegisteredContractsResponse := fun m => unknown_ok (QueryRegisteredContractsResponse_cases false) (ApiQueryRegisteredContractsResponse_unknownFields m) /\ Forall (ptr wire_full) (ApiQueryRegisteredContractsResponse_Contracts m) /\ opt_full (ApiQueryRegisteredContractsResponse_Pagination m).
#[global] Instance ahm_QueryRegisteredContractsResponse_laws : PulsarLaws ApiQueryRegisteredContractsResponse.
Proof. pulsar_laws QueryRegisteredContractsResponse_switch QueryRegisteredContractsResponse_cases QueryRegisteredContractsResponse_marshal. Qed.
#[global] Instance ahm_QueryRegisteredContractsResponse_to_api : ToApi (@QueryRegisteredContractsResponse PageResponse) ApiQueryRegisteredContractsResponse := fun a => MkApiQueryRegisteredContractsResponse (map (fun e => Some (to_api e)) (QueryRegisteredContractsResponse_Contracts a)) (option_map to_api (QueryRegisteredContractsResponse_Pagination a)) [].
#[global] Instance ahm_QueryRegisteredContractsResponse_api : ApiLaws (@QueryRegisteredContractsResponse PageResponse) ApiQueryRegisteredContractsResponse.
Proof. api_laws QueryRegisteredContractsResponse_switch QueryRegisteredContractsResponse_marshal. Qed.

(** [QueryHashRootRequest]. *)
Record ApiQueryHashRootRequest := MkApiQueryHashRootRequest { ApiQueryHashRootRequest_ChainUid : bytes; ApiQueryHashRootRequest_Algo : bytes; ApiQueryHashRootRequest_unknownFields : bytes }.
Definition QueryHashRootRequest_size (x : ApiQueryHashRootRequest) : Z :=
  (if 0 <? blen (ApiQueryHashRootRequest_ChainUid x) then size_len (blen (ApiQueryHashRootRequest_ChainUid x)) else 0) +
  (if 0 <? blen (ApiQueryHashRootRequest_Algo x) then size_len (blen (ApiQueryHashRootRequest_Algo x)) else 0) +
  size_unknown (ApiQueryHashRootRequest_unknownFields x).
Definition QueryHashRootRequest_marshal (x : ApiQueryHashRootRequest) : writer :=
  wunknown (ApiQueryHashRootRequest_unknownFields x) ;>
  wif (0 <? blen (ApiQueryHashRootRequest_Algo x)) (wlen Byte.x12 (ApiQueryHashRootRequest_Algo x)) ;>
  wif (0 <? blen (ApiQueryHashRootRequest_ChainUid x)) (wlen Byte.x0a (ApiQueryHashRootRequest_ChainUid x)).
Definition QueryHashRootRequest_cases (discard : bool) (fieldNum : Z) : option (action ApiQueryHashRootRequest) :=
  match fieldNum with
  | 1 => Some (case_string (fun v m => (MkApiQueryHashRootRequest v (ApiQueryHashRootRequest_Algo m) (ApiQueryHashRootRequest_unknownFields m))))
  | 2 => Some (case_string (fun v m => (MkApiQueryHashRootRequest (ApiQueryHashRootRequest_ChainUid m) v (ApiQueryHashRootRequest_unknownFields m))))
  | _ => None
  end.
Definition QueryHashRootRequest_switch (discard : bool) : switch ApiQueryHashRootRequest :=
  keeping discard ApiQueryHashRootRequest_unknownFields (fun v m => (MkApiQueryHashRootRequest (ApiQueryHashRootRequest_ChainUid m) (ApiQueryHashRootRequest_Algo m) v)) (QueryHashRootRequest_cases discard).
#[global] Instance ahm_QueryHashRootRequest_msg : PulsarMsg ApiQueryHashRootRequest := {|
  pSize := QueryHashRootRequest_size; pWrite := QueryHashRootRequest_marshal; pUnmarshal := fun discard => unmarshal_with (QueryHashRootRequest_switch discard); pZero := MkApiQueryHashRootRequest [] [] [] |}.
#[global] Instance ahm_QueryHashRootRequest_ok : WireOk ApiQueryHashRootRequest := fun m => True.
#[global] Instance ahm_QueryHashRootRequest_full : WireFull ApiQueryHashRootRequest := fun m => unknown_ok (QueryHashRootRequest_cases false) (ApiQueryHashRootRequest_unknownFields m).
#[global] Instance ahm_QueryHashRootRequest_laws : PulsarLaws ApiQueryHashRootRequest.
Proof. pulsar_laws QueryHashRootRequest_switch QueryHashRootRequest_cases QueryHashRootRequest_marshal. Qed.
#[global] Instance ahm_QueryHashRootRequest_to_api : ToApi QueryHashRootRequest ApiQueryHashRootRequest := fun a => MkApiQueryHashRootRequest (QueryHashRootRequest_ChainUid a) (QueryHashRootRequest_Algo a) [].
#[global] Instance ahm_QueryHashRootRequest_api : ApiLaws QueryHashRootRequest ApiQueryHashRootRequest.
Proof. api_laws QueryHashRootRequest_switch QueryHashRootRequest_marshal. Qed.

(** [QueryHashRootResponse]. *)
Record ApiQueryHashRootResponse := MkApiQueryHashRootResponse { ApiQueryHashRootResponse_Root : option ApiHashRoot; ApiQueryHashRootResponse_unknownFields : bytes }.
Definition QueryHashRootResponse_size (x : ApiQueryHashRootResponse) : Z :=
  (match (ApiQueryHashRootResponse_Root x) with Some y => size_len (pSize y) | None => 0 end) +
  size_unknown (ApiQueryHashRootResponse_unknownFields x).
Definition QueryHashRootResponse_marshal (x : ApiQueryHashRootResponse) : writer :=
  wunknown (ApiQueryHashRootResponse_unknownFields x) ;>
  (match (ApiQueryHashRootResponse_Root x) with Some y => wenc Byte.x0a (Some y) | None => wskip end).
Definition QueryHashRootResponse_cases (discard : bool) (fieldNum : Z) : option (action ApiQueryHashRootResponse) :=
  match fieldNum with
  | 1 => Some (pcase_ptr discard ApiQueryHashRootResponse_Root (fun v m => (MkApiQueryHashRootResponse v (ApiQueryHashRootResponse_unknownFields m))))
  | _ => None
  end.
Definition QueryHashRootResponse_switch (discard : bool) : switch ApiQueryHashRootResponse :=
  keeping discard ApiQueryHashRootResponse_unknownFields (fun v m => (MkApiQueryHashRootResponse (ApiQueryHashRootResponse_Root m) v)) (QueryHashRootResponse_cases discard).
#[global] Instance ahm_QueryHashRootResponse_msg : PulsarMsg ApiQueryHashRootResponse := {|
  pSize := QueryHashRootResponse_size; pWrite := QueryHashRootResponse_marshal; pUnmarshal := fun discard => unmarshal_with (QueryHashRootResponse_switch discard); pZero := MkApiQueryHashRootResponse None [] |}.
#[global] Instance ahm_QueryHashRootResponse_ok : WireOk ApiQueryHashRootResponse := fun m => opt_ok (ApiQueryHashRootResponse_Root m).
#[global] Instance ahm_QueryHashRootResponse_full : WireFull ApiQueryHashRootResponse := fun m => unknown_ok (QueryHashRootResponse_cases false) (ApiQueryHashRootResponse_unknownFields m) /\ opt_full (ApiQueryHashRootResponse_Root m).
#[global] Instance ahm_QueryHashRootResponse_laws : PulsarLaws ApiQueryHashRootResponse.
Proof. pulsar_laws QueryHashRootResponse_switch QueryHashRootResponse_cases QueryHashRootResponse_marshal. Qed.
#[global] Instance ahm_QueryHashRootResponse_to_api : ToApi QueryHashRootResponse ApiQueryHashRootResponse := fun a => MkApiQueryHashRootResponse (Some (to_api (QueryHashRootResponse_Root a))) [].
#[global] Instance ahm_QueryHashRootResponse_api : ApiLaws QueryHashRootResponse ApiQueryHashRootResponse.
Proof. api_laws QueryHashRootResponse_switch QueryHashRootResponse_marshal. Qed.

(** [QueryHashRootsRequest]. *)
Record ApiQueryHashRootsRequest := MkApiQueryHashRootsRequest { ApiQueryHashRootsRequest_ChainUid : bytes; ApiQueryHashRootsRequest_Pagination : option ApiPageRequest; ApiQueryHashRootsRequest_unknownFields : bytes }.
Definition QueryHashRootsRequest_size (x : ApiQueryHashRootsRequest) : Z :=
  (if 0 <? blen (ApiQueryHashRootsRequest_ChainUid x) then size_len (blen (ApiQueryHashRootsRequest_ChainUid x)) else 0) +
  (match (ApiQueryHashRootsRequest_Pagination x) with Some y => size_len (pSize y) | None => 0 end) +
  size_unknown (ApiQueryHashRootsRequest_unknownFields x).
Definition QueryHashRootsRequest_marshal (x : ApiQueryHashRootsRequest) : writer :=
  wunknown (ApiQueryHashRootsRequest_unknownFields x) ;>
  (match (ApiQueryHashRootsRequest_Pagination x) with Some y => wenc Byte.x12 (Some y) | None => wskip end) ;>
  wif (0 <? blen (ApiQueryHashRootsRequest_ChainUid x)) (wlen Byte.x0a (ApiQueryHashRootsRequest_ChainUid x)).
Definition QueryHashRootsRequest_cases (discard : bool) (fieldNum : Z) : option (action ApiQueryHashRootsRequest) :=
  match fieldNum with
  | 1 => Some (case_string (fun v m => (MkApiQueryHashRootsRequest v (ApiQueryHashRootsRequest_Pagination m) (ApiQueryHashRootsRequest_unknownFields m))))
  | 2 => Some (pcase_ptr discard ApiQueryHashRootsRequest_Pagination (fun v m => (MkApiQueryHashRootsRequest (ApiQueryHashRootsRequest_ChainUid m) v (ApiQueryHashRootsRequest_unknownFields m))))
  | _ => None
  end.
Definition QueryHashRootsRequest_switch (discard : bool) : switch ApiQueryHashRootsRequest :=
  keeping discard ApiQueryHashRootsRequest_unknownFields (fun v m => (MkApiQueryHashRootsRequest (ApiQueryHashRootsRequest_ChainUid m) (ApiQueryHashRootsRequest_Pagination m) v)) (QueryHashRootsRequest_cases discard).
#[global] Instance ahm_QueryHashRootsRequest_msg : PulsarMsg ApiQueryHashRootsRequest := {|
  pSize := QueryHashRootsRequest_size; pWrite := QueryHashRootsRequest_marshal; pUnmarshal := fun discard => unmarshal_with (QueryHashRootsRequest_switch discard); pZero := MkApiQueryHashRootsRequest [] None [] |}.
#[global] Instance ahm_QueryHashRootsRequest_ok : WireOk ApiQueryHashRootsRequest := fun m => opt_ok (ApiQueryHashRootsRequest_Pagination m).
#[global] Instance ahm_QueryHashRootsRequest_full : WireFull ApiQueryHashRootsRequest := fun m => unknown_ok (QueryHashRootsRequest_cases false) (ApiQueryHashRootsRequest_unknownFields m) /\ opt_full (ApiQueryHashRootsRequest_Pagination m).
#[global] Instance ahm_QueryHashRootsRequest_laws : PulsarLaws ApiQueryHashRootsRequest.
Proof. pulsar_laws QueryHashRootsRequest_switch QueryHashRootsRequest_cases QueryHashRootsRequest_marshal. Qed.
#[global] Instance ahm_QueryHashRootsRequest_to_api : ToApi (@QueryHashRootsRequest PageRequest) ApiQueryHashRootsRequest := fun a => MkApiQueryHashRootsRequest (QueryHashRootsRequest_ChainUid a) (option_map to_api (QueryHashRootsRequest_Pagination a)) [].
#[global] Instance ahm_QueryHashRootsRequest_api : ApiLaws (@QueryHashRootsRequest PageRequest) ApiQueryHashRootsRequest.
Proof. api_laws QueryHashRootsRequest_switch QueryHashRootsRequest_marshal. Qed.

(** [QueryHashRootsResponse]. *)
Record ApiQueryHashRootsResponse := MkApiQueryHashRootsResponse { ApiQueryHashRootsResponse_Roots : list (option ApiHashRoot); ApiQueryHashRootsResponse_Pagination : option ApiPageResponse; ApiQueryHashRootsResponse_unknownFields : bytes }.
Definition QueryHashRootsResponse_size (x : ApiQueryHashRootsResponse) : Z :=
  (if 0 <? Z.of_nat (length (ApiQueryHashRootsResponse_Roots x)) then size_each (fun e => size_len (pSize_ptr e)) (ApiQueryHashRootsResponse_Roots x) else 0) +
  (match (ApiQueryHashRootsResponse_Pagination x) with Some y => size_len (pSize y) | None => 0 end) +
  size_unknown (ApiQueryHashRootsResponse_unknownFields x).
Definition QueryHashRootsResponse_marshal (x : ApiQueryHashRootsResponse) : writer :=
  wunknown (ApiQueryHashRootsResponse_unknownFields x) ;>
  (match (ApiQueryHashRootsResponse_Pagination x) with Some y => wenc Byte.x12 (Some y) | None => wskip end) ;>
  wif (0 <? Z.of_nat (length (ApiQueryHashRootsResponse_Roots x))) (wdown (ApiQueryHashRootsResponse_Roots x) (wenc Byte.x0a)).
Definition QueryHashRootsResponse_cases (discard : bool) (fieldNum : Z) : option (action ApiQueryHashRootsResponse) :=
  match fieldNum with
  | 1 => Some (pcase_rep discard ApiQueryHashRootsResponse_Roots (fun v m => (MkApiQueryHashRootsResponse v (ApiQueryHashRootsResponse_Pagination m) (ApiQueryHashRootsResponse_unknownFields m))))
  | 2 => Some (pcase_ptr discard ApiQueryHashRootsResponse_Pagination (fun v m => (MkApiQueryHashRootsResponse (ApiQueryHashRootsResponse_Roots m) v (ApiQueryHashRootsResponse_unknownFields m))))
  | _ => None
  end.
Definition QueryHashRootsResponse_switch (discard : bool) : switch ApiQueryHashRootsResponse :=
  keeping discard ApiQueryHashRootsResponse_unknownFields (fun v m => (MkApiQueryHashRootsResponse (ApiQueryHashRootsResponse_Roots m) (ApiQueryHashRootsResponse_Pagination m) v)) (QueryHashRootsResponse_cases discard).
#[global] Instance ahm_QueryHashRootsResponse_msg : PulsarMsg ApiQueryHashRootsResponse := {|
  pSize := QueryHashRootsResponse_size; pWrite := QueryHashRootsResponse_marshal; pUnmarshal := fun discard => unmarshal_with (QueryHashRootsResponse_switch discard); pZero := MkApiQueryHashRootsResponse [] None [] |}.
#[global] Instance ahm_QueryHashRootsResponse_ok : WireOk ApiQueryHashRootsResponse := fun m => Forall (ptr wire_ok) (ApiQueryHashRootsResponse_Roots m) /\ opt_ok (ApiQueryHashRootsResponse_Pagination m).
#[global] Instance ahm_QueryHashRootsResponse_full : WireFull ApiQueryHashRootsResponse := fun m => unknown_ok (QueryHashRootsResponse_cases false) (ApiQueryHashRootsResponse_unknownFields m) /\ Forall (ptr wire_full) (ApiQueryHashRootsResponse_Roots m) /\ opt_full (ApiQueryHashRootsResponse_Pagination m).
#[global] Instance ahm_QueryHashRootsResponse_laws : PulsarLaws ApiQueryHashRootsResponse.
Proof. pulsar_laws QueryHashRootsResponse_switch QueryHashRootsResponse_cases QueryHashRootsResponse_marshal. Qed.
#[global] Instance ahm_QueryHashRootsResponse_to_api : ToApi (@QueryHashRootsResponse PageResponse) ApiQueryHashRootsResponse := fun a => MkApiQueryHashRootsResponse (map (fun e => Some (to_api e)) (QueryHashRootsResponse_Roots a)) (option_map to_api (QueryHashRootsResponse_Pagination a)) [].
#[global] Instance ahm_QueryHashRootsResponse_api : ApiLaws (@QueryHashRootsResponse PageResponse) ApiQueryHashRootsResponse.
Proof. api_laws QueryHashRootsResponse_switch QueryHashRootsResponse_marshal. Qed.

(** [QueryEscrowRequest]. *)
Record ApiQueryEscrowRequest := MkApiQueryEscrowRequest { ApiQueryEscrowRequest_ContractAddr : bytes; ApiQueryEscrowRequest_unknownFields : bytes }.
Definition QueryEscrowRequest_size (x : ApiQueryEscrowRequest) : Z :=
  (if 0 <? blen (ApiQueryEscrowRequest_ContractAddr x) then size_len (blen (ApiQueryEscrowRequest_ContractAddr x)) else 0) +
  size_unknown (ApiQueryEscrowRequest_unknownFields x).
Definition QueryEscrowRequest_marshal (x : ApiQueryEscrowRequest) : writer :=
  wunknown (ApiQueryEscrowRequest_unknownFields x) ;>
  wif (0 <? blen (ApiQueryEscrowRequest_ContractAddr x)) (wlen Byte.x0a (ApiQueryEscrowRequest_ContractAddr x)).
Definition QueryEscrowRequest_cases (discard : bool) (fieldNum : Z) : option (action ApiQueryEscrowRequest) :=
  match fieldNum with
  | 1 => Some (case_string (fun v m => (MkApiQueryEscrowRequest v (ApiQueryEscrowRequest_unknownFields m))))
  | _ => None
  end.
Definition QueryEscrowRequest_switch (discard : bool) : switch ApiQueryEscrowRequest :=
  keeping discard ApiQueryEscrowRequest_unknownFields (fun v m => (MkApiQueryEscrowRequest (ApiQueryEscrowRequest_ContractAddr m) v)) (QueryEscrowRequest_cases discard).
#[global] Instance ahm_QueryEscrowRequest_msg : PulsarMsg ApiQueryEscrowRequest := {|
  pSize := QueryEscrowRequest_size; pWrite := QueryEscrowRequest_marshal; pUnmarshal := fun discard => unmarshal_with (QueryEscrowRequest_switch discard); pZero := MkApiQueryEscrowRequest [] [] |}.
#[global] Instance ahm_QueryEscrowRequest_ok : WireOk ApiQueryEscrowRequest := fun m => True.
#[global] Instance ahm_QueryEscrowRequest_full : WireFull ApiQueryEscrowRequest := fun m => unknown_ok (QueryEscrowRequest_cases false) (ApiQueryEscrowRequest_unknownFields m).
#[global] Instance ahm_QueryEscrowRequest_laws : PulsarLaws ApiQueryEscrowRequest.
Proof. pulsar_laws QueryEscrowRequest_switch QueryEscrowRequest_cases QueryEscrowRequest_marshal. Qed.
#[global] Instance ahm_QueryEscrowRequest_to_api : ToApi QueryEscrowRequest ApiQueryEscrowRequest := fun a => MkApiQueryEscrowRequest (QueryEscrowRequest_ContractAddr a) [].
#[global] Instance ahm_QueryEscrowRequest_api : ApiLaws QueryEscrowRequest ApiQueryEscrowRequest.
Proof. api_laws QueryEscrowRequest_switch QueryEscrowRequest_marshal. Qed.

(** [QueryEscrowResponse]. *)
Record ApiQueryEscrowResponse := MkApiQueryEscrowResponse { ApiQueryEscrowResponse_Escrow : option ApiEscrowRecord; ApiQueryEscrowResponse_unknownFields : bytes }.
Definition QueryEscrowResponse_size (x : ApiQueryEscrowResponse) : Z :=
  (match (ApiQueryEscrowResponse_Escrow x) with Some y => size_len (pSize y) | None => 0 end) +
  size_unknown (ApiQueryEscrowResponse_unknownFields x).
Definition QueryEscrowResponse_marshal (x : ApiQueryEscrowResponse) : writer :=
  wunknown (ApiQueryEscrowResponse_unknownFields x) ;>
  (match (ApiQueryEscrowResponse_Escrow x) with Some y => wenc Byte.x0a (Some y) | None => wskip end).
Definition QueryEscrowResponse_cases (discard : bool) (fieldNum : Z) : option (action ApiQueryEscrowResponse) :=
  match fieldNum with
  | 1 => Some (pcase_ptr discard ApiQueryEscrowResponse_Escrow (fun v m => (MkApiQueryEscrowResponse v (ApiQueryEscrowResponse_unknownFields m))))
  | _ => None
  end.
Definition QueryEscrowResponse_switch (discard : bool) : switch ApiQueryEscrowResponse :=
  keeping discard ApiQueryEscrowResponse_unknownFields (fun v m => (MkApiQueryEscrowResponse (ApiQueryEscrowResponse_Escrow m) v)) (QueryEscrowResponse_cases discard).
#[global] Instance ahm_QueryEscrowResponse_msg : PulsarMsg ApiQueryEscrowResponse := {|
  pSize := QueryEscrowResponse_size; pWrite := QueryEscrowResponse_marshal; pUnmarshal := fun discard => unmarshal_with (QueryEscrowResponse_switch discard); pZero := MkApiQueryEscrowResponse None [] |}.
#[global] Instance ahm_QueryEscrowResponse_ok : WireOk ApiQueryEscrowResponse := fun m => opt_ok (ApiQueryEscrowResponse_Escrow m).
#[global] Instance ahm_QueryEscrowResponse_full : WireFull ApiQueryEscrowResponse := fun m => unknown_ok (QueryEscrowResponse_cases false) (ApiQueryEscrowResponse_unknownFields m) /\ opt_full (ApiQueryEscrowResponse_Escrow m).
#[global] Instance ahm_QueryEscrowResponse_laws : PulsarLaws ApiQueryEscrowResponse.
Proof. pulsar_laws QueryEscrowResponse_switch QueryEscrowResponse_cases QueryEscrowResponse_marshal. Qed.
#[global] Instance ahm_QueryEscrowResponse_to_api : ToApi QueryEscrowResponse ApiQueryEscrowResponse := fun a => MkApiQueryEscrowResponse (Some (to_api (QueryEscrowResponse_Escrow a))) [].
#[global] Instance ahm_QueryEscrowResponse_api : ApiLaws QueryEscrowResponse ApiQueryEscrowResponse.
Proof. api_laws QueryEscrowResponse_switch QueryEscrowResponse_marshal. Qed.

(** ** The two codecs agree *)

(** C35: A client of the API and the chain agree on the records of hashmerchant:
    both write the same bytes and each reads what the other wrote; the fields
    that only the chain has ([oracle_sources], [attestations]) travel among the
    unknown fields of the API value and come back unchanged. *)
Theorem hm_api_agrees :
  (forall c : RegisteredChain, wire_ok c -> Size c < 2 ^ 63 -> agrees (B := ApiRegisteredChain) c) /\
  (forall c : RegisteredContract, Size c < 2 ^ 63 -> agrees (B := ApiRegisteredContract) c) /\
  (forall r : EscrowRecord, wire_ok r -> wire_full r -> Size r < 2 ^ 63 -> agrees (B := ApiEscrowRecord) r) /\
  (forall r : HashRoot, wire_ok r -> Size r < 2 ^ 63 -> agrees (B := ApiHashRoot) r) /\
  (forall v : VoteExtensionHashData, wire_ok v -> Size v < 2 ^ 63 -> agrees (B := ApiVoteExtensionHashData) v) /\
  (forall p : Params (LegacyDec := LegacyDec) (Int := Int), wire_ok p -> wire_full p -> Size p < 2 ^ 63 -> agrees (B := ApiParams) p) /\
  (forall g : GenesisState (LegacyDec := LegacyDec) (Int := Int), wire_ok g -> wire_full g -> Size g < 2 ^ 63 -> agrees (B := ApiGenesisState) g).
Proof. each; apply api_agrees; side. Qed.

End Api.

(** ** Concrete values *)

#[local] Existing Instance generated.
#[local] Existing Instance toy_Z.
#[local] Existing Instance toy_Z_laws.
#[local] Existing Instance toy_Z_text.
#[local] Instance clearing : Options := {| Merge := false |}.
(** The API value of a root keeps the attestations as the bytes of field 7. *)
Example w_root_api : ApiHashRoot_unknownFields (to_api w_root) =
  [Byte.x3a; Byte.x15; Byte.x0a; Byte.x03] ++ str "src" ++
  [Byte.x12; Byte.x01; Byte.x01; Byte.x18; Byte.x07; Byte.x20; Byte.xfe] ++ replicate 8 Byte.xff ++ [Byte.x01].
Proof. vm_refl. Qed.
(** With [DiscardUnknown] they are lost. *)
Example w_root_discarded : exists x, rbind (wMarshal w_root) (fun bz => pUnmarshal true bz pZero) = Ok x /\
  ApiHashRoot_unknownFields x = [] /\ ApiHashRoot_ChainUid x = str "hub".
Proof. eexists. split; [by vm_compute|]. by split. Qed.
Lemma hm_api_agrees_witness : agrees (B := ApiGenesisState) w_genesis /\ agrees (B := ApiHashRoot) w_root.
Proof.
  destruct (hm_api_agrees (LegacyDec := Z) (Int := Z) (ApiCoin := ApiToyCoin)) as (_ & _ & _ & Hr & _ & _ & Hg). split.
  - apply Hg; [wire_value | by repeat constructor | vm_compute; done].
  - apply Hr; [wire_value | vm_compute; done].
Defined.
