(* ===== verification/ApiSa.v ===== *)
(** * smart-account: the codec of the API types

    [api/terp/smartaccount/v1beta1/*.pulsar.go]: [size], [marshal] and
    [unmarshal] of every message with fields, and the agreement with
    the codec of [x/smart-account/types]. *)

From S2P Require Import Prelude Proto Wire WireLaws SaAuth SaKeeper WireSa Pulsar.

Open Scope go_scope.

Section Api.
Context {RT : WireRuntime} {RL : RuntimeLaws} {OP : Options}.

(** [AccountAuthenticator]. *)
Record ApiAccountAuthenticator := MkApiAccountAuthenticator { ApiAccountAuthenticator_Id : Z; ApiAccountAuthenticator_Type_ : bytes; ApiAccountAuthenticator_Config : bytes; ApiAccountAuthenticator_unknownFields : bytes }.
Definition AccountAuthenticator_size (x : ApiAccountAuthenticator) : Z :=
  (if negb ((ApiAccountAuthenticator_Id x) =? 0) then 1 + Sov (u64 (ApiAccountAuthenticator_Id x)) else 0) +
  (if 0 <? blen (ApiAccountAuthenticator_Type_ x) then size_len (blen (ApiAccountAuthenticator_Type_ x)) else 0) +
  (if 0 <? blen (ApiAccountAuthenticator_Config x) then size_len (blen (ApiAccountAuthenticator_Config x)) else 0) +
  size_unknown (ApiAccountAuthenticator_unknownFields x).
Definition AccountAuthenticator_marshal (x : ApiAccountAuthenticator) : writer :=
  wunknown (ApiAccountAuthenticator_unknownFields x) ;>
  wif (0 <? blen (ApiAccountAuthenticator_Config x)) (wlen Byte.x1a (ApiAccountAuthenticator_Config x)) ;>
  wif (0 <? blen (ApiAccountAuthenticator_Type_ x)) (wlen Byte.x12 (ApiAccountAuthenticator_Type_ x)) ;>
  wif (negb ((ApiAccountAuthenticator_Id x) =? 0)) (wvarint (u64 (ApiAccountAuthenticator_Id x)) ;> wbyte Byte.x08).
Definition AccountAuthenticator_cases (discard : bool) (fieldNum : Z) : option (action ApiAccountAuthenticator) :=
  match fieldNum with
  | 1 => Some (case_varint u64 (fun v m => (MkApiAccountAuthenticator v (ApiAccountAuthenticator_Type_ m) (ApiAccountAuthenticator_Config m) (ApiAccountAuthenticator_unknownFields m))))
  | 2 => Some (case_string (fun v m => (MkApiAccountAuthenticator (ApiAccountAuthenticator_Id m) v (ApiAccountAuthenticator_Config m) (ApiAccountAuthenticator_unknownFields m))))
  | 3 => Some (case_bytes (fun v m => (MkApiAccountAuthenticator (ApiAccountAuthenticator_Id m) (ApiAccountAuthenticator_Type_ m) v (ApiAccountAuthenticator_unknownFields m))))
  | _ => None
  end.
Definition AccountAuthenticator_switch (discard : bool) : switch ApiAccountAuthenticator :=
  keeping discard ApiAccountAuthenticator_unknownFields (fun v m => (MkApiAccountAuthenticator (ApiAccountAuthenticator_Id m) (ApiAccountAuthenticator_Type_ m) (ApiAccountAuthenticator_Config m) v)) (AccountAuthenticator_cases discard).
#[global] Instance asa_AccountAuthenticator_msg : PulsarMsg ApiAccountAuthenticator := {|
  pSize := AccountAuthenticator_size; pWrite := AccountAuthenticator_marshal; pUnmarshal := fun discard => unmarshal_with (AccountAuthenticator_switch discard); pZero := MkApiAccountAuthenticator 0 [] [] [] |}.
#[global] Instance asa_AccountAuthenticator_ok : WireOk ApiAccountAuthenticator := fun m => is_u64 (ApiAccountAuthenticator_Id m).
#[global] Instance asa_AccountAuthenticator_full : WireFull ApiAccountAuthenticator := fun m => unknown_ok (AccountAuthenticator_cases false) (ApiAccountAuthenticator_unknownFields m).
#[global] Instance asa_AccountAuthenticator_laws : PulsarLaws ApiAccountAuthenticator.
Proof. pulsar_laws AccountAuthenticator_switch AccountAuthenticator_cases AccountAuthenticator_marshal. Qed.
#[global] Instance asa_AccountAuthenticator_to_api : ToApi AccountAuthenticator ApiAccountAuthenticator := fun a => MkApiAccountAuthenticator (aa_Id a) (aa_Type a) (aa_Config a) [].
#[global] Instance asa_AccountAuthenticator_api : ApiLaws AccountAuthenticator ApiAccountAuthenticator.
Proof. api_laws AccountAuthenticator_switch AccountAuthenticator_marshal. Qed.

(** [Params]. *)
Record ApiParams := MkApiParams { ApiParams_MaximumUnauthenticatedGas : Z; ApiParams_IsSmartAccountActive : bool; ApiParams_CircuitBreakerControllers : list bytes; ApiParams_unknownFields : bytes }.
Definition Params_size (x : ApiParams) : Z :=
  (if negb ((ApiParams_MaximumUnauthenticatedGas x) =? 0) then 1 + Sov (u64 (ApiParams_MaximumUnauthenticatedGas x)) else 0) +
  (if (ApiParams_IsSmartAccountActive x) then 2 else 0) +
  (if 0 <? Z.of_nat (length (ApiParams_CircuitBreakerControllers x)) then size_each (fun s => size_len (blen s)) (ApiParams_CircuitBreakerControllers x) else 0) +
  size_unknown (ApiParams_unknownFields x).
Definition Params_marshal (x : ApiParams) : writer :=
  wunknown (ApiParams_unknownFields x) ;>
  wif (0 <? Z.of_nat (length (ApiParams_CircuitBreakerControllers x))) (wdown (ApiParams_CircuitBreakerControllers x) (wlen Byte.x1a)) ;>
  wif (ApiParams_IsSmartAccountActive x) (wbool (ApiParams_IsSmartAccountActive x) ;> wbyte Byte.x10) ;>
  wif (negb ((ApiParams_MaximumUnauthenticatedGas x) =? 0)) (wvarint (u64 (ApiParams_MaximumUnauthenticatedGas x)) ;> wbyte Byte.x08).
Definition Params_cases (discard : bool) (fieldNum : Z) : option (action ApiParams) :=
  match fieldNum with
  | 1 => Some (case_varint u64 (fun v m => (MkApiParams v (ApiParams_IsSmartAccountActive m) (ApiParams_CircuitBreakerControllers m) (ApiParams_unknownFields m))))
  | 2 => Some (case_bool (fun v m => (MkApiParams (ApiParams_MaximumUnauthenticatedGas m) v (ApiParams_CircuitBreakerControllers m) (ApiParams_unknownFields m))))
  | 3 => Some (case_strings ApiParams_CircuitBreakerControllers (fun v m => (MkApiParams (ApiParams_MaximumUnauthenticatedGas m) (ApiParams_IsSmartAccountActive m) v (ApiParams_unknownFields m))))
  | _ => None
  end.
Definition Params_switch (discard : bool) : switch ApiParams :=
  keeping discard ApiParams_unknownFields (fun v m => (MkApiParams (ApiParams_MaximumUnauthenticatedGas m) (ApiParams_IsSmartAccountActive m) (ApiParams_CircuitBreakerControllers m) v)) (Params_cases discard).
#[global] Instance asa_Params_msg : PulsarMsg ApiParams := {|
  pSize := Params_size; pWrite := Params_marshal; pUnmarshal := fun discard => unmarshal_with (Params_switch discard); pZero := MkApiParams 0 false [] [] |}.
#[global] Instance asa_Params_ok : WireOk ApiParams := fun m => is_u64 (ApiParams_MaximumUnauthenticatedGas m).
#[global] Instance asa_Params_full : WireFull ApiParams := fun m => unknown_ok (Params_cases false) (ApiParams_unknownFields m).
#[global] Instance asa_Params_laws : PulsarLaws ApiParams.
Proof. pulsar_laws Params_switch Params_cases Params_marshal. Qed.
#[global] Instance asa_Params_to_api : ToApi SaParams ApiParams := fun a => MkApiParams (MaximumUnauthenticatedGas a) (IsSmartAccountActive a) (CircuitBreakerControllers a) [].
#[global] Instance asa_Params_api : ApiLaws SaParams ApiParams.
Proof. api_laws Params_switch Params_marshal. Qed.

(** [AuthenticatorData]. *)
Record ApiAuthenticatorData := MkApiAuthenticatorData { ApiAuthenticatorData_Address : bytes; ApiAuthenticatorData_Authenticators : list (option ApiAccountAuthenticator); ApiAuthenticatorData_unknownFields : bytes }.
Definition AuthenticatorData_size (x : ApiAuthenticatorData) : Z :=
  (if 0 <? blen (ApiAuthenticatorData_Address x) then size_len (blen (ApiAuthenticatorData_Address x)) else 0) +
  (if 0 <? Z.of_nat (length (ApiAuthenticatorData_Authenticators x)) then size_each (fun e => size_len (pSize_ptr e)) (ApiAuthenticatorData_Authenticators x) else 0) +
  size_unknown (ApiAuthenticatorData_unknownFields x).
Definition AuthenticatorData_marshal (x : ApiAuthenticatorData) : writer :=
  wunknown (ApiAuthenticatorData_unknownFields x) ;>
  wif (0 <? Z.of_nat (length (ApiAuthenticatorData_Authenticators x))) (wdown (ApiAuthenticatorData_Authenticators x) (wenc Byte.x12)) ;>
  wif (0 <? blen (ApiAuthenticatorData_Address x)) (wlen Byte.x0a (ApiAuthenticatorData_Address x)).
Definition AuthenticatorData_cases (discard : bool) (fieldNum : Z) : option (action ApiAuthenticatorData) :=
  match fieldNum with
  | 1 => Some (case_string (fun v m => (MkApiAuthenticatorData v (ApiAuthenticatorData_Authenticators m) (ApiAuthenticatorData_unknownFields m))))
  | 2 => Some (pcase_rep discard ApiAuthenticatorData_Authenticators (fun v m => (MkApiAuthenticatorData (ApiAuthenticatorData_Address m) v (ApiAuthenticatorData_unknownFields m))))
  | _ => None
  end.
Definition AuthenticatorData_switch (discard : bool) : switch ApiAuthenticatorData :=
  keeping discard ApiAuthenticatorData_unknownFields (fun v m => (MkApiAuthenticatorData (ApiAuthenticatorData_Address m) (ApiAuthenticatorData_Authenticators m) v)) (AuthenticatorData_cases discard).
#[global] Instance asa_AuthenticatorData_msg : PulsarMsg ApiAuthenticatorData := {|
  pSize := AuthenticatorData_size; pWrite := AuthenticatorData_marshal; pUnmarshal := fun discard => unmarshal_with (AuthenticatorData_switch discard); pZero := MkApiAuthenticatorData [] [] [] |}.
#[global] Instance asa_AuthenticatorData_ok : WireOk ApiAuthenticatorData := fun m => Forall (ptr wire_ok) (ApiAuthenticatorData_Authenticators m).
#[global] Instance asa_AuthenticatorData_full : WireFull ApiAuthenticatorData := fun m => unknown_ok (AuthenticatorData_cases false) (ApiAuthenticatorData_unknownFields m) /\ Forall (ptr wire_full) (ApiAuthenticatorData_Authenticators m).
#[global] Instance asa_AuthenticatorData_laws : PulsarLaws ApiAuthenticatorData.
Proof. pulsar_laws AuthenticatorData_switch AuthenticatorData_cases AuthenticatorData_marshal. Qed.
#[global] Instance asa_AuthenticatorData_to_api : ToApi AuthenticatorData ApiAuthenticatorData := fun a => MkApiAuthenticatorData (ad_Address a) (map (fun e => Some (to_api e)) (ad_Authenticators a)) [].
#[global] Instance asa_AuthenticatorData_api : ApiLaws AuthenticatorData ApiAuthenticatorData.
Proof. api_laws AuthenticatorData_switch AuthenticatorData_marshal. Qed.

(** [GenesisState]. *)
Record ApiGenesisState := MkApiGenesisState { ApiGenesisState_Params : option ApiParams; ApiGenesisState_NextAuthenticatorId : Z; ApiGenesisState_AuthenticatorData : list (option ApiAuthenticatorData); ApiGenesisState_unknownFields : bytes }.
Definition GenesisState_size (x : ApiGenesisState) : Z :=
  (match (ApiGenesisState_Params x) with Some y => size_len (pSize y) | None => 0 end) +
  (if negb ((ApiGenesisState_NextAuthenticatorId x) =? 0) then 1 + Sov (u64 (ApiGenesisState_NextAuthenticatorId x)) else 0) +
  (if 0 <? Z.of_nat (length (ApiGenesisState_AuthenticatorData x)) then size_each (fun e => size_len (pSize_ptr e)) (ApiGenesisState_AuthenticatorData x) else 0) +
  size_unknown (ApiGenesisState_unknownFields x).
Definition GenesisState_marshal (x : ApiGenesisState) : writer :=
  wunknown (ApiGenesisState_unknownFields x) ;>
  wif (0 <? Z.of_nat (length (ApiGenesisState_AuthenticatorData x))) (wdown (ApiGenesisState_AuthenticatorData x) (wenc Byte.x1a)) ;>
  wif (negb ((ApiGenesisState_NextAuthenticatorId x) =? 0)) (wvarint (u64 (ApiGenesisState_NextAuthenticatorId x)) ;> wbyte Byte.x10) ;>
  (match (ApiGenesisState_Params x) with Some y => wenc Byte.x0a (Some y) | None => wskip end).
Definition GenesisState_cases (discard : bool) (fieldNum : Z) : option (action ApiGenesisState) :=
  match fieldNum with
  | 1 => Some (pcase_ptr discard ApiGenesisState_Params (fun v m => (MkApiGenesisState v (ApiGenesisState_NextAuthenticatorId m) (ApiGenesisState_AuthenticatorData m) (ApiGenesisState_unknownFields m))))
  | 2 => Some (case_varint u64 (fun v m => (MkApiGenesisState (ApiGenesisState_Params m) v (ApiGenesisState_AuthenticatorData m) (ApiGenesisState_unknownFields m))))
  | 3 => Some (pcase_rep discard ApiGenesisState_AuthenticatorData (fun v m => (MkApiGenesisState (ApiGenesisState_Params m) (ApiGenesisState_NextAuthenticatorId m) v (ApiGenesisState_unknownFields m))))
  | _ => None
  end.
Definition GenesisState_switch (discard : bool) : switch ApiGenesisState :=
  keeping discard ApiGenesisState_unknownFields (fun v m => (MkApiGenesisState (ApiGenesisState_Params m) (ApiGenesisState_NextAuthenticatorId m) (ApiGenesisState_AuthenticatorData m) v)) (GenesisState_cases discard).
#[global] Instance asa_GenesisState_msg : PulsarMsg ApiGenesisState := {|
  pSize := GenesisState_size; pWrite := GenesisState_marshal; pUnmarshal := fun discard => unmarshal_with (GenesisState_switch discard); pZero := MkApiGenesisState None 0 [] [] |}.
#[global] Instance asa_GenesisState_ok : WireOk ApiGenesisState := fun m => opt_ok (ApiGenesisState_Params m) /\ is_u64 (ApiGenesisState_NextAuthenticatorId m) /\ Forall (ptr wire_ok) (ApiGenesisState_AuthenticatorData m).
#[global] Instance asa_GenesisState_full : WireFull ApiGenesisState := fun m => unknown_ok (GenesisState_cases false) (ApiGenesisState_unknownFields m) /\ opt_full (ApiGenesisState_Params m) /\ Forall (ptr wire_full) (ApiGenesisState_AuthenticatorData m).
#[global] Instance asa_GenesisState_laws : PulsarLaws ApiGenesisState.
Proof. pulsar_laws GenesisState_switch GenesisState_cases GenesisState_marshal. Qed.
#[global] Instance asa_GenesisState_to_api : ToApi SaGenesis ApiGenesisState := fun a => MkApiGenesisState (Some (to_api (gs_Params a))) (gs_NextAuthenticatorId a) (map (fun e => Some (to_api e)) (gs_AuthenticatorData a)) [].
#[global] Instance asa_GenesisState_api : ApiLaws SaGenesis ApiGenesisState.
Proof. api_laws GenesisState_switch GenesisState_marshal. Qed.

(** [MsgAddAuthenticator]. *)
Record ApiMsgAddAuthenticator := MkApiMsgAddAuthenticator { ApiMsgAddAuthenticator_Sender : bytes; ApiMsgAddAuthenticator_AuthenticatorType : bytes; ApiMsgAddAuthenticator_Data : bytes; ApiMsgAddAuthenticator_unknownFields : bytes }.
Definition MsgAddAuthenticator_size (x : ApiMsgAddAuthenticator) : Z :=
  (if 0 <? blen (ApiMsgAddAuthenticator_Sender x) then size_len (blen (ApiMsgAddAuthenticator_Sender x)) else 0) +
  (if 0 <? blen (ApiMsgAddAuthenticator_AuthenticatorType x) then size_len (blen (ApiMsgAddAuthenticator_AuthenticatorType x)) else 0) +
  (if 0 <? blen (ApiMsgAddAuthenticator_Data x) then size_len (blen (ApiMsgAddAuthenticator_Data x)) else 0) +
  size_unknown (ApiMsgAddAuthenticator_unknownFields x).
Definition MsgAddAuthenticator_marshal (x : ApiMsgAddAuthenticator) : writer :=
  wunknown (ApiMsgAddAuthenticator_unknownFields x) ;>
  wif (0 <? blen (ApiMsgAddAuthenticator_Data x)) (wlen Byte.x1a (ApiMsgAddAuthenticator_Data x)) ;>
  wif (0 <? blen (ApiMsgAddAuthenticator_AuthenticatorType x)) (wlen Byte.x12 (ApiMsgAddAuthenticator_AuthenticatorType x)) ;>
  wif (0 <? blen (ApiMsgAddAuthenticator_Sender x)) (wlen Byte.x0a (ApiMsgAddAuthenticator_Sender x)).
Definition MsgAddAuthenticator_cases (discard : bool) (fieldNum : Z) : option (action ApiMsgAddAuthenticator) :=
  match fieldNum with
  | 1 => Some (case_string (fun v m => (MkApiMsgAddAuthenticator v (ApiMsgAddAuthenticator_AuthenticatorType m) (ApiMsgAddAuthenticator_Data m) (ApiMsgAddAuthenticator_unknownFields m))))
  | 2 => Some (case_string (fun v m => (MkApiMsgAddAuthenticator (ApiMsgAddAuthenticator_Sender m) v (ApiMsgAddAuthenticator_Data m) (ApiMsgAddAuthenticator_unknownFields m))))
  | 3 => Some (case_bytes (fun v m => (MkApiMsgAddAuthenticator (ApiMsgAddAuthenticator_Sender m) (ApiMsgAddAuthenticator_AuthenticatorType m) v (ApiMsgAddAuthenticator_unknownFields m))))
  | _ => None
  end.
Definition MsgAddAuthenticator_switch (discard : bool) : switch ApiMsgAddAuthenticator :=
  keeping discard ApiMsgAddAuthenticator_unknownFields (fun v m => (MkApiMsgAddAuthenticator (ApiMsgAddAuthenticator_Sender m) (ApiMsgAddAuthenticator_AuthenticatorType m) (ApiMsgAddAuthenticator_Data m) v)) (MsgAddAuthenticator_cases discard).
#[global] Instance asa_MsgAddAuthenticator_msg : PulsarMsg ApiMsgAddAuthenticator := {|
  pSize := MsgAddAuthenticator_size; pWrite := MsgAddAuthenticator_marshal; pUnmarshal := fun discard => unmarshal_with (MsgAddAuthenticator_switch discard); pZero := MkApiMsgAddAuthenticator [] [] [] [] |}.
#[global] Instance asa_MsgAddAuthenticator_ok : WireOk ApiMsgAddAuthenticator := fun m => True.
#[global] Instance asa_MsgAddAuthenticator_full : WireFull ApiMsgAddAuthenticator := fun m => unknown_ok (MsgAddAuthenticator_cases false) (ApiMsgAddAuthenticator_unknownFields m).
#[global] Instance asa_MsgAddAuthenticator_laws : PulsarLaws ApiMsgAddAuthenticator.
Proof. pulsar_laws MsgAddAuthenticator_switch MsgAddAuthenticator_cases MsgAddAuthenticator_marshal. Qed.
#[global] Instance asa_MsgAddAuthenticator_to_api : ToApi MsgAddAuthenticator ApiMsgAddAuthenticator := fun a => MkApiMsgAddAuthenticator (MsgAddAuthenticator_Sender a) (MsgAddAuthenticator_AuthenticatorType a) (MsgAddAuthenticator_Data a) [].
#[global] Instance asa_MsgAddAuthenticator_api : ApiLaws MsgAddAuthenticator ApiMsgAddAuthenticator.
Proof. api_laws MsgAddAuthenticator_switch MsgAddAuthenticator_marshal. Qed.

(** [MsgAddAuthenticatorResponse]. *)
Record ApiMsgAddAuthenticatorResponse := MkApiMsgAddAuthenticatorResponse { ApiMsgAddAuthenticatorResponse_Success : bool; ApiMsgAddAuthenticatorResponse_unknownFields : bytes }.
Definition MsgAddAuthenticatorResponse_size (x : ApiMsgAddAuthenticatorResponse) : Z :=
  (if (ApiMsgAddAuthenticatorResponse_Success x) then 2 else 0) +
  size_unknown (ApiMsgAddAuthenticatorResponse_unknownFields x).
Definition MsgAddAuthenticatorResponse_marshal (x : ApiMsgAddAuthenticatorResponse) : writer :=
  wunknown (ApiMsgAddAuthenticatorResponse_unknownFields x) ;>
  wif (ApiMsgAddAuthenticatorResponse_Success x) (wbool (ApiMsgAddAuthenticatorResponse_Success x) ;> wbyte Byte.x08).
Definition MsgAddAuthenticatorResponse_cases (discard : bool) (fieldNum : Z) : option (action ApiMsgAddAuthenticatorResponse) :=
  match fieldNum with
  | 1 => Some (case_bool (fun v m => (MkApiMsgAddAuthenticatorResponse v (ApiMsgAddAuthenticatorResponse_unknownFields m))))
  | _ => None
  end.
Definition MsgAddAuthenticatorResponse_switch (discard : bool) : switch ApiMsgAddAuthenticatorResponse :=
  keeping discard ApiMsgAddAuthenticatorResponse_unknownFields (fun v m => (MkApiMsgAddAuthenticatorResponse (ApiMsgAddAuthenticatorResponse_Success m) v)) (MsgAddAuthenticatorResponse_cases discard).
#[global] Instance asa_MsgAddAuthenticatorResponse_msg : PulsarMsg ApiMsgAddAuthenticatorResponse := {|
  pSize := MsgAddAuthenticatorResponse_size; pWrite := MsgAddAuthenticatorResponse_marshal; pUnmarshal := fun discard => unmarshal_with (MsgAddAuthenticatorResponse_switch discard); pZero := MkApiMsgAddAuthenticatorResponse false [] |}.
#[global] Instance asa_MsgAddAuthenticatorResponse_ok : WireOk ApiMsgAddAuthenticatorResponse := fun m => True.
#[global] Instance asa_MsgAddAuthenticatorResponse_full : WireFull ApiMsgAddAuthenticatorResponse := fun m => unknown_ok (MsgAddAuthenticatorResponse_cases false) (ApiMsgAddAuthenticatorResponse_unknownFields m).
#[global] Instance asa_MsgAddAuthenticatorResponse_laws : PulsarLaws ApiMsgAddAuthenticatorResponse.
Proof. pulsar_laws MsgAddAuthenticatorResponse_switch MsgAddAuthenticatorResponse_cases MsgAddAuthenticatorResponse_marshal. Qed.
#[global] Instance asa_MsgAddAuthenticatorResponse_to_api : ToApi MsgAddAuthenticatorResponse ApiMsgAddAuthenticatorResponse := fun a => MkApiMsgAddAuthenticatorResponse (MsgAddAuthenticatorResponse_Success a) [].
#[global] Instance asa_MsgAddAuthenticatorResponse_api : ApiLaws MsgAddAuthenticatorResponse ApiMsgAddAuthenticatorResponse.
Proof. api_laws MsgAddAuthenticatorResponse_switch MsgAddAuthenticatorResponse_marshal. Qed.

(** [MsgRemoveAuthenticator]. *)
Record ApiMsgRemoveAuthenticator := MkApiMsgRemoveAuthenticator { ApiMsgRemoveAuthenticator_Sender : bytes; ApiMsgRemoveAuthenticator_Id : Z; ApiMsgRemoveAuthenticator_unknownFields : bytes }.
Definition MsgRemoveAuthenticator_size (x : ApiMsgRemoveAuthenticator) : Z :=
  (if 0 <? blen (ApiMsgRemoveAuthenticator_Sender x) then size_len (blen (ApiMsgRemoveAuthenticator_Sender x)) else 0) +
  (if negb ((ApiMsgRemoveAuthenticator_Id x) =? 0) then 1 + Sov (u64 (ApiMsgRemoveAuthenticator_Id x)) else 0) +
  size_unknown (ApiMsgRemoveAuthenticator_unknownFields x).
Definition MsgRemoveAuthenticator_marshal (x : ApiMsgRemoveAuthenticator) : writer :=
  wunknown (ApiMsgRemoveAuthenticator_unknownFields x) ;>
  wif (negb ((ApiMsgRemoveAuthenticator_Id x) =? 0)) (wvarint (u64 (ApiMsgRemoveAuthenticator_Id x)) ;> wbyte Byte.x10) ;>
  wif (0 <? blen (ApiMsgRemoveAuthenticator_Sender x)) (wlen Byte.x0a (ApiMsgRemoveAuthenticator_Sender x)).
Definition MsgRemoveAuthenticator_cases (discard : bool) (fieldNum : Z) : option (action ApiMsgRemoveAuthenticator) :=
  match fieldNum with
  | 1 => Some (case_string (fun v m => (MkApiMsgRemoveAuthenticator v (ApiMsgRemoveAuthenticator_Id m) (ApiMsgRemoveAuthenticator_unknownFields m))))
  | 2 => Some (case_varint u64 (fun v m => (MkApiMsgRemoveAuthenticator (ApiMsgRemoveAuthenticator_Sender m) v (ApiMsgRemoveAuthenticator_unknownFields m))))
  | _ => None
  end.
Definition MsgRemoveAuthenticator_switch (discard : bool) : switch ApiMsgRemoveAuthenticator :=
  keeping discard ApiMsgRemoveAuthenticator_unknownFields (fun v m => (MkApiMsgRemoveAuthenticator (ApiMsgRemoveAuthenticator_Sender m) (ApiMsgRemoveAuthenticator_Id m) v)) (MsgRemoveAuthenticator_cases discard).
#[global] Instance asa_MsgRemoveAuthenticator_msg : PulsarMsg ApiMsgRemoveAuthenticator := {|
  pSize := MsgRemoveAuthenticator_size; pWrite := MsgRemoveAuthenticator_marshal; pUnmarshal := fun discard => unmarshal_with (MsgRemoveAuthenticator_switch discard); pZero := MkApiMsgRemoveAuthenticator [] 0 [] |}.
#[global] Instance asa_MsgRemoveAuthenticator_ok : WireOk ApiMsgRemoveAuthenticator := fun m => is_u64 (ApiMsgRemoveAuthenticator_Id m).
#[global] Instance asa_MsgRemoveAuthenticator_full : WireFull ApiMsgRemoveAuthenticator := fun m => unknown_ok (MsgRemoveAuthenticator_cases false) (ApiMsgRemoveAuthenticator_unknownFields m).
#[global] Instance asa_MsgRemoveAuthenticator_laws : PulsarLaws ApiMsgRemoveAuthenticator.
Proof. pulsar_laws MsgRemoveAuthenticator_switch MsgRemoveAuthenticator_cases MsgRemoveAuthenticator_marshal. Qed.
#[global] Instance asa_MsgRemoveAuthenticator_to_api : ToApi MsgRemoveAuthenticator ApiMsgRemoveAuthenticator := fun a => MkApiMsgRemoveAuthenticator (MsgRemoveAuthenticator_Sender a) (MsgRemoveAuthenticator_Id a) [].
#[global] Instance asa_MsgRemoveAuthenticator_api : ApiLaws MsgRemoveAuthenticator ApiMsgRemoveAuthenticator.
Proof. api_laws MsgRemoveAuthenticator_switch MsgRemoveAuthenticator_marshal. Qed.

(** [MsgRemoveAuthenticatorResponse]. *)
Record ApiMsgRemoveAuthenticatorResponse := MkApiMsgRemoveAuthenticatorResponse { ApiMsgRemoveAuthenticatorResponse_Success : bool; ApiMsgRemoveAuthenticatorResponse_unknownFields : bytes }.
Definition MsgRemoveAuthenticatorResponse_size (x : ApiMsgRemoveAuthenticatorResponse) : Z :=
  (if (ApiMsgRemoveAuthenticatorResponse_Success x) then 2 else 0) +
  size_unknown (ApiMsgRemoveAuthenticatorResponse_unknownFields x).
Definition MsgRemoveAuthenticatorResponse_marshal (x : ApiMsgRemoveAuthenticatorResponse) : writer :=
  wunknown (ApiMsgRemoveAuthenticatorResponse_unknownFields x) ;>
  wif (ApiMsgRemoveAuthenticatorResponse_Success x) (wbool (ApiMsgRemoveAuthenticatorResponse_Success x) ;> wbyte Byte.x08).
Definition MsgRemoveAuthenticatorResponse_cases (discard : bool) (fieldNum : Z) : option (action ApiMsgRemoveAuthenticatorResponse) :=
  match fieldNum with
  | 1 => Some (case_bool (fun v m => (MkApiMsgRemoveAuthenticatorResponse v (ApiMsgRemoveAuthenticatorResponse_unknownFields m))))
  | _ => None
  end.
Definition MsgRemoveAuthenticatorResponse_switch (discard : bool) : switch ApiMsgRemoveAuthenticatorResponse :=
  keeping discard ApiMsgRemoveAuthenticatorResponse_unknownFields (fun v m => (MkApiMsgRemoveAuthenticatorResponse (ApiMsgRemoveAuthenticatorResponse_Success m) v)) (MsgRemoveAuthenticatorResponse_cases discard).
#[global] Instance asa_MsgRemoveAuthenticatorResponse_msg : PulsarMsg ApiMsgRemoveAuthenticatorResponse := {|
  pSize := MsgRemoveAuthenticatorResponse_size; pWrite := MsgRemoveAuthenticatorResponse_marshal; pUnmarshal := fun discard => unmarshal_with (MsgRemoveAuthenticatorResponse_switch discard); pZero := MkApiMsgRemoveAuthenticatorResponse false [] |}.
#[global] Instance asa_MsgRemoveAuthenticatorResponse_ok : WireOk ApiMsgRemoveAuthenticatorResponse := fun m => True.
#[global] Instance asa_MsgRemoveAuthenticatorResponse_full : WireFull ApiMsgRemoveAuthenticatorResponse := fun m => unknown_ok (MsgRemoveAuthenticatorResponse_cases false) (ApiMsgRemoveAuthenticatorResponse_unknownFields m).
#[global] Instance asa_MsgRemoveAuthenticatorResponse_laws : PulsarLaws ApiMsgRemoveAuthenticatorResponse.
Proof. pulsar_laws MsgRemoveAuthenticatorResponse_switch MsgRemoveAuthenticatorResponse_cases MsgRemoveAuthenticatorResponse_marshal. Qed.
#[global] Instance asa_MsgRemoveAuthenticatorResponse_to_api : ToApi MsgRemoveAuthenticatorResponse ApiMsgRemoveAuthenticatorResponse := fun a => MkApiMsgRemoveAuthenticatorResponse (MsgRemoveAuthenticatorResponse_Success a) [].
#[global] Instance asa_MsgRemoveAuthenticatorResponse_api : ApiLaws MsgRemoveAuthenticatorResponse ApiMsgRemoveAuthenticatorResponse.
Proof. api_laws MsgRemoveAuthenticatorResponse_switch MsgRemoveAuthenticatorResponse_marshal. Qed.

(** [MsgSetActiveState]. *)
Record ApiMsgSetActiveState := MkApiMsgSetActiveState { ApiMsgSetActiveState_Sender : bytes; ApiMsgSetActiveState_Active : bool; ApiMsgSetActiveState_unknownFields : bytes }.
Definition MsgSetActiveState_size (x : ApiMsgSetActiveState) : Z :=
  (if 0 <? blen (ApiMsgSetActiveState_Sender x) then size_len (blen (ApiMsgSetActiveState_Sender x)) else 0) +
  (if (ApiMsgSetActiveState_Active x) then 2 else 0) +
  size_unknown (ApiMsgSetActiveState_unknownFields x).
Definition MsgSetActiveState_marshal (x : ApiMsgSetActiveState) : writer :=
  wunknown (ApiMsgSetActiveState_unknownFields x) ;>
  wif (ApiMsgSetActiveState_Active x) (wbool (ApiMsgSetActiveState_Active x) ;> wbyte Byte.x10) ;>
  wif (0 <? blen (ApiMsgSetActiveState_Sender x)) (wlen Byte.x0a (ApiMsgSetActiveState_Sender x)).
Definition MsgSetActiveState_cases (discard : bool) (fieldNum : Z) : option (action ApiMsgSetActiveState) :=
  match fieldNum with
  | 1 => Some (case_string (fun v m => (MkApiMsgSetActiveState v (ApiMsgSetActiveState_Active m) (ApiMsgSetActiveState_unknownFields m))))
  | 2 => Some (case_bool (fun v m => (MkApiMsgSetActiveState (ApiMsgSetActiveState_Sender m) v (ApiMsgSetActiveState_unknownFields m))))
  | _ => None
  end.
Definition MsgSetActiveState_switch (discard : bool) : switch ApiMsgSetActiveState :=
  keeping discard ApiMsgSetActiveState_unknownFields (fun v m => (MkApiMsgSetActiveState (ApiMsgSetActiveState_Sender m) (ApiMsgSetActiveState_Active m) v)) (MsgSetActiveState_cases discard).
#[global] Instance asa_MsgSetActiveState_msg : PulsarMsg ApiMsgSetActiveState := {|
  pSize := MsgSetActiveState_size; pWrite := MsgSetActiveState_marshal; pUnmarshal := fun discard => unmarshal_with (MsgSetActiveState_switch discard); pZero := MkApiMsgSetActiveState [] false [] |}.
#[global] Instance asa_MsgSetActiveState_ok : WireOk ApiMsgSetActiveState := fun m => True.
#[global] Instance asa_MsgSetActiveState_full : WireFull ApiMsgSetActiveState := fun m => unknown_ok (MsgSetActiveState_cases false) (ApiMsgSetActiveState_unknownFields m).
#[global] Instance asa_MsgSetActiveState_laws : PulsarLaws ApiMsgSetActiveState.
Proof. pulsar_laws MsgSetActiveState_switch MsgSetActiveState_cases MsgSetActiveState_marshal. Qed.
#[global] Instance asa_MsgSetActiveState_to_api : ToApi MsgSetActiveState ApiMsgSetActiveState := fun a => MkApiMsgSetActiveState (MsgSetActiveState_Sender a) (MsgSetActiveState_Active a) [].
#[global] Instance asa_MsgSetActiveState_api : ApiLaws MsgSetActiveState ApiMsgSetActiveState.
Proof. api_laws MsgSetActiveState_switch MsgSetActiveState_marshal. Qed.

(** [AgAuthData]. *)
Record ApiAgAuthData := MkApiAgAuthData { ApiAgAuthData_Data : bytes; ApiAgAuthData_unknownFields : bytes }.
Definition AgAuthData_size (x : ApiAgAuthData) : Z :=
  (if 0 <? blen (ApiAgAuthData_Data x) then size_len (blen (ApiAgAuthData_Data x)) else 0) +
  size_unknown (ApiAgAuthData_unknownFields x).
Definition AgAuthData_marshal (x : ApiAgAuthData) : writer :=
  wunknown (ApiAgAuthData_unknownFields x) ;>
  wif (0 <? blen (ApiAgAuthData_Data x)) (wlen Byte.x0a (ApiAgAuthData_Data x)).
Definition AgAuthData_cases (discard : bool) (fieldNum : Z) : option (action ApiAgAuthData) :=
  match fieldNum with
  | 1 => Some (case_bytes (fun v m => (MkApiAgAuthData v (ApiAgAuthData_unknownFields m))))
  | _ => None
  end.
Definition AgAuthData_switch (discard : bool) : switch ApiAgAuthData :=
  keeping discard ApiAgAuthData_unknownFields (fun v m => (MkApiAgAuthData (ApiAgAuthData_Data m) v)) (AgAuthData_cases discard).
#[global] Instance asa_AgAuthData_msg : PulsarMsg ApiAgAuthData := {|
  pSize := AgAuthData_size; pWrite := AgAuthData_marshal; pUnmarshal := fun discard => unmarshal_with (AgAuthData_switch discard); pZero := MkApiAgAuthData [] [] |}.
#[global] Instance asa_AgAuthData_ok : WireOk ApiAgAuthData := fun m => True.
#[global] Instance asa_AgAuthData_full : WireFull ApiAgAuthData := fun m => unknown_ok (AgAuthData_cases false) (ApiAgAuthData_unknownFields m).
#[global] Instance asa_AgAuthData_laws : PulsarLaws ApiAgAuthData.
Proof. pulsar_laws AgAuthData_switch AgAuthData_cases AgAuthData_marshal. Qed.
#[global] Instance asa_AgAuthData_to_api : ToApi AgAuthData ApiAgAuthData := fun a => MkApiAgAuthData (AgAuthData_Data a) [].
#[global] Instance asa_AgAuthData_api : ApiLaws AgAuthData ApiAgAuthData.
Proof. api_laws AgAuthData_switch AgAuthData_marshal. Qed.

(** [TxExtension]. *)
Record ApiTxExtension := MkApiTxExtension { ApiTxExtension_SelectedAuthenticators : list Z; ApiTxExtension_AggAuth : option ApiAgAuthData; ApiTxExtension_unknownFields : bytes }.
Definition TxExtension_size (x : ApiTxExtension) : Z :=
  (if 0 <? Z.of_nat (length (ApiTxExtension_SelectedAuthenticators x)) then 1 + Sov (size_each Sov (ApiTxExtension_SelectedAuthenticators x)) + size_each Sov (ApiTxExtension_SelectedAuthenticators x) else 0) +
  (match (ApiTxExtension_AggAuth x) with Some y => size_len (pSize y) | None => 0 end) +
  size_unknown (ApiTxExtension_unknownFields x).
Definition TxExtension_marshal (x : ApiTxExtension) : writer :=
  wunknown (ApiTxExtension_unknownFields x) ;>
  (match (ApiTxExtension_AggAuth x) with Some y => wenc Byte.x12 (Some y) | None => wskip end) ;>
  wif (0 <? Z.of_nat (length (ApiTxExtension_SelectedAuthenticators x))) (wpacked_in (ApiTxExtension_SelectedAuthenticators x) ;> wbyte Byte.x0a).
Definition TxExtension_cases (discard : bool) (fieldNum : Z) : option (action ApiTxExtension) :=
  match fieldNum with
  | 1 => Some (case_packed_list ApiTxExtension_SelectedAuthenticators (fun v m => (MkApiTxExtension v (ApiTxExtension_AggAuth m) (ApiTxExtension_unknownFields m))))
  | 2 => Some (pcase_ptr discard ApiTxExtension_AggAuth (fun v m => (MkApiTxExtension (ApiTxExtension_SelectedAuthenticators m) v (ApiTxExtension_unknownFields m))))
  | _ => None
  end.
Definition TxExtension_switch (discard : bool) : switch ApiTxExtension :=
  keeping discard ApiTxExtension_unknownFields (fun v m => (MkApiTxExtension (ApiTxExtension_SelectedAuthenticators m) (ApiTxExtension_AggAuth m) v)) (TxExtension_cases discard).
#[global] Instance asa_TxExtension_msg : PulsarMsg ApiTxExtension := {|
  pSize := TxExtension_size; pWrite := TxExtension_marshal; pUnmarshal := fun discard => unmarshal_with (TxExtension_switch discard); pZero := MkApiTxExtension [] None [] |}.
#[global] Instance asa_TxExtension_ok : WireOk ApiTxExtension := fun m => Forall is_u64 (ApiTxExtension_SelectedAuthenticators m) /\ opt_ok (ApiTxExtension_AggAuth m).
#[global] Instance asa_TxExtension_full : WireFull ApiTxExtension := fun m => unknown_ok (TxExtension_cases false) (ApiTxExtension_unknownFields m) /\ opt_full (ApiTxExtension_AggAuth m).
#[global] Instance asa_TxExtension_laws : PulsarLaws ApiTxExtension.
Proof. pulsar_laws TxExtension_switch TxExtension_cases TxExtension_marshal. Qed.
#[global] Instance asa_TxExtension_to_api : ToApi TxExtension ApiTxExtension := fun a => MkApiTxExtension (TxExtension_SelectedAuthenticators a) (option_map to_api (TxExtension_AggAuth a)) [].
#[global] Instance asa_TxExtension_api : ApiLaws TxExtension ApiTxExtension.
Proof. api_laws TxExtension_switch TxExtension_marshal. Qed.

(** [BlsConfig]. *)
Record ApiBlsConfig := MkApiBlsConfig { ApiBlsConfig_Pubkeys : list bytes; ApiBlsConfig_Threshold : Z; ApiBlsConfig_unknownFields : bytes }.
Definition BlsConfig_size (x : ApiBlsConfig) : Z :=
  (if 0 <? Z.of_nat (length (ApiBlsConfig_Pubkeys x)) then size_each (fun s => size_len (blen s)) (ApiBlsConfig_Pubkeys x) else 0) +
  (if negb ((ApiBlsConfig_Threshold x) =? 0) then 1 + Sov (u64 (ApiBlsConfig_Threshold x)) else 0) +
  size_unknown (ApiBlsConfig_unknownFields x).
Definition BlsConfig_marshal (x : ApiBlsConfig) : writer :=
  wunknown (ApiBlsConfig_unknownFields x) ;>
  wif (negb ((ApiBlsConfig_Threshold x) =? 0)) (wvarint (u64 (ApiBlsConfig_Threshold x)) ;> wbyte Byte.x10) ;>
  wif (0 <? Z.of_nat (length (ApiBlsConfig_Pubkeys x))) (wdown (ApiBlsConfig_Pubkeys x) (wlen Byte.x0a)).
Definition BlsConfig_cases (discard : bool) (fieldNum : Z) : option (action ApiBlsConfig) :=
  match fieldNum with
  | 1 => Some (case_byteses ApiBlsConfig_Pubkeys (fun v m => (MkApiBlsConfig v (ApiBlsConfig_Threshold m) (ApiBlsConfig_unknownFields m))))
  | 2 => Some (case_varint u64 (fun v m => (MkApiBlsConfig (ApiBlsConfig_Pubkeys m) v (ApiBlsConfig_unknownFields m))))
  | _ => None
  end.
Definition BlsConfig_switch (discard : bool) : switch ApiBlsConfig :=
  keeping discard ApiBlsConfig_unknownFields (fun v m => (MkApiBlsConfig (ApiBlsConfig_Pubkeys m) (ApiBlsConfig_Threshold m) v)) (BlsConfig_cases discard).
#[global] Instance asa_BlsConfig_msg : PulsarMsg ApiBlsConfig := {|
  pSize := BlsConfig_size; pWrite := BlsConfig_marshal; pUnmarshal := fun discard => unmarshal_with (BlsConfig_switch discard); pZero := MkApiBlsConfig [] 0 [] |}.
#[global] Instance asa_BlsConfig_ok : WireOk ApiBlsConfig := fun m => is_u64 (ApiBlsConfig_Threshold m).
#[global] Instance asa_BlsConfig_full : WireFull ApiBlsConfig := fun m => unknown_ok (BlsConfig_cases false) (ApiBlsConfig_unknownFields m).
#[global] Instance asa_BlsConfig_laws : PulsarLaws ApiBlsConfig.
Proof. pulsar_laws BlsConfig_switch BlsConfig_cases BlsConfig_marshal. Qed.
#[global] Instance asa_BlsConfig_to_api : ToApi BlsConfig ApiBlsConfig := fun a => MkApiBlsConfig (BlsConfig_Pubkeys a) (BlsConfig_Threshold a) [].
#[global] Instance asa_BlsConfig_api : ApiLaws BlsConfig ApiBlsConfig.
Proof. api_laws BlsConfig_switch BlsConfig_marshal. Qed.

(** [QueryParamsResponse]. *)
Record ApiQueryParamsResponse := MkApiQueryParamsResponse { ApiQueryParamsResponse_Params : option ApiParams; ApiQueryParamsResponse_unknownFields : bytes }.
Definition QueryParamsResponse_size (x : ApiQueryParamsResponse) : Z :=
  (match (ApiQueryParamsResponse_Params x) with Some y => size_len (pSize y) | None => 0 end) +
  size_unknown (ApiQueryParamsResponse_unknownFields x).
Definition QueryParamsResponse_marshal (x : ApiQueryParamsResponse) : writer :=
  wunknown (ApiQueryParamsResponse_unknownFields x) ;>
  (match (ApiQueryParamsResponse_Params x) with Some y => wenc Byte.x0a (Some y) | None => wskip end).
Definition QueryParamsResponse_cases (discard : bool) (fieldNum : Z) : option (action ApiQueryParamsResponse) :=
  match fieldNum with
  | 1 => Some (pcase_ptr discard ApiQueryParamsResponse_Params (fun v m => (MkApiQueryParamsResponse v (ApiQueryParamsResponse_unknownFields m))))
  | _ => None
  end.
Definition QueryParamsResponse_switch (discard : bool) : switch ApiQueryParamsResponse :=
  keeping discard ApiQueryParamsResponse_unknownFields (fun v m => (MkApiQueryParamsResponse (ApiQueryParamsResponse_Params m) v)) (QueryParamsResponse_cases discard).
#[global] Instance asa_QueryParamsResponse_msg : PulsarMsg ApiQueryParamsResponse := {|
  pSize := QueryParamsResponse_size; pWrite := QueryParamsResponse_marshal; pUnmarshal := fun discard => unmarshal_with (QueryParamsResponse_switch discard); pZero := MkApiQueryParamsResponse None [] |}.
#[global] Instance asa_QueryParamsResponse_ok : WireOk ApiQueryParamsResponse := fun m => opt_ok (ApiQueryParamsResponse_Params m).
#[global] Instance asa_QueryParamsResponse_full : WireFull ApiQueryParamsResponse := fun m => unknown_ok (QueryParamsResponse_cases false) (ApiQueryParamsResponse_unknownFields m) /\ opt_full (ApiQueryParamsResponse_Params m).
#[global] Instance asa_QueryParamsResponse_laws : PulsarLaws ApiQueryParamsResponse.
Proof. pulsar_laws QueryParamsResponse_switch QueryParamsResponse_cases QueryParamsResponse_marshal. Qed.
#[global] Instance asa_QueryParamsResponse_to_api : ToApi QueryParamsResponse ApiQueryParamsResponse := fun a => MkApiQueryParamsResponse (Some (to_api (QueryParamsResponse_Params a))) [].
#[global] Instance asa_QueryParamsResponse_api : ApiLaws QueryParamsResponse ApiQueryParamsResponse.
Proof. api_laws QueryParamsResponse_switch QueryParamsResponse_marshal. Qed.

(** [GetAuthenticatorsRequest]. *)
Record ApiGetAuthenticatorsRequest := MkApiGetAuthenticatorsRequest { ApiGetAuthenticatorsRequest_Account : bytes; ApiGetAuthenticatorsRequest_unknownFields : bytes }.
Definition GetAuthenticatorsRequest_size (x : ApiGetAuthenticatorsRequest) : Z :=
  (if 0 <? blen (ApiGetAuthenticatorsRequest_Account x) then size_len (blen (ApiGetAuthenticatorsRequest_Account x)) else 0) +
  size_unknown (ApiGetAuthenticatorsRequest_unknownFields x).
Definition GetAuthenticatorsRequest_marshal (x : ApiGetAuthenticatorsRequest) : writer :=
  wunknown (ApiGetAuthenticatorsRequest_unknownFields x) ;>
  wif (0 <? blen (ApiGetAuthenticatorsRequest_Account x)) (wlen Byte.x0a (ApiGetAuthenticatorsRequest_Account x)).
Definition GetAuthenticatorsRequest_cases (discard : bool) (fieldNum : Z) : option (action ApiGetAuthenticatorsRequest) :=
  match fieldNum with
  | 1 => Some (case_string (fun v m => (MkApiGetAuthenticatorsRequest v (ApiGetAuthenticatorsRequest_unknownFields m))))
  | _ => None
  end.
Definition GetAuthenticatorsRequest_switch (discard : bool) : switch ApiGetAuthenticatorsRequest :=
  keeping discard ApiGetAuthenticatorsRequest_unknownFields (fun v m => (MkApiGetAuthenticatorsRequest (ApiGetAuthenticatorsRequest_Account m) v)) (GetAuthenticatorsRequest_cases discard).
#[global] Instance asa_GetAuthenticatorsRequest_msg : PulsarMsg ApiGetAuthenticatorsRequest := {|
  pSize := GetAuthenticatorsRequest_size; pWrite := GetAuthenticatorsRequest_marshal; pUnmarshal := fun discard => unmarshal_with (GetAuthenticatorsRequest_switch discard); pZero := MkApiGetAuthenticatorsRequest [] [] |}.
#[global] Instance asa_GetAuthenticatorsRequest_ok : WireOk ApiGetAuthenticatorsRequest := fun m => True.
#[global] Instance asa_GetAuthenticatorsRequest_full : WireFull ApiGetAuthenticatorsRequest := fun m => unknown_ok (GetAuthenticatorsRequest_cases false) (ApiGetAuthenticatorsRequest_unknownFields m).
#[global] Instance asa_GetAuthenticatorsRequest_laws : PulsarLaws ApiGetAuthenticatorsRequest.
Proof. pulsar_laws GetAuthenticatorsRequest_switch GetAuthenticatorsRequest_cases GetAuthenticatorsRequest_marshal. Qed.
#[global] Instance asa_GetAuthenticatorsRequest_to_api : ToApi GetAuthenticatorsRequest ApiGetAuthenticatorsRequest := fun a => MkApiGetAuthenticatorsRequest (GetAuthenticatorsRequest_Account a) [].
#[global] Instance asa_GetAuthenticatorsRequest_api : ApiLaws GetAuthenticatorsRequest ApiGetAuthenticatorsRequest.
Proof. api_laws GetAuthenticatorsRequest_switch GetAuthenticatorsRequest_marshal. Qed.

(** [GetAuthenticatorsResponse]. *)
Record ApiGetAuthenticatorsResponse := MkApiGetAuthenticatorsResponse { ApiGetAuthenticatorsResponse_AccountAuthenticators : list (option ApiAccountAuthenticator); ApiGetAuthenticatorsResponse_unknownFields : bytes }.
Definition GetAuthenticatorsResponse_size (x : ApiGetAuthenticatorsResponse) : Z :=
  (if 0 <? Z.of_nat (length (ApiGetAuthenticatorsResponse_AccountAuthenticators x)) then size_each (fun e => size_len (pSize_ptr e)) (ApiGetAuthenticatorsResponse_AccountAuthenticators x) else 0) +
  size_unknown (ApiGetAuthenticatorsResponse_unknownFields x).
Definition GetAuthenticatorsResponse_marshal (x : ApiGetAuthenticatorsResponse) : writer :=
  wunknown (ApiGetAuthenticatorsResponse_unknownFields x) ;>
  wif (0 <? Z.of_nat (length (ApiGetAuthenticatorsResponse_AccountAuthenticators x))) (wdown (ApiGetAuthenticatorsResponse_AccountAuthenticators x) (wenc Byte.x0a)).
Definition GetAuthenticatorsResponse_cases (discard : bool) (fieldNum : Z) : option (action ApiGetAuthenticatorsResponse) :=
  match fieldNum with
  | 1 => Some (pcase_rep discard ApiGetAuthenticatorsResponse_AccountAuthenticators (fun v m => (MkApiGetAuthenticatorsResponse v (ApiGetAuthenticatorsResponse_unknownFields m))))
  | _ => None
  end.
Definition GetAuthenticatorsResponse_switch (discard : bool) : switch ApiGetAuthenticatorsResponse :=
  keeping discard ApiGetAuthenticatorsResponse_unknownFields (fun v m => (MkApiGetAuthenticatorsResponse (ApiGetAuthenticatorsResponse_AccountAuthenticators m) v)) (GetAuthenticatorsResponse_cases discard).
#[global] Instance asa_GetAuthenticatorsResponse_msg : PulsarMsg ApiGetAuthenticatorsResponse := {|
  pSize := GetAuthenticatorsResponse_size; pWrite := GetAuthenticatorsResponse_marshal; pUnmarshal := fun discard => unmarshal_with (GetAuthenticatorsResponse_switch discard); pZero := MkApiGetAuthenticatorsResponse [] [] |}.
#[global] Instance asa_GetAuthenticatorsResponse_ok : WireOk ApiGetAuthenticatorsResponse := fun m => Forall (ptr wire_ok) (ApiGetAuthenticatorsResponse_AccountAuthenticators m).
#[global] Instance asa_GetAuthenticatorsResponse_full : WireFull ApiGetAuthenticatorsResponse := fun m => unknown_ok (GetAuthenticatorsResponse_cases false) (ApiGetAuthenticatorsResponse_unknownFields m) /\ Forall (ptr wire_full) (ApiGetAuthenticatorsResponse_AccountAuthenticators m).
#[global] Instance asa_GetAuthenticatorsResponse_laws : PulsarLaws ApiGetAuthenticatorsResponse.
Proof. pulsar_laws GetAuthenticatorsResponse_switch GetAuthenticatorsResponse_cases GetAuthenticatorsResponse_marshal. Qed.
#[global] Instance asa_GetAuthenticatorsResponse_to_api : ToApi GetAuthenticatorsResponse ApiGetAuthenticatorsResponse := fun a => MkApiGetAuthenticatorsResponse (map (option_map to_api) (GetAuthenticatorsResponse_AccountAuthenticators a)) [].
#[global] Instance asa_GetAuthenticatorsResponse_api : ApiLaws GetAuthenticatorsResponse ApiGetAuthenticatorsResponse.
Proof. api_laws GetAuthenticatorsResponse_switch GetAuthenticatorsResponse_marshal. Qed.

(** [GetAuthenticatorRequest]. *)
Record ApiGetAuthenticatorRequest := MkApiGetAuthenticatorRequest { ApiGetAuthenticatorRequest_Account : bytes; ApiGetAuthenticatorRequest_AuthenticatorId : Z; ApiGetAuthenticatorRequest_unknownFields : bytes }.
Definition GetAuthenticatorRequest_size (x : ApiGetAuthenticatorRequest) : Z :=
  (if 0 <? blen (ApiGetAuthenticatorRequest_Account x) then size_len (blen (ApiGetAuthenticatorRequest_Account x)) else 0) +
  (if negb ((ApiGetAuthenticatorRequest_AuthenticatorId x) =? 0) then 1 + Sov (u64 (ApiGetAuthenticatorRequest_AuthenticatorId x)) else 0) +
  size_unknown (ApiGetAuthenticatorRequest_unknownFields x).
Definition GetAuthenticatorRequest_marshal (x : ApiGetAuthenticatorRequest) : writer :=
  wunknown (ApiGetAuthenticatorRequest_unknownFields x) ;>
  wif (negb ((ApiGetAuthenticatorRequest_AuthenticatorId x) =? 0)) (wvarint (u64 (ApiGetAuthenticatorRequest_AuthenticatorId x)) ;> wbyte Byte.x10) ;>
  wif (0 <? blen (ApiGetAuthenticatorRequest_Account x)) (wlen Byte.x0a (ApiGetAuthenticatorRequest_Account x)).
Definition GetAuthenticatorRequest_cases (discard : bool) (fieldNum : Z) : option (action ApiGetAuthenticatorRequest) :=
  match fieldNum with
  | 1 => Some (case_string (fun v m => (MkApiGetAuthenticatorRequest v (ApiGetAuthenticatorRequest_AuthenticatorId m) (ApiGetAuthenticatorRequest_unknownFields m))))
  | 2 => Some (case_varint u64 (fun v m => (MkApiGetAuthenticatorRequest (ApiGetAuthenticatorRequest_Account m) v (ApiGetAuthenticatorRequest_unknownFields m))))
  | _ => None
  end.
Definition GetAuthenticatorRequest_switch (discard : bool) : switch ApiGetAuthenticatorRequest :=
  keeping discard ApiGetAuthenticatorRequest_unknownFields (fun v m => (MkApiGetAuthenticatorRequest (ApiGetAuthenticatorRequest_Account m) (ApiGetAuthenticatorRequest_AuthenticatorId m) v)) (GetAuthenticatorRequest_cases discard).
#[global] Instance asa_GetAuthenticatorRequest_msg : PulsarMsg ApiGetAuthenticatorRequest := {|
  pSize := GetAuthenticatorRequest_size; pWrite := GetAuthenticatorRequest_marshal; pUnmarshal := fun discard => unmarshal_with (GetAuthenticatorRequest_switch discard); pZero := MkApiGetAuthenticatorRequest [] 0 [] |}.
#[global] Instance asa_GetAuthenticatorRequest_ok : WireOk ApiGetAuthenticatorRequest := fun m => is_u64 (ApiGetAuthenticatorRequest_AuthenticatorId m).
#[global] Instance asa_GetAuthenticatorRequest_full : WireFull ApiGetAuthenticatorRequest := fun m => unknown_ok (GetAuthenticatorRequest_cases false) (ApiGetAuthenticatorRequest_unknownFields m).
#[global] Instance asa_GetAuthenticatorRequest_laws : PulsarLaws ApiGetAuthenticatorRequest.
Proof. pulsar_laws GetAuthenticatorRequest_switch GetAuthenticatorRequest_cases GetAuthenticatorRequest_marshal. Qed.
#[global] Instance asa_GetAuthenticatorRequest_to_api : ToApi GetAuthenticatorRequest ApiGetAuthenticatorRequest := fun a => MkApiGetAuthenticatorRequest (GetAuthenticatorRequest_Account a) (GetAuthenticatorRequest_AuthenticatorId a) [].
#[global] Instance asa_GetAuthenticatorRequest_api : ApiLaws GetAuthenticatorRequest ApiGetAuthenticatorRequest.
Proof. api_laws GetAuthenticatorRequest_switch GetAuthenticatorRequest_marshal. Qed.

(** [GetAuthenticatorResponse]. *)
Record ApiGetAuthenticatorResponse := MkApiGetAuthenticatorResponse { ApiGetAuthenticatorResponse_AccountAuthenticator : option ApiAccountAuthenticator; ApiGetAuthenticatorResponse_unknownFields : bytes }.
Definition GetAuthenticatorResponse_size (x : ApiGetAuthenticatorResponse) : Z :=
  (match (ApiGetAuthenticatorResponse_AccountAuthenticator x) with Some y => size_len (pSize y) | None => 0 end) +
  size_unknown (ApiGetAuthenticatorResponse_unknownFields x).
Definition GetAuthenticatorResponse_marshal (x : ApiGetAuthenticatorResponse) : writer :=
  wunknown (ApiGetAuthenticatorResponse_unknownFields x) ;>
  (match (ApiGetAuthenticatorResponse_AccountAuthenticator x) with Some y => wenc Byte.x0a (Some y) | None => wskip end).
Definition GetAuthenticatorResponse_cases (discard : bool) (fieldNum : Z) : option (action ApiGetAuthenticatorResponse) :=
  match fieldNum with
  | 1 => Some (pcase_ptr discard ApiGetAuthenticatorResponse_AccountAuthenticator (fun v m => (MkApiGetAuthenticatorResponse v (ApiGetAuthenticatorResponse_unknownFields m))))
  | _ => None
  end.
Definition GetAuthenticatorResponse_switch (discard : bool) : switch ApiGetAuthenticatorResponse :=
  keeping discard ApiGetAuthenticatorResponse_unknownFields (fun v m => (MkApiGetAuthenticatorResponse (ApiGetAuthenticatorResponse_AccountAuthenticator m) v)) (GetAuthenticatorResponse_cases discard).
#[global] Instance asa_GetAuthenticatorResponse_msg : PulsarMsg ApiGetAuthenticatorResponse := {|
  pSize := GetAuthenticatorResponse_size; pWrite := GetAuthenticatorResponse_marshal; pUnmarshal := fun discard => unmarshal_with (GetAuthenticatorResponse_switch discard); pZero := MkApiGetAuthenticatorResponse None [] |}.
#[global] Instance asa_GetAuthenticatorResponse_ok : WireOk ApiGetAuthenticatorResponse := fun m => opt_ok (ApiGetAuthenticatorResponse_AccountAuthenticator m).
#[global] Instance asa_GetAuthenticatorResponse_full : WireFull ApiGetAuthenticatorResponse := fun m => unknown_ok (GetAuthenticatorResponse_cases false) (ApiGetAuthenticatorResponse_unknownFields m) /\ opt_full (ApiGetAuthenticatorResponse_AccountAuthenticator m).
#[global] Instance asa_GetAuthenticatorResponse_laws : PulsarLaws ApiGetAuthenticatorResponse.
Proof. pulsar_laws GetAuthenticatorResponse_switch GetAuthenticatorResponse_cases GetAuthenticatorResponse_marshal. Qed.
#[global] Instance asa_GetAuthenticatorResponse_to_api : ToApi GetAuthenticatorResponse ApiGetAuthenticatorResponse := fun a => MkApiGetAuthenticatorResponse (option_map to_api (GetAuthenticatorResponse_AccountAuthenticator a)) [].
#[global] Instance asa_GetAuthenticatorResponse_api : ApiLaws GetAuthenticatorResponse ApiGetAuthenticatorResponse.
Proof. api_laws GetAuthenticatorResponse_switch GetAuthenticatorResponse_marshal. Qed.

End Api.
