(* ===== verification/ApiTf.v ===== *)
(** * tokenfactory: the codec of the API types

    [api/osmosis/tokenfactory/v1beta1/*.pulsar.go]: [size], [marshal] and
    [unmarshal] of every message with fields, and the agreement with
    the codec of [x/tokenfactory/types]. *)

From S2P Require Import Prelude Proto Sdk TokenFactory Wire WireLaws WireTf Pulsar.

Open Scope go_scope.

Section Api.
Context {RT : WireRuntime} {RL : RuntimeLaws} {OP : Options}.
Context {Metadata ApiMetadata : Type} {WMetadata : WireMsg Metadata} {OMetadata : WireOk Metadata} {FMetadata : WireFull Metadata} {LMetadata : WireLaws Metadata}
  {PMetadata : PulsarMsg ApiMetadata} {POMetadata : WireOk ApiMetadata} {PFMetadata : WireFull ApiMetadata} {PLMetadata : PulsarLaws ApiMetadata}
  {TMetadata : ToApi Metadata ApiMetadata} {AMetadata : ApiLaws Metadata ApiMetadata}.
Context {ApiCoin : Type} {WCoin : WireMsg Coin} {FCoin : WireFull Coin} {LCoin : WireLaws Coin}
  {PCoin : PulsarMsg ApiCoin} {POCoin : WireOk ApiCoin} {PFCoin : WireFull ApiCoin} {PLCoin : PulsarLaws ApiCoin}
  {TCoin : ToApi Coin ApiCoin} {ACoin : ApiLaws Coin ApiCoin}.

(** [DenomAuthorityMetadata]. *)
Record ApiDenomAuthorityMetadata := MkApiDenomAuthorityMetadata { ApiDenomAuthorityMetadata_Admin : bytes; ApiDenomAuthorityMetadata_unknownFields : bytes }.
Definition DenomAuthorityMetadata_size (x : ApiDenomAuthorityMetadata) : Z :=
  (if 0 <? blen (ApiDenomAuthorityMetadata_Admin x) then size_len (blen (ApiDenomAuthorityMetadata_Admin x)) else 0) +
  size_unknown (ApiDenomAuthorityMetadata_unknownFields x).
Definition DenomAuthorityMetadata_marshal (x : ApiDenomAuthorityMetadata) : writer :=
  wunknown (ApiDenomAuthorityMetadata_unknownFields x) ;>
  wif (0 <? blen (ApiDenomAuthorityMetadata_Admin x)) (wlen Byte.x0a (ApiDenomAuthorityMetadata_Admin x)).
Definition DenomAuthorityMetadata_cases (discard : bool) (fieldNum : Z) : option (action ApiDenomAuthorityMetadata) :=
  match fieldNum with
  | 1 => Some (case_string (fun v m => (MkApiDenomAuthorityMetadata v (ApiDenomAuthorityMetadata_unknownFields m))))
  | _ => None
  end.
Definition DenomAuthorityMetadata_switch (discard : bool) : switch ApiDenomAuthorityMetadata :=
  keeping discard ApiDenomAuthorityMetadata_unknownFields (fun v m => (MkApiDenomAuthorityMetadata (ApiDenomAuthorityMetadata_Admin m) v)) (DenomAuthorityMetadata_cases discard).
#[global] Instance atf_DenomAuthorityMetadata_msg : PulsarMsg ApiDenomAuthorityMetadata := {|
  pSize := DenomAuthorityMetadata_size; pWrite := DenomAuthorityMetadata_marshal; pUnmarshal := fun discard => unmarshal_with (DenomAuthorityMetadata_switch discard); pZero := MkApiDenomAuthorityMetadata [] [] |}.
#[global] Instance atf_DenomAuthorityMetadata_ok : WireOk ApiDenomAuthorityMetadata := fun m => True.
#[global] Instance atf_DenomAuthorityMetadata_full : WireFull ApiDenomAuthorityMetadata := fun m => unknown_ok (DenomAuthorityMetadata_cases false) (ApiDenomAuthorityMetadata_unknownFields m).
#[global] Instance atf_DenomAuthorityMetadata_laws : PulsarLaws ApiDenomAuthorityMetadata.
Proof. pulsar_laws DenomAuthorityMetadata_switch DenomAuthorityMetadata_cases DenomAuthorityMetadata_marshal. Qed.
#[global] Instance atf_DenomAuthorityMetadata_to_api : ToApi DenomAuthorityMetadata ApiDenomAuthorityMetadata := fun a => MkApiDenomAuthorityMetadata (Admin a) [].
#[global] Instance atf_DenomAuthorityMetadata_api : ApiLaws DenomAuthorityMetadata ApiDenomAuthorityMetadata.
Proof. api_laws DenomAuthorityMetadata_switch DenomAuthorityMetadata_marshal. Qed.

(** [Params]. *)
Record ApiParams := MkApiParams { ApiParams_DenomCreationFee : list (option ApiCoin); ApiParams_DenomCreationGasConsume : Z; ApiParams_unknownFields : bytes }.
Definition Params_size (x : ApiParams) : Z :=
  (if 0 <? Z.of_nat (length (ApiParams_DenomCreationFee x)) then size_each (fun e => size_len (pSize_ptr e)) (ApiParams_DenomCreationFee x) else 0) +
  (if negb ((ApiParams_DenomCreationGasConsume x) =? 0) then 1 + Sov (u64 (ApiParams_DenomCreationGasConsume x)) else 0) +
  size_unknown (ApiParams_unknownFields x).
Definition Params_marshal (x : ApiParams) : writer :=
  wunknown (ApiParams_unknownFields x) ;>
  wif (negb ((ApiParams_DenomCreationGasConsume x) =? 0)) (wvarint (u64 (ApiParams_DenomCreationGasConsume x)) ;> wbyte Byte.x10) ;>
  wif (0 <? Z.of_nat (length (ApiParams_DenomCreationFee x))) (wdown (ApiParams_DenomCreationFee x) (wenc Byte.x0a)).
Definition Params_cases (discard : bool) (fieldNum : Z) : option (action ApiParams) :=
  match fieldNum with
  | 1 => Some (pcase_rep discard ApiParams_DenomCreationFee (fun v m => (MkApiParams v (ApiParams_DenomCreationGasConsume m) (ApiParams_unknownFields m))))
  | 2 => Some (case_varint u64 (fun v m => (MkApiParams (ApiParams_DenomCreationFee m) v (ApiParams_unknownFields m))))
  | _ => None
  end.
Definition Params_switch (discard : bool) : switch ApiParams :=
  keeping discard ApiParams_unknownFields (fun v m => (MkApiParams (ApiParams_DenomCreationFee m) (ApiParams_DenomCreationGasConsume m) v)) (Params_cases discard).
#[global] Instance atf_Params_msg : PulsarMsg ApiParams := {|
  pSize := Params_size; pWrite := Params_marshal; pUnmarshal := fun discard => unmarshal_with (Params_switch discard); pZero := MkApiParams [] 0 [] |}.
#[global] Instance atf_Params_ok : WireOk ApiParams := fun m => Forall (ptr wire_ok) (ApiParams_DenomCreationFee m) /\ is_u64 (ApiParams_DenomCreationGasConsume m).
#[global] Instance atf_Params_full : WireFull ApiParams := fun m => unknown_ok (Params_cases false) (ApiParams_unknownFields m) /\ Forall (ptr wire_full) (ApiParams_DenomCreationFee m).
#[global] Instance atf_Params_laws : PulsarLaws ApiParams.
Proof. pulsar_laws Params_switch Params_cases Params_marshal. Qed.
#[global] Instance atf_Params_to_api : ToApi Params ApiParams := fun a => MkApiParams (map (fun e => Some (to_api e)) (Params_DenomCreationFee a)) (Params_DenomCreationGasConsume a) [].
#[global] Instance atf_Params_api : ApiLaws Params ApiParams.
Proof. api_laws Params_switch Params_marshal. Qed.

(** [GenesisDenom]. *)
Record ApiGenesisDenom := MkApiGenesisDenom { ApiGenesisDenom_Denom : bytes; ApiGenesisDenom_AuthorityMetadata : option ApiDenomAuthorityMetadata; ApiGenesisDenom_unknownFields : bytes }.
Definition GenesisDenom_size (x : ApiGenesisDenom) : Z :=
  (if 0 <? blen (ApiGenesisDenom_Denom x) then size_len (blen (ApiGenesisDenom_Denom x)) else 0) +
  (match (ApiGenesisDenom_AuthorityMetadata x) with Some y => size_len (pSize y) | None => 0 end) +
  size_unknown (ApiGenesisDenom_unknownFields x).
Definition GenesisDenom_marshal (x : ApiGenesisDenom) : writer :=
  wunknown (ApiGenesisDenom_unknownFields x) ;>
  (match (ApiGenesisDenom_AuthorityMetadata x) with Some y => wenc Byte.x12 (Some y) | None => wskip end) ;>
  wif (0 <? blen (ApiGenesisDenom_Denom x)) (wlen Byte.x0a (ApiGenesisDenom_Denom x)).
Definition GenesisDenom_cases (discard : bool) (fieldNum : Z) : option (action ApiGenesisDenom) :=
  match fieldNum with
  | 1 => Some (case_string (fun v m => (MkApiGenesisDenom v (ApiGenesisDenom_AuthorityMetadata m) (ApiGenesisDenom_unknownFields m))))
  | 2 => Some (pcase_ptr discard ApiGenesisDenom_AuthorityMetadata (fun v m => (MkApiGenesisDenom (ApiGenesisDenom_Denom m) v (ApiGenesisDenom_unknownFields m))))
  | _ => None
  end.
Definition GenesisDenom_switch (discard : bool) : switch ApiGenesisDenom :=
  keeping discard ApiGenesisDenom_unknownFields (fun v m => (MkApiGenesisDenom (ApiGenesisDenom_Denom m) (ApiGenesisDenom_AuthorityMetadata m) v)) (GenesisDenom_cases discard).
#[global] Instance atf_GenesisDenom_msg : PulsarMsg ApiGenesisDenom := {|
  pSize := GenesisDenom_size; pWrite := GenesisDenom_marshal; pUnmarshal := fun discard => unmarshal_with (GenesisDenom_switch discard); pZero := MkApiGenesisDenom [] None [] |}.
#[global] Instance atf_GenesisDenom_ok : WireOk ApiGenesisDenom := fun m => opt_ok (ApiGenesisDenom_AuthorityMetadata m).
#[global] Instance atf_GenesisDenom_full : WireFull ApiGenesisDenom := fun m => unknown_ok (GenesisDenom_cases false) (ApiGenesisDenom_unknownFields m) /\ opt_full (ApiGenesisDenom_AuthorityMetadata m).
#[global] Instance atf_GenesisDenom_laws : PulsarLaws ApiGenesisDenom.
Proof. pulsar_laws GenesisDenom_switch GenesisDenom_cases GenesisDenom_marshal. Qed.
#[global] Instance atf_GenesisDenom_to_api : ToApi GenesisDenom ApiGenesisDenom := fun a => MkApiGenesisDenom (gd_Denom a) (Some (to_api (gd_AuthorityMetadata a))) [].
#[global] Instance atf_GenesisDenom_api : ApiLaws GenesisDenom ApiGenesisDenom.
Proof. api_laws GenesisDenom_switch GenesisDenom_marshal. Qed.

(** [GenesisState]. *)
Record ApiGenesisState := MkApiGenesisState { ApiGenesisState_Params : option ApiParams; ApiGenesisState_FactoryDenoms : list (option ApiGenesisDenom); ApiGenesisState_unknownFields : bytes }.
Definition GenesisState_size (x : ApiGenesisState) : Z :=
  (match (ApiGenesisState_Params x) with Some y => size_len (pSize y) | None => 0 end) +
  (if 0 <? Z.of_nat (length (ApiGenesisState_FactoryDenoms x)) then size_each (fun e => size_len (pSize_ptr e)) (ApiGenesisState_FactoryDenoms x) else 0) +
  size_unknown (ApiGenesisState_unknownFields x).
Definition GenesisState_marshal (x : ApiGenesisState) : writer :=
  wunknown (ApiGenesisState_unknownFields x) ;>
  wif (0 <? Z.of_nat (length (ApiGenesisState_FactoryDenoms x))) (wdown (ApiGenesisState_FactoryDenoms x) (wenc Byte.x12)) ;>
  (match (ApiGenesisState_Params x) with Some y => wenc Byte.x0a (Some y) | None => wskip end).
Definition GenesisState_cases (discard : bool) (fieldNum : Z) : option (action ApiGenesisState) :=
  match fieldNum with
  | 1 => Some (pcase_ptr discard ApiGenesisState_Params (fun v m => (MkApiGenesisState v (ApiGenesisState_FactoryDenoms m) (ApiGenesisState_unknownFields m))))
  | 2 => Some (pcase_rep discard ApiGenesisState_FactoryDenoms (fun v m => (MkApiGenesisState (ApiGenesisState_Params m) v (ApiGenesisState_unknownFields m))))
  | _ => None
  end.
Definition GenesisState_switch (discard : bool) : switch ApiGenesisState :=
  keeping discard ApiGenesisState_unknownFields (fun v m => (MkApiGenesisState (ApiGenesisState_Params m) (ApiGenesisState_FactoryDenoms m) v)) (GenesisState_cases discard).
#[global] Instance atf_GenesisState_msg : PulsarMsg ApiGenesisState := {|
  pSize := GenesisState_size; pWrite := GenesisState_marshal; pUnmarshal := fun discard => unmarshal_with (GenesisState_switch discard); pZero := MkApiGenesisState None [] [] |}.
#[global] Instance atf_GenesisState_ok : WireOk ApiGenesisState := fun m => opt_ok (ApiGenesisState_Params m) /\ Forall (ptr wire_ok) (ApiGenesisState_FactoryDenoms m).
#[global] Instance atf_GenesisState_full : WireFull ApiGenesisState := fun m => unknown_ok (GenesisState_cases false) (ApiGenesisState_unknownFields m) /\ opt_full (ApiGenesisState_Params m) /\ Forall (ptr wire_full) (ApiGenesisState_FactoryDenoms m).
#[global] Instance atf_GenesisState_laws : PulsarLaws ApiGenesisState.
Proof. pulsar_laws GenesisState_switch GenesisState_cases GenesisState_marshal. Qed.
#[global] Instance atf_GenesisState_to_api : ToApi GenesisState ApiGenesisState := fun a => MkApiGenesisState (Some (to_api (GenesisState_Params a))) (map (fun e => Some (to_api e)) (GenesisState_FactoryDenoms a)) [].
#[global] Instance atf_GenesisState_api : ApiLaws GenesisState ApiGenesisState.
Proof. api_laws GenesisState_switch GenesisState_marshal. Qed.

(** [MsgCreateDenom]. *)
Record ApiMsgCreateDenom := MkApiMsgCreateDenom { ApiMsgCreateDenom_Sender : bytes; ApiMsgCreateDenom_Subdenom : bytes; ApiMsgCreateDenom_unknownFields : bytes }.
Definition MsgCreateDenom_size (x : ApiMsgCreateDenom) : Z :=
  (if 0 <? blen (ApiMsgCreateDenom_Sender x) then size_len (blen (ApiMsgCreateDenom_Sender x)) else 0) +
  (if 0 <? blen (ApiMsgCreateDenom_Subdenom x) then size_len (blen (ApiMsgCreateDenom_Subdenom x)) else 0) +
  size_unknown (ApiMsgCreateDenom_unknownFields x).
Definition MsgCreateDenom_marshal (x : ApiMsgCreateDenom) : writer :=
  wunknown (ApiMsgCreateDenom_unknownFields x) ;>
  wif (0 <? blen (ApiMsgCreateDenom_Subdenom x)) (wlen Byte.x12 (ApiMsgCreateDenom_Subdenom x)) ;>
  wif (0 <? blen (ApiMsgCreateDenom_Sender x)) (wlen Byte.x0a (ApiMsgCreateDenom_Sender x)).
Definition MsgCreateDenom_cases (discard : bool) (fieldNum : Z) : option (action ApiMsgCreateDenom) :=
  match fieldNum with
  | 1 => Some (case_string (fun v m => (MkApiMsgCreateDenom v (ApiMsgCreateDenom_Subdenom m) (ApiMsgCreateDenom_unknownFields m))))
  | 2 => Some (case_string (fun v m => (MkApiMsgCreateDenom (ApiMsgCreateDenom_Sender m) v (ApiMsgCreateDenom_unknownFields m))))
  | _ => None
  end.
Definition MsgCreateDenom_switch (discard : bool) : switch ApiMsgCreateDenom :=
  keeping discard ApiMsgCreateDenom_unknownFields (fun v m => (MkApiMsgCreateDenom (ApiMsgCreateDenom_Sender m) (ApiMsgCreateDenom_Subdenom m) v)) (MsgCreateDenom_cases discard).
#[global] Instance atf_MsgCreateDenom_msg : PulsarMsg ApiMsgCreateDenom := {|
  pSize := MsgCreateDenom_size; pWrite := MsgCreateDenom_marshal; pUnmarshal := fun discard => unmarshal_with (MsgCreateDenom_switch discard); pZero := MkApiMsgCreateDenom [] [] [] |}.
#[global] Instance atf_MsgCreateDenom_ok : WireOk ApiMsgCreateDenom := fun m => True.
#[global] Instance atf_MsgCreateDenom_full : WireFull ApiMsgCreateDenom := fun m => unknown_ok (MsgCreateDenom_cases false) (ApiMsgCreateDenom_unknownFields m).
#[global] Instance atf_MsgCreateDenom_laws : PulsarLaws ApiMsgCreateDenom.
Proof. pulsar_laws MsgCreateDenom_switch MsgCreateDenom_cases MsgCreateDenom_marshal. Qed.
#[global] Instance atf_MsgCreateDenom_to_api : ToApi MsgCreateDenom ApiMsgCreateDenom := fun a => MkApiMsgCreateDenom (MsgCreateDenom_Sender a) (MsgCreateDenom_Subdenom a) [].
#[global] Instance atf_MsgCreateDenom_api : ApiLaws MsgCreateDenom ApiMsgCreateDenom.
Proof. api_laws MsgCreateDenom_switch MsgCreateDenom_marshal. Qed.

(** [MsgCreateDenomResponse]. *)
Record ApiMsgCreateDenomResponse := MkApiMsgCreateDenomResponse { ApiMsgCreateDenomResponse_NewTokenDenom : bytes; ApiMsgCreateDenomResponse_unknownFields : bytes }.
Definition MsgCreateDenomResponse_size (x : ApiMsgCreateDenomResponse) : Z :=
  (if 0 <? blen (ApiMsgCreateDenomResponse_NewTokenDenom x) then size_len (blen (ApiMsgCreateDenomResponse_NewTokenDenom x)) else 0) +
  size_unknown (ApiMsgCreateDenomResponse_unknownFields x).
Definition MsgCreateDenomResponse_marshal (x : ApiMsgCreateDenomResponse) : writer :=
  wunknown (ApiMsgCreateDenomResponse_unknownFields x) ;>
  wif (0 <? blen (ApiMsgCreateDenomResponse_NewTokenDenom x)) (wlen Byte.x0a (ApiMsgCreateDenomResponse_NewTokenDenom x)).
Definition MsgCreateDenomResponse_cases (discard : bool) (fieldNum : Z) : option (action ApiMsgCreateDenomResponse) :=
  match fieldNum with
  | 1 => Some (case_string (fun v m => (MkApiMsgCreateDenomResponse v (ApiMsgCreateDenomResponse_unknownFields m))))
  | _ => None
  end.
Definition MsgCreateDenomResponse_switch (discard : bool) : switch ApiMsgCreateDenomResponse :=
  keeping discard ApiMsgCreateDenomResponse_unknownFields (fun v m => (MkApiMsgCreateDenomResponse (ApiMsgCreateDenomResponse_NewTokenDenom m) v)) (MsgCreateDenomResponse_cases discard).
#[global] Instance atf_MsgCreateDenomResponse_msg : PulsarMsg ApiMsgCreateDenomResponse := {|
  pSize := MsgCreateDenomResponse_size; pWrite := MsgCreateDenomResponse_marshal; pUnmarshal := fun discard => unmarshal_with (MsgCreateDenomResponse_switch discard); pZero := MkApiMsgCreateDenomResponse [] [] |}.
#[global] Instance atf_MsgCreateDenomResponse_ok : WireOk ApiMsgCreateDenomResponse := fun m => True.
#[global] Instance atf_MsgCreateDenomResponse_full : WireFull ApiMsgCreateDenomResponse := fun m => unknown_ok (MsgCreateDenomResponse_cases false) (ApiMsgCreateDenomResponse_unknownFields m).
#[global] Instance atf_MsgCreateDenomResponse_laws : PulsarLaws ApiMsgCreateDenomResponse.
Proof. pulsar_laws MsgCreateDenomResponse_switch MsgCreateDenomResponse_cases MsgCreateDenomResponse_marshal. Qed.
#[global] Instance atf_MsgCreateDenomResponse_to_api : ToApi MsgCreateDenomResponse ApiMsgCreateDenomResponse := fun a => MkApiMsgCreateDenomResponse (MsgCreateDenomResponse_NewTokenDenom a) [].
#[global] Instance atf_MsgCreateDenomResponse_api : ApiLaws MsgCreateDenomResponse ApiMsgCreateDenomResponse.
Proof. api_laws MsgCreateDenomResponse_switch MsgCreateDenomResponse_marshal. Qed.

(** [MsgMint]. *)
Record ApiMsgMint := MkApiMsgMint { ApiMsgMint_Sender : bytes; ApiMsgMint_Amount : option ApiCoin; ApiMsgMint_MintToAddress : bytes; ApiMsgMint_unknownFields : bytes }.
Definition MsgMint_size (x : ApiMsgMint) : Z :=
  (if 0 <? blen (ApiMsgMint_Sender x) then size_len (blen (ApiMsgMint_Sender x)) else 0) +
  (match (ApiMsgMint_Amount x) with Some y => size_len (pSize y) | None => 0 end) +
  (if 0 <? blen (ApiMsgMint_MintToAddress x) then size_len (blen (ApiMsgMint_MintToAddress x)) else 0) +
  size_unknown (ApiMsgMint_unknownFields x).
Definition MsgMint_marshal (x : ApiMsgMint) : writer :=
  wunknown (ApiMsgMint_unknownFields x) ;>
  wif (0 <? blen (ApiMsgMint_MintToAddress x)) (wlen Byte.x1a (ApiMsgMint_MintToAddress x)) ;>
  (match (ApiMsgMint_Amount x) with Some y => wenc Byte.x12 (Some y) | None => wskip end) ;>
  wif (0 <? blen (ApiMsgMint_Sender x)) (wlen Byte.x0a (ApiMsgMint_Sender x)).
Definition MsgMint_cases (discard : bool) (fieldNum : Z) : option (action ApiMsgMint) :=
  match fieldNum with
  | 1 => Some (case_string (fun v m => (MkApiMsgMint v (ApiMsgMint_Amount m) (ApiMsgMint_MintToAddress m) (ApiMsgMint_unknownFields m))))
  | 2 => Some (pcase_ptr discard ApiMsgMint_Amount (fun v m => (MkApiMsgMint (ApiMsgMint_Sender m) v (ApiMsgMint_MintToAddress m) (ApiMsgMint_unknownFields m))))
  | 3 => Some (case_string (fun v m => (MkApiMsgMint (ApiMsgMint_Sender m) (ApiMsgMint_Amount m) v (ApiMsgMint_unknownFields m))))
  | _ => None
  end.
Definition MsgMint_switch (discard : bool) : switch ApiMsgMint :=
  keeping discard ApiMsgMint_unknownFields (fun v m => (MkApiMsgMint (ApiMsgMint_Sender m) (ApiMsgMint_Amount m) (ApiMsgMint_MintToAddress m) v)) (MsgMint_cases discard).
#[global] Instance atf_MsgMint_msg : PulsarMsg ApiMsgMint := {|
  pSize := MsgMint_size; pWrite := MsgMint_marshal; pUnmarshal := fun discard => unmarshal_with (MsgMint_switch discard); pZero := MkApiMsgMint [] None [] [] |}.
#[global] Instance atf_MsgMint_ok : WireOk ApiMsgMint := fun m => opt_ok (ApiMsgMint_Amount m).
#[global] Instance atf_MsgMint_full : WireFull ApiMsgMint := fun m => unknown_ok (MsgMint_cases false) (ApiMsgMint_unknownFields m) /\ opt_full (ApiMsgMint_Amount m).
#[global] Instance atf_MsgMint_laws : PulsarLaws ApiMsgMint.
Proof. pulsar_laws MsgMint_switch MsgMint_cases MsgMint_marshal. Qed.
#[global] Instance atf_MsgMint_to_api : ToApi MsgMint ApiMsgMint := fun a => MkApiMsgMint (MsgMint_Sender a) (Some (to_api (MsgMint_Amount a))) (MsgMint_MintToAddress a) [].
#[global] Instance atf_MsgMint_api : ApiLaws MsgMint ApiMsgMint.
Proof. api_laws MsgMint_switch MsgMint_marshal. Qed.

(** [MsgBurn]. *)
Record ApiMsgBurn := MkApiMsgBurn { ApiMsgBurn_Sender : bytes; ApiMsgBurn_Amount : option ApiCoin; ApiMsgBurn_BurnFromAddress : bytes; ApiMsgBurn_unknownFields : bytes }.
Definition MsgBurn_size (x : ApiMsgBurn) : Z :=
  (if 0 <? blen (ApiMsgBurn_Sender x) then size_len (blen (ApiMsgBurn_Sender x)) else 0) +
  (match (ApiMsgBurn_Amount x) with Some y => size_len (pSize y) | None => 0 end) +
  (if 0 <? blen (ApiMsgBurn_BurnFromAddress x) then size_len (blen (ApiMsgBurn_BurnFromAddress x)) else 0) +
  size_unknown (ApiMsgBurn_unknownFields x).
Definition MsgBurn_marshal (x : ApiMsgBurn) : writer :=
  wunknown (ApiMsgBurn_unknownFields x) ;>
  wif (0 <? blen (ApiMsgBurn_BurnFromAddress x)) (wlen Byte.x1a (ApiMsgBurn_BurnFromAddress x)) ;>
  (match (ApiMsgBurn_Amount x) with Some y => wenc Byte.x12 (Some y) | None => wskip end) ;>
  wif (0 <? blen (ApiMsgBurn_Sender x)) (wlen Byte.x0a (ApiMsgBurn_Sender x)).
Definition MsgBurn_cases (discard : bool) (fieldNum : Z) : option (action ApiMsgBurn) :=
  match fieldNum with
  | 1 => Some (case_string (fun v m => (MkApiMsgBurn v (ApiMsgBurn_Amount m) (ApiMsgBurn_BurnFromAddress m) (ApiMsgBurn_unknownFields m))))
  | 2 => Some (pcase_ptr discard ApiMsgBurn_Amount (fun v m => (MkApiMsgBurn (ApiMsgBurn_Sender m) v (ApiMsgBurn_BurnFromAddress m) (ApiMsgBurn_unknownFields m))))
  | 3 => Some (case_string (fun v m => (MkApiMsgBurn (ApiMsgBurn_Sender m) (ApiMsgBurn_Amount m) v (ApiMsgBurn_unknownFields m))))
  | _ => None
  end.
Definition MsgBurn_switch (discard : bool) : switch ApiMsgBurn :=
  keeping discard ApiMsgBurn_unknownFields (fun v m => (MkApiMsgBurn (ApiMsgBurn_Sender m) (ApiMsgBurn_Amount m) (ApiMsgBurn_BurnFromAddress m) v)) (MsgBurn_cases discard).
#[global] Instance atf_MsgBurn_msg : PulsarMsg ApiMsgBurn := {|
  pSize := MsgBurn_size; pWrite := MsgBurn_marshal; pUnmarshal := fun discard => unmarshal_with (MsgBurn_switch discard); pZero := MkApiMsgBurn [] None [] [] |}.
#[global] Instance atf_MsgBurn_ok : WireOk ApiMsgBurn := fun m => opt_ok (ApiMsgBurn_Amount m).
#[global] Instance atf_MsgBurn_full : WireFull ApiMsgBurn := fun m => unknown_ok (MsgBurn_cases false) (ApiMsgBurn_unknownFields m) /\ opt_full (ApiMsgBurn_Amount m).
#[global] Instance atf_MsgBurn_laws : PulsarLaws ApiMsgBurn.
Proof. pulsar_laws MsgBurn_switch MsgBurn_cases MsgBurn_marshal. Qed.
#[global] Instance atf_MsgBurn_to_api : ToApi MsgBurn ApiMsgBurn := fun a => MkApiMsgBurn (MsgBurn_Sender a) (Some (to_api (MsgBurn_Amount a))) (MsgBurn_BurnFromAddress a) [].
#[global] Instance atf_MsgBurn_api : ApiLaws MsgBurn ApiMsgBurn.
Proof. api_laws MsgBurn_switch MsgBurn_marshal. Qed.

(** [MsgChangeAdmin]. *)
Record ApiMsgChangeAdmin := MkApiMsgChangeAdmin { ApiMsgChangeAdmin_Sender : bytes; ApiMsgChangeAdmin_Denom : bytes; ApiMsgChangeAdmin_NewAdmin : bytes; ApiMsgChangeAdmin_unknownFields : bytes }.
Definition MsgChangeAdmin_size (x : ApiMsgChangeAdmin) : Z :=
  (if 0 <? blen (ApiMsgChangeAdmin_Sender x) then size_len (blen (ApiMsgChangeAdmin_Sender x)) else 0) +
  (if 0 <? blen (ApiMsgChangeAdmin_Denom x) then size_len (blen (ApiMsgChangeAdmin_Denom x)) else 0) +
  (if 0 <? blen (ApiMsgChangeAdmin_NewAdmin x) then size_len (blen (ApiMsgChangeAdmin_NewAdmin x)) else 0) +
  size_unknown (ApiMsgChangeAdmin_unknownFields x).
Definition MsgChangeAdmin_marshal (x : ApiMsgChangeAdmin) : writer :=
  wunknown (ApiMsgChangeAdmin_unknownFields x) ;>
  wif (0 <? blen (ApiMsgChangeAdmin_NewAdmin x)) (wlen Byte.x1a (ApiMsgChangeAdmin_NewAdmin x)) ;>
  wif (0 <? blen (ApiMsgChangeAdmin_Denom x)) (wlen Byte.x12 (ApiMsgChangeAdmin_Denom x)) ;>
  wif (0 <? blen (ApiMsgChangeAdmin_Sender x)) (wlen Byte.x0a (ApiMsgChangeAdmin_Sender x)).
Definition MsgChangeAdmin_cases (discard : bool) (fieldNum : Z) : option (action ApiMsgChangeAdmin) :=
  match fieldNum with
  | 1 => Some (case_string (fun v m => (MkApiMsgChangeAdmin v (ApiMsgChangeAdmin_Denom m) (ApiMsgChangeAdmin_NewAdmin m) (ApiMsgChangeAdmin_unknownFields m))))
  | 2 => Some (case_string (fun v m => (MkApiMsgChangeAdmin (ApiMsgChangeAdmin_Sender m) v (ApiMsgChangeAdmin_NewAdmin m) (ApiMsgChangeAdmin_unknownFields m))))
  | 3 => Some (case_string (fun v m => (MkApiMsgChangeAdmin (ApiMsgChangeAdmin_Sender m) (ApiMsgChangeAdmin_Denom m) v (ApiMsgChangeAdmin_unknownFields m))))
  | _ => None
  end.
Definition MsgChangeAdmin_switch (discard : bool) : switch ApiMsgChangeAdmin :=
  keeping discard ApiMsgChangeAdmin_unknownFields (fun v m => (MkApiMsgChangeAdmin (ApiMsgChangeAdmin_Sender m) (ApiMsgChangeAdmin_Denom m) (ApiMsgChangeAdmin_NewAdmin m) v)) (MsgChangeAdmin_cases discard).
#[global] Instance atf_MsgChangeAdmin_msg : PulsarMsg ApiMsgChangeAdmin := {|
  pSize := MsgChangeAdmin_size; pWrite := MsgChangeAdmin_marshal; pUnmarshal := fun discard => unmarshal_with (MsgChangeAdmin_switch discard); pZero := MkApiMsgChangeAdmin [] [] [] [] |}.
#[global] Instance atf_MsgChangeAdmin_ok : WireOk ApiMsgChangeAdmin := fun m => True.
#[global] Instance atf_MsgChangeAdmin_full : WireFull ApiMsgChangeAdmin := fun m => unknown_ok (MsgChangeAdmin_cases false) (ApiMsgChangeAdmin_unknownFields m).
#[global] Instance atf_MsgChangeAdmin_laws : PulsarLaws ApiMsgChangeAdmin.
Proof. pulsar_laws MsgChangeAdmin_switch MsgChangeAdmin_cases MsgChangeAdmin_marshal. Qed.
#[global] Instance atf_MsgChangeAdmin_to_api : ToApi MsgChangeAdmin ApiMsgChangeAdmin := fun a => MkApiMsgChangeAdmin (MsgChangeAdmin_Sender a) (MsgChangeAdmin_Denom a) (MsgChangeAdmin_NewAdmin a) [].
#[global] Instance atf_MsgChangeAdmin_api : ApiLaws MsgChangeAdmin ApiMsgChangeAdmin.
Proof. api_laws MsgChangeAdmin_switch MsgChangeAdmin_marshal. Qed.

(** [MsgSetDenomMetadata]. *)
Record ApiMsgSetDenomMetadata := MkApiMsgSetDenomMetadata { ApiMsgSetDenomMetadata_Sender : bytes; ApiMsgSetDenomMetadata_Metadata : option ApiMetadata; ApiMsgSetDenomMetadata_unknownFields : bytes }.
Definition MsgSetDenomMetadata_size (x : ApiMsgSetDenomMetadata) : Z :=
  (if 0 <? blen (ApiMsgSetDenomMetadata_Sender x) then size_len (blen (ApiMsgSetDenomMetadata_Sender x)) else 0) +
  (match (ApiMsgSetDenomMetadata_Metadata x) with Some y => size_len (pSize y) | None => 0 end) +
  size_unknown (ApiMsgSetDenomMetadata_unknownFields x).
Definition MsgSetDenomMetadata_marshal (x : ApiMsgSetDenomMetadata) : writer :=
  wunknown (ApiMsgSetDenomMetadata_unknownFields x) ;>
  (match (ApiMsgSetDenomMetadata_Metadata x) with Some y => wenc Byte.x12 (Some y) | None => wskip end) ;>
  wif (0 <? blen (ApiMsgSetDenomMetadata_Sender x)) (wlen Byte.x0a (ApiMsgSetDenomMetadata_Sender x)).
Definition MsgSetDenomMetadata_cases (discard : bool) (fieldNum : Z) : option (action ApiMsgSetDenomMetadata) :=
  match fieldNum with
  | 1 => Some (case_string (fun v m => (MkApiMsgSetDenomMetadata v (ApiMsgSetDenomMetadata_Metadata m) (ApiMsgSetDenomMetadata_unknownFields m))))
  | 2 => Some (pcase_ptr discard ApiMsgSetDenomMetadata_Metadata (fun v m => (MkApiMsgSetDenomMetadata (ApiMsgSetDenomMetadata_Sender m) v (ApiMsgSetDenomMetadata_unknownFields m))))
  | _ => None
  end.
Definition MsgSetDenomMetadata_switch (discard : bool) : switch ApiMsgSetDenomMetadata :=
  keeping discard ApiMsgSetDenomMetadata_unknownFields (fun v m => (MkApiMsgSetDenomMetadata (ApiMsgSetDenomMetadata_Sender m) (ApiMsgSetDenomMetadata_Metadata m) v)) (MsgSetDenomMetadata_cases discard).
#[global] Instance atf_MsgSetDenomMetadata_msg : PulsarMsg ApiMsgSetDenomMetadata := {|
  pSize := MsgSetDenomMetadata_size; pWrite := MsgSetDenomMetadata_marshal; pUnmarshal := fun discard => unmarshal_with (MsgSetDenomMetadata_switch discard); pZero := MkApiMsgSetDenomMetadata [] None [] |}.
#[global] Instance atf_MsgSetDenomMetadata_ok : WireOk ApiMsgSetDenomMetadata := fun m => opt_ok (ApiMsgSetDenomMetadata_Metadata m).
#[global] Instance atf_MsgSetDenomMetadata_full : WireFull ApiMsgSetDenomMetadata := fun m => unknown_ok (MsgSetDenomMetadata_cases false) (ApiMsgSetDenomMetadata_unknownFields m) /\ opt_full (ApiMsgSetDenomMetadata_Metadata m).
#[global] Instance atf_MsgSetDenomMetadata_laws : PulsarLaws ApiMsgSetDenomMetadata.
Proof. pulsar_laws MsgSetDenomMetadata_switch MsgSetDenomMetadata_cases MsgSetDenomMetadata_marshal. Qed.
#[global] Instance atf_MsgSetDenomMetadata_to_api : ToApi (@MsgSetDenomMetadata Metadata) ApiMsgSetDenomMetadata := fun a => MkApiMsgSetDenomMetadata (MsgSetDenomMetadata_Sender a) (Some (to_api (MsgSetDenomMetadata_Metadata a))) [].
#[global] Instance atf_MsgSetDenomMetadata_api : ApiLaws (@MsgSetDenomMetadata Metadata) ApiMsgSetDenomMetadata.
Proof. api_laws MsgSetDenomMetadata_switch MsgSetDenomMetadata_marshal. Qed.

(** [MsgForceTransfer]. *)
Record ApiMsgForceTransfer := MkApiMsgForceTransfer { ApiMsgForceTransfer_Sender : bytes; ApiMsgForceTransfer_Amount : option ApiCoin; ApiMsgForceTransfer_TransferFromAddress : bytes; ApiMsgForceTransfer_TransferToAddress : bytes; ApiMsgForceTransfer_unknownFields : bytes }.
Definition MsgForceTransfer_size (x : ApiMsgForceTransfer) : Z :=
  (if 0 <? blen (ApiMsgForceTransfer_Sender x) then size_len (blen (ApiMsgForceTransfer_Sender x)) else 0) +
  (match (ApiMsgForceTransfer_Amount x) with Some y => size_len (pSize y) | None => 0 end) +
  (if 0 <? blen (ApiMsgForceTransfer_TransferFromAddress x) then size_len (blen (ApiMsgForceTransfer_TransferFromAddress x)) else 0) +
  (if 0 <? blen (ApiMsgForceTransfer_TransferToAddress x) then size_len (blen (ApiMsgForceTransfer_TransferToAddress x)) else 0) +
  size_unknown (ApiMsgForceTransfer_unknownFields x).
Definition MsgForceTransfer_marshal (x : ApiMsgForceTransfer) : writer :=
  wunknown (ApiMsgForceTransfer_unknownFields x) ;>
  wif (0 <? blen (ApiMsgForceTransfer_TransferToAddress x)) (wlen Byte.x22 (ApiMsgForceTransfer_TransferToAddress x)) ;>
  wif (0 <? blen (ApiMsgForceTransfer_TransferFromAddress x)) (wlen Byte.x1a (ApiMsgForceTransfer_TransferFromAddress x)) ;>
  (match (ApiMsgForceTransfer_Amount x) with Some y => wenc Byte.x12 (Some y) | None => wskip end) ;>
  wif (0 <? blen (ApiMsgForceTransfer_Sender x)) (wlen Byte.x0a (ApiMsgForceTransfer_Sender x)).
Definition MsgForceTransfer_cases (discard : bool) (fieldNum : Z) : option (action ApiMsgForceTransfer) :=
  match fieldNum with
  | 1 => Some (case_string (fun v m => (MkApiMsgForceTransfer v (ApiMsgForceTransfer_Amount m) (ApiMsgForceTransfer_TransferFromAddress m) (ApiMsgForceTransfer_TransferToAddress m) (ApiMsgForceTransfer_unknownFields m))))
  | 2 => Some (pcase_ptr discard ApiMsgForceTransfer_Amount (fun v m => (MkApiMsgForceTransfer (ApiMsgForceTransfer_Sender m) v (ApiMsgForceTransfer_TransferFromAddress m) (ApiMsgForceTransfer_TransferToAddress m) (ApiMsgForceTransfer_unknownFields m))))
  | 3 => Some (case_string (fun v m => (MkApiMsgForceTransfer (ApiMsgForceTransfer_Sender m) (ApiMsgForceTransfer_Amount m) v (ApiMsgForceTransfer_TransferToAddress m) (ApiMsgForceTransfer_unknownFields m))))
  | 4 => Some (case_string (fun v m => (MkApiMsgForceTransfer (ApiMsgForceTransfer_Sender m) (ApiMsgForceTransfer_Amount m) (ApiMsgForceTransfer_TransferFromAddress m) v (ApiMsgForceTransfer_unknownFields m))))
  | _ => None
  end.
Definition MsgForceTransfer_switch (discard : bool) : switch ApiMsgForceTransfer :=
  keeping discard ApiMsgForceTransfer_unknownFields (fun v m => (MkApiMsgForceTransfer (ApiMsgForceTransfer_Sender m) (ApiMsgForceTransfer_Amount m) (ApiMsgForceTransfer_TransferFromAddress m) (ApiMsgForceTransfer_TransferToAddress m) v)) (MsgForceTransfer_cases discard).
#[global] Instance atf_MsgForceTransfer_msg : PulsarMsg ApiMsgForceTransfer := {|
  pSize := MsgForceTransfer_size; pWrite := MsgForceTransfer_marshal; pUnmarshal := fun discard => unmarshal_with (MsgForceTransfer_switch discard); pZero := MkApiMsgForceTransfer [] None [] [] [] |}.
#[global] Instance atf_MsgForceTransfer_ok : WireOk ApiMsgForceTransfer := fun m => opt_ok (ApiMsgForceTransfer_Amount m).
#[global] Instance atf_MsgForceTransfer_full : WireFull ApiMsgForceTransfer := fun m => unknown_ok (MsgForceTransfer_cases false) (ApiMsgForceTransfer_unknownFields m) /\ opt_full (ApiMsgForceTransfer_Amount m).
#[global] Instance atf_MsgForceTransfer_laws : PulsarLaws ApiMsgForceTransfer.
Proof. pulsar_laws MsgForceTransfer_switch MsgForceTransfer_cases MsgForceTransfer_marshal. Qed.
#[global] Instance atf_MsgForceTransfer_to_api : ToApi MsgForceTransfer ApiMsgForceTransfer := fun a => MkApiMsgForceTransfer (MsgForceTransfer_Sender a) (Some (to_api (MsgForceTransfer_Amount a))) (MsgForceTransfer_TransferFromAddress a) (MsgForceTransfer_TransferToAddress a) [].
#[global] Instance atf_MsgForceTransfer_api : ApiLaws MsgForceTransfer ApiMsgForceTransfer.
Proof. api_laws MsgForceTransfer_switch MsgForceTransfer_marshal. Qed.

(** [MsgUpdateParams]. *)
Record ApiMsgUpdateParams := MkApiMsgUpdateParams { ApiMsgUpdateParams_Authority : bytes; ApiMsgUpdateParams_Params : option ApiParams; ApiMsgUpdateParams_unknownFields : bytes }.
Definition MsgUpdateParams_size (x : ApiMsgUpdateParams) : Z :=
  (if 0 <? blen (ApiMsgUpdateParams_Authority x) then size_len (blen (ApiMsgUpdateParams_Authority x)) else 0) +
  (match (ApiMsgUpdateParams_Params x) with Some y => size_len (pSize y) | None => 0 end) +
  size_unknown (ApiMsgUpdateParams_unknownFields x).
Definition MsgUpdateParams_marshal (x : ApiMsgUpdateParams) : writer :=
  wunknown (ApiMsgUpdateParams_unknownFields x) ;>
  (match (ApiMsgUpdateParams_Params x) with Some y => wenc Byte.x12 (Some y) | None => wskip end) ;>
  wif (0 <? blen (ApiMsgUpdateParams_Authority x)) (wlen Byte.x0a (ApiMsgUpdateParams_Authority x)).
Definition MsgUpdateParams_cases (discard : bool) (fieldNum : Z) : option (action ApiMsgUpdateParams) :=
  match fieldNum with
  | 1 => Some (case_string (fun v m => (MkApiMsgUpdateParams v (ApiMsgUpdateParams_Params m) (ApiMsgUpdateParams_unknownFields m))))
  | 2 => Some (pcase_ptr discard ApiMsgUpdateParams_Params (fun v m => (MkApiMsgUpdateParams (ApiMsgUpdateParams_Authority m) v (ApiMsgUpdateParams_unknownFields m))))
  | _ => None
  end.
Definition MsgUpdateParams_switch (discard : bool) : switch ApiMsgUpdateParams :=
  keeping discard ApiMsgUpdateParams_unknownFields (fun v m => (MkApiMsgUpdateParams (ApiMsgUpdateParams_Authority m) (ApiMsgUpdateParams_Params m) v)) (MsgUpdateParams_cases discard).
#[global] Instance atf_MsgUpdateParams_msg : PulsarMsg ApiMsgUpdateParams := {|
  pSize := MsgUpdateParams_size; pWrite := MsgUpdateParams_marshal; pUnmarshal := fun discard => unmarshal_with (MsgUpdateParams_switch discard); pZero := MkApiMsgUpdateParams [] None [] |}.
#[global] Instance atf_MsgUpdateParams_ok : WireOk ApiMsgUpdateParams := fun m => opt_ok (ApiMsgUpdateParams_Params m).
#[global] Instance atf_MsgUpdateParams_full : WireFull ApiMsgUpdateParams := fun m => unknown_ok (MsgUpdateParams_cases false) (ApiMsgUpdateParams_unknownFields m) /\ opt_full (ApiMsgUpdateParams_Params m).
#[global] Instance atf_MsgUpdateParams_laws : PulsarLaws ApiMsgUpdateParams.
Proof. pulsar_laws MsgUpdateParams_switch MsgUpdateParams_cases MsgUpdateParams_marshal. Qed.
#[global] Instance atf_MsgUpdateParams_to_api : ToApi MsgUpdateParams ApiMsgUpdateParams := fun a => MkApiMsgUpdateParams (MsgUpdateParams_Authority a) (Some (to_api (MsgUpdateParams_Params a))) [].
#[global] Instance atf_MsgUpdateParams_api : ApiLaws MsgUpdateParams ApiMsgUpdateParams.
Proof. api_laws MsgUpdateParams_switch MsgUpdateParams_marshal. Qed.

(** [QueryParamsResponse]. *)
Record ApiQueryParamsResponse := MkApiQueryParamsResponse { ApiQueryParamsResponse_Params : option ApiParams; ApiQueryParamsResponse_unknownFields : bytes }.
Definition QueryParamsResponse_size (x : ApiQueryParamsResponse) : Z :=
  (match (ApiQueryParamsResponse_Params x) with Some y => size_len (pSize y) | None => 0 end) +
  size_unknown (ApiQueryParamsResponse_unknownFields x).
Definition QueryParamsResponse_marshal (x : ApiQueryParamsResponse) : writer :=
  wunknown (ApiQueryParamsResponse_unknownFields x) ;>
  (match (ApiQueryParamsResponse_Params x) with Some y => wenc Byte.x0a (Some y) | None => wskip end).
Definition QueryParamsResponse_cases (discard : bool) (fieldNum : Z) : option (action ApiQueryParamsResponse) :=
  match fieldNum with
  | 1 => Some (pcase_ptr discard ApiQueryParamsResponse_Params (fun v m => (MkApiQueryParamsResponse v (ApiQueryParamsResponse_unknownFields m))))
  | _ => None
  end.
Definition QueryParamsResponse_switch (discard : bool) : switch ApiQueryParamsResponse :=
  keeping discard ApiQueryParamsResponse_unknownFields (fun v m => (MkApiQueryParamsResponse (ApiQueryParamsResponse_Params m) v)) (QueryParamsResponse_cases discard).
#[global] Instance atf_QueryParamsResponse_msg : PulsarMsg ApiQueryParamsResponse := {|
  pSize := QueryParamsResponse_size; pWrite := QueryParamsResponse_marshal; pUnmarshal := fun discard => unmarshal_with (QueryParamsResponse_switch discard); pZero := MkApiQueryParamsResponse None [] |}.
#[global] Instance atf_QueryParamsResponse_ok : WireOk ApiQueryParamsResponse := fun m => opt_ok (ApiQueryParamsResponse_Params m).
#[global] Instance atf_QueryParamsResponse_full : WireFull ApiQueryParamsResponse := fun m => unknown_ok (QueryParamsResponse_cases false) (ApiQueryParamsResponse_unknownFields m) /\ opt_full (ApiQueryParamsResponse_Params m).
#[global] Instance atf_QueryParamsResponse_laws : PulsarLaws ApiQueryParamsResponse.
Proof. pulsar_laws QueryParamsResponse_switch QueryParamsResponse_cases QueryParamsResponse_marshal. Qed.
#[global] Instance atf_QueryParamsResponse_to_api : ToApi QueryParamsResponse ApiQueryParamsResponse := fun a => MkApiQueryParamsResponse (Some (to_api (QueryParamsResponse_Params a))) [].
#[global] Instance atf_QueryParamsResponse_api : ApiLaws QueryParamsResponse ApiQueryParamsResponse.
Proof. api_laws QueryParamsResponse_switch QueryParamsResponse_marshal. Qed.

(** [QueryDenomAuthorityMetadataRequest]. *)
Record ApiQueryDenomAuthorityMetadataRequest := MkApiQueryDenomAuthorityMetadataRequest { ApiQueryDenomAuthorityMetadataRequest_Denom : bytes; ApiQueryDenomAuthorityMetadataRequest_unknownFields : bytes }.
Definition QueryDenomAuthorityMetadataRequest_size (x : ApiQueryDenomAuthorityMetadataRequest) : Z :=
  (if 0 <? blen (ApiQueryDenomAuthorityMetadataRequest_Denom x) then size_len (blen (ApiQueryDenomAuthorityMetadataRequest_Denom x)) else 0) +
  size_unknown (ApiQueryDenomAuthorityMetadataRequest_unknownFields x).
Definition QueryDenomAuthorityMetadataRequest_marshal (x : ApiQueryDenomAuthorityMetadataRequest) : writer :=
  wunknown (ApiQueryDenomAuthorityMetadataRequest_unknownFields x) ;>
  wif (0 <? blen (ApiQueryDenomAuthorityMetadataRequest_Denom x)) (wlen Byte.x0a (ApiQueryDenomAuthorityMetadataRequest_Denom x)).
Definition QueryDenomAuthorityMetadataRequest_cases (discard : bool) (fieldNum : Z) : option (action ApiQueryDenomAuthorityMetadataRequest) :=
  match fieldNum with
  | 1 => Some (case_string (fun v m => (MkApiQueryDenomAuthorityMetadataRequest v (ApiQueryDenomAuthorityMetadataRequest_unknownFields m))))
  | _ => None
  end.
Definition QueryDenomAuthorityMetadataRequest_switch (discard : bool) : switch ApiQueryDenomAuthorityMetadataRequest :=
  keeping discard ApiQueryDenomAuthorityMetadataRequest_unknownFields (fun v m => (MkApiQueryDenomAuthorityMetadataRequest (ApiQueryDenomAuthorityMetadataRequest_Denom m) v)) (QueryDenomAuthorityMetadataRequest_cases discard).
#[global] Instance atf_QueryDenomAuthorityMetadataRequest_msg : PulsarMsg ApiQueryDenomAuthorityMetadataRequest := {|
  pSize := QueryDenomAuthorityMetadataRequest_size; pWrite := QueryDenomAuthorityMetadataRequest_marshal; pUnmarshal := fun discard => unmarshal_with (QueryDenomAuthorityMetadataRequest_switch discard); pZero := MkApiQueryDenomAuthorityMetadataRequest [] [] |}.
#[global] Instance atf_QueryDenomAuthorityMetadataRequest_ok : WireOk ApiQueryDenomAuthorityMetadataRequest := fun m => True.
#[global] Instance atf_QueryDenomAuthorityMetadataRequest_full : WireFull ApiQueryDenomAuthorityMetadataRequest := fun m => unknown_ok (QueryDenomAuthorityMetadataRequest_cases false) (ApiQueryDenomAuthorityMetadataRequest_unknownFields m).
#[global] Instance atf_QueryDenomAuthorityMetadataRequest_laws : PulsarLaws ApiQueryDenomAuthorityMetadataRequest.
Proof. pulsar_laws QueryDenomAuthorityMetadataRequest_switch QueryDenomAuthorityMetadataRequest_cases QueryDenomAuthorityMetadataRequest_marshal. Qed.
#[global] Instance atf_QueryDenomAuthorityMetadataRequest_to_api : ToApi QueryDenomAuthorityMetadataRequest ApiQueryDenomAuthorityMetadataRequest := fun a => MkApiQueryDenomAuthorityMetadataRequest (QueryDenomAuthorityMetadataRequest_Denom a) [].
#[global] Instance atf_QueryDenomAuthorityMetadataRequest_api : ApiLaws QueryDenomAuthorityMetadataRequest ApiQueryDenomAuthorityMetadataRequest.
Proof. api_laws QueryDenomAuthorityMetadataRequest_switch QueryDenomAuthorityMetadataRequest_marshal. Qed.

(** [QueryDenomAuthorityMetadataResponse]. *)
Record ApiQueryDenomAuthorityMetadataResponse := MkApiQueryDenomAuthorityMetadataResponse { ApiQueryDenomAuthorityMetadataResponse_AuthorityMetadata : option ApiDenomAuthorityMetadata; ApiQueryDenomAuthorityMetadataResponse_unknownFields : bytes }.
Definition QueryDenomAuthorityMetadataResponse_size (x : ApiQueryDenomAuthorityMetadataResponse) : Z :=
  (match (ApiQueryDenomAuthorityMetadataResponse_AuthorityMetadata x) with Some y => size_len (pSize y) | None => 0 end) +
  size_unknown (ApiQueryDenomAuthorityMetadataResponse_unknownFields x).
Definition QueryDenomAuthorityMetadataResponse_marshal (x : ApiQueryDenomAuthorityMetadataResponse) : writer :=
  wunknown (ApiQueryDenomAuthorityMetadataResponse_unknownFields x) ;>
  (match (ApiQueryDenomAuthorityMetadataResponse_AuthorityMetadata x) with Some y => wenc Byte.x0a (Some y) | None => wskip end).
Definition QueryDenomAuthorityMetadataResponse_cases (discard : bool) (fieldNum : Z) : option (action ApiQueryDenomAuthorityMetadataResponse) :=
  match fieldNum with
  | 1 => Some (pcase_ptr discard ApiQueryDenomAuthorityMetadataResponse_AuthorityMetadata (fun v m => (MkApiQueryDenomAuthorityMetadataResponse v (ApiQueryDenomAuthorityMetadataResponse_unknownFields m))))
  | _ => None
  end.
Definition QueryDenomAuthorityMetadataResponse_switch (discard : bool) : switch ApiQueryDenomAuthorityMetadataResponse :=
  keeping discard ApiQueryDenomAuthorityMetadataResponse_unknownFields (fun v m => (MkApiQueryDenomAuthorityMetadataResponse (ApiQueryDenomAuthorityMetadataResponse_AuthorityMetadata m) v)) (QueryDenomAuthorityMetadataResponse_cases discard).
#[global] Instance atf_QueryDenomAuthorityMetadataResponse_msg : PulsarMsg ApiQueryDenomAuthorityMetadataResponse := {|
  pSize := QueryDenomAuthorityMetadataResponse_size; pWrite := QueryDenomAuthorityMetadataResponse_marshal; pUnmarshal := fun discard => unmarshal_with (QueryDenomAuthorityMetadataResponse_switch discard); pZero := MkApiQueryDenomAuthorityMetadataResponse None [] |}.
#[global] Instance atf_QueryDenomAuthorityMetadataResponse_ok : WireOk ApiQueryDenomAuthorityMetadataResponse := fun m => opt_ok (ApiQueryDenomAuthorityMetadataResponse_AuthorityMetadata m).
#[global] Instance atf_QueryDenomAuthorityMetadataResponse_full : WireFull ApiQueryDenomAuthorityMetadataResponse := fun m => unknown_ok (QueryDenomAuthorityMetadataResponse_cases false) (ApiQueryDenomAuthorityMetadataResponse_unknownFields m) /\ opt_full (ApiQueryDenomAuthorityMetadataResponse_AuthorityMetadata m).
#[global] Instance atf_QueryDenomAuthorityMetadataResponse_laws : PulsarLaws ApiQueryDenomAuthorityMetadataResponse.
Proof. pulsar_laws QueryDenomAuthorityMetadataResponse_switch QueryDenomAuthorityMetadataResponse_cases QueryDenomAuthorityMetadataResponse_marshal. Qed.
#[global] Instance atf_QueryDenomAuthorityMetadataResponse_to_api : ToApi QueryDenomAuthorityMetadataResponse ApiQueryDenomAuthorityMetadataResponse := fun a => MkApiQueryDenomAuthorityMetadataResponse (Some (to_api (QueryDenomAuthorityMetadataResponse_AuthorityMetadata a))) [].
#[global] Instance atf_QueryDenomAuthorityMetadataResponse_api : ApiLaws QueryDenomAuthorityMetadataResponse ApiQueryDenomAuthorityMetadataResponse.
Proof. api_laws QueryDenomAuthorityMetadataResponse_switch QueryDenomAuthorityMetadataResponse_marshal. Qed.

(** [QueryDenomsFromCreatorRequest]. *)
Record ApiQueryDenomsFromCreatorRequest := MkApiQueryDenomsFromCreatorRequest { ApiQueryDenomsFromCreatorRequest_Creator : bytes; ApiQueryDenomsFromCreatorRequest_unknownFields : bytes }.
Definition QueryDenomsFromCreatorRequest_size (x : ApiQueryDenomsFromCreatorRequest) : Z :=
  (if 0 <? blen (ApiQueryDenomsFromCreatorRequest_Creator x) then size_len (blen (ApiQueryDenomsFromCreatorRequest_Creator x)) else 0) +
  size_unknown (ApiQueryDenomsFromCreatorRequest_unknownFields x).
Definition QueryDenomsFromCreatorRequest_marshal (x : ApiQueryDenomsFromCreatorRequest) : writer :=
  wunknown (ApiQueryDenomsFromCreatorRequest_unknownFields x) ;>
  wif (0 <? blen (ApiQueryDenomsFromCreatorRequest_Creator x)) (wlen Byte.x0a (ApiQueryDenomsFromCreatorRequest_Creator x)).
Definition QueryDenomsFromCreatorRequest_cases (discard : bool) (fieldNum : Z) : option (action ApiQueryDenomsFromCreatorRequest) :=
  match fieldNum with
  | 1 => Some (case_string (fun v m => (MkApiQueryDenomsFromCreatorRequest v (ApiQueryDenomsFromCreatorRequest_unknownFields m))))
  | _ => None
  end.
Definition QueryDenomsFromCreatorRequest_switch (discard : bool) : switch ApiQueryDenomsFromCreatorRequest :=
  keeping discard ApiQueryDenomsFromCreatorRequest_unknownFields (fun v m => (MkApiQueryDenomsFromCreatorRequest (ApiQueryDenomsFromCreatorRequest_Creator m) v)) (QueryDenomsFromCreatorRequest_cases discard).
#[global] Instance atf_QueryDenomsFromCreatorRequest_msg : PulsarMsg ApiQueryDenomsFromCreatorRequest := {|
  pSize := QueryDenomsFromCreatorRequest_size; pWrite := QueryDenomsFromCreatorRequest_marshal; pUnmarshal := fun discard => unmarshal_with (QueryDenomsFromCreatorRequest_switch discard); pZero := MkApiQueryDenomsFromCreatorRequest [] [] |}.
#[global] Instance atf_QueryDenomsFromCreatorRequest_ok : WireOk ApiQueryDenomsFromCreatorRequest := fun m => True.
#[global] Instance atf_QueryDenomsFromCreatorRequest_full : WireFull ApiQueryDenomsFromCreatorRequest := fun m => unknown_ok (QueryDenomsFromCreatorRequest_cases false) (ApiQueryDenomsFromCreatorRequest_unknownFields m).
#[global] Instance atf_QueryDenomsFromCreatorRequest_laws : PulsarLaws ApiQueryDenomsFromCreatorRequest.
Proof. pulsar_laws QueryDenomsFromCreatorRequest_switch QueryDenomsFromCreatorRequest_cases QueryDenomsFromCreatorRequest_marshal. Qed.
#[global] Instance atf_QueryDenomsFromCreatorRequest_to_api : ToApi QueryDenomsFromCreatorRequest ApiQueryDenomsFromCreatorRequest := fun a => MkApiQueryDenomsFromCreatorRequest (QueryDenomsFromCreatorRequest_Creator a) [].
#[global] Instance atf_QueryDenomsFromCreatorRequest_api : ApiLaws QueryDenomsFromCreatorRequest ApiQueryDenomsFromCreatorRequest.
Proof. api_laws QueryDenomsFromCreatorRequest_switch QueryDenomsFromCreatorRequest_marshal. Qed.

(** [QueryDenomsFromCreatorResponse]. *)
Record ApiQueryDenomsFromCreatorResponse := MkApiQueryDenomsFromCreatorResponse { ApiQueryDenomsFromCreatorResponse_Denoms : list bytes; ApiQueryDenomsFromCreatorResponse_unknownFields : bytes }.
Definition QueryDenomsFromCreatorResponse_size (x : ApiQueryDenomsFromCreatorResponse) : Z :=
  (if 0 <? Z.of_nat (length (ApiQueryDenomsFromCreatorResponse_Denoms x)) then size_each (fun s => size_len (blen s)) (ApiQueryDenomsFromCreatorResponse_Denoms x) else 0) +
  size_unknown (ApiQueryDenomsFromCreatorResponse_unknownFields x).
Definition QueryDenomsFromCreatorResponse_marshal (x : ApiQueryDenomsFromCreatorResponse) : writer :=
  wunknown (ApiQueryDenomsFromCreatorResponse_unknownFields x) ;>
  wif (0 <? Z.of_nat (length (ApiQueryDenomsFromCreatorResponse_Denoms x))) (wdown (ApiQueryDenomsFromCreatorResponse_Denoms x) (wlen Byte.x0a)).
Definition QueryDenomsFromCreatorResponse_cases (discard : bool) (fieldNum : Z) : option (action ApiQueryDenomsFromCreatorResponse) :=
  match fieldNum with
  | 1 => Some (case_strings ApiQueryDenomsFromCreatorResponse_Denoms (fun v m => (MkApiQueryDenomsFromCreatorResponse v (ApiQueryDenomsFromCreatorResponse_unknownFields m))))
  | _ => None
  end.
Definition QueryDenomsFromCreatorResponse_switch (discard : bool) : switch ApiQueryDenomsFromCreatorResponse :=
  keeping discard ApiQueryDenomsFromCreatorResponse_unknownFields (fun v m => (MkApiQueryDenomsFromCreatorResponse (ApiQueryDenomsFromCreatorResponse_Denoms m) v)) (QueryDenomsFromCreatorResponse_cases discard).
#[global] Instance atf_QueryDenomsFromCreatorResponse_msg : PulsarMsg ApiQueryDenomsFromCreatorResponse := {|
  pSize := QueryDenomsFromCreatorResponse_size; pWrite := QueryDenomsFromCreatorResponse_marshal; pUnmarshal := fun discard => unmarshal_with (QueryDenomsFromCreatorResponse_switch discard); pZero := MkApiQueryDenomsFromCreatorResponse [] [] |}.
#[global] Instance atf_QueryDenomsFromCreatorResponse_ok : WireOk ApiQueryDenomsFromCreatorResponse := fun m => True.
#[global] Instance atf_QueryDenomsFromCreatorResponse_full : WireFull ApiQueryDenomsFromCreatorResponse := fun m => unknown_ok (QueryDenomsFromCreatorResponse_cases false) (ApiQueryDenomsFromCreatorResponse_unknownFields m).
#[global] Instance atf_QueryDenomsFromCreatorResponse_laws : PulsarLaws ApiQueryDenomsFromCreatorResponse.
Proof. pulsar_laws QueryDenomsFromCreatorResponse_switch QueryDenomsFromCreatorResponse_cases QueryDenomsFromCreatorResponse_marshal. Qed.
#[global] Instance atf_QueryDenomsFromCreatorResponse_to_api : ToApi QueryDenomsFromCreatorResponse ApiQueryDenomsFromCreatorResponse := fun a => MkApiQueryDenomsFromCreatorResponse (QueryDenomsFromCreatorResponse_Denoms a) [].
#[global] Instance atf_QueryDenomsFromCreatorResponse_api : ApiLaws QueryDenomsFromCreatorResponse ApiQueryDenomsFromCreatorResponse.
Proof. api_laws QueryDenomsFromCreatorResponse_switch QueryDenomsFromCreatorResponse_marshal. Qed.

End Api.
