(* ===== verification/ApiDrip.v ===== *)
(** * drip: the codec of the API types

    [api/terp/drip/v1/*.pulsar.go]: [size], [marshal] and
    [unmarshal] of every message with fields, and the agreement with
    the codec of [x/drip/types]. *)

From S2P Require Import Prelude Proto Sdk Drip Wire WireLaws WireDrip Pulsar.

Open Scope go_scope.

Section Api.
Context {RT : WireRuntime} {RL : RuntimeLaws} {OP : Options}.
Context {ApiCoin : Type} {WCoin : WireMsg Coin} {FCoin : WireFull Coin} {LCoin : WireLaws Coin}
  {PCoin : PulsarMsg ApiCoin} {POCoin : WireOk ApiCoin} {PFCoin : WireFull ApiCoin} {PLCoin : PulsarLaws ApiCoin}
  {TCoin : ToApi Coin ApiCoin} {ACoin : ApiLaws Coin ApiCoin}.

(** [Params]. *)
Record ApiParams := MkApiParams { ApiParams_EnableDrip : bool; ApiParams_AllowedAddresses : list bytes; ApiParams_unknownFields : bytes }.
Definition Params_size (x : ApiParams) : Z :=
  (if (ApiParams_EnableDrip x) then 2 else 0) +
  (if 0 <? Z.of_nat (length (ApiParams_AllowedAddresses x)) then size_each (fun s => size_len (blen s)) (ApiParams_AllowedAddresses x) else 0) +
  size_unknown (ApiParams_unknownFields x).
Definition Params_marshal (x : ApiParams) : writer :=
  wunknown (ApiParams_unknownFields x) ;>
  wif (0 <? Z.of_nat (length (ApiParams_AllowedAddresses x))) (wdown (ApiParams_AllowedAddresses x) (wlen Byte.x1a)) ;>
  wif (ApiParams_EnableDrip x) (wbool (ApiParams_EnableDrip x) ;> wbyte Byte.x08).
Definition Params_cases (discard : bool) (fieldNum : Z) : option (action ApiParams) :=
  match fieldNum with
  | 1 => Some (case_bool (fun v m => (MkApiParams v (ApiParams_AllowedAddresses m) (ApiParams_unknownFields m))))
  | 3 => Some (case_strings ApiParams_AllowedAddresses (fun v m => (MkApiParams (ApiParams_EnableDrip m) v (ApiParams_unknownFields m))))
  | _ => None
  end.
Definition Params_switch (discard : bool) : switch ApiParams :=
  keeping discard ApiParams_unknownFields (fun v m => (MkApiParams (ApiParams_EnableDrip m) (ApiParams_AllowedAddresses m) v)) (Params_cases discard).
#[global] Instance adr_Params_msg : PulsarMsg ApiParams := {|
  pSize := Params_size; pWrite := Params_marshal; pUnmarshal := fun discard => unmarshal_with (Params_switch discard); pZero := MkApiParams false [] [] |}.
#[global] Instance adr_Params_ok : WireOk ApiParams := fun m => True.
#[global] Instance adr_Params_full : WireFull ApiParams := fun m => unknown_ok (Params_cases false) (ApiParams_unknownFields m).
#[global] Instance adr_Params_laws : PulsarLaws ApiParams.
Proof. pulsar_laws Params_switch Params_cases Params_marshal. Qed.
#[global] Instance adr_Params_to_api : ToApi DripParams ApiParams := fun a => MkApiParams (EnableDrip a) (AllowedAddresses a) [].
#[global] Instance adr_Params_api : ApiLaws DripParams ApiParams.
Proof. api_laws Params_switch Params_marshal. Qed.

(** [GenesisState]. *)
Record ApiGenesisState := MkApiGenesisState { ApiGenesisState_Params : option ApiParams; ApiGenesisState_unknownFields : bytes }.
Definition GenesisState_size (x : ApiGenesisState) : Z :=
  (match (ApiGenesisState_Params x) with Some y => size_len (pSize y) | None => 0 end) +
  size_unknown (ApiGenesisState_unknownFields x).
Definition GenesisState_marshal (x : ApiGenesisState) : writer :=
  wunknown (ApiGenesisState_unknownFields x) ;>
  (match (ApiGenesisState_Params x) with Some y => wenc Byte.x0a (Some y) | None => wskip end).
Definition GenesisState_cases (discard : bool) (fieldNum : Z) : option (action ApiGenesisState) :=
  match fieldNum with
  | 1 => Some (pcase_ptr discard ApiGenesisState_Params (fun v m => (MkApiGenesisState v (ApiGenesisState_unknownFields m))))
  | _ => None
  end.
Definition GenesisState_switch (discard : bool) : switch ApiGenesisState :=
  keeping discard ApiGenesisState_unknownFields (fun v m => (MkApiGenesisState (ApiGenesisState_Params m) v)) (GenesisState_cases discard).
#[global] Instance adr_GenesisState_msg : PulsarMsg ApiGenesisState := {|
  pSize := GenesisState_size; pWrite := GenesisState_marshal; pUnmarshal := fun discard => unmarshal_with (GenesisState_switch discard); pZero := MkApiGenesisState None [] |}.
#[global] Instance adr_GenesisState_ok : WireOk ApiGenesisState := fun m => opt_ok (ApiGenesisState_Params m).
#[global] Instance adr_GenesisState_full : WireFull ApiGenesisState := fun m => unknown_ok (GenesisState_cases false) (ApiGenesisState_unknownFields m) /\ opt_full (ApiGenesisState_Params m).
#[global] Instance adr_GenesisState_laws : PulsarLaws ApiGenesisState.
Proof. pulsar_laws GenesisState_switch GenesisState_cases GenesisState_marshal. Qed.
#[global] Instance adr_GenesisState_to_api : ToApi GenesisState ApiGenesisState := fun a => MkApiGenesisState (Some (to_api (GenesisState_Params a))) [].
#[global] Instance adr_GenesisState_api : ApiLaws GenesisState ApiGenesisState.
Proof. api_laws GenesisState_switch GenesisState_marshal. Qed.

(** [MsgDistributeTokens]. *)
Record ApiMsgDistributeTokens := MkApiMsgDistributeTokens { ApiMsgDistributeTokens_SenderAddress : bytes; ApiMsgDistributeTokens_Amount : list (option ApiCoin); ApiMsgDistributeTokens_unknownFields : bytes }.
Definition MsgDistributeTokens_size (x : ApiMsgDistributeTokens) : Z :=
  (if 0 <? blen (ApiMsgDistributeTokens_SenderAddress x) then size_len (blen (ApiMsgDistributeTokens_SenderAddress x)) else 0) +
  (if 0 <? Z.of_nat (length (ApiMsgDistributeTokens_Amount x)) then size_each (fun e => size_len (pSize_ptr e)) (ApiMsgDistributeTokens_Amount x) else 0) +
  size_unknown (ApiMsgDistributeTokens_unknownFields x).
Definition MsgDistributeTokens_marshal (x : ApiMsgDistributeTokens) : writer :=
  wunknown (ApiMsgDistributeTokens_unknownFields x) ;>
  wif (0 <? Z.of_nat (length (ApiMsgDistributeTokens_Amount x))) (wdown (ApiMsgDistributeTokens_Amount x) (wenc Byte.x12)) ;>
  wif (0 <? blen (ApiMsgDistributeTokens_SenderAddress x)) (wlen Byte.x0a (ApiMsgDistributeTokens_SenderAddress x)).
Definition MsgDistributeTokens_cases (discard : bool) (fieldNum : Z) : option (action ApiMsgDistributeTokens) :=
  match fieldNum with
  | 1 => Some (case_string (fun v m => (MkApiMsgDistributeTokens v (ApiMsgDistributeTokens_Amount m) (ApiMsgDistributeTokens_unknownFields m))))
  | 2 => Some (pcase_rep discard ApiMsgDistributeTokens_Amount (fun v m => (MkApiMsgDistributeTokens (ApiMsgDistributeTokens_SenderAddress m) v (ApiMsgDistributeTokens_unknownFields m))))
  | _ => None
  end.
Definition MsgDistributeTokens_switch (discard : bool) : switch ApiMsgDistributeTokens :=
  keeping discard ApiMsgDistributeTokens_unknownFields (fun v m => (MkApiMsgDistributeTokens (ApiMsgDistributeTokens_SenderAddress m) (ApiMsgDistributeTokens_Amount m) v)) (MsgDistributeTokens_cases discard).
#[global] Instance adr_MsgDistributeTokens_msg : PulsarMsg ApiMsgDistributeTokens := {|
  pSize := MsgDistributeTokens_size; pWrite := MsgDistributeTokens_marshal; pUnmarshal := fun discard => unmarshal_with (MsgDistributeTokens_switch discard); pZero := MkApiMsgDistributeTokens [] [] [] |}.
#[global] Instance adr_MsgDistributeTokens_ok : WireOk ApiMsgDistributeTokens := fun m => Forall (ptr wire_ok) (ApiMsgDistributeTokens_Amount m).
#[global] Instance adr_MsgDistributeTokens_full : WireFull ApiMsgDistributeTokens := fun m => unknown_ok (MsgDistributeTokens_cases false) (ApiMsgDistributeTokens_unknownFields m) /\ Forall (ptr wire_full) (ApiMsgDistributeTokens_Amount m).
#[global] Instance adr_MsgDistributeTokens_laws : PulsarLaws ApiMsgDistributeTokens.
Proof. pulsar_laws MsgDistributeTokens_switch MsgDistributeTokens_cases MsgDistributeTokens_marshal. Qed.
#[global] Instance adr_MsgDistributeTokens_to_api : ToApi MsgDistributeTokens ApiMsgDistributeTokens := fun a => MkApiMsgDistributeTokens (dt_SenderAddress a) (map (fun e => Some (to_api e)) (dt_Amount a)) [].
#[global] Instance adr_MsgDistributeTokens_api : ApiLaws MsgDistributeTokens ApiMsgDistributeTokens.
Proof. api_laws MsgDistributeTokens_switch MsgDistributeTokens_marshal. Qed.

(** [MsgUpdateParams]. *)
Record ApiMsgUpdateParams := MkApiMsgUpdateParams { ApiMsgUpdateParams_Authority : bytes; ApiMsgUpdateParams_Params : option ApiParams; ApiMsgUpdateParams_unknownFields : bytes }.
Definition MsgUpdateParams_size (x : ApiMsgUpdateParams) : Z :=
  (if 0 <? blen (ApiMsgUpdateParams_Authority x) then size_len (blen (ApiMsgUpdateParams_Authority x)) else 0) +
  (match (ApiMsgUpdateParams_Params x) with Some y => size_len (pSize y) | None => 0 end) +
  size_unknown (ApiMsgUpdateParams_unknownFields x).
Definition MsgUpdateParams_marshal (x : ApiMsgUpdateParams) : writer :=
  wunknown (ApiMsgUpdateParams_unknownFields x) ;>
  (match (ApiMsgUpdateParams_Params x) with Some y => wenc Byte.x12 (Some y) | None => wskip end) ;>
  wif (0 <? blen (ApiMsgUpdateParams_Authority x)) (wlen Byte.x0a (ApiMsgUpdateParams_Authority x)).
Definition MsgUpdateParams_cases (discard : bool) (fieldNum : Z) : option (action ApiMsgUpdateParams) :=
  match fieldNum with
  | 1 => Some (case_string (fun v m => (MkApiMsgUpdateParams v (ApiMsgUpdateParams_Params m) (ApiMsgUpdateParams_unknownFields m))))
  | 2 => Some (pcase_ptr discard ApiMsgUpdateParams_Params (fun v m => (MkApiMsgUpdateParams (ApiMsgUpdateParams_Authority m) v (ApiMsgUpdateParams_unknownFields m))))
  | _ => None
  end.
Definition MsgUpdateParams_switch (discard : bool) : switch ApiMsgUpdateParams :=
  keeping discard ApiMsgUpdateParams_unknownFields (fun v m => (MkApiMsgUpdateParams (ApiMsgUpdateParams_Authority m) (ApiMsgUpdateParams_Params m) v)) (MsgUpdateParams_cases discard).
#[global] Instance adr_MsgUpdateParams_msg : PulsarMsg ApiMsgUpdateParams := {|
  pSize := MsgUpdateParams_size; pWrite := MsgUpdateParams_marshal; pUnmarshal := fun discard => unmarshal_with (MsgUpdateParams_switch discard); pZero := MkApiMsgUpdateParams [] None [] |}.
#[global] Instance adr_MsgUpdateParams_ok : WireOk ApiMsgUpdateParams := fun m => opt_ok (ApiMsgUpdateParams_Params m).
#[global] Instance adr_MsgUpdateParams_full : WireFull ApiMsgUpdateParams := fun m => unknown_ok (MsgUpdateParams_cases false) (ApiMsgUpdateParams_unknownFields m) /\ opt_full (ApiMsgUpdateParams_Params m).
#[global] Instance adr_MsgUpdateParams_laws : PulsarLaws ApiMsgUpdateParams.
Proof. pulsar_laws MsgUpdateParams_switch MsgUpdateParams_cases MsgUpdateParams_marshal. Qed.
#[global] Instance adr_MsgUpdateParams_to_api : ToApi MsgUpdateParams ApiMsgUpdateParams := fun a => MkApiMsgUpdateParams (MsgUpdateParams_Authority a) (Some (to_api (MsgUpdateParams_Params a))) [].
#[global] Instance adr_MsgUpdateParams_api : ApiLaws MsgUpdateParams ApiMsgUpdateParams.
Proof. api_laws MsgUpdateParams_switch MsgUpdateParams_marshal. Qed.

(** [QueryParamsResponse]. *)
Record ApiQueryParamsResponse := MkApiQueryParamsResponse { ApiQueryParamsResponse_Params : option ApiParams; ApiQueryParamsResponse_unknownFields : bytes }.
Definition QueryParamsResponse_size (x : ApiQueryParamsResponse) : Z :=
  (match (ApiQueryParamsResponse_Params x) with Some y => size_len (pSize y) | None => 0 end) +
  size_unknown (ApiQueryParamsResponse_unknownFields x).
Definition QueryParamsResponse_marshal (x : ApiQueryParamsResponse) : writer :=
  wunknown (ApiQueryParamsResponse_unknownFields x) ;>
  (match (ApiQueryParamsResponse_Params x) with Some y => wenc Byte.x0a (Some y) | None => wskip end).
Definition QueryParamsResponse_cases (discard : bool) (fieldNum : Z) : option (action ApiQueryParamsResponse) :=
  match fieldNum with
  | 1 => Some (pcase_ptr discard ApiQueryParamsResponse_Params (fun v m => (MkApiQueryParamsResponse v (ApiQueryParamsResponse_unknownFields m))))
  | _ => None
  end.
Definition QueryParamsResponse_switch (discard : bool) : switch ApiQueryParamsResponse :=
  keeping discard ApiQueryParamsResponse_unknownFields (fun v m => (MkApiQueryParamsResponse (ApiQueryParamsResponse_Params m) v)) (QueryParamsResponse_cases discard).
#[global] Instance adr_QueryParamsResponse_msg : PulsarMsg ApiQueryParamsResponse := {|
  pSize := QueryParamsResponse_size; pWrite := QueryParamsResponse_marshal; pUnmarshal := fun discard => unmarshal_with (QueryParamsResponse_switch discard); pZero := MkApiQueryParamsResponse None [] |}.
#[global] Instance adr_QueryParamsResponse_ok : WireOk ApiQueryParamsResponse := fun m => opt_ok (ApiQueryParamsResponse_Params m).
#[global] Instance adr_QueryParamsResponse_full : WireFull ApiQueryParamsResponse := fun m => unknown_ok (QueryParamsResponse_cases false) (ApiQueryParamsResponse_unknownFields m) /\ opt_full (ApiQueryParamsResponse_Params m).
#[global] Instance adr_QueryParamsResponse_laws : PulsarLaws ApiQueryParamsResponse.
Proof. pulsar_laws QueryParamsResponse_switch QueryParamsResponse_cases QueryParamsResponse_marshal. Qed.
#[global] Instance adr_QueryParamsResponse_to_api : ToApi QueryParamsResponse ApiQueryParamsResponse := fun a => MkApiQueryParamsResponse (Some (to_api (QueryParamsResponse_Params a))) [].
#[global] Instance adr_QueryParamsResponse_api : ApiLaws QueryParamsResponse ApiQueryParamsResponse.
Proof. api_laws QueryParamsResponse_switch QueryParamsResponse_marshal. Qed.

End Api.
