(* ===== verification/ApiGf.v ===== *)
(** * globalfee: the codec of the API types

    [api/gaia/globalfee/v1beta1/*.pulsar.go]: [size], [marshal] and
    [unmarshal] of every message with fields, and the agreement with
    the codec of [x/globalfee/types]. *)

From S2P Require Import Prelude Proto Wire WireLaws WireGf Pulsar.

Open Scope go_scope.

Section Api.
Context {RT : WireRuntime} {RL : RuntimeLaws} {OP : Options}.
Context {DecCoin ApiDecCoin : Type} {WDecCoin : WireMsg DecCoin} {ODecCoin : WireOk DecCoin} {FDecCoin : WireFull DecCoin} {LDecCoin : WireLaws DecCoin}
  {PDecCoin : PulsarMsg ApiDecCoin} {PODecCoin : WireOk ApiDecCoin} {PFDecCoin : WireFull ApiDecCoin} {PLDecCoin : PulsarLaws ApiDecCoin}
  {TDecCoin : ToApi DecCoin ApiDecCoin} {ADecCoin : ApiLaws DecCoin ApiDecCoin}.

(** [Params]. *)
Record ApiParams := MkApiParams { ApiParams_MinimumGasPrices : list (option ApiDecCoin); ApiParams_unknownFields : bytes }.
Definition Params_size (x : ApiParams) : Z :=
  (if 0 <? Z.of_nat (length (ApiParams_MinimumGasPrices x)) then size_each (fun e => size_len (pSize_ptr e)) (ApiParams_MinimumGasPrices x) else 0) +
  size_unknown (ApiParams_unknownFields x).
Definition Params_marshal (x : ApiParams) : writer :=
  wunknown (ApiParams_unknownFields x) ;>
  wif (0 <? Z.of_nat (length (ApiParams_MinimumGasPrices x))) (wdown (ApiParams_MinimumGasPrices x) (wenc Byte.x0a)).
Definition Params_cases (discard : bool) (fieldNum : Z) : option (action ApiParams) :=
  match fieldNum with
  | 1 => Some (pcase_rep discard ApiParams_MinimumGasPrices (fun v m => (MkApiParams v (ApiParams_unknownFields m))))
  | _ => None
  end.
Definition Params_switch (discard : bool) : switch ApiParams :=
  keeping discard ApiParams_unknownFields (fun v m => (MkApiParams (ApiParams_MinimumGasPrices m) v)) (Params_cases discard).
#[global] Instance agf_Params_msg : PulsarMsg ApiParams := {|
  pSize := Params_size; pWrite := Params_marshal; pUnmarshal := fun discard => unmarshal_with (Params_switch discard); pZero := MkApiParams [] [] |}.
#[global] Instance agf_Params_ok : WireOk ApiParams := fun m => Forall (ptr wire_ok) (ApiParams_MinimumGasPrices m).
#[global] Instance agf_Params_full : WireFull ApiParams := fun m => unknown_ok (Params_cases false) (ApiParams_unknownFields m) /\ Forall (ptr wire_full) (ApiParams_MinimumGasPrices m).
#[global] Instance agf_Params_laws : PulsarLaws ApiParams.
Proof. pulsar_laws Params_switch Params_cases Params_marshal. Qed.
#[global] Instance agf_Params_to_api : ToApi (@Params DecCoin) ApiParams := fun a => MkApiParams (map (fun e => Some (to_api e)) (Params_MinimumGasPrices a)) [].
#[global] Instance agf_Params_api : ApiLaws (@Params DecCoin) ApiParams.
Proof. api_laws Params_switch Params_marshal. Qed.

(** [GenesisState]. *)
Record ApiGenesisState := MkApiGenesisState { ApiGenesisState_Params : option ApiParams; ApiGenesisState_unknownFields : bytes }.
Definition GenesisState_size (x : ApiGenesisState) : Z :=
  (match (ApiGenesisState_Params x) with Some y => size_len (pSize y) | None => 0 end) +
  size_unknown (ApiGenesisState_unknownFields x).
Definition GenesisState_marshal (x : ApiGenesisState) : writer :=
  wunknown (ApiGenesisState_unknownFields x) ;>
  (match (ApiGenesisState_Params x) with Some y => wenc Byte.x0a (Some y) | None => wskip end).
Definition GenesisState_cases (discard : bool) (fieldNum : Z) : option (action ApiGenesisState) :=
  match fieldNum with
  | 1 => Some (pcase_ptr discard ApiGenesisState_Params (fun v m => (MkApiGenesisState v (ApiGenesisState_unknownFields m))))
  | _ => None
  end.
Definition GenesisState_switch (discard : bool) : switch ApiGenesisState :=
  keeping discard ApiGenesisState_unknownFields (fun v m => (MkApiGenesisState (ApiGenesisState_Params m) v)) (GenesisState_cases discard).
#[global] Instance agf_GenesisState_msg : PulsarMsg ApiGenesisState := {|
  pSize := GenesisState_size; pWrite := GenesisState_marshal; pUnmarshal := fun discard => unmarshal_with (GenesisState_switch discard); pZero := MkApiGenesisState None [] |}.
#[global] Instance agf_GenesisState_ok : WireOk ApiGenesisState := fun m => opt_ok (ApiGenesisState_Params m).
#[global] Instance agf_GenesisState_full : WireFull ApiGenesisState := fun m => unknown_ok (GenesisState_cases false) (ApiGenesisState_unknownFields m) /\ opt_full (ApiGenesisState_Params m).
#[global] Instance agf_GenesisState_laws : PulsarLaws ApiGenesisState.
Proof. pulsar_laws GenesisState_switch GenesisState_cases GenesisState_marshal. Qed.
#[global] Instance agf_GenesisState_to_api : ToApi (@GenesisState DecCoin) ApiGenesisState := fun a => MkApiGenesisState (Some (to_api (GenesisState_Params a))) [].
#[global] Instance agf_GenesisState_api : ApiLaws (@GenesisState DecCoin) ApiGenesisState.
Proof. api_laws GenesisState_switch GenesisState_marshal. Qed.

(** [MsgUpdateParams]. *)
Record ApiMsgUpdateParams := MkApiMsgUpdateParams { ApiMsgUpdateParams_Authority : bytes; ApiMsgUpdateParams_Params : option ApiParams; ApiMsgUpdateParams_unknownFields : bytes }.
Definition MsgUpdateParams_size (x : ApiMsgUpdateParams) : Z :=
  (if 0 <? blen (ApiMsgUpdateParams_Authority x) then size_len (blen (ApiMsgUpdateParams_Authority x)) else 0) +
  (match (ApiMsgUpdateParams_Params x) with Some y => size_len (pSize y) | None => 0 end) +
  size_unknown (ApiMsgUpdateParams_unknownFields x).
Definition MsgUpdateParams_marshal (x : ApiMsgUpdateParams) : writer :=
  wunknown (ApiMsgUpdateParams_unknownFields x) ;>
  (match (ApiMsgUpdateParams_Params x) with Some y => wenc Byte.x12 (Some y) | None => wskip end) ;>
  wif (0 <? blen (ApiMsgUpdateParams_Authority x)) (wlen Byte.x0a (ApiMsgUpdateParams_Authority x)).
Definition MsgUpdateParams_cases (discard : bool) (fieldNum : Z) : option (action ApiMsgUpdateParams) :=
  match fieldNum with
  | 1 => Some (case_string (fun v m => (MkApiMsgUpdateParams v (ApiMsgUpdateParams_Params m) (ApiMsgUpdateParams_unknownFields m))))
  | 2 => Some (pcase_ptr discard ApiMsgUpdateParams_Params (fun v m => (MkApiMsgUpdateParams (ApiMsgUpdateParams_Authority m) v (ApiMsgUpdateParams_unknownFields m))))
  | _ => None
  end.
Definition MsgUpdateParams_switch (discard : bool) : switch ApiMsgUpdateParams :=
  keeping discard ApiMsgUpdateParams_unknownFields (fun v m => (MkApiMsgUpdateParams (ApiMsgUpdateParams_Authority m) (ApiMsgUpdateParams_Params m) v)) (MsgUpdateParams_cases discard).
#[global] Instance agf_MsgUpdateParams_msg : PulsarMsg ApiMsgUpdateParams := {|
  pSize := MsgUpdateParams_size; pWrite := MsgUpdateParams_marshal; pUnmarshal := fun discard => unmarshal_with (MsgUpdateParams_switch discard); pZero := MkApiMsgUpdateParams [] None [] |}.
#[global] Instance agf_MsgUpdateParams_ok : WireOk ApiMsgUpdateParams := fun m => opt_ok (ApiMsgUpdateParams_Params m).
#[global] Instance agf_MsgUpdateParams_full : WireFull ApiMsgUpdateParams := fun m => unknown_ok (MsgUpdateParams_cases false) (ApiMsgUpdateParams_unknownFields m) /\ opt_full (ApiMsgUpdateParams_Params m).
#[global] Instance agf_MsgUpdateParams_laws : PulsarLaws ApiMsgUpdateParams.
Proof. pulsar_laws MsgUpdateParams_switch MsgUpdateParams_cases MsgUpdateParams_marshal. Qed.
#[global] Instance agf_MsgUpdateParams_to_api : ToApi (@MsgUpdateParams DecCoin) ApiMsgUpdateParams := fun a => MkApiMsgUpdateParams (MsgUpdateParams_Authority a) (Some (to_api (MsgUpdateParams_Params a))) [].
#[global] Instance agf_MsgUpdateParams_api : ApiLaws (@MsgUpdateParams DecCoin) ApiMsgUpdateParams.
Proof. api_laws MsgUpdateParams_switch MsgUpdateParams_marshal. Qed.

(** [QueryMinimumGasPricesResponse]. *)
Record ApiQueryMinimumGasPricesResponse := MkApiQueryMinimumGasPricesResponse { ApiQueryMinimumGasPricesResponse_MinimumGasPrices : list (option ApiDecCoin); ApiQueryMinimumGasPricesResponse_unknownFields : bytes }.
Definition QueryMinimumGasPricesResponse_size (x : ApiQueryMinimumGasPricesResponse) : Z :=
  (if 0 <? Z.of_nat (length (ApiQueryMinimumGasPricesResponse_MinimumGasPrices x)) then size_each (fun e => size_len (pSize_ptr e)) (ApiQueryMinimumGasPricesResponse_MinimumGasPrices x) else 0) +
  size_unknown (ApiQueryMinimumGasPricesResponse_unknownFields x).
Definition QueryMinimumGasPricesResponse_marshal (x : ApiQueryMinimumGasPricesResponse) : writer :=
  wunknown (ApiQueryMinimumGasPricesResponse_unknownFields x) ;>
  wif (0 <? Z.of_nat (length (ApiQueryMinimumGasPricesResponse_MinimumGasPrices x))) (wdown (ApiQueryMinimumGasPricesResponse_MinimumGasPrices x) (wenc Byte.x0a)).
Definition QueryMinimumGasPricesResponse_cases (discard : bool) (fieldNum : Z) : option (action ApiQueryMinimumGasPricesResponse) :=
  match fieldNum with
  | 1 => Some (pcase_rep discard ApiQueryMinimumGasPricesResponse_MinimumGasPrices (fun v m => (MkApiQueryMinimumGasPricesResponse v (ApiQueryMinimumGasPricesResponse_unknownFields m))))
  | _ => None
  end.
Definition QueryMinimumGasPricesResponse_switch (discard : bool) : switch ApiQueryMinimumGasPricesResponse :=
  keeping discard ApiQueryMinimumGasPricesResponse_unknownFields (fun v m => (MkApiQueryMinimumGasPricesResponse (ApiQueryMinimumGasPricesResponse_MinimumGasPrices m) v)) (QueryMinimumGasPricesResponse_cases discard).
#[global] Instance agf_QueryMinimumGasPricesResponse_msg : PulsarMsg ApiQueryMinimumGasPricesResponse := {|
  pSize := QueryMinimumGasPricesResponse_size; pWrite := QueryMinimumGasPricesResponse_marshal; pUnmarshal := fun discard => unmarshal_with (QueryMinimumGasPricesResponse_switch discard); pZero := MkApiQueryMinimumGasPricesResponse [] [] |}.
#[global] Instance agf_QueryMinimumGasPricesResponse_ok : WireOk ApiQueryMinimumGasPricesResponse := fun m => Forall (ptr wire_ok) (ApiQueryMinimumGasPricesResponse_MinimumGasPrices m).
#[global] Instance agf_QueryMinimumGasPricesResponse_full : WireFull ApiQueryMinimumGasPricesResponse := fun m => unknown_ok (QueryMinimumGasPricesResponse_cases false) (ApiQueryMinimumGasPricesResponse_unknownFields m) /\ Forall (ptr wire_full) (ApiQueryMinimumGasPricesResponse_MinimumGasPrices m).
#[global] Instance agf_QueryMinimumGasPricesResponse_laws : PulsarLaws ApiQueryMinimumGasPricesResponse.
Proof. pulsar_laws QueryMinimumGasPricesResponse_switch QueryMinimumGasPricesResponse_cases QueryMinimumGasPricesResponse_marshal. Qed.
#[global] Instance agf_QueryMinimumGasPricesResponse_to_api : ToApi (@QueryMinimumGasPricesResponse DecCoin) ApiQueryMinimumGasPricesResponse := fun a => MkApiQueryMinimumGasPricesResponse (map (fun e => Some (to_api e)) (QueryMinimumGasPricesResponse_MinimumGasPrices a)) [].
#[global] Instance agf_QueryMinimumGasPricesResponse_api : ApiLaws (@QueryMinimumGasPricesResponse DecCoin) ApiQueryMinimumGasPricesResponse.
Proof. api_laws QueryMinimumGasPricesResponse_switch QueryMinimumGasPricesResponse_marshal. Qed.

End Api.
