(* ===== verification/ApiClock.v ===== *)
(** * clock: the codec of the API types

    [api/terp/clock/v1/*.pulsar.go]: [size], [marshal] and
    [unmarshal] of every message with fields. The module is not in [x/]. *)

From S2P Require Import Prelude Proto Wire WireLaws Pulsar.

Open Scope go_scope.

Section Api.
Context {RT : WireRuntime} {RL : RuntimeLaws} {OP : Options}.

(** [Params]. *)
Record ApiParams := MkApiParams { ApiParams_ContractAddresses : list bytes; ApiParams_ContractGasLimit : Z; ApiParams_unknownFields : bytes }.
Definition Params_size (x : ApiParams) : Z :=
  (if 0 <? Z.of_nat (length (ApiParams_ContractAddresses x)) then size_each (fun s => size_len (blen s)) (ApiParams_ContractAddresses x) else 0) +
  (if negb ((ApiParams_ContractGasLimit x) =? 0) then 1 + Sov (u64 (ApiParams_ContractGasLimit x)) else 0) +
  size_unknown (ApiParams_unknownFields x).
Definition Params_marshal (x : ApiParams) : writer :=
  wunknown (ApiParams_unknownFields x) ;>
  wif (negb ((ApiParams_ContractGasLimit x) =? 0)) (wvarint (u64 (ApiParams_ContractGasLimit x)) ;> wbyte Byte.x10) ;>
  wif (0 <? Z.of_nat (length (ApiParams_ContractAddresses x))) (wdown (ApiParams_ContractAddresses x) (wlen Byte.x0a)).
Definition Params_cases (discard : bool) (fieldNum : Z) : option (action ApiParams) :=
  match fieldNum with
  | 1 => Some (case_strings ApiParams_ContractAddresses (fun v m => (MkApiParams v (ApiParams_ContractGasLimit m) (ApiParams_unknownFields m))))
  | 2 => Some (case_varint u64 (fun v m => (MkApiParams (ApiParams_ContractAddresses m) v (ApiParams_unknownFields m))))
  | _ => None
  end.
Definition Params_switch (discard : bool) : switch ApiParams :=
  keeping discard ApiParams_unknownFields (fun v m => (MkApiParams (ApiParams_ContractAddresses m) (ApiParams_ContractGasLimit m) v)) (Params_cases discard).
#[global] Instance ack_Params_msg : PulsarMsg ApiParams := {|
  pSize := Params_size; pWrite := Params_marshal; pUnmarshal := fun discard => unmarshal_with (Params_switch discard); pZero := MkApiParams [] 0 [] |}.
#[global] Instance ack_Params_ok : WireOk ApiParams := fun m => is_u64 (ApiParams_ContractGasLimit m).
#[global] Instance ack_Params_full : WireFull ApiParams := fun m => unknown_ok (Params_cases false) (ApiParams_unknownFields m).
#[global] Instance ack_Params_laws : PulsarLaws ApiParams.
Proof. pulsar_laws Params_switch Params_cases Params_marshal. Qed.

(** [GenesisState]. *)
Record ApiGenesisState := MkApiGenesisState { ApiGenesisState_Params : option ApiParams; ApiGenesisState_unknownFields : bytes }.
Definition GenesisState_size (x : ApiGenesisState) : Z :=
  (match (ApiGenesisState_Params x) with Some y => size_len (pSize y) | None => 0 end) +
  size_unknown (ApiGenesisState_unknownFields x).
Definition GenesisState_marshal (x : ApiGenesisState) : writer :=
  wunknown (ApiGenesisState_unknownFields x) ;>
  (match (ApiGenesisState_Params x) with Some y => wenc Byte.x0a (Some y) | None => wskip end).
Definition GenesisState_cases (discard : bool) (fieldNum : Z) : option (action ApiGenesisState) :=
  match fieldNum with
  | 1 => Some (pcase_ptr discard ApiGenesisState_Params (fun v m => (MkApiGenesisState v (ApiGenesisState_unknownFields m))))
  | _ => None
  end.
Definition GenesisState_switch (discard : bool) : switch ApiGenesisState :=
  keeping discard ApiGenesisState_unknownFields (fun v m => (MkApiGenesisState (ApiGenesisState_Params m) v)) (GenesisState_cases discard).
#[global] Instance ack_GenesisState_msg : PulsarMsg ApiGenesisState := {|
  pSize := GenesisState_size; pWrite := GenesisState_marshal; pUnmarshal := fun discard => unmarshal_with (GenesisState_switch discard); pZero := MkApiGenesisState None [] |}.
#[global] Instance ack_GenesisState_ok : WireOk ApiGenesisState := fun m => opt_ok (ApiGenesisState_Params m).
#[global] Instance ack_GenesisState_full : WireFull ApiGenesisState := fun m => unknown_ok (GenesisState_cases false) (ApiGenesisState_unknownFields m) /\ opt_full (ApiGenesisState_Params m).
#[global] Instance ack_GenesisState_laws : PulsarLaws ApiGenesisState.
Proof. pulsar_laws GenesisState_switch GenesisState_cases GenesisState_marshal. Qed.

(** [MsgUpdateParams]. *)
Record ApiMsgUpdateParams := MkApiMsgUpdateParams { ApiMsgUpdateParams_Authority : bytes; ApiMsgUpdateParams_Params : option ApiParams; ApiMsgUpdateParams_unknownFields : bytes }.
Definition MsgUpdateParams_size (x : ApiMsgUpdateParams) : Z :=
  (if 0 <? blen (ApiMsgUpdateParams_Authority x) then size_len (blen (ApiMsgUpdateParams_Authority x)) else 0) +
  (match (ApiMsgUpdateParams_Params x) with Some y => size_len (pSize y) | None => 0 end) +
  size_unknown (ApiMsgUpdateParams_unknownFields x).
Definition MsgUpdateParams_marshal (x : ApiMsgUpdateParams) : writer :=
  wunknown (ApiMsgUpdateParams_unknownFields x) ;>
  (match (ApiMsgUpdateParams_Params x) with Some y => wenc Byte.x12 (Some y) | None => wskip end) ;>
  wif (0 <? blen (ApiMsgUpdateParams_Authority x)) (wlen Byte.x0a (ApiMsgUpdateParams_Authority x)).
Definition MsgUpdateParams_cases (discard : bool) (fieldNum : Z) : option (action ApiMsgUpdateParams) :=
  match fieldNum with
  | 1 => Some (case_string (fun v m => (MkApiMsgUpdateParams v (ApiMsgUpdateParams_Params m) (ApiMsgUpdateParams_unknownFields m))))
  | 2 => Some (pcase_ptr discard ApiMsgUpdateParams_Params (fun v m => (MkApiMsgUpdateParams (ApiMsgUpdateParams_Authority m) v (ApiMsgUpdateParams_unknownFields m))))
  | _ => None
  end.
Definition MsgUpdateParams_switch (discard : bool) : switch ApiMsgUpdateParams :=
  keeping discard ApiMsgUpdateParams_unknownFields (fun v m => (MkApiMsgUpdateParams (ApiMsgUpdateParams_Authority m) (ApiMsgUpdateParams_Params m) v)) (MsgUpdateParams_cases discard).
#[global] Instance ack_MsgUpdateParams_msg : PulsarMsg ApiMsgUpdateParams := {|
  pSize := MsgUpdateParams_size; pWrite := MsgUpdateParams_marshal; pUnmarshal := fun discard => unmarshal_with (MsgUpdateParams_switch discard); pZero := MkApiMsgUpdateParams [] None [] |}.
#[global] Instance ack_MsgUpdateParams_ok : WireOk ApiMsgUpdateParams := fun m => opt_ok (ApiMsgUpdateParams_Params m).
#[global] Instance ack_MsgUpdateParams_full : WireFull ApiMsgUpdateParams := fun m => unknown_ok (MsgUpdateParams_cases false) (ApiMsgUpdateParams_unknownFields m) /\ opt_full (ApiMsgUpdateParams_Params m).
#[global] Instance ack_MsgUpdateParams_laws : PulsarLaws ApiMsgUpdateParams.
Proof. pulsar_laws MsgUpdateParams_switch MsgUpdateParams_cases MsgUpdateParams_marshal. Qed.

(** [QueryClockContractsResponse]. *)
Record ApiQueryClockContractsResponse := MkApiQueryClockContractsResponse { ApiQueryClockContractsResponse_ContractAddresses : list bytes; ApiQueryClockContractsResponse_unknownFields : bytes }.
Definition QueryClockContractsResponse_size (x : ApiQueryClockContractsResponse) : Z :=
  (if 0 <? Z.of_nat (length (ApiQueryClockContractsResponse_ContractAddresses x)) then size_each (fun s => size_len (blen s)) (ApiQueryClockContractsResponse_ContractAddresses x) else 0) +
  size_unknown (ApiQueryClockContractsResponse_unknownFields x).
Definition QueryClockContractsResponse_marshal (x : ApiQueryClockContractsResponse) : writer :=
  wunknown (ApiQueryClockContractsResponse_unknownFields x) ;>
  wif (0 <? Z.of_nat (length (ApiQueryClockContractsResponse_ContractAddresses x))) (wdown (ApiQueryClockContractsResponse_ContractAddresses x) (wlen Byte.x0a)).
Definition QueryClockContractsResponse_cases (discard : bool) (fieldNum : Z) : option (action ApiQueryClockContractsResponse) :=
  match fieldNum with
  | 1 => Some (case_strings ApiQueryClockContractsResponse_ContractAddresses (fun v m => (MkApiQueryClockContractsResponse v (ApiQueryClockContractsResponse_unknownFields m))))
  | _ => None
  end.
Definition QueryClockContractsResponse_switch (discard : bool) : switch ApiQueryClockContractsResponse :=
  keeping discard ApiQueryClockContractsResponse_unknownFields (fun v m => (MkApiQueryClockContractsResponse (ApiQueryClockContractsResponse_ContractAddresses m) v)) (QueryClockContractsResponse_cases discard).
#[global] Instance ack_QueryClockContractsResponse_msg : PulsarMsg ApiQueryClockContractsResponse := {|
  pSize := QueryClockContractsResponse_size; pWrite := QueryClockContractsResponse_marshal; pUnmarshal := fun discard => unmarshal_with (QueryClockContractsResponse_switch discard); pZero := MkApiQueryClockContractsResponse [] [] |}.
#[global] Instance ack_QueryClockContractsResponse_ok : WireOk ApiQueryClockContractsResponse := fun m => True.
#[global] Instance ack_QueryClockContractsResponse_full : WireFull ApiQueryClockContractsResponse := fun m => unknown_ok (QueryClockContractsResponse_cases false) (ApiQueryClockContractsResponse_unknownFields m).
#[global] Instance ack_QueryClockContractsResponse_laws : PulsarLaws ApiQueryClockContractsResponse.
Proof. pulsar_laws QueryClockContractsResponse_switch QueryClockContractsResponse_cases QueryClockContractsResponse_marshal. Qed.

(** [QueryParamsResponse]. *)
Record ApiQueryParamsResponse := MkApiQueryParamsResponse { ApiQueryParamsResponse_Params : option ApiParams; ApiQueryParamsResponse_unknownFields : bytes }.
Definition QueryParamsResponse_size (x : ApiQueryParamsResponse) : Z :=
  (match (ApiQueryParamsResponse_Params x) with Some y => size_len (pSize y) | None => 0 end) +
  size_unknown (ApiQueryParamsResponse_unknownFields x).
Definition QueryParamsResponse_marshal (x : ApiQueryParamsResponse) : writer :=
  wunknown (ApiQueryParamsResponse_unknownFields x) ;>
  (match (ApiQueryParamsResponse_Params x) with Some y => wenc Byte.x0a (Some y) | None => wskip end).
Definition QueryParamsResponse_cases (discard : bool) (fieldNum : Z) : option (action ApiQueryParamsResponse) :=
  match fieldNum with
  | 1 => Some (pcase_ptr discard ApiQueryParamsResponse_Params (fun v m => (MkApiQueryParamsResponse v (ApiQueryParamsResponse_unknownFields m))))
  | _ => None
  end.
Definition QueryParamsResponse_switch (discard : bool) : switch ApiQueryParamsResponse :=
  keeping discard ApiQueryParamsResponse_unknownFields (fun v m => (MkApiQueryParamsResponse (ApiQueryParamsResponse_Params m) v)) (QueryParamsResponse_cases discard).
#[global] Instance ack_QueryParamsResponse_msg : PulsarMsg ApiQueryParamsResponse := {|
  pSize := QueryParamsResponse_size; pWrite := QueryParamsResponse_marshal; pUnmarshal := fun discard => unmarshal_with (QueryParamsResponse_switch discard); pZero := MkApiQueryParamsResponse None [] |}.
#[global] Instance ack_QueryParamsResponse_ok : WireOk ApiQueryParamsResponse := fun m => opt_ok (ApiQueryParamsResponse_Params m).
#[global] Instance ack_QueryParamsResponse_full : WireFull ApiQueryParamsResponse := fun m => unknown_ok (QueryParamsResponse_cases false) (ApiQueryParamsResponse_unknownFields m) /\ opt_full (ApiQueryParamsResponse_Params m).
#[global] Instance ack_QueryParamsResponse_laws : PulsarLaws ApiQueryParamsResponse.
Proof. pulsar_laws QueryParamsResponse_switch QueryParamsResponse_cases QueryParamsResponse_marshal. Qed.

End Api.
