(* ===== verification/Reflect.v ===== *)
(** * Reflection on the API types

    The methods [Has], [Clear], [Get], [Set], [Mutable], [NewField] and [Range]
    that the generator of the [api/] packages writes for every message, and its
    list wrappers. A method is a switch over the full name of the field, with
    one way to treat a field for each kind of field ([kind]); a message is the
    table of its fields ([rfield]). [Contract] is what the comments on
    [protoreflect.Message] promise, and [table_contract] shows that a table of
    independent fields keeps it. *)

From S2P Require Import Prelude Proto LvCodec Wire WireLaws.

Open Scope go_scope.

(** ** Values

    [protoreflect.Value], a union of another module: constructors and
    accessors, which panic ([None]) on another member. [C] are the lists and
    messages a value may hold. *)

Class Values (V : Type -> Type) := {
  ValueOfBool : forall {C}, bool -> V C;
  ValueOfString : forall {C}, bytes -> V C;
  ValueOfBytes : forall {C}, bytes -> V C;
  ValueOfUint32 : forall {C}, Z -> V C;
  ValueOfUint64 : forall {C}, Z -> V C;
  ValueOfInt64 : forall {C}, Z -> V C;
  ValueOfEnum : forall {C}, Z -> V C;
  ValueOfList : forall {C}, C -> V C;
  ValueOfMessage : forall {C}, C -> V C;
  value_Bool : forall {C}, V C -> option bool;
  value_Interface_string : forall {C}, V C -> option bytes;   (* [value.Interface().(string)] *)
  value_Bytes : forall {C}, V C -> option bytes;
  value_Uint : forall {C}, V C -> option Z;
  value_Int : forall {C}, V C -> option Z;
  value_Enum : forall {C}, V C -> option Z;
  value_List : forall {C}, V C -> option C;
  value_Message : forall {C}, V C -> option C
}.
(** What was put into a value is what its accessor gives. *)
Class ValuesLaws (V : Type -> Type) `{Values V} := {
  vl_Bool : forall C b, value_Bool (C := C) (ValueOfBool b) = Some b;
  vl_String : forall C s, value_Interface_string (C := C) (ValueOfString s) = Some s;
  vl_Bytes : forall C s, value_Bytes (C := C) (ValueOfBytes s) = Some s;
  vl_Uint32 : forall C z, is_u32 z -> value_Uint (C := C) (ValueOfUint32 z) = Some z;
  vl_Uint64 : forall C z, is_u64 z -> value_Uint (C := C) (ValueOfUint64 z) = Some z;
  vl_Int64 : forall C z, is_i64 z -> value_Int (C := C) (ValueOfInt64 z) = Some z;
  vl_Enum : forall C z, is_i32 z -> value_Enum (C := C) (ValueOfEnum z) = Some z;
  vl_List : forall C (c : C), value_List (ValueOfList c) = Some c;
  vl_Message : forall C (c : C), value_Message (ValueOfMessage c) = Some c
}.

(** ** Kinds of fields *)

(** What the cases of the methods do with a field of type [A]. *)
Record kind (W A : Type) := MkKind {
  k_ok : A -> Prop;               (* the values of the Go type *)
  k_zero : A;                     (* [Clear] *)
  k_has : A -> bool;              (* [Has], and the guard in [Range] *)
  k_value : A -> W;               (* [Get] *)
  k_ranged : A -> W;              (* the value in [Range] *)
  k_assign : W -> option A;       (* [Set] *)
  k_mutable : A -> option (A * W);
  k_new : W                       (* [NewField] *)
}.
Arguments MkKind {W A}.
Arguments k_ok {W A}.
Arguments k_zero {W A}.
Arguments k_has {W A}.
Arguments k_value {W A}.
Arguments k_ranged {W A}.
Arguments k_assign {W A}.
Arguments k_mutable {W A}.
Arguments k_new {W A}.

Section Kinds.
Context {V : Type -> Type} {VV : Values V} {C : Type}.

(** A scalar is not mutable. *)
Definition KScalar {A : Type} (ok : A -> Prop) (zero : A) (has : A -> bool) (value : A -> V C)
  (assign : V C -> option A) : kind (V C) A :=
  MkKind ok zero has value value assign (fun _ => None) (value zero).
Definition KString : kind (V C) bytes :=
  KScalar (fun _ => True) [] (fun s => negb (bytes_eqb s [])) ValueOfString value_Interface_string.
Definition KBytes : kind (V C) bytes :=
  KScalar (fun _ => True) [] (fun s => negb (blen s =? 0)) ValueOfBytes value_Bytes.
Definition KBool : kind (V C) bool :=
  KScalar (fun _ => True) false (fun b => negb (Bool.eqb b false)) ValueOfBool value_Bool.
Definition KUint64 : kind (V C) Z :=
  KScalar is_u64 0 (fun z => negb (z =? 0)) ValueOfUint64 value_Uint.
Definition KUint32 : kind (V C) Z :=
  KScalar is_u32 0 (fun z => negb (z =? 0)) ValueOfUint32 (fun v => z ← value_Uint v; Some (u32 z)).
Definition KInt64 : kind (V C) Z :=
  KScalar is_i64 0 (fun z => negb (z =? 0)) ValueOfInt64 value_Int.
Definition KEnum : kind (V C) Z :=
  KScalar is_i32 0 (fun z => negb (z =? 0)) ValueOfEnum value_Enum.

(** A message: [inj] is its dynamic type, [proj] the type assertion. *)
Definition KMsg {A : Type} (zero : A) (inj : option A -> C) (proj : C -> option (option A)) : kind (V C) (option A) :=
  MkKind (fun _ => True) None (fun o => match o with Some _ => true | None => false end)
    (fun o => ValueOfMessage (inj o)) (fun o => ValueOfMessage (inj o))
    (fun v => c ← value_Message v; proj c)
    (fun o => let x := default zero o in Some (Some x, ValueOfMessage (inj (Some x))))
    (ValueOfMessage (inj (Some zero))).
(** A list: a wrapper with a pointer to the slice, or with nil, which [Set]
    dereferences. *)
Definition KList {A : Type} (inj : option (list A) -> C) (proj : C -> option (option (list A))) : kind (V C) (list A) :=
  MkKind (fun _ => True) [] (fun l => negb (Z.of_nat (length l) =? 0))
    (fun l => ValueOfList (inj (if Z.of_nat (length l) =? 0 then None else Some l)))
    (fun l => ValueOfList (inj (Some l)))
    (fun v => c ← value_List v; p ← proj c; p)
    (fun l => Some (l, ValueOfList (inj (Some l))))
    (ValueOfList (inj (Some []))).
End Kinds.

(** The values of a message without lists and messages. *)
Inductive no_ref := NoRef.

(** ** The methods of a message *)

Record rfield (M W : Type) := RField {
  r_name : string; r_ty : Type; r_get : M -> r_ty; r_set : r_ty -> M -> M; r_kind : kind W r_ty
}.
Arguments RField {M W}.
Arguments r_name {M W}.
Arguments r_ty {M W}.
Arguments r_get {M W}.
Arguments r_set {M W}.
Arguments r_kind {M W}.

Section Methods.
Context {M W : Type} (table : list (rfield M W)).

(** [switch fd.FullName() { ... default: panic(...) }]. *)
Fixpoint find_field (fd : string) (l : list (rfield M W)) : option (rfield M W) :=
  match l with
  | [] => None
  | r :: l' => if String.eqb fd (r_name r) then Some r else find_field fd l'
  end.
Definition Has_of (x : M) (fd : string) : option bool :=
  r ← find_field fd table; Some (k_has (r_kind r) (r_get r x)).
Definition Clear_of (x : M) (fd : string) : option M :=
  r ← find_field fd table; Some (r_set r (k_zero (r_kind r)) x).
Definition Get_of (x : M) (fd : string) : option W :=
  r ← find_field fd table; Some (k_value (r_kind r) (r_get r x)).
Definition Set_of (x : M) (fd : string) (value : W) : option M :=
  r ← find_field fd table; a ← k_assign (r_kind r) value; Some (r_set r a x).
(** The value returned refers to the field: writing through it is [Set]. *)
Definition Mutable_of (x : M) (fd : string) : option (M * W) :=
  r ← find_field fd table; p ← k_mutable (r_kind r) (r_get r x); Some (r_set r p.1 x, p.2).
Definition NewField_of (fd : string) : option W :=
  r ← find_field fd table; Some (k_new (r_kind r)).
(** [f] has a state of its own and says whether to go on. *)
Fixpoint range_loop {S : Type} (f : string -> W -> S -> S * bool) (l : list (rfield M W)) (x : M) (s : S) : S :=
  match l with
  | [] => s
  | r :: l' =>
      if k_has (r_kind r) (r_get r x) then
        let '(s, go) := f (r_name r) (k_ranged (r_kind r) (r_get r x)) s in
        if go then range_loop f l' x s else s
      else range_loop f l' x s
  end.
Definition Range_of {S : Type} (x : M) (f : string -> W -> S -> S * bool) (s : S) : S := range_loop f table x s.
End Methods.

(** ** The list wrappers *)

Section ListWrapper.
(** [list *[]A]: a pointer to the slice of a field, or nil; [elem] and [unwrap]
    convert an element, [fresh] is the new element. *)
Context {A W : Type} (elem : A -> W) (unwrap : W -> option A) (fresh : A).

(** An index into the slice. *)
Definition in_range (i : Z) (l : list A) : bool := (0 <=? i) && (i <? Z.of_nat (length l)).
Definition list_Len (x : option (list A)) : Z := match x with None => 0 | Some l => Z.of_nat (length l) end.
Definition list_Get (x : option (list A)) (i : Z) : option W :=
  l ← x; a ← (if in_range i l then l !! Z.to_nat i else None); Some (elem a).
Definition list_Set (x : option (list A)) (i : Z) (value : W) : option (option (list A)) :=
  a ← unwrap value; l ← x; if in_range i l then Some (Some (<[Z.to_nat i := a]> l)) else None.
Definition list_Append (x : option (list A)) (value : W) : option (option (list A)) :=
  a ← unwrap value; l ← x; Some (Some (l ++ [a])).
(** For a list of messages; the other lists panic. *)
Definition list_AppendMutable (x : option (list A)) : option (option (list A) * W) :=
  l ← x; Some (Some (l ++ [fresh]), elem fresh).
(** [spare] are the elements of the array behind the slice: [[:n]] may grow
    into them. *)
Definition list_Truncate (spare : list A) (x : option (list A)) (n : Z) : option (option (list A)) :=
  l ← x; if (0 <=? n) && (n <=? Z.of_nat (length (l ++ spare))) then Some (Some (take (Z.to_nat n) (l ++ spare))) else None.
Definition list_NewElement : W := elem fresh.
Definition list_IsValid (x : option (list A)) : bool := match x with Some _ => true | None => false end.

(** An appended element is the last one, and the others stay. *)
Lemma list_append_spec l a v : unwrap v = Some a -> exists x', list_Append (Some l) v = Some x' /\
  list_Len x' = list_Len (Some l) + 1 /\ list_Get x' (list_Len (Some l)) = Some (elem a) /\
  forall i, i < list_Len (Some l) -> list_Get x' i = list_Get (Some l) i.
Proof.
  intros Hv. unfold list_Append. rewrite Hv. cbn. eexists. split; [done|]. cbn. rewrite length_app. cbn [length].
  split; [lia|]. unfold in_range. rewrite !length_app. cbn [length]. split.
  - rewrite (proj2 (Z.leb_le 0 _)), (proj2 (Z.ltb_lt _ _)) by lia. cbn.
    rewrite Nat2Z.id, lookup_app_r, Nat.sub_diag by done. done.
  - intros i Hi. destruct (Z.leb_spec 0 i); [|done]. cbn. rewrite (proj2 (Z.ltb_lt i _)), (proj2 (Z.ltb_lt i _)) by lia.
    by rewrite lookup_app_l by lia.
Qed.
Lemma list_set_spec l i a v : unwrap v = Some a -> in_range i l = true -> exists x', list_Set (Some l) i v = Some x' /\
  list_Len x' = list_Len (Some l) /\ list_Get x' i = Some (elem a) /\ forall j, j <> i -> list_Get x' j = list_Get (Some l) j.
Proof.
  intros Hv Hi. unfold list_Set. rewrite Hv. cbn. rewrite Hi. eexists. split; [done|]. cbn. rewrite length_insert.
  split; [done|]. unfold in_range in *. rewrite length_insert. split.
  - rewrite Hi. apply andb_true_iff in Hi as [H1 H2]. zbool. by rewrite list_lookup_insert_eq by lia.
  - intros j Hj. destruct (Z.leb_spec 0 j); [|done]. destruct (Z.ltb_spec j (Z.of_nat (length l))); [|done]. cbn.
    apply andb_true_iff in Hi as [H1 H2]. zbool. by rewrite list_lookup_insert_ne by lia.
Qed.
Lemma list_truncate_spec spare l n : 0 <= n <= Z.of_nat (length l) ->
  list_Truncate spare (Some l) n = Some (Some (take (Z.to_nat n) l)).
Proof.
  intros Hn. unfold list_Truncate. cbn. rewrite length_app, (proj2 (Z.leb_le 0 n)), (proj2 (Z.leb_le n _)) by lia. cbn.
  by rewrite take_app_le by lia.
Qed.
End ListWrapper.

(** ** The contract of a message *)

(** Visiting a list until the visitor stops. *)
Fixpoint visit {S W : Type} (f : string -> W -> S -> S * bool) (l : list (string * W)) (s : S) : S :=
  match l with
  | [] => s
  | (fd, v) :: l' => let '(s, go) := f fd v s in if go then visit f l' s else s
  end.

Section Contract.
Context {M W : Type} (names : list string) (Has : M -> string -> option bool) (Clear : M -> string -> option M)
  (Get : M -> string -> option W) (Set_ : M -> string -> W -> option M) (Mutable : M -> string -> option (M * W))
  (NewField : string -> option W) (Range : forall S, M -> (string -> W -> S -> S * bool) -> S -> S)
  (GetUnknown : M -> bytes) (ok : M -> Prop).

(** Every field but [fd] is as it was. *)
Definition others (fd : string) (x x' : M) : Prop :=
  GetUnknown x' = GetUnknown x /\
  forall fd', fd' <> fd -> Has x' fd' = Has x fd' /\ Get x' fd' = Get x fd'.
(** The populated fields with their values. *)
Definition populated (x : M) : list (string * W) :=
  omap (fun fd => match Has x fd, Get x fd with Some true, Some v => Some (fd, v) | _, _ => None end) names.

Record Contract : Prop := {
  (* the methods panic for what is not a field, and only then *)
  c_fields : forall x fd, (fd ∈ names -> is_Some (Has x fd) /\ is_Some (Get x fd) /\ is_Some (Clear x fd) /\ is_Some (NewField fd)) /\
    (fd ∉ names -> Has x fd = None /\ Get x fd = None /\ Clear x fd = None /\ NewField fd = None /\ Mutable x fd = None /\
       forall v, Set_ x fd v = None);
  (* "Clear clears the field such that a subsequent Has call reports false" *)
  c_clear : forall x fd x', Clear x fd = Some x' -> Has x' fd = Some false /\ others fd x x';
  c_set : forall x fd v x', Set_ x fd v = Some x' -> others fd x x';
  (* the value of a populated field can be set in any message *)
  c_copy : forall x y fd v, ok y -> Has y fd = Some true -> Get y fd = Some v ->
    exists x', Set_ x fd v = Some x' /\ Get x' fd = Some v /\ Has x' fd = Some true;
  (* "NewField returns a new value that is assignable to the field" *)
  c_new : forall x fd v, NewField fd = Some v -> exists x', Set_ x fd v = Some x';
  (* the message then holds what is referred to *)
  c_mutable : forall x fd x' v, Mutable x fd = Some (x', v) -> Set_ x fd v = Some x';
  (* "Range iterates over every populated field" *)
  c_range : forall S x (f : string -> W -> S -> S * bool) s, Range S x f s = visit f (populated x) s;
  (* a message is its fields *)
  c_ext : forall x y, ok x -> ok y -> GetUnknown x = GetUnknown y -> (forall fd, Has x fd = Has y fd /\ Get x fd = Get y fd) -> x = y
}.
End Contract.

(** ** Tables of independent fields *)

(** What the cases for one kind of field have in common. *)
Record kind_ok {W A} (k : kind W A) : Prop := {
  ko_zero : k_has k (k_zero k) = false;
  ko_empty : forall a, k_has k a = false -> a = k_zero k;
  ko_assign : forall a, k_ok k a -> k_has k a = true -> k_assign k (k_value k a) = Some a;
  ko_ranged : forall a, k_has k a = true -> k_ranged k a = k_value k a;
  ko_new : is_Some (k_assign k (k_new k));
  ko_mutable : forall a a' v, k_mutable k a = Some (a', v) -> k_assign k v = Some a'
}.

Section KindLaws.
Context {V : Type -> Type} {VV : Values V} {VL : ValuesLaws V} {C : Type}.

Lemma scalar_ok {A} (ok : A -> Prop) zero has value (assign : V C -> option A) :
  ok zero -> (forall a, has a = false <-> a = zero) -> (forall a, ok a -> assign (value a) = Some a) ->
  kind_ok (KScalar ok zero has value assign).
Proof.
  intros Hz Hh Ha. split; cbn; try done.
  - by apply Hh.
  - intros a. apply Hh.
  - intros a Ho _. by apply Ha.
  - exists zero. by apply Ha.
Qed.
Lemma nonzero_iff z : negb (z =? 0) = false <-> z = 0.
Proof. by rewrite negb_false_iff, Z.eqb_eq. Qed.
Lemma KString_ok : kind_ok (KString (V := V) (C := C)).
Proof.
  apply scalar_ok; [done| |intros; apply vl_String].
  intros a. unfold bytes_eqb. by rewrite negb_false_iff, bool_decide_eq_true.
Qed.
Lemma KBytes_ok : kind_ok (KBytes (V := V) (C := C)).
Proof.
  apply scalar_ok; [done| |intros; apply vl_Bytes].
  intros a. rewrite nonzero_iff. destruct a; [done|]. rewrite blen_cons. pose proof (blen_nonneg a).
  split; [lia | done].
Qed.
Lemma KBool_ok : kind_ok (KBool (V := V) (C := C)).
Proof. apply scalar_ok; [done|by intros []|intros; apply vl_Bool]. Qed.
Lemma KUint64_ok : kind_ok (KUint64 (V := V) (C := C)).
Proof. apply scalar_ok; [done|apply nonzero_iff|intros; by apply vl_Uint64]. Qed.
Lemma KUint32_ok : kind_ok (KUint32 (V := V) (C := C)).
Proof. apply scalar_ok; [done|apply nonzero_iff|]. intros z Hz. rewrite vl_Uint32 by done. cbn. by rewrite u32_id. Qed.
Lemma KInt64_ok : kind_ok (KInt64 (V := V) (C := C)).
Proof. apply scalar_ok; [done|apply nonzero_iff|intros; by apply vl_Int64]. Qed.
Lemma KEnum_ok : kind_ok (KEnum (V := V) (C := C)).
Proof. apply scalar_ok; [done|apply nonzero_iff|intros; by apply vl_Enum]. Qed.
Lemma KMsg_ok {A} (zero : A) (inj : option A -> C) proj : (forall o, proj (inj o) = Some o) -> kind_ok (KMsg (V := V) zero inj proj).
Proof.
  intros Hp. split; cbn; try done.
  - by intros [a|].
  - intros a _ _. rewrite vl_Message. cbn. by rewrite Hp.
  - exists (Some zero). rewrite vl_Message. cbn. by rewrite Hp.
  - intros a a' v [= <- <-]. rewrite vl_Message. cbn. by rewrite Hp.
Qed.
Lemma KList_ok {A} (inj : option (list A) -> C) proj : (forall o, proj (inj o) = Some o) -> kind_ok (KList (V := V) inj proj).
Proof.
  intros Hp. split; cbn; try done.
  - intros [|a l]; [done|]. intros H. apply nonzero_iff in H. cbn [length] in H. lia.
  - intros a _ Ha. rewrite vl_List. cbn. rewrite Hp. apply negb_true_iff in Ha. by rewrite Ha.
  - intros a Ha. apply negb_true_iff in Ha. by rewrite Ha.
  - exists []. rewrite vl_List. cbn. by rewrite Hp.
  - intros a a' v [= <- <-]. rewrite vl_List. cbn. by rewrite Hp.
Qed.
End KindLaws.

(** The fields have distinct names, do not overlap with each other nor with the
    unknown fields, and are all there is. *)
Record table_ok {M W} (table : list (rfield M W)) (unknown : M -> bytes) : Prop := {
  to_names : NoDup (map r_name table);
  to_kinds : Forall (fun r => lens (r_get r) (r_set r) /\ kind_ok (r_kind r) /\ forall a x, unknown (r_set r a x) = unknown x) table;
  to_apart : Forall (fun r => Forall (fun r' => r_name r = r_name r' \/ forall a x, r_get r' (r_set r a x) = r_get r' x) table) table;
  to_all : forall x y, Forall (fun r => r_get r x = r_get r y) table -> unknown x = unknown y -> x = y
}.
(** The fields have values of their Go types. *)
Definition table_typed {M W} (table : list (rfield M W)) (x : M) : Prop :=
  Forall (fun r => k_ok (r_kind r) (r_get r x)) table.

Section TableContract.
Context {M W : Type} (table : list (rfield M W)) (unknown : M -> bytes).

Lemma find_field_iff fd : (fd ∈ map r_name table -> exists r, find_field fd table = Some r) /\
  (fd ∉ map r_name table -> find_field fd table = None).
Proof.
  induction table as [|r l IH]; cbn [map find_field].
  - split; [by intros ?%elem_of_nil | done].
  - destruct (String.eqb_spec fd (r_name r)) as [->|Hn].
    + split; [eauto|]. intros H. destruct H. apply elem_of_cons. by left.
    + destruct IH as [IH1 IH2]. rewrite elem_of_cons. split; [intros [?|?]; [done | by apply IH1]|].
      intros H. apply IH2. intros ?. apply H. by right.
Qed.
Lemma find_field_some fd r : find_field fd table = Some r -> r ∈ table /\ r_name r = fd.
Proof.
  induction table as [|r' l IH]; cbn [find_field]; [done|].
  destruct (String.eqb_spec fd (r_name r')) as [->|Hn].
  - intros [= ->]. split; [apply elem_of_cons; by left | done].
  - intros H. destruct (IH H). split; [apply elem_of_cons; by right | done].
Qed.

Context (TO : table_ok table unknown).

Lemma table_field r : r ∈ table -> lens (r_get r) (r_set r) /\ kind_ok (r_kind r) /\ forall a x, unknown (r_set r a x) = unknown x.
Proof. intros Hr. pose proof (to_kinds _ _ TO) as H. rewrite Forall_forall in H. by apply H. Qed.
Lemma table_apart r r' a x : r ∈ table -> r' ∈ table -> r_name r <> r_name r' -> r_get r' (r_set r a x) = r_get r' x.
Proof.
  intros Hr Hr' Hn. pose proof (to_apart _ _ TO) as H. rewrite Forall_forall in H. specialize (H r Hr).
  rewrite Forall_forall in H. destruct (H r' Hr') as [?|H']; [done | apply H'].
Qed.
Lemma find_field_in r : r ∈ table -> find_field (r_name r) table = Some r.
Proof.
  pose proof (to_names _ _ TO) as Hn. clear TO. induction table as [|r' l IH]; [by intros ?%elem_of_nil|].
  cbn [map find_field] in *. apply NoDup_cons in Hn as [Hn1 Hn2]. intros [->|Hr]%elem_of_cons; [by rewrite String.eqb_refl|].
  destruct (String.eqb_spec (r_name r) (r_name r')) as [E|_]; [|by apply IH].
  destruct Hn1. rewrite <- E. apply (list_elem_of_fmap_2 r_name l r). exact Hr.
Qed.
(** Storing into a field. *)
Lemma set_others fd r a x : find_field fd table = Some r ->
  others (Has_of table) (Get_of table) unknown fd x (r_set r a x).
Proof.
  intros Hr. destruct (find_field_some _ _ Hr) as [Hin <-]. destruct (table_field r Hin) as (_ & _ & Hu).
  split; [apply Hu|]. intros fd' Hn. unfold Has_of, Get_of.
  destruct (find_field fd' table) as [r'|] eqn:E; [|done]. destruct (find_field_some _ _ E) as [Hin' <-]. cbn.
  by rewrite !table_apart.
Qed.
Lemma range_visits {S} (f : string -> W -> S -> S * bool) x l s : (forall r, r ∈ l -> r ∈ table) ->
  range_loop f l x s = visit f (omap (fun fd => match Has_of table x fd, Get_of table x fd with
    Some true, Some v => Some (fd, v) | _, _ => None end) (map r_name l)) s.
Proof.
  revert s. induction l as [|r l IH]; intros s Hl; cbn [range_loop map omap list_omap]; [done|].
  assert (Hr : r ∈ table) by (apply Hl, elem_of_cons; by left).
  assert (Hl' : forall r', r' ∈ l -> r' ∈ table) by (intros; apply Hl, elem_of_cons; by right).
  assert (EH : Has_of table x (r_name r) = Some (k_has (r_kind r) (r_get r x))) by (unfold Has_of; by rewrite find_field_in).
  assert (EG : Get_of table x (r_name r) = Some (k_value (r_kind r) (r_get r x))) by (unfold Get_of; by rewrite find_field_in).
  rewrite EH, EG. destruct (k_has (r_kind r) (r_get r x)) eqn:E; [|by apply IH].
  destruct (table_field r Hr) as (_ & Hk & _). rewrite (ko_ranged _ Hk) by done. cbn [visit].
  destruct (f _ _ s) as [s' []]; [by apply IH | done].
Qed.

Lemma table_contract : Contract (map r_name table) (Has_of table) (Clear_of table) (Get_of table) (Set_of table)
  (Mutable_of table) (NewField_of table) (fun S => Range_of (S := S) table) unknown (table_typed table).
Proof.
  split.
  - intros x fd. destruct (find_field_iff fd) as [H1 H2]. unfold Has_of, Get_of, Clear_of, NewField_of, Mutable_of, Set_of. split.
    + intros Hin. destruct (H1 Hin) as [r ->]. cbn. eauto.
    + intros Hn. by rewrite (H2 Hn).
  - intros x fd x'. unfold Clear_of. destruct (find_field fd table) as [r|] eqn:E; [|done]. intros [= <-].
    split; [|by apply set_others]. destruct (find_field_some _ _ E) as [Hin _].
    destruct (table_field r Hin) as ((Hl & _) & Hk & _). unfold Has_of. rewrite E. cbn. by rewrite Hl, (ko_zero _ Hk).
  - intros x fd v x'. unfold Set_of. destruct (find_field fd table) as [r|] eqn:E; [|done]. cbn.
    destruct (k_assign (r_kind r) v) as [a|]; [|done]. intros [= <-]. by apply set_others.
  - intros x y fd v Hy. unfold Has_of, Get_of, Set_of. destruct (find_field fd table) as [r|] eqn:E; [|done]. cbn.
    intros [= Hh] [= <-]. destruct (find_field_some _ _ E) as [Hin _]. destruct (table_field r Hin) as ((Hl & _) & Hk & _).
    unfold table_typed in Hy. rewrite Forall_forall in Hy. rewrite (ko_assign _ Hk) by (done || by apply Hy). cbn.
    eexists. split; [done|]. by rewrite Hl, Hh.
  - intros x fd v. unfold NewField_of, Set_of. destruct (find_field fd table) as [r|] eqn:E; [|done]. intros [= <-].
    destruct (find_field_some _ _ E) as [Hin _]. destruct (table_field r Hin) as (_ & Hk & _). cbn.
    destruct (ko_new _ Hk) as [a ->]. cbn. eauto.
  - intros x fd x' v. unfold Mutable_of, Set_of. destruct (find_field fd table) as [r|] eqn:E; [|done]. cbn.
    destruct (k_mutable (r_kind r) (r_get r x)) as [[a w]|] eqn:Em; [|done]. intros [= <- <-].
    destruct (find_field_some _ _ E) as [Hin _]. destruct (table_field r Hin) as (_ & Hk & _).
    by rewrite (ko_mutable _ Hk _ _ _ Em).
  - intros S x f s. by apply range_visits.
  - intros x y Hx Hy Hu Hf. apply (to_all _ _ TO); [|done]. apply Forall_forall. intros r Hr.
    destruct (Hf (r_name r)) as [Hh Hg]. unfold Has_of, Get_of in Hh, Hg. rewrite (find_field_in r Hr) in Hh, Hg.
    cbn in Hh, Hg. injection Hh as Hh. injection Hg as Hg. destruct (table_field r Hr) as (_ & Hk & _).
    unfold table_typed in Hx, Hy. rewrite Forall_forall in Hx, Hy.
    destruct (k_has (r_kind r) (r_get r x)) eqn:E.
    + pose proof (ko_assign _ Hk _ (Hx r Hr) E) as Ha. rewrite Hg, (ko_assign _ Hk _ (Hy r Hr)) in Ha by done. by injection Ha.
    + rewrite (ko_empty _ Hk _ E). symmetry in Hh. by rewrite (ko_empty _ Hk _ Hh).
Qed.
End TableContract.

(** ** A union of values, for witnesses *)

Inductive toy_value (C : Type) :=
| ToyBool (b : bool) | ToyString (s : bytes) | ToyBytes (s : bytes) | ToyUint (z : Z) | ToyInt (z : Z) | ToyEnum (z : Z)
| ToyList (c : C) | ToyMessage (c : C).
Arguments ToyBool {C}.
Arguments ToyString {C}.
Arguments ToyBytes {C}.
Arguments ToyUint {C}.
Arguments ToyInt {C}.
Arguments ToyEnum {C}.
Arguments ToyList {C}.
Arguments ToyMessage {C}.
Definition toy_values : Values toy_value := {|
  ValueOfBool C := ToyBool; ValueOfString C := ToyString; ValueOfBytes C := ToyBytes; ValueOfUint32 C := ToyUint;
  ValueOfUint64 C := ToyUint; ValueOfInt64 C := ToyInt; ValueOfEnum C := ToyEnum; ValueOfList C := ToyList;
  ValueOfMessage C := ToyMessage;
  value_Bool C v := match v with ToyBool b => Some b | _ => None end;
  value_Interface_string C v := match v with ToyString s => Some s | _ => None end;
  value_Bytes C v := match v with ToyBytes s => Some s | _ => None end;
  value_Uint C v := match v with ToyUint z => Some z | _ => None end;
  value_Int C v := match v with ToyInt z => Some z | _ => None end;
  value_Enum C v := match v with ToyEnum z => Some z | _ => None end;
  value_List C v := match v with ToyList c => Some c | _ => None end;
  value_Message C v := match v with ToyMessage c => Some c | _ => None end |}.
Lemma toy_values_laws : @ValuesLaws toy_value toy_values.
Proof. by split. Qed.

(** ** Tactics *)

Ltac kind_laws :=
  lazymatch goal with
  | |- kind_ok KString => apply KString_ok
  | |- kind_ok KBytes => apply KBytes_ok
  | |- kind_ok KBool => apply KBool_ok
  | |- kind_ok KUint64 => apply KUint64_ok
  | |- kind_ok KUint32 => apply KUint32_ok
  | |- kind_ok KInt64 => apply KInt64_ok
  | |- kind_ok KEnum => apply KEnum_ok
  | |- kind_ok (KMsg _ _ _) => apply KMsg_ok; reflexivity
  | |- kind_ok (KList _ _) => apply KList_ok; reflexivity
  end.
(** [Forall] over a table that is written out. *)
Ltac forall_table tac := repeat first [apply Forall_nil; exact I | apply Forall_cons; split; [tac|]].
Ltac apart := first [left; reflexivity | right; intros ? []; reflexivity].
(** [table_ok] of a message. *)
Ltac table_laws :=
  split;
  [ apply (bool_decide_unpack _); vm_compute; exact I
  | forall_table ltac:(cbn [r_get r_set r_kind r_ty r_name]; split; [wire_lens | split; [kind_laws | intros ? []; reflexivity]])
  | forall_table ltac:(forall_table ltac:(apart))
  | let H := fresh in let Hu := fresh in
    intros [] [] H Hu; repeat (let E := fresh in apply Forall_cons in H; destruct H as [E H]; simpl in E);
    simpl in Hu; subst; reflexivity ].
