(* ===== verification/ReflHm.v ===== *)
(** * hashmerchant: reflection on the API types

    [api/terp/hashmerchant/v1/*.pulsar.go]: the table of the fields of every
    message, and the methods over it. *)

From S2P Require Import Prelude Proto Sdk HmTypes Wire WireLaws Pulsar WireHm WireToy ApiHm Reflect.

Open Scope go_scope.

Section Reflection.
Context {RT : WireRuntime} {V : Type -> Type} {VV : Values V} {VL : ValuesLaws V}.
Context {ApiPageRequest ApiPageResponse ApiCoin : Type} {PPageRequest : PulsarMsg ApiPageRequest}
  {PPageResponse : PulsarMsg ApiPageResponse} {PCoin : PulsarMsg ApiCoin}.
Context {OP : Options}.

(** [RegisteredChain]. *)
Inductive RegisteredChain_ref :=
| RegisteredChain_3_list (l : option (list bytes))
| RegisteredChain_4_list (l : option (list bytes))
| RegisteredChain_foreign.
Definition RegisteredChain_fields : list (rfield ApiRegisteredChain (V RegisteredChain_ref)) := [
  RField "terp.hashmerchant.v1.RegisteredChain.chain_uid" (bytes) ApiRegisteredChain_ChainUid (fun v m => MkApiRegisteredChain v (ApiRegisteredChain_Name m) (ApiRegisteredChain_RpcEndpoints m) (ApiRegisteredChain_HashAlgos m) (ApiRegisteredChain_Enabled m) (ApiRegisteredChain_unknownFields m)) KString;
  RField "terp.hashmerchant.v1.RegisteredChain.name" (bytes) ApiRegisteredChain_Name (fun v m => MkApiRegisteredChain (ApiRegisteredChain_ChainUid m) v (ApiRegisteredChain_RpcEndpoints m) (ApiRegisteredChain_HashAlgos m) (ApiRegisteredChain_Enabled m) (ApiRegisteredChain_unknownFields m)) KString;
  RField "terp.hashmerchant.v1.RegisteredChain.rpc_endpoints" (list bytes) ApiRegisteredChain_RpcEndpoints (fun v m => MkApiRegisteredChain (ApiRegisteredChain_ChainUid m) (ApiRegisteredChain_Name m) v (ApiRegisteredChain_HashAlgos m) (ApiRegisteredChain_Enabled m) (ApiRegisteredChain_unknownFields m)) (KList RegisteredChain_3_list (fun c => match c with RegisteredChain_3_list v => Some v | _ => None end));
  RField "terp.hashmerchant.v1.RegisteredChain.hash_algos" (list bytes) ApiRegisteredChain_HashAlgos (fun v m => MkApiRegisteredChain (ApiRegisteredChain_ChainUid m) (ApiRegisteredChain_Name m) (ApiRegisteredChain_RpcEndpoints m) v (ApiRegisteredChain_Enabled m) (ApiRegisteredChain_unknownFields m)) (KList RegisteredChain_4_list (fun c => match c with RegisteredChain_4_list v => Some v | _ => None end));
  RField "terp.hashmerchant.v1.RegisteredChain.enabled" (bool) ApiRegisteredChain_Enabled (fun v m => MkApiRegisteredChain (ApiRegisteredChain_ChainUid m) (ApiRegisteredChain_Name m) (ApiRegisteredChain_RpcEndpoints m) (ApiRegisteredChain_HashAlgos m) v (ApiRegisteredChain_unknownFields m)) KBool].
Definition RegisteredChain_Range {S : Type} (x : ApiRegisteredChain) (f : string -> V RegisteredChain_ref -> S -> S * bool) (s : S) : S := Range_of RegisteredChain_fields x f s.
Definition RegisteredChain_Has (x : ApiRegisteredChain) (fd : string) : option bool := Has_of RegisteredChain_fields x fd.
Definition RegisteredChain_Clear (x : ApiRegisteredChain) (fd : string) : option ApiRegisteredChain := Clear_of RegisteredChain_fields x fd.
Definition RegisteredChain_Get (x : ApiRegisteredChain) (fd : string) : option (V RegisteredChain_ref) := Get_of RegisteredChain_fields x fd.
Definition RegisteredChain_Set (x : ApiRegisteredChain) (fd : string) (value : V RegisteredChain_ref) : option ApiRegisteredChain := Set_of RegisteredChain_fields x fd value.
Definition RegisteredChain_Mutable (x : ApiRegisteredChain) (fd : string) : option (ApiRegisteredChain * V RegisteredChain_ref) := Mutable_of RegisteredChain_fields x fd.
Definition RegisteredChain_NewField (fd : string) : option (V RegisteredChain_ref) := NewField_of RegisteredChain_fields fd.
Lemma rhm_RegisteredChain_table : table_ok RegisteredChain_fields ApiRegisteredChain_unknownFields.
Proof. table_laws. Qed.

(** [RegisteredContract]. *)
Inductive RegisteredContract_ref :=
| RegisteredContract_3_list (l : option (list bytes))
| RegisteredContract_foreign.
Definition RegisteredContract_fields : list (rfield ApiRegisteredContract (V RegisteredContract_ref)) := [
  RField "terp.hashmerchant.v1.RegisteredContract.contract_addr" (bytes) ApiRegisteredContract_ContractAddr (fun v m => MkApiRegisteredContract v (ApiRegisteredContract_ChainUid m) (ApiRegisteredContract_SubstoreKeys m) (ApiRegisteredContract_Enabled m) (ApiRegisteredContract_unknownFields m)) KString;
  RField "terp.hashmerchant.v1.RegisteredContract.chain_uid" (bytes) ApiRegisteredContract_ChainUid (fun v m => MkApiRegisteredContract (ApiRegisteredContract_ContractAddr m) v (ApiRegisteredContract_SubstoreKeys m) (ApiRegisteredContract_Enabled m) (ApiRegisteredContract_unknownFields m)) KString;
  RField "terp.hashmerchant.v1.RegisteredContract.substore_keys" (list bytes) ApiRegisteredContract_SubstoreKeys (fun v m => MkApiRegisteredContract (ApiRegisteredContract_ContractAddr m) (ApiRegisteredContract_ChainUid m) v (ApiRegisteredContract_Enabled m) (ApiRegisteredContract_unknownFields m)) (KList RegisteredContract_3_list (fun c => match c with RegisteredContract_3_list v => Some v | _ => None end));
  RField "terp.hashmerchant.v1.RegisteredContract.enabled" (bool) ApiRegisteredContract_Enabled (fun v m => MkApiRegisteredContract (ApiRegisteredContract_ContractAddr m) (ApiRegisteredContract_ChainUid m) (ApiRegisteredContract_SubstoreKeys m) v (ApiRegisteredContract_unknownFields m)) KBool].
Definition RegisteredContract_Range {S : Type} (x : ApiRegisteredContract) (f : string -> V RegisteredContract_ref -> S -> S * bool) (s : S) : S := Range_of RegisteredContract_fields x f s.
Definition RegisteredContract_Has (x : ApiRegisteredContract) (fd : string) : option bool := Has_of RegisteredContract_fields x fd.
Definition RegisteredContract_Clear (x : ApiRegisteredContract) (fd : string) : option ApiRegisteredContract := Clear_of RegisteredContract_fields x fd.
Definition RegisteredContract_Get (x : ApiRegisteredContract) (fd : string) : option (V RegisteredContract_ref) := Get_of RegisteredContract_fields x fd.
Definition RegisteredContract_Set (x : ApiRegisteredContract) (fd : string) (value : V RegisteredContract_ref) : option ApiRegisteredContract := Set_of RegisteredContract_fields x fd value.
Definition RegisteredContract_Mutable (x : ApiRegisteredContract) (fd : string) : option (ApiRegisteredContract * V RegisteredContract_ref) := Mutable_of RegisteredContract_fields x fd.
Definition RegisteredContract_NewField (fd : string) : option (V RegisteredContract_ref) := NewField_of RegisteredContract_fields fd.
Lemma rhm_RegisteredContract_table : table_ok RegisteredContract_fields ApiRegisteredContract_unknownFields.
Proof. table_laws. Qed.

(** [EscrowRecord]. *)
Inductive EscrowRecord_ref :=
| EscrowRecord_Coin_msg (x : option ApiCoin)
| EscrowRecord_foreign.
Definition EscrowRecord_fields : list (rfield (ApiEscrowRecord (ApiCoin := ApiCoin)) (V EscrowRecord_ref)) := [
  RField "terp.hashmerchant.v1.EscrowRecord.contract_addr" (bytes) ApiEscrowRecord_ContractAddr (fun v m => MkApiEscrowRecord v (ApiEscrowRecord_Amount m) (ApiEscrowRecord_PaidUntilHeight m) (ApiEscrowRecord_LastPruneHeight m) (ApiEscrowRecord_unknownFields m)) KString;
  RField "terp.hashmerchant.v1.EscrowRecord.amount" (option ApiCoin) ApiEscrowRecord_Amount (fun v m => MkApiEscrowRecord (ApiEscrowRecord_ContractAddr m) v (ApiEscrowRecord_PaidUntilHeight m) (ApiEscrowRecord_LastPruneHeight m) (ApiEscrowRecord_unknownFields m)) (KMsg pZero EscrowRecord_Coin_msg (fun c => match c with EscrowRecord_Coin_msg v => Some v | _ => None end));
  RField "terp.hashmerchant.v1.EscrowRecord.paid_until_height" (Z) ApiEscrowRecord_PaidUntilHeight (fun v m => MkApiEscrowRecord (ApiEscrowRecord_ContractAddr m) (ApiEscrowRecord_Amount m) v (ApiEscrowRecord_LastPruneHeight m) (ApiEscrowRecord_unknownFields m)) KUint64;
  RField "terp.hashmerchant.v1.EscrowRecord.last_prune_height" (Z) ApiEscrowRecord_LastPruneHeight (fun v m => MkApiEscrowRecord (ApiEscrowRecord_ContractAddr m) (ApiEscrowRecord_Amount m) (ApiEscrowRecord_PaidUntilHeight m) v (ApiEscrowRecord_unknownFields m)) KUint64].
Definition EscrowRecord_Range {S : Type} (x : (ApiEscrowRecord (ApiCoin := ApiCoin))) (f : string -> V EscrowRecord_ref -> S -> S * bool) (s : S) : S := Range_of EscrowRecord_fields x f s.
Definition EscrowRecord_Has (x : (ApiEscrowRecord (ApiCoin := ApiCoin))) (fd : string) : option bool := Has_of EscrowRecord_fields x fd.
Definition EscrowRecord_Clear (x : (ApiEscrowRecord (ApiCoin := ApiCoin))) (fd : string) : option (ApiEscrowRecord (ApiCoin := ApiCoin)) := Clear_of EscrowRecord_fields x fd.
Definition EscrowRecord_Get (x : (ApiEscrowRecord (ApiCoin := ApiCoin))) (fd : string) : option (V EscrowRecord_ref) := Get_of EscrowRecord_fields x fd.
Definition EscrowRecord_Set (x : (ApiEscrowRecord (ApiCoin := ApiCoin))) (fd : string) (value : V EscrowRecord_ref) : option (ApiEscrowRecord (ApiCoin := ApiCoin)) := Set_of EscrowRecord_fields x fd value.
Definition EscrowRecord_Mutable (x : (ApiEscrowRecord (ApiCoin := ApiCoin))) (fd : string) : option ((ApiEscrowRecord (ApiCoin := ApiCoin)) * V EscrowRecord_ref) := Mutable_of EscrowRecord_fields x fd.
Definition EscrowRecord_NewField (fd : string) : option (V EscrowRecord_ref) := NewField_of EscrowRecord_fields fd.
Lemma rhm_EscrowRecord_table : table_ok EscrowRecord_fields ApiEscrowRecord_unknownFields.
Proof. table_laws. Qed.

(** [HashRoot]. *)
Definition HashRoot_fields : list (rfield ApiHashRoot (V no_ref)) := [
  RField "terp.hashmerchant.v1.HashRoot.chain_uid" (bytes) ApiHashRoot_ChainUid (fun v m => MkApiHashRoot v (ApiHashRoot_Algo m) (ApiHashRoot_Height m) (ApiHashRoot_Root m) (ApiHashRoot_AttestationCount m) (ApiHashRoot_BlockTime m) (ApiHashRoot_unknownFields m)) KString;
  RField "terp.hashmerchant.v1.HashRoot.algo" (bytes) ApiHashRoot_Algo (fun v m => MkApiHashRoot (ApiHashRoot_ChainUid m) v (ApiHashRoot_Height m) (ApiHashRoot_Root m) (ApiHashRoot_AttestationCount m) (ApiHashRoot_BlockTime m) (ApiHashRoot_unknownFields m)) KString;
  RField "terp.hashmerchant.v1.HashRoot.height" (Z) ApiHashRoot_Height (fun v m => MkApiHashRoot (ApiHashRoot_ChainUid m) (ApiHashRoot_Algo m) v (ApiHashRoot_Root m) (ApiHashRoot_AttestationCount m) (ApiHashRoot_BlockTime m) (ApiHashRoot_unknownFields m)) KUint64;
  RField "terp.hashmerchant.v1.HashRoot.root" (bytes) ApiHashRoot_Root (fun v m => MkApiHashRoot (ApiHashRoot_ChainUid m) (ApiHashRoot_Algo m) (ApiHashRoot_Height m) v (ApiHashRoot_AttestationCount m) (ApiHashRoot_BlockTime m) (ApiHashRoot_unknownFields m)) KBytes;
  RField "terp.hashmerchant.v1.HashRoot.attestation_count" (Z) ApiHashRoot_AttestationCount (fun v m => MkApiHashRoot (ApiHashRoot_ChainUid m) (ApiHashRoot_Algo m) (ApiHashRoot_Height m) (ApiHashRoot_Root m) v (ApiHashRoot_BlockTime m) (ApiHashRoot_unknownFields m)) KUint32;
  RField "terp.hashmerchant.v1.HashRoot.block_time" (Z) ApiHashRoot_BlockTime (fun v m => MkApiHashRoot (ApiHashRoot_ChainUid m) (ApiHashRoot_Algo m) (ApiHashRoot_Height m) (ApiHashRoot_Root m) (ApiHashRoot_AttestationCount m) v (ApiHashRoot_unknownFields m)) KInt64].
Definition HashRoot_Range {S : Type} (x : ApiHashRoot) (f : string -> V no_ref -> S -> S * bool) (s : S) : S := Range_of HashRoot_fields x f s.
Definition HashRoot_Has (x : ApiHashRoot) (fd : string) : option bool := Has_of HashRoot_fields x fd.
Definition HashRoot_Clear (x : ApiHashRoot) (fd : string) : option ApiHashRoot := Clear_of HashRoot_fields x fd.
Definition HashRoot_Get (x : ApiHashRoot) (fd : string) : option (V no_ref) := Get_of HashRoot_fields x fd.
Definition HashRoot_Set (x : ApiHashRoot) (fd : string) (value : V no_ref) : option ApiHashRoot := Set_of HashRoot_fields x fd value.
Definition HashRoot_Mutable (x : ApiHashRoot) (fd : string) : option (ApiHashRoot * V no_ref) := Mutable_of HashRoot_fields x fd.
Definition HashRoot_NewField (fd : string) : option (V no_ref) := NewField_of HashRoot_fields fd.
Lemma rhm_HashRoot_table : table_ok HashRoot_fields ApiHashRoot_unknownFields.
Proof. table_laws. Qed.

(** [HashPairTicket]. *)
Definition HashPairTicket_fields : list (rfield ApiHashPairTicket (V no_ref)) := [
  RField "terp.hashmerchant.v1.HashPairTicket.project_id" (bytes) ApiHashPairTicket_ProjectId (fun v m => MkApiHashPairTicket v (ApiHashPairTicket_OriginHash m) (ApiHashPairTicket_DestinationHash m) (ApiHashPairTicket_ZkCircuitId m) (ApiHashPairTicket_DestinationChainId m) (ApiHashPairTicket_ExpiryBlock m) (ApiHashPairTicket_Metadata m) (ApiHashPairTicket_unknownFields m)) KString;
  RField "terp.hashmerchant.v1.HashPairTicket.origin_hash" (bytes) ApiHashPairTicket_OriginHash (fun v m => MkApiHashPairTicket (ApiHashPairTicket_ProjectId m) v (ApiHashPairTicket_DestinationHash m) (ApiHashPairTicket_ZkCircuitId m) (ApiHashPairTicket_DestinationChainId m) (ApiHashPairTicket_ExpiryBlock m) (ApiHashPairTicket_Metadata m) (ApiHashPairTicket_unknownFields m)) KBytes;
  RField "terp.hashmerchant.v1.HashPairTicket.destination_hash" (bytes) ApiHashPairTicket_DestinationHash (fun v m => MkApiHashPairTicket (ApiHashPairTicket_ProjectId m) (ApiHashPairTicket_OriginHash m) v (ApiHashPairTicket_ZkCircuitId m) (ApiHashPairTicket_DestinationChainId m) (ApiHashPairTicket_ExpiryBlock m) (ApiHashPairTicket_Metadata m) (ApiHashPairTicket_unknownFields m)) KBytes;
  RField "terp.hashmerchant.v1.HashPairTicket.zk_circuit_id" (bytes) ApiHashPairTicket_ZkCircuitId (fun v m => MkApiHashPairTicket (ApiHashPairTicket_ProjectId m) (ApiHashPairTicket_OriginHash m) (ApiHashPairTicket_DestinationHash m) v (ApiHashPairTicket_DestinationChainId m) (ApiHashPairTicket_ExpiryBlock m) (ApiHashPairTicket_Metadata m) (ApiHashPairTicket_unknownFields m)) KString;
  RField "terp.hashmerchant.v1.HashPairTicket.destination_chain_id" (Z) ApiHashPairTicket_DestinationChainId (fun v m => MkApiHashPairTicket (ApiHashPairTicket_ProjectId m) (ApiHashPairTicket_OriginHash m) (ApiHashPairTicket_DestinationHash m) (ApiHashPairTicket_ZkCircuitId m) v (ApiHashPairTicket_ExpiryBlock m) (ApiHashPairTicket_Metadata m) (ApiHashPairTicket_unknownFields m)) KUint64;
  RField "terp.hashmerchant.v1.HashPairTicket.expiry_block" (Z) ApiHashPairTicket_ExpiryBlock (fun v m => MkApiHashPairTicket (ApiHashPairTicket_ProjectId m) (ApiHashPairTicket_OriginHash m) (ApiHashPairTicket_DestinationHash m) (ApiHashPairTicket_ZkCircuitId m) (ApiHashPairTicket_DestinationChainId m) v (ApiHashPairTicket_Metadata m) (ApiHashPairTicket_unknownFields m)) KUint64;
  RField "terp.hashmerchant.v1.HashPairTicket.metadata" (bytes) ApiHashPairTicket_Metadata (fun v m => MkApiHashPairTicket (ApiHashPairTicket_ProjectId m) (ApiHashPairTicket_OriginHash m) (ApiHashPairTicket_DestinationHash m) (ApiHashPairTicket_ZkCircuitId m) (ApiHashPairTicket_DestinationChainId m) (ApiHashPairTicket_ExpiryBlock m) v (ApiHashPairTicket_unknownFields m)) KBytes].
Definition HashPairTicket_Range {S : Type} (x : ApiHashPairTicket) (f : string -> V no_ref -> S -> S * bool) (s : S) : S := Range_of HashPairTicket_fields x f s.
Definition HashPairTicket_Has (x : ApiHashPairTicket) (fd : string) : option bool := Has_of HashPairTicket_fields x fd.
Definition HashPairTicket_Clear (x : ApiHashPairTicket) (fd : string) : option ApiHashPairTicket := Clear_of HashPairTicket_fields x fd.
Definition HashPairTicket_Get (x : ApiHashPairTicket) (fd : string) : option (V no_ref) := Get_of HashPairTicket_fields x fd.
Definition HashPairTicket_Set (x : ApiHashPairTicket) (fd : string) (value : V no_ref) : option ApiHashPairTicket := Set_of HashPairTicket_fields x fd value.
Definition HashPairTicket_Mutable (x : ApiHashPairTicket) (fd : string) : option (ApiHashPairTicket * V no_ref) := Mutable_of HashPairTicket_fields x fd.
Definition HashPairTicket_NewField (fd : string) : option (V no_ref) := NewField_of HashPairTicket_fields fd.
Lemma rhm_HashPairTicket_table : table_ok HashPairTicket_fields ApiHashPairTicket_unknownFields.
Proof. table_laws. Qed.

(** [VoteExtensionHashData]. *)
Definition VoteExtensionHashData_fields : list (rfield ApiVoteExtensionHashData (V no_ref)) := [
  RField "terp.hashmerchant.v1.VoteExtensionHashData.runtime_id" (bytes) ApiVoteExtensionHashData_RuntimeId (fun v m => MkApiVoteExtensionHashData v (ApiVoteExtensionHashData_ChainUid m) (ApiVoteExtensionHashData_Algo m) (ApiVoteExtensionHashData_Root m) (ApiVoteExtensionHashData_ForeignHeight m) (ApiVoteExtensionHashData_ForeignBlockTime m) (ApiVoteExtensionHashData_Ics23Proof m) (ApiVoteExtensionHashData_unknownFields m)) KString;
  RField "terp.hashmerchant.v1.VoteExtensionHashData.chain_uid" (bytes) ApiVoteExtensionHashData_ChainUid (fun v m => MkApiVoteExtensionHashData (ApiVoteExtensionHashData_RuntimeId m) v (ApiVoteExtensionHashData_Algo m) (ApiVoteExtensionHashData_Root m) (ApiVoteExtensionHashData_ForeignHeight m) (ApiVoteExtensionHashData_ForeignBlockTime m) (ApiVoteExtensionHashData_Ics23Proof m) (ApiVoteExtensionHashData_unknownFields m)) KString;
  RField "terp.hashmerchant.v1.VoteExtensionHashData.algo" (bytes) ApiVoteExtensionHashData_Algo (fun v m => MkApiVoteExtensionHashData (ApiVoteExtensionHashData_RuntimeId m) (ApiVoteExtensionHashData_ChainUid m) v (ApiVoteExtensionHashData_Root m) (ApiVoteExtensionHashData_ForeignHeight m) (ApiVoteExtensionHashData_ForeignBlockTime m) (ApiVoteExtensionHashData_Ics23Proof m) (ApiVoteExtensionHashData_unknownFields m)) KString;
  RField "terp.hashmerchant.v1.VoteExtensionHashData.root" (bytes) ApiVoteExtensionHashData_Root (fun v m => MkApiVoteExtensionHashData (ApiVoteExtensionHashData_RuntimeId m) (ApiVoteExtensionHashData_ChainUid m) (ApiVoteExtensionHashData_Algo m) v (ApiVoteExtensionHashData_ForeignHeight m) (ApiVoteExtensionHashData_ForeignBlockTime m) (ApiVoteExtensionHashData_Ics23Proof m) (ApiVoteExtensionHashData_unknownFields m)) KBytes;
  RField "terp.hashmerchant.v1.VoteExtensionHashData.foreign_height" (Z) ApiVoteExtensionHashData_ForeignHeight (fun v m => MkApiVoteExtensionHashData (ApiVoteExtensionHashData_RuntimeId m) (ApiVoteExtensionHashData_ChainUid m) (ApiVoteExtensionHashData_Algo m) (ApiVoteExtensionHashData_Root m) v (ApiVoteExtensionHashData_ForeignBlockTime m) (ApiVoteExtensionHashData_Ics23Proof m) (ApiVoteExtensionHashData_unknownFields m)) KUint64;
  RField "terp.hashmerchant.v1.VoteExtensionHashData.foreign_block_time" (Z) ApiVoteExtensionHashData_ForeignBlockTime (fun v m => MkApiVoteExtensionHashData (ApiVoteExtensionHashData_RuntimeId m) (ApiVoteExtensionHashData_ChainUid m) (ApiVoteExtensionHashData_Algo m) (ApiVoteExtensionHashData_Root m) (ApiVoteExtensionHashData_ForeignHeight m) v (ApiVoteExtensionHashData_Ics23Proof m) (ApiVoteExtensionHashData_unknownFields m)) KInt64;
  RField "terp.hashmerchant.v1.VoteExtensionHashData.ics23_proof" (bytes) ApiVoteExtensionHashData_Ics23Proof (fun v m => MkApiVoteExtensionHashData (ApiVoteExtensionHashData_RuntimeId m) (ApiVoteExtensionHashData_ChainUid m) (ApiVoteExtensionHashData_Algo m) (ApiVoteExtensionHashData_Root m) (ApiVoteExtensionHashData_ForeignHeight m) (ApiVoteExtensionHashData_ForeignBlockTime m) v (ApiVoteExtensionHashData_unknownFields m)) KBytes].
Definition VoteExtensionHashData_Range {S : Type} (x : ApiVoteExtensionHashData) (f : string -> V no_ref -> S -> S * bool) (s : S) : S := Range_of VoteExtensionHashData_fields x f s.
Definition VoteExtensionHashData_Has (x : ApiVoteExtensionHashData) (fd : string) : option bool := Has_of VoteExtensionHashData_fields x fd.
Definition VoteExtensionHashData_Clear (x : ApiVoteExtensionHashData) (fd : string) : option ApiVoteExtensionHashData := Clear_of VoteExtensionHashData_fields x fd.
Definition VoteExtensionHashData_Get (x : ApiVoteExtensionHashData) (fd : string) : option (V no_ref) := Get_of VoteExtensionHashData_fields x fd.
Definition VoteExtensionHashData_Set (x : ApiVoteExtensionHashData) (fd : string) (value : V no_ref) : option ApiVoteExtensionHashData := Set_of VoteExtensionHashData_fields x fd value.
Definition VoteExtensionHashData_Mutable (x : ApiVoteExtensionHashData) (fd : string) : option (ApiVoteExtensionHashData * V no_ref) := Mutable_of VoteExtensionHashData_fields x fd.
Definition VoteExtensionHashData_NewField (fd : string) : option (V no_ref) := NewField_of VoteExtensionHashData_fields fd.
Lemma rhm_VoteExtensionHashData_table : table_ok VoteExtensionHashData_fields ApiVoteExtensionHashData_unknownFields.
Proof. table_laws. Qed.

(** [Params]. *)
Definition Params_fields : list (rfield ApiParams (V no_ref)) := [
  RField "terp.hashmerchant.v1.Params.quorum_fraction" (bytes) ApiParams_QuorumFraction (fun v m => MkApiParams v (ApiParams_PruneInterval m) (ApiParams_EscrowDenom m) (ApiParams_MinEscrowAmount m) (ApiParams_MarketMode m) (ApiParams_unknownFields m)) KString;
  RField "terp.hashmerchant.v1.Params.prune_interval" (Z) ApiParams_PruneInterval (fun v m => MkApiParams (ApiParams_QuorumFraction m) v (ApiParams_EscrowDenom m) (ApiParams_MinEscrowAmount m) (ApiParams_MarketMode m) (ApiParams_unknownFields m)) KUint64;
  RField "terp.hashmerchant.v1.Params.escrow_denom" (bytes) ApiParams_EscrowDenom (fun v m => MkApiParams (ApiParams_QuorumFraction m) (ApiParams_PruneInterval m) v (ApiParams_MinEscrowAmount m) (ApiParams_MarketMode m) (ApiParams_unknownFields m)) KString;
  RField "terp.hashmerchant.v1.Params.min_escrow_amount" (bytes) ApiParams_MinEscrowAmount (fun v m => MkApiParams (ApiParams_QuorumFraction m) (ApiParams_PruneInterval m) (ApiParams_EscrowDenom m) v (ApiParams_MarketMode m) (ApiParams_unknownFields m)) KString;
  RField "terp.hashmerchant.v1.Params.market_mode" (Z) ApiParams_MarketMode (fun v m => MkApiParams (ApiParams_QuorumFraction m) (ApiParams_PruneInterval m) (ApiParams_EscrowDenom m) (ApiParams_MinEscrowAmount m) v (ApiParams_unknownFields m)) KEnum].
Definition Params_Range {S : Type} (x : ApiParams) (f : string -> V no_ref -> S -> S * bool) (s : S) : S := Range_of Params_fields x f s.
Definition Params_Has (x : ApiParams) (fd : string) : option bool := Has_of Params_fields x fd.
Definition Params_Clear (x : ApiParams) (fd : string) : option ApiParams := Clear_of Params_fields x fd.
Definition Params_Get (x : ApiParams) (fd : string) : option (V no_ref) := Get_of Params_fields x fd.
Definition Params_Set (x : ApiParams) (fd : string) (value : V no_ref) : option ApiParams := Set_of Params_fields x fd value.
Definition Params_Mutable (x : ApiParams) (fd : string) : option (ApiParams * V no_ref) := Mutable_of Params_fields x fd.
Definition Params_NewField (fd : string) : option (V no_ref) := NewField_of Params_fields fd.
Lemma rhm_Params_table : table_ok Params_fields ApiParams_unknownFields.
Proof. table_laws. Qed.

(** [GenesisState]. *)
Inductive GenesisState_ref :=
| GenesisState_Params_msg (x : option ApiParams)
| GenesisState_2_list (l : option (list (option ApiRegisteredChain)))
| GenesisState_3_list (l : option (list (option ApiRegisteredContract)))
| GenesisState_4_list (l : option (list (option (ApiEscrowRecord (ApiCoin := ApiCoin)))))
| GenesisState_5_list (l : option (list (option ApiHashRoot)))
| GenesisState_foreign.
Definition GenesisState_fields : list (rfield (ApiGenesisState (ApiCoin := ApiCoin)) (V GenesisState_ref)) := [
  RField "terp.hashmerchant.v1.GenesisState.params" (option ApiParams) ApiGenesisState_Params (fun v m => MkApiGenesisState v (ApiGenesisState_RegisteredChains m) (ApiGenesisState_RegisteredContracts m) (ApiGenesisState_EscrowRecords m) (ApiGenesisState_HashRoots m) (ApiGenesisState_PruneEpoch m) (ApiGenesisState_unknownFields m)) (KMsg pZero GenesisState_Params_msg (fun c => match c with GenesisState_Params_msg v => Some v | _ => None end));
  RField "terp.hashmerchant.v1.GenesisState.registered_chains" (list (option ApiRegisteredChain)) ApiGenesisState_RegisteredChains (fun v m => MkApiGenesisState (ApiGenesisState_Params m) v (ApiGenesisState_RegisteredContracts m) (ApiGenesisState_EscrowRecords m) (ApiGenesisState_HashRoots m) (ApiGenesisState_PruneEpoch m) (ApiGenesisState_unknownFields m)) (KList GenesisState_2_list (fun c => match c with GenesisState_2_list v => Some v | _ => None end));
  RField "terp.hashmerchant.v1.GenesisState.registered_contracts" (list (option ApiRegisteredContract)) ApiGenesisState_RegisteredContracts (fun v m => MkApiGenesisState (ApiGenesisState_Params m) (ApiGenesisState_RegisteredChains m) v (ApiGenesisState_EscrowRecords m) (ApiGenesisState_HashRoots m) (ApiGenesisState_PruneEpoch m) (ApiGenesisState_unknownFields m)) (KList GenesisState_3_list (fun c => match c with GenesisState_3_list v => Some v | _ => None end));
  RField "terp.hashmerchant.v1.GenesisState.escrow_records" (list (option (ApiEscrowRecord (ApiCoin := ApiCoin)))) ApiGenesisState_EscrowRecords (fun v m => MkApiGenesisState (ApiGenesisState_Params m) (ApiGenesisState_RegisteredChains m) (ApiGenesisState_RegisteredContracts m) v (ApiGenesisState_HashRoots m) (ApiGenesisState_PruneEpoch m) (ApiGenesisState_unknownFields m)) (KList GenesisState_4_list (fun c => match c with GenesisState_4_list v => Some v | _ => None end));
  RField "terp.hashmerchant.v1.GenesisState.hash_roots" (list (option ApiHashRoot)) ApiGenesisState_HashRoots (fun v m => MkApiGenesisState (ApiGenesisState_Params m) (ApiGenesisState_RegisteredChains m) (ApiGenesisState_RegisteredContracts m) (ApiGenesisState_EscrowRecords m) v (ApiGenesisState_PruneEpoch m) (ApiGenesisState_unknownFields m)) (KList GenesisState_5_list (fun c => match c with GenesisState_5_list v => Some v | _ => None end));
  RField "terp.hashmerchant.v1.GenesisState.prune_epoch" (Z) ApiGenesisState_PruneEpoch (fun v m => MkApiGenesisState (ApiGenesisState_Params m) (ApiGenesisState_RegisteredChains m) (ApiGenesisState_RegisteredContracts m) (ApiGenesisState_EscrowRecords m) (ApiGenesisState_HashRoots m) v (ApiGenesisState_unknownFields m)) KUint64].
Definition GenesisState_Range {S : Type} (x : (ApiGenesisState (ApiCoin := ApiCoin))) (f : string -> V GenesisState_ref -> S -> S * bool) (s : S) : S := Range_of GenesisState_fields x f s.
Definition GenesisState_Has (x : (ApiGenesisState (ApiCoin := ApiCoin))) (fd : string) : option bool := Has_of GenesisState_fields x fd.
Definition GenesisState_Clear (x : (ApiGenesisState (ApiCoin := ApiCoin))) (fd : string) : option (ApiGenesisState (ApiCoin := ApiCoin)) := Clear_of GenesisState_fields x fd.
Definition GenesisState_Get (x : (ApiGenesisState (ApiCoin := ApiCoin))) (fd : string) : option (V GenesisState_ref) := Get_of GenesisState_fields x fd.
Definition GenesisState_Set (x : (ApiGenesisState (ApiCoin := ApiCoin))) (fd : string) (value : V GenesisState_ref) : option (ApiGenesisState (ApiCoin := ApiCoin)) := Set_of GenesisState_fields x fd value.
Definition GenesisState_Mutable (x : (ApiGenesisState (ApiCoin := ApiCoin))) (fd : string) : option ((ApiGenesisState (ApiCoin := ApiCoin)) * V GenesisState_ref) := Mutable_of GenesisState_fields x fd.
Definition GenesisState_NewField (fd : string) : option (V GenesisState_ref) := NewField_of GenesisState_fields fd.
Lemma rhm_GenesisState_table : table_ok GenesisState_fields ApiGenesisState_unknownFields.
Proof. table_laws. Qed.

(** [MsgRegisterChain]. *)
Inductive MsgRegisterChain_ref :=
| MsgRegisterChain_RegisteredChain_msg (x : option ApiRegisteredChain)
| MsgRegisterChain_foreign.
Definition MsgRegisterChain_fields : list (rfield ApiMsgRegisterChain (V MsgRegisterChain_ref)) := [
  RField "terp.hashmerchant.v1.MsgRegisterChain.authority" (bytes) ApiMsgRegisterChain_Authority (fun v m => MkApiMsgRegisterChain v (ApiMsgRegisterChain_Chain m) (ApiMsgRegisterChain_unknownFields m)) KString;
  RField "terp.hashmerchant.v1.MsgRegisterChain.chain" (option ApiRegisteredChain) ApiMsgRegisterChain_Chain (fun v m => MkApiMsgRegisterChain (ApiMsgRegisterChain_Authority m) v (ApiMsgRegisterChain_unknownFields m)) (KMsg pZero MsgRegisterChain_RegisteredChain_msg (fun c => match c with MsgRegisterChain_RegisteredChain_msg v => Some v | _ => None end))].
Definition MsgRegisterChain_Range {S : Type} (x : ApiMsgRegisterChain) (f : string -> V MsgRegisterChain_ref -> S -> S * bool) (s : S) : S := Range_of MsgRegisterChain_fields x f s.
Definition MsgRegisterChain_Has (x : ApiMsgRegisterChain) (fd : string) : option bool := Has_of MsgRegisterChain_fields x fd.
Definition MsgRegisterChain_Clear (x : ApiMsgRegisterChain) (fd : string) : option ApiMsgRegisterChain := Clear_of MsgRegisterChain_fields x fd.
Definition MsgRegisterChain_Get (x : ApiMsgRegisterChain) (fd : string) : option (V MsgRegisterChain_ref) := Get_of MsgRegisterChain_fields x fd.
Definition MsgRegisterChain_Set (x : ApiMsgRegisterChain) (fd : string) (value : V MsgRegisterChain_ref) : option ApiMsgRegisterChain := Set_of MsgRegisterChain_fields x fd value.
Definition MsgRegisterChain_Mutable (x : ApiMsgRegisterChain) (fd : string) : option (ApiMsgRegisterChain * V MsgRegisterChain_ref) := Mutable_of MsgRegisterChain_fields x fd.
Definition MsgRegisterChain_NewField (fd : string) : option (V MsgRegisterChain_ref) := NewField_of MsgRegisterChain_fields fd.
Lemma rhm_MsgRegisterChain_table : table_ok MsgRegisterChain_fields ApiMsgRegisterChain_unknownFields.
Proof. table_laws. Qed.

(** [MsgRegisterContract]. *)
Inductive MsgRegisterContract_ref :=
| MsgRegisterContract_4_list (l : option (list bytes))
| MsgRegisterContract_Coin_msg (x : option ApiCoin)
| MsgRegisterContract_foreign.
Definition MsgRegisterContract_fields : list (rfield (ApiMsgRegisterContract (ApiCoin := ApiCoin)) (V MsgRegisterContract_ref)) := [
  RField "terp.hashmerchant.v1.MsgRegisterContract.sender" (bytes) ApiMsgRegisterContract_Sender (fun v m => MkApiMsgRegisterContract v (ApiMsgRegisterContract_ContractAddr m) (ApiMsgRegisterContract_ChainUid m) (ApiMsgRegisterContract_SubstoreKeys m) (ApiMsgRegisterContract_Escrow m) (ApiMsgRegisterContract_unknownFields m)) KString;
  RField "terp.hashmerchant.v1.MsgRegisterContract.contract_addr" (bytes) ApiMsgRegisterContract_ContractAddr (fun v m => MkApiMsgRegisterContract (ApiMsgRegisterContract_Sender m) v (ApiMsgRegisterContract_ChainUid m) (ApiMsgRegisterContract_SubstoreKeys m) (ApiMsgRegisterContract_Escrow m) (ApiMsgRegisterContract_unknownFields m)) KString;
  RField "terp.hashmerchant.v1.MsgRegisterContract.chain_uid" (bytes) ApiMsgRegisterContract_ChainUid (fun v m => MkApiMsgRegisterContract (ApiMsgRegisterContract_Sender m) (ApiMsgRegisterContract_ContractAddr m) v (ApiMsgRegisterContract_SubstoreKeys m) (ApiMsgRegisterContract_Escrow m) (ApiMsgRegisterContract_unknownFields m)) KString;
  RField "terp.hashmerchant.v1.MsgRegisterContract.substore_keys" (list bytes) ApiMsgRegisterContract_SubstoreKeys (fun v m => MkApiMsgRegisterContract (ApiMsgRegisterContract_Sender m) (ApiMsgRegisterContract_ContractAddr m) (ApiMsgRegisterContract_ChainUid m) v (ApiMsgRegisterContract_Escrow m) (ApiMsgRegisterContract_unknownFields m)) (KList MsgRegisterContract_4_list (fun c => match c with MsgRegisterContract_4_list v => Some v | _ => None end));
  RField "terp.hashmerchant.v1.MsgRegisterContract.escrow" (option ApiCoin) ApiMsgRegisterContract_Escrow (fun v m => MkApiMsgRegisterContract (ApiMsgRegisterContract_Sender m) (ApiMsgRegisterContract_ContractAddr m) (ApiMsgRegisterContract_ChainUid m) (ApiMsgRegisterContract_SubstoreKeys m) v (ApiMsgRegisterContract_unknownFields m)) (KMsg pZero MsgRegisterContract_Coin_msg (fun c => match c with MsgRegisterContract_Coin_msg v => Some v | _ => None end))].
Definition MsgRegisterContract_Range {S : Type} (x : (ApiMsgRegisterContract (ApiCoin := ApiCoin))) (f : string -> V MsgRegisterContract_ref -> S -> S * bool) (s : S) : S := Range_of MsgRegisterContract_fields x f s.
Definition MsgRegisterContract_Has (x : (ApiMsgRegisterContract (ApiCoin := ApiCoin))) (fd : string) : option bool := Has_of MsgRegisterContract_fields x fd.
Definition MsgRegisterContract_Clear (x : (ApiMsgRegisterContract (ApiCoin := ApiCoin))) (fd : string) : option (ApiMsgRegisterContract (ApiCoin := ApiCoin)) := Clear_of MsgRegisterContract_fields x fd.
Definition MsgRegisterContract_Get (x : (ApiMsgRegisterContract (ApiCoin := ApiCoin))) (fd : string) : option (V MsgRegisterContract_ref) := Get_of MsgRegisterContract_fields x fd.
Definition MsgRegisterContract_Set (x : (ApiMsgRegisterContract (ApiCoin := ApiCoin))) (fd : string) (value : V MsgRegisterContract_ref) : option (ApiMsgRegisterContract (ApiCoin := ApiCoin)) := Set_of MsgRegisterContract_fields x fd value.
Definition MsgRegisterContract_Mutable (x : (ApiMsgRegisterContract (ApiCoin := ApiCoin))) (fd : string) : option ((ApiMsgRegisterContract (ApiCoin := ApiCoin)) * V MsgRegisterContract_ref) := Mutable_of MsgRegisterContract_fields x fd.
Definition MsgRegisterContract_NewField (fd : string) : option (V MsgRegisterContract_ref) := NewField_of MsgRegisterContract_fields fd.
Lemma rhm_MsgRegisterContract_table : table_ok MsgRegisterContract_fields ApiMsgRegisterContract_unknownFields.
Proof. table_laws. Qed.

(** [MsgRefillEscrow]. *)
Inductive MsgRefillEscrow_ref :=
| MsgRefillEscrow_Coin_msg (x : option ApiCoin)
| MsgRefillEscrow_foreign.
Definition MsgRefillEscrow_fields : list (rfield (ApiMsgRefillEscrow (ApiCoin := ApiCoin)) (V MsgRefillEscrow_ref)) := [
  RField "terp.hashmerchant.v1.MsgRefillEscrow.sender" (bytes) ApiMsgRefillEscrow_Sender (fun v m => MkApiMsgRefillEscrow v (ApiMsgRefillEscrow_ContractAddr m) (ApiMsgRefillEscrow_Amount m) (ApiMsgRefillEscrow_unknownFields m)) KString;
  RField "terp.hashmerchant.v1.MsgRefillEscrow.contract_addr" (bytes) ApiMsgRefillEscrow_ContractAddr (fun v m => MkApiMsgRefillEscrow (ApiMsgRefillEscrow_Sender m) v (ApiMsgRefillEscrow_Amount m) (ApiMsgRefillEscrow_unknownFields m)) KString;
  RField "terp.hashmerchant.v1.MsgRefillEscrow.amount" (option ApiCoin) ApiMsgRefillEscrow_Amount (fun v m => MkApiMsgRefillEscrow (ApiMsgRefillEscrow_Sender m) (ApiMsgRefillEscrow_ContractAddr m) v (ApiMsgRefillEscrow_unknownFields m)) (KMsg pZero MsgRefillEscrow_Coin_msg (fun c => match c with MsgRefillEscrow_Coin_msg v => Some v | _ => None end))].
Definition MsgRefillEscrow_Range {S : Type} (x : (ApiMsgRefillEscrow (ApiCoin := ApiCoin))) (f : string -> V MsgRefillEscrow_ref -> S -> S * bool) (s : S) : S := Range_of MsgRefillEscrow_fields x f s.
Definition MsgRefillEscrow_Has (x : (ApiMsgRefillEscrow (ApiCoin := ApiCoin))) (fd : string) : option bool := Has_of MsgRefillEscrow_fields x fd.
Definition MsgRefillEscrow_Clear (x : (ApiMsgRefillEscrow (ApiCoin := ApiCoin))) (fd : string) : option (ApiMsgRefillEscrow (ApiCoin := ApiCoin)) := Clear_of MsgRefillEscrow_fields x fd.
Definition MsgRefillEscrow_Get (x : (ApiMsgRefillEscrow (ApiCoin := ApiCoin))) (fd : string) : option (V MsgRefillEscrow_ref) := Get_of MsgRefillEscrow_fields x fd.
Definition MsgRefillEscrow_Set (x : (ApiMsgRefillEscrow (ApiCoin := ApiCoin))) (fd : string) (value : V MsgRefillEscrow_ref) : option (ApiMsgRefillEscrow (ApiCoin := ApiCoin)) := Set_of MsgRefillEscrow_fields x fd value.
Definition MsgRefillEscrow_Mutable (x : (ApiMsgRefillEscrow (ApiCoin := ApiCoin))) (fd : string) : option ((ApiMsgRefillEscrow (ApiCoin := ApiCoin)) * V MsgRefillEscrow_ref) := Mutable_of MsgRefillEscrow_fields x fd.
Definition MsgRefillEscrow_NewField (fd : string) : option (V MsgRefillEscrow_ref) := NewField_of MsgRefillEscrow_fields fd.
Lemma rhm_MsgRefillEscrow_table : table_ok MsgRefillEscrow_fields ApiMsgRefillEscrow_unknownFields.
Proof. table_laws. Qed.

(** [MsgUpdateParams]. *)
Inductive MsgUpdateParams_ref :=
| MsgUpdateParams_Params_msg (x : option ApiParams)
| MsgUpdateParams_foreign.
Definition MsgUpdateParams_fields : list (rfield ApiMsgUpdateParams (V MsgUpdateParams_ref)) := [
  RField "terp.hashmerchant.v1.MsgUpdateParams.authority" (bytes) ApiMsgUpdateParams_Authority (fun v m => MkApiMsgUpdateParams v (ApiMsgUpdateParams_Params m) (ApiMsgUpdateParams_unknownFields m)) KString;
  RField "terp.hashmerchant.v1.MsgUpdateParams.params" (option ApiParams) ApiMsgUpdateParams_Params (fun v m => MkApiMsgUpdateParams (ApiMsgUpdateParams_Authority m) v (ApiMsgUpdateParams_unknownFields m)) (KMsg pZero MsgUpdateParams_Params_msg (fun c => match c with MsgUpdateParams_Params_msg v => Some v | _ => None end))].
Definition MsgUpdateParams_Range {S : Type} (x : ApiMsgUpdateParams) (f : string -> V MsgUpdateParams_ref -> S -> S * bool) (s : S) : S := Range_of MsgUpdateParams_fields x f s.
Definition MsgUpdateParams_Has (x : ApiMsgUpdateParams) (fd : string) : option bool := Has_of MsgUpdateParams_fields x fd.
Definition MsgUpdateParams_Clear (x : ApiMsgUpdateParams) (fd : string) : option ApiMsgUpdateParams := Clear_of MsgUpdateParams_fields x fd.
Definition MsgUpdateParams_Get (x : ApiMsgUpdateParams) (fd : string) : option (V MsgUpdateParams_ref) := Get_of MsgUpdateParams_fields x fd.
Definition MsgUpdateParams_Set (x : ApiMsgUpdateParams) (fd : string) (value : V MsgUpdateParams_ref) : option ApiMsgUpdateParams := Set_of MsgUpdateParams_fields x fd value.
Definition MsgUpdateParams_Mutable (x : ApiMsgUpdateParams) (fd : string) : option (ApiMsgUpdateParams * V MsgUpdateParams_ref) := Mutable_of MsgUpdateParams_fields x fd.
Definition MsgUpdateParams_NewField (fd : string) : option (V MsgUpdateParams_ref) := NewField_of MsgUpdateParams_fields fd.
Lemma rhm_MsgUpdateParams_table : table_ok MsgUpdateParams_fields ApiMsgUpdateParams_unknownFields.
Proof. table_laws. Qed.

(** [QueryParamsResponse]. *)
Inductive QueryParamsResponse_ref :=
| QueryParamsResponse_Params_msg (x : option ApiParams)
| QueryParamsResponse_foreign.
Definition QueryParamsResponse_fields : list (rfield ApiQueryParamsResponse (V QueryParamsResponse_ref)) := [
  RField "terp.hashmerchant.v1.QueryParamsResponse.params" (option ApiParams) ApiQueryParamsResponse_Params (fun v m => MkApiQueryParamsResponse v (ApiQueryParamsResponse_unknownFields m)) (KMsg pZero QueryParamsResponse_Params_msg (fun c => match c with QueryParamsResponse_Params_msg v => Some v | _ => None end))].
Definition QueryParamsResponse_Range {S : Type} (x : ApiQueryParamsResponse) (f : string -> V QueryParamsResponse_ref -> S -> S * bool) (s : S) : S := Range_of QueryParamsResponse_fields x f s.
Definition QueryParamsResponse_Has (x : ApiQueryParamsResponse) (fd : string) : option bool := Has_of QueryParamsResponse_fields x fd.
Definition QueryParamsResponse_Clear (x : ApiQueryParamsResponse) (fd : string) : option ApiQueryParamsResponse := Clear_of QueryParamsResponse_fields x fd.
Definition QueryParamsResponse_Get (x : ApiQueryParamsResponse) (fd : string) : option (V QueryParamsResponse_ref) := Get_of QueryParamsResponse_fields x fd.
Definition QueryParamsResponse_Set (x : ApiQueryParamsResponse) (fd : string) (value : V QueryParamsResponse_ref) : option ApiQueryParamsResponse := Set_of QueryParamsResponse_fields x fd value.
Definition QueryParamsResponse_Mutable (x : ApiQueryParamsResponse) (fd : string) : option (ApiQueryParamsResponse * V QueryParamsResponse_ref) := Mutable_of QueryParamsResponse_fields x fd.
Definition QueryParamsResponse_NewField (fd : string) : option (V QueryParamsResponse_ref) := NewField_of QueryParamsResponse_fields fd.
Lemma rhm_QueryParamsResponse_table : table_ok QueryParamsResponse_fields ApiQueryParamsResponse_unknownFields.
Proof. table_laws. Qed.

(** [QueryRegisteredChainRequest]. *)
Definition QueryRegisteredChainRequest_fields : list (rfield ApiQueryRegisteredChainRequest (V no_ref)) := [
  RField "terp.hashmerchant.v1.QueryRegisteredChainRequest.chain_uid" (bytes) ApiQueryRegisteredChainRequest_ChainUid (fun v m => MkApiQueryRegisteredChainRequest v (ApiQueryRegisteredChainRequest_unknownFields m)) KString].
Definition QueryRegisteredChainRequest_Range {S : Type} (x : ApiQueryRegisteredChainRequest) (f : string -> V no_ref -> S -> S * bool) (s : S) : S := Range_of QueryRegisteredChainRequest_fields x f s.
Definition QueryRegisteredChainRequest_Has (x : ApiQueryRegisteredChainRequest) (fd : string) : option bool := Has_of QueryRegisteredChainRequest_fields x fd.
Definition QueryRegisteredChainRequest_Clear (x : ApiQueryRegisteredChainRequest) (fd : string) : option ApiQueryRegisteredChainRequest := Clear_of QueryRegisteredChainRequest_fields x fd.
Definition QueryRegisteredChainRequest_Get (x : ApiQueryRegisteredChainRequest) (fd : string) : option (V no_ref) := Get_of QueryRegisteredChainRequest_fields x fd.
Definition QueryRegisteredChainRequest_Set (x : ApiQueryRegisteredChainRequest) (fd : string) (value : V no_ref) : option ApiQueryRegisteredChainRequest := Set_of QueryRegisteredChainRequest_fields x fd value.
Definition QueryRegisteredChainRequest_Mutable (x : ApiQueryRegisteredChainRequest) (fd : string) : option (ApiQueryRegisteredChainRequest * V no_ref) := Mutable_of QueryRegisteredChainRequest_fields x fd.
Definition QueryRegisteredChainRequest_NewField (fd : string) : option (V no_ref) := NewField_of QueryRegisteredChainRequest_fields fd.
Lemma rhm_QueryRegisteredChainRequest_table : table_ok QueryRegisteredChainRequest_fields ApiQueryRegisteredChainRequest_unknownFields.
Proof. table_laws. Qed.

(** [QueryRegisteredChainResponse]. *)
Inductive QueryRegisteredChainResponse_ref :=
| QueryRegisteredChainResponse_RegisteredChain_msg (x : option ApiRegisteredChain)
| QueryRegisteredChainResponse_foreign.
Definition QueryRegisteredChainResponse_fields : list (rfield ApiQueryRegisteredChainResponse (V QueryRegisteredChainResponse_ref)) := [
  RField "terp.hashmerchant.v1.QueryRegisteredChainResponse.chain" (option ApiRegisteredChain) ApiQueryRegisteredChainResponse_Chain (fun v m => MkApiQueryRegisteredChainResponse v (ApiQueryRegisteredChainResponse_unknownFields m)) (KMsg pZero QueryRegisteredChainResponse_RegisteredChain_msg (fun c => match c with QueryRegisteredChainResponse_RegisteredChain_msg v => Some v | _ => None end))].
Definition QueryRegisteredChainResponse_Range {S : Type} (x : ApiQueryRegisteredChainResponse) (f : string -> V QueryRegisteredChainResponse_ref -> S -> S * bool) (s : S) : S := Range_of QueryRegisteredChainResponse_fields x f s.
Definition QueryRegisteredChainResponse_Has (x : ApiQueryRegisteredChainResponse) (fd : string) : option bool := Has_of QueryRegisteredChainResponse_fields x fd.
Definition QueryRegisteredChainResponse_Clear (x : ApiQueryRegisteredChainResponse) (fd : string) : option ApiQueryRegisteredChainResponse := Clear_of QueryRegisteredChainResponse_fields x fd.
Definition QueryRegisteredChainResponse_Get (x : ApiQueryRegisteredChainResponse) (fd : string) : option (V QueryRegisteredChainResponse_ref) := Get_of QueryRegisteredChainResponse_fields x fd.
Definition QueryRegisteredChainResponse_Set (x : ApiQueryRegisteredChainResponse) (fd : string) (value : V QueryRegisteredChainResponse_ref) : option ApiQueryRegisteredChainResponse := Set_of QueryRegisteredChainResponse_fields x fd value.
Definition QueryRegisteredChainResponse_Mutable (x : ApiQueryRegisteredChainResponse) (fd : string) : option (ApiQueryRegisteredChainResponse * V QueryRegisteredChainResponse_ref) := Mutable_of QueryRegisteredChainResponse_fields x fd.
Definition QueryRegisteredChainResponse_NewField (fd : string) : option (V QueryRegisteredChainResponse_ref) := NewField_of QueryRegisteredChainResponse_fields fd.
Lemma rhm_QueryRegisteredChainResponse_table : table_ok QueryRegisteredChainResponse_fields ApiQueryRegisteredChainResponse_unknownFields.
Proof. table_laws. Qed.

(** [QueryRegisteredChainsRequest]. *)
Inductive QueryRegisteredChainsRequest_ref :=
| QueryRegisteredChainsRequest_PageRequest_msg (x : option ApiPageRequest)
| QueryRegisteredChainsRequest_foreign.
Definition QueryRegisteredChainsRequest_fields : list (rfield (ApiQueryRegisteredChainsRequest (ApiPageRequest := ApiPageRequest)) (V QueryRegisteredChainsRequest_ref)) := [
  RField "terp.hashmerchant.v1.QueryRegisteredChainsRequest.pagination" (option ApiPageRequest) ApiQueryRegisteredChainsRequest_Pagination (fun v m => MkApiQueryRegisteredChainsRequest v (ApiQueryRegisteredChainsRequest_unknownFields m)) (KMsg pZero QueryRegisteredChainsRequest_PageRequest_msg (fun c => match c with QueryRegisteredChainsRequest_PageRequest_msg v => Some v | _ => None end))].
Definition QueryRegisteredChainsRequest_Range {S : Type} (x : (ApiQueryRegisteredChainsRequest (ApiPageRequest := ApiPageRequest))) (f : string -> V QueryRegisteredChainsRequest_ref -> S -> S * bool) (s : S) : S := Range_of QueryRegisteredChainsRequest_fields x f s.
Definition QueryRegisteredChainsRequest_Has (x : (ApiQueryRegisteredChainsRequest (ApiPageRequest := ApiPageRequest))) (fd : string) : option bool := Has_of QueryRegisteredChainsRequest_fields x fd.
Definition QueryRegisteredChainsRequest_Clear (x : (ApiQueryRegisteredChainsRequest (ApiPageRequest := ApiPageRequest))) (fd : string) : option (ApiQueryRegisteredChainsRequest (ApiPageRequest := ApiPageRequest)) := Clear_of QueryRegisteredChainsRequest_fields x fd.
Definition QueryRegisteredChainsRequest_Get (x : (ApiQueryRegisteredChainsRequest (ApiPageRequest := ApiPageRequest))) (fd : string) : option (V QueryRegisteredChainsRequest_ref) := Get_of QueryRegisteredChainsRequest_fields x fd.
Definition QueryRegisteredChainsRequest_Set (x : (ApiQueryRegisteredChainsRequest (ApiPageRequest := ApiPageRequest))) (fd : string) (value : V QueryRegisteredChainsRequest_ref) : option (ApiQueryRegisteredChainsRequest (ApiPageRequest := ApiPageRequest)) := Set_of QueryRegisteredChainsRequest_fields x fd value.
Definition QueryRegisteredChainsRequest_Mutable (x : (ApiQueryRegisteredChainsRequest (ApiPageRequest := ApiPageRequest))) (fd : string) : option ((ApiQueryRegisteredChainsRequest (ApiPageRequest := ApiPageRequest)) * V QueryRegisteredChainsRequest_ref) := Mutable_of QueryRegisteredChainsRequest_fields x fd.
Definition QueryRegisteredChainsRequest_NewField (fd : string) : option (V QueryRegisteredChainsRequest_ref) := NewField_of QueryRegisteredChainsRequest_fields fd.
Lemma rhm_QueryRegisteredChainsRequest_table : table_ok QueryRegisteredChainsRequest_fields ApiQueryRegisteredChainsRequest_unknownFields.
Proof. table_laws. Qed.

(** [QueryRegisteredChainsResponse]. *)
Inductive QueryRegisteredChainsResponse_ref :=
| QueryRegisteredChainsResponse_1_list (l : option (list (option ApiRegisteredChain)))
| QueryRegisteredChainsResponse_PageResponse_msg (x : option ApiPageResponse)
| QueryRegisteredChainsResponse_foreign.
Definition QueryRegisteredChainsResponse_fields : list (rfield (ApiQueryRegisteredChainsResponse (ApiPageResponse := ApiPageResponse)) (V QueryRegisteredChainsResponse_ref)) := [
  RField "terp.hashmerchant.v1.QueryRegisteredChainsResponse.chains" (list (option ApiRegisteredChain)) ApiQueryRegisteredChainsResponse_Chains (fun v m => MkApiQueryRegisteredChainsResponse v (ApiQueryRegisteredChainsResponse_Pagination m) (ApiQueryRegisteredChainsResponse_unknownFields m)) (KList QueryRegisteredChainsResponse_1_list (fun c => match c with QueryRegisteredChainsResponse_1_list v => Some v | _ => None end));
  RField "terp.hashmerchant.v1.QueryRegisteredChainsResponse.pagination" (option ApiPageResponse) ApiQueryRegisteredChainsResponse_Pagination (fun v m => MkApiQueryRegisteredChainsResponse (ApiQueryRegisteredChainsResponse_Chains m) v (ApiQueryRegisteredChainsResponse_unknownFields m)) (KMsg pZero QueryRegisteredChainsResponse_PageResponse_msg (fun c => match c with QueryRegisteredChainsResponse_PageResponse_msg v => Some v | _ => None end))].
Definition QueryRegisteredChainsResponse_Range {S : Type} (x : (ApiQueryRegisteredChainsResponse (ApiPageResponse := ApiPageResponse))) (f : string -> V QueryRegisteredChainsResponse_ref -> S -> S * bool) (s : S) : S := Range_of QueryRegisteredChainsResponse_fields x f s.
Definition QueryRegisteredChainsResponse_Has (x : (ApiQueryRegisteredChainsResponse (ApiPageResponse := ApiPageResponse))) (fd : string) : option bool := Has_of QueryRegisteredChainsResponse_fields x fd.
Definition QueryRegisteredChainsResponse_Clear (x : (ApiQueryRegisteredChainsResponse (ApiPageResponse := ApiPageResponse))) (fd : string) : option (ApiQueryRegisteredChainsResponse (ApiPageResponse := ApiPageResponse)) := Clear_of QueryRegisteredChainsResponse_fields x fd.
Definition QueryRegisteredChainsResponse_Get (x : (ApiQueryRegisteredChainsResponse (ApiPageResponse := ApiPageResponse))) (fd : string) : option (V QueryRegisteredChainsResponse_ref) := Get_of QueryRegisteredChainsResponse_fields x fd.
Definition QueryRegisteredChainsResponse_Set (x : (ApiQueryRegisteredChainsResponse (ApiPageResponse := ApiPageResponse))) (fd : string) (value : V QueryRegisteredChainsResponse_ref) : option (ApiQueryRegisteredChainsResponse (ApiPageResponse := ApiPageResponse)) := Set_of QueryRegisteredChainsResponse_fields x fd value.
Definition QueryRegisteredChainsResponse_Mutable (x : (ApiQueryRegisteredChainsResponse (ApiPageResponse := ApiPageResponse))) (fd : string) : option ((ApiQueryRegisteredChainsResponse (ApiPageResponse := ApiPageResponse)) * V QueryRegisteredChainsResponse_ref) := Mutable_of QueryRegisteredChainsResponse_fields x fd.
Definition QueryRegisteredChainsResponse_NewField (fd : string) : option (V QueryRegisteredChainsResponse_ref) := NewField_of QueryRegisteredChainsResponse_fields fd.
Lemma rhm_QueryRegisteredChainsResponse_table : table_ok QueryRegisteredChainsResponse_fields ApiQueryRegisteredChainsResponse_unknownFields.
Proof. table_laws. Qed.

(** [QueryRegisteredContractRequest]. *)
Definition QueryRegisteredContractRequest_fields : list (rfield ApiQueryRegisteredContractRequest (V no_ref)) := [
  RField "terp.hashmerchant.v1.QueryRegisteredContractRequest.contract_addr" (bytes) ApiQueryRegisteredContractRequest_ContractAddr (fun v m => MkApiQueryRegisteredContractRequest v (ApiQueryRegisteredContractRequest_unknownFields m)) KString].
Definition QueryRegisteredContractRequest_Range {S : Type} (x : ApiQueryRegisteredContractRequest) (f : string -> V no_ref -> S -> S * bool) (s : S) : S := Range_of QueryRegisteredContractRequest_fields x f s.
Definition QueryRegisteredContractRequest_Has (x : ApiQueryRegisteredContractRequest) (fd : string) : option bool := Has_of QueryRegisteredContractRequest_fields x fd.
Definition QueryRegisteredContractRequest_Clear (x : ApiQueryRegisteredContractRequest) (fd : string) : option ApiQueryRegisteredContractRequest := Clear_of QueryRegisteredContractRequest_fields x fd.
Definition QueryRegisteredContractRequest_Get (x : ApiQueryRegisteredContractRequest) (fd : string) : option (V no_ref) := Get_of QueryRegisteredContractRequest_fields x fd.
Definition QueryRegisteredContractRequest_Set (x : ApiQueryRegisteredContractRequest) (fd : string) (value : V no_ref) : option ApiQueryRegisteredContractRequest := Set_of QueryRegisteredContractRequest_fields x fd value.
Definition QueryRegisteredContractRequest_Mutable (x : ApiQueryRegisteredContractRequest) (fd : string) : option (ApiQueryRegisteredContractRequest * V no_ref) := Mutable_of QueryRegisteredContractRequest_fields x fd.
Definition QueryRegisteredContractRequest_NewField (fd : string) : option (V no_ref) := NewField_of QueryRegisteredContractRequest_fields fd.
Lemma rhm_QueryRegisteredContractRequest_table : table_ok QueryRegisteredContractRequest_fields ApiQueryRegisteredContractRequest_unknownFields.
Proof. table_laws. Qed.

(** [QueryRegisteredContractResponse]. *)
Inductive QueryRegisteredContractResponse_ref :=
| QueryRegisteredContractResponse_RegisteredContract_msg (x : option ApiRegisteredContract)
| QueryRegisteredContractResponse_foreign.
Definition QueryRegisteredContractResponse_fields : list (rfield ApiQueryRegisteredContractResponse (V QueryRegisteredContractResponse_ref)) := [
  RField "terp.hashmerchant.v1.QueryRegisteredContractResponse.contract" (option ApiRegisteredContract) ApiQueryRegisteredContractResponse_Contract (fun v m => MkApiQueryRegisteredContractResponse v (ApiQueryRegisteredContractResponse_unknownFields m)) (KMsg pZero QueryRegisteredContractResponse_RegisteredContract_msg (fun c => match c with QueryRegisteredContractResponse_RegisteredContract_msg v => Some v | _ => None end))].
Definition QueryRegisteredContractResponse_Range {S : Type} (x : ApiQueryRegisteredContractResponse) (f : string -> V QueryRegisteredContractResponse_ref -> S -> S * bool) (s : S) : S := Range_of QueryRegisteredContractResponse_fields x f s.
Definition QueryRegisteredContractResponse_Has (x : ApiQueryRegisteredContractResponse) (fd : string) : option bool := Has_of QueryRegisteredContractResponse_fields x fd.
Definition QueryRegisteredContractResponse_Clear (x : ApiQueryRegisteredContractResponse) (fd : string) : option ApiQueryRegisteredContractResponse := Clear_of QueryRegisteredContractResponse_fields x fd.
Definition QueryRegisteredContractResponse_Get (x : ApiQueryRegisteredContractResponse) (fd : string) : option (V QueryRegisteredContractResponse_ref) := Get_of QueryRegisteredContractResponse_fields x fd.
Definition QueryRegisteredContractResponse_Set (x : ApiQueryRegisteredContractResponse) (fd : string) (value : V QueryRegisteredContractResponse_ref) : option ApiQueryRegisteredContractResponse := Set_of QueryRegisteredContractResponse_fields x fd value.
Definition QueryRegisteredContractResponse_Mutable (x : ApiQueryRegisteredContractResponse) (fd : string) : option (ApiQueryRegisteredContractResponse * V QueryRegisteredContractResponse_ref) := Mutable_of QueryRegisteredContractResponse_fields x fd.
Definition QueryRegisteredContractResponse_NewField (fd : string) : option (V QueryRegisteredContractResponse_ref) := NewField_of QueryRegisteredContractResponse_fields fd.
Lemma rhm_QueryRegisteredContractResponse_table : table_ok QueryRegisteredContractResponse_fields ApiQueryRegisteredContractResponse_unknownFields.
Proof. table_laws. Qed.

(** [QueryRegisteredContractsRequest]. *)
Inductive QueryRegisteredContractsRequest_ref :=
| QueryRegisteredContractsRequest_PageRequest_msg (x : option ApiPageRequest)
| QueryRegisteredContractsRequest_foreign.
Definition QueryRegisteredContractsRequest_fields : list (rfield (ApiQueryRegisteredContractsRequest (ApiPageRequest := ApiPageRequest)) (V QueryRegisteredContractsRequest_ref)) := [
  RField "terp.hashmerchant.v1.QueryRegisteredContractsRequest.pagination" (option ApiPageRequest) ApiQueryRegisteredContractsRequest_Pagination (fun v m => MkApiQueryRegisteredContractsRequest v (ApiQueryRegisteredContractsRequest_unknownFields m)) (KMsg pZero QueryRegisteredContractsRequest_PageRequest_msg (fun c => match c with QueryRegisteredContractsRequest_PageRequest_msg v => Some v | _ => None end))].
Definition QueryRegisteredContractsRequest_Range {S : Type} (x : (ApiQueryRegisteredContractsRequest (ApiPageRequest := ApiPageRequest))) (f : string -> V QueryRegisteredContractsRequest_ref -> S -> S * bool) (s : S) : S := Range_of QueryRegisteredContractsRequest_fields x f s.
Definition QueryRegisteredContractsRequest_Has (x : (ApiQueryRegisteredContractsRequest (ApiPageRequest := ApiPageRequest))) (fd : string) : option bool := Has_of QueryRegisteredContractsRequest_fields x fd.
Definition QueryRegisteredContractsRequest_Clear (x : (ApiQueryRegisteredContractsRequest (ApiPageRequest := ApiPageRequest))) (fd : string) : option (ApiQueryRegisteredContractsRequest (ApiPageRequest := ApiPageRequest)) := Clear_of QueryRegisteredContractsRequest_fields x fd.
Definition QueryRegisteredContractsRequest_Get (x : (ApiQueryRegisteredContractsRequest (ApiPageRequest := ApiPageRequest))) (fd : string) : option (V QueryRegisteredContractsRequest_ref) := Get_of QueryRegisteredContractsRequest_fields x fd.
Definition QueryRegisteredContractsRequest_Set (x : (ApiQueryRegisteredContractsRequest (ApiPageRequest := ApiPageRequest))) (fd : string) (value : V QueryRegisteredContractsRequest_ref) : option (ApiQueryRegisteredContractsRequest (ApiPageRequest := ApiPageRequest)) := Set_of QueryRegisteredContractsRequest_fields x fd value.
Definition QueryRegisteredContractsRequest_Mutable (x : (ApiQueryRegisteredContractsRequest (ApiPageRequest := ApiPageRequest))) (fd : string) : option ((ApiQueryRegisteredContractsRequest (ApiPageRequest := ApiPageRequest)) * V QueryRegisteredContractsRequest_ref) := Mutable_of QueryRegisteredContractsRequest_fields x fd.
Definition QueryRegisteredContractsRequest_NewField (fd : string) : option (V QueryRegisteredContractsRequest_ref) := NewField_of QueryRegisteredContractsRequest_fields fd.
Lemma rhm_QueryRegisteredContractsRequest_table : table_ok QueryRegisteredContractsRequest_fields ApiQueryRegisteredContractsRequest_unknownFields.
Proof. table_laws. Qed.

(** [QueryRegisteredContractsResponse]. *)
Inductive QueryRegisteredContractsResponse_ref :=
| QueryRegisteredContractsResponse_1_list (l : option (list (option ApiRegisteredContract)))
| QueryRegisteredContractsResponse_PageResponse_msg (x : option ApiPageResponse)
| QueryRegisteredContractsResponse_foreign.
Definition QueryRegisteredContractsResponse_fields : list (rfield (ApiQueryRegisteredContractsResponse (ApiPageResponse := ApiPageResponse)) (V QueryRegisteredContractsResponse_ref)) := [
  RField "terp.hashmerchant.v1.QueryRegisteredContractsResponse.contracts" (list (option ApiRegisteredContract)) ApiQueryRegisteredContractsResponse_Contracts (fun v m => MkApiQueryRegisteredContractsResponse v (ApiQueryRegisteredContractsResponse_Pagination m) (ApiQueryRegisteredContractsResponse_unknownFields m)) (KList QueryRegisteredContractsResponse_1_list (fun c => match c with QueryRegisteredContractsResponse_1_list v => Some v | _ => None end));
  RField "terp.hashmerchant.v1.QueryRegisteredContractsResponse.pagination" (option ApiPageResponse) ApiQueryRegisteredContractsResponse_Pagination (fun v m => MkApiQueryRegisteredContractsResponse (ApiQueryRegisteredContractsResponse_Contracts m) v (ApiQueryRegisteredContractsResponse_unknownFields m)) (KMsg pZero QueryRegisteredContractsResponse_PageResponse_msg (fun c => match c with QueryRegisteredContractsResponse_PageResponse_msg v => Some v | _ => None end))].
Definition QueryRegisteredContractsResponse_Range {S : Type} (x : (ApiQueryRegisteredContractsResponse (ApiPageResponse := ApiPageResponse))) (f : string -> V QueryRegisteredContractsResponse_ref -> S -> S * bool) (s : S) : S := Range_of QueryRegisteredContractsResponse_fields x f s.
Definition QueryRegisteredContractsResponse_Has (x : (ApiQueryRegisteredContractsResponse (ApiPageResponse := ApiPageResponse))) (fd : string) : option bool := Has_of QueryRegisteredContractsResponse_fields x fd.
Definition QueryRegisteredContractsResponse_Clear (x : (ApiQueryRegisteredContractsResponse (ApiPageResponse := ApiPageResponse))) (fd : string) : option (ApiQueryRegisteredContractsResponse (ApiPageResponse := ApiPageResponse)) := Clear_of QueryRegisteredContractsResponse_fields x fd.
Definition QueryRegisteredContractsResponse_Get (x : (ApiQueryRegisteredContractsResponse (ApiPageResponse := ApiPageResponse))) (fd : string) : option (V QueryRegisteredContractsResponse_ref) := Get_of QueryRegisteredContractsResponse_fields x fd.
Definition QueryRegisteredContractsResponse_Set (x : (ApiQueryRegisteredContractsResponse (ApiPageResponse := ApiPageResponse))) (fd : string) (value : V QueryRegisteredContractsResponse_ref) : option (ApiQueryRegisteredContractsResponse (ApiPageResponse := ApiPageResponse)) := Set_of QueryRegisteredContractsResponse_fields x fd value.
Definition QueryRegisteredContractsResponse_Mutable (x : (ApiQueryRegisteredContractsResponse (ApiPageResponse := ApiPageResponse))) (fd : string) : option ((ApiQueryRegisteredContractsResponse (ApiPageResponse := ApiPageResponse)) * V QueryRegisteredContractsResponse_ref) := Mutable_of QueryRegisteredContractsResponse_fields x fd.
Definition QueryRegisteredContractsResponse_NewField (fd : string) : option (V QueryRegisteredContractsResponse_ref) := NewField_of QueryRegisteredContractsResponse_fields fd.
Lemma rhm_QueryRegisteredContractsResponse_table : table_ok QueryRegisteredContractsResponse_fields ApiQueryRegisteredContractsResponse_unknownFields.
Proof. table_laws. Qed.

(** [QueryHashRootRequest]. *)
Definition QueryHashRootRequest_fields : list (rfield ApiQueryHashRootRequest (V no_ref)) := [
  RField "terp.hashmerchant.v1.QueryHashRootRequest.chain_uid" (bytes) ApiQueryHashRootRequest_ChainUid (fun v m => MkApiQueryHashRootRequest v (ApiQueryHashRootRequest_Algo m) (ApiQueryHashRootRequest_unknownFields m)) KString;
  RField "terp.hashmerchant.v1.QueryHashRootRequest.algo" (bytes) ApiQueryHashRootRequest_Algo (fun v m => MkApiQueryHashRootRequest (ApiQueryHashRootRequest_ChainUid m) v (ApiQueryHashRootRequest_unknownFields m)) KString].
Definition QueryHashRootRequest_Range {S : Type} (x : ApiQueryHashRootRequest) (f : string -> V no_ref -> S -> S * bool) (s : S) : S := Range_of QueryHashRootRequest_fields x f s.
Definition QueryHashRootRequest_Has (x : ApiQueryHashRootRequest) (fd : string) : option bool := Has_of QueryHashRootRequest_fields x fd.
Definition QueryHashRootRequest_Clear (x : ApiQueryHashRootRequest) (fd : string) : option ApiQueryHashRootRequest := Clear_of QueryHashRootRequest_fields x fd.
Definition QueryHashRootRequest_Get (x : ApiQueryHashRootRequest) (fd : string) : option (V no_ref) := Get_of QueryHashRootRequest_fields x fd.
Definition QueryHashRootRequest_Set (x : ApiQueryHashRootRequest) (fd : string) (value : V no_ref) : option ApiQueryHashRootRequest := Set_of QueryHashRootRequest_fields x fd value.
Definition QueryHashRootRequest_Mutable (x : ApiQueryHashRootRequest) (fd : string) : option (ApiQueryHashRootRequest * V no_ref) := Mutable_of QueryHashRootRequest_fields x fd.
Definition QueryHashRootRequest_NewField (fd : string) : option (V no_ref) := NewField_of QueryHashRootRequest_fields fd.
Lemma rhm_QueryHashRootRequest_table : table_ok QueryHashRootRequest_fields ApiQueryHashRootRequest_unknownFields.
Proof. table_laws. Qed.

(** [QueryHashRootResponse]. *)
Inductive QueryHashRootResponse_ref :=
| QueryHashRootResponse_HashRoot_msg (x : option ApiHashRoot)
| QueryHashRootResponse_foreign.
Definition QueryHashRootResponse_fields : list (rfield ApiQueryHashRootResponse (V QueryHashRootResponse_ref)) := [
  RField "terp.hashmerchant.v1.QueryHashRootResponse.root" (option ApiHashRoot) ApiQueryHashRootResponse_Root (fun v m => MkApiQueryHashRootResponse v (ApiQueryHashRootResponse_unknownFields m)) (KMsg pZero QueryHashRootResponse_HashRoot_msg (fun c => match c with QueryHashRootResponse_HashRoot_msg v => Some v | _ => None end))].
Definition QueryHashRootResponse_Range {S : Type} (x : ApiQueryHashRootResponse) (f : string -> V QueryHashRootResponse_ref -> S -> S * bool) (s : S) : S := Range_of QueryHashRootResponse_fields x f s.
Definition QueryHashRootResponse_Has (x : ApiQueryHashRootResponse) (fd : string) : option bool := Has_of QueryHashRootResponse_fields x fd.
Definition QueryHashRootResponse_Clear (x : ApiQueryHashRootResponse) (fd : string) : option ApiQueryHashRootResponse := Clear_of QueryHashRootResponse_fields x fd.
Definition QueryHashRootResponse_Get (x : ApiQueryHashRootResponse) (fd : string) : option (V QueryHashRootResponse_ref) := Get_of QueryHashRootResponse_fields x fd.
Definition QueryHashRootResponse_Set (x : ApiQueryHashRootResponse) (fd : string) (value : V QueryHashRootResponse_ref) : option ApiQueryHashRootResponse := Set_of QueryHashRootResponse_fields x fd value.
Definition QueryHashRootResponse_Mutable (x : ApiQueryHashRootResponse) (fd : string) : option (ApiQueryHashRootResponse * V QueryHashRootResponse_ref) := Mutable_of QueryHashRootResponse_fields x fd.
Definition QueryHashRootResponse_NewField (fd : string) : option (V QueryHashRootResponse_ref) := NewField_of QueryHashRootResponse_fields fd.
Lemma rhm_QueryHashRootResponse_table : table_ok QueryHashRootResponse_fields ApiQueryHashRootResponse_unknownFields.
Proof. table_laws. Qed.

(** [QueryHashRootsRequest]. *)
Inductive QueryHashRootsRequest_ref :=
| QueryHashRootsRequest_PageRequest_msg (x : option ApiPageRequest)
| QueryHashRootsRequest_foreign.
Definition QueryHashRootsRequest_fields : list (rfield (ApiQueryHashRootsRequest (ApiPageRequest := ApiPageRequest)) (V QueryHashRootsRequest_ref)) := [
  RField "terp.hashmerchant.v1.QueryHashRootsRequest.chain_uid" (bytes) ApiQueryHashRootsRequest_ChainUid (fun v m => MkApiQueryHashRootsRequest v (ApiQueryHashRootsRequest_Pagination m) (ApiQueryHashRootsRequest_unknownFields m)) KString;
  RField "terp.hashmerchant.v1.QueryHashRootsRequest.pagination" (option ApiPageRequest) ApiQueryHashRootsRequest_Pagination (fun v m => MkApiQueryHashRootsRequest (ApiQueryHashRootsRequest_ChainUid m) v (ApiQueryHashRootsRequest_unknownFields m)) (KMsg pZero QueryHashRootsRequest_PageRequest_msg (fun c => match c with QueryHashRootsRequest_PageRequest_msg v => Some v | _ => None end))].
Definition QueryHashRootsRequest_Range {S : Type} (x : (ApiQueryHashRootsRequest (ApiPageRequest := ApiPageRequest))) (f : string -> V QueryHashRootsRequest_ref -> S -> S * bool) (s : S) : S := Range_of QueryHashRootsRequest_fields x f s.
Definition QueryHashRootsRequest_Has (x : (ApiQueryHashRootsRequest (ApiPageRequest := ApiPageRequest))) (fd : string) : option bool := Has_of QueryHashRootsRequest_fields x fd.
Definition QueryHashRootsRequest_Clear (x : (ApiQueryHashRootsRequest (ApiPageRequest := ApiPageRequest))) (fd : string) : option (ApiQueryHashRootsRequest (ApiPageRequest := ApiPageRequest)) := Clear_of QueryHashRootsRequest_fields x fd.
Definition QueryHashRootsRequest_Get (x : (ApiQueryHashRootsRequest (ApiPageRequest := ApiPageRequest))) (fd : string) : option (V QueryHashRootsRequest_ref) := Get_of QueryHashRootsRequest_fields x fd.
Definition QueryHashRootsRequest_Set (x : (ApiQueryHashRootsRequest (ApiPageRequest := ApiPageRequest))) (fd : string) (value : V QueryHashRootsRequest_ref) : option (ApiQueryHashRootsRequest (ApiPageRequest := ApiPageRequest)) := Set_of QueryHashRootsRequest_fields x fd value.
Definition QueryHashRootsRequest_Mutable (x : (ApiQueryHashRootsRequest (ApiPageRequest := ApiPageRequest))) (fd : string) : option ((ApiQueryHashRootsRequest (ApiPageRequest := ApiPageRequest)) * V QueryHashRootsRequest_ref) := Mutable_of QueryHashRootsRequest_fields x fd.
Definition QueryHashRootsRequest_NewField (fd : string) : option (V QueryHashRootsRequest_ref) := NewField_of QueryHashRootsRequest_fields fd.
Lemma rhm_QueryHashRootsRequest_table : table_ok QueryHashRootsRequest_fields ApiQueryHashRootsRequest_unknownFields.
Proof. table_laws. Qed.

(** [QueryHashRootsResponse]. *)
Inductive QueryHashRootsResponse_ref :=
| QueryHashRootsResponse_1_list (l : option (list (option ApiHashRoot)))
| QueryHashRootsResponse_PageResponse_msg (x : option ApiPageResponse)
| QueryHashRootsResponse_foreign.
Definition QueryHashRootsResponse_fields : list (rfield (ApiQueryHashRootsResponse (ApiPageResponse := ApiPageResponse)) (V QueryHashRootsResponse_ref)) := [
  RField "terp.hashmerchant.v1.QueryHashRootsResponse.roots" (list (option ApiHashRoot)) ApiQueryHashRootsResponse_Roots (fun v m => MkApiQueryHashRootsResponse v (ApiQueryHashRootsResponse_Pagination m) (ApiQueryHashRootsResponse_unknownFields m)) (KList QueryHashRootsResponse_1_list (fun c => match c with QueryHashRootsResponse_1_list v => Some v | _ => None end));
  RField "terp.hashmerchant.v1.QueryHashRootsResponse.pagination" (option ApiPageResponse) ApiQueryHashRootsResponse_Pagination (fun v m => MkApiQueryHashRootsResponse (ApiQueryHashRootsResponse_Roots m) v (ApiQueryHashRootsResponse_unknownFields m)) (KMsg pZero QueryHashRootsResponse_PageResponse_msg (fun c => match c with QueryHashRootsResponse_PageResponse_msg v => Some v | _ => None end))].
Definition QueryHashRootsResponse_Range {S : Type} (x : (ApiQueryHashRootsResponse (ApiPageResponse := ApiPageResponse))) (f : string -> V QueryHashRootsResponse_ref -> S -> S * bool) (s : S) : S := Range_of QueryHashRootsResponse_fields x f s.
Definition QueryHashRootsResponse_Has (x : (ApiQueryHashRootsResponse (ApiPageResponse := ApiPageResponse))) (fd : string) : option bool := Has_of QueryHashRootsResponse_fields x fd.
Definition QueryHashRootsResponse_Clear (x : (ApiQueryHashRootsResponse (ApiPageResponse := ApiPageResponse))) (fd : string) : option (ApiQueryHashRootsResponse (ApiPageResponse := ApiPageResponse)) := Clear_of QueryHashRootsResponse_fields x fd.
Definition QueryHashRootsResponse_Get (x : (ApiQueryHashRootsResponse (ApiPageResponse := ApiPageResponse))) (fd : string) : option (V QueryHashRootsResponse_ref) := Get_of QueryHashRootsResponse_fields x fd.
Definition QueryHashRootsResponse_Set (x : (ApiQueryHashRootsResponse (ApiPageResponse := ApiPageResponse))) (fd : string) (value : V QueryHashRootsResponse_ref) : option (ApiQueryHashRootsResponse (ApiPageResponse := ApiPageResponse)) := Set_of QueryHashRootsResponse_fields x fd value.
Definition QueryHashRootsResponse_Mutable (x : (ApiQueryHashRootsResponse (ApiPageResponse := ApiPageResponse))) (fd : string) : option ((ApiQueryHashRootsResponse (ApiPageResponse := ApiPageResponse)) * V QueryHashRootsResponse_ref) := Mutable_of QueryHashRootsResponse_fields x fd.
Definition QueryHashRootsResponse_NewField (fd : string) : option (V QueryHashRootsResponse_ref) := NewField_of QueryHashRootsResponse_fields fd.
Lemma rhm_QueryHashRootsResponse_table : table_ok QueryHashRootsResponse_fields ApiQueryHashRootsResponse_unknownFields.
Proof. table_laws. Qed.

(** [QueryEscrowRequest]. *)
Definition QueryEscrowRequest_fields : list (rfield ApiQueryEscrowRequest (V no_ref)) := [
  RField "terp.hashmerchant.v1.QueryEscrowRequest.contract_addr" (bytes) ApiQueryEscrowRequest_ContractAddr (fun v m => MkApiQueryEscrowRequest v (ApiQueryEscrowRequest_unknownFields m)) KString].
Definition QueryEscrowRequest_Range {S : Type} (x : ApiQueryEscrowRequest) (f : string -> V no_ref -> S -> S * bool) (s : S) : S := Range_of QueryEscrowRequest_fields x f s.
Definition QueryEscrowRequest_Has (x : ApiQueryEscrowRequest) (fd : string) : option bool := Has_of QueryEscrowRequest_fields x fd.
Definition QueryEscrowRequest_Clear (x : ApiQueryEscrowRequest) (fd : string) : option ApiQueryEscrowRequest := Clear_of QueryEscrowRequest_fields x fd.
Definition QueryEscrowRequest_Get (x : ApiQueryEscrowRequest) (fd : string) : option (V no_ref) := Get_of QueryEscrowRequest_fields x fd.
Definition QueryEscrowRequest_Set (x : ApiQueryEscrowRequest) (fd : string) (value : V no_ref) : option ApiQueryEscrowRequest := Set_of QueryEscrowRequest_fields x fd value.
Definition QueryEscrowRequest_Mutable (x : ApiQueryEscrowRequest) (fd : string) : option (ApiQueryEscrowRequest * V no_ref) := Mutable_of QueryEscrowRequest_fields x fd.
Definition QueryEscrowRequest_NewField (fd : string) : option (V no_ref) := NewField_of QueryEscrowRequest_fields fd.
Lemma rhm_QueryEscrowRequest_table : table_ok QueryEscrowRequest_fields ApiQueryEscrowRequest_unknownFields.
Proof. table_laws. Qed.

(** [QueryEscrowResponse]. *)
Inductive QueryEscrowResponse_ref :=
| QueryEscrowResponse_EscrowRecord_msg (x : option (ApiEscrowRecord (ApiCoin := ApiCoin)))
| QueryEscrowResponse_foreign.
Definition QueryEscrowResponse_fields : list (rfield (ApiQueryEscrowResponse (ApiCoin := ApiCoin)) (V QueryEscrowResponse_ref)) := [
  RField "terp.hashmerchant.v1.QueryEscrowResponse.escrow" (option (ApiEscrowRecord (ApiCoin := ApiCoin))) ApiQueryEscrowResponse_Escrow (fun v m => MkApiQueryEscrowResponse v (ApiQueryEscrowResponse_unknownFields m)) (KMsg pZero QueryEscrowResponse_EscrowRecord_msg (fun c => match c with QueryEscrowResponse_EscrowRecord_msg v => Some v | _ => None end))].
Definition QueryEscrowResponse_Range {S : Type} (x : (ApiQueryEscrowResponse (ApiCoin := ApiCoin))) (f : string -> V QueryEscrowResponse_ref -> S -> S * bool) (s : S) : S := Range_of QueryEscrowResponse_fields x f s.
Definition QueryEscrowResponse_Has (x : (ApiQueryEscrowResponse (ApiCoin := ApiCoin))) (fd : string) : option bool := Has_of QueryEscrowResponse_fields x fd.
Definition QueryEscrowResponse_Clear (x : (ApiQueryEscrowResponse (ApiCoin := ApiCoin))) (fd : string) : option (ApiQueryEscrowResponse (ApiCoin := ApiCoin)) := Clear_of QueryEscrowResponse_fields x fd.
Definition QueryEscrowResponse_Get (x : (ApiQueryEscrowResponse (ApiCoin := ApiCoin))) (fd : string) : option (V QueryEscrowResponse_ref) := Get_of QueryEscrowResponse_fields x fd.
Definition QueryEscrowResponse_Set (x : (ApiQueryEscrowResponse (ApiCoin := ApiCoin))) (fd : string) (value : V QueryEscrowResponse_ref) : option (ApiQueryEscrowResponse (ApiCoin := ApiCoin)) := Set_of QueryEscrowResponse_fields x fd value.
Definition QueryEscrowResponse_Mutable (x : (ApiQueryEscrowResponse (ApiCoin := ApiCoin))) (fd : string) : option ((ApiQueryEscrowResponse (ApiCoin := ApiCoin)) * V QueryEscrowResponse_ref) := Mutable_of QueryEscrowResponse_fields x fd.
Definition QueryEscrowResponse_NewField (fd : string) : option (V QueryEscrowResponse_ref) := NewField_of QueryEscrowResponse_fields fd.
Lemma rhm_QueryEscrowResponse_table : table_ok QueryEscrowResponse_fields ApiQueryEscrowResponse_unknownFields.
Proof. table_laws. Qed.

(** ** The contract *)


End Reflection.

(** ** Concrete values *)

#[local] Existing Instance generated.
#[local] Existing Instance toy_values.
#[local] Existing Instance toy_values_laws.
#[local] Instance merging : Options := {| Merge := true |}.
Definition w_api_chain : ApiRegisteredChain := MkApiRegisteredChain (str "hub") [] [str "rpc"] [] true [].
(** The names of the populated fields, in the order of the struct. *)
Example w_chain_range : RegisteredChain_Range w_api_chain (fun fd _ s => (s ++ [fd], true)) [] =
  ["terp.hashmerchant.v1.RegisteredChain.chain_uid"; "terp.hashmerchant.v1.RegisteredChain.rpc_endpoints";
   "terp.hashmerchant.v1.RegisteredChain.enabled"]%string.
Proof. vm_refl. Qed.
(** The value of an empty list is read-only: setting it panics; so does a list
    of another field, and a field of another message. *)
Example w_chain_set_empty : forall v, RegisteredChain_Get w_api_chain "terp.hashmerchant.v1.RegisteredChain.hash_algos" = Some v ->
  RegisteredChain_Set w_api_chain "terp.hashmerchant.v1.RegisteredChain.hash_algos" v = None.
Proof. intros v E. vm_compute in E. injection E as <-. vm_refl. Qed.
Example w_chain_set_other : forall v, RegisteredChain_Get w_api_chain "terp.hashmerchant.v1.RegisteredChain.rpc_endpoints" = Some v ->
  RegisteredChain_Set w_api_chain "terp.hashmerchant.v1.RegisteredChain.hash_algos" v = None.
Proof. intros v E. vm_compute in E. injection E as <-. vm_refl. Qed.
Example w_chain_no_field : RegisteredChain_Has w_api_chain "terp.hashmerchant.v1.HashRoot.height" = None.
Proof. vm_refl. Qed.
