(* ===== verification/ReflFs.v ===== *)
(** * feeshare: reflection on the API types

    [api/terp/feeshare/v1/*.pulsar.go]: the table of the fields of every
    message, and the methods over it. *)

From S2P Require Import Prelude Proto Sdk Wire WireLaws FeeShare FeeShareQuery WireFs Pulsar ApiFs Reflect.

Open Scope go_scope.

Section Reflection.
Context {RT : WireRuntime} {V : Type -> Type} {VV : Values V} {VL : ValuesLaws V}.
Context {ApiPageRequest ApiPageResponse : Type} {PPageRequest : PulsarMsg ApiPageRequest} {PPageResponse : PulsarMsg ApiPageResponse}.
Context {OP : Options}.

(** [FeeShare]. *)
Definition FeeShare_fields : list (rfield ApiFeeShare (V no_ref)) := [
  RField "terp.feeshare.v1.FeeShare.contract_address" (bytes) ApiFeeShare_ContractAddress (fun v m => MkApiFeeShare v (ApiFeeShare_DeployerAddress m) (ApiFeeShare_WithdrawerAddress m) (ApiFeeShare_unknownFields m)) KString;
  RField "terp.feeshare.v1.FeeShare.deployer_address" (bytes) ApiFeeShare_DeployerAddress (fun v m => MkApiFeeShare (ApiFeeShare_ContractAddress m) v (ApiFeeShare_WithdrawerAddress m) (ApiFeeShare_unknownFields m)) KString;
  RField "terp.feeshare.v1.FeeShare.withdrawer_address" (bytes) ApiFeeShare_WithdrawerAddress (fun v m => MkApiFeeShare (ApiFeeShare_ContractAddress m) (ApiFeeShare_DeployerAddress m) v (ApiFeeShare_unknownFields m)) KString].
Definition FeeShare_Range {S : Type} (x : ApiFeeShare) (f : string -> V no_ref -> S -> S * bool) (s : S) : S := Range_of FeeShare_fields x f s.
Definition FeeShare_Has (x : ApiFeeShare) (fd : string) : option bool := Has_of FeeShare_fields x fd.
Definition FeeShare_Clear (x : ApiFeeShare) (fd : string) : option ApiFeeShare := Clear_of FeeShare_fields x fd.
Definition FeeShare_Get (x : ApiFeeShare) (fd : string) : option (V no_ref) := Get_of FeeShare_fields x fd.
Definition FeeShare_Set (x : ApiFeeShare) (fd : string) (value : V no_ref) : option ApiFeeShare := Set_of FeeShare_fields x fd value.
Definition FeeShare_Mutable (x : ApiFeeShare) (fd : string) : option (ApiFeeShare * V no_ref) := Mutable_of FeeShare_fields x fd.
Definition FeeShare_NewField (fd : string) : option (V no_ref) := NewField_of FeeShare_fields fd.
Lemma rfs_FeeShare_table : table_ok FeeShare_fields ApiFeeShare_unknownFields.
Proof. table_laws. Qed.

(** [Params]. *)
Inductive Params_ref :=
| Params_3_list (l : option (list bytes))
| Params_foreign.
Definition Params_fields : list (rfield ApiParams (V Params_ref)) := [
  RField "terp.feeshare.v1.Params.enable_fee_share" (bool) ApiParams_EnableFeeShare (fun v m => MkApiParams v (ApiParams_DeveloperShares m) (ApiParams_AllowedDenoms m) (ApiParams_unknownFields m)) KBool;
  RField "terp.feeshare.v1.Params.developer_shares" (bytes) ApiParams_DeveloperShares (fun v m => MkApiParams (ApiParams_EnableFeeShare m) v (ApiParams_AllowedDenoms m) (ApiParams_unknownFields m)) KString;
  RField "terp.feeshare.v1.Params.allowed_denoms" (list bytes) ApiParams_AllowedDenoms (fun v m => MkApiParams (ApiParams_EnableFeeShare m) (ApiParams_DeveloperShares m) v (ApiParams_unknownFields m)) (KList Params_3_list (fun c => match c with Params_3_list v => Some v | _ => None end))].
Definition Params_Range {S : Type} (x : ApiParams) (f : string -> V Params_ref -> S -> S * bool) (s : S) : S := Range_of Params_fields x f s.
Definition Params_Has (x : ApiParams) (fd : string) : option bool := Has_of Params_fields x fd.
Definition Params_Clear (x : ApiParams) (fd : string) : option ApiParams := Clear_of Params_fields x fd.
Definition Params_Get (x : ApiParams) (fd : string) : option (V Params_ref) := Get_of Params_fields x fd.
Definition Params_Set (x : ApiParams) (fd : string) (value : V Params_ref) : option ApiParams := Set_of Params_fields x fd value.
Definition Params_Mutable (x : ApiParams) (fd : string) : option (ApiParams * V Params_ref) := Mutable_of Params_fields x fd.
Definition Params_NewField (fd : string) : option (V Params_ref) := NewField_of Params_fields fd.
Lemma rfs_Params_table : table_ok Params_fields ApiParams_unknownFields.
Proof. table_laws. Qed.

(** [GenesisState]. *)
Inductive GenesisState_ref :=
| GenesisState_Params_msg (x : option ApiParams)
| GenesisState_2_list (l : option (list (option ApiFeeShare)))
| GenesisState_foreign.
Definition GenesisState_fields : list (rfield ApiGenesisState (V GenesisState_ref)) := [
  RField "terp.feeshare.v1.GenesisState.params" (option ApiParams) ApiGenesisState_Params (fun v m => MkApiGenesisState v (ApiGenesisState_FeeShare m) (ApiGenesisState_unknownFields m)) (KMsg pZero GenesisState_Params_msg (fun c => match c with GenesisState_Params_msg v => Some v | _ => None end));
  RField "terp.feeshare.v1.GenesisState.fee_share" (list (option ApiFeeShare)) ApiGenesisState_FeeShare (fun v m => MkApiGenesisState (ApiGenesisState_Params m) v (ApiGenesisState_unknownFields m)) (KList GenesisState_2_list (fun c => match c with GenesisState_2_list v => Some v | _ => None end))].
Definition GenesisState_Range {S : Type} (x : ApiGenesisState) (f : string -> V GenesisState_ref -> S -> S * bool) (s : S) : S := Range_of GenesisState_fields x f s.
Definition GenesisState_Has (x : ApiGenesisState) (fd : string) : option bool := Has_of GenesisState_fields x fd.
Definition GenesisState_Clear (x : ApiGenesisState) (fd : string) : option ApiGenesisState := Clear_of GenesisState_fields x fd.
Definition GenesisState_Get (x : ApiGenesisState) (fd : string) : option (V GenesisState_ref) := Get_of GenesisState_fields x fd.
Definition GenesisState_Set (x : ApiGenesisState) (fd : string) (value : V GenesisState_ref) : option ApiGenesisState := Set_of GenesisState_fields x fd value.
Definition GenesisState_Mutable (x : ApiGenesisState) (fd : string) : option (ApiGenesisState * V GenesisState_ref) := Mutable_of GenesisState_fields x fd.
Definition GenesisState_NewField (fd : string) : option (V GenesisState_ref) := NewField_of GenesisState_fields fd.
Lemma rfs_GenesisState_table : table_ok GenesisState_fields ApiGenesisState_unknownFields.
Proof. table_laws. Qed.

(** [MsgRegisterFeeShare]. *)
Definition MsgRegisterFeeShare_fields : list (rfield ApiMsgRegisterFeeShare (V no_ref)) := [
  RField "terp.feeshare.v1.MsgRegisterFeeShare.contract_address" (bytes) ApiMsgRegisterFeeShare_ContractAddress (fun v m => MkApiMsgRegisterFeeShare v (ApiMsgRegisterFeeShare_DeployerAddress m) (ApiMsgRegisterFeeShare_WithdrawerAddress m) (ApiMsgRegisterFeeShare_unknownFields m)) KString;
  RField "terp.feeshare.v1.MsgRegisterFeeShare.deployer_address" (bytes) ApiMsgRegisterFeeShare_DeployerAddress (fun v m => MkApiMsgRegisterFeeShare (ApiMsgRegisterFeeShare_ContractAddress m) v (ApiMsgRegisterFeeShare_WithdrawerAddress m) (ApiMsgRegisterFeeShare_unknownFields m)) KString;
  RField "terp.feeshare.v1.MsgRegisterFeeShare.withdrawer_address" (bytes) ApiMsgRegisterFeeShare_WithdrawerAddress (fun v m => MkApiMsgRegisterFeeShare (ApiMsgRegisterFeeShare_ContractAddress m) (ApiMsgRegisterFeeShare_DeployerAddress m) v (ApiMsgRegisterFeeShare_unknownFields m)) KString].
Definition MsgRegisterFeeShare_Range {S : Type} (x : ApiMsgRegisterFeeShare) (f : string -> V no_ref -> S -> S * bool) (s : S) : S := Range_of MsgRegisterFeeShare_fields x f s.
Definition MsgRegisterFeeShare_Has (x : ApiMsgRegisterFeeShare) (fd : string) : option bool := Has_of MsgRegisterFeeShare_fields x fd.
Definition MsgRegisterFeeShare_Clear (x : ApiMsgRegisterFeeShare) (fd : string) : option ApiMsgRegisterFeeShare := Clear_of MsgRegisterFeeShare_fields x fd.
Definition MsgRegisterFeeShare_Get (x : ApiMsgRegisterFeeShare) (fd : string) : option (V no_ref) := Get_of MsgRegisterFeeShare_fields x fd.
Definition MsgRegisterFeeShare_Set (x : ApiMsgRegisterFeeShare) (fd : string) (value : V no_ref) : option ApiMsgRegisterFeeShare := Set_of MsgRegisterFeeShare_fields x fd value.
Definition MsgRegisterFeeShare_Mutable (x : ApiMsgRegisterFeeShare) (fd : string) : option (ApiMsgRegisterFeeShare * V no_ref) := Mutable_of MsgRegisterFeeShare_fields x fd.
Definition MsgRegisterFeeShare_NewField (fd : string) : option (V no_ref) := NewField_of MsgRegisterFeeShare_fields fd.
Lemma rfs_MsgRegisterFeeShare_table : table_ok MsgRegisterFeeShare_fields ApiMsgRegisterFeeShare_unknownFields.
Proof. table_laws. Qed.

(** [MsgUpdateFeeShare]. *)
Definition MsgUpdateFeeShare_fields : list (rfield ApiMsgUpdateFeeShare (V no_ref)) := [
  RField "terp.feeshare.v1.MsgUpdateFeeShare.contract_address" (bytes) ApiMsgUpdateFeeShare_ContractAddress (fun v m => MkApiMsgUpdateFeeShare v (ApiMsgUpdateFeeShare_DeployerAddress m) (ApiMsgUpdateFeeShare_WithdrawerAddress m) (ApiMsgUpdateFeeShare_unknownFields m)) KString;
  RField "terp.feeshare.v1.MsgUpdateFeeShare.deployer_address" (bytes) ApiMsgUpdateFeeShare_DeployerAddress (fun v m => MkApiMsgUpdateFeeShare (ApiMsgUpdateFeeShare_ContractAddress m) v (ApiMsgUpdateFeeShare_WithdrawerAddress m) (ApiMsgUpdateFeeShare_unknownFields m)) KString;
  RField "terp.feeshare.v1.MsgUpdateFeeShare.withdrawer_address" (bytes) ApiMsgUpdateFeeShare_WithdrawerAddress (fun v m => MkApiMsgUpdateFeeShare (ApiMsgUpdateFeeShare_ContractAddress m) (ApiMsgUpdateFeeShare_DeployerAddress m) v (ApiMsgUpdateFeeShare_unknownFields m)) KString].
Definition MsgUpdateFeeShare_Range {S : Type} (x : ApiMsgUpdateFeeShare) (f : string -> V no_ref -> S -> S * bool) (s : S) : S := Range_of MsgUpdateFeeShare_fields x f s.
Definition MsgUpdateFeeShare_Has (x : ApiMsgUpdateFeeShare) (fd : string) : option bool := Has_of MsgUpdateFeeShare_fields x fd.
Definition MsgUpdateFeeShare_Clear (x : ApiMsgUpdateFeeShare) (fd : string) : option ApiMsgUpdateFeeShare := Clear_of MsgUpdateFeeShare_fields x fd.
Definition MsgUpdateFeeShare_Get (x : ApiMsgUpdateFeeShare) (fd : string) : option (V no_ref) := Get_of MsgUpdateFeeShare_fields x fd.
Definition MsgUpdateFeeShare_Set (x : ApiMsgUpdateFeeShare) (fd : string) (value : V no_ref) : option ApiMsgUpdateFeeShare := Set_of MsgUpdateFeeShare_fields x fd value.
Definition MsgUpdateFeeShare_Mutable (x : ApiMsgUpdateFeeShare) (fd : string) : option (ApiMsgUpdateFeeShare * V no_ref) := Mutable_of MsgUpdateFeeShare_fields x fd.
Definition MsgUpdateFeeShare_NewField (fd : string) : option (V no_ref) := NewField_of MsgUpdateFeeShare_fields fd.
Lemma rfs_MsgUpdateFeeShare_table : table_ok MsgUpdateFeeShare_fields ApiMsgUpdateFeeShare_unknownFields.
Proof. table_laws. Qed.

(** [MsgCancelFeeShare]. *)
Definition MsgCancelFeeShare_fields : list (rfield ApiMsgCancelFeeShare (V no_ref)) := [
  RField "terp.feeshare.v1.MsgCancelFeeShare.contract_address" (bytes) ApiMsgCancelFeeShare_ContractAddress (fun v m => MkApiMsgCancelFeeShare v (ApiMsgCancelFeeShare_DeployerAddress m) (ApiMsgCancelFeeShare_unknownFields m)) KString;
  RField "terp.feeshare.v1.MsgCancelFeeShare.deployer_address" (bytes) ApiMsgCancelFeeShare_DeployerAddress (fun v m => MkApiMsgCancelFeeShare (ApiMsgCancelFeeShare_ContractAddress m) v (ApiMsgCancelFeeShare_unknownFields m)) KString].
Definition MsgCancelFeeShare_Range {S : Type} (x : ApiMsgCancelFeeShare) (f : string -> V no_ref -> S -> S * bool) (s : S) : S := Range_of MsgCancelFeeShare_fields x f s.
Definition MsgCancelFeeShare_Has (x : ApiMsgCancelFeeShare) (fd : string) : option bool := Has_of MsgCancelFeeShare_fields x fd.
Definition MsgCancelFeeShare_Clear (x : ApiMsgCancelFeeShare) (fd : string) : option ApiMsgCancelFeeShare := Clear_of MsgCancelFeeShare_fields x fd.
Definition MsgCancelFeeShare_Get (x : ApiMsgCancelFeeShare) (fd : string) : option (V no_ref) := Get_of MsgCancelFeeShare_fields x fd.
Definition MsgCancelFeeShare_Set (x : ApiMsgCancelFeeShare) (fd : string) (value : V no_ref) : option ApiMsgCancelFeeShare := Set_of MsgCancelFeeShare_fields x fd value.
Definition MsgCancelFeeShare_Mutable (x : ApiMsgCancelFeeShare) (fd : string) : option (ApiMsgCancelFeeShare * V no_ref) := Mutable_of MsgCancelFeeShare_fields x fd.
Definition MsgCancelFeeShare_NewField (fd : string) : option (V no_ref) := NewField_of MsgCancelFeeShare_fields fd.
Lemma rfs_MsgCancelFeeShare_table : table_ok MsgCancelFeeShare_fields ApiMsgCancelFeeShare_unknownFields.
Proof. table_laws. Qed.

(** [MsgUpdateParams]. *)
Inductive MsgUpdateParams_ref :=
| MsgUpdateParams_Params_msg (x : option ApiParams)
| MsgUpdateParams_foreign.
Definition MsgUpdateParams_fields : list (rfield ApiMsgUpdateParams (V MsgUpdateParams_ref)) := [
  RField "terp.feeshare.v1.MsgUpdateParams.authority" (bytes) ApiMsgUpdateParams_Authority (fun v m => MkApiMsgUpdateParams v (ApiMsgUpdateParams_Params m) (ApiMsgUpdateParams_unknownFields m)) KString;
  RField "terp.feeshare.v1.MsgUpdateParams.params" (option ApiParams) ApiMsgUpdateParams_Params (fun v m => MkApiMsgUpdateParams (ApiMsgUpdateParams_Authority m) v (ApiMsgUpdateParams_unknownFields m)) (KMsg pZero MsgUpdateParams_Params_msg (fun c => match c with MsgUpdateParams_Params_msg v => Some v | _ => None end))].
Definition MsgUpdateParams_Range {S : Type} (x : ApiMsgUpdateParams) (f : string -> V MsgUpdateParams_ref -> S -> S * bool) (s : S) : S := Range_of MsgUpdateParams_fields x f s.
Definition MsgUpdateParams_Has (x : ApiMsgUpdateParams) (fd : string) : option bool := Has_of MsgUpdateParams_fields x fd.
Definition MsgUpdateParams_Clear (x : ApiMsgUpdateParams) (fd : string) : option ApiMsgUpdateParams := Clear_of MsgUpdateParams_fields x fd.
Definition MsgUpdateParams_Get (x : ApiMsgUpdateParams) (fd : string) : option (V MsgUpdateParams_ref) := Get_of MsgUpdateParams_fields x fd.
Definition MsgUpdateParams_Set (x : ApiMsgUpdateParams) (fd : string) (value : V MsgUpdateParams_ref) : option ApiMsgUpdateParams := Set_of MsgUpdateParams_fields x fd value.
Definition MsgUpdateParams_Mutable (x : ApiMsgUpdateParams) (fd : string) : option (ApiMsgUpdateParams * V MsgUpdateParams_ref) := Mutable_of MsgUpdateParams_fields x fd.
Definition MsgUpdateParams_NewField (fd : string) : option (V MsgUpdateParams_ref) := NewField_of MsgUpdateParams_fields fd.
Lemma rfs_MsgUpdateParams_table : table_ok MsgUpdateParams_fields ApiMsgUpdateParams_unknownFields.
Proof. table_laws. Qed.

(** [QueryFeeSharesRequest]. *)
Inductive QueryFeeSharesRequest_ref :=
| QueryFeeSharesRequest_PageRequest_msg (x : option ApiPageRequest)
| QueryFeeSharesRequest_foreign.
Definition QueryFeeSharesRequest_fields : list (rfield (ApiQueryFeeSharesRequest (ApiPageRequest := ApiPageRequest)) (V QueryFeeSharesRequest_ref)) := [
  RField "terp.feeshare.v1.QueryFeeSharesRequest.pagination" (option ApiPageRequest) ApiQueryFeeSharesRequest_Pagination (fun v m => MkApiQueryFeeSharesRequest v (ApiQueryFeeSharesRequest_unknownFields m)) (KMsg pZero QueryFeeSharesRequest_PageRequest_msg (fun c => match c with QueryFeeSharesRequest_PageRequest_msg v => Some v | _ => None end))].
Definition QueryFeeSharesRequest_Range {S : Type} (x : (ApiQueryFeeSharesRequest (ApiPageRequest := ApiPageRequest))) (f : string -> V QueryFeeSharesRequest_ref -> S -> S * bool) (s : S) : S := Range_of QueryFeeSharesRequest_fields x f s.
Definition QueryFeeSharesRequest_Has (x : (ApiQueryFeeSharesRequest (ApiPageRequest := ApiPageRequest))) (fd : string) : option bool := Has_of QueryFeeSharesRequest_fields x fd.
Definition QueryFeeSharesRequest_Clear (x : (ApiQueryFeeSharesRequest (ApiPageRequest := ApiPageRequest))) (fd : string) : option (ApiQueryFeeSharesRequest (ApiPageRequest := ApiPageRequest)) := Clear_of QueryFeeSharesRequest_fields x fd.
Definition QueryFeeSharesRequest_Get (x : (ApiQueryFeeSharesRequest (ApiPageRequest := ApiPageRequest))) (fd : string) : option (V QueryFeeSharesRequest_ref) := Get_of QueryFeeSharesRequest_fields x fd.
Definition QueryFeeSharesRequest_Set (x : (ApiQueryFeeSharesRequest (ApiPageRequest := ApiPageRequest))) (fd : string) (value : V QueryFeeSharesRequest_ref) : option (ApiQueryFeeSharesRequest (ApiPageRequest := ApiPageRequest)) := Set_of QueryFeeSharesRequest_fields x fd value.
Definition QueryFeeSharesRequest_Mutable (x : (ApiQueryFeeSharesRequest (ApiPageRequest := ApiPageRequest))) (fd : string) : option ((ApiQueryFeeSharesRequest (ApiPageRequest := ApiPageRequest)) * V QueryFeeSharesRequest_ref) := Mutable_of QueryFeeSharesRequest_fields x fd.
Definition QueryFeeSharesRequest_NewField (fd : string) : option (V QueryFeeSharesRequest_ref) := NewField_of QueryFeeSharesRequest_fields fd.
Lemma rfs_QueryFeeSharesRequest_table : table_ok QueryFeeSharesRequest_fields ApiQueryFeeSharesRequest_unknownFields.
Proof. table_laws. Qed.

(** [QueryFeeSharesResponse]. *)
Inductive QueryFeeSharesResponse_ref :=
| QueryFeeSharesResponse_1_list (l : option (list (option ApiFeeShare)))
| QueryFeeSharesResponse_PageResponse_msg (x : option ApiPageResponse)
| QueryFeeSharesResponse_foreign.
Definition QueryFeeSharesResponse_fields : list (rfield (ApiQueryFeeSharesResponse (ApiPageResponse := ApiPageResponse)) (V QueryFeeSharesResponse_ref)) := [
  RField "terp.feeshare.v1.QueryFeeSharesResponse.feeshare" (list (option ApiFeeShare)) ApiQueryFeeSharesResponse_Feeshare (fun v m => MkApiQueryFeeSharesResponse v (ApiQueryFeeSharesResponse_Pagination m) (ApiQueryFeeSharesResponse_unknownFields m)) (KList QueryFeeSharesResponse_1_list (fun c => match c with QueryFeeSharesResponse_1_list v => Some v | _ => None end));
  RField "terp.feeshare.v1.QueryFeeSharesResponse.pagination" (option ApiPageResponse) ApiQueryFeeSharesResponse_Pagination (fun v m => MkApiQueryFeeSharesResponse (ApiQueryFeeSharesResponse_Feeshare m) v (ApiQueryFeeSharesResponse_unknownFields m)) (KMsg pZero QueryFeeSharesResponse_PageResponse_msg (fun c => match c with QueryFeeSharesResponse_PageResponse_msg v => Some v | _ => None end))].
Definition QueryFeeSharesResponse_Range {S : Type} (x : (ApiQueryFeeSharesResponse (ApiPageResponse := ApiPageResponse))) (f : string -> V QueryFeeSharesResponse_ref -> S -> S * bool) (s : S) : S := Range_of QueryFeeSharesResponse_fields x f s.
Definition QueryFeeSharesResponse_Has (x : (ApiQueryFeeSharesResponse (ApiPageResponse := ApiPageResponse))) (fd : string) : option bool := Has_of QueryFeeSharesResponse_fields x fd.
Definition QueryFeeSharesResponse_Clear (x : (ApiQueryFeeSharesResponse (ApiPageResponse := ApiPageResponse))) (fd : string) : option (ApiQueryFeeSharesResponse (ApiPageResponse := ApiPageResponse)) := Clear_of QueryFeeSharesResponse_fields x fd.
Definition QueryFeeSharesResponse_Get (x : (ApiQueryFeeSharesResponse (ApiPageResponse := ApiPageResponse))) (fd : string) : option (V QueryFeeSharesResponse_ref) := Get_of QueryFeeSharesResponse_fields x fd.
Definition QueryFeeSharesResponse_Set (x : (ApiQueryFeeSharesResponse (ApiPageResponse := ApiPageResponse))) (fd : string) (value : V QueryFeeSharesResponse_ref) : option (ApiQueryFeeSharesResponse (ApiPageResponse := ApiPageResponse)) := Set_of QueryFeeSharesResponse_fields x fd value.
Definition QueryFeeSharesResponse_Mutable (x : (ApiQueryFeeSharesResponse (ApiPageResponse := ApiPageResponse))) (fd : string) : option ((ApiQueryFeeSharesResponse (ApiPageResponse := ApiPageResponse)) * V QueryFeeSharesResponse_ref) := Mutable_of QueryFeeSharesResponse_fields x fd.
Definition QueryFeeSharesResponse_NewField (fd : string) : option (V QueryFeeSharesResponse_ref) := NewField_of QueryFeeSharesResponse_fields fd.
Lemma rfs_QueryFeeSharesResponse_table : table_ok QueryFeeSharesResponse_fields ApiQueryFeeSharesResponse_unknownFields.
Proof. table_laws. Qed.

(** [QueryFeeShareRequest]. *)
Definition QueryFeeShareRequest_fields : list (rfield ApiQueryFeeShareRequest (V no_ref)) := [
  RField "terp.feeshare.v1.QueryFeeShareRequest.contract_address" (bytes) ApiQueryFeeShareRequest_ContractAddress (fun v m => MkApiQueryFeeShareRequest v (ApiQueryFeeShareRequest_unknownFields m)) KString].
Definition QueryFeeShareRequest_Range {S : Type} (x : ApiQueryFeeShareRequest) (f : string -> V no_ref -> S -> S * bool) (s : S) : S := Range_of QueryFeeShareRequest_fields x f s.
Definition QueryFeeShareRequest_Has (x : ApiQueryFeeShareRequest) (fd : string) : option bool := Has_of QueryFeeShareRequest_fields x fd.
Definition QueryFeeShareRequest_Clear (x : ApiQueryFeeShareRequest) (fd : string) : option ApiQueryFeeShareRequest := Clear_of QueryFeeShareRequest_fields x fd.
Definition QueryFeeShareRequest_Get (x : ApiQueryFeeShareRequest) (fd : string) : option (V no_ref) := Get_of QueryFeeShareRequest_fields x fd.
Definition QueryFeeShareRequest_Set (x : ApiQueryFeeShareRequest) (fd : string) (value : V no_ref) : option ApiQueryFeeShareRequest := Set_of QueryFeeShareRequest_fields x fd value.
Definition QueryFeeShareRequest_Mutable (x : ApiQueryFeeShareRequest) (fd : string) : option (ApiQueryFeeShareRequest * V no_ref) := Mutable_of QueryFeeShareRequest_fields x fd.
Definition QueryFeeShareRequest_NewField (fd : string) : option (V no_ref) := NewField_of QueryFeeShareRequest_fields fd.
Lemma rfs_QueryFeeShareRequest_table : table_ok QueryFeeShareRequest_fields ApiQueryFeeShareRequest_unknownFields.
Proof. table_laws. Qed.

(** [QueryFeeShareResponse]. *)
Inductive QueryFeeShareResponse_ref :=
| QueryFeeShareResponse_FeeShare_msg (x : option ApiFeeShare)
| QueryFeeShareResponse_foreign.
Definition QueryFeeShareResponse_fields : list (rfield ApiQueryFeeShareResponse (V QueryFeeShareResponse_ref)) := [
  RField "terp.feeshare.v1.QueryFeeShareResponse.feeshare" (option ApiFeeShare) ApiQueryFeeShareResponse_Feeshare (fun v m => MkApiQueryFeeShareResponse v (ApiQueryFeeShareResponse_unknownFields m)) (KMsg pZero QueryFeeShareResponse_FeeShare_msg (fun c => match c with QueryFeeShareResponse_FeeShare_msg v => Some v | _ => None end))].
Definition QueryFeeShareResponse_Range {S : Type} (x : ApiQueryFeeShareResponse) (f : string -> V QueryFeeShareResponse_ref -> S -> S * bool) (s : S) : S := Range_of QueryFeeShareResponse_fields x f s.
Definition QueryFeeShareResponse_Has (x : ApiQueryFeeShareResponse) (fd : string) : option bool := Has_of QueryFeeShareResponse_fields x fd.
Definition QueryFeeShareResponse_Clear (x : ApiQueryFeeShareResponse) (fd : string) : option ApiQueryFeeShareResponse := Clear_of QueryFeeShareResponse_fields x fd.
Definition QueryFeeShareResponse_Get (x : ApiQueryFeeShareResponse) (fd : string) : option (V QueryFeeShareResponse_ref) := Get_of QueryFeeShareResponse_fields x fd.
Definition QueryFeeShareResponse_Set (x : ApiQueryFeeShareResponse) (fd : string) (value : V QueryFeeShareResponse_ref) : option ApiQueryFeeShareResponse := Set_of QueryFeeShareResponse_fields x fd value.
Definition QueryFeeShareResponse_Mutable (x : ApiQueryFeeShareResponse) (fd : string) : option (ApiQueryFeeShareResponse * V QueryFeeShareResponse_ref) := Mutable_of QueryFeeShareResponse_fields x fd.
Definition QueryFeeShareResponse_NewField (fd : string) : option (V QueryFeeShareResponse_ref) := NewField_of QueryFeeShareResponse_fields fd.
Lemma rfs_QueryFeeShareResponse_table : table_ok QueryFeeShareResponse_fields ApiQueryFeeShareResponse_unknownFields.
Proof. table_laws. Qed.

(** [QueryParamsResponse]. *)
Inductive QueryParamsResponse_ref :=
| QueryParamsResponse_Params_msg (x : option ApiParams)
| QueryParamsResponse_foreign.
Definition QueryParamsResponse_fields : list (rfield ApiQueryParamsResponse (V QueryParamsResponse_ref)) := [
  RField "terp.feeshare.v1.QueryParamsResponse.params" (option ApiParams) ApiQueryParamsResponse_Params (fun v m => MkApiQueryParamsResponse v (ApiQueryParamsResponse_unknownFields m)) (KMsg pZero QueryParamsResponse_Params_msg (fun c => match c with QueryParamsResponse_Params_msg v => Some v | _ => None end))].
Definition QueryParamsResponse_Range {S : Type} (x : ApiQueryParamsResponse) (f : string -> V QueryParamsResponse_ref -> S -> S * bool) (s : S) : S := Range_of QueryParamsResponse_fields x f s.
Definition QueryParamsResponse_Has (x : ApiQueryParamsResponse) (fd : string) : option bool := Has_of QueryParamsResponse_fields x fd.
Definition QueryParamsResponse_Clear (x : ApiQueryParamsResponse) (fd : string) : option ApiQueryParamsResponse := Clear_of QueryParamsResponse_fields x fd.
Definition QueryParamsResponse_Get (x : ApiQueryParamsResponse) (fd : string) : option (V QueryParamsResponse_ref) := Get_of QueryParamsResponse_fields x fd.
Definition QueryParamsResponse_Set (x : ApiQueryParamsResponse) (fd : string) (value : V QueryParamsResponse_ref) : option ApiQueryParamsResponse := Set_of QueryParamsResponse_fields x fd value.
Definition QueryParamsResponse_Mutable (x : ApiQueryParamsResponse) (fd : string) : option (ApiQueryParamsResponse * V QueryParamsResponse_ref) := Mutable_of QueryParamsResponse_fields x fd.
Definition QueryParamsResponse_NewField (fd : string) : option (V QueryParamsResponse_ref) := NewField_of QueryParamsResponse_fields fd.
Lemma rfs_QueryParamsResponse_table : table_ok QueryParamsResponse_fields ApiQueryParamsResponse_unknownFields.
Proof. table_laws. Qed.

(** [QueryDeployerFeeSharesRequest]. *)
Inductive QueryDeployerFeeSharesRequest_ref :=
| QueryDeployerFeeSharesRequest_PageRequest_msg (x : option ApiPageRequest)
| QueryDeployerFeeSharesRequest_foreign.
Definition QueryDeployerFeeSharesRequest_fields : list (rfield (ApiQueryDeployerFeeSharesRequest (ApiPageRequest := ApiPageRequest)) (V QueryDeployerFeeSharesRequest_ref)) := [
  RField "terp.feeshare.v1.QueryDeployerFeeSharesRequest.deployer_address" (bytes) ApiQueryDeployerFeeSharesRequest_DeployerAddress (fun v m => MkApiQueryDeployerFeeSharesRequest v (ApiQueryDeployerFeeSharesRequest_Pagination m) (ApiQueryDeployerFeeSharesRequest_unknownFields m)) KString;
  RField "terp.feeshare.v1.QueryDeployerFeeSharesRequest.pagination" (option ApiPageRequest) ApiQueryDeployerFeeSharesRequest_Pagination (fun v m => MkApiQueryDeployerFeeSharesRequest (ApiQueryDeployerFeeSharesRequest_DeployerAddress m) v (ApiQueryDeployerFeeSharesRequest_unknownFields m)) (KMsg pZero QueryDeployerFeeSharesRequest_PageRequest_msg (fun c => match c with QueryDeployerFeeSharesRequest_PageRequest_msg v => Some v | _ => None end))].
Definition QueryDeployerFeeSharesRequest_Range {S : Type} (x : (ApiQueryDeployerFeeSharesRequest (ApiPageRequest := ApiPageRequest))) (f : string -> V QueryDeployerFeeSharesRequest_ref -> S -> S * bool) (s : S) : S := Range_of QueryDeployerFeeSharesRequest_fields x f s.
Definition QueryDeployerFeeSharesRequest_Has (x : (ApiQueryDeployerFeeSharesRequest (ApiPageRequest := ApiPageRequest))) (fd : string) : option bool := Has_of QueryDeployerFeeSharesRequest_fields x fd.
Definition QueryDeployerFeeSharesRequest_Clear (x : (ApiQueryDeployerFeeSharesRequest (ApiPageRequest := ApiPageRequest))) (fd : string) : option (ApiQueryDeployerFeeSharesRequest (ApiPageRequest := ApiPageRequest)) := Clear_of QueryDeployerFeeSharesRequest_fields x fd.
Definition QueryDeployerFeeSharesRequest_Get (x : (ApiQueryDeployerFeeSharesRequest (ApiPageRequest := ApiPageRequest))) (fd : string) : option (V QueryDeployerFeeSharesRequest_ref) := Get_of QueryDeployerFeeSharesRequest_fields x fd.
Definition QueryDeployerFeeSharesRequest_Set (x : (ApiQueryDeployerFeeSharesRequest (ApiPageRequest := ApiPageRequest))) (fd : string) (value : V QueryDeployerFeeSharesRequest_ref) : option (ApiQueryDeployerFeeSharesRequest (ApiPageRequest := ApiPageRequest)) := Set_of QueryDeployerFeeSharesRequest_fields x fd value.
Definition QueryDeployerFeeSharesRequest_Mutable (x : (ApiQueryDeployerFeeSharesRequest (ApiPageRequest := ApiPageRequest))) (fd : string) : option ((ApiQueryDeployerFeeSharesRequest (ApiPageRequest := ApiPageRequest)) * V QueryDeployerFeeSharesRequest_ref) := Mutable_of QueryDeployerFeeSharesRequest_fields x fd.
Definition QueryDeployerFeeSharesRequest_NewField (fd : string) : option (V QueryDeployerFeeSharesRequest_ref) := NewField_of QueryDeployerFeeSharesRequest_fields fd.
Lemma rfs_QueryDeployerFeeSharesRequest_table : table_ok QueryDeployerFeeSharesRequest_fields ApiQueryDeployerFeeSharesRequest_unknownFields.
Proof. table_laws. Qed.

(** [QueryDeployerFeeSharesResponse]. *)
Inductive QueryDeployerFeeSharesResponse_ref :=
| QueryDeployerFeeSharesResponse_1_list (l : option (list bytes))
| QueryDeployerFeeSharesResponse_PageResponse_msg (x : option ApiPageResponse)
| QueryDeployerFeeSharesResponse_foreign.
Definition QueryDeployerFeeSharesResponse_fields : list (rfield (ApiQueryDeployerFeeSharesResponse (ApiPageResponse := ApiPageResponse)) (V QueryDeployerFeeSharesResponse_ref)) := [
  RField "terp.feeshare.v1.QueryDeployerFeeSharesResponse.contract_addresses" (list bytes) ApiQueryDeployerFeeSharesResponse_ContractAddresses (fun v m => MkApiQueryDeployerFeeSharesResponse v (ApiQueryDeployerFeeSharesResponse_Pagination m) (ApiQueryDeployerFeeSharesResponse_unknownFields m)) (KList QueryDeployerFeeSharesResponse_1_list (fun c => match c with QueryDeployerFeeSharesResponse_1_list v => Some v | _ => None end));
  RField "terp.feeshare.v1.QueryDeployerFeeSharesResponse.pagination" (option ApiPageResponse) ApiQueryDeployerFeeSharesResponse_Pagination (fun v m => MkApiQueryDeployerFeeSharesResponse (ApiQueryDeployerFeeSharesResponse_ContractAddresses m) v (ApiQueryDeployerFeeSharesResponse_unknownFields m)) (KMsg pZero QueryDeployerFeeSharesResponse_PageResponse_msg (fun c => match c with QueryDeployerFeeSharesResponse_PageResponse_msg v => Some v | _ => None end))].
Definition QueryDeployerFeeSharesResponse_Range {S : Type} (x : (ApiQueryDeployerFeeSharesResponse (ApiPageResponse := ApiPageResponse))) (f : string -> V QueryDeployerFeeSharesResponse_ref -> S -> S * bool) (s : S) : S := Range_of QueryDeployerFeeSharesResponse_fields x f s.
Definition QueryDeployerFeeSharesResponse_Has (x : (ApiQueryDeployerFeeSharesResponse (ApiPageResponse := ApiPageResponse))) (fd : string) : option bool := Has_of QueryDeployerFeeSharesResponse_fields x fd.
Definition QueryDeployerFeeSharesResponse_Clear (x : (ApiQueryDeployerFeeSharesResponse (ApiPageResponse := ApiPageResponse))) (fd : string) : option (ApiQueryDeployerFeeSharesResponse (ApiPageResponse := ApiPageResponse)) := Clear_of QueryDeployerFeeSharesResponse_fields x fd.
Definition QueryDeployerFeeSharesResponse_Get (x : (ApiQueryDeployerFeeSharesResponse (ApiPageResponse := ApiPageResponse))) (fd : string) : option (V QueryDeployerFeeSharesResponse_ref) := Get_of QueryDeployerFeeSharesResponse_fields x fd.
Definition QueryDeployerFeeSharesResponse_Set (x : (ApiQueryDeployerFeeSharesResponse (ApiPageResponse := ApiPageResponse))) (fd : string) (value : V QueryDeployerFeeSharesResponse_ref) : option (ApiQueryDeployerFeeSharesResponse (ApiPageResponse := ApiPageResponse)) := Set_of QueryDeployerFeeSharesResponse_fields x fd value.
Definition QueryDeployerFeeSharesResponse_Mutable (x : (ApiQueryDeployerFeeSharesResponse (ApiPageResponse := ApiPageResponse))) (fd : string) : option ((ApiQueryDeployerFeeSharesResponse (ApiPageResponse := ApiPageResponse)) * V QueryDeployerFeeSharesResponse_ref) := Mutable_of QueryDeployerFeeSharesResponse_fields x fd.
Definition QueryDeployerFeeSharesResponse_NewField (fd : string) : option (V QueryDeployerFeeSharesResponse_ref) := NewField_of QueryDeployerFeeSharesResponse_fields fd.
Lemma rfs_QueryDeployerFeeSharesResponse_table : table_ok QueryDeployerFeeSharesResponse_fields ApiQueryDeployerFeeSharesResponse_unknownFields.
Proof. table_laws. Qed.

(** [QueryWithdrawerFeeSharesRequest]. *)
Inductive QueryWithdrawerFeeSharesRequest_ref :=
| QueryWithdrawerFeeSharesRequest_PageRequest_msg (x : option ApiPageRequest)
| QueryWithdrawerFeeSharesRequest_foreign.
Definition QueryWithdrawerFeeSharesRequest_fields : list (rfield (ApiQueryWithdrawerFeeSharesRequest (ApiPageRequest := ApiPageRequest)) (V QueryWithdrawerFeeSharesRequest_ref)) := [
  RField "terp.feeshare.v1.QueryWithdrawerFeeSharesRequest.withdrawer_address" (bytes) ApiQueryWithdrawerFeeSharesRequest_WithdrawerAddress (fun v m => MkApiQueryWithdrawerFeeSharesRequest v (ApiQueryWithdrawerFeeSharesRequest_Pagination m) (ApiQueryWithdrawerFeeSharesRequest_unknownFields m)) KString;
  RField "terp.feeshare.v1.QueryWithdrawerFeeSharesRequest.pagination" (option ApiPageRequest) ApiQueryWithdrawerFeeSharesRequest_Pagination (fun v m => MkApiQueryWithdrawerFeeSharesRequest (ApiQueryWithdrawerFeeSharesRequest_WithdrawerAddress m) v (ApiQueryWithdrawerFeeSharesRequest_unknownFields m)) (KMsg pZero QueryWithdrawerFeeSharesRequest_PageRequest_msg (fun c => match c with QueryWithdrawerFeeSharesRequest_PageRequest_msg v => Some v | _ => None end))].
Definition QueryWithdrawerFeeSharesRequest_Range {S : Type} (x : (ApiQueryWithdrawerFeeSharesRequest (ApiPageRequest := ApiPageRequest))) (f : string -> V QueryWithdrawerFeeSharesRequest_ref -> S -> S * bool) (s : S) : S := Range_of QueryWithdrawerFeeSharesRequest_fields x f s.
Definition QueryWithdrawerFeeSharesRequest_Has (x : (ApiQueryWithdrawerFeeSharesRequest (ApiPageRequest := ApiPageRequest))) (fd : string) : option bool := Has_of QueryWithdrawerFeeSharesRequest_fields x fd.
Definition QueryWithdrawerFeeSharesRequest_Clear (x : (ApiQueryWithdrawerFeeSharesRequest (ApiPageRequest := ApiPageRequest))) (fd : string) : option (ApiQueryWithdrawerFeeSharesRequest (ApiPageRequest := ApiPageRequest)) := Clear_of QueryWithdrawerFeeSharesRequest_fields x fd.
Definition QueryWithdrawerFeeSharesRequest_Get (x : (ApiQueryWithdrawerFeeSharesRequest (ApiPageRequest := ApiPageRequest))) (fd : string) : option (V QueryWithdrawerFeeSharesRequest_ref) := Get_of QueryWithdrawerFeeSharesRequest_fields x fd.
Definition QueryWithdrawerFeeSharesRequest_Set (x : (ApiQueryWithdrawerFeeSharesRequest (ApiPageRequest := ApiPageRequest))) (fd : string) (value : V QueryWithdrawerFeeSharesRequest_ref) : option (ApiQueryWithdrawerFeeSharesRequest (ApiPageRequest := ApiPageRequest)) := Set_of QueryWithdrawerFeeSharesRequest_fields x fd value.
Definition QueryWithdrawerFeeSharesRequest_Mutable (x : (ApiQueryWithdrawerFeeSharesRequest (ApiPageRequest := ApiPageRequest))) (fd : string) : option ((ApiQueryWithdrawerFeeSharesRequest (ApiPageRequest := ApiPageRequest)) * V QueryWithdrawerFeeSharesRequest_ref) := Mutable_of QueryWithdrawerFeeSharesRequest_fields x fd.
Definition QueryWithdrawerFeeSharesRequest_NewField (fd : string) : option (V QueryWithdrawerFeeSharesRequest_ref) := NewField_of QueryWithdrawerFeeSharesRequest_fields fd.
Lemma rfs_QueryWithdrawerFeeSharesRequest_table : table_ok QueryWithdrawerFeeSharesRequest_fields ApiQueryWithdrawerFeeSharesRequest_unknownFields.
Proof. table_laws. Qed.

(** [QueryWithdrawerFeeSharesResponse]. *)
Inductive QueryWithdrawerFeeSharesResponse_ref :=
| QueryWithdrawerFeeSharesResponse_1_list (l : option (list bytes))
| QueryWithdrawerFeeSharesResponse_PageResponse_msg (x : option ApiPageResponse)
| QueryWithdrawerFeeSharesResponse_foreign.
Definition QueryWithdrawerFeeSharesResponse_fields : list (rfield (ApiQueryWithdrawerFeeSharesResponse (ApiPageResponse := ApiPageResponse)) (V QueryWithdrawerFeeSharesResponse_ref)) := [
  RField "terp.feeshare.v1.QueryWithdrawerFeeSharesResponse.contract_addresses" (list bytes) ApiQueryWithdrawerFeeSharesResponse_ContractAddresses (fun v m => MkApiQueryWithdrawerFeeSharesResponse v (ApiQueryWithdrawerFeeSharesResponse_Pagination m) (ApiQueryWithdrawerFeeSharesResponse_unknownFields m)) (KList QueryWithdrawerFeeSharesResponse_1_list (fun c => match c with QueryWithdrawerFeeSharesResponse_1_list v => Some v | _ => None end));
  RField "terp.feeshare.v1.QueryWithdrawerFeeSharesResponse.pagination" (option ApiPageResponse) ApiQueryWithdrawerFeeSharesResponse_Pagination (fun v m => MkApiQueryWithdrawerFeeSharesResponse (ApiQueryWithdrawerFeeSharesResponse_ContractAddresses m) v (ApiQueryWithdrawerFeeSharesResponse_unknownFields m)) (KMsg pZero QueryWithdrawerFeeSharesResponse_PageResponse_msg (fun c => match c with QueryWithdrawerFeeSharesResponse_PageResponse_msg v => Some v | _ => None end))].
Definition QueryWithdrawerFeeSharesResponse_Range {S : Type} (x : (ApiQueryWithdrawerFeeSharesResponse (ApiPageResponse := ApiPageResponse))) (f : string -> V QueryWithdrawerFeeSharesResponse_ref -> S -> S * bool) (s : S) : S := Range_of QueryWithdrawerFeeSharesResponse_fields x f s.
Definition QueryWithdrawerFeeSharesResponse_Has (x : (ApiQueryWithdrawerFeeSharesResponse (ApiPageResponse := ApiPageResponse))) (fd : string) : option bool := Has_of QueryWithdrawerFeeSharesResponse_fields x fd.
Definition QueryWithdrawerFeeSharesResponse_Clear (x : (ApiQueryWithdrawerFeeSharesResponse (ApiPageResponse := ApiPageResponse))) (fd : string) : option (ApiQueryWithdrawerFeeSharesResponse (ApiPageResponse := ApiPageResponse)) := Clear_of QueryWithdrawerFeeSharesResponse_fields x fd.
Definition QueryWithdrawerFeeSharesResponse_Get (x : (ApiQueryWithdrawerFeeSharesResponse (ApiPageResponse := ApiPageResponse))) (fd : string) : option (V QueryWithdrawerFeeSharesResponse_ref) := Get_of QueryWithdrawerFeeSharesResponse_fields x fd.
Definition QueryWithdrawerFeeSharesResponse_Set (x : (ApiQueryWithdrawerFeeSharesResponse (ApiPageResponse := ApiPageResponse))) (fd : string) (value : V QueryWithdrawerFeeSharesResponse_ref) : option (ApiQueryWithdrawerFeeSharesResponse (ApiPageResponse := ApiPageResponse)) := Set_of QueryWithdrawerFeeSharesResponse_fields x fd value.
Definition QueryWithdrawerFeeSharesResponse_Mutable (x : (ApiQueryWithdrawerFeeSharesResponse (ApiPageResponse := ApiPageResponse))) (fd : string) : option ((ApiQueryWithdrawerFeeSharesResponse (ApiPageResponse := ApiPageResponse)) * V QueryWithdrawerFeeSharesResponse_ref) := Mutable_of QueryWithdrawerFeeSharesResponse_fields x fd.
Definition QueryWithdrawerFeeSharesResponse_NewField (fd : string) : option (V QueryWithdrawerFeeSharesResponse_ref) := NewField_of QueryWithdrawerFeeSharesResponse_fields fd.
Lemma rfs_QueryWithdrawerFeeSharesResponse_table : table_ok QueryWithdrawerFeeSharesResponse_fields ApiQueryWithdrawerFeeSharesResponse_unknownFields.
Proof. table_laws. Qed.

End Reflection.
