(* ===== verification/ReflSa.v ===== *)
(** * smart-account: reflection on the API types

    [api/terp/smartaccount/v1beta1/*.pulsar.go]: the table of the fields of every
    message, and the methods over it. *)

From S2P Require Import Prelude Proto Wire WireLaws SaAuth SaKeeper WireSa Pulsar ApiSa Reflect.

Open Scope go_scope.

Section Reflection.
Context {RT : WireRuntime} {V : Type -> Type} {VV : Values V} {VL : ValuesLaws V}.
Context {OP : Options}.

(** [AccountAuthenticator]. *)
Definition AccountAuthenticator_fields : list (rfield ApiAccountAuthenticator (V no_ref)) := [
  RField "terp.smartaccount.v1beta1.AccountAuthenticator.id" (Z) ApiAccountAuthenticator_Id (fun v m => MkApiAccountAuthenticator v (ApiAccountAuthenticator_Type_ m) (ApiAccountAuthenticator_Config m) (ApiAccountAuthenticator_unknownFields m)) KUint64;
  RField "terp.smartaccount.v1beta1.AccountAuthenticator.type" (bytes) ApiAccountAuthenticator_Type_ (fun v m => MkApiAccountAuthenticator (ApiAccountAuthenticator_Id m) v (ApiAccountAuthenticator_Config m) (ApiAccountAuthenticator_unknownFields m)) KString;
  RField "terp.smartaccount.v1beta1.AccountAuthenticator.config" (bytes) ApiAccountAuthenticator_Config (fun v m => MkApiAccountAuthenticator (ApiAccountAuthenticator_Id m) (ApiAccountAuthenticator_Type_ m) v (ApiAccountAuthenticator_unknownFields m)) KBytes].
Definition AccountAuthenticator_Range {S : Type} (x : ApiAccountAuthenticator) (f : string -> V no_ref -> S -> S * bool) (s : S) : S := Range_of AccountAuthenticator_fields x f s.
Definition AccountAuthenticator_Has (x : ApiAccountAuthenticator) (fd : string) : option bool := Has_of AccountAuthenticator_fields x fd.
Definition AccountAuthenticator_Clear (x : ApiAccountAuthenticator) (fd : string) : option ApiAccountAuthenticator := Clear_of AccountAuthenticator_fields x fd.
Definition AccountAuthenticator_Get (x : ApiAccountAuthenticator) (fd : string) : option (V no_ref) := Get_of AccountAuthenticator_fields x fd.
Definition AccountAuthenticator_Set (x : ApiAccountAuthenticator) (fd : string) (value : V no_ref) : option ApiAccountAuthenticator := Set_of AccountAuthenticator_fields x fd value.
Definition AccountAuthenticator_Mutable (x : ApiAccountAuthenticator) (fd : string) : option (ApiAccountAuthenticator * V no_ref) := Mutable_of AccountAuthenticator_fields x fd.
Definition AccountAuthenticator_NewField (fd : string) : option (V no_ref) := NewField_of AccountAuthenticator_fields fd.
Lemma rsa_AccountAuthenticator_table : table_ok AccountAuthenticator_fields ApiAccountAuthenticator_unknownFields.
Proof. table_laws. Qed.

(** [Params]. *)
Inductive Params_ref :=
| Params_3_list (l : option (list bytes))
| Params_foreign.
Definition Params_fields : list (rfield ApiParams (V Params_ref)) := [
  RField "terp.smartaccount.v1beta1.Params.maximum_unauthenticated_gas" (Z) ApiParams_MaximumUnauthenticatedGas (fun v m => MkApiParams v (ApiParams_IsSmartAccountActive m) (ApiParams_CircuitBreakerControllers m) (ApiParams_unknownFields m)) KUint64;
  RField "terp.smartaccount.v1beta1.Params.is_smart_account_active" (bool) ApiParams_IsSmartAccountActive (fun v m => MkApiParams (ApiParams_MaximumUnauthenticatedGas m) v (ApiParams_CircuitBreakerControllers m) (ApiParams_unknownFields m)) KBool;
  RField "terp.smartaccount.v1beta1.Params.circuit_breaker_controllers" (list bytes) ApiParams_CircuitBreakerControllers (fun v m => MkApiParams (ApiParams_MaximumUnauthenticatedGas m) (ApiParams_IsSmartAccountActive m) v (ApiParams_unknownFields m)) (KList Params_3_list (fun c => match c with Params_3_list v => Some v | _ => None end))].
Definition Params_Range {S : Type} (x : ApiParams) (f : string -> V Params_ref -> S -> S * bool) (s : S) : S := Range_of Params_fields x f s.
Definition Params_Has (x : ApiParams) (fd : string) : option bool := Has_of Params_fields x fd.
Definition Params_Clear (x : ApiParams) (fd : string) : option ApiParams := Clear_of Params_fields x fd.
Definition Params_Get (x : ApiParams) (fd : string) : option (V Params_ref) := Get_of Params_fields x fd.
Definition Params_Set (x : ApiParams) (fd : string) (value : V Params_ref) : option ApiParams := Set_of Params_fields x fd value.
Definition Params_Mutable (x : ApiParams) (fd : string) : option (ApiParams * V Params_ref) := Mutable_of Params_fields x fd.
Definition Params_NewField (fd : string) : option (V Params_ref) := NewField_of Params_fields fd.
Lemma rsa_Params_table : table_ok Params_fields ApiParams_unknownFields.
Proof. table_laws. Qed.

(** [AuthenticatorData]. *)
Inductive AuthenticatorData_ref :=
| AuthenticatorData_2_list (l : option (list (option ApiAccountAuthenticator)))
| AuthenticatorData_foreign.
Definition AuthenticatorData_fields : list (rfield ApiAuthenticatorData (V AuthenticatorData_ref)) := [
  RField "terp.smartaccount.v1beta1.AuthenticatorData.address" (bytes) ApiAuthenticatorData_Address (fun v m => MkApiAuthenticatorData v (ApiAuthenticatorData_Authenticators m) (ApiAuthenticatorData_unknownFields m)) KString;
  RField "terp.smartaccount.v1beta1.AuthenticatorData.authenticators" (list (option ApiAccountAuthenticator)) ApiAuthenticatorData_Authenticators (fun v m => MkApiAuthenticatorData (ApiAuthenticatorData_Address m) v (ApiAuthenticatorData_unknownFields m)) (KList AuthenticatorData_2_list (fun c => match c with AuthenticatorData_2_list v => Some v | _ => None end))].
Definition AuthenticatorData_Range {S : Type} (x : ApiAuthenticatorData) (f : string -> V AuthenticatorData_ref -> S -> S * bool) (s : S) : S := Range_of AuthenticatorData_fields x f s.
Definition AuthenticatorData_Has (x : ApiAuthenticatorData) (fd : string) : option bool := Has_of AuthenticatorData_fields x fd.
Definition AuthenticatorData_Clear (x : ApiAuthenticatorData) (fd : string) : option ApiAuthenticatorData := Clear_of AuthenticatorData_fields x fd.
Definition AuthenticatorData_Get (x : ApiAuthenticatorData) (fd : string) : option (V AuthenticatorData_ref) := Get_of AuthenticatorData_fields x fd.
Definition AuthenticatorData_Set (x : ApiAuthenticatorData) (fd : string) (value : V AuthenticatorData_ref) : option ApiAuthenticatorData := Set_of AuthenticatorData_fields x fd value.
Definition AuthenticatorData_Mutable (x : ApiAuthenticatorData) (fd : string) : option (ApiAuthenticatorData * V AuthenticatorData_ref) := Mutable_of AuthenticatorData_fields x fd.
Definition AuthenticatorData_NewField (fd : string) : option (V AuthenticatorData_ref) := NewField_of AuthenticatorData_fields fd.
Lemma rsa_AuthenticatorData_table : table_ok AuthenticatorData_fields ApiAuthenticatorData_unknownFields.
Proof. table_laws. Qed.

(** [GenesisState]. *)
Inductive GenesisState_ref :=
| GenesisState_Params_msg (x : option ApiParams)
| GenesisState_3_list (l : option (list (option ApiAuthenticatorData)))
| GenesisState_foreign.
Definition GenesisState_fields : list (rfield ApiGenesisState (V GenesisState_ref)) := [
  RField "terp.smartaccount.v1beta1.GenesisState.params" (option ApiParams) ApiGenesisState_Params (fun v m => MkApiGenesisState v (ApiGenesisState_NextAuthenticatorId m) (ApiGenesisState_AuthenticatorData m) (ApiGenesisState_unknownFields m)) (KMsg pZero GenesisState_Params_msg (fun c => match c with GenesisState_Params_msg v => Some v | _ => None end));
  RField "terp.smartaccount.v1beta1.GenesisState.next_authenticator_id" (Z) ApiGenesisState_NextAuthenticatorId (fun v m => MkApiGenesisState (ApiGenesisState_Params m) v (ApiGenesisState_AuthenticatorData m) (ApiGenesisState_unknownFields m)) KUint64;
  RField "terp.smartaccount.v1beta1.GenesisState.authenticator_data" (list (option ApiAuthenticatorData)) ApiGenesisState_AuthenticatorData (fun v m => MkApiGenesisState (ApiGenesisState_Params m) (ApiGenesisState_NextAuthenticatorId m) v (ApiGenesisState_unknownFields m)) (KList GenesisState_3_list (fun c => match c with GenesisState_3_list v => Some v | _ => None end))].
Definition GenesisState_Range {S : Type} (x : ApiGenesisState) (f : string -> V GenesisState_ref -> S -> S * bool) (s : S) : S := Range_of GenesisState_fields x f s.
Definition GenesisState_Has (x : ApiGenesisState) (fd : string) : option bool := Has_of GenesisState_fields x fd.
Definition GenesisState_Clear (x : ApiGenesisState) (fd : string) : option ApiGenesisState := Clear_of GenesisState_fields x fd.
Definition GenesisState_Get (x : ApiGenesisState) (fd : string) : option (V GenesisState_ref) := Get_of GenesisState_fields x fd.
Definition GenesisState_Set (x : ApiGenesisState) (fd : string) (value : V GenesisState_ref) : option ApiGenesisState := Set_of GenesisState_fields x fd value.
Definition GenesisState_Mutable (x : ApiGenesisState) (fd : string) : option (ApiGenesisState * V GenesisState_ref) := Mutable_of GenesisState_fields x fd.
Definition GenesisState_NewField (fd : string) : option (V GenesisState_ref) := NewField_of GenesisState_fields fd.
Lemma rsa_GenesisState_table : table_ok GenesisState_fields ApiGenesisState_unknownFields.
Proof. table_laws. Qed.

(** [MsgAddAuthenticator]. *)
Definition MsgAddAuthenticator_fields : list (rfield ApiMsgAddAuthenticator (V no_ref)) := [
  RField "terp.smartaccount.v1beta1.MsgAddAuthenticator.sender" (bytes) ApiMsgAddAuthenticator_Sender (fun v m => MkApiMsgAddAuthenticator v (ApiMsgAddAuthenticator_AuthenticatorType m) (ApiMsgAddAuthenticator_Data m) (ApiMsgAddAuthenticator_unknownFields m)) KString;
  RField "terp.smartaccount.v1beta1.MsgAddAuthenticator.authenticator_type" (bytes) ApiMsgAddAuthenticator_AuthenticatorType (fun v m => MkApiMsgAddAuthenticator (ApiMsgAddAuthenticator_Sender m) v (ApiMsgAddAuthenticator_Data m) (ApiMsgAddAuthenticator_unknownFields m)) KString;
  RField "terp.smartaccount.v1beta1.MsgAddAuthenticator.data" (bytes) ApiMsgAddAuthenticator_Data (fun v m => MkApiMsgAddAuthenticator (ApiMsgAddAuthenticator_Sender m) (ApiMsgAddAuthenticator_AuthenticatorType m) v (ApiMsgAddAuthenticator_unknownFields m)) KBytes].
Definition MsgAddAuthenticator_Range {S : Type} (x : ApiMsgAddAuthenticator) (f : string -> V no_ref -> S -> S * bool) (s : S) : S := Range_of MsgAddAuthenticator_fields x f s.
Definition MsgAddAuthenticator_Has (x : ApiMsgAddAuthenticator) (fd : string) : option bool := Has_of MsgAddAuthenticator_fields x fd.
Definition MsgAddAuthenticator_Clear (x : ApiMsgAddAuthenticator) (fd : string) : option ApiMsgAddAuthenticator := Clear_of MsgAddAuthenticator_fields x fd.
Definition MsgAddAuthenticator_Get (x : ApiMsgAddAuthenticator) (fd : string) : option (V no_ref) := Get_of MsgAddAuthenticator_fields x fd.
Definition MsgAddAuthenticator_Set (x : ApiMsgAddAuthenticator) (fd : string) (value : V no_ref) : option ApiMsgAddAuthenticator := Set_of MsgAddAuthenticator_fields x fd value.
Definition MsgAddAuthenticator_Mutable (x : ApiMsgAddAuthenticator) (fd : string) : option (ApiMsgAddAuthenticator * V no_ref) := Mutable_of MsgAddAuthenticator_fields x fd.
Definition MsgAddAuthenticator_NewField (fd : string) : option (V no_ref) := NewField_of MsgAddAuthenticator_fields fd.
Lemma rsa_MsgAddAuthenticator_table : table_ok MsgAddAuthenticator_fields ApiMsgAddAuthenticator_unknownFields.
Proof. table_laws. Qed.

(** [MsgAddAuthenticatorResponse]. *)
Definition MsgAddAuthenticatorResponse_fields : list (rfield ApiMsgAddAuthenticatorResponse (V no_ref)) := [
  RField "terp.smartaccount.v1beta1.MsgAddAuthenticatorResponse.success" (bool) ApiMsgAddAuthenticatorResponse_Success (fun v m => MkApiMsgAddAuthenticatorResponse v (ApiMsgAddAuthenticatorResponse_unknownFields m)) KBool].
Definition MsgAddAuthenticatorResponse_Range {S : Type} (x : ApiMsgAddAuthenticatorResponse) (f : string -> V no_ref -> S -> S * bool) (s : S) : S := Range_of MsgAddAuthenticatorResponse_fields x f s.
Definition MsgAddAuthenticatorResponse_Has (x : ApiMsgAddAuthenticatorResponse) (fd : string) : option bool := Has_of MsgAddAuthenticatorResponse_fields x fd.
Definition MsgAddAuthenticatorResponse_Clear (x : ApiMsgAddAuthenticatorResponse) (fd : string) : option ApiMsgAddAuthenticatorResponse := Clear_of MsgAddAuthenticatorResponse_fields x fd.
Definition MsgAddAuthenticatorResponse_Get (x : ApiMsgAddAuthenticatorResponse) (fd : string) : option (V no_ref) := Get_of MsgAddAuthenticatorResponse_fields x fd.
Definition MsgAddAuthenticatorResponse_Set (x : ApiMsgAddAuthenticatorResponse) (fd : string) (value : V no_ref) : option ApiMsgAddAuthenticatorResponse := Set_of MsgAddAuthenticatorResponse_fields x fd value.
Definition MsgAddAuthenticatorResponse_Mutable (x : ApiMsgAddAuthenticatorResponse) (fd : string) : option (ApiMsgAddAuthenticatorResponse * V no_ref) := Mutable_of MsgAddAuthenticatorResponse_fields x fd.
Definition MsgAddAuthenticatorResponse_NewField (fd : string) : option (V no_ref) := NewField_of MsgAddAuthenticatorResponse_fields fd.
Lemma rsa_MsgAddAuthenticatorResponse_table : table_ok MsgAddAuthenticatorResponse_fields ApiMsgAddAuthenticatorResponse_unknownFields.
Proof. table_laws. Qed.

(** [MsgRemoveAuthenticator]. *)
Definition MsgRemoveAuthenticator_fields : list (rfield ApiMsgRemoveAuthenticator (V no_ref)) := [
  RField "terp.smartaccount.v1beta1.MsgRemoveAuthenticator.sender" (bytes) ApiMsgRemoveAuthenticator_Sender (fun v m => MkApiMsgRemoveAuthenticator v (ApiMsgRemoveAuthenticator_Id m) (ApiMsgRemoveAuthenticator_unknownFields m)) KString;
  RField "terp.smartaccount.v1beta1.MsgRemoveAuthenticator.id" (Z) ApiMsgRemoveAuthenticator_Id (fun v m => MkApiMsgRemoveAuthenticator (ApiMsgRemoveAuthenticator_Sender m) v (ApiMsgRemoveAuthenticator_unknownFields m)) KUint64].
Definition MsgRemoveAuthenticator_Range {S : Type} (x : ApiMsgRemoveAuthenticator) (f : string -> V no_ref -> S -> S * bool) (s : S) : S := Range_of MsgRemoveAuthenticator_fields x f s.
Definition MsgRemoveAuthenticator_Has (x : ApiMsgRemoveAuthenticator) (fd : string) : option bool := Has_of MsgRemoveAuthenticator_fields x fd.
Definition MsgRemoveAuthenticator_Clear (x : ApiMsgRemoveAuthenticator) (fd : string) : option ApiMsgRemoveAuthenticator := Clear_of MsgRemoveAuthenticator_fields x fd.
Definition MsgRemoveAuthenticator_Get (x : ApiMsgRemoveAuthenticator) (fd : string) : option (V no_ref) := Get_of MsgRemoveAuthenticator_fields x fd.
Definition MsgRemoveAuthenticator_Set (x : ApiMsgRemoveAuthenticator) (fd : string) (value : V no_ref) : option ApiMsgRemoveAuthenticator := Set_of MsgRemoveAuthenticator_fields x fd value.
Definition MsgRemoveAuthenticator_Mutable (x : ApiMsgRemoveAuthenticator) (fd : string) : option (ApiMsgRemoveAuthenticator * V no_ref) := Mutable_of MsgRemoveAuthenticator_fields x fd.
Definition MsgRemoveAuthenticator_NewField (fd : string) : option (V no_ref) := NewField_of MsgRemoveAuthenticator_fields fd.
Lemma rsa_MsgRemoveAuthenticator_table : table_ok MsgRemoveAuthenticator_fields ApiMsgRemoveAuthenticator_unknownFields.
Proof. table_laws. Qed.

(** [MsgRemoveAuthenticatorResponse]. *)
Definition MsgRemoveAuthenticatorResponse_fields : list (rfield ApiMsgRemoveAuthenticatorResponse (V no_ref)) := [
  RField "terp.smartaccount.v1beta1.MsgRemoveAuthenticatorResponse.success" (bool) ApiMsgRemoveAuthenticatorResponse_Success (fun v m => MkApiMsgRemoveAuthenticatorResponse v (ApiMsgRemoveAuthenticatorResponse_unknownFields m)) KBool].
Definition MsgRemoveAuthenticatorResponse_Range {S : Type} (x : ApiMsgRemoveAuthenticatorResponse) (f : string -> V no_ref -> S -> S * bool) (s : S) : S := Range_of MsgRemoveAuthenticatorResponse_fields x f s.
Definition MsgRemoveAuthenticatorResponse_Has (x : ApiMsgRemoveAuthenticatorResponse) (fd : string) : option bool := Has_of MsgRemoveAuthenticatorResponse_fields x fd.
Definition MsgRemoveAuthenticatorResponse_Clear (x : ApiMsgRemoveAuthenticatorResponse) (fd : string) : option ApiMsgRemoveAuthenticatorResponse := Clear_of MsgRemoveAuthenticatorResponse_fields x fd.
Definition MsgRemoveAuthenticatorResponse_Get (x : ApiMsgRemoveAuthenticatorResponse) (fd : string) : option (V no_ref) := Get_of MsgRemoveAuthenticatorResponse_fields x fd.
Definition MsgRemoveAuthenticatorResponse_Set (x : ApiMsgRemoveAuthenticatorResponse) (fd : string) (value : V no_ref) : option ApiMsgRemoveAuthenticatorResponse := Set_of MsgRemoveAuthenticatorResponse_fields x fd value.
Definition MsgRemoveAuthenticatorResponse_Mutable (x : ApiMsgRemoveAuthenticatorResponse) (fd : string) : option (ApiMsgRemoveAuthenticatorResponse * V no_ref) := Mutable_of MsgRemoveAuthenticatorResponse_fields x fd.
Definition MsgRemoveAuthenticatorResponse_NewField (fd : string) : option (V no_ref) := NewField_of MsgRemoveAuthenticatorResponse_fields fd.
Lemma rsa_MsgRemoveAuthenticatorResponse_table : table_ok MsgRemoveAuthenticatorResponse_fields ApiMsgRemoveAuthenticatorResponse_unknownFields.
Proof. table_laws. Qed.

(** [MsgSetActiveState]. *)
Definition MsgSetActiveState_fields : list (rfield ApiMsgSetActiveState (V no_ref)) := [
  RField "terp.smartaccount.v1beta1.MsgSetActiveState.sender" (bytes) ApiMsgSetActiveState_Sender (fun v m => MkApiMsgSetActiveState v (ApiMsgSetActiveState_Active m) (ApiMsgSetActiveState_unknownFields m)) KString;
  RField "terp.smartaccount.v1beta1.MsgSetActiveState.active" (bool) ApiMsgSetActiveState_Active (fun v m => MkApiMsgSetActiveState (ApiMsgSetActiveState_Sender m) v (ApiMsgSetActiveState_unknownFields m)) KBool].
Definition MsgSetActiveState_Range {S : Type} (x : ApiMsgSetActiveState) (f : string -> V no_ref -> S -> S * bool) (s : S) : S := Range_of MsgSetActiveState_fields x f s.
Definition MsgSetActiveState_Has (x : ApiMsgSetActiveState) (fd : string) : option bool := Has_of MsgSetActiveState_fields x fd.
Definition MsgSetActiveState_Clear (x : ApiMsgSetActiveState) (fd : string) : option ApiMsgSetActiveState := Clear_of MsgSetActiveState_fields x fd.
Definition MsgSetActiveState_Get (x : ApiMsgSetActiveState) (fd : string) : option (V no_ref) := Get_of MsgSetActiveState_fields x fd.
Definition MsgSetActiveState_Set (x : ApiMsgSetActiveState) (fd : string) (value : V no_ref) : option ApiMsgSetActiveState := Set_of MsgSetActiveState_fields x fd value.
Definition MsgSetActiveState_Mutable (x : ApiMsgSetActiveState) (fd : string) : option (ApiMsgSetActiveState * V no_ref) := Mutable_of MsgSetActiveState_fields x fd.
Definition MsgSetActiveState_NewField (fd : string) : option (V no_ref) := NewField_of MsgSetActiveState_fields fd.
Lemma rsa_MsgSetActiveState_table : table_ok MsgSetActiveState_fields ApiMsgSetActiveState_unknownFields.
Proof. table_laws. Qed.

(** [AgAuthData]. *)
Definition AgAuthData_fields : list (rfield ApiAgAuthData (V no_ref)) := [
  RField "terp.smartaccount.v1beta1.AgAuthData.data" (bytes) ApiAgAuthData_Data (fun v m => MkApiAgAuthData v (ApiAgAuthData_unknownFields m)) KBytes].
Definition AgAuthData_Range {S : Type} (x : ApiAgAuthData) (f : string -> V no_ref -> S -> S * bool) (s : S) : S := Range_of AgAuthData_fields x f s.
Definition AgAuthData_Has (x : ApiAgAuthData) (fd : string) : option bool := Has_of AgAuthData_fields x fd.
Definition AgAuthData_Clear (x : ApiAgAuthData) (fd : string) : option ApiAgAuthData := Clear_of AgAuthData_fields x fd.
Definition AgAuthData_Get (x : ApiAgAuthData) (fd : string) : option (V no_ref) := Get_of AgAuthData_fields x fd.
Definition AgAuthData_Set (x : ApiAgAuthData) (fd : string) (value : V no_ref) : option ApiAgAuthData := Set_of AgAuthData_fields x fd value.
Definition AgAuthData_Mutable (x : ApiAgAuthData) (fd : string) : option (ApiAgAuthData * V no_ref) := Mutable_of AgAuthData_fields x fd.
Definition AgAuthData_NewField (fd : string) : option (V no_ref) := NewField_of AgAuthData_fields fd.
Lemma rsa_AgAuthData_table : table_ok AgAuthData_fields ApiAgAuthData_unknownFields.
Proof. table_laws. Qed.

(** [TxExtension]. *)
Inductive TxExtension_ref :=
| TxExtension_1_list (l : option (list Z))
| TxExtension_AgAuthData_msg (x : option ApiAgAuthData)
| TxExtension_foreign.
Definition TxExtension_fields : list (rfield ApiTxExtension (V TxExtension_ref)) := [
  RField "terp.smartaccount.v1beta1.TxExtension.selected_authenticators" (list Z) ApiTxExtension_SelectedAuthenticators (fun v m => MkApiTxExtension v (ApiTxExtension_AggAuth m) (ApiTxExtension_unknownFields m)) (KList TxExtension_1_list (fun c => match c with TxExtension_1_list v => Some v | _ => None end));
  RField "terp.smartaccount.v1beta1.TxExtension.agg_auth" (option ApiAgAuthData) ApiTxExtension_AggAuth (fun v m => MkApiTxExtension (ApiTxExtension_SelectedAuthenticators m) v (ApiTxExtension_unknownFields m)) (KMsg pZero TxExtension_AgAuthData_msg (fun c => match c with TxExtension_AgAuthData_msg v => Some v | _ => None end))].
Definition TxExtension_Range {S : Type} (x : ApiTxExtension) (f : string -> V TxExtension_ref -> S -> S * bool) (s : S) : S := Range_of TxExtension_fields x f s.
Definition TxExtension_Has (x : ApiTxExtension) (fd : string) : option bool := Has_of TxExtension_fields x fd.
Definition TxExtension_Clear (x : ApiTxExtension) (fd : string) : option ApiTxExtension := Clear_of TxExtension_fields x fd.
Definition TxExtension_Get (x : ApiTxExtension) (fd : string) : option (V TxExtension_ref) := Get_of TxExtension_fields x fd.
Definition TxExtension_Set (x : ApiTxExtension) (fd : string) (value : V TxExtension_ref) : option ApiTxExtension := Set_of TxExtension_fields x fd value.
Definition TxExtension_Mutable (x : ApiTxExtension) (fd : string) : option (ApiTxExtension * V TxExtension_ref) := Mutable_of TxExtension_fields x fd.
Definition TxExtension_NewField (fd : string) : option (V TxExtension_ref) := NewField_of TxExtension_fields fd.
Lemma rsa_TxExtension_table : table_ok TxExtension_fields ApiTxExtension_unknownFields.
Proof. table_laws. Qed.

(** [BlsConfig]. *)
Inductive BlsConfig_ref :=
| BlsConfig_1_list (l : option (list bytes))
| BlsConfig_foreign.
Definition BlsConfig_fields : list (rfield ApiBlsConfig (V BlsConfig_ref)) := [
  RField "terp.smartaccount.v1beta1.BlsConfig.pubkeys" (list bytes) ApiBlsConfig_Pubkeys (fun v m => MkApiBlsConfig v (ApiBlsConfig_Threshold m) (ApiBlsConfig_unknownFields m)) (KList BlsConfig_1_list (fun c => match c with BlsConfig_1_list v => Some v | _ => None end));
  RField "terp.smartaccount.v1beta1.BlsConfig.threshold" (Z) ApiBlsConfig_Threshold (fun v m => MkApiBlsConfig (ApiBlsConfig_Pubkeys m) v (ApiBlsConfig_unknownFields m)) KUint64].
Definition BlsConfig_Range {S : Type} (x : ApiBlsConfig) (f : string -> V BlsConfig_ref -> S -> S * bool) (s : S) : S := Range_of BlsConfig_fields x f s.
Definition BlsConfig_Has (x : ApiBlsConfig) (fd : string) : option bool := Has_of BlsConfig_fields x fd.
Definition BlsConfig_Clear (x : ApiBlsConfig) (fd : string) : option ApiBlsConfig := Clear_of BlsConfig_fields x fd.
Definition BlsConfig_Get (x : ApiBlsConfig) (fd : string) : option (V BlsConfig_ref) := Get_of BlsConfig_fields x fd.
Definition BlsConfig_Set (x : ApiBlsConfig) (fd : string) (value : V BlsConfig_ref) : option ApiBlsConfig := Set_of BlsConfig_fields x fd value.
Definition BlsConfig_Mutable (x : ApiBlsConfig) (fd : string) : option (ApiBlsConfig * V BlsConfig_ref) := Mutable_of BlsConfig_fields x fd.
Definition BlsConfig_NewField (fd : string) : option (V BlsConfig_ref) := NewField_of BlsConfig_fields fd.
Lemma rsa_BlsConfig_table : table_ok BlsConfig_fields ApiBlsConfig_unknownFields.
Proof. table_laws. Qed.

(** [QueryParamsResponse]. *)
Inductive QueryParamsResponse_ref :=
| QueryParamsResponse_Params_msg (x : option ApiParams)
| QueryParamsResponse_foreign.
Definition QueryParamsResponse_fields : list (rfield ApiQueryParamsResponse (V QueryParamsResponse_ref)) := [
  RField "terp.smartaccount.v1beta1.QueryParamsResponse.params" (option ApiParams) ApiQueryParamsResponse_Params (fun v m => MkApiQueryParamsResponse v (ApiQueryParamsResponse_unknownFields m)) (KMsg pZero QueryParamsResponse_Params_msg (fun c => match c with QueryParamsResponse_Params_msg v => Some v | _ => None end))].
Definition QueryParamsResponse_Range {S : Type} (x : ApiQueryParamsResponse) (f : string -> V QueryParamsResponse_ref -> S -> S * bool) (s : S) : S := Range_of QueryParamsResponse_fields x f s.
Definition QueryParamsResponse_Has (x : ApiQueryParamsResponse) (fd : string) : option bool := Has_of QueryParamsResponse_fields x fd.
Definition QueryParamsResponse_Clear (x : ApiQueryParamsResponse) (fd : string) : option ApiQueryParamsResponse := Clear_of QueryParamsResponse_fields x fd.
Definition QueryParamsResponse_Get (x : ApiQueryParamsResponse) (fd : string) : option (V QueryParamsResponse_ref) := Get_of QueryParamsResponse_fields x fd.
Definition QueryParamsResponse_Set (x : ApiQueryParamsResponse) (fd : string) (value : V QueryParamsResponse_ref) : option ApiQueryParamsResponse := Set_of QueryParamsResponse_fields x fd value.
Definition QueryParamsResponse_Mutable (x : ApiQueryParamsResponse) (fd : string) : option (ApiQueryParamsResponse * V QueryParamsResponse_ref) := Mutable_of QueryParamsResponse_fields x fd.
Definition QueryParamsResponse_NewField (fd : string) : option (V QueryParamsResponse_ref) := NewField_of QueryParamsResponse_fields fd.
Lemma rsa_QueryParamsResponse_table : table_ok QueryParamsResponse_fields ApiQueryParamsResponse_unknownFields.
Proof. table_laws. Qed.

(** [GetAuthenticatorsRequest]. *)
Definition GetAuthenticatorsRequest_fields : list (rfield ApiGetAuthenticatorsRequest (V no_ref)) := [
  RField "terp.smartaccount.v1beta1.GetAuthenticatorsRequest.account" (bytes) ApiGetAuthenticatorsRequest_Account (fun v m => MkApiGetAuthenticatorsRequest v (ApiGetAuthenticatorsRequest_unknownFields m)) KString].
Definition GetAuthenticatorsRequest_Range {S : Type} (x : ApiGetAuthenticatorsRequest) (f : string -> V no_ref -> S -> S * bool) (s : S) : S := Range_of GetAuthenticatorsRequest_fields x f s.
Definition GetAuthenticatorsRequest_Has (x : ApiGetAuthenticatorsRequest) (fd : string) : option bool := Has_of GetAuthenticatorsRequest_fields x fd.
Definition GetAuthenticatorsRequest_Clear (x : ApiGetAuthenticatorsRequest) (fd : string) : option ApiGetAuthenticatorsRequest := Clear_of GetAuthenticatorsRequest_fields x fd.
Definition GetAuthenticatorsRequest_Get (x : ApiGetAuthenticatorsRequest) (fd : string) : option (V no_ref) := Get_of GetAuthenticatorsRequest_fields x fd.
Definition GetAuthenticatorsRequest_Set (x : ApiGetAuthenticatorsRequest) (fd : string) (value : V no_ref) : option ApiGetAuthenticatorsRequest := Set_of GetAuthenticatorsRequest_fields x fd value.
Definition GetAuthenticatorsRequest_Mutable (x : ApiGetAuthenticatorsRequest) (fd : string) : option (ApiGetAuthenticatorsRequest * V no_ref) := Mutable_of GetAuthenticatorsRequest_fields x fd.
Definition GetAuthenticatorsRequest_NewField (fd : string) : option (V no_ref) := NewField_of GetAuthenticatorsRequest_fields fd.
Lemma rsa_GetAuthenticatorsRequest_table : table_ok GetAuthenticatorsRequest_fields ApiGetAuthenticatorsRequest_unknownFields.
Proof. table_laws. Qed.

(** [GetAuthenticatorsResponse]. *)
Inductive GetAuthenticatorsResponse_ref :=
| GetAuthenticatorsResponse_1_list (l : option (list (option ApiAccountAuthenticator)))
| GetAuthenticatorsResponse_foreign.
Definition GetAuthenticatorsResponse_fields : list (rfield ApiGetAuthenticatorsResponse (V GetAuthenticatorsResponse_ref)) := [
  RField "terp.smartaccount.v1beta1.GetAuthenticatorsResponse.account_authenticators" (list (option ApiAccountAuthenticator)) ApiGetAuthenticatorsResponse_AccountAuthenticators (fun v m => MkApiGetAuthenticatorsResponse v (ApiGetAuthenticatorsResponse_unknownFields m)) (KList GetAuthenticatorsResponse_1_list (fun c => match c with GetAuthenticatorsResponse_1_list v => Some v | _ => None end))].
Definition GetAuthenticatorsResponse_Range {S : Type} (x : ApiGetAuthenticatorsResponse) (f : string -> V GetAuthenticatorsResponse_ref -> S -> S * bool) (s : S) : S := Range_of GetAuthenticatorsResponse_fields x f s.
Definition GetAuthenticatorsResponse_Has (x : ApiGetAuthenticatorsResponse) (fd : string) : option bool := Has_of GetAuthenticatorsResponse_fields x fd.
Definition GetAuthenticatorsResponse_Clear (x : ApiGetAuthenticatorsResponse) (fd : string) : option ApiGetAuthenticatorsResponse := Clear_of GetAuthenticatorsResponse_fields x fd.
Definition GetAuthenticatorsResponse_Get (x : ApiGetAuthenticatorsResponse) (fd : string) : option (V GetAuthenticatorsResponse_ref) := Get_of GetAuthenticatorsResponse_fields x fd.
Definition GetAuthenticatorsResponse_Set (x : ApiGetAuthenticatorsResponse) (fd : string) (value : V GetAuthenticatorsResponse_ref) : option ApiGetAuthenticatorsResponse := Set_of GetAuthenticatorsResponse_fields x fd value.
Definition GetAuthenticatorsResponse_Mutable (x : ApiGetAuthenticatorsResponse) (fd : string) : option (ApiGetAuthenticatorsResponse * V GetAuthenticatorsResponse_ref) := Mutable_of GetAuthenticatorsResponse_fields x fd.
Definition GetAuthenticatorsResponse_NewField (fd : string) : option (V GetAuthenticatorsResponse_ref) := NewField_of GetAuthenticatorsResponse_fields fd.
Lemma rsa_GetAuthenticatorsResponse_table : table_ok GetAuthenticatorsResponse_fields ApiGetAuthenticatorsResponse_unknownFields.
Proof. table_laws. Qed.

(** [GetAuthenticatorRequest]. *)
Definition GetAuthenticatorRequest_fields : list (rfield ApiGetAuthenticatorRequest (V no_ref)) := [
  RField "terp.smartaccount.v1beta1.GetAuthenticatorRequest.account" (bytes) ApiGetAuthenticatorRequest_Account (fun v m => MkApiGetAuthenticatorRequest v (ApiGetAuthenticatorRequest_AuthenticatorId m) (ApiGetAuthenticatorRequest_unknownFields m)) KString;
  RField "terp.smartaccount.v1beta1.GetAuthenticatorRequest.authenticator_id" (Z) ApiGetAuthenticatorRequest_AuthenticatorId (fun v m => MkApiGetAuthenticatorRequest (ApiGetAuthenticatorRequest_Account m) v (ApiGetAuthenticatorRequest_unknownFields m)) KUint64].
Definition GetAuthenticatorRequest_Range {S : Type} (x : ApiGetAuthenticatorRequest) (f : string -> V no_ref -> S -> S * bool) (s : S) : S := Range_of GetAuthenticatorRequest_fields x f s.
Definition GetAuthenticatorRequest_Has (x : ApiGetAuthenticatorRequest) (fd : string) : option bool := Has_of GetAuthenticatorRequest_fields x fd.
Definition GetAuthenticatorRequest_Clear (x : ApiGetAuthenticatorRequest) (fd : string) : option ApiGetAuthenticatorRequest := Clear_of GetAuthenticatorRequest_fields x fd.
Definition GetAuthenticatorRequest_Get (x : ApiGetAuthenticatorRequest) (fd : string) : option (V no_ref) := Get_of GetAuthenticatorRequest_fields x fd.
Definition GetAuthenticatorRequest_Set (x : ApiGetAuthenticatorRequest) (fd : string) (value : V no_ref) : option ApiGetAuthenticatorRequest := Set_of GetAuthenticatorRequest_fields x fd value.
Definition GetAuthenticatorRequest_Mutable (x : ApiGetAuthenticatorRequest) (fd : string) : option (ApiGetAuthenticatorRequest * V no_ref) := Mutable_of GetAuthenticatorRequest_fields x fd.
Definition GetAuthenticatorRequest_NewField (fd : string) : option (V no_ref) := NewField_of GetAuthenticatorRequest_fields fd.
Lemma rsa_GetAuthenticatorRequest_table : table_ok GetAuthenticatorRequest_fields ApiGetAuthenticatorRequest_unknownFields.
Proof. table_laws. Qed.

(** [GetAuthenticatorResponse]. *)
Inductive GetAuthenticatorResponse_ref :=
| GetAuthenticatorResponse_AccountAuthenticator_msg (x : option ApiAccountAuthenticator)
| GetAuthenticatorResponse_foreign.
Definition GetAuthenticatorResponse_fields : list (rfield ApiGetAuthenticatorResponse (V GetAuthenticatorResponse_ref)) := [
  RField "terp.smartaccount.v1beta1.GetAuthenticatorResponse.account_authenticator" (option ApiAccountAuthenticator) ApiGetAuthenticatorResponse_AccountAuthenticator (fun v m => MkApiGetAuthenticatorResponse v (ApiGetAuthenticatorResponse_unknownFields m)) (KMsg pZero GetAuthenticatorResponse_AccountAuthenticator_msg (fun c => match c with GetAuthenticatorResponse_AccountAuthenticator_msg v => Some v | _ => None end))].
Definition GetAuthenticatorResponse_Range {S : Type} (x : ApiGetAuthenticatorResponse) (f : string -> V GetAuthenticatorResponse_ref -> S -> S * bool) (s : S) : S := Range_of GetAuthenticatorResponse_fields x f s.
Definition GetAuthenticatorResponse_Has (x : ApiGetAuthenticatorResponse) (fd : string) : option bool := Has_of GetAuthenticatorResponse_fields x fd.
Definition GetAuthenticatorResponse_Clear (x : ApiGetAuthenticatorResponse) (fd : string) : option ApiGetAuthenticatorResponse := Clear_of GetAuthenticatorResponse_fields x fd.
Definition GetAuthenticatorResponse_Get (x : ApiGetAuthenticatorResponse) (fd : string) : option (V GetAuthenticatorResponse_ref) := Get_of GetAuthenticatorResponse_fields x fd.
Definition GetAuthenticatorResponse_Set (x : ApiGetAuthenticatorResponse) (fd : string) (value : V GetAuthenticatorResponse_ref) : option ApiGetAuthenticatorResponse := Set_of GetAuthenticatorResponse_fields x fd value.
Definition GetAuthenticatorResponse_Mutable (x : ApiGetAuthenticatorResponse) (fd : string) : option (ApiGetAuthenticatorResponse * V GetAuthenticatorResponse_ref) := Mutable_of GetAuthenticatorResponse_fields x fd.
Definition GetAuthenticatorResponse_NewField (fd : string) : option (V GetAuthenticatorResponse_ref) := NewField_of GetAuthenticatorResponse_fields fd.
Lemma rsa_GetAuthenticatorResponse_table : table_ok GetAuthenticatorResponse_fields ApiGetAuthenticatorResponse_unknownFields.
Proof. table_laws. Qed.

End Reflection.
