(* ===== verification/ReflTf.v ===== *)
(** * tokenfactory: reflection on the API types

    [api/osmosis/tokenfactory/v1beta1/*.pulsar.go]: the table of the fields of every
    message, and the methods over it. *)

From S2P Require Import Prelude Proto Sdk TokenFactory Wire WireLaws WireTf Pulsar ApiTf Reflect.

Open Scope go_scope.

Section Reflection.
Context {RT : WireRuntime} {V : Type -> Type} {VV : Values V} {VL : ValuesLaws V}.
Context {ApiMetadata ApiCoin : Type} {PMetadata : PulsarMsg ApiMetadata} {PCoin : PulsarMsg ApiCoin}.
Context {OP : Options}.

(** [DenomAuthorityMetadata]. *)
Definition DenomAuthorityMetadata_fields : list (rfield ApiDenomAuthorityMetadata (V no_ref)) := [
  RField "osmosis.tokenfactory.v1beta1.DenomAuthorityMetadata.admin" (bytes) ApiDenomAuthorityMetadata_Admin (fun v m => MkApiDenomAuthorityMetadata v (ApiDenomAuthorityMetadata_unknownFields m)) KString].
Definition DenomAuthorityMetadata_Range {S : Type} (x : ApiDenomAuthorityMetadata) (f : string -> V no_ref -> S -> S * bool) (s : S) : S := Range_of DenomAuthorityMetadata_fields x f s.
Definition DenomAuthorityMetadata_Has (x : ApiDenomAuthorityMetadata) (fd : string) : option bool := Has_of DenomAuthorityMetadata_fields x fd.
Definition DenomAuthorityMetadata_Clear (x : ApiDenomAuthorityMetadata) (fd : string) : option ApiDenomAuthorityMetadata := Clear_of DenomAuthorityMetadata_fields x fd.
Definition DenomAuthorityMetadata_Get (x : ApiDenomAuthorityMetadata) (fd : string) : option (V no_ref) := Get_of DenomAuthorityMetadata_fields x fd.
Definition DenomAuthorityMetadata_Set (x : ApiDenomAuthorityMetadata) (fd : string) (value : V no_ref) : option ApiDenomAuthorityMetadata := Set_of DenomAuthorityMetadata_fields x fd value.
Definition DenomAuthorityMetadata_Mutable (x : ApiDenomAuthorityMetadata) (fd : string) : option (ApiDenomAuthorityMetadata * V no_ref) := Mutable_of DenomAuthorityMetadata_fields x fd.
Definition DenomAuthorityMetadata_NewField (fd : string) : option (V no_ref) := NewField_of DenomAuthorityMetadata_fields fd.
Lemma rtf_DenomAuthorityMetadata_table : table_ok DenomAuthorityMetadata_fields ApiDenomAuthorityMetadata_unknownFields.
Proof. table_laws. Qed.

(** [Params]. *)
Inductive Params_ref :=
| Params_1_list (l : option (list (option ApiCoin)))
| Params_foreign.
Definition Params_fields : list (rfield (ApiParams (ApiCoin := ApiCoin)) (V Params_ref)) := [
  RField "osmosis.tokenfactory.v1beta1.Params.denom_creation_fee" (list (option ApiCoin)) ApiParams_DenomCreationFee (fun v m => MkApiParams v (ApiParams_DenomCreationGasConsume m) (ApiParams_unknownFields m)) (KList Params_1_list (fun c => match c with Params_1_list v => Some v | _ => None end));
  RField "osmosis.tokenfactory.v1beta1.Params.denom_creation_gas_consume" (Z) ApiParams_DenomCreationGasConsume (fun v m => MkApiParams (ApiParams_DenomCreationFee m) v (ApiParams_unknownFields m)) KUint64].
Definition Params_Range {S : Type} (x : (ApiParams (ApiCoin := ApiCoin))) (f : string -> V Params_ref -> S -> S * bool) (s : S) : S := Range_of Params_fields x f s.
Definition Params_Has (x : (ApiParams (ApiCoin := ApiCoin))) (fd : string) : option bool := Has_of Params_fields x fd.
Definition Params_Clear (x : (ApiParams (ApiCoin := ApiCoin))) (fd : string) : option (ApiParams (ApiCoin := ApiCoin)) := Clear_of Params_fields x fd.
Definition Params_Get (x : (ApiParams (ApiCoin := ApiCoin))) (fd : string) : option (V Params_ref) := Get_of Params_fields x fd.
Definition Params_Set (x : (ApiParams (ApiCoin := ApiCoin))) (fd : string) (value : V Params_ref) : option (ApiParams (ApiCoin := ApiCoin)) := Set_of Params_fields x fd value.
Definition Params_Mutable (x : (ApiParams (ApiCoin := ApiCoin))) (fd : string) : option ((ApiParams (ApiCoin := ApiCoin)) * V Params_ref) := Mutable_of Params_fields x fd.
Definition Params_NewField (fd : string) : option (V Params_ref) := NewField_of Params_fields fd.
Lemma rtf_Params_table : table_ok Params_fields ApiParams_unknownFields.
Proof. table_laws. Qed.

(** [GenesisDenom]. *)
Inductive GenesisDenom_ref :=
| GenesisDenom_DenomAuthorityMetadata_msg (x : option ApiDenomAuthorityMetadata)
| GenesisDenom_foreign.
Definition GenesisDenom_fields : list (rfield ApiGenesisDenom (V GenesisDenom_ref)) := [
  RField "osmosis.tokenfactory.v1beta1.GenesisDenom.denom" (bytes) ApiGenesisDenom_Denom (fun v m => MkApiGenesisDenom v (ApiGenesisDenom_AuthorityMetadata m) (ApiGenesisDenom_unknownFields m)) KString;
  RField "osmosis.tokenfactory.v1beta1.GenesisDenom.authority_metadata" (option ApiDenomAuthorityMetadata) ApiGenesisDenom_AuthorityMetadata (fun v m => MkApiGenesisDenom (ApiGenesisDenom_Denom m) v (ApiGenesisDenom_unknownFields m)) (KMsg pZero GenesisDenom_DenomAuthorityMetadata_msg (fun c => match c with GenesisDenom_DenomAuthorityMetadata_msg v => Some v | _ => None end))].
Definition GenesisDenom_Range {S : Type} (x : ApiGenesisDenom) (f : string -> V GenesisDenom_ref -> S -> S * bool) (s : S) : S := Range_of GenesisDenom_fields x f s.
Definition GenesisDenom_Has (x : ApiGenesisDenom) (fd : string) : option bool := Has_of GenesisDenom_fields x fd.
Definition GenesisDenom_Clear (x : ApiGenesisDenom) (fd : string) : option ApiGenesisDenom := Clear_of GenesisDenom_fields x fd.
Definition GenesisDenom_Get (x : ApiGenesisDenom) (fd : string) : option (V GenesisDenom_ref) := Get_of GenesisDenom_fields x fd.
Definition GenesisDenom_Set (x : ApiGenesisDenom) (fd : string) (value : V GenesisDenom_ref) : option ApiGenesisDenom := Set_of GenesisDenom_fields x fd value.
Definition GenesisDenom_Mutable (x : ApiGenesisDenom) (fd : string) : option (ApiGenesisDenom * V GenesisDenom_ref) := Mutable_of GenesisDenom_fields x fd.
Definition GenesisDenom_NewField (fd : string) : option (V GenesisDenom_ref) := NewField_of GenesisDenom_fields fd.
Lemma rtf_GenesisDenom_table : table_ok GenesisDenom_fields ApiGenesisDenom_unknownFields.
Proof. table_laws. Qed.

(** [GenesisState]. *)
Inductive GenesisState_ref :=
| GenesisState_Params_msg (x : option (ApiParams (ApiCoin := ApiCoin)))
| GenesisState_2_list (l : option (list (option ApiGenesisDenom)))
| GenesisState_foreign.
Definition GenesisState_fields : list (rfield (ApiGenesisState (ApiCoin := ApiCoin)) (V GenesisState_ref)) := [
  RField "osmosis.tokenfactory.v1beta1.GenesisState.params" (option (ApiParams (ApiCoin := ApiCoin))) ApiGenesisState_Params (fun v m => MkApiGenesisState v (ApiGenesisState_FactoryDenoms m) (ApiGenesisState_unknownFields m)) (KMsg pZero GenesisState_Params_msg (fun c => match c with GenesisState_Params_msg v => Some v | _ => None end));
  RField "osmosis.tokenfactory.v1beta1.GenesisState.factory_denoms" (list (option ApiGenesisDenom)) ApiGenesisState_FactoryDenoms (fun v m => MkApiGenesisState (ApiGenesisState_Params m) v (ApiGenesisState_unknownFields m)) (KList GenesisState_2_list (fun c => match c with GenesisState_2_list v => Some v | _ => None end))].
Definition GenesisState_Range {S : Type} (x : (ApiGenesisState (ApiCoin := ApiCoin))) (f : string -> V GenesisState_ref -> S -> S * bool) (s : S) : S := Range_of GenesisState_fields x f s.
Definition GenesisState_Has (x : (ApiGenesisState (ApiCoin := ApiCoin))) (fd : string) : option bool := Has_of GenesisState_fields x fd.
Definition GenesisState_Clear (x : (ApiGenesisState (ApiCoin := ApiCoin))) (fd : string) : option (ApiGenesisState (ApiCoin := ApiCoin)) := Clear_of GenesisState_fields x fd.
Definition GenesisState_Get (x : (ApiGenesisState (ApiCoin := ApiCoin))) (fd : string) : option (V GenesisState_ref) := Get_of GenesisState_fields x fd.
Definition GenesisState_Set (x : (ApiGenesisState (ApiCoin := ApiCoin))) (fd : string) (value : V GenesisState_ref) : option (ApiGenesisState (ApiCoin := ApiCoin)) := Set_of GenesisState_fields x fd value.
Definition GenesisState_Mutable (x : (ApiGenesisState (ApiCoin := ApiCoin))) (fd : string) : option ((ApiGenesisState (ApiCoin := ApiCoin)) * V GenesisState_ref) := Mutable_of GenesisState_fields x fd.
Definition GenesisState_NewField (fd : string) : option (V GenesisState_ref) := NewField_of GenesisState_fields fd.
Lemma rtf_GenesisState_table : table_ok GenesisState_fields ApiGenesisState_unknownFields.
Proof. table_laws. Qed.

(** [MsgCreateDenom]. *)
Definition MsgCreateDenom_fields : list (rfield ApiMsgCreateDenom (V no_ref)) := [
  RField "osmosis.tokenfactory.v1beta1.MsgCreateDenom.sender" (bytes) ApiMsgCreateDenom_Sender (fun v m => MkApiMsgCreateDenom v (ApiMsgCreateDenom_Subdenom m) (ApiMsgCreateDenom_unknownFields m)) KString;
  RField "osmosis.tokenfactory.v1beta1.MsgCreateDenom.subdenom" (bytes) ApiMsgCreateDenom_Subdenom (fun v m => MkApiMsgCreateDenom (ApiMsgCreateDenom_Sender m) v (ApiMsgCreateDenom_unknownFields m)) KString].
Definition MsgCreateDenom_Range {S : Type} (x : ApiMsgCreateDenom) (f : string -> V no_ref -> S -> S * bool) (s : S) : S := Range_of MsgCreateDenom_fields x f s.
Definition MsgCreateDenom_Has (x : ApiMsgCreateDenom) (fd : string) : option bool := Has_of MsgCreateDenom_fields x fd.
Definition MsgCreateDenom_Clear (x : ApiMsgCreateDenom) (fd : string) : option ApiMsgCreateDenom := Clear_of MsgCreateDenom_fields x fd.
Definition MsgCreateDenom_Get (x : ApiMsgCreateDenom) (fd : string) : option (V no_ref) := Get_of MsgCreateDenom_fields x fd.
Definition MsgCreateDenom_Set (x : ApiMsgCreateDenom) (fd : string) (value : V no_ref) : option ApiMsgCreateDenom := Set_of MsgCreateDenom_fields x fd value.
Definition MsgCreateDenom_Mutable (x : ApiMsgCreateDenom) (fd : string) : option (ApiMsgCreateDenom * V no_ref) := Mutable_of MsgCreateDenom_fields x fd.
Definition MsgCreateDenom_NewField (fd : string) : option (V no_ref) := NewField_of MsgCreateDenom_fields fd.
Lemma rtf_MsgCreateDenom_table : table_ok MsgCreateDenom_fields ApiMsgCreateDenom_unknownFields.
Proof. table_laws. Qed.

(** [MsgCreateDenomResponse]. *)
Definition MsgCreateDenomResponse_fields : list (rfield ApiMsgCreateDenomResponse (V no_ref)) := [
  RField "osmosis.tokenfactory.v1beta1.MsgCreateDenomResponse.new_token_denom" (bytes) ApiMsgCreateDenomResponse_NewTokenDenom (fun v m => MkApiMsgCreateDenomResponse v (ApiMsgCreateDenomResponse_unknownFields m)) KString].
Definition MsgCreateDenomResponse_Range {S : Type} (x : ApiMsgCreateDenomResponse) (f : string -> V no_ref -> S -> S * bool) (s : S) : S := Range_of MsgCreateDenomResponse_fields x f s.
Definition MsgCreateDenomResponse_Has (x : ApiMsgCreateDenomResponse) (fd : string) : option bool := Has_of MsgCreateDenomResponse_fields x fd.
Definition MsgCreateDenomResponse_Clear (x : ApiMsgCreateDenomResponse) (fd : string) : option ApiMsgCreateDenomResponse := Clear_of MsgCreateDenomResponse_fields x fd.
Definition MsgCreateDenomResponse_Get (x : ApiMsgCreateDenomResponse) (fd : string) : option (V no_ref) := Get_of MsgCreateDenomResponse_fields x fd.
Definition MsgCreateDenomResponse_Set (x : ApiMsgCreateDenomResponse) (fd : string) (value : V no_ref) : option ApiMsgCreateDenomResponse := Set_of MsgCreateDenomResponse_fields x fd value.
Definition MsgCreateDenomResponse_Mutable (x : ApiMsgCreateDenomResponse) (fd : string) : option (ApiMsgCreateDenomResponse * V no_ref) := Mutable_of MsgCreateDenomResponse_fields x fd.
Definition MsgCreateDenomResponse_NewField (fd : string) : option (V no_ref) := NewField_of MsgCreateDenomResponse_fields fd.
Lemma rtf_MsgCreateDenomResponse_table : table_ok MsgCreateDenomResponse_fields ApiMsgCreateDenomResponse_unknownFields.
Proof. table_laws. Qed.

(** [MsgMint]. *)
Inductive MsgMint_ref :=
| MsgMint_Coin_msg (x : option ApiCoin)
| MsgMint_foreign.
Definition MsgMint_fields : list (rfield (ApiMsgMint (ApiCoin := ApiCoin)) (V MsgMint_ref)) := [
  RField "osmosis.tokenfactory.v1beta1.MsgMint.sender" (bytes) ApiMsgMint_Sender (fun v m => MkApiMsgMint v (ApiMsgMint_Amount m) (ApiMsgMint_MintToAddress m) (ApiMsgMint_unknownFields m)) KString;
  RField "osmosis.tokenfactory.v1beta1.MsgMint.amount" (option ApiCoin) ApiMsgMint_Amount (fun v m => MkApiMsgMint (ApiMsgMint_Sender m) v (ApiMsgMint_MintToAddress m) (ApiMsgMint_unknownFields m)) (KMsg pZero MsgMint_Coin_msg (fun c => match c with MsgMint_Coin_msg v => Some v | _ => None end));
  RField "osmosis.tokenfactory.v1beta1.MsgMint.mintToAddress" (bytes) ApiMsgMint_MintToAddress (fun v m => MkApiMsgMint (ApiMsgMint_Sender m) (ApiMsgMint_Amount m) v (ApiMsgMint_unknownFields m)) KString].
Definition MsgMint_Range {S : Type} (x : (ApiMsgMint (ApiCoin := ApiCoin))) (f : string -> V MsgMint_ref -> S -> S * bool) (s : S) : S := Range_of MsgMint_fields x f s.
Definition MsgMint_Has (x : (ApiMsgMint (ApiCoin := ApiCoin))) (fd : string) : option bool := Has_of MsgMint_fields x fd.
Definition MsgMint_Clear (x : (ApiMsgMint (ApiCoin := ApiCoin))) (fd : string) : option (ApiMsgMint (ApiCoin := ApiCoin)) := Clear_of MsgMint_fields x fd.
Definition MsgMint_Get (x : (ApiMsgMint (ApiCoin := ApiCoin))) (fd : string) : option (V MsgMint_ref) := Get_of MsgMint_fields x fd.
Definition MsgMint_Set (x : (ApiMsgMint (ApiCoin := ApiCoin))) (fd : string) (value : V MsgMint_ref) : option (ApiMsgMint (ApiCoin := ApiCoin)) := Set_of MsgMint_fields x fd value.
Definition MsgMint_Mutable (x : (ApiMsgMint (ApiCoin := ApiCoin))) (fd : string) : option ((ApiMsgMint (ApiCoin := ApiCoin)) * V MsgMint_ref) := Mutable_of MsgMint_fields x fd.
Definition MsgMint_NewField (fd : string) : option (V MsgMint_ref) := NewField_of MsgMint_fields fd.
Lemma rtf_MsgMint_table : table_ok MsgMint_fields ApiMsgMint_unknownFields.
Proof. table_laws. Qed.

(** [MsgBurn]. *)
Inductive MsgBurn_ref :=
| MsgBurn_Coin_msg (x : option ApiCoin)
| MsgBurn_foreign.
Definition MsgBurn_fields : list (rfield (ApiMsgBurn (ApiCoin := ApiCoin)) (V MsgBurn_ref)) := [
  RField "osmosis.tokenfactory.v1beta1.MsgBurn.sender" (bytes) ApiMsgBurn_Sender (fun v m => MkApiMsgBurn v (ApiMsgBurn_Amount m) (ApiMsgBurn_BurnFromAddress m) (ApiMsgBurn_unknownFields m)) KString;
  RField "osmosis.tokenfactory.v1beta1.MsgBurn.amount" (option ApiCoin) ApiMsgBurn_Amount (fun v m => MkApiMsgBurn (ApiMsgBurn_Sender m) v (ApiMsgBurn_BurnFromAddress m) (ApiMsgBurn_unknownFields m)) (KMsg pZero MsgBurn_Coin_msg (fun c => match c with MsgBurn_Coin_msg v => Some v | _ => None end));
  RField "osmosis.tokenfactory.v1beta1.MsgBurn.burnFromAddress" (bytes) ApiMsgBurn_BurnFromAddress (fun v m => MkApiMsgBurn (ApiMsgBurn_Sender m) (ApiMsgBurn_Amount m) v (ApiMsgBurn_unknownFields m)) KString].
Definition MsgBurn_Range {S : Type} (x : (ApiMsgBurn (ApiCoin := ApiCoin))) (f : string -> V MsgBurn_ref -> S -> S * bool) (s : S) : S := Range_of MsgBurn_fields x f s.
Definition MsgBurn_Has (x : (ApiMsgBurn (ApiCoin := ApiCoin))) (fd : string) : option bool := Has_of MsgBurn_fields x fd.
Definition MsgBurn_Clear (x : (ApiMsgBurn (ApiCoin := ApiCoin))) (fd : string) : option (ApiMsgBurn (ApiCoin := ApiCoin)) := Clear_of MsgBurn_fields x fd.
Definition MsgBurn_Get (x : (ApiMsgBurn (ApiCoin := ApiCoin))) (fd : string) : option (V MsgBurn_ref) := Get_of MsgBurn_fields x fd.
Definition MsgBurn_Set (x : (ApiMsgBurn (ApiCoin := ApiCoin))) (fd : string) (value : V MsgBurn_ref) : option (ApiMsgBurn (ApiCoin := ApiCoin)) := Set_of MsgBurn_fields x fd value.
Definition MsgBurn_Mutable (x : (ApiMsgBurn (ApiCoin := ApiCoin))) (fd : string) : option ((ApiMsgBurn (ApiCoin := ApiCoin)) * V MsgBurn_ref) := Mutable_of MsgBurn_fields x fd.
Definition MsgBurn_NewField (fd : string) : option (V MsgBurn_ref) := NewField_of MsgBurn_fields fd.
Lemma rtf_MsgBurn_table : table_ok MsgBurn_fields ApiMsgBurn_unknownFields.
Proof. table_laws. Qed.

(** [MsgChangeAdmin]. *)
Definition MsgChangeAdmin_fields : list (rfield ApiMsgChangeAdmin (V no_ref)) := [
  RField "osmosis.tokenfactory.v1beta1.MsgChangeAdmin.sender" (bytes) ApiMsgChangeAdmin_Sender (fun v m => MkApiMsgChangeAdmin v (ApiMsgChangeAdmin_Denom m) (ApiMsgChangeAdmin_NewAdmin m) (ApiMsgChangeAdmin_unknownFields m)) KString;
  RField "osmosis.tokenfactory.v1beta1.MsgChangeAdmin.denom" (bytes) ApiMsgChangeAdmin_Denom (fun v m => MkApiMsgChangeAdmin (ApiMsgChangeAdmin_Sender m) v (ApiMsgChangeAdmin_NewAdmin m) (ApiMsgChangeAdmin_unknownFields m)) KString;
  RField "osmosis.tokenfactory.v1beta1.MsgChangeAdmin.new_admin" (bytes) ApiMsgChangeAdmin_NewAdmin (fun v m => MkApiMsgChangeAdmin (ApiMsgChangeAdmin_Sender m) (ApiMsgChangeAdmin_Denom m) v (ApiMsgChangeAdmin_unknownFields m)) KString].
Definition MsgChangeAdmin_Range {S : Type} (x : ApiMsgChangeAdmin) (f : string -> V no_ref -> S -> S * bool) (s : S) : S := Range_of MsgChangeAdmin_fields x f s.
Definition MsgChangeAdmin_Has (x : ApiMsgChangeAdmin) (fd : string) : option bool := Has_of MsgChangeAdmin_fields x fd.
Definition MsgChangeAdmin_Clear (x : ApiMsgChangeAdmin) (fd : string) : option ApiMsgChangeAdmin := Clear_of MsgChangeAdmin_fields x fd.
Definition MsgChangeAdmin_Get (x : ApiMsgChangeAdmin) (fd : string) : option (V no_ref) := Get_of MsgChangeAdmin_fields x fd.
Definition MsgChangeAdmin_Set (x : ApiMsgChangeAdmin) (fd : string) (value : V no_ref) : option ApiMsgChangeAdmin := Set_of MsgChangeAdmin_fields x fd value.
Definition MsgChangeAdmin_Mutable (x : ApiMsgChangeAdmin) (fd : string) : option (ApiMsgChangeAdmin * V no_ref) := Mutable_of MsgChangeAdmin_fields x fd.
Definition MsgChangeAdmin_NewField (fd : string) : option (V no_ref) := NewField_of MsgChangeAdmin_fields fd.
Lemma rtf_MsgChangeAdmin_table : table_ok MsgChangeAdmin_fields ApiMsgChangeAdmin_unknownFields.
Proof. table_laws. Qed.

(** [MsgSetDenomMetadata]. *)
Inductive MsgSetDenomMetadata_ref :=
| MsgSetDenomMetadata_Metadata_msg (x : option ApiMetadata)
| MsgSetDenomMetadata_foreign.
Definition MsgSetDenomMetadata_fields : list (rfield (ApiMsgSetDenomMetadata (ApiMetadata := ApiMetadata)) (V MsgSetDenomMetadata_ref)) := [
  RField "osmosis.tokenfactory.v1beta1.MsgSetDenomMetadata.sender" (bytes) ApiMsgSetDenomMetadata_Sender (fun v m => MkApiMsgSetDenomMetadata v (ApiMsgSetDenomMetadata_Metadata m) (ApiMsgSetDenomMetadata_unknownFields m)) KString;
  RField "osmosis.tokenfactory.v1beta1.MsgSetDenomMetadata.metadata" (option ApiMetadata) ApiMsgSetDenomMetadata_Metadata (fun v m => MkApiMsgSetDenomMetadata (ApiMsgSetDenomMetadata_Sender m) v (ApiMsgSetDenomMetadata_unknownFields m)) (KMsg pZero MsgSetDenomMetadata_Metadata_msg (fun c => match c with MsgSetDenomMetadata_Metadata_msg v => Some v | _ => None end))].
Definition MsgSetDenomMetadata_Range {S : Type} (x : (ApiMsgSetDenomMetadata (ApiMetadata := ApiMetadata))) (f : string -> V MsgSetDenomMetadata_ref -> S -> S * bool) (s : S) : S := Range_of MsgSetDenomMetadata_fields x f s.
Definition MsgSetDenomMetadata_Has (x : (ApiMsgSetDenomMetadata (ApiMetadata := ApiMetadata))) (fd : string) : option bool := Has_of MsgSetDenomMetadata_fields x fd.
Definition MsgSetDenomMetadata_Clear (x : (ApiMsgSetDenomMetadata (ApiMetadata := ApiMetadata))) (fd : string) : option (ApiMsgSetDenomMetadata (ApiMetadata := ApiMetadata)) := Clear_of MsgSetDenomMetadata_fields x fd.
Definition MsgSetDenomMetadata_Get (x : (ApiMsgSetDenomMetadata (ApiMetadata := ApiMetadata))) (fd : string) : option (V MsgSetDenomMetadata_ref) := Get_of MsgSetDenomMetadata_fields x fd.
Definition MsgSetDenomMetadata_Set (x : (ApiMsgSetDenomMetadata (ApiMetadata := ApiMetadata))) (fd : string) (value : V MsgSetDenomMetadata_ref) : option (ApiMsgSetDenomMetadata (ApiMetadata := ApiMetadata)) := Set_of MsgSetDenomMetadata_fields x fd value.
Definition MsgSetDenomMetadata_Mutable (x : (ApiMsgSetDenomMetadata (ApiMetadata := ApiMetadata))) (fd : string) : option ((ApiMsgSetDenomMetadata (ApiMetadata := ApiMetadata)) * V MsgSetDenomMetadata_ref) := Mutable_of MsgSetDenomMetadata_fields x fd.
Definition MsgSetDenomMetadata_NewField (fd : string) : option (V MsgSetDenomMetadata_ref) := NewField_of MsgSetDenomMetadata_fields fd.
Lemma rtf_MsgSetDenomMetadata_table : table_ok MsgSetDenomMetadata_fields ApiMsgSetDenomMetadata_unknownFields.
Proof. table_laws. Qed.

(** [MsgForceTransfer]. *)
Inductive MsgForceTransfer_ref :=
| MsgForceTransfer_Coin_msg (x : option ApiCoin)
| MsgForceTransfer_foreign.
Definition MsgForceTransfer_fields : list (rfield (ApiMsgForceTransfer (ApiCoin := ApiCoin)) (V MsgForceTransfer_ref)) := [
  RField "osmosis.tokenfactory.v1beta1.MsgForceTransfer.sender" (bytes) ApiMsgForceTransfer_Sender (fun v m => MkApiMsgForceTransfer v (ApiMsgForceTransfer_Amount m) (ApiMsgForceTransfer_TransferFromAddress m) (ApiMsgForceTransfer_TransferToAddress m) (ApiMsgForceTransfer_unknownFields m)) KString;
  RField "osmosis.tokenfactory.v1beta1.MsgForceTransfer.amount" (option ApiCoin) ApiMsgForceTransfer_Amount (fun v m => MkApiMsgForceTransfer (ApiMsgForceTransfer_Sender m) v (ApiMsgForceTransfer_TransferFromAddress m) (ApiMsgForceTransfer_TransferToAddress m) (ApiMsgForceTransfer_unknownFields m)) (KMsg pZero MsgForceTransfer_Coin_msg (fun c => match c with MsgForceTransfer_Coin_msg v => Some v | _ => None end));
  RField "osmosis.tokenfactory.v1beta1.MsgForceTransfer.transferFromAddress" (bytes) ApiMsgForceTransfer_TransferFromAddress (fun v m => MkApiMsgForceTransfer (ApiMsgForceTransfer_Sender m) (ApiMsgForceTransfer_Amount m) v (ApiMsgForceTransfer_TransferToAddress m) (ApiMsgForceTransfer_unknownFields m)) KString;
  RField "osmosis.tokenfactory.v1beta1.MsgForceTransfer.transferToAddress" (bytes) ApiMsgForceTransfer_TransferToAddress (fun v m => MkApiMsgForceTransfer (ApiMsgForceTransfer_Sender m) (ApiMsgForceTransfer_Amount m) (ApiMsgForceTransfer_TransferFromAddress m) v (ApiMsgForceTransfer_unknownFields m)) KString].
Definition MsgForceTransfer_Range {S : Type} (x : (ApiMsgForceTransfer (ApiCoin := ApiCoin))) (f : string -> V MsgForceTransfer_ref -> S -> S * bool) (s : S) : S := Range_of MsgForceTransfer_fields x f s.
Definition MsgForceTransfer_Has (x : (ApiMsgForceTransfer (ApiCoin := ApiCoin))) (fd : string) : option bool := Has_of MsgForceTransfer_fields x fd.
Definition MsgForceTransfer_Clear (x : (ApiMsgForceTransfer (ApiCoin := ApiCoin))) (fd : string) : option (ApiMsgForceTransfer (ApiCoin := ApiCoin)) := Clear_of MsgForceTransfer_fields x fd.
Definition MsgForceTransfer_Get (x : (ApiMsgForceTransfer (ApiCoin := ApiCoin))) (fd : string) : option (V MsgForceTransfer_ref) := Get_of MsgForceTransfer_fields x fd.
Definition MsgForceTransfer_Set (x : (ApiMsgForceTransfer (ApiCoin := ApiCoin))) (fd : string) (value : V MsgForceTransfer_ref) : option (ApiMsgForceTransfer (ApiCoin := ApiCoin)) := Set_of MsgForceTransfer_fields x fd value.
Definition MsgForceTransfer_Mutable (x : (ApiMsgForceTransfer (ApiCoin := ApiCoin))) (fd : string) : option ((ApiMsgForceTransfer (ApiCoin := ApiCoin)) * V MsgForceTransfer_ref) := Mutable_of MsgForceTransfer_fields x fd.
Definition MsgForceTransfer_NewField (fd : string) : option (V MsgForceTransfer_ref) := NewField_of MsgForceTransfer_fields fd.
Lemma rtf_MsgForceTransfer_table : table_ok MsgForceTransfer_fields ApiMsgForceTransfer_unknownFields.
Proof. table_laws. Qed.

(** [MsgUpdateParams]. *)
Inductive MsgUpdateParams_ref :=
| MsgUpdateParams_Params_msg (x : option (ApiParams (ApiCoin := ApiCoin)))
| MsgUpdateParams_foreign.
Definition MsgUpdateParams_fields : list (rfield (ApiMsgUpdateParams (ApiCoin := ApiCoin)) (V MsgUpdateParams_ref)) := [
  RField "osmosis.tokenfactory.v1beta1.MsgUpdateParams.authority" (bytes) ApiMsgUpdateParams_Authority (fun v m => MkApiMsgUpdateParams v (ApiMsgUpdateParams_Params m) (ApiMsgUpdateParams_unknownFields m)) KString;
  RField "osmosis.tokenfactory.v1beta1.MsgUpdateParams.params" (option (ApiParams (ApiCoin := ApiCoin))) ApiMsgUpdateParams_Params (fun v m => MkApiMsgUpdateParams (ApiMsgUpdateParams_Authority m) v (ApiMsgUpdateParams_unknownFields m)) (KMsg pZero MsgUpdateParams_Params_msg (fun c => match c with MsgUpdateParams_Params_msg v => Some v | _ => None end))].
Definition MsgUpdateParams_Range {S : Type} (x : (ApiMsgUpdateParams (ApiCoin := ApiCoin))) (f : string -> V MsgUpdateParams_ref -> S -> S * bool) (s : S) : S := Range_of MsgUpdateParams_fields x f s.
Definition MsgUpdateParams_Has (x : (ApiMsgUpdateParams (ApiCoin := ApiCoin))) (fd : string) : option bool := Has_of MsgUpdateParams_fields x fd.
Definition MsgUpdateParams_Clear (x : (ApiMsgUpdateParams (ApiCoin := ApiCoin))) (fd : string) : option (ApiMsgUpdateParams (ApiCoin := ApiCoin)) := Clear_of MsgUpdateParams_fields x fd.
Definition MsgUpdateParams_Get (x : (ApiMsgUpdateParams (ApiCoin := ApiCoin))) (fd : string) : option (V MsgUpdateParams_ref) := Get_of MsgUpdateParams_fields x fd.
Definition MsgUpdateParams_Set (x : (ApiMsgUpdateParams (ApiCoin := ApiCoin))) (fd : string) (value : V MsgUpdateParams_ref) : option (ApiMsgUpdateParams (ApiCoin := ApiCoin)) := Set_of MsgUpdateParams_fields x fd value.
Definition MsgUpdateParams_Mutable (x : (ApiMsgUpdateParams (ApiCoin := ApiCoin))) (fd : string) : option ((ApiMsgUpdateParams (ApiCoin := ApiCoin)) * V MsgUpdateParams_ref) := Mutable_of MsgUpdateParams_fields x fd.
Definition MsgUpdateParams_NewField (fd : string) : option (V MsgUpdateParams_ref) := NewField_of MsgUpdateParams_fields fd.
Lemma rtf_MsgUpdateParams_table : table_ok MsgUpdateParams_fields ApiMsgUpdateParams_unknownFields.
Proof. table_laws. Qed.

(** [QueryParamsResponse]. *)
Inductive QueryParamsResponse_ref :=
| QueryParamsResponse_Params_msg (x : option (ApiParams (ApiCoin := ApiCoin)))
| QueryParamsResponse_foreign.
Definition QueryParamsResponse_fields : list (rfield (ApiQueryParamsResponse (ApiCoin := ApiCoin)) (V QueryParamsResponse_ref)) := [
  RField "osmosis.tokenfactory.v1beta1.QueryParamsResponse.params" (option (ApiParams (ApiCoin := ApiCoin))) ApiQueryParamsResponse_Params (fun v m => MkApiQueryParamsResponse v (ApiQueryParamsResponse_unknownFields m)) (KMsg pZero QueryParamsResponse_Params_msg (fun c => match c with QueryParamsResponse_Params_msg v => Some v | _ => None end))].
Definition QueryParamsResponse_Range {S : Type} (x : (ApiQueryParamsResponse (ApiCoin := ApiCoin))) (f : string -> V QueryParamsResponse_ref -> S -> S * bool) (s : S) : S := Range_of QueryParamsResponse_fields x f s.
Definition QueryParamsResponse_Has (x : (ApiQueryParamsResponse (ApiCoin := ApiCoin))) (fd : string) : option bool := Has_of QueryParamsResponse_fields x fd.
Definition QueryParamsResponse_Clear (x : (ApiQueryParamsResponse (ApiCoin := ApiCoin))) (fd : string) : option (ApiQueryParamsResponse (ApiCoin := ApiCoin)) := Clear_of QueryParamsResponse_fields x fd.
Definition QueryParamsResponse_Get (x : (ApiQueryParamsResponse (ApiCoin := ApiCoin))) (fd : string) : option (V QueryParamsResponse_ref) := Get_of QueryParamsResponse_fields x fd.
Definition QueryParamsResponse_Set (x : (ApiQueryParamsResponse (ApiCoin := ApiCoin))) (fd : string) (value : V QueryParamsResponse_ref) : option (ApiQueryParamsResponse (ApiCoin := ApiCoin)) := Set_of QueryParamsResponse_fields x fd value.
Definition QueryParamsResponse_Mutable (x : (ApiQueryParamsResponse (ApiCoin := ApiCoin))) (fd : string) : option ((ApiQueryParamsResponse (ApiCoin := ApiCoin)) * V QueryParamsResponse_ref) := Mutable_of QueryParamsResponse_fields x fd.
Definition QueryParamsResponse_NewField (fd : string) : option (V QueryParamsResponse_ref) := NewField_of QueryParamsResponse_fields fd.
Lemma rtf_QueryParamsResponse_table : table_ok QueryParamsResponse_fields ApiQueryParamsResponse_unknownFields.
Proof. table_laws. Qed.

(** [QueryDenomAuthorityMetadataRequest]. *)
Definition QueryDenomAuthorityMetadataRequest_fields : list (rfield ApiQueryDenomAuthorityMetadataRequest (V no_ref)) := [
  RField "osmosis.tokenfactory.v1beta1.QueryDenomAuthorityMetadataRequest.denom" (bytes) ApiQueryDenomAuthorityMetadataRequest_Denom (fun v m => MkApiQueryDenomAuthorityMetadataRequest v (ApiQueryDenomAuthorityMetadataRequest_unknownFields m)) KString].
Definition QueryDenomAuthorityMetadataRequest_Range {S : Type} (x : ApiQueryDenomAuthorityMetadataRequest) (f : string -> V no_ref -> S -> S * bool) (s : S) : S := Range_of QueryDenomAuthorityMetadataRequest_fields x f s.
Definition QueryDenomAuthorityMetadataRequest_Has (x : ApiQueryDenomAuthorityMetadataRequest) (fd : string) : option bool := Has_of QueryDenomAuthorityMetadataRequest_fields x fd.
Definition QueryDenomAuthorityMetadataRequest_Clear (x : ApiQueryDenomAuthorityMetadataRequest) (fd : string) : option ApiQueryDenomAuthorityMetadataRequest := Clear_of QueryDenomAuthorityMetadataRequest_fields x fd.
Definition QueryDenomAuthorityMetadataRequest_Get (x : ApiQueryDenomAuthorityMetadataRequest) (fd : string) : option (V no_ref) := Get_of QueryDenomAuthorityMetadataRequest_fields x fd.
Definition QueryDenomAuthorityMetadataRequest_Set (x : ApiQueryDenomAuthorityMetadataRequest) (fd : string) (value : V no_ref) : option ApiQueryDenomAuthorityMetadataRequest := Set_of QueryDenomAuthorityMetadataRequest_fields x fd value.
Definition QueryDenomAuthorityMetadataRequest_Mutable (x : ApiQueryDenomAuthorityMetadataRequest) (fd : string) : option (ApiQueryDenomAuthorityMetadataRequest * V no_ref) := Mutable_of QueryDenomAuthorityMetadataRequest_fields x fd.
Definition QueryDenomAuthorityMetadataRequest_NewField (fd : string) : option (V no_ref) := NewField_of QueryDenomAuthorityMetadataRequest_fields fd.
Lemma rtf_QueryDenomAuthorityMetadataRequest_table : table_ok QueryDenomAuthorityMetadataRequest_fields ApiQueryDenomAuthorityMetadataRequest_unknownFields.
Proof. table_laws. Qed.

(** [QueryDenomAuthorityMetadataResponse]. *)
Inductive QueryDenomAuthorityMetadataResponse_ref :=
| QueryDenomAuthorityMetadataResponse_DenomAuthorityMetadata_msg (x : option ApiDenomAuthorityMetadata)
| QueryDenomAuthorityMetadataResponse_foreign.
Definition QueryDenomAuthorityMetadataResponse_fields : list (rfield ApiQueryDenomAuthorityMetadataResponse (V QueryDenomAuthorityMetadataResponse_ref)) := [
  RField "osmosis.tokenfactory.v1beta1.QueryDenomAuthorityMetadataResponse.authority_metadata" (option ApiDenomAuthorityMetadata) ApiQueryDenomAuthorityMetadataResponse_AuthorityMetadata (fun v m => MkApiQueryDenomAuthorityMetadataResponse v (ApiQueryDenomAuthorityMetadataResponse_unknownFields m)) (KMsg pZero QueryDenomAuthorityMetadataResponse_DenomAuthorityMetadata_msg (fun c => match c with QueryDenomAuthorityMetadataResponse_DenomAuthorityMetadata_msg v => Some v | _ => None end))].
Definition QueryDenomAuthorityMetadataResponse_Range {S : Type} (x : ApiQueryDenomAuthorityMetadataResponse) (f : string -> V QueryDenomAuthorityMetadataResponse_ref -> S -> S * bool) (s : S) : S := Range_of QueryDenomAuthorityMetadataResponse_fields x f s.
Definition QueryDenomAuthorityMetadataResponse_Has (x : ApiQueryDenomAuthorityMetadataResponse) (fd : string) : option bool := Has_of QueryDenomAuthorityMetadataResponse_fields x fd.
Definition QueryDenomAuthorityMetadataResponse_Clear (x : ApiQueryDenomAuthorityMetadataResponse) (fd : string) : option ApiQueryDenomAuthorityMetadataResponse := Clear_of QueryDenomAuthorityMetadataResponse_fields x fd.
Definition QueryDenomAuthorityMetadataResponse_Get (x : ApiQueryDenomAuthorityMetadataResponse) (fd : string) : option (V QueryDenomAuthorityMetadataResponse_ref) := Get_of QueryDenomAuthorityMetadataResponse_fields x fd.
Definition QueryDenomAuthorityMetadataResponse_Set (x : ApiQueryDenomAuthorityMetadataResponse) (fd : string) (value : V QueryDenomAuthorityMetadataResponse_ref) : option ApiQueryDenomAuthorityMetadataResponse := Set_of QueryDenomAuthorityMetadataResponse_fields x fd value.
Definition QueryDenomAuthorityMetadataResponse_Mutable (x : ApiQueryDenomAuthorityMetadataResponse) (fd : string) : option (ApiQueryDenomAuthorityMetadataResponse * V QueryDenomAuthorityMetadataResponse_ref) := Mutable_of QueryDenomAuthorityMetadataResponse_fields x fd.
Definition QueryDenomAuthorityMetadataResponse_NewField (fd : string) : option (V QueryDenomAuthorityMetadataResponse_ref) := NewField_of QueryDenomAuthorityMetadataResponse_fields fd.
Lemma rtf_QueryDenomAuthorityMetadataResponse_table : table_ok QueryDenomAuthorityMetadataResponse_fields ApiQueryDenomAuthorityMetadataResponse_unknownFields.
Proof. table_laws. Qed.

(** [QueryDenomsFromCreatorRequest]. *)
Definition QueryDenomsFromCreatorRequest_fields : list (rfield ApiQueryDenomsFromCreatorRequest (V no_ref)) := [
  RField "osmosis.tokenfactory.v1beta1.QueryDenomsFromCreatorRequest.creator" (bytes) ApiQueryDenomsFromCreatorRequest_Creator (fun v m => MkApiQueryDenomsFromCreatorRequest v (ApiQueryDenomsFromCreatorRequest_unknownFields m)) KString].
Definition QueryDenomsFromCreatorRequest_Range {S : Type} (x : ApiQueryDenomsFromCreatorRequest) (f : string -> V no_ref -> S -> S * bool) (s : S) : S := Range_of QueryDenomsFromCreatorRequest_fields x f s.
Definition QueryDenomsFromCreatorRequest_Has (x : ApiQueryDenomsFromCreatorRequest) (fd : string) : option bool := Has_of QueryDenomsFromCreatorRequest_fields x fd.
Definition QueryDenomsFromCreatorRequest_Clear (x : ApiQueryDenomsFromCreatorRequest) (fd : string) : option ApiQueryDenomsFromCreatorRequest := Clear_of QueryDenomsFromCreatorRequest_fields x fd.
Definition QueryDenomsFromCreatorRequest_Get (x : ApiQueryDenomsFromCreatorRequest) (fd : string) : option (V no_ref) := Get_of QueryDenomsFromCreatorRequest_fields x fd.
Definition QueryDenomsFromCreatorRequest_Set (x : ApiQueryDenomsFromCreatorRequest) (fd : string) (value : V no_ref) : option ApiQueryDenomsFromCreatorRequest := Set_of QueryDenomsFromCreatorRequest_fields x fd value.
Definition QueryDenomsFromCreatorRequest_Mutable (x : ApiQueryDenomsFromCreatorRequest) (fd : string) : option (ApiQueryDenomsFromCreatorRequest * V no_ref) := Mutable_of QueryDenomsFromCreatorRequest_fields x fd.
Definition QueryDenomsFromCreatorRequest_NewField (fd : string) : option (V no_ref) := NewField_of QueryDenomsFromCreatorRequest_fields fd.
Lemma rtf_QueryDenomsFromCreatorRequest_table : table_ok QueryDenomsFromCreatorRequest_fields ApiQueryDenomsFromCreatorRequest_unknownFields.
Proof. table_laws. Qed.

(** [QueryDenomsFromCreatorResponse]. *)
Inductive QueryDenomsFromCreatorResponse_ref :=
| QueryDenomsFromCreatorResponse_1_list (l : option (list bytes))
| QueryDenomsFromCreatorResponse_foreign.
Definition QueryDenomsFromCreatorResponse_fields : list (rfield ApiQueryDenomsFromCreatorResponse (V QueryDenomsFromCreatorResponse_ref)) := [
  RField "osmosis.tokenfactory.v1beta1.QueryDenomsFromCreatorResponse.denoms" (list bytes) ApiQueryDenomsFromCreatorResponse_Denoms (fun v m => MkApiQueryDenomsFromCreatorResponse v (ApiQueryDenomsFromCreatorResponse_unknownFields m)) (KList QueryDenomsFromCreatorResponse_1_list (fun c => match c with QueryDenomsFromCreatorResponse_1_list v => Some v | _ => None end))].
Definition QueryDenomsFromCreatorResponse_Range {S : Type} (x : ApiQueryDenomsFromCreatorResponse) (f : string -> V QueryDenomsFromCreatorResponse_ref -> S -> S * bool) (s : S) : S := Range_of QueryDenomsFromCreatorResponse_fields x f s.
Definition QueryDenomsFromCreatorResponse_Has (x : ApiQueryDenomsFromCreatorResponse) (fd : string) : option bool := Has_of QueryDenomsFromCreatorResponse_fields x fd.
Definition QueryDenomsFromCreatorResponse_Clear (x : ApiQueryDenomsFromCreatorResponse) (fd : string) : option ApiQueryDenomsFromCreatorResponse := Clear_of QueryDenomsFromCreatorResponse_fields x fd.
Definition QueryDenomsFromCreatorResponse_Get (x : ApiQueryDenomsFromCreatorResponse) (fd : string) : option (V QueryDenomsFromCreatorResponse_ref) := Get_of QueryDenomsFromCreatorResponse_fields x fd.
Definition QueryDenomsFromCreatorResponse_Set (x : ApiQueryDenomsFromCreatorResponse) (fd : string) (value : V QueryDenomsFromCreatorResponse_ref) : option ApiQueryDenomsFromCreatorResponse := Set_of QueryDenomsFromCreatorResponse_fields x fd value.
Definition QueryDenomsFromCreatorResponse_Mutable (x : ApiQueryDenomsFromCreatorResponse) (fd : string) : option (ApiQueryDenomsFromCreatorResponse * V QueryDenomsFromCreatorResponse_ref) := Mutable_of QueryDenomsFromCreatorResponse_fields x fd.
Definition QueryDenomsFromCreatorResponse_NewField (fd : string) : option (V QueryDenomsFromCreatorResponse_ref) := NewField_of QueryDenomsFromCreatorResponse_fields fd.
Lemma rtf_QueryDenomsFromCreatorResponse_table : table_ok QueryDenomsFromCreatorResponse_fields ApiQueryDenomsFromCreatorResponse_unknownFields.
Proof. table_laws. Qed.

End Reflection.
