(* ===== verification/ReflDrip.v ===== *)
(** * drip: reflection on the API types

    [api/terp/drip/v1/*.pulsar.go]: the table of the fields of every
    message, and the methods over it. *)

From S2P Require Import Prelude Proto Sdk Drip Wire WireLaws WireDrip Pulsar ApiDrip Reflect.

Open Scope go_scope.

Section Reflection.
Context {RT : WireRuntime} {V : Type -> Type} {VV : Values V} {VL : ValuesLaws V}.
Context {ApiCoin : Type} {PCoin : PulsarMsg ApiCoin}.
Context {OP : Options}.

(** [Params]. *)
Inductive Params_ref :=
| Params_3_list (l : option (list bytes))
| Params_foreign.
Definition Params_fields : list (rfield ApiParams (V Params_ref)) := [
  RField "terp.drip.v1.Params.enable_drip" (bool) ApiParams_EnableDrip (fun v m => MkApiParams v (ApiParams_AllowedAddresses m) (ApiParams_unknownFields m)) KBool;
  RField "terp.drip.v1.Params.allowed_addresses" (list bytes) ApiParams_AllowedAddresses (fun v m => MkApiParams (ApiParams_EnableDrip m) v (ApiParams_unknownFields m)) (KList Params_3_list (fun c => match c with Params_3_list v => Some v | _ => None end))].
Definition Params_Range {S : Type} (x : ApiParams) (f : string -> V Params_ref -> S -> S * bool) (s : S) : S := Range_of Params_fields x f s.
Definition Params_Has (x : ApiParams) (fd : string) : option bool := Has_of Params_fields x fd.
Definition Params_Clear (x : ApiParams) (fd : string) : option ApiParams := Clear_of Params_fields x fd.
Definition Params_Get (x : ApiParams) (fd : string) : option (V Params_ref) := Get_of Params_fields x fd.
Definition Params_Set (x : ApiParams) (fd : string) (value : V Params_ref) : option ApiParams := Set_of Params_fields x fd value.
Definition Params_Mutable (x : ApiParams) (fd : string) : option (ApiParams * V Params_ref) := Mutable_of Params_fields x fd.
Definition Params_NewField (fd : string) : option (V Params_ref) := NewField_of Params_fields fd.
Lemma rdr_Params_table : table_ok Params_fields ApiParams_unknownFields.
Proof. table_laws. Qed.

(** [GenesisState]. *)
Inductive GenesisState_ref :=
| GenesisState_Params_msg (x : option ApiParams)
| GenesisState_foreign.
Definition GenesisState_fields : list (rfield ApiGenesisState (V GenesisState_ref)) := [
  RField "terp.drip.v1.GenesisState.params" (option ApiParams) ApiGenesisState_Params (fun v m => MkApiGenesisState v (ApiGenesisState_unknownFields m)) (KMsg pZero GenesisState_Params_msg (fun c => match c with GenesisState_Params_msg v => Some v | _ => None end))].
Definition GenesisState_Range {S : Type} (x : ApiGenesisState) (f : string -> V GenesisState_ref -> S -> S * bool) (s : S) : S := Range_of GenesisState_fields x f s.
Definition GenesisState_Has (x : ApiGenesisState) (fd : string) : option bool := Has_of GenesisState_fields x fd.
Definition GenesisState_Clear (x : ApiGenesisState) (fd : string) : option ApiGenesisState := Clear_of GenesisState_fields x fd.
Definition GenesisState_Get (x : ApiGenesisState) (fd : string) : option (V GenesisState_ref) := Get_of GenesisState_fields x fd.
Definition GenesisState_Set (x : ApiGenesisState) (fd : string) (value : V GenesisState_ref) : option ApiGenesisState := Set_of GenesisState_fields x fd value.
Definition GenesisState_Mutable (x : ApiGenesisState) (fd : string) : option (ApiGenesisState * V GenesisState_ref) := Mutable_of GenesisState_fields x fd.
Definition GenesisState_NewField (fd : string) : option (V GenesisState_ref) := NewField_of GenesisState_fields fd.
Lemma rdr_GenesisState_table : table_ok GenesisState_fields ApiGenesisState_unknownFields.
Proof. table_laws. Qed.

(** [MsgDistributeTokens]. *)
Inductive MsgDistributeTokens_ref :=
| MsgDistributeTokens_2_list (l : option (list (option ApiCoin)))
| MsgDistributeTokens_foreign.
Definition MsgDistributeTokens_fields : list (rfield (ApiMsgDistributeTokens (ApiCoin := ApiCoin)) (V MsgDistributeTokens_ref)) := [
  RField "terp.drip.v1.MsgDistributeTokens.sender_address" (bytes) ApiMsgDistributeTokens_SenderAddress (fun v m => MkApiMsgDistributeTokens v (ApiMsgDistributeTokens_Amount m) (ApiMsgDistributeTokens_unknownFields m)) KString;
  RField "terp.drip.v1.MsgDistributeTokens.amount" (list (option ApiCoin)) ApiMsgDistributeTokens_Amount (fun v m => MkApiMsgDistributeTokens (ApiMsgDistributeTokens_SenderAddress m) v (ApiMsgDistributeTokens_unknownFields m)) (KList MsgDistributeTokens_2_list (fun c => match c with MsgDistributeTokens_2_list v => Some v | _ => None end))].
Definition MsgDistributeTokens_Range {S : Type} (x : (ApiMsgDistributeTokens (ApiCoin := ApiCoin))) (f : string -> V MsgDistributeTokens_ref -> S -> S * bool) (s : S) : S := Range_of MsgDistributeTokens_fields x f s.
Definition MsgDistributeTokens_Has (x : (ApiMsgDistributeTokens (ApiCoin := ApiCoin))) (fd : string) : option bool := Has_of MsgDistributeTokens_fields x fd.
Definition MsgDistributeTokens_Clear (x : (ApiMsgDistributeTokens (ApiCoin := ApiCoin))) (fd : string) : option (ApiMsgDistributeTokens (ApiCoin := ApiCoin)) := Clear_of MsgDistributeTokens_fields x fd.
Definition MsgDistributeTokens_Get (x : (ApiMsgDistributeTokens (ApiCoin := ApiCoin))) (fd : string) : option (V MsgDistributeTokens_ref) := Get_of MsgDistributeTokens_fields x fd.
Definition MsgDistributeTokens_Set (x : (ApiMsgDistributeTokens (ApiCoin := ApiCoin))) (fd : string) (value : V MsgDistributeTokens_ref) : option (ApiMsgDistributeTokens (ApiCoin := ApiCoin)) := Set_of MsgDistributeTokens_fields x fd value.
Definition MsgDistributeTokens_Mutable (x : (ApiMsgDistributeTokens (ApiCoin := ApiCoin))) (fd : string) : option ((ApiMsgDistributeTokens (ApiCoin := ApiCoin)) * V MsgDistributeTokens_ref) := Mutable_of MsgDistributeTokens_fields x fd.
Definition MsgDistributeTokens_NewField (fd : string) : option (V MsgDistributeTokens_ref) := NewField_of MsgDistributeTokens_fields fd.
Lemma rdr_MsgDistributeTokens_table : table_ok MsgDistributeTokens_fields ApiMsgDistributeTokens_unknownFields.
Proof. table_laws. Qed.

(** [MsgUpdateParams]. *)
Inductive MsgUpdateParams_ref :=
| MsgUpdateParams_Params_msg (x : option ApiParams)
| MsgUpdateParams_foreign.
Definition MsgUpdateParams_fields : list (rfield ApiMsgUpdateParams (V MsgUpdateParams_ref)) := [
  RField "terp.drip.v1.MsgUpdateParams.authority" (bytes) ApiMsgUpdateParams_Authority (fun v m => MkApiMsgUpdateParams v (ApiMsgUpdateParams_Params m) (ApiMsgUpdateParams_unknownFields m)) KString;
  RField "terp.drip.v1.MsgUpdateParams.params" (option ApiParams) ApiMsgUpdateParams_Params (fun v m => MkApiMsgUpdateParams (ApiMsgUpdateParams_Authority m) v (ApiMsgUpdateParams_unknownFields m)) (KMsg pZero MsgUpdateParams_Params_msg (fun c => match c with MsgUpdateParams_Params_msg v => Some v | _ => None end))].
Definition MsgUpdateParams_Range {S : Type} (x : ApiMsgUpdateParams) (f : string -> V MsgUpdateParams_ref -> S -> S * bool) (s : S) : S := Range_of MsgUpdateParams_fields x f s.
Definition MsgUpdateParams_Has (x : ApiMsgUpdateParams) (fd : string) : option bool := Has_of MsgUpdateParams_fields x fd.
Definition MsgUpdateParams_Clear (x : ApiMsgUpdateParams) (fd : string) : option ApiMsgUpdateParams := Clear_of MsgUpdateParams_fields x fd.
Definition MsgUpdateParams_Get (x : ApiMsgUpdateParams) (fd : string) : option (V MsgUpdateParams_ref) := Get_of MsgUpdateParams_fields x fd.
Definition MsgUpdateParams_Set (x : ApiMsgUpdateParams) (fd : string) (value : V MsgUpdateParams_ref) : option ApiMsgUpdateParams := Set_of MsgUpdateParams_fields x fd value.
Definition MsgUpdateParams_Mutable (x : ApiMsgUpdateParams) (fd : string) : option (ApiMsgUpdateParams * V MsgUpdateParams_ref) := Mutable_of MsgUpdateParams_fields x fd.
Definition MsgUpdateParams_NewField (fd : string) : option (V MsgUpdateParams_ref) := NewField_of MsgUpdateParams_fields fd.
Lemma rdr_MsgUpdateParams_table : table_ok MsgUpdateParams_fields ApiMsgUpdateParams_unknownFields.
Proof. table_laws. Qed.

(** [QueryParamsResponse]. *)
Inductive QueryParamsResponse_ref :=
| QueryParamsResponse_Params_msg (x : option ApiParams)
| QueryParamsResponse_foreign.
Definition QueryParamsResponse_fields : list (rfield ApiQueryParamsResponse (V QueryParamsResponse_ref)) := [
  RField "terp.drip.v1.QueryParamsResponse.params" (option ApiParams) ApiQueryParamsResponse_Params (fun v m => MkApiQueryParamsResponse v (ApiQueryParamsResponse_unknownFields m)) (KMsg pZero QueryParamsResponse_Params_msg (fun c => match c with QueryParamsResponse_Params_msg v => Some v | _ => None end))].
Definition QueryParamsResponse_Range {S : Type} (x : ApiQueryParamsResponse) (f : string -> V QueryParamsResponse_ref -> S -> S * bool) (s : S) : S := Range_of QueryParamsResponse_fields x f s.
Definition QueryParamsResponse_Has (x : ApiQueryParamsResponse) (fd : string) : option bool := Has_of QueryParamsResponse_fields x fd.
Definition QueryParamsResponse_Clear (x : ApiQueryParamsResponse) (fd : string) : option ApiQueryParamsResponse := Clear_of QueryParamsResponse_fields x fd.
Definition QueryParamsResponse_Get (x : ApiQueryParamsResponse) (fd : string) : option (V QueryParamsResponse_ref) := Get_of QueryParamsResponse_fields x fd.
Definition QueryParamsResponse_Set (x : ApiQueryParamsResponse) (fd : string) (value : V QueryParamsResponse_ref) : option ApiQueryParamsResponse := Set_of QueryParamsResponse_fields x fd value.
Definition QueryParamsResponse_Mutable (x : ApiQueryParamsResponse) (fd : string) : option (ApiQueryParamsResponse * V QueryParamsResponse_ref) := Mutable_of QueryParamsResponse_fields x fd.
Definition QueryParamsResponse_NewField (fd : string) : option (V QueryParamsResponse_ref) := NewField_of QueryParamsResponse_fields fd.
Lemma rdr_QueryParamsResponse_table : table_ok QueryParamsResponse_fields ApiQueryParamsResponse_unknownFields.
Proof. table_laws. Qed.

End Reflection.
