(* ===== verification/ReflGf.v ===== *)
(** * globalfee: reflection on the API types

    [api/gaia/globalfee/v1beta1/*.pulsar.go]: the table of the fields of every
    message, and the methods over it. *)

From S2P Require Import Prelude Proto Wire WireLaws WireGf Pulsar ApiGf Reflect.

Open Scope go_scope.

Section Reflection.
Context {RT : WireRuntime} {V : Type -> Type} {VV : Values V} {VL : ValuesLaws V}.
Context {ApiDecCoin : Type} {PDecCoin : PulsarMsg ApiDecCoin}.
Context {OP : Options}.

(** [Params]. *)
Inductive Params_ref :=
| Params_1_list (l : option (list (option ApiDecCoin)))
| Params_foreign.
Definition Params_fields : list (rfield (ApiParams (ApiDecCoin := ApiDecCoin)) (V Params_ref)) := [
  RField "gaia.globalfee.v1beta1.Params.minimum_gas_prices" (list (option ApiDecCoin)) ApiParams_MinimumGasPrices (fun v m => MkApiParams v (ApiParams_unknownFields m)) (KList Params_1_list (fun c => match c with Params_1_list v => Some v | _ => None end))].
Definition Params_Range {S : Type} (x : (ApiParams (ApiDecCoin := ApiDecCoin))) (f : string -> V Params_ref -> S -> S * bool) (s : S) : S := Range_of Params_fields x f s.
Definition Params_Has (x : (ApiParams (ApiDecCoin := ApiDecCoin))) (fd : string) : option bool := Has_of Params_fields x fd.
Definition Params_Clear (x : (ApiParams (ApiDecCoin := ApiDecCoin))) (fd : string) : option (ApiParams (ApiDecCoin := ApiDecCoin)) := Clear_of Params_fields x fd.
Definition Params_Get (x : (ApiParams (ApiDecCoin := ApiDecCoin))) (fd : string) : option (V Params_ref) := Get_of Params_fields x fd.
Definition Params_Set (x : (ApiParams (ApiDecCoin := ApiDecCoin))) (fd : string) (value : V Params_ref) : option (ApiParams (ApiDecCoin := ApiDecCoin)) := Set_of Params_fields x fd value.
Definition Params_Mutable (x : (ApiParams (ApiDecCoin := ApiDecCoin))) (fd : string) : option ((ApiParams (ApiDecCoin := ApiDecCoin)) * V Params_ref) := Mutable_of Params_fields x fd.
Definition Params_NewField (fd : string) : option (V Params_ref) := NewField_of Params_fields fd.
Lemma rgf_Params_table : table_ok Params_fields ApiParams_unknownFields.
Proof. table_laws. Qed.

(** [GenesisState]. *)
Inductive GenesisState_ref :=
| GenesisState_Params_msg (x : option (ApiParams (ApiDecCoin := ApiDecCoin)))
| GenesisState_foreign.
Definition GenesisState_fields : list (rfield (ApiGenesisState (ApiDecCoin := ApiDecCoin)) (V GenesisState_ref)) := [
  RField "gaia.globalfee.v1beta1.GenesisState.params" (option (ApiParams (ApiDecCoin := ApiDecCoin))) ApiGenesisState_Params (fun v m => MkApiGenesisState v (ApiGenesisState_unknownFields m)) (KMsg pZero GenesisState_Params_msg (fun c => match c with GenesisState_Params_msg v => Some v | _ => None end))].
Definition GenesisState_Range {S : Type} (x : (ApiGenesisState (ApiDecCoin := ApiDecCoin))) (f : string -> V GenesisState_ref -> S -> S * bool) (s : S) : S := Range_of GenesisState_fields x f s.
Definition GenesisState_Has (x : (ApiGenesisState (ApiDecCoin := ApiDecCoin))) (fd : string) : option bool := Has_of GenesisState_fields x fd.
Definition GenesisState_Clear (x : (ApiGenesisState (ApiDecCoin := ApiDecCoin))) (fd : string) : option (ApiGenesisState (ApiDecCoin := ApiDecCoin)) := Clear_of GenesisState_fields x fd.
Definition GenesisState_Get (x : (ApiGenesisState (ApiDecCoin := ApiDecCoin))) (fd : string) : option (V GenesisState_ref) := Get_of GenesisState_fields x fd.
Definition GenesisState_Set (x : (ApiGenesisState (ApiDecCoin := ApiDecCoin))) (fd : string) (value : V GenesisState_ref) : option (ApiGenesisState (ApiDecCoin := ApiDecCoin)) := Set_of GenesisState_fields x fd value.
Definition GenesisState_Mutable (x : (ApiGenesisState (ApiDecCoin := ApiDecCoin))) (fd : string) : option ((ApiGenesisState (ApiDecCoin := ApiDecCoin)) * V GenesisState_ref) := Mutable_of GenesisState_fields x fd.
Definition GenesisState_NewField (fd : string) : option (V GenesisState_ref) := NewField_of GenesisState_fields fd.
Lemma rgf_GenesisState_table : table_ok GenesisState_fields ApiGenesisState_unknownFields.
Proof. table_laws. Qed.

(** [MsgUpdateParams]. *)
Inductive MsgUpdateParams_ref :=
| MsgUpdateParams_Params_msg (x : option (ApiParams (ApiDecCoin := ApiDecCoin)))
| MsgUpdateParams_foreign.
Definition MsgUpdateParams_fields : list (rfield (ApiMsgUpdateParams (ApiDecCoin := ApiDecCoin)) (V MsgUpdateParams_ref)) := [
  RField "gaia.globalfee.v1beta1.MsgUpdateParams.authority" (bytes) ApiMsgUpdateParams_Authority (fun v m => MkApiMsgUpdateParams v (ApiMsgUpdateParams_Params m) (ApiMsgUpdateParams_unknownFields m)) KString;
  RField "gaia.globalfee.v1beta1.MsgUpdateParams.params" (option (ApiParams (ApiDecCoin := ApiDecCoin))) ApiMsgUpdateParams_Params (fun v m => MkApiMsgUpdateParams (ApiMsgUpdateParams_Authority m) v (ApiMsgUpdateParams_unknownFields m)) (KMsg pZero MsgUpdateParams_Params_msg (fun c => match c with MsgUpdateParams_Params_msg v => Some v | _ => None end))].
Definition MsgUpdateParams_Range {S : Type} (x : (ApiMsgUpdateParams (ApiDecCoin := ApiDecCoin))) (f : string -> V MsgUpdateParams_ref -> S -> S * bool) (s : S) : S := Range_of MsgUpdateParams_fields x f s.
Definition MsgUpdateParams_Has (x : (ApiMsgUpdateParams (ApiDecCoin := ApiDecCoin))) (fd : string) : option bool := Has_of MsgUpdateParams_fields x fd.
Definition MsgUpdateParams_Clear (x : (ApiMsgUpdateParams (ApiDecCoin := ApiDecCoin))) (fd : string) : option (ApiMsgUpdateParams (ApiDecCoin := ApiDecCoin)) := Clear_of MsgUpdateParams_fields x fd.
Definition MsgUpdateParams_Get (x : (ApiMsgUpdateParams (ApiDecCoin := ApiDecCoin))) (fd : string) : option (V MsgUpdateParams_ref) := Get_of MsgUpdateParams_fields x fd.
Definition MsgUpdateParams_Set (x : (ApiMsgUpdateParams (ApiDecCoin := ApiDecCoin))) (fd : string) (value : V MsgUpdateParams_ref) : option (ApiMsgUpdateParams (ApiDecCoin := ApiDecCoin)) := Set_of MsgUpdateParams_fields x fd value.
Definition MsgUpdateParams_Mutable (x : (ApiMsgUpdateParams (ApiDecCoin := ApiDecCoin))) (fd : string) : option ((ApiMsgUpdateParams (ApiDecCoin := ApiDecCoin)) * V MsgUpdateParams_ref) := Mutable_of MsgUpdateParams_fields x fd.
Definition MsgUpdateParams_NewField (fd : string) : option (V MsgUpdateParams_ref) := NewField_of MsgUpdateParams_fields fd.
Lemma rgf_MsgUpdateParams_table : table_ok MsgUpdateParams_fields ApiMsgUpdateParams_unknownFields.
Proof. table_laws. Qed.

(** [QueryMinimumGasPricesResponse]. *)
Inductive QueryMinimumGasPricesResponse_ref :=
| QueryMinimumGasPricesResponse_1_list (l : option (list (option ApiDecCoin)))
| QueryMinimumGasPricesResponse_foreign.
Definition QueryMinimumGasPricesResponse_fields : list (rfield (ApiQueryMinimumGasPricesResponse (ApiDecCoin := ApiDecCoin)) (V QueryMinimumGasPricesResponse_ref)) := [
  RField "gaia.globalfee.v1beta1.QueryMinimumGasPricesResponse.minimum_gas_prices" (list (option ApiDecCoin)) ApiQueryMinimumGasPricesResponse_MinimumGasPrices (fun v m => MkApiQueryMinimumGasPricesResponse v (ApiQueryMinimumGasPricesResponse_unknownFields m)) (KList QueryMinimumGasPricesResponse_1_list (fun c => match c with QueryMinimumGasPricesResponse_1_list v => Some v | _ => None end))].
Definition QueryMinimumGasPricesResponse_Range {S : Type} (x : (ApiQueryMinimumGasPricesResponse (ApiDecCoin := ApiDecCoin))) (f : string -> V QueryMinimumGasPricesResponse_ref -> S -> S * bool) (s : S) : S := Range_of QueryMinimumGasPricesResponse_fields x f s.
Definition QueryMinimumGasPricesResponse_Has (x : (ApiQueryMinimumGasPricesResponse (ApiDecCoin := ApiDecCoin))) (fd : string) : option bool := Has_of QueryMinimumGasPricesResponse_fields x fd.
Definition QueryMinimumGasPricesResponse_Clear (x : (ApiQueryMinimumGasPricesResponse (ApiDecCoin := ApiDecCoin))) (fd : string) : option (ApiQueryMinimumGasPricesResponse (ApiDecCoin := ApiDecCoin)) := Clear_of QueryMinimumGasPricesResponse_fields x fd.
Definition QueryMinimumGasPricesResponse_Get (x : (ApiQueryMinimumGasPricesResponse (ApiDecCoin := ApiDecCoin))) (fd : string) : option (V QueryMinimumGasPricesResponse_ref) := Get_of QueryMinimumGasPricesResponse_fields x fd.
Definition QueryMinimumGasPricesResponse_Set (x : (ApiQueryMinimumGasPricesResponse (ApiDecCoin := ApiDecCoin))) (fd : string) (value : V QueryMinimumGasPricesResponse_ref) : option (ApiQueryMinimumGasPricesResponse (ApiDecCoin := ApiDecCoin)) := Set_of QueryMinimumGasPricesResponse_fields x fd value.
Definition QueryMinimumGasPricesResponse_Mutable (x : (ApiQueryMinimumGasPricesResponse (ApiDecCoin := ApiDecCoin))) (fd : string) : option ((ApiQueryMinimumGasPricesResponse (ApiDecCoin := ApiDecCoin)) * V QueryMinimumGasPricesResponse_ref) := Mutable_of QueryMinimumGasPricesResponse_fields x fd.
Definition QueryMinimumGasPricesResponse_NewField (fd : string) : option (V QueryMinimumGasPricesResponse_ref) := NewField_of QueryMinimumGasPricesResponse_fields fd.
Lemma rgf_QueryMinimumGasPricesResponse_table : table_ok QueryMinimumGasPricesResponse_fields ApiQueryMinimumGasPricesResponse_unknownFields.
Proof. table_laws. Qed.

End Reflection.
