(* ===== verification/ReflClock.v ===== *)
(** * clock: reflection on the API types

    [api/terp/clock/v1/*.pulsar.go]: the table of the fields of every
    message, and the methods over it. *)

From S2P Require Import Prelude Proto Wire WireLaws Pulsar ApiClock Reflect.

Open Scope go_scope.

Section Reflection.
Context {RT : WireRuntime} {V : Type -> Type} {VV : Values V} {VL : ValuesLaws V}.
Context {OP : Options}.

(** [Params]. *)
Inductive Params_ref :=
| Params_1_list (l : option (list bytes))
| Params_foreign.
Definition Params_fields : list (rfield ApiParams (V Params_ref)) := [
  RField "terp.clock.v1.Params.contract_addresses" (list bytes) ApiParams_ContractAddresses (fun v m => MkApiParams v (ApiParams_ContractGasLimit m) (ApiParams_unknownFields m)) (KList Params_1_list (fun c => match c with Params_1_list v => Some v | _ => None end));
  RField "terp.clock.v1.Params.contract_gas_limit" (Z) ApiParams_ContractGasLimit (fun v m => MkApiParams (ApiParams_ContractAddresses m) v (ApiParams_unknownFields m)) KUint64].
Definition Params_Range {S : Type} (x : ApiParams) (f : string -> V Params_ref -> S -> S * bool) (s : S) : S := Range_of Params_fields x f s.
Definition Params_Has (x : ApiParams) (fd : string) : option bool := Has_of Params_fields x fd.
Definition Params_Clear (x : ApiParams) (fd : string) : option ApiParams := Clear_of Params_fields x fd.
Definition Params_Get (x : ApiParams) (fd : string) : option (V Params_ref) := Get_of Params_fields x fd.
Definition Params_Set (x : ApiParams) (fd : string) (value : V Params_ref) : option ApiParams := Set_of Params_fields x fd value.
Definition Params_Mutable (x : ApiParams) (fd : string) : option (ApiParams * V Params_ref) := Mutable_of Params_fields x fd.
Definition Params_NewField (fd : string) : option (V Params_ref) := NewField_of Params_fields fd.
Lemma rck_Params_table : table_ok Params_fields ApiParams_unknownFields.
Proof. table_laws. Qed.

(** [GenesisState]. *)
Inductive GenesisState_ref :=
| GenesisState_Params_msg (x : option ApiParams)
| GenesisState_foreign.
Definition GenesisState_fields : list (rfield ApiGenesisState (V GenesisState_ref)) := [
  RField "terp.clock.v1.GenesisState.params" (option ApiParams) ApiGenesisState_Params (fun v m => MkApiGenesisState v (ApiGenesisState_unknownFields m)) (KMsg pZero GenesisState_Params_msg (fun c => match c with GenesisState_Params_msg v => Some v | _ => None end))].
Definition GenesisState_Range {S : Type} (x : ApiGenesisState) (f : string -> V GenesisState_ref -> S -> S * bool) (s : S) : S := Range_of GenesisState_fields x f s.
Definition GenesisState_Has (x : ApiGenesisState) (fd : string) : option bool := Has_of GenesisState_fields x fd.
Definition GenesisState_Clear (x : ApiGenesisState) (fd : string) : option ApiGenesisState := Clear_of GenesisState_fields x fd.
Definition GenesisState_Get (x : ApiGenesisState) (fd : string) : option (V GenesisState_ref) := Get_of GenesisState_fields x fd.
Definition GenesisState_Set (x : ApiGenesisState) (fd : string) (value : V GenesisState_ref) : option ApiGenesisState := Set_of GenesisState_fields x fd value.
Definition GenesisState_Mutable (x : ApiGenesisState) (fd : string) : option (ApiGenesisState * V GenesisState_ref) := Mutable_of GenesisState_fields x fd.
Definition GenesisState_NewField (fd : string) : option (V GenesisState_ref) := NewField_of GenesisState_fields fd.
Lemma rck_GenesisState_table : table_ok GenesisState_fields ApiGenesisState_unknownFields.
Proof. table_laws. Qed.

(** [MsgUpdateParams]. *)
Inductive MsgUpdateParams_ref :=
| MsgUpdateParams_Params_msg (x : option ApiParams)
| MsgUpdateParams_foreign.
Definition MsgUpdateParams_fields : list (rfield ApiMsgUpdateParams (V MsgUpdateParams_ref)) := [
  RField "terp.clock.v1.MsgUpdateParams.authority" (bytes) ApiMsgUpdateParams_Authority (fun v m => MkApiMsgUpdateParams v (ApiMsgUpdateParams_Params m) (ApiMsgUpdateParams_unknownFields m)) KString;
  RField "terp.clock.v1.MsgUpdateParams.params" (option ApiParams) ApiMsgUpdateParams_Params (fun v m => MkApiMsgUpdateParams (ApiMsgUpdateParams_Authority m) v (ApiMsgUpdateParams_unknownFields m)) (KMsg pZero MsgUpdateParams_Params_msg (fun c => match c with MsgUpdateParams_Params_msg v => Some v | _ => None end))].
Definition MsgUpdateParams_Range {S : Type} (x : ApiMsgUpdateParams) (f : string -> V MsgUpdateParams_ref -> S -> S * bool) (s : S) : S := Range_of MsgUpdateParams_fields x f s.
Definition MsgUpdateParams_Has (x : ApiMsgUpdateParams) (fd : string) : option bool := Has_of MsgUpdateParams_fields x fd.
Definition MsgUpdateParams_Clear (x : ApiMsgUpdateParams) (fd : string) : option ApiMsgUpdateParams := Clear_of MsgUpdateParams_fields x fd.
Definition MsgUpdateParams_Get (x : ApiMsgUpdateParams) (fd : string) : option (V MsgUpdateParams_ref) := Get_of MsgUpdateParams_fields x fd.
Definition MsgUpdateParams_Set (x : ApiMsgUpdateParams) (fd : string) (value : V MsgUpdateParams_ref) : option ApiMsgUpdateParams := Set_of MsgUpdateParams_fields x fd value.
Definition MsgUpdateParams_Mutable (x : ApiMsgUpdateParams) (fd : string) : option (ApiMsgUpdateParams * V MsgUpdateParams_ref) := Mutable_of MsgUpdateParams_fields x fd.
Definition MsgUpdateParams_NewField (fd : string) : option (V MsgUpdateParams_ref) := NewField_of MsgUpdateParams_fields fd.
Lemma rck_MsgUpdateParams_table : table_ok MsgUpdateParams_fields ApiMsgUpdateParams_unknownFields.
Proof. table_laws. Qed.

(** [QueryClockContractsResponse]. *)
Inductive QueryClockContractsResponse_ref :=
| QueryClockContractsResponse_1_list (l : option (list bytes))
| QueryClockContractsResponse_foreign.
Definition QueryClockContractsResponse_fields : list (rfield ApiQueryClockContractsResponse (V QueryClockContractsResponse_ref)) := [
  RField "terp.clock.v1.QueryClockContractsResponse.contract_addresses" (list bytes) ApiQueryClockContractsResponse_ContractAddresses (fun v m => MkApiQueryClockContractsResponse v (ApiQueryClockContractsResponse_unknownFields m)) (KList QueryClockContractsResponse_1_list (fun c => match c with QueryClockContractsResponse_1_list v => Some v | _ => None end))].
Definition QueryClockContractsResponse_Range {S : Type} (x : ApiQueryClockContractsResponse) (f : string -> V QueryClockContractsResponse_ref -> S -> S * bool) (s : S) : S := Range_of QueryClockContractsResponse_fields x f s.
Definition QueryClockContractsResponse_Has (x : ApiQueryClockContractsResponse) (fd : string) : option bool := Has_of QueryClockContractsResponse_fields x fd.
Definition QueryClockContractsResponse_Clear (x : ApiQueryClockContractsResponse) (fd : string) : option ApiQueryClockContractsResponse := Clear_of QueryClockContractsResponse_fields x fd.
Definition QueryClockContractsResponse_Get (x : ApiQueryClockContractsResponse) (fd : string) : option (V QueryClockContractsResponse_ref) := Get_of QueryClockContractsResponse_fields x fd.
Definition QueryClockContractsResponse_Set (x : ApiQueryClockContractsResponse) (fd : string) (value : V QueryClockContractsResponse_ref) : option ApiQueryClockContractsResponse := Set_of QueryClockContractsResponse_fields x fd value.
Definition QueryClockContractsResponse_Mutable (x : ApiQueryClockContractsResponse) (fd : string) : option (ApiQueryClockContractsResponse * V QueryClockContractsResponse_ref) := Mutable_of QueryClockContractsResponse_fields x fd.
Definition QueryClockContractsResponse_NewField (fd : string) : option (V QueryClockContractsResponse_ref) := NewField_of QueryClockContractsResponse_fields fd.
Lemma rck_QueryClockContractsResponse_table : table_ok QueryClockContractsResponse_fields ApiQueryClockContractsResponse_unknownFields.
Proof. table_laws. Qed.

(** [QueryParamsResponse]. *)
Inductive QueryParamsResponse_ref :=
| QueryParamsResponse_Params_msg (x : option ApiParams)
| QueryParamsResponse_foreign.
Definition QueryParamsResponse_fields : list (rfield ApiQueryParamsResponse (V QueryParamsResponse_ref)) := [
  RField "terp.clock.v1.QueryParamsResponse.params" (option ApiParams) ApiQueryParamsResponse_Params (fun v m => MkApiQueryParamsResponse v (ApiQueryParamsResponse_unknownFields m)) (KMsg pZero QueryParamsResponse_Params_msg (fun c => match c with QueryParamsResponse_Params_msg v => Some v | _ => None end))].
Definition QueryParamsResponse_Range {S : Type} (x : ApiQueryParamsResponse) (f : string -> V QueryParamsResponse_ref -> S -> S * bool) (s : S) : S := Range_of QueryParamsResponse_fields x f s.
Definition QueryParamsResponse_Has (x : ApiQueryParamsResponse) (fd : string) : option bool := Has_of QueryParamsResponse_fields x fd.
Definition QueryParamsResponse_Clear (x : ApiQueryParamsResponse) (fd : string) : option ApiQueryParamsResponse := Clear_of QueryParamsResponse_fields x fd.
Definition QueryParamsResponse_Get (x : ApiQueryParamsResponse) (fd : string) : option (V QueryParamsResponse_ref) := Get_of QueryParamsResponse_fields x fd.
Definition QueryParamsResponse_Set (x : ApiQueryParamsResponse) (fd : string) (value : V QueryParamsResponse_ref) : option ApiQueryParamsResponse := Set_of QueryParamsResponse_fields x fd value.
Definition QueryParamsResponse_Mutable (x : ApiQueryParamsResponse) (fd : string) : option (ApiQueryParamsResponse * V QueryParamsResponse_ref) := Mutable_of QueryParamsResponse_fields x fd.
Definition QueryParamsResponse_NewField (fd : string) : option (V QueryParamsResponse_ref) := NewField_of QueryParamsResponse_fields fd.
Lemma rck_QueryParamsResponse_table : table_ok QueryParamsResponse_fields ApiQueryParamsResponse_unknownFields.
Proof. table_laws. Qed.

End Reflection.
